(* ===== verification/_CoqProject ===== *)
-Q . S2P
Prelude.v
Data.v
Codecs.v
Errors.v
Values.v
Provenance.v
Traceability.v
Component.v
Configuration.v
Elements.v
Model.v
Topology.v
Commands.v
Versioning.v
Serialization.v
RoundTrip.v
Validation.v
Diff.v
Leaves.v
DiffProperties.v
Sha256.v
Tokens.v
JsonText.v
Computations.v
Store.v
Transactions.v
Policy.v
Identity.v
Tenancy.v
Accounts.v
Invariants.v
SessionProperties.v
AccountProperties.v
TenancyProperties.v
Plans.v
Proposals.v
Lifecycle.v
LifecycleProperties.v
StoredPlans.v
ProposalProperties.v
PlanRoundTrip.v
Components.v
Kosaraju.v
Reliability.v
StepGraph.v
StepProperties.v
Sequencing.v
Projects.v
ProjectProperties.v
Revisions.v
Estate.v
ProjectService.v
ArchitectureService.v
Workspaces.v
EstateInvariants.v
EstateProperties.v
ContentProperties.v
Listing.v
Requirements.v
Findings.v
ValidationEngine.v
ValidationRules.v
PolicyRules.v
RequirementRules.v
ValidationFacts.v
RequirementFacts.v
Verdicts.v
ValidationProperties.v
Runs.v
ValidationService.v
RunProperties.v
RunListing.v
DistinctFindings.v
ValidationGate.v
ValidationRuns.v
Drift.v
Discovered.v
DriftEngine.v
DriftReview.v
DriftProperties.v
