(* ===== verification/Prelude.v ===== *)
(** ArchitectOS, verified core.

    ArchitectOS keeps a software system's architecture as a typed graph, plans migrations from one
    revision to another, validates it against the project's policy and requirements, analyses its
    reliability, and serves organizations of users who sign in, invite each other, keep projects and
    review plans.  This development models the parts that carry those rules, written from src/core,
    src/engines and src/persistence, and proves what makes them correct.

    * Parts

    Every part is one file of definitions with their first lemmas; a file whose name ends in
    [Properties] holds theorems only.

    Shared
    - [Prelude]: boolean orders and stable sorting, lists, options, reachability, tactics.
    - [Data]: the data of Python: JSON values, strings, decimals, the result type [py] of code that
      may raise, dictionaries in insertion order.
    - [Codecs], [Sha256], [JsonText]: the text forms of UUIDs and datetimes; SHA-256, executable; the
      text of JSON documents.
    - [Computations]: computations over a state that may raise, transactions, and how to reason about
      them.

    Architecture IR (src/core/architecture_ir)
    - [Errors], [Values], [Provenance], [Traceability]: violations and their order, value rules,
      where a value comes from, references to requirements.
    - [Component], [Configuration], [Elements]: kinds, property tables and property values, nodes
      and connections with their constructors.
    - [Model]: the architecture and the graph rules of its constructor; [Topology]: its index and
      queries; [Commands]: editing by commands on a draft.
    - [Versioning], [Serialization], [RoundTrip], [Validation]: upgrades of old documents, writing
      and reading canonical JSON, and validation.
    - [Diff], [Leaves], [DiffProperties]: what changed between two architectures.

    Accounts and organizations (src/core/domain/identity, src/core/domain/organizations,
    src/core/domain/audit, src/persistence/repositories)
    - [Tokens]: opaque tokens and their hashes.  [Store]: the tables as finite maps, one operation
      per repository method, and the audit log; [Transactions]: reasoning about them.
    - [Policy], [Tenancy]: roles, permissions, the membership policy, and the organization,
      membership and invitation services.  [Identity]: registration, verification, passwords,
      sessions, profile and account deletion.
    - [Accounts]: a request of a client as a step ([served]), the reachable worlds; [Invariants]:
      their invariant; [SessionProperties], [AccountProperties], [TenancyProperties].

    Projects and architectures (src/core/domain/projects, src/core/domain/architecture)
    - [Projects], [ProjectProperties]: names, slugs, settings, the architecture policy, the life of a
      project.  [Revisions]: architectures, their revisions and layouts, and the next revision.
    - [Estate]: the tables and their repositories, over those of [Store], and [project_access].
      [ProjectService], [ArchitectureService]: the use cases.
    - [Workspaces]: every service call as a [work], the abstract machine [transition] of what a call may
      do, and the reachable estates; [EstateInvariants], [EstateProperties], [ContentProperties],
      [Listing].

    Validation (src/core/domain/validation, src/engines/validation, src/core/domain/parameters.py,
    src/core/domain/requirements)
    - [Requirements]: what a validation reads of a requirement, with its structured constraint.
      [Findings]: findings, verdicts, failures, limitations, results, their checks and fingerprints.
    - [ValidationEngine]: the registry of rules, the selection, the run of the rules.
      [ValidationRules], [PolicyRules], [RequirementRules], with [Kosaraju]: the eighteen built-in rules
      ([BUILT_IN_RULES]).
    - [ValidationFacts], [RequirementFacts]: what each rule gives ([built_in_output]) and when its
      constructors accept it ([fits]); what breaks a requirement ([breaks]).  [Verdicts],
      [ValidationProperties]: what a validation selects and says.
    - [Runs], [ValidationService]: the lifecycle of a run, its tables and the service.
      [RunProperties], [RunListing], [DistinctFindings], [ValidationGate], [ValidationRuns]: what is
      stored and read back.

    Migration plans (src/core/domain/migrations, src/engines/migration)
    - [Plans]: steps, findings, stages and the checks they share; [Proposals]: the other records
      of a proposal, and the proposal; [Lifecycle]: requests, plan versions, their state machine
      and versioning.py; [StoredPlans]: reading plans back from storage.
    - [LifecycleProperties], [ProposalProperties], [PlanRoundTrip].
    - [Components]: the iterative strongly connected components search of both engines, and its proof
      for any turn that is a [TarjanStep]; [StepGraph], [StepProperties]: the dependency graph of steps;
      [Sequencing]: transitions and stages.

    Drift (src/core/domain/drift, src/engines/drift)
    - [Drift]: the vocabulary, findings, results, the lifecycle of an analysis, identity mappings, and
      differences followed across analyses, their review and correlation; [Discovered]: what a discovery
      run found (src/core/domain/discovery).
    - [DriftEngine]: which node is which entity, and which connection which relationship; what differs;
      whether the inputs compare, how far the evidence of a difference goes, and the engine.
    - [DriftReview]: items and their review; [DriftProperties]: the matching, and what the engine reports.

    Reliability (src/engines/reliability)
    - [Reliability]: request paths, blast radius and circular dependencies over the [Topology].

    * How the parts meet

    A constructor is a function to [py], which raises what the Python constructor raises and
    otherwise answers the normalized record; a later part is stated for values a constructor made
    ([built], [valid_version], [made_of_parts]), never for arbitrary records.  [Model] is what
    [Commands] builds, what [RoundTrip] writes and reads and what [Reliability] searches through
    [Topology].  [Components] is one search, used by [StepGraph] and [Reliability] through its
    specification in [Components].  [Sequencing] proves the very check that [Proposals] makes of a
    sequence ([sequence_problem]).  The services of [Identity] and [Tenancy] are written over
    [Store] in the monad [io] (state, errors, emails); they meet in account deletion, which
    releases memberships.  [Accounts] closes both under all requests, so the theorems of the three
    [Properties] files hold whatever requests come in between.  [Workspaces] does the same for the
    services of projects and architectures, whose state holds that of the accounts; and [RunProperties]
    for validation, whose state holds both.  A validation runs any engine ([validator]); what is proved
    of the built-in rules ([ValidationProperties]) meets the service in [ValidationGate].  The drift engine compares a
    node with what a source declares through the constructors of [Elements] and through [Diff], and its
    findings are what [Drift] correlates.

    * What the theorems show

    - Architectures: the constructor accepts exactly the documented graphs; the canonical form does
      not depend on the order given; commands rebuild through the constructor or are refused as a
      whole; removal takes the contained nodes and attached connections; topology queries are
      closures of the relations they name; JSON is read back; older documents go through exactly
      the chain of upgrades.
    - Sessions: refresh refines an abstract token family with rotation, a grace period and reuse
      detection; revocation is for ever; a session's expiry never moves; a live client is always
      refreshed; single-use tokens work once.
    - Accounts and organizations: well-formedness and an owner for every live organization in every
      reachable world; who can become owner; what deletion and password reset end.
    - Diff: empty exactly for equal architectures, mirrored when compared the other way, and no value of a
      setting that looks like a secret is shown.
    - Projects and architectures: the services implement the abstract machine; in every reachable estate
      slugs and names are unique, histories have no gaps and every row reads back; histories only grow;
      an archived project is frozen; a user outside the organization learns nothing; no update is lost,
      and what was written is what is read.
    - Validation: a request is refused or selects exactly what is documented; every rule selected is
      accounted for, whatever the rules do; the result of the built-in rules is exactly what they give,
      and only two of them can fail, for texts without a bound; a blocking finding is reported exactly
      when the policy is broken or, where the verdicts are asked for and fit, a critical requirement in
      force; a cycle is reported exactly when there is one; the order of registration does not matter.
    - Validation runs: every stored run is finished, names a revision as stored and reads back; what was
      reported stays, and its findings are listed in order, each once; what becomes of each answer of the
      engine, findings that share an identifier being refused with the run; for a valid request to the
      built-in rules that happens exactly when two unknown requirements are referenced by the same
      elements, and otherwise the stored summary says whether the policy and the requirements are kept.
    - Plans: a constructed proposal is consistent and canonical; history is a walk of the state
      machine; approval is of the exact and current content; regeneration never overwrites; storage
      gives back what was stored.
    - Drift: every compared node and entity is in exactly one match, and is matched with its sole claimant;
      a removal is confirmed only where the run read completely what the element came from; an item's
      history is a walk of the review's state machine, a resolution rests on evidence, and an analysis
      leaves one item per difference, once however often it is correlated.
    - Graph analyses: Tarjan's and Kosaraju's searches end and find exactly the strongly connected
      groups; ordering, levels and stages respect dependencies; the blast radius is the converse of the
      request path.

    Seven theorems show behaviour the code does not mean: [ValidationRuns.validation_gates] (references to two
    deleted requirements make validations unstorable), [ValidationProperties.built_in_rules_answer] (a long
    list of regions loses every verdict), [DriftProperties.nested_node_breaks] (a matched
    node inside a boundary makes a drift analysis raise), [DriftReview.full_history_blocks] (so does an item
    with a full history when it is detected again), [TenancyProperties.release_race] (two departures
    that read before either locks leave an organization without owner), [ProposalProperties.step_limit] (a
    proposal of 201 to 500 steps is refused) and part of [Validation.validate_spec] (a document can make
    validation raise).

    * Fuel and bounds

    A while loop of the code is recursion with fuel, and each specification says that the answer is
    the complete one, which an early stop would not be.  [tarjan_fuel] is the number of nodes and
    edges; [tarjan_loop_done] shows by a measure that the stack is empty by then, and
    [ancestors_loop] of a step uses the same count; [dfs_fuel] of Kosaraju's searches is likewise the
    number of nodes and edges.  [kahn] settles a step per turn and gets the
    number of steps; the work lists of [Topology] and [Reliability] visit a node at most once and
    get one unit more than the architecture has nodes; [upgrade_loop] gets one unit per version
    between the document's and the current one.  Integers are unbounded, as in Python, with the
    limits the code checks.  A time is its microseconds since 0001-01-01; what the code adds to a
    time is checked against the last one a datetime can hold, and past it an error is raised.

    * Parameters

    Code outside src/ is a parameter: the class [Externals] holds Argon2 hashing and verification,
    NFKC and case folding, splitting a URL and the email validator; [sample_externals] is an instance,
    at which the witnesses evaluate.  No law of them is assumed.  [ComponentCatalog] is the
    constraint engine (src/engines/constraints), which is not modelled: a catalog, and what evaluating an
    architecture against it gives, any [ConstraintEvaluation]; what is proved of the rules holds for all of
    them ([listed_catalog] is an instance).  The order in which the database compares names is a parameter of
    the listing of projects.  The clock, new identifiers,
    secrets and salts are given to each request as [draws], and are arbitrary: nothing says a drawn
    identifier or digest is new, and one that is taken raises [IntegrityError] as the database does.

    * Not modelled

    - Text is Latin-1, on which NFC is the identity; a decimal has no signed zero.
    - Reading JSON text; a RecursionError on deep nesting, an OverflowError of datetime conversion.
    - The text of a cursor: a cursor is the position it encodes.  The work a caller commits with a change
      of an architecture ([then_]) is none.
    - Of the database: sizes of columns, foreign keys, the order of keys and the NUL characters JSONB does
      not keep.
    - Requests do not interleave.  [release_race] is the exception: it runs two, at the reads and
      locks of the code.  Keys and unique columns are checked by the operations of [Store]; the other
      constraints of the database are proved as invariants instead ([wf]).
    - Row identifiers of the audit log, its publication, mailers that fail.
    - The order of equal-key evidence, which Python takes from a set.
    - Documents of plans no writer makes: their readers answer [None] where Python raises one of
      several exceptions.
    - Requirements, except what architectures and validations read of them: they change in any way between
      two calls ([s_requirements]).  The component catalog and the constraint engine.
    - The migration planner's rules and the plan service: their inputs are the drift, capacity and cost
      engines' results.  Availability, failover and objectives, capacity, cost, simulation, evolution,
      security and observability analysis: each is an engine of its own over the
      architectures modelled here, with arithmetic on decimals or floats and rule books of its own.
    - The drift service and its tables; the context the other engines give a difference (impact.py); the
      stored forms, summaries and fingerprints of drift and discovery results.  The readers, the mapping and
      the proposals of discovery; a float among the values of an entity, which no mapping makes.
    - Decisions and audit listing, HTTP, workers and the web client. *)
From Stdlib Require Import Lia Ascii ZArith.
From stdpp Require Export prelude strings list gmap sorting relations.

#[export] Set Default Goal Selector "!".
#[export] Set Warnings "-clear-no-such-hyp".

(** * Boolean orders

    Python sorts by keys; a key's order is a boolean comparison.  [TotalPreorder] is what stable
    sorting needs, [TotalOrder] what makes the sorted list unique. *)
Class TotalPreorder {A} (leb : A → A → bool) : Prop := {
  leb_total : ∀ x y, leb x y ∨ leb y x;
  leb_trans : ∀ x y z, leb x y → leb y z → leb x z;
}.

Class TotalOrder {A} (leb : A → A → bool) : Prop := {
  order_pre :: TotalPreorder leb;
  leb_antisym : ∀ x y, leb x y → leb y x → x = y;
}.

Lemma leb_refl {A} (leb : A → A → bool) `{!TotalPreorder leb} x : leb x x.
Proof. by destruct (leb_total x x). Qed.

(** Comparing by a key ([key=...]), and tuples lexicographically. *)
Definition on {A K} (key : A → K) (leb : K → K → bool) (x y : A) : bool := leb (key x) (key y).

Definition lex {A B} (la : A → A → bool) (lb : B → B → bool) (p q : A * B) : bool :=
  la p.1 q.1 && (negb (la q.1 p.1) || lb p.2 q.2).

#[export] Instance on_preorder {A K} (key : A → K) leb :
  TotalPreorder leb → TotalPreorder (on key leb).
Proof.
  intros H. split; unfold on.
  - intros. apply leb_total.
  - intros x y z. apply leb_trans.
Qed.

#[export] Instance lex_preorder {A B} (la : A → A → bool) (lb : B → B → bool) :
  TotalPreorder la → TotalPreorder lb → TotalPreorder (lex la lb).
Proof.
  intros HA HB. split; unfold lex.
  - intros [a b] [a' b']; simpl.
    destruct (leb_total a a') as [H1|H1], (leb_total b b') as [H2|H2];
      destruct (la a a'), (la a' a), (lb b b'), (lb b' b); naive_solver.
  - intros [a1 b1] [a2 b2] [a3 b3]; simpl.
    pose proof (leb_trans a1 a2 a3). pose proof (leb_trans a3 a1 a2).
    pose proof (leb_trans a2 a3 a1). pose proof (leb_trans b1 b2 b3).
    destruct (la a1 a2), (la a2 a1), (la a2 a3), (la a3 a2), (la a1 a3), (la a3 a1),
      (lb b1 b2), (lb b2 b3), (lb b1 b3); naive_solver.
Qed.

#[export] Instance lex_order {A B} (la : A → A → bool) (lb : B → B → bool) :
  TotalOrder la → TotalOrder lb → TotalOrder (lex la lb).
Proof.
  intros HA HB. split; [apply _|]. intros [a b] [a' b']; unfold lex; simpl.
  pose proof (leb_antisym a a'). pose proof (leb_antisym b b').
  destruct (la a a'), (la a' a), (lb b b'), (lb b' b); naive_solver.
Qed.

(** * Strings

    A Python [str] is modelled by [string]: its characters are the code points below 256
    (Latin-1).  [str] comparison is by code point, which is [String.leb]. *)
Definition str_leb : string → string → bool := String.leb.

#[export] Instance str_order : TotalOrder str_leb.
Proof.
  split; [split|].
  - apply (total String.le).
  - intros x y z. apply (transitivity (R := String.le)).
  - intros x y. apply (anti_symm String.le).
Qed.

Definition nat_leb : nat → nat → bool := Nat.leb.

#[export] Instance nat_order : TotalOrder nat_leb.
Proof.
  split; [split|]; unfold nat_leb; intros *; rewrite ?Is_true_true, ?Nat.leb_le; lia.
Qed.

Definition N_leb : N → N → bool := N.leb.

#[export] Instance N_order : TotalOrder N_leb.
Proof.
  split; [split|]; unfold N_leb; intros *; rewrite ?Is_true_true, ?N.leb_le; lia.
Qed.

Definition Z_leb : Z → Z → bool := Z.leb.

#[export] Instance Z_order : TotalOrder Z_leb.
Proof.
  split; [split|]; unfold Z_leb; intros *; rewrite ?Is_true_true, ?Z.leb_le; lia.
Qed.

(** ** Characters *)
Definition code (c : ascii) : nat := nat_of_ascii c.
Definition between (lo hi : nat) (c : ascii) : bool := (lo <=? code c) && (code c <=? hi).
Definition is_digit : ascii → bool := between 48 57.
Definition is_upper : ascii → bool := between 65 90.
Definition is_lower : ascii → bool := between 97 122.
Definition is_alpha (c : ascii) : bool := is_upper c || is_lower c.
Definition is_alnum (c : ascii) : bool := is_alpha c || is_digit c.
Definition one_of (chars : string) (c : ascii) : bool :=
  existsb (Ascii.eqb c) (String.list_ascii_of_string chars).

Definition str_forall (p : ascii → bool) (s : string) : bool :=
  forallb p (String.list_ascii_of_string s).

(** [re.fullmatch(r"[first][rest]{0,n}", s)] for two character classes. *)
Definition matches (first rest : ascii → bool) (n : nat) (s : string) : bool :=
  match s with
  | EmptyString => false
  | String c r => first c && str_forall rest r && (String.length r <=? n)
  end.

(** ** Text: [str.split], [str.strip], [str.lower], [", ".join] *)

(** The characters [str.isspace] accepts below 256. *)
Definition is_space (c : ascii) : bool :=
  between 9 13 c || between 28 32 c || (code c =? 133) || (code c =? 160).

Definition lstrip_chars (l : list ascii) : list ascii :=
  (fix go l := match l with [] => [] | c :: r => if is_space c then go r else l end) l.

Definition strip (s : string) : string :=
  String.string_of_list_ascii
    (reverse (lstrip_chars (reverse (lstrip_chars (String.list_ascii_of_string s))))).

Definition lower_char (c : ascii) : ascii :=
  if is_upper c || (between 192 222 c && negb (code c =? 215)) then ascii_of_nat (code c + 32) else c.

Definition lower (s : string) : string :=
  String.string_of_list_ascii (lower_char <$> String.list_ascii_of_string s).

(** [s.split()]: the maximal runs of characters that are not whitespace. *)
Fixpoint split_chars (l : list ascii) (word : list ascii) : list (list ascii) :=
  match l with
  | [] => if word is [] then [] else [reverse word]
  | c :: r =>
      if is_space c then (if word is [] then id else cons (reverse word)) (split_chars r [])
      else split_chars r (c :: word)
  end.

Definition split (s : string) : list string :=
  String.string_of_list_ascii <$> split_chars (String.list_ascii_of_string s) [].

Fixpoint join (sep : string) (l : list string) : string :=
  match l with
  | [] => ""
  | [x] => x
  | x :: r => x +:+ sep +:+ join sep r
  end.

(** [s.split(sep)] for a one-character separator. *)
Fixpoint split_on (sep : ascii) (s : string) : list string :=
  match s with
  | EmptyString => [""]
  | String c r =>
      if Ascii.eqb c sep then "" :: split_on sep r
      else match split_on sep r with
           | [] => [String c ""]
           | w :: ws => String c w :: ws
           end
  end.

(** ** Numbers as text *)

(** Decimal digits of [|z|], at least 1. *)
Fixpoint digits_aux (fuel : nat) (z : Z) : Z :=
  match fuel with
  | O => 1
  | S fuel => if (z <? 10)%Z then 1%Z else (1 + digits_aux fuel (z / 10))%Z
  end.

Definition digits (z : Z) : Z := digits_aux (Z.to_nat (Z.log2 (Z.abs z)) + 1) (Z.abs z).

(** The last [width] digits of a non-negative number. *)
Fixpoint padded (width : nat) (z : Z) : list ascii :=
  match width with
  | O => []
  | S width => padded width (z / 10) ++ [ascii_of_nat (48 + Z.to_nat (z mod 10))]
  end.

Definition Z_text (z : Z) : string :=
  (if (z <? 0)%Z then "-" else "")
  +:+ String.string_of_list_ascii (padded (Z.to_nat (digits z)) (Z.abs z)).
Definition nat_text (n : nat) : string := Z_text (Z.of_nat n).

(** ** [repr] of a string *)
Definition hex_digit (n : nat) : ascii :=
  ascii_of_nat (if n <? 10 then 48 + n else 87 + n).

Definition repr_char (quote : ascii) (c : ascii) : string :=
  let n := code c in
  if Ascii.eqb c quote || (n =? 92) then String "\" (String c "")
  else if n =? 9 then "\t" else if n =? 10 then "\n" else if n =? 13 then "\r"
  else if (n <? 32) || between 127 160 c || (n =? 173)
       then "\x" +:+ String (hex_digit (n / 16)) (String (hex_digit (n mod 16)) "")
  else String c "".

(** Single quotes, unless the text has a single quote and no double quote. *)
Definition repr (s : string) : string :=
  let chars := String.list_ascii_of_string s in
  let single := ascii_of_nat 39 in
  let double := ascii_of_nat 34 in
  let quote := if existsb (Ascii.eqb single) chars && negb (existsb (Ascii.eqb double) chars)
               then double else single in
  String quote (join "" (repr_char quote <$> chars)) +:+ String quote "".

(** * Stable sorting: [sorted(items, key=f)] *)
Section sort.
Context {A : Type} (leb : A → A → bool).

Fixpoint insert_by (x : A) (l : list A) : list A :=
  match l with
  | [] => [x]
  | y :: r => if leb x y then x :: l else y :: insert_by x r
  end.

Definition sort_by (l : list A) : list A := foldr insert_by [] l.

(** Strictly: what [sorted] returns. *)
Definition ordered_by : list A → Prop := StronglySorted (λ x y, leb x y).

Lemma insert_by_perm x l : insert_by x l ≡ₚ x :: l.
Proof.
  induction l as [|y l IH]; simpl; [done|].
  destruct (leb x y); [done|]. by rewrite IH, Permutation_swap.
Qed.

Lemma sort_by_perm l : sort_by l ≡ₚ l.
Proof. induction l as [|x l IH]; simpl; [done|]. by rewrite insert_by_perm, IH. Qed.

Lemma elem_of_sort_by x l : x ∈ sort_by l ↔ x ∈ l.
Proof. by rewrite sort_by_perm. Qed.

Lemma length_sort_by l : length (sort_by l) = length l.
Proof. by rewrite sort_by_perm. Qed.

Lemma NoDup_sort_by l : NoDup (sort_by l) ↔ NoDup l.
Proof. by rewrite sort_by_perm. Qed.

Context `{!TotalPreorder leb}.

Lemma insert_by_ordered x l : ordered_by l → ordered_by (insert_by x l).
Proof.
  unfold ordered_by. induction l as [|y l IH]; simpl; intros Hl.
  - repeat constructor.
  - apply StronglySorted_inv in Hl as [Hl Hy]. destruct (leb x y) eqn:E.
    + constructor; [by constructor|]. constructor; [by rewrite E|].
      eapply Forall_impl; [exact Hy|]. intros z. simpl. apply leb_trans. by rewrite E.
    + constructor; [by apply IH|]. rewrite Forall_forall. intros z Hz.
      rewrite insert_by_perm in Hz. apply elem_of_cons in Hz as [->|Hz].
      * destruct (leb_total x y) as [H|H]; [|done]. by rewrite E in H.
      * rewrite Forall_forall in Hy. by apply Hy.
Qed.

Lemma sort_by_ordered l : ordered_by (sort_by l).
Proof.
  induction l as [|x l IH]; simpl; [constructor|]. by apply insert_by_ordered.
Qed.

(** Sorting what is sorted changes nothing (sorting is stable). *)
Lemma sort_by_id l : ordered_by l → sort_by l = l.
Proof.
  unfold ordered_by. induction 1 as [|x l Hl IH Hx]; simpl; [done|]. rewrite IH.
  destruct l as [|y l]; simpl; [done|]. apply Forall_cons in Hx as [Hxy _].
  by rewrite (Is_true_eq_true _ Hxy).
Qed.

Lemma sort_by_idemp l : sort_by (sort_by l) = sort_by l.
Proof. apply sort_by_id, sort_by_ordered. Qed.

Lemma ordered_by_filter (P : A → Prop) `{!∀ x, Decision (P x)} l :
  ordered_by l → ordered_by (filter P l).
Proof.
  unfold ordered_by. induction 1 as [|x l Hl IH Hx]; [constructor|].
  rewrite filter_cons. case_decide; [|done]. constructor; [done|].
  rewrite Forall_forall in Hx |- *. intros y Hy. apply Hx.
  by apply list_elem_of_filter in Hy as [_ Hy].
Qed.

(** The order of the input does not matter when elements comparing equal are equal. *)
Lemma sort_by_unique l l' :
  (∀ x y, x ∈ l → y ∈ l → leb x y → leb y x → x = y) → l ≡ₚ l' → sort_by l = sort_by l'.
Proof.
  intros Hanti Hperm.
  eapply (StronglySorted_unique_strong (λ x y, leb x y)).
  - intros x1 x2 H1 H2. apply Hanti.
    + by rewrite <- sort_by_perm.
    + by rewrite Hperm, <- sort_by_perm.
  - apply sort_by_ordered.
  - apply sort_by_ordered.
  - by rewrite !sort_by_perm.
Qed.
End sort.

Lemma sort_by_unique_order {A} (leb : A → A → bool) `{!TotalOrder leb} l l' :
  l ≡ₚ l' → sort_by leb l = sort_by leb l'.
Proof. apply sort_by_unique; [apply _|]. intros x y _ _. apply leb_antisym. Qed.

Lemma sort_on_unique {A K} (key : A → K) (leb : K → K → bool) `{!TotalOrder leb} l l' :
  NoDup (key <$> l) → l ≡ₚ l' → sort_by (on key leb) l = sort_by (on key leb) l'.
Proof.
  intros Hnd. apply sort_by_unique; [apply _|]. unfold on. intros x y Hx Hy H1 H2.
  pose proof (leb_antisym _ _ H1 H2) as Heq.
  apply list_elem_of_lookup in Hx as [i Hi]. apply list_elem_of_lookup in Hy as [j Hj].
  assert (i = j) as <-; [|congruence].
  eapply (NoDup_lookup (key <$> l)); [done|..].
  - by rewrite list_lookup_fmap, Hi.
  - rewrite list_lookup_fmap, Hj. simpl. by f_equal.
Qed.

(** * [set] and [dict.fromkeys]: the first occurrence of each element *)
Section dedup.
Context {A : Type} `{EqDecision A}.

Fixpoint dedup_aux (seen l : list A) : list A :=
  match l with
  | [] => []
  | x :: r => if decide (x ∈ seen) then dedup_aux seen r else x :: dedup_aux (x :: seen) r
  end.

Definition dedup (l : list A) : list A := dedup_aux [] l.

Lemma elem_of_dedup_aux seen l x : x ∈ dedup_aux seen l ↔ x ∈ l ∧ x ∉ seen.
Proof.
  revert seen. induction l as [|y l IH]; intros seen; simpl.
  - set_solver.
  - case_decide; [|rewrite elem_of_cons]; rewrite IH; destruct (decide (x = y)); set_solver.
Qed.

Lemma NoDup_dedup_aux seen l : NoDup (dedup_aux seen l).
Proof.
  revert seen. induction l as [|y l IH]; intros seen; simpl; [constructor|].
  case_decide; [done|]. constructor; [|done]. rewrite elem_of_dedup_aux. set_solver.
Qed.

Lemma elem_of_dedup l x : x ∈ dedup l ↔ x ∈ l.
Proof. unfold dedup. rewrite elem_of_dedup_aux. set_solver. Qed.

Lemma NoDup_dedup l : NoDup (dedup l).
Proof. apply NoDup_dedup_aux. Qed.

Lemma dedup_aux_id seen l : NoDup l → (∀ x, x ∈ l → x ∉ seen) → dedup_aux seen l = l.
Proof.
  intros Hl. revert seen. induction Hl as [|x l Hx Hl IH]; intros seen Hs; simpl; [done|].
  rewrite decide_False by set_solver. rewrite IH by set_solver. done.
Qed.

Lemma dedup_id l : NoDup l → dedup l = l.
Proof. intros. by apply dedup_aux_id; [|set_solver]. Qed.
End dedup.

(** [sorted(set(items))]: the canonical form of a set of strings. *)
Definition sorted_set (l : list string) : list string := sort_by str_leb (dedup l).

Lemma elem_of_sorted_set l x : x ∈ sorted_set l ↔ x ∈ l.
Proof. unfold sorted_set. by rewrite elem_of_sort_by, elem_of_dedup. Qed.

Lemma NoDup_sorted_set l : NoDup (sorted_set l).
Proof. unfold sorted_set. rewrite NoDup_sort_by. apply NoDup_dedup. Qed.

Lemma sorted_set_ordered l : ordered_by str_leb (sorted_set l).
Proof. apply sort_by_ordered, _. Qed.

Lemma sorted_set_id l : ordered_by str_leb l → NoDup l → sorted_set l = l.
Proof. intros. unfold sorted_set. rewrite dedup_id by done. by apply sort_by_id. Qed.

Lemma sorted_set_idemp l : sorted_set (sorted_set l) = sorted_set l.
Proof. apply sorted_set_id; [apply sorted_set_ordered|apply NoDup_sorted_set]. Qed.

(** One representation per set. *)
Lemma sorted_set_eq l l' : (∀ x, x ∈ l ↔ x ∈ l') → sorted_set l = sorted_set l'.
Proof.
  intros Heq. apply sort_by_unique_order; [apply _|].
  apply NoDup_Permutation; [apply NoDup_dedup..|]. intros x. by rewrite !elem_of_dedup.
Qed.

(** * Python dictionaries, in insertion order

    Assigning an existing key keeps its place; a new key goes last.  A dictionary has its keys
    once: [dict_wf]. *)
Abbreviation dict K V := (list (K * V)).

Section dict.
Context {K V : Type} `{EqDecision K}.
Implicit Types d : dict K V.

Fixpoint dict_get (k : K) d : option V :=
  match d with
  | [] => None
  | (k', v) :: r => if decide (k = k') then Some v else dict_get k r
  end.

Fixpoint dict_set (k : K) (v : V) d : dict K V :=
  match d with
  | [] => [(k, v)]
  | (k', v') :: r => if decide (k = k') then (k, v) :: r else (k', v') :: dict_set k v r
  end.

Definition dict_del (k : K) d : dict K V := filter (λ p, p.1 ≠ k) d.

Definition dict_keys d : list K := d.*1.
Definition dict_values d : list V := d.*2.

(** [{k: v for ...}], and [{**d, **e}]. *)
Definition dict_update d (e : list (K * V)) : dict K V :=
  foldl (λ d p, dict_set p.1 p.2 d) d e.
Definition dict_of (l : list (K * V)) : dict K V := dict_update [] l.

Definition dict_wf d : Prop := NoDup (dict_keys d).

Lemma dict_get_set d k v k' :
  dict_get k' (dict_set k v d) = if decide (k' = k) then Some v else dict_get k' d.
Proof.
  induction d as [|[k0 v0] d IH]; simpl; [by repeat case_decide|].
  destruct (decide (k = k0)) as [->|]; simpl; [by repeat case_decide|].
  rewrite IH. repeat case_decide; congruence.
Qed.

Lemma dict_get_set_eq d k v : dict_get k (dict_set k v d) = Some v.
Proof. rewrite dict_get_set. by rewrite decide_True. Qed.

Lemma dict_get_set_ne d k v k' : k' ≠ k → dict_get k' (dict_set k v d) = dict_get k' d.
Proof. intros. rewrite dict_get_set. by rewrite decide_False. Qed.

Lemma dict_get_None d k : dict_get k d = None ↔ k ∉ dict_keys d.
Proof.
  induction d as [|[k0 v0] d IH]; simpl; [split; [set_solver|done]|].
  rewrite not_elem_of_cons. case_decide; [naive_solver|]. rewrite IH. naive_solver.
Qed.

Lemma dict_get_is_Some d k : is_Some (dict_get k d) ↔ k ∈ dict_keys d.
Proof.
  rewrite <- not_eq_None_Some, dict_get_None. split; [|tauto].
  intros. by destruct (decide (k ∈ dict_keys d)).
Qed.

Lemma dict_get_elem d k v : dict_get k d = Some v → (k, v) ∈ d.
Proof.
  induction d as [|[k0 v0] d IH]; simpl; [done|]. rewrite elem_of_cons.
  case_decide; naive_solver.
Qed.

Lemma dict_get_wf d k v : dict_wf d → dict_get k d = Some v ↔ (k, v) ∈ d.
Proof.
  intros Hd. split; [apply dict_get_elem|].
  induction d as [|[k0 v0] d IH]; simpl; [set_solver|].
  apply NoDup_cons in Hd as [Hk Hd]. rewrite elem_of_cons. intros [[= -> ->]|Hin].
  - by rewrite decide_True.
  - rewrite decide_False; [by apply IH|]. intros ->. apply Hk, list_elem_of_fmap.
    by exists (k0, v).
Qed.

Lemma dict_set_new d k v : k ∉ dict_keys d → dict_set k v d = d ++ [(k, v)].
Proof.
  induction d as [|[k0 v0] d IH]; simpl; [done|]. rewrite not_elem_of_cons. intros [? ?].
  rewrite decide_False by done. by rewrite IH.
Qed.

Lemma dict_keys_set d k v :
  dict_keys (dict_set k v d) = if decide (k ∈ dict_keys d) then dict_keys d else dict_keys d ++ [k].
Proof.
  case_decide as Hk.
  - induction d as [|[k0 v0] d IH]; simpl in *; [set_solver|].
    destruct (decide (k = k0)) as [->|]; simpl; [done|]. f_equal. apply IH. set_solver.
  - rewrite dict_set_new by done. unfold dict_keys. by rewrite fmap_app.
Qed.

Lemma dict_set_wf d k v : dict_wf d → dict_wf (dict_set k v d).
Proof.
  unfold dict_wf. intros Hd. rewrite dict_keys_set. case_decide; [done|].
  apply NoDup_app. split_and!; [done| |apply NoDup_singleton]. set_solver.
Qed.

Lemma dict_update_wf d e : dict_wf d → dict_wf (dict_update d e).
Proof.
  unfold dict_update. revert d. induction e as [|[k v] e IH]; intros d Hd; simpl; [done|].
  by apply IH, dict_set_wf.
Qed.

Lemma dict_of_wf l : dict_wf (dict_of l).
Proof. apply dict_update_wf. constructor. Qed.

Lemma dict_update_new d e : dict_wf (d ++ e) → dict_update d e = d ++ e.
Proof.
  unfold dict_update. revert d.
  induction e as [|[k v] e IH]; intros d Hd; simpl; [by rewrite app_nil_r|].
  rewrite dict_set_new.
  - rewrite IH; by rewrite <- (assoc_L (++)).
  - unfold dict_wf, dict_keys in *. rewrite fmap_app in Hd. apply NoDup_app in Hd as (_ & Hd & _).
    intros Hk. apply (Hd _ Hk). simpl. left.
Qed.

(** A dictionary literal with distinct keys is what it lists. *)
Lemma dict_of_id l : dict_wf l → dict_of l = l.
Proof. intros. unfold dict_of. by rewrite dict_update_new. Qed.

Lemma dict_get_del d k k' :
  dict_get k' (dict_del k d) = if decide (k' = k) then None else dict_get k' d.
Proof.
  unfold dict_del. induction d as [|[k0 v0] d IH]; [simpl; by case_decide|].
  rewrite filter_cons. cbn [dict_get fst].
  destruct (decide (k0 = k)) as [->|]; [rewrite decide_False by tauto|rewrite decide_True by done];
    cbn [dict_get]; rewrite IH; repeat case_decide; congruence.
Qed.

Lemma sublist_fmap {A B} (f : A → B) l l' : l `sublist_of` l' → f <$> l `sublist_of` f <$> l'.
Proof. induction 1; by constructor. Qed.

Lemma dict_del_wf d k : dict_wf d → dict_wf (dict_del k d).
Proof.
  unfold dict_wf, dict_keys, dict_del. intros Hd.
  eapply sublist_NoDup; [exact Hd|]. apply sublist_fmap, sublist_filter.
Qed.
End dict.

(** [{x.id: x for x in items}]. *)
Definition index_by {K A} `{EqDecision K} (key : A → K) (l : list A) : dict K A :=
  dict_of ((λ x, (key x, x)) <$> l).

Lemma index_by_id {K A} `{EqDecision K} (key : A → K) l :
  NoDup (key <$> l) → index_by key l = (λ x, (key x, x)) <$> l.
Proof.
  intros. apply dict_of_id. unfold dict_wf, dict_keys. by rewrite <- list_fmap_compose.
Qed.

Lemma index_by_get {K A} `{EqDecision K} (key : A → K) l k x :
  NoDup (key <$> l) → dict_get k (index_by key l) = Some x ↔ x ∈ l ∧ key x = k.
Proof.
  intros Hl. rewrite index_by_id by done. rewrite dict_get_wf.
  - rewrite list_elem_of_fmap. naive_solver.
  - unfold dict_wf, dict_keys. by rewrite <- list_fmap_compose.
Qed.

(** * Graph search with a work list

    [while frontier: for y in step(frontier.pop()): if y not in seen: add it, append it]: the loop
    of every traversal of the program.  They differ in which end of the list [pop] takes from, so
    the search is proved once, for every [pop] that takes one element out. *)
Class Pop {K} (pop : list K → option (K * list K)) : Prop := {
  pop_None : ∀ l, pop l = None → l = [];
  pop_Some : ∀ l x r, pop l = Some (x, r) → l ≡ₚ x :: r;
}.

(** [deque.popleft()], and [list.pop()]. *)
Definition pop_left {K} (l : list K) : option (K * list K) :=
  match l with [] => None | x :: r => Some (x, r) end.

Definition pop_right {K} (l : list K) : option (K * list K) :=
  match reverse l with [] => None | x :: r => Some (x, reverse r) end.

#[export] Instance pop_left_pop {K} : Pop (@pop_left K).
Proof. split; intros [|y l]; naive_solver. Qed.

#[export] Instance pop_right_pop {K} : Pop (@pop_right K).
Proof.
  split; unfold pop_right.
  - intros l. destruct (reverse l) eqn:E; [|done]. intros _.
    apply (f_equal reverse) in E. by rewrite reverse_involutive in E.
  - intros l x r. destruct (reverse l) as [|y s] eqn:E; [done|]. intros [= <- <-].
    apply (f_equal reverse) in E. rewrite reverse_involutive, reverse_cons in E. subst l.
    by rewrite Permutation_app_comm.
Qed.

Section search.
Context {K : Type} `{Countable K}.
Context (pop : list K → option (K * list K)) (step : K → list K).

Definition visit (st : gset K * list K) (y : K) : gset K * list K :=
  if decide (y ∈ st.1) then st else ({[y]} ∪ st.1, st.2 ++ [y]).

Definition expand (st : gset K * list K) (ys : list K) : gset K * list K := foldl visit st ys.

Fixpoint search (fuel : nat) (st : gset K * list K) : gset K * list K :=
  match fuel with
  | O => st
  | S fuel =>
      match pop st.2 with
      | None => st
      | Some (x, frontier) => search fuel (expand (st.1, frontier) (step x))
      end
  end.

Definition step_rel (x y : K) : Prop := y ∈ step x.

Lemma expand_seen st ys y : y ∈ (expand st ys).1 ↔ y ∈ st.1 ∨ y ∈ ys.
Proof.
  unfold expand. revert st. induction ys as [|z ys IH]; intros st; simpl; [set_solver|].
  rewrite IH. unfold visit. case_decide; set_solver.
Qed.

(** What [expand] appends: the new elements, each once. *)
Lemma expand_frontier st ys :
  ∃ new, (expand st ys).2 = st.2 ++ new ∧ NoDup new ∧
    (∀ y, y ∈ new ↔ y ∈ ys ∧ y ∉ st.1) ∧ (expand st ys).1 = list_to_set new ∪ st.1.
Proof.
  unfold expand. revert st. induction ys as [|z ys IH]; intros st; simpl.
  - exists []. rewrite app_nil_r. split_and!; [done|constructor|set_solver|set_solver].
  - unfold visit at 2 4. case_decide as Hz.
    + destruct (IH st) as (new & ? & ? & Hn & ?). exists new. split_and!; [done..| |done].
      intros y. rewrite Hn. set_solver.
    + destruct (IH ({[z]} ∪ st.1, st.2 ++ [z])) as (new & Hf & Hnd & Hn & Hs).
      simpl in *. exists (z :: new). rewrite Hf, Hs. split_and!.
      * by rewrite <- (assoc_L (++)).
      * constructor; [rewrite Hn; set_solver|done].
      * intros y. rewrite elem_of_cons, Hn. destruct (decide (y = z)); set_solver.
      * set_solver.
Qed.

Section correct.
Context `{!Pop pop} (start : K) (U : gset K).
Context (HU : start ∈ U) (Hstep : ∀ x y, x ∈ U → y ∈ step x → y ∈ U).

Definition search_inv (st : gset K * list K) : Prop :=
  start ∈ st.1 ∧ st.1 ⊆ U ∧ (∀ x, x ∈ st.2 → x ∈ st.1) ∧ NoDup st.2 ∧
  (∀ y, y ∈ st.1 → rtc step_rel start y) ∧
  (∀ x y, x ∈ st.1 → x ∉ st.2 → y ∈ step x → y ∈ st.1).

Lemma search_inv_init : search_inv ({[start]}, [start]).
Proof.
  unfold search_inv; simpl. split_and!; [set_solver..|apply NoDup_singleton| |set_solver].
  intros y ->%elem_of_singleton. constructor.
Qed.

Lemma search_inv_step seen frontier x rest :
  search_inv (seen, frontier) → pop frontier = Some (x, rest) →
  search_inv (expand (seen, rest) (step x)).
Proof.
  intros (Hs & HsU & Hf & Hnd & Hr & Hc) Hpop. simpl in *.
  pose proof (pop_Some _ _ _ Hpop) as Hp.
  assert (x ∈ seen) as Hx by (apply Hf; rewrite Hp; left).
  rewrite Hp in Hnd. apply NoDup_cons in Hnd as [Hxr Hnd].
  destruct (expand_frontier (seen, rest) (step x)) as (new & Hf' & Hnd' & Hn & Hs').
  unfold search_inv. rewrite Hf', Hs'. simpl in *. split_and!.
  - set_solver.
  - intros y. rewrite elem_of_union, elem_of_list_to_set, Hn. intros [[Hy _]|Hy]; [|by apply HsU].
    eapply Hstep; [|exact Hy]. by apply HsU.
  - intros y. rewrite elem_of_app, elem_of_union, elem_of_list_to_set.
    intros [Hy|Hy]; [right; apply Hf; rewrite Hp; by right|by left].
  - apply NoDup_app. split_and!; [done| |done]. intros y Hy Hyn. apply Hn in Hyn as [_ Hyn].
    apply Hyn, Hf. rewrite Hp. by right.
  - intros y. rewrite elem_of_union, elem_of_list_to_set, Hn. intros [[Hy _]|Hy]; [|by apply Hr].
    eapply rtc_r; [by apply Hr|exact Hy].
  - intros z y. rewrite !elem_of_union, !elem_of_list_to_set, elem_of_app, !Hn. intros Hz Hzf Hy.
    destruct (decide (z = x)) as [->|Hzx].
    + destruct (decide (y ∈ seen)); [by right|by left].
    + right. apply (Hc z); [tauto| |done]. rewrite Hp, elem_of_cons. tauto.
Qed.

(** One element leaves the frontier per turn, and only unseen elements enter it. *)
Lemma search_done fuel seen frontier :
  search_inv (seen, frontier) → size (U ∖ seen) + length frontier ≤ fuel →
  ∃ found, search fuel (seen, frontier) = (found, []) ∧ search_inv (found, []).
Proof.
  revert seen frontier. induction fuel as [|fuel IH]; intros seen frontier Hinv Hfuel; simpl.
  - destruct frontier; [by exists seen|simpl in *; lia].
  - destruct (pop frontier) as [[x rest]|] eqn:Hpop.
    + pose proof (search_inv_step _ _ _ _ Hinv Hpop) as Hinv'.
      destruct (expand_frontier (seen, rest) (step x)) as (new & Hf' & Hnd' & Hn & Hs').
      destruct (expand (seen, rest) (step x)) as [seen' frontier']. simpl in *. subst.
      apply IH; [done|]. rewrite length_app.
      apply pop_Some, Permutation_length in Hpop. simpl in Hpop.
      assert (size (U ∖ (list_to_set new ∪ seen)) + length new = size (U ∖ seen)); [|lia].
      rewrite <- (size_list_to_set (C := gset K) new) by done.
      replace (U ∖ (list_to_set new ∪ seen)) with ((U ∖ seen) ∖ list_to_set new) by set_solver.
      rewrite size_difference.
      * assert (size (list_to_set (C := gset K) new) ≤ size (U ∖ seen)); [|lia].
        apply subseteq_size. intros y. rewrite elem_of_list_to_set, Hn. intros [Hy Hny].
        apply elem_of_difference. split; [|done]. destruct Hinv' as (_ & HU' & _).
        apply HU'. simpl. rewrite elem_of_union, elem_of_list_to_set, Hn. by left.
      * intros y. rewrite elem_of_list_to_set, Hn. intros [Hy Hny].
        apply elem_of_difference. split; [|done]. destruct Hinv' as (_ & HU' & _).
        apply HU'. simpl. rewrite elem_of_union, elem_of_list_to_set, Hn. by left.
    + apply pop_None in Hpop as ->. by exists seen.
Qed.

(** With fuel for every element of the universe, the search ends, and has seen exactly what is
    reachable. *)
Theorem search_reaches fuel :
  size U ≤ fuel →
  ∃ found, search fuel ({[start]}, [start]) = (found, []) ∧
    ∀ y, y ∈ found ↔ rtc step_rel start y.
Proof.
  intros Hfuel. destruct (search_done fuel {[start]} [start]) as (found & -> & Hinv).
  - apply search_inv_init.
  - simpl. rewrite size_difference by set_solver. rewrite size_singleton.
    assert (size ({[start]} : gset K) ≤ size U) as Hle by (apply subseteq_size; set_solver).
    rewrite size_singleton in Hle. lia.
  - exists found. split; [done|]. destruct Hinv as (Hs & _ & _ & _ & Hr & Hc). simpl in *.
    intros y. split; [apply Hr|]. revert y. apply rtc_ind_r; [done|].
    intros y z Hreach Hyz IH. eapply Hc; [done|set_solver|done].
Qed.
End correct.
End search.

(** * [StrEnum]

    An enumeration whose members are text: [members] in declaration order, [value] the text of one.
    [enum_of] is the call [E(text)], [None] where it raises [ValueError]. *)
Class StrEnum (E : Type) `{EqDecision E} := {
  members : list E;
  value : E → string;
  members_all : ∀ e, e ∈ members;
  value_inj : Inj (=) (=) value;
}.
#[export] Existing Instance value_inj.
#[export] Hint Mode StrEnum + - : typeclass_instances.

Definition enum_of {E} `{StrEnum E} (s : string) : option E :=
  list_find (λ e, value e = s) members ≫= λ p, Some p.2.

Lemma enum_of_value {E} `{StrEnum E} (e : E) : enum_of (value e) = Some e.
Proof.
  unfold enum_of. destruct (list_find _ _) as [[i x]|] eqn:Hf; simpl.
  - apply list_find_Some in Hf as (_ & Hx & _). by apply (inj value) in Hx as ->.
  - apply list_find_None in Hf. rewrite Forall_forall in Hf. by destruct (Hf e (members_all e)).
Qed.

Lemma enum_of_Some {E} `{StrEnum E} (s : string) (e : E) : enum_of s = Some e ↔ s = value e.
Proof.
  split; [|by intros ->; apply enum_of_value]. unfold enum_of.
  destruct (list_find _ _) as [[i x]|] eqn:Hf; [|done]. intros [= <-].
  by apply list_find_Some in Hf as (_ & Hx & _).
Qed.

(** The laws of a long enumeration, from a search that finds every member. *)
Lemma enum_search {E} (members : list E) (value : E → string) :
  (∀ e, list_find (λ x, value x = value e) members ≫= (λ p, Some p.2) = Some e) →
  (∀ e, e ∈ members) ∧ Inj (=) (=) value.
Proof.
  intros Hfind. split.
  - intros e. specialize (Hfind e). destruct (list_find _ _) as [[i x]|] eqn:Hf; [|done].
    injection Hfind as ->. apply list_find_Some in Hf as (Hi & _). by eapply list_elem_of_lookup_2.
  - intros e1 e2 H. pose proof (Hfind e1) as H1. rewrite H in H1. rewrite (Hfind e2) in H1. congruence.
Qed.

(** [", ".join(E)]. *)
Definition enum_text E `{StrEnum E} : string := join ", " (value <$> (members (E := E))).

(** Closes the two laws of an enumeration whose values are literals. *)
Ltac solve_enum :=
  first [ solve [intros []; repeat (first [by left | right])]
        | solve [intros [] []; simpl; intros; congruence] ].

(** * Facts on text and sorting *)
Lemma las_sla l : String.list_ascii_of_string (String.string_of_list_ascii l) = l.
Proof. apply String.list_ascii_of_string_of_list_ascii. Qed.

Lemma sla_las s : String.string_of_list_ascii (String.list_ascii_of_string s) = s.
Proof. apply String.string_of_list_ascii_of_string. Qed.

Lemma las_app s t :
  String.list_ascii_of_string (s +:+ t) =
  String.list_ascii_of_string s ++ String.list_ascii_of_string t.
Proof. induction s as [|c s IH]; simpl; [done|]. by rewrite IH. Qed.

(** Every character can be checked. *)
Lemma ascii_all (P : ascii → bool) :
  forallb (λ n, P (ascii_of_nat n)) (seq 0 256) = true → ∀ c, P c = true.
Proof.
  intros H c. rewrite forallb_forall in H. rewrite <- (ascii_nat_embedding c). apply H.
  apply in_seq. pose proof (nat_ascii_bounded c). lia.
Qed.

(** ** Words *)
Definition word (l : list ascii) : Prop := l ≠ [] ∧ Forall (λ c, is_space c = false) l.

Lemma split_chars_words l w :
  Forall (λ c, is_space c = false) w → Forall word (split_chars l w).
Proof.
  revert w. induction l as [|c l IH]; intros w Hw; simpl.
  - destruct w as [|x w]; constructor; [|constructor]. split; [|by apply Forall_reverse].
    intros H. apply (f_equal length) in H. by rewrite length_reverse in H.
  - destruct (is_space c) eqn:E.
    + destruct w as [|x w]; simpl; [apply IH; constructor|]. constructor; [|apply IH; constructor].
      split; [|by apply Forall_reverse]. intros H. apply (f_equal length) in H.
      by rewrite length_reverse in H.
    + apply IH. by constructor.
Qed.

Lemma split_chars_word l r w :
  Forall (λ c, is_space c = false) l → split_chars (l ++ r) w = split_chars r (reverse l ++ w).
Proof.
  revert w. induction l as [|c l IH]; intros w Hl; simpl; [done|].
  apply Forall_cons in Hl as [-> Hl]. rewrite IH by done.
  by rewrite reverse_cons, <- (assoc_L (++)).
Qed.

Lemma split_join ws :
  Forall word ws →
  split_chars (String.list_ascii_of_string (join " " (String.string_of_list_ascii <$> ws))) [] = ws.
Proof.
  intros Hws. induction Hws as [|w ws [Hne Hw] Hws IH]; [done|].
  assert (split_chars [] (reverse w ++ []) = [w]) as Hlast.
  { simpl. rewrite app_nil_r. destruct (reverse w) as [|x r] eqn:E.
    - apply (f_equal reverse) in E. by rewrite reverse_involutive in E.
    - by rewrite <- E, reverse_involutive. }
  destruct ws as [|w' ws]; cbn [fmap list_fmap join].
  - rewrite las_sla, <- (app_nil_r w) at 1. rewrite split_chars_word by done. done.
  - cbn [fmap list_fmap join] in IH. rewrite !las_app, las_sla.
    rewrite split_chars_word by done. simpl. rewrite app_nil_r in *.
    destruct (reverse w) as [|x r] eqn:E; simpl in *; [congruence|].
    f_equal; [congruence|]. exact IH.
Qed.

Lemma clean_words s : join " " (split (join " " (split s))) = join " " (split s).
Proof.
  unfold split at 1. unfold split at 1. rewrite split_join; [done|].
  apply split_chars_words. constructor.
Qed.

(** ** Trimming *)
Lemma lstrip_chars_idemp l : lstrip_chars (lstrip_chars l) = lstrip_chars l.
Proof.
  induction l as [|c l IH]; [done|]. simpl. destruct (is_space c) eqn:E; [done|].
  simpl. by rewrite E.
Qed.

(** The text starts with a character that is not white space. *)
Lemma lstrip_chars_id l : lstrip_chars l = l ↔ l = [] ∨ ∃ c r, l = c :: r ∧ is_space c = false.
Proof.
  split.
  - destruct l as [|c r]; [by left|]. simpl. destruct (is_space c) eqn:E; [|eauto 10].
    intros H. exfalso. assert (∀ l, length (lstrip_chars l) ≤ length l) as Hlen.
    { clear. induction l as [|c l IH]; simpl; [lia|]. case_match; simpl; lia. }
    specialize (Hlen r). fold (lstrip_chars r) in H. rewrite H in Hlen. simpl in Hlen. lia.
  - intros [->|(c & r & -> & E)]; [done|]. simpl. by rewrite E.
Qed.

Lemma lstrip_chars_suffix l : ∃ p, l = p ++ lstrip_chars l ∧ Forall is_space p.
Proof.
  induction l as [|c l (p & IH & Hp)]; [by exists []|]. simpl. destruct (is_space c) eqn:E.
  - exists (c :: p). split; [by rewrite IH at 1|]. constructor; [by rewrite E|done].
  - by exists [].
Qed.

Definition strip_chars (l : list ascii) : list ascii :=
  reverse (lstrip_chars (reverse (lstrip_chars l))).

Lemma strip_chars_idemp l : strip_chars (strip_chars l) = strip_chars l.
Proof.
  unfold strip_chars. set (m := lstrip_chars l).
  assert (lstrip_chars (reverse (lstrip_chars (reverse m))) = reverse (lstrip_chars (reverse m))) as ->.
  - apply lstrip_chars_id. destruct (lstrip_chars_suffix (reverse m)) as (p & Hp & Hsp).
    apply (f_equal reverse) in Hp. rewrite reverse_involutive, reverse_app in Hp.
    destruct (reverse (lstrip_chars (reverse m))) as [|c r] eqn:E; [by left|right].
    exists c, r. split; [done|].
    assert (lstrip_chars m = m) as Hm by apply lstrip_chars_idemp.
    apply lstrip_chars_id in Hm as [Hm|(c' & r' & Hm & Hc)]; rewrite Hm in Hp; [done|].
    by injection Hp as -> _.
  - by rewrite reverse_involutive, lstrip_chars_idemp.
Qed.

Lemma strip_eq s : strip s = String.string_of_list_ascii (strip_chars (String.list_ascii_of_string s)).
Proof. done. Qed.

Lemma strip_idemp s : strip (strip s) = strip s.
Proof. rewrite !strip_eq, las_sla. by rewrite strip_chars_idemp. Qed.

(** ** Lower case *)
Lemma lower_char_idemp c : lower_char (lower_char c) = lower_char c.
Proof.
  pose proof (ascii_all (λ c, Ascii.eqb (lower_char (lower_char c)) (lower_char c))) as H.
  apply Ascii.eqb_eq, H. by vm_compute.
Qed.

Lemma lower_char_space c : is_space (lower_char c) = is_space c.
Proof.
  pose proof (ascii_all (λ c, Bool.eqb (is_space (lower_char c)) (is_space c))) as H.
  apply Bool.eqb_prop, H. by vm_compute.
Qed.

Lemma lstrip_chars_lower l : lstrip_chars (lower_char <$> l) = lower_char <$> lstrip_chars l.
Proof.
  induction l as [|c l IH]; [done|]. simpl. rewrite lower_char_space. by destruct (is_space c).
Qed.

Lemma strip_lower s : strip (lower s) = lower (strip s).
Proof.
  unfold lower. rewrite !strip_eq, !las_sla. unfold strip_chars.
  by rewrite lstrip_chars_lower, <- fmap_reverse, lstrip_chars_lower, <- fmap_reverse.
Qed.

Lemma lower_idemp s : lower (lower s) = lower s.
Proof.
  unfold lower. rewrite las_sla, <- list_fmap_compose. f_equal. apply list_fmap_ext.
  intros _ c _. apply lower_char_idemp.
Qed.

Lemma lower_strip_idemp s : lower (strip (lower (strip s))) = lower (strip s).
Proof. by rewrite strip_lower, strip_idemp, lower_idemp. Qed.

(** ** Sorting by a key that a map keeps *)
Lemma sort_by_fmap {A B} (leb : A → A → bool) (leb' : B → B → bool) (f : A → B) l :
  (∀ x y, leb' (f x) (f y) = leb x y) → sort_by leb' (f <$> l) = f <$> sort_by leb l.
Proof.
  intros Hf. assert (∀ x l, insert_by leb' (f x) (f <$> l) = f <$> insert_by leb x l) as Hins.
  { intros x l'. induction l' as [|y l' IH]; simpl; [done|]. rewrite Hf.
    destruct (leb x y); [done|]. cbn [fmap list_fmap]. by f_equal. }
  unfold sort_by. induction l as [|x l IH]; [done|]. cbn [fmap list_fmap foldr]. by rewrite IH, Hins.
Qed.

Lemma ordered_by_fmap {A B} (leb : A → A → bool) (leb' : B → B → bool) (f : A → B) l :
  (∀ x y, leb' (f x) (f y) = leb x y) → ordered_by leb l → ordered_by leb' (f <$> l).
Proof.
  intros Hf. unfold ordered_by. induction 1 as [|x l Hl IH Hx]; simpl; constructor; [done|].
  apply Forall_fmap. eapply Forall_impl; [exact Hx|]. intros y. simpl. by rewrite Hf.
Qed.

(** * Counting: [Counter(l)[x]] *)
Definition count {A} `{Heq : EqDecision A} (x : A) (l : list A) : nat := length (filter (λ y, y = x) l).

Lemma filter_nil_iff {A} (P : A → Prop) {HP : ∀ x, Decision (P x)} l :
  filter P l = [] ↔ ∀ x, x ∈ l → ¬ P x.
Proof.
  split.
  - intros Hl x Hx Hpx. by apply (filter_nil_not_elem_of P l x).
  - intros Hl. induction l as [|x l IH]; [done|]. rewrite filter_cons, decide_False.
    + apply IH. intros y Hy. apply Hl. by right.
    + apply Hl. left.
Qed.

Lemma count_elem {A} `{Heq : EqDecision A} (x : A) l : 0 < count x l ↔ x ∈ l.
Proof.
  unfold count. split.
  - intros Hlt. destruct (filter _ l) as [|y r] eqn:E; [simpl in Hlt; lia|].
    assert (y ∈ filter (λ y, y = x) l) as Hy by (rewrite E; left).
    by apply list_elem_of_filter in Hy as [-> Hy].
  - intros H. destruct (filter _ l) as [|y r] eqn:E; [|simpl; lia].
    assert (x ∈ filter (λ y, y = x) l) as Hx by (by apply list_elem_of_filter). rewrite E in Hx.
    by apply elem_of_nil in Hx.
Qed.

Lemma count_cons {A} `{Heq : EqDecision A} (x y : A) l :
  count x (y :: l) = (if decide (y = x) then 1 else 0) + count x l.
Proof. unfold count. rewrite filter_cons. by case_decide. Qed.

Lemma NoDup_count {A} `{Heq : EqDecision A} (l : list A) : NoDup l ↔ ∀ x, count x l ≤ 1.
Proof.
  induction l as [|y l IH].
  - split; [by intros _ x; cbn; lia|constructor].
  - rewrite NoDup_cons, IH. split.
    + intros [Hy Hl] x. rewrite count_cons. specialize (Hl x). case_decide as Hx; [|lia]. subst.
      pose proof (count_elem x l) as Hc. destruct (count x l); [lia|]. destruct Hy. apply Hc. lia.
    + intros Hl. split.
      * intros Hy%count_elem. specialize (Hl y). rewrite count_cons, decide_True in Hl by done. lia.
      * intros x. specialize (Hl x). rewrite count_cons in Hl. lia.
Qed.

(** Reporting what occurs twice reports nothing exactly when nothing does. *)
Lemma filter_count_nil {A B} `{Heq : EqDecision B} (f : A → B) (l : list A) :
  filter (λ e, 1 < count (f e) (f <$> l)) l = [] ↔ NoDup (f <$> l).
Proof.
  rewrite NoDup_count. split.
  - intros H x. destruct (decide (1 < count x (f <$> l))) as [Hx|]; [|lia]. exfalso.
    assert (x ∈ f <$> l) as (e & -> & He)%list_elem_of_fmap by (apply count_elem; lia).
    assert (e ∈ filter (λ e, 1 < count (f e) (f <$> l)) l) as Hin by (by apply list_elem_of_filter).
    rewrite H in Hin. by apply elem_of_nil in Hin.
  - intros H. apply filter_nil_iff. intros e _. specialize (H (f e)). lia.
Qed.

Lemma filter_count_dedup_nil {B} `{Heq : EqDecision B} (l : list B) :
  filter (λ e, 1 < count e l) (dedup l) = [] ↔ NoDup l.
Proof.
  rewrite NoDup_count. split.
  - intros H x. destruct (decide (1 < count x l)) as [Hx|]; [|lia]. exfalso.
    assert (x ∈ filter (λ e, 1 < count e l) (dedup l)) as Hin.
    { apply list_elem_of_filter. split; [done|]. apply elem_of_dedup, count_elem. lia. }
    rewrite H in Hin. by apply elem_of_nil in Hin.
  - intros H. apply filter_nil_iff. intros e _. specialize (H e). lia.
Qed.

Lemma mjoin_nil {A} (l : list (list A)) : mjoin l = [] ↔ ∀ x, x ∈ l → x = [].
Proof.
  induction l as [|x l IH]; cbn.
  - split; [set_solver|done].
  - rewrite app_nil. rewrite IH. setoid_rewrite elem_of_cons. naive_solver.
Qed.

Lemma mjoin_map_nil {A B} (f : A → list B) (l : list A) :
  mjoin (f <$> l) = [] ↔ ∀ x, x ∈ l → f x = [].
Proof. rewrite mjoin_nil. setoid_rewrite list_elem_of_fmap. naive_solver. Qed.

(** A key that no two elements share identifies the element. *)
Lemma NoDup_key_inj {A K} (key : A → K) l x y :
  NoDup (key <$> l) → x ∈ l → y ∈ l → key x = key y → x = y.
Proof.
  intros Hl Hx Hy Heq. apply list_elem_of_lookup in Hx as [i Hi]. apply list_elem_of_lookup in Hy as [j Hj].
  assert (i = j) as ->; [|congruence]. apply (NoDup_lookup _ _ _ (key x) Hl).
  - rewrite list_lookup_fmap, Hi. done.
  - rewrite list_lookup_fmap, Hj. simpl. by rewrite Heq.
Qed.

(** The measure of the loops that mark what they have seen. *)
Lemma size_unseen {K} `{Countable K} (U seen : gset K) x :
  x ∈ U → x ∉ seen → size (U ∖ ({[x]} ∪ seen)) < size (U ∖ seen).
Proof.
  intros Hx Hs. apply subset_size. split.
  - intros y. rewrite !elem_of_difference, elem_of_union. tauto.
  - intros Hsub. specialize (Hsub x). rewrite !elem_of_difference, elem_of_union in Hsub.
    set_solver.
Qed.

Lemma tc_split {A} (R : relation A) x z : tc R x z ↔ ∃ y, R x y ∧ rtc R y z.
Proof.
  split.
  - inversion 1; subst; eexists; (split; [done|]); [constructor|by apply tc_rtc].
  - intros (y & Hxy & Hyz). eapply tc_rtc_r; [by constructor|done].
Qed.

Lemma tc_mono {A} (R R' : relation A) x y : (∀ a b, R a b → R' a b) → tc R x y → tc R' x y.
Proof. intros Hsub. by apply (tc_congruence id). Qed.

Lemma tc_flip {A} (R : relation A) x y : tc (flip R) x y ↔ tc R y x.
Proof.
  assert (∀ (R : relation A) x y, tc (flip R) x y → tc R y x) as Himp.
  { clear. intros R x y. induction 1 as [x y H|x y z H _ IH]; [by constructor|]. by eapply tc_r. }
  split; [apply Himp|]. apply (Himp (flip R)).
Qed.

Lemma size_list_to_set_le {K} `{Countable K} (l : list K) : size (list_to_set l : gset K) ≤ length l.
Proof.
  induction l as [|x l IH]; cbn; [by rewrite size_empty|]. rewrite size_union_alt, size_singleton.
  assert (size (list_to_set l ∖ {[x]} : gset K) ≤ size (list_to_set l : gset K)); [|lia].
  apply subseteq_size. set_solver.
Qed.

(** A relation without cycles below a point, over finitely many points, goes down only finitely
    often from there. *)
Lemma acyclic_sn {A} `{Countable A} (R : relation A) (U : gset A) x :
  (∀ a b, R a b → b ∈ U) → (∀ c, rtc R x c → ¬ tc R c c) → sn R x.
Proof.
  intros HU Hac.
  set (R' := λ a b, R a b ∧ rtc R x a).
  assert (Hsub : ∀ a b, tc R' a b → tc R a b ∧ rtc R x a).
  { intros a b. induction 1 as [a b [Hab Ha]|a b c [Hab Ha] _ [IH _]]; split; try done.
    - by constructor.
    - by eapply tc_l. }
  assert (Hsn : sn R' x).
  { apply tc_finite_sn.
    - intros a [Ha Hx]%Hsub. by apply (Hac a).
    - exists (elements U). intros y [Hy _]%Hsub. apply elem_of_elements.
      apply tc_flip in Hy. destruct Hy as [? ? Hy|? ? ? Hy _]; by eapply HU. }
  clear Hac Hsub.
  assert (Hgen : ∀ y, sn R' y → rtc R x y → sn R y).
  { induction 1 as [y _ IH]. intros Hy. constructor. intros z Hz. apply IH; [by split|].
    by eapply rtc_r. }
  by apply Hgen.
Qed.

Lemma sn_irrefl {A} (R : relation A) x : sn R x → ¬ tc R x x.
Proof.
  induction 1 as [x _ IH]. intros (y & Hxy & Hyx)%tc_split. apply (IH y); [done|].
  eapply tc_rtc_l; [done|by constructor].
Qed.

(** ** Sums *)
Lemma sum_list_mono {A} (f f' : A → nat) l :
  (∀ x, x ∈ l → f' x ≤ f x) → sum_list (f' <$> l) ≤ sum_list (f <$> l).
Proof.
  induction l as [|x l IH]; intros Hle; cbn; [done|].
  assert (f' x ≤ f x) by (apply Hle; left). assert (sum_list (f' <$> l) ≤ sum_list (f <$> l)); [|lia].
  apply IH. intros y Hy. apply Hle. by right.
Qed.

(** One element less to count. *)
Lemma sum_list_drop {A} (f f' : A → nat) l x :
  x ∈ l → f' x = 0 → (∀ y, f' y ≤ f y) → sum_list (f' <$> l) + f x ≤ sum_list (f <$> l).
Proof.
  intros Hx H0 Hle. apply list_elem_of_split in Hx as (l1 & l2 & ->).
  pose proof (sum_list_mono f f' l1 (λ y _, Hle y)). pose proof (sum_list_mono f f' l2 (λ y _, Hle y)).
  rewrite !fmap_app, !sum_list_with_app. cbn. lia.
Qed.

(** ** What a dictionary holds was put there *)
Lemma dict_set_sub {K V} `{EqDecision K} (k : K) (v : V) d p :
  p ∈ dict_set k v d → p = (k, v) ∨ p ∈ d.
Proof.
  induction d as [|[k' v'] d IH]; cbn; [intros ->%list_elem_of_singleton; by left|].
  case_decide; rewrite !elem_of_cons; tauto.
Qed.

Lemma dict_of_sub {K V} `{EqDecision K} (l : list (K * V)) p : p ∈ dict_of l → p ∈ l.
Proof.
  unfold dict_of, dict_update. rewrite <- (app_nil_l l) at 2. generalize ([] : dict K V) as d.
  induction l as [|[k v] l IH]; intros d; cbn; [by rewrite app_nil_r|].
  intros Hp%IH. apply elem_of_app in Hp as [[->|Hp]%dict_set_sub|Hp]; set_solver.
Qed.

Lemma NoDup_mjoin {A B} (f : A → list B) (l : list A) :
  NoDup l → (∀ a, a ∈ l → NoDup (f a)) →
  (∀ a b x, a ∈ l → b ∈ l → x ∈ f a → x ∈ f b → a = b) → NoDup (mjoin (f <$> l)).
Proof.
  induction 1 as [|a l Ha Hl IH]; intros Hf Hd; cbn; [constructor|]. apply NoDup_app. split_and!.
  - apply Hf. left.
  - intros x Hx (fb & Hxb & (b & -> & Hb)%list_elem_of_fmap)%list_elem_of_join. apply Ha.
    by rewrite (Hd a b x ltac:(left) ltac:(by right) Hx Hxb).
  - apply IH; [intros b Hb; apply Hf; by right|]. intros b c x Hb Hc. apply Hd; by right.
Qed.

Lemma bind_nil_iff {A B} (f : A → list B) (l : list A) : l ≫= f = [] ↔ ∀ x, x ∈ l → f x = [].
Proof.
  induction l as [|x l IH]; cbn; [split; [by intros _ ? ?%elem_of_nil|done]|].
  rewrite app_nil, IH. setoid_rewrite elem_of_cons. naive_solver.
Qed.

Lemma fmap_nil_eq {A B} (f : A → B) (l : list A) : f <$> l = [] ↔ l = [].
Proof. by destruct l. Qed.

Lemma sort_by_nil {A} (leb : A → A → bool) (l : list A) : sort_by leb l = [] ↔ l = [].
Proof.
  split; [|by intros ->]. intros H%(f_equal length). rewrite length_sort_by in H. by destruct l.
Qed.

(** ** The order of tuples of any length *)
Fixpoint list_leb {A} (leb : A → A → bool) (l m : list A) : bool :=
  match l, m with
  | [], _ => true
  | _ :: _, [] => false
  | x :: l, y :: m => if leb x y && leb y x then list_leb leb l m else leb x y
  end.

(** Comparing the first elements: equal, or one strictly before the other. *)
Lemma list_leb_cons {A} (leb : A → A → bool) `{!TotalOrder leb} x l y m :
  list_leb leb (x :: l) (y :: m) ↔ (x = y ∧ list_leb leb l m) ∨ (leb x y ∧ ¬ leb y x).
Proof.
  assert (∀ z, leb z z = true) as Hr by (intros z; apply Is_true_eq_true, leb_refl; apply _).
  cbn. destruct (leb x y) eqn:E1, (leb y x) eqn:E2; cbn.
  - assert (x = y) as -> by (apply (leb_antisym (leb := leb)); [by rewrite E1|by rewrite E2]).
    naive_solver.
  - naive_solver.
  - split; [done|]. intros [[-> _]|[[] _]]. by rewrite Hr in E1.
  - split; [done|]. intros [[-> _]|[[] _]]. by rewrite Hr in E1.
Qed.

#[export] Instance list_order {A} (leb : A → A → bool) : TotalOrder leb → TotalPreorder (list_leb leb).
Proof.
  intros Ho. split.
  - induction x as [|x l IH]; intros [|y m]; [by left|by left|by right|].
    rewrite !(list_leb_cons leb).
    assert (x = y ∨ (leb x y ∧ ¬ leb y x) ∨ (leb y x ∧ ¬ leb x y)) as Hxy.
    { destruct (decide (leb x y)), (decide (leb y x)); [left; by apply (leb_antisym (leb := leb))|tauto..|].
      destruct (leb_total (leb := leb) x y); tauto. }
    specialize (IH m). naive_solver.
  - induction x as [|x l IH]; intros [|y m] [|z k]; try done. rewrite !(list_leb_cons leb).
    intros [[-> H1]|[H1 H1']] [[-> H2]|[H2 H2']]; [left; eauto|by right..|right].
    split; [by eapply leb_trans|]. intros Hzx. apply H1'. by eapply leb_trans.
Qed.

Lemma rtc_flip {A} (R : relation A) x y : rtc (flip R) x y ↔ rtc R y x.
Proof.
  assert (∀ (R : relation A) x y, rtc (flip R) x y → rtc R y x) as Himp.
  { clear. intros R x y. induction 1 as [|x y z H _ IH]; [done|]. by eapply rtc_r. }
  split; [apply Himp|]. apply (Himp (flip R)).
Qed.
