(* ===== verification/Data.v ===== *)
(** The values documents are made of: exact decimals, and JSON as [json.loads(text,
    parse_float=Decimal)] gives it (src/core/architecture_ir/serialization.py reads documents so).

    - [dec]: a Python [Decimal]; a finite one is [coefficient * 10^exponent] (the sign of a zero is
      not kept: [canonical_decimal] removes it, and nothing else the program reads shows it).
      [normalize] rounds to the 28 digits of the default context, half to even.
    - [json]: [None], booleans, integers, decimals, text, lists (or tuples) and objects, an object
      being a dictionary with text keys in insertion order. *)
From Stdlib Require Import Ascii Lia ZArith.
From S2P Require Import Prelude.

(** * Decimals *)
Inductive dec :=
  | DFin (coef exp : Z)
  | DInf (negative : bool)
  | DNaN.

#[export] Instance dec_eq_dec : EqDecision dec.
Proof. solve_decision. Defined.

Definition is_finite (d : dec) : bool := if d is DFin _ _ then true else false.

(** ** Digits *)
Definition pow10 (n : Z) : Z := (10 ^ n)%Z.

(** Division rounding half to even, for a positive divisor and a non-negative dividend. *)
Definition div_half_even (a b : Z) : Z :=
  let q := (a / b)%Z in
  let r := (a mod b)%Z in
  if (2 * r <? b)%Z then q
  else if (b <? 2 * r)%Z then (q + 1)%Z
  else if Z.even q then q else (q + 1)%Z.

(** A finite decimal rounded to [prec] significant digits (Python's [Context._fix]); rounding
    99..9 up gives 10..0, one digit too many, whose last digit is a zero. *)
Definition fix_dec (prec : Z) (coef exp : Z) : Z * Z :=
  let n := digits coef in
  if (n <=? prec)%Z then (coef, exp)
  else
    let c := div_half_even (Z.abs coef) (pow10 (n - prec)) in
    let e := (exp + (n - prec))%Z in
    let '(c, e) := if (digits c <=? prec)%Z then (c, e) else ((c / 10)%Z, (e + 1)%Z) in
    ((Z.sgn coef * c)%Z, e).

(** Trailing zeros moved into the exponent. *)
Fixpoint strip_zeros (fuel : nat) (coef exp : Z) : Z * Z :=
  match fuel with
  | O => (coef, exp)
  | S fuel =>
      if (coef mod 10 =? 0)%Z then strip_zeros fuel (coef / 10) (exp + 1) else (coef, exp)
  end.

Definition DEFAULT_PRECISION : Z := 28.

Definition trim (coef exp : Z) : dec :=
  if (coef =? 0)%Z then DFin 0 0
  else let '(c, e) := strip_zeros (Z.to_nat (digits coef)) coef exp in DFin c e.

(** [value.normalize()]. *)
Definition normalize (d : dec) : dec :=
  match d with
  | DFin coef exp => let '(c, e) := fix_dec DEFAULT_PRECISION coef exp in trim c e
  | _ => d
  end.

(** ** Comparison: exact, whatever the exponents *)
Definition dec_scaled (c1 e1 c2 e2 : Z) : Z * Z :=
  let e := Z.min e1 e2 in ((c1 * pow10 (e1 - e))%Z, (c2 * pow10 (e2 - e))%Z).

Definition dec_ltb (a b : dec) : bool :=
  match a, b with
  | DFin c1 e1, DFin c2 e2 => let '(x, y) := dec_scaled c1 e1 c2 e2 in (x <? y)%Z
  | DInf n, DFin _ _ => n
  | DFin _ _, DInf n => negb n
  | DInf n, DInf m => n && negb m
  | _, _ => false
  end.

(** Python's [==]: [Decimal("1.0") == Decimal("1")]; a NaN equals nothing. *)
Definition dec_eqb (a b : dec) : bool :=
  match a, b with
  | DFin c1 e1, DFin c2 e2 => let '(x, y) := dec_scaled c1 e1 c2 e2 in (x =? y)%Z
  | DInf n, DInf m => Bool.eqb n m
  | _, _ => false
  end.

Definition dec_of_Z (z : Z) : dec := DFin z 0.

(** [abs(d)] rounds to the context's precision. *)
Definition dec_abs (d : dec) : dec :=
  match d with
  | DFin c e => let '(c, e) := fix_dec DEFAULT_PRECISION (Z.abs c) e in DFin c e
  | DInf _ => DInf false
  | DNaN => DNaN
  end.

(** ** [format(d, "f")], for a finite decimal *)
Definition zeros (n : Z) : list ascii := replicate (Z.to_nat n) (ascii_of_nat 48).

(** The digits of the coefficient, with the zeros its exponent asks for. *)
Definition coefficient (coef : Z) : list ascii := padded (Z.to_nat (digits coef)) (Z.abs coef).

Definition plain_chars (coef exp : Z) : list ascii :=
  if (0 <=? exp)%Z then coefficient coef ++ (if (coef =? 0)%Z then [] else zeros exp)
  else
    let l := zeros (1 - exp - digits coef) ++ coefficient coef in
    let cut := length l - Z.to_nat (- exp) in
    take cut l ++ ascii_of_nat 46 :: drop cut l.

Definition dec_plain (coef exp : Z) : string :=
  (if (coef <? 0)%Z then "-" else "") +:+ String.string_of_list_ascii (plain_chars coef exp).

(** * JSON *)
#[local] Set Warnings "-register-all".

Inductive json :=
  | JNull
  | JBool (b : bool)
  | JInt (z : Z)
  | JDec (d : dec)
  | JStr (s : string)
  | JArr (l : list json)
  | JObj (m : dict string json).

Section json_ind.
Context (P : json → Prop).
Context (HNull : P JNull) (HBool : ∀ b, P (JBool b)) (HInt : ∀ z, P (JInt z))
  (HDec : ∀ d, P (JDec d)) (HStr : ∀ s, P (JStr s))
  (HArr : ∀ l, Forall P l → P (JArr l))
  (HObj : ∀ m, Forall (λ p, P p.2) m → P (JObj m)).

(** Induction through the nested lists. *)
Fixpoint json_ind' (j : json) : P j :=
  match j with
  | JNull => HNull
  | JBool b => HBool b
  | JInt z => HInt z
  | JDec d => HDec d
  | JStr s => HStr s
  | JArr l => HArr l ((fix go l : Forall P l :=
      match l with [] => Forall_nil_2 _ | x :: r => Forall_cons_2 _ _ _ (json_ind' x) (go r) end) l)
  | JObj m => HObj m ((fix go m : Forall (λ p, P p.2) m :=
      match m with
      | [] => Forall_nil_2 _
      | p :: r => Forall_cons_2 _ _ _ (json_ind' p.2) (go r)
      end) m)
  end.
End json_ind.

#[export] Instance json_eq_dec : EqDecision json.
Proof.
  refine (fix go (x y : json) : Decision (x = y) :=
    let go' : EqDecision json := @go in
    match x, y with
    | JNull, JNull => left eq_refl
    | JBool a, JBool b => cast_if (decide (a = b))
    | JInt a, JInt b => cast_if (decide (a = b))
    | JDec a, JDec b => cast_if (decide (a = b))
    | JStr a, JStr b => cast_if (decide (a = b))
    | JArr a, JArr b => cast_if (decide (a = b))
    | JObj a, JObj b => cast_if (decide (a = b))
    | _, _ => right _
    end); clear go' go; abstract congruence.
Defined.

(** ** Python's view of a value *)

(** [isinstance(value, int | Decimal)] and not [bool], as a decimal. *)
Definition as_number (j : json) : option dec :=
  match j with JInt z => Some (dec_of_Z z) | JDec d => Some d | _ => None end.

(** Numbers, booleans among them ([True == 1]). *)
Definition as_numeric (j : json) : option dec :=
  match j with JBool b => Some (dec_of_Z (if b then 1 else 0)) | _ => as_number j end.

(** [bool(value)]. *)
Definition truthy (j : json) : bool :=
  match j with
  | JNull => false
  | JBool b => b
  | JInt z => negb (z =? 0)%Z
  | JDec (DFin c _) => negb (c =? 0)%Z
  | JDec _ => true
  | JStr s => negb (String.eqb s "")
  | JArr l => if l is [] then false else true
  | JObj m => if m is [] then false else true
  end.

(** [x == y]: numbers by value, objects whatever the order of their keys. *)
Fixpoint py_eqb (x y : json) {struct x} : bool :=
  match x, y with
  | JNull, JNull => true
  | JStr a, JStr b => String.eqb a b
  | JArr a, JArr b =>
      (fix go a b := match a, b with
                     | [], [] => true
                     | x :: a, y :: b => py_eqb x y && go a b
                     | _, _ => false
                     end) a b
  | JObj a, JObj b =>
      (length a =? length b) &&
      (fix go a := match a with
                   | [] => true
                   | (k, x) :: a => match dict_get k b with
                                    | Some y => py_eqb x y
                                    | None => false
                                    end && go a
                   end) a
  | _, _ => match as_numeric x, as_numeric y with
            | Some a, Some b => dec_eqb a b
            | _, _ => false
            end
  end.

Definition is_str (j : json) : bool := if j is JStr _ then true else false.
Definition is_bool (j : json) : bool := if j is JBool _ then true else false.
Definition is_none (j : json) : bool := if j is JNull then true else false.
Definition is_obj (j : json) : bool := if j is JObj _ then true else false.

(** An optional text as a value, and back. *)
Definition of_opt_str (o : option string) : json := match o with Some s => JStr s | None => JNull end.

(** * Facts: digits, rounding, normalizing *)
Lemma digits_aux_spec fuel z :
  (0 ≤ z)%Z → (z < 10 ^ Z.of_nat fuel)%Z → (0 < fuel)%nat →
  (z < 10 ^ digits_aux fuel z ∧ 1 ≤ digits_aux fuel z ∧ (z ≠ 0 → 10 ^ (digits_aux fuel z - 1) ≤ z))%Z.
Proof.
  revert z. induction fuel as [|fuel IH]; intros z Hz Hlt Hf; [lia|]. cbn [digits_aux].
  destruct (z <? 10)%Z eqn:E.
  - apply Z.ltb_lt in E. split_and!; simpl; lia.
  - apply Z.ltb_ge in E. destruct fuel as [|fuel]; [simpl in Hlt; lia|].
    destruct (IH (z / 10)%Z) as (H1 & H2 & H3).
    + apply Z.div_pos; lia.
    + apply Z.div_lt_upper_bound; [lia|].
      replace (10 * 10 ^ Z.of_nat (S fuel))%Z with (10 ^ Z.of_nat (S (S fuel)))%Z; [done|].
      rewrite <- Z.pow_succ_r by lia. f_equal; lia.
    + lia.
    + set (d := digits_aux (S fuel) (z / 10)) in *.
      assert (z / 10 ≠ 0)%Z as Hnz by (intros H; apply Z.div_small_iff in H; lia).
      split_and!; [|lia|].
      * rewrite Z.add_comm, Z.pow_add_r by lia.
        pose proof (Z.div_mod z 10). pose proof (Z.mod_pos_bound z 10). lia.
      * intros _. specialize (H3 Hnz). replace (1 + d - 1)%Z with (Z.succ (d - 1)) by lia.
        rewrite Z.pow_succ_r by lia.
        pose proof (Z.div_mod z 10). pose proof (Z.mod_pos_bound z 10). lia.
Qed.

Lemma digits_spec z :
  (Z.abs z < 10 ^ digits z ∧ 1 ≤ digits z ∧ (z ≠ 0 → 10 ^ (digits z - 1) ≤ Z.abs z))%Z.
Proof.
  unfold digits. pose proof (digits_aux_spec (Z.to_nat (Z.log2 (Z.abs z)) + 1) (Z.abs z)) as H.
  destruct H as (H1 & H2 & H3); [lia| |lia|split_and!; [done|done|lia]].
  destruct (decide (z = 0%Z)) as [->|]; [done|].
  pose proof (Z.log2_nonneg (Z.abs z)).
  rewrite Nat2Z.inj_add, Z2Nat.id by done. simpl (Z.of_nat 1).
  destruct (Z.log2_spec (Z.abs z)) as [_ Hl]; [lia|].
  eapply Z.lt_le_trans; [exact Hl|]. rewrite <- Z.add_1_r. apply Z.pow_le_mono_l. lia.
Qed.

Lemma digits_le z n : (1 ≤ n)%Z → (digits z ≤ n)%Z ↔ (Z.abs z < 10 ^ n)%Z.
Proof.
  intros Hn. destruct (digits_spec z) as (H1 & H2 & H3). split; intros H.
  - eapply Z.lt_le_trans; [exact H1|]. apply Z.pow_le_mono_r; lia.
  - destruct (decide (z = 0%Z)) as [->|Hz]; [done|]. specialize (H3 Hz).
    destruct (Z.le_gt_cases (digits z) n); [done|].
    assert (10 ^ n ≤ 10 ^ (digits z - 1))%Z by (apply Z.pow_le_mono_r; lia). lia.
Qed.

Lemma div_half_even_bound a b n :
  (0 ≤ a → 0 < b → a < n * b → 0 ≤ div_half_even a b ≤ n)%Z.
Proof.
  intros Ha Hb Hn. unfold div_half_even.
  assert (a / b < n)%Z by (apply Z.div_lt_upper_bound; lia).
  pose proof (Z.div_pos a b). repeat case_match; lia.
Qed.

Lemma fix_dec_digits prec c e :
  (1 ≤ prec → digits (fix_dec prec c e).1 ≤ prec)%Z.
Proof.
  intros Hp. unfold fix_dec. destruct (digits c <=? prec)%Z eqn:E; [simpl; lia|].
  apply Z.leb_gt in E. destruct (digits_spec c) as (H1 & _ & _).
  set (q := div_half_even (Z.abs c) (pow10 (digits c - prec))).
  assert (0 ≤ q ≤ 10 ^ prec)%Z as Hq.
  { apply div_half_even_bound; [lia|unfold pow10; lia|]. unfold pow10.
    rewrite <- Z.pow_add_r by lia. by replace (prec + (digits c - prec))%Z with (digits c) by lia. }
  assert (∀ x, 0 ≤ x → x < 10 ^ prec → digits (Z.sgn c * x) ≤ prec)%Z as Hd.
  { intros x ? ?. apply digits_le; [done|]. rewrite Z.abs_mul. destruct c; simpl; lia. }
  destruct (digits q <=? prec)%Z eqn:Eq; simpl.
  - apply Z.leb_le, digits_le in Eq; [|done]. apply Hd; lia.
  - apply Hd; [apply Z.div_pos; lia|]. apply Z.div_lt_upper_bound; lia.
Qed.

Lemma strip_zeros_spec fuel c e :
  c ≠ 0%Z → (digits c ≤ Z.of_nat fuel)%Z →
  let '(c', _) := strip_zeros fuel c e in
  (c' mod 10 ≠ 0 ∧ Z.abs c' ≤ Z.abs c)%Z.
Proof.
  revert c e. induction fuel as [|fuel IH]; intros c e Hc Hd.
  - destruct (digits_spec c). lia.
  - cbn [strip_zeros]. destruct (c mod 10 =? 0)%Z eqn:E.
    + apply Z.eqb_eq in E. pose proof (Z.div_mod c 10 ltac:(lia)) as Hdm.
      assert (c / 10 ≠ 0)%Z by lia.
      assert (Z.abs (c / 10) * 10 = Z.abs c)%Z as Habs by lia.
      specialize (IH (c / 10)%Z (e + 1)%Z). destruct (strip_zeros fuel _ _) as [c' e'].
      destruct IH as [H1 H2]; [done| |split; [done|lia]].
      destruct (digits_spec c) as (Hd1 & Hd2 & Hd3).
      assert (1 ≤ Z.of_nat fuel)%Z.
      { destruct fuel; [|lia]. assert (digits c ≤ 1)%Z as Hle by lia. apply digits_le in Hle; lia. }
      apply digits_le; [done|]. apply (Z.mul_lt_mono_pos_r 10); [lia|]. rewrite Habs.
      rewrite Z.mul_comm, <- Z.pow_succ_r by lia.
      eapply Z.lt_le_trans; [exact Hd1|]. apply Z.pow_le_mono_r; lia.
    + apply Z.eqb_neq in E. split; [done|lia].
Qed.

Lemma trim_fixed c e :
  trim c e = DFin 0 0 ∨
  ∃ c' e', trim c e = DFin c' e' ∧ c' ≠ 0%Z ∧ (c' mod 10 ≠ 0)%Z ∧ (Z.abs c' ≤ Z.abs c)%Z.
Proof.
  unfold trim. destruct (c =? 0)%Z eqn:E; [by left|]. right. apply Z.eqb_neq in E.
  destruct (digits_spec c) as (_ & Hd & _).
  pose proof (strip_zeros_spec (Z.to_nat (digits c)) c e E ltac:(lia)) as H.
  destruct (strip_zeros _ _ _) as [c' e']. exists c', e'. split_and!; try tauto.
  intros ->. by destruct H as [[] _].
Qed.

(** Normalizing is a projection. *)
Lemma normalize_idemp d : normalize (normalize d) = normalize d.
Proof.
  destruct d as [c e|n|]; try done. cbn [normalize].
  pose proof (fix_dec_digits DEFAULT_PRECISION c e ltac:(done)) as Hd.
  destruct (fix_dec DEFAULT_PRECISION c e) as [c1 e1]. simpl in Hd.
  destruct (trim_fixed c1 e1) as [->|(c2 & e2 & -> & Hnz & Hm & Hle)]; [done|].
  cbn [normalize]. unfold fix_dec.
  assert (digits c2 ≤ DEFAULT_PRECISION)%Z as Hd2.
  { apply digits_le; [done|]. apply digits_le in Hd; [|done]. lia. }
  rewrite (proj2 (Z.leb_le _ _) Hd2). unfold trim.
  rewrite (proj2 (Z.eqb_neq _ _) Hnz).
  destruct (digits_spec c2) as (_ & Hd' & _).
  destruct (Z.to_nat (digits c2)) eqn:Ef; [lia|]. cbn [strip_zeros].
  by rewrite (proj2 (Z.eqb_neq _ _) Hm).
Qed.
