(* ===== verification/Codecs.v ===== *)
(** UUIDs and times as text: what the readers and writers use of the Standard Library's [uuid] and
    [datetime].

    - [uuid_of text] is [str(uuid.UUID(text))], [None] where [UUID] raises [ValueError].
    - [fromisoformat], [isoformat] and [to_utc] are the [datetime] methods; a time whose UTC year
      leaves 1..9999 ([OverflowError] in Python) is not told apart. *)
From Stdlib Require Import Ascii ZArith.
From S2P Require Import Prelude Data.

Abbreviation chars := (list ascii).
Definition chars_of : string → chars := String.list_ascii_of_string.
Definition text_of : chars → string := String.string_of_list_ascii.

Definition char_eqb (c : ascii) (n : nat) : bool := code c =? n.
Definition slice (l : chars) (start len : nat) : chars := take len (drop start l).
Definition char_at (l : chars) (i n : nat) : bool :=
  match l !! i with Some c => char_eqb c n | None => false end.

(** * Integers in text *)
Definition digit_value (c : ascii) : option Z :=
  if is_digit c then Some (Z.of_nat (code c - 48))
  else if between 97 102 c then Some (Z.of_nat (code c - 87))
  else if between 65 70 c then Some (Z.of_nat (code c - 55))
  else None.

(** A run of digits in a base, most significant first. *)
Fixpoint digits_value (base acc : Z) (l : chars) : option Z :=
  match l with
  | [] => Some acc
  | c :: r =>
      v ← digit_value c;
      if (v <? base)%Z then digits_value base (acc * base + v)%Z r else None
  end.

(** ASCII decimal digits only, at least one. *)
Definition decimal_digits (l : chars) : option Z :=
  if l is [] then None else digits_value 10 0 l.

(** Digits with single underscores between them. *)
Fixpoint drop_underscores (after_digit : bool) (l : chars) : option chars :=
  match l with
  | [] => if after_digit then Some [] else None
  | c :: r =>
      if char_eqb c 95 then (if after_digit then drop_underscores false r else None)
      else rest ← drop_underscores true r; Some (c :: rest)
  end.

Definition drop_prefix_0x (l : chars) : chars :=
  match l with
  | a :: b :: r =>
      if char_eqb a 48 && (char_eqb b 120 || char_eqb b 88) then
        match r with c :: r' => if char_eqb c 95 then r' else r | [] => r end
      else l
  | _ => l
  end.

(** [int(text, 16)]. *)
Definition int16 (s : string) : option Z :=
  let l := chars_of (strip s) in
  let '(negative, l) :=
    match l with
    | c :: r => if char_eqb c 45 then (true, r) else if char_eqb c 43 then (false, r) else (false, l)
    | [] => (false, [])
    end in
  l ← drop_underscores false (drop_prefix_0x l);
  z ← digits_value 16 0 l;
  Some (if negative : bool then (- z)%Z else z).

(** * UUIDs *)

(** [text.replace(pattern, "")], for a non-empty pattern. *)
Fixpoint remove_all (fuel : nat) (pattern l : chars) : chars :=
  match fuel, l with
  | S fuel, c :: r =>
      if decide (take (length pattern) l = pattern) then remove_all fuel pattern (drop (length pattern) l)
      else c :: remove_all fuel pattern r
  | _, _ => l
  end.

Definition is_brace (c : ascii) : bool := char_eqb c 123 || char_eqb c 125.
Fixpoint drop_while (p : ascii → bool) (l : chars) : chars :=
  match l with c :: r => if p c then drop_while p r else l | [] => [] end.

Fixpoint hex_text (width : nat) (z : Z) : chars :=
  match width with
  | O => []
  | S width => hex_text width (z / 16) ++ [hex_digit (Z.to_nat (z mod 16))]
  end.

Definition uuid_of (s : string) : option string :=
  let replace p l := remove_all (length l) (chars_of p) l in
  let l := replace "uuid:" (replace "urn:" (chars_of s)) in
  let l := reverse (drop_while is_brace (reverse (drop_while is_brace l))) in
  let l := filter (λ c, code c ≠ 45) l in
  if length l =? 32 then
    z ← int16 (text_of l);
    if (0 <=? z)%Z && (z <? 2 ^ 128)%Z then
      let h := hex_text 32 z in
      Some (text_of (slice h 0 8) +:+ "-" +:+ text_of (slice h 8 4) +:+ "-" +:+ text_of (slice h 12 4)
            +:+ "-" +:+ text_of (slice h 16 4) +:+ "-" +:+ text_of (slice h 20 12))
    else None
  else None.

(** A UUID in canonical text: what [str(uuid)] gives. *)
Definition canonical_uuid (u : string) : Prop := uuid_of u = Some u.

(** * Times *)

(** A [datetime]; [dt_offset] is its offset from UTC in microseconds ([None]: naive). *)
Record datetime := {
  dt_year : Z; dt_month : Z; dt_day : Z;
  dt_hour : Z; dt_minute : Z; dt_second : Z; dt_microsecond : Z;
  dt_offset : option Z;
}.

#[export] Instance datetime_eq_dec : EqDecision datetime.
Proof. solve_decision. Defined.

(** ** The calendar *)
Definition is_leap (y : Z) : bool :=
  ((y mod 4 =? 0) && (negb (y mod 100 =? 0) || (y mod 400 =? 0)))%Z.

Definition days_before_month (leap : bool) (m : Z) : Z :=
  let extra := if leap && (2 <? m)%Z then 1%Z else 0%Z in
  (extra + nth (Z.to_nat (m - 1)) [0; 31; 59; 90; 120; 151; 181; 212; 243; 273; 304; 334] 365)%Z.

Definition days_in_month (y m : Z) : Z :=
  if (m =? 12)%Z then 31%Z
  else (days_before_month (is_leap y) (m + 1) - days_before_month (is_leap y) m)%Z.

(** [date.toordinal()] and [date.fromordinal(n)]. *)
Definition ymd2ord (y m d : Z) : Z :=
  let p := (y - 1)%Z in
  (p * 365 + p / 4 - p / 100 + p / 400 + days_before_month (is_leap y) m + d)%Z.

Definition ord2ymd (n : Z) : Z * Z * Z :=
  (let n := n - 1 in
   let '(n400, n) := (n / 146097, n mod 146097) in
   let '(n100, n) := (n / 36524, n mod 36524) in
   let '(n4, n) := (n / 1461, n mod 1461) in
   let '(n1, n) := (n / 365, n mod 365) in
   let y := n400 * 400 + 1 + n100 * 100 + n4 * 4 + n1 in
   if (n1 =? 4) || (n100 =? 4) then (y - 1, 12, 31)
   else
     let leap := (n1 =? 3) && (negb (n4 =? 24) || (n100 =? 3)) in
     let m := Z.shiftr (n + 50) 5 in
     let m := if n <? days_before_month leap m then m - 1 else m in
     (y, m, n - days_before_month leap m + 1))%Z.

Definition valid_date (y m d : Z) : bool :=
  ((1 <=? y) && (y <=? 9999) && (1 <=? m) && (m <=? 12) && (1 <=? d) && (d <=? days_in_month y m))%Z.

(** [date.fromisocalendar(year, week, day)]. *)
Definition from_isocalendar (y week day : Z) : option (Z * Z * Z) :=
  let first := ymd2ord y 1 1 in
  let long := ((first mod 7 =? 4) || ((first mod 7 =? 3) && is_leap y))%Z in
  if negb ((1 <=? y) && (y <=? 9999))%Z then None
  else if negb (((1 <=? week) && (week <=? 52)) || ((week =? 53) && long))%Z then None
  else if negb ((1 <=? day) && (day <=? 7))%Z then None
  else
    let weekday := ((first + 6) mod 7)%Z in
    let monday := (first - weekday + (if (3 <? weekday)%Z then 7 else 0))%Z in
    Some (ord2ymd (monday + (week - 1) * 7 + (day - 1))%Z).

(** ** Reading *)
Definition DASH : nat := 45.
Definition COLON : nat := 58.

(** The length of the date in an ISO text of at least 7 characters. *)
Definition date_length (l : chars) : option nat :=
  let n := length l in
  if n =? 7 then Some 7
  else if char_at l 4 DASH then
    if char_at l 5 87 then
      if (8 <? n) && char_at l 8 DASH then
        if n =? 9 then None
        else if match l !! 10 with Some c => is_digit c | None => false end then Some 8 else Some 10
      else Some 8
    else Some 10
  else if char_at l 4 87 then
    let run := length (take (n - 7) (drop 7 l)) - length (drop_while is_digit (drop 7 l)) in
    let idx := 7 + run in
    Some (if idx <? 9 then idx else if Nat.even idx then 7 else 8)
  else Some 8.

Definition parse_date (l : chars) : option (Z * Z * Z) :=
  y ← decimal_digits (slice l 0 4);
  if negb (length (slice l 0 4) =? 4) then None
  else
    let has_sep := char_at l 4 DASH in
    let pos := if has_sep then 5 else 4 in
    if char_at l pos 87 then
      if negb (length (slice l (pos + 1) 2) =? 2) then None
      else
        week ← decimal_digits (slice l (pos + 1) 2);
        let pos := pos + 3 in
        if length l <=? pos then from_isocalendar y week 1
        else if negb (Bool.eqb (char_at l pos DASH) has_sep) then None
        else
          day ← decimal_digits (drop (if has_sep then pos + 1 else pos) l);
          from_isocalendar y week day
    else
      month ← decimal_digits (slice l pos 2);
      if negb (Bool.eqb (char_at l (pos + 2) DASH) has_sep) then None
      else
        let rest := drop (if has_sep then pos + 3 else pos + 2) l in
        day ← decimal_digits rest;
        if (length (slice l pos 2) =? 2) && (length rest =? 2) && valid_date y month day
        then Some (y, month, day) else None.

(** The fraction of a second, to the microsecond; further digits are read and dropped. *)
Definition parse_fraction (l : chars) : option Z :=
  let kept := take 6 l in
  v ← decimal_digits kept;
  if forallb is_digit (drop 6 l) then Some (v * 10 ^ Z.of_nat (6 - length kept))%Z else None.

Definition parse_two (l : chars) (pos : nat) : option Z :=
  if length (slice l pos 2) =? 2 then decimal_digits (slice l pos 2) else None.

Definition fraction_from (l : chars) (pos : nat) (h m s : Z) : option (Z * Z * Z * Z) :=
  if length l <=? pos then Some (h, m, s, 0%Z)
  else if char_at l pos 46 || char_at l pos 44 then
    us ← parse_fraction (drop (pos + 1) l); Some (h, m, s, us)
  else None.

(** [HH[:?MM[:?SS[{.,}fff...]]]]. *)
Definition parse_time (l : chars) : option (Z * Z * Z * Z) :=
  h ← parse_two l 0;
  if length l =? 2 then Some (h, 0%Z, 0%Z, 0%Z)
  else
    let has_sep := char_at l 2 COLON in
    let step := if has_sep then 3 else 2 in
    m ← parse_two l step;
    let pos := step + 2 in
    if length l =? pos then Some (h, m, 0%Z, 0%Z)
    else if has_sep && negb (char_at l pos COLON) then None
    else
      let pos := if has_sep then pos + 1 else pos in
      s ← parse_two l pos;
      fraction_from l (pos + 2) h m s.

Definition find_char (n : nat) (l : chars) : option nat :=
  list_find (λ c, code c = n) l ≫= λ p, Some p.1.

(** The position of the time zone's sign (or [Z]), as the parser looks for it. *)
Definition zone_position (l : chars) : option nat :=
  match find_char 45 l, find_char 43 l with
  | Some i, _ => Some i
  | None, Some i => Some i
  | None, None => find_char 90 l
  end.

Definition microseconds (h m s us : Z) : Z := (((h * 60 + m) * 60 + s) * 1000000 + us)%Z.
Definition DAY : Z := 86400000000.

(** [Some None]: no time zone. *)
Definition parse_zone (l : chars) : option (option Z) :=
  match zone_position l with
  | None => Some None
  | Some i =>
      let rest := drop (i + 1) l in
      if char_at l i 90 then (if rest is [] then Some (Some 0%Z) else None)
      else if (length rest =? 0) || (length rest =? 1) || (length rest =? 3) then None
      else
        '(h, m, s, us) ← parse_time rest;
        let offset := microseconds h m s us in
        if (m <? 60)%Z && (s <? 60)%Z && (offset <? DAY)%Z then
          Some (Some (if char_at l i 45 then (- offset)%Z else offset))
        else None
  end.

Definition at_time (date : Z * Z * Z) (h m s us : Z) (offset : option Z) : datetime :=
  {| dt_year := date.1.1; dt_month := date.1.2; dt_day := date.2; dt_hour := h; dt_minute := m;
     dt_second := s; dt_microsecond := us; dt_offset := offset |}.

Definition fromisoformat (s : string) : option datetime :=
  let l := chars_of s in
  if length l <? 7 then None
  else
    n ← date_length l;
    date ← parse_date (take n l);
    let rest := drop (n + 1) l in
    if rest is [] then Some (at_time date 0 0 0 0 None)
    else
      let clock := match zone_position rest with Some i => take i rest | None => rest end in
      '(h, m, sec, us) ← parse_time clock;
      offset ← parse_zone rest;
      if ((h =? 24) && (m =? 0) && (sec =? 0) && (us =? 0))%Z then
        let next := ord2ymd (ymd2ord date.1.1 date.1.2 date.2 + 1) in
        if (next.1.1 <=? 9999)%Z then Some (at_time next 0 0 0 0 offset) else None
      else if ((h <? 24) && (m <? 60) && (sec <? 60))%Z then Some (at_time date h m sec us offset)
      else None.

(** ** Writing *)

Definition offset_text (offset : Z) : string :=
  let sign := if (offset <? 0)%Z then "-" else "+" in
  let seconds := (Z.abs offset / 1000000)%Z in
  let us := (Z.abs offset mod 1000000)%Z in
  sign +:+ text_of (padded 2 (seconds / 3600)) +:+ ":" +:+ text_of (padded 2 (seconds / 60 mod 60))
  +:+ (if (seconds mod 60 =? 0)%Z && (us =? 0)%Z then ""
       else ":" +:+ text_of (padded 2 (seconds mod 60))
            +:+ (if (us =? 0)%Z then "" else "." +:+ text_of (padded 6 us))).

Definition isoformat (d : datetime) : string :=
  text_of (padded 4 (dt_year d)) +:+ "-" +:+ text_of (padded 2 (dt_month d)) +:+ "-"
  +:+ text_of (padded 2 (dt_day d)) +:+ "T" +:+ text_of (padded 2 (dt_hour d)) +:+ ":"
  +:+ text_of (padded 2 (dt_minute d)) +:+ ":" +:+ text_of (padded 2 (dt_second d))
  +:+ (if (dt_microsecond d =? 0)%Z then "" else "." +:+ text_of (padded 6 (dt_microsecond d)))
  +:+ match dt_offset d with Some o => offset_text o | None => "" end.

(** [d.astimezone(UTC)], for a time with a time zone. *)
Definition to_utc (d : datetime) : datetime :=
  match dt_offset d with
  | None | Some 0%Z => d
  | Some offset =>
      let total := (ymd2ord (dt_year d) (dt_month d) (dt_day d) * DAY
                    + microseconds (dt_hour d) (dt_minute d) (dt_second d) (dt_microsecond d) - offset)%Z in
      let t := (total mod DAY)%Z in
      at_time (ord2ymd (total / DAY)) (t / 3600000000) (t / 60000000 mod 60) (t / 1000000 mod 60)
        (t mod 1000000) (Some 0%Z)
  end.

Example uuid_urn : uuid_of "{urn:uuid:12345678-1234-5678-1234-56781234567A}"
  = Some "12345678-1234-5678-1234-56781234567a".
Proof. vm_compute. reflexivity. Qed.

Example time_round_trip :
  (d ← fromisoformat "2026-03-01T00:30:00.5+01:00"; Some (isoformat (to_utc d)))
  = Some "2026-02-28T23:30:00.500000+00:00".
Proof. vm_compute. reflexivity. Qed.

Example time_week : (d ← fromisoformat "2020W101T24:00Z"; Some (isoformat d)) = Some "2020-03-03T00:00:00+00:00".
Proof. vm_compute. reflexivity. Qed.
