(* ===== verification/Errors.v ===== *)
(** Structural violations and the exceptions of the Architecture IR
    (src/core/architecture_ir/errors.py).

    A check returns its [Violation]s; [raise_if] raises [InvalidArchitecture] with them, deduplicated
    and in a stable order.  [py] is a computation that may raise; besides [InvalidArchitecture] and
    the domain's own errors, the exceptions that matter are the [TypeError]s of hashing an unhashable
    value or comparing values of different types, the [KeyError] of a missing key, the [OverflowError]
    of a time out of range and the database's [IntegrityError]. *)
From S2P Require Import Prelude Data.

Inductive ElementType := ARCHITECTURE | NODE | CONNECTION | ASSUMPTION | DECISION.

#[export] Instance ElementType_eq_dec : EqDecision ElementType.
Proof. solve_decision. Defined.

#[export, refine] Instance ElementType_enum : StrEnum ElementType := {
  members := [ARCHITECTURE; NODE; CONNECTION; ASSUMPTION; DECISION];
  value e := match e with
             | ARCHITECTURE => "architecture"
             | NODE => "node"
             | CONNECTION => "connection"
             | ASSUMPTION => "assumption"
             | DECISION => "decision"
             end;
}.
Proof. all: solve_enum. Defined.

(** [v_element_id] is whatever the document gave as an id ([JNull]: none). *)
Record Violation := {
  v_rule : string;
  v_message : string;
  v_field : option string;
  v_element : option ElementType;
  v_element_id : json;
}.

#[export] Instance Violation_eq_dec : EqDecision Violation.
Proof. solve_decision. Defined.

(** [Violation(rule, message, field)]. *)
Definition violation (rule message : string) (field : option string) : Violation :=
  {| v_rule := rule; v_message := message; v_field := field; v_element := None;
     v_element_id := JNull |}.

Definition violation_of (rule message : string) (field : option string) (element : ElementType)
    (id : json) : Violation :=
  {| v_rule := rule; v_message := message; v_field := field; v_element := Some element;
     v_element_id := id |}.

Definition with_field (v : Violation) (field : option string) : Violation :=
  {| v_rule := v_rule v; v_message := v_message v; v_field := field; v_element := v_element v;
     v_element_id := v_element_id v |}.

(** [f"{prefix}.{self.field}" if prefix and self.field else (prefix or self.field)]. *)
Definition prefixed (prefix field : option string) : option string :=
  match prefix, field with
  | Some p, Some f =>
      if String.eqb p "" then field
      else if String.eqb f "" then prefix
      else Some (p +:+ "." +:+ f)
  | Some p, None => if String.eqb p "" then None else prefix
  | None, _ => field
  end.

Definition within (v : Violation) (element : ElementType) (element_id : json)
    (prefix : option string) : Violation :=
  match v_element v with
  | Some _ => v
  | None =>
      {| v_rule := v_rule v; v_message := v_message v; v_field := prefixed prefix (v_field v);
         v_element := Some element; v_element_id := element_id |}
  end.

Definition all_within (vs : list Violation) (element : ElementType) (element_id : json)
    (prefix : option string) : list Violation :=
  (λ v, within v element element_id prefix) <$> vs.

(** * Ordering violations *)

(** [(self.element or "", self.element_id or "", self.field or "", self.rule)]. *)
Definition sort_key (v : Violation) : string * (json * (string * string)) :=
  (match v_element v with Some e => value e | None => "" end,
   (if truthy (v_element_id v) then v_element_id v else JStr "",
    (default "" (v_field v), v_rule v))).

(** Comparing the ids of two keys: text with text, numbers with numbers. *)
Definition id_leb (x y : json) : bool :=
  match x, y with
  | JStr a, JStr b => str_leb a b
  | JStr _, _ => true
  | _, JStr _ => false
  | _, _ => match as_numeric x, as_numeric y with
            | Some a, Some b => negb (dec_ltb b a)
            | _, _ => true
            end
  end.

Definition key_leb : string * (json * (string * string)) → string * (json * (string * string)) → bool :=
  lex str_leb (lex id_leb (lex str_leb str_leb)).

(** Lists and objects cannot be hashed. *)
Definition hashable (j : json) : bool :=
  match j with JArr _ | JObj _ => false | _ => true end.

(** Two keys whose comparison raises: same element, an id that is text and one that is a number. *)
Definition comparable (v w : Violation) : bool :=
  let '(e1, (i1, _)) := sort_key v in
  let '(e2, (i2, _)) := sort_key w in
  negb (String.eqb e1 e2) || Bool.eqb (is_str i1) (is_str i2).

(** * Exceptions *)
Inductive exn :=
  | InvalidArchitecture (violations : list Violation)
  | DomainError (code message : string) (details : dict string json)
  | Refused (reason message : string) (element_id : option string)
  | TypeError
  | KeyError
  | ValueError (message : string)
  | OverflowError
  | LookupError
  | AssertionError
  | IntegrityError (constraint : string).

Inductive py (A : Type) :=
  | Ok (value : A)
  | Raise (e : exn).
Arguments Ok {A} value.
Arguments Raise {A} e.

#[export] Instance py_ret : MRet py := @Ok.
#[export] Instance py_bind : MBind py := λ A B f m,
  match m with Ok a => f a | Raise e => Raise e end.
#[export] Instance py_fmap : FMap py := λ A B f m,
  match m with Ok a => Ok (f a) | Raise e => Raise e end.

Fixpoint py_map {A B} (f : A → py B) (l : list A) : py (list B) :=
  match l with
  | [] => Ok []
  | x :: r => y ← f x; ys ← py_map f r; Ok (y :: ys)
  end.

Definition is_ok {A} (m : py A) : bool := if m is Ok _ then true else false.

(** [ordered]: [dict.fromkeys] hashes every violation, [sorted] compares them. *)
Definition ordered (vs : list Violation) : py (list Violation) :=
  if forallb (λ v, hashable (v_element_id v)) vs
  then if forallb (λ v, forallb (comparable v) vs) vs
       then Ok (sort_by (on sort_key key_leb) (dedup vs))
       else Raise TypeError
  else Raise TypeError.

(** [raise InvalidArchitecture(violations)]: building the exception orders its violations. *)
Definition raise_invalid {A} (vs : list Violation) : py A :=
  vs ← ordered vs; Raise (InvalidArchitecture vs).

Definition raise_if (vs : list Violation) : py unit :=
  match vs with [] => Ok tt | _ => raise_invalid vs end.

(** A constructor: the checks, then the value they guarantee. *)
Definition construct {A} (problems : list Violation) (value : option A) : py A :=
  _ ← raise_if problems;
  match value with Some a => Ok a | None => Raise TypeError end.

(** * Facts *)
Lemma within_element v e i p : v_element (within v e i p) ≠ None.
Proof. unfold within. by destruct (v_element v) eqn:E; simpl; [rewrite E|]. Qed.

Lemma all_within_nil vs e i p : all_within vs e i p = [] ↔ vs = [].
Proof. unfold all_within. split; [apply fmap_nil_inv|by intros ->]. Qed.

Lemma ordered_nil_inv vs : ordered vs = Ok [] → vs = [].
Proof.
  unfold ordered. destruct (forallb _ vs); [|done]. destruct (forallb _ vs); [|done].
  intros [= Hs]. apply (f_equal length) in Hs. rewrite length_sort_by in Hs.
  destruct vs as [|v vs]; [done|]. exfalso.
  assert (v ∈ dedup (v :: vs)) as Hv by (apply elem_of_dedup; left).
  destruct (dedup (v :: vs)); [set_solver|done].
Qed.

(** A raised [InvalidArchitecture] names every violation, each once. *)
Lemma ordered_elem vs ws : ordered vs = Ok ws → (∀ v, v ∈ ws ↔ v ∈ vs) ∧ NoDup ws.
Proof.
  unfold ordered. destruct (forallb _ vs); [|done]. destruct (forallb _ vs); [|done].
  intros [= <-]. split.
  - intros v. by rewrite elem_of_sort_by, elem_of_dedup.
  - apply NoDup_sort_by, NoDup_dedup.
Qed.

Lemma raise_if_ok vs : raise_if vs = Ok tt ↔ vs = [].
Proof.
  destruct vs as [|v vs]; simpl; [done|]. split; [|done]. unfold raise_invalid.
  by destruct (ordered _).
Qed.

Lemma construct_ok {A} vs (o : option A) a : construct vs o = Ok a ↔ vs = [] ∧ o = Some a.
Proof.
  unfold construct. destruct (raise_if vs) as [[]|e] eqn:E; simpl.
  - apply raise_if_ok in E as ->. destruct o; naive_solver.
  - split; [done|]. intros [-> _]. simpl in E. done.
Qed.

Lemma py_bind_raise {A B} (r : py A) (f : A → py B) e :
  (r ≫= f) = Raise e → r = Raise e ∨ ∃ a, r = Ok a ∧ f a = Raise e.
Proof. destruct r as [a|x]; [right; by exists a|intros [= ->]; by left]. Qed.

Lemma py_bind_ok {A B} (m : py A) (f : A → py B) b :
  m ≫= f = Ok b ↔ ∃ a, m = Ok a ∧ f a = Ok b.
Proof. destruct m; simpl; naive_solver. Qed.

Lemma py_map_ok {A B} (f : A → py B) l l' :
  py_map f l = Ok l' ↔ Forall2 (λ x y, f x = Ok y) l l'.
Proof.
  revert l'. induction l as [|x l IH]; intros l'; simpl.
  - split; [intros [= <-]; constructor|by inversion 1].
  - rewrite py_bind_ok. split.
    + intros (y & Hy & (ys & Hys & [= <-])%py_bind_ok). constructor; [done|by apply IH].
    + inversion 1; subst. eexists. split; [done|]. apply py_bind_ok. eexists. by rewrite IH.
Qed.

Create Rewrite HintDb py.
#[export] Hint Rewrite @py_bind_ok @construct_ok @py_map_ok : py.

(** Break a successful computation into its steps. *)
Ltac py_inv :=
  repeat match goal with
  | H : _ ≫= _ = Ok _ |- _ => apply py_bind_ok in H as (? & ? & ?)
  | H : construct _ _ = Ok _ |- _ => apply construct_ok in H as [? ?]
  | H : raise_if _ = Ok _ |- _ => first [apply raise_if_ok in H | destruct (raise_if _) as [[]|] in H]
  | H : Ok _ = Ok _ |- _ => injection H as H; subst
  | H : Raise _ = Ok _ |- _ => discriminate H
  end.

(** * Checked values

    Every type of the IR is a frozen dataclass whose [__post_init__] normalizes the arguments, checks
    them and keeps them.  What its users rely on is that a value, given back as arguments
    ([replace(value)]), constructs itself: nothing a constructor keeps is refused or changed by it. *)
Class Dataclass {A X} (new : A → py X) (args : X → A) : Prop :=
  rebuild : ∀ a x, new a = Ok x → new (args x) = Ok x.

(** A value its constructor made. *)
Definition built {A X} (new : A → py X) (args : X → A) `{!Dataclass new args} (x : X) : Prop :=
  new (args x) = Ok x.

Lemma built_iff {A X} (new : A → py X) (args : X → A) `{!Dataclass new args} x :
  built new args x ↔ ∃ a, new a = Ok x.
Proof. split; [by eexists|]. intros [a Ha]. by apply (rebuild a). Qed.

#[export] Instance built_dec {A X} (new : A → py X) (args : X → A) `{!Dataclass new args}
  `{EqDecision X} x : Decision (built new args x).
Proof.
  unfold built. destruct (new (args x)) as [y|e]; [|by right].
  destruct (decide (y = x)) as [->|Hne]; [by left|]. right. congruence.
Defined.

(** The shape all the constructors share. *)
Lemma construct_rebuild {A X} (normalize : A → A) (problems : A → py (list Violation))
    (typed : A → option X) (args : X → A) :
  (∀ a x, typed a = Some x → args x = a) →
  (∀ a, problems (normalize a) = Ok [] → is_Some (typed (normalize a)) →
        normalize (normalize a) = normalize a) →
  Dataclass (λ a, let a := normalize a in ps ← problems a; construct ps (typed a)) args.
Proof.
  intros Hargs Hnorm a x. simpl. intros (ps & Hps & [-> Hx]%construct_ok)%py_bind_ok.
  rewrite (Hargs _ _ Hx), Hnorm by eauto. rewrite Hps. simpl. by rewrite Hx.
Qed.
