(* ===== verification/Values.v ===== *)
(** Value rules shared by the IR types (src/core/architecture_ir/values.py): identifiers, text,
    exact numbers, metadata and preserved JSON.  Each check returns violations instead of raising.

    Text is Latin-1 (see [Prelude]), on which the NFC normalization of [clean_line] and
    [clean_block] is the identity. *)
From Stdlib Require Import Ascii Lia.
From S2P Require Import Prelude Data Errors.

(** [^[A-Za-z0-9][A-Za-z0-9._:/-]{0,127}$] *)
Definition ELEMENT_ID : string → bool :=
  matches is_alnum (λ c, is_alnum c || one_of "._:/-" c) 127.
(** [^[a-z][a-z0-9_.-]{0,63}$] *)
Definition METADATA_KEY : string → bool :=
  matches is_lower (λ c, is_lower c || is_digit c || one_of "_.-" c) 63.

Definition MAX_NAME_LENGTH : nat := 100.
Definition MAX_DESCRIPTION_LENGTH : nat := 2000.
Definition MAX_METADATA_ENTRIES : nat := 32.
Definition MAX_METADATA_VALUE_LENGTH : nat := 500.
Definition MAX_DECIMAL_PLACES : Z := 9.
Definition MAX_MAGNITUDE : dec := DFin 1 15.

Definition id_problems (value : json) (field : string) : list Violation :=
  let refused :=
    [violation "invalid_id"
       (field +:+ " must be 1-128 letters, digits or . _ : / - and start with a letter or digit.")
       (Some field)] in
  match value with
  | JStr s => if ELEMENT_ID s then [] else refused
  | _ => refused
  end.

(** * Text *)

(** Control and format characters (Cc, Cf), below 256. *)
Definition is_control (c : ascii) : bool := (code c <? 32) || between 127 159 c || (code c =? 173).

Definition has_forbidden_characters (value : string) (allowed : string) : bool :=
  existsb (λ c, is_control c && negb (one_of allowed c)) (String.list_ascii_of_string value).

Definition BLOCK_CONTROLS : string := String (ascii_of_nat 10) (String (ascii_of_nat 9) "").

(** One line of text: whitespace collapsed, trimmed. *)
Definition clean_line (value : string) : string := join " " (split value).

(** CRLF to LF. *)
Fixpoint crlf_to_lf (l : list ascii) : list ascii :=
  match l with
  | a :: ((b :: r) as t) =>
      if (code a =? 13) && (code b =? 10) then b :: crlf_to_lf r else a :: crlf_to_lf t
  | _ => l
  end.

Definition clean_block (value : string) : string :=
  strip (String.string_of_list_ascii (crlf_to_lf (String.list_ascii_of_string value))).

Definition text_problems (value : json) (field : string) (max_length : nat)
    (required block : bool) : list Violation :=
  let missing := violation "required" (field +:+ " is required.") (Some field) in
  match value with
  | JNull => if required then [missing] else []
  | JStr s =>
      if String.eqb s "" && required then [missing]
      else if max_length <? String.length s then
        [violation "too_long" (field +:+ " must be at most " +:+ nat_text max_length +:+ " characters.")
           (Some field)]
      else if has_forbidden_characters s (if block then BLOCK_CONTROLS else "") then
        [violation "control_characters" (field +:+ " contains control characters.") (Some field)]
      else []
  | _ => [violation "not_a_string" (field +:+ " must be text.") (Some field)]
  end.

(** * Numbers *)

Definition decimal_places (value : dec) : Z :=
  match normalize value with DFin _ e => if (e <? 0)%Z then (- e)%Z else 0%Z | _ => 0%Z end.

Definition canonical_decimal (value : dec) : dec := normalize value.

Definition decimal_to_str (value : dec) : string :=
  match normalize value with
  | DFin c e => dec_plain c e
  | DInf n => if n then "-Infinity" else "Infinity"
  | DNaN => "NaN"
  end.

Definition exact_number_problems (value : json) (number : dec) (field : string) : list Violation :=
  if negb (is_finite number) then
    [violation "not_a_number" (field +:+ " must be a finite number.") (Some field)]
  else if negb (dec_ltb (dec_abs number) MAX_MAGNITUDE) then
    [violation "out_of_range" (field +:+ " is too large.") (Some field)]
  else
    match value with
    | JDec d =>
        if (MAX_DECIMAL_PLACES <? decimal_places d)%Z then
          [violation "too_precise"
             (field +:+ " has more than " +:+ Z_text MAX_DECIMAL_PLACES +:+ " decimal places.")
             (Some field)]
        else []
    | _ => []
    end.

Definition number_problems (value : json) (field : string) : list Violation :=
  match as_number value with
  | None => [violation "not_a_number" (field +:+ " must be an exact number.") (Some field)]
  | Some number => exact_number_problems value number field
  end.

(** * Mappings *)

(** A read-only copy, keys sorted. *)
Definition frozen {V} (mapping : dict string V) : dict string V := sort_by (on fst str_leb) mapping.

Definition metadata_problems (metadata : json) (field : string) : list Violation :=
  match metadata with
  | JObj m =>
      (if MAX_METADATA_ENTRIES <? length m then
         [violation "too_many"
            (field +:+ " has more than " +:+ nat_text MAX_METADATA_ENTRIES +:+ " entries.") (Some field)]
       else [])
      ++ mjoin ((λ '(key, value),
           if METADATA_KEY key then
             text_problems value (field +:+ "." +:+ key) MAX_METADATA_VALUE_LENGTH true false
           else
             [violation "invalid_key"
                (field +:+ " keys must be lower-case identifiers (e.g. team).") (Some field)]) <$> m)
  | _ => [violation "not_an_object" (field +:+ " must be an object of text values.") (Some field)]
  end.

(** * Preserved JSON *)
Definition MAX_JSON_DEPTH : nat := 5.
Definition MAX_JSON_STRING : nat := 1000.
Definition MAX_JSON_ITEMS : nat := 100.
Definition MAX_JSON_INTEGER : Z := 10 ^ 18.

(** Objects' keys sorted, to the allowed depth; past it the value is left as is. *)
Fixpoint freeze_json (value : json) (depth : nat) : json :=
  if MAX_JSON_DEPTH + 1 <? depth then value
  else
    match value with
    | JArr l => JArr ((λ v, freeze_json v (S depth)) <$> l)
    | JObj m => JObj (frozen ((λ p, (p.1, freeze_json p.2 (S depth))) <$> m))
    | _ => value
    end.

(** [[f i x for i, x in enumerate(l)]]. *)
Definition enumerate_map {A B} (f : nat → A → B) : nat → list A → list B :=
  fix go i l := match l with [] => [] | x :: r => f i x :: go (S i) r end.

Definition index_path (field : string) (i : nat) : string := field +:+ "[" +:+ nat_text i +:+ "]".

Fixpoint json_problems (value : json) (field : string) (depth : nat) : list Violation :=
  if MAX_JSON_DEPTH <? depth then
    [violation "too_deep" (field +:+ " is nested more than " +:+ nat_text MAX_JSON_DEPTH +:+ " levels.")
       (Some field)]
  else
    let too_many :=
      [violation "too_many" (field +:+ " has more than " +:+ nat_text MAX_JSON_ITEMS +:+ " items.")
         (Some field)] in
    match value with
    | JNull | JBool _ => []
    | JInt z =>
        if (Z.abs z <? MAX_JSON_INTEGER)%Z then []
        else [violation "out_of_range" (field +:+ " is too large.") (Some field)]
    | JStr _ => text_problems value field MAX_JSON_STRING false true
    | JArr l =>
        if MAX_JSON_ITEMS <? length l then too_many
        else mjoin (enumerate_map (λ i item, json_problems item (index_path field i) (S depth)) 0 l)
    | JObj m =>
        if MAX_JSON_ITEMS <? length m then too_many
        else mjoin ((λ p,
               if String.eqb p.1 "" || (64 <? String.length p.1) then
                 [violation "invalid_key" (field +:+ " has an invalid key.") (Some field)]
               else json_problems p.2 (field +:+ "." +:+ p.1) (S depth)) <$> m)
    | JDec _ =>
        [violation "unsupported_value"
           (field +:+ " must be text, an integer, true/false, null, a list or an object.") (Some field)]
    end.

(** * Facts *)
(** Cleaning is a projection: a value cleaned once is kept as it is. *)
Lemma clean_line_idemp s : clean_line (clean_line s) = clean_line s.
Proof. apply clean_words. Qed.

Definition no_cr (s : string) : Prop := Forall (λ c, code c ≠ 13) (String.list_ascii_of_string s).

Lemma crlf_to_lf_id l : Forall (λ c, code c ≠ 13) l → crlf_to_lf l = l.
Proof.
  induction 1 as [|c l Hc Hl IH]; [done|]. destruct l as [|d l]; [done|]. cbn [crlf_to_lf].
  rewrite (proj2 (Nat.eqb_neq _ _) Hc). simpl. f_equal. exact IH.
Qed.

Lemma clean_block_idemp s : no_cr (clean_block s) → clean_block (clean_block s) = clean_block s.
Proof.
  intros Hs. unfold clean_block at 1. rewrite crlf_to_lf_id by exact Hs. rewrite sla_las.
  apply strip_idemp.
Qed.

Lemma no_forbidden_no_cr s : has_forbidden_characters s BLOCK_CONTROLS = false → no_cr s.
Proof.
  unfold has_forbidden_characters, no_cr. intros H. apply Forall_forall. intros c Hc E.
  apply not_true_iff_false in H. apply H, existsb_exists. exists c.
  apply list_elem_of_In in Hc. split; [done|].
  pose proof (ascii_nat_embedding c) as Hc'. unfold code in E. rewrite E in Hc'. by subst c.
Qed.

(** Text that passed the checks of a block has no carriage return. *)
Lemma text_problems_no_cr s field n required :
  text_problems (JStr s) field n required true = [] → no_cr s.
Proof.
  simpl. intros H. apply no_forbidden_no_cr. repeat case_match; try done.
Qed.

Lemma canonical_decimal_idemp d : canonical_decimal (canonical_decimal d) = canonical_decimal d.
Proof. apply normalize_idemp. Qed.

Lemma normalize_finite d : is_finite (normalize d) = is_finite d.
Proof.
  destruct d as [c e| |]; try done. simpl. destruct (fix_dec _ c e) as [c' e'].
  destruct (trim_fixed c' e') as [->|(? & ? & -> & _)]; done.
Qed.

(** ** Frozen mappings *)
Lemma frozen_idemp {V} (m : dict string V) : frozen (frozen m) = frozen m.
Proof. apply sort_by_idemp, _. Qed.

Lemma frozen_ordered {V} (m : dict string V) : ordered_by (on fst str_leb) (frozen m).
Proof. apply sort_by_ordered, _. Qed.

Lemma elem_of_frozen {V} (m : dict string V) p : p ∈ frozen m ↔ p ∈ m.
Proof. apply elem_of_sort_by. Qed.

Lemma frozen_fmap {V W} (f : V → W) (m : dict string V) :
  frozen ((λ p, (p.1, f p.2)) <$> m) = (λ p, (p.1, f p.2)) <$> frozen m.
Proof. by apply sort_by_fmap. Qed.

Lemma frozen_fmap_idemp {V} (f : V → V) (m : dict string V) :
  (∀ p, p ∈ m → f (f p.2) = f p.2) →
  frozen ((λ p, (p.1, f p.2)) <$> frozen ((λ p, (p.1, f p.2)) <$> m))
  = frozen ((λ p, (p.1, f p.2)) <$> m).
Proof.
  intros Hf. rewrite !frozen_fmap, frozen_idemp, <- list_fmap_compose.
  apply list_fmap_ext. intros i p Hp. simpl. apply list_elem_of_lookup_2 in Hp.
  rewrite elem_of_frozen in Hp. by rewrite Hf.
Qed.

Lemma frozen_wf {V} (m : dict string V) : dict_wf (frozen m) ↔ dict_wf m.
Proof. unfold dict_wf, dict_keys, frozen. by rewrite sort_by_perm. Qed.

Lemma frozen_perm {V} (m m' : dict string V) : dict_wf m → m ≡ₚ m' → frozen m = frozen m'.
Proof. intros. apply (sort_on_unique fst str_leb); done. Qed.

Lemma frozen_eq {V} (m m' : dict string V) :
  dict_wf m → dict_wf m' → (∀ k, dict_get k m = dict_get k m') → frozen m = frozen m'.
Proof.
  intros Hm Hm' Heq. apply frozen_perm; [done|]. apply NoDup_Permutation.
  - by apply (NoDup_fmap_1 fst).
  - by apply (NoDup_fmap_1 fst).
  - intros [k v]. by rewrite <- !dict_get_wf, Heq.
Qed.

Lemma freeze_json_idemp v depth : freeze_json (freeze_json v depth) depth = freeze_json v depth.
Proof.
  revert depth. induction v as [| | | | |l IH|m IH] using json_ind'; intros depth;
    cbn [freeze_json]; destruct (MAX_JSON_DEPTH + 1 <? depth) eqn:E; cbn [freeze_json]; rewrite ?E;
    try done.
  - f_equal. rewrite <- list_fmap_compose. apply list_fmap_ext. intros i x Hx.
    rewrite Forall_forall in IH. apply IH. by eapply list_elem_of_lookup_2.
  - f_equal. apply (frozen_fmap_idemp (λ v, freeze_json v (S depth))). intros p Hp.
    rewrite Forall_forall in IH. by apply IH.
Qed.
