(* ===== verification/Provenance.v ===== *)
(** Where a value came from (src/core/architecture_ir/provenance.py).

    A constructor of the IR is a function from arguments to [py]: the arguments are what a reader
    hands over, a typed value where it converted one ([Typed]) and the document's own value where it
    could not ([Raw]); an [isinstance] check is the match on which of the two it is. *)
From S2P Require Import Prelude Data Codecs Errors Values.

Inductive raw (A : Type) := Typed (a : A) | Raw (j : json).
Arguments Typed {A} a.
Arguments Raw {A} j.

Definition typed {A} (r : raw A) : option A := match r with Typed a => Some a | Raw _ => None end.

(** An optional typed value: [None] is the document's [null]. *)
Definition of_option {A} (o : option A) : raw A :=
  match o with Some a => Typed a | None => Raw JNull end.

Definition typed_or_none {A} (r : raw A) : option (option A) :=
  match r with Typed a => Some (Some a) | Raw JNull => Some None | Raw _ => None end.

Lemma typed_or_none_of_option {A} (o : option A) : typed_or_none (of_option o) = Some o.
Proof. by destruct o. Qed.

(** [E(value) if isinstance(value, str) else value], kept where there is no such member. *)
Definition read_enum {E} `{StrEnum E} (j : json) : raw E :=
  match j with
  | JStr s => match enum_of s with Some e => Typed e | None => Raw j end
  | _ => Raw j
  end.

(** A text field, an optional one, a boolean, as the checked value holds them. *)
Definition as_str (j : json) : option string := match j with JStr s => Some s | _ => None end.
Definition as_opt_str (j : json) : option (option string) :=
  match j with JStr s => Some (Some s) | JNull => Some None | _ => None end.
Definition as_bool (j : json) : option bool := match j with JBool b => Some b | _ => None end.

(** [clean(value) or None], for text. *)
Definition clean_or_none (clean : string → string) (j : json) : json :=
  match j with
  | JStr s => let t := clean s in if String.eqb t "" then JNull else JStr t
  | _ => j
  end.

Definition clean_str (clean : string → string) (j : json) : json :=
  match j with JStr s => JStr (clean s) | _ => j end.

(** * Provenance *)
Definition MAX_REFERENCE_LENGTH : nat := 500.
Definition MAX_ACTOR_LENGTH : nat := 128.
Definition CONFIDENCE_PLACES : Z := 3.

Inductive ProvenanceSource :=
  | USER_INPUT | USER_EDIT | LLM_PROPOSAL | TERRAFORM | KUBERNETES | CLOUD_DISCOVERY
  | FILE_IMPORT | SYSTEM_DEFAULT | SCHEMA_MIGRATION.

#[export] Instance ProvenanceSource_eq_dec : EqDecision ProvenanceSource.
Proof. solve_decision. Defined.

#[export, refine] Instance ProvenanceSource_enum : StrEnum ProvenanceSource := {
  members := [USER_INPUT; USER_EDIT; LLM_PROPOSAL; TERRAFORM; KUBERNETES; CLOUD_DISCOVERY;
              FILE_IMPORT; SYSTEM_DEFAULT; SCHEMA_MIGRATION];
  value s := match s with
             | USER_INPUT => "user_input"
             | USER_EDIT => "user_edit"
             | LLM_PROPOSAL => "llm_proposal"
             | TERRAFORM => "terraform"
             | KUBERNETES => "kubernetes"
             | CLOUD_DISCOVERY => "cloud_discovery"
             | FILE_IMPORT => "file_import"
             | SYSTEM_DEFAULT => "system_default"
             | SCHEMA_MIGRATION => "schema_migration"
             end;
}.
Proof. all: solve_enum. Defined.

Definition DISCOVERED_SOURCES : list ProvenanceSource :=
  [TERRAFORM; KUBERNETES; CLOUD_DISCOVERY; FILE_IMPORT].
Definition UNVERIFIABLE_SOURCES : list ProvenanceSource := [LLM_PROPOSAL; SYSTEM_DEFAULT].

(** [confidence] is [None], an [int] or a [Decimal]. *)
Record Provenance := {
  source : ProvenanceSource;
  reference : option string;
  confidence : json;
  verified : bool;
  inferred : bool;
  actor : option string;
  recorded_at : option datetime;
}.

#[export] Instance Provenance_eq_dec : EqDecision Provenance.
Proof. solve_decision. Defined.

Definition discovered (p : Provenance) : bool := bool_decide (source p ∈ DISCOVERED_SOURCES).

Record ProvenanceArgs := {
  pa_source : raw ProvenanceSource;
  pa_reference : json;
  pa_confidence : json;
  pa_verified : json;
  pa_inferred : json;
  pa_actor : json;
  pa_recorded_at : raw datetime;
}.

Definition Provenance_args (p : Provenance) : ProvenanceArgs := {|
  pa_source := Typed (source p);
  pa_reference := of_opt_str (reference p);
  pa_confidence := confidence p;
  pa_verified := JBool (verified p);
  pa_inferred := JBool (inferred p);
  pa_actor := of_opt_str (actor p);
  pa_recorded_at := of_option (recorded_at p);
|}.

(** [self.source in UNVERIFIABLE_SOURCES]: hashing a list or an object raises. *)
Definition unverifiable (s : raw ProvenanceSource) : py bool :=
  match s with
  | Typed s => Ok (bool_decide (s ∈ UNVERIFIABLE_SOURCES))
  | Raw (JStr t) => Ok (bool_decide (t ∈ value <$> UNVERIFIABLE_SOURCES))
  | Raw j => if hashable j then Ok false else Raise TypeError
  end.

(** [f"{self.source}"], for a source that can be unverifiable. *)
Definition source_text (s : raw ProvenanceSource) : string :=
  match s with Typed s => value s | Raw (JStr t) => t | Raw _ => "" end.

Definition confidence_problems (a : ProvenanceArgs) : list Violation :=
  match pa_confidence a with
  | JNull =>
      if pa_source a is Typed LLM_PROPOSAL then
        [violation "required" "A model proposal must state its confidence." (Some "confidence")]
      else []
  | c =>
      match number_problems c "confidence", as_number c with
      | [], Some n =>
          if dec_ltb n (dec_of_Z 0) || dec_ltb (dec_of_Z 1) n then
            [violation "out_of_range" "confidence must be between 0 and 1." (Some "confidence")]
          else if (CONFIDENCE_PLACES <? decimal_places n)%Z then
            [violation "too_precise" "confidence has more than 3 decimal places." (Some "confidence")]
          else []
      | problems, _ => problems
      end
  end.

Definition flag_problems (flag : string) (j : json) : list Violation :=
  if is_bool j then []
  else [violation "not_a_boolean" (flag +:+ " must be true or false.") (Some flag)].

Definition is_true (j : json) : bool := if j is JBool true then true else false.

Definition recorded_at_problems (r : raw datetime) : list Violation :=
  match r with
  | Raw JNull => []
  | Typed {| dt_offset := Some _ |} => []
  | _ => [violation "invalid_timestamp" "recorded_at must be a time with a time zone."
            (Some "recorded_at")]
  end.

Definition Provenance_problems (a : ProvenanceArgs) : py (list Violation) :=
  cannot_verify ← (if is_true (pa_verified a) then unverifiable (pa_source a) else Ok false);
  Ok (
    (if pa_source a is Typed _ then []
     else [violation "invalid_value"
             ("source must be one of: " +:+ enum_text ProvenanceSource +:+ ".") (Some "source")])
    ++ text_problems (pa_reference a) "reference" MAX_REFERENCE_LENGTH false false
    ++ text_problems (pa_actor a) "actor" MAX_ACTOR_LENGTH false false
    ++ confidence_problems a
    ++ flag_problems "verified" (pa_verified a)
    ++ flag_problems "inferred" (pa_inferred a)
    ++ (if is_true (pa_verified a) && is_true (pa_inferred a) then
          [violation "contradictory" "A value cannot be both verified and inferred." (Some "verified")]
        else [])
    ++ (if cannot_verify : bool then
          [violation "unverifiable"
             ("A " +:+ source_text (pa_source a) +:+
              " cannot be verified; a person confirming it makes it a user_edit.") (Some "verified")]
        else [])
    ++ recorded_at_problems (pa_recorded_at a)).

(** [__post_init__]: the fields as they are kept. *)
Definition Provenance_normalize (a : ProvenanceArgs) : ProvenanceArgs := {|
  pa_source := pa_source a;
  pa_reference := clean_or_none clean_line (pa_reference a);
  pa_confidence := match pa_confidence a with
                   | JDec d => JDec (if is_finite d then canonical_decimal d else d)
                   | c => c
                   end;
  pa_verified := pa_verified a;
  pa_inferred := pa_inferred a;
  pa_actor := clean_or_none clean_line (pa_actor a);
  pa_recorded_at := pa_recorded_at a;
|}.

Definition Provenance_typed (a : ProvenanceArgs) : option Provenance :=
  s ← typed (pa_source a);
  r ← as_opt_str (pa_reference a);
  v ← as_bool (pa_verified a);
  i ← as_bool (pa_inferred a);
  who ← as_opt_str (pa_actor a);
  t ← typed_or_none (pa_recorded_at a);
  Some {| source := s; reference := r; confidence := pa_confidence a; verified := v;
          inferred := i; actor := who; recorded_at := t |}.

Definition Provenance_new (a : ProvenanceArgs) : py Provenance :=
  let a := Provenance_normalize a in
  problems ← Provenance_problems a;
  construct problems (Provenance_typed a).

(** * Facts *)
Lemma as_str_args j s : as_str j = Some s → JStr s = j.
Proof. destruct j; naive_solver. Qed.

Lemma as_opt_str_args j o : as_opt_str j = Some o → of_opt_str o = j.
Proof. destruct j; simpl; try done; by intros [= <-]. Qed.

Lemma as_bool_args j b : as_bool j = Some b → JBool b = j.
Proof. destruct j; naive_solver. Qed.

Lemma typed_args {A} (r : raw A) a : Provenance.typed r = Some a → Typed a = r.
Proof. destruct r; naive_solver. Qed.

Lemma typed_or_none_args {A} (r : raw A) o : typed_or_none r = Some o → of_option o = r.
Proof. destruct r as [a|[]]; simpl; try done; by intros [= <-]. Qed.

Create HintDb args.
#[export] Hint Resolve as_str_args as_opt_str_args as_bool_args typed_args typed_or_none_args : args.

(** [typed a = Some x → args x = a]: break the option monad, then each field by its own lemma. *)
Ltac solve_args :=
  repeat match goal with
  | H : _ ≫= _ = Some _ |- _ => apply bind_Some in H as (? & ? & ?)
  | H : Some _ = Some _ |- _ => injection H as H; subst
  end;
  try done;
  repeat match goal with
  | a : ?A |- _ = ?a => is_var a; destruct a
  end; simpl in *; f_equal; eauto with args.

(** ** Cleaning a field twice *)
Lemma clean_str_idemp clean j :
  (∀ s, j = JStr s → clean (clean s) = clean s) → clean_str clean (clean_str clean j) = clean_str clean j.
Proof. destruct j; simpl; try done. intros ->; done. Qed.

Lemma clean_or_none_idemp clean j :
  (∀ s, clean_or_none clean j = JStr (clean s) → clean (clean s) = clean s) →
  clean_or_none clean (clean_or_none clean j) = clean_or_none clean j.
Proof.
  destruct j; simpl; try done. destruct (String.eqb (clean s) "") eqn:E; simpl; [done|].
  intros H. by rewrite (H s), E.
Qed.

Lemma clean_line_or_none_idemp j :
  clean_or_none clean_line (clean_or_none clean_line j) = clean_or_none clean_line j.
Proof. apply clean_or_none_idemp. intros s _. apply clean_line_idemp. Qed.

Lemma clean_block_or_none_idemp j field n required :
  text_problems (clean_or_none clean_block j) field n required true = [] →
  clean_or_none clean_block (clean_or_none clean_block j) = clean_or_none clean_block j.
Proof.
  intros H. apply clean_or_none_idemp. intros s Hs. apply clean_block_idemp. rewrite Hs in H.
  by eapply text_problems_no_cr.
Qed.

Lemma clean_block_str_idemp j field n required :
  text_problems (clean_str clean_block j) field n required true = [] →
  clean_str clean_block (clean_str clean_block j) = clean_str clean_block j.
Proof.
  intros H. apply clean_str_idemp. intros s ->. apply clean_block_idemp.
  by eapply text_problems_no_cr.
Qed.

Lemma Provenance_typed_args a p : Provenance_typed a = Some p → Provenance_args p = a.
Proof. unfold Provenance_typed, Provenance_args. intros. solve_args. Qed.

#[export] Instance Provenance_dataclass : Dataclass Provenance_new Provenance_args.
Proof.
  apply construct_rebuild; [apply Provenance_typed_args|].
  intros a _ _. unfold Provenance_normalize; simpl. rewrite !clean_line_or_none_idemp. f_equal.
  destruct (pa_confidence a) as [| | |d| | |]; try done. destruct (is_finite d) eqn:E; simpl.
  - unfold canonical_decimal. by rewrite normalize_finite, E, normalize_idemp.
  - by rewrite E.
Qed.
