(* ===== verification/Traceability.v ===== *)
(** What an element answers to: requirements, decisions and assumptions
    (src/core/architecture_ir/traceability.py).

    A UUID is modelled by its canonical text ([str(uuid)]): equal UUIDs have equal texts, and the IR
    only compares and prints them. *)
From Stdlib Require Import Lia.
From S2P Require Import Prelude Data Errors Values Provenance.

Abbreviation uuid := string.

Definition MAX_REFERENCES : nat := 100.
Definition MAX_ASSUMPTION_LENGTH : nat := 1000.
Definition MAX_SUBJECTS : nat := 100.

(** * Requirement references *)
Record RequirementRef := { requirement_id : uuid; version : option Z }.

#[export] Instance RequirementRef_eq_dec : EqDecision RequirementRef.
Proof. solve_decision. Defined.

(** [(str(self.requirement_id), self.version or 0)]. *)
Definition ref_key (r : RequirementRef) : string * Z := (requirement_id r, default 0%Z (version r)).

Definition RequirementRef_problems (id : raw uuid) (version : json) : list Violation :=
  (if id is Typed _ then []
   else [violation "invalid_reference" "requirement_id must be a requirement's id."
           (Some "requirement_id")])
  ++ match version with
     | JNull => []
     | JInt n =>
         if (n <? 1)%Z then
           [violation "invalid_reference" "version must be a positive whole number." (Some "version")]
         else []
     | _ => [violation "invalid_reference" "version must be a positive whole number." (Some "version")]
     end.

Definition RequirementRef_typed (id : raw uuid) (version : json) : option RequirementRef :=
  i ← typed id;
  match version with
  | JNull => Some {| requirement_id := i; version := None |}
  | JInt n => Some {| requirement_id := i; version := Some n |}
  | _ => None
  end.

Definition RequirementRef_new (id : raw uuid) (version : json) : py RequirementRef :=
  construct (RequirementRef_problems id version) (RequirementRef_typed id version).

(** Deduplicated, in a stable order. *)
Definition sorted_refs (refs : list RequirementRef) : list RequirementRef :=
  sort_by (on ref_key (lex str_leb Z_leb)) (dedup refs).

Definition refs_problems (refs : list RequirementRef) (field_name : string) : list Violation :=
  if MAX_REFERENCES <? length refs then
    [violation "too_many"
       (field_name +:+ " has more than " +:+ nat_text MAX_REFERENCES +:+ " references.")
       (Some field_name)]
  else [].

(** * Subjects *)
Fixpoint all_str (l : list json) : option (list string) :=
  match l with
  | [] => Some []
  | JStr s :: r => t ← all_str r; Some (s :: t)
  | _ :: _ => None
  end.

(** Sorted and deduplicated when they are all text, else as given. *)
Definition normalized_ids (ids : json) : json :=
  match ids with
  | JArr l => match all_str l with Some ids => JArr (JStr <$> sorted_set ids) | None => ids end
  | _ => ids
  end.

Definition subject_problems (subject_ids : json) (field_name : string) : list Violation :=
  match subject_ids with
  | JArr l =>
      if MAX_SUBJECTS <? length l then
        [violation "too_many" (field_name +:+ " has more than " +:+ nat_text MAX_SUBJECTS +:+ " ids.")
           (Some field_name)]
      else mjoin (enumerate_map (λ i s, id_problems s (index_path field_name i)) 0 l)
  | _ => [violation "invalid_reference" (field_name +:+ " must be element ids.") (Some field_name)]
  end.

Definition as_ids (j : json) : option (list string) :=
  match j with JArr l => all_str l | _ => None end.

Definition of_ids (ids : list string) : json := JArr (JStr <$> ids).

(** * Decisions *)
Record DecisionRef := { decision_id : uuid; d_subject_ids : list string }.

#[export] Instance DecisionRef_eq_dec : EqDecision DecisionRef.
Proof. solve_decision. Defined.

Definition DecisionRef_problems (id : raw uuid) (subject_ids : json) : list Violation :=
  subject_problems subject_ids "subject_ids"
  ++ (if id is Typed _ then []
      else [violation "invalid_reference" "decision_id must be a decision's id." (Some "decision_id")]).

Definition DecisionRef_typed (id : raw uuid) (subject_ids : json) : option DecisionRef :=
  i ← typed id; s ← as_ids subject_ids; Some {| decision_id := i; d_subject_ids := s |}.

Definition DecisionRef_new (id : raw uuid) (subject_ids : json) : py DecisionRef :=
  let subject_ids := normalized_ids subject_ids in
  construct (DecisionRef_problems id subject_ids) (DecisionRef_typed id subject_ids).

(** * Assumptions *)
Record Assumption := {
  a_id : string;
  statement : string;
  a_provenance : Provenance;
  a_subject_ids : list string;
  a_requirement_refs : list RequirementRef;
}.

#[export] Instance Assumption_eq_dec : EqDecision Assumption.
Proof. solve_decision. Defined.

Record AssumptionArgs := {
  aa_id : json;
  aa_statement : json;
  aa_provenance : option Provenance;
  aa_subject_ids : json;
  aa_requirement_refs : list RequirementRef;
}.

Definition Assumption_args (a : Assumption) : AssumptionArgs := {|
  aa_id := JStr (a_id a);
  aa_statement := JStr (statement a);
  aa_provenance := Some (a_provenance a);
  aa_subject_ids := of_ids (a_subject_ids a);
  aa_requirement_refs := a_requirement_refs a;
|}.

Definition Assumption_problems (a : AssumptionArgs) : list Violation :=
  id_problems (aa_id a) "id"
  ++ text_problems (aa_statement a) "statement" MAX_ASSUMPTION_LENGTH true true
  ++ (if aa_provenance a is Some _ then []
      else [violation "required" "An assumption must say where it came from." (Some "provenance")])
  ++ subject_problems (aa_subject_ids a) "subject_ids"
  ++ refs_problems (aa_requirement_refs a) "requirement_refs".

Definition Assumption_normalize (a : AssumptionArgs) : AssumptionArgs := {|
  aa_id := aa_id a;
  aa_statement := clean_str clean_block (aa_statement a);
  aa_provenance := aa_provenance a;
  aa_subject_ids := normalized_ids (aa_subject_ids a);
  aa_requirement_refs := sorted_refs (aa_requirement_refs a);
|}.

Definition Assumption_typed (a : AssumptionArgs) : option Assumption :=
  i ← as_str (aa_id a);
  s ← as_str (aa_statement a);
  p ← aa_provenance a;
  ids ← as_ids (aa_subject_ids a);
  Some {| a_id := i; statement := s; a_provenance := p; a_subject_ids := ids;
          a_requirement_refs := aa_requirement_refs a |}.

Definition Assumption_new (a : AssumptionArgs) : py Assumption :=
  let a := Assumption_normalize a in
  construct (Assumption_problems a) (Assumption_typed a).

(** * Facts *)
Lemma ref_key_inj_nonneg r s :
  (∀ n, version r = Some n → (1 ≤ n)%Z) → (∀ n, version s = Some n → (1 ≤ n)%Z) →
  ref_key r = ref_key s → r = s.
Proof.
  destruct r as [i [n|]], s as [j [m|]]; unfold ref_key; simpl; intros Hr Hs Hk;
    simplify_eq; try done.
  - by specialize (Hr _ eq_refl).
  - by specialize (Hs _ eq_refl).
Qed.

Lemma sorted_refs_idemp refs : sorted_refs (sorted_refs refs) = sorted_refs refs.
Proof.
  unfold sorted_refs. rewrite (dedup_id (sort_by _ _)).
  - apply sort_by_idemp, _.
  - apply NoDup_sort_by, NoDup_dedup.
Qed.

Lemma elem_of_sorted_refs r refs : r ∈ sorted_refs refs ↔ r ∈ refs.
Proof. unfold sorted_refs. by rewrite elem_of_sort_by, elem_of_dedup. Qed.

Lemma all_str_map ids : all_str (JStr <$> ids) = Some ids.
Proof. induction ids as [|s ids IH]; [done|]. cbn [fmap list_fmap all_str] in *. by rewrite IH. Qed.

Lemma all_str_args l ids : all_str l = Some ids → JStr <$> ids = l.
Proof.
  revert ids. induction l as [|j l IH]; intros ids; simpl; [by intros [= <-]|].
  destruct j; try done. intros (t & Ht & [= <-])%bind_Some. simpl. f_equal. by apply IH.
Qed.

Lemma normalized_ids_idemp ids : normalized_ids (normalized_ids ids) = normalized_ids ids.
Proof.
  destruct ids as [| | | | |l|]; try done. simpl. destruct (all_str l) as [t|] eqn:E; simpl.
  - by rewrite all_str_map, sorted_set_idemp.
  - by rewrite E.
Qed.

Lemma as_ids_args j ids : as_ids j = Some ids → of_ids ids = j.
Proof. destruct j; simpl; try done. unfold of_ids. intros H%all_str_args. by rewrite H. Qed.
#[export] Hint Resolve as_ids_args : args.

(** The ids a reference keeps are in order, each once. *)
Lemma as_ids_normalized j ids :
  as_ids (normalized_ids j) = Some ids → ids = sorted_set ids.
Proof.
  destruct j as [| | | | |l|]; simpl; try done. destruct (all_str l) as [t|] eqn:E; simpl.
  - rewrite all_str_map. intros [= <-]. by rewrite sorted_set_idemp.
  - by rewrite E.
Qed.

Definition DecisionRef_args (d : DecisionRef) : raw uuid * json :=
  (Typed (decision_id d), of_ids (d_subject_ids d)).

#[export] Instance DecisionRef_dataclass :
  Dataclass (λ a, DecisionRef_new a.1 a.2) DecisionRef_args.
Proof.
  intros [i s] d. unfold DecisionRef_new; cbn [fst snd DecisionRef_args]. intros [Hp Ht]%construct_ok.
  assert (of_ids (d_subject_ids d) = normalized_ids s ∧ Typed (decision_id d) = i) as [Hs Hi].
  { unfold DecisionRef_typed in Ht. apply bind_Some in Ht as (i' & Hi & Ht).
    apply bind_Some in Ht as (s' & Hs & [= <-]). simpl. eauto with args. }
  rewrite Hs, Hi, normalized_ids_idemp, Hp. cbn. by rewrite Ht.
Qed.

Definition RequirementRef_args (r : RequirementRef) : raw uuid * json :=
  (Typed (requirement_id r), match version r with Some n => JInt n | None => JNull end).

#[export] Instance RequirementRef_dataclass :
  Dataclass (λ a, RequirementRef_new a.1 a.2) RequirementRef_args.
Proof.
  intros [i v] r. unfold RequirementRef_new; cbn [fst snd]. intros [Hp Ht]%construct_ok.
  assert (RequirementRef_args r = (i, v)) as Ha.
  { unfold RequirementRef_typed in Ht. apply bind_Some in Ht as (i' & Hi%typed_args & Ht).
    unfold RequirementRef_args. destruct v; try done; injection Ht as <-; simpl; by subst. }
  rewrite Ha; cbn [fst snd]. rewrite Hp. cbn. by rewrite Ht.
Qed.

Lemma Assumption_typed_args a x : Assumption_typed a = Some x → Assumption_args x = a.
Proof. unfold Assumption_typed, Assumption_args. intros. solve_args. Qed.

#[export] Instance Assumption_dataclass : Dataclass Assumption_new Assumption_args.
Proof.
  intros a x. unfold Assumption_new; simpl. intros [Hp Hx]%construct_ok.
  rewrite (Assumption_typed_args _ _ Hx).
  assert (Assumption_normalize (Assumption_normalize a) = Assumption_normalize a) as ->.
  - unfold Assumption_normalize; simpl. rewrite normalized_ids_idemp, sorted_refs_idemp. f_equal.
    unfold Assumption_problems in Hp. simpl in Hp.
    apply app_nil in Hp as [_ Hp]. apply app_nil in Hp as [Hp _]. by eapply clean_block_str_idemp.
  - rewrite Hp. simpl. by rewrite Hx.
Qed.
