(* ===== verification/Component.v ===== *)
(** What a node is and what a connection means: kinds, technologies, catalog references
    (src/core/architecture_ir/component.py) and connection semantics
    (src/core/architecture_ir/dependency.py). *)
From Stdlib Require Import Ascii.
From S2P Require Import Prelude Data Errors Values Provenance.

(** * Node kinds *)
Inductive NodeKind :=
  | CLIENT | CDN | LOAD_BALANCER | GATEWAY | SERVICE | WORKER | DATABASE | CACHE | QUEUE | STORAGE
  | OBSERVABILITY | EXTERNAL | BOUNDARY.

#[export] Instance NodeKind_eq_dec : EqDecision NodeKind.
Proof. solve_decision. Defined.

#[export, refine] Instance NodeKind_enum : StrEnum NodeKind := {
  members := [CLIENT; CDN; LOAD_BALANCER; GATEWAY; SERVICE; WORKER; DATABASE; CACHE; QUEUE; STORAGE;
              OBSERVABILITY; EXTERNAL; BOUNDARY];
  value k := match k with
             | CLIENT => "client"
             | CDN => "cdn"
             | LOAD_BALANCER => "load_balancer"
             | GATEWAY => "gateway"
             | SERVICE => "service"
             | WORKER => "worker"
             | DATABASE => "database"
             | CACHE => "cache"
             | QUEUE => "queue"
             | STORAGE => "storage"
             | OBSERVABILITY => "observability"
             | EXTERNAL => "external"
             | BOUNDARY => "boundary"
             end;
}.
Proof. all: solve_enum. Defined.

(** * Technologies *)
Definition lower_or_digit (c : ascii) : bool := is_lower c || is_digit c.

(** [^[a-z0-9][a-z0-9+._-]{0,63}$], [^[A-Za-z0-9][A-Za-z0-9._+-]{0,31}$] *)
Definition TECHNOLOGY_NAME : string → bool :=
  matches lower_or_digit (λ c, lower_or_digit c || one_of "+._-" c) 63.
Definition TECHNOLOGY_VERSION : string → bool :=
  matches is_alnum (λ c, is_alnum c || one_of "._+-" c) 31.
(** [^[a-z0-9][a-z0-9_.-]{0,63}(?:/[a-z0-9][a-z0-9_.-]{0,63}){0,3}$]: 1 to 4 segments. *)
Definition COMPONENT_REFERENCE (s : string) : bool :=
  let segments := split_on "/"%char s in
  (length segments <=? 4) &&
  forallb (matches lower_or_digit (λ c, lower_or_digit c || one_of "_.-" c) 63) segments.

Record Technology := { t_name : string; t_version : option string }.

#[export] Instance Technology_eq_dec : EqDecision Technology.
Proof. solve_decision. Defined.

Definition Technology_problems (name version : json) : list Violation :=
  (if match name with JStr s => TECHNOLOGY_NAME s | _ => false end then []
   else [violation "invalid_technology"
           "The technology must be a lower-case identifier, e.g. postgresql or aws-alb." (Some "name")])
  ++ (if match version with JNull => true | JStr s => TECHNOLOGY_VERSION s | _ => false end then []
      else [violation "invalid_technology" "The version must be a short identifier, e.g. 16 or 7.2."
              (Some "version")]).

Definition Technology_typed (name version : json) : option Technology :=
  n ← as_str name; v ← as_opt_str version; Some {| t_name := n; t_version := v |}.

Definition Technology_new (name version : json) : py Technology :=
  let name := clean_str (λ s, lower (strip s)) name in
  let version := clean_or_none strip version in
  construct (Technology_problems name version) (Technology_typed name version).

Definition component_problems (j : json) (field : string) : list Violation :=
  if match j with JNull => true | JStr s => COMPONENT_REFERENCE s | _ => false end then []
  else [violation "invalid_component_reference"
          "The component reference must be a catalog path, e.g. databases/postgresql." (Some field)].

(** * Connection kinds *)
Inductive ConnectionKind := REQUEST | PUBLISH | CONSUME | DATA_ACCESS | REPLICATION | DEPENDENCY.

#[export] Instance ConnectionKind_eq_dec : EqDecision ConnectionKind.
Proof. solve_decision. Defined.

#[export, refine] Instance ConnectionKind_enum : StrEnum ConnectionKind := {
  members := [REQUEST; PUBLISH; CONSUME; DATA_ACCESS; REPLICATION; DEPENDENCY];
  value k := match k with
             | REQUEST => "request"
             | PUBLISH => "publish"
             | CONSUME => "consume"
             | DATA_ACCESS => "data_access"
             | REPLICATION => "replication"
             | DEPENDENCY => "dependency"
             end;
}.
Proof. all: solve_enum. Defined.

Definition communicates (k : ConnectionKind) : bool := if k is DEPENDENCY then false else true.

Inductive Interaction := SYNCHRONOUS | ASYNCHRONOUS.

#[export] Instance Interaction_eq_dec : EqDecision Interaction.
Proof. solve_decision. Defined.

#[export, refine] Instance Interaction_enum : StrEnum Interaction := {
  members := [SYNCHRONOUS; ASYNCHRONOUS];
  value i := match i with SYNCHRONOUS => "synchronous" | ASYNCHRONOUS => "asynchronous" end;
}.
Proof. all: solve_enum. Defined.

(** [^[a-z0-9][a-z0-9+._-]{0,31}$] *)
Definition PROTOCOL : string → bool :=
  matches lower_or_digit (λ c, lower_or_digit c || one_of "+._-" c) 31.

Definition ENCRYPTED_PROTOCOLS : list string :=
  ["https"; "wss"; "amqps"; "mqtts"; "rediss"; "ldaps"; "ftps"; "smtps"].

(** * Facts *)
Definition Technology_args (t : Technology) : json * json := (JStr (t_name t), of_opt_str (t_version t)).

#[export] Instance Technology_dataclass :
  Dataclass (λ a, Technology_new a.1 a.2) Technology_args.
Proof.
  intros [n v] t. unfold Technology_new; cbn [fst snd]. intros [Hp Ht]%construct_ok.
  assert (Technology_args t = (clean_str (λ s, lower (strip s)) n, clean_or_none strip v)) as Ha.
  { unfold Technology_typed in Ht. apply bind_Some in Ht as (n' & Hn%as_str_args & Ht).
    apply bind_Some in Ht as (v' & Hv%as_opt_str_args & [= <-]).
    unfold Technology_args. simpl. by rewrite Hn, Hv. }
  rewrite Ha; cbn [fst snd].
  rewrite clean_str_idemp by (intros; apply lower_strip_idemp).
  rewrite clean_or_none_idemp by (intros; apply strip_idemp).
  rewrite Hp. cbn. by rewrite Ht.
Qed.
