(* ===== verification/Configuration.v ===== *)
(** Structured configuration of nodes and connections
    (src/core/architecture_ir/configuration.py): the properties the IR knows, with their type, range
    and owners, and the three parts of a configuration: known [values], properties whose value is
    [unknown], and settings preserved as found ([extra]).

    A read-only mapping is a dictionary sorted by key, a frozenset a sorted list without duplicates:
    one representation per value. *)
From Stdlib Require Import Ascii.
From S2P Require Import Prelude Data Errors Values Provenance Traceability Component.

(** [^[A-Za-z][A-Za-z0-9_.-]{0,63}$] *)
Definition PROPERTY_KEY : string → bool :=
  matches is_alpha (λ c, is_alnum c || one_of "_.-" c) 63.

Definition MAX_PROPERTIES : nat := 100.
Definition MAX_TEXT_VALUE : nat := 200.
Definition MAX_LIST_VALUES : nat := 50.

Definition EXPOSURES : list string := ["public"; "internal"; "private"].
Definition AUTHENTICATION_MECHANISMS : list string :=
  ["none"; "password"; "api_key"; "token"; "oauth2"; "mtls"; "iam"; "other"].
Definition DATA_CLASSIFICATIONS : list string := ["public"; "internal"; "confidential"; "restricted"].
Definition SECRET_SOURCES : list string :=
  ["secret_manager"; "environment"; "file"; "configuration"; "hardcoded"].
Definition TRUST_LEVELS : list string := ["untrusted"; "partner"; "internal"; "restricted"].
Definition METRIC_KINDS : list string :=
  ["errors"; "latency"; "throughput"; "saturation"; "resources"; "availability"].
Definition TELEMETRY_SIGNALS : list string := ["logs"; "metrics"; "traces"].
Definition CONNECTION_OWNER : string := "connection".

(** The formats a text property may have. *)
Inductive Pattern :=
  | REGION | PRICING_IDENTIFIER | PRICING_SKU | REDUNDANCY_GROUP | METRIC_KIND | ALERT_SIGNAL
  | TELEMETRY_SIGNAL | OWNER.

Definition fullmatch (p : Pattern) : string → bool :=
  match p with
  | REGION => matches lower_or_digit (λ c, lower_or_digit c || one_of "-" c) 62
  | PRICING_SKU => matches is_alnum (λ c, is_alnum c || one_of "._:/+-" c) 127
  | PRICING_IDENTIFIER | REDUNDANCY_GROUP | OWNER =>
      matches lower_or_digit (λ c, lower_or_digit c || one_of "._-" c) 63
  | METRIC_KIND => λ s, bool_decide (s ∈ METRIC_KINDS)
  | ALERT_SIGNAL => λ s, bool_decide (s ∈ METRIC_KINDS ++ ["health"; "logs"])
  | TELEMETRY_SIGNAL => λ s, bool_decide (s ∈ TELEMETRY_SIGNALS)
  end.

Inductive ValueType := INTEGER | DECIMAL | BOOLEAN | TEXT | CHOICE | TEXT_LIST.

Record PropertySpec := {
  p_name : string;
  p_type : ValueType;
  p_applies_to : list string;
  p_description : string;
  p_minimum : option dec;
  p_maximum : option dec;
  p_choices : list string;
  p_pattern : option Pattern;
}.

(** * Checking a value against its specification *)

(** [str] of a bound: every bound has exponent 0 or a few decimal places. *)
Definition bound_text (d : dec) : string := match d with DFin c e => dec_plain c e | _ => "" end.

Definition bound_problems (spec : PropertySpec) (n : dec) (path : string) : list Violation :=
  let at_most :=
    match p_maximum spec with
    | Some high =>
        if dec_ltb high n then
          [violation "out_of_range" (path +:+ " must be at most " +:+ bound_text high +:+ ".") (Some path)]
        else []
    | None => []
    end in
  match p_minimum spec with
  | Some low =>
      if dec_ltb n low then
        [violation "out_of_range" (path +:+ " must be at least " +:+ bound_text low +:+ ".") (Some path)]
      else at_most
  | None => at_most
  end.

Definition spec_number_problems (spec : PropertySpec) (value : json) (path : string) :
    list Violation :=
  match p_type spec, value with
  | INTEGER, JInt _ | DECIMAL, _ =>
      match number_problems value path, as_number value with
      | [], Some n => bound_problems spec n path
      | problems, _ => problems
      end
  | _, _ => [violation "invalid_value" (path +:+ " must be a whole number.") (Some path)]
  end.

Definition spec_text_problems (spec : PropertySpec) (value : json) (path : string) : list Violation :=
  match text_problems value path MAX_TEXT_VALUE true false, p_pattern spec, value with
  | [], Some p, JStr s =>
      if fullmatch p s then []
      else [violation "invalid_value" (path +:+ " is not in the expected format.") (Some path)]
  | problems, _, _ => problems
  end.

Definition spec_list_problems (spec : PropertySpec) (value : json) (path : string) : list Violation :=
  let refused :=
    [violation "invalid_value"
       (path +:+ " must be a list of at most " +:+ nat_text MAX_LIST_VALUES +:+ " values.")
       (Some path)] in
  match value with
  | JArr l =>
      if MAX_LIST_VALUES <? length l then refused
      else mjoin (enumerate_map (λ i v, spec_text_problems spec v (index_path path i)) 0 l)
  | _ => refused
  end.

(** Testing membership of a set hashes the value: an object, or a tuple holding a list or an
    object, raises. *)
Definition hashable_value (j : json) : bool :=
  match j with JArr l => forallb hashable l | _ => hashable j end.

Definition spec_problems (spec : PropertySpec) (value : json) (path : string) : py (list Violation) :=
  match p_type spec with
  | INTEGER | DECIMAL => Ok (spec_number_problems spec value path)
  | BOOLEAN =>
      Ok (if is_bool value then []
          else [violation "invalid_value" (path +:+ " must be true or false.") (Some path)])
  | CHOICE =>
      if hashable_value value then
        Ok (if match value with JStr s => bool_decide (s ∈ p_choices spec) | _ => false end then []
            else [violation "invalid_value"
                    (path +:+ " must be one of: " +:+
                     join ", " (sort_by str_leb (p_choices spec)) +:+ ".") (Some path)])
      else Raise TypeError
  | TEXT => Ok (spec_text_problems spec value path)
  | TEXT_LIST => Ok (spec_list_problems spec value path)
  end.

(** * The properties *)
Definition spec (name : string) (type : ValueType) (applies_to : list string) (description : string)
    (minimum maximum : option dec) (choices : list string) (pattern : option Pattern) : PropertySpec :=
  {| p_name := name; p_type := type; p_applies_to := applies_to; p_description := description;
     p_minimum := minimum; p_maximum := maximum; p_choices := choices; p_pattern := pattern |}.

Definition kinds (l : list NodeKind) : list string := value <$> dedup l.
Definition without (l r : list NodeKind) : list NodeKind := filter (λ k, k ∉ r) l.

Definition COMPUTE : list NodeKind := [SERVICE; WORKER; GATEWAY].
Definition RUNNING : list NodeKind := COMPUTE ++ [LOAD_BALANCER; DATABASE; CACHE; QUEUE; OBSERVABILITY].
Definition RESOURCED : list NodeKind := COMPUTE ++ [DATABASE; CACHE; QUEUE; OBSERVABILITY].
Definition DATA : list NodeKind := [DATABASE; CACHE; STORAGE].
Definition DEPLOYED : list NodeKind := without members [CLIENT; BOUNDARY].
Definition PLACED : list NodeKind := members.

Definition RUNTIME_PROPERTIES : list PropertySpec := [
  spec "runtime" TEXT (kinds [SERVICE; WORKER])
    "Language runtime, e.g. python3.13."
    None None [] None;
  spec "replicas" INTEGER (kinds RUNNING)
    "Instances running, including any primary."
    (Some (DFin 0 0)) None [] None;
  spec "autoscaling_min_replicas" INTEGER (kinds COMPUTE)
    "Fewest instances the autoscaler keeps."
    (Some (DFin 0 0)) None [] None;
  spec "autoscaling_max_replicas" INTEGER (kinds COMPUTE)
    "Most instances the autoscaler starts."
    (Some (DFin 0 0)) None [] None;
  spec "autoscaling_target_cpu_ratio" DECIMAL (kinds COMPUTE)
    "CPU utilization the autoscaler targets (0.7 = 70 %)."
    (Some (DFin 1 (-2))) (Some (DFin 1 0)) [] None
].

Definition RESOURCE_PLACEMENT_PROPERTIES : list PropertySpec := [
  spec "cpu_request_cores" DECIMAL (kinds RESOURCED)
    "CPU reserved per instance, in cores."
    (Some (DFin 0 0)) None [] None;
  spec "cpu_limit_cores" DECIMAL (kinds RESOURCED)
    "CPU limit per instance, in cores."
    (Some (DFin 0 0)) None [] None;
  spec "memory_request_bytes" INTEGER (kinds RESOURCED)
    "Memory reserved per instance, in bytes."
    (Some (DFin 0 0)) None [] None;
  spec "memory_limit_bytes" INTEGER (kinds RESOURCED)
    "Memory limit per instance, in bytes."
    (Some (DFin 0 0)) None [] None;
  spec "instance_class" TEXT (kinds RUNNING)
    "Provider instance class, e.g. db.r6g.large."
    None None [] None;
  spec "deployment_model" CHOICE (kinds DEPLOYED)
    "How it runs."
    None None ["container_service"; "kubernetes"; "managed_service"; "on_premises"; "serverless"; "virtual_machine"] None;
  spec "region" TEXT (kinds PLACED)
    "Cloud region, e.g. eu-west-1."
    None None [] (Some REGION);
  spec "availability_zones" TEXT_LIST (kinds PLACED)
    "Availability zones used."
    None None [] (Some REGION);
  spec "multi_az" BOOLEAN (kinds (without DEPLOYED [EXTERNAL]))
    "Runs across availability zones."
    None None [] None
].

Definition DATA_MESSAGING_PROPERTIES : list PropertySpec := [
  spec "storage_bytes" INTEGER (kinds (DATA ++ [QUEUE; OBSERVABILITY]))
    "Provisioned storage, in bytes."
    (Some (DFin 0 0)) None [] None;
  spec "max_connections" INTEGER (kinds [DATABASE; CACHE; GATEWAY; LOAD_BALANCER])
    "Connection limit."
    (Some (DFin 0 0)) None [] None;
  spec "replication_mode" CHOICE (kinds DATA)
    "How data is replicated."
    None None ["asynchronous"; "none"; "synchronous"] None;
  spec "backup_enabled" BOOLEAN (kinds DATA)
    "Backups are taken."
    None None [] None;
  spec "backup_retention_seconds" INTEGER (kinds DATA)
    "How long backups are kept, in seconds."
    (Some (DFin 0 0)) None [] None;
  spec "eviction_policy" CHOICE (kinds [CACHE])
    "What the cache evicts when full."
    None None ["allkeys_lfu"; "allkeys_lru"; "allkeys_random"; "noeviction"; "volatile_lfu"; "volatile_lru"; "volatile_random"; "volatile_ttl"] None;
  spec "persistence" CHOICE (kinds [CACHE])
    "Whether the cache survives a restart."
    None None ["append_only"; "none"; "snapshot"] None;
  spec "partitions" INTEGER (kinds [QUEUE])
    "Partitions (or shards) of the queue or topic."
    (Some (DFin 1 0)) None [] None;
  spec "replication_factor" INTEGER (kinds [QUEUE])
    "Copies of each message kept."
    (Some (DFin 1 0)) None [] None;
  spec "retention_seconds" INTEGER (kinds [QUEUE; STORAGE; OBSERVABILITY])
    "How long data is kept, in seconds."
    (Some (DFin 0 0)) None [] None
].

Definition CAPACITY_PRICING_PROPERTIES : list PropertySpec := [
  spec "throughput_limit_per_second" DECIMAL (kinds DEPLOYED)
    "Most units of work (requests, operations or events) the component handles per second, in total."
    (Some (DFin 0 0)) None [] None;
  spec "throughput_per_replica_per_second" DECIMAL (kinds RUNNING)
    "Most units of work one replica handles per second."
    (Some (DFin 0 0)) None [] None;
  spec "cpu_core_seconds_per_request" DECIMAL (kinds COMPUTE)
    "CPU time one unit of work costs, in core-seconds (0.02 = 20 ms of one core)."
    (Some (DFin 0 0)) None [] None;
  spec "network_bandwidth_bytes_per_second" INTEGER (kinds DEPLOYED)
    "Network throughput available to the component, in bytes per second."
    (Some (DFin 0 0)) None [] None;
  spec "pricing_service" TEXT (kinds DEPLOYED)
    "Service that bills the component in the pricing snapshot, e.g. rds."
    None None [] (Some PRICING_IDENTIFIER);
  spec "pricing_sku" TEXT (kinds DEPLOYED)
    "SKU of the component's main billed resource, e.g. db.r6g.large (else instance_class is used)."
    None None [] (Some PRICING_SKU);
  spec "pricing_storage_sku" TEXT (kinds [DATABASE; QUEUE; OBSERVABILITY])
    "SKU of the component's provisioned storage, priced per GB-month."
    None None [] (Some PRICING_SKU);
  spec "pricing_conditions" TEXT_LIST (kinds DEPLOYED)
    "Conditions the price must carry, e.g. on_demand."
    None None [] (Some PRICING_IDENTIFIER)
].

Definition RELIABILITY_PROPERTIES : list PropertySpec := [
  spec "availability" DECIMAL (kinds DEPLOYED)
    "Availability of the component as a whole (0.999 = 99.9 %), e.g. as its provider commits to."
    (Some (DFin 0 0)) (Some (DFin 1 0)) [] None;
  spec "replica_availability" DECIMAL (kinds RUNNING)
    "Availability of one replica (0.99 = 99 %)."
    (Some (DFin 0 0)) (Some (DFin 1 0)) [] None;
  spec "mtbf_seconds" DECIMAL (kinds RUNNING)
    "Mean time between failures of one replica, in seconds."
    (Some (DFin 0 0)) None [] None;
  spec "mttr_seconds" DECIMAL (kinds RUNNING)
    "Mean time to repair one replica, in seconds."
    (Some (DFin 0 0)) None [] None;
  spec "min_healthy_replicas" INTEGER (kinds RUNNING)
    "Fewest healthy replicas the component needs to serve (k of n)."
    (Some (DFin 1 0)) None [] None;
  spec "failure_independence" CHOICE (kinds DEPLOYED)
    "Whether its replicas (and its redundancy group's members) fail independently of each other."
    None None ["correlated"; "independent"; "unknown"] None;
  spec "failover_mode" CHOICE (kinds (without DEPLOYED [EXTERNAL]))
    "How work moves off a failed replica or member."
    None None ["automatic"; "manual"; "none"] None;
  spec "failover_seconds" DECIMAL (kinds (without DEPLOYED [EXTERNAL]))
    "Time for a failover to complete, in seconds."
    (Some (DFin 0 0)) None [] None;
  spec "redundancy_group" TEXT (kinds DEPLOYED)
    "Components with the same group are interchangeable alternatives (e.g. one service per region)."
    None None [] (Some REDUNDANCY_GROUP);
  spec "redundancy_group_min_healthy" INTEGER (kinds DEPLOYED)
    "Fewest healthy members the redundancy group needs to serve."
    (Some (DFin 1 0)) None [] None;
  spec "replication_lag_seconds" DECIMAL (kinds (DATA ++ [QUEUE]))
    "Most data asynchronous replication can lose on failover, in seconds."
    (Some (DFin 0 0)) None [] None;
  spec "backup_interval_seconds" DECIMAL (kinds DATA)
    "Time between backups, in seconds (the data a restore can lose)."
    (Some (DFin 0 0)) None [] None
].

Definition SECURITY_PROPERTIES : list PropertySpec := [
  spec "exposure" CHOICE (kinds DEPLOYED)
    "Who can reach the component over the network: public (the internet), internal (the organization's networks) or private (only its own network or boundary)."
    None None EXPOSURES None;
  spec "authentication" CHOICE (kinds DEPLOYED)
    "How callers authenticate to the component; none: it accepts unauthenticated requests."
    None None AUTHENTICATION_MECHANISMS None;
  spec "authorization" CHOICE (kinds DEPLOYED)
    "How the component decides what an authenticated caller may do; none: it does not."
    None None ["abac"; "acl"; "none"; "other"; "policy"; "rbac"] None;
  spec "sensitive_operations" BOOLEAN (kinds DEPLOYED)
    "It performs sensitive operations, e.g. payments, account or permission changes, data export."
    None None [] None;
  spec "management_interface" BOOLEAN (kinds DEPLOYED)
    "It exposes an administrative or management interface."
    None None [] None;
  spec "data_classification" CHOICE (kinds DEPLOYED)
    "The most sensitive data it holds or handles."
    None None DATA_CLASSIFICATIONS None;
  spec "personal_data" BOOLEAN (kinds DEPLOYED)
    "It holds or handles personal data."
    None None [] None;
  spec "encryption_at_rest" BOOLEAN (kinds (DATA ++ [QUEUE; OBSERVABILITY]))
    "Stored data is encrypted at rest."
    None None [] None;
  spec "secrets_required" BOOLEAN (kinds (without DEPLOYED [EXTERNAL]))
    "It needs secrets (credentials, keys, tokens) to run."
    None None [] None;
  spec "secret_source" CHOICE (kinds (without DEPLOYED [EXTERNAL]))
    "Where it gets its secrets."
    None None SECRET_SOURCES None;
  spec "secret_rotation" BOOLEAN (kinds (without DEPLOYED [EXTERNAL]))
    "Its secrets are rotated automatically."
    None None [] None;
  spec "audit_logging" BOOLEAN (kinds (without DEPLOYED [EXTERNAL]))
    "Security-relevant actions on it are recorded in an audit log."
    None None [] None
].

Definition OBSERVABILITY_PROPERTIES : list PropertySpec := [
  spec "criticality" CHOICE (kinds DEPLOYED)
    "How much the system depends on it being observable: critical or standard."
    None None ["critical"; "standard"] None;
  spec "logs" BOOLEAN (kinds (without DEPLOYED [EXTERNAL]))
    "It emits logs."
    None None [] None;
  spec "structured_logs" BOOLEAN (kinds (without DEPLOYED [EXTERNAL]))
    "Its logs are structured (e.g. JSON)."
    None None [] None;
  spec "correlation_ids" BOOLEAN (kinds (without DEPLOYED [EXTERNAL]))
    "Its logs carry the request's correlation identifier."
    None None [] None;
  spec "metrics" TEXT_LIST (kinds (without DEPLOYED [EXTERNAL]))
    "The kinds of metrics it exposes: errors, latency, throughput, saturation, resources or availability."
    None None [] (Some METRIC_KIND);
  spec "traces" BOOLEAN (kinds (without DEPLOYED [EXTERNAL]))
    "It emits trace spans."
    None None [] None;
  spec "trace_context" CHOICE (kinds (without DEPLOYED [EXTERNAL]))
    "What it does with an incoming trace context: propagate it downstream, or terminate it."
    None None ["propagate"; "terminate"] None;
  spec "trace_sampling_ratio" DECIMAL (kinds (without DEPLOYED [EXTERNAL]))
    "Share of its traces kept, as configured (0.1 = 10 %)."
    (Some (DFin 0 0)) (Some (DFin 1 0)) [] None;
  spec "health_check" BOOLEAN (kinds (without DEPLOYED [EXTERNAL]))
    "It exposes a health check."
    None None [] None;
  spec "alerts" TEXT_LIST (kinds (without DEPLOYED [EXTERNAL]))
    "The signals alert rules watch for it: a metric kind, health or logs."
    None None [] (Some ALERT_SIGNAL);
  spec "owner" TEXT (kinds DEPLOYED)
    "The team or rotation responsible for it, e.g. payments-oncall."
    None None [] (Some OWNER);
  spec "alert_delivery" CHOICE (kinds [OBSERVABILITY])
    "How the observability system delivers alerts: none, email, chat, paging or other."
    None None ["chat"; "email"; "none"; "other"; "paging"] None
].

Definition BOUNDARY_PROPERTIES : list PropertySpec := [
  spec "boundary_type" CHOICE (kinds [BOUNDARY])
    "What the boundary delimits."
    None None ["account"; "availability_zone"; "cluster"; "network"; "region"; "system"; "trust_zone"] None;
  spec "trust_level" CHOICE (kinds [BOUNDARY])
    "How far what runs inside a trust zone (boundary_type trust_zone) is trusted."
    None None TRUST_LEVELS None
].

Definition CONNECTION_SPECS : list PropertySpec := [
  spec "timeout_seconds" DECIMAL ([CONNECTION_OWNER])
    "How long the source waits, in seconds."
    (Some (DFin 0 0)) None [] None;
  spec "retries" INTEGER ([CONNECTION_OWNER])
    "Retries after a failure."
    (Some (DFin 0 0)) None [] None;
  spec "tls" BOOLEAN ([CONNECTION_OWNER])
    "Traffic is encrypted in transit."
    None None [] None;
  spec "authentication" CHOICE ([CONNECTION_OWNER])
    "How the source authenticates to the target over this connection; none: it does not."
    None None AUTHENTICATION_MECHANISMS None;
  spec "data_classification" CHOICE ([CONNECTION_OWNER])
    "The most sensitive data the connection carries."
    None None DATA_CLASSIFICATIONS None;
  spec "personal_data" BOOLEAN ([CONNECTION_OWNER])
    "The connection carries personal data."
    None None [] None;
  spec "telemetry" TEXT_LIST ([CONNECTION_OWNER])
    "The telemetry signals this connection carries from its source: logs, metrics, traces."
    None None [] (Some TELEMETRY_SIGNAL);
  spec "trace_propagation" BOOLEAN ([CONNECTION_OWNER])
    "The trace context is propagated across this connection."
    None None [] None;
  spec "health_check" BOOLEAN ([CONNECTION_OWNER])
    "The source checks the target's health over this connection."
    None None [] None;
  spec "dead_letter" BOOLEAN ([CONNECTION_OWNER])
    "Messages that keep failing go to a dead-letter queue."
    None None [] None;
  spec "port" INTEGER ([CONNECTION_OWNER])
    "Target port."
    (Some (DFin 1 0)) (Some (DFin 65535 0)) [] None;
  spec "traffic_ratio" DECIMAL ([CONNECTION_OWNER])
    "Share of the source's work that uses this connection (0.3 = 30 %)."
    (Some (DFin 0 0)) (Some (DFin 1 0)) [] None;
  spec "calls_per_request" DECIMAL ([CONNECTION_OWNER])
    "Calls made over this connection per unit of work that uses it (fan-out)."
    (Some (DFin 0 0)) (Some (DFin 1000 0)) [] None;
  spec "cache_hit_ratio" DECIMAL ([CONNECTION_OWNER])
    "Share of this traffic a cache in front of the target answers; only misses arrive."
    (Some (DFin 0 0)) (Some (DFin 1 0)) [] None;
  spec "pool_size" INTEGER ([CONNECTION_OWNER])
    "Connections each replica of the source keeps open to the target (a connection pool)."
    (Some (DFin 0 0)) (Some (DFin 100000 0)) [] None;
  spec "access" CHOICE ([CONNECTION_OWNER])
    "Which side of the workload's read/write mix this data access carries."
    None None ["read"; "read_write"; "write"] None
].

Definition named (specs : list PropertySpec) : dict string PropertySpec := index_by p_name specs.

Definition NODE_PROPERTIES : dict string PropertySpec :=
  Eval vm_compute in named
    (RUNTIME_PROPERTIES ++ RESOURCE_PLACEMENT_PROPERTIES ++ DATA_MESSAGING_PROPERTIES ++
     CAPACITY_PRICING_PROPERTIES ++ RELIABILITY_PROPERTIES ++ SECURITY_PROPERTIES ++
     OBSERVABILITY_PROPERTIES ++ BOUNDARY_PROPERTIES).

Definition CONNECTION_PROPERTIES : dict string PropertySpec :=
  Eval vm_compute in named CONNECTION_SPECS.

(** Pairs that must be ordered: (lower, upper). *)
Definition ORDERED_PAIRS : list (string * string) :=
  [("autoscaling_min_replicas", "autoscaling_max_replicas");
   ("cpu_request_cores", "cpu_limit_cores");
   ("memory_request_bytes", "memory_limit_bytes")].

(** * Configurations *)

(** Zones and other lists are sets: one representation. *)
Definition canonical (value : json) : json :=
  match value with
  | JDec d => JDec (if is_finite d then canonical_decimal d else d)
  | JArr l => match all_str l with Some s => JArr (JStr <$> sorted_set s) | None => value end
  | _ => value
  end.

Record Configuration := {
  values : dict string json;
  unknown : list string;
  extra : dict string json;
}.

#[export] Instance Configuration_eq_dec : EqDecision Configuration.
Proof. solve_decision. Defined.

Definition empty_configuration : Configuration := {| values := []; unknown := []; extra := [] |}.

(** [bool(configuration)]. *)
Definition Configuration_bool (c : Configuration) : bool :=
  match c with {| values := []; unknown := []; extra := [] |} => false | _ => true end.

Definition get (c : Configuration) (name : string) : option json := dict_get name (values c).
Definition is_unknown (c : Configuration) (name : string) : bool := bool_decide (name ∈ unknown c).

(** Every property the configuration mentions, sorted. *)
Definition property_names (c : Configuration) : list string :=
  sorted_set (dict_keys (values c) ++ unknown c ++ dict_keys (extra c)).

(** Those of [l] that are in [r], sorted. *)
Definition common (l r : list string) : list string := sorted_set (filter (λ k, k ∈ r) l).

Definition Configuration_problems (c : Configuration) : list Violation :=
  (if MAX_PROPERTIES <? length (property_names c) then
     [violation "too_many"
        ("A configuration has at most " +:+ nat_text MAX_PROPERTIES +:+ " properties.") None]
   else [])
  ++ mjoin ((λ key,
       if PROPERTY_KEY key then []
       else [violation "invalid_key" (repr key +:+ " is not a valid property name.") (Some key)])
       <$> property_names c)
  ++ ((λ key, violation "contradictory" (key +:+ " cannot be both known and unknown.") (Some key))
       <$> common (unknown c) (dict_keys (values c)))
  ++ ((λ key, violation "duplicate_property" (key +:+ " is given twice.") (Some key))
       <$> common (dict_keys (extra c)) (dict_keys (values c) ++ unknown c))
  ++ mjoin ((λ p, json_problems p.2 p.1 0) <$> extra c).

(** [__post_init__]. *)
Definition Configuration_normalize (values : dict string json) (unknown : list string)
    (extra : dict string json) : Configuration := {|
  values := frozen ((λ p, (p.1, canonical p.2)) <$> values);
  unknown := sorted_set unknown;
  extra := match freeze_json (JObj extra) 0 with JObj m => m | _ => [] end;
|}.

Definition Configuration_new (values : dict string json) (unknown : list string)
    (extra : dict string json) : py Configuration :=
  let c := Configuration_normalize values unknown extra in
  construct (Configuration_problems c) (Some c).

(** * A configuration and its owner *)
Definition property_problems (c : Configuration) (specs : dict string PropertySpec) (owner : string)
    (key : string) : py (list Violation) :=
  match dict_get key specs with
  | None =>
      Ok [violation "unknown_property"
            (key +:+ " is not a known property; unrecognized settings belong in extra.") (Some key)]
  | Some spec =>
      if bool_decide (owner ∈ p_applies_to spec) then
        match get c key with
        | Some value => spec_problems spec value key
        | None => Ok []
        end
      else Ok [violation "not_applicable" (key +:+ " does not apply to a " +:+ owner +:+ ".") (Some key)]
  end.

Definition pair_problems (c : Configuration) (lower upper : string) : list Violation :=
  match get c lower ≫= as_number, get c upper ≫= as_number with
  | Some low, Some high =>
      if dec_ltb high low then
        [violation "inconsistent" (lower +:+ " is greater than " +:+ upper +:+ ".") (Some lower)]
      else []
  | _, _ => []
  end.

(** The known properties against their specifications for [owner]: a node kind, or connection. *)
Definition problems_for (c : Configuration) (specs : dict string PropertySpec) (owner : string) :
    py (list Violation) :=
  known ← py_map (property_problems c specs owner) (sorted_set (dict_keys (values c) ++ unknown c));
  Ok (mjoin known
      ++ ((λ key, violation "misplaced_property" (key +:+ " is a known property; give it in values.")
                    (Some key)) <$> common (dict_keys (extra c)) (dict_keys specs))
      ++ mjoin ((λ p, pair_problems c p.1 p.2) <$> ORDERED_PAIRS)).

(** * Facts *)
Lemma canonical_idemp j : canonical (canonical j) = canonical j.
Proof.
  destruct j as [| | |d| |l|]; simpl; try done.
  - destruct (is_finite d) eqn:E; simpl; [|by rewrite E].
    unfold canonical_decimal. by rewrite normalize_finite, E, normalize_idemp.
  - destruct (all_str l) as [s|] eqn:E; simpl; [|by rewrite E].
    by rewrite all_str_map, sorted_set_idemp.
Qed.

Lemma freeze_json_obj m : freeze_json (JObj m) 0 = JObj (frozen ((λ p, (p.1, freeze_json p.2 1)) <$> m)).
Proof. done. Qed.

Lemma Configuration_normalize_idemp v u e :
  let c := Configuration_normalize v u e in
  Configuration_normalize (values c) (unknown c) (extra c) = c.
Proof.
  unfold Configuration_normalize; cbn [values unknown extra]. rewrite !freeze_json_obj.
  rewrite (frozen_fmap_idemp canonical), sorted_set_idemp.
  - f_equal. rewrite (frozen_fmap_idemp (λ v, freeze_json v 1)); [done|].
    intros p _. apply freeze_json_idemp.
  - intros p _. apply canonical_idemp.
Qed.

Definition Configuration_args (c : Configuration) : dict string json * list string * dict string json :=
  (values c, unknown c, extra c).

#[export] Instance Configuration_dataclass :
  Dataclass (λ a, Configuration_new a.1.1 a.1.2 a.2) Configuration_args.
Proof.
  intros [[v u] e] c. unfold Configuration_new; cbn [fst snd]. intros [Hp [= <-]]%construct_ok.
  unfold Configuration_args; cbn [fst snd]. rewrite Configuration_normalize_idemp. by rewrite Hp.
Qed.

(** What a configuration keeps: its properties in order, each once if the arguments were a
    dictionary, and never the same one known, unknown and unrecognized at once. *)
Lemma Configuration_new_keys v u e c :
  dict_wf v → dict_wf e → Configuration_new v u e = Ok c →
  dict_wf (values c) ∧ NoDup (unknown c) ∧ dict_wf (extra c) ∧
  (∀ k, k ∈ dict_keys (values c) ↔ k ∈ dict_keys v) ∧ (∀ k, k ∈ unknown c ↔ k ∈ u) ∧
  (∀ k, k ∈ dict_keys (extra c) ↔ k ∈ dict_keys e).
Proof.
  intros Hv He. unfold Configuration_new. intros [_ [= <-]]%construct_ok.
  unfold Configuration_normalize; cbn [values unknown extra]. rewrite freeze_json_obj.
  assert (∀ (f : json → json) (m : dict string json),
            dict_keys (frozen ((λ p, (p.1, f p.2)) <$> m)) ≡ₚ dict_keys m) as Hk.
  { intros f m. unfold dict_keys, frozen. by rewrite sort_by_perm, <- list_fmap_compose. }
  pose proof (Hk canonical v) as H1. pose proof (Hk (λ v, freeze_json v 1) e) as H2.
  unfold dict_wf. split_and!; [by rewrite H1|apply NoDup_sorted_set|by rewrite H2|..]; intros k.
  - by rewrite H1.
  - apply elem_of_sorted_set.
  - by rewrite H2.
Qed.
