(* ===== verification/Elements.v ===== *)
(** Nodes and connections (src/core/architecture_ir/node.py, edge.py).

    [NodeArgs] and [ConnectionArgs] are the arguments of the constructors, [Node] and [Connection]
    the constructed values; [Node_new] is [Node(...)]: normalize, check, keep.  [Node_args] gives back
    the arguments a node holds, so [replace(node, name=n)] is [Node_new] of the changed arguments. *)
From S2P Require Import Prelude Data Errors Values Provenance Traceability Component.
From S2P Require Import Configuration.

Inductive Lifecycle := PLANNED | ACTIVE | DEPRECATED.

#[export] Instance Lifecycle_eq_dec : EqDecision Lifecycle.
Proof. solve_decision. Defined.

#[export, refine] Instance Lifecycle_enum : StrEnum Lifecycle := {
  members := [PLANNED; ACTIVE; DEPRECATED];
  value l := match l with PLANNED => "planned" | ACTIVE => "active" | DEPRECATED => "deprecated" end;
}.
Proof. all: solve_enum. Defined.

(** * What every element shares *)
Definition NODE_FIELDS : list string :=
  ["kind"; "name"; "description"; "technology"; "component"; "parent_id"; "lifecycle"].

(** Metadata sorted by key, when it is an object. *)
Definition frozen_json (j : json) : json := match j with JObj m => JObj (frozen m) | _ => j end.

Definition field_provenance_problems (field_provenance : dict string Provenance)
    (fields : list string) (c : Configuration) : list Violation :=
  let known := fields ++ ((λ key, "configuration." +:+ key) <$> property_names c) in
  mjoin ((λ p,
    if bool_decide (p.1 ∈ known) then []
    else [violation "unknown_field" (p.1 +:+ " is not a field of this element.")
            (Some ("field_provenance." +:+ p.1))]) <$> field_provenance).

Definition annotation_problems (requirement_refs : list RequirementRef) (metadata : json)
    (field_provenance : dict string Provenance) (fields : list string) (c : Configuration) :
    list Violation :=
  refs_problems requirement_refs "requirement_refs"
  ++ metadata_problems metadata "metadata"
  ++ field_provenance_problems field_provenance fields c.

(** A checked metadata object: every value is text. *)
Fixpoint all_text (m : dict string json) : option (dict string string) :=
  match m with
  | [] => Some []
  | (k, JStr s) :: r => t ← all_text r; Some ((k, s) :: t)
  | _ :: _ => None
  end.

Definition as_metadata (j : json) : option (dict string string) :=
  match j with JObj m => all_text m | _ => None end.

Definition of_metadata (m : dict string string) : json := JObj ((λ p, (p.1, JStr p.2)) <$> m).

(** * Nodes *)
Record Node := {
  n_id : string;
  n_kind : NodeKind;
  n_name : string;
  n_description : option string;
  n_technology : option Technology;
  n_component : option string;
  n_parent_id : option string;
  n_configuration : Configuration;
  n_requirement_refs : list RequirementRef;
  n_lifecycle : option Lifecycle;
  n_metadata : dict string string;
  n_provenance : option Provenance;
  n_field_provenance : dict string Provenance;
}.

#[export] Instance Node_eq_dec : EqDecision Node.
Proof. solve_decision. Defined.

Record NodeArgs := {
  na_id : json;
  na_kind : raw NodeKind;
  na_name : json;
  na_description : json;
  na_technology : option Technology;
  na_component : json;
  na_parent_id : json;
  na_configuration : Configuration;
  na_requirement_refs : list RequirementRef;
  na_lifecycle : raw Lifecycle;
  na_metadata : json;
  na_provenance : option Provenance;
  na_field_provenance : dict string Provenance;
}.

Definition Node_args (n : Node) : NodeArgs := {|
  na_id := JStr (n_id n);
  na_kind := Typed (n_kind n);
  na_name := JStr (n_name n);
  na_description := of_opt_str (n_description n);
  na_technology := n_technology n;
  na_component := of_opt_str (n_component n);
  na_parent_id := of_opt_str (n_parent_id n);
  na_configuration := n_configuration n;
  na_requirement_refs := n_requirement_refs n;
  na_lifecycle := of_option (n_lifecycle n);
  na_metadata := of_metadata (n_metadata n);
  na_provenance := n_provenance n;
  na_field_provenance := n_field_provenance n;
|}.

Definition parent_problems (id parent_id : json) : list Violation :=
  match parent_id with
  | JNull => []
  | _ =>
      id_problems parent_id "parent_id"
      ++ (if py_eqb parent_id id then
            [violation "containment_cycle" "A node cannot contain itself." (Some "parent_id")]
          else [])
  end.

Definition Node_problems (a : NodeArgs) : py (list Violation) :=
  configuration ← match na_kind a with
                  | Typed kind => problems_for (na_configuration a) NODE_PROPERTIES (value kind)
                  | Raw _ => Ok []
                  end;
  Ok (all_within (
    id_problems (na_id a) "id"
    ++ (if na_kind a is Typed _ then []
        else [violation "invalid_kind" ("kind must be one of: " +:+ enum_text NodeKind +:+ ".")
                (Some "kind")])
    ++ text_problems (na_name a) "name" MAX_NAME_LENGTH true false
    ++ text_problems (na_description a) "description" MAX_DESCRIPTION_LENGTH false true
    ++ component_problems (na_component a) "component"
    ++ parent_problems (na_id a) (na_parent_id a)
    ++ (match na_lifecycle a with
        | Typed _ | Raw JNull => []
        | _ => [violation "invalid_value" ("lifecycle must be one of: " +:+ enum_text Lifecycle +:+ ".")
                  (Some "lifecycle")]
        end)
    ++ all_within configuration NODE (na_id a) (Some "configuration")
    ++ annotation_problems (na_requirement_refs a) (na_metadata a) (na_field_provenance a) NODE_FIELDS
         (na_configuration a)) NODE (na_id a) None).

(** [__post_init__] and [normalize_annotations]. *)
Definition Node_normalize (a : NodeArgs) : NodeArgs := {|
  na_id := na_id a;
  na_kind := na_kind a;
  na_name := clean_str clean_line (na_name a);
  na_description := clean_or_none clean_block (na_description a);
  na_technology := na_technology a;
  na_component := na_component a;
  na_parent_id := na_parent_id a;
  na_configuration := na_configuration a;
  na_requirement_refs := sorted_refs (na_requirement_refs a);
  na_lifecycle := na_lifecycle a;
  na_metadata := frozen_json (na_metadata a);
  na_provenance := na_provenance a;
  na_field_provenance := frozen (na_field_provenance a);
|}.

Definition Node_typed (a : NodeArgs) : option Node :=
  i ← as_str (na_id a);
  k ← typed (na_kind a);
  n ← as_str (na_name a);
  d ← as_opt_str (na_description a);
  c ← as_opt_str (na_component a);
  p ← as_opt_str (na_parent_id a);
  l ← typed_or_none (na_lifecycle a);
  m ← as_metadata (na_metadata a);
  Some {| n_id := i; n_kind := k; n_name := n; n_description := d;
          n_technology := na_technology a; n_component := c; n_parent_id := p;
          n_configuration := na_configuration a; n_requirement_refs := na_requirement_refs a;
          n_lifecycle := l; n_metadata := m; n_provenance := na_provenance a;
          n_field_provenance := na_field_provenance a |}.

Definition Node_new (a : NodeArgs) : py Node :=
  let a := Node_normalize a in
  problems ← Node_problems a;
  construct problems (Node_typed a).

(** * Connections *)
Definition CONNECTION_FIELDS : list string :=
  ["source_id"; "target_id"; "kind"; "protocol"; "interaction"; "bidirectional"; "critical"; "name";
   "description"].

Record Connection := {
  c_id : string;
  c_source_id : string;
  c_target_id : string;
  c_kind : ConnectionKind;
  c_protocol : option string;
  c_interaction : option Interaction;
  c_bidirectional : bool;
  c_critical : option bool;
  c_name : option string;
  c_description : option string;
  c_configuration : Configuration;
  c_requirement_refs : list RequirementRef;
  c_metadata : dict string string;
  c_provenance : option Provenance;
  c_field_provenance : dict string Provenance;
}.

#[export] Instance Connection_eq_dec : EqDecision Connection.
Proof. solve_decision. Defined.

Definition endpoints (c : Connection) : string * string := (c_source_id c, c_target_id c).

Record ConnectionArgs := {
  ca_id : json;
  ca_source_id : json;
  ca_target_id : json;
  ca_kind : raw ConnectionKind;
  ca_protocol : json;
  ca_interaction : raw Interaction;
  ca_bidirectional : json;
  ca_critical : json;
  ca_name : json;
  ca_description : json;
  ca_configuration : Configuration;
  ca_requirement_refs : list RequirementRef;
  ca_metadata : json;
  ca_provenance : option Provenance;
  ca_field_provenance : dict string Provenance;
}.

Definition of_opt_bool (o : option bool) : json := match o with Some b => JBool b | None => JNull end.
Definition as_opt_bool (j : json) : option (option bool) :=
  match j with JBool b => Some (Some b) | JNull => Some None | _ => None end.

Definition Connection_args (c : Connection) : ConnectionArgs := {|
  ca_id := JStr (c_id c);
  ca_source_id := JStr (c_source_id c);
  ca_target_id := JStr (c_target_id c);
  ca_kind := Typed (c_kind c);
  ca_protocol := of_opt_str (c_protocol c);
  ca_interaction := of_option (c_interaction c);
  ca_bidirectional := JBool (c_bidirectional c);
  ca_critical := of_opt_bool (c_critical c);
  ca_name := of_opt_str (c_name c);
  ca_description := of_opt_str (c_description c);
  ca_configuration := c_configuration c;
  ca_requirement_refs := c_requirement_refs c;
  ca_metadata := of_metadata (c_metadata c);
  ca_provenance := c_provenance c;
  ca_field_provenance := c_field_provenance c;
|}.

(** A dependency does not communicate: it has no protocol and no interaction. *)
Definition not_applicable (name : string) : Violation :=
  violation "not_applicable" ("A dependency does not communicate, so it has no " +:+ name +:+ ".")
    (Some name).

Definition semantics_problems (a : ConnectionArgs) : list Violation :=
  match ca_kind a with
  | Raw _ =>
      [violation "invalid_kind" ("kind must be one of: " +:+ enum_text ConnectionKind +:+ ".")
         (Some "kind")]
  | Typed kind =>
      (if match ca_protocol a with JNull => true | JStr s => PROTOCOL s | _ => false end then []
       else [violation "invalid_protocol" "protocol must be a lower-case identifier, e.g. https or kafka."
               (Some "protocol")])
      ++ (match ca_interaction a with
          | Typed _ | Raw JNull => []
          | _ => [violation "invalid_value" "interaction must be synchronous or asynchronous."
                    (Some "interaction")]
          end)
      ++ (if is_bool (ca_bidirectional a) then []
          else [violation "not_a_boolean" "bidirectional must be true or false." (Some "bidirectional")])
      ++ (if is_none (ca_critical a) || is_bool (ca_critical a) then []
          else [violation "not_a_boolean" "critical must be true, false or absent." (Some "critical")])
      ++ (if communicates kind then []
          else (if is_none (ca_protocol a) then [] else [not_applicable "protocol"])
               ++ (if ca_interaction a is Raw JNull then [] else [not_applicable "interaction"]))
  end.

Definition Connection_problems (a : ConnectionArgs) : py (list Violation) :=
  configuration ← problems_for (ca_configuration a) CONNECTION_PROPERTIES CONNECTION_OWNER;
  Ok (all_within (
    id_problems (ca_id a) "id"
    ++ id_problems (ca_source_id a) "source_id"
    ++ id_problems (ca_target_id a) "target_id"
    ++ (if py_eqb (ca_source_id a) (ca_target_id a) then
          [violation "self_connection" "A connection must join two different nodes." (Some "target_id")]
        else [])
    ++ semantics_problems a
    ++ text_problems (ca_name a) "name" MAX_NAME_LENGTH false false
    ++ text_problems (ca_description a) "description" MAX_DESCRIPTION_LENGTH false true
    ++ all_within configuration CONNECTION (ca_id a) (Some "configuration")
    ++ annotation_problems (ca_requirement_refs a) (ca_metadata a) (ca_field_provenance a)
         CONNECTION_FIELDS (ca_configuration a)) CONNECTION (ca_id a) None).

Definition Connection_normalize (a : ConnectionArgs) : ConnectionArgs := {|
  ca_id := ca_id a;
  ca_source_id := ca_source_id a;
  ca_target_id := ca_target_id a;
  ca_kind := ca_kind a;
  ca_protocol := clean_or_none (λ s, lower (strip s)) (ca_protocol a);
  ca_interaction := ca_interaction a;
  ca_bidirectional := ca_bidirectional a;
  ca_critical := ca_critical a;
  ca_name := clean_or_none clean_line (ca_name a);
  ca_description := clean_or_none clean_block (ca_description a);
  ca_configuration := ca_configuration a;
  ca_requirement_refs := sorted_refs (ca_requirement_refs a);
  ca_metadata := frozen_json (ca_metadata a);
  ca_provenance := ca_provenance a;
  ca_field_provenance := frozen (ca_field_provenance a);
|}.

Definition Connection_typed (a : ConnectionArgs) : option Connection :=
  i ← as_str (ca_id a);
  s ← as_str (ca_source_id a);
  t ← as_str (ca_target_id a);
  k ← typed (ca_kind a);
  p ← as_opt_str (ca_protocol a);
  x ← typed_or_none (ca_interaction a);
  b ← as_bool (ca_bidirectional a);
  r ← as_opt_bool (ca_critical a);
  n ← as_opt_str (ca_name a);
  d ← as_opt_str (ca_description a);
  m ← as_metadata (ca_metadata a);
  Some {| c_id := i; c_source_id := s; c_target_id := t; c_kind := k; c_protocol := p;
          c_interaction := x; c_bidirectional := b; c_critical := r; c_name := n; c_description := d;
          c_configuration := ca_configuration a; c_requirement_refs := ca_requirement_refs a;
          c_metadata := m; c_provenance := ca_provenance a;
          c_field_provenance := ca_field_provenance a |}.

Definition Connection_new (a : ConnectionArgs) : py Connection :=
  let a := Connection_normalize a in
  problems ← Connection_problems a;
  construct problems (Connection_typed a).

(** * Facts *)
Lemma all_text_args m t : all_text m = Some t → (λ p, (p.1, JStr p.2)) <$> t = m.
Proof.
  revert t. induction m as [|[k j] m IH]; intros t; simpl; [by intros [= <-]|].
  destruct j; try done. intros (t' & Ht & [= <-])%bind_Some. cbn. f_equal. by apply IH.
Qed.

Lemma as_metadata_args j m : as_metadata j = Some m → of_metadata m = j.
Proof. destruct j; simpl; try done. unfold of_metadata. intros H%all_text_args. by rewrite H. Qed.

Lemma as_opt_bool_args j o : as_opt_bool j = Some o → of_opt_bool o = j.
Proof. destruct j; simpl; try done; by intros [= <-]. Qed.
#[export] Hint Resolve as_metadata_args as_opt_bool_args : args.

Lemma frozen_json_idemp j : frozen_json (frozen_json j) = frozen_json j.
Proof. destruct j; try done. simpl. by rewrite frozen_idemp. Qed.

Lemma Node_typed_args a n : Node_typed a = Some n → Node_args n = a.
Proof. unfold Node_typed, Node_args. intros. solve_args. Qed.

Lemma Connection_typed_args a c : Connection_typed a = Some c → Connection_args c = a.
Proof. unfold Connection_typed, Connection_args. intros. solve_args. Qed.

(** Split a list of checks known to be empty. *)
Ltac no_problems :=
  repeat match goal with
  | H : _ ++ _ = [] |- _ => apply app_nil in H as [? ?]
  | H : all_within _ _ _ _ = [] |- _ => apply all_within_nil in H
  end.

#[export] Instance Node_dataclass : Dataclass Node_new Node_args.
Proof.
  apply construct_rebuild; [apply Node_typed_args|]. intros a Hp _.
  unfold Node_problems in Hp. apply py_bind_ok in Hp as (ps & _ & [= Hp]).
  unfold Node_normalize in *; cbn -[text_problems frozen frozen_json sorted_refs clean_str clean_or_none] in *. no_problems.
  rewrite frozen_json_idemp, frozen_idemp, sorted_refs_idemp, clean_str_idemp by
    (intros; apply clean_line_idemp).
  by erewrite clean_block_or_none_idemp.
Qed.

#[export] Instance Connection_dataclass : Dataclass Connection_new Connection_args.
Proof.
  apply construct_rebuild; [apply Connection_typed_args|]. intros a Hp _.
  unfold Connection_problems in Hp. apply py_bind_ok in Hp as (ps & _ & [= Hp]).
  unfold Connection_normalize in *; cbn -[text_problems frozen frozen_json sorted_refs clean_str clean_or_none] in *. no_problems.
  rewrite frozen_json_idemp, frozen_idemp, sorted_refs_idemp, clean_line_or_none_idemp.
  rewrite clean_or_none_idemp by (intros; apply lower_strip_idemp).
  by erewrite clean_block_or_none_idemp.
Qed.

(** A connection never joins a node to itself. *)
Lemma built_connection_endpoints c :
  built Connection_new Connection_args c → c_source_id c ≠ c_target_id c.
Proof.
  unfold built, Connection_new. intros (ps & Hps & [-> _]%construct_ok)%py_bind_ok.
  unfold Connection_problems in Hps. apply py_bind_ok in Hps as (ps' & _ & [= Hp]).
  apply all_within_nil in Hp. do 3 apply app_nil in Hp as [_ Hp]. apply app_nil in Hp as [Hp _].
  intros Heq. cbn in Hp. rewrite Heq, String.eqb_refl in Hp. done.
Qed.

Lemma built_node_id n : built Node_new Node_args n → ELEMENT_ID (n_id n) = true.
Proof.
  unfold built, Node_new. intros (ps & Hps & [-> _]%construct_ok)%py_bind_ok.
  unfold Node_problems in Hps. apply py_bind_ok in Hps as (ps' & _ & [= Hp]).
  apply all_within_nil in Hp. apply app_nil in Hp as [Hp _]. cbn in Hp.
  by destruct (ELEMENT_ID (n_id n)).
Qed.
