(* ===== verification/Model.v ===== *)
(** The Architecture IR: one complete, structurally valid architecture state
    (src/core/architecture_ir/model.py).

    [ArchitectureIR_new] is the constructor: every collection in id order, then the element limits,
    unique ids, containment, connections and references.  [valid_graph] states the graph rules of
    the module's documentation as predicates; [graph_problems_nil] is their equivalence with the
    checks. *)
From Stdlib Require Import Lia.
From S2P Require Import Prelude Data Errors Values Provenance Traceability Component.
From S2P Require Import Configuration Elements.

Definition IR_SCHEMA_VERSION : Z := 1.
Definition MAX_NODES : nat := 1000.
Definition MAX_CONNECTIONS : nat := 5000.
Definition MAX_ASSUMPTIONS : nat := 500.
Definition MAX_DECISIONS : nat := 500.

Record ArchitectureIR := {
  ir_name : string;
  ir_description : option string;
  ir_nodes : list Node;
  ir_connections : list Connection;
  ir_assumptions : list Assumption;
  ir_decisions : list DecisionRef;
  ir_requirement_refs : list RequirementRef;
  ir_metadata : dict string string;
  ir_provenance : option Provenance;
  ir_schema_version : Z;
}.

#[export] Instance ArchitectureIR_eq_dec : EqDecision ArchitectureIR.
Proof. solve_decision. Defined.

(** The constructor's arguments; the collections are lists of constructed elements. *)
Record ArchitectureArgs := {
  aa_name : json;
  aa_description : json;
  aa_nodes : list Node;
  aa_connections : list Connection;
  aa_assumptions : list Assumption;
  aa_decisions : list DecisionRef;
  aa_refs : list RequirementRef;
  aa_metadata : json;
  aa_ir_provenance : option Provenance;
  aa_schema_version : Z;
}.

Definition ArchitectureIR_args (ir : ArchitectureIR) : ArchitectureArgs := {|
  aa_name := JStr (ir_name ir);
  aa_description := of_opt_str (ir_description ir);
  aa_nodes := ir_nodes ir;
  aa_connections := ir_connections ir;
  aa_assumptions := ir_assumptions ir;
  aa_decisions := ir_decisions ir;
  aa_refs := ir_requirement_refs ir;
  aa_metadata := of_metadata (ir_metadata ir);
  aa_ir_provenance := ir_provenance ir;
  aa_schema_version := ir_schema_version ir;
|}.

(** * Reading *)
Definition find_by {A} (key : A → string) (k : string) (l : list A) : option A :=
  list_find (λ x, key x = k) l ≫= λ p, Some p.2.

Definition ir_node (ir : ArchitectureIR) (node_id : string) : option Node :=
  find_by n_id node_id (ir_nodes ir).
Definition ir_connection (ir : ArchitectureIR) (connection_id : string) : option Connection :=
  find_by c_id connection_id (ir_connections ir).
Definition ir_nodes_of_kind (ir : ArchitectureIR) (kinds : list NodeKind) : list Node :=
  filter (λ n, n_kind n ∈ kinds) (ir_nodes ir).
(** Ids that assumptions and decisions may refer to. *)
Definition element_ids (ns : list Node) (cs : list Connection) : list string :=
  (n_id <$> ns) ++ (c_id <$> cs).

(** * The rules *)
Definition own_problems (a : ArchitectureArgs) : list Violation :=
  all_within (
    text_problems (aa_name a) "name" MAX_NAME_LENGTH true false
    ++ text_problems (aa_description a) "description" MAX_DESCRIPTION_LENGTH false true
    ++ (if (aa_schema_version a =? IR_SCHEMA_VERSION)%Z then []
        else [violation "unsupported_schema_version"
                ("Schema version " +:+ Z_text (aa_schema_version a) +:+
                 " is not supported here; this is version " +:+ Z_text IR_SCHEMA_VERSION +:+ ".")
                (Some "schema_version")])
    ++ refs_problems (aa_refs a) "requirement_refs"
    ++ metadata_problems (aa_metadata a) "metadata") ARCHITECTURE JNull None.

Definition limit_problems (name : string) (size limit : nat) : list Violation :=
  if limit <? size then
    [violation "too_many" ("An architecture has at most " +:+ nat_text limit +:+ " " +:+ name +:+ ".")
       (Some name)]
  else [].

Definition shape_problems (a : ArchitectureArgs) : list Violation :=
  all_within (
    limit_problems "nodes" (length (aa_nodes a)) MAX_NODES
    ++ limit_problems "connections" (length (aa_connections a)) MAX_CONNECTIONS
    ++ limit_problems "assumptions" (length (aa_assumptions a)) MAX_ASSUMPTIONS
    ++ limit_problems "decisions" (length (aa_decisions a)) MAX_DECISIONS) ARCHITECTURE JNull None.

Definition all_elements (ns : list Node) (cs : list Connection) (aps : list Assumption) :
    list (ElementType * string) :=
  ((λ n, (NODE, n_id n)) <$> ns) ++ ((λ c, (CONNECTION, c_id c)) <$> cs)
  ++ ((λ x, (ASSUMPTION, a_id x)) <$> aps).

Definition duplicate_id_problems (ns : list Node) (cs : list Connection) (aps : list Assumption) :
    list Violation :=
  let elements := all_elements ns cs aps in
  (λ e, violation_of "duplicate_id"
          ("The id " +:+ repr e.2 +:+ " is used by more than one element; ids must be unique.")
          (Some "id") e.1 (JStr e.2))
  <$> filter (λ e, 1 < count e.2 elements.*2) elements.

(** ** Containment *)

(** [nodes.get(node.parent_id) if node.parent_id else None]. *)
Definition parent_of (nodes : dict string Node) (n : Node) : option Node :=
  match n_parent_id n with
  | Some p => if String.eqb p "" then None else dict_get p nodes
  | None => None
  end.

Fixpoint cycle_loop (fuel : nat) (node : Node) (nodes : dict string Node) (seen : gset string)
    (current : option Node) : bool :=
  match fuel, current with
  | S fuel, Some c =>
      if decide (n_id c ∈ seen) then false
      else if String.eqb (n_id c) (n_id node) then true
      else cycle_loop fuel node nodes ({[n_id c]} ∪ seen) (parent_of nodes c)
  | _, _ => false
  end.

(** Following parents leads back to the node; every turn sees one more id. *)
Definition in_containment_cycle (node : Node) (nodes : dict string Node) : bool :=
  cycle_loop (S (length nodes)) node nodes ∅ (parent_of nodes node).

Definition parent_violation (nodes : dict string Node) (n : Node) (parent_id : string) :
    list Violation :=
  match dict_get parent_id nodes with
  | None =>
      [violation_of "dangling_reference"
         ("The parent " +:+ repr parent_id +:+ " is not a node of this architecture.")
         (Some "parent_id") NODE (JStr (n_id n))]
  | Some parent =>
      if decide (n_kind parent = BOUNDARY) then
        if in_containment_cycle n nodes then
          [violation_of "containment_cycle" "This node is (indirectly) its own parent."
             (Some "parent_id") NODE (JStr (n_id n))]
        else []
      else
        [violation_of "invalid_parent"
           ("Only a boundary can contain nodes; " +:+ repr (n_id parent) +:+ " is a " +:+
            value (n_kind parent) +:+ ".")
           (Some "parent_id") NODE (JStr (n_id n))]
  end.

Definition containment_problems (ns : list Node) : list Violation :=
  let nodes := index_by n_id ns in
  mjoin ((λ n, match n_parent_id n with
               | None => []
               | Some p => parent_violation nodes n p
               end) <$> ns).

(** ** Connections *)
Definition signature (c : Connection) : string * string * string * option string :=
  (c_source_id c, c_target_id c, value (c_kind c), c_protocol c).

Definition endpoint_problems (nodes : dict string Node) (c : Connection) (field node_id : string) :
    list Violation :=
  match dict_get node_id nodes with
  | None =>
      [violation_of "dangling_reference"
         (field +:+ " " +:+ repr node_id +:+ " is not a node of this architecture.")
         (Some field) CONNECTION (JStr (c_id c))]
  | Some n =>
      if decide (n_kind n = BOUNDARY) then
        [violation_of "boundary_not_connectable"
           (repr node_id +:+ " is a boundary; connect the components inside it instead.")
           (Some field) CONNECTION (JStr (c_id c))]
      else []
  end.

Fixpoint connections_loop (nodes : dict string Node)
    (seen : dict (string * string * string * option string) string) (cs : list Connection) :
    list Violation :=
  match cs with
  | [] => []
  | c :: r =>
      endpoint_problems nodes c "source_id" (c_source_id c)
      ++ endpoint_problems nodes c "target_id" (c_target_id c)
      ++ match dict_get (signature c) seen with
         | Some first =>
             violation_of "duplicate_connection"
               ("The same connection is already stated as " +:+ repr first +:+ ".") None CONNECTION
               (JStr (c_id c))
             :: connections_loop nodes seen r
         | None => connections_loop nodes (dict_set (signature c) (c_id c) seen) r
         end
  end.

Definition connection_problems (ns : list Node) (cs : list Connection) : list Violation :=
  connections_loop (index_by n_id ns) [] cs.

(** ** References *)
Definition all_subjects (aps : list Assumption) (ds : list DecisionRef) :
    list (ElementType * string * list string) :=
  ((λ x, (ASSUMPTION, a_id x, a_subject_ids x)) <$> aps)
  ++ ((λ d, (DECISION, decision_id d, d_subject_ids d)) <$> ds).

Definition reference_problems (ns : list Node) (cs : list Connection) (aps : list Assumption)
    (ds : list DecisionRef) : list Violation :=
  let known := element_ids ns cs in
  let counted := decision_id <$> ds in
  mjoin ((λ '(element, element_id, subject_ids),
     (λ subject, violation_of "dangling_reference"
        (repr subject +:+ " is not a node or connection of this architecture.")
        (Some "subject_ids") element (JStr element_id))
     <$> filter (λ s, s ∉ known) subject_ids) <$> all_subjects aps ds)
  ++ ((λ d, violation_of "duplicate_decision"
        "This decision is referenced more than once; list all its subjects in one reference."
        None DECISION (JStr d))
      <$> filter (λ d, 1 < count d counted) (dedup counted)).

Definition graph_problems (ns : list Node) (cs : list Connection) (aps : list Assumption)
    (ds : list DecisionRef) : list Violation :=
  duplicate_id_problems ns cs aps ++ containment_problems ns ++ connection_problems ns cs
  ++ reference_problems ns cs aps ds.

(** The graph rules need collections within their limits. *)
Definition ArchitectureIR_problems (a : ArchitectureArgs) : list Violation :=
  match shape_problems a with
  | [] => own_problems a ++
          graph_problems (aa_nodes a) (aa_connections a) (aa_assumptions a) (aa_decisions a)
  | shapes => own_problems a ++ shapes
  end.

(** * The constructor *)
Definition by_id {A} (id : A → string) (l : list A) : list A := sort_by (on id str_leb) l.

Definition ArchitectureIR_normalize (a : ArchitectureArgs) : ArchitectureArgs := {|
  aa_name := clean_str clean_line (aa_name a);
  aa_description := clean_or_none clean_block (aa_description a);
  aa_nodes := by_id n_id (aa_nodes a);
  aa_connections := by_id c_id (aa_connections a);
  aa_assumptions := by_id a_id (aa_assumptions a);
  aa_decisions := by_id decision_id (aa_decisions a);
  aa_refs := sorted_refs (aa_refs a);
  aa_metadata := frozen_json (aa_metadata a);
  aa_ir_provenance := aa_ir_provenance a;
  aa_schema_version := aa_schema_version a;
|}.

Definition ArchitectureIR_typed (a : ArchitectureArgs) : option ArchitectureIR :=
  n ← as_str (aa_name a);
  d ← as_opt_str (aa_description a);
  m ← as_metadata (aa_metadata a);
  Some {| ir_name := n; ir_description := d; ir_nodes := aa_nodes a;
          ir_connections := aa_connections a; ir_assumptions := aa_assumptions a;
          ir_decisions := aa_decisions a; ir_requirement_refs := aa_refs a; ir_metadata := m;
          ir_provenance := aa_ir_provenance a; ir_schema_version := aa_schema_version a |}.

Definition ArchitectureIR_new (a : ArchitectureArgs) : py ArchitectureIR :=
  let a := ArchitectureIR_normalize a in
  construct (ArchitectureIR_problems a) (ArchitectureIR_typed a).

(** * The graph rules *)
(** A node to its parent, by id. *)
Definition parent_step (ns : list Node) (x y : string) : Prop :=
  ∃ n, n ∈ ns ∧ n_id n = x ∧ n_parent_id n = Some y.

Record valid_graph (ns : list Node) (cs : list Connection) (aps : list Assumption)
    (ds : list DecisionRef) : Prop := {
  (** ids are unique across nodes, connections and assumptions; *)
  vg_ids : NoDup ((n_id <$> ns) ++ (c_id <$> cs) ++ (a_id <$> aps));
  (** a node's parent is an existing boundary, and containment has no cycles; *)
  vg_parents : ∀ n p, n ∈ ns → n_parent_id n = Some p →
    ∃ b, b ∈ ns ∧ n_id b = p ∧ n_kind b = BOUNDARY;
  vg_acyclic : ∀ x, ¬ tc (parent_step ns) x x;
  (** every connection joins existing nodes, none a boundary, and is stated once; *)
  vg_endpoints : ∀ c x, c ∈ cs → x = c_source_id c ∨ x = c_target_id c →
    ∃ n, n ∈ ns ∧ n_id n = x ∧ n_kind n ≠ BOUNDARY;
  vg_signatures : NoDup (signature <$> cs);
  (** assumptions and decisions refer only to existing nodes and connections. *)
  vg_assumptions : ∀ x s, x ∈ aps → s ∈ a_subject_ids x → s ∈ element_ids ns cs;
  vg_decisions : ∀ d s, d ∈ ds → s ∈ d_subject_ids d → s ∈ element_ids ns cs;
  vg_decision_ids : NoDup (decision_id <$> ds);
}.

(** ** Ids *)
Lemma duplicate_id_problems_nil ns cs aps :
  duplicate_id_problems ns cs aps = [] ↔ NoDup ((n_id <$> ns) ++ (c_id <$> cs) ++ (a_id <$> aps)).
Proof.
  unfold duplicate_id_problems. set (es := all_elements ns cs aps).
  assert (es.*2 = (n_id <$> ns) ++ (c_id <$> cs) ++ (a_id <$> aps)) as <-.
  { unfold es, all_elements. by rewrite !fmap_app, <- !list_fmap_compose. }
  rewrite <- (filter_count_nil snd es). split; [apply fmap_nil_inv|by intros ->].
Qed.

(** ** Containment *)
Section containment.
Context (ns : list Node) (Hids : NoDup (n_id <$> ns)) (Hempty : "" ∉ n_id <$> ns).

Definition contained (m m' : Node) : Prop := parent_of (index_by n_id ns) m = Some m'.

Lemma contained_iff m m' :
  contained m m' ↔ m' ∈ ns ∧ n_parent_id m = Some (n_id m').
Proof using Hids Hempty.
  unfold contained, parent_of. destruct (n_parent_id m) as [p|]; [|naive_solver].
  destruct (String.eqb p "") eqn:E.
  - apply String.eqb_eq in E as ->. split; [done|]. intros [Hm [= Hp]]. destruct Hempty.
    rewrite Hp. by apply list_elem_of_fmap_2.
  - rewrite (index_by_get n_id ns p m' Hids). naive_solver.
Qed.

#[local] Abbreviation loop fuel n seen c := (cycle_loop fuel n (index_by n_id ns) seen c).

(** A cycle found is a chain of parents back to the node. *)
Lemma cycle_loop_true fuel n seen c :
  loop fuel n seen c = true → ∃ c' m, c = Some c' ∧ rtc contained c' m ∧ n_id m = n_id n.
Proof.
  revert seen c. induction fuel as [|fuel IH]; intros seen [c|]; cbn [cycle_loop]; try done.
  case_decide; [done|]. destruct (String.eqb (n_id c) (n_id n)) eqn:E.
  - intros _. apply String.eqb_eq in E. by exists c, c.
  - intros (c' & m & Hc & Hr & Hm)%IH. exists c, m. split_and!; [done| |done]. by eapply rtc_l.
Qed.

(** No cycle found: the parents of what was seen have been seen, or come next. *)
Lemma cycle_loop_false fuel n seen c :
  n_id n ∉ seen →
  (∀ x m m', x ∈ seen → m ∈ ns → n_id m = x → contained m m' → n_id m' ∈ seen ∨ Some m' = c) →
  (∀ c', c = Some c' → c' ∈ ns) →
  size (list_to_set (n_id <$> ns) ∖ seen) < fuel →
  loop fuel n seen c = false → ∀ c' m, c = Some c' → rtc contained c' m → n_id m ≠ n_id n.
Proof using Hids Hempty.
  revert seen c. induction fuel as [|fuel IH]; intros seen c Hn Hclosed Hin Hfuel; [lia|].
  cbn [cycle_loop]. intros Hloop c' m -> Hr. specialize (Hin _ eq_refl). case_decide as Hseen.
  - assert (∀ a b, rtc contained a b → a ∈ ns → n_id a ∈ seen → n_id b ∈ seen) as Hreach.
    { clear Hr. induction 1 as [a|a b d Hab Hbd IHr]; [done|]. intros Ha Has.
      pose proof Hab as [Hb _]%contained_iff. apply IHr; [done|].
      destruct (Hclosed _ _ _ Has Ha eq_refl Hab) as [|[= ->]]; done. }
    intros Heq. apply Hn. rewrite <- Heq. by eapply Hreach.
  - destruct (String.eqb (n_id c') (n_id n)) eqn:E; [done|]. apply String.eqb_neq in E.
    inversion Hr as [|? d ? Hcd Hdm]; subst; [done|].
    eapply (IH ({[n_id c']} ∪ seen) (parent_of (index_by n_id ns) c')); [set_solver| | | |done|done|done].
    + intros x a a' [Hx%elem_of_singleton|Hx]%elem_of_union Ha Hax Haa'.
      * right. subst x. assert (a = c') as -> by (by apply (NoDup_key_inj n_id ns)).
        by unfold contained in Haa'.
      * left. destruct (Hclosed x a a') as [H|[= ->]]; set_solver.
    + intros a Ha. by apply contained_iff in Ha as [? _].
    + eapply Nat.lt_le_trans; [apply size_unseen; [|done]|lia].
      by apply elem_of_list_to_set, list_elem_of_fmap_2.
Qed.

Lemma contained_in a b : rtc contained a b → a ∈ ns → b ∈ ns.
Proof using Hids Hempty.
  induction 1 as [|x y z Hxy Hyz IHr]; [done|]. intros _. apply IHr.
  by apply contained_iff in Hxy as [? _].
Qed.

Lemma in_containment_cycle_iff n :
  n ∈ ns → in_containment_cycle n (index_by n_id ns) = true ↔ tc contained n n.
Proof using Hids Hempty.
  intros Hn. unfold in_containment_cycle. rewrite tc_split. split.
  - intros (c & m & Hc & Hr & Hm)%cycle_loop_true. pose proof Hc as [Hcn _]%contained_iff.
    assert (m = n) as ->; [|by exists c].
    apply (NoDup_key_inj n_id ns); [done| |done|done]. by eapply contained_in.
  - intros (c & Hc & Hr). apply not_false_iff_true. intros Hl.
    eapply (cycle_loop_false _ n ∅ (Some c)); [set_solver|set_solver| | | |done|exact Hr|done].
    + intros c' [= <-]. by apply contained_iff in Hc as [? _].
    + rewrite difference_empty_L, size_list_to_set, length_fmap by done.
      apply Nat.lt_succ_diag_r.
    + rewrite <- Hc. rewrite <- (length_fmap (λ n, (n_id n, n)) ns). rewrite <- index_by_id by done.
      exact Hl.
Qed.

(** The loop finds exactly the nodes that contain themselves. *)
Lemma tc_contained_step n : n ∈ ns → tc contained n n ↔ tc (parent_step ns) (n_id n) (n_id n).
Proof using Hids Hempty.
  intros Hn. rewrite !tc_split. split.
  - intros (c & Hc & Hr). exists (n_id c). pose proof Hc as [Hcn Hp]%contained_iff.
    split; [by exists n|]. clear Hc Hp. revert Hcn. induction Hr as [|x y z Hxy Hyz IHr]; [done|].
    intros Hx. apply contained_iff in Hxy as [Hy Hp]. eapply rtc_l; [by exists x|]. by apply IHr.
  - intros (y & Hy & Hr).
    assert (∃ m, m ∈ ns ∧ n_id m = y ∧ rtc contained m n) as (m & Hm & <- & Hmn).
    { remember (n_id n) as z eqn:Ez. clear Hy. induction Hr as [x|x y z (m & Hm & <- & Hp) Hyz IHr].
      - by exists n.
      - destruct (IHr Ez) as (m' & Hm' & <- & Hr). exists m. split_and!; [done..|].
        eapply rtc_l; [|exact Hr]. by apply contained_iff. }
    exists m. split; [|done]. apply contained_iff. destruct Hy as (n' & Hn' & Heq & Hp).
    apply (NoDup_key_inj n_id ns) in Heq as ->; done.
Qed.

Lemma containment_problems_nil :
  containment_problems ns = [] ↔
  (∀ n p, n ∈ ns → n_parent_id n = Some p → ∃ b, b ∈ ns ∧ n_id b = p ∧ n_kind b = BOUNDARY) ∧
  (∀ x, ¬ tc (parent_step ns) x x).
Proof using Hids Hempty.
  unfold containment_problems. rewrite mjoin_map_nil. split.
  - intros H. split.
    + intros n p Hn Hp. specialize (H n Hn). rewrite Hp in H. unfold parent_violation in H.
      destruct (dict_get p (index_by n_id ns)) as [b|] eqn:Hb; [|done].
      case_decide; [|done]. apply index_by_get in Hb as [? ?]; [|done]. by exists b.
    + intros x Hx. pose proof Hx as (y & (n & Hn & <- & Hp) & _)%tc_split.
      specialize (H n Hn). rewrite Hp in H. unfold parent_violation in H.
      destruct (dict_get y _); [|done]. case_decide; [|done].
      apply tc_contained_step, in_containment_cycle_iff in Hx; [|done..]. by rewrite Hx in H.
  - intros [Hpar Hac] n Hn. destruct (n_parent_id n) as [p|] eqn:Hp; [|done].
    destruct (Hpar n p Hn Hp) as (b & Hb & Hbp & Hk).
    assert (dict_get p (index_by n_id ns) = Some b) as Hget by (by apply index_by_get).
    unfold parent_violation. rewrite Hget, decide_True by done.
    destruct (in_containment_cycle n _) eqn:E; [|done].
    apply in_containment_cycle_iff, tc_contained_step in E; [|done..]. by destruct (Hac _ E).
Qed.
End containment.

(** ** Connections *)
Lemma endpoint_problems_nil ns c field x :
  NoDup (n_id <$> ns) →
  endpoint_problems (index_by n_id ns) c field x = [] ↔ ∃ n, n ∈ ns ∧ n_id n = x ∧ n_kind n ≠ BOUNDARY.
Proof.
  intros Hids. unfold endpoint_problems. destruct (dict_get x _) as [n|] eqn:E.
  - apply index_by_get in E as [Hn Hx]; [|done]. case_decide as Hk; split; try done.
    + intros (m & Hm & Hmx & Hmk). assert (m = n) as ->; [|done].
      apply (NoDup_key_inj n_id ns); congruence.
    + intros _. by exists n.
  - split; [done|]. intros (m & Hm & Hmx & _).
    assert (dict_get x (index_by n_id ns) = Some m) by (by apply index_by_get). congruence.
Qed.

Lemma connections_loop_nil nodes seen cs :
  connections_loop nodes seen cs = [] ↔
  (∀ c, c ∈ cs → endpoint_problems nodes c "source_id" (c_source_id c) = [] ∧
                 endpoint_problems nodes c "target_id" (c_target_id c) = []) ∧
  NoDup (signature <$> cs) ∧ (∀ c, c ∈ cs → signature c ∉ dict_keys seen).
Proof.
  revert seen. induction cs as [|c cs IH]; intros seen; cbn [connections_loop fmap list_fmap].
  - split; [|done]. intros _. split_and!; [set_solver|constructor|set_solver].
  - rewrite !app_nil, NoDup_cons. destruct (dict_get (signature c) seen) as [first|] eqn:E.
    + split; [naive_solver|]. intros (_ & _ & H). destruct (H c); [left|].
      apply dict_get_is_Some. by rewrite E.
    + apply dict_get_None in E. rewrite IH. setoid_rewrite elem_of_cons.
      rewrite dict_keys_set, decide_False by done. setoid_rewrite elem_of_app.
      setoid_rewrite elem_of_cons. split.
      * intros (H1 & H2 & H3 & H4 & H5). split_and!; [naive_solver| |done|].
        -- intros (d & Hd & Hin)%list_elem_of_fmap. destruct (H5 d Hin). right; left; done.
        -- intros d [->|Hd]; [done|]. specialize (H5 d Hd). tauto.
      * intros (H1 & [H2 H3] & H4). split_and!; [naive_solver..|done|].
        intros d Hd [Hs|[Hs|Hs]]; [by apply (H4 d); [right|]| |by apply elem_of_nil in Hs].
        apply H2. rewrite <- Hs. by apply list_elem_of_fmap_2.
Qed.

Lemma connection_problems_nil ns cs :
  NoDup (n_id <$> ns) →
  connection_problems ns cs = [] ↔
  (∀ c x, c ∈ cs → x = c_source_id c ∨ x = c_target_id c →
     ∃ n, n ∈ ns ∧ n_id n = x ∧ n_kind n ≠ BOUNDARY) ∧ NoDup (signature <$> cs).
Proof.
  intros Hids. unfold connection_problems. rewrite connections_loop_nil.
  setoid_rewrite (λ c f x, endpoint_problems_nil ns c f x Hids). split.
  - intros (H1 & H2 & _). split; [|done]. intros c x Hc [->| ->]; by apply H1.
  - intros (H1 & H2). split_and!; [|done|set_solver].
    intros c Hc. split; eapply H1; [done|by left|done|by right].
Qed.

(** ** References *)
Lemma reference_problems_nil ns cs aps ds :
  reference_problems ns cs aps ds = [] ↔
  (∀ x s, x ∈ aps → s ∈ a_subject_ids x → s ∈ element_ids ns cs) ∧
  (∀ d s, d ∈ ds → s ∈ d_subject_ids d → s ∈ element_ids ns cs) ∧
  NoDup (decision_id <$> ds).
Proof.
  unfold reference_problems. rewrite app_nil, <- filter_count_dedup_nil, mjoin_map_nil.
  assert (∀ e, (let '(element, element_id, subject_ids) := e : ElementType * string * list string in
     (λ subject, violation_of "dangling_reference"
        (repr subject +:+ " is not a node or connection of this architecture.")
        (Some "subject_ids") element (JStr element_id))
     <$> filter (λ s, s ∉ element_ids ns cs) subject_ids) = [] ↔
     ∀ s, s ∈ e.2 → s ∈ element_ids ns cs) as Hnil.
  { intros [[e i] ss]. cbn [snd]. split.
    - intros H%fmap_nil_inv. intros s Hs. rewrite filter_nil_iff in H.
      destruct (decide (s ∈ element_ids ns cs)) as [|Hn]; [done|]. by destruct (H s Hs).
    - intros H. rewrite (proj2 (filter_nil_iff _ _)); [done|]. intros s Hs Hn. by apply Hn, H. }
  setoid_rewrite Hnil. unfold all_subjects.
  assert (∀ (l : list string) (f : string → Violation), f <$> l = [] ↔ l = []) as ->.
  { intros l f. split; [apply fmap_nil_inv|by intros ->]. }
  setoid_rewrite elem_of_app. setoid_rewrite list_elem_of_fmap. split.
  - intros [H1 H2]. split_and!; [| |done].
    + intros x s Hx. apply (H1 (ASSUMPTION, a_id x, a_subject_ids x)). left. by exists x.
    + intros x s Hx. apply (H1 (DECISION, decision_id x, d_subject_ids x)). right. by exists x.
  - intros (H1 & H2 & H3). split; [|done]. intros e [(x & -> & Hx)|(x & -> & Hx)] s; naive_solver.
Qed.

(** The checks are the documented graph rules. *)
Lemma graph_problems_nil ns cs aps ds :
  "" ∉ n_id <$> ns → graph_problems ns cs aps ds = [] ↔ valid_graph ns cs aps ds.
Proof.
  intros Hempty. unfold graph_problems. rewrite !app_nil, duplicate_id_problems_nil.
  rewrite reference_problems_nil. split.
  - intros (Hids & Hc & Hcs & Hr1 & Hr2 & Hr3). pose proof Hids as (Hn & _ & _)%NoDup_app.
    apply containment_problems_nil in Hc as [? ?]; [|done..].
    apply connection_problems_nil in Hcs as [? ?]; [|done]. by constructor.
  - intros []. pose proof vg_ids0 as (Hn & _ & _)%NoDup_app.
    rewrite containment_problems_nil, connection_problems_nil by done. by split_and!.
Qed.

(** * Order and construction *)

(** What the graph rules say does not depend on the order of the collections. *)
#[export] Instance valid_graph_proper :
  Proper ((≡ₚ) ==> (≡ₚ) ==> (≡ₚ) ==> (≡ₚ) ==> iff) valid_graph.
Proof.
  assert (∀ ns ns' cs cs' aps aps' ds ds', ns ≡ₚ ns' → cs ≡ₚ cs' → aps ≡ₚ aps' → ds ≡ₚ ds' →
    valid_graph ns cs aps ds → valid_graph ns' cs' aps' ds') as Himp.
  { intros ns ns' cs cs' aps aps' ds ds' Hn Hc Ha Hd [Vi Vp Va Ve Vs Vas Vd Vdi].
    assert (∀ s, s ∈ element_ids ns cs ↔ s ∈ element_ids ns' cs') as Hel.
    { intros s. unfold element_ids. by rewrite Hn, Hc. }
    constructor.
    - by rewrite <- Hn, <- Hc, <- Ha.
    - intros n p. rewrite <- Hn. setoid_rewrite <- Hn. apply Vp.
    - intros x Hx. apply (Va x). revert Hx. generalize x at 1 3. intros y.
      induction 1 as [a b (n & Hin & ?)|a b c (n & Hin & ?) _ IH]; rewrite <- Hn in Hin.
      + constructor. by exists n.
      + eapply tc_l; [by exists n|done].
    - intros c x. rewrite <- Hc. setoid_rewrite <- Hn. apply Ve.
    - by rewrite <- Hc.
    - intros x s. rewrite <- Ha, <- Hel. apply Vas.
    - intros x s. rewrite <- Hd, <- Hel. apply Vd.
    - by rewrite <- Hd. }
  intros ns ns' Hn cs cs' Hc aps aps' Ha ds ds' Hd.
  split; apply Himp; try done; by symmetry.
Qed.

(** * The constructor *)
Definition within_limits (a : ArchitectureArgs) : Prop :=
  length (aa_nodes a) ≤ MAX_NODES ∧ length (aa_connections a) ≤ MAX_CONNECTIONS ∧
  length (aa_assumptions a) ≤ MAX_ASSUMPTIONS ∧ length (aa_decisions a) ≤ MAX_DECISIONS.

Lemma limit_problems_nil name size limit : limit_problems name size limit = [] ↔ size ≤ limit.
Proof.
  unfold limit_problems. destruct (limit <? size) eqn:E.
  - apply Nat.ltb_lt in E. split; [done|lia].
  - apply Nat.ltb_ge in E. done.
Qed.

Lemma shape_problems_nil a : shape_problems a = [] ↔ within_limits a.
Proof.
  unfold shape_problems. rewrite all_within_nil, !app_nil, !limit_problems_nil. done.
Qed.

Lemma ArchitectureIR_problems_nil a :
  "" ∉ n_id <$> aa_nodes a →
  ArchitectureIR_problems a = [] ↔
  within_limits a ∧ own_problems a = [] ∧
  valid_graph (aa_nodes a) (aa_connections a) (aa_assumptions a) (aa_decisions a).
Proof.
  intros Hempty. unfold ArchitectureIR_problems. rewrite <- shape_problems_nil.
  destruct (shape_problems a) as [|v vs] eqn:E.
  - rewrite app_nil, graph_problems_nil by done. tauto.
  - rewrite app_nil. split; [by intros [_ ?]|by intros [? _]].
Qed.

(** Fields that passed their checks have their types. *)
Lemma text_problems_str j field n block :
  text_problems j field n true block = [] → ∃ s, as_str j = Some s.
Proof. destruct j; simpl; try done. intros _. by eexists. Qed.

Lemma text_problems_opt_str j field n required block :
  text_problems j field n required block = [] → ∃ s, as_opt_str j = Some s.
Proof. destruct j; simpl; try done; intros _; by eexists. Qed.

Lemma metadata_problems_text j field : metadata_problems j field = [] → ∃ m, as_metadata j = Some m.
Proof.
  destruct j as [| | | | | |m]; simpl; try done. intros [_ H]%app_nil. induction m as [|[k v] m IH].
  - by eexists.
  - cbn in H. apply app_nil in H as [Hv Hm]. destruct (METADATA_KEY k); [|done].
    destruct v; try done. destruct (IH Hm) as [t Ht]. cbn in Ht |- *. rewrite Ht. by eexists.
Qed.

Lemma ArchitectureIR_typed_ok a : own_problems a = [] → ∃ ir, ArchitectureIR_typed a = Some ir.
Proof.
  unfold own_problems. intros H%all_within_nil.
  apply app_nil in H as [Hname H]. apply app_nil in H as [Hdesc H].
  apply app_nil in H as [_ H]. apply app_nil in H as [_ H].
  apply text_problems_str in Hname as [n Hn]. apply text_problems_opt_str in Hdesc as [d Hd].
  apply metadata_problems_text in H as [m Hm]. unfold ArchitectureIR_typed.
  rewrite Hn; simpl. rewrite Hd; simpl. rewrite Hm; simpl. by eexists.
Qed.

Lemma ArchitectureIR_typed_args a ir : ArchitectureIR_typed a = Some ir → ArchitectureIR_args ir = a.
Proof. unfold ArchitectureIR_typed, ArchitectureIR_args. intros. solve_args. Qed.

Lemma by_id_idemp {A} (id : A → string) l : by_id id (by_id id l) = by_id id l.
Proof. apply sort_by_idemp, _. Qed.

Lemma by_id_perm {A} (id : A → string) l : by_id id l ≡ₚ l.
Proof. apply sort_by_perm. Qed.

#[export] Instance ArchitectureIR_dataclass : Dataclass ArchitectureIR_new ArchitectureIR_args.
Proof.
  intros a ir. unfold ArchitectureIR_new; cbn [mbind]. intros [Hp Hx]%construct_ok.
  rewrite (ArchitectureIR_typed_args _ _ Hx).
  assert (ArchitectureIR_normalize (ArchitectureIR_normalize a) = ArchitectureIR_normalize a) as ->;
    [|by apply construct_ok].
  assert (own_problems (ArchitectureIR_normalize a) = []) as Hown.
  { unfold ArchitectureIR_problems in Hp. case_match; by apply app_nil in Hp as [? _]. }
  unfold own_problems in Hown. apply all_within_nil, app_nil in Hown as [_ Hown].
  apply app_nil in Hown as [Hdesc _].
  unfold ArchitectureIR_normalize in *.
  cbn -[text_problems frozen frozen_json sorted_refs clean_str clean_or_none by_id] in *.
  rewrite frozen_json_idemp, sorted_refs_idemp, !by_id_idemp, clean_str_idemp by
    (intros; apply clean_line_idemp).
  by erewrite clean_block_or_none_idemp.
Qed.

(** The arguments' own elements: what the readers hand over is constructed. *)
Definition nodes_built (ns : list Node) : Prop := Forall (built Node_new Node_args) ns.
Definition connections_built (cs : list Connection) : Prop :=
  Forall (built Connection_new Connection_args) cs.

Lemma nodes_built_ids ns : nodes_built ns → "" ∉ n_id <$> ns.
Proof.
  intros Hns (n & Heq & Hn)%list_elem_of_fmap. unfold nodes_built in Hns. rewrite Forall_forall in Hns.
  specialize (Hns n Hn). apply built_node_id in Hns. by rewrite <- Heq in Hns.
Qed.

Lemma ArchitectureIR_normalize_limits a : within_limits (ArchitectureIR_normalize a) ↔ within_limits a.
Proof. unfold within_limits; cbn. unfold by_id. by rewrite !length_sort_by. Qed.

Lemma ArchitectureIR_new_iff a :
  nodes_built (aa_nodes a) →
  ArchitectureIR_problems (ArchitectureIR_normalize a) = [] ↔
  within_limits a ∧ own_problems (ArchitectureIR_normalize a) = [] ∧
  valid_graph (aa_nodes a) (aa_connections a) (aa_assumptions a) (aa_decisions a).
Proof.
  intros Hns. rewrite ArchitectureIR_problems_nil.
  - rewrite ArchitectureIR_normalize_limits. cbn. by rewrite !by_id_perm.
  - cbn. rewrite by_id_perm. by apply nodes_built_ids.
Qed.

Lemma ArchitectureIR_new_inv a ir :
  ArchitectureIR_new a = Ok ir →
  ArchitectureIR_args ir = ArchitectureIR_normalize a ∧
  ArchitectureIR_problems (ArchitectureIR_normalize a) = [].
Proof. intros [Hp Hx]%construct_ok. split; [by apply ArchitectureIR_typed_args|done]. Qed.

(** What an engine may rely on: the graph is valid, and every collection is in id order. *)
Lemma built_architecture_graph ir :
  built ArchitectureIR_new ArchitectureIR_args ir → nodes_built (ir_nodes ir) →
  valid_graph (ir_nodes ir) (ir_connections ir) (ir_assumptions ir) (ir_decisions ir).
Proof.
  intros [_ Hp]%ArchitectureIR_new_inv Hns. apply ArchitectureIR_new_iff in Hp; [|done]. apply Hp.
Qed.

Lemma built_architecture_ordered ir :
  built ArchitectureIR_new ArchitectureIR_args ir →
  ir_nodes ir = by_id n_id (ir_nodes ir) ∧ ir_connections ir = by_id c_id (ir_connections ir) ∧
  ir_assumptions ir = by_id a_id (ir_assumptions ir) ∧
  ir_decisions ir = by_id decision_id (ir_decisions ir).
Proof. intros [Ha _]%ArchitectureIR_new_inv. by injection Ha. Qed.

Lemma built_limits ir :
  built ArchitectureIR_new ArchitectureIR_args ir → within_limits (ArchitectureIR_args ir).
Proof.
  intros [Hargs Hp]%ArchitectureIR_new_inv. rewrite <- Hargs in Hp.
  unfold ArchitectureIR_problems in Hp. rewrite <- shape_problems_nil.
  destruct (shape_problems _); [done|]. by apply app_nil in Hp as [_ ?].
Qed.

Lemma by_id_unique {A} (id : A → string) l l' : NoDup (id <$> l) → l ≡ₚ l' → by_id id l = by_id id l'.
Proof. apply sort_on_unique, _. Qed.

Lemma valid_graph_ids ns cs aps ds :
  valid_graph ns cs aps ds →
  NoDup (n_id <$> ns) ∧ NoDup (c_id <$> cs) ∧ NoDup (a_id <$> aps) ∧ NoDup (decision_id <$> ds).
Proof.
  intros [Vi _ _ _ _ _ _ Vd]. apply NoDup_app in Vi as (? & _ & Vi).
  by apply NoDup_app in Vi as (? & _ & ?).
Qed.

(** * An example: a service and its database in a network *)
Definition sample_node (id : string) (kind : NodeKind) (parent : option string) : Node := {|
  n_id := id; n_kind := kind; n_name := id; n_description := None; n_technology := None;
  n_component := None; n_parent_id := parent; n_configuration := empty_configuration;
  n_requirement_refs := []; n_lifecycle := None; n_metadata := []; n_provenance := None;
  n_field_provenance := [] |}.

Definition sample_connection (id source target : string) (kind : ConnectionKind) : Connection := {|
  c_id := id; c_source_id := source; c_target_id := target; c_kind := kind; c_protocol := None;
  c_interaction := None; c_bidirectional := false; c_critical := None; c_name := None;
  c_description := None; c_configuration := empty_configuration; c_requirement_refs := [];
  c_metadata := []; c_provenance := None; c_field_provenance := [] |}.

Definition sample_args (ns : list Node) (cs : list Connection) : ArchitectureArgs := {|
  aa_name := JStr "shop"; aa_description := JNull; aa_nodes := ns; aa_connections := cs;
  aa_assumptions := []; aa_decisions := []; aa_refs := []; aa_metadata := JObj [];
  aa_ir_provenance := None; aa_schema_version := 1 |}.

Definition shop_nodes : list Node :=
  [sample_node "web" SERVICE (Some "vpc"); sample_node "db" DATABASE (Some "vpc");
   sample_node "vpc" BOUNDARY None].
Definition shop_connections : list Connection := [sample_connection "web-db" "web" "db" DATA_ACCESS].

(** * Properties *)

(** C1: the constructor accepts exactly the architectures within the element limits, with valid
    fields of their own, whose graph follows the documented rules: unique ids, connections between
    existing components, no connection stated twice, parents that are existing boundaries, acyclic
    containment, and references to existing elements. *)
Theorem architecture_accepts a :
  nodes_built (aa_nodes a) →
  (∃ ir, ArchitectureIR_new a = Ok ir) ↔
  within_limits a ∧ own_problems (ArchitectureIR_normalize a) = [] ∧
  valid_graph (aa_nodes a) (aa_connections a) (aa_assumptions a) (aa_decisions a).
Proof.
  intros Hns. rewrite <- ArchitectureIR_new_iff by done. split.
  - intros [ir Hir]. by apply ArchitectureIR_new_inv in Hir as [_ ?].
  - intros Hp. destruct (ArchitectureIR_typed_ok (ArchitectureIR_normalize a)) as [ir Hir].
    + apply ArchitectureIR_new_iff in Hp; [|done]. apply Hp.
    + exists ir. by apply construct_ok.
Qed.

Lemma architecture_accepts_witness :
  within_limits (sample_args shop_nodes shop_connections) ∧
  valid_graph shop_nodes shop_connections [] [].
Proof.
  assert (nodes_built shop_nodes) as Hb by (repeat constructor; vm_compute; reflexivity).
  destruct (architecture_accepts (sample_args shop_nodes shop_connections) Hb) as [H _].
  destruct H as (Hl & _ & Hv).
  - eexists. vm_compute. reflexivity.
  - split; [exact Hl|exact Hv].
Defined.

(** the constructor is canonical: the order of the elements it is given does not matter, and the
    collections it keeps are in id order. *)
Theorem architecture_canonical a a' ir :
  nodes_built (aa_nodes a) → ArchitectureIR_new a = Ok ir →
  aa_nodes a' ≡ₚ aa_nodes a → aa_connections a' ≡ₚ aa_connections a →
  aa_assumptions a' ≡ₚ aa_assumptions a → aa_decisions a' ≡ₚ aa_decisions a →
  (aa_name a', aa_description a', aa_refs a', aa_metadata a', aa_ir_provenance a', aa_schema_version a')
  = (aa_name a, aa_description a, aa_refs a, aa_metadata a, aa_ir_provenance a, aa_schema_version a) →
  ArchitectureIR_new a' = Ok ir ∧ ordered_by (on n_id str_leb) (ir_nodes ir).
Proof.
  intros Hns Hir Hn Hc Ha Hd Heq. pose proof (ArchitectureIR_new_inv _ _ Hir) as [Hargs Hp].
  apply ArchitectureIR_new_iff in Hp as (_ & _ & Hv); [|done].
  apply valid_graph_ids in Hv as (Vn & Vc & Va & Vd). split.
  - rewrite <- Hir. unfold ArchitectureIR_new.
    assert (ArchitectureIR_normalize a' = ArchitectureIR_normalize a) as ->; [|done].
    injection Heq as Hname Hdesc Hrefs Hmeta Hprov Hver. unfold ArchitectureIR_normalize.
    rewrite Hname, Hdesc, Hrefs, Hmeta, Hprov, Hver.
    f_equal; symmetry; apply by_id_unique; done.
  - injection Hargs as _ _ -> _. apply sort_by_ordered, _.
Qed.

Lemma architecture_canonical_witness :
  ArchitectureIR_new (sample_args (reverse shop_nodes) shop_connections)
  = ArchitectureIR_new (sample_args shop_nodes shop_connections).
Proof.
  assert (nodes_built shop_nodes) as Hb by (repeat constructor; vm_compute; reflexivity).
  destruct (ArchitectureIR_new (sample_args shop_nodes shop_connections)) as [ir|] eqn:E.
  - apply (architecture_canonical (sample_args shop_nodes shop_connections)); try done.
    apply reverse_Permutation.
  - vm_compute in E. discriminate E.
Defined.
