(* ===== verification/Topology.v ===== *)
(** Read-only graph queries over an architecture (src/core/architecture_ir/topology.py).

    [Topology ir] is the index the class builds once; its queries return nodes in id order. *)
From Stdlib Require Import Lia.
From S2P Require Import Prelude Data Errors Values Provenance Traceability Component.
From S2P Require Import Configuration Elements Model.

(** The index: nodes and connections by id, and the adjacency lists. *)
Record Topology := {
  t_ir : ArchitectureIR;
  t_nodes : dict string Node;
  t_connections : dict string Connection;
  t_outgoing : dict string (list Connection);
  t_incoming : dict string (list Connection);
  t_children : dict string (list Node);
}.

(** [index[key].append(item)] of a [defaultdict(list)]. *)
Definition append_to {A} (index : dict string (list A)) (key : string) (item : A) :
    dict string (list A) :=
  dict_set key (default [] (dict_get key index) ++ [item]) index.

Definition Topology_of (ir : ArchitectureIR) : Topology := {|
  t_ir := ir;
  t_nodes := index_by n_id (ir_nodes ir);
  t_connections := index_by c_id (ir_connections ir);
  t_outgoing := foldl (λ d c, append_to d (c_source_id c) c) [] (ir_connections ir);
  t_incoming := foldl (λ d c, append_to d (c_target_id c) c) [] (ir_connections ir);
  t_children := foldl (λ d n, match n_parent_id n with
                              | Some p => append_to d p n
                              | None => d
                              end) [] (ir_nodes ir);
|}.

Section queries.
Context (t : Topology).

(** * Elements *)
Definition node (node_id : string) : option Node := dict_get node_id (t_nodes t).
Definition connection (connection_id : string) : option Connection :=
  dict_get connection_id (t_connections t).
Definition nodes_of_kind (kinds : list NodeKind) : list Node :=
  filter (λ n, n_kind n ∈ kinds) (ir_nodes (t_ir t)).
Definition components : list Node := filter (λ n, n_kind n ≠ BOUNDARY) (ir_nodes (t_ir t)).

(** * Connections *)
Definition of_kind (connections : list Connection) (kinds : list ConnectionKind) : list Connection :=
  filter (λ c, kinds = [] ∨ c_kind c ∈ kinds) connections.

Definition outgoing (node_id : string) (kinds : list ConnectionKind) : list Connection :=
  of_kind (default [] (dict_get node_id (t_outgoing t))) kinds.
Definition incoming (node_id : string) (kinds : list ConnectionKind) : list Connection :=
  of_kind (default [] (dict_get node_id (t_incoming t))) kinds.

Definition distinct (ids : list string) : list Node :=
  filter (λ n, n_id n ∈ ids) (ir_nodes (t_ir t)).

Definition successors (node_id : string) (kinds : list ConnectionKind) : list Node :=
  distinct (c_target_id <$> outgoing node_id kinds).
Definition predecessors (node_id : string) (kinds : list ConnectionKind) : list Node :=
  distinct (c_source_id <$> incoming node_id kinds).

(** The work list: [frontier.pop()] takes from the end.  Every node enters it at most once. *)
Definition closure (start : string) (step : string → list Node) : list Node :=
  let found := search pop_right (λ x, n_id <$> step x) (S (length (ir_nodes (t_ir t))))
                 ({[start]}, [start]) in
  let seen := found.1 ∖ {[start]} in
  filter (λ n, n_id n ∈ seen) (ir_nodes (t_ir t)).

Definition reachable_from (node_id : string) (kinds : list ConnectionKind) : list Node :=
  closure node_id (λ n, successors n kinds).
Definition dependents_of (node_id : string) (kinds : list ConnectionKind) : list Node :=
  closure node_id (λ n, predecessors n kinds).

(** * Containment *)
Definition children (boundary_id : string) : list Node :=
  default [] (dict_get boundary_id (t_children t)).

Fixpoint ancestors_loop (fuel : nat) (found : list Node) (current : option Node) : list Node :=
  match fuel, current with
  | S fuel, Some c =>
      match n_parent_id c ≫= node with
      | Some parent =>
          if decide (parent ∈ found) then found
          else ancestors_loop fuel (found ++ [parent]) (Some parent)
      | None => found
      end
  | _, _ => found
  end.

Definition ancestors (node_id : string) : list Node :=
  ancestors_loop (S (length (ir_nodes (t_ir t)))) [] (node node_id).
End queries.

(** * Facts *)
(** The adjacency lists hold each key's items, in the order they came. *)
Lemma append_to_get {A} (index : dict string (list A)) k k' x :
  default [] (dict_get k' (append_to index k x)) =
  default [] (dict_get k' index) ++ (if decide (k' = k) then [x] else []).
Proof.
  unfold append_to. rewrite dict_get_set. case_decide as E; [by subst|]. by rewrite app_nil_r.
Qed.

Lemma group_get {A} (key : A → string) (l : list A) (index : dict string (list A)) k :
  default [] (dict_get k (foldl (λ d x, append_to d (key x) x) index l)) =
  default [] (dict_get k index) ++ filter (λ x, key x = k) l.
Proof.
  revert index. induction l as [|x l IH]; intros index; cbn [foldl]; [by rewrite app_nil_r|].
  rewrite IH, append_to_get, <- (assoc_L (++)), filter_cons.
  destruct (decide (k = key x)), (decide (key x = k)); [done|congruence|congruence|done].
Qed.

(** [x] initiates a connection of one of the kinds (all of them, when none is given) to [y]. *)
Definition joined (cs : list Connection) (kinds : list ConnectionKind) (x y : string) : Prop :=
  ∃ c, c ∈ cs ∧ c_source_id c = x ∧ c_target_id c = y ∧ (kinds = [] ∨ c_kind c ∈ kinds).

Section facts.
Context (ir : ArchitectureIR).
Context (Hv : valid_graph (ir_nodes ir) (ir_connections ir) (ir_assumptions ir) (ir_decisions ir)).
#[local] Abbreviation t := (Topology_of ir).

Lemma elem_of_outgoing x kinds c :
  c ∈ outgoing t x kinds ↔ c ∈ ir_connections ir ∧ c_source_id c = x ∧ (kinds = [] ∨ c_kind c ∈ kinds).
Proof.
  unfold outgoing, of_kind; cbn [t_outgoing Topology_of]. rewrite group_get; cbn.
  rewrite !list_elem_of_filter. tauto.
Qed.

Lemma elem_of_incoming x kinds c :
  c ∈ incoming t x kinds ↔ c ∈ ir_connections ir ∧ c_target_id c = x ∧ (kinds = [] ∨ c_kind c ∈ kinds).
Proof.
  unfold incoming, of_kind; cbn [t_incoming Topology_of]. rewrite group_get; cbn.
  rewrite !list_elem_of_filter. tauto.
Qed.

Lemma elem_of_successors x kinds n :
  n ∈ successors t x kinds ↔ n ∈ ir_nodes ir ∧ joined (ir_connections ir) kinds x (n_id n).
Proof.
  unfold successors, distinct, joined. rewrite list_elem_of_filter, list_elem_of_fmap.
  setoid_rewrite elem_of_outgoing. naive_solver.
Qed.

Lemma elem_of_predecessors x kinds n :
  n ∈ predecessors t x kinds ↔ n ∈ ir_nodes ir ∧ joined (ir_connections ir) kinds (n_id n) x.
Proof.
  unfold predecessors, distinct, joined. rewrite list_elem_of_filter, list_elem_of_fmap.
  setoid_rewrite elem_of_incoming. naive_solver.
Qed.

Lemma joined_nodes kinds x y :
  joined (ir_connections ir) kinds x y →
  (∃ n, n ∈ ir_nodes ir ∧ n_id n = x) ∧ (∃ n, n ∈ ir_nodes ir ∧ n_id n = y).
Proof using Hv.
  intros (c & Hc & Hx & Hy & _). split.
  - destruct (vg_endpoints _ _ _ _ Hv c x Hc) as (n & ? & ? & _); [by left|]. by exists n.
  - destruct (vg_endpoints _ _ _ _ Hv c y Hc) as (n & ? & ? & _); [by right|]. by exists n.
Qed.

(** The search over any step that stays among the nodes. *)
Lemma elem_of_closure start step n :
  (∀ x m, m ∈ step x → m ∈ ir_nodes ir) →
  n ∈ closure t start step ↔
  n ∈ ir_nodes ir ∧ n_id n ≠ start ∧ rtc (λ x y, ∃ m, m ∈ step x ∧ n_id m = y) start (n_id n).
Proof.
  intros Hstep. unfold closure.
  set (U := list_to_set (n_id <$> ir_nodes ir) ∪ {[start]} : gset string).
  destruct (search_reaches pop_right (λ x, n_id <$> step x) start U)
    with (fuel := S (length (ir_nodes (t_ir t)))) as (found & -> & Hfound).
  - unfold U. set_solver.
  - intros x y _ (m & -> & Hm)%list_elem_of_fmap. unfold U. apply elem_of_union_l.
    apply elem_of_list_to_set, list_elem_of_fmap_2. by eapply Hstep.
  - unfold U. rewrite size_union_alt. cbn [t_ir Topology_of].
    assert (size (list_to_set (n_id <$> ir_nodes ir) : gset string) ≤ length (ir_nodes ir)).
    { rewrite <- (length_fmap n_id (ir_nodes ir)). apply size_list_to_set_le. }
    assert (size ({[start]} ∖ list_to_set (n_id <$> ir_nodes ir) : gset string) ≤ 1); [|lia].
    rewrite <- (size_singleton (C := gset string) start). apply subseteq_size. set_solver.
  - cbn [fst t_ir Topology_of]. rewrite list_elem_of_filter, elem_of_difference, Hfound.
    rewrite elem_of_singleton.
    assert (∀ y, rtc (step_rel (λ x, n_id <$> step x)) start y ↔
                 rtc (λ x y, ∃ m, m ∈ step x ∧ n_id m = y) start y) as Hrtc; [|rewrite Hrtc; tauto].
    intros y. split; apply rtc_subrel; intros a b; unfold step_rel;
      rewrite list_elem_of_fmap; naive_solver.
Qed.

Lemma elem_of_reachable_from x kinds n :
  n ∈ reachable_from t x kinds ↔
  n ∈ ir_nodes ir ∧ n_id n ≠ x ∧ tc (joined (ir_connections ir) kinds) x (n_id n).
Proof using Hv.
  unfold reachable_from. rewrite elem_of_closure by (intros y m; rewrite elem_of_successors; tauto).
  rewrite rtc_tc.
  assert (∀ y, tc (λ x y, ∃ m, m ∈ successors t x kinds ∧ n_id m = y) x y ↔
               tc (joined (ir_connections ir) kinds) x y) as Hrtc; [|rewrite Hrtc; naive_solver].
  intros y. split; apply tc_mono; intros a b.
  - intros (m & Hm%elem_of_successors & <-). tauto.
  - intros Hj. pose proof Hj as (_ & m & Hm & <-)%joined_nodes. exists m.
    by rewrite elem_of_successors.
Qed.

Lemma elem_of_dependents_of x kinds n :
  n ∈ dependents_of t x kinds ↔
  n ∈ ir_nodes ir ∧ n_id n ≠ x ∧ tc (joined (ir_connections ir) kinds) (n_id n) x.
Proof using Hv.
  unfold dependents_of. rewrite elem_of_closure by (intros y m; rewrite elem_of_predecessors; tauto).
  rewrite rtc_tc.
  assert (∀ y, tc (λ x y, ∃ m, m ∈ predecessors t x kinds ∧ n_id m = y) x y ↔
               tc (joined (ir_connections ir) kinds) y x) as Hrtc; [|rewrite Hrtc; naive_solver].
  intros y. rewrite <- (tc_flip (joined _ _)). split; apply tc_mono; unfold flip; intros a b.
  - intros (m & Hm%elem_of_predecessors & <-). tauto.
  - intros Hj. pose proof Hj as ((m & Hm & <-) & _)%joined_nodes. exists m.
    by rewrite elem_of_predecessors.
Qed.
End facts.

(** The boundaries around a node, innermost first. *)
Inductive parents_of (ns : list Node) : Node → list Node → Prop :=
  | parents_none n : n_parent_id n = None → parents_of ns n []
  | parents_cons n p l :
      p ∈ ns → n_parent_id n = Some (n_id p) → parents_of ns p l → parents_of ns n (p :: l).

Section ancestors.
Context (ir : ArchitectureIR).
Context (Hv : valid_graph (ir_nodes ir) (ir_connections ir) (ir_assumptions ir) (ir_decisions ir)).
#[local] Abbreviation t := (Topology_of ir).
#[local] Abbreviation inside := (λ m p : Node, p ∈ ir_nodes ir ∧ n_parent_id m = Some (n_id p)).

Lemma node_get n : n ∈ ir_nodes ir → node t (n_id n) = Some n.
Proof using Hv.
  intros Hn. destruct (valid_graph_ids _ _ _ _ Hv) as (Hids & _). by apply index_by_get.
Qed.

Lemma inside_acyclic n : n ∈ ir_nodes ir → ¬ tc inside n n.
Proof using Hv.
  intros Hn Hc. apply (vg_acyclic _ _ _ _ Hv (n_id n)). clear Hv.
  assert (∀ a b, tc inside a b → a ∈ ir_nodes ir → tc (parent_step (ir_nodes ir)) (n_id a) (n_id b)) as H.
  { clear. induction 1 as [a b [Hb Hp]|a b c [Hb Hp] _ IH]; intros Ha.
    - constructor. by exists a.
    - eapply tc_l; [by exists a|]. by apply IH. }
  by apply H.
Qed.

(** What was found so far all contains the current node, so its parent is new, and the fuel left
    is enough for the nodes not found. *)
Lemma ancestors_loop_parents fuel found c :
  c ∈ ir_nodes ir → NoDup found → (∀ p, p ∈ found → p ∈ ir_nodes ir ∧ rtc inside p c) →
  length (ir_nodes ir) < fuel + length found →
  ∃ l, ancestors_loop t fuel found (Some c) = found ++ l ∧ parents_of (ir_nodes ir) c l.
Proof using Hv.
  revert found c. induction fuel as [|fuel IH]; intros found c Hc Hnd Hfound Hfuel.
  { exfalso. assert (length found ≤ length (ir_nodes ir)); [|simpl in *; lia].
    apply submseteq_length, NoDup_submseteq; [done|]. intros p Hp. by apply Hfound. }
  cbn [ancestors_loop]. destruct (n_parent_id c) as [q|] eqn:Hq; cbn [mbind option_bind].
  - destruct (vg_parents _ _ _ _ Hv c q Hc Hq) as (p & Hp & <- & _).
    rewrite node_get by done. rewrite decide_False.
    + destruct (IH (found ++ [p]) p Hp) as (l & Hl & Hpl).
      * apply NoDup_app. split_and!; [done| |apply NoDup_singleton].
        intros x Hx ->%list_elem_of_singleton. apply Hfound in Hx as [_ Hx].
        apply (inside_acyclic p Hp). eapply tc_rtc_l; [exact Hx|]. by constructor.
      * intros x [Hx| ->%list_elem_of_singleton]%elem_of_app; [|done].
        destruct (Hfound x Hx) as [? Hr]. split; [done|]. eapply rtc_r; [exact Hr|done].
      * rewrite length_app; simpl; lia.
      * exists (p :: l). rewrite Hl, <- (assoc_L (++)). split; [done|]. by constructor.
    + intros Hx. apply Hfound in Hx as [_ Hx].
      apply (inside_acyclic p Hp). eapply tc_rtc_l; [exact Hx|]. by constructor.
  - exists []. rewrite app_nil_r. split; [done|]. by constructor.
Qed.
End ancestors.

Definition shop : ArchitectureIR :=
  match ArchitectureIR_new (sample_args shop_nodes shop_connections) with
  | Ok ir => ir
  | Raise _ => {| ir_name := ""; ir_description := None; ir_nodes := []; ir_connections := [];
                  ir_assumptions := []; ir_decisions := []; ir_requirement_refs := [];
                  ir_metadata := []; ir_provenance := None; ir_schema_version := 0 |}
  end.

Lemma shop_built : built ArchitectureIR_new ArchitectureIR_args shop.
Proof. vm_compute. reflexivity. Qed.

Lemma shop_nodes_built : nodes_built (ir_nodes shop).
Proof. repeat constructor; vm_compute; reflexivity. Qed.

(** * Properties *)

(** what a node depends on is exactly what it reaches over one or more connections of the kinds
    asked for, itself excluded, in id order; the search always ends. *)
Theorem reachable_from_spec ir x kinds :
  built ArchitectureIR_new ArchitectureIR_args ir → nodes_built (ir_nodes ir) →
  (∀ n, n ∈ reachable_from (Topology_of ir) x kinds ↔
        n ∈ ir_nodes ir ∧ n_id n ≠ x ∧ tc (joined (ir_connections ir) kinds) x (n_id n)) ∧
  ordered_by (on n_id str_leb) (reachable_from (Topology_of ir) x kinds).
Proof.
  intros Hb Hns. split.
  - intros n. exact (elem_of_reachable_from ir (built_architecture_graph ir Hb Hns) x kinds n).
  - unfold reachable_from, closure. apply ordered_by_filter. cbn [t_ir Topology_of].
    destruct (built_architecture_ordered ir Hb) as [-> _]. apply sort_by_ordered. apply _.
Qed.

Lemma reachable_from_spec_witness : tc (joined (ir_connections shop) []) "web" "db".
Proof.
  apply (reachable_from_spec shop "web" [] shop_built shop_nodes_built)
    with (n := sample_node "db" DATABASE (Some "vpc")).
  vm_compute. left.
Defined.

(** What depends on a node is the converse of what a node depends on. *)
Theorem dependents_of_converse ir kinds m n :
  built ArchitectureIR_new ArchitectureIR_args ir → nodes_built (ir_nodes ir) →
  m ∈ ir_nodes ir → n ∈ ir_nodes ir →
  m ∈ dependents_of (Topology_of ir) (n_id n) kinds ↔
  n ∈ reachable_from (Topology_of ir) (n_id m) kinds.
Proof.
  intros Hb Hns Hm Hn. pose proof (built_architecture_graph ir Hb Hns) as Hv.
  rewrite elem_of_dependents_of, elem_of_reachable_from by done. naive_solver.
Qed.

Lemma dependents_of_converse_witness :
  sample_node "web" SERVICE (Some "vpc") ∈ dependents_of (Topology_of shop) "db" [] ↔
  sample_node "db" DATABASE (Some "vpc") ∈ reachable_from (Topology_of shop) "web" [].
Proof.
  apply (dependents_of_converse shop [] (sample_node "web" SERVICE (Some "vpc"))
           (sample_node "db" DATABASE (Some "vpc")) shop_built shop_nodes_built);
    vm_compute; repeat (first [by left|right]).
Defined.

(** the ancestors of a node are its whole chain of containing boundaries, innermost first, however
    deep; the walk always ends. *)
Theorem ancestors_spec ir n :
  built ArchitectureIR_new ArchitectureIR_args ir → nodes_built (ir_nodes ir) → n ∈ ir_nodes ir →
  parents_of (ir_nodes ir) n (ancestors (Topology_of ir) (n_id n)).
Proof.
  intros Hb Hns Hn. pose proof (built_architecture_graph ir Hb Hns) as Hv.
  unfold ancestors. rewrite node_get by done. cbn [t_ir Topology_of].
  destruct (ancestors_loop_parents ir Hv (S (length (ir_nodes ir))) [] n Hn) as (l & -> & Hl).
  - constructor.
  - set_solver.
  - simpl. lia.
  - done.
Qed.

Lemma ancestors_spec_witness :
  parents_of (ir_nodes shop) (sample_node "web" SERVICE (Some "vpc"))
    [sample_node "vpc" BOUNDARY None].
Proof.
  apply (ancestors_spec shop (sample_node "web" SERVICE (Some "vpc")) shop_built shop_nodes_built).
  vm_compute; repeat (first [by left|right]).
Defined.
