(* ===== verification/Commands.v ===== *)
(** Semantic edits of an architecture (src/core/architecture_ir/commands.py).

    [apply_commands] is a pure function on the IR: a mutable draft ([Draft]) is edited command by
    command, all or nothing, and the result must be a valid IR. *)
From Stdlib Require Import Lia.
From S2P Require Import Prelude Data Errors Values Provenance Traceability Component.
From S2P Require Import Configuration Elements Model Topology.

Definition MAX_COMMANDS : nat := 200.

(** The values of a configuration command: [None] clears the property. *)
Inductive Command :=
  | AddNode (n : Node)
  | RemoveNodes (node_ids : list string)
  | AddConnection (c : Connection)
  | RemoveConnections (connection_ids : list string)
  | RenameNode (node_id name : string)
  | UpdateConfiguration (node_id : string) (values : dict string (option json))
  | UpdateConnectionConfiguration (connection_id : string) (values : dict string (option json))
  | ChangeReplicas (node_id : string) (replicas : Z).

Definition COMMAND_NAMES (c : Command) : string :=
  match c with
  | AddNode _ => "add_node"
  | RemoveNodes _ => "remove_nodes"
  | AddConnection _ => "add_connection"
  | RemoveConnections _ => "remove_connections"
  | RenameNode _ _ => "rename_node"
  | UpdateConfiguration _ _ => "update_configuration"
  | UpdateConnectionConfiguration _ _ => "update_connection_configuration"
  | ChangeReplicas _ _ => "change_replicas"
  end.

(** * The draft *)
Record Draft := {
  dr_nodes : dict string Node;
  dr_connections : dict string Connection;
  dr_assumptions : list Assumption;
  dr_decisions : list DecisionRef;
}.

Definition Draft_of (ir : ArchitectureIR) : Draft := {|
  dr_nodes := index_by n_id (ir_nodes ir);
  dr_connections := index_by c_id (ir_connections ir);
  dr_assumptions := ir_assumptions ir;
  dr_decisions := ir_decisions ir;
|}.

Definition with_nodes (d : Draft) (nodes : dict string Node) : Draft :=
  {| dr_nodes := nodes; dr_connections := dr_connections d; dr_assumptions := dr_assumptions d;
     dr_decisions := dr_decisions d |}.
Definition with_connections (d : Draft) (connections : dict string Connection) : Draft :=
  {| dr_nodes := dr_nodes d; dr_connections := connections; dr_assumptions := dr_assumptions d;
     dr_decisions := dr_decisions d |}.

Definition ids (d : Draft) : list string :=
  dict_keys (dr_nodes d) ++ dict_keys (dr_connections d) ++ (a_id <$> dr_assumptions d).

Definition draft_node (d : Draft) (node_id : string) : py Node :=
  match dict_get node_id (dr_nodes d) with
  | Some n => Ok n
  | None => Raise (Refused "unknown_node" ("There is no node " +:+ repr node_id +:+ ".") (Some node_id))
  end.

Definition unknown_connection {A} (id : string) : py A :=
  Raise (Refused "unknown_connection" ("There is no connection " +:+ repr id +:+ ".") (Some id)).

Definition draft_connection (d : Draft) (connection_id : string) : py Connection :=
  match dict_get connection_id (dr_connections d) with
  | Some c => Ok c
  | None => unknown_connection connection_id
  end.

(** [replace(a, subject_ids=...)]. *)
Definition keep_subjects (ids removed : list string) : json := of_ids (filter (λ s, s ∉ removed) ids).

Definition forget_assumption (removed : list string) (a : Assumption) : py Assumption :=
  Assumption_new {|
    aa_id := JStr (a_id a);
    aa_statement := JStr (statement a);
    aa_provenance := Some (a_provenance a);
    aa_subject_ids := keep_subjects (a_subject_ids a) removed;
    aa_requirement_refs := a_requirement_refs a |}.

Definition forget_decision (removed : list string) (d : DecisionRef) : py DecisionRef :=
  DecisionRef_new (Typed (decision_id d)) (keep_subjects (d_subject_ids d) removed).

(** Drop removed elements from the subjects of assumptions and decisions. *)
Definition forget (d : Draft) (removed : list string) : py Draft :=
  assumptions ← py_map (forget_assumption removed) (dr_assumptions d);
  decisions ← py_map (forget_decision removed) (dr_decisions d);
  Ok {| dr_nodes := dr_nodes d; dr_connections := dr_connections d;
        dr_assumptions := assumptions; dr_decisions := decisions |}.

(** * Changing one element *)

(** What configuring needs of a node or a connection: [replace] of its configuration and of the
    provenance of its fields. *)
Class Configurable (E : Type) := {
  configuration : E → Configuration;
  field_provenance : E → dict string Provenance;
  reconfigured : E → Configuration → dict string Provenance → py E;
}.

#[export] Instance Node_configurable : Configurable Node := {
  configuration := n_configuration;
  field_provenance := n_field_provenance;
  reconfigured n c fp :=
    let a := Node_args n in
    Node_new {| na_id := na_id a; na_kind := na_kind a; na_name := na_name a;
                na_description := na_description a; na_technology := na_technology a;
                na_component := na_component a; na_parent_id := na_parent_id a;
                na_configuration := c; na_requirement_refs := na_requirement_refs a;
                na_lifecycle := na_lifecycle a; na_metadata := na_metadata a;
                na_provenance := na_provenance a; na_field_provenance := fp |};
}.

#[export] Instance Connection_configurable : Configurable Connection := {
  configuration := c_configuration;
  field_provenance := c_field_provenance;
  reconfigured x c fp :=
    let a := Connection_args x in
    Connection_new {| ca_id := ca_id a; ca_source_id := ca_source_id a; ca_target_id := ca_target_id a;
                      ca_kind := ca_kind a; ca_protocol := ca_protocol a;
                      ca_interaction := ca_interaction a; ca_bidirectional := ca_bidirectional a;
                      ca_critical := ca_critical a; ca_name := ca_name a;
                      ca_description := ca_description a; ca_configuration := c;
                      ca_requirement_refs := ca_requirement_refs a; ca_metadata := ca_metadata a;
                      ca_provenance := ca_provenance a; ca_field_provenance := fp |};
}.

(** [replace(element, field_provenance={**element.field_provenance, **dict.fromkeys(fields, p)})]. *)
Definition stamp {E} `{Configurable E} (e : E) (fields : list string) (provenance : option Provenance) :
    py E :=
  match provenance, fields with
  | Some p, _ :: _ =>
      reconfigured e (configuration e) (dict_update (field_provenance e) ((λ f, (f, p)) <$> fields))
  | _, _ => Ok e
  end.

(** [text.removeprefix(prefix)]. *)
Fixpoint removeprefix_chars (prefix text : string) : option string :=
  match prefix, text with
  | EmptyString, _ => Some text
  | String a p, String b t => if Ascii.eqb a b then removeprefix_chars p t else None
  | _, _ => None
  end.
Definition removeprefix (prefix text : string) : string :=
  default text (removeprefix_chars prefix text).

Definition cleared (values : dict string (option json)) : list string :=
  dict_keys (filter (λ p, p.2 = None) values).

(** [{k: v for k, v in {**current, **values}.items() if k not in cleared and v is not None}]. *)
Definition merged (current : dict string json) (values : dict string (option json)) :
    dict string json :=
  omap (λ p, if decide (p.1 ∈ cleared values) then None else (pair p.1 <$> p.2))
    (dict_update ((λ p, (p.1, Some p.2)) <$> current) values).

(** [configuration.get(k) != current.get(k)]. *)
Definition get_differs (c c' : Configuration) (key : string) : bool :=
  match get c key, get c' key with
  | Some v, Some v' => negb (py_eqb v v')
  | None, None => false
  | _, _ => true
  end.

Definition changed_keys (current updated : Configuration) (values : dict string (option json)) :
    list string :=
  filter (λ k, (k ∉ cleared values) ∧ (get_differs updated current k || is_unknown current k) = true)
    (dict_keys values).

Definition configured (current : Configuration) (values : dict string (option json)) :
    py Configuration :=
  Configuration_new (merged (Configuration.values current) values)
    (filter (λ k, k ∉ dict_keys values) (unknown current)) (extra current).

Definition configure {E} `{Configurable E} (e : E) (values : dict string (option json))
    (provenance : option Provenance) : py E :=
  let current := configuration e in
  c ← configured current values;
  let kept := filter (λ p, removeprefix "configuration." p.1 ∉ cleared values) (field_provenance e) in
  updated ← reconfigured e c kept;
  stamp updated ((λ k, "configuration." +:+ k) <$> changed_keys current c values) provenance.

(** [replace(node, provenance=...)], [replace(node, name=...)]. *)
Definition Node_with_provenance (n : Node) (p : option Provenance) : py Node :=
  let a := Node_args n in
  Node_new {| na_id := na_id a; na_kind := na_kind a; na_name := na_name a;
              na_description := na_description a; na_technology := na_technology a;
              na_component := na_component a; na_parent_id := na_parent_id a;
              na_configuration := na_configuration a; na_requirement_refs := na_requirement_refs a;
              na_lifecycle := na_lifecycle a; na_metadata := na_metadata a;
              na_provenance := p; na_field_provenance := na_field_provenance a |}.

Definition Node_with_name (n : Node) (name : string) : py Node :=
  let a := Node_args n in
  Node_new {| na_id := na_id a; na_kind := na_kind a; na_name := JStr name;
              na_description := na_description a; na_technology := na_technology a;
              na_component := na_component a; na_parent_id := na_parent_id a;
              na_configuration := na_configuration a; na_requirement_refs := na_requirement_refs a;
              na_lifecycle := na_lifecycle a; na_metadata := na_metadata a;
              na_provenance := na_provenance a; na_field_provenance := na_field_provenance a |}.

Definition Connection_with_provenance (x : Connection) (p : option Provenance) : py Connection :=
  let a := Connection_args x in
  Connection_new {| ca_id := ca_id a; ca_source_id := ca_source_id a; ca_target_id := ca_target_id a;
                    ca_kind := ca_kind a; ca_protocol := ca_protocol a;
                    ca_interaction := ca_interaction a; ca_bidirectional := ca_bidirectional a;
                    ca_critical := ca_critical a; ca_name := ca_name a;
                    ca_description := ca_description a; ca_configuration := ca_configuration a;
                    ca_requirement_refs := ca_requirement_refs a; ca_metadata := ca_metadata a;
                    ca_provenance := p; ca_field_provenance := ca_field_provenance a |}.

(** [a or b], for provenance records (always truthy). *)
Definition or_else {A} (a b : option A) : option A := match a with Some _ => a | None => b end.

(** * One command *)
Definition duplicate_id {A} (id : string) : py A :=
  Raise (Refused "duplicate_id" ("The id " +:+ repr id +:+ " is already used.") (Some id)).

(** [{c.source_id, c.target_id} & removed]. *)
Definition touches (removed : list string) (c : Connection) : Prop :=
  c_source_id c ∈ removed ∨ c_target_id c ∈ removed.

(** A child left behind in a removed boundary. *)
Definition left_behind (removed : list string) (n : Node) : Prop :=
  match n_parent_id n with Some p => p ∈ removed | None => False end ∧ n_id n ∉ removed.

#[export] Instance left_behind_dec removed n : Decision (left_behind removed n).
Proof. unfold left_behind. destruct (n_parent_id n); apply _. Defined.

#[export] Instance touches_dec removed c : Decision (touches removed c).
Proof. unfold touches. apply _. Defined.

Definition remove_nodes (d : Draft) (node_ids : list string) : py Draft :=
  _ ← py_map (draft_node d) node_ids;
  match list_find (left_behind node_ids) (dict_values (dr_nodes d)) with
  | Some (_, child) =>
      Raise (Refused "boundary_not_empty"
               (repr (default "" (n_parent_id child)) +:+ " still contains " +:+ repr (n_id child) +:+
                "; move or remove it first.") (n_parent_id child))
  | None =>
      let attached := c_id <$> filter (touches node_ids) (dict_values (dr_connections d)) in
      forget {| dr_nodes := filter (λ p, p.1 ∉ node_ids) (dr_nodes d);
                dr_connections := filter (λ p, p.1 ∉ attached) (dr_connections d);
                dr_assumptions := dr_assumptions d; dr_decisions := dr_decisions d |}
        (node_ids ++ attached)
  end.

(** [for c in ids: del connections[c]]: deleting an id a second time raises. *)
Fixpoint delete_all {A} (ids : list string) (d : dict string A) : py (dict string A) :=
  match ids with
  | [] => Ok d
  | i :: r => match dict_get i d with Some _ => delete_all r (dict_del i d) | None => Raise KeyError end
  end.

Definition remove_connections (d : Draft) (connection_ids : list string) : py Draft :=
  match filter (λ c, dict_get c (dr_connections d) = None) connection_ids with
  | first :: _ => unknown_connection first
  | [] =>
      connections ← delete_all connection_ids (dr_connections d);
      forget (with_connections d connections) connection_ids
  end.

Definition apply_command (d : Draft) (provenance : option Provenance) (c : Command) : py Draft :=
  match c with
  | AddNode n =>
      if decide (n_id n ∈ ids d) then duplicate_id (n_id n)
      else n' ← Node_with_provenance n (or_else (n_provenance n) provenance);
           Ok (with_nodes d (dict_set (n_id n) n' (dr_nodes d)))
  | RemoveNodes node_ids => remove_nodes d node_ids
  | AddConnection x =>
      if decide (c_id x ∈ ids d) then duplicate_id (c_id x)
      else
        _ ← draft_node d (c_source_id x);
        _ ← draft_node d (c_target_id x);
        x' ← Connection_with_provenance x (or_else (c_provenance x) provenance);
        Ok (with_connections d (dict_set (c_id x) x' (dr_connections d)))
  | RemoveConnections connection_ids => remove_connections d connection_ids
  | RenameNode node_id name =>
      before ← draft_node d node_id;
      renamed ← Node_with_name before name;
      n ← stamp renamed (if String.eqb (n_name renamed) (n_name before) then [] else ["name"]) provenance;
      Ok (with_nodes d (dict_set node_id n (dr_nodes d)))
  | UpdateConfiguration node_id values =>
      before ← draft_node d node_id;
      n ← configure before values provenance;
      Ok (with_nodes d (dict_set node_id n (dr_nodes d)))
  | UpdateConnectionConfiguration connection_id values =>
      before ← draft_connection d connection_id;
      x ← configure before values provenance;
      Ok (with_connections d (dict_set connection_id x (dr_connections d)))
  | ChangeReplicas node_id replicas =>
      before ← draft_node d node_id;
      n ← configure before [("replicas", Some (JInt replicas))] provenance;
      Ok (with_nodes d (dict_set node_id n (dr_nodes d)))
  end.

(** * All of them *)
Definition InvalidArchitectureCommand (message : string) (details : dict string json) : exn :=
  DomainError "invalid_architecture_command" message details.

Fixpoint apply_loop (d : Draft) (provenance : option Provenance) (index : nat) (cs : list Command) :
    py Draft :=
  match cs with
  | [] => Ok d
  | c :: r =>
      match apply_command d provenance c with
      | Ok d' => apply_loop d' provenance (S index) r
      | Raise (Refused reason message element_id) =>
          Raise (InvalidArchitectureCommand message
                   [("index", JInt (Z.of_nat index)); ("command", JStr (COMMAND_NAMES c));
                    ("reason", JStr reason); ("element_id", of_opt_str element_id)])
      | Raise e => Raise e
      end
  end.

(** [replace(ir, nodes=..., connections=..., assumptions=..., decisions=...)]. *)
Definition draft_args (ir : ArchitectureIR) (d : Draft) : ArchitectureArgs :=
  let a := ArchitectureIR_args ir in
  {| aa_name := aa_name a; aa_description := aa_description a;
     aa_nodes := dict_values (dr_nodes d); aa_connections := dict_values (dr_connections d);
     aa_assumptions := dr_assumptions d; aa_decisions := dr_decisions d; aa_refs := aa_refs a;
     aa_metadata := aa_metadata a; aa_ir_provenance := aa_ir_provenance a;
     aa_schema_version := aa_schema_version a |}.

Definition apply_commands (ir : ArchitectureIR) (cs : list Command) (provenance : option Provenance) :
    py ArchitectureIR :=
  match cs with
  | [] => Raise (InvalidArchitectureCommand "No edits were given."
                   [("index", JNull); ("reason", JStr "empty")])
  | _ =>
      if MAX_COMMANDS <? length cs then
        Raise (InvalidArchitectureCommand
                 ("At most " +:+ nat_text MAX_COMMANDS +:+ " edits can be applied at once.")
                 [("index", JNull); ("reason", JStr "too_many")])
      else
        d ← apply_loop (Draft_of ir) provenance 0 cs;
        ArchitectureIR_new (draft_args ir d)
  end.

(** * Facts *)
Lemma enumerate_map_nil {A B} (f : nat → A → list B) i l :
  mjoin (enumerate_map f i l) = [] ↔ ∀ k x, l !! k = Some x → f (i + k) x = [].
Proof.
  revert i. induction l as [|x l IH]; intros i; [split; [set_solver|done]|]. cbn.
  rewrite app_nil, IH. split.
  - intros [Hx Hl] [|k] y; cbn; [intros [= <-]; by rewrite Nat.add_0_r|].
    intros Hk. rewrite Nat.add_succ_r. by apply (Hl k).
  - intros H. split; [specialize (H 0 x eq_refl); by rewrite Nat.add_0_r in H|].
    intros k y Hk. specialize (H (S k) y Hk). by rewrite Nat.add_succ_r in H.
Qed.

Lemma subject_problems_nil l field :
  subject_problems (of_ids l) field = [] ↔ length l ≤ MAX_SUBJECTS ∧ Forall ELEMENT_ID l.
Proof.
  unfold subject_problems, of_ids. rewrite length_fmap. destruct (MAX_SUBJECTS <? length l) eqn:E.
  - apply Nat.ltb_lt in E. split; [done|lia].
  - apply Nat.ltb_ge in E. rewrite enumerate_map_nil, Forall_lookup. split.
    + intros H. split; [done|]. intros k s Hk. specialize (H k (JStr s)). cbn in H.
      rewrite list_lookup_fmap, Hk in H. specialize (H eq_refl). by destruct (ELEMENT_ID s).
    + intros [_ H] k j Hk. rewrite list_lookup_fmap in Hk. apply fmap_Some in Hk as (s & Hs & ->).
      specialize (H k s Hs). cbn. by destruct (ELEMENT_ID s).
Qed.

Definition kept_subjects (removed l : list string) : list string := filter (λ s, s ∉ removed) l.

Lemma kept_normalized removed l :
  l = sorted_set l → normalized_ids (of_ids (kept_subjects removed l)) = of_ids (kept_subjects removed l).
Proof.
  intros Hl. unfold normalized_ids, of_ids. rewrite all_str_map, sorted_set_id; [done| |].
  - apply ordered_by_filter. rewrite Hl. apply sorted_set_ordered.
  - apply NoDup_filter. rewrite Hl. apply NoDup_sorted_set.
Qed.

Lemma kept_subject_problems removed l field :
  subject_problems (of_ids l) field = [] → subject_problems (of_ids (kept_subjects removed l)) field = [].
Proof.
  rewrite !subject_problems_nil. unfold kept_subjects. intros [Hlen Hall]. split.
  - etrans; [apply length_filter|done].
  - rewrite Forall_forall in *. intros s [_ Hs]%list_elem_of_filter. by apply Hall.
Qed.

Lemma built_assumption_inv a :
  built Assumption_new Assumption_args a →
  Assumption_normalize (Assumption_args a) = Assumption_args a ∧
  Assumption_problems (Assumption_args a) = [] ∧ a_subject_ids a = sorted_set (a_subject_ids a).
Proof.
  unfold built, Assumption_new; cbn zeta. intros [Hp Ht]%construct_ok.
  pose proof (Assumption_typed_args _ _ Ht) as Hargs. rewrite <- Hargs in Hp. split_and!; [done..|].
  apply (as_ids_normalized (of_ids (a_subject_ids a))). apply (f_equal aa_subject_ids) in Hargs.
  cbn -[normalized_ids] in Hargs. rewrite <- Hargs. unfold of_ids; cbn [as_ids]. apply all_str_map.
Qed.

(** Dropping subjects never makes an assumption invalid, and changes nothing else of it. *)
Lemma forget_assumption_ok removed a :
  built Assumption_new Assumption_args a →
  forget_assumption removed a =
    Ok {| a_id := a_id a; statement := statement a; a_provenance := a_provenance a;
          a_subject_ids := kept_subjects removed (a_subject_ids a);
          a_requirement_refs := a_requirement_refs a |}.
Proof.
  intros (Hn & Hp & Hs)%built_assumption_inv. unfold forget_assumption, Assumption_new; cbn zeta.
  unfold Assumption_normalize in Hn |- *. cbn -[clean_block sorted_refs normalized_ids] in Hn |- *.
  injection Hn as Hst _ Hrefs. unfold keep_subjects. fold (kept_subjects removed (a_subject_ids a)).
  rewrite Hst, Hrefs, kept_normalized by done. apply construct_ok. split.
  - unfold Assumption_problems in *.
    cbn [aa_id aa_statement aa_provenance aa_subject_ids aa_requirement_refs Assumption_args] in *.
    rewrite !app_nil in *. destruct Hp as (? & ? & ? & ? & ?). by rewrite kept_subject_problems.
  - unfold Assumption_typed; cbn -[of_ids]. unfold of_ids; cbn [as_ids]. by rewrite all_str_map.
Qed.

Lemma built_decision_inv d :
  built (λ a, DecisionRef_new a.1 a.2) DecisionRef_args d →
  subject_problems (of_ids (d_subject_ids d)) "subject_ids" = [] ∧
  d_subject_ids d = sorted_set (d_subject_ids d).
Proof.
  unfold built, DecisionRef_new; cbn zeta. cbn [fst snd DecisionRef_args]. intros [Hp Ht]%construct_ok.
  assert (d_subject_ids d = sorted_set (d_subject_ids d)) as Hs.
  { unfold DecisionRef_typed in Ht. apply bind_Some in Ht as (i & Hi & Ht).
    apply bind_Some in Ht as (s & Hs & [= Hd]). apply as_ids_normalized in Hs.
    rewrite <- Hd. cbn. done. }
  split; [|done]. unfold DecisionRef_problems in Hp. apply app_nil in Hp as [Hp _].
  revert Hp. unfold normalized_ids, of_ids. by rewrite all_str_map, <- Hs.
Qed.

Lemma forget_decision_ok removed d :
  built (λ a, DecisionRef_new a.1 a.2) DecisionRef_args d →
  forget_decision removed d =
    Ok {| decision_id := decision_id d; d_subject_ids := kept_subjects removed (d_subject_ids d) |}.
Proof.
  intros [Hp Hs]%built_decision_inv. unfold forget_decision, DecisionRef_new; cbn zeta.
  unfold keep_subjects. fold (kept_subjects removed (d_subject_ids d)).
  rewrite kept_normalized by done. apply construct_ok. split.
  - unfold DecisionRef_problems. by rewrite kept_subject_problems.
  - unfold DecisionRef_typed; cbn -[of_ids]. unfold of_ids; cbn [as_ids]. by rewrite all_str_map.
Qed.

(** * Removing: what is left *)
Lemma py_map_pure {A B} (f : A → py B) (g : A → B) l :
  Forall (λ x, f x = Ok (g x)) l → py_map f l = Ok (g <$> l).
Proof. induction 1 as [|x l Hx Hl IH]; [done|]. cbn. rewrite Hx. cbn. by rewrite IH. Qed.

(** * Removing elements *)
Definition elements_built (ir : ArchitectureIR) : Prop :=
  nodes_built (ir_nodes ir) ∧ connections_built (ir_connections ir) ∧
  Forall (built Assumption_new Assumption_args) (ir_assumptions ir) ∧
  Forall (built (λ a, DecisionRef_new a.1 a.2) DecisionRef_args) (ir_decisions ir).

Definition without_subjects (removed : list string) (a : Assumption) : Assumption := {|
  a_id := a_id a; statement := statement a; a_provenance := a_provenance a;
  a_subject_ids := kept_subjects removed (a_subject_ids a);
  a_requirement_refs := a_requirement_refs a |}.

Definition decision_without (removed : list string) (d : DecisionRef) : DecisionRef :=
  {| decision_id := decision_id d; d_subject_ids := kept_subjects removed (d_subject_ids d) |}.

(** The architecture without the nodes [nids] and the connections [cids]. *)
Definition without_elements (ir : ArchitectureIR) (nids cids : list string) : ArchitectureIR := {|
  ir_name := ir_name ir;
  ir_description := ir_description ir;
  ir_nodes := filter (λ n, n_id n ∉ nids) (ir_nodes ir);
  ir_connections := filter (λ c, c_id c ∉ cids) (ir_connections ir);
  ir_assumptions := without_subjects (nids ++ cids) <$> ir_assumptions ir;
  ir_decisions := decision_without (nids ++ cids) <$> ir_decisions ir;
  ir_requirement_refs := ir_requirement_refs ir;
  ir_metadata := ir_metadata ir;
  ir_provenance := ir_provenance ir;
  ir_schema_version := ir_schema_version ir;
|}.

Lemma filter_key_values {A} (key : A → string) (l : list A) (bad : list string) :
  NoDup (key <$> l) →
  dict_values (filter (λ p : string * A, p.1 ∉ bad) (index_by key l)) = filter (λ x, key x ∉ bad) l.
Proof.
  intros Hl. rewrite index_by_id by done. clear Hl. unfold dict_values.
  induction l as [|x l IH]; [done|]. cbn [fmap list_fmap]. rewrite !filter_cons. cbn [fst].
  destruct (decide (key x ∉ bad)); cbn [fmap list_fmap snd]; by rewrite IH.
Qed.

Lemma index_values {A} (key : A → string) (l : list A) :
  NoDup (key <$> l) → dict_values (index_by key l) = l.
Proof.
  intros Hl. rewrite index_by_id by done. unfold dict_values. rewrite <- list_fmap_compose.
  apply list_fmap_id.
Qed.

Lemma forget_ok d removed :
  Forall (built Assumption_new Assumption_args) (dr_assumptions d) →
  Forall (built (λ a, DecisionRef_new a.1 a.2) DecisionRef_args) (dr_decisions d) →
  forget d removed = Ok {| dr_nodes := dr_nodes d; dr_connections := dr_connections d;
                           dr_assumptions := without_subjects removed <$> dr_assumptions d;
                           dr_decisions := decision_without removed <$> dr_decisions d |}.
Proof.
  intros Ha Hd. unfold forget.
  rewrite (py_map_pure _ (without_subjects removed)).
  - cbn [mbind py_bind]. rewrite (py_map_pure _ (decision_without removed)); [done|].
    eapply Forall_impl; [exact Hd|]. intros d'. apply forget_decision_ok.
  - eapply Forall_impl; [exact Ha|]. intros a. apply forget_assumption_ok.
Qed.

(** A removal that leaves no child and no connection hanging keeps the graph valid. *)
Lemma without_elements_graph ir nids cids :
  valid_graph (ir_nodes ir) (ir_connections ir) (ir_assumptions ir) (ir_decisions ir) →
  (∀ n, n ∈ ir_nodes ir → ¬ left_behind nids n) →
  (∀ c, c ∈ ir_connections ir → touches nids c → c_id c ∈ cids) →
  let ir' := without_elements ir nids cids in
  valid_graph (ir_nodes ir') (ir_connections ir') (ir_assumptions ir') (ir_decisions ir').
Proof.
  intros [Vi Vp Va Ve Vs Vas Vd Vdi] Hchild Htouch ir'. unfold ir'; cbn.
  assert (∀ s, s ∈ element_ids (ir_nodes ir) (ir_connections ir) → s ∉ nids ++ cids →
            s ∈ element_ids (ir_nodes ir') (ir_connections ir')) as Hel.
  { intros s. unfold element_ids; cbn. rewrite !elem_of_app, !list_elem_of_fmap.
    setoid_rewrite list_elem_of_filter. naive_solver. }
  constructor.
  - eapply sublist_NoDup; [exact Vi|]. rewrite <- (list_fmap_compose _ a_id). apply sublist_app.
    + apply sublist_fmap, sublist_filter.
    + apply sublist_app; [apply sublist_fmap, sublist_filter|]. reflexivity.
  - intros n p [Hn Hin]%list_elem_of_filter Hp. destruct (Vp n p Hin Hp) as (b & Hb & <- & Hk).
    exists b. split_and!; [|done|done]. apply list_elem_of_filter. split; [|done].
    intros Hbad. apply (Hchild n Hin). unfold left_behind. by rewrite Hp.
  - intros x Hx. apply (Va x). eapply tc_mono; [|exact Hx].
    intros a b (n & [_ Hn]%list_elem_of_filter & ?). by exists n.
  - intros c x [Hc Hin]%list_elem_of_filter Hx. destruct (Ve c x Hin Hx) as (n & Hn & <- & Hk).
    exists n. split_and!; [|done|done]. apply list_elem_of_filter. split; [|done].
    intros Hbad. apply Hc, Htouch; [done|]. unfold touches. destruct Hx as [<-|<-]; tauto.
  - eapply sublist_NoDup; [exact Vs|]. apply sublist_fmap, sublist_filter.
  - intros x s (a & -> & Ha)%list_elem_of_fmap [Hs Hin]%list_elem_of_filter.
    apply Hel; [|done]. by eapply Vas.
  - intros x s (a & -> & Ha)%list_elem_of_fmap [Hs Hin]%list_elem_of_filter.
    apply Hel; [|done]. by eapply Vd.
  - by rewrite <- list_fmap_compose.
Qed.

(** * Replacing the elements of an architecture *)
(** The same architecture with other elements. *)
Definition with_collections (ir : ArchitectureIR) ns cs aps ds : ArchitectureIR := {|
  ir_name := ir_name ir; ir_description := ir_description ir; ir_nodes := ns; ir_connections := cs;
  ir_assumptions := aps; ir_decisions := ds; ir_requirement_refs := ir_requirement_refs ir;
  ir_metadata := ir_metadata ir; ir_provenance := ir_provenance ir;
  ir_schema_version := ir_schema_version ir |}.

(** Replacing the collections of a built architecture by valid ones, whatever their order. *)
Lemma replace_collections ir ns cs aps ds :
  built ArchitectureIR_new ArchitectureIR_args ir → "" ∉ n_id <$> ns →
  length ns ≤ MAX_NODES → length cs ≤ MAX_CONNECTIONS → length aps ≤ MAX_ASSUMPTIONS →
  length ds ≤ MAX_DECISIONS → valid_graph ns cs aps ds →
  ArchitectureIR_new (ArchitectureIR_args (with_collections ir ns cs aps ds)) =
  Ok (with_collections ir (by_id n_id ns) (by_id c_id cs) (by_id a_id aps) (by_id decision_id ds)).
Proof.
  intros Hb Hempty L1 L2 L3 L4 Hv. pose proof (ArchitectureIR_new_inv _ _ Hb) as [Hargs Hp].
  rewrite <- Hargs in Hp.
  assert (ArchitectureIR_normalize (ArchitectureIR_args (with_collections ir ns cs aps ds)) =
          ArchitectureIR_args (with_collections ir (by_id n_id ns) (by_id c_id cs) (by_id a_id aps)
            (by_id decision_id ds))) as Hn.
  { pose proof (f_equal aa_name Hargs) as Hname. pose proof (f_equal aa_description Hargs) as Hdesc.
    pose proof (f_equal aa_refs Hargs) as Hrefs. pose proof (f_equal aa_metadata Hargs) as Hmeta.
    unfold ArchitectureIR_args at 2, ArchitectureIR_normalize. f_equal; symmetry; assumption. }
  unfold ArchitectureIR_new; cbn zeta. rewrite Hn. apply construct_ok. split.
  - apply ArchitectureIR_problems_nil; cbn; [by rewrite by_id_perm|].
    split; [unfold within_limits; cbn; unfold by_id; by rewrite !length_sort_by|].
    split; [|by rewrite !by_id_perm].
    assert (own_problems (ArchitectureIR_args ir) = []) as Hown; [|exact Hown].
    unfold ArchitectureIR_problems in Hp. case_match; by apply app_nil in Hp as [? _].
  - unfold built, ArchitectureIR_new in Hb; cbn zeta in Hb. rewrite <- Hargs in Hb.
    apply construct_ok in Hb as [_ Ht]. unfold ArchitectureIR_typed in Ht |- *.
    cbn -[of_metadata of_opt_str as_metadata] in Ht |- *.
    destruct (as_opt_str _) as [d|]; [|done]. destruct (as_metadata _) as [m|]; [|done].
    cbn in Ht |- *. injection Ht as Ht. pose proof (f_equal ir_description Ht) as Hd.
    pose proof (f_equal ir_metadata Ht) as Hm. cbn in Hd, Hm. unfold with_collections.
    by rewrite <- Hd, <- Hm.
Qed.

Lemma by_id_id {A} (id : A → string) l : ordered_by (on id str_leb) l → by_id id l = l.
Proof. apply sort_by_id. Qed.

Lemma by_id_filter {A} (id : A → string) (P : A → Prop) `{!∀ x, Decision (P x)} l :
  l = by_id id l → by_id id (filter P l) = filter P l.
Proof.
  intros Hl. apply by_id_id, ordered_by_filter. rewrite Hl. apply sort_by_ordered, _.
Qed.

Lemma by_id_map {A} (id : A → string) (f : A → A) l :
  (∀ x, id (f x) = id x) → l = by_id id l → by_id id (f <$> l) = f <$> l.
Proof.
  intros Hf Hl. apply by_id_id. apply (ordered_by_fmap (on id str_leb)).
  - intros x y. unfold on. by rewrite !Hf.
  - rewrite Hl. apply sort_by_ordered, _.
Qed.

(** Removing elements that nothing else hangs on gives a valid architecture. *)
Lemma without_elements_built ir nids cids :
  built ArchitectureIR_new ArchitectureIR_args ir → nodes_built (ir_nodes ir) →
  (∀ n, n ∈ ir_nodes ir → ¬ left_behind nids n) →
  (∀ c, c ∈ ir_connections ir → touches nids c → c_id c ∈ cids) →
  built ArchitectureIR_new ArchitectureIR_args (without_elements ir nids cids).
Proof.
  intros Hb Hns Hchild Htouch. pose proof (built_architecture_graph ir Hb Hns) as Hv.
  pose proof (without_elements_graph ir nids cids Hv Hchild Htouch) as Hv'.
  destruct (built_limits ir Hb) as (L1 & L2 & L3 & L4); cbn in L1, L2, L3, L4.
  destruct (built_architecture_ordered ir Hb) as (O1 & O2 & O3 & O4).
  change (without_elements ir nids cids) with
    (with_collections ir (filter (λ n, n_id n ∉ nids) (ir_nodes ir))
       (filter (λ c, c_id c ∉ cids) (ir_connections ir))
       (without_subjects (nids ++ cids) <$> ir_assumptions ir)
       (decision_without (nids ++ cids) <$> ir_decisions ir)).
  unfold built. rewrite replace_collections; [|done|..|exact Hv'].
  - by rewrite !by_id_filter, !by_id_map.
  - intros (n & Heq & [_ Hn]%list_elem_of_filter)%list_elem_of_fmap.
    apply (nodes_built_ids _ Hns). rewrite Heq. by apply list_elem_of_fmap_2.
  - etrans; [apply length_filter|done].
  - etrans; [apply length_filter|done].
  - by rewrite length_fmap.
  - by rewrite length_fmap.
Qed.

(** * Facts about the draft *)
Lemma draft_of_args ir :
  built ArchitectureIR_new ArchitectureIR_args ir → nodes_built (ir_nodes ir) →
  draft_args ir (Draft_of ir) = ArchitectureIR_args ir.
Proof.
  intros Hb Hns. pose proof (built_architecture_graph ir Hb Hns) as (Hn & Hc & _)%valid_graph_ids.
  unfold draft_args, Draft_of; cbn [dr_nodes dr_connections dr_assumptions dr_decisions].
  by rewrite !index_values.
Qed.

Lemma apply_commands_cons ir c cs p :
  length (c :: cs) ≤ MAX_COMMANDS →
  apply_commands ir (c :: cs) p =
  d ← apply_loop (Draft_of ir) p 0 (c :: cs); ArchitectureIR_new (draft_args ir d).
Proof.
  intros Hlen. unfold apply_commands. destruct (MAX_COMMANDS <? length (c :: cs)) eqn:E; [|done].
  apply Nat.ltb_lt in E. lia.
Qed.

(** The connections that join one of the nodes. *)
Definition attached (cs : list Connection) (node_ids : list string) : list string :=
  c_id <$> filter (touches node_ids) cs.

Lemma draft_nodes_known d node_ids :
  (∀ i, i ∈ node_ids → is_Some (dict_get i (dr_nodes d))) →
  ∃ ns, py_map (draft_node d) node_ids = Ok ns.
Proof.
  induction node_ids as [|i r IH]; intros Hids; [by exists []|]. cbn.
  destruct (Hids i) as [n Hn]; [left|]. assert (draft_node d i = Ok n) as -> by (unfold draft_node; by rewrite Hn). cbn.
  destruct IH as [ns Hns]; [intros j Hj; apply Hids; by right|]. rewrite Hns. by eexists.
Qed.

Lemma list_find_none {A} (P : A → Prop) `{!∀ x, Decision (P x)} l :
  (∀ x, x ∈ l → ¬ P x) → list_find P l = None.
Proof. intros Hl. apply list_find_None, Forall_forall, Hl. Qed.

Lemma remove_nodes_ok ir node_ids :
  NoDup (n_id <$> ir_nodes ir) → NoDup (c_id <$> ir_connections ir) → elements_built ir →
  (∀ i, i ∈ node_ids → i ∈ n_id <$> ir_nodes ir) →
  (∀ n, n ∈ ir_nodes ir → ¬ left_behind node_ids n) →
  ∃ d, remove_nodes (Draft_of ir) node_ids = Ok d ∧
    draft_args ir d =
    ArchitectureIR_args (without_elements ir node_ids (attached (ir_connections ir) node_ids)).
Proof.
  intros Hn Hc (_ & _ & Ha & Hd) Hids Hchild. unfold remove_nodes.
  destruct (draft_nodes_known (Draft_of ir) node_ids) as [ns ->].
  { intros i Hi. apply dict_get_is_Some. cbn. rewrite index_by_id by done.
    unfold dict_keys. rewrite <- list_fmap_compose. by apply Hids. }
  cbn [mbind py_bind Draft_of dr_nodes dr_connections dr_assumptions dr_decisions].
  rewrite index_values, list_find_none, index_values, forget_ok by done.
  eexists. split; [done|].
  unfold draft_args; cbn [dr_nodes dr_connections dr_assumptions dr_decisions].
  by rewrite !filter_key_values.
Qed.

(** ** What a draft holds *)
Record draft_ok (d : Draft) : Prop := {
  do_nodes : Forall (λ p, n_id p.2 = p.1 ∧ built Node_new Node_args p.2) (dr_nodes d);
  do_connections : Forall (λ p, c_id p.2 = p.1 ∧ built Connection_new Connection_args p.2)
    (dr_connections d);
  do_assumptions : Forall (built Assumption_new Assumption_args) (dr_assumptions d);
  do_decisions : Forall (built (λ a, DecisionRef_new a.1 a.2) DecisionRef_args) (dr_decisions d);
}.

Lemma Node_new_ok a n : Node_new a = Ok n → JStr (n_id n) = na_id a ∧ built Node_new Node_args n.
Proof.
  intros Hn. split; [|by apply (rebuild a)].
  unfold Node_new in Hn; cbn zeta in Hn. apply py_bind_ok in Hn as (ps & _ & [_ Ht]%construct_ok).
  apply Node_typed_args in Ht. by apply (f_equal na_id) in Ht.
Qed.

Lemma Connection_new_ok a c :
  Connection_new a = Ok c → JStr (c_id c) = ca_id a ∧ built Connection_new Connection_args c.
Proof.
  intros Hn. split; [|by apply (rebuild a)].
  unfold Connection_new in Hn; cbn zeta in Hn. apply py_bind_ok in Hn as (ps & _ & [_ Ht]%construct_ok).
  apply Connection_typed_args in Ht. by apply (f_equal ca_id) in Ht.
Qed.

Lemma dict_set_forall {A} (P : string * A → Prop) k v d :
  Forall P d → P (k, v) → Forall P (dict_set k v d).
Proof.
  intros Hd Hkv. induction Hd as [|[k' v'] d Hp Hd IH]; cbn; [by constructor|].
  case_decide; by constructor.
Qed.

Lemma dict_get_forall {A} (P : string * A → Prop) k v d :
  Forall P d → dict_get k d = Some v → P (k, v).
Proof. intros Hd Hg. rewrite Forall_forall in Hd. by apply Hd, dict_get_elem. Qed.

(** A changed element keeps its id, and is a value its constructor made. *)
Class Keeps {E} `{Configurable E} (id : E → string) (ok : E → Prop) : Prop :=
  reconfigured_keeps : ∀ e c fp e', reconfigured e c fp = Ok e' → id e' = id e ∧ ok e'.

#[export] Instance Node_keeps : Keeps n_id (built Node_new Node_args).
Proof. intros n c fp n'. cbn [reconfigured Node_configurable]. by intros [[= ->] ?]%Node_new_ok. Qed.

#[export] Instance Connection_keeps : Keeps c_id (built Connection_new Connection_args).
Proof. intros x c fp x'. cbn [reconfigured Connection_configurable]. by intros [[= ->] ?]%Connection_new_ok. Qed.

Lemma stamp_keeps {E} `{!Configurable E} (id : E → string) (ok : E → Prop) `{!Keeps id ok} e fields p e' :
  ok e → stamp e fields p = Ok e' → id e' = id e ∧ ok e'.
Proof.
  intros He. unfold stamp. destruct p as [p|]; [|by intros [= <-]].
  destruct fields as [|f fields]; [by intros [= <-]|]. apply reconfigured_keeps.
Qed.

Lemma configure_keeps {E} `{!Configurable E} (id : E → string) (ok : E → Prop) `{!Keeps id ok} e values p e' :
  configure e values p = Ok e' → id e' = id e ∧ ok e'.
Proof.
  unfold configure; cbn zeta. intros (c & _ & (u & Hu & Hs)%py_bind_ok)%py_bind_ok.
  apply reconfigured_keeps in Hu as [Hid Hok]. apply (stamp_keeps id ok) in Hs as [Hid' ?]; [|done].
  by rewrite Hid', Hid.
Qed.

Lemma py_map_forall {A B} (f : A → py B) (P : B → Prop) l l' :
  (∀ x y, f x = Ok y → P y) → py_map f l = Ok l' → Forall P l'.
Proof.
  intros Hf Hl. apply py_map_ok in Hl. induction Hl; constructor; [by eapply Hf|done].
Qed.

Lemma forget_draft_ok d removed d' :
  forget d removed = Ok d' → draft_ok d → draft_ok d'.
Proof.
  unfold forget. intros (aps & Haps & (ds & Hds & [= <-])%py_bind_ok)%py_bind_ok [? ? _ _].
  constructor; cbn; [done|done| |].
  - eapply py_map_forall; [|exact Haps]. intros a a' Ha. eapply (rebuild (new := Assumption_new)), Ha.
  - eapply py_map_forall; [|exact Hds]. intros x y Hd.
    apply (rebuild (new := λ a, DecisionRef_new a.1 a.2) (Typed (decision_id x), keep_subjects (d_subject_ids x) removed)).
    exact Hd.
Qed.

Lemma filter_forall {A} (P Q : A → Prop) `{!∀ x, Decision (Q x)} l : Forall P l → Forall P (filter Q l).
Proof.
  rewrite !Forall_forall. intros Hl x [_ Hx]%list_elem_of_filter. by apply Hl.
Qed.

Lemma delete_all_forall {A} (P : string * A → Prop) ids d d' :
  delete_all ids d = Ok d' → Forall P d → Forall P d'.
Proof.
  revert d. induction ids as [|i ids IH]; intros d; cbn; [by intros [= <-]|].
  destruct (dict_get i d); [|done]. intros Hd Hf. eapply IH; [exact Hd|]. by apply filter_forall.
Qed.

(** * Every command keeps the draft's promises *)
Lemma set_node_ok d k n :
  draft_ok d → n_id n = k → built Node_new Node_args n →
  draft_ok (with_nodes d (dict_set k n (dr_nodes d))).
Proof. intros [? ? ? ?] ? ?. constructor; cbn; try done. by apply dict_set_forall. Qed.

Lemma set_connection_ok d k c :
  draft_ok d → c_id c = k → built Connection_new Connection_args c →
  draft_ok (with_connections d (dict_set k c (dr_connections d))).
Proof. intros [? ? ? ?] ? ?. constructor; cbn; try done. by apply dict_set_forall. Qed.

Lemma draft_node_ok d k n :
  draft_ok d → draft_node d k = Ok n → n_id n = k ∧ built Node_new Node_args n.
Proof.
  intros Hd. unfold draft_node. destruct (dict_get k _) as [m|] eqn:E; [|done]. intros [= <-].
  apply (dict_get_forall (λ p, n_id p.2 = p.1 ∧ built Node_new Node_args p.2)) in E; [done|apply Hd].
Qed.

Lemma draft_connection_ok d k c :
  draft_ok d → draft_connection d k = Ok c → c_id c = k ∧ built Connection_new Connection_args c.
Proof.
  intros Hd. unfold draft_connection. destruct (dict_get k _) as [m|] eqn:E; [|done]. intros [= <-].
  apply (dict_get_forall (λ p, c_id p.2 = p.1 ∧ built Connection_new Connection_args p.2)) in E;
    [done|apply Hd].
Qed.

Lemma remove_nodes_draft_ok d node_ids d' :
  draft_ok d → remove_nodes d node_ids = Ok d' → draft_ok d'.
Proof.
  intros Hd. unfold remove_nodes. intros (ns & _ & H)%py_bind_ok.
  destruct (list_find _ _) as [[i child]|]; [done|]. eapply forget_draft_ok; [exact H|].
  constructor; cbn; [apply filter_forall, Hd|apply filter_forall, Hd|apply Hd|apply Hd].
Qed.

Lemma remove_connections_draft_ok d ids d' :
  draft_ok d → remove_connections d ids = Ok d' → draft_ok d'.
Proof.
  intros Hd. unfold remove_connections. destruct (filter _ _); [|done].
  intros (cs & Hcs & H)%py_bind_ok. eapply forget_draft_ok; [exact H|].
  constructor; cbn; [apply Hd| |apply Hd|apply Hd]. eapply delete_all_forall; [exact Hcs|apply Hd].
Qed.

(** Every command keeps what the draft promises. *)
Lemma apply_command_ok d p c d' : draft_ok d → apply_command d p c = Ok d' → draft_ok d'.
Proof.
  intros Hd. destruct c; cbn [apply_command].
  - case_decide; [done|]. intros (n' & Hn%Node_new_ok & [= <-])%py_bind_ok.
    destruct Hn as [[= ?] ?]. by apply set_node_ok.
  - by apply remove_nodes_draft_ok.
  - case_decide; [done|]. intros (? & _ & (? & _ & (x & Hx & [= <-])%py_bind_ok)%py_bind_ok)%py_bind_ok.
    apply Connection_new_ok in Hx as [[= ?] ?]. by apply set_connection_ok.
  - by apply remove_connections_draft_ok.
  - intros (b & Hb & (r & Hr & (n & Hn & [= <-])%py_bind_ok)%py_bind_ok)%py_bind_ok.
    apply draft_node_ok in Hb as [<- _]; [|done]. apply Node_new_ok in Hr as [[= Hr] ?].
    apply (stamp_keeps n_id (built Node_new Node_args)) in Hn as [Hn ?]; [|done].
    apply set_node_ok; congruence.
  - intros (b & Hb & (n & Hn & [= <-])%py_bind_ok)%py_bind_ok.
    apply draft_node_ok in Hb as [<- _]; [|done].
    apply (configure_keeps n_id (built Node_new Node_args)) in Hn as [Hn ?]. by apply set_node_ok.
  - intros (b & Hb & (n & Hn & [= <-])%py_bind_ok)%py_bind_ok.
    apply draft_connection_ok in Hb as [<- _]; [|done].
    apply (configure_keeps c_id (built Connection_new Connection_args)) in Hn as [Hn ?].
    by apply set_connection_ok.
  - intros (b & Hb & (n & Hn & [= <-])%py_bind_ok)%py_bind_ok.
    apply draft_node_ok in Hb as [<- _]; [|done].
    apply (configure_keeps n_id (built Node_new Node_args)) in Hn as [Hn ?]. by apply set_node_ok.
Qed.

Lemma apply_loop_ok d p i cs d' : draft_ok d → apply_loop d p i cs = Ok d' → draft_ok d'.
Proof.
  revert d i. induction cs as [|c cs IH]; intros d i Hd; cbn; [by intros [= <-]|].
  destruct (apply_command d p c) as [d1|[]] eqn:E; try done. intros H.
  eapply IH; [|exact H]. by eapply apply_command_ok.
Qed.

Lemma index_forall {A} (key : A → string) (P : A → Prop) l :
  Forall P l → Forall (λ p, key p.2 = p.1 ∧ P p.2) (index_by key l).
Proof.
  unfold index_by, dict_of, dict_update. intros Hl.
  assert (∀ d, Forall (λ p, key p.2 = p.1 ∧ P p.2) d →
    Forall (λ p, key p.2 = p.1 ∧ P p.2)
      (foldl (λ d p, dict_set p.1 p.2 d) d ((λ x, (key x, x)) <$> l))) as H; [|apply H; constructor].
  induction Hl as [|x l Hx Hl IH]; intros d Hd; cbn; [done|]. apply IH. by apply dict_set_forall.
Qed.

Lemma Draft_of_ok ir : elements_built ir → draft_ok (Draft_of ir).
Proof. intros (? & ? & ? & ?). constructor; cbn; try done; by apply index_forall. Qed.

Lemma apply_loop_app d p i cs cs' :
  apply_loop d p i (cs ++ cs') = d' ← apply_loop d p i cs; apply_loop d' p (i + length cs) cs'.
Proof.
  revert d i. induction cs as [|c cs IH]; intros d i; cbn; [by rewrite Nat.add_0_r|].
  destruct (apply_command d p c) as [d1|[]]; try done. rewrite IH.
  by replace (i + S (length cs)) with (S i + length cs) by lia.
Qed.

(** ** Setting what is already set *)
Lemma dict_set_id {A} (d : dict string A) k v : dict_get k d = Some v → dict_set k v d = d.
Proof.
  induction d as [|[k' v'] d IH]; cbn; [done|]. case_decide as E; [by intros [= ->]; subst|].
  intros H. by rewrite IH.
Qed.

Lemma dict_update_id {A} (d : dict string A) e :
  (∀ k v, (k, v) ∈ e → dict_get k d = Some v) → dict_update d e = d.
Proof.
  unfold dict_update. induction e as [|[k v] e IH]; intros He; cbn; [done|].
  rewrite dict_set_id by (apply He; left). apply IH. intros k' v' Hin. apply He. by right.
Qed.

Lemma dict_get_fmap {A B} (f : A → B) k (d : dict string A) :
  dict_get k ((λ p, (p.1, f p.2)) <$> d) = f <$> dict_get k d.
Proof. induction d as [|[k' v] d IH]; cbn; [done|]. by case_decide. Qed.

Lemma filter_all {A} (P : A → Prop) `{!∀ x, Decision (P x)} (l : list A) : (∀ x, x ∈ l → P x) → filter P l = l.
Proof.
  intros Hl. induction l as [|x l IH]; [done|]. rewrite filter_cons, decide_True.
  - f_equal. apply IH. intros y Hy. apply Hl. by right.
  - apply Hl. left.
Qed.

(** A built configuration never lists a property as both known and unknown. *)
Lemma built_configuration_disjoint c k v :
  built (λ a, Configuration_new a.1.1 a.1.2 a.2) Configuration_args c →
  dict_get k (values c) = Some v → k ∉ unknown c.
Proof.
  unfold built, Configuration_new; cbn zeta. unfold Configuration_args; cbn [fst snd].
  intros [Hp [= Hn]]%construct_ok Hk Hu. rewrite Hn in Hp. unfold Configuration_problems in Hp.
  rewrite !app_nil in Hp. destruct Hp as (_ & _ & Hp & _). apply fmap_nil_inv in Hp.
  assert (k ∈ common (unknown c) (dict_keys (values c))) as Hin; [|rewrite Hp in Hin; by apply elem_of_nil in Hin].
  unfold common. apply elem_of_sorted_set, list_elem_of_filter. split; [|done].
  apply dict_get_is_Some. by rewrite Hk.
Qed.

(** * Properties *)

(** every architecture the edits return is one the constructor made, and so is each of its
    elements, whatever the edits: the editor can only produce valid architectures. *)
Theorem apply_commands_built ir cs p ir' :
  elements_built ir → apply_commands ir cs p = Ok ir' →
  built ArchitectureIR_new ArchitectureIR_args ir' ∧ elements_built ir'.
Proof.
  intros He. destruct cs as [|c cs]; [done|]. unfold apply_commands.
  destruct (MAX_COMMANDS <? length (c :: cs)); [done|]. intros (d & Hd & Hir)%py_bind_ok.
  split; [by apply (rebuild (draft_args ir d))|].
  apply apply_loop_ok in Hd as [Dn Dc Da Dd]; [|by apply Draft_of_ok].
  apply ArchitectureIR_new_inv in Hir as [Hargs _].
  pose proof (f_equal aa_nodes Hargs) as E1. pose proof (f_equal aa_connections Hargs) as E2.
  pose proof (f_equal aa_assumptions Hargs) as E3. pose proof (f_equal aa_decisions Hargs) as E4.
  cbn -[by_id] in E1, E2, E3, E4. unfold elements_built, nodes_built, connections_built.
  rewrite E1, E2, E3, E4. rewrite (by_id_perm n_id), (by_id_perm c_id), (by_id_perm a_id), (by_id_perm decision_id). split_and!; [| |done|done].
  - apply Forall_fmap. eapply Forall_impl; [exact Dn|]. by intros p' [_ ?].
  - apply Forall_fmap. eapply Forall_impl; [exact Dc|]. by intros p' [_ ?].
Qed.

Lemma shop_elements_built : elements_built shop.
Proof.
  split_and!; [exact shop_nodes_built| |constructor|constructor].
  repeat constructor; vm_compute; reflexivity.
Qed.

Lemma apply_commands_built_witness :
  match apply_commands shop [RemoveNodes ["db"]; RenameNode "web" " api  server "] None with
  | Ok ir' => built ArchitectureIR_new ArchitectureIR_args ir' ∧ elements_built ir'
  | Raise _ => False
  end.
Proof.
  destruct (apply_commands shop _ None) as [ir'|e] eqn:E.
  - exact (apply_commands_built _ _ _ _ shop_elements_built E).
  - vm_compute in E. discriminate E.
Defined.

(** C35: removing existing nodes, none of which leaves a child behind, always succeeds: the result is
    the same architecture without them, their connections, and their mentions. *)
Theorem remove_nodes_spec ir node_ids p :
  built ArchitectureIR_new ArchitectureIR_args ir → elements_built ir →
  (∀ i, i ∈ node_ids → i ∈ n_id <$> ir_nodes ir) →
  (∀ n, n ∈ ir_nodes ir → ¬ left_behind node_ids n) →
  apply_commands ir [RemoveNodes node_ids] p =
  Ok (without_elements ir node_ids (attached (ir_connections ir) node_ids)).
Proof.
  intros Hb He Hids Hchild. pose proof He as (Hns & _).
  pose proof (built_architecture_graph ir Hb Hns) as (Hn & Hc & _)%valid_graph_ids.
  rewrite apply_commands_cons by (cbn; unfold MAX_COMMANDS; lia). cbn [apply_loop apply_command].
  destruct (remove_nodes_ok ir node_ids Hn Hc He Hids Hchild) as (d & -> & Hd).
  cbn [mbind py_bind]. rewrite Hd. apply without_elements_built; [done|done|done|].
  intros c Hin Ht. apply list_elem_of_fmap_2, list_elem_of_filter. done.
Qed.

Lemma remove_nodes_spec_witness :
  apply_commands shop [RemoveNodes ["db"]] None =
  Ok (without_elements shop ["db"] (attached (ir_connections shop) ["db"])).
Proof.
  apply (remove_nodes_spec shop ["db"] None shop_built shop_elements_built).
  - intros i ->%list_elem_of_singleton. vm_compute. repeat (first [by left|right]).
  - apply Forall_forall. apply (bool_decide_unpack _). vm_compute. exact I.
Defined.

(** commands are all or nothing: the first one that is refused stops everything, and the error
    names it by its index, whatever comes after it. *)
Theorem apply_commands_refused ir pre c post p d reason message element_id :
  length (pre ++ c :: post) ≤ MAX_COMMANDS →
  apply_loop (Draft_of ir) p 0 pre = Ok d →
  apply_command d p c = Raise (Refused reason message element_id) →
  apply_commands ir (pre ++ c :: post) p =
  Raise (InvalidArchitectureCommand message
           [("index", JInt (Z.of_nat (length pre))); ("command", JStr (COMMAND_NAMES c));
            ("reason", JStr reason); ("element_id", of_opt_str element_id)]).
Proof.
  intros Hlen Hpre Hc. destruct (pre ++ c :: post) as [|c' cs] eqn:E; [by destruct pre|].
  rewrite apply_commands_cons by done. rewrite <- E, apply_loop_app, Hpre. cbn. by rewrite Hc.
Qed.

Lemma apply_commands_refused_witness :
  apply_commands shop [RemoveNodes ["db"]; RemoveNodes ["vpc"]; RemoveNodes ["web"]] None =
  Raise (InvalidArchitectureCommand "'vpc' still contains 'web'; move or remove it first."
           [("index", JInt 1); ("command", JStr "remove_nodes");
            ("reason", JStr "boundary_not_empty"); ("element_id", JStr "vpc")]).
Proof.
  destruct (apply_loop (Draft_of shop) None 0 [RemoveNodes ["db"]]) as [d|e] eqn:E.
  - apply (apply_commands_refused shop [RemoveNodes ["db"]] (RemoveNodes ["vpc"])
             [RemoveNodes ["web"]] None d "boundary_not_empty" _ (Some "vpc")).
    + vm_compute. lia.
    + exact E.
    + vm_compute in E. injection E as <-. vm_compute. reflexivity.
  - vm_compute in E. discriminate E.
Defined.

(** Setting properties to the values they already have changes nothing: the element is returned
    as it was, and nothing is stamped with the editor's provenance. *)
Theorem configure_unchanged n vs p :
  built Node_new Node_args n →
  built (λ a, Configuration_new a.1.1 a.1.2 a.2) Configuration_args (n_configuration n) →
  (∀ k v, (k, v) ∈ vs → py_eqb v v = true ∧ get (n_configuration n) k = Some v) →
  configure n ((λ q, (q.1, Some q.2)) <$> vs) p = Ok n.
Proof.
  intros Hn Hc Hvs. set (c := n_configuration n) in *.
  set (ws := (λ q, (q.1, Some q.2)) <$> vs : dict string (option json)).
  assert (cleared ws = []) as Hcleared.
  { unfold cleared. replace (filter _ ws) with ([] : dict string (option json)); [done|].
    symmetry. apply filter_nil_iff. by intros q (q' & -> & _)%list_elem_of_fmap. }
  assert (∀ k, k ∈ dict_keys ws → ∃ v, get c k = Some v ∧ py_eqb v v = true) as Hkeys.
  { intros k (q & -> & (q' & -> & Hq)%list_elem_of_fmap)%list_elem_of_fmap. destruct q' as [k v].
    apply Hvs in Hq as [? ?]. by exists v. }
  assert (merged (values c) ws = values c) as Hmerged.
  { unfold merged. rewrite dict_update_id.
    - rewrite Hcleared. clear. induction (values c) as [|[k v] l IH]; [done|]. cbn. by rewrite IH.
    - intros k v (q & [= -> ->] & Hq)%list_elem_of_fmap. destruct q as [k v]. cbn.
      rewrite dict_get_fmap. apply Hvs in Hq as [_ Hq]. unfold get in Hq. by rewrite Hq. }
  assert (configured c ws = Ok c) as Hconf.
  { unfold configured. rewrite Hmerged, filter_all; [exact Hc|].
    intros k Hk Hin. destruct (Hkeys k Hin) as (v & Hv & _).
    by apply (built_configuration_disjoint c k v Hc). }
  unfold configure; cbn [configuration Node_configurable]. fold c. rewrite Hconf. cbn [mbind py_bind].
  rewrite filter_all by (intros q _; rewrite Hcleared; apply not_elem_of_nil).
  assert (changed_keys c c ws = []) as ->.
  { apply filter_nil_iff. intros k Hk [_ H]. destruct (Hkeys k Hk) as (v & Hv & Heq).
    unfold get_differs, is_unknown in H. rewrite Hv, Heq in H.
    rewrite bool_decide_eq_false_2 in H; [done|]. by apply (built_configuration_disjoint c k v Hc). }
  assert (reconfigured n c (n_field_provenance n) = Ok n) as Hre by exact Hn.
  cbn [field_provenance Node_configurable fmap list_fmap]. rewrite Hre. cbn. by destruct p.
Qed.

Definition sized_web : Node := {|
  n_id := "web"; n_kind := SERVICE; n_name := "web"; n_description := None; n_technology := None;
  n_component := None; n_parent_id := Some "vpc";
  n_configuration := {| values := [("replicas", JInt 2)]; unknown := []; extra := [] |};
  n_requirement_refs := []; n_lifecycle := None; n_metadata := []; n_provenance := None;
  n_field_provenance := [] |}.

Definition user_edit : Provenance := {|
  source := USER_EDIT; reference := None; confidence := JNull; verified := false; inferred := false;
  actor := Some "ana"; recorded_at := None |}.

Lemma configure_unchanged_witness :
  configure sized_web [("replicas", Some (JInt 2))] (Some user_edit) = Ok sized_web.
Proof.
  apply (configure_unchanged sized_web [("replicas", JInt 2)] (Some user_edit)).
  - vm_compute. reflexivity.
  - vm_compute. reflexivity.
  - intros k v [= -> ->]%list_elem_of_singleton. vm_compute. split; reflexivity.
Defined.

(** Removing the same connection twice in one command is not refused like an unknown connection:
    the deletion itself raises [KeyError], and so does the whole edit. *)
Theorem remove_connection_twice ir c p :
  built ArchitectureIR_new ArchitectureIR_args ir → nodes_built (ir_nodes ir) →
  c ∈ ir_connections ir →
  apply_commands ir [RemoveConnections [c_id c; c_id c]] p = Raise KeyError.
Proof.
  intros Hb Hns Hc. pose proof (built_architecture_graph ir Hb Hns) as (_ & Hcs & _)%valid_graph_ids.
  assert (dict_get (c_id c) (index_by c_id (ir_connections ir)) = Some c) as Hget by
    (by apply index_by_get).
  rewrite apply_commands_cons by (cbn; unfold MAX_COMMANDS; lia). cbn [apply_loop apply_command].
  unfold remove_connections. rewrite (proj2 (filter_nil_iff _ _)).
  - cbn [delete_all Draft_of dr_connections]. rewrite Hget, dict_get_del, decide_True by done. done.
  - intros i Hi. assert (i = c_id c) as -> by set_solver. cbn [Draft_of dr_connections].
    rewrite Hget. done.
Qed.

Lemma remove_connection_twice_witness :
  apply_commands shop [RemoveConnections ["web-db"; "web-db"]] None = Raise KeyError.
Proof.
  apply (remove_connection_twice shop (sample_connection "web-db" "web" "db" DATA_ACCESS) None
           shop_built shop_nodes_built). vm_compute. left.
Defined.
