(* ===== verification/Versioning.v ===== *)
(** The version of the representation format (src/core/architecture_ir/versioning.py): a document
    from an older schema is upgraded step by step, one from a newer schema is refused. *)
From Stdlib Require Import Lia ZArith.
From S2P Require Import Prelude Data Errors Model.

Abbreviation document := (dict string json).

(** [steps v] turns a version-[v] document into a version-[v + 1] document. *)
Definition Upgrades := Z → option (document → document).
Definition UPGRADES : Upgrades := λ _, None.

Definition refuse {A} (message : string) : py A :=
  raise_invalid [violation_of "unsupported_schema_version" message (Some "schema_version")
                   ARCHITECTURE JNull].

(** [data.get(key)]. *)
Definition get_json (data : document) (key : string) : json := default JNull (dict_get key data).

(** [str(d)]: scientific notation for a positive exponent or a very small number. *)
Definition dec_str (d : dec) : string :=
  match d with
  | DFin c e =>
      let n := digits c in
      let adjusted := (e + n - 1)%Z in
      if (e <=? 0)%Z && (-6 <=? adjusted)%Z then dec_plain c e
      else (if (n =? 1)%Z then Z_text c else dec_plain c (1 - n)) +:+ "E" +:+
           (if (adjusted <? 0)%Z then "" else "+") +:+ Z_text adjusted
  | DInf n => if n then "-Infinity" else "Infinity"
  | DNaN => "NaN"
  end.

(** [repr] of a value. *)
Fixpoint json_repr (j : json) : string :=
  match j with
  | JNull => "None"
  | JBool b => if b then "True" else "False"
  | JInt z => Z_text z
  | JDec d => "Decimal('" +:+ dec_str d +:+ "')"
  | JStr s => repr s
  | JArr l => "[" +:+ join ", " (json_repr <$> l) +:+ "]"
  | JObj m => "{" +:+ join ", " ((λ p, repr p.1 +:+ ": " +:+ json_repr p.2) <$> m) +:+ "}"
  end.

Definition schema_version_of (data : document) : py Z :=
  match get_json data "schema_version" with
  | JNull => raise_invalid [violation_of "required" "schema_version is required."
                              (Some "schema_version") ARCHITECTURE JNull]
  | JInt v =>
      if (v <? 1)%Z then
        refuse ("schema_version must be a positive whole number, not " +:+ Z_text v +:+ ".")
      else Ok v
  | j => refuse ("schema_version must be a positive whole number, not " +:+ json_repr j +:+ ".")
  end.

(** [while version < current]. *)
Fixpoint upgrade_loop (fuel : nat) (steps : Upgrades) (doc : document) (version current : Z) :
    py document :=
  match fuel with
  | O => Ok doc
  | S fuel =>
      match steps version with
      | None => refuse ("Schema version " +:+ Z_text version +:+ " can no longer be read.")
      | Some step =>
          upgrade_loop fuel steps
            (dict_set "schema_version" (JInt (version + 1)) (step doc)) (version + 1) current
      end
  end.

(** The document in the [current] schema, and the version it was written in. *)
Definition upgrade (steps : Upgrades) (current : Z) (data : document) : py (document * Z) :=
  original ← schema_version_of data;
  if (current <? original)%Z then
    refuse ("This architecture uses schema version " +:+ Z_text original +:+
            ", newer than this version of ArchitectOS understands (" +:+ Z_text current +:+ ").")
  else if (original =? current)%Z then Ok (data, original)
  else
    doc ← upgrade_loop (Z.to_nat (current - original)) steps data original current;
    Ok (doc, original).

(** * Facts *)

(** The steps from one version to the next, in order. *)
Fixpoint stepped (steps : Upgrades) (n : nat) (version : Z) (doc : document) : option document :=
  match n with
  | O => Some doc
  | S n =>
      step ← steps version;
      stepped steps n (version + 1) (dict_set "schema_version" (JInt (version + 1)) (step doc))
  end.

Lemma raise_invalid_not_ok {A} vs (a : A) : raise_invalid vs ≠ Ok a.
Proof. unfold raise_invalid. by destruct (ordered _). Qed.

Lemma refuse_not_ok {A} message (a : A) : refuse message ≠ Ok a.
Proof. apply raise_invalid_not_ok. Qed.

Lemma upgrade_loop_stepped fuel steps doc version current doc' :
  upgrade_loop fuel steps doc version current = Ok doc' ↔ stepped steps fuel version doc = Some doc'.
Proof.
  revert doc version. induction fuel as [|fuel IH]; intros doc version; cbn; [naive_solver|].
  destruct (steps version) as [step|]; cbn; [apply IH|]. split; [|done].
  intros H. by apply refuse_not_ok in H.
Qed.

Lemma stepped_version steps n version doc doc' :
  0 < n → stepped steps n version doc = Some doc' →
  dict_get "schema_version" doc' = Some (JInt (version + Z.of_nat n)).
Proof.
  revert version doc. induction n as [|n IH]; intros version doc Hn; [lia|]. cbn.
  destruct (steps version) as [step|]; [|done]. cbn. destruct n as [|n].
  - intros [= <-]. by rewrite dict_get_set_eq.
  - intros H. rewrite (IH (version + 1)%Z _ ltac:(lia) H). f_equal. f_equal. lia.
Qed.

(** * Properties *)

(** reading an older document applies the upgrades from its version up, one after the other; the
    result states the current version, and a document already current is not changed. *)
Theorem upgrade_spec steps current data original doc :
  schema_version_of data = Ok original → (original ≤ current)%Z →
  upgrade steps current data = Ok (doc, original) ↔
  stepped steps (Z.to_nat (current - original)) original data = Some doc ∧
  dict_get "schema_version" doc = Some (JInt current).
Proof.
  intros Hv Hle. unfold upgrade. rewrite Hv. cbn [mbind py_bind].
  rewrite (proj2 (Z.ltb_ge _ _) Hle). destruct (original =? current)%Z eqn:E.
  - apply Z.eqb_eq in E as ->. rewrite Z.sub_diag. cbn. split; [|naive_solver].
    intros [= ->]. split; [done|]. unfold schema_version_of, get_json in Hv.
    destruct (dict_get "schema_version" doc) as [j|] eqn:G; cbn [default from_option id] in Hv.
    + destruct j as [| |z| | | |]; try by (first [apply refuse_not_ok in Hv|apply raise_invalid_not_ok in Hv]).
      destruct (z <? 1)%Z; [by apply refuse_not_ok in Hv|]. by injection Hv as ->.
    + by apply raise_invalid_not_ok in Hv.
  - apply Z.eqb_neq in E. rewrite py_bind_ok. setoid_rewrite upgrade_loop_stepped. split.
    + intros (d & Hd & Heq). injection Heq as ->. split; [done|]. rewrite (stepped_version steps (Z.to_nat (current - original)) original data doc ltac:(lia) Hd).
      f_equal. f_equal. lia.
    + intros [Hd _]. by exists doc.
Qed.

(** An upgrade chain for the witness: version 1 called the name "title". *)
Definition rename_title : Upgrades :=
  λ v, if (v =? 1)%Z
       then Some (λ d, dict_set "name" (get_json d "title") (dict_del "title" d)) else None.

Lemma upgrade_spec_witness :
  upgrade rename_title 2 [("schema_version", JInt 1); ("title", JStr "shop")]
  = Ok ([("schema_version", JInt 2); ("name", JStr "shop")], 1%Z).
Proof.
  apply (upgrade_spec rename_title 2 [("schema_version", JInt 1); ("title", JStr "shop")] 1%Z).
  - vm_compute. reflexivity.
  - lia.
  - vm_compute. split; reflexivity.
Defined.
