(* ===== verification/Serialization.v ===== *)
(** The canonical JSON form of the Architecture IR (src/core/architecture_ir/serialization.py).

    [to_dict] writes, [from_dict] reads: structure first, then every element, then the graph.  A
    reader returns what it could build and the problems it found ([Read]); only
    [InvalidArchitecture] is turned into problems.  The text of a document is in [JsonText], its
    hash in [Revisions]. *)
From Stdlib Require Import Ascii ZArith.
From S2P Require Import Prelude Data Codecs Errors Values Provenance Traceability Component.
From S2P Require Import Configuration Elements Model Versioning.

(** * Writing *)

(** A confidence is a [Decimal], as its type says (the readers convert whole numbers). *)
Definition confidence_json (c : json) : json :=
  match as_number c with Some d => JStr (decimal_to_str d) | None => JNull end.

Definition time_json (t : option datetime) : json :=
  match t with Some d => JStr (isoformat (to_utc d)) | None => JNull end.

Definition provenance_record (p : Provenance) : document := [
  ("source", JStr (value (source p)));
  ("reference", of_opt_str (reference p));
  ("confidence", confidence_json (confidence p));
  ("verified", JBool (verified p));
  ("inferred", JBool (inferred p));
  ("actor", of_opt_str (actor p));
  ("recorded_at", time_json (recorded_at p))].

Definition provenance_dict (p : option Provenance) : json :=
  match p with Some p => JObj (provenance_record p) | None => JNull end.

Definition version_json (v : option Z) : json := match v with Some n => JInt n | None => JNull end.

Definition ref_dict (r : RequirementRef) : json :=
  JObj [("requirement_id", JStr (requirement_id r)); ("version", version_json (version r))].

Definition refs_dict (refs : list RequirementRef) : json := JArr (ref_dict <$> refs).

(** Tuples are written as lists; decimals as text. *)
Definition value_json (v : json) : json :=
  match v with JDec d => JStr (decimal_to_str d) | _ => v end.

(** [_thaw]: read-only mappings and tuples as dictionaries and lists. *)
Fixpoint thaw (v : json) : json :=
  match v with
  | JObj m => JObj ((λ p, (p.1, thaw p.2)) <$> m)
  | JArr l => JArr (thaw <$> l)
  | _ => v
  end.

Definition configuration_dict (c : Configuration) : json := JObj [
  ("values", JObj ((λ p, (p.1, value_json p.2)) <$> values c));
  ("unknown", JArr (JStr <$> sort_by str_leb (unknown c)));
  ("extra", thaw (JObj (extra c)))].

Definition annotations_dict (c : Configuration) (refs : list RequirementRef)
    (metadata : dict string string) (p : option Provenance) (fp : dict string Provenance) : document := [
  ("configuration", configuration_dict c);
  ("requirement_refs", refs_dict refs);
  ("metadata", of_metadata metadata);
  ("provenance", provenance_dict p);
  ("field_provenance", JObj ((λ q, (q.1, provenance_dict (Some q.2))) <$> fp))].

Definition technology_dict (t : option Technology) : json :=
  match t with
  | Some t => JObj [("name", JStr (t_name t)); ("version", of_opt_str (t_version t))]
  | None => JNull
  end.

Definition enum_json {E} `{StrEnum E} (o : option E) : json :=
  match o with Some e => JStr (value e) | None => JNull end.

Definition node_dict (n : Node) : json := JObj ([
  ("id", JStr (n_id n));
  ("kind", JStr (value (n_kind n)));
  ("name", JStr (n_name n));
  ("description", of_opt_str (n_description n));
  ("technology", technology_dict (n_technology n));
  ("component", of_opt_str (n_component n));
  ("parent_id", of_opt_str (n_parent_id n));
  ("lifecycle", enum_json (n_lifecycle n))] ++
  annotations_dict (n_configuration n) (n_requirement_refs n) (n_metadata n) (n_provenance n)
    (n_field_provenance n)).

Definition connection_dict (c : Connection) : json := JObj ([
  ("id", JStr (c_id c));
  ("source_id", JStr (c_source_id c));
  ("target_id", JStr (c_target_id c));
  ("kind", JStr (value (c_kind c)));
  ("protocol", of_opt_str (c_protocol c));
  ("interaction", enum_json (c_interaction c));
  ("bidirectional", JBool (c_bidirectional c));
  ("critical", of_opt_bool (c_critical c));
  ("name", of_opt_str (c_name c));
  ("description", of_opt_str (c_description c))] ++
  annotations_dict (c_configuration c) (c_requirement_refs c) (c_metadata c) (c_provenance c)
    (c_field_provenance c)).

Definition assumption_dict (a : Assumption) : json := JObj [
  ("id", JStr (a_id a));
  ("statement", JStr (statement a));
  ("provenance", provenance_dict (Some (a_provenance a)));
  ("subject_ids", of_ids (a_subject_ids a));
  ("requirement_refs", refs_dict (a_requirement_refs a))].

Definition decision_dict (d : DecisionRef) : json :=
  JObj [("decision_id", JStr (decision_id d)); ("subject_ids", of_ids (d_subject_ids d))].

Definition to_dict (ir : ArchitectureIR) : json := JObj [
  ("schema_version", JInt (ir_schema_version ir));
  ("name", JStr (ir_name ir));
  ("description", of_opt_str (ir_description ir));
  ("metadata", of_metadata (ir_metadata ir));
  ("provenance", provenance_dict (ir_provenance ir));
  ("requirement_refs", refs_dict (ir_requirement_refs ir));
  ("nodes", JArr (node_dict <$> ir_nodes ir));
  ("connections", JArr (connection_dict <$> ir_connections ir));
  ("assumptions", JArr (assumption_dict <$> ir_assumptions ir));
  ("decisions", JArr (decision_dict <$> ir_decisions ir))].

(** * Reading *)
Definition ARCHITECTURE_FIELDS : list string :=
  ["schema_version"; "name"; "description"; "metadata"; "provenance"; "requirement_refs"; "nodes";
   "connections"; "assumptions"; "decisions"].
Definition ANNOTATIONS : list string :=
  ["configuration"; "requirement_refs"; "metadata"; "provenance"; "field_provenance"].
Definition NODE_JSON_FIELDS : list string :=
  ANNOTATIONS ++
  ["id"; "kind"; "name"; "description"; "technology"; "component"; "parent_id"; "lifecycle"].
Definition CONNECTION_JSON_FIELDS : list string :=
  ANNOTATIONS ++
  ["id"; "source_id"; "target_id"; "kind"; "protocol"; "interaction"; "bidirectional"; "critical";
   "name"; "description"].
Definition ASSUMPTION_FIELDS : list string :=
  ["id"; "statement"; "provenance"; "subject_ids"; "requirement_refs"].
Definition DECISION_FIELDS : list string := ["decision_id"; "subject_ids"].
Definition PROVENANCE_FIELDS : list string :=
  ["source"; "reference"; "confidence"; "verified"; "inferred"; "actor"; "recorded_at"].
Definition TECHNOLOGY_FIELDS : list string := ["name"; "version"].
Definition CONFIGURATION_FIELDS : list string := ["values"; "unknown"; "extra"].
Definition REFERENCE_FIELDS : list string := ["requirement_id"; "version"].

(** ** Converters: the converted value, or the value itself for the model to report on *)
Definition read_uuid (j : json) : raw uuid :=
  match j with JStr s => match uuid_of s with Some u => Typed u | None => Raw j end | _ => Raw j end.

Definition read_time (j : json) : raw datetime :=
  match j with
  | JStr s => match fromisoformat s with Some d => Typed d | None => Raw j end
  | _ => Raw j
  end.

(** [^-?\d{1,18}$], and [^-?\d{1,18}(?:\.\d{1,18})?$]: the sign, the digits before the point and,
    if any, after it. *)
Definition sign_of (l : chars) : bool * chars :=
  match l with c :: r => if char_eqb c 45 then (true, r) else (false, l) | [] => (false, []) end.

Definition digit_run (l : chars) : bool :=
  (1 <=? length l) && (length l <=? 18) && forallb is_digit l.

Definition integer_text (s : string) : option Z :=
  let '(negative, l) := sign_of (chars_of s) in
  if digit_run l then
    z ← decimal_digits l; Some (if negative : bool then (- z)%Z else z)
  else None.

Definition decimal_text (s : string) : option dec :=
  let '(negative, l) := sign_of (chars_of s) in
  let signed z := if negative : bool then (- z)%Z else z in
  match find_char 46 l with
  | None => if digit_run l then z ← decimal_digits l; Some (DFin (signed z) 0) else None
  | Some i =>
      let '(before, after) := (take i l, drop (i + 1) l) in
      if digit_run before && digit_run after then
        z ← decimal_digits (before ++ after);
        Some (DFin (signed z) (- Z.of_nat (length after)))
      else None
  end.

Definition read_decimal (j : json) : json :=
  match j with
  | JInt z => JDec (dec_of_Z z)
  | JStr s => match decimal_text (strip s) with Some d => JDec d | None => j end
  | _ => j
  end.

(** [default if value is None else value]. *)
Definition or_default (j default : json) : json := match j with JNull => default | _ => j end.

(** ** Problems of structure *)
Definition structure_problems (data : document) (allowed required : list string) (what : string) :
    list Violation :=
  ((λ key, violation "unknown_field" (repr key +:+ " is not a field of " +:+ what +:+ ".") (Some key))
   <$> filter (λ key, key ∉ allowed) (sort_by str_leb (dict_keys data)))
  ++ ((λ key, violation "required" (key +:+ " is required.") (Some key))
      <$> filter (λ key, get_json data key = JNull) required).

(** [f"{prefix}.{v.field}" if v.field else prefix]. *)
Definition under_field (prefix : string) (v : Violation) : Violation :=
  with_field v (match v_field v with
                | Some f => Some (if String.eqb f "" then prefix else prefix +:+ "." +:+ f)
                | None => Some prefix
                end).
Definition under (vs : list Violation) (prefix : string) : list Violation := under_field prefix <$> vs.

Abbreviation Read A := (py (option A * list Violation)).

Definition nothing {A} (vs : list Violation) : Read A := Ok (None, vs).

Definition attempt {A} (build : py A) : Read A :=
  match build with
  | Ok a => Ok (Some a, [])
  | Raise (InvalidArchitecture vs) => Ok (None, vs)
  | Raise e => Raise e
  end.

Definition attempt_under {A} (build : py A) (prefix : string) : Read A :=
  '(a, problems) ← attempt build; Ok (a, under problems prefix).

Definition not_an_object (what : string) (field : option string) (element : option ElementType) :
    list Violation :=
  [{| v_rule := "not_an_object"; v_message := what +:+ " must be an object."; v_field := field;
      v_element := element; v_element_id := JNull |}].

(** ** The values inside elements *)
Definition provenance_args_of (m : document) : ProvenanceArgs := {|
  pa_source := read_enum (get_json m "source");
  pa_reference := get_json m "reference";
  pa_confidence := match get_json m "confidence" with JNull => JNull | c => read_decimal c end;
  pa_verified := or_default (get_json m "verified") (JBool false);
  pa_inferred := or_default (get_json m "inferred") (JBool false);
  pa_actor := get_json m "actor";
  pa_recorded_at := read_time (get_json m "recorded_at");
|}.

Definition read_provenance (j : json) (field : string) : Read Provenance :=
  match j with
  | JNull => nothing []
  | JObj m =>
      match structure_problems m PROVENANCE_FIELDS ["source"] "provenance" with
      | [] => attempt_under (Provenance_new (provenance_args_of m)) field
      | problems => nothing (under problems field)
      end
  | _ => nothing (not_an_object field (Some field) None)
  end.

Definition read_reference (item : json) (path : string) : Read RequirementRef :=
  match item with
  | JObj m =>
      match structure_problems m REFERENCE_FIELDS ["requirement_id"] "a requirement reference" with
      | [] => attempt_under
                (RequirementRef_new (read_uuid (get_json m "requirement_id")) (get_json m "version")) path
      | problems => nothing (under problems path)
      end
  | _ => nothing [violation "invalid_reference" (path +:+ " must be an object.") (Some path)]
  end.

(** Each item with its index, in turn. *)
Fixpoint read_items {A} (read : nat → json → Read A) (i : nat) (l : list json) :
    py (list A * list Violation) :=
  match l with
  | [] => Ok ([], [])
  | j :: r =>
      '(a, found) ← read i j;
      '(rest, more) ← read_items read (S i) r;
      Ok (match a with Some a => a :: rest | None => rest end, found ++ more)
  end.

Definition read_refs (j : json) : py (list RequirementRef * list Violation) :=
  match j with
  | JNull => Ok ([], [])
  | JArr l => read_items (λ i item, read_reference item (index_path "requirement_refs" i)) 0 l
  | _ => Ok ([], [violation "invalid_reference" "requirement_refs must be a list."
                    (Some "requirement_refs")])
  end.

Definition read_technology (j : json) : Read Technology :=
  match j with
  | JNull => nothing []
  | JObj m =>
      match structure_problems m TECHNOLOGY_FIELDS ["name"] "a technology" with
      | [] => attempt_under (Technology_new (get_json m "name") (get_json m "version")) "technology"
      | problems => nothing (under problems "technology")
      end
  | _ => nothing (not_an_object "technology" (Some "technology") None)
  end.

Definition property_value (v : json) (spec : option PropertySpec) : json :=
  match spec with
  | None => v
  | Some s =>
      match p_type s, v with
      | INTEGER, JStr t => match integer_text (strip t) with Some z => JInt z | None => v end
      | DECIMAL, _ =>
          match read_decimal v with
          | JDec d => if is_finite d then JDec d else v
          | converted => converted
          end
      | _, _ => v
      end
  end.

(** [int(number) if number == number.to_integral_value() else decimal_to_str(number)]. *)
Definition preserved_number (c e : Z) : json :=
  if (0 <=? e)%Z then JInt (c * pow10 e)
  else if (c mod pow10 (- e) =? 0)%Z then JInt (c / pow10 (- e))
  else JStr (decimal_to_str (DFin c e)).

(** Unrecognized settings as found; fractional numbers become text so they keep every digit. *)
Fixpoint preserved (v : json) (depth : nat) : json :=
  if MAX_JSON_DEPTH + 1 <? depth then v
  else
    match v with
    | JObj m => JObj ((λ p, (p.1, preserved p.2 (S depth))) <$> m)
    | JArr l => JArr ((λ x, preserved x (S depth)) <$> l)
    | JDec (DFin c e) => preserved_number c e
    | _ => v
    end.

Definition read_configuration (j : json) (specs : dict string PropertySpec) : Read Configuration :=
  match j with
  | JNull => Ok (Some empty_configuration, [])
  | JObj m =>
      let problems := structure_problems m CONFIGURATION_FIELDS [] "a configuration" in
      let vals := or_default (get_json m "values") (JObj []) in
      let unknown := or_default (get_json m "unknown") (JArr []) in
      let extra := or_default (get_json m "extra") (JObj []) in
      let shape :=
        if is_obj vals && is_obj extra then []
        else [violation "not_an_object" "values and extra must be objects." None] in
      let names :=
        match unknown with
        | JArr l => if all_str l is Some _ then []
                    else [violation "invalid_value" "unknown must be a list of property names."
                            (Some "unknown")]
        | _ => [violation "invalid_value" "unknown must be a list of property names." (Some "unknown")]
        end in
      match problems ++ shape ++ names, vals, as_ids unknown, extra with
      | [], JObj vals, Some unknown, JObj extra =>
          attempt_under
            (Configuration_new ((λ p, (p.1, property_value p.2 (dict_get p.1 specs))) <$> vals) unknown
               (match preserved (JObj extra) 0 with JObj e => e | _ => [] end)) "configuration"
      | problems, _, _, _ => nothing (under problems "configuration")
      end
  | _ => nothing (not_an_object "configuration" (Some "configuration") None)
  end.

Fixpoint read_field_provenance_items (m : document) : py (dict string Provenance * list Violation) :=
  match m with
  | [] => Ok ([], [])
  | (key, item) :: r =>
      let path := "field_provenance." +:+ key in
      '(p, found) ← read_provenance item path;
      let found := match p, found with
                   | None, [] => [violation "required" (path +:+ " cannot be null.") (Some path)]
                   | _, _ => found
                   end in
      '(rest, more) ← read_field_provenance_items r;
      Ok (match p with Some p => (key, p) :: rest | None => rest end, found ++ more)
  end.

Definition read_field_provenance (j : json) : py (dict string Provenance * list Violation) :=
  match j with
  | JNull => Ok ([], [])
  | JObj m => read_field_provenance_items m
  | _ => Ok ([], not_an_object "field_provenance" (Some "field_provenance") None)
  end.

Record Annotations := {
  an_configuration : option Configuration;
  an_refs : list RequirementRef;
  an_metadata : json;
  an_provenance : option Provenance;
  an_field_provenance : dict string Provenance;
}.

(** [owner]: what the configuration belongs to, if known, so its properties are checked together
    with every other problem of the element. *)
Definition read_annotations (data : document) (specs : dict string PropertySpec)
    (owner : option string) : py (Annotations * list Violation) :=
  '(configuration, problems) ← read_configuration (get_json data "configuration") specs;
  misfits ← match configuration, owner with
            | Some c, Some o => problems_for c specs o
            | _, _ => Ok []
            end;
  '(refs, in_refs) ← read_refs (get_json data "requirement_refs");
  '(provenance, in_provenance) ← read_provenance (get_json data "provenance") "provenance";
  '(fp, in_fp) ← read_field_provenance (get_json data "field_provenance");
  Ok ({| an_configuration := configuration; an_refs := refs;
         an_metadata := or_default (get_json data "metadata") (JObj []);
         an_provenance := provenance; an_field_provenance := fp |},
      problems ++ under misfits "configuration" ++ in_refs ++ in_provenance ++ in_fp).

(** ** Elements *)

(** What reading an element gives: how to build it, and the problems found before. *)
Abbreviation Parts A := (py (py A * list Violation)).

(** Problems found mean that the configuration may be missing, and nothing is built. *)
Definition node_parts (data : document) : Parts Node :=
  let problems := structure_problems data NODE_JSON_FIELDS ["id"; "kind"; "name"] "a node" in
  '(technology, found) ← read_technology (get_json data "technology");
  let kind := read_enum (get_json data "kind") in
  '(an, more) ← read_annotations data NODE_PROPERTIES
                  (match kind with Typed k => Some (value (k : NodeKind)) | Raw _ => None end);
  Ok (match an_configuration an with
      | Some c =>
          Node_new {| na_id := get_json data "id"; na_kind := kind; na_name := get_json data "name";
                      na_description := get_json data "description"; na_technology := technology;
                      na_component := get_json data "component"; na_parent_id := get_json data "parent_id";
                      na_configuration := c; na_requirement_refs := an_refs an;
                      na_lifecycle := read_enum (get_json data "lifecycle");
                      na_metadata := an_metadata an; na_provenance := an_provenance an;
                      na_field_provenance := an_field_provenance an |}
      | None => Raise TypeError
      end, problems ++ found ++ more).

Definition connection_parts (data : document) : Parts Connection :=
  let problems := structure_problems data CONNECTION_JSON_FIELDS
                    ["id"; "source_id"; "target_id"; "kind"] "a connection" in
  '(an, found) ← read_annotations data CONNECTION_PROPERTIES (Some CONNECTION_OWNER);
  Ok (match an_configuration an with
      | Some c =>
          Connection_new {|
            ca_id := get_json data "id"; ca_source_id := get_json data "source_id";
            ca_target_id := get_json data "target_id"; ca_kind := read_enum (get_json data "kind");
            ca_protocol := get_json data "protocol";
            ca_interaction := read_enum (get_json data "interaction");
            ca_bidirectional := or_default (get_json data "bidirectional") (JBool false);
            ca_critical := get_json data "critical"; ca_name := get_json data "name";
            ca_description := get_json data "description"; ca_configuration := c;
            ca_requirement_refs := an_refs an; ca_metadata := an_metadata an;
            ca_provenance := an_provenance an; ca_field_provenance := an_field_provenance an |}
      | None => Raise TypeError
      end, problems ++ found).

Definition assumption_parts (data : document) : Parts Assumption :=
  let problems := structure_problems data ASSUMPTION_FIELDS ["id"; "statement"; "provenance"]
                    "an assumption" in
  '(provenance, found) ← read_provenance (get_json data "provenance") "provenance";
  '(refs, more) ← read_refs (get_json data "requirement_refs");
  Ok (Assumption_new {|
        aa_id := get_json data "id"; aa_statement := get_json data "statement";
        aa_provenance := provenance;
        aa_subject_ids := or_default (get_json data "subject_ids") (JArr []);
        aa_requirement_refs := refs |}, problems ++ found ++ more).

Definition decision_parts (data : document) : Parts DecisionRef :=
  Ok (DecisionRef_new (read_uuid (get_json data "decision_id"))
        (or_default (get_json data "subject_ids") (JArr [])),
      structure_problems data DECISION_FIELDS ["decision_id"] "a decision reference").

Definition element_id (data : document) (key : string) : json :=
  match get_json data key with JStr s => JStr s | _ => JNull end.

(** An element is built only when nothing was found before. *)
Definition attempt_clean {A} (part : py A * list Violation) : Read A :=
  match part.2 with [] => attempt part.1 | problems => nothing problems end.

Definition all_placed {A} (element : ElementType) (id : json) (read : option A * list Violation) :
    Read A :=
  Ok (read.1, all_within read.2 element id None).

(** One element: structure and nested values first, then the element itself, every violation placed
    on the element. *)
Definition read_element {A} (element : ElementType) (id_key : string) (parts : document → Parts A)
    (path : string) (j : json) : Read A :=
  match j with
  | JObj data =>
      part ← parts data;
      read ← attempt_clean part;
      all_placed element (element_id data id_key) read
  | _ => nothing (not_an_object path (Some path) (Some ARCHITECTURE))
  end.

Definition read_collection {A} (name : string) (limit : nat) (element : ElementType) (id_key : string)
    (parts : document → Parts A) (data : document) : py (list A * list Violation) :=
  match or_default (get_json data name) (JArr []) with
  | JArr items =>
      if limit <? length items then
        Ok ([], [violation_of "too_many"
                   ("An architecture has at most " +:+ nat_text limit +:+ " " +:+ name +:+ ".")
                   (Some name) ARCHITECTURE JNull])
      else read_items (λ i, read_element element id_key parts (index_path name i)) 0 items
  | _ => Ok ([], [violation_of "invalid_value" (name +:+ " must be a list.") (Some name) ARCHITECTURE
                    JNull])
  end.

(** ** Architectures *)

(** [upgrade] leaves a whole number as the version. *)
Definition version_number (j : json) : Z := match j with JInt z => z | _ => 0%Z end.

Definition read_architecture (data : document) : py ArchitectureIR :=
  let problems := structure_problems data ARCHITECTURE_FIELDS ["schema_version"; "name"]
                    "an architecture" in
  '(provenance, found) ← read_provenance (get_json data "provenance") "provenance";
  '(refs, more) ← read_refs (get_json data "requirement_refs");
  '(nodes, in_nodes) ← read_collection "nodes" MAX_NODES NODE "id" node_parts data;
  '(connections, in_connections) ←
    read_collection "connections" MAX_CONNECTIONS CONNECTION "id" connection_parts data;
  '(assumptions, in_assumptions) ←
    read_collection "assumptions" MAX_ASSUMPTIONS ASSUMPTION "id" assumption_parts data;
  '(decisions, in_decisions) ←
    read_collection "decisions" MAX_DECISIONS DECISION "decision_id" decision_parts data;
  _ ← raise_if (all_within (problems ++ found ++ more) ARCHITECTURE JNull None
                ++ in_nodes ++ in_connections ++ in_assumptions ++ in_decisions);
  ArchitectureIR_new {|
    aa_name := get_json data "name"; aa_description := get_json data "description";
    aa_nodes := nodes; aa_connections := connections; aa_assumptions := assumptions;
    aa_decisions := decisions; aa_refs := refs;
    aa_metadata := or_default (get_json data "metadata") (JObj []); aa_ir_provenance := provenance;
    aa_schema_version := version_number (get_json data "schema_version") |}.

(** The IR a JSON document describes, upgraded to the current schema. *)
Definition from_dict (j : json) : py ArchitectureIR :=
  match j with
  | JObj data =>
      '(doc, _) ← upgrade UPGRADES IR_SCHEMA_VERSION data;
      read_architecture doc
  | _ => raise_invalid [violation_of "not_an_object" "An architecture must be a JSON object." None
                          ARCHITECTURE JNull]
  end.

(** ** Single elements, for edit commands *)
Definition element_from_dict {A} (read : Read A) : py A :=
  '(a, problems) ← read;
  match a with Some a => Ok a | None => raise_invalid problems end.

Definition node_from_dict (j : json) : py Node :=
  element_from_dict (read_element NODE "id" node_parts "node" j).

Definition connection_from_dict (j : json) : py Connection :=
  element_from_dict (read_element CONNECTION "id" connection_parts "connection" j).

Definition property_values (vals : document) : dict string (option json) :=
  (λ p, (p.1, match p.2 with
              | JNull => None
              | v => Some (property_value v (dict_get p.1 NODE_PROPERTIES))
              end)) <$> vals.
