(* ===== verification/RoundTrip.v ===== *)
(** Round trips of the canonical JSON form: every architecture that can be written is read back as it
    was.  First the text of numbers, then each reader against its writer, then the whole document. *)
From Stdlib Require Import Ascii Lia ZArith.
From S2P Require Import Prelude Data Codecs Errors Values Provenance Traceability Component.
From S2P Require Import Configuration Elements Model Topology Versioning Serialization.

(** * Numbers *)
Lemma digit_char_value z :
  (0 ≤ z < 10)%Z → digit_value (ascii_of_nat (48 + Z.to_nat z)) = Some z ∧
  is_digit (ascii_of_nat (48 + Z.to_nat z)) = true.
Proof.
  intros Hz. assert (Z.to_nat z < 10) as Hn by lia. rewrite <- (Z2Nat.id z) at 2 by lia.
  generalize dependent (Z.to_nat z). intros n Hn.
  do 10 (destruct n as [|n]; [split; reflexivity|]). lia.
Qed.

Lemma length_padded w z : length (padded w z) = w.
Proof. revert z. induction w as [|w IH]; intros z; cbn; [done|]. rewrite length_app, IH. cbn. lia. Qed.

Lemma padded_digits w z : (0 ≤ z)%Z → Forall (λ c, is_digit c = true) (padded w z).
Proof.
  revert z. induction w as [|w IH]; intros z Hz; cbn; [constructor|]. apply Forall_app. split.
  - apply IH, Z.div_pos; lia.
  - constructor; [|constructor]. apply digit_char_value, Z.mod_pos_bound. lia.
Qed.

Lemma digits_value_app acc l r :
  digits_value 10 acc (l ++ r) = a ← digits_value 10 acc l; digits_value 10 a r.
Proof.
  revert acc. induction l as [|c l IH]; intros acc; cbn; [done|].
  destruct (digit_value c) as [v|]; cbn; [|done]. destruct (v <? 10)%Z; [apply IH|done].
Qed.

Lemma digits_value_padded acc w z :
  (0 ≤ z)%Z → digits_value 10 acc (padded w z) = Some (acc * 10 ^ Z.of_nat w + z mod 10 ^ Z.of_nat w)%Z.
Proof.
  revert acc z. induction w as [|w IH]; intros acc z Hz; cbn [padded].
  - cbn. f_equal. rewrite Z.mod_1_r. lia.
  - rewrite digits_value_app, IH by (apply Z.div_pos; lia). cbn [mbind option_bind digits_value].
    destruct (digit_char_value (z mod 10)) as [-> _]; [apply Z.mod_pos_bound; lia|]. cbn.
    pose proof (Z.mod_pos_bound z 10 ltac:(lia)). destruct (z mod 10 <? 10)%Z eqn:E; [|lia]. f_equal.
    rewrite Nat2Z.inj_succ, Z.pow_succ_r by lia.
    rewrite (Z.rem_mul_r z 10 (10 ^ Z.of_nat w)) by (try apply Z.pow_nonzero; lia). lia.
Qed.

Lemma zeros_digits n : Forall (λ c, is_digit c = true) (zeros n).
Proof. unfold zeros. apply Forall_replicate. reflexivity. Qed.

Lemma digits_value_zeros acc n :
  digits_value 10 acc (zeros n) = Some (acc * 10 ^ Z.of_nat (Z.to_nat n))%Z.
Proof.
  unfold zeros. revert acc. induction (Z.to_nat n) as [|m IH]; intros acc; cbn [replicate digits_value].
  - cbn. f_equal. lia.
  - change (digit_value (ascii_of_nat 48)) with (Some 0%Z). cbn [mbind option_bind].
    change (0 <? 10)%Z with true. cbv iota. rewrite IH. f_equal.
    rewrite Nat2Z.inj_succ, Z.pow_succ_r by lia. lia.
Qed.

Lemma digits_value_coefficient acc c :
  digits_value 10 acc (coefficient c) = Some (acc * 10 ^ digits c + Z.abs c)%Z.
Proof.
  unfold coefficient. destruct (digits_spec c) as (H1 & H2 & _).
  rewrite digits_value_padded, Z2Nat.id by lia. f_equal. rewrite Z.mod_small; lia.
Qed.

Lemma length_coefficient c : length (coefficient c) = Z.to_nat (digits c).
Proof. apply length_padded. Qed.

Lemma coefficient_digits c : Forall (λ c, is_digit c = true) (coefficient c).
Proof. apply padded_digits. lia. Qed.

(** ** Reading digits back *)
Lemma decimal_digits_value l z :
  0 < length l → digits_value 10 0 l = Some z → decimal_digits l = Some z.
Proof. destruct l; cbn; [lia|done]. Qed.

Lemma digit_run_ok l :
  0 < length l → length l ≤ 18 → Forall (λ c, is_digit c = true) l → digit_run l = true.
Proof.
  intros H1 H2 Hl. unfold digit_run.
  rewrite (proj2 (Nat.leb_le 1 _)), (proj2 (Nat.leb_le _ 18)) by lia. cbn.
  apply forallb_forall. intros x Hx. rewrite Forall_forall in Hl. apply Hl. by apply list_elem_of_In.
Qed.

Lemma digit_is_not n c : is_digit c = true → n < 48 → code c ≠ n.
Proof.
  unfold is_digit, between. intros [H1 H2]%andb_prop Hn. apply Nat.leb_le in H1. lia.
Qed.

Lemma find_point_none l : Forall (λ c, is_digit c = true) l → find_char 46 l = None.
Proof.
  intros Hl. unfold find_char. destruct (list_find _ l) as [[i c]|] eqn:E; [|done].
  apply list_find_Some in E as (Hi & Hc & _). rewrite Forall_lookup in Hl.
  by apply (digit_is_not 46) in Hc; [|by eapply Hl|lia].
Qed.

Lemma find_point l r :
  Forall (λ c, is_digit c = true) l → find_char 46 (l ++ ascii_of_nat 46 :: r) = Some (length l).
Proof.
  intros Hl. unfold find_char.
  rewrite (proj2 (list_find_Some _ _ (length l) (ascii_of_nat 46))); [done|]. split_and!.
  - by apply list_lookup_middle.
  - reflexivity.
  - intros i c Hi Hlt. rewrite lookup_app_l in Hi by done. rewrite Forall_lookup in Hl.
    apply (digit_is_not 46); [by eapply Hl|lia].
Qed.

Lemma sign_of_digits (negative : bool) l :
  Forall (λ c, is_digit c = true) (take 1 l) →
  sign_of ((if negative then [ascii_of_nat 45] else []) ++ l) = (negative, l).
Proof.
  destruct negative; [done|]. destruct l as [|c l]; [done|]. cbn. intros Hl.
  apply Forall_cons in Hl as [Hc _]. unfold char_eqb.
  rewrite (proj2 (Nat.eqb_neq _ _)); [done|]. apply digit_is_not; [done|lia].
Qed.

(** ** Plain text of a decimal *)

(** The digits around the point: [plain_chars] is [before.after]. *)
Lemma plain_chars_split c e :
  (e < 0)%Z →
  ∃ before after,
    plain_chars c e = before ++ ascii_of_nat 46 :: after ∧ 0 < length before ∧
    length after = Z.to_nat (- e) ∧ Z.of_nat (length before) = Z.max 1 (digits c + e) ∧
    Forall (λ c, is_digit c = true) (before ++ after) ∧ digits_value 10 0 (before ++ after) = Some (Z.abs c).
Proof.
  intros He. unfold plain_chars. rewrite (proj2 (Z.leb_gt 0 e)) by lia.
  set (l := zeros (1 - e - digits c) ++ coefficient c).
  assert (length l = Z.to_nat (Z.max (digits c) (1 - e))) as Hlen.
  { unfold l, zeros. rewrite length_app, length_replicate, length_coefficient.
    destruct (digits_spec c) as (_ & ? & _). lia. }
  destruct (digits_spec c) as (_ & Hd & _).
  exists (take (length l - Z.to_nat (- e)) l), (drop (length l - Z.to_nat (- e)) l).
  rewrite take_drop, length_take, length_drop. split_and!; [done|lia|lia|lia| |].
  - apply Forall_app. split; [apply zeros_digits|apply coefficient_digits].
  - unfold l. rewrite digits_value_app, digits_value_zeros. cbn [mbind option_bind].
    rewrite digits_value_coefficient. f_equal.
Qed.

Definition signed (negative : bool) (z : Z) : Z := if negative then (- z)%Z else z.

Lemma signed_abs c : signed (c <? 0)%Z (Z.abs c) = c.
Proof. unfold signed. destruct (c <? 0)%Z eqn:E; lia. Qed.

Lemma chars_of_app s t : chars_of (s +:+ t) = chars_of s ++ chars_of t.
Proof. apply las_app. Qed.

Lemma chars_of_plain c e :
  chars_of (dec_plain c e) = (if (c <? 0)%Z then [ascii_of_nat 45] else []) ++ plain_chars c e.
Proof.
  unfold dec_plain. rewrite chars_of_app. unfold chars_of. rewrite las_sla.
  by destruct (c <? 0)%Z.
Qed.

Lemma decimal_text_point c e :
  (-18 ≤ e < 0)%Z → (digits c + e ≤ 18)%Z → decimal_text (dec_plain c e) = Some (DFin c e).
Proof.
  intros He Hd. destruct (plain_chars_split c e) as (b & a & Hl & Hb & Ha & Hbl & Hdig & Hval); [lia|].
  pose proof Hdig as [Hdb Hda]%Forall_app.
  unfold decimal_text. rewrite chars_of_plain, sign_of_digits; rewrite Hl.
  - rewrite find_point by done. rewrite take_app_length.
    replace (drop (length b + 1) (b ++ ascii_of_nat 46 :: a)) with a.
    + rewrite !digit_run_ok by (done || lia). cbn [andb].
      rewrite (decimal_digits_value _ (Z.abs c)); [|rewrite length_app; lia|done].
      cbn [mbind option_bind]. f_equal. f_equal; [apply signed_abs|lia].
    + rewrite drop_app_ge by lia. by replace (length b + 1 - length b) with 1 by lia.
  - destruct b as [|x b]; [cbn in Hb; lia|]. cbn. apply Forall_cons in Hdb as [? _]. by repeat constructor.
Qed.

Lemma decimal_text_whole c e :
  (0 ≤ e)%Z → (digits c + e ≤ 18)%Z → (c = 0 → e = 0)%Z →
  decimal_text (dec_plain c e) = Some (DFin (c * 10 ^ e) 0).
Proof.
  intros He Hd Hz.
  assert (plain_chars c e = coefficient c ++ zeros e) as Hl.
  { unfold plain_chars. rewrite (proj2 (Z.leb_le 0 e)) by lia. f_equal.
    destruct (c =? 0)%Z eqn:E; [|done]. apply Z.eqb_eq in E. by rewrite Hz. }
  assert (Forall (λ c, is_digit c = true) (coefficient c ++ zeros e)) as Hdig.
  { apply Forall_app. split; [apply coefficient_digits|apply zeros_digits]. }
  assert (length (coefficient c ++ zeros e) = Z.to_nat (digits c + e)) as Hlen.
  { unfold zeros. rewrite length_app, length_replicate, length_coefficient.
    destruct (digits_spec c) as (_ & ? & _). lia. }
  destruct (digits_spec c) as (_ & Hd1 & _).
  unfold decimal_text. rewrite chars_of_plain, sign_of_digits; rewrite Hl.
  - rewrite find_point_none by done. rewrite digit_run_ok by (done || lia).
    rewrite (decimal_digits_value _ (Z.abs c * 10 ^ e)%Z); [|lia|].
    + cbn [mbind option_bind]. f_equal. f_equal. pose proof (signed_abs c) as Hs.
      unfold signed in Hs. destruct (c <? 0)%Z; nia.
    + rewrite digits_value_app, digits_value_coefficient. cbn [mbind option_bind].
      rewrite digits_value_zeros, Z2Nat.id by lia. done.
  - by apply Forall_take.
Qed.

(** ** Normalizing *)
Lemma normalized_shape c e :
  normalize (DFin c e) = DFin c e →
  (c = 0 ∧ e = 0)%Z ∨ (c mod 10 ≠ 0 ∧ c ≠ 0 ∧ digits c ≤ DEFAULT_PRECISION)%Z.
Proof.
  intros Hn. cbn [normalize] in Hn.
  pose proof (fix_dec_digits DEFAULT_PRECISION c e ltac:(done)) as Hd.
  destruct (fix_dec DEFAULT_PRECISION c e) as [c1 e1]. cbn [fst] in Hd.
  destruct (trim_fixed c1 e1) as [Ht|(c2 & e2 & Ht & Hnz & Hm & Hle)]; rewrite Ht in Hn.
  - left. by injection Hn as <- <-.
  - right. injection Hn as -> ->. split_and!; [done..|]. apply digits_le; [done|].
    apply digits_le in Hd; [|done]. lia.
Qed.

Lemma strip_zeros_power n fuel c k :
  (c mod 10 ≠ 0)%Z → n < fuel → strip_zeros fuel (c * 10 ^ Z.of_nat n) k = (c, (k + Z.of_nat n)%Z).
Proof.
  intros Hc. revert fuel k. induction n as [|n IH]; intros fuel k Hf; (destruct fuel as [|fuel]; [lia|]).
  - rewrite Z.mul_1_r, Z.add_0_r. cbn [strip_zeros]. by rewrite (proj2 (Z.eqb_neq _ _)).
  - rewrite Nat2Z.inj_succ, Z.pow_succ_r by lia. cbn [strip_zeros].
    replace (c * (10 * 10 ^ Z.of_nat n))%Z with (c * 10 ^ Z.of_nat n * 10)%Z by lia.
    rewrite Z.mod_mul, Z.div_mul by lia. cbn [Z.eqb]. rewrite IH by lia. f_equal. lia.
Qed.

Lemma normalize_whole c e :
  (c mod 10 ≠ 0)%Z → c ≠ 0%Z → (0 ≤ e)%Z → (digits c + e ≤ DEFAULT_PRECISION)%Z →
  normalize (DFin (c * 10 ^ e) 0) = DFin c e.
Proof.
  intros Hm Hc He Hd. cbn [normalize]. destruct (digits_spec c) as (H1 & H2 & H3).
  assert (0 < 10 ^ e)%Z as Hp by (apply Z.pow_pos_nonneg; lia).
  assert (digits (c * 10 ^ e) ≤ digits c + e)%Z as Hle.
  { apply digits_le; [lia|]. rewrite Z.abs_mul, (Z.abs_eq (10 ^ e)), Z.pow_add_r by lia. nia. }
  assert (digits (c * 10 ^ e) > e)%Z as Hgt.
  { destruct (Z.le_gt_cases (digits (c * 10 ^ e)) e) as [Hx|]; [|lia].
    destruct (digits_spec (c * 10 ^ e)) as (Hy & _ & _).
    assert (10 ^ digits (c * 10 ^ e) ≤ 10 ^ e)%Z by (apply Z.pow_le_mono_r; lia). nia. }
  unfold fix_dec. rewrite (proj2 (Z.leb_le _ _)) by lia. unfold trim.
  rewrite (proj2 (Z.eqb_neq _ _)) by nia. rewrite <- (Z2Nat.id e) at 2 by lia.
  rewrite strip_zeros_power by (done || lia). f_equal. lia.
Qed.

(** A number within the bounds of a value, in canonical form, is read back from its text. *)
Lemma decimal_round_trip c e :
  normalize (DFin c e) = DFin c e → (-18 ≤ e)%Z → (Z.abs c * 10 ^ Z.max 0 e < 10 ^ 15 * 10 ^ Z.max 0 (- e))%Z →
  ∃ d, decimal_text (dec_plain c e) = Some d ∧ normalize d = DFin c e.
Proof.
  intros Hn He Hb. pose proof (normalized_shape c e Hn) as [[-> ->]|(Hm & Hc & Hd)].
  { exists (DFin 0 0). by vm_compute. }
  destruct (digits_spec c) as (H1 & H2 & H3). specialize (H3 Hc).
  destruct (Z.le_gt_cases 0 e) as [He0|He0].
  - rewrite !Z.max_r, (Z.max_l 0 (- e)) in Hb by lia. rewrite Z.mul_1_r in Hb.
    assert (digits c + e ≤ 15)%Z as Hde.
    { destruct (Z.le_gt_cases (digits c + e) 15) as [|Hx]; [done|].
      assert (10 ^ 15 ≤ 10 ^ (digits c - 1 + e))%Z by (apply Z.pow_le_mono_r; lia).
      rewrite Z.pow_add_r in * by lia. assert (0 < 10 ^ e)%Z by (apply Z.pow_pos_nonneg; lia). nia. }
    exists (DFin (c * 10 ^ e) 0). split; [apply decimal_text_whole; lia|].
    apply normalize_whole; [done..|]. unfold DEFAULT_PRECISION. lia.
  - rewrite Z.max_l, Z.max_r in Hb by lia. rewrite Z.mul_1_r in Hb.
    exists (DFin c e). split; [|done]. apply decimal_text_point; [lia|].
    destruct (Z.le_gt_cases (digits c + e) 15) as [|Hx]; [lia|].
    assert (10 ^ 15 * 10 ^ (- e) ≤ 10 ^ (digits c - 1))%Z; [|lia].
    rewrite <- Z.pow_add_r by lia. apply Z.pow_le_mono_r; lia.
Qed.

Lemma number_in_bounds c e path :
  normalize (DFin c e) = DFin c e → number_problems (JDec (DFin c e)) path = [] →
  (-18 ≤ e)%Z ∧ (Z.abs c * 10 ^ Z.max 0 e < 10 ^ 15 * 10 ^ Z.max 0 (- e))%Z.
Proof.
  intros Hn. unfold number_problems, exact_number_problems; cbn [as_number is_finite negb].
  destruct (dec_ltb _ _) eqn:Hlt; [|done]. cbn [negb]. destruct (_ <? _)%Z eqn:Hp; [done|]. intros _.
  apply Z.ltb_ge in Hp. unfold decimal_places in Hp. rewrite Hn in Hp. unfold MAX_DECIMAL_PLACES in Hp.
  assert (-18 ≤ e)%Z as He by (destruct (e <? 0)%Z eqn:E; lia). split; [done|].
  pose proof (normalized_shape c e Hn) as [[-> ->]|(Hm & Hc & Hd)]; [done|].
  unfold dec_abs, fix_dec in Hlt. replace (digits (Z.abs c)) with (digits c) in Hlt by
    (unfold digits; by rewrite Z.abs_idemp).
  rewrite (proj2 (Z.leb_le _ _) Hd) in Hlt. cbn [dec_ltb MAX_MAGNITUDE] in Hlt.
  unfold dec_scaled, pow10 in Hlt. apply Z.ltb_lt in Hlt. rewrite Z.mul_1_l in Hlt.
  destruct (Z.le_gt_cases e 15) as [H15|H15].
  - rewrite Z.min_l, Z.sub_diag, Z.mul_1_r in Hlt by lia. destruct (Z.le_gt_cases 0 e).
    + rewrite !Z.max_r, (Z.max_l 0 (- e)) by lia. rewrite Z.mul_1_r.
      replace 15%Z with (15 - e + e)%Z at 1 by lia. rewrite Z.pow_add_r by lia.
      apply Z.mul_lt_mono_pos_r; [apply Z.pow_pos_nonneg; lia|done].
    + rewrite Z.max_l, Z.max_r, Z.mul_1_r, <- Z.pow_add_r by lia.
      by replace (15 + - e)%Z with (15 - e)%Z by lia.
  - rewrite Z.min_r, Z.sub_diag in Hlt by lia.
    assert (0 < 10 ^ (e - 15))%Z by (apply Z.pow_pos_nonneg; lia). nia.
Qed.

Lemma strip_chars_none l : Forall (λ c, is_space c = false) l → strip_chars l = l.
Proof.
  assert (∀ l, Forall (λ c, is_space c = false) l → lstrip_chars l = l) as H.
  { intros m Hm. apply lstrip_chars_id. destruct Hm as [|c m Hc _]; [by left|right; eauto]. }
  intros Hl. unfold strip_chars. rewrite (H l) by done.
  rewrite H by (by apply Forall_reverse). apply reverse_involutive.
Qed.

Lemma digit_not_space c : is_digit c = true → is_space c = false.
Proof.
  pose proof (ascii_all (λ c, negb (is_digit c) || negb (is_space c))) as H.
  specialize (H ltac:(vm_compute; reflexivity) c). cbv beta in H.
  destruct (is_digit c), (is_space c); cbn in H; congruence.
Qed.

Lemma plain_chars_no_space c e : Forall (λ c, is_space c = false) (plain_chars c e).
Proof.
  destruct (Z.le_gt_cases 0 e) as [He|He].
  - unfold plain_chars. rewrite (proj2 (Z.leb_le 0 e)) by lia. apply Forall_app. split.
    + eapply Forall_impl; [apply coefficient_digits|]. apply digit_not_space.
    + destruct (c =? 0)%Z; [constructor|]. eapply Forall_impl; [apply zeros_digits|]. apply digit_not_space.
  - destruct (plain_chars_split c e) as (b & a & -> & _ & _ & _ & [Hb Ha]%Forall_app & _); [lia|].
    apply Forall_app. split; [|constructor; [reflexivity|]].
    + eapply Forall_impl; [exact Hb|]. apply digit_not_space.
    + eapply Forall_impl; [exact Ha|]. apply digit_not_space.
Qed.

Lemma strip_plain c e : strip (dec_plain c e) = dec_plain c e.
Proof.
  rewrite strip_eq, strip_chars_none; [apply sla_las|].
  fold (chars_of (dec_plain c e)). rewrite chars_of_plain. apply Forall_app.
  split; [|apply plain_chars_no_space]. destruct (c <? 0)%Z; repeat constructor.
Qed.

(** Written as text and read again, a canonical number is the same number. *)
Lemma read_decimal_text d path :
  normalize d = d → number_problems (JDec d) path = [] →
  ∃ d', read_decimal (JStr (decimal_to_str d)) = JDec d' ∧ normalize d' = d ∧ is_finite d' = true.
Proof.
  intros Hn Hp. destruct d as [c e| |]; [|done|done].
  destruct (number_in_bounds c e path Hn Hp) as [He Hb].
  destruct (decimal_round_trip c e Hn He Hb) as (d' & Hd & Hnd). exists d'.
  unfold decimal_to_str. rewrite Hn. cbn [read_decimal]. rewrite strip_plain, Hd. split_and!; [done..|].
  by rewrite <- normalize_finite, Hnd.
Qed.

(** * Structure *)
Lemma structure_problems_nil m allowed required what :
  forallb (λ k, bool_decide (k ∈ allowed)) (dict_keys m) = true →
  forallb (λ k, negb (is_none (get_json m k))) required = true →
  structure_problems m allowed required what = [].
Proof.
  intros H1 H2. rewrite forallb_forall in H1, H2. unfold structure_problems.
  rewrite (proj2 (filter_nil_iff _ _)), (proj2 (filter_nil_iff _ _)); [done|..].
  - intros k Hk. apply list_elem_of_In, H2 in Hk. by destruct (get_json m k).
  - intros k Hk Hn. rewrite elem_of_sort_by in Hk. apply list_elem_of_In, H1, bool_decide_eq_true in Hk.
    done.
Qed.

Lemma read_enum_value {E} `{StrEnum E} (e : E) : read_enum (JStr (value e)) = Typed e.
Proof. cbn. by rewrite enum_of_value. Qed.

Lemma read_enum_json {E} `{StrEnum E} (o : option E) : read_enum (enum_json o) = of_option o.
Proof. destruct o; [apply read_enum_value|done]. Qed.

Lemma or_default_none j d : j ≠ JNull → or_default j d = j.
Proof. by destruct j. Qed.

(** Reading back what a list of things was written as. *)
Lemma read_items_ok {A} (read : nat → json → Read A) (write : A → json) i l :
  (∀ i x, x ∈ l → read i (write x) = Ok (Some x, [])) → read_items read i (write <$> l) = Ok (l, []).
Proof.
  revert i. induction l as [|x l IH]; intros i Hl; [done|]. cbn [fmap list_fmap read_items].
  rewrite Hl by left. cbn [mbind py_bind]. rewrite IH; [done|].
  intros j y Hy. apply Hl. by right.
Qed.

(** * Provenance *)

(** A time whose text in UTC reads as itself: the times the program records, in UTC. *)
Definition utc_time (d : datetime) : Prop := fromisoformat (isoformat (to_utc d)) = Some d.

Record provenance_ok (p : Provenance) : Prop := {
  po_built : built Provenance_new Provenance_args p;
  po_confidence : ∀ z, confidence p ≠ JInt z;
  po_time : ∀ d, recorded_at p = Some d → utc_time d;
}.

Lemma built_provenance_inv p :
  built Provenance_new Provenance_args p →
  Provenance_normalize (Provenance_args p) = Provenance_args p ∧
  Provenance_problems (Provenance_args p) = Ok [] ∧ Provenance_typed (Provenance_args p) = Some p.
Proof.
  unfold built, Provenance_new; cbn zeta. intros (ps & Hps & [-> Ht]%construct_ok)%py_bind_ok.
  pose proof (Provenance_typed_args _ _ Ht) as Hargs. rewrite <- Hargs in Hps, Ht. done.
Qed.

Lemma Ok_inj {A} (a b : A) : Ok a = Ok b → a = b.
Proof. congruence. Qed.

Lemma built_confidence p :
  built Provenance_new Provenance_args p →
  confidence p = JNull ∨ number_problems (confidence p) "confidence" = [].
Proof.
  intros (_ & Hp & _)%built_provenance_inv. unfold Provenance_problems in Hp.
  apply py_bind_ok in Hp as (b & _ & Hp%Ok_inj). rewrite !app_nil in Hp.
  destruct Hp as (_ & _ & _ & Hc & _). unfold confidence_problems in Hc.
  cbn [pa_confidence pa_source Provenance_args] in Hc.
  destruct (confidence p) as [|x|x|x|x|x|x]; [by left|..]; right;
    (match goal with |- ?n = [] => destruct n end);
    [done|try done|..]; try done; by destruct (as_number _) in Hc.
Qed.

Lemma confidence_round_trip p :
  provenance_ok p →
  Provenance_normalize (provenance_args_of (provenance_record p)) = Provenance_args p.
Proof.
  intros [Hb Hi Ht]. pose proof (built_provenance_inv p Hb) as (Hn & _ & _).
  unfold provenance_args_of.
  change (get_json (provenance_record p) "source") with (JStr (value (source p))).
  change (get_json (provenance_record p) "reference") with (of_opt_str (reference p)).
  change (get_json (provenance_record p) "confidence") with (confidence_json (confidence p)).
  change (get_json (provenance_record p) "verified") with (JBool (verified p)).
  change (get_json (provenance_record p) "inferred") with (JBool (inferred p)).
  change (get_json (provenance_record p) "actor") with (of_opt_str (actor p)).
  change (get_json (provenance_record p) "recorded_at") with (time_json (recorded_at p)).
  rewrite <- Hn. unfold Provenance_normalize, Provenance_args.
  cbn [pa_source pa_reference pa_confidence pa_verified pa_inferred pa_actor pa_recorded_at or_default].
  rewrite read_enum_value. f_equal.
  - pose proof (f_equal pa_confidence Hn) as Hc. cbn [Provenance_normalize Provenance_args pa_confidence] in Hc.
    destruct (built_confidence p Hb) as [->|Hp]; [done|].
    destruct (confidence p) as [| |z|d| | |] eqn:E; try done; [by destruct (Hi z)|].
    assert (is_finite d = true) as Hf.
    { unfold number_problems, exact_number_problems in Hp. cbn [as_number] in Hp.
      by destruct (is_finite d). }
    rewrite Hf in Hc |- *. injection Hc as Hc. unfold canonical_decimal in Hc.
    destruct (read_decimal_text d "confidence" Hc Hp) as (d' & Hr & Hnd & Hf').
    unfold confidence_json. cbn [as_number]. rewrite Hr, Hf'. unfold canonical_decimal. congruence.
  - destruct (recorded_at p) as [d|]; [|done]. cbn [time_json read_time of_option].
    by rewrite (Ht d eq_refl).
Qed.

Lemma read_provenance_ok p field :
  (∀ q, p = Some q → provenance_ok q) → read_provenance (provenance_dict p) field = Ok (p, []).
Proof.
  destruct p as [p|]; [|done]. intros Hp. specialize (Hp p eq_refl).
  cbn [provenance_dict read_provenance]. rewrite structure_problems_nil by done.
  unfold Provenance_new at 1. rewrite confidence_round_trip by done.
  destruct (built_provenance_inv p (po_built p Hp)) as (_ & Hps & Ht). cbn zeta. rewrite Hps.
  cbn [mbind py_bind]. by rewrite Ht.
Qed.

(** * References and technologies *)

Definition ref_ok (r : RequirementRef) : Prop :=
  built (λ a, RequirementRef_new a.1 a.2) RequirementRef_args r ∧ canonical_uuid (requirement_id r).

Lemma read_reference_ok r path : ref_ok r → read_reference (ref_dict r) path = Ok (Some r, []).
Proof.
  intros [Hb Hu]. cbn [ref_dict read_reference]. rewrite structure_problems_nil by done.
  match goal with |- context [read_uuid ?j] => change j with (JStr (requirement_id r)) end.
  match goal with |- context [RequirementRef_new _ ?j] => change j with (version_json (version r)) end.
  cbn [read_uuid]. unfold canonical_uuid in Hu. rewrite Hu.
  unfold built, RequirementRef_args in Hb. cbn [fst snd] in Hb. unfold version_json. by rewrite Hb.
Qed.

Lemma read_refs_ok refs : Forall ref_ok refs → read_refs (refs_dict refs) = Ok (refs, []).
Proof.
  intros Hr. rewrite Forall_forall in Hr. apply read_items_ok. intros i r Hin.
  by apply read_reference_ok, Hr.
Qed.

Definition technology_ok (t : option Technology) : Prop :=
  ∀ x, t = Some x → built (λ a, Technology_new a.1 a.2) Technology_args x.

Lemma read_technology_ok t : technology_ok t → read_technology (technology_dict t) = Ok (t, []).
Proof.
  destruct t as [t|]; [|done]. intros Ht. specialize (Ht t eq_refl).
  cbn [technology_dict read_technology]. rewrite structure_problems_nil by done.
  unfold built, Technology_args in Ht. cbn [fst snd] in Ht.
  match goal with |- context [Technology_new ?a ?b] =>
    change (Technology_new a b) with (Technology_new (JStr (t_name t)) (of_opt_str (t_version t))) end.
  by rewrite Ht.
Qed.

(** * Configurations *)

(** A value the writer's text keeps apart: a whole number of a decimal property is a [Decimal]. *)
Definition exact_value (specs : dict string PropertySpec) (p : string * json) : Prop :=
  match dict_get p.1 specs, p.2 with
  | Some s, JInt _ => p_type s ≠ DECIMAL
  | _, _ => True
  end.

Record configuration_ok (c : Configuration) (specs : dict string PropertySpec) (owner : string) : Prop := {
  co_built : built (λ a, Configuration_new a.1.1 a.1.2 a.2) Configuration_args c;
  co_keys : dict_wf (values c);
  co_values : Forall (exact_value specs) (values c);
  co_fits : problems_for c specs owner = Ok [];
}.

Lemma built_configuration_inv c :
  built (λ a, Configuration_new a.1.1 a.1.2 a.2) Configuration_args c →
  Configuration_normalize (values c) (unknown c) (extra c) = c ∧ Configuration_problems c = [].
Proof.
  unfold built, Configuration_new; cbn zeta. unfold Configuration_args; cbn [fst snd].
  intros [Hp [= Hn]]%construct_ok. rewrite Hn in Hp. done.
Qed.

Lemma canonical_values c p :
  built (λ a, Configuration_new a.1.1 a.1.2 a.2) Configuration_args c →
  p ∈ values c → canonical p.2 = p.2.
Proof.
  intros [Hn _]%built_configuration_inv Hp. apply (f_equal values) in Hn.
  unfold Configuration_normalize in Hn; cbn [values] in Hn. rewrite <- Hn in Hp.
  rewrite elem_of_frozen in Hp. apply list_elem_of_fmap in Hp as (q & -> & _). apply canonical_idemp.
Qed.

Lemma thaw_id v : thaw v = v.
Proof.
  induction v as [| | | | |l IH|m IH] using json_ind'; try done; cbn [thaw]; f_equal.
  - induction IH as [|x l Hx Hl IHl]; [done|]. cbn [fmap list_fmap]. by rewrite Hx, IHl.
  - induction IH as [|[k x] m Hx Hm IHm]; [done|]. cbn [fmap list_fmap fst snd] in *. by rewrite Hx, IHm.
Qed.

(** A setting that passed the checks has no decimal to turn into text. *)
Lemma preserved_id v field depth depth' : json_problems v field depth = [] → preserved v depth' = v.
Proof.
  revert field depth depth'.
  induction v as [| | |d| |l IH|m IH] using json_ind'; intros field depth depth'; cbn [json_problems preserved];
    destruct (MAX_JSON_DEPTH <? depth); try done; destruct (MAX_JSON_DEPTH + 1 <? depth'); try done.
  - destruct (MAX_JSON_ITEMS <? length l); [done|]. intros Hp. f_equal.
    rewrite <- (list_fmap_id l) at 2. apply list_fmap_ext. intros i x Hx.
    rewrite Forall_lookup in IH. unfold id.
    assert (∀ n, mjoin (enumerate_map (λ i item, json_problems item (index_path field i) (S depth)) n l) = []
              → ∃ f, json_problems x f (S depth) = []) as Hf.
    { clear -Hx. revert i Hx. induction l as [|y l IHl]; intros i Hi n; [done|]. cbn. intros [Hy Hl]%app_nil.
      destruct i as [|i]; [injection Hi as ->; eauto|]. by eapply IHl. }
    apply Hf in Hp as [f Hp]. by eapply IH.
  - destruct (MAX_JSON_ITEMS <? length m); [done|]. intros Hp. f_equal.
    rewrite <- (list_fmap_id m) at 2. apply list_fmap_ext. intros i [k x] Hx. cbn [fst snd].
    rewrite Forall_lookup in IH. unfold id. f_equal. rewrite mjoin_map_nil in Hp.
    specialize (Hp (k, x) (list_elem_of_lookup_2 _ _ _ Hx)). cbn [fst snd] in Hp.
    destruct (String.eqb k "" || (64 <? String.length k)); [done|]. by eapply (IH i (k, x) Hx).
Qed.

Lemma value_round_trip s v key :
  spec_problems s v key = Ok [] → canonical v = v → (∀ z, v = JInt z → p_type s ≠ DECIMAL) →
  canonical (property_value (value_json v) (Some s)) = v.
Proof.
  intros Hp Hc Hi. unfold spec_problems, property_value in *.
  destruct (p_type s) eqn:Et; try apply Ok_inj in Hp.
  - unfold spec_number_problems in Hp. rewrite Et in Hp. by destruct v.
  - unfold spec_number_problems in Hp. rewrite Et in Hp.
    destruct (number_problems v key) as [|x xs] eqn:En; [|by destruct (as_number v)].
    destruct v as [| |z|d| | |]; try done; [by destruct (Hi z eq_refl)|].
    assert (is_finite d = true) as Hf.
    { unfold number_problems, exact_number_problems in En. cbn [as_number] in En. by destruct (is_finite d). }
    cbn [canonical] in Hc. rewrite Hf in Hc. injection Hc as Hc. unfold canonical_decimal in Hc.
    destruct (read_decimal_text d key Hc En) as (d' & Hr & Hnd & Hf'). cbn [value_json].
    rewrite Hr, Hf'. cbn [canonical]. rewrite Hf'. unfold canonical_decimal. by rewrite Hnd.
  - by destruct v.
  - unfold spec_text_problems in Hp. destruct v; try done.
  - destruct (hashable_value v); [|done]. apply Ok_inj in Hp. by destruct v.
  - unfold spec_list_problems in Hp. by destruct v.
Qed.

Lemma configuration_values_fit c specs owner p :
  configuration_ok c specs owner → p ∈ values c →
  ∃ s, dict_get p.1 specs = Some s ∧ spec_problems s p.2 p.1 = Ok [].
Proof.
  intros [Hb Hk _ Hf] Hp. unfold problems_for in Hf. apply py_bind_ok in Hf as (known & Hm & Hf%Ok_inj).
  apply app_nil in Hf as [Hf _]. rewrite mjoin_nil in Hf. apply py_map_ok in Hm.
  assert (p.1 ∈ sorted_set (dict_keys (values c) ++ unknown c)) as Hin.
  { apply elem_of_sorted_set, elem_of_app. left. by apply list_elem_of_fmap_2. }
  apply list_elem_of_lookup in Hin as [i Hi]. destruct (Forall2_lookup_l _ _ _ _ _ Hm Hi) as (x & Hx & Hpp).
  rewrite (Hf x (list_elem_of_lookup_2 _ _ _ Hx)) in Hpp. unfold property_problems in Hpp.
  destruct (dict_get p.1 specs) as [s|]; [|by apply Ok_inj in Hpp]. exists s. split; [done|].
  case_bool_decide; [|by apply Ok_inj in Hpp]. unfold get in Hpp.
  rewrite (proj2 (dict_get_wf (values c) p.1 p.2 Hk)) in Hpp; [done|]. by destruct p.
Qed.

Lemma read_configuration_ok c specs owner :
  configuration_ok c specs owner → read_configuration (configuration_dict c) specs = Ok (Some c, []).
Proof.
  intros Hok. pose proof Hok as [Hb Hk Hv Hf]. pose proof (built_configuration_inv c Hb) as [Hn Hp].
  unfold configuration_dict. rewrite thaw_id. cbn [read_configuration].
  match goal with |- context [structure_problems ?m _ _ _] => set (doc := m) end.
  rewrite (structure_problems_nil doc) by done.
  change (get_json doc "values") with (JObj ((λ p, (p.1, value_json p.2)) <$> values c)).
  change (get_json doc "unknown") with (JArr (JStr <$> sort_by str_leb (unknown c))).
  change (get_json doc "extra") with (JObj (extra c)). cbn [or_default is_obj andb as_ids].
  assert (sort_by str_leb (unknown c) = unknown c) as Hu.
  { apply sort_by_id. apply (f_equal unknown) in Hn. cbn [Configuration_normalize unknown] in Hn.
    rewrite <- Hn. apply sorted_set_ordered. }
  rewrite Hu, all_str_map. cbn [app].
  assert ((λ p, (p.1, property_value p.2 (dict_get p.1 specs))) <$> ((λ p, (p.1, value_json p.2)) <$> values c)
          = (λ p, (p.1, property_value (value_json p.2) (dict_get p.1 specs))) <$> values c) as ->.
  { by rewrite <- list_fmap_compose. }
  assert (preserved (JObj (extra c)) 0 = JObj (extra c)) as ->.
  { cbn [preserved]. change (MAX_JSON_DEPTH + 1 <? 0) with false. cbv iota. f_equal.
    rewrite <- (list_fmap_id (extra c)) at 2. apply list_fmap_ext. intros i [k x] Hx. cbn [fst snd]. unfold id.
    f_equal. unfold Configuration_problems in Hp. rewrite !app_nil in Hp.
    destruct Hp as (_ & _ & _ & _ & Hp). rewrite mjoin_map_nil in Hp.
    apply (preserved_id _ _ _ _ (Hp (k, x) (list_elem_of_lookup_2 _ _ _ Hx))). }
  cbv iota. unfold attempt_under, attempt, Configuration_new; cbn zeta.
  assert (Configuration_normalize ((λ p, (p.1, property_value (value_json p.2) (dict_get p.1 specs))) <$> values c)
            (unknown c) (extra c) = c) as ->.
  { transitivity (Configuration_normalize (values c) (unknown c) (extra c)); [|exact Hn].
    unfold Configuration_normalize. f_equal. f_equal. rewrite <- list_fmap_compose.
    apply list_fmap_ext. intros i p Hi. apply list_elem_of_lookup_2 in Hi. cbn. f_equal.
    destruct (configuration_values_fit c specs owner p Hok Hi) as (s & Hs & Hsp). rewrite Hs.
    rewrite (canonical_values c p Hb Hi). apply (value_round_trip s p.2 p.1 Hsp).
    - by apply (canonical_values c).
    - intros z Hz. rewrite Forall_forall in Hv. specialize (Hv p Hi). unfold exact_value in Hv.
      by rewrite Hs, Hz in Hv. }
  rewrite Hp. done.
Qed.

(** * Elements *)
Lemma read_field_provenance_ok (fp : dict string Provenance) :
  (∀ q, q ∈ fp → provenance_ok q.2) →
  read_field_provenance (JObj ((λ q, (q.1, provenance_dict (Some q.2))) <$> fp)) = Ok (fp, []).
Proof.
  cbn [read_field_provenance]. induction fp as [|[k p] fp IH]; intros Hfp; [done|].
  cbn [fmap list_fmap read_field_provenance_items fst snd].
  rewrite (read_provenance_ok (Some p)).
  - cbn [mbind py_bind]. rewrite IH; [done|]. intros q Hq. apply Hfp. by right.
  - intros q [= <-]. apply (Hfp (k, p)). left.
Qed.

(** What every element carries can be written. *)
Record annotations_ok (c : Configuration) (specs : dict string PropertySpec) (owner : string)
    (refs : list RequirementRef) (p : option Provenance) (fp : dict string Provenance) : Prop := {
  an_configuration_ok : configuration_ok c specs owner;
  an_refs_ok : Forall ref_ok refs;
  an_provenance_ok : ∀ q, p = Some q → provenance_ok q;
  an_field_provenance_ok : ∀ q, q ∈ fp → provenance_ok q.2;
}.

Lemma read_annotations_ok data c specs owner refs m p fp :
  annotations_ok c specs owner refs p fp →
  (∀ k, k ∈ ANNOTATIONS → get_json data k = get_json (annotations_dict c refs m p fp) k) →
  read_annotations data specs (Some owner) =
  Ok ({| an_configuration := Some c; an_refs := refs; an_metadata := of_metadata m;
         an_provenance := p; an_field_provenance := fp |}, []).
Proof.
  intros [Hc Hr Hp Hfp] Hget. unfold read_annotations. unfold ANNOTATIONS in Hget.
  rewrite !Hget by (repeat (first [by left|right])).
  change (get_json (annotations_dict c refs m p fp) "configuration") with (configuration_dict c).
  change (get_json (annotations_dict c refs m p fp) "requirement_refs") with (refs_dict refs).
  change (get_json (annotations_dict c refs m p fp) "provenance") with (provenance_dict p).
  change (get_json (annotations_dict c refs m p fp) "metadata") with (of_metadata m).
  change (get_json (annotations_dict c refs m p fp) "field_provenance")
    with (JObj ((λ q, (q.1, provenance_dict (Some q.2))) <$> fp)).
  rewrite (read_configuration_ok c specs owner Hc). cbn [mbind py_bind].
  rewrite (co_fits _ _ _ Hc). cbn [mbind py_bind]. rewrite read_refs_ok by done. cbn [mbind py_bind].
  rewrite read_provenance_ok by done. cbn [mbind py_bind]. by rewrite read_field_provenance_ok.
Qed.

Record node_ok (n : Node) : Prop := {
  no_built : built Node_new Node_args n;
  no_technology : technology_ok (n_technology n);
  no_annotations : annotations_ok (n_configuration n) NODE_PROPERTIES (value (n_kind n))
                     (n_requirement_refs n) (n_provenance n) (n_field_provenance n);
}.

Lemma attempt_ok {A} (a : A) : attempt (Ok a) = Ok (Some a, []).
Proof. done. Qed.

Lemma node_parts_ok n doc :
  node_ok n → node_dict n = JObj doc → node_parts doc = Ok (Ok n, []).
Proof.
  intros [Hb Ht Ha] [= <-]. unfold node_parts.
  match goal with |- context [structure_problems ?m _ _ _] => set (doc := m) end.
  rewrite (structure_problems_nil doc) by done.
  change (get_json doc "technology") with (technology_dict (n_technology n)).
  change (get_json doc "kind") with (JStr (value (n_kind n))).
  change (get_json doc "id") with (JStr (n_id n)). change (get_json doc "name") with (JStr (n_name n)).
  change (get_json doc "description") with (of_opt_str (n_description n)).
  change (get_json doc "component") with (of_opt_str (n_component n)).
  change (get_json doc "parent_id") with (of_opt_str (n_parent_id n)).
  change (get_json doc "lifecycle") with (enum_json (n_lifecycle n)).
  rewrite read_technology_ok by done. cbn [mbind py_bind]. rewrite read_enum_value, read_enum_json.
  rewrite (read_annotations_ok doc _ _ _ _ (n_metadata n) _ _ Ha).
  - cbn [mbind py_bind an_configuration an_refs an_metadata an_provenance an_field_provenance app].
    unfold built, Node_args in Hb. by rewrite Hb.
  - unfold ANNOTATIONS. intros k Hk. repeat (apply elem_of_cons in Hk as [->|Hk]; [reflexivity|]).
    by apply elem_of_nil in Hk.
Qed.

Record connection_ok (c : Connection) : Prop := {
  co_connection_built : built Connection_new Connection_args c;
  co_annotations : annotations_ok (c_configuration c) CONNECTION_PROPERTIES CONNECTION_OWNER
                     (c_requirement_refs c) (c_provenance c) (c_field_provenance c);
}.

Lemma connection_parts_ok c doc :
  connection_ok c → connection_dict c = JObj doc → connection_parts doc = Ok (Ok c, []).
Proof.
  intros [Hb Ha] [= <-]. unfold connection_parts.
  match goal with |- context [structure_problems ?m _ _ _] => set (doc := m) end.
  rewrite (structure_problems_nil doc) by done.
  change (get_json doc "kind") with (JStr (value (c_kind c))).
  change (get_json doc "id") with (JStr (c_id c)).
  change (get_json doc "source_id") with (JStr (c_source_id c)).
  change (get_json doc "target_id") with (JStr (c_target_id c)).
  change (get_json doc "protocol") with (of_opt_str (c_protocol c)).
  change (get_json doc "interaction") with (enum_json (c_interaction c)).
  change (get_json doc "bidirectional") with (JBool (c_bidirectional c)).
  change (get_json doc "critical") with (of_opt_bool (c_critical c)).
  change (get_json doc "name") with (of_opt_str (c_name c)).
  change (get_json doc "description") with (of_opt_str (c_description c)).
  rewrite read_enum_value, read_enum_json. cbn [or_default].
  rewrite (read_annotations_ok doc _ _ _ _ (c_metadata c) _ _ Ha).
  - cbn [mbind py_bind an_configuration an_refs an_metadata an_provenance an_field_provenance app].
    unfold built, Connection_args in Hb. by rewrite Hb.
  - unfold ANNOTATIONS. intros k Hk. repeat (apply elem_of_cons in Hk as [->|Hk]; [reflexivity|]).
    by apply elem_of_nil in Hk.
Qed.

Record assumption_ok (a : Assumption) : Prop := {
  ao_built : built Assumption_new Assumption_args a;
  ao_provenance : provenance_ok (a_provenance a);
  ao_refs : Forall ref_ok (a_requirement_refs a);
}.

Lemma assumption_parts_ok a doc :
  assumption_ok a → assumption_dict a = JObj doc → assumption_parts doc = Ok (Ok a, []).
Proof.
  intros [Hb Hp Hr] [= <-]. unfold assumption_parts.
  match goal with |- context [structure_problems ?m _ _ _] => set (doc := m) end.
  rewrite (structure_problems_nil doc) by done.
  change (get_json doc "provenance") with (provenance_dict (Some (a_provenance a))).
  change (get_json doc "requirement_refs") with (refs_dict (a_requirement_refs a)).
  change (get_json doc "id") with (JStr (a_id a)).
  change (get_json doc "statement") with (JStr (statement a)).
  change (get_json doc "subject_ids") with (of_ids (a_subject_ids a)).
  rewrite read_provenance_ok by (by intros q [= <-]). cbn [mbind py_bind].
  rewrite read_refs_ok by done. cbn [mbind py_bind app].
  rewrite or_default_none by done. unfold built, Assumption_args in Hb. by rewrite Hb.
Qed.

Definition decision_ok (d : DecisionRef) : Prop :=
  built (λ a, DecisionRef_new a.1 a.2) DecisionRef_args d ∧ canonical_uuid (decision_id d).

Lemma decision_parts_ok d doc :
  decision_ok d → decision_dict d = JObj doc → decision_parts doc = Ok (Ok d, []).
Proof.
  intros [Hb Hu] [= <-]. unfold decision_parts.
  match goal with |- context [structure_problems ?m _ _ _] => set (doc := m) end.
  rewrite (structure_problems_nil doc) by done.
  change (get_json doc "decision_id") with (JStr (decision_id d)).
  change (get_json doc "subject_ids") with (of_ids (d_subject_ids d)).
  cbn [read_uuid]. unfold canonical_uuid in Hu. rewrite Hu, or_default_none by done.
  unfold built, DecisionRef_args in Hb. cbn [fst snd] in Hb. by rewrite Hb.
Qed.

(** A collection of elements that each read back is read back. *)
Lemma read_collection_ok {A} name limit element id_key (parts : document → Parts A) (write : A → json)
    (l : list A) data :
  get_json data name = JArr (write <$> l) → length l ≤ limit →
  (∀ x, x ∈ l → ∃ doc, write x = JObj doc ∧ parts doc = Ok (Ok x, [])) →
  read_collection name limit element id_key parts data = Ok (l, []).
Proof.
  intros Hget Hlen Hl. unfold read_collection. rewrite Hget. cbn [or_default].
  rewrite length_fmap, (proj2 (Nat.ltb_ge _ _) Hlen). apply read_items_ok. intros i x Hx.
  destruct (Hl x Hx) as (doc & -> & Hp). cbn [read_element]. by rewrite Hp.
Qed.

(** * The whole document *)

(** An architecture every part of which its constructor made, with times in UTC, canonical UUIDs, and
    decimal properties given as decimals. *)
Record writable (ir : ArchitectureIR) : Prop := {
  w_built : built ArchitectureIR_new ArchitectureIR_args ir;
  w_nodes : ∀ n, n ∈ ir_nodes ir → node_ok n;
  w_connections : ∀ c, c ∈ ir_connections ir → connection_ok c;
  w_assumptions : ∀ a, a ∈ ir_assumptions ir → assumption_ok a;
  w_decisions : ∀ d, d ∈ ir_decisions ir → decision_ok d;
  w_refs : Forall ref_ok (ir_requirement_refs ir);
  w_provenance : ∀ p, ir_provenance ir = Some p → provenance_ok p;
}.

Lemma built_schema_version ir :
  built ArchitectureIR_new ArchitectureIR_args ir → ir_schema_version ir = IR_SCHEMA_VERSION.
Proof.
  intros [Hargs Hp]%ArchitectureIR_new_inv. rewrite <- Hargs in Hp.
  assert (own_problems (ArchitectureIR_args ir) = []) as Hown.
  { unfold ArchitectureIR_problems in Hp. case_match; by apply app_nil in Hp as [? _]. }
  unfold own_problems in Hown. apply all_within_nil in Hown. rewrite !app_nil in Hown.
  destruct Hown as (_ & _ & Hv & _). cbn [aa_schema_version ArchitectureIR_args] in Hv.
  destruct (_ =? _)%Z eqn:E in Hv; [|done]. by apply Z.eqb_eq.
Qed.

Lemma read_architecture_ok ir doc :
  writable ir → to_dict ir = JObj doc → read_architecture doc = Ok ir.
Proof.
  intros [Hb Hn Hc Ha Hd Hr Hp] [= <-]. destruct (built_limits ir Hb) as (L1 & L2 & L3 & L4).
  cbn [aa_nodes aa_connections aa_assumptions aa_decisions ArchitectureIR_args] in L1, L2, L3, L4.
  unfold read_architecture.
  match goal with |- context [structure_problems ?m _ _ _] => set (doc := m) end.
  rewrite (structure_problems_nil doc) by done.
  change (get_json doc "provenance") with (provenance_dict (ir_provenance ir)).
  change (get_json doc "requirement_refs") with (refs_dict (ir_requirement_refs ir)).
  change (get_json doc "name") with (JStr (ir_name ir)).
  change (get_json doc "description") with (of_opt_str (ir_description ir)).
  change (get_json doc "metadata") with (of_metadata (ir_metadata ir)).
  change (get_json doc "schema_version") with (JInt (ir_schema_version ir)).
  rewrite read_provenance_ok by done. cbn [mbind py_bind]. rewrite read_refs_ok by done. cbn [mbind py_bind].
  rewrite (read_collection_ok _ _ _ _ _ node_dict (ir_nodes ir)); [|done|done|].
  2: { intros n Hin. eexists. split; [done|]. apply node_parts_ok; [by apply Hn|done]. }
  cbn [mbind py_bind].
  rewrite (read_collection_ok _ _ _ _ _ connection_dict (ir_connections ir)); [|done|done|].
  2: { intros n Hin. eexists. split; [done|]. apply connection_parts_ok; [by apply Hc|done]. }
  cbn [mbind py_bind].
  rewrite (read_collection_ok _ _ _ _ _ assumption_dict (ir_assumptions ir)); [|done|done|].
  2: { intros n Hin. eexists. split; [done|]. apply assumption_parts_ok; [by apply Ha|done]. }
  cbn [mbind py_bind].
  rewrite (read_collection_ok _ _ _ _ _ decision_dict (ir_decisions ir)); [|done|done|].
  2: { intros n Hin. eexists. split; [done|]. apply decision_parts_ok; [by apply Hd|done]. }
  cbn [mbind py_bind app all_within fmap list_fmap raise_if version_number].
  rewrite or_default_none by done. exact Hb.
Qed.

(** * Properties *)

Lemma written_read ir : writable ir → from_dict (to_dict ir) = Ok ir.
Proof.
  intros Hw. pose proof (built_schema_version ir (w_built ir Hw)) as Hv.
  unfold from_dict. destruct (to_dict ir) as [| | | | | |doc] eqn:E; try discriminate E.
  assert (schema_version_of doc = Ok IR_SCHEMA_VERSION) as Hs.
  { injection E as <-. unfold schema_version_of.
    match goal with |- context [get_json ?m _] =>
      change (get_json m "schema_version") with (JInt (ir_schema_version ir)) end.
    by rewrite Hv. }
  unfold upgrade. rewrite Hs. cbn [mbind py_bind Z.ltb Z.eqb IR_SCHEMA_VERSION Z.compare Pos.compare
    Pos.compare_cont Pos.eqb]. by apply read_architecture_ok.
Qed.

(** C6: writing an architecture and reading it back gives the same architecture: nothing a valid
    architecture says is lost or refused by its canonical JSON form. *)
Theorem from_dict_to_dict ir : writable ir → from_dict (to_dict ir) = Ok ir.
Proof. apply written_read. Qed.

(** A service that says where its facts come from, on a measured database. *)
Definition discovered_db : Node := {|
  n_id := "db"; n_kind := DATABASE; n_name := "Orders"; n_description := Some "The order store.";
  n_technology := Some {| t_name := "postgresql"; t_version := Some "16" |};
  n_component := Some "databases/postgresql"; n_parent_id := None;
  n_configuration := {| values := [("availability", JDec (DFin 9995 (-4))); ("replicas", JInt 2)];
                        unknown := ["backup_enabled"]; extra := [("tier", JStr "gold")] |};
  n_requirement_refs := [{| requirement_id := "12345678-1234-5678-1234-567812345678"; version := Some 3%Z |}];
  n_lifecycle := Some ACTIVE; n_metadata := [("team", "payments")];
  n_provenance := Some {|
    source := TERRAFORM; reference := Some "main.tf"; confidence := JDec (DFin 9 (-1)); verified := false;
    inferred := true; actor := None;
    recorded_at := Some {| dt_year := 2026; dt_month := 3; dt_day := 1; dt_hour := 9; dt_minute := 30;
                           dt_second := 0; dt_microsecond := 250000; dt_offset := Some 0%Z |} |};
  n_field_provenance := [] |}.

Definition discovered_shop : ArchitectureIR := {|
  ir_name := "shop"; ir_description := None; ir_nodes := [discovered_db]; ir_connections := [];
  ir_assumptions := []; ir_decisions := []; ir_requirement_refs := []; ir_metadata := [];
  ir_provenance := None; ir_schema_version := 1 |}.

Lemma discovered_db_ok : node_ok discovered_db.
Proof.
  constructor; [vm_compute; reflexivity|intros t [= <-]; vm_compute; reflexivity|].
  constructor.
  - constructor; [vm_compute; reflexivity| | |vm_compute; reflexivity].
    + apply (bool_decide_unpack _). vm_compute. exact I.
    + repeat constructor. vm_compute. discriminate.
  - repeat constructor; vm_compute; reflexivity.
  - intros p [= <-]. constructor; [vm_compute; reflexivity|done|].
    intros d [= <-]. vm_compute. reflexivity.
  - intros q Hq%elem_of_nil. done.
Qed.

Lemma discovered_shop_writable : writable discovered_shop.
Proof.
  constructor; [vm_compute; reflexivity| | | | |constructor|done].
  - intros n ->%list_elem_of_singleton. exact discovered_db_ok.
  - by intros x Hx%elem_of_nil.
  - by intros x Hx%elem_of_nil.
  - by intros x Hx%elem_of_nil.
Qed.

Lemma from_dict_to_dict_witness : from_dict (to_dict discovered_shop) = Ok discovered_shop.
Proof. apply (from_dict_to_dict discovered_shop discovered_shop_writable). Defined.

(** The cores of a service, as a whole number or as a decimal. *)
Definition cores (v : json) : Configuration :=
  {| values := [("cpu_request_cores", v)]; unknown := []; extra := [] |}.

(** Equal architectures are not always written alike: a decimal property keeps a whole number as
    it was given, so two configurations that compare equal have different JSON. *)
Theorem equal_configurations_written_apart :
  let c := cores (JInt 2) in
  let d := cores (JDec (DFin 2 0)) in
  (built (λ a, Configuration_new a.1.1 a.1.2 a.2) Configuration_args c ∧
   built (λ a, Configuration_new a.1.1 a.1.2 a.2) Configuration_args d) ∧
  (problems_for c NODE_PROPERTIES "service" = Ok [] ∧ problems_for d NODE_PROPERTIES "service" = Ok []) ∧
  py_eqb (JObj (values c)) (JObj (values d)) = true ∧ configuration_dict c ≠ configuration_dict d.
Proof. vm_compute. repeat split; try done. Qed.
