(* ===== verification/Validation.v ===== *)
(** Structural validation of untrusted documents (src/core/architecture_ir/validation.py), and of an
    architecture's references to requirements. *)
From Stdlib Require Import ZArith Lia.
From S2P Require Import Prelude Data Codecs Errors Values Provenance Traceability Component.
From S2P Require Import Configuration Elements Model Topology Versioning Serialization.

Record ValidationResult := { vr_ir : option ArchitectureIR; vr_violations : list Violation }.

Definition valid (r : ValidationResult) : bool :=
  match vr_ir r, vr_violations r with Some _, [] => true | _, _ => false end.

(** Only [InvalidArchitecture] becomes a result. *)
Definition validate (data : json) : py ValidationResult :=
  match from_dict data with
  | Ok ir => Ok {| vr_ir := Some ir; vr_violations := [] |}
  | Raise (InvalidArchitecture vs) => Ok {| vr_ir := None; vr_violations := vs |}
  | Raise e => Raise e
  end.

(** Every element that refers to requirements, with its references. *)
Definition referencing (ir : ArchitectureIR) : list (ElementType * json * list RequirementRef) :=
  (ARCHITECTURE, JNull, ir_requirement_refs ir)
  :: ((λ n, (NODE, JStr (n_id n), n_requirement_refs n)) <$> ir_nodes ir)
  ++ ((λ c, (CONNECTION, JStr (c_id c), c_requirement_refs c)) <$> ir_connections ir)
  ++ ((λ a, (ASSUMPTION, JStr (a_id a), a_requirement_refs a)) <$> ir_assumptions ir).

(** [available]: each existing requirement of the project and its current version. *)
Definition ref_problem (available : dict uuid Z) (element : ElementType) (element_id : json)
    (ref : RequirementRef) : list Violation :=
  match dict_get (requirement_id ref) available with
  | None =>
      [violation_of "unknown_requirement"
         ("Requirement " +:+ requirement_id ref +:+ " does not exist in this project.")
         (Some "requirement_refs") element element_id]
  | Some current =>
      match version ref with
      | Some v =>
          if (current <? v)%Z then
            [violation_of "unknown_requirement_version"
               ("Requirement " +:+ requirement_id ref +:+ " has no version " +:+ Z_text v +:+
                " (latest: " +:+ Z_text current +:+ ").")
               (Some "requirement_refs") element element_id]
          else []
      | None => []
      end
  end.

Definition found_problems (ir : ArchitectureIR) (available : dict uuid Z) : list Violation :=
  mjoin ((λ e, mjoin (ref_problem available e.1.1 e.1.2 <$> e.2)) <$> referencing ir).

Definition requirement_problems (ir : ArchitectureIR) (available : dict uuid Z) : py (list Violation) :=
  ordered (found_problems ir available).

(** * Facts *)
Definition ref_known (available : dict uuid Z) (ref : RequirementRef) : Prop :=
  ∃ current, dict_get (requirement_id ref) available = Some current ∧
    ∀ v, version ref = Some v → (v ≤ current)%Z.

Lemma ref_problem_nil available element id ref :
  ref_problem available element id ref = [] ↔ ref_known available ref.
Proof.
  unfold ref_problem, ref_known. destruct (dict_get _ available) as [current|]; [|naive_solver].
  destruct (version ref) as [v|]; [|naive_solver]. destruct (current <? v)%Z eqn:E.
  - apply Z.ltb_lt in E. split; [done|]. intros (c & [= <-] & H). specialize (H v eq_refl). lia.
  - apply Z.ltb_ge in E. split; [|done]. intros _. exists current. split; [done|]. by intros ? [= <-].
Qed.

Lemma mjoin_elem {A} (ls : list (list A)) x : x ∈ mjoin ls ↔ ∃ l, l ∈ ls ∧ x ∈ l.
Proof.
  induction ls as [|l ls IH]; cbn; [set_solver|]. rewrite elem_of_app, IH.
  setoid_rewrite elem_of_cons. naive_solver.
Qed.

(** A problem is placed on one of the elements. *)
Lemma found_problems_place ir available v :
  v ∈ found_problems ir available →
  ∃ e, e ∈ referencing ir ∧ v_element v = Some e.1.1 ∧ v_element_id v = e.1.2.
Proof.
  unfold found_problems. intros (l & (e & -> & He)%list_elem_of_fmap & Hv)%mjoin_elem.
  apply mjoin_elem in Hv as (l & (r & -> & Hr)%list_elem_of_fmap & Hv). exists e. split; [done|].
  unfold ref_problem in Hv. destruct (dict_get _ available) as [current|].
  - destruct (version r) as [n|]; [|by apply elem_of_nil in Hv].
    destruct (current <? n)%Z; [|by apply elem_of_nil in Hv]. by apply list_elem_of_singleton in Hv as ->.
  - by apply list_elem_of_singleton in Hv as ->.
Qed.

Lemma referencing_ids ir e :
  e ∈ referencing ir → (e.1.1 = ARCHITECTURE ∧ e.1.2 = JNull) ∨ (∃ s, e.1.2 = JStr s).
Proof.
  unfold referencing. rewrite elem_of_cons, !elem_of_app, !list_elem_of_fmap. naive_solver.
Qed.

(** Ids are text, so ordering the problems cannot raise. *)
Lemma ordered_text_ids vs :
  (∀ v, v ∈ vs → v_element_id v = JNull ∨ ∃ s, v_element_id v = JStr s) → is_ok (ordered vs) = true.
Proof.
  intros Hvs. unfold ordered.
  assert (forallb (λ v, hashable (v_element_id v)) vs = true) as ->.
  { apply forallb_forall. intros v Hv%list_elem_of_In. by destruct (Hvs v Hv) as [->|[s ->]]. }
  assert (forallb (λ v, forallb (comparable v) vs) vs = true) as ->; [|done].
  assert (∀ v, v ∈ vs → is_str (if truthy (v_element_id v) then v_element_id v else JStr "") = true) as Hs.
  { intros v Hv. destruct (Hvs v Hv) as [->|[s ->]]; [done|]. by destruct (truthy (JStr s)). }
  apply forallb_forall. intros v Hv%list_elem_of_In. apply forallb_forall. intros w Hw%list_elem_of_In.
  unfold comparable, sort_key. rewrite (Hs v Hv), (Hs w Hw). apply orb_true_r.
Qed.

(** * Properties *)

(** checking the references to requirements always gives a result, empty exactly when every
    element refers only to requirements that exist, in versions they have had. *)
Theorem requirement_problems_spec ir available :
  ∃ vs, requirement_problems ir available = Ok vs ∧
    (vs = [] ↔ ∀ e r, e ∈ referencing ir → r ∈ e.2 → ref_known available r).
Proof.
  unfold requirement_problems.
  assert (is_ok (ordered (found_problems ir available)) = true) as Hok.
  { apply ordered_text_ids. intros v (e & He & _ & ->)%found_problems_place.
    destruct (referencing_ids ir e He) as [[_ ->]|?]; [by left|by right]. }
  destruct (ordered _) as [vs|] eqn:E; [|done]. exists vs. split; [done|].
  assert (vs = [] ↔ found_problems ir available = []) as ->.
  { split.
    - intros ->. by apply ordered_nil_inv.
    - intros Hn. rewrite Hn in E. by injection E as <-. }
  unfold found_problems. rewrite mjoin_map_nil. split.
  - intros H e r He Hr. specialize (H e He). rewrite mjoin_map_nil in H.
    by eapply ref_problem_nil, H.
  - intros H e He. rewrite mjoin_map_nil. intros r Hr. apply ref_problem_nil. by eapply H.
Qed.

(** validating any document gives either its architecture, a value the constructor made, or the
    violations found, unless reading it raised something else. *)
Theorem validate_spec data :
  match validate data with
  | Ok r => (valid r = true → ∃ ir, vr_ir r = Some ir ∧ from_dict data = Ok ir) ∧
            (valid r = false → ∃ vs, vr_violations r = vs ∧ from_dict data = Raise (InvalidArchitecture vs))
  | Raise e => from_dict data = Raise e ∧ ∀ vs, e ≠ InvalidArchitecture vs
  end.
Proof.
  unfold validate. destruct (from_dict data) as [ir|[]]; cbn; try (split; [done|done]); split; intros H;
    try discriminate H; eauto.
Qed.

(** A node whose id is a list. *)
Definition list_id_document : json :=
  JObj [("schema_version", JInt 1); ("name", JStr "shop");
        ("nodes", JArr [JObj [("id", JArr [JStr "a"]); ("kind", JStr "service"); ("name", JStr "a")]])].

(** Validation does raise: a document whose node id is a list makes the report itself unhashable,
    and the [TypeError] escapes. *)
Theorem validate_raises : validate list_id_document = Raise TypeError.
Proof. vm_compute. reflexivity. Qed.
