(* ===== verification/Diff.v ===== *)
(** What changed between two architectures (src/core/architecture_ir/diff.py).

    [diff] compares the canonical documents of [Serialization]: elements are matched by id, the fields
    of two elements by path ([leaves]), values by Python's [==] ([py_eqb]).  The values of settings
    that look like secrets are replaced before they are shown ([redacted]). *)
From Stdlib Require Import Ascii ZArith.
From S2P Require Import Prelude Data Errors Values Component Configuration Elements Model Versioning Serialization.

(** * Secrets *)
Definition RESOURCE_PROPERTIES : list string := [
  "replicas"; "autoscaling_min_replicas"; "autoscaling_max_replicas"; "autoscaling_target_cpu_ratio";
  "cpu_request_cores"; "cpu_limit_cores"; "memory_request_bytes"; "memory_limit_bytes";
  "storage_bytes"; "instance_class"; "max_connections"; "partitions"].

(** The words [passw(or)?d|secret|token|api[_-]?key|private[_-]?key|access[_-]?key|credential|
    authorization|cookie] stands for. *)
Definition SECRET_WORDS : list string := [
  "passwd"; "password"; "secret"; "token";
  "apikey"; "api_key"; "api-key"; "privatekey"; "private_key"; "private-key";
  "accesskey"; "access_key"; "access-key"; "credential"; "authorization"; "cookie"].

(** [word in text]. *)
Definition contains (word text : string) : bool :=
  if String.index 0 word text is Some _ then true else false.

(** [SECRET_FIELD.search(text)], whatever the case. *)
Definition SECRET_FIELD (text : string) : bool :=
  existsb (λ word, contains word (lower text)) SECRET_WORDS.

Definition REDACTED : string := "[redacted]".

Definition closed (spec : PropertySpec) : bool :=
  match p_type spec with CHOICE | BOOLEAN => true | _ => false end.

Definition CLOSED : list string :=
  p_name <$> filter closed (dict_values NODE_PROPERTIES ++ dict_values CONNECTION_PROPERTIES).

(** [text[n:]]. *)
Definition drop_text (n : nat) (text : string) : string :=
  String.substring n (String.length text - n) text.

Definition key_after (path marker : string) : option string :=
  if String.prefix marker path then Some (drop_text (String.length marker) path)
  else match String.index 0 ("." +:+ marker) path with
       | None => None
       | Some index => Some (drop_text (index + 1 + String.length marker) path)
       end.

Definition dot : ascii := ascii_of_nat 46.

(** [path.rpartition(".")], without the separator; [text.endswith(suffix)]. *)
Definition rpartition (path : string) : string * string :=
  let parts := split_on dot path in (join "." (removelast parts), default "" (last parts)).

Definition ends_with (suffix text : string) : bool :=
  let n := (String.length text - String.length suffix)%nat in
  (String.length suffix <=? String.length text) && String.eqb (drop_text n text) suffix.

Definition is_secret_path (path : string) : bool :=
  match key_after path "configuration.extra." with
  | Some key => SECRET_FIELD key
  | None =>
      match key_after path "metadata." with
      | Some key => SECRET_FIELD key
      | None =>
          let '(head, name) := rpartition path in
          let typed := bool_decide (name ∈ CLOSED) &&
                       (String.eqb head "configuration" || ends_with ".configuration" head) in
          SECRET_FIELD name && negb typed
      end
  end.

Fixpoint scrubbed (v : json) : json :=
  match v with
  | JObj m => JObj ((λ p, (p.1, if SECRET_FIELD p.1 && negb (is_none p.2) then JStr REDACTED
                                else scrubbed p.2)) <$> m)
  | JArr l => JArr (scrubbed <$> l)
  | _ => v
  end.

(** [path.startswith(("configuration.", "metadata."))]. *)
Definition setting (path : string) : bool :=
  String.prefix "configuration." path || String.prefix "metadata." path.

Definition redacted (path : string) (v : json) : json :=
  if is_none v || negb (setting path) then v
  else if is_secret_path path then JStr REDACTED
  else scrubbed v.

(** * Changes *)
Inductive ChangeKind := ADDED | REMOVED | MODIFIED.

#[export] Instance ChangeKind_eq_dec : EqDecision ChangeKind.
Proof. solve_decision. Defined.

#[export, refine] Instance ChangeKind_enum : StrEnum ChangeKind := {
  members := [ADDED; REMOVED; MODIFIED];
  value c := match c with ADDED => "added" | REMOVED => "removed" | MODIFIED => "modified" end;
}.
Proof. all: solve_enum. Defined.

Record FieldChange := {
  fc_field : string;
  fc_before : json;
  fc_after : json;
  fc_category : string;
}.

Definition FieldChange_to_dict (f : FieldChange) : json := JObj [
  ("field", JStr (fc_field f)); ("before", fc_before f); ("after", fc_after f);
  ("category", JStr (fc_category f))].

Record ElementChange := {
  el_element : ElementType;
  el_id : string;
  el_change : ChangeKind;
  el_label : option string;
  el_kind : option string;
  el_fields : list FieldChange;
}.

Definition el_categories (c : ElementChange) : list string := dedup (fc_category <$> el_fields c).

Definition ElementChange_to_dict (c : ElementChange) : json := JObj [
  ("element", JStr (value (el_element c)));
  ("element_id", JStr (el_id c));
  ("change", JStr (value (el_change c)));
  ("label", of_opt_str (el_label c));
  ("kind", of_opt_str (el_kind c));
  ("categories", JArr (JStr <$> sort_by str_leb (el_categories c)));
  ("fields", JArr (FieldChange_to_dict <$> el_fields c))].

Record ArchitectureDiff := {
  df_architecture : list FieldChange;
  df_nodes : list ElementChange;
  df_connections : list ElementChange;
  df_assumptions : list ElementChange;
  df_decisions : list ElementChange;
}.

Definition no_diff : ArchitectureDiff := {|
  df_architecture := []; df_nodes := []; df_connections := []; df_assumptions := [];
  df_decisions := [] |}.

Definition changes_of (d : ArchitectureDiff) : list ElementChange :=
  df_nodes d ++ df_connections d ++ df_assumptions d ++ df_decisions d.

Definition is_empty (d : ArchitectureDiff) : bool :=
  match df_architecture d, changes_of d with [], [] => true | _, _ => false end.

Definition changed_ids (d : ArchitectureDiff) : list string := dedup (el_id <$> changes_of d).

(** ** The summary *)
Definition plural (count : nat) (noun : string) : string := noun +:+ (if 1 <? count then "s" else "").

Definition summary_part (noun : string) (changes : list ElementChange) (kind : ChangeKind) :
    list string :=
  let selected := filter (λ c, el_change c = kind) changes in
  match selected with
  | [] => []
  | _ =>
      let count := length selected in
      let labels := filter (λ l, l ≠ "") (omap el_label selected) in
      let text := nat_text count +:+ " " +:+ plural count noun +:+ " " +:+ value kind in
      [if negb (bool_decide (kind = MODIFIED)) && negb (bool_decide (labels = [])) && (count <=? 3)
       then text +:+ " (" +:+ join ", " labels +:+ ")" else text]
  end.

Definition summary (d : ArchitectureDiff) : string :=
  if is_empty d then "No changes."
  else
    let parts :=
      (p ← [("node", df_nodes d); ("connection", df_connections d);
            ("assumption", df_assumptions d); ("decision", df_decisions d)];
       kind ← members; summary_part p.1 p.2 kind)
      ++ (match df_architecture d with [] => [] | _ => ["architecture details changed"] end) in
    join "; " parts +:+ ".".

Definition ArchitectureDiff_to_dict (d : ArchitectureDiff) : json := JObj [
  ("summary", JStr (summary d));
  ("architecture", JArr (FieldChange_to_dict <$> df_architecture d));
  ("nodes", JArr (ElementChange_to_dict <$> df_nodes d));
  ("connections", JArr (ElementChange_to_dict <$> df_connections d));
  ("assumptions", JArr (ElementChange_to_dict <$> df_assumptions d));
  ("decisions", JArr (ElementChange_to_dict <$> df_decisions d))].

(** * Comparison *)
Definition WHOLE : list string := ["provenance"; "requirement_refs"; "subject_ids"].

(** The leaves of the value of [key], at [path]: an object is walked, unless it is compared whole. *)
Fixpoint item_leaves (path key : string) (item : json) : document :=
  match item with
  | JObj m =>
      if decide (key ∈ WHOLE) then [(path, item)]
      else m ≫= (λ p, item_leaves (path +:+ "." +:+ p.1) p.1 p.2)
  | _ => [(path, item)]
  end.

Definition object_leaves (prefix : string) (m : document) : document :=
  m ≫= (λ p, item_leaves (prefix +:+ p.1) p.1 p.2).

(** The object under [key], of a document that has one (every configuration that is written does). *)
Definition part (key : string) (item : json) : json :=
  match item with JObj m => default JNull (dict_get key m) | _ => JNull end.
Definition members_of (item : json) : document := match item with JObj m => m | _ => [] end.

(** The leaves of one field of an element.  Only here can a path be [configuration] or
    [field_provenance]: deeper ones have a dot. *)
Definition field_leaves (p : string * json) : document :=
  if String.eqb p.1 "configuration" then
    object_leaves "configuration." (members_of (part "values" p.2))
    ++ (if truthy (part "unknown" p.2) then [("configuration.unknown", part "unknown" p.2)] else [])
    ++ object_leaves "configuration.extra." (members_of (part "extra" p.2))
  else if String.eqb p.1 "field_provenance" then
    (λ q, ("field_provenance." +:+ q.1, q.2)) <$> members_of p.2
  else item_leaves p.1 p.1 p.2.

Definition leaves (doc : document) : document := dict_of (doc ≫= field_leaves).

Definition CATEGORIES : dict string string := [
  ("technology", "technology"); ("component", "technology"); ("source_id", "endpoints");
  ("target_id", "endpoints"); ("protocol", "semantics"); ("interaction", "semantics");
  ("bidirectional", "semantics"); ("critical", "semantics"); ("kind", "kind");
  ("metadata", "metadata"); ("provenance", "provenance"); ("field_provenance", "provenance");
  ("requirement_refs", "traceability"); ("subject_ids", "traceability"); ("parent_id", "placement");
  ("lifecycle", "lifecycle")].

Definition category (path : string) : string :=
  match split_on dot path with
  | [] => "description"
  | first :: rest =>
      if String.eqb first "configuration" then
        if bool_decide (default "" (head rest) ∈ RESOURCE_PROPERTIES) then "resources" else "configuration"
      else default "description" (dict_get first CATEGORIES)
  end.

(** [d.get(path)]. *)
Definition at_path (d : document) (path : string) : json := default JNull (dict_get path d).

Definition field_changes (before after : document) (skip : list string) : list FieldChange :=
  let old := leaves before in
  let new := leaves after in
  (λ path, {| fc_field := path; fc_before := redacted path (at_path old path);
              fc_after := redacted path (at_path new path); fc_category := category path |})
  <$> (filter (λ path, (path ∉ skip) ∧ py_eqb (at_path old path) (at_path new path) = false)
         (sorted_set (dict_keys old ++ dict_keys new))).

(** The text in a field, if it is there. *)
Definition text_at (key : string) (doc : document) : option string :=
  match dict_get key doc with Some (JStr s) => Some s | _ => None end.

Definition element_change (element : ElementType) (old new : dict string document)
    (id_key : string) (label_key : option string) (id : string) : option ElementChange :=
  let change kind current fields := Some {|
    el_element := element; el_id := id; el_change := kind;
    el_label := label_key ≫= (λ k, text_at k current); el_kind := text_at "kind" current;
    el_fields := fields |} in
  match dict_get id old, dict_get id new with
  | None, Some now => change ADDED now []
  | Some was, None => change REMOVED was []
  | Some was, Some now =>
      match field_changes was now [id_key] with
      | [] => None
      | fields => change MODIFIED now fields
      end
  | None, None => None
  end.

(** [{e[id_key]: e for e in elements}]. *)
Definition by_key (id_key : string) (elements : list document) : dict string document :=
  index_by (λ e, default "" (text_at id_key e)) elements.

Definition element_changes (element : ElementType) (before after : list document)
    (id_key : string) (label_key : option string) : list ElementChange :=
  let old := by_key id_key before in
  let new := by_key id_key after in
  omap (element_change element old new id_key label_key)
    (sorted_set (dict_keys old ++ dict_keys new)).

Definition COLLECTIONS : list string :=
  ["nodes"; "connections"; "assumptions"; "decisions"; "schema_version"].

(** The elements of a collection of a document. *)
Definition collection (key : string) (doc : document) : list document :=
  match dict_get key doc with Some (JArr l) => members_of <$> l | _ => [] end.

Definition own_fields (doc : document) : document := filter (λ p, p.1 ∉ COLLECTIONS) doc.

Definition diff (before after : ArchitectureIR) : ArchitectureDiff :=
  let old := members_of (to_dict before) in
  let new := members_of (to_dict after) in
  {| df_architecture := field_changes (own_fields old) (own_fields new) [];
     df_nodes := element_changes NODE (collection "nodes" old) (collection "nodes" new) "id" (Some "name");
     df_connections := element_changes CONNECTION (collection "connections" old)
                         (collection "connections" new) "id" (Some "name");
     df_assumptions := element_changes ASSUMPTION (collection "assumptions" old)
                         (collection "assumptions" new) "id" None;
     df_decisions := element_changes DECISION (collection "decisions" old)
                       (collection "decisions" new) "decision_id" None |}.
