(* ===== verification/Leaves.v ===== *)
(** The leaves of a document ([Diff]) determine it.

    The paths of a field start with its key, so the leaves at such a path are those of that field alone
    ([leaves_field]); Python's equality of what is written is equality ([strict]), where no whole number
    stands for a truth value; so elements whose leaves agree are written alike ([node_same] and the
    like). *)
From Stdlib Require Import Ascii ZArith Lia.
From S2P Require Import Prelude Data Errors Values Provenance Traceability Component Configuration.
From S2P Require Import Elements Model Versioning Serialization Commands RoundTrip Diff.

(** * Dictionaries and prefixes *)
Section dict.
Context {K V : Type} `{EqDecision K}.
Implicit Types d l : list (K * V).

Lemma dict_get_app d l k :
  dict_get k (d ++ l) = match dict_get k d with Some v => Some v | None => dict_get k l end.
Proof. induction d as [|[k' v] d IH]; cbn; [done|]. by case_decide. Qed.

(** The last assignment of a key holds. *)
Lemma dict_get_of l k : dict_get k (dict_of l) = dict_get k (reverse l).
Proof.
  induction l as [|[k' v] l IH] using rev_ind; [done|].
  unfold dict_of, dict_update in *. rewrite foldl_app, reverse_app. cbn [foldl fst snd].
  rewrite dict_get_set, IH. cbn. by case_decide.
Qed.

Lemma dict_keys_of l k : k ∈ dict_keys (dict_of l) ↔ k ∈ l.*1.
Proof.
  rewrite <- dict_get_is_Some, dict_get_of, dict_get_is_Some. unfold dict_keys.
  by rewrite fmap_reverse, elem_of_reverse.
Qed.

(** Only one part of the list assigns the key. *)
Lemma dict_get_part l1 l l2 k :
  k ∉ l1.*1 → k ∉ l2.*1 → dict_get k (dict_of (l1 ++ l ++ l2)) = dict_get k (dict_of l).
Proof.
  intros H1 H2. rewrite !dict_get_of, !reverse_app, !dict_get_app.
  assert (∀ m : list (K * V), k ∉ m.*1 → dict_get k (reverse m) = None) as Hn.
  { intros m Hm. apply dict_get_None. unfold dict_keys. by rewrite fmap_reverse, elem_of_reverse. }
  rewrite (Hn l1 H1), (Hn l2 H2). by destruct (dict_get k (reverse l)).
Qed.
End dict.

Lemma dict_get_fmap_inj {V} (f : string → string) (m : dict string V) k :
  Inj (=) (=) f → dict_get (f k) ((λ q, (f q.1, q.2)) <$> m) = dict_get k m.
Proof.
  intros Hf. induction m as [|[k' v] m IH]; cbn; [done|].
  destruct (decide (k = k')) as [->|Hk]; [by rewrite decide_True|].
  rewrite decide_False; [done|]. by intros ?%Hf.
Qed.

Lemma str_app_assoc (a b c : string) : (a +:+ b) +:+ c = a +:+ (b +:+ c).
Proof. induction a as [|ch a IH]; [done|]. exact (f_equal (String ch) IH). Qed.

#[export] Instance str_app_inj p : Inj (=) (=) (λ s, p +:+ s).
Proof. intros x y. apply (inj (String.append p)). Qed.

(** ** The first part of a path *)
Definition root (path : string) : string := default "" (head (split_on dot path)).

Definition dot_free (k : string) : bool := str_forall (λ c, negb (Ascii.eqb c dot)) k.

Lemma root_path k s : dot_free k = true → s = "" ∨ (∃ r, s = "." +:+ r) → root (k +:+ s) = k.
Proof.
  unfold root, dot_free, str_forall. intros Hk Hs. induction k as [|c k IH].
  - destruct Hs as [->|[r ->]]; [done|]. reflexivity.
  - cbn [String.list_ascii_of_string forallb] in Hk. apply andb_true_iff in Hk as [Hc Hk].
    specialize (IH Hk). change (String c k +:+ s) with (String c (k +:+ s)). cbn [split_on]. apply negb_true_iff in Hc. rewrite Hc.
    destruct (split_on dot (k +:+ s)) as [|w ws] eqn:E.
    + cbn in IH. subst k. by destruct s; cbn in E; repeat case_match.
    + cbn in *. by subst w.
Qed.

(** * The leaves of a document *)
Lemma item_leaves_path item : ∀ path key p v,
  (p, v) ∈ item_leaves path key item → ∃ s, p = path +:+ s ∧ (s = "" ∨ ∃ r, s = "." +:+ r).
Proof.
  assert (∀ s : string, s +:+ "" = s) as Hnil by (intros s; induction s as [|c s IH]; [done|exact (f_equal (String c) IH)]).
  assert (∀ (path : string) (j : json) p v, (p, v) ∈ [(path, j)] →
            ∃ s, p = path +:+ s ∧ (s = "" ∨ ∃ r, s = "." +:+ r)) as Hone.
  { intros path j p v [= -> ->]%list_elem_of_singleton. exists "". rewrite Hnil. auto. }
  induction item as [| | | | |l _|m IH] using json_ind'; intros path key p v; cbn [item_leaves];
    try apply Hone.
  case_decide; [by apply Hone|]. intros ([k i] & Hp & Hin)%list_elem_of_bind.
  rewrite Forall_forall in IH. destruct (IH _ Hin _ _ _ _ Hp) as (s & -> & _).
  exists ("." +:+ k +:+ s). rewrite !str_app_assoc. eauto.
Qed.

Lemma field_leaves_root q p v : dot_free q.1 = true → (p, v) ∈ field_leaves q → root p = q.1.
Proof.
  intros Hk. unfold field_leaves. destruct (String.eqb q.1 "configuration") eqn:E1.
  - apply String.eqb_eq in E1. rewrite E1 in *. unfold object_leaves.
    assert (∀ a, "configuration." +:+ a = "configuration" +:+ ("." +:+ a)) as Hc by done.
    rewrite !elem_of_app, !list_elem_of_bind. intros [(r & Hr & _)|[Hr|(r & Hr & _)]].
    + apply item_leaves_path in Hr as (s & -> & _). rewrite str_app_assoc, Hc. apply root_path; eauto.
    + destruct (truthy _); [|by apply elem_of_nil in Hr].
      apply list_elem_of_singleton in Hr as [= -> _]. done.
    + apply item_leaves_path in Hr as (s & -> & _).
      change "configuration.extra." with ("configuration" +:+ "." +:+ "extra.").
      rewrite !str_app_assoc. apply root_path; eauto.
  - destruct (String.eqb q.1 "field_provenance") eqn:E2.
    + apply String.eqb_eq in E2. rewrite E2 in *. intros ([k i] & [= -> ->] & _)%list_elem_of_fmap.
      change "field_provenance." with ("field_provenance" +:+ "."). rewrite str_app_assoc.
      apply root_path; eauto.
    + intros (s & -> & Hs)%item_leaves_path. by apply root_path.
Qed.

Definition fields_ok (doc : document) : Prop :=
  dict_wf doc ∧ Forall (λ q, dot_free q.1 = true) doc.

(** The leaves at the paths of a field are those of that field. *)
Lemma leaves_field doc k item p :
  fields_ok doc → (k, item) ∈ doc → root p = k →
  dict_get p (leaves doc) = dict_get p (dict_of (field_leaves (k, item))).
Proof.
  intros [Hwf Hdot] Hin Hp. apply list_elem_of_split in Hin as (d1 & d2 & ->).
  unfold leaves. rewrite bind_app, bind_cons. apply dict_get_part.
  all: intros ([p' v] & -> & ([k' i] & Hv & Hin)%list_elem_of_bind)%list_elem_of_fmap; cbn [fst] in *.
  all: rewrite Forall_app, Forall_cons in Hdot; destruct Hdot as (Hd1 & _ & Hd2).
  all: unfold dict_wf, dict_keys in Hwf; rewrite fmap_app, fmap_cons in Hwf; cbn [fst] in Hwf.
  all: apply NoDup_app in Hwf as (_ & Hn1 & [Hn2 _]%NoDup_cons).
  - rewrite Forall_forall in Hd1. apply field_leaves_root in Hv; [|exact (Hd1 _ Hin)].
    cbn in Hv. subst k'. rewrite Hp in Hin. apply (Hn1 k).
    + apply list_elem_of_fmap. by exists (k, i).
    + left.
  - rewrite Forall_forall in Hd2. apply field_leaves_root in Hv; [|exact (Hd2 _ Hin)].
    cbn in Hv. subst k'. rewrite Hp in Hin. apply Hn2, list_elem_of_fmap. by exists (k, i).
Qed.

(** Paths with another root are not leaves. *)
Lemma leaves_root doc p v :
  Forall (λ q, dot_free q.1 = true) doc → dict_get p (leaves doc) = Some v → root p ∈ dict_keys doc.
Proof.
  intros Hdot Hp. assert (p ∈ dict_keys (leaves doc)) as Hk by (apply dict_get_is_Some; eauto).
  unfold leaves in Hk. rewrite dict_keys_of in Hk.
  apply list_elem_of_fmap in Hk as ([p' w] & -> & (q & Hw & Hq)%list_elem_of_bind).
  rewrite Forall_forall in Hdot. apply field_leaves_root in Hw; [|exact (Hdot _ Hq)]. cbn [fst].
  rewrite Hw. by apply list_elem_of_fmap_2.
Qed.

(** * Python's equality of what is written

    Texts, lists of texts and [None] equal nothing else ([strict]). *)
Definition strict (x : json) : Prop := ∀ y, py_eqb x y = true → y = x.

Lemma strict_null : strict JNull.
Proof. by intros [| | | | | |]. Qed.

Lemma strict_str s : strict (JStr s).
Proof. intros [| | | |s'| |]; try done. cbn. by intros ->%String.eqb_eq. Qed.

Lemma strict_opt_str o : strict (of_opt_str o).
Proof. destruct o; [apply strict_str|apply strict_null]. Qed.

Lemma py_eqb_arr l l' : py_eqb (JArr l) (JArr l') = true ↔ Forall2 (λ x y, py_eqb x y = true) l l'.
Proof.
  revert l'. induction l as [|x l IH]; intros [|y l'].
  - split; [constructor|done].
  - split; [done|]. by intros ?%Forall2_nil_cons_inv.
  - split; [done|]. by intros ?%Forall2_cons_nil_inv.
  - rewrite Forall2_cons, <- IH. apply andb_true_iff.
Qed.

Lemma py_eqb_arr_inv l y : py_eqb (JArr l) y = true → ∃ l', y = JArr l'.
Proof. destruct y; try done. eauto. Qed.

Lemma strict_arr l : Forall strict l → strict (JArr l).
Proof.
  intros Hl y Hy. destruct (py_eqb_arr_inv _ _ Hy) as [l' ->]. apply py_eqb_arr in Hy. f_equal.
  induction Hy as [|x x' l l' Hx _ IH]; [done|]. apply Forall_cons in Hl as [Hsx Hl].
  by rewrite (Hsx _ Hx), IH.
Qed.

Lemma strict_texts l : strict (JArr (JStr <$> l)).
Proof. apply strict_arr, Forall_fmap, Forall_true. intros s. apply strict_str. Qed.

Lemma py_eqb_bool b b' : py_eqb (JBool b) (JBool b') = true → b = b'.
Proof. by destruct b, b'. Qed.

Lemma py_eqb_int z z' : py_eqb (JInt z) (JInt z') = true → z = z'.
Proof.
  cbn. unfold dec_eqb, dec_of_Z, dec_scaled. cbn. rewrite ?Z.mul_1_r, ?Z.min_id. cbn.
  rewrite ?Z.mul_1_r. by intros ?%Z.eqb_eq.
Qed.

(** Objects with the same keys in the same order. *)
Lemma py_eqb_record (m m' : document) :
  dict_wf m → m.*1 = m'.*1 → py_eqb (JObj m) (JObj m') = true →
  Forall2 (λ p q, p.1 = q.1 ∧ py_eqb p.2 q.2 = true) m m'.
Proof.
  intros Hwf Hkeys. cbn [py_eqb]. intros [_ H]%andb_true_iff.
  assert (∀ k x, (k, x) ∈ m → ∃ y, dict_get k m' = Some y ∧ py_eqb x y = true) as Hall.
  { clear Hkeys Hwf. induction m as [|[k0 x0] m IH]; intros k x Hin; [by apply elem_of_nil in Hin|].
    apply andb_true_iff in H as [H0 H]. apply elem_of_cons in Hin as [[= -> ->]|Hin]; [|by apply IH].
    destruct (dict_get k0 m') as [y|]; [|done]. eauto. }
  clear H. apply Forall2_same_length_lookup. split.
  { by rewrite <- (length_fmap fst m), Hkeys, length_fmap. }
  intros i [k x] [k' y] Hx Hy. cbn [fst snd].
  assert (k = k') as <-.
  { apply (f_equal (λ l, l !! i)) in Hkeys. rewrite !list_lookup_fmap, Hx, Hy in Hkeys. by injection Hkeys. }
  split; [done|]. destruct (Hall k x) as (y' & Hy' & He); [by eapply list_elem_of_lookup_2|].
  apply dict_get_wf in Hy'; [|unfold dict_wf, dict_keys in *; by rewrite <- Hkeys].
  apply list_elem_of_lookup in Hy' as [j Hj].
  assert (i = j) as <-; [|congruence].
  apply (NoDup_lookup (m'.*1) i j k); [unfold dict_wf, dict_keys in Hwf; by rewrite <- Hkeys| |].
  - by rewrite list_lookup_fmap, Hy.
  - by rewrite list_lookup_fmap, Hj.
Qed.

Lemma strict_confidence c : strict (confidence_json c).
Proof. unfold confidence_json. destruct (as_number c); [apply strict_str|apply strict_null]. Qed.

Lemma strict_time t : strict (time_json t).
Proof. destruct t; [apply strict_str|apply strict_null]. Qed.

Create HintDb strict discriminated.
#[export] Hint Resolve strict_null strict_str strict_opt_str strict_texts strict_confidence strict_time : strict.

(** Two records of the same class: field by field. *)
Ltac record_fields H :=
  apply py_eqb_record in H; [|apply (bool_decide_unpack _); vm_compute; exact I|reflexivity];
  repeat (let E := fresh "E" in apply Forall2_cons in H as [[_ E] H]; cbn [snd] in E).

Ltac strict_fields :=
  repeat match goal with
  | H : py_eqb (JBool _) (JBool _) = true |- _ => apply py_eqb_bool in H
  | H : py_eqb ?x ?y = true |- _ =>
      let S := fresh in assert (strict x) as S by (solve [auto with strict]); apply S in H; clear S
  end.

Lemma provenance_eq p p' :
  py_eqb (provenance_dict p) (provenance_dict p') = true → provenance_dict p' = provenance_dict p.
Proof.
  destruct p as [p|]; [|apply strict_null]. destruct p' as [p'|]; [|done].
  cbn [provenance_dict]. unfold provenance_record. intros H. record_fields H. strict_fields. congruence.
Qed.

Lemma version_eq v v' : py_eqb (version_json v) (version_json v') = true → version_json v' = version_json v.
Proof.
  destruct v as [v|]; [|apply strict_null]. destruct v' as [v'|]; [|done]. by intros ->%py_eqb_int.
Qed.

Lemma ref_eq r r' : py_eqb (ref_dict r) (ref_dict r') = true → ref_dict r' = ref_dict r.
Proof.
  unfold ref_dict. intros H. record_fields H. apply version_eq in E0. strict_fields. congruence.
Qed.

Lemma refs_eq l l' : py_eqb (refs_dict l) (refs_dict l') = true → refs_dict l' = refs_dict l.
Proof.
  unfold refs_dict. rewrite py_eqb_arr. intros H. f_equal. apply Forall2_fmap in H.
  induction H as [|r r' l l' Hr _ IH]; [done|]. cbn. by rewrite (ref_eq _ _ Hr), IH.
Qed.

(** ** Settings *)

(** The settings whose values Python's equality tells apart: texts, whole numbers and lists of them. *)
Fixpoint plain (v : json) : bool :=
  match v with JStr _ | JInt _ => true | JArr l => forallb plain l | _ => false end.

Lemma plain_eq x : ∀ y, plain x = true → plain y = true → py_eqb x y = true → y = x.
Proof.
  induction x as [| |z| |s|l IH|m IH] using json_ind'; intros y Hx Hy H; try done.
  - destruct y; try done. by apply py_eqb_int in H as ->.
  - by apply strict_str.
  - destruct y as [| | | | |l'|]; try done. apply py_eqb_arr in H. f_equal. cbn in Hx, Hy. revert IH Hx Hy.
    induction H as [|a b l l' Hab _ IHl]; [done|]. cbn. intros [Ha IH]%Forall_cons.
    intros [Hpa Hl]%andb_true_iff [Hpb Hl']%andb_true_iff. by rewrite (Ha b), IHl.
Qed.

Lemma value_eq specs s k v v' :
  dict_get k specs = Some s → exact_value specs (k, v) → exact_value specs (k, v') →
  spec_problems s v k = Ok [] → spec_problems s v' k = Ok [] →
  py_eqb (value_json v) (value_json v') = true → value_json v' = value_json v.
Proof.
  unfold exact_value. cbn [fst snd]. intros ->. unfold spec_problems.
  destruct (p_type s) eqn:Et; intros He He' Hp Hp'.
  - apply Ok_inj in Hp, Hp'. unfold spec_number_problems in Hp, Hp'. rewrite Et in Hp, Hp'.
    destruct v, v'; try done. by intros ->%py_eqb_int.
  - apply Ok_inj in Hp, Hp'. unfold spec_number_problems in Hp, Hp'. rewrite Et in Hp, Hp'.
    destruct v; try done; apply strict_str.
  - apply Ok_inj in Hp, Hp'. destruct v, v'; try done. by intros ->%py_eqb_bool.
  - apply Ok_inj in Hp. destruct v; try done; apply strict_str.
  - destruct (hashable_value v); [|done]. apply Ok_inj in Hp. destruct v; try done; apply strict_str.
  - apply Ok_inj in Hp. unfold spec_list_problems in Hp. destruct v as [| | | | |l|]; try done.
    destruct (_ <? _); [done|]. rewrite enumerate_map_nil in Hp. apply strict_arr, Forall_lookup.
    intros i x Hx. specialize (Hp i x Hx). destruct x; try done. apply strict_str.
Qed.

(** * From leaves back to fields *)
Definition same_at (d d' : document) (p : string) : Prop := py_eqb (at_path d p) (at_path d' p) = true.

(** A frozen dictionary: each key once, in order. *)
Definition frozen_dict {V} (d : dict string V) : Prop := dict_wf d ∧ ordered_by (on fst str_leb) d.

Lemma frozen_fmap_values {V W} (f : string → V → W) (d : dict string V) :
  frozen_dict d → frozen_dict ((λ p, (p.1, f p.1 p.2)) <$> d).
Proof.
  intros [Hwf Hs]. split.
  - unfold dict_wf, dict_keys in *. by rewrite <- list_fmap_compose.
  - unfold ordered_by in *. clear Hwf. induction Hs as [|[k v] d Hd IH Hk]; [constructor|]. constructor; [done|].
    by apply Forall_fmap.
Qed.

Lemma frozen_ext {V} (d d' : dict string V) :
  frozen_dict d → frozen_dict d' → (∀ k, dict_get k d = dict_get k d') → d = d'.
Proof.
  intros [Hw Hs] [Hw' Hs'] Hget. rewrite <- (sort_by_id (on fst str_leb) d Hs), <- (sort_by_id (on fst str_leb) d' Hs').
  apply sort_on_unique; [apply _|exact Hw|]. apply NoDup_Permutation.
  - by eapply NoDup_fmap_1.
  - by eapply NoDup_fmap_1.
  - intros [k v]. by rewrite <- !dict_get_wf, Hget.
Qed.

Lemma null_right v : py_eqb v JNull = true → v = JNull.
Proof. by destruct v. Qed.

(** Two dictionaries read off leaves that agree. *)
Lemma flat_eq pre (L L' m m' : document) :
  frozen_dict m → frozen_dict m' → Forall (λ q, q.2 ≠ JNull) m → Forall (λ q, q.2 ≠ JNull) m' →
  (∀ k v v', (k, v) ∈ m → (k, v') ∈ m' → py_eqb v v' = true → v' = v) →
  (∀ k, k ∈ dict_keys m ++ dict_keys m' →
     at_path L (pre +:+ k) = at_path m k ∧ at_path L' (pre +:+ k) = at_path m' k ∧
     same_at L L' (pre +:+ k)) →
  m' = m.
Proof.
  intros Hm Hm' Hn Hn' Hv Hsame. rewrite Forall_forall in Hn, Hn'. apply frozen_ext; [done..|]. intros k.
  destruct (decide (k ∈ dict_keys m ++ dict_keys m')) as [Hk|Hk].
  - destruct (Hsame k Hk) as (H1 & H2 & H). unfold same_at in H. rewrite H1, H2 in H. unfold at_path in H.
    destruct (dict_get k m) as [v|] eqn:E, (dict_get k m') as [v'|] eqn:E'; cbn in H.
    + f_equal. by apply (Hv k); [apply dict_get_elem..|].
    + apply null_right in H. by destruct (Hn (k, v) (dict_get_elem _ _ _ E)).
    + apply strict_null in H. by destruct (Hn' (k, v') (dict_get_elem _ _ _ E')).
    + done.
  - rewrite elem_of_app in Hk. rewrite (proj2 (dict_get_None m k)), (proj2 (dict_get_None m' k)); tauto.
Qed.

Definition agree (k : string) (i i' : json) : Prop :=
  ∀ p, root p = k → same_at (dict_of (field_leaves (k, i))) (dict_of (field_leaves (k, i'))) p.

Lemma item_leaves_atom path key i :
  is_obj i = false ∨ key ∈ WHOLE → item_leaves path key i = [(path, i)].
Proof. destruct i; cbn [item_leaves is_obj]; try done. intros [?|?]; [done|by rewrite decide_True]. Qed.

Lemma root_id k : dot_free k = true → root k = k.
Proof.
  intros Hk. rewrite <- (root_path k "" Hk) at 2 by auto. f_equal. symmetry.
  clear Hk. induction k as [|c k IH]; [done|exact (f_equal (String c) IH)].
Qed.

Lemma agree_atom k i i' :
  dot_free k = true → k ∉ ["configuration"; "field_provenance"] →
  is_obj i = false ∨ k ∈ WHOLE → is_obj i' = false ∨ k ∈ WHOLE →
  agree k i i' → py_eqb i i' = true.
Proof.
  intros Hd Hk Hi Hi' H. specialize (H k (root_id k Hd)). unfold same_at, field_leaves in H. cbn [fst snd] in H.
  rewrite !not_elem_of_cons in Hk. destruct Hk as (H1 & H2 & _).
  rewrite (proj2 (String.eqb_neq _ _) H1), (proj2 (String.eqb_neq _ _) H2) in H.
  rewrite !item_leaves_atom in H by done. unfold at_path, dict_of, dict_update in H. cbn in H.
  rewrite !decide_True in H by done. exact H.
Qed.

(** The leaves of a dictionary of atoms. *)
Lemma object_leaves_flat pre (m : document) :
  Forall (λ q, is_obj q.2 = false) m → object_leaves pre m = (λ q, (pre +:+ q.1, q.2)) <$> m.
Proof.
  unfold object_leaves. induction 1 as [|q m Hq _ IH]; [done|].
  rewrite bind_cons, item_leaves_atom by auto. cbn. by rewrite IH.
Qed.

Lemma at_prefixed pre (m : document) k :
  dict_wf m → at_path (dict_of ((λ q, (pre +:+ q.1, q.2)) <$> m)) (pre +:+ k) = at_path m k.
Proof.
  intros Hm. unfold at_path. rewrite dict_of_id.
  - by rewrite (dict_get_fmap_inj (λ s, pre +:+ s)) by apply _.
  - unfold dict_wf, dict_keys in *. rewrite <- list_fmap_compose.
    assert ((fst ∘ (λ q : string * json, (pre +:+ q.1, q.2))) <$> m = (λ s, pre +:+ s) <$> m.*1) as ->.
    { rewrite <- list_fmap_compose. by apply list_fmap_ext. }
    by apply (NoDup_fmap_2 (λ s, pre +:+ s)).
Qed.

Lemma root_prefixed k pre x : dot_free k = true → pre = k +:+ "." → root (pre +:+ x) = k.
Proof. intros Hk ->. rewrite str_app_assoc. apply root_path; eauto. Qed.

Lemma agree_metadata m m' :
  frozen_dict m → frozen_dict m' → agree "metadata" (of_metadata m) (of_metadata m') →
  of_metadata m' = of_metadata m.
Proof.
  intros Hm Hm' H. unfold of_metadata in *. f_equal.
  apply (frozen_fmap_values (λ _, JStr)) in Hm, Hm'.
  set (d := (λ p, (p.1, JStr p.2)) <$> m) in *. set (d' := (λ p, (p.1, JStr p.2)) <$> m') in *.
  assert (∀ l : dict string string, Forall (λ q : string * json, is_obj q.2 = false ∧ q.2 ≠ JNull) ((λ p, (p.1, JStr p.2)) <$> l)) as Ha.
  { intros l. apply Forall_fmap, Forall_true. done. }
  pose proof (Ha m) as [Hd Hdn]%Forall_and. pose proof (Ha m') as [Hd' Hdn']%Forall_and. fold d in Hd, Hdn. fold d' in Hd', Hdn'.
  apply (flat_eq "metadata." (dict_of (object_leaves "metadata." d)) (dict_of (object_leaves "metadata." d')));
    try done.
  - intros k v v' (q & [= -> ->] & _)%list_elem_of_fmap _. apply strict_str.
  - intros k _. rewrite !object_leaves_flat by done. destruct Hm, Hm'. rewrite !at_prefixed by done.
    split_and!; [done..|]. rewrite <- !object_leaves_flat by done.
    apply (H ("metadata." +:+ k)). by apply root_prefixed.
Qed.

Lemma agree_technology t t' :
  agree "technology" (technology_dict t) (technology_dict t') → technology_dict t' = technology_dict t.
Proof.
  intros H. pose proof (H "technology.name" eq_refl) as Hn. pose proof (H "technology.version" eq_refl) as Hv.
  unfold same_at in Hn, Hv. destruct t as [[n v]|], t' as [[n' v']|]; try done.
  - assert (py_eqb (JStr n) (JStr n') = true) as En by by destruct v, v'.
    assert (py_eqb (of_opt_str v) (of_opt_str v') = true) as Ev by by destruct v, v'.
    apply strict_str in En. apply strict_opt_str in Ev. injection En as ->.
    unfold technology_dict. cbn. by rewrite Ev.
  - by destruct v.
  - by destruct v'.
Qed.

Lemma agree_field_provenance (fp fp' : dict string Provenance) :
  frozen_dict fp → frozen_dict fp' →
  let write := λ fp : dict string Provenance, JObj ((λ q, (q.1, provenance_dict (Some q.2))) <$> fp) in
  agree "field_provenance" (write fp) (write fp') → write fp' = write fp.
Proof.
  intros Hm Hm' write H. unfold write in *. f_equal.
  apply (frozen_fmap_values (λ _ q, provenance_dict (Some q))) in Hm, Hm'.
  set (d := (λ q, (q.1, provenance_dict (Some q.2))) <$> fp) in *.
  set (d' := (λ q, (q.1, provenance_dict (Some q.2))) <$> fp') in *.
  eapply (flat_eq "field_provenance."); try done.
  - apply Forall_fmap, Forall_true. done.
  - apply Forall_fmap, Forall_true. done.
  - intros k v v' (q & [= -> ->] & _)%list_elem_of_fmap (q' & [= Hk ->] & _)%list_elem_of_fmap.
    apply (provenance_eq (Some q.2) (Some q'.2)).
  - intros k _. destruct Hm, Hm'.
    pose proof (at_prefixed "field_provenance." d k ltac:(done)) as H1.
    pose proof (at_prefixed "field_provenance." d' k ltac:(done)) as H2.
    split_and!; [exact H1|exact H2|]. apply (H ("field_provenance." +:+ k)). by apply root_prefixed.
Qed.

(** ** The configuration *)
Definition proper_name (k : string) : bool := dot_free k && negb (String.eqb k "unknown").

Lemma names_proper specs k s :
  specs ∈ [NODE_PROPERTIES; CONNECTION_PROPERTIES] → dict_get k specs = Some s → proper_name k = true.
Proof.
  intros Hs Hk. assert (k ∈ dict_keys specs) as Hin by (apply dict_get_is_Some; eauto). clear Hk.
  assert (Forall (λ sp, forallb proper_name (dict_keys sp) = true) [NODE_PROPERTIES; CONNECTION_PROPERTIES]) as Ha
    by (repeat constructor; vm_compute; reflexivity).
  rewrite Forall_forall in Ha. specialize (Ha specs Hs). rewrite forallb_forall in Ha.
  by apply Ha, list_elem_of_In.
Qed.

(** A configuration whose unrecognized settings are plain, its dictionaries frozen. *)
Record plain_configuration (c : Configuration) (specs : dict string PropertySpec) : Prop := {
  pc_fits : ∃ owner, configuration_ok c specs owner;
  pc_values : frozen_dict (values c);
  pc_extra : frozen_dict (extra c);
  pc_plain : Forall (λ q, plain q.2 = true) (extra c);
}.

Definition written_values (c : Configuration) : document := (λ p, (p.1, value_json p.2)) <$> values c.
Definition written_unknown (c : Configuration) : list json := JStr <$> sort_by str_leb (unknown c).

Lemma plain_atom v : plain v = true → is_obj v = false ∧ v ≠ JNull.
Proof. by destruct v. Qed.

Section configuration.
Context (c : Configuration) (specs : dict string PropertySpec).
Context (Hspecs : specs ∈ [NODE_PROPERTIES; CONNECTION_PROPERTIES]) (Hc : plain_configuration c specs).

Lemma written_fits k w : (k, w) ∈ written_values c →
  ∃ v s, w = value_json v ∧ dict_get k specs = Some s ∧ exact_value specs (k, v) ∧ spec_problems s v k = Ok [].
Proof using Hc.
  intros ([k' v] & [= -> ->] & Hin)%list_elem_of_fmap. destruct (pc_fits _ _ Hc) as [owner Hok].
  destruct (configuration_values_fit _ _ _ _ Hok Hin) as (s & Hs & Hp). exists v, s. split_and!; try done.
  pose proof (co_values _ _ _ Hok) as He. rewrite Forall_forall in He. by apply (He (k', v)).
Qed.

Lemma written_atom : Forall (λ q, is_obj q.2 = false ∧ q.2 ≠ JNull) (written_values c).
Proof using Hc.
  apply Forall_forall. intros [k w] Hin. destruct (written_fits _ _ Hin) as (v & s & -> & _ & _ & Hp).
  unfold spec_problems, spec_number_problems in Hp. cbn [snd].
  destruct (p_type s) eqn:E; rewrite ?E in Hp; destruct v; try done;
    by (destruct (number_problems _ _)).
Qed.

Lemma written_proper k : k ∈ dict_keys (written_values c) → proper_name k = true.
Proof using Hspecs Hc.
  intros ([k' w] & -> & Hin)%list_elem_of_fmap. destruct (written_fits _ _ Hin) as (v & s & _ & Hs & _).
  by eapply names_proper.
Qed.

Lemma configuration_leaves :
  field_leaves ("configuration", configuration_dict c) =
  ((λ q, ("configuration." +:+ q.1, q.2)) <$> written_values c)
  ++ (if truthy (JArr (written_unknown c)) then [("configuration.unknown", JArr (written_unknown c))] else [])
  ++ ((λ q, ("configuration.extra." +:+ q.1, q.2)) <$> extra c).
Proof using Hc.
  unfold configuration_dict. rewrite thaw_id.
  rewrite <- (object_leaves_flat "configuration." (written_values c)), <- (object_leaves_flat "configuration.extra." (extra c)).
  - reflexivity.
  - eapply Forall_impl; [exact (pc_plain _ _ Hc)|]. intros q Hq. apply (plain_atom _ Hq).
  - eapply Forall_impl; [exact written_atom|]. by intros q [].
Qed.

Lemma at_value k :
  proper_name k = true →
  at_path (dict_of (field_leaves ("configuration", configuration_dict c))) ("configuration." +:+ k)
  = at_path (written_values c) k.
Proof using Hc.
  unfold proper_name. intros [Hdot Hk]%andb_true_iff. apply negb_true_iff, String.eqb_neq in Hk.
  rewrite configuration_leaves. unfold at_path. rewrite <- (app_nil_l (_ ++ _)), dict_get_part.
  - apply at_prefixed. apply (frozen_fmap_values (λ _, value_json)), (pc_values _ _ Hc).
  - apply not_elem_of_nil.
  - intros (q & Hq & Hin)%list_elem_of_fmap. apply elem_of_app in Hin as [Hin|Hin].
    + destruct (truthy _); [|by apply elem_of_nil in Hin]. apply list_elem_of_singleton in Hin as ->.
      apply (inj (String.append "configuration.") k "unknown") in Hq. done.
    + apply list_elem_of_fmap in Hin as ([x v] & -> & _).
      apply (inj (String.append "configuration.") k ("extra" +:+ ("." +:+ x))) in Hq. subst k.
      assert (root ("extra" +:+ ("." +:+ x)) = "extra") as Hr by (apply root_path; eauto).
      rewrite (root_id _ Hdot) in Hr. discriminate Hr.
Qed.

Lemma at_extra k :
  at_path (dict_of (field_leaves ("configuration", configuration_dict c))) ("configuration.extra." +:+ k)
  = at_path (extra c) k.
Proof using Hspecs Hc.
  rewrite configuration_leaves, app_assoc. unfold at_path.
  rewrite <- (app_nil_r ((λ q, ("configuration.extra." +:+ q.1, q.2)) <$> extra c)), dict_get_part.
  - apply at_prefixed, (pc_extra _ _ Hc).
  - intros (q & Hq & Hin)%list_elem_of_fmap. apply elem_of_app in Hin as [Hin|Hin].
    + apply list_elem_of_fmap in Hin as ([x v] & -> & Hx). cbn [fst] in Hq.
      apply (inj (String.append "configuration.") ("extra" +:+ ("." +:+ k)) x) in Hq. subst x.
      assert (proper_name ("extra" +:+ ("." +:+ k)) = true) as [Hd _]%andb_true_iff.
      { apply written_proper. apply list_elem_of_fmap. by eexists (_, v). }
      assert (root ("extra" +:+ ("." +:+ k)) = "extra") as Hr by (apply root_path; eauto).
      rewrite (root_id _ Hd) in Hr. discriminate Hr.
    + destruct (truthy _); [|by apply elem_of_nil in Hin]. apply list_elem_of_singleton in Hin as ->. discriminate Hq.
  - apply not_elem_of_nil.
Qed.

Lemma at_unknown :
  at_path (dict_of (field_leaves ("configuration", configuration_dict c))) "configuration.unknown"
  = if truthy (JArr (written_unknown c)) then JArr (written_unknown c) else JNull.
Proof using Hspecs Hc.
  rewrite configuration_leaves. unfold at_path. rewrite dict_get_part.
  - by destruct (truthy _).
  - intros (q & Hq & Hin)%list_elem_of_fmap. apply list_elem_of_fmap in Hin as ([x v] & -> & Hx). cbn [fst] in Hq.
    apply (inj (String.append "configuration.") "unknown" x) in Hq. subst x.
    assert (proper_name "unknown" = true) as Hp by (apply written_proper, list_elem_of_fmap; by eexists (_, v)).
    discriminate Hp.
  - intros (q & Hq & Hin)%list_elem_of_fmap. apply list_elem_of_fmap in Hin as ([x v] & -> & _). discriminate Hq.
Qed.
End configuration.

Lemma agree_configuration c c' specs :
  specs ∈ [NODE_PROPERTIES; CONNECTION_PROPERTIES] → plain_configuration c specs → plain_configuration c' specs →
  agree "configuration" (configuration_dict c) (configuration_dict c') → configuration_dict c' = configuration_dict c.
Proof.
  intros Hs Hc Hc' H.
  assert (written_values c' = written_values c) as Hv.
  { pose proof (written_atom _ _ Hc) as [_ Hn]%Forall_and. pose proof (written_atom _ _ Hc') as [_ Hn']%Forall_and.
    eapply (flat_eq "configuration.").
    - apply (frozen_fmap_values (λ _, value_json)), (pc_values _ _ Hc).
    - apply (frozen_fmap_values (λ _, value_json)), (pc_values _ _ Hc').
    - done.
    - done.
    - intros k v v' Hk Hk'. destruct (written_fits _ _ Hc _ _ Hk) as (w & s & -> & Hg & He & Hp).
      destruct (written_fits _ _ Hc' _ _ Hk') as (w' & s' & -> & Hg' & He' & Hp').
      rewrite Hg in Hg'. injection Hg' as <-. by apply (value_eq specs s k).
    - intros k Hk.
      assert (proper_name k = true) as Hp.
      { apply elem_of_app in Hk as [Hk|Hk]; [by apply (written_proper c specs)|by apply (written_proper c' specs)]. }
      split_and!; [by apply (at_value _ _ Hc)|by apply (at_value _ _ Hc')|].
      apply H. by apply root_prefixed. }
  assert (extra c' = extra c) as He.
  { pose proof (pc_plain _ _ Hc) as Hp. pose proof (pc_plain _ _ Hc') as Hp'.
    eapply (flat_eq "configuration.extra.").
    - apply (pc_extra _ _ Hc).
    - apply (pc_extra _ _ Hc').
    - eapply Forall_impl; [exact Hp|]. intros q Hq. apply (plain_atom _ Hq).
    - eapply Forall_impl; [exact Hp'|]. intros q Hq. apply (plain_atom _ Hq).
    - rewrite Forall_forall in Hp, Hp'. intros k v v' Hk Hk'. apply plain_eq; [by apply (Hp _ Hk)|by apply (Hp' _ Hk')].
    - intros k _. split_and!; [by apply (at_extra _ specs)|by apply (at_extra _ specs)|].
      apply H. change ("configuration.extra." +:+ k) with ("configuration." +:+ ("extra." +:+ k)). by apply root_prefixed. }
  assert (written_unknown c' = written_unknown c) as Hu.
  { specialize (H "configuration.unknown" eq_refl). unfold same_at in H.
    rewrite (at_unknown _ specs), (at_unknown _ specs) in H by done.
    assert (∀ l : list string, strict (JArr (JStr <$> l))) as Hst by apply strict_texts.
    unfold written_unknown in *. destruct (sort_by str_leb (unknown c)) as [|x l], (sort_by str_leb (unknown c')) as [|x' l']; try done.
    apply (Hst (x :: l)) in H. exact (f_equal (λ j, match j with JArr l => l | _ => [] end) H). }
  unfold configuration_dict. fold (written_values c) (written_values c') (written_unknown c) (written_unknown c').
  by rewrite Hv, He, Hu.
Qed.

(** * Documents *)
Lemma field_changes_nil was now skip :
  field_changes was now skip = [] ↔ ∀ p, p ∉ skip → same_at (leaves was) (leaves now) p.
Proof.
  unfold field_changes. rewrite fmap_nil_eq, filter_nil_iff. unfold same_at. split.
  - intros H p Hp. destruct (decide (p ∈ dict_keys (leaves was) ++ dict_keys (leaves now))) as [Hin|Hin].
    + apply not_false_iff_true. intros He. apply (H p); [by apply elem_of_sorted_set|done].
    + rewrite elem_of_app in Hin. unfold at_path.
      rewrite (proj2 (dict_get_None (leaves was) p)), (proj2 (dict_get_None (leaves now) p)) by tauto. done.
  - intros H p _ [Hp He]. rewrite (H p Hp) in He. done.
Qed.

(** Every field but the skipped one agrees. *)
Lemma agree_field doc doc' id k i i' :
  fields_ok doc → fields_ok doc' → dot_free id = true → k ≠ id →
  (∀ p, p ∉ [id] → same_at (leaves doc) (leaves doc') p) →
  dict_get k doc = Some i → dict_get k doc' = Some i' → agree k i i'.
Proof.
  intros Hd Hd' Hid Hk H Hi Hi' p Hp. specialize (H p). unfold same_at, at_path in *.
  rewrite (leaves_field doc k i p), (leaves_field doc' k i' p) in H by (done || by apply dict_get_elem).
  apply H. intros ->%list_elem_of_singleton. rewrite (root_id _ Hid) in Hp. by apply Hk.
Qed.

Lemma agree_strict k i i' :
  agree k i i' → strict i → dot_free k = true → k ∉ ["configuration"; "field_provenance"] →
  is_obj i = false ∨ k ∈ WHOLE → is_obj i' = false ∨ k ∈ WHOLE → i' = i.
Proof. intros H Hi Hd Hk Ho Ho'. apply Hi. by apply (agree_atom k). Qed.

Lemma strict_enum {E} `{StrEnum E} (o : option E) : strict (enum_json o).
Proof. destruct o; [apply strict_str|apply strict_null]. Qed.

Lemma opt_str_atom o : is_obj (of_opt_str o) = false.
Proof. by destruct o. Qed.

Lemma enum_atom {E} `{StrEnum E} (o : option E) : is_obj (enum_json o) = false.
Proof. by destruct o. Qed.

Ltac decided := apply (bool_decide_unpack _); vm_compute; exact I.

Lemma agree_refs l l' : agree "requirement_refs" (refs_dict l) (refs_dict l') → refs_dict l' = refs_dict l.
Proof. intros H. apply refs_eq, (agree_atom "requirement_refs"); [done|decided|by left|by left|exact H]. Qed.

Lemma agree_provenance p p' :
  agree "provenance" (provenance_dict p) (provenance_dict p') → provenance_dict p' = provenance_dict p.
Proof. intros H. apply provenance_eq, (agree_atom "provenance"); [done|decided|right; left|right; left|exact H]. Qed.

Lemma agree_bool k b b' :
  agree k (JBool b) (JBool b') → dot_free k = true → k ∉ ["configuration"; "field_provenance"] → b' = b.
Proof. intros H Hd Hk. symmetry. apply py_eqb_bool, (agree_atom k); auto. Qed.

Lemma agree_opt_bool k o o' :
  agree k (of_opt_bool o) (of_opt_bool o') → dot_free k = true → k ∉ ["configuration"; "field_provenance"] →
  of_opt_bool o' = of_opt_bool o.
Proof.
  intros H Hd Hk. assert (∀ o, is_obj (of_opt_bool o) = false) as Ho by by intros [].
  apply agree_atom in H; auto. destruct o as [b|]; [|by apply strict_null]. destruct o' as [b'|]; [|done]. by apply py_eqb_bool in H as ->.
Qed.

(** The dictionaries of an element are frozen and its unrecognized settings plain. *)
Record plain_annotations (c : Configuration) (specs : dict string PropertySpec)
    (metadata : dict string string) (fp : dict string Provenance) : Prop := {
  pa_configuration : plain_configuration c specs;
  pa_metadata : frozen_dict metadata;
  pa_field_provenance : frozen_dict fp;
}.

Definition plain_node (n : Node) : Prop :=
  plain_annotations (n_configuration n) NODE_PROPERTIES (n_metadata n) (n_field_provenance n).
Definition plain_connection (c : Connection) : Prop :=
  plain_annotations (c_configuration c) CONNECTION_PROPERTIES (c_metadata c) (c_field_provenance c).

Ltac fields := split; [decided|repeat constructor].

(** [H k]: what the agreement of two documents says of the field [k]. *)
Ltac field H k := pose proof (H k _ _ ltac:(discriminate) eq_refl eq_refl).

Ltac agree_atoms :=
  repeat match goal with
  | H : agree _ ?i ?i' |- _ =>
      let S := fresh in
      assert (strict i) as S by (solve [auto with strict | apply strict_enum]);
      apply (fun A => agree_strict _ _ _ A S) in H;
      [|done|decided
       |left; solve [reflexivity|apply opt_str_atom|apply enum_atom]
       |left; solve [reflexivity|apply opt_str_atom|apply enum_atom]];
      clear S
  end.

(** What agrees is equal, field by field. *)
Ltac agree_fields specs :=
  repeat match goal with
  | H : agree _ (technology_dict _) _ |- _ => apply agree_technology in H
  | H : agree _ (refs_dict _) _ |- _ => apply agree_refs in H
  | H : agree _ (provenance_dict _) _ |- _ => apply agree_provenance in H
  | H : agree _ (of_metadata _) _ |- _ => apply agree_metadata in H; [|assumption..]
  | H : agree "field_provenance" _ _ |- _ => apply agree_field_provenance in H; [|assumption..]
  | H : agree _ (configuration_dict _) _ |- _ =>
      apply (agree_configuration _ _ specs) in H; [|repeat (left || right)|assumption..]
  | H : agree _ (JBool _) _ |- _ => apply agree_bool in H; [|done|decided]
  | H : agree _ (of_opt_bool _) _ |- _ => apply agree_opt_bool in H; [|done|decided]
  end;
  agree_atoms.

Lemma node_same n n' :
  plain_node n → plain_node n' → n_id n' = n_id n →
  (∀ p, p ∉ ["id"] → same_at (leaves (members_of (node_dict n))) (leaves (members_of (node_dict n'))) p) →
  node_dict n' = node_dict n.
Proof.
  intros [Hc Hm Hf] [Hc' Hm' Hf'] Hid H.
  assert (∀ k i i', k ≠ "id" → dict_get k (members_of (node_dict n)) = Some i →
            dict_get k (members_of (node_dict n')) = Some i' → agree k i i') as Hk.
  { intros k i i' Hk. apply (agree_field _ _ "id"); [fields|fields|done|done|exact H]. }
  clear H. field Hk "kind". field Hk "name". field Hk "description". field Hk "technology". field Hk "component".
  field Hk "parent_id". field Hk "lifecycle". field Hk "configuration". field Hk "requirement_refs".
  field Hk "metadata". field Hk "provenance". field Hk "field_provenance". clear Hk.
  agree_fields NODE_PROPERTIES. unfold node_dict, annotations_dict. congruence.
Qed.

Lemma connection_same c c' :
  plain_connection c → plain_connection c' → c_id c' = c_id c →
  (∀ p, p ∉ ["id"] →
     same_at (leaves (members_of (connection_dict c))) (leaves (members_of (connection_dict c'))) p) →
  connection_dict c' = connection_dict c.
Proof.
  intros [Hc Hm Hf] [Hc' Hm' Hf'] Hid H.
  assert (∀ k i i', k ≠ "id" → dict_get k (members_of (connection_dict c)) = Some i →
            dict_get k (members_of (connection_dict c')) = Some i' → agree k i i') as Hk.
  { intros k i i' Hk. apply (agree_field _ _ "id"); [fields|fields|done|done|exact H]. }
  clear H. field Hk "source_id". field Hk "target_id". field Hk "kind". field Hk "protocol". field Hk "interaction".
  field Hk "bidirectional". field Hk "critical". field Hk "name". field Hk "description".
  field Hk "configuration". field Hk "requirement_refs". field Hk "metadata". field Hk "provenance".
  field Hk "field_provenance". clear Hk.
  agree_fields CONNECTION_PROPERTIES. unfold connection_dict, annotations_dict. congruence.
Qed.

Lemma assumption_same a a' :
  a_id a' = a_id a →
  (∀ p, p ∉ ["id"] →
     same_at (leaves (members_of (assumption_dict a))) (leaves (members_of (assumption_dict a'))) p) →
  assumption_dict a' = assumption_dict a.
Proof.
  intros Hid H.
  assert (∀ k i i', k ≠ "id" → dict_get k (members_of (assumption_dict a)) = Some i →
            dict_get k (members_of (assumption_dict a')) = Some i' → agree k i i') as Hk.
  { intros k i i' Hk. apply (agree_field _ _ "id"); [fields|fields|done|done|exact H]. }
  clear H. field Hk "statement". field Hk "provenance". field Hk "subject_ids". field Hk "requirement_refs".
  clear Hk. unfold of_ids in *. agree_fields NODE_PROPERTIES. unfold assumption_dict, of_ids. congruence.
Qed.

Lemma decision_same d d' :
  decision_id d' = decision_id d →
  (∀ p, p ∉ ["decision_id"] →
     same_at (leaves (members_of (decision_dict d))) (leaves (members_of (decision_dict d'))) p) →
  decision_dict d' = decision_dict d.
Proof.
  intros Hid H.
  assert (∀ k i i', k ≠ "decision_id" → dict_get k (members_of (decision_dict d)) = Some i →
            dict_get k (members_of (decision_dict d')) = Some i' → agree k i i') as Hk.
  { intros k i i' Hk. apply (agree_field _ _ "decision_id"); [fields|fields|done|done|exact H]. }
  clear H. field Hk "subject_ids". clear Hk. unfold of_ids in *. agree_fields NODE_PROPERTIES.
  unfold decision_dict, of_ids. congruence.
Qed.
