(* ===== verification/DiffProperties.v ===== *)
(** Properties of the diff of two architectures ([Diff]): it is empty exactly for equal architectures
    ([diff_empty]), comparing the other way round mirrors it ([diff_mirror]), and no value of a setting
    that looks like a secret is shown ([diff_secrets]). *)
From Stdlib Require Import Ascii ZArith Lia.
From S2P Require Import Prelude Data Errors Values Provenance Traceability Component Configuration.
From S2P Require Import Elements Model Versioning Serialization RoundTrip Diff Leaves.

(** * Sound values: no [NaN], each key of an object once *)
Fixpoint sound (v : json) : bool :=
  match v with
  | JDec d => is_finite d
  | JArr l => forallb sound l
  | JObj m => bool_decide (NoDup m.*1) && forallb (λ p, sound p.2) m
  | _ => true
  end.

Lemma sound_obj m : sound (JObj m) = true ↔ dict_wf m ∧ ∀ q, q ∈ m → sound q.2 = true.
Proof.
  cbn. rewrite andb_true_iff, bool_decide_eq_true, forallb_forall. unfold dict_wf, dict_keys.
  by setoid_rewrite list_elem_of_In.
Qed.

Lemma dec_eqb_refl d : is_finite d = true → dec_eqb d d = true.
Proof. destruct d; try done. intros _. unfold dec_eqb, dec_scaled. apply Z.eqb_refl. Qed.

Lemma dec_eqb_sym d d' : dec_eqb d d' = dec_eqb d' d.
Proof.
  unfold dec_eqb. destruct d as [c e|n|], d' as [c' e'|n'|]; try done.
  - unfold dec_scaled. by rewrite Z.eqb_sym, Z.min_comm.
  - by destruct n, n'.
Qed.

(** Equality of objects is equality at every key. *)
Lemma py_eqb_obj m m' :
  dict_wf m → dict_wf m' →
  py_eqb (JObj m) (JObj m') = true ↔
  length m = length m' ∧ ∀ k x, (k, x) ∈ m → ∃ y, (k, y) ∈ m' ∧ py_eqb x y = true.
Proof.
  intros Hm Hm'. cbn [py_eqb]. rewrite andb_true_iff, Nat.eqb_eq. apply and_iff_compat_l. clear Hm.
  induction m as [|[k x] m IH]; [split; [intros _ k x Hin; by apply elem_of_nil in Hin|done]|].
  rewrite andb_true_iff, IH. split.
  - intros [H0 H] k' x' [[= -> ->]|Hin]%elem_of_cons; [|by apply H].
    destruct (dict_get k m') as [y|] eqn:E; [|done]. exists y. split; [by apply dict_get_elem|done].
  - intros H. split.
    + destruct (H k x) as (y & Hy & He); [left|]. apply dict_get_wf in Hy; [|done]. by rewrite Hy.
    + intros k' x' Hin. apply H. by right.
Qed.

Lemma py_eqb_refl v : sound v = true → py_eqb v v = true.
Proof.
  induction v as [|b|z|d|s|l IH|m IH] using json_ind'; intros Hv; try done.
  - by destruct b.
  - by apply (dec_eqb_refl (dec_of_Z z)).
  - by apply dec_eqb_refl.
  - cbn. apply String.eqb_refl.
  - apply py_eqb_arr. cbn in Hv. revert Hv. induction IH as [|x l Hx _ IHl]; [constructor|]. cbn.
    intros [? ?]%andb_true_iff. constructor; auto.
  - apply sound_obj in Hv as [Hwf Hv]. apply py_eqb_obj; [done..|]. split; [done|]. intros k x Hin.
    exists x. split; [done|]. rewrite Forall_forall in IH. by apply (IH (k, x)); [|apply (Hv (k, x))].
Qed.

Lemma numeric_sym v w a b :
  as_numeric v = Some a → as_numeric w = Some b → py_eqb v w = true → py_eqb w v = true.
Proof.
  assert (∀ v w a b, as_numeric v = Some a → as_numeric w = Some b → py_eqb v w = dec_eqb a b) as He
    by by intros [] [] ? ? [= <-] [= <-].
  intros Hv Hw. rewrite (He v w a b), (He w v b a) by done. by rewrite dec_eqb_sym.
Qed.

Lemma py_eqb_sym_1 v : ∀ w, sound v = true → sound w = true → py_eqb v w = true → py_eqb w v = true.
Proof.
  induction v as [|b|z|d|s|l IH|m IH] using json_ind'; intros w Hv Hw H.
  - by apply strict_null in H as ->.
  - destruct w; try done; by eapply numeric_sym.
  - destruct w; try done; by eapply numeric_sym.
  - destruct w; try done; by eapply numeric_sym.
  - apply strict_str in H as ->. cbn. apply String.eqb_refl.
  - destruct (py_eqb_arr_inv _ _ H) as [l' ->]. apply py_eqb_arr in H. apply py_eqb_arr. cbn in Hv, Hw.
    revert IH Hv Hw. induction H as [|x y l l' Hxy _ IHl]; [constructor|]. cbn.
    intros [Hx IH]%Forall_cons [Hvx Hv]%andb_true_iff [Hwy Hw]%andb_true_iff. constructor; auto.
  - destruct w as [| | | | | |m']; try done. apply sound_obj in Hv as [Hm Hv], Hw as [Hm' Hw].
    apply py_eqb_obj in H as [Hlen H]; [|done..]. apply py_eqb_obj; [done..|]. split; [done|].
    assert (m.*1 ≡ₚ m'.*1) as Hkeys.
    { apply submseteq_length_Permutation; [|by rewrite !length_fmap, Hlen].
      apply NoDup_submseteq; [done|]. intros k ([k' x] & -> & Hx)%list_elem_of_fmap.
      destruct (H k' x Hx) as (y & Hy & _). apply list_elem_of_fmap. by exists (k', y). }
    intros k y Hy. assert (k ∈ m.*1) as Hk by (rewrite Hkeys; by apply (list_elem_of_fmap_2 fst _ _ Hy)).
    apply list_elem_of_fmap in Hk as ([k' x] & -> & Hx). cbn [fst] in *. exists x. split; [done|].
    destruct (H k' x Hx) as (y' & Hy' & He). apply dict_get_wf in Hy, Hy'; [|done..].
    rewrite Hy in Hy'. injection Hy' as <-. apply dict_get_elem in Hy. rewrite Forall_forall in IH.
    apply (IH _ Hx); [by apply (Hv _ Hx)|by apply (Hw _ Hy)|done].
Qed.

Lemma py_eqb_sym v w : sound v = true → sound w = true → py_eqb v w = py_eqb w v.
Proof.
  intros Hv Hw. destruct (py_eqb v w) eqn:E, (py_eqb w v) eqn:E'; try done.
  - apply py_eqb_sym_1 in E; [congruence|done..].
  - apply py_eqb_sym_1 in E'; [congruence|done..].
Qed.

(** ** Leaves of a sound document are sound *)
Lemma item_leaves_sound item : ∀ path key p v,
  sound item = true → (p, v) ∈ item_leaves path key item → sound v = true.
Proof.
  induction item as [| | | | |l _|m IH] using json_ind'; intros path key p v Hs; cbn [item_leaves];
    try by intros [= -> ->]%list_elem_of_singleton.
  case_decide; [by intros [= -> ->]%list_elem_of_singleton|].
  apply sound_obj in Hs as [_ Hs]. rewrite Forall_forall in IH.
  intros (q & Hin & Hq)%list_elem_of_bind. by apply (IH q Hq _ _ _ _ (Hs q Hq) Hin).
Qed.

Lemma sound_part key item : sound item = true → sound (part key item) = true.
Proof.
  destruct item as [| | | | |l|m]; try done. intros [_ Hs]%sound_obj. cbn.
  destruct (dict_get key m) as [v|] eqn:E; [|done]. apply dict_get_elem in E. by apply (Hs (key, v)).
Qed.

Lemma sound_members item q : sound item = true → q ∈ members_of item → sound q.2 = true.
Proof. destruct item; cbn [members_of]; try (intros _ H; by apply elem_of_nil in H). intros [_ Hs]%sound_obj. apply Hs. Qed.

Lemma leaves_sound doc p : (∀ q, q ∈ doc → sound q.2 = true) → sound (at_path (leaves doc) p) = true.
Proof.
  intros Hs. unfold at_path. destruct (dict_get p (leaves doc)) as [v|] eqn:E; [|done]. cbn.
  apply dict_get_elem, dict_of_sub, list_elem_of_bind in E as (q & Hv & Hq). specialize (Hs q Hq).
  assert (∀ pre item, sound item = true → (p, v) ∈ object_leaves pre (members_of item) → sound v = true) as Ho.
  { intros pre item Hi (r & Hr & Hin)%list_elem_of_bind.
    by apply (item_leaves_sound _ _ _ _ _ (sound_members _ _ Hi Hin) Hr). }
  unfold field_leaves in Hv. destruct (String.eqb q.1 "configuration").
  - rewrite !elem_of_app in Hv. destruct Hv as [Hv|[Hv|Hv]].
    + eapply Ho; [|exact Hv]. by apply sound_part.
    + destruct (truthy _); [|by apply elem_of_nil in Hv]. apply list_elem_of_singleton in Hv as [= _ ->].
      by apply sound_part.
    + eapply Ho; [|exact Hv]. by apply sound_part.
  - destruct (String.eqb q.1 "field_provenance").
    + apply list_elem_of_fmap in Hv as (r & [= -> ->] & Hr). by apply (sound_members q.2).
    + by apply item_leaves_sound in Hv.
Qed.

(** * The other way round *)
Definition mirror_field (f : FieldChange) : FieldChange := {|
  fc_field := fc_field f; fc_before := fc_after f; fc_after := fc_before f;
  fc_category := fc_category f |}.

Definition mirror_kind (k : ChangeKind) : ChangeKind :=
  match k with ADDED => REMOVED | REMOVED => ADDED | MODIFIED => MODIFIED end.

(** A modified element is labelled as it is now. *)
Record mirrored (c c' : ElementChange) : Prop := {
  mi_element : el_element c' = el_element c;
  mi_id : el_id c' = el_id c;
  mi_change : el_change c' = mirror_kind (el_change c);
  mi_fields : el_fields c' = mirror_field <$> el_fields c;
  mi_shown : el_change c ≠ MODIFIED → el_label c' = el_label c ∧ el_kind c' = el_kind c;
}.

Definition sound_document (doc : document) : Prop := ∀ q, q ∈ doc → sound q.2 = true.

Lemma field_changes_mirror was now skip :
  sound_document was → sound_document now →
  field_changes now was skip = mirror_field <$> field_changes was now skip.
Proof.
  intros Hw Hn. unfold field_changes. rewrite <- list_fmap_compose.
  rewrite (sorted_set_eq (dict_keys (leaves now) ++ dict_keys (leaves was))
             (dict_keys (leaves was) ++ dict_keys (leaves now))) by set_solver.
  apply (f_equal (fmap _)), list_filter_iff. intros p.
  by rewrite (py_eqb_sym (at_path (leaves now) p)) by (by apply leaves_sound).
Qed.

Lemma Forall2_omap_same {A B C} (R : B → C → Prop) (f : A → option B) (g : A → option C) l :
  (∀ x, option_Forall2 R (f x) (g x)) → Forall2 R (omap f l) (omap g l).
Proof.
  intros H. induction l as [|x l IH]; [constructor|]. cbn. destruct (H x); [|done]. by constructor.
Qed.

Lemma by_key_sound id_key elements id e :
  Forall sound_document elements → dict_get id (by_key id_key elements) = Some e → sound_document e.
Proof.
  intros Hs He. rewrite Forall_forall in Hs. apply dict_get_elem, dict_of_sub in He.
  apply list_elem_of_fmap in He as (e' & [= _ ->] & He). by apply Hs.
Qed.

Lemma element_changes_mirror element before after id_key label_key :
  Forall sound_document before → Forall sound_document after →
  Forall2 mirrored (element_changes element before after id_key label_key)
    (element_changes element after before id_key label_key).
Proof.
  intros Hb Ha. unfold element_changes.
  rewrite (sorted_set_eq (dict_keys (by_key id_key after) ++ dict_keys (by_key id_key before))
             (dict_keys (by_key id_key before) ++ dict_keys (by_key id_key after))) by set_solver.
  apply Forall2_omap_same. intros id. unfold element_change.
  destruct (dict_get id (by_key id_key before)) as [was|] eqn:Ew,
    (dict_get id (by_key id_key after)) as [now|] eqn:En; try by repeat constructor.
  rewrite (field_changes_mirror was now) by (by eapply by_key_sound; [|done]).
  destruct (field_changes was now [id_key]) as [|f fs]; cbn; constructor. by constructor.
Qed.

Lemma sound_collection key doc :
  sound_document (members_of doc) → Forall sound_document (collection key (members_of doc)).
Proof.
  intros Hs. unfold collection. destruct (dict_get key (members_of doc)) as [[| | | | |l|]|] eqn:E; try constructor.
  apply dict_get_elem in E. specialize (Hs _ E). cbn in Hs. apply Forall_fmap, Forall_forall. intros e He q Hq.
  rewrite forallb_forall in Hs. by apply (sound_members e); [apply Hs, list_elem_of_In|].
Qed.

(** Comparing the other way round gives the mirror image: every difference is reported in both
    directions, at the same element and field, with added and removed, before and after exchanged. *)
Theorem diff_mirror a b :
  sound (to_dict a) = true → sound (to_dict b) = true →
  df_architecture (diff b a) = mirror_field <$> df_architecture (diff a b) ∧
  Forall2 mirrored (df_nodes (diff a b)) (df_nodes (diff b a)) ∧
  Forall2 mirrored (df_connections (diff a b)) (df_connections (diff b a)) ∧
  Forall2 mirrored (df_assumptions (diff a b)) (df_assumptions (diff b a)) ∧
  Forall2 mirrored (df_decisions (diff a b)) (df_decisions (diff b a)).
Proof.
  intros Ha Hb.
  assert (∀ x, sound (to_dict x) = true → sound_document (members_of (to_dict x))) as Hs
    by (intros x Hx q; by apply sound_members).
  pose proof (Hs a Ha) as Hda. pose proof (Hs b Hb) as Hdb.
  split.
  - apply field_changes_mirror; intros q [_ Hq]%list_elem_of_filter; [by apply Hda|by apply Hdb].
  - split_and!; apply element_changes_mirror; by apply sound_collection.
Qed.

(** * Secrets *)

(** No secret-looking key of an object, at any depth, has a value but [None] or the redaction. *)
Fixpoint no_secrets (v : json) : bool :=
  match v with
  | JArr l => forallb no_secrets l
  | JObj m => forallb (λ p, negb (SECRET_FIELD p.1) || is_none p.2 ||
                            bool_decide (p.2 = JStr REDACTED)) m &&
              forallb (λ p, no_secrets p.2) m
  | _ => true
  end.

Definition hidden (v : json) : Prop := v = JNull ∨ v = JStr REDACTED.

Definition field_changes_of (d : ArchitectureDiff) : list FieldChange :=
  df_architecture d ++ (changes_of d ≫= el_fields).

Lemma scrubbed_no_secrets v : no_secrets (scrubbed v) = true.
Proof.
  induction v as [| | | | |l IH|m IH] using json_ind'; try done; cbn [scrubbed no_secrets].
  - rewrite forallb_forall. intros x Hx%list_elem_of_In.
    apply list_elem_of_fmap in Hx as (y & -> & Hy). rewrite Forall_forall in IH. by apply IH.
  - apply andb_true_iff. rewrite Forall_forall in IH. rewrite !forallb_forall. split.
    all: intros p Hp%list_elem_of_In; apply list_elem_of_fmap in Hp as ([k x] & -> & Hx); cbn [fst snd].
    + destruct (SECRET_FIELD k); [|done]. cbn. destruct x; try done; by rewrite bool_decide_true, orb_true_r.
    + destruct (SECRET_FIELD k && _); [done|]. by apply (IH (k, x)).
Qed.

Lemma redacted_no_secrets path v : setting path = true → no_secrets (redacted path v) = true.
Proof.
  intros Hp. unfold redacted. rewrite Hp. destruct (is_none v) eqn:E; cbn; [by destruct v|].
  destruct (is_secret_path path); [done|apply scrubbed_no_secrets].
Qed.

Lemma redacted_hidden path v :
  setting path = true → is_secret_path path = true → hidden (redacted path v).
Proof.
  intros Hp Hs. unfold redacted, hidden. rewrite Hp, Hs. destruct v; cbn; auto.
Qed.

Lemma prefix_app a b : String.prefix a (a +:+ b) = true.
Proof.
  induction a as [|c a IH]; [by destruct b|]. change (String c a +:+ b) with (String c (a +:+ b)). cbn.
  by destruct (ascii_dec c c).
Qed.

Lemma substring_all s : String.substring 0 (String.length s) s = s.
Proof. induction s as [|c s IH]; [done|]. cbn. by rewrite IH. Qed.

Lemma drop_text_app a b : drop_text (String.length a) (a +:+ b) = b.
Proof.
  unfold drop_text. induction a as [|c a IH].
  - cbn. rewrite Nat.sub_0_r. apply substring_all.
  - change (String c a +:+ b) with (String c (a +:+ b)). exact IH.
Qed.

Lemma key_after_app marker key : key_after (marker +:+ key) marker = Some key.
Proof. unfold key_after. by rewrite prefix_app, drop_text_app. Qed.

Lemma secret_extra key : is_secret_path ("configuration.extra." +:+ key) = SECRET_FIELD key.
Proof. unfold is_secret_path. by rewrite key_after_app. Qed.

Lemma secret_metadata key :
  String.index 0 ".configuration.extra." ("metadata." +:+ key) = None →
  is_secret_path ("metadata." +:+ key) = SECRET_FIELD key.
Proof.
  intros Hi. unfold is_secret_path.
  assert (key_after ("metadata." +:+ key) "configuration.extra." = None) as ->.
  { unfold key_after. change (String.prefix _ ("metadata." +:+ key)) with false. cbv iota.
    change ("." +:+ "configuration.extra.") with ".configuration.extra.". by rewrite Hi. }
  by rewrite key_after_app.
Qed.

Lemma setting_extra key : setting ("configuration.extra." +:+ key) = true.
Proof.
  change ("configuration.extra." +:+ key) with ("configuration." +:+ ("extra." +:+ key)).
  unfold setting. by rewrite prefix_app.
Qed.

Lemma setting_metadata key : setting ("metadata." +:+ key) = true.
Proof. unfold setting. by rewrite prefix_app, orb_true_r. Qed.

Lemma field_changes_redacted was now skip f :
  f ∈ field_changes was now skip →
  ∃ v w, fc_before f = redacted (fc_field f) v ∧ fc_after f = redacted (fc_field f) w.
Proof. intros (p & -> & _)%list_elem_of_fmap. cbn. eauto. Qed.

Lemma element_changes_redacted element before after id_key label_key c f :
  c ∈ element_changes element before after id_key label_key → f ∈ el_fields c →
  ∃ v w, fc_before f = redacted (fc_field f) v ∧ fc_after f = redacted (fc_field f) w.
Proof.
  intros (id & _ & He)%list_elem_of_omap Hf. unfold element_change in He.
  destruct (dict_get id _) as [was|], (dict_get id (by_key id_key after)) as [now|]; try done;
    try (injection He as <-; by apply elem_of_nil in Hf).
  destruct (field_changes was now [id_key]) as [|g gs] eqn:E; [done|]. injection He as <-. cbn in Hf.
  rewrite <- E in Hf. by apply field_changes_redacted in Hf.
Qed.

Lemma diff_redacted a b f :
  f ∈ field_changes_of (diff a b) →
  ∃ v w, fc_before f = redacted (fc_field f) v ∧ fc_after f = redacted (fc_field f) w.
Proof.
  unfold field_changes_of, changes_of, diff. cbn [df_architecture df_nodes df_connections df_assumptions df_decisions].
  intros [Hf|(c & Hf & Hc)%list_elem_of_bind]%elem_of_app; [by apply field_changes_redacted in Hf|].
  rewrite !elem_of_app in Hc. destruct Hc as [Hc|[Hc|[Hc|Hc]]]; by eapply element_changes_redacted.
Qed.

(** A diff never shows a secret: the values of an unrecognized setting, and of a metadata entry,
    whose key contains a secret-looking word anywhere are absent or redacted; inside the value of any
    setting or metadata entry, at any depth, the values of secret-looking keys are absent or redacted.
    (A metadata key that contains [.configuration.extra.] is judged by what follows it.) *)
Theorem diff_secrets a b f :
  f ∈ field_changes_of (diff a b) →
  (∀ key, fc_field f = "configuration.extra." +:+ key → SECRET_FIELD key = true →
     hidden (fc_before f) ∧ hidden (fc_after f)) ∧
  (∀ key, fc_field f = "metadata." +:+ key → SECRET_FIELD key = true →
     String.index 0 ".configuration.extra." (fc_field f) = None →
     hidden (fc_before f) ∧ hidden (fc_after f)) ∧
  (setting (fc_field f) = true → no_secrets (fc_before f) = true ∧ no_secrets (fc_after f) = true).
Proof.
  intros (v & w & -> & ->)%diff_redacted. split_and!.
  - intros key Hf Hs. rewrite <- (secret_extra key) in Hs. rewrite Hf.
    split; apply redacted_hidden; try done; apply setting_extra.
  - intros key Hf Hs Hi. rewrite Hf in Hi. rewrite <- (secret_metadata key) in Hs by done. rewrite Hf.
    split; apply redacted_hidden; try done; apply setting_metadata.
  - intros Hp. split; by apply redacted_no_secrets.
Qed.

(** * When nothing changed *)
Section collections.
Context {X : Type} (write : X → json) (id : X → string) (id_key : string).
Context (Hid : ∀ x, text_at id_key (members_of (write x)) = Some (id x)).

Abbreviation documents xs := (members_of <$> (write <$> xs)).

Lemma by_key_get xs i doc :
  NoDup (id <$> xs) →
  dict_get i (by_key id_key (documents xs)) = Some doc ↔ ∃ x, x ∈ xs ∧ id x = i ∧ doc = members_of (write x).
Proof using Hid.
  intros Hnd. unfold by_key. rewrite index_by_get.
  - rewrite <- list_fmap_compose, list_elem_of_fmap. split.
    + intros [(x & -> & Hx) Hi]. cbn in Hi. rewrite Hid in Hi. eauto.
    + intros (x & Hx & <- & ->). cbn. rewrite Hid. split; [|done]. by exists x.
  - rewrite <- !list_fmap_compose. erewrite list_fmap_ext; [exact Hnd|]. intros j x _. cbn. by rewrite Hid.
Qed.

Lemma by_key_none xs i : NoDup (id <$> xs) → dict_get i (by_key id_key (documents xs)) = None ↔ i ∉ id <$> xs.
Proof using Hid.
  intros Hnd. rewrite eq_None_not_Some. apply not_iff_compat. split.
  - intros [doc (x & Hx & <- & _)%by_key_get]; [|done]. by apply list_elem_of_fmap_2.
  - intros (x & -> & Hx)%list_elem_of_fmap. eexists. apply by_key_get; [done|]. eauto.
Qed.

Lemma element_changes_nil element label_key xs ys :
  NoDup (id <$> xs) → NoDup (id <$> ys) →
  element_changes element (documents xs) (documents ys) id_key label_key = [] →
  (∀ i, i ∈ id <$> xs ↔ i ∈ id <$> ys) ∧
  (∀ x y, x ∈ xs → y ∈ ys → id y = id x → ∀ p, p ∉ [id_key] →
     same_at (leaves (members_of (write x))) (leaves (members_of (write y))) p).
Proof using Hid.
  intros Hx Hy H.
  assert (∀ i, element_change element (by_key id_key (documents xs)) (by_key id_key (documents ys))
                 id_key label_key i = None) as Hn.
  { intros i. destruct (element_change _ _ _ _ _ i) as [c|] eqn:E; [|done]. exfalso.
    apply (elem_of_nil c). rewrite <- H. apply list_elem_of_omap. exists i. split; [|done].
    apply elem_of_sorted_set, elem_of_app. rewrite <- !dict_get_is_Some. unfold element_change in E.
    destruct (dict_get i (by_key id_key (documents xs))); [left; eauto|].
    destruct (dict_get i (by_key id_key (documents ys))); [right; eauto|done]. }
  clear H. split.
  - intros i. specialize (Hn i). unfold element_change in Hn.
    destruct (dict_get i (by_key id_key (documents xs))) as [was|] eqn:Ew,
      (dict_get i (by_key id_key (documents ys))) as [now|] eqn:En; try done.
    + apply by_key_get in Ew as (x & Hix & <- & _), En as (y & Hiy & Hxy & _); [|done..].
      split; intros _; [rewrite <- Hxy|]; by apply list_elem_of_fmap_2.
    + apply by_key_none in Ew, En; [|done..]. tauto.
  - intros x y Hix Hiy Hxy. specialize (Hn (id x)). unfold element_change in Hn.
    rewrite (proj2 (by_key_get xs (id x) _ Hx)) in Hn by eauto.
    rewrite (proj2 (by_key_get ys (id x) _ Hy)) in Hn by eauto.
    apply field_changes_nil. by destruct (field_changes _ _ _).
Qed.

(** The same elements, in the same order. *)
Lemma collection_same element label_key xs ys :
  xs = by_id id xs → ys = by_id id ys → NoDup (id <$> xs) → NoDup (id <$> ys) →
  (∀ x y, x ∈ xs → y ∈ ys → id y = id x →
     (∀ p, p ∉ [id_key] → same_at (leaves (members_of (write x))) (leaves (members_of (write y))) p) →
     write y = write x) →
  element_changes element (documents xs) (documents ys) id_key label_key = [] →
  write <$> ys = write <$> xs.
Proof using Hid.
  intros Hsx Hsy Hx Hy Hw [Hids Hsame]%element_changes_nil; [|done..].
  assert (id <$> ys = id <$> xs) as Heq.
  { rewrite Hsx, Hsy. unfold by_id. rewrite <- !(sort_by_fmap _ _ id) by done.
    apply sort_by_unique_order; [apply _|]. apply NoDup_Permutation; [done..|]. intros i. by rewrite Hids. }
  apply list_eq_Forall2, Forall2_fmap, Forall2_same_length_lookup. split.
  { by rewrite <- (length_fmap id ys), Heq, length_fmap. }
  intros i y x Hiy Hix. apply list_elem_of_lookup_2 in Hiy as Hiny. apply list_elem_of_lookup_2 in Hix as Hinx.
  assert (id y = id x) as Hxy.
  { apply (f_equal (λ l, l !! i)) in Heq. rewrite !list_lookup_fmap, Hiy, Hix in Heq. by injection Heq. }
  apply Hw; [done..|]. by apply Hsame.
Qed.
End collections.

(** An architecture that can be written and read back, whose dictionaries are frozen and whose
    unrecognized settings are texts, whole numbers and lists of them. *)
Record comparable (ir : ArchitectureIR) : Prop := {
  cp_writable : writable ir;
  cp_sound : sound (to_dict ir) = true;
  cp_metadata : frozen_dict (ir_metadata ir);
  cp_nodes : Forall plain_node (ir_nodes ir);
  cp_connections : Forall plain_connection (ir_connections ir);
}.

Lemma own_same a b :
  frozen_dict (ir_metadata a) → frozen_dict (ir_metadata b) →
  field_changes (own_fields (members_of (to_dict a))) (own_fields (members_of (to_dict b))) [] = [] →
  JStr (ir_name b) = JStr (ir_name a) ∧ of_opt_str (ir_description b) = of_opt_str (ir_description a) ∧
  of_metadata (ir_metadata b) = of_metadata (ir_metadata a) ∧
  provenance_dict (ir_provenance b) = provenance_dict (ir_provenance a) ∧
  refs_dict (ir_requirement_refs b) = refs_dict (ir_requirement_refs a).
Proof.
  intros Hma Hmb H.
  assert (∀ k i i', k ≠ "" → dict_get k (own_fields (members_of (to_dict a))) = Some i →
            dict_get k (own_fields (members_of (to_dict b))) = Some i' → agree k i i') as Hk.
  { intros k i i' Hk. apply (agree_field _ _ ""); [fields|fields|done|done|].
    intros p _. by apply (proj1 (field_changes_nil _ _ _) H p), not_elem_of_nil. }
  clear H. field Hk "name". field Hk "description". field Hk "metadata". field Hk "provenance".
  field Hk "requirement_refs". clear Hk. agree_fields NODE_PROPERTIES. done.
Qed.

Lemma is_empty_nil d :
  is_empty d = true ↔
  df_architecture d = [] ∧ df_nodes d = [] ∧ df_connections d = [] ∧ df_assumptions d = [] ∧ df_decisions d = [].
Proof.
  rewrite <- !app_nil. unfold is_empty, changes_of. destruct (df_architecture d); [|split; [done|by intros []]].
  destruct (_ ++ _); naive_solver.
Qed.

Lemma field_changes_self doc skip : sound_document doc → field_changes doc doc skip = [].
Proof. intros Hs. apply field_changes_nil. intros p _. by apply py_eqb_refl, leaves_sound. Qed.

Lemma element_changes_self element docs id_key label_key :
  Forall sound_document docs → element_changes element docs docs id_key label_key = [].
Proof.
  intros Hs. unfold element_changes. induction (sorted_set _) as [|i l IH]; [done|]. cbn. unfold element_change at 1.
  destruct (dict_get i (by_key id_key docs)) as [e|] eqn:E; [|done].
  by rewrite field_changes_self by (by eapply by_key_sound).
Qed.

Lemma comparable_graph ir :
  writable ir → valid_graph (ir_nodes ir) (ir_connections ir) (ir_assumptions ir) (ir_decisions ir).
Proof.
  intros Hw. apply built_architecture_graph; [apply (w_built _ Hw)|].
  apply Forall_forall. intros n Hn. apply (no_built _ (w_nodes _ Hw n Hn)).
Qed.

Lemma empty_same a b :
  comparable a → comparable b → is_empty (diff a b) = true → to_dict b = to_dict a.
Proof.
  intros [Wa _ Ma Na Ca] [Wb _ Mb Nb Cb] (Ho & Hn & Hc & Hs & Hd)%is_empty_nil.
  cbn [diff df_architecture df_nodes df_connections df_assumptions df_decisions] in *.
  apply own_same in Ho as (H1 & H2 & H3 & H4 & H5); [|done..]. rewrite Forall_forall in Na, Nb.
  rewrite Forall_forall in Ca, Cb.
  destruct (valid_graph_ids _ _ _ _ (comparable_graph _ Wa)) as (A1 & A2 & A3 & A4).
  destruct (valid_graph_ids _ _ _ _ (comparable_graph _ Wb)) as (B1 & B2 & B3 & B4).
  destruct (built_architecture_ordered _ (w_built _ Wa)) as (O1 & O2 & O3 & O4).
  destruct (built_architecture_ordered _ (w_built _ Wb)) as (P1 & P2 & P3 & P4).
  apply (collection_same node_dict n_id "id" (λ _, eq_refl) _ _ _ _ O1 P1 A1 B1) in Hn;
    [|intros x y Hx Hy; apply node_same; auto].
  apply (collection_same connection_dict c_id "id" (λ _, eq_refl) _ _ _ _ O2 P2 A2 B2) in Hc;
    [|intros x y Hx Hy; apply connection_same; auto].
  apply (collection_same assumption_dict a_id "id" (λ _, eq_refl) _ _ _ _ O3 P3 A3 B3) in Hs;
    [|intros x y _ _; apply assumption_same].
  apply (collection_same decision_dict decision_id "decision_id" (λ _, eq_refl) _ _ _ _ O4 P4 A4 B4) in Hd;
    [|intros x y _ _; apply decision_same].
  unfold to_dict. rewrite (built_schema_version _ (w_built _ Wa)), (built_schema_version _ (w_built _ Wb)). congruence.
Qed.

Lemma diff_is_empty a b : comparable a → comparable b → is_empty (diff a b) = true ↔ a = b.
Proof.
  intros Ha Hb. split.
  - intros H%empty_same; [|done..]. pose proof (written_read a (cp_writable _ Ha)) as Hra.
    pose proof (written_read b (cp_writable _ Hb)) as Hrb. congruence.
  - intros <-. apply is_empty_nil. assert (sound_document (members_of (to_dict a))) as Hs.
    { intros q. apply sound_members, (cp_sound _ Ha). }
    split_and!; try by apply element_changes_self, (sound_collection _ (to_dict a)).
    apply field_changes_self. intros q [_ Hq]%list_elem_of_filter. by apply Hs.
Qed.

(** C22: The diff of two architectures is empty exactly when they are equal: an edit that changes
    anything is never taken for an edit that changes nothing.  (Unrecognized settings are texts, whole
    numbers or lists of them here; [settings_confused] shows what happens to others.) *)
Theorem diff_empty a b : comparable a → comparable b → is_empty (diff a b) = true ↔ a = b.
Proof. apply diff_is_empty. Qed.

(** * Examples *)
Definition shop_with (name : string) (metadata : dict string string) (extra : dict string json) :
    ArchitectureIR := {|
  ir_name := name; ir_description := None;
  ir_nodes := [{|
    n_id := "db"; n_kind := DATABASE; n_name := "Orders"; n_description := None; n_technology := None;
    n_component := None; n_parent_id := None;
    n_configuration := {| values := [("replicas", JInt 2)]; unknown := []; extra := extra |};
    n_requirement_refs := []; n_lifecycle := None; n_metadata := metadata; n_provenance := None;
    n_field_provenance := [] |}];
  ir_connections := []; ir_assumptions := []; ir_decisions := []; ir_requirement_refs := [];
  ir_metadata := []; ir_provenance := None; ir_schema_version := 1 |}.

Definition small_shop : ArchitectureIR := shop_with "shop" [] [("tier", JStr "gold")].
Definition renamed_shop : ArchitectureIR := shop_with "store" [] [("tier", JStr "gold")].

Lemma shop_writable name :
  built ArchitectureIR_new ArchitectureIR_args (shop_with name [] [("tier", JStr "gold")]) →
  writable (shop_with name [] [("tier", JStr "gold")]).
Proof.
  intros Hb. constructor; [exact Hb| | | | |constructor|done].
  - intros n ->%list_elem_of_singleton. constructor; [vm_compute; reflexivity|done|].
    constructor; [|constructor|done|by intros q Hq%elem_of_nil].
    constructor; [vm_compute; reflexivity|decided|repeat constructor; vm_compute; discriminate|vm_compute; reflexivity].
  - by intros x Hx%elem_of_nil.
  - by intros x Hx%elem_of_nil.
  - by intros x Hx%elem_of_nil.
Qed.

Lemma shop_comparable name :
  built ArchitectureIR_new ArchitectureIR_args (shop_with name [] [("tier", JStr "gold")]) →
  comparable (shop_with name [] [("tier", JStr "gold")]).
Proof.
  intros Hb%shop_writable. constructor; [exact Hb|vm_compute; reflexivity|by repeat constructor| |constructor].
  constructor; [|constructor]. constructor; [|by repeat constructor..].
  constructor; [|split; [decided|repeat constructor]..|repeat constructor].
  eexists. apply (no_annotations _ (w_nodes _ Hb _ (list_elem_of_here _ _))).
Qed.

Lemma diff_empty_witness :
  (is_empty (diff small_shop renamed_shop) = true ↔ small_shop = renamed_shop) ∧
  is_empty (diff small_shop small_shop) = true.
Proof.
  split.
  - apply diff_empty; apply shop_comparable; vm_compute; reflexivity.
  - vm_compute. reflexivity.
Defined.

Lemma diff_mirror_witness :
  df_architecture (diff renamed_shop small_shop) = mirror_field <$> df_architecture (diff small_shop renamed_shop) ∧
  length (df_architecture (diff small_shop renamed_shop)) = 1.
Proof.
  split.
  - apply (diff_mirror small_shop renamed_shop); vm_compute; reflexivity.
  - vm_compute. reflexivity.
Defined.

(** A database password among the settings that were not recognized. *)
Definition leaky_shop : ArchitectureIR :=
  shop_with "shop" [] [("dsn", JObj [("password", JStr "hunter2"); ("user", JStr "app")])].

Lemma diff_secrets_witness :
  ∃ f, fc_field f = "configuration.extra.dsn.password" ∧ f ∈ field_changes_of (diff small_shop leaky_shop) ∧
       hidden (fc_before f) ∧ hidden (fc_after f).
Proof.
  exists {| fc_field := "configuration.extra.dsn.password"; fc_before := JNull; fc_after := JStr REDACTED;
            fc_category := "configuration" |}.
  assert ({| fc_field := "configuration.extra.dsn.password"; fc_before := JNull; fc_after := JStr REDACTED;
             fc_category := "configuration" |} ∈ field_changes_of (diff small_shop leaky_shop)) as Hf.
  { vm_compute. left. }
  split; [reflexivity|]. split; [exact Hf|].
  apply (proj1 (diff_secrets small_shop leaky_shop _ Hf) "dsn.password"); vm_compute; reflexivity.
Defined.

(** Settings the diff does not tell apart: an object and a key with a dot, [1] and [true], an absent
    setting and a null one or an empty object.  Both are architectures, read back as they were
    written. *)
Definition nested_setting : ArchitectureIR :=
  shop_with "shop" [] [("pool", JObj [("size", JInt 1)])].
Definition dotted_setting : ArchitectureIR :=
  shop_with "shop" [] [("cache", JObj []); ("mode", JNull); ("pool.size", JBool true)].

Lemma settings_confused :
  from_dict (to_dict nested_setting) = Ok nested_setting ∧
  from_dict (to_dict dotted_setting) = Ok dotted_setting ∧
  nested_setting ≠ dotted_setting ∧ is_empty (diff nested_setting dotted_setting) = true.
Proof. split_and!; [vm_compute; reflexivity|vm_compute; reflexivity|discriminate|vm_compute; reflexivity]. Qed.

(** A metadata key with a secret-looking word before [.configuration.extra.]: its value is shown. *)
Definition shown_secret : ArchitectureIR :=
  shop_with "shop" [("password.configuration.extra.x", "hunter2")] [("tier", JStr "gold")].

Lemma metadata_secret_shown :
  from_dict (to_dict shown_secret) = Ok shown_secret ∧
  SECRET_FIELD "password.configuration.extra.x" = true ∧
  fc_after <$> field_changes_of (diff small_shop shown_secret) = [JStr "hunter2"].
Proof. split_and!; vm_compute; reflexivity. Qed.
