(* ===== verification/Sha256.v ===== *)
(** SHA-256 (FIPS 180-4), as [hashlib.sha256(text.encode()).hexdigest()] computes it: the ids of the
    parts of a migration plan are the first digits of one.

    Words are 32-bit numbers, kept below [2 ^ 32] by [word].  A text is ASCII (it is what
    [json.dumps] writes), so its encoding is its characters. *)
From S2P Require Import Prelude.
From Stdlib Require Import ZArith Ascii.
Local Open Scope Z_scope.

Definition word (x : Z) : Z := Z.land x 0xffffffff.
Definition rotr (n x : Z) : Z := word (Z.lor (Z.shiftr x n) (Z.shiftl x (32 - n))).

(** The constants are the first 32 bits of the fractional parts of the cube roots of the first 64
    primes, and of the square roots of the first 8. *)
Definition prime (n : nat) : bool := forallb (λ d, negb (n mod d =? 0)%nat) (seq 2 (n - 2)).
Definition primes : list Z := Z.of_nat <$> filter (λ n, prime n = true) (seq 2 310).

Fixpoint cube_root (bits : nat) (n root : Z) : Z :=
  match bits with
  | O => root
  | S bits =>
      let next := Z.lor root (Z.shiftl 1 (Z.of_nat bits)) in
      cube_root bits n (if next * next * next <=? n then next else root)
  end.

Definition round_constants : list Z :=
  Eval vm_compute in (λ p, word (cube_root 36 (Z.shiftl p 96) 0)) <$> take 64 primes.

Definition initial_hash : list Z :=
  Eval vm_compute in (λ p, word (Z.sqrt (Z.shiftl p 64))) <$> take 8 primes.

Definition big_sigma0 (x : Z) : Z := Z.lxor (rotr 2 x) (Z.lxor (rotr 13 x) (rotr 22 x)).
Definition big_sigma1 (x : Z) : Z := Z.lxor (rotr 6 x) (Z.lxor (rotr 11 x) (rotr 25 x)).
Definition small_sigma0 (x : Z) : Z := Z.lxor (rotr 7 x) (Z.lxor (rotr 18 x) (Z.shiftr x 3)).
Definition small_sigma1 (x : Z) : Z := Z.lxor (rotr 17 x) (Z.lxor (rotr 19 x) (Z.shiftr x 10)).
Definition choose (x y z : Z) : Z := Z.lxor (Z.land x y) (Z.land (Z.lxor x 0xffffffff) z).
Definition majority (x y z : Z) : Z := Z.lxor (Z.land x y) (Z.lxor (Z.land x z) (Z.land y z)).

(** The message schedule, latest word first. *)
Definition extend (w : list Z) : list Z :=
  word (small_sigma1 (nth 1 w 0) + nth 6 w 0 + small_sigma0 (nth 14 w 0) + nth 15 w 0) :: w.

Definition schedule (block : list Z) : list Z := reverse (Nat.iter 48 extend (reverse block)).

Definition round (h : list Z) (kw : Z * Z) : list Z :=
  match h with
  | [a; b; c; d; e; f; g; i] =>
      let t1 := word (i + big_sigma1 e + choose e f g + kw.1 + kw.2) in
      let t2 := word (big_sigma0 a + majority a b c) in
      [word (t1 + t2); a; b; c; word (d + t1); e; f; g]
  | _ => h
  end.

Definition compress (h block : list Z) : list Z :=
  zip_with (λ x y, word (x + y)) h (foldl round h (zip round_constants (schedule block))).

(** Big-endian words, and the bytes of a number. *)
Fixpoint words (l : list Z) : list Z :=
  match l with
  | a :: b :: c :: d :: r => (a * 0x1000000 + b * 0x10000 + c * 0x100 + d) :: words r
  | _ => []
  end.

Fixpoint be_bytes (n : nat) (x : Z) : list Z :=
  match n with O => [] | S n => be_bytes n (x / 256) ++ [x mod 256] end.

Definition pad (bytes : list Z) : list Z :=
  let n := Z.of_nat (length bytes) in
  bytes ++ 0x80 :: replicate (Z.to_nat ((55 - n) mod 64)) 0 ++ be_bytes 8 (8 * n).

Fixpoint blocks (fuel : nat) (w : list Z) : list (list Z) :=
  match fuel, w with
  | S fuel, _ :: _ => take 16 w :: blocks fuel (drop 16 w)
  | _, _ => []
  end.

Definition sha256 (bytes : list Z) : list Z :=
  let w := words (pad bytes) in foldl compress initial_hash (blocks (length w) w).

Definition hex_char (n : Z) : ascii := hex_digit (Z.to_nat n).

Definition hexdigest (s : string) : string :=
  String.string_of_list_ascii
    (b ← sha256 ((λ c, Z.of_nat (code c)) <$> String.list_ascii_of_string s) ≫= be_bytes 4;
     [hex_char (b / 16); hex_char (b mod 16)]).

(** The test vectors of FIPS 180-4. *)
Example sha256_abc :
  hexdigest "abc" = "ba7816bf8f01cfea414140de5dae2223b00361a396177a9cb410ff61f20015ad".
Proof. by vm_compute. Qed.

Example sha256_empty :
  hexdigest "" = "e3b0c44298fc1c149afbf4c8996fb92427ae41e4649b934ca495991b7852b855".
Proof. by vm_compute. Qed.

Example sha256_two_blocks :
  hexdigest "abcdbcdecdefdefgefghfghighijhijkijkljklmklmnlmnomnopnopq" =
  "248d6a61d20638b8e5c026930c3e6039a33ce45964ff2167f6ecedd419db06c1".
Proof. by vm_compute. Qed.
