(* ===== verification/Tokens.v ===== *)
(** Opaque secrets: emailed tokens and refresh tokens (src/core/domain/identity/tokens.py).

    A refresh token is "<session id>.<secret>"; of a secret only its SHA-256 digest is stored.  Ids are
    UUIDs in canonical text; the random secret of [generate_token] is an input of the operations that
    draw one.  The lemmas give the round trip of [uuid.UUID] on its own text, of [parse_refresh_token]
    on [format_refresh_token], and the length of a digest. *)
From Stdlib Require Import Ascii ZArith Lia.
From S2P Require Import Prelude Data Codecs Sha256.

Definition MAX_TOKEN_LENGTH : nat := 128.

(** [text.encode("utf-8")], for the code points below 256. *)
Definition utf8 (s : string) : list Z :=
  chars_of s ≫= λ c, let n := Z.of_nat (code c) in
    if (n <? 128)%Z then [n] else [(192 + n / 64)%Z; (128 + n mod 64)%Z].

(** [hashlib.sha256(token.encode("utf-8")).digest()]: its 32 bytes. *)
Definition hash_token (token : string) : list Z := sha256 (utf8 token) ≫= be_bytes 4.

Definition DOT : nat := 46.

Definition format_refresh_token (session_id secret : string) : string :=
  session_id +:+ "." +:+ secret.

(** [raw.partition(".")], [None] without a dot. *)
Fixpoint partition (sep : nat) (l : chars) : option (chars * chars) :=
  match l with
  | [] => None
  | c :: r =>
      if char_eqb c sep then Some ([], r)
      else '(before, after) ← partition sep r; Some (c :: before, after)
  end.

Definition parse_refresh_token (raw : string) : option (string * string) :=
  if MAX_TOKEN_LENGTH <? String.length raw then None
  else
    '(session_part, secret) ← partition DOT (chars_of raw);
    if secret is [] then None
    else id ← uuid_of (text_of session_part); Some (id, text_of secret).

(** * Facts *)
#[export] Instance chars_of_inj : Inj (=) (=) chars_of.
Proof. intros s t H. apply (f_equal text_of) in H. unfold text_of, chars_of in H. by rewrite !sla_las in H. Qed.

Lemma length_chars_of s : length (chars_of s) = String.length s.
Proof. unfold chars_of. induction s as [|c s IH]; simpl; [done|]. by rewrite IH. Qed.

Lemma chars_of_text l : chars_of (text_of l) = l.
Proof. apply las_sla. Qed.

(** ** UUIDs read their own text back *)
Definition is_hex (c : ascii) : bool := is_digit c || between 97 102 c.

Lemma hex_digit_hex n : (n < 16)%nat → is_hex (hex_digit n) = true.
Proof. intros Hn. do 16 (destruct n as [|n]; [done|]). lia. Qed.

Lemma hex_digit_value z : (0 <= z < 16)%Z → digit_value (hex_digit (Z.to_nat z)) = Some z.
Proof.
  intros Hz. rewrite <- (Z2Nat.id z) at 2 by lia. assert (Z.to_nat z < 16)%nat as Hn by lia.
  clear Hz. generalize dependent (Z.to_nat z). intros n Hn. do 16 (destruct n as [|n]; [done|]). lia.
Qed.

Lemma length_hex_text w z : length (hex_text w z) = w.
Proof. revert z. induction w as [|w IH]; intros z; simpl; [done|]. rewrite length_app, IH. simpl. lia. Qed.

Lemma hex_text_hex w z : Forall (λ c, is_hex c = true) (hex_text w z).
Proof.
  revert z. induction w as [|w IH]; intros z; cbn [hex_text]; [constructor|]. apply Forall_app. split.
  - apply IH.
  - constructor; [|constructor]. apply hex_digit_hex. pose proof (Z.mod_pos_bound z 16). lia.
Qed.

Lemma hex_value_app b acc l r :
  digits_value b acc (l ++ r) = (v ← digits_value b acc l; digits_value b v r).
Proof.
  revert acc. induction l as [|c l IH]; intros acc; simpl; [done|].
  destruct (digit_value c) as [v|]; simpl; [|done]. destruct (v <? b)%Z; [apply IH|done].
Qed.

Lemma digits_value_hex_text w z :
  (0 <= z < 16 ^ Z.of_nat w)%Z → digits_value 16 0 (hex_text w z) = Some z.
Proof.
  revert z. induction w as [|w IH]; intros z Hz.
  - simpl in *. f_equal. lia.
  - cbn [hex_text]. rewrite Nat2Z.inj_succ, Z.pow_succ_r in Hz by lia.
    rewrite hex_value_app, IH.
    + cbn [mbind option_bind digits_value].
      rewrite hex_digit_value by (apply Z.mod_pos_bound; lia). cbn [mbind option_bind].
      replace (z mod 16 <? 16)%Z with true; [f_equal; pose proof (Z.div_mod z 16); lia|].
      symmetry. apply Z.ltb_lt. apply Z.mod_pos_bound. lia.
    + split; [apply Z.div_pos; lia|apply Z.div_lt_upper_bound; lia].
Qed.

(** Every character of a UUID's text is a hexadecimal digit or a dash. *)
Definition uuid_char (c : ascii) : bool := is_hex c || char_eqb c 45.

Lemma uuid_char_safe :
  ∀ c, uuid_char c = true → is_space c = false ∧ char_eqb c DOT = false ∧ is_brace c = false ∧
       char_eqb c 117 = false.
Proof.
  intros c. assert (∀ c, implb (uuid_char c)
    (negb (is_space c) && negb (char_eqb c DOT) && negb (is_brace c) && negb (char_eqb c 117)) = true) as H
    by (apply ascii_all; vm_compute; reflexivity).
  specialize (H c). intros Hc. rewrite Hc in H. simpl in H.
  destruct (is_space c), (char_eqb c DOT), (is_brace c), (char_eqb c 117); done.
Qed.

Lemma remove_all_absent fuel p ps l : Forall (λ c, c ≠ p) l → remove_all fuel (p :: ps) l = l.
Proof.
  revert l. induction fuel as [|fuel IH]; intros l Hl; [done|]. destruct l as [|c l]; [done|].
  apply Forall_cons in Hl as [Hc Hl]. cbn [remove_all]. rewrite decide_False by (simpl; congruence).
  by rewrite IH.
Qed.

Lemma drop_while_none p l : Forall (λ c, p c = false) l → drop_while p l = l.
Proof. destruct 1 as [|c l Hc]; simpl; [done|]. by rewrite Hc. Qed.

Lemma lstrip_none l : Forall (λ c, is_space c = false) l → lstrip_chars l = l.
Proof. by destruct 1 as [|c l Hc]; unfold lstrip_chars; [|rewrite Hc]. Qed.

Lemma strip_none l : Forall (λ c, is_space c = false) l → strip (text_of l) = text_of l.
Proof.
  intros Hl. unfold strip, text_of. rewrite las_sla.
  by rewrite (lstrip_none l), lstrip_none, reverse_involutive by (done || by apply Forall_reverse).
Qed.

Lemma drop_underscores_none b l :
  Forall (λ c, is_hex c = true) l → l ≠ [] ∨ b = true → drop_underscores b l = Some l.
Proof.
  intros Hl. revert b. induction Hl as [|c l Hc Hl IH]; intros b Hb; simpl.
  - by destruct Hb as [Hb | ->].
  - replace (char_eqb c 95) with false.
    + rewrite IH by (by right). done.
    + revert Hc. assert (∀ c, implb (is_hex c) (negb (char_eqb c 95)) = true) as H
        by (apply ascii_all; vm_compute; reflexivity).
      specialize (H c). destruct (is_hex c), (char_eqb c 95); done.
Qed.

(** A hexadecimal digit is neither a sign nor the [x] of a prefix. *)
Lemma hex_plain :
  ∀ c, is_hex c = true → char_eqb c 45 = false ∧ char_eqb c 43 = false ∧ char_eqb c 120 = false ∧
       char_eqb c 88 = false.
Proof.
  intros c. assert (∀ c, implb (is_hex c)
    (negb (char_eqb c 45) && negb (char_eqb c 43) && negb (char_eqb c 120) && negb (char_eqb c 88)) = true)
    as H by (apply ascii_all; vm_compute; reflexivity).
  specialize (H c). intros Hc. rewrite Hc in H. simpl in H.
  destruct (char_eqb c 45), (char_eqb c 43), (char_eqb c 120), (char_eqb c 88); done.
Qed.

Lemma hex_not_space c : is_hex c = true → is_space c = false.
Proof. intros Hc. apply uuid_char_safe. unfold uuid_char. by rewrite Hc. Qed.

Lemma int16_hex l : Forall (λ c, is_hex c = true) l → l ≠ [] → int16 (text_of l) = digits_value 16 0 l.
Proof.
  intros Hl Hne. unfold int16. rewrite strip_none by
    (eapply Forall_impl; [exact Hl|]; intros c; apply hex_not_space).
  unfold chars_of, text_of. rewrite las_sla. destruct l as [|a l]; [done|].
  pose proof (hex_plain a) as Ha. apply Forall_cons in Hl as [Hx Hl].
  destruct (Ha Hx) as (-> & -> & _). replace (drop_prefix_0x (a :: l)) with (a :: l).
  - rewrite drop_underscores_none by (by constructor || by left). cbn [mbind option_bind].
    by destruct (digits_value 16 0 (a :: l)).
  - destruct l as [|b l]; [done|]. apply Forall_cons in Hl as [Hb _].
    destruct (hex_plain b Hb) as (_ & _ & Hb1 & Hb2). simpl. by rewrite Hb1, Hb2, andb_false_r.
Qed.

(** The text of a UUID from its 32 digits. *)
Definition dashed (h : chars) : chars :=
  slice h 0 8 ++ [ascii_of_nat 45] ++ slice h 8 4 ++ [ascii_of_nat 45] ++ slice h 12 4 ++
  [ascii_of_nat 45] ++ slice h 16 4 ++ [ascii_of_nat 45] ++ slice h 20 12.

Lemma uuid_of_dashed s t :
  uuid_of s = Some t → ∃ z, (0 <= z < 2 ^ 128)%Z ∧ t = text_of (dashed (hex_text 32 z)).
Proof.
  unfold uuid_of. cbv zeta. destruct (_ =? 32); [|done]. intros (z & _ & Hz)%bind_Some.
  destruct (0 <=? z)%Z eqn:H0; [|done]. destruct (z <? 2 ^ 128)%Z eqn:H1; [|done].
  apply Z.leb_le in H0. apply Z.ltb_lt in H1. injection Hz as <-. exists z. split; [done|].
  apply (inj chars_of). unfold dashed, text_of, chars_of.
  by rewrite ?las_app, ?las_sla.
Qed.

Lemma filter_Forall {A} (P : A → Prop) `{!∀ x, Decision (P x)} l : Forall P l → filter P l = l.
Proof. induction 1 as [|x l Hx Hl IH]; [done|]. by rewrite filter_cons_True, IH by done. Qed.

Lemma slice_Forall P h i n : Forall P h → Forall P (slice h i n).
Proof. intros Hh. by apply Forall_take, Forall_drop. Qed.

Lemma dashed_chars h : Forall (λ c, is_hex c = true) h → Forall (λ c, uuid_char c = true) (dashed h).
Proof.
  intros Hh. assert (Forall (λ c, uuid_char c = true) h) as Hu.
  { eapply Forall_impl; [exact Hh|]. intros c Hc. unfold uuid_char. by rewrite Hc. }
  unfold dashed. by repeat apply Forall_app_2; try apply slice_Forall; repeat constructor.
Qed.

Lemma filter_dashes h :
  length h = 32 → Forall (λ c, is_hex c = true) h → filter (λ c, code c ≠ 45) (dashed h) = h.
Proof.
  intros Hl Hh. assert (Forall (λ c, code c ≠ 45) h) as Hd.
  { eapply Forall_impl; [exact Hh|]. intros c Hc. by apply Nat.eqb_neq, hex_plain. }
  assert (∀ i n, filter (λ c, code c ≠ 45) (slice h i n) = slice h i n) as Hs.
  { intros i n. by apply filter_Forall, slice_Forall. }
  unfold dashed. rewrite !filter_app, !Hs.
  do 32 (destruct h as [|? h]; [done|]). by destruct h.
Qed.

Lemma uuid_of_dashed_hex z :
  (0 <= z < 2 ^ 128)%Z → uuid_of (text_of (dashed (hex_text 32 z))) = Some (text_of (dashed (hex_text 32 z))).
Proof.
  intros Hz. pose proof (hex_text_hex 32 z) as Hh. pose proof (length_hex_text 32 z) as Hl.
  pose proof (dashed_chars _ Hh) as Hu. set (l := dashed (hex_text 32 z)) in *.
  assert (∀ f p, remove_all f (ascii_of_nat 117 :: p) l = l) as Hr.
  { intros f p. apply remove_all_absent. eapply Forall_impl; [exact Hu|]. intros c Hc ->.
    by apply uuid_char_safe in Hc as (_ & _ & _ & ?). }
  assert (Forall (λ c, is_brace c = false) l) as Hb.
  { eapply Forall_impl; [exact Hu|]. intros c Hc. by apply uuid_char_safe in Hc as (_ & _ & ? & _). }
  unfold uuid_of. cbv zeta.
  change (chars_of "urn:") with (ascii_of_nat 117 :: chars_of "rn:").
  change (chars_of "uuid:") with (ascii_of_nat 117 :: chars_of "uid:").
  replace (chars_of (text_of l)) with l by (symmetry; apply las_sla). rewrite !Hr.
  rewrite (drop_while_none _ l), drop_while_none, reverse_involutive by (done || by apply Forall_reverse).
  subst l. rewrite filter_dashes, Hl by done. cbn [Nat.eqb].
  rewrite int16_hex; [|done|by intros E; rewrite E in Hl].
  rewrite digits_value_hex_text by (change (16 ^ Z.of_nat 32)%Z with (2 ^ 128)%Z; lia).
  cbn [mbind option_bind].
  replace (0 <=? z)%Z with true by (symmetry; apply Z.leb_le; lia).
  replace (z <? 2 ^ 128)%Z with true by (symmetry; apply Z.ltb_lt; lia).
  reflexivity.
Qed.

Lemma uuid_of_canonical s t : uuid_of s = Some t → canonical_uuid t.
Proof. intros (z & Hz & ->)%uuid_of_dashed. exact (uuid_of_dashed_hex z Hz). Qed.

Lemma canonical_uuid_chars u :
  canonical_uuid u → Forall (λ c, uuid_char c = true) (chars_of u) ∧ String.length u = 36.
Proof.
  intros Hu. destruct (uuid_of_dashed u u Hu) as (z & Hz & ->). split.
  - unfold chars_of, text_of. rewrite las_sla. apply dashed_chars, hex_text_hex.
  - pose proof (length_hex_text 32 z) as Hl. rewrite <- length_chars_of, chars_of_text.
    destruct (hex_text 32 z) as [|? h]; [done|]. do 31 (destruct h as [|? h]; [done|]). by destruct h.
Qed.

(** ** Refresh tokens *)
Lemma partition_app sep l r :
  Forall (λ c, char_eqb c sep = false) l →
  partition sep (l ++ ascii_of_nat sep :: r) =
  (if char_eqb (ascii_of_nat sep) sep then Some (l, r) else ('(a, b) ← partition sep r; Some (l ++ ascii_of_nat sep :: a, b))).
Proof.
  induction 1 as [|c l Hc Hl IH]; cbn [app partition].
  - by destruct (char_eqb _ sep).
  - rewrite Hc, IH. destruct (char_eqb (ascii_of_nat sep) sep); [done|]. by destruct (partition sep r) as [[]|].
Qed.

Lemma partition_inv sep l a b : partition sep l = Some (a, b) → ∃ c, char_eqb c sep = true ∧ l = a ++ c :: b.
Proof.
  revert a. induction l as [|c l IH]; intros a; simpl; [done|]. destruct (char_eqb c sep) eqn:E.
  - intros [= <- <-]. by exists c.
  - destruct (partition sep l) as [[x y]|]; [|done]. simpl. intros [= <- <-].
    destruct (IH x eq_refl) as (d & Hd & ->). by exists d.
Qed.

(** What a client was given reads back. *)
Lemma parse_format id secret :
  canonical_uuid id → secret ≠ "" → (37 + String.length secret <= MAX_TOKEN_LENGTH)%nat →
  parse_refresh_token (format_refresh_token id secret) = Some (id, secret).
Proof.
  intros Hid Hs Hlen. pose proof (canonical_uuid_chars id Hid) as [Hc Hl].
  assert (chars_of (format_refresh_token id secret) = chars_of id ++ ascii_of_nat DOT :: chars_of secret) as Heq.
  { unfold format_refresh_token, chars_of. by rewrite !las_app. }
  unfold parse_refresh_token. rewrite <- length_chars_of, Heq, length_app. cbn [length].
  rewrite !length_chars_of, Hl. replace (MAX_TOKEN_LENGTH <? _)%nat with false by (symmetry; apply Nat.ltb_ge; lia).
  rewrite partition_app.
  - change (char_eqb (ascii_of_nat DOT) DOT) with true. cbn [mbind option_bind].
    destruct (chars_of secret) as [|c r] eqn:E.
    + destruct Hs. apply (inj chars_of). by rewrite E.
    + rewrite <- E. unfold chars_of, text_of. rewrite !sla_las. by rewrite Hid.
  - eapply Forall_impl; [exact Hc|]. intros c H. by apply uuid_char_safe in H as (_ & ? & _).
Qed.

(** What is accepted names a session in canonical text and has a secret, both of bounded length. *)
Lemma parse_bounded raw id secret :
  parse_refresh_token raw = Some (id, secret) →
  canonical_uuid id ∧ secret ≠ "" ∧ (String.length secret < MAX_TOKEN_LENGTH)%nat.
Proof.
  unfold parse_refresh_token. destruct (MAX_TOKEN_LENGTH <? _) eqn:Hlen; [done|].
  apply Nat.ltb_ge in Hlen. rewrite <- length_chars_of in Hlen.
  intros ([a b] & Hp & H)%bind_Some. apply partition_inv in Hp as (c & _ & Hp).
  rewrite Hp, length_app in Hlen. simpl in Hlen. destruct b as [|x b]; [done|].
  apply bind_Some in H as (u & Hu & H). assert (id = u) as -> by congruence.
  assert (secret = text_of (x :: b)) as -> by congruence. repeat split.
  - by eapply uuid_of_canonical.
  - done.
  - rewrite <- length_chars_of, chars_of_text. unfold MAX_TOKEN_LENGTH in *. simpl in *. lia.
Qed.

(** ** Digests have 32 bytes *)
Lemma length_round h kw : length (round h kw) = length h.
Proof. by do 9 (destruct h as [|? h]; [done|]). Qed.

Lemma length_compress h block : length (compress h block) = length h.
Proof.
  unfold compress. rewrite length_zip_with. generalize (zip round_constants (schedule block)). intros l.
  assert (∀ g, length (foldl round g l) = length g) as H.
  { induction l as [|kw l IH]; intros g; simpl; [done|]. by rewrite IH, length_round. }
  rewrite H. lia.
Qed.

Lemma length_sha256 bytes : length (sha256 bytes) = 8.
Proof.
  unfold sha256. cbv zeta. generalize (blocks (length (words (pad bytes))) (words (pad bytes))). intros l.
  change 8 with (length initial_hash). generalize initial_hash.
  induction l as [|b l IH]; intros h; simpl; [done|]. by rewrite IH, length_compress.
Qed.

Lemma length_be_bytes n x : length (be_bytes n x) = n.
Proof. revert x. induction n as [|n IH]; intros x; simpl; [done|]. rewrite length_app, IH. simpl. lia. Qed.

Lemma length_bind {A B} (f : A → list B) n l :
  (∀ x, length (f x) = n) → length (l ≫= f) = (length l * n)%nat.
Proof.
  intros Hf. induction l as [|x l IH]; [done|]. rewrite bind_cons, length_app, Hf, IH. simpl. lia.
Qed.

Lemma length_hash_token token : length (hash_token token) = 32.
Proof.
  unfold hash_token. rewrite (length_bind _ 4) by (intros; apply length_be_bytes). by rewrite length_sha256.
Qed.
