(* ===== verification/JsonText.v ===== *)
(** JSON text: [json.dumps] with sorted keys and no spaces, and what it hashes to.

    Two escapings are used: everything outside printable ASCII as [\u00XX] (the default), and only what
    JSON requires ([ensure_ascii=False], the canonical text of an architecture).

    Where the program puts characters above U+00FF into a text itself (an ellipsis, a comparison sign),
    the text is a list of code points ([points]) and its JSON is [wide]. *)
From Stdlib Require Import Ascii ZArith.
From S2P Require Import Prelude Data Errors Codecs Sha256 Tokens.

(** * Strings *)
Definition escaped (c : ascii) : option string :=
  let n := code c in
  let quoted d := Some (String "\" (String d "")) in
  if (n =? 34) || (n =? 92) then quoted c
  else if n =? 8 then quoted "b"%char else if n =? 9 then quoted "t"%char else if n =? 10 then quoted "n"%char
  else if n =? 12 then quoted "f"%char else if n =? 13 then quoted "r"%char
  else None.

Definition unicode_escape (c : ascii) : string :=
  let n := code c in "\u00" +:+ String (hex_digit (n / 16)) (String (hex_digit (n mod 16)) "").

(** A character of a string, escaped when it is not [plain]. *)
Definition json_char (plain : ascii → bool) (c : ascii) : string :=
  match escaped c with
  | Some s => s
  | None => if plain c then String c "" else unicode_escape c
  end.

Definition quoted_text (plain : ascii → bool) (s : string) : string :=
  String (ascii_of_nat 34)
    (join "" (json_char plain <$> String.list_ascii_of_string s)) +:+ String (ascii_of_nat 34) "".

(** [json.dumps(s)] and [json.dumps(s, ensure_ascii=False)]. *)
Definition json_text : string → string := quoted_text (between 32 126).
Definition json_text_raw : string → string := quoted_text (λ c, negb (code c <? 32)).

(** * Values *)

(** [json.dumps(value, sort_keys=True, separators=(",", ":"))]; it refuses a [Decimal]. *)
Fixpoint dumps_with (text : string → string) (j : json) : py string :=
  match j with
  | JNull => Ok "null"
  | JBool b => Ok (if b then "true" else "false")
  | JInt z => Ok (Z_text z)
  | JDec _ => Raise TypeError
  | JStr s => Ok (text s)
  | JArr l =>
      items ← (fix go (l : list json) : py (list string) :=
                 match l with
                 | [] => Ok []
                 | x :: r => s ← dumps_with text x; ss ← go r; Ok (s :: ss)
                 end) l;
      Ok ("[" +:+ join "," items +:+ "]")
  | JObj m =>
      members ← (fix go (m : dict string json) : py (dict string string) :=
                   match m with
                   | [] => Ok []
                   | p :: r => s ← dumps_with text p.2; ss ← go r; Ok ((p.1, s) :: ss)
                   end) m;
      Ok ("{" +:+ join "," ((λ p, text p.1 +:+ ":" +:+ p.2) <$> sort_by (on fst str_leb) members) +:+ "}")
  end.

Definition dumps : json → py string := dumps_with json_text.

(** [hashlib.sha256(text.encode()).hexdigest()], of text that may not be ASCII. *)
Definition hexdigest_utf8 (text : string) : string :=
  hexdigest (text_of ((λ n, ascii_of_nat (Z.to_nat n)) <$> utf8 text)).

(** * Text as code points *)
Abbreviation points := (list Z).
Definition points_of (s : string) : points := (λ c, Z.of_nat (code c)) <$> chars_of s.
Definition ELLIPSIS : Z := 8230.

(** The characters [str.isspace] accepts. *)
Definition point_space (n : Z) : bool :=
  let within lo hi := (lo <=? n)%Z && (n <=? hi)%Z in
  within 9%Z 13%Z || within 28%Z 32%Z || within 8192%Z 8202%Z ||
  bool_decide (n ∈ [133; 160; 5760; 8232; 8233; 8239; 8287; 12288]%Z).

(** [not s.strip()]. *)
Definition blank (s : points) : bool := forallb point_space s.

Definition points_leb : points → points → bool := list_leb Z_leb.

#[export] Instance list_total_order {A} (leb : A → A → bool) : TotalOrder leb → TotalOrder (list_leb leb).
Proof.
  intros Ho. split; [apply _|]. intros x. induction x as [|a x IH]; intros [|b y]; try done.
  rewrite !(list_leb_cons leb). intros [[-> ?]|[? ?]] [[? ?]|[? ?]]; try done; [|by subst].
  f_equal. by apply IH.
Qed.

#[export] Instance points_order : TotalOrder points_leb.
Proof. unfold points_leb. apply _. Qed.

(** The text, if all of it is Latin-1. *)
Definition narrow (s : points) : option string :=
  if forallb (λ n, (0 <=? n)%Z && (n <? 256)%Z) s then Some (text_of ((λ n, ascii_of_nat (Z.to_nat n)) <$> s))
  else None.

#[local] Set Warnings "-register-all".

Inductive wide :=
  | WNull
  | WBool (b : bool)
  | WInt (z : Z)
  | WStr (s : points)
  | WArr (l : list wide)
  | WObj (m : dict string wide).

Definition WText (s : string) : wide := WStr (points_of s).

(** A character of a text, escaped as [json.dumps] escapes it: [\uXXXX], above U+FFFF as two. *)
Definition unicode_escape_wide (n : Z) : string := "\u" +:+ text_of (hex_text 4 n).

Definition json_point (n : Z) : string :=
  if (n <? 256)%Z then json_char (between 32 126) (ascii_of_nat (Z.to_nat n))
  else if (n <? 65536)%Z then unicode_escape_wide n
  else
    let m := (n - 65536)%Z in
    unicode_escape_wide (55296 + Z.shiftr m 10) +:+ unicode_escape_wide (56320 + Z.land m 1023).

Definition wide_text (s : points) : string :=
  String (ascii_of_nat 34) (join "" (json_point <$> s)) +:+ String (ascii_of_nat 34) "".

(** [json.dumps(value, sort_keys=True, separators=(comma, colon))]. *)
Fixpoint dumps_wide (comma colon : string) (w : wide) : string :=
  match w with
  | WNull => "null"
  | WBool b => if b then "true" else "false"
  | WInt z => Z_text z
  | WStr s => wide_text s
  | WArr l => "[" +:+ join comma (dumps_wide comma colon <$> l) +:+ "]"
  | WObj m =>
      let members := (fix go (m : dict string wide) : dict string string :=
                        match m with
                        | [] => []
                        | p :: r => (p.1, dumps_wide comma colon p.2) :: go r
                        end) m in
      "{" +:+ join comma ((λ p, json_text p.1 +:+ colon +:+ p.2) <$> sort_by (on fst str_leb) members) +:+ "}"
  end.

(** The default separators, and the compact ones. *)
Definition dumps_spaced : wide → string := dumps_wide ", " ": ".
Definition dumps_compact : wide → string := dumps_wide "," ":".

Definition of_opt_points (o : option points) : wide := match o with Some s => WStr s | None => WNull end.

(** [str(d)] of a [Decimal]. *)
Definition dec_str (d : dec) : string :=
  match d with
  | DFin coef exp =>
      let left := (exp + digits coef)%Z in
      if (exp <=? 0)%Z && (-6 <? left)%Z then dec_plain coef exp
      else
        let l := coefficient coef in
        (if (coef <? 0)%Z then "-" else "") +:+ text_of (take 1 l)
        +:+ (if length l =? 1 then "" else "." +:+ text_of (drop 1 l))
        +:+ "E" +:+ (if (left - 1 <? 0)%Z then "" else "+") +:+ Z_text (left - 1)
  | DInf n => if n then "-Infinity" else "Infinity"
  | DNaN => "NaN"
  end.

(** JSON read as [wide]; [default=str] makes text of a [Decimal]. *)
Fixpoint wide_of (j : json) : wide :=
  match j with
  | JNull => WNull
  | JBool b => WBool b
  | JInt z => WInt z
  | JDec d => WText (dec_str d)
  | JStr s => WText s
  | JArr l => WArr (wide_of <$> l)
  | JObj m => WObj ((fix go (m : dict string json) : dict string wide :=
                       match m with [] => [] | p :: r => (p.1, wide_of p.2) :: go r end) m)
  end.

Example dec_str_samples :
  dec_str <$> [DFin 123 (-2); DFin 15 3; DFin 1 (-7); DFin (-12345) (-12); DFin 0 0] =
  ["1.23"; "1.5E+4"; "1E-7"; "-1.2345E-8"; "0"].
Proof. by vm_compute. Qed.

Example dumps_wide_sample :
  dumps_spaced (WObj [("b", WArr [WInt (-5); WNull]); ("a", WStr [8230; 120; 128512; 10]%Z)]) =
  text_of (chars_of "{'a': '\u2026x\ud83d\ude00\n', 'b': [-5, null]}" ≫=
    λ c, if char_eqb c 39 then [ascii_of_nat 34] else [c]).
Proof. by vm_compute. Qed.

Example dumps_sample :
  dumps_with json_text_raw (JObj [("b", JArr [JInt (-5); JNull]); ("a", JStr (text_of ["x"%char; ascii_of_nat 34; "y"%char]))]) =
  Ok (text_of (chars_of "{'a':'x\'y','b':[-5,null]}" ≫= λ c, if char_eqb c 39 then [ascii_of_nat 34] else [c])).
Proof. by vm_compute. Qed.
