(* ===== verification/Computations.v ===== *)
(** Computations over a state that may raise, and how to reason about them.

    - [st S]: a computation over the state [S] that returns a value or raises; [unit_of_work] is
      [async with uow:], which keeps what its block did when the block returns and undoes it when it
      raises (src/core/domain/unit_of_work.py, src/persistence/unit_of_work.py); tables are finite maps
      by primary key.
    - [keeps R m]: [R] relates the state before [m] and the state after it, whatever [m] returns.  For a
      preorder [R] it follows from the same of every part of [m] ([keeps] tactic), and a transaction
      that raises keeps anything.  [settles m Q]: when [m] returns, [Q] holds of the state after and of
      the value.  [io_inv] breaks a successful run into the runs of its parts.
    - [rows], [where_] and [update_where]: what queries read and updates change. *)
From Stdlib Require Import Lia ZArith.
From S2P Require Import Prelude Data Errors.

Abbreviation uuid := string.
Abbreviation instant := Z.

(** * Computations *)
Definition st (S A : Type) : Type := S → py A * S.

#[export] Instance io_ret {S} : MRet (st S) := λ A a w, (Ok a, w).
#[export] Instance io_bind {S} : MBind (st S) := λ A B f m w,
  match m w with (Ok a, w) => f a w | (Raise e, w) => (Raise e, w) end.

Definition raise {S A} (e : exn) : st S A := λ w, (Raise e, w).
Definition lift {S A} (m : py A) : st S A := λ w, (m, w).
Definition query {S A} (f : S → A) : st S A := λ w, (Ok (f w), w).
Definition modify {S} (f : S → S) : st S unit := λ w, (Ok tt, f w).

(** [if b: raise e]. *)
Definition raise_when {S} (b : bool) (e : exn) : st S unit := if b then raise e else mret tt.

(** [async with self._uow as uow:]. *)
Definition unit_of_work {S A} (block : st S A) : st S A := λ w,
  match block w with
  | (Ok a, w') => (Ok a, w')
  | (Raise e, _) => (Raise e, w)
  end.

(** Whether an exception is the domain error with this code. *)
Definition has_code (code : string) (e : exn) : bool :=
  if e is DomainError c _ _ then String.eqb c code else false.

(** [try: body  except E: handler], for the domain error [E] with this code; the handler starts from
    what the body left. *)
Definition catch {S A} (code : string) (body handler : st S A) : st S A := λ w,
  match body w with
  | (Raise e, w') => if has_code code e then handler w' else (Raise e, w')
  | r => r
  end.

(** [for x in l: f(x)]. *)
Fixpoint each {S A} (f : A → st S unit) (l : list A) : st S unit :=
  match l with [] => mret tt | x :: r => _ ← f x; each f r end.

(** ** Times

    A [datetime] is at most 9999-12-31 23:59:59.999999; adding a [timedelta] may leave the range. *)
Definition MAX_INSTANT : Z := 3652059 * 86400000000 - 1.
Definition SECOND : Z := 1000000.

Definition later {S} (now delta : Z) : st S instant :=
  let t := (now + delta)%Z in
  if (0 <=? t)%Z && (t <=? MAX_INSTANT)%Z then mret t else raise OverflowError.

(** ** Tables *)

(** The rows a [WHERE] keeps, in key order; [scalar] takes the first. *)
Definition rows {A} (m : gmap uuid A) : list A := (sort_by (on fst str_leb) (map_to_list m)).*2.
Definition where_ {A} (P : A → bool) (m : gmap uuid A) : list A := filter (λ x, P x = true) (rows m).
Definition update_where {A} (P : A → bool) (f : A → A) : gmap uuid A → gmap uuid A :=
  fmap (λ x, if P x then f x else x).

(** An [INSERT]: the primary key must be new. *)
Definition insert_row {S A} (id : uuid) (row : A) (get : S → gmap uuid A)
    (set : (gmap uuid A → gmap uuid A) → S → S) : st S unit :=
  m ← query get;
  if m !! id is Some _ then raise (IntegrityError "primary key") else modify (set (<[id := row]>)).

(** [references table.id]. *)
Definition references_row {S A} (id : uuid) (get : S → gmap uuid A) : st S unit :=
  m ← query get;
  if m !! id is Some _ then mret tt else raise (IntegrityError "foreign key").

(** * Relating the worlds before and after *)
Definition keeps {S A} (R : relation S) (m : st S A) : Prop := ∀ w, R w (m w).2.

Create HintDb keeps discriminated.

Section keeps.
Context {S : Type} (R : relation S) `{!PreOrder R}.

Lemma keeps_ret {A} (a : A) : keeps R (mret a).
Proof using All. intros w. change (R w w). reflexivity. Qed.

Lemma keeps_raise {A} e : keeps R (@raise S A e).
Proof using All. intros w. change (R w w). reflexivity. Qed.

Lemma keeps_lift {A} (p : py A) : keeps R (lift p).
Proof using All. intros w. change (R w w). reflexivity. Qed.

Lemma keeps_query {A} (f : S → A) : keeps R (query f).
Proof using All. intros w. change (R w w). reflexivity. Qed.

Lemma keeps_modify f : (∀ w, R w (f w)) → keeps R (modify f).
Proof using All. intros Hf w. apply Hf. Qed.

Lemma keeps_bind {A B} (m : st S A) (f : A → st S B) :
  keeps R m → (∀ a, keeps R (f a)) → keeps R (m ≫= f).
Proof using All.
  intros Hm Hf w. unfold mbind, io_bind. specialize (Hm w).
  destruct (m w) as [[a|e] w']; [|done]. simpl in *. etrans; [done|]. apply Hf.
Qed.

Lemma keeps_lift_bind {A B} (p : py A) (f : A → st S B) :
  (∀ a, p = Ok a → keeps R (f a)) → keeps R (lift p ≫= f).
Proof using All.
  intros Hf w. unfold mbind, io_bind, lift. destruct p as [a|e]; [by apply Hf|]. simpl. done.
Qed.

Lemma keeps_raise_when_bind {B} b e (f : () → st S B) :
  (b = false → keeps R (f tt)) → keeps R (raise_when b e ≫= f).
Proof using All.
  intros Hf w. unfold raise_when. destruct b; [|by apply Hf]. simpl. done.
Qed.

Lemma keeps_raise_when b e : keeps R (raise_when b e).
Proof using All. destruct b; [apply keeps_raise|apply keeps_ret]. Qed.

Lemma keeps_unit_of_work {A} (m : st S A) : keeps R m → keeps R (unit_of_work m).
Proof using All.
  intros Hm w. unfold unit_of_work. specialize (Hm w).
  by destruct (m w) as [[a|e] w'].
Qed.

Lemma keeps_each {A} (f : A → st S unit) l : (∀ x, keeps R (f x)) → keeps R (each f l).
Proof using All.
  intros Hf. induction l as [|x l IH]; simpl; [apply keeps_ret|]. by apply keeps_bind.
Qed.

Lemma keeps_catch {A} code (body handler : st S A) :
  keeps R body → keeps R handler → keeps R (catch code body handler).
Proof using All.
  intros Hb Hh w. unfold catch. specialize (Hb w). destruct (body w) as [[a|e] w']; [done|].
  destruct (has_code code e); [|done]. simpl in *. etrans; [done|]. apply Hh.
Qed.

Lemma keeps_later t d : keeps R (later t d).
Proof using All. unfold later. cbv zeta. destruct (_ && _); [apply keeps_ret|apply keeps_raise]. Qed.
Lemma keeps_later_bind {B} t d (f : instant → st S B) :
  ((0 <= t + d <= MAX_INSTANT)%Z → keeps R (f (t + d)%Z)) → keeps R (later t d ≫= f).
Proof using All.
  intros Hf w. unfold later. cbv zeta. destruct (_ && _) eqn:E.
  - apply andb_prop in E as [H1%Z.leb_le H2%Z.leb_le]. by apply Hf.
  - simpl. done.
Qed.
End keeps.

Lemma keeps_run {S A} (R : relation S) (m : st S A) (w : S) r w' : keeps R m → m w = (r, w') → R w w'.
Proof. intros Hm Hw. specialize (Hm w). by rewrite Hw in Hm. Qed.

(** A part of the world that stays as it is. *)
Definition same {S A} (f : S → A) : relation S := λ w w', f w' = f w.

#[export] Instance same_preorder {S A} (f : S → A) : PreOrder (same f).
Proof. split; [intros x; unfold same; done|intros x y z; unfold same; congruence]. Qed.

#[export] Hint Resolve keeps_ret keeps_raise keeps_lift keeps_query keeps_raise_when keeps_later : keeps.

Ltac head_of t := lazymatch t with ?f _ => head_of f | _ => t end.

(** Nothing the relation speaks of has changed. *)
Ltac unchanged :=
  first [ reflexivity
        | lazymatch goal with |- ?R ?w _ => exact (@reflexivity _ R _ w) end
        | hnf; simpl; first [reflexivity | intro; assumption] ].

(** Descends into a computation; stops at what the hints do not settle. *)
Ltac keeps :=
  repeat (intros; cbv beta zeta; lazymatch goal with
  | |- keeps _ (mbind _ (lift _)) => apply keeps_lift_bind; [|intros ? ?]
  | |- keeps _ (mbind _ (later _ _)) => apply keeps_later_bind; [|intros ?]
  | |- keeps _ (mbind _ (raise_when _ _)) => apply keeps_raise_when_bind; [|intros ?]
  | |- keeps _ (mbind _ _) => apply keeps_bind; [| |intros ?]
  | |- keeps _ (unit_of_work _) => apply keeps_unit_of_work
  | |- keeps _ (catch _ _ _) => apply keeps_catch
  | |- keeps _ (each _ _) => apply keeps_each; [|intros ?]
  | |- keeps _ (match ?x with _ => _ end) => destruct x eqn:?
  | |- keeps _ (modify _) => first [solve [eauto 3 with keeps typeclass_instances] |
                                    apply keeps_modify; [|intros ?; try unchanged]]
  | |- keeps _ ?m =>
      first [ solve [eauto 3 with keeps typeclass_instances]
            | let h := head_of m in progress (unfold h; cbv beta) ]
  | |- PreOrder _ => apply _
  end).

(** * Results *)
Definition settles {S A} (m : st S A) (w : S) (Q : A → S → Prop) : Prop :=
  match m w with (Ok a, w') => Q a w' | (Raise _, _) => True end.

Lemma settles_bind {S A B} (m : st S A) (f : A → st S B) w Q :
  settles m w (λ a w', settles (f a) w' Q) → settles (m ≫= f) w Q.
Proof.
  unfold settles, mbind, io_bind. destruct (m w) as [[a|e] w']; done.
Qed.

Lemma settles_mono {S A} (m : st S A) w (P Q : A → S → Prop) :
  settles m w P → (∀ a w', P a w' → Q a w') → settles m w Q.
Proof. unfold settles. destruct (m w) as [[a|e] w']; naive_solver. Qed.

Lemma settles_ok {S A} (m : st S A) w Q a w' : settles m w Q → m w = (Ok a, w') → Q a w'.
Proof. unfold settles. intros H Hm. by rewrite Hm in H. Qed.

Lemma unit_of_work_ok {S A} (m : st S A) w a w' : unit_of_work m w = (Ok a, w') ↔ m w = (Ok a, w').
Proof. unfold unit_of_work. destruct (m w) as [[x|e] v]; naive_solver. Qed.

Lemma unit_of_work_raise {S A} (m : st S A) w e w' :
  unit_of_work m w = (Raise e, w') ↔ w' = w ∧ ∃ v, m w = (Raise e, v).
Proof. unfold unit_of_work. destruct (m w) as [[x|e'] v]; naive_solver. Qed.

Lemma io_bind_ok {S A B} (m : st S A) (f : A → st S B) w b w'' :
  (m ≫= f) w = (Ok b, w'') ↔ ∃ a w', m w = (Ok a, w') ∧ f a w' = (Ok b, w'').
Proof. unfold mbind, io_bind. destruct (m w) as [[a|e] v]; naive_solver. Qed.

Lemma later_ok {S} t d (w : S) a w' :
  later t d w = (Ok a, w') ↔ w' = w ∧ a = (t + d)%Z ∧ (0 <= t + d <= MAX_INSTANT)%Z.
Proof.
  unfold later. cbv zeta. destruct (_ && _) eqn:E.
  - apply andb_prop in E as [H1%Z.leb_le H2%Z.leb_le]. unfold mret, io_ret. naive_solver.
  - unfold raise. split; [done|]. intros (_ & _ & H). apply andb_false_iff in E as [E|E].
    + apply Z.leb_gt in E. lia.
    + apply Z.leb_gt in E. lia.
Qed.

Lemma raise_when_ok {S} b e (w : S) a w' : raise_when b e w = (Ok a, w') ↔ b = false ∧ w' = w.
Proof. destruct b, a; unfold raise_when, raise, mret, io_ret; naive_solver. Qed.

Lemma lift_ok {S A} (p : py A) (w : S) a w' : lift p w = (Ok a, w') ↔ p = Ok a ∧ w' = w.
Proof. unfold lift. naive_solver. Qed.

Lemma query_ok {S A} (f : S → A) w a w' : query f w = (Ok a, w') ↔ a = f w ∧ w' = w.
Proof. unfold query. naive_solver. Qed.

Lemma modify_ok {S} (f : S → S) w a w' : modify f w = (Ok a, w') ↔ w' = f w.
Proof. unfold modify. destruct a. naive_solver. Qed.

Lemma ret_ok {S A} (x : A) w a w' : (mret x : st S A) w = (Ok a, w') ↔ a = x ∧ w' = w.
Proof. unfold mret, io_ret. naive_solver. Qed.

Lemma raise_ok {S A} e (w : S) (a : A) w' : raise e w = (Ok a, w') ↔ False.
Proof. unfold raise. naive_solver. Qed.

(** Breaks a successful run into the runs of its parts. *)
Ltac io_inv :=
  repeat match goal with
  | H : (_ ≫= _) _ = (Ok _, _) |- _ => apply (proj1 (io_bind_ok _ _ _ _ _)) in H as (? & ? & ? & H)
  | H : unit_of_work _ _ = (Ok _, _) |- _ => apply (proj1 (unit_of_work_ok _ _ _ _)) in H
  | H : raise_when _ _ _ = (Ok _, _) |- _ => apply (proj1 (raise_when_ok _ _ _ _ _)) in H as [? ->]
  | H : lift _ _ = (Ok _, _) |- _ => apply (proj1 (lift_ok _ _ _ _)) in H as [? ->]
  | H : query _ _ = (Ok _, _) |- _ => apply (proj1 (query_ok _ _ _ _)) in H as [-> ->]
  | H : modify _ _ = (Ok _, _) |- _ => apply (proj1 (modify_ok _ _ _ _)) in H as ->
  | H : mret _ _ = (Ok _, _) |- _ => apply (proj1 (ret_ok _ _ _ _)) in H as [H ->]; simplify_eq
  | H : raise _ _ = (Ok _, _) |- _ => apply (proj1 (raise_ok _ _ _ _)) in H as []
  | H : later _ _ _ = (Ok _, _) |- _ => apply (proj1 (later_ok _ _ _ _ _)) in H as (-> & -> & ?)
  | x : _ * _ |- _ => destruct x
  | H : prod_relation _ _ _ _ |- _ => destruct H
  end.

(** Conditions read as propositions. *)
Ltac bool_facts :=
  repeat match goal with
  | H : negb _ = false |- _ => apply negb_false_iff in H
  | H : negb _ = true |- _ => apply negb_true_iff in H
  | H : _ && _ = true |- _ => apply andb_prop in H as [? ?]
  | H : _ || _ = false |- _ => apply orb_false_elim in H as [? ?]
  | H : bool_decide _ = true |- _ => apply bool_decide_eq_true in H
  | H : bool_decide _ = false |- _ => apply bool_decide_eq_false in H
  | H : String.eqb _ _ = true |- _ => apply String.eqb_eq in H
  | H : String.eqb _ _ = false |- _ => apply String.eqb_neq in H
  | H : (_ <=? _)%Z = true |- _ => apply Z.leb_le in H
  | H : (_ <=? _)%Z = false |- _ => apply Z.leb_gt in H
  | H : (_ <? _)%Z = true |- _ => apply Z.ltb_lt in H
  | H : (_ <? _)%Z = false |- _ => apply Z.ltb_ge in H
  end.

(** * Tables *)
Section tables.
Context {A : Type}.
Implicit Types (m : gmap uuid A) (P : A → bool).

Lemma elem_of_rows m x : x ∈ rows m ↔ ∃ id, m !! id = Some x.
Proof.
  unfold rows. rewrite list_elem_of_fmap. split.
  - intros ([id y] & -> & Hin). exists id. apply elem_of_sort_by, elem_of_map_to_list in Hin. done.
  - intros (id & Hid). exists (id, x). split; [done|]. by apply elem_of_sort_by, elem_of_map_to_list.
Qed.

Lemma elem_of_where P m x : x ∈ where_ P m ↔ P x = true ∧ ∃ id, m !! id = Some x.
Proof. unfold where_. by rewrite list_elem_of_filter, elem_of_rows. Qed.

Lemma head_where_Some P m x : head (where_ P m) = Some x → P x = true ∧ ∃ id, m !! id = Some x.
Proof.
  intros Hx. apply elem_of_where. destruct (where_ P m) as [|y l]; [done|].
  injection Hx as ->. by left.
Qed.

Lemma head_where_None P m : head (where_ P m) = None ↔ ∀ id x, m !! id = Some x → P x = false.
Proof.
  split.
  - intros Hn id x Hx. destruct (P x) eqn:HP; [|done].
    assert (x ∈ where_ P m) as Hin by (apply elem_of_where; eauto).
    destruct (where_ P m); [by apply not_elem_of_nil in Hin|done].
  - intros Hall. destruct (where_ P m) as [|x l] eqn:E; [done|].
    assert (x ∈ where_ P m) as (HP & id & Hid)%elem_of_where by (rewrite E; left).
    by rewrite (Hall id x Hid) in HP.
Qed.

(** A condition only one row meets selects that row. *)
Lemma head_where_unique P m id x :
  m !! id = Some x → P x = true →
  (∀ id' y, m !! id' = Some y → P y = true → id' = id) →
  head (where_ P m) = Some x.
Proof.
  intros Hx HP Hu. destruct (head (where_ P m)) as [y|] eqn:E.
  - apply head_where_Some in E as (HPy & id' & Hy). rewrite (Hu id' y Hy HPy) in Hy. congruence.
  - rewrite head_where_None in E. by rewrite (E id x Hx) in HP.
Qed.

(** The selected rows with their keys. *)
Definition selected P m : list (uuid * A) :=
  filter (λ p, P p.2 = true) (sort_by (on fst str_leb) (map_to_list m)).

Lemma length_where P m : length (where_ P m) = length (selected P m).
Proof.
  unfold where_, rows, selected. induction (sort_by _ _) as [|p l IH]; [done|].
  cbn [fmap list_fmap]. rewrite !filter_cons. destruct (decide _); simpl; congruence.
Qed.

Lemma elem_of_selected P m i x : (i, x) ∈ selected P m ↔ m !! i = Some x ∧ P x = true.
Proof.
  unfold selected. rewrite list_elem_of_filter, elem_of_sort_by, elem_of_map_to_list. simpl. tauto.
Qed.

Lemma selected_key P m i x y : (i, x) ∈ selected P m → (i, y) ∈ selected P m → x = y.
Proof. rewrite !elem_of_selected. intros [? _] [? _]. congruence. Qed.

Lemma NoDup_selected P m : NoDup (selected P m).
Proof. apply NoDup_filter, NoDup_sort_by, NoDup_map_to_list. Qed.

Lemma where_two P m id :
  (2 <= length (where_ P m))%nat → ∃ id' y, id' ≠ id ∧ m !! id' = Some y ∧ P y = true.
Proof.
  rewrite length_where. pose proof (NoDup_selected P m) as Hnd.
  pose proof (elem_of_selected P m) as Hin. pose proof (selected_key P m) as Hk.
  destruct (selected P m) as [|[i x] [|[j y] l]]; simpl; try lia. intros _.
  assert (i ≠ j).
  { intros <-. rewrite (Hk i x y) in Hnd by (repeat (left || right)).
    apply NoDup_cons in Hnd as [Hnd _]. apply Hnd. left. }
  destruct (decide (i = id)) as [->|Hi].
  - exists j, y. split; [done|]. apply Hin. right. left.
  - exists i, x. split; [done|]. apply Hin. left.
Qed.

Lemma where_one P m id id' x y :
  length (where_ P m) = 1%nat → m !! id = Some x → P x = true → m !! id' = Some y → P y = true →
  id = id'.
Proof.
  rewrite length_where. pose proof (elem_of_selected P m) as Hin. intros Hl H1 H2 H3 H4.
  assert ((id, x) ∈ selected P m) as Hx by by apply Hin.
  assert ((id', y) ∈ selected P m) as Hy by by apply Hin.
  destruct (selected P m) as [|p [|q l]]; try done. set_solver.
Qed.

Lemma where_pos P m id x : m !! id = Some x → P x = true → (1 <= length (where_ P m))%nat.
Proof.
  intros Hx HP. assert (x ∈ where_ P m) as Hin by (apply elem_of_where; eauto).
  destruct (where_ P m); [by apply not_elem_of_nil in Hin|simpl; lia].
Qed.

Lemma alter_row f m id x : m !! id = Some x → alter f id m = <[id := f x]> m.
Proof.
  intros Hx. apply map_eq. intros i. destruct (decide (i = id)) as [->|Hne].
  - by rewrite lookup_alter_eq, lookup_insert_eq, Hx.
  - by rewrite lookup_alter_ne, lookup_insert_ne by done.
Qed.

Lemma lookup_update_where P f m id :
  update_where P f m !! id = (λ x, if P x then f x else x) <$> m !! id.
Proof. unfold update_where. by rewrite lookup_fmap. Qed.
End tables.

(** A transaction is judged by its successful runs. *)
Lemma keeps_committed {S} (R : relation S) `{!PreOrder R} {A} (m : st S A) :
  (∀ w a w', m w = (Ok a, w') → R w w') → keeps R (unit_of_work m).
Proof.
  intros Hm w. unfold unit_of_work. destruct (m w) as [[a|e] w'] eqn:E; [by eapply Hm|]. simpl. done.
Qed.
