(* ===== verification/Store.v ===== *)
(** Accounts and organizations: the stored data and the transactions over it.

    - The entities of src/core/domain/identity/entities.py, organizations/entities.py and
      audit/entities.py, with their enumerations and errors.  A UUID is its canonical text; a time is
      its number of microseconds since 0001-01-01 UTC; a digest is its list of bytes.
    - [world]: the tables of the database, by primary key, the emails handed to the mailer, the
      database's clock ([func.now()]) and the client of the current request.
    - [io]: a computation over the world ([Computations]). *)
From Stdlib Require Import Ascii ZArith.
From S2P Require Import Prelude Data Errors Computations.

Abbreviation bytes := (list Z).

(** * Enumerations *)
Inductive UserStatus := USER_ACTIVE | USER_DISABLED | USER_DELETED.

#[export] Instance UserStatus_eq_dec : EqDecision UserStatus.
Proof. solve_decision. Defined.

#[export, refine] Instance UserStatus_enum : StrEnum UserStatus := {
  members := [USER_ACTIVE; USER_DISABLED; USER_DELETED];
  value s := match s with
             | USER_ACTIVE => "active"
             | USER_DISABLED => "disabled"
             | USER_DELETED => "deleted"
             end;
}.
Proof. all: solve_enum. Defined.

Inductive SessionRevocationReason :=
  | LOGOUT | USER_REVOKED | PASSWORD_CHANGED | PASSWORD_RESET | TOKEN_REUSE | ACCOUNT_DELETED.

#[export] Instance SessionRevocationReason_eq_dec : EqDecision SessionRevocationReason.
Proof. solve_decision. Defined.

#[export, refine] Instance SessionRevocationReason_enum : StrEnum SessionRevocationReason := {
  members := [LOGOUT; USER_REVOKED; PASSWORD_CHANGED; PASSWORD_RESET; TOKEN_REUSE; ACCOUNT_DELETED];
  value r := match r with
             | LOGOUT => "logout"
             | USER_REVOKED => "user_revoked"
             | PASSWORD_CHANGED => "password_changed"
             | PASSWORD_RESET => "password_reset"
             | TOKEN_REUSE => "token_reuse"
             | ACCOUNT_DELETED => "account_deleted"
             end;
}.
Proof. all: solve_enum. Defined.

Inductive Role := OWNER | ADMIN | MEMBER | VIEWER.

#[export] Instance Role_eq_dec : EqDecision Role.
Proof. solve_decision. Defined.

#[export, refine] Instance Role_enum : StrEnum Role := {
  members := [OWNER; ADMIN; MEMBER; VIEWER];
  value r := match r with
             | OWNER => "owner"
             | ADMIN => "admin"
             | MEMBER => "member"
             | VIEWER => "viewer"
             end;
}.
Proof. all: solve_enum. Defined.

Inductive AuditAction :=
  | USER_REGISTERED | USER_EMAIL_VERIFIED | USER_LOGIN | USER_LOGIN_FAILED | USER_LOGOUT
  | USER_PASSWORD_RESET | USER_PASSWORD_CHANGED | USER_PROFILE_UPDATED | USER_DELETED_ACTION
  | SESSION_REVOKED | ORGANIZATION_CREATED | ORGANIZATION_UPDATED | ORGANIZATION_DELETED
  | MEMBER_INVITED | MEMBER_INVITATION_REVOKED | MEMBER_INVITATION_ACCEPTED | MEMBER_ROLE_CHANGED
  | MEMBER_REMOVED | PRICING_SNAPSHOT_CREATED | PROJECT_CREATED | PROJECT_UPDATED
  | PROJECT_ARCHIVED | PROJECT_RESTORED | PROJECT_DELETED | PROJECT_POLICY_UPDATED
  | REQUIREMENT_CREATED | REQUIREMENT_UPDATED | REQUIREMENT_STATUS_CHANGED
  | REQUIREMENT_VERSION_CREATED | REQUIREMENT_DELETED | REQUIREMENT_SET_CREATED
  | REQUIREMENT_ANALYSIS_CREATED | REQUIREMENT_PROMOTED | ARCHITECTURE_CREATED
  | ARCHITECTURE_UPDATED | ARCHITECTURE_REVISED | ARCHITECTURE_REVISION_RESTORED
  | ARCHITECTURE_ARCHIVED | ARCHITECTURE_RESTORED | ARCHITECTURE_DELETED | ARCHITECTURE_VALIDATED
  | ARCHITECTURE_CAPACITY_ANALYZED | ARCHITECTURE_COST_ANALYZED
  | ARCHITECTURE_RELIABILITY_ANALYZED | ARCHITECTURE_SECURITY_ANALYZED
  | ARCHITECTURE_OBSERVABILITY_ANALYZED | ARCHITECTURE_SIMULATED | ARCHITECTURE_EVOLUTION_ANALYZED
  | DECISION_PROPOSED | DECISION_ACCEPTED | DECISION_REJECTED | DECISION_SUPERSEDED
  | DECISION_REVISION_LINKED | MIGRATION_PLAN_CREATED | MIGRATION_PLAN_REGENERATED
  | MIGRATION_PLAN_SUBMITTED | MIGRATION_PLAN_APPROVED | MIGRATION_PLAN_REJECTED
  | MIGRATION_PLAN_ARCHIVED | DISCOVERY_RUN_CREATED | DISCOVERY_RUN_REVIEWED
  | DISCOVERY_RUN_ACCEPTED | DISCOVERY_RUN_DELETED | DRIFT_ANALYSIS_CREATED | DRIFT_ITEM_REVIEWED
  | DRIFT_IDENTITY_CONFIRMED.

#[export] Instance AuditAction_eq_dec : EqDecision AuditAction.
Proof. solve_decision. Defined.

Definition action_text (a : AuditAction) : string :=
  match a with
  | USER_REGISTERED => "user.registered"
  | USER_EMAIL_VERIFIED => "user.email_verified"
  | USER_LOGIN => "user.login"
  | USER_LOGIN_FAILED => "user.login_failed"
  | USER_LOGOUT => "user.logout"
  | USER_PASSWORD_RESET => "user.password_reset"
  | USER_PASSWORD_CHANGED => "user.password_changed"
  | USER_PROFILE_UPDATED => "user.profile_updated"
  | USER_DELETED_ACTION => "user.deleted"
  | SESSION_REVOKED => "session.revoked"
  | ORGANIZATION_CREATED => "organization.created"
  | ORGANIZATION_UPDATED => "organization.updated"
  | ORGANIZATION_DELETED => "organization.deleted"
  | MEMBER_INVITED => "member.invited"
  | MEMBER_INVITATION_REVOKED => "member.invitation_revoked"
  | MEMBER_INVITATION_ACCEPTED => "member.invitation_accepted"
  | MEMBER_ROLE_CHANGED => "member.role_changed"
  | MEMBER_REMOVED => "member.removed"
  | PRICING_SNAPSHOT_CREATED => "pricing_snapshot.created"
  | PROJECT_CREATED => "project.created"
  | PROJECT_UPDATED => "project.updated"
  | PROJECT_ARCHIVED => "project.archived"
  | PROJECT_RESTORED => "project.restored"
  | PROJECT_DELETED => "project.deleted"
  | PROJECT_POLICY_UPDATED => "project.policy_updated"
  | REQUIREMENT_CREATED => "requirement.created"
  | REQUIREMENT_UPDATED => "requirement.updated"
  | REQUIREMENT_STATUS_CHANGED => "requirement.status_changed"
  | REQUIREMENT_VERSION_CREATED => "requirement.version_created"
  | REQUIREMENT_DELETED => "requirement.deleted"
  | REQUIREMENT_SET_CREATED => "requirement_set.created"
  | REQUIREMENT_ANALYSIS_CREATED => "requirement_analysis.created"
  | REQUIREMENT_PROMOTED => "requirement.promoted"
  | ARCHITECTURE_CREATED => "architecture.created"
  | ARCHITECTURE_UPDATED => "architecture.updated"
  | ARCHITECTURE_REVISED => "architecture.revised"
  | ARCHITECTURE_REVISION_RESTORED => "architecture.revision_restored"
  | ARCHITECTURE_ARCHIVED => "architecture.archived"
  | ARCHITECTURE_RESTORED => "architecture.restored"
  | ARCHITECTURE_DELETED => "architecture.deleted"
  | ARCHITECTURE_VALIDATED => "architecture.validated"
  | ARCHITECTURE_CAPACITY_ANALYZED => "architecture.capacity_analyzed"
  | ARCHITECTURE_COST_ANALYZED => "architecture.cost_analyzed"
  | ARCHITECTURE_RELIABILITY_ANALYZED => "architecture.reliability_analyzed"
  | ARCHITECTURE_SECURITY_ANALYZED => "architecture.security_analyzed"
  | ARCHITECTURE_OBSERVABILITY_ANALYZED => "architecture.observability_analyzed"
  | ARCHITECTURE_SIMULATED => "architecture.simulated"
  | ARCHITECTURE_EVOLUTION_ANALYZED => "architecture.evolution_analyzed"
  | DECISION_PROPOSED => "decision.proposed"
  | DECISION_ACCEPTED => "decision.accepted"
  | DECISION_REJECTED => "decision.rejected"
  | DECISION_SUPERSEDED => "decision.superseded"
  | DECISION_REVISION_LINKED => "decision.revision_linked"
  | MIGRATION_PLAN_CREATED => "migration_plan.created"
  | MIGRATION_PLAN_REGENERATED => "migration_plan.regenerated"
  | MIGRATION_PLAN_SUBMITTED => "migration_plan.submitted"
  | MIGRATION_PLAN_APPROVED => "migration_plan.approved"
  | MIGRATION_PLAN_REJECTED => "migration_plan.rejected"
  | MIGRATION_PLAN_ARCHIVED => "migration_plan.archived"
  | DISCOVERY_RUN_CREATED => "discovery_run.created"
  | DISCOVERY_RUN_REVIEWED => "discovery_run.reviewed"
  | DISCOVERY_RUN_ACCEPTED => "discovery_run.accepted"
  | DISCOVERY_RUN_DELETED => "discovery_run.deleted"
  | DRIFT_ANALYSIS_CREATED => "drift_analysis.created"
  | DRIFT_ITEM_REVIEWED => "drift_item.reviewed"
  | DRIFT_IDENTITY_CONFIRMED => "drift_identity.confirmed"
  end.

Definition actions : list AuditAction :=
  [USER_REGISTERED; USER_EMAIL_VERIFIED; USER_LOGIN; USER_LOGIN_FAILED; USER_LOGOUT;
   USER_PASSWORD_RESET; USER_PASSWORD_CHANGED; USER_PROFILE_UPDATED;
   USER_DELETED_ACTION; SESSION_REVOKED; ORGANIZATION_CREATED; ORGANIZATION_UPDATED;
   ORGANIZATION_DELETED; MEMBER_INVITED; MEMBER_INVITATION_REVOKED;
   MEMBER_INVITATION_ACCEPTED; MEMBER_ROLE_CHANGED; MEMBER_REMOVED;
   PRICING_SNAPSHOT_CREATED; PROJECT_CREATED; PROJECT_UPDATED; PROJECT_ARCHIVED;
   PROJECT_RESTORED; PROJECT_DELETED; PROJECT_POLICY_UPDATED; REQUIREMENT_CREATED;
   REQUIREMENT_UPDATED; REQUIREMENT_STATUS_CHANGED; REQUIREMENT_VERSION_CREATED;
   REQUIREMENT_DELETED; REQUIREMENT_SET_CREATED; REQUIREMENT_ANALYSIS_CREATED;
   REQUIREMENT_PROMOTED; ARCHITECTURE_CREATED; ARCHITECTURE_UPDATED;
   ARCHITECTURE_REVISED; ARCHITECTURE_REVISION_RESTORED; ARCHITECTURE_ARCHIVED;
   ARCHITECTURE_RESTORED; ARCHITECTURE_DELETED; ARCHITECTURE_VALIDATED;
   ARCHITECTURE_CAPACITY_ANALYZED; ARCHITECTURE_COST_ANALYZED;
   ARCHITECTURE_RELIABILITY_ANALYZED; ARCHITECTURE_SECURITY_ANALYZED;
   ARCHITECTURE_OBSERVABILITY_ANALYZED; ARCHITECTURE_SIMULATED;
   ARCHITECTURE_EVOLUTION_ANALYZED; DECISION_PROPOSED; DECISION_ACCEPTED;
   DECISION_REJECTED; DECISION_SUPERSEDED; DECISION_REVISION_LINKED;
   MIGRATION_PLAN_CREATED; MIGRATION_PLAN_REGENERATED; MIGRATION_PLAN_SUBMITTED;
   MIGRATION_PLAN_APPROVED; MIGRATION_PLAN_REJECTED; MIGRATION_PLAN_ARCHIVED;
   DISCOVERY_RUN_CREATED; DISCOVERY_RUN_REVIEWED; DISCOVERY_RUN_ACCEPTED;
   DISCOVERY_RUN_DELETED; DRIFT_ANALYSIS_CREATED; DRIFT_ITEM_REVIEWED;
   DRIFT_IDENTITY_CONFIRMED].

Lemma actions_found a :
  list_find (λ x, action_text x = action_text a) actions ≫= (λ p, Some p.2) = Some a.
Proof. destruct a; vm_compute; reflexivity. Qed.

#[export] Instance AuditAction_enum : StrEnum AuditAction := {
  members := actions;
  value := action_text;
  members_all := proj1 (enum_search actions action_text actions_found);
  value_inj := proj2 (enum_search actions action_text actions_found);
}.

(** * Entities *)
Record User := {
  u_id : uuid;
  u_email : string;
  u_name : string;
  u_password_hash : string;
  u_avatar_url : option string;
  u_email_verified_at : option instant;
  u_status : UserStatus;
  u_created_at : instant;
  u_updated_at : instant;
  u_deleted_at : option instant;
}.

Definition is_email_verified (u : User) : bool := if u_email_verified_at u is Some _ then true else false.
Definition can_sign_in (u : User) : bool := bool_decide (u_status u = USER_ACTIVE).

Record SingleUseToken := {
  t_id : uuid;
  t_user_id : uuid;
  t_token_hash : bytes;
  t_expires_at : instant;
  t_consumed_at : option instant;
  t_revoked_at : option instant;
  t_created_at : instant;
}.

Definition is_spent (t : SingleUseToken) : bool :=
  match t_consumed_at t, t_revoked_at t with None, None => false | _, _ => true end.

Record Session := {
  s_id : uuid;
  s_user_id : uuid;
  s_refresh_token_hash : bytes;
  s_previous_refresh_token_hash : option bytes;
  s_refreshed_at : option instant;
  s_expires_at : instant;
  s_last_used_at : option instant;
  s_revoked_at : option instant;
  s_revoked_reason : option SessionRevocationReason;
  s_user_agent : option string;
  s_ip_address : option string;
  s_created_at : instant;
}.

Definition is_active (s : Session) (now : instant) : bool :=
  (if s_revoked_at s is None then true else false) && (now <? s_expires_at s)%Z.

Record Organization := {
  o_id : uuid;
  o_name : string;
  o_created_at : instant;
  o_updated_at : instant;
  o_deleted_at : option instant;
}.

Record Membership := {
  m_id : uuid;
  m_organization_id : uuid;
  m_user_id : uuid;
  m_role : Role;
  m_created_at : instant;
  m_updated_at : instant;
}.

Record Invitation := {
  i_id : uuid;
  i_organization_id : uuid;
  i_email : string;
  i_role : Role;
  i_token_hash : bytes;
  i_invited_by_user_id : option uuid;
  i_accepted_by_user_id : option uuid;
  i_expires_at : instant;
  i_accepted_at : option instant;
  i_revoked_at : option instant;
  i_created_at : instant;
  i_updated_at : instant;
}.

Definition is_pending (i : Invitation) : bool :=
  match i_accepted_at i, i_revoked_at i with None, None => true | _, _ => false end.

Record ClientInfo := { user_agent : option string; ip_address : option string }.

Record AuditEvent := {
  a_action : AuditAction;
  a_actor_user_id : option uuid;
  a_organization_id : option uuid;
  a_resource_type : string;
  a_resource_id : uuid;
  a_metadata : dict string json;
}.

Record AuditEntry := {
  e_event : AuditEvent;
  e_ip_address : option string;
  e_user_agent : option string;
  e_created_at : instant;
}.

(** What is handed to the mailer, after the transaction that decided on it. *)
Inductive Mail :=
  | EmailVerification (to name token : string)
  | AccountExists (to name : string)
  | PasswordResetLink (to name token : string)
  | PasswordChangedNotice (to name : string)
  | InvitationLink (to inviter_name organization_name role token : string).

(** * The world *)
Record world := {
  users : gmap uuid User;
  email_verification_tokens : gmap uuid SingleUseToken;
  password_reset_tokens : gmap uuid SingleUseToken;
  sessions : gmap uuid Session;
  organizations : gmap uuid Organization;
  memberships : gmap uuid Membership;
  invitations : gmap uuid Invitation;
  audit : list AuditEntry;
  outbox : list Mail;
  clock : instant;
  client : ClientInfo;
}.

(** Both tables of single-use tokens have one shape and one repository. *)
Inductive token_table := VERIFICATION | RESET.

Definition tokens_of (t : token_table) (w : world) : gmap uuid SingleUseToken :=
  match t with VERIFICATION => email_verification_tokens w | RESET => password_reset_tokens w end.

Definition set_users (f : gmap uuid User → gmap uuid User) (w : world) : world := {|
  users := f (users w); email_verification_tokens := email_verification_tokens w;
  password_reset_tokens := password_reset_tokens w; sessions := sessions w;
  organizations := organizations w; memberships := memberships w; invitations := invitations w;
  audit := audit w; outbox := outbox w; clock := clock w; client := client w;
|}.

Definition set_tokens (t : token_table) (f : gmap uuid SingleUseToken → gmap uuid SingleUseToken)
    (w : world) : world := {|
  users := users w;
  email_verification_tokens :=
    if t is VERIFICATION then f (email_verification_tokens w) else email_verification_tokens w;
  password_reset_tokens := if t is RESET then f (password_reset_tokens w) else password_reset_tokens w;
  sessions := sessions w; organizations := organizations w; memberships := memberships w;
  invitations := invitations w; audit := audit w; outbox := outbox w; clock := clock w;
  client := client w;
|}.

Definition set_sessions (f : gmap uuid Session → gmap uuid Session) (w : world) : world := {|
  users := users w; email_verification_tokens := email_verification_tokens w;
  password_reset_tokens := password_reset_tokens w; sessions := f (sessions w);
  organizations := organizations w; memberships := memberships w; invitations := invitations w;
  audit := audit w; outbox := outbox w; clock := clock w; client := client w;
|}.

Definition set_organizations (f : gmap uuid Organization → gmap uuid Organization) (w : world) : world := {|
  users := users w; email_verification_tokens := email_verification_tokens w;
  password_reset_tokens := password_reset_tokens w; sessions := sessions w;
  organizations := f (organizations w); memberships := memberships w; invitations := invitations w;
  audit := audit w; outbox := outbox w; clock := clock w; client := client w;
|}.

Definition set_memberships (f : gmap uuid Membership → gmap uuid Membership) (w : world) : world := {|
  users := users w; email_verification_tokens := email_verification_tokens w;
  password_reset_tokens := password_reset_tokens w; sessions := sessions w;
  organizations := organizations w; memberships := f (memberships w); invitations := invitations w;
  audit := audit w; outbox := outbox w; clock := clock w; client := client w;
|}.

Definition set_invitations (f : gmap uuid Invitation → gmap uuid Invitation) (w : world) : world := {|
  users := users w; email_verification_tokens := email_verification_tokens w;
  password_reset_tokens := password_reset_tokens w; sessions := sessions w;
  organizations := organizations w; memberships := memberships w; invitations := f (invitations w);
  audit := audit w; outbox := outbox w; clock := clock w; client := client w;
|}.

Definition set_audit (f : list AuditEntry → list AuditEntry) (w : world) : world := {|
  users := users w; email_verification_tokens := email_verification_tokens w;
  password_reset_tokens := password_reset_tokens w; sessions := sessions w;
  organizations := organizations w; memberships := memberships w; invitations := invitations w;
  audit := f (audit w); outbox := outbox w; clock := clock w; client := client w;
|}.

Definition set_outbox (f : list Mail → list Mail) (w : world) : world := {|
  users := users w; email_verification_tokens := email_verification_tokens w;
  password_reset_tokens := password_reset_tokens w; sessions := sessions w;
  organizations := organizations w; memberships := memberships w; invitations := invitations w;
  audit := audit w; outbox := f (outbox w); clock := clock w; client := client w;
|}.

(** Between two requests: time has passed, and another client is asking. *)
Definition set_request (now : instant) (c : ClientInfo) (w : world) : world := {|
  users := users w; email_verification_tokens := email_verification_tokens w;
  password_reset_tokens := password_reset_tokens w; sessions := sessions w;
  organizations := organizations w; memberships := memberships w; invitations := invitations w;
  audit := audit w; outbox := outbox w; clock := now; client := c;
|}.

(** * Computations *)
Abbreviation io := (st world).

(** [self._mailer.send_...]: after the transaction. *)
Definition send (m : Mail) : io unit := modify (set_outbox (λ l, l ++ [m])).

(** ** The audit log *)
Fixpoint contains (pattern s : string) : bool :=
  String.prefix pattern s || match s with String _ r => contains pattern r | EmptyString => false end.

(** [_SECRET_KEY.search(key)], ignoring case. *)
Definition secret_key (key : string) : bool :=
  existsb (λ word, contains word (lower key))
    ["password"; "token"; "secret"; "hash"; "cookie"; "authorization"].

Definition AuditEvent_new (e : AuditEvent) : py AuditEvent :=
  match filter (λ k, secret_key k = true) (dict_keys (a_metadata e)) with
  | [] => Ok e
  | leaked => Raise (ValueError ("audit metadata must not contain secrets: ["
                                 +:+ join ", " (repr <$> leaked) +:+ "]"))
  end.

Definition MAX_USER_AGENT_LENGTH : nat := 512.

(** [(text or None) and text[:512]]. *)
Definition clipped_agent (agent : option string) : option string :=
  match agent with
  | Some s => if String.eqb s "" then None else Some (String.substring 0 MAX_USER_AGENT_LENGTH s)
  | None => None
  end.

(** The entry of an event: the origin of the request is attached. *)
Definition entry_of (e : AuditEvent) (w : world) : AuditEntry := {|
  e_event := e; e_ip_address := ip_address (client w);
  e_user_agent := clipped_agent (user_agent (client w)); e_created_at := clock w |}.

(** [uow.audit.record(AuditEvent(...))]. *)
Definition record (e : AuditEvent) : io unit :=
  e ← lift (AuditEvent_new e);
  modify (λ w, set_audit (λ l, l ++ [entry_of e w]) w).

(** * Repositories *)

(** ** Users (src/persistence/repositories/users.py) *)
Definition users_get (id : uuid) : io (option User) := query (λ w, users w !! id).

Definition users_get_by_email (email : string) : io (option User) :=
  query (λ w, head (where_ (λ u, bool_decide (lower (u_email u) = email)) (users w))).

(** The lock orders transactions; each transaction of the model is a single step. *)
Definition users_get_by_email_for_update : string → io (option User) := users_get_by_email.

Definition EmailAlreadyRegistered : exn :=
  DomainError "email_taken" "An account with this email already exists." [].

Record NewUser := { nu_email : string; nu_name : string; nu_password_hash : string }.

Definition users_add (id : uuid) (user : NewUser) : io User :=
  now ← query clock;
  taken ← users_get_by_email (lower (nu_email user));
  _ ← raise_when (if taken is Some _ then true else false) EmailAlreadyRegistered;
  let row := {|
    u_id := id; u_email := nu_email user; u_name := nu_name user;
    u_password_hash := nu_password_hash user; u_avatar_url := None; u_email_verified_at := None;
    u_status := USER_ACTIVE; u_created_at := now; u_updated_at := now; u_deleted_at := None |} in
  _ ← insert_row id row users set_users;
  mret row.

Definition users_mark_email_verified (id : uuid) (at_ : instant) : io unit :=
  modify (λ w, set_users (alter (λ u,
    if u_email_verified_at u is Some _ then u else {|
      u_id := u_id u; u_email := u_email u; u_name := u_name u; u_password_hash := u_password_hash u;
      u_avatar_url := u_avatar_url u; u_email_verified_at := Some at_; u_status := u_status u;
      u_created_at := u_created_at u; u_updated_at := clock w; u_deleted_at := u_deleted_at u |}) id) w).

Definition users_update_password_hash (id : uuid) (password_hash : string) : io unit :=
  modify (λ w, set_users (alter (λ u, {|
    u_id := u_id u; u_email := u_email u; u_name := u_name u; u_password_hash := password_hash;
    u_avatar_url := u_avatar_url u; u_email_verified_at := u_email_verified_at u;
    u_status := u_status u; u_created_at := u_created_at u; u_updated_at := clock w;
    u_deleted_at := u_deleted_at u |}) id) w).

Record ProfileChanges := {
  pc_name : option string; pc_avatar_url : option string; pc_keep_avatar : bool
}.

Definition users_update_profile (id : uuid) (changes : ProfileChanges) : io User :=
  _ ← modify (λ w, set_users (alter (λ u, {|
    u_id := u_id u; u_email := u_email u; u_name := default (u_name u) (pc_name changes);
    u_password_hash := u_password_hash u;
    u_avatar_url := if pc_keep_avatar changes then u_avatar_url u else pc_avatar_url changes;
    u_email_verified_at := u_email_verified_at u; u_status := u_status u;
    u_created_at := u_created_at u; u_updated_at := clock w; u_deleted_at := u_deleted_at u |}) id) w);
  found ← users_get id;
  if found is Some u then mret u else raise LookupError.

Record DeletedUserValues := { du_email : string; du_name : string; du_password_hash : string }.

Definition users_soft_delete (id : uuid) (tombstone : DeletedUserValues) (at_ : instant) : io unit :=
  modify (λ w, set_users (alter (λ u, {|
    u_id := u_id u; u_email := du_email tombstone; u_name := du_name tombstone;
    u_password_hash := du_password_hash tombstone; u_avatar_url := None; u_email_verified_at := None;
    u_status := USER_DELETED; u_created_at := u_created_at u; u_updated_at := clock w;
    u_deleted_at := Some at_ |}) id) w).

(** ** Single-use tokens (src/persistence/repositories/single_use_tokens.py) *)
Definition tokens_add (t : token_table) (id user_id : uuid) (token_hash : bytes)
    (expires_at created_at : instant) : io unit :=
  table ← query (tokens_of t);
  _ ← raise_when (existsb (λ x, bool_decide (t_token_hash x = token_hash)) (rows table))
        (IntegrityError "token_hash");
  _ ← references_row user_id users;
  insert_row id {|
    t_id := id; t_user_id := user_id; t_token_hash := token_hash; t_expires_at := expires_at;
    t_consumed_at := None; t_revoked_at := None; t_created_at := created_at |}
    (tokens_of t) (set_tokens t).

Definition tokens_get_by_hash_for_update (t : token_table) (token_hash : bytes) :
    io (option SingleUseToken) :=
  query (λ w, head (where_ (λ x, bool_decide (t_token_hash x = token_hash)) (tokens_of t w))).

Definition outstanding (user_id : uuid) (x : SingleUseToken) : bool :=
  bool_decide (t_user_id x = user_id) && negb (is_spent x).

(** [select max(created_at)]: [None] over no rows. *)
Definition max_of (l : list instant) : option instant :=
  match l with [] => None | x :: r => Some (foldr Z.max x r) end.

Definition tokens_latest_outstanding_created_at (t : token_table) (user_id : uuid) :
    io (option instant) :=
  query (λ w, max_of (t_created_at <$> where_ (outstanding user_id) (tokens_of t w))).

Definition token_revoked (at_ : instant) (x : SingleUseToken) : SingleUseToken := {|
  t_id := t_id x; t_user_id := t_user_id x; t_token_hash := t_token_hash x;
  t_expires_at := t_expires_at x; t_consumed_at := t_consumed_at x; t_revoked_at := Some at_;
  t_created_at := t_created_at x |}.

Definition tokens_revoke_outstanding (t : token_table) (user_id : uuid) (at_ : instant) : io unit :=
  modify (set_tokens t (update_where (outstanding user_id) (token_revoked at_))).

Definition token_consumed (at_ : instant) (x : SingleUseToken) : SingleUseToken := {|
  t_id := t_id x; t_user_id := t_user_id x; t_token_hash := t_token_hash x;
  t_expires_at := t_expires_at x; t_consumed_at := Some at_; t_revoked_at := t_revoked_at x;
  t_created_at := t_created_at x |}.

Definition tokens_mark_consumed (t : token_table) (id : uuid) (at_ : instant) : io unit :=
  modify (set_tokens t (alter (token_consumed at_) id)).

(** ** Sessions (src/persistence/repositories/sessions.py) *)
Record NewSession := {
  ns_user_id : uuid; ns_refresh_token_hash : bytes; ns_expires_at : instant; ns_created_at : instant;
  ns_user_agent : option string; ns_ip_address : option string
}.

Definition sessions_add (id : uuid) (s : NewSession) : io Session :=
  let row := {|
    s_id := id; s_user_id := ns_user_id s; s_refresh_token_hash := ns_refresh_token_hash s;
    s_previous_refresh_token_hash := None; s_refreshed_at := None; s_expires_at := ns_expires_at s;
    s_last_used_at := Some (ns_created_at s); s_revoked_at := None; s_revoked_reason := None;
    s_user_agent := ns_user_agent s; s_ip_address := ns_ip_address s;
    s_created_at := ns_created_at s |} in
  _ ← references_row (ns_user_id s) users;
  _ ← insert_row id row sessions set_sessions;
  mret row.

Definition sessions_get (id : uuid) : io (option Session) := query (λ w, sessions w !! id).
Definition sessions_get_for_update : uuid → io (option Session) := sessions_get.

(** [values(refresh_token_hash=new_hash, previous_refresh_token_hash=previous_hash, ...)]. *)
Definition rotated (new_hash previous_hash : bytes) (at_ : instant) (s : Session) : Session := {|
  s_id := s_id s; s_user_id := s_user_id s; s_refresh_token_hash := new_hash;
  s_previous_refresh_token_hash := Some previous_hash; s_refreshed_at := Some at_;
  s_expires_at := s_expires_at s; s_last_used_at := Some at_; s_revoked_at := s_revoked_at s;
  s_revoked_reason := s_revoked_reason s; s_user_agent := s_user_agent s;
  s_ip_address := s_ip_address s; s_created_at := s_created_at s |}.

Definition sessions_rotate (id : uuid) (new_hash previous_hash : bytes) (at_ : instant) : io unit :=
  modify (set_sessions (alter (rotated new_hash previous_hash at_) id)).

(** [values(revoked_at=at, revoked_reason=reason)]. *)
Definition revoked (reason : SessionRevocationReason) (at_ : instant) (s : Session) : Session := {|
  s_id := s_id s; s_user_id := s_user_id s; s_refresh_token_hash := s_refresh_token_hash s;
  s_previous_refresh_token_hash := s_previous_refresh_token_hash s; s_refreshed_at := s_refreshed_at s;
  s_expires_at := s_expires_at s; s_last_used_at := s_last_used_at s; s_revoked_at := Some at_;
  s_revoked_reason := Some reason; s_user_agent := s_user_agent s; s_ip_address := s_ip_address s;
  s_created_at := s_created_at s |}.

Definition is_revoked (s : Session) : bool := if s_revoked_at s is Some _ then true else false.

(** [UPDATE sessions ... WHERE revoked_at IS NULL AND cond]; the number of rows it changed. *)
Definition sessions_revoke_where (cond : Session → bool) (reason : SessionRevocationReason)
    (at_ : instant) : io nat :=
  let matching s := negb (is_revoked s) && cond s in
  n ← query (λ w, length (where_ matching (sessions w)));
  _ ← modify (set_sessions (update_where matching (revoked reason at_)));
  mret n.

Definition sessions_revoke (id : uuid) (reason : SessionRevocationReason) (at_ : instant) : io unit :=
  _ ← sessions_revoke_where (λ s, bool_decide (s_id s = id)) reason at_; mret tt.

(** Most recently used first, [NULL]s last; then by id, descending. *)
Definition last_used_geb (x y : option instant) : bool :=
  match x, y with
  | Some a, Some b => (b <=? a)%Z
  | Some _, None => true
  | None, Some _ => false
  | None, None => true
  end.

Definition recent_geb : Session → Session → bool :=
  on (λ s, (s_last_used_at s, s_id s)) (lex last_used_geb (λ x y, str_leb y x)).

Definition sessions_list_active (user_id : uuid) (now : instant) (limit : nat) : io (list Session) :=
  query (λ w, take limit (sort_by recent_geb (where_ (λ s,
    bool_decide (s_user_id s = user_id) && negb (is_revoked s) && (now <? s_expires_at s)%Z) (sessions w)))).

Definition sessions_revoke_owned (id user_id : uuid) (reason : SessionRevocationReason)
    (at_ : instant) : io bool :=
  n ← sessions_revoke_where (λ s,
        bool_decide (s_id s = id) && bool_decide (s_user_id s = user_id) && (at_ <? s_expires_at s)%Z)
        reason at_;
  mret (n =? 1)%nat.

Definition sessions_revoke_all_for_user (user_id : uuid) (reason : SessionRevocationReason)
    (at_ : instant) (keep : option uuid) : io nat :=
  sessions_revoke_where (λ s,
    bool_decide (s_user_id s = user_id) && (if keep is Some k then bool_decide (s_id s ≠ k) else true))
    reason at_.

(** ** Organizations (src/persistence/repositories/organizations.py) *)
Definition live (o : Organization) : bool := if o_deleted_at o is None then true else false.

Definition organizations_add (id : uuid) (name : string) : io Organization :=
  now ← query clock;
  let row := {| o_id := id; o_name := name; o_created_at := now; o_updated_at := now;
                o_deleted_at := None |} in
  _ ← insert_row id row organizations set_organizations;
  mret row.

Definition organizations_get_active (id : uuid) : io (option Organization) :=
  query (λ w, o ← organizations w !! id; if live o then Some o else None).

Definition organizations_rename (id : uuid) (name : string) : io Organization :=
  found ← organizations_get_active id;
  if found is Some o then
    now ← query clock;
    let row := {| o_id := o_id o; o_name := name; o_created_at := o_created_at o; o_updated_at := now;
                  o_deleted_at := o_deleted_at o |} in
    _ ← modify (set_organizations (<[id := row]>));
    mret row
  else raise LookupError.

Definition organizations_soft_delete (id : uuid) (at_ : instant) : io unit :=
  modify (λ w, set_organizations (alter (λ o,
    if live o then {|
      o_id := o_id o; o_name := o_name o; o_created_at := o_created_at o; o_updated_at := clock w;
      o_deleted_at := Some at_ |} else o) id) w).

(** Whether the live organization exists (its row is locked). *)
Definition organizations_lock_active (id : uuid) : io bool :=
  query (λ w, if organizations w !! id is Some o then live o else false).

(** ** Memberships *)
Definition memberships_add (id organization_id user_id : uuid) (role : Role) : io Membership :=
  now ← query clock;
  ms ← query memberships;
  _ ← raise_when (existsb (λ m, bool_decide (m_organization_id m = organization_id) &&
                                bool_decide (m_user_id m = user_id)) (rows ms))
        (IntegrityError "organization_id_user_id");
  _ ← references_row organization_id organizations;
  _ ← references_row user_id users;
  let row := {| m_id := id; m_organization_id := organization_id; m_user_id := user_id;
                m_role := role; m_created_at := now; m_updated_at := now |} in
  _ ← insert_row id row memberships set_memberships;
  mret row.

Definition memberships_get_for_user (organization_id user_id : uuid) : io (option Membership) :=
  query (λ w, head (where_ (λ m, bool_decide (m_organization_id m = organization_id) &&
                                 bool_decide (m_user_id m = user_id)) (memberships w))).

Definition memberships_get (organization_id membership_id : uuid) : io (option Membership) :=
  query (λ w, m ← memberships w !! membership_id;
              if bool_decide (m_organization_id m = organization_id) then Some m else None).

(** [OrganizationWithRole]. *)
Definition memberships_get_in_active_organization (organization_id user_id : uuid) :
    io (option (Organization * Membership)) :=
  o ← organizations_get_active organization_id;
  m ← memberships_get_for_user organization_id user_id;
  mret (o ← o; m ← m; Some (o, m)).

(** By the organization's lower-case name, then its id. *)
Definition memberships_list_for_user (user_id : uuid) : io (list (Organization * Membership)) :=
  query (λ w,
    sort_by (on (λ p, (lower (o_name p.1), o_id p.1)) (lex str_leb str_leb))
      (omap (λ m, o ← organizations w !! m_organization_id m; if live o then Some (o, m) else None)
         (where_ (λ m, bool_decide (m_user_id m = user_id)) (memberships w)))).

Definition is_owner_of (organization_id : uuid) (m : Membership) : bool :=
  bool_decide (m_organization_id m = organization_id) && bool_decide (m_role m = OWNER).

Definition memberships_count_owners (organization_id : uuid) : io nat :=
  query (λ w, length (where_ (is_owner_of organization_id) (memberships w))).

Definition memberships_update_role (id : uuid) (role : Role) : io Membership :=
  now ← query clock;
  ms ← query memberships;
  if ms !! id is Some m then
    let row := {| m_id := m_id m; m_organization_id := m_organization_id m; m_user_id := m_user_id m;
                  m_role := role; m_created_at := m_created_at m; m_updated_at := now |} in
    _ ← modify (set_memberships (<[id := row]>));
    mret row
  else raise LookupError.

Definition memberships_delete (id : uuid) : io unit := modify (set_memberships (delete id)).

Record OwnedOrganization := { oo_organization_id : uuid; oo_owner_count : nat; oo_member_count : nat }.

(** The live organizations the user owns, with how many owners and members each has. *)
Definition memberships_owned_by (user_id : uuid) : io (list OwnedOrganization) :=
  query (λ w,
    let mine := where_ (λ m, bool_decide (m_user_id m = user_id) && bool_decide (m_role m = OWNER) &&
                             (if organizations w !! m_organization_id m is Some o then live o else false))
                  (memberships w) in
    map (λ id, {| oo_organization_id := id;
                  oo_owner_count := length (where_ (is_owner_of id) (memberships w));
                  oo_member_count :=
                    length (where_ (λ m, bool_decide (m_organization_id m = id)) (memberships w)) |})
      (sorted_set (m_organization_id <$> mine))).

Definition memberships_delete_all_for_user (user_id : uuid) : io unit :=
  modify (set_memberships (filter (λ p, m_user_id p.2 ≠ user_id))).

(** [MemberView]: a membership with the member's public profile. *)
Record MemberView := {
  mv_membership : Membership; mv_name : string; mv_email : string; mv_avatar_url : option string
}.

(** Listing order: owners first, then by name. *)
Definition role_order (r : Role) : nat :=
  match r with OWNER => 0 | ADMIN => 1 | MEMBER => 2 | VIEWER => 3 end.

Definition memberships_list_members (organization_id : uuid) : io (list MemberView) :=
  query (λ w,
    sort_by (on (λ v, (role_order (m_role (mv_membership v)),
                       (lower (mv_name v), m_id (mv_membership v))))
              (lex nat_leb (lex str_leb str_leb)))
      (omap (λ m, u ← users w !! m_user_id m;
                  Some {| mv_membership := m; mv_name := u_name u; mv_email := u_email u;
                          mv_avatar_url := u_avatar_url u |})
         (where_ (λ m, bool_decide (m_organization_id m = organization_id)) (memberships w)))).

(** ** Invitations (src/persistence/repositories/invitations.py) *)
Definition pending_for (organization_id : uuid) (email : string) (i : Invitation) : bool :=
  bool_decide (i_organization_id i = organization_id) && bool_decide (lower (i_email i) = email) &&
  is_pending i.

Definition invitations_add (id organization_id : uuid) (email : string) (role : Role)
    (token_hash : bytes) (invited_by_user_id : uuid) (expires_at created_at : instant) : io Invitation :=
  now ← query clock;
  is_ ← query invitations;
  _ ← raise_when (existsb (λ i, bool_decide (i_token_hash i = token_hash)) (rows is_))
        (IntegrityError "token_hash");
  _ ← raise_when (existsb (pending_for organization_id (lower email)) (rows is_))
        (IntegrityError "uq_invitations_pending_email");
  _ ← references_row organization_id organizations;
  _ ← references_row invited_by_user_id users;
  let row := {|
    i_id := id; i_organization_id := organization_id; i_email := email; i_role := role;
    i_token_hash := token_hash; i_invited_by_user_id := Some invited_by_user_id;
    i_accepted_by_user_id := None; i_expires_at := expires_at; i_accepted_at := None;
    i_revoked_at := None; i_created_at := created_at; i_updated_at := now |} in
  _ ← insert_row id row invitations set_invitations;
  mret row.

(** Newest first, then by id, descending. *)
Definition invitations_list_pending (organization_id : uuid) : io (list Invitation) :=
  query (λ w,
    sort_by (on (λ i, (i_created_at i, i_id i))
              (lex (λ x y, Z_leb y x) (λ x y, str_leb y x)))
      (where_ (λ i, bool_decide (i_organization_id i = organization_id) && is_pending i) (invitations w))).

Definition invitations_get_pending (organization_id invitation_id : uuid) : io (option Invitation) :=
  query (λ w, i ← invitations w !! invitation_id;
              if bool_decide (i_organization_id i = organization_id) && is_pending i then Some i else None).

Definition invitations_get_by_hash_for_update (token_hash : bytes) : io (option Invitation) :=
  query (λ w, head (where_ (λ i, bool_decide (i_token_hash i = token_hash)) (invitations w))).

(** [values(revoked_at=at, updated_at=func.now())]. *)
Definition withdrawn (at_ now : instant) (i : Invitation) : Invitation := {|
  i_id := i_id i; i_organization_id := i_organization_id i; i_email := i_email i; i_role := i_role i;
  i_token_hash := i_token_hash i; i_invited_by_user_id := i_invited_by_user_id i;
  i_accepted_by_user_id := i_accepted_by_user_id i; i_expires_at := i_expires_at i;
  i_accepted_at := i_accepted_at i; i_revoked_at := Some at_; i_created_at := i_created_at i;
  i_updated_at := now |}.

Definition invitations_revoke_pending_for_email (organization_id : uuid) (email : string)
    (at_ : instant) : io unit :=
  modify (λ w, set_invitations
    (update_where (pending_for organization_id email) (withdrawn at_ (clock w))) w).

Definition invitations_revoke (id : uuid) (at_ : instant) : io unit :=
  modify (λ w, set_invitations
    (alter (λ i, if is_pending i then withdrawn at_ (clock w) i else i) id) w).

(** [values(accepted_at=at, accepted_by_user_id=user_id, updated_at=func.now())]. *)
Definition accepted (user_id : uuid) (at_ now : instant) (i : Invitation) : Invitation := {|
  i_id := i_id i; i_organization_id := i_organization_id i; i_email := i_email i; i_role := i_role i;
  i_token_hash := i_token_hash i; i_invited_by_user_id := i_invited_by_user_id i;
  i_accepted_by_user_id := Some user_id; i_expires_at := i_expires_at i; i_accepted_at := Some at_;
  i_revoked_at := i_revoked_at i; i_created_at := i_created_at i; i_updated_at := now |}.

Definition invitations_mark_accepted (id user_id : uuid) (at_ : instant) : io unit :=
  modify (λ w, set_invitations (alter (accepted user_id at_ (clock w)) id) w).
