(* ===== verification/Transactions.v ===== *)
(** Reasoning about computations over the stored data: the operations of [Store] read as one query or
    update each ([io_steps]), and the tables of an updated world ([world_simpl]). *)
From Stdlib Require Import Lia ZArith.
From S2P Require Import Prelude Data Errors Computations Store.

Lemma record_ok e w u w' :
  record e w = (Ok u, w') → w' = set_audit (λ l, l ++ [entry_of e w]) w.
Proof.
  unfold record, AuditEvent_new. destruct (filter _ _); [|done]. by intros [= <- <-].
Qed.

Lemma record_run e w :
  filter (λ k, secret_key k = true) (dict_keys (a_metadata e)) = [] →
  record e w = (Ok tt, set_audit (λ l, l ++ [entry_of e w]) w).
Proof. intros Hk. unfold record, AuditEvent_new. by rewrite Hk. Qed.

(** [io_inv], reading the audit log's entries too. *)
Ltac world_inv := repeat (io_inv; match goal with
  | H : record _ _ = (Ok _, _) |- _ => apply record_ok in H as ->
  end); io_inv.

(** The elementary operations that one query or one update makes up. *)
Create HintDb io.
#[export] Hint Unfold users_get users_get_by_email users_get_by_email_for_update
  users_mark_email_verified users_update_password_hash users_soft_delete
  tokens_get_by_hash_for_update tokens_latest_outstanding_created_at tokens_revoke_outstanding
  tokens_mark_consumed sessions_get sessions_get_for_update sessions_rotate sessions_revoke
  sessions_revoke_where sessions_list_active sessions_revoke_all_for_user sessions_revoke_owned
  organizations_get_active organizations_soft_delete organizations_lock_active
  memberships_get_for_user memberships_get memberships_get_in_active_organization
  memberships_list_for_user memberships_count_owners memberships_delete memberships_owned_by
  memberships_delete_all_for_user memberships_list_members invitations_list_pending
  invitations_get_pending invitations_get_by_hash_for_update invitations_revoke_pending_for_email
  invitations_revoke invitations_mark_accepted send : io.

(** [world_inv], reading the elementary operations. *)
Ltac io_steps := autounfold with io in *; world_inv.

(** The tables of an updated world. *)
Ltac world_simpl :=
  cbn [users email_verification_tokens password_reset_tokens sessions organizations memberships
       invitations audit outbox clock client tokens_of set_users set_tokens set_sessions
       set_organizations set_memberships set_invitations set_audit set_outbox set_request] in *.
