(* ===== verification/Policy.v ===== *)
(** Roles, permissions and who may change whose membership
    (src/core/domain/organizations: permissions.py, membership_policy.py, errors.py).

    The matrix is [ROLE_PERMISSIONS]; the rules that depend on the target are the three [check_]
    functions, which return or raise.  The facts at the end are what the services rely on. *)
From Stdlib Require Import Lia.
From S2P Require Import Prelude Data Errors Computations Store.

(** * The permission matrix (permissions.py) *)
Inductive Permission :=
  | ORGANIZATION_READ | ORGANIZATION_UPDATE | ORGANIZATION_DELETE | MEMBER_READ | MEMBER_INVITE
  | MEMBER_REMOVE | MEMBER_UPDATE_ROLE | AUDIT_READ | PRICING_MANAGE | PROJECT_READ
  | PROJECT_CREATE | PROJECT_UPDATE | PROJECT_ARCHIVE | PROJECT_DELETE | PROJECT_POLICY_UPDATE
  | REQUIREMENT_READ | REQUIREMENT_CREATE | REQUIREMENT_UPDATE | REQUIREMENT_DELETE
  | REQUIREMENT_SET_CREATE | ARCHITECTURE_READ | ARCHITECTURE_CREATE | ARCHITECTURE_UPDATE
  | ARCHITECTURE_DELETE | ARCHITECTURE_VALIDATE | ARCHITECTURE_ANALYZE | ARCHITECTURE_SIMULATE
  | ARCHITECTURE_EVOLVE | ARCHITECTURE_DISCOVER | ARCHITECTURE_DRIFT | MIGRATION_PLAN
  | MIGRATION_APPROVE.

#[export] Instance Permission_eq_dec : EqDecision Permission.
Proof. solve_decision. Defined.

Definition permission_text (p : Permission) : string :=
  match p with
  | ORGANIZATION_READ => "organization.read"
  | ORGANIZATION_UPDATE => "organization.update"
  | ORGANIZATION_DELETE => "organization.delete"
  | MEMBER_READ => "member.read"
  | MEMBER_INVITE => "member.invite"
  | MEMBER_REMOVE => "member.remove"
  | MEMBER_UPDATE_ROLE => "member.update_role"
  | AUDIT_READ => "audit.read"
  | PRICING_MANAGE => "pricing.manage"
  | PROJECT_READ => "project.read"
  | PROJECT_CREATE => "project.create"
  | PROJECT_UPDATE => "project.update"
  | PROJECT_ARCHIVE => "project.archive"
  | PROJECT_DELETE => "project.delete"
  | PROJECT_POLICY_UPDATE => "project.policy_update"
  | REQUIREMENT_READ => "requirement.read"
  | REQUIREMENT_CREATE => "requirement.create"
  | REQUIREMENT_UPDATE => "requirement.update"
  | REQUIREMENT_DELETE => "requirement.delete"
  | REQUIREMENT_SET_CREATE => "requirement_set.create"
  | ARCHITECTURE_READ => "architecture.read"
  | ARCHITECTURE_CREATE => "architecture.create"
  | ARCHITECTURE_UPDATE => "architecture.update"
  | ARCHITECTURE_DELETE => "architecture.delete"
  | ARCHITECTURE_VALIDATE => "architecture.validate"
  | ARCHITECTURE_ANALYZE => "architecture.analyze"
  | ARCHITECTURE_SIMULATE => "architecture.simulate"
  | ARCHITECTURE_EVOLVE => "architecture.evolve"
  | ARCHITECTURE_DISCOVER => "architecture.discover"
  | ARCHITECTURE_DRIFT => "architecture.drift"
  | MIGRATION_PLAN => "migration.plan"
  | MIGRATION_APPROVE => "migration.approve"
  end.

(** [frozenset(Permission)]. *)
Definition permissions : list Permission :=
  [ORGANIZATION_READ; ORGANIZATION_UPDATE; ORGANIZATION_DELETE; MEMBER_READ; MEMBER_INVITE;
   MEMBER_REMOVE; MEMBER_UPDATE_ROLE; AUDIT_READ; PRICING_MANAGE; PROJECT_READ; PROJECT_CREATE;
   PROJECT_UPDATE; PROJECT_ARCHIVE; PROJECT_DELETE; PROJECT_POLICY_UPDATE; REQUIREMENT_READ;
   REQUIREMENT_CREATE; REQUIREMENT_UPDATE; REQUIREMENT_DELETE; REQUIREMENT_SET_CREATE;
   ARCHITECTURE_READ; ARCHITECTURE_CREATE; ARCHITECTURE_UPDATE; ARCHITECTURE_DELETE;
   ARCHITECTURE_VALIDATE; ARCHITECTURE_ANALYZE; ARCHITECTURE_SIMULATE; ARCHITECTURE_EVOLVE;
   ARCHITECTURE_DISCOVER; ARCHITECTURE_DRIFT; MIGRATION_PLAN; MIGRATION_APPROVE].

Lemma permissions_found p :
  list_find (λ x, permission_text x = permission_text p) permissions ≫= (λ q, Some q.2) = Some p.
Proof. destruct p; vm_compute; reflexivity. Qed.

#[export] Instance Permission_enum : StrEnum Permission := {
  members := permissions;
  value := permission_text;
  members_all := proj1 (enum_search permissions permission_text permissions_found);
  value_inj := proj2 (enum_search permissions permission_text permissions_found);
}.

Definition VIEWER_PERMISSIONS : list Permission :=
  [ORGANIZATION_READ; MEMBER_READ; PROJECT_READ; REQUIREMENT_READ; ARCHITECTURE_READ].

Definition MEMBER_PERMISSIONS : list Permission :=
  VIEWER_PERMISSIONS ++ [PROJECT_CREATE; PROJECT_UPDATE; REQUIREMENT_CREATE; REQUIREMENT_UPDATE;
   REQUIREMENT_DELETE; REQUIREMENT_SET_CREATE; ARCHITECTURE_CREATE; ARCHITECTURE_UPDATE;
   ARCHITECTURE_VALIDATE; ARCHITECTURE_ANALYZE; ARCHITECTURE_SIMULATE; ARCHITECTURE_EVOLVE;
   ARCHITECTURE_DISCOVER; ARCHITECTURE_DRIFT; MIGRATION_PLAN].

Definition ADMIN_PERMISSIONS : list Permission :=
  MEMBER_PERMISSIONS ++ [ORGANIZATION_UPDATE; MEMBER_INVITE; MEMBER_REMOVE; MEMBER_UPDATE_ROLE;
   AUDIT_READ; PRICING_MANAGE; PROJECT_ARCHIVE; PROJECT_DELETE; PROJECT_POLICY_UPDATE;
   ARCHITECTURE_DELETE; MIGRATION_APPROVE].

Definition ROLE_PERMISSIONS (r : Role) : list Permission :=
  match r with
  | OWNER => permissions
  | ADMIN => ADMIN_PERMISSIONS
  | MEMBER => MEMBER_PERMISSIONS
  | VIEWER => VIEWER_PERMISSIONS
  end.

Definition has_permission (r : Role) (p : Permission) : bool := bool_decide (p ∈ ROLE_PERMISSIONS r).

(** * Errors (errors.py) *)
Definition OrganizationNotFound : exn :=
  DomainError "organization_not_found" "Organization not found." [].
Definition PermissionDenied : exn :=
  DomainError "permission_denied" "Your role in this organization does not allow this." [].
Definition EmailNotVerified : exn :=
  DomainError "email_not_verified" "Verify your email address first." [].
Definition InvalidOrganizationName : exn :=
  DomainError "invalid_organization_name"
    "Enter an organization name between 1 and 100 characters." [].
Definition MemberNotFound : exn := DomainError "member_not_found" "Member not found." [].
Definition CannotChangeOwnRole : exn :=
  DomainError "cannot_change_own_role"
    "You cannot change your own role. Ask another owner or admin." [].
Definition RoleNotManageable : exn :=
  DomainError "role_not_manageable"
    "You can only manage members, and assign roles, below your own role." [].
Definition LastOwner : exn :=
  DomainError "last_owner"
    "An organization must keep at least one owner. Make someone else an owner first." [].
Definition InvitationNotFound : exn :=
  DomainError "invitation_not_found" "Invitation not found." [].
Definition InvalidInvitation : exn :=
  DomainError "invalid_invitation" "This invitation is invalid or has already been used." [].
Definition InvitationExpired : exn :=
  DomainError "invitation_expired" "This invitation has expired. Ask for a new one." [].
Definition InvitationEmailMismatch : exn :=
  DomainError "invitation_email_mismatch"
    "This invitation was sent to a different email address. Sign in with that address." [].
Definition AlreadyMember : exn :=
  DomainError "already_member" "This person is already a member of the organization." [].
Definition OwnerInvitationNotAllowed : exn :=
  DomainError "owner_invitation_not_allowed"
    "Invite as admin, member or viewer. Ownership is granted by changing a member's role." [].

(** * The membership policy (membership_policy.py) *)
Definition RANK (r : Role) : nat :=
  match r with VIEWER => 0 | MEMBER => 1 | ADMIN => 2 | OWNER => 3 end.

Definition outranks (actor other : Role) : bool :=
  bool_decide (actor = OWNER) || (RANK other <? RANK actor)%nat.

Definition check_role_change (actor target new_role : Role) (is_self : bool) (owner_count : nat) :
    py unit :=
  if negb (has_permission actor MEMBER_UPDATE_ROLE) then Raise PermissionDenied
  else if is_self then Raise CannotChangeOwnRole
  else if negb (outranks actor target && outranks actor new_role) then Raise RoleNotManageable
  else if bool_decide (target = OWNER) && bool_decide (new_role ≠ OWNER) && (owner_count <=? 1)%nat
  then Raise LastOwner
  else Ok tt.

Definition check_removal (actor target : Role) (is_self : bool) (owner_count : nat) : py unit :=
  if negb is_self && negb (has_permission actor MEMBER_REMOVE) then Raise PermissionDenied
  else if negb is_self && negb (outranks actor target) then Raise RoleNotManageable
  else if bool_decide (target = OWNER) && (owner_count <=? 1)%nat then Raise LastOwner
  else Ok tt.

Definition check_invitation (actor role : Role) : py unit :=
  if negb (has_permission actor MEMBER_INVITE) then Raise PermissionDenied
  else if bool_decide (role = OWNER) then Raise OwnerInvitationNotAllowed
  else if negb (outranks actor role) then Raise RoleNotManageable
  else Ok tt.

(** * Facts *)
Lemma has_permission_rank r r' p :
  (RANK r <= RANK r')%nat → has_permission r p = true → has_permission r' p = true.
Proof. destruct r, r', p; vm_compute; (done || lia). Qed.

Lemma outranks_spec actor other :
  outranks actor other = true ↔ actor = OWNER ∨ (RANK other < RANK actor)%nat.
Proof. destruct actor, other; vm_compute; split; intros; (done || naive_solver lia). Qed.

Lemma managers actor :
  has_permission actor MEMBER_UPDATE_ROLE = true ↔ (2 <= RANK actor)%nat.
Proof. destruct actor; vm_compute; split; intros; (done || lia). Qed.

Lemma check_role_change_ok actor target new_role is_self n :
  check_role_change actor target new_role is_self n = Ok tt →
  (2 <= RANK actor)%nat ∧ is_self = false ∧ outranks actor target = true ∧
  outranks actor new_role = true ∧ (target = OWNER → new_role ≠ OWNER → (2 <= n)%nat).
Proof.
  unfold check_role_change. rewrite <- managers.
  destruct (has_permission actor MEMBER_UPDATE_ROLE); [|done].
  destruct is_self; [done|]. destruct (outranks actor target), (outranks actor new_role); try done.
  simpl. case_bool_decide; [|naive_solver]. case_bool_decide; [|naive_solver].
  destruct (n <=? 1)%nat eqn:E; [done|]. apply Nat.leb_gt in E. naive_solver lia.
Qed.

Lemma check_removal_ok actor target is_self n :
  check_removal actor target is_self n = Ok tt →
  (is_self = false → (2 <= RANK actor)%nat ∧ outranks actor target = true) ∧
  (target = OWNER → (2 <= n)%nat).
Proof.
  unfold check_removal. destruct is_self; simpl.
  - case_bool_decide; [|naive_solver]. destruct (n <=? 1)%nat eqn:E; [done|].
    apply Nat.leb_gt in E. naive_solver lia.
  - destruct (has_permission actor MEMBER_REMOVE) eqn:Hp; [|done]. simpl.
    assert (2 <= RANK actor)%nat as Hr by (destruct actor; vm_compute in Hp |- *; (done || lia)).
    destruct (outranks actor target); [|done]. simpl.
    case_bool_decide; [|naive_solver]. destruct (n <=? 1)%nat eqn:E; [done|].
    apply Nat.leb_gt in E. naive_solver lia.
Qed.

Lemma check_invitation_ok actor role :
  check_invitation actor role = Ok tt →
  (2 <= RANK actor)%nat ∧ role ≠ OWNER ∧ outranks actor role = true.
Proof. destruct actor, role; vm_compute; (done || naive_solver lia). Qed.

Lemma check_invitation_role actor role u : check_invitation actor role = Ok u → role ≠ OWNER.
Proof. destruct u. intros H. by apply check_invitation_ok in H as (_ & ? & _). Qed.
