(* ===== verification/Identity.v ===== *)
(** Identity: registration, sign-in, sessions, passwords, profiles and account deletion
    (src/core/domain/identity: value_objects.py, passwords.py, auth_service.py, session_service.py,
    password_service.py, user_service.py; src/core/domain/organizations/membership_service.py for
    [release_memberships]).

    A service method is a computation of type [io].  What it takes from outside the program is an
    argument: [draws] gives the clock reading, the ids, the secret and the salt it draws;
    [Externals] gives Argon2, the email validator, URL splitting and the two Unicode foldings. *)
From Stdlib Require Import Ascii ZArith.
From S2P Require Import Prelude Data Codecs Errors Values Tokens Computations Store.

(** * What is not under src/ *)
Record split_url := {
  url_scheme : string; url_hostname : option string; url_username : option string;
  url_password : option string
}.

Class Externals := {
  argon2_hash (salt password : string) : string;
  argon2_verify (password_hash password : string) : bool;   (* an error is not a match *)
  argon2_check_needs_rehash (password_hash : string) : bool;
  argon2_dummy_hash : string;
  validate_email (candidate : string) : option string;      (* [None]: [EmailNotValidError] *)
  urlsplit (url : string) : option split_url;               (* [None]: [ValueError] *)
  normalize_password (password : string) : string;          (* [unicodedata.normalize("NFKC", _)] *)
  casefold (text : string) : string;
}.

(** What one service call draws from outside. *)
Record draws := { now : instant; new_id : uuid; new_id2 : uuid; fresh_secret : string; fresh_salt : string }.

(** * Errors (errors.py) *)
Definition InvalidEmail : exn := DomainError "invalid_email" "Enter a valid email address." [].
Definition InvalidName : exn :=
  DomainError "invalid_name" "Enter a name between 1 and 80 characters." [].
Definition WeakPassword (reasons : list string) : exn :=
  DomainError "weak_password" "Choose a stronger password." [("reasons", JArr (JStr <$> reasons))].
Definition InvalidToken : exn :=
  DomainError "invalid_token" "This link is invalid or has already been used." [].
Definition TokenExpired : exn :=
  DomainError "token_expired" "This link has expired. Request a new one." [].
Definition InvalidCredentials : exn :=
  DomainError "invalid_credentials" "Email or password is incorrect." [].
Definition AccountDisabled : exn :=
  DomainError "account_disabled" "This account has been disabled." [].
Definition InvalidRefreshToken : exn :=
  DomainError "invalid_refresh_token" "Your session is no longer valid. Sign in again." [].
Definition SessionExpired : exn :=
  DomainError "session_expired" "Your session has expired. Sign in again." [].
Definition SessionRevoked : exn :=
  DomainError "session_revoked" "Your session is no longer valid. Sign in again." [].
Definition RefreshConflict : exn :=
  DomainError "refresh_conflict" "Your session was refreshed by another request. Retry." [].
Definition SessionNotFound : exn := DomainError "session_not_found" "Session not found." [].
Definition IncorrectPassword : exn :=
  DomainError "incorrect_password" "Your current password is incorrect." [].
Definition InvalidAvatarUrl : exn :=
  DomainError "invalid_avatar_url" "The avatar must be an https URL from an allowed image host." [].
Definition NothingToUpdate : exn :=
  DomainError "nothing_to_update" "Provide at least one field to update." [].
Definition SoleOwnerOfOrganization (ids : list uuid) : exn :=
  DomainError "sole_owner_of_organization"
    "You are the only owner of an organization that has other members. Transfer ownership first."
    [("organizationIds", JArr (JStr <$> ids))].

Section identity.
Context `{Externals}.

(** * Normalized values (value_objects.py) *)
Definition MAX_EMAIL_LENGTH : nat := 320.
Definition MAX_NAME_LENGTH : nat := 80.
Definition MAX_AVATAR_URL_LENGTH : nat := 2048.
Definition DELETED_EMAIL_DOMAIN : string := "deleted.invalid".
Definition DELETED_USER_NAME : string := "Deleted user".

Definition normalize_email (raw : string) : py string :=
  let candidate := strip raw in
  if String.eqb candidate "" || (MAX_EMAIL_LENGTH <? String.length candidate) then Raise InvalidEmail
  else match validate_email candidate with
       | Some normalized => Ok (lower normalized)
       | None => Raise InvalidEmail
       end.

Definition normalize_name (raw : string) : py string :=
  let name := clean_line raw in
  if String.eqb name "" || (MAX_NAME_LENGTH <? String.length name) then Raise InvalidName
  else if negb (str_forall (λ c, negb (is_control c)) name) then Raise InvalidName
  else Ok name.

Definition normalize_avatar_url (raw : string) (allowed_hosts : list string) : py string :=
  let url := strip raw in
  if String.eqb url "" || (MAX_AVATAR_URL_LENGTH <? String.length url)
     || negb (str_forall (λ c, negb (is_space c)) url)
  then Raise InvalidAvatarUrl
  else match urlsplit url with
       | None => Raise InvalidAvatarUrl
       | Some parts =>
           let host := lower (default "" (url_hostname parts)) in
           if negb (String.eqb (lower (url_scheme parts)) "https") || String.eqb host ""
              || (if url_username parts is Some _ then true else false)
              || (if url_password parts is Some _ then true else false)
           then Raise InvalidAvatarUrl
           else if negb (bool_decide (allowed_hosts = [])) && negb (bool_decide (host ∈ allowed_hosts))
           then Raise InvalidAvatarUrl
           else Ok url
       end.

(** [user_id.hex]: the digits of its text. *)
Definition uuid_hex (id : uuid) : string := text_of (filter (λ c, code c ≠ 45) (chars_of id)).
Definition tombstone_email (user_id : uuid) : string :=
  "deleted+" +:+ uuid_hex user_id +:+ "@" +:+ DELETED_EMAIL_DOMAIN.

(** * Passwords (passwords.py) *)
Inductive PasswordIssue := TOO_SHORT | TOO_LONG | BLANK | COMMON | CONTAINS_EMAIL.

#[export] Instance PasswordIssue_eq_dec : EqDecision PasswordIssue.
Proof using. solve_decision. Defined.

#[export, refine] Instance PasswordIssue_enum : StrEnum PasswordIssue := {
  members := [TOO_SHORT; TOO_LONG; BLANK; COMMON; CONTAINS_EMAIL];
  value i := match i with
             | TOO_SHORT => "too_short"
             | TOO_LONG => "too_long"
             | BLANK => "blank"
             | COMMON => "common"
             | CONTAINS_EMAIL => "contains_email"
             end;
}.
Proof using. all: solve_enum. Defined.

Definition ABSOLUTE_MAX_LENGTH : nat := 128.
Definition MIN_PERSONAL_FRAGMENT : nat := 4.

Record PasswordPolicy := { min_length : nat; max_length : nat; common_passwords : string → bool }.

Definition PasswordPolicy_new (p : PasswordPolicy) : py PasswordPolicy :=
  if (8 <=? min_length p)%nat && (min_length p <=? max_length p)%nat
     && (max_length p <=? ABSOLUTE_MAX_LENGTH)%nat
  then Ok p
  else Raise (ValueError "password lengths must satisfy 8 <= min <= max <= 128").

Definition contains_email (password email : string) : bool :=
  let local_part := text_of (default (chars_of email) (fst <$> partition 64 (chars_of email))) in
  contains email password
  || ((MIN_PERSONAL_FRAGMENT <=? String.length local_part)%nat && contains local_part password).

Definition issues (p : PasswordPolicy) (password email : string) : list PasswordIssue :=
  let candidate := normalize_password password in
  let folded := casefold candidate in
  (if (String.length candidate <? min_length p)%nat then [TOO_SHORT] else [])
  ++ (if (max_length p <? String.length candidate)%nat then [TOO_LONG] else [])
  ++ (if String.eqb (strip candidate) "" then [BLANK] else [])
  ++ (if common_passwords p folded then [COMMON] else [])
  ++ (if negb (String.eqb email "") && contains_email folded (casefold email)
      then [CONTAINS_EMAIL] else []).

Definition validate_password (p : PasswordPolicy) (password email : string) : py unit :=
  match issues p password email with
  | [] => Ok tt
  | found => Raise (WeakPassword (value <$> found))
  end.

Definition hash (salt password : string) : string := argon2_hash salt (normalize_password password).
Definition verify (password_hash password : string) : bool :=
  argon2_verify password_hash (normalize_password password).

(** [AuditEvent(action, actor_user_id=..., resource_type=..., resource_id=..., metadata=...)]. *)
Definition event (action : AuditAction) (actor : option uuid) (resource_type : string)
    (resource_id : uuid) (metadata : dict string json) : AuditEvent := {|
  a_action := action; a_actor_user_id := actor; a_organization_id := None;
  a_resource_type := resource_type; a_resource_id := resource_id; a_metadata := metadata |}.

(** * Registration and email verification (auth_service.py) *)
Record VerificationSettings := { ttl : Z; resend_cooldown : Z }.

(** [now - latest < cooldown], for the latest of the outstanding tokens. *)
Definition throttled (now : instant) (latest : option instant) (cooldown : Z) : bool :=
  if latest is Some t then (now - t <? cooldown)%Z else false.

Section auth_service.
Context (policy : PasswordPolicy) (verification : VerificationSettings).

Definition issue_verification (d : draws) (user : User) : io (option Mail) :=
  latest ← tokens_latest_outstanding_created_at VERIFICATION (u_id user);
  if throttled (now d) latest (resend_cooldown verification) then mret None
  else
    _ ← tokens_revoke_outstanding VERIFICATION (u_id user) (now d);
    expires ← later (now d) (ttl verification);
    _ ← tokens_add VERIFICATION (new_id2 d) (u_id user) (hash_token (fresh_secret d)) expires (now d);
    mret (Some (EmailVerification (u_email user) (u_name user) (fresh_secret d))).

Definition send_outgoing (outgoing : option Mail) : io unit :=
  if outgoing is Some m then send m else mret tt.

Definition email_for_existing_account (d : draws) (existing : option User) : io (option Mail) :=
  match existing with
  | None => mret None
  | Some u =>
      if negb (can_sign_in u) then mret None
      else if is_email_verified u then mret (Some (AccountExists (u_email u) (u_name u)))
      else issue_verification d u
  end.

Definition register (d : draws) (email password name : string) : io (option User) :=
  normalized_email ← lift (normalize_email email);
  clean_name ← lift (normalize_name name);
  _ ← lift (validate_password policy password normalized_email);
  let password_hash := hash (fresh_salt d) password in
  '(created, outgoing) ← unit_of_work (catch "email_taken"
    (created ← users_add (new_id d) {| nu_email := normalized_email; nu_name := clean_name;
                                       nu_password_hash := password_hash |};
     _ ← record (event USER_REGISTERED (Some (u_id created)) "user" (u_id created) []);
     outgoing ← issue_verification d created;
     mret (Some created, outgoing))
    (existing ← users_get_by_email_for_update normalized_email;
     outgoing ← email_for_existing_account d existing;
     mret (None, outgoing)));
  _ ← send_outgoing outgoing;
  mret created.

Definition resend_verification (d : draws) (email : string) : io unit :=
  match normalize_email email with
  | Raise _ => mret tt
  | Ok normalized_email =>
      outgoing ← unit_of_work (
        user ← users_get_by_email_for_update normalized_email;
        match user with
        | Some u => if can_sign_in u && negb (is_email_verified u) then issue_verification d u else mret None
        | None => mret None
        end);
      send_outgoing outgoing
  end.

(** The checks every emailed token passes: known, unspent, unexpired, of an account that can sign in. *)
Definition open_token (t : token_table) (d : draws) (token : string) : io (SingleUseToken * User) :=
  found ← tokens_get_by_hash_for_update t (hash_token token);
  match found with
  | None => raise InvalidToken
  | Some stored =>
      if is_spent stored then raise InvalidToken
      else if (t_expires_at stored <=? now d)%Z then raise TokenExpired
      else
        user ← users_get (t_user_id stored);
        match user with
        | Some u => if can_sign_in u then mret (stored, u) else raise InvalidToken
        | None => raise InvalidToken
        end
  end.

Definition refused_token (token : string) : bool :=
  String.eqb token "" || (MAX_TOKEN_LENGTH <? String.length token)%nat.

Definition verify_email (d : draws) (token : string) : io unit :=
  if refused_token token then raise InvalidToken
  else unit_of_work (
    '(stored, user) ← open_token VERIFICATION d token;
    _ ← tokens_mark_consumed VERIFICATION (t_id stored) (now d);
    _ ← tokens_revoke_outstanding VERIFICATION (u_id user) (now d);
    if is_email_verified user then mret tt
    else
      _ ← users_mark_email_verified (u_id user) (now d);
      record (event USER_EMAIL_VERIFIED (Some (u_id user)) "user" (u_id user) [])).
End auth_service.

(** * Sign-in and sessions (session_service.py) *)
Record SessionSettings := { refresh_ttl : Z; reuse_grace : Z }.
Definition MAX_LISTED_SESSIONS : nat := 100.

Record SignedIn := { si_user : User; si_session : Session; si_refresh_token : string }.

Section session_service.
Context (settings : SessionSettings).

Definition login_block (d : draws) (normalized_email : option string) (password : string) :
    io (SignedIn + exn) :=
  user ← (if normalized_email is Some e then users_get_by_email e else mret None);
  let password_hash := if user is Some u then u_password_hash u else argon2_dummy_hash in
  let matches := verify password_hash password in
  match user with
  | None => mret (inr InvalidCredentials)
  | Some u =>
      if negb matches || negb (can_sign_in u) then
        _ ← record (event USER_LOGIN_FAILED None "user" (u_id u)
              [("reason", JStr (if negb matches then "wrong_password" else "account_disabled"))]);
        mret (inr (if negb matches then InvalidCredentials else AccountDisabled))
      else
        _ ← (if argon2_check_needs_rehash (u_password_hash u)
             then users_update_password_hash (u_id u) (hash (fresh_salt d) password) else mret tt);
        expires ← later (now d) (refresh_ttl settings);
        c ← query client;
        session ← sessions_add (new_id d) {|
          ns_user_id := u_id u; ns_refresh_token_hash := hash_token (fresh_secret d);
          ns_expires_at := expires; ns_created_at := now d;
          ns_user_agent := clipped_agent (user_agent c); ns_ip_address := ip_address c |};
        _ ← record (event USER_LOGIN (Some (u_id u)) "session" (s_id session) []);
        mret (inl {| si_user := u; si_session := session;
                     si_refresh_token := format_refresh_token (s_id session) (fresh_secret d) |})
  end.

Definition login (d : draws) (email password : string) : io SignedIn :=
  let normalized_email := match normalize_email email with Ok e => Some e | Raise _ => None end in
  signed_in ← unit_of_work (login_block d normalized_email password);
  match signed_in with inl s => mret s | inr refusal => raise refusal end.

(** The block of [refresh]: [None] when it revoked the session, for the caller to refuse after it. *)
Definition refresh_block (d : draws) (session_id presented_secret : string) : io (option SignedIn) :=
  let presented := hash_token presented_secret in
  found ← sessions_get_for_update session_id;
  match found with
  | None => raise InvalidRefreshToken
  | Some session =>
      if is_revoked session then raise InvalidRefreshToken
      else if (s_expires_at session <=? now d)%Z then raise SessionExpired
      else if decide (presented = s_refresh_token_hash session) then
        user ← users_get (s_user_id session);
        match user with
        | None => raise InvalidRefreshToken
        | Some u =>
            if negb (can_sign_in u) then raise InvalidRefreshToken
            else
              _ ← sessions_rotate (s_id session) (hash_token (fresh_secret d)) presented (now d);
              rotated ← sessions_get (s_id session);
              match rotated with
              | None => raise AssertionError
              | Some r =>
                  mret (Some {| si_user := u; si_session := r;
                    si_refresh_token := format_refresh_token (s_id session) (fresh_secret d) |})
              end
        end
      else if negb (bool_decide (s_previous_refresh_token_hash session = Some presented))
      then raise InvalidRefreshToken
      else if (if s_refreshed_at session is Some t then (now d - t <=? reuse_grace settings)%Z else false)
      then raise RefreshConflict
      else
        _ ← sessions_revoke (s_id session) TOKEN_REUSE (now d);
        _ ← record (event SESSION_REVOKED None "session" (s_id session)
              [("reason", JStr (value TOKEN_REUSE)); ("userId", JStr (s_user_id session))]);
        mret None
  end.

Definition refresh (d : draws) (refresh_token : string) : io SignedIn :=
  match parse_refresh_token refresh_token with
  | None => raise InvalidRefreshToken
  | Some (session_id, presented_secret) =>
      outcome ← unit_of_work (refresh_block d session_id presented_secret);
      match outcome with Some s => mret s | None => raise InvalidRefreshToken end
  end.

(** Whether the session knows the digest: as its current one or as the previous one. *)
Definition knows (session : Session) (presented : bytes) : bool :=
  bool_decide (presented = s_refresh_token_hash session)
  || bool_decide (s_previous_refresh_token_hash session = Some presented).

Definition logout (d : draws) (refresh_token : option string) : io unit :=
  match refresh_token ≫= (λ t, if String.eqb t "" then None else parse_refresh_token t) with
  | None => mret tt
  | Some (session_id, presented_secret) =>
      unit_of_work (
        found ← sessions_get_for_update session_id;
        match found with
        | None => mret tt
        | Some session =>
            if is_revoked session then mret tt
            else if knows session (hash_token presented_secret) then
              _ ← sessions_revoke (s_id session) LOGOUT (now d);
              record (event USER_LOGOUT (Some (s_user_id session)) "session" (s_id session) [])
            else mret tt
        end)
  end.

Definition list_sessions (d : draws) (user_id : uuid) : io (list Session) :=
  unit_of_work (sessions_list_active user_id (now d) MAX_LISTED_SESSIONS).

Definition revoke_session (d : draws) (user_id session_id : uuid) : io unit :=
  unit_of_work (
    found ← sessions_revoke_owned session_id user_id USER_REVOKED (now d);
    _ ← raise_when (negb found) SessionNotFound;
    record (event SESSION_REVOKED (Some user_id) "session" session_id
              [("reason", JStr (value USER_REVOKED))])).

Definition authenticate (d : draws) (session_id user_id : uuid) : io (User * Session) :=
  unit_of_work (
    found ← sessions_get session_id;
    match found with
    | None => raise SessionRevoked
    | Some session =>
        if negb (bool_decide (s_user_id session = user_id)) || negb (is_active session (now d))
        then raise SessionRevoked
        else
          user ← users_get user_id;
          match user with
          | None => raise SessionRevoked
          | Some u => if can_sign_in u then mret (u, session) else raise SessionRevoked
          end
    end).
End session_service.

(** * Password reset and change (password_service.py) *)
Record ResetSettings := { reset_ttl : Z; cooldown : Z }.

Section password_service.
Context (policy : PasswordPolicy) (settings : ResetSettings).

Definition request_reset (d : draws) (email : string) : io unit :=
  match normalize_email email with
  | Raise _ => mret tt
  | Ok normalized_email =>
      link ← unit_of_work (
        user ← users_get_by_email_for_update normalized_email;
        match user with
        | None => mret None
        | Some u =>
            if negb (can_sign_in u) then mret None
            else
              latest ← tokens_latest_outstanding_created_at RESET (u_id u);
              if throttled (now d) latest (cooldown settings) then mret None
              else
                _ ← tokens_revoke_outstanding RESET (u_id u) (now d);
                expires ← later (now d) (reset_ttl settings);
                _ ← tokens_add RESET (new_id d) (u_id u) (hash_token (fresh_secret d)) expires (now d);
                mret (Some (PasswordResetLink (u_email u) (u_name u) (fresh_secret d)))
        end);
      if link is Some m then send m else mret tt
  end.

(** ["sessionsRevoked"]: how many sessions were revoked. *)
Definition count_json (n : nat) : json := JInt (Z.of_nat n).

Definition reset (d : draws) (token new_password : string) : io unit :=
  if refused_token token then raise InvalidToken
  else
    notice ← unit_of_work (
      '(stored, user) ← open_token RESET d token;
      _ ← lift (validate_password policy new_password (u_email user));
      let new_hash := hash (fresh_salt d) new_password in
      _ ← users_update_password_hash (u_id user) new_hash;
      _ ← tokens_mark_consumed RESET (t_id stored) (now d);
      _ ← tokens_revoke_outstanding RESET (u_id user) (now d);
      n ← sessions_revoke_all_for_user (u_id user) PASSWORD_RESET (now d) None;
      _ ← record (event USER_PASSWORD_RESET (Some (u_id user)) "user" (u_id user)
                    [("sessionsRevoked", count_json n)]);
      _ ← (if is_email_verified user then mret tt else users_mark_email_verified (u_id user) (now d));
      mret (PasswordChangedNotice (u_email user) (u_name user)));
    send notice.

Definition change (d : draws) (user_id current_session_id : uuid)
    (current_password new_password : string) : io unit :=
  notice ← unit_of_work (
    found ← users_get user_id;
    match found with
    | None => raise IncorrectPassword
    | Some user =>
        if negb (can_sign_in user) then raise IncorrectPassword
        else if negb (verify (u_password_hash user) current_password) then raise IncorrectPassword
        else
          _ ← lift (validate_password policy new_password (u_email user));
          let new_hash := hash (fresh_salt d) new_password in
          _ ← users_update_password_hash (u_id user) new_hash;
          _ ← tokens_revoke_outstanding RESET (u_id user) (now d);
          n ← sessions_revoke_all_for_user (u_id user) PASSWORD_CHANGED (now d) (Some current_session_id);
          _ ← record (event USER_PASSWORD_CHANGED (Some (u_id user)) "user" (u_id user)
                        [("sessionsRevoked", count_json n)]);
          mret (PasswordChangedNotice (u_email user) (u_name user))
    end);
  send notice.
End password_service.

(** * Leaving every organization (organizations/membership_service.py) *)
Definition organization_event (action : AuditAction) (actor : uuid) (organization_id : uuid)
    (resource_type : string) (resource_id : uuid) (metadata : dict string json) : AuditEvent := {|
  a_action := action; a_actor_user_id := Some actor; a_organization_id := Some organization_id;
  a_resource_type := resource_type; a_resource_id := resource_id; a_metadata := metadata |}.

(** From the organizations the user was read to own: what is done about them, under their locks. *)
Definition release_owned (user_id : uuid) (at_ : instant) (owned : list OwnedOrganization) : io unit :=
  _ ← each (λ o, _ ← organizations_lock_active (oo_organization_id o); mret tt) owned;
  let blocking := filter (λ o, oo_owner_count o = 1 ∧ 1 < oo_member_count o)%nat owned in
  _ ← raise_when (negb (bool_decide (map oo_organization_id blocking = [])))
        (SoleOwnerOfOrganization (map oo_organization_id blocking));
  let solo := map oo_organization_id (filter (λ o, oo_member_count o = 1)%nat owned) in
  _ ← each (λ id,
        _ ← organizations_soft_delete id at_;
        record (organization_event ORGANIZATION_DELETED user_id id "organization" id
                  [("reason", JStr "account_deleted")]))
      (sorted_set solo);
  scoped ← memberships_list_for_user user_id;
  _ ← each (λ p,
        if bool_decide (o_id p.1 ∈ solo) then mret tt
        else record (organization_event MEMBER_REMOVED user_id (o_id p.1) "member" (m_id p.2)
               [("userId", JStr user_id); ("role", JStr (value (m_role p.2)));
                ("reason", JStr "account_deleted")]))
      scoped;
  memberships_delete_all_for_user user_id.

Definition release_memberships (user_id : uuid) (at_ : instant) : io unit :=
  owned ← memberships_owned_by user_id;
  release_owned user_id at_ owned.

(** * Profiles and account deletion (user_service.py) *)
Definition UNUSABLE_PASSWORD_HASH : string := "!deleted".

Definition update_profile (avatar_hosts : list string) (user_id : uuid) (name avatar_url : option string)
    (set_avatar : bool) : io User :=
  if (if name is None then negb set_avatar else false) then raise NothingToUpdate
  else
    new_name ← lift (match name with Some n => n ← normalize_name n; Ok (Some n) | None => Ok None end);
    new_avatar ← lift (match avatar_url with
                       | Some a => a ← normalize_avatar_url a avatar_hosts; Ok (Some a)
                       | None => Ok None
                       end);
    let fields := (if name is Some _ then ["name"] else []) ++ (if set_avatar then ["avatarUrl"] else []) in
    unit_of_work (
      updated ← users_update_profile user_id
        {| pc_name := new_name; pc_avatar_url := new_avatar; pc_keep_avatar := negb set_avatar |};
      _ ← record (event USER_PROFILE_UPDATED (Some user_id) "user" user_id
                    [("fields", JArr (JStr <$> fields))]);
      mret updated).

Definition delete_account (d : draws) (user_id : uuid) (password : string) : io unit :=
  unit_of_work (
    found ← users_get user_id;
    match found with
    | None => raise SessionRevoked
    | Some user =>
        if negb (can_sign_in user) then raise SessionRevoked
        else if negb (verify (u_password_hash user) password) then raise IncorrectPassword
        else
          _ ← release_memberships (u_id user) (now d);
          _ ← users_soft_delete (u_id user)
                {| du_email := tombstone_email (u_id user); du_name := DELETED_USER_NAME;
                   du_password_hash := UNUSABLE_PASSWORD_HASH |} (now d);
          _ ← sessions_revoke_all_for_user (u_id user) ACCOUNT_DELETED (now d) None;
          _ ← tokens_revoke_outstanding VERIFICATION (u_id user) (now d);
          _ ← tokens_revoke_outstanding RESET (u_id user) (now d);
          record (event USER_DELETED_ACTION (Some (u_id user)) "user" (u_id user) [])
    end).
End identity.
