(* ===== verification/Tenancy.v ===== *)
(** Organizations, memberships and invitations
    (src/core/domain/organizations: value_objects.py, entities.py, organization_service.py,
    membership_service.py, invitation_service.py).

    A method's [user] or [membership] argument is what the request layer resolved for the caller. *)
From Stdlib Require Import Ascii ZArith.
From S2P Require Import Prelude Data Errors Values Tokens Computations Store Policy Identity.

Section tenancy.
Context `{Externals}.

(** * Names (value_objects.py) *)
Definition MAX_ORGANIZATION_NAME_LENGTH : nat := 100.

Definition normalize_organization_name (raw : string) : py string :=
  let name := clean_line raw in
  if String.eqb name "" || (MAX_ORGANIZATION_NAME_LENGTH <? String.length name)
  then Raise InvalidOrganizationName
  else if negb (str_forall (λ c, negb (is_control c)) name) then Raise InvalidOrganizationName
  else Ok name.

(** [membership.require(permission)]. *)
Definition require (m : Membership) (p : Permission) : io unit :=
  raise_when (negb (has_permission (m_role m) p)) PermissionDenied.

(** * Organizations (organization_service.py) *)
Definition create_organization (d : draws) (user : User) (name : string) : io (Organization * Membership) :=
  if negb (is_email_verified user) then raise EmailNotVerified
  else
    clean_name ← lift (normalize_organization_name name);
    unit_of_work (
      organization ← organizations_add (new_id d) clean_name;
      membership ← memberships_add (new_id2 d) (o_id organization) (u_id user) OWNER;
      _ ← record (organization_event ORGANIZATION_CREATED (u_id user) (o_id organization)
                    "organization" (o_id organization) [("name", JStr (o_name organization))]);
      mret (organization, membership)).

Definition list_organizations (user_id : uuid) : io (list (Organization * Membership)) :=
  unit_of_work (memberships_list_for_user user_id).

Definition resolve (organization_id user_id : uuid) : io (Organization * Membership) :=
  found ← unit_of_work (memberships_get_in_active_organization organization_id user_id);
  if found is Some p then mret p else raise OrganizationNotFound.

Definition rename_organization (membership : Membership) (name : string) : io Organization :=
  _ ← require membership ORGANIZATION_UPDATE;
  clean_name ← lift (normalize_organization_name name);
  unit_of_work (
    renamed ← organizations_rename (m_organization_id membership) clean_name;
    _ ← record (organization_event ORGANIZATION_UPDATED (m_user_id membership)
                  (m_organization_id membership) "organization" (m_organization_id membership)
                  [("name", JStr (o_name renamed))]);
    mret renamed).

Definition delete_organization (d : draws) (membership : Membership) : io unit :=
  _ ← require membership ORGANIZATION_DELETE;
  unit_of_work (
    _ ← organizations_soft_delete (m_organization_id membership) (now d);
    record (organization_event ORGANIZATION_DELETED (m_user_id membership)
              (m_organization_id membership) "organization" (m_organization_id membership) [])).

(** * Memberships (membership_service.py) *)
Definition list_members (membership : Membership) : io (list MemberView) :=
  _ ← require membership MEMBER_READ;
  unit_of_work (memberships_list_members (m_organization_id membership)).

(** The organization is locked, then the caller's and the target's memberships are read. *)
Definition lock_and_load (organization_id actor_user_id member_id : uuid) :
    io (Membership * Membership) :=
  locked ← organizations_lock_active organization_id;
  if negb locked then raise OrganizationNotFound
  else
    actor ← memberships_get_for_user organization_id actor_user_id;
    match actor with
    | None => raise OrganizationNotFound
    | Some actor =>
        target ← memberships_get organization_id member_id;
        match target with None => raise MemberNotFound | Some target => mret (actor, target) end
    end.

Definition change_role (organization_id actor_user_id member_id : uuid) (role : Role) : io Membership :=
  unit_of_work (
    '(actor, target) ← lock_and_load organization_id actor_user_id member_id;
    owner_count ← memberships_count_owners organization_id;
    _ ← lift (check_role_change (m_role actor) (m_role target) role
                (bool_decide (m_id actor = m_id target)) owner_count);
    if decide (m_role target = role) then mret target
    else
      updated ← memberships_update_role (m_id target) role;
      _ ← record (organization_event MEMBER_ROLE_CHANGED actor_user_id organization_id "member"
                    (m_id target) [("userId", JStr (m_user_id target));
                                   ("from", JStr (value (m_role target))); ("to", JStr (value role))]);
      mret updated).

Definition remove_member (organization_id actor_user_id member_id : uuid) : io unit :=
  unit_of_work (
    '(actor, target) ← lock_and_load organization_id actor_user_id member_id;
    owner_count ← memberships_count_owners organization_id;
    let left := bool_decide (m_id actor = m_id target) in
    _ ← lift (check_removal (m_role actor) (m_role target) left owner_count);
    _ ← memberships_delete (m_id target);
    record (organization_event MEMBER_REMOVED actor_user_id organization_id "member" (m_id target)
              [("userId", JStr (m_user_id target)); ("role", JStr (value (m_role target)));
               ("left", JBool left)])).

(** * Invitations (invitation_service.py) *)
Section invitation_service.
Context (invitation_ttl : Z).

Definition list_pending (membership : Membership) : io (list Invitation) :=
  _ ← require membership MEMBER_INVITE;
  unit_of_work (invitations_list_pending (m_organization_id membership)).

Definition invite (d : draws) (inviter : User) (organization_id : uuid) (email : string) (role : Role) :
    io Invitation :=
  invitee_email ← lift (normalize_email email);
  '(invitation, outgoing) ← unit_of_work (
    organization ← organizations_get_active organization_id;
    locked ← organizations_lock_active organization_id;
    match organization with
    | None => raise OrganizationNotFound
    | Some organization =>
        if negb locked then raise OrganizationNotFound
        else
          actor ← memberships_get_for_user organization_id (u_id inviter);
          match actor with
          | None => raise OrganizationNotFound
          | Some actor =>
              _ ← lift (check_invitation (m_role actor) role);
              existing_user ← users_get_by_email invitee_email;
              member ← (match existing_user with
                        | Some u => memberships_get_for_user organization_id (u_id u)
                        | None => mret None
                        end);
              _ ← raise_when (if member is Some _ then true else false) AlreadyMember;
              _ ← invitations_revoke_pending_for_email organization_id invitee_email (now d);
              expires ← later (now d) invitation_ttl;
              invitation ← invitations_add (new_id d) organization_id invitee_email role
                             (hash_token (fresh_secret d)) (u_id inviter) expires (now d);
              _ ← record (organization_event MEMBER_INVITED (u_id inviter) organization_id "invitation"
                            (i_id invitation) [("email", JStr invitee_email); ("role", JStr (value role))]);
              mret (invitation, InvitationLink invitee_email (u_name inviter) (o_name organization)
                                  (value role) (fresh_secret d))
          end
    end);
  _ ← send outgoing;
  mret invitation.

Definition revoke_invitation (d : draws) (organization_id actor_user_id invitation_id : uuid) : io unit :=
  unit_of_work (
    locked ← organizations_lock_active organization_id;
    if negb locked then raise OrganizationNotFound
    else
      actor ← memberships_get_for_user organization_id actor_user_id;
      match actor with
      | None => raise OrganizationNotFound
      | Some actor =>
          found ← invitations_get_pending organization_id invitation_id;
          match found with
          | None => raise InvitationNotFound
          | Some invitation =>
              _ ← lift (check_invitation (m_role actor) (i_role invitation));
              _ ← invitations_revoke (i_id invitation) (now d);
              record (organization_event MEMBER_INVITATION_REVOKED actor_user_id organization_id
                        "invitation" (i_id invitation)
                        [("email", JStr (i_email invitation)); ("role", JStr (value (i_role invitation)))])
          end
      end).

Definition accept_invitation (d : draws) (user : User) (token : string) : io (Organization * Membership) :=
  if negb (is_email_verified user) then raise EmailNotVerified
  else if refused_token token then raise InvalidInvitation
  else unit_of_work (
    found ← invitations_get_by_hash_for_update (hash_token token);
    match found with
    | None => raise InvalidInvitation
    | Some invitation =>
        if negb (is_pending invitation) then raise InvalidInvitation
        else if (i_expires_at invitation <=? now d)%Z then raise InvitationExpired
        else
          let organization_id := i_organization_id invitation in
          locked ← organizations_lock_active organization_id;
          _ ← raise_when (negb locked) InvalidInvitation;
          _ ← raise_when (negb (String.eqb (u_email user) (i_email invitation))) InvitationEmailMismatch;
          member ← memberships_get_for_user organization_id (u_id user);
          _ ← raise_when (if member is Some _ then true else false) AlreadyMember;
          _ ← memberships_add (new_id d) organization_id (u_id user) (i_role invitation);
          _ ← invitations_mark_accepted (i_id invitation) (u_id user) (now d);
          _ ← record (organization_event MEMBER_INVITATION_ACCEPTED (u_id user) organization_id
                        "invitation" (i_id invitation) [("role", JStr (value (i_role invitation)))]);
          joined ← memberships_get_in_active_organization organization_id (u_id user);
          if joined is Some p then mret p else raise AssertionError
    end).
End invitation_service.
End tenancy.
