(* ===== verification/Accounts.v ===== *)
(** Accounts and organizations as one state machine: every service call is a request, and a world is
    reachable when some sequence of requests, each by any client at any time, leads to it from the
    empty database.

    [reachable] is what the safety theorems range over; [run_keeps] reduces a relation between the
    worlds before and after any request to the same of the services' transactions.  [wf] is what the
    tables' constraints guarantee: every row is stored under its own id, digests are unique and have 32
    bytes, a person has one membership in an organization, and the columns that go together agree
    (the [CheckConstraint]s of src/persistence/models). *)
From Stdlib Require Import Lia ZArith Ascii.
From S2P Require Import Prelude Data Errors Codecs Tokens Computations Store Transactions Policy Identity Tenancy.

Record config := {
  password_policy : PasswordPolicy;
  verification_settings : VerificationSettings;
  session_settings : SessionSettings;
  reset_settings : ResetSettings;
  invitation_ttl : Z;
  avatar_hosts : list string;
}.

Inductive request :=
  | Register (d : draws) (email password name : string)
  | ResendVerification (d : draws) (email : string)
  | VerifyEmail (d : draws) (token : string)
  | Login (d : draws) (email password : string)
  | Refresh (d : draws) (refresh_token : string)
  | Logout (d : draws) (refresh_token : option string)
  | ListSessions (d : draws) (user_id : uuid)
  | RevokeSession (d : draws) (user_id session_id : uuid)
  | Authenticate (d : draws) (session_id user_id : uuid)
  | RequestReset (d : draws) (email : string)
  | ResetPassword (d : draws) (token new_password : string)
  | ChangePassword (d : draws) (user_id session_id : uuid) (current_password new_password : string)
  | UpdateProfile (user_id : uuid) (name avatar_url : option string) (set_avatar : bool)
  | DeleteAccount (d : draws) (user_id : uuid) (password : string)
  | CreateOrganization (d : draws) (user : User) (name : string)
  | ListOrganizations (user_id : uuid)
  | Resolve (organization_id user_id : uuid)
  | RenameOrganization (membership : Membership) (name : string)
  | DeleteOrganization (d : draws) (membership : Membership)
  | ListMembers (membership : Membership)
  | ChangeRole (organization_id actor_user_id member_id : uuid) (role : Role)
  | RemoveMember (organization_id actor_user_id member_id : uuid)
  | ListPending (membership : Membership)
  | Invite (d : draws) (inviter : User) (organization_id : uuid) (email : string) (role : Role)
  | RevokeInvitation (d : draws) (organization_id actor_user_id invitation_id : uuid)
  | AcceptInvitation (d : draws) (user : User) (token : string).

(** The call without its result. *)
Definition discard {A} (m : io A) : io unit := _ ← m; mret tt.

Section accounts.
Context `{Externals} (cfg : config).

Definition run (r : request) : io unit :=
  match r with
  | Register d email password name =>
      discard (register (password_policy cfg) (verification_settings cfg) d email password name)
  | ResendVerification d email => resend_verification (verification_settings cfg) d email
  | VerifyEmail d token => verify_email d token
  | Login d email password => discard (login (session_settings cfg) d email password)
  | Refresh d token => discard (refresh (session_settings cfg) d token)
  | Logout d token => logout d token
  | ListSessions d user_id => discard (list_sessions d user_id)
  | RevokeSession d user_id session_id => revoke_session d user_id session_id
  | Authenticate d session_id user_id => discard (authenticate d session_id user_id)
  | RequestReset d email => request_reset (reset_settings cfg) d email
  | ResetPassword d token password => reset (password_policy cfg) d token password
  | ChangePassword d user_id session_id current new =>
      change (password_policy cfg) d user_id session_id current new
  | UpdateProfile user_id name avatar set_avatar =>
      discard (update_profile (avatar_hosts cfg) user_id name avatar set_avatar)
  | DeleteAccount d user_id password => delete_account d user_id password
  | CreateOrganization d user name => discard (create_organization d user name)
  | ListOrganizations user_id => discard (list_organizations user_id)
  | Resolve organization_id user_id => discard (resolve organization_id user_id)
  | RenameOrganization membership name => discard (rename_organization membership name)
  | DeleteOrganization d membership => delete_organization d membership
  | ListMembers membership => discard (list_members membership)
  | ChangeRole organization_id actor member role => discard (change_role organization_id actor member role)
  | RemoveMember organization_id actor member => remove_member organization_id actor member
  | ListPending membership => discard (list_pending membership)
  | Invite d inviter organization_id email role =>
      discard (invite (invitation_ttl cfg) d inviter organization_id email role)
  | RevokeInvitation d organization_id actor invitation_id =>
      revoke_invitation d organization_id actor invitation_id
  | AcceptInvitation d user token => discard (accept_invitation d user token)
  end.

(** One request: the database's clock and the client are whatever they are when it comes. *)
Definition served (w w' : world) : Prop :=
  ∃ r at_ c, w' = (run r (set_request at_ c w)).2.

Definition empty_world : world := {|
  users := ∅; email_verification_tokens := ∅; password_reset_tokens := ∅; sessions := ∅;
  organizations := ∅; memberships := ∅; invitations := ∅; audit := []; outbox := []; clock := 0;
  client := {| user_agent := None; ip_address := None |} |}.

Definition reachable (w : world) : Prop := rtc served empty_world w.

(** A sequence of requests, with the time and the client of each. *)
Definition run_all (l : list (request * (instant * ClientInfo))) (w : world) : world :=
  foldl (λ w r, (run r.1 (set_request r.2.1 r.2.2 w)).2) w l.

Lemma run_all_served l w : rtc served w (run_all l w).
Proof using Type.
  revert w. induction l as [|[r [at_ c]] l IH]; intros w; [done|]. eapply rtc_l; [|apply IH].
  by exists r, at_, c.
Qed.

Lemma run_all_reachable l w : reachable w → reachable (run_all l w).
Proof using Type. intros Hw. unfold reachable. etrans; [exact Hw|apply run_all_served]. Qed.

Lemma empty_reachable : reachable empty_world.
Proof using Type. apply rtc_refl. Qed.

(** What every request keeps holds between any two worlds of a sequence. *)
Lemma served_keeps (R : relation world) `{!PreOrder R} :
  (∀ at_ c w, R w (set_request at_ c w)) → (∀ r, keeps R (run r)) →
  ∀ w w', rtc served w w' → R w w'.
Proof using Type.
  intros Hreq Hrun w w'. induction 1 as [w|w w1 w2 (r & at_ & c & ->) _ IH]; [reflexivity|].
  etrans; [apply (Hreq at_ c)|]. etrans; [apply Hrun|done].
Qed.
End accounts.

(** * A sample deployment

    A reversible stand-in for Argon2, a validator that asks for an "@", and the default settings. *)
#[export] Instance sample_externals : Externals := {|
  argon2_hash salt password := "argon2:" +:+ password;
  argon2_verify password_hash password := String.eqb password_hash ("argon2:" +:+ password);
  argon2_check_needs_rehash password_hash := false;
  argon2_dummy_hash := "argon2:";
  validate_email candidate := if contains "@" candidate then Some candidate else None;
  urlsplit url := None;
  normalize_password password := password;
  casefold := lower;
|}.

Definition sample_config : config := {|
  password_policy := {| min_length := 12; max_length := 128; common_passwords := λ _, false |};
  verification_settings := {| ttl := 86400 * SECOND; resend_cooldown := 60 * SECOND |};
  session_settings := {| refresh_ttl := 2592000 * SECOND; reuse_grace := 10 * SECOND |};
  reset_settings := {| reset_ttl := 1800 * SECOND; cooldown := 60 * SECOND |};
  invitation_ttl := 604800 * SECOND;
  avatar_hosts := [];
|}.

Definition sample_client : ClientInfo := {| user_agent := Some "browser"; ip_address := None |}.

(** The [n]-th UUID of the sample, and what a call at [t] seconds draws. *)
Definition sample_id (n : nat) : uuid :=
  "00000000-0000-0000-0000-0000000000" +:+ String (hex_digit (n / 16)) (String (hex_digit (n mod 16)) "").
Definition sample_draws (t : Z) (n : nat) (s : string) : draws := {|
  now := t * SECOND; new_id := sample_id n; new_id2 := sample_id (n + 1); fresh_secret := s;
  fresh_salt := "" |}.

Definition at_time_ (t : Z) (r : request) : request * (instant * ClientInfo) :=
  (r, ((t * SECOND)%Z, sample_client)).

(** Ada registers, verifies her email, signs in and creates an organization. *)
Definition sample_user (w : world) (n : nat) : User :=
  default {| u_id := ""; u_email := ""; u_name := ""; u_password_hash := ""; u_avatar_url := None;
             u_email_verified_at := None; u_status := USER_DISABLED; u_created_at := 0;
             u_updated_at := 0; u_deleted_at := None |} (users w !! sample_id n).

Definition sample_signed_in : world :=
  run_all sample_config
    [at_time_ 10 (Register (sample_draws 10 1 "verify-ada") "Ada@Example.com" "correct horse battery" "Ada");
     at_time_ 20 (VerifyEmail (sample_draws 20 3 "") "verify-ada");
     at_time_ 30 (Login (sample_draws 30 5 "secret-1") "ada@example.com" "correct horse battery")]
    empty_world.

Definition sample_world : world :=
  run_all sample_config
    [at_time_ 40 (CreateOrganization (sample_draws 40 7 "") (sample_user sample_signed_in 1) "Engines")]
    sample_signed_in.

Example sample_session :
  s_user_id <$> sessions sample_world !! sample_id 5 = Some (sample_id 1).
Proof. by vm_compute. Qed.
