(* ===== verification/Invariants.v ===== *)
(** The stored data stays well formed: what the tables' constraints say (src/persistence/models) holds
    of every reachable world, so no service call can fail on one or leave a row that breaks it.

    One block per table: what holds of its rows, which elementary operations need an argument, and
    that every request keeps it. *)
From Stdlib Require Import Lia ZArith.
From S2P Require Import Prelude Data Errors Tokens Computations Store Transactions Policy Identity Tenancy Accounts.
(** * Invariants *)

(** [R w w'] for an invariant. *)
Definition preserves (I : world → Prop) : relation world := λ w w', I w → I w'.

#[export] Instance preserves_preorder I : PreOrder (preserves I).
Proof. split; [intros x; unfold preserves; done|intros x y z; unfold preserves; naive_solver]. Qed.

Lemma map_Forall_alter_row {A} (P : uuid → A → Prop) (f : A → A) id (m : gmap uuid A) :
  map_Forall P m → (∀ x, m !! id = Some x → P id (f x)) → map_Forall P (alter f id m).
Proof.
  intros Hm Hf i x. destruct (decide (i = id)) as [->|Hne].
  - rewrite lookup_alter_eq. intros (y & Hy & ->)%fmap_Some. by apply Hf.
  - rewrite lookup_alter_ne by done. apply Hm.
Qed.

Lemma map_Forall_alter {A} (P : uuid → A → Prop) (f : A → A) id (m : gmap uuid A) :
  map_Forall P m → (∀ x, P id x → P id (f x)) → map_Forall P (alter f id m).
Proof. intros Hm Hf. apply map_Forall_alter_row; [done|]. intros x Hx. by apply Hf, Hm. Qed.

Lemma map_Forall_update_where {A} (P : uuid → A → Prop) (c : A → bool) (f : A → A) (m : gmap uuid A) :
  map_Forall P m → (∀ id x, c x = true → P id x → P id (f x)) → map_Forall P (update_where c f m).
Proof.
  intros Hm Hf i x. rewrite lookup_update_where. intros (y & Hy & ->)%fmap_Some.
  apply Hm in Hy. destruct (c y) eqn:E; [by apply Hf|done].
Qed.

(** Runs an elementary operation in every case. *)
Ltac run_cases :=
  unfold insert_row, references_row, raise_when, query, modify, raise, mbind, io_bind, mret, io_ret;
  simpl; repeat (case_match; simpl; simplify_eq); try reflexivity.

(** ** Sessions *)
Record session_row (id : uuid) (s : Session) : Prop := {
  row_id : s_id s = id;
  row_digest : length (s_refresh_token_hash s) = 32;
  row_reason : is_Some (s_revoked_at s) ↔ is_Some (s_revoked_reason s);
  row_agent : ∀ a, s_user_agent s = Some a → (String.length a <= MAX_USER_AGENT_LENGTH)%nat;
}.

Definition sessions_ok (w : world) : Prop := map_Forall session_row (sessions w).

Lemma length_substring n s : (String.length (String.substring 0 n s) <= n)%nat.
Proof. revert n. induction s as [|c s IH]; intros [|n]; simpl; try lia. specialize (IH n). lia. Qed.

Lemma clipped_agent_length o a : clipped_agent o = Some a → (String.length a <= MAX_USER_AGENT_LENGTH)%nat.
Proof.
  destruct o as [s|]; simpl; [|done]. destruct (String.eqb s ""); [done|]. intros [= <-]. apply length_substring.
Qed.

Lemma sessions_ok_rotate id new_hash previous at_ :
  length new_hash = 32 → keeps (preserves sessions_ok) (sessions_rotate id new_hash previous at_).
Proof.
  intros Hl. unfold sessions_rotate. keeps. intros Hw. apply map_Forall_alter; [done|]. intros s [H1 H2 H3 H4]. by split.
Qed.

Lemma sessions_ok_revoke cond reason at_ :
  keeps (preserves sessions_ok) (sessions_revoke_where cond reason at_).
Proof.
  unfold sessions_revoke_where. keeps. intros Hw. apply map_Forall_update_where; [done|].
  intros i s _ [H1 H2 H3 H4]. by split.
Qed.

Lemma sessions_ok_add id s :
  length (ns_refresh_token_hash s) = 32 →
  (∀ a, ns_user_agent s = Some a → (String.length a <= MAX_USER_AGENT_LENGTH)%nat) →
  keeps (preserves sessions_ok) (sessions_add id s).
Proof.
  intros Hl Ha. unfold sessions_add, insert_row, references_row. keeps. intros Hw.
  apply map_Forall_insert_2; [|done]. split; simpl; [done|done|split; by intros []|done].
Qed.
#[export] Hint Resolve sessions_ok_rotate sessions_ok_revoke sessions_ok_add length_hash_token
  clipped_agent_length : keeps.

(** ** Unique columns *)
Definition unique_by {A K} (key : A → K) (m : gmap uuid A) : Prop :=
  ∀ i j x y, m !! i = Some x → m !! j = Some y → key x = key y → i = j.

Lemma existsb_rows {A} (P : A → bool) (m : gmap uuid A) i x :
  existsb P (rows m) = false → m !! i = Some x → P x = false.
Proof.
  intros He Hx. destruct (P x) eqn:E; [|done].
  assert (existsb P (rows m) = true) as Ht; [|congruence]. apply existsb_exists. exists x.
  split; [|done]. apply list_elem_of_In, elem_of_rows. eauto.
Qed.

Lemma unique_by_insert {A K} (key : A → K) m i x :
  unique_by key m → (∀ j y, m !! j = Some y → key y ≠ key x) → unique_by key (<[i := x]> m).
Proof.
  intros Hu Hn j k y z Hj Hk He.
  apply lookup_insert_Some in Hj as [[<- <-]|[? Hj]]; apply lookup_insert_Some in Hk as [[<- <-]|[? Hk]];
    [done|by destruct (Hn k z)|by destruct (Hn j y)|by eapply Hu].
Qed.

Lemma unique_by_alter {A K} (key : A → K) (f : A → A) i (m : gmap uuid A) :
  (∀ x, key (f x) = key x) → unique_by key m → unique_by key (alter f i m).
Proof.
  intros Hf Hu j k y z Hj Hk He.
  assert (∀ l x, alter f i m !! l = Some x → ∃ x', m !! l = Some x' ∧ key x' = key x) as Hback.
  { intros l x Hl. apply lookup_alter_Some in Hl as [(<- & x' & Hx' & ->)|[_ Hl]]; [|by exists x].
    exists x'. by rewrite Hf. }
  apply Hback in Hj as (y' & Hj & Hy), Hk as (z' & Hk & Hz). eapply Hu; [done..|congruence].
Qed.

Lemma unique_by_replace {A K} (key : A → K) i x y (m : gmap uuid A) :
  m !! i = Some y → key x = key y → unique_by key m → unique_by key (<[i := x]> m).
Proof.
  intros Hi Hx Hu. rewrite <- (insert_id m i y Hi) in Hu |- *. rewrite insert_insert_eq.
  intros j k a b Hj Hk He.
  assert (∀ l c, <[i := x]> m !! l = Some c → ∃ c', m !! l = Some c' ∧ key c' = key c) as Hback.
  { intros l c [[<- <-]|[_ Hl]]%lookup_insert_Some; [by exists y|by exists c]. }
  apply Hback in Hj as (a' & Hj & Ha), Hk as (b' & Hk & Hb).
  rewrite (insert_id m i y Hi) in Hu. eapply Hu; [done..|congruence].
Qed.

Lemma unique_by_update {A K} (key : A → K) (c : A → bool) (f : A → A) (m : gmap uuid A) :
  (∀ x, key (f x) = key x) → unique_by key m → unique_by key (update_where c f m).
Proof.
  intros Hf Hu j k y z. rewrite !lookup_update_where.
  intros (y' & Hj & ->)%fmap_Some (z' & Hk & ->)%fmap_Some He. eapply Hu; [done..|].
  destruct (c y'), (c z'); rewrite ?Hf in He; done.
Qed.

Lemma unique_by_subseteq {A K} (key : A → K) (m m' : gmap uuid A) :
  m' ⊆ m → unique_by key m → unique_by key m'.
Proof. intros Hs Hu i j x y Hi Hj. eapply Hu; by eapply lookup_weaken. Qed.

(** ** Users *)
Record user_row (id : uuid) (u : User) : Prop := {
  row_user_id : u_id u = id;
  row_deleted : u_status u = USER_DELETED ↔ is_Some (u_deleted_at u);
}.

Definition users_ok (w : world) : Prop := map_Forall user_row (users w).

(** An operation that inserts or rewrites rows: the invariant of each row is enough. *)
Ltac trivially := first [done | tauto | split; [by intros|by intros []] | eauto].
Ltac rows_kept :=
  intros Hw; first [ apply map_Forall_alter; [exact Hw|intros ? []]
                   | apply map_Forall_update_where; [exact Hw|intros ? ? _ []]
                   | apply map_Forall_insert_2; [|exact Hw] ];
  repeat case_match; split; simpl in *; trivially.

(** ** Single-use tokens *)
Record token_row (id : uuid) (x : SingleUseToken) : Prop := {
  row_token_id : t_id x = id;
  row_token_digest : length (t_token_hash x) = 32;
}.

Definition tokens_ok (t : token_table) (w : world) : Prop :=
  map_Forall token_row (tokens_of t w) ∧ unique_by t_token_hash (tokens_of t w).

Lemma tokens_ok_update t f :
  (∀ m, map_Forall token_row m → map_Forall token_row (f m)) →
  (∀ m, unique_by t_token_hash m → unique_by t_token_hash (f m)) →
  ∀ t' w, preserves (tokens_ok t) w (set_tokens t' f w).
Proof. intros Hf Hu t' w [Hr Hk]. destruct t, t'; split; simpl in *; eauto. Qed.

Lemma tokens_ok_revoke t t' user_id at_ :
  keeps (preserves (tokens_ok t)) (tokens_revoke_outstanding t' user_id at_).
Proof.
  unfold tokens_revoke_outstanding. keeps. apply tokens_ok_update.
  - intros m Hw. apply map_Forall_update_where; [done|]. intros ? ? _ []; by split.
  - intros m. by apply unique_by_update.
Qed.

Lemma tokens_ok_consume t t' id at_ : keeps (preserves (tokens_ok t)) (tokens_mark_consumed t' id at_).
Proof.
  unfold tokens_mark_consumed. keeps. apply tokens_ok_update.
  - intros m Hw. apply map_Forall_alter; [done|]. intros ? []; by split.
  - intros m. by apply unique_by_alter.
Qed.

Lemma tokens_ok_add t t' id user_id token_hash expires created :
  length token_hash = 32 →
  keeps (preserves (tokens_ok t)) (tokens_add t' id user_id token_hash expires created).
Proof.
  intros Hl w. unfold tokens_add. run_cases. intros [Hr Hu].
  assert (∀ j y, tokens_of t' w !! j = Some y → t_token_hash y ≠ token_hash) as Hnew.
  { intros j y Hj Hy. eapply existsb_rows in Hj; [|eassumption]. by apply bool_decide_eq_false in Hj. }
  destruct t, t'; split; simpl in *;
    first [ done | apply map_Forall_insert_2; [by split|done] | by apply unique_by_insert ].
Qed.
#[export] Hint Resolve tokens_ok_revoke tokens_ok_consume tokens_ok_add : keeps.

(** ** Organizations *)
Definition organizations_ok (w : world) : Prop := map_Forall (λ id o, o_id o = id) (organizations w).

Lemma organizations_ok_rename id name : keeps (preserves organizations_ok) (organizations_rename id name).
Proof.
  intros w. unfold organizations_rename, organizations_get_active. run_cases. intros Hw.
  apply map_Forall_insert_2; [|done]. simpl.
  destruct (organizations w !! id) as [x|] eqn:E; [|done]. simpl in *. destruct (live x); [|done].
  simplify_eq. by apply (Hw id).
Qed.
#[export] Hint Resolve organizations_ok_rename : keeps.

(** ** Memberships *)
Definition memberships_ok (w : world) : Prop :=
  map_Forall (λ id m, m_id m = id) (memberships w) ∧
  unique_by (λ m, (m_organization_id m, m_user_id m)) (memberships w).

Lemma memberships_ok_add id organization_id user_id role :
  keeps (preserves memberships_ok) (memberships_add id organization_id user_id role).
Proof.
  intros w. unfold memberships_add. run_cases. intros [Hr Hu]. split; simpl.
  - by apply map_Forall_insert_2.
  - apply unique_by_insert; [done|]. intros j y Hj [= K1 K2].
    eapply existsb_rows in Hj; [|eassumption].
    apply andb_false_iff in Hj as [Hj|Hj]; by apply bool_decide_eq_false in Hj.
Qed.

Lemma memberships_ok_update_role id role : keeps (preserves memberships_ok) (memberships_update_role id role).
Proof.
  intros w. unfold memberships_update_role. run_cases. intros [Hr Hu]. split; simpl.
  - apply map_Forall_insert_2; [|done]. simpl. by apply (Hr id).
  - by eapply unique_by_replace.
Qed.

Lemma memberships_ok_delete id : keeps (preserves memberships_ok) (memberships_delete id).
Proof.
  unfold memberships_delete. keeps. intros [Hr Hu]. split; simpl.
  - by apply map_Forall_delete.
  - eapply unique_by_subseteq; [apply delete_subseteq|done].
Qed.

Lemma memberships_ok_delete_all user_id : keeps (preserves memberships_ok) (memberships_delete_all_for_user user_id).
Proof.
  unfold memberships_delete_all_for_user. keeps. intros [Hr Hu]. split; simpl.
  - intros i m (Hi & _)%map_lookup_filter_Some. by apply Hr.
  - eapply unique_by_subseteq; [apply map_filter_subseteq|done].
Qed.
#[export] Hint Resolve memberships_ok_add memberships_ok_update_role memberships_ok_delete
  memberships_ok_delete_all : keeps.

(** ** Invitations *)
Record invitation_row (id : uuid) (i : Invitation) : Prop := {
  row_invitation_id : i_id i = id;
  row_invitation_digest : length (i_token_hash i) = 32;
  row_single_outcome : i_accepted_at i = None ∨ i_revoked_at i = None;
  row_accepted : is_Some (i_accepted_by_user_id i) → is_Some (i_accepted_at i);
  row_not_owner : i_role i ≠ OWNER;
}.

Definition invitations_ok (w : world) : Prop :=
  map_Forall invitation_row (invitations w) ∧ unique_by i_token_hash (invitations w).

Lemma withdrawn_row id at_ t i : is_pending i = true → invitation_row id i → invitation_row id (withdrawn at_ t i).
Proof.
  unfold is_pending. intros Hp [H1 H2 H3 H4 H5]. split; simpl; try done.
  left. by destruct (i_accepted_at i).
Qed.

Lemma invitations_ok_withdraw organization_id email at_ :
  keeps (preserves invitations_ok) (invitations_revoke_pending_for_email organization_id email at_).
Proof.
  unfold invitations_revoke_pending_for_email. keeps. intros [Hr Hu]. split; simpl.
  - apply map_Forall_update_where; [done|]. intros id x Hc Hx. apply withdrawn_row; [|done].
    unfold pending_for in Hc. by apply andb_prop in Hc as [_ Hc].
  - by apply unique_by_update.
Qed.

Lemma invitations_ok_revoke id at_ : keeps (preserves invitations_ok) (invitations_revoke id at_).
Proof.
  unfold invitations_revoke. keeps. intros [Hr Hu]. split; simpl.
  - apply map_Forall_alter; [done|]. intros x Hx. destruct (is_pending x) eqn:E; [by apply withdrawn_row|done].
  - apply unique_by_alter; [|done]. intros x. by destruct (is_pending x).
Qed.

Lemma invitations_ok_add id organization_id email role token_hash user_id expires created :
  length token_hash = 32 → role ≠ OWNER →
  keeps (preserves invitations_ok)
    (invitations_add id organization_id email role token_hash user_id expires created).
Proof.
  intros Hl Ho w. unfold invitations_add. run_cases. intros [Hr Hu]. split; simpl.
  - apply map_Forall_insert_2; [|done]. split; simpl; first [done | by left | by intros []].
  - apply unique_by_insert; [done|]. intros j y Hj Hy.
    eapply existsb_rows in Hj; [|eassumption]. by apply bool_decide_eq_false in Hj.
Qed.
#[export] Hint Resolve invitations_ok_withdraw invitations_ok_revoke invitations_ok_add check_invitation_role : keeps.

(** * Every request *)
Section requests.
Context `{Externals} (cfg : config).

Lemma run_sessions_ok r : keeps (preserves sessions_ok) (run cfg r).
Proof using Type. destruct r; simpl; unfold discard; keeps. Qed.

Lemma run_users_ok r : keeps (preserves users_ok) (run cfg r).
Proof using Type. destruct r; simpl; unfold discard; keeps; rows_kept. Qed.

Lemma run_tokens_ok t r : keeps (preserves (tokens_ok t)) (run cfg r).
Proof using Type. destruct r; simpl; unfold discard; keeps. Qed.

Lemma run_organizations_ok r : keeps (preserves organizations_ok) (run cfg r).
Proof using Type.
  destruct r; simpl; unfold discard; keeps.
  - intros Hw. apply map_Forall_alter; [done|]. intros o Ho. by destruct (live o).
  - intros Hw. by apply map_Forall_insert_2.
  - intros Hw. apply map_Forall_alter; [done|]. intros o Ho. by destruct (live o).
Qed.


Lemma run_memberships_ok r : keeps (preserves memberships_ok) (run cfg r).
Proof using Type. destruct r; simpl; unfold discard; keeps. Qed.
Lemma memberships_add_ok id organization_id user_id role w m w' :
  memberships_add id organization_id user_id role w = (Ok m, w') →
  m = {| m_id := id; m_organization_id := organization_id; m_user_id := user_id; m_role := role;
         m_created_at := clock w; m_updated_at := clock w |} ∧
  w' = set_memberships (<[id := m]>) w ∧ memberships w !! id = None ∧
  is_Some (organizations w !! organization_id) ∧ is_Some (users w !! user_id) ∧
  (∀ j y, memberships w !! j = Some y → m_organization_id y = organization_id → m_user_id y ≠ user_id).
Proof using Type.
  unfold memberships_add, references_row, insert_row. intros Hr. world_inv.
  destruct (organizations w !! organization_id) eqn:Ho; [|done]. world_inv.
  destruct (users w !! user_id) eqn:Hu; [|done]. world_inv.
  destruct (memberships w !! id) eqn:Hm; [done|]. world_inv.
  repeat split; eauto. intros j y Hj Hoj Huj. eapply existsb_rows in Hj; [|eassumption].
  apply andb_false_iff in Hj as [Hj|Hj]; by apply bool_decide_eq_false in Hj.
Qed.

(** What a successful [accept] found and did. *)
Lemma accept_spec d user token w p w' :
  invitations_ok w → accept_invitation d user token w = (Ok p, w') →
  ∃ i m, invitations w !! i_id i = Some i ∧ i_token_hash i = hash_token token ∧ is_pending i = true ∧
    (now d < i_expires_at i)%Z ∧ u_email user = i_email i ∧
    m_role m = i_role i ∧ m_user_id m = u_id user ∧ m_organization_id m = i_organization_id i ∧
    memberships w !! new_id d = None ∧ memberships w' = <[new_id d := m]> (memberships w) ∧
    invitations w' = alter (accepted (u_id user) (now d) (clock w)) (i_id i) (invitations w) ∧
    organizations w' = organizations w.
Proof using Type.
  unfold accept_invitation. destruct (negb _) eqn:Hv; [done|]. destruct (refused_token token); [done|].
  intros [Hok _] Hr. io_steps. destruct (head _) as [i|] eqn:Hi; [|done].
  destruct (negb (is_pending i)) eqn:Hp; [done|]. destruct (_ <=? _)%Z eqn:He; [done|]. io_steps.
  apply memberships_add_ok in H5 as (-> & -> & Hnew & _).
  match type of Hr with (if ?x is Some _ then _ else _) _ = _ => destruct x; [|done] end. io_steps.
  apply head_where_Some in Hi as (Hh & id & Hid). pose proof (Hok id i Hid) as [Hki _ _ _ _].
  bool_facts. eexists i, _. subst id. by repeat split.
Qed.

Lemma accept_invitations_ok d user token :
  keeps (preserves invitations_ok) (accept_invitation d user token).
Proof using Type.
  intros w Hw. destruct (accept_invitation d user token w) as [[p|e] w'] eqn:E; simpl.
  - destruct (accept_spec d user token w p w' Hw E)
      as (i & m & Hid & _ & Hp & _ & _ & _ & _ & _ & _ & _ & Hi & _).
    destruct Hw as [Hr Hu]. unfold invitations_ok. rewrite Hi. split.
    + apply map_Forall_alter_row; [done|]. intros x Hx. simplify_eq.
      unfold is_pending in Hp. destruct (Hr _ _ Hid) as [H1 H2 H3 H4 H5].
      destruct (i_accepted_at i), (i_revoked_at i) eqn:Hv; try done.
      split; simpl; [done|done|by right|done|done].
    + by apply unique_by_alter.
  - revert E. unfold accept_invitation. repeat case_match; try (by intros [= _ <-]).
    intros [-> _]%unit_of_work_raise. done.
Qed.
#[local] Hint Resolve accept_invitations_ok : keeps.

Lemma run_invitations_ok r : keeps (preserves invitations_ok) (run cfg r).
Proof using Type. destruct r; simpl; unfold discard; keeps. Qed.

(** * Well-formed worlds *)
Record wf (w : world) : Prop := {
  wf_users : users_ok w;
  wf_tokens : ∀ t, tokens_ok t w;
  wf_sessions : sessions_ok w;
  wf_organizations : organizations_ok w;
  wf_memberships : memberships_ok w;
  wf_invitations : invitations_ok w;
}.

Lemma empty_ok : wf empty_world.
Proof using Type.
  assert (∀ A K (key : A → K), unique_by key (∅ : gmap uuid A)) as Hu
    by (intros A K key i j x y Hi; by rewrite lookup_empty in Hi).
  split; [apply map_Forall_empty|intros []; (split; [apply map_Forall_empty|apply Hu])
         |apply map_Forall_empty|apply map_Forall_empty| |];
    (split; [apply map_Forall_empty|apply Hu]).
Qed.

Lemma preserved (I : world → Prop) w w' :
  (∀ at_ c w, I w → I (set_request at_ c w)) → (∀ r, keeps (preserves I) (run cfg r)) →
  rtc (served cfg) w w' → I w → I w'.
Proof using Type. intros Hreq Hrun Hs. exact (served_keeps cfg (preserves I) Hreq Hrun w w' Hs). Qed.

Lemma served_wf w w' : rtc (served cfg) w w' → wf w → wf w'.
Proof using Type.
  intros Hs [H1 H2 H3 H4 H5 H6]. split; [|intros t; specialize (H2 t)| | | |];
    (eapply preserved; [| |exact Hs|eassumption]); try done;
    auto using run_users_ok, run_tokens_ok, run_sessions_ok, run_organizations_ok, run_memberships_ok,
      run_invitations_ok.
Qed.

Lemma reachable_ok w : reachable cfg w → wf w.
Proof using Type. intros Hr. by eapply served_wf, empty_ok. Qed.
End requests.

(** C32: Whatever sequence of requests the services have answered, by any clients at any times, the
    tables are well formed: every row is stored under its own id; digests of single-use tokens and
    invitations are unique and every stored digest has 32 bytes; a person has at most one membership in
    an organization; a session has a revocation reason exactly when it is revoked, an account a deletion
    time exactly when its status is deleted; an invitation has one outcome at most and never grants
    ownership. *)
Theorem reachable_wf `{Externals} cfg w : reachable cfg w → wf w.
Proof. apply reachable_ok. Qed.

Lemma reachable_wf_witness :
  size (sessions sample_world) = 1 ∧ size (memberships sample_world) = 1 ∧ wf sample_world.
Proof.
  split; [by vm_compute|]. split; [by vm_compute|].
  apply (reachable_wf sample_config). do 2 apply run_all_reachable. apply empty_reachable.
Defined.
