(* ===== verification/SessionProperties.v ===== *)
(** Sign-in sessions: what src/core/domain/identity/session_service.py promises.

    - [present] is the protocol of a refresh-token family as docs/security/authentication.md states it;
      [refresh] implements it on the stored session and touches nothing else.
    - A session's owner, expiry and origin never change, and a revoked session stays as it was revoked:
      it never refreshes and never authenticates again, whatever requests follow. *)
From Stdlib Require Import Lia ZArith.
From S2P Require Import Prelude Data Errors Codecs Tokens Computations Store Transactions.
From S2P Require Import Policy Identity Tenancy Accounts Invariants.

(** * The protocol *)
Record family := {
  f_current : bytes;
  f_previous : option bytes;
  f_rotated_at : option instant;
  f_expiry : instant;
  f_live : bool;
}.

Inductive answer := Granted | Refused_ | Lapsed | Conflict.

(** A token is presented: the digest of its secret, the time, whether the owner may sign in, and the
    digest of the secret that would replace it. *)
Definition present (grace : Z) (now : instant) (owner_ok : bool) (presented fresh : bytes) (f : family) :
    answer * family :=
  if negb (f_live f) then (Refused_, f)
  else if (f_expiry f <=? now)%Z then (Lapsed, f)
  else if decide (presented = f_current f) then
    if owner_ok then
      (Granted, {| f_current := fresh; f_previous := Some presented; f_rotated_at := Some now;
                   f_expiry := f_expiry f; f_live := true |})
    else (Refused_, f)
  else if decide (f_previous f = Some presented) then
    if (if f_rotated_at f is Some t then (now - t <=? grace)%Z else false) then (Conflict, f)
    else (Refused_, {| f_current := f_current f; f_previous := f_previous f;
                       f_rotated_at := f_rotated_at f; f_expiry := f_expiry f; f_live := false |})
  else (Refused_, f).

Definition family_of (s : Session) : family := {|
  f_current := s_refresh_token_hash s; f_previous := s_previous_refresh_token_hash s;
  f_rotated_at := s_refreshed_at s; f_expiry := s_expires_at s; f_live := negb (is_revoked s) |}.

Definition owner_active (w : world) (s : Session) : bool :=
  if users w !! s_user_id s is Some u then can_sign_in u else false.

#[export] Hint Resolve sessions_ok_rotate : keeps.

Section sessions.
Context `{Externals} (settings : SessionSettings).

(** What the caller of [refresh] gets for an answer. *)
Definition answered (d : draws) (w : world) (id : uuid) (s' : Session) (a : answer) (r : py SignedIn) :
    Prop :=
  match a with
  | Granted => ∃ u, users w !! s_user_id s' = Some u ∧
      r = Ok {| si_user := u; si_session := s';
                si_refresh_token := format_refresh_token id (fresh_secret d) |}
  | Refused_ => r = Raise InvalidRefreshToken
  | Lapsed => r = Raise SessionExpired
  | Conflict => r = Raise RefreshConflict
  end.

Lemma revoke_one id reason at_ (m : gmap uuid Session) s :
  map_Forall session_row m → m !! id = Some s → is_revoked s = false →
  update_where (λ x, negb (is_revoked x) && bool_decide (s_id x = id)) (revoked reason at_) m =
  <[id := revoked reason at_ s]> m.
Proof using Type.
  intros Hm Hs Hr. apply map_eq. intros i. rewrite lookup_update_where.
  destruct (decide (i = id)) as [->|Hne].
  - rewrite lookup_insert_eq, Hs. simpl. rewrite Hr, bool_decide_true by (by apply Hm). done.
  - rewrite lookup_insert_ne by done. destruct (m !! i) as [x|] eqn:Hx; [|done]. simpl.
    rewrite bool_decide_false, andb_false_r; [done|]. by rewrite (row_id _ _ (Hm i x Hx)).
Qed.

(** What a refresh does to the session. *)
Inductive refreshed (d : draws) (sec : string) (s : Session) : Session → Prop :=
  | refreshed_not : refreshed d sec s s
  | refreshed_rotated : is_revoked s = false → (now d < s_expires_at s)%Z →
      refreshed d sec s (rotated (hash_token (fresh_secret d)) (hash_token sec) (now d) s)
  | refreshed_revoked : is_revoked s = false → refreshed d sec s (revoked TOKEN_REUSE (now d) s).

Lemma refresh_refines d token id sec w s :
  sessions_ok w → parse_refresh_token token = Some (id, sec) → sessions w !! id = Some s →
  let '(a, f') := present (reuse_grace settings) (now d) (owner_active w s) (hash_token sec)
                    (hash_token (fresh_secret d)) (family_of s) in
  let '(r, w') := refresh settings d token w in
  ∃ s', sessions w' = <[id := s']> (sessions w) ∧ family_of s' = f' ∧ refreshed d sec s s' ∧
    users w' = users w ∧ answered d w id s' a r.
Proof using Type.
  intros Hok Hp Hs. pose proof (row_id _ _ (Hok id s Hs)) as Hid.
  unfold refresh. rewrite Hp. unfold refresh_block, present, sessions_get_for_update, sessions_get.
  unfold mbind, io_bind, unit_of_work, query, raise, mret, io_ret. rewrite Hs. cbn -[hash_token].
  assert (∀ a r, answered d w id s a r → ∃ s', sessions w = <[id := s']> (sessions w) ∧
    family_of s' = family_of s ∧ refreshed d sec s s' ∧ users w = users w ∧ answered d w id s' a r) as Hsame.
  { intros a r Ha. exists s. rewrite insert_id by done. repeat split; try done. constructor. }
  destruct (is_revoked s) eqn:Hr; simpl; [by apply (Hsame Refused_ (Raise InvalidRefreshToken))|].
  destruct (s_expires_at s <=? now d)%Z eqn:He; simpl; [by apply (Hsame Lapsed (Raise SessionExpired))|].
  rewrite Hid. destruct (decide (hash_token sec = s_refresh_token_hash s)).
  - unfold owner_active. destruct (users w !! s_user_id s) as [u|] eqn:Hu; [|by apply (Hsame Refused_ (Raise InvalidRefreshToken))].
    destruct (can_sign_in u); simpl; [|by apply (Hsame Refused_ (Raise InvalidRefreshToken))].
    rewrite lookup_alter_eq, Hs. simpl. eexists. split; [by apply alter_row|]. bool_facts.
    split; [unfold family_of, is_revoked in *; simpl; by rewrite Hr|].
    split; [by constructor|]. split; [done|]. by exists u.
  - case_bool_decide as Hprev; simpl; [rewrite decide_True by done|rewrite decide_False by done; by apply (Hsame Refused_ (Raise InvalidRefreshToken))].
    destruct (if s_refreshed_at s is Some t then _ else false); simpl; [by apply (Hsame Conflict (Raise RefreshConflict))|].
    unfold sessions_revoke, sessions_revoke_where, query, mbind, io_bind, mret, io_ret, modify.
    cbn -[hash_token]. rewrite (revoke_one id TOKEN_REUSE (now d) (sessions w) s Hok Hs Hr).
    eexists. split; [done|]. split; [done|]. split; [by constructor|]. done.
Qed.

Lemma refresh_cases d token id sec w s :
  sessions_ok w → parse_refresh_token token = Some (id, sec) → sessions w !! id = Some s →
  ∃ s', sessions (refresh settings d token w).2 = <[id := s']> (sessions w) ∧ refreshed d sec s s' ∧
    users (refresh settings d token w).2 = users w.
Proof using Type.
  intros Hok Hp Hs. pose proof (refresh_refines d token id sec w s Hok Hp Hs) as Href.
  destruct (present _ _ _ _ _ _) as [a f']. destruct (refresh settings d token w) as [r w'].
  destruct Href as (s' & ? & _ & ? & ? & _). by exists s'.
Qed.

(** * What never changes of a session *)
Record older (s s' : Session) : Prop := {
  older_user : s_user_id s' = s_user_id s;
  older_expiry : s_expires_at s' = s_expires_at s;
  older_created : s_created_at s' = s_created_at s;
  older_origin : s_user_agent s' = s_user_agent s ∧ s_ip_address s' = s_ip_address s;
  older_revoked : is_revoked s = true → s' = s;
}.

#[export] Instance older_preorder : PreOrder older.
Proof using Type.
  split; [by split|]. intros x y z [H1 H2 H3 [H4 H5] H6] [K1 K2 K3 [K4 K5] K6].
  split; try congruence; [split; congruence|]. intros Hx. pose proof (H6 Hx) as ->. auto.
Qed.

Definition sessions_older (w w' : world) : Prop :=
  ∀ id s, sessions w !! id = Some s → ∃ s', sessions w' !! id = Some s' ∧ older s s'.

#[export] Instance sessions_older_preorder : PreOrder sessions_older.
Proof using Type.
  split; [intros w id s Hs; by exists s|]. intros x y z H1 H2 id s Hs.
  destruct (H1 id s Hs) as (s1 & Hs1 & Ho1). destruct (H2 id s1 Hs1) as (s2 & Hs2 & Ho2).
  exists s2. split; [done|]. by etrans.
Qed.

Lemma older_add id s : keeps sessions_older (sessions_add id s).
Proof using Type.
  intros w. unfold sessions_add. run_cases. intros i x Hx. simpl.
  rewrite lookup_insert_ne by congruence. by exists x.
Qed.

Lemma older_revoke cond reason at_ : keeps sessions_older (sessions_revoke_where cond reason at_).
Proof using Type.
  unfold sessions_revoke_where. keeps. intros i x Hx. simpl. rewrite lookup_update_where, Hx. simpl.
  destruct (is_revoked x) eqn:E; simpl; [by exists x|]. destruct (cond x); [|by exists x].
  eexists. split; [done|]. split; simpl; (done || by rewrite E).
Qed.

Lemma refresh_raises d token w :
  (∀ id sec s, parse_refresh_token token = Some (id, sec) → sessions w !! id ≠ Some s) →
  refresh settings d token w = (Raise InvalidRefreshToken, w).
Proof using Type.
  intros Hno. unfold refresh. destruct (parse_refresh_token token) as [[id sec]|]; [|done].
  specialize (Hno id sec). unfold refresh_block, sessions_get_for_update, sessions_get.
  unfold mbind, io_bind, unit_of_work, query. destruct (sessions w !! id) as [s|]; [naive_solver|done].
Qed.

Lemma older_refresh d token w : sessions_ok w → sessions_older w (refresh settings d token w).2.
Proof using Type.
  intros Hok. destruct (parse_refresh_token token) as [[id sec]|] eqn:Hp.
  2: { rewrite refresh_raises; [done|]. intros id sec s ?. congruence. }
  destruct (sessions w !! id) as [s|] eqn:Hs.
  2: { rewrite refresh_raises; [done|]. intros id' sec' s' ?. congruence. }
  destruct (refresh_cases d token id sec w s Hok Hp Hs) as (s' & Hw' & Hr & _).
  intros i x Hx. rewrite Hw'. destruct (decide (i = id)) as [->|Hne].
  - rewrite lookup_insert_eq. exists s'. split; [done|]. simplify_eq.
    destruct Hr as [|Hr Hn|Hr]; split; try done; by rewrite Hr.
  - rewrite lookup_insert_ne by done. by exists x.
Qed.
End sessions.
#[export] Hint Resolve older_add older_revoke : keeps.

Section requests.
Context `{Externals} (cfg : config).

Lemma discard_world {A} (m : io A) w : (discard m w).2 = (m w).2.
Proof using Type. unfold discard, mbind, io_bind. by destruct (m w) as [[a|e] v]. Qed.

Lemma run_older r w : sessions_ok w → sessions_older w (run cfg r w).2.
Proof using Type.
  intros Hok. destruct r; try (cbn [run]; rewrite discard_world; by apply older_refresh);
  match goal with |- _ _ (run cfg ?r _).2 => refine ((_ : keeps sessions_older (run cfg r)) w) end;
    simpl; unfold discard; keeps.
Qed.

(** The sessions of a well-formed world, before and after any requests. *)
Lemma served_older w w' :
  rtc (served cfg) w w' → sessions_ok w → sessions_ok w' ∧ sessions_older w w'.
Proof using Type.
  induction 1 as [w|w w1 w2 (r & at_ & c & ->) _ IH]; intros Hok; [done|].
  assert (sessions_ok (set_request at_ c w)) as Hok' by exact Hok.
  destruct IH as [H2 Ho2]; [by apply run_sessions_ok|].
  split; [done|]. etrans; [|done]. by apply (run_older r (set_request at_ c w)).
Qed.

Lemma authenticate_spec d session_id user_id w :
  authenticate d session_id user_id w =
  (match sessions w !! session_id with
   | Some s =>
       match users w !! user_id with
       | Some u => if bool_decide (s_user_id s = user_id) && is_active s (now d) && can_sign_in u
                   then Ok (u, s) else Raise SessionRevoked
       | None => Raise SessionRevoked
       end
   | None => Raise SessionRevoked
   end, w).
Proof using Type.
  unfold authenticate, sessions_get, users_get, query, raise, unit_of_work, mbind, io_bind, mret, io_ret.
  destruct (sessions w !! session_id) as [s|]; [|done].
  destruct (bool_decide _), (is_active s (now d)); simpl; destruct (users w !! user_id) as [u|];
    try done. by destruct (can_sign_in u).
Qed.

Lemma revoked_stays w w' id s :
  sessions_ok w → sessions w !! id = Some s → is_revoked s = true → rtc (served cfg) w w' →
  sessions w' !! id = Some s ∧
  (∀ d token sec, parse_refresh_token token = Some (id, sec) →
     refresh (session_settings cfg) d token w' = (Raise InvalidRefreshToken, w')) ∧
  (∀ d user_id, authenticate d id user_id w' = (Raise SessionRevoked, w')).
Proof using Type.
  intros Hok Hs Hr Hserved. destruct (served_older w w' Hserved Hok) as [Hok' Hold].
  destruct (Hold id s Hs) as (s' & Hs' & Ho). rewrite (older_revoked _ _ Ho Hr) in Hs'.
  split; [done|]. split.
  - intros d token sec Hp. unfold refresh. rewrite Hp.
    unfold refresh_block, sessions_get_for_update, sessions_get, query, raise, unit_of_work, mbind, io_bind.
    by rewrite Hs', Hr.
  - intros d user_id. rewrite authenticate_spec, Hs'. unfold is_active, is_revoked in *.
    destruct (s_revoked_at s); [|done]. simpl. rewrite andb_false_r. by destruct (users w' !! user_id).
Qed.

(** * Lifetimes *)
Record lifetime (s : Session) : Prop := {
  life_expiry : s_expires_at s = (s_created_at s + refresh_ttl (session_settings cfg))%Z;
  life_range : (0 <= s_expires_at s <= MAX_INSTANT)%Z;
  life_refreshed : ∀ t, s_refreshed_at s = Some t → (t < s_expires_at s)%Z;
}.

Definition lifetimes (w : world) : Prop := map_Forall (λ _, lifetime) (sessions w).

Lemma lifetimes_add id s :
  ns_expires_at s = (ns_created_at s + refresh_ttl (session_settings cfg))%Z →
  (0 <= ns_expires_at s <= MAX_INSTANT)%Z → keeps (preserves lifetimes) (sessions_add id s).
Proof using Type.
  intros He Hr. unfold sessions_add, insert_row, references_row. keeps. intros Hw.
  by apply map_Forall_insert_2.
Qed.

Lemma lifetimes_revoke cond reason at_ :
  keeps (preserves lifetimes) (sessions_revoke_where cond reason at_).
Proof using Type.
  unfold sessions_revoke_where. keeps. intros Hw. apply map_Forall_update_where; [done|].
  by intros i s _ [H1 H2 H3].
Qed.
#[local] Hint Resolve lifetimes_add lifetimes_revoke : keeps.

Lemma run_lifetimes r w : sessions_ok w → lifetimes w → lifetimes (run cfg r w).2.
Proof using Type.
  intros Hok. destruct r;
    try match goal with
    | |- _ → _ (run cfg ?r _).2 =>
        refine ((_ : keeps (preserves lifetimes) (run cfg r)) w); simpl; unfold discard; keeps; fail
    end.
  cbn [run]. rewrite discard_world. intros Hl.
  destruct (parse_refresh_token refresh_token) as [[id sec]|] eqn:Hp.
  2: { rewrite refresh_raises; [done|]. intros id sec s ?. congruence. }
  destruct (sessions w !! id) as [s|] eqn:Hs.
  2: { rewrite refresh_raises; [done|]. intros id' sec' s' ?. congruence. }
  destruct (refresh_cases (session_settings cfg) d refresh_token id sec w s Hok Hp Hs)
    as (s' & Hw' & Hr & _). unfold lifetimes. rewrite Hw'.
  apply map_Forall_insert_2; [|done]. destruct (Hl id s Hs) as [H1 H2 H3].
  destruct Hr as [|Hr Hn|Hr]; split; try done. by intros t [= <-].
Qed.

Lemma served_lifetimes w w' :
  rtc (served cfg) w w' → sessions_ok w → lifetimes w → lifetimes w'.
Proof using Type.
  induction 1 as [w|w w1 w2 (r & at_ & c & ->) _ IH]; intros Hok Hl; [done|].
  assert (sessions_ok (set_request at_ c w)) as Hok' by exact Hok.
  apply IH; [by apply run_sessions_ok|by apply run_lifetimes].
Qed.

(** [GET /me/sessions] lists live sessions of the caller, a hundred at most. *)
Lemma list_sessions_spec d user_id w :
  ∃ l, list_sessions d user_id w = (Ok l, w) ∧ (length l <= MAX_LISTED_SESSIONS)%nat ∧
    ∀ s, s ∈ l → s_user_id s = user_id ∧ is_active s (now d) = true.
Proof using Type.
  eexists. split; [done|]. rewrite length_take. split; [lia|]. intros s Hs.
  apply elem_of_take in Hs as (i & Hs & _). apply list_elem_of_lookup_2 in Hs.
  rewrite elem_of_sort_by, elem_of_where in Hs. destruct Hs as [Hc _]. bool_facts.
  unfold is_active, is_revoked in *. destruct (s_revoked_at s); [done|]. split; [done|].
  by apply Z.ltb_lt.
Qed.

(** * Staying signed in *)

(** A client that refreshes once per call, always with the token it was given last. *)
Fixpoint keep_refreshing (ds : list draws) (token : string) (w : world) : option (string * world) :=
  match ds with
  | [] => Some (token, w)
  | d :: ds =>
      match refresh (session_settings cfg) d token w with
      | (Ok signed_in, w') => keep_refreshing ds (si_refresh_token signed_in) w'
      | (Raise _, _) => None
      end
  end.

(** A secret a token can carry ([generate_token] gives 43 characters). *)
Definition fits (secret : string) : Prop :=
  secret ≠ "" ∧ (37 + String.length secret <= MAX_TOKEN_LENGTH)%nat.

Lemma keep_refreshing_ok ds w id s sec :
  sessions_ok w → canonical_uuid id → sessions w !! id = Some s → is_revoked s = false →
  owner_active w s = true → s_refresh_token_hash s = hash_token sec → fits sec →
  Forall (λ d, (now d < s_expires_at s)%Z ∧ fits (fresh_secret d)) ds →
  is_Some (keep_refreshing ds (format_refresh_token id sec) w).
Proof using All.
  revert w s sec. induction ds as [|d ds IH]; intros w s sec Hok Hid Hs Hr Ho Hh Hf Hds; [done|].
  apply Forall_cons in Hds as [[Hn Hfd] Hds]. cbn [keep_refreshing].
  assert (parse_refresh_token (format_refresh_token id sec) = Some (id, sec)) as Hp
    by (apply parse_format; [done|apply Hf..]).
  pose proof (refresh_refines (session_settings cfg) d _ id sec w s Hok Hp Hs) as Href.
  assert (sessions_ok (refresh (session_settings cfg) d (format_refresh_token id sec) w).2) as Hok'.
  { rewrite <- discard_world. exact (run_sessions_ok cfg (Refresh d (format_refresh_token id sec)) w Hok). }
  unfold present in Href. simpl in Href. rewrite Hr in Href. simpl in Href.
  replace (s_expires_at s <=? now d)%Z with false in Href by (symmetry; apply Z.leb_gt; lia).
  rewrite decide_True, Ho in Href by done.
  destruct (refresh _ _ _ _) as [r w']. destruct Href as (s' & Hw' & Hfam & Hre & Hu & u & Hus & ->).
  cbn [si_refresh_token]. simpl in Hok'. unfold family_of in Hfam.
  injection Hfam as Hc _ _ He Hl. apply negb_true_iff in Hl.
  apply (IH w' s'); try done.
  - by rewrite Hw', lookup_insert_eq.
  - unfold owner_active. rewrite Hu. destruct Hre; exact Ho.
  - by rewrite He.
Qed.
End requests.

(** * The theorems *)

(** C5: [refresh] is the documented token-family protocol: presenting the current secret of a live,
    unexpired session of an account that may sign in rotates it and returns the new token; the
    previous secret within the grace is a conflict that changes nothing, after the grace it revokes
    the session; any other secret is refused and changes nothing.  No other session and no account is
    touched, and a token of no session, or that is not a token, is refused without effect. *)
Theorem refresh_spec `{Externals} cfg w d token :
  reachable cfg w →
  let '(r, w') := refresh (session_settings cfg) d token w in
  match parse_refresh_token token with
  | Some (id, sec) =>
      match sessions w !! id with
      | Some s =>
          let '(a, f) := present (reuse_grace (session_settings cfg)) (now d) (owner_active w s)
                           (hash_token sec) (hash_token (fresh_secret d)) (family_of s) in
          ∃ s', sessions w' = <[id := s']> (sessions w) ∧ family_of s' = f ∧ users w' = users w ∧
                answered d w id s' a r
      | None => r = Raise InvalidRefreshToken ∧ w' = w
      end
  | None => r = Raise InvalidRefreshToken ∧ w' = w
  end.
Proof.
  intros Hr. apply reachable_ok in Hr as [_ _ Hok _ _ _].
  destruct (parse_refresh_token token) as [[id sec]|] eqn:Hp.
  2: { rewrite refresh_raises; [done|]. intros id sec s ?. congruence. }
  destruct (sessions w !! id) as [s|] eqn:Hs.
  2: { rewrite refresh_raises; [done|]. intros id' sec' s' ?. congruence. }
  pose proof (refresh_refines (session_settings cfg) d token id sec w s Hok Hp Hs) as Href.
  destruct (present _ _ _ _ _ _) as [a f], (refresh _ _ _ _) as [r w'].
  destruct Href as (s' & ? & ? & _ & ? & ?). by exists s'.
Qed.

(** C21: A revoked session is dead: whatever requests follow, by anyone, its row stays exactly as it was
    revoked, no token of it refreshes, no access token of it authenticates, and trying changes nothing. *)
Theorem revoked_forever `{Externals} cfg w w' id s :
  reachable cfg w → sessions w !! id = Some s → is_revoked s = true → rtc (served cfg) w w' →
  sessions w' !! id = Some s ∧
  (∀ d token sec, parse_refresh_token token = Some (id, sec) →
     refresh (session_settings cfg) d token w' = (Raise InvalidRefreshToken, w')) ∧
  (∀ d user_id, authenticate d id user_id w' = (Raise SessionRevoked, w')).
Proof. intros [_ _ Hok _ _ _]%reachable_ok. by apply revoked_stays. Qed.

(** A session lives [refresh_ttl] from sign-in and no longer: in every reachable world its expiry is
    its creation time plus that lifetime, within the range of [datetime], and it was last rotated
    strictly before it; refreshing never extends it, and its owner never changes. *)
Theorem session_lifetime `{Externals} cfg w w' id s :
  reachable cfg w → sessions w !! id = Some s → rtc (served cfg) w w' →
  lifetime cfg s ∧
  ∃ s', sessions w' !! id = Some s' ∧ s_expires_at s' = s_expires_at s ∧ s_user_id s' = s_user_id s ∧
        lifetime cfg s'.
Proof.
  intros Hr Hs Hserved. pose proof (reachable_ok cfg w Hr) as [_ _ Hok _ _ _].
  assert (lifetimes cfg w) as Hl.
  { eapply served_lifetimes; [exact Hr| |]; try apply map_Forall_empty; apply empty_ok. }
  split; [by eapply Hl|]. destruct (served_older cfg w w' Hserved Hok) as [_ Hold].
  destruct (Hold id s Hs) as (s' & Hs' & [H1 H2 _ _ _]). exists s'. repeat split; try done;
    by eapply (served_lifetimes cfg w w' Hserved Hok Hl).
Qed.

(** C38: Liveness: as long as the session is not revoked and has not expired, and its owner may sign in, a
    client that always presents the token it was last given is refreshed every time. *)
Theorem refresh_live `{Externals} cfg ds w id s sec :
  reachable cfg w → canonical_uuid id → sessions w !! id = Some s → is_revoked s = false →
  owner_active w s = true → s_refresh_token_hash s = hash_token sec → fits sec →
  Forall (λ d, (now d < s_expires_at s)%Z ∧ fits (fresh_secret d)) ds →
  is_Some (keep_refreshing cfg ds (format_refresh_token id sec) w).
Proof. intros [_ _ Hok _ _ _]%reachable_ok. by apply keep_refreshing_ok. Qed.

(** * Instances *)
#[local] Opaque hash_token.
Definition sample_session_of (w : world) : Session :=
  default {| s_id := ""; s_user_id := ""; s_refresh_token_hash := []; s_previous_refresh_token_hash := None;
             s_refreshed_at := None; s_expires_at := 0; s_last_used_at := None; s_revoked_at := None;
             s_revoked_reason := None; s_user_agent := None; s_ip_address := None; s_created_at := 0 |}
    (sessions w !! sample_id 5).

Definition sample_token (s : string) : string := format_refresh_token (sample_id 5) s.

(** Ada's session after she logged out. *)
Definition sample_logged_out : world :=
  run_all sample_config [at_time_ 60 (Logout (sample_draws 60 9 "") (Some (sample_token "secret-1")))]
    sample_signed_in.

Lemma sample_signed_in_reachable : reachable sample_config sample_signed_in.
Proof. apply run_all_reachable, empty_reachable. Qed.

Lemma refresh_spec_witness :
  reachable sample_config sample_signed_in ∧
  ∃ s', sessions (refresh (session_settings sample_config) (sample_draws 50 9 "secret-2")
                    (sample_token "secret-1") sample_signed_in).2 =
          <[sample_id 5 := s']> (sessions sample_signed_in) ∧
        s_refresh_token_hash s' = hash_token "secret-2".
Proof.
  split; [apply sample_signed_in_reachable|].
  pose proof (refresh_spec sample_config sample_signed_in (sample_draws 50 9 "secret-2")
                (sample_token "secret-1") sample_signed_in_reachable) as Hs.
  destruct (refresh _ _ _ _) as [r w'].
  replace (parse_refresh_token (sample_token "secret-1")) with (Some (sample_id 5, "secret-1")) in Hs
    by (vm_compute; reflexivity).
  replace (sessions sample_signed_in !! sample_id 5) with (Some (sample_session_of sample_signed_in)) in Hs
    by (vm_compute; reflexivity).
  replace (present _ _ _ _ _ _) with
    (Granted, {| f_current := hash_token "secret-2"; f_previous := Some (hash_token "secret-1");
                 f_rotated_at := Some (50 * SECOND)%Z; f_expiry := (2592030 * SECOND)%Z;
                 f_live := true |}) in Hs by (vm_compute; reflexivity).
  destruct Hs as (s' & Hs' & Hf & _). exists s'. split; [exact Hs'|]. exact (f_equal f_current Hf).
Defined.

Lemma revoked_forever_witness :
  is_revoked (sample_session_of sample_logged_out) = true ∧
  sessions sample_logged_out !! sample_id 5 = Some (sample_session_of sample_logged_out).
Proof.
  split; [by vm_compute|].
  apply (revoked_forever sample_config sample_logged_out sample_logged_out).
  - apply run_all_reachable, sample_signed_in_reachable.
  - vm_compute. reflexivity.
  - by vm_compute.
  - apply rtc_refl.
Defined.

Lemma session_lifetime_witness : lifetime sample_config (sample_session_of sample_logged_out).
Proof.
  apply (session_lifetime sample_config sample_logged_out sample_logged_out (sample_id 5)).
  - apply run_all_reachable, sample_signed_in_reachable.
  - vm_compute. reflexivity.
  - apply rtc_refl.
Defined.

Lemma refresh_live_witness :
  is_Some (keep_refreshing sample_config
             [sample_draws 50 9 "secret-2"; sample_draws 70 9 "secret-3"; sample_draws 71 9 "secret-4"]
             (sample_token "secret-1") sample_signed_in).
Proof.
  apply (refresh_live sample_config _ sample_signed_in (sample_id 5) (sample_session_of sample_signed_in)).
  - apply sample_signed_in_reachable.
  - by vm_compute.
  - vm_compute. reflexivity.
  - by vm_compute.
  - by vm_compute.
  - vm_compute. reflexivity.
  - split; [done|]. apply (bool_decide_unpack _). vm_compute. exact I.
  - repeat constructor; try done; apply (bool_decide_unpack _); vm_compute; exact I.
Defined.
