(* ===== verification/AccountProperties.v ===== *)
(** Emailed tokens, passwords and accounts: what src/core/domain/identity/auth_service.py,
    password_service.py and user_service.py promise.

    - An emailed token works once: after it verified an email or reset a password, it is refused
      whatever requests follow.
    - A password reset signs the account out everywhere, a password change everywhere else.
    - A deleted account stays deleted: it never signs in again and none of its sessions works. *)
From Stdlib Require Import Lia ZArith.
From S2P Require Import Prelude Data Errors Codecs Tokens Computations Store Transactions.
From S2P Require Import Policy Identity Tenancy Accounts Invariants SessionProperties.

(** * Spent tokens stay spent *)
Record token_older (x x' : SingleUseToken) : Prop := {
  older_token_hash : t_token_hash x' = t_token_hash x;
  older_token_spent : is_spent x = true → is_spent x' = true;
}.

#[export] Instance token_older_preorder : PreOrder token_older.
Proof. split; [by split|]. intros x y z [H1 H2] [H3 H4]. split; [congruence|auto]. Qed.

Definition tokens_older (t : token_table) (w w' : world) : Prop :=
  ∀ id x, tokens_of t w !! id = Some x → ∃ x', tokens_of t w' !! id = Some x' ∧ token_older x x'.

#[export] Instance tokens_older_preorder t : PreOrder (tokens_older t).
Proof.
  split; [intros w id x Hx; by exists x|]. intros w1 w2 w3 H1 H2 id x Hx.
  destruct (H1 id x Hx) as (x1 & Hx1 & Ho1). destruct (H2 id x1 Hx1) as (x2 & Hx2 & Ho2).
  exists x2. split; [done|]. by etrans.
Qed.

Lemma tokens_older_set t t' f w :
  (∀ id x, tokens_of t' w !! id = Some x → ∃ x', f (tokens_of t' w) !! id = Some x' ∧ token_older x x') →
  tokens_older t w (set_tokens t' f w).
Proof. intros Hf id x Hx. destruct t, t'; simpl in *; (by apply Hf || by exists x). Qed.

Lemma tokens_older_add t t' id user_id token_hash expires created :
  keeps (tokens_older t) (tokens_add t' id user_id token_hash expires created).
Proof.
  intros w. unfold tokens_add. run_cases. apply tokens_older_set. intros i x Hx.
  exists x. by rewrite lookup_insert_ne by congruence.
Qed.

Lemma tokens_older_revoke t t' user_id at_ :
  keeps (tokens_older t) (tokens_revoke_outstanding t' user_id at_).
Proof.
  unfold tokens_revoke_outstanding. keeps. apply tokens_older_set. intros i x Hx.
  rewrite lookup_update_where, Hx. simpl. eexists. split; [done|].
  destruct (outstanding user_id x); [|done]. split; [done|]. unfold is_spent. simpl.
  by destruct (t_consumed_at x).
Qed.

Lemma tokens_older_consume t t' id at_ : keeps (tokens_older t) (tokens_mark_consumed t' id at_).
Proof.
  unfold tokens_mark_consumed. keeps. apply tokens_older_set. intros i x Hx.
  destruct (decide (i = id)) as [->|Hne].
  - rewrite lookup_alter_eq, Hx. simpl. eexists. split; [done|]. by split.
  - rewrite lookup_alter_ne by done. by exists x.
Qed.
#[export] Hint Resolve tokens_older_add tokens_older_revoke tokens_older_consume : keeps.

Section tokens.
Context `{Externals} (cfg : config).

Lemma run_tokens_older t r : keeps (tokens_older t) (run cfg r).
Proof using Type. destruct r; simpl; unfold discard; keeps. Qed.

Lemma served_tokens t w w' :
  rtc (served cfg) w w' → tokens_ok t w → tokens_ok t w' ∧ tokens_older t w w'.
Proof using Type.
  intros Hs Hok. split.
  - eapply (preserved cfg (tokens_ok t)); [|apply run_tokens_ok|done|done]. by destruct t.
  - eapply (served_keeps cfg (tokens_older t)); [|apply run_tokens_older|done].
    intros at_ c v id x Hx. exists x. by destruct t.
Qed.

Lemma open_token_ok t d token w stored u w' :
  tokens_ok t w → open_token t d token w = (Ok (stored, u), w') →
  w' = w ∧ tokens_of t w !! t_id stored = Some stored ∧ t_token_hash stored = hash_token token ∧
  is_spent stored = false ∧ (now d < t_expires_at stored)%Z ∧
  users w !! t_user_id stored = Some u ∧ can_sign_in u = true.
Proof using Type.
  intros [Hok _] Hr. unfold open_token in Hr. io_steps.
  destruct (head _) as [x|] eqn:Hx; [|done]. destruct (is_spent x) eqn:Hsp; [done|].
  destruct (t_expires_at x <=? now d)%Z eqn:He; [done|]. io_steps.
  destruct (users w !! t_user_id x) as [v|] eqn:Hv; [|done]. destruct (can_sign_in v) eqn:Hc; [|done].
  io_steps. apply head_where_Some in Hx as (Hh & id & Hid). bool_facts.
  rewrite <- (row_token_id _ _ (Hok id _ Hid)) in Hid. done.
Qed.

Lemma open_token_spent t d token w id x :
  tokens_ok t w → tokens_of t w !! id = Some x → t_token_hash x = hash_token token →
  is_spent x = true → open_token t d token w = (Raise InvalidToken, w).
Proof using Type.
  intros [_ Hu] Hx Hh Hsp. unfold open_token, tokens_get_by_hash_for_update, query, mbind, io_bind.
  rewrite (head_where_unique _ _ id x); [by rewrite Hsp|done|by apply bool_decide_eq_true|].
  intros i y Hy Hey. bool_facts. eapply Hu; [done..|congruence].
Qed.

(** The uses of an emailed token. *)
Definition use (t : token_table) (d : draws) (token password : string) : io unit :=
  match t with
  | VERIFICATION => verify_email d token
  | RESET => reset (password_policy cfg) d token password
  end.

Lemma spent_after t id x at_ w u w1 w' :
  tokens_of t w !! id = Some x → tokens_mark_consumed t id at_ w = (Ok u, w1) → tokens_older t w1 w' →
  ∃ x', tokens_of t w' !! id = Some x' ∧ t_token_hash x' = t_token_hash x ∧ is_spent x' = true.
Proof using Type.
  intros Hx [= _ <-] Hold. destruct (Hold id (token_consumed at_ x)) as (x' & Hx' & [Hh Hs]).
  - destruct t; simpl in *; by rewrite lookup_alter_eq, Hx.
  - exists x'. auto.
Qed.

(** The condition on a session of the account. *)
Definition owned_by (user_id : uuid) (s : Session) : bool := bool_decide (s_user_id s = user_id).

(** What a successful reset did. *)
Lemma reset_ok d token password w w' :
  users_ok w → tokens_ok RESET w → reset (password_policy cfg) d token password w = (Ok tt, w') →
  ∃ stored u u',
    tokens_of RESET w !! t_id stored = Some stored ∧ t_token_hash stored = hash_token token ∧
    is_spent stored = false ∧ (now d < t_expires_at stored)%Z ∧
    users w !! u_id u = Some u ∧ can_sign_in u = true ∧ t_user_id stored = u_id u ∧
    validate_password (password_policy cfg) password (u_email u) = Ok tt ∧
    users w' !! u_id u = Some u' ∧ u_password_hash u' = hash (fresh_salt d) password ∧
    sessions w' = update_where (λ s, negb (is_revoked s) && (owned_by (u_id u) s && true))
                    (revoked PASSWORD_RESET (now d)) (sessions w) ∧
    tokens_of RESET w' = update_where (outstanding (u_id u)) (token_revoked (now d))
                           (alter (token_consumed (now d)) (t_id stored) (tokens_of RESET w)).
Proof using Type.
  intros Husers Hok Hr. unfold reset in Hr. destruct (refused_token token); [done|].
  apply (proj1 (io_bind_ok _ _ _ _ _)) in Hr as (notice & w2 & Hr & Hs).
  apply (proj1 (unit_of_work_ok _ _ _ _)) in Hr.
  apply (proj1 (io_bind_ok _ _ _ _ _)) in Hr as ([stored u] & w0 & Ho & Hr).
  apply open_token_ok in Ho as (-> & Hx & Hh & Hsp & He & Hu & Hc); [|done].
  pose proof (row_user_id _ _ (Husers _ _ Hu)) as Hid. rewrite <- Hid in Hu.
  exists stored, u.
  do 2 apply (proj1 (io_bind_ok _ _ _ _ _)) in Hr as (? & ? & ? & Hr). io_steps.
  repeat match goal with v : unit |- _ => destruct v end.
  destruct (is_email_verified u); io_steps; world_simpl.
  - rewrite lookup_alter_eq, Hu. eexists. by repeat split.
  - rewrite !lookup_alter_eq, Hu. simpl. destruct (u_email_verified_at u); eexists; by repeat split.
Qed.

Lemma use_spends t d token password w w' :
  wf w → use t d token password w = (Ok tt, w') →
  ∃ id x, tokens_of t w' !! id = Some x ∧ t_token_hash x = hash_token token ∧ is_spent x = true.
Proof using Type.
  intros [Husers Hok _ _ _ _] Hr. destruct t; simpl in Hr.
  - unfold verify_email in Hr. destruct (refused_token token); [done|].
    apply (proj1 (unit_of_work_ok _ _ _ _)) in Hr.
    apply (proj1 (io_bind_ok _ _ _ _ _)) in Hr as ([stored u] & w0 & Ho & Hr).
    apply open_token_ok in Ho as (-> & Hx & <- & _); [|done].
    apply (proj1 (io_bind_ok _ _ _ _ _)) in Hr as (v & w1 & Hm & Hr).
    destruct (spent_after VERIFICATION _ _ _ _ _ _ w' Hx Hm) as (x' & ?); [|by eexists _, x'].
    eapply keeps_run; [|exact Hr]. keeps.
  - apply reset_ok in Hr as (stored & u & u' & Hx & <- & _ & _ & _ & _ & _ & _ & _ & _ & _ & ->); try done.
    exists (t_id stored). rewrite lookup_update_where, lookup_alter_eq, Hx. simpl.
    eexists. split; [done|]. unfold outstanding, is_spent. simpl. rewrite andb_false_r. done.
Qed.

Lemma use_refused t d token password w id x :
  tokens_ok t w → tokens_of t w !! id = Some x → t_token_hash x = hash_token token → is_spent x = true →
  use t d token password w = (Raise InvalidToken, w).
Proof using Type.
  intros Hok Hx Hh Hsp.
  destruct t; simpl; unfold verify_email, reset; destruct (refused_token token); try done;
    unfold mbind, io_bind, unit_of_work; by rewrite (open_token_spent _ d token w id x).
Qed.

(** [w'] after a call is a world of the sequence. *)
Lemma set_request_id w : set_request (clock w) (client w) w = w.
Proof using Type. by destruct w. Qed.

Lemma run_served r w : served cfg w (run cfg r w).2.
Proof using Type. exists r, (clock w), (client w). by rewrite set_request_id. Qed.

Definition use_request t d token password : request :=
  match t with VERIFICATION => VerifyEmail d token | RESET => ResetPassword d token password end.

Lemma run_use t d token password : run cfg (use_request t d token password) = use t d token password.
Proof using Type. by destruct t. Qed.

Lemma used_once t d d' token password password' w w' w'' :
  wf w → use t d token password w = (Ok tt, w') → rtc (served cfg) w' w'' →
  use t d' token password' w'' = (Raise InvalidToken, w'').
Proof using Type.
  intros Hwf Hr Hs. destruct (use_spends t d token password w w' Hwf Hr) as (id & x & Hx & Hh & Hsp).
  assert (wf w') as [_ Hok' _ _ _ _].
  { eapply served_wf, Hwf. apply rtc_once. replace w' with (run cfg (use_request t d token password) w).2.
    - apply run_served.
    - by rewrite run_use, Hr. }
  destruct (served_tokens t w' w'' Hs (Hok' t)) as [Hok Hold].
  destruct (Hold id x Hx) as (x' & Hx' & [Hh' Hsp']).
  eapply use_refused; [done|done|congruence|auto].
Qed.
End tokens.

(** * Deleted accounts *)
Definition users_older (w w' : world) : Prop :=
  ∀ id u, users w !! id = Some u →
    ∃ u', users w' !! id = Some u' ∧ (u_status u = USER_DELETED → u_status u' = USER_DELETED).

#[export] Instance users_older_preorder : PreOrder users_older.
Proof.
  split; [intros w id u Hu; by exists u|]. intros w1 w2 w3 H1 H2 id u Hu.
  destruct (H1 id u Hu) as (u1 & Hu1 & Ho1). destruct (H2 id u1 Hu1) as (u2 & Hu2 & Ho2). exists u2. auto.
Qed.

Lemma users_older_alter f id w :
  (∀ u, u_status u = USER_DELETED → u_status (f u) = USER_DELETED) →
  users_older w (set_users (alter f id) w).
Proof.
  intros Hf i u Hu. world_simpl. destruct (decide (i = id)) as [->|Hne].
  - rewrite lookup_alter_eq, Hu. simpl. eauto.
  - rewrite lookup_alter_ne by done. eauto.
Qed.

Lemma users_older_add id user : keeps users_older (users_add id user).
Proof.
  intros w. unfold users_add, users_get_by_email. run_cases. intros i u Hu. simpl.
  exists u. by rewrite lookup_insert_ne by congruence.
Qed.
#[export] Hint Resolve users_older_add : keeps.

Section accounts.
Context `{Externals} (cfg : config).

Lemma run_users_older r : keeps users_older (run cfg r).
Proof using Type.
  destruct r; simpl; unfold discard; keeps; apply users_older_alter; intros v Hv; simpl; try done.
  all: by destruct (u_email_verified_at v).
Qed.

Lemma served_deleted w w' id u :
  rtc (served cfg) w w' → users w !! id = Some u → u_status u = USER_DELETED →
  ∃ u', users w' !! id = Some u' ∧ u_status u' = USER_DELETED.
Proof using Type.
  intros Hs Hu Hd. assert (users_older w w') as Hold.
  { eapply (served_keeps cfg users_older); [|apply run_users_older|done]. intros at_ c v i x Hx. by exists x. }
  destruct (Hold id u Hu) as (u' & ? & ?). eauto.
Qed.

(** Who signs in has an account that may. *)
Lemma login_ok d email password w si w' :
  users_ok w → login (session_settings cfg) d email password w = (Ok si, w') →
  users w !! u_id (si_user si) = Some (si_user si) ∧ can_sign_in (si_user si) = true ∧
  verify (u_password_hash (si_user si)) password = true ∧ s_user_id (si_session si) = u_id (si_user si).
Proof using Type.
  intros Hok Hr. unfold login in Hr. io_steps.
  match goal with s : SignedIn + exn |- _ => destruct s end; [|done]. io_steps.
  unfold login_block in *.
  apply (proj1 (io_bind_ok _ _ _ _ _)) in H0 as (found & w1 & Hf & Hr).
  assert (w1 = w ∧ ∀ u, found = Some u → ∃ id, users w !! id = Some u) as [-> Hfound].
  { destruct (match normalize_email email with Ok e => Some e | Raise _ => None end); io_steps. split; [done|].
    intros u Hu. by apply head_where_Some in Hu as [_ ?]. }
  destruct found as [u|]; [|io_steps]. destruct (Hfound u eq_refl) as (id & Hid). clear Hfound Hf.
  rewrite <- (row_user_id _ _ (Hok id u Hid)) in Hid. cbv zeta in Hr.
  destruct (verify (u_password_hash u) password) eqn:Hv, (can_sign_in u) eqn:Hc; simpl in Hr; io_steps.
  unfold sessions_add, references_row, insert_row in *. cbv zeta in *. cbn [ns_user_id] in *. io_steps.
  repeat case_match; io_steps; by repeat split.
Qed.

(** Releasing memberships removes them; accounts and sessions stay. *)
Definition people (w : world) := (users w, sessions w, memberships w).

Lemma release_owned_ok user_id at_ owned w w' u :
  release_owned user_id at_ owned w = (Ok u, w') →
  users w' = users w ∧ sessions w' = sessions w ∧
  memberships w' = filter (λ p, m_user_id p.2 ≠ user_id) (memberships w).
Proof using Type.
  intros Hr. unfold release_owned in Hr. cbv zeta in Hr. io_steps.
  repeat match goal with
  | H : each _ _ _ = (Ok _, _) |- _ => apply (keeps_run (same people)) in H; [|keeps]
  end.
  unfold same, people in *. simplify_eq/=. repeat split; congruence.
Qed.

Lemma delete_account_ok d user_id password w w' :
  users_ok w → delete_account d user_id password w = (Ok tt, w') →
  ∃ u u', users w !! user_id = Some u ∧ can_sign_in u = true ∧
    verify (u_password_hash u) password = true ∧
    users w' !! user_id = Some u' ∧ u_status u' = USER_DELETED ∧
    u_email u' = tombstone_email user_id ∧ u_name u' = DELETED_USER_NAME ∧
    u_password_hash u' = UNUSABLE_PASSWORD_HASH ∧
    sessions w' = update_where (λ s, negb (is_revoked s) && (owned_by user_id s && true))
                    (revoked ACCOUNT_DELETED (now d)) (sessions w) ∧
    memberships w' = filter (λ p, m_user_id p.2 ≠ user_id) (memberships w).
Proof using Type.
  intros Hok Hr. unfold delete_account in Hr. io_steps.
  destruct (users w !! user_id) as [u|] eqn:Hu; [|done].
  destruct (can_sign_in u) eqn:Hc; [|done]. destruct (verify (u_password_hash u) password) eqn:Hv; [|done].
  simpl in Hr. rewrite (row_user_id _ _ (Hok _ _ Hu)) in Hr. unfold release_memberships in Hr. io_steps.
  match goal with H : release_owned _ _ _ _ = _ |- _ => apply release_owned_ok in H as (H1 & H2 & H3) end.
  world_simpl. rewrite lookup_alter_eq, H1, Hu. exists u. simpl. eexists. rewrite H2, H3. by repeat split.
Qed.
Lemma deleted_locked_out w uid u :
  users_ok w → sessions_ok w → users w !! uid = Some u → u_status u = USER_DELETED →
  (∀ d sid, authenticate d sid uid w = (Raise SessionRevoked, w)) ∧
  (∀ d email password si w', login (session_settings cfg) d email password w = (Ok si, w') →
     u_id (si_user si) ≠ uid) ∧
  (∀ d token si w', refresh (session_settings cfg) d token w = (Ok si, w') → u_id (si_user si) ≠ uid).
Proof using Type.
  intros Hu Hs Huid Hd. assert (can_sign_in u = false) as Hc.
  { unfold can_sign_in. rewrite Hd. done. }
  split_and!.
  - intros d sid. rewrite authenticate_spec, Huid, Hc. destruct (sessions w !! sid); [|done].
    by rewrite andb_false_r.
  - intros d email password si w' Hl ?. apply login_ok in Hl as (Hl & Hl' & _); [|done]. congruence.
  - intros d token si w' Hr ?.
    destruct (parse_refresh_token token) as [[id sec]|] eqn:Hp.
    2: { rewrite refresh_raises in Hr; [done|]. intros id sec s ?. congruence. }
    destruct (sessions w !! id) as [s|] eqn:Hid.
    2: { rewrite refresh_raises in Hr; [done|]. intros id' sec' s' ?. congruence. }
    pose proof (refresh_refines (session_settings cfg) d token id sec w s Hs Hp Hid) as Href.
    rewrite Hr in Href. unfold present in Href.
    destruct (negb (f_live (family_of s))); [naive_solver|].
    destruct (_ <=? _)%Z; [naive_solver|]. destruct (decide (hash_token sec = _)).
    + destruct (owner_active w s) eqn:Ho; [|naive_solver].
      destruct Href as (s' & _ & _ & Hre & _ & v & Hv & [= ->]). simpl in *.
      assert (s_user_id s' = s_user_id s) as Hsu by (by destruct Hre). rewrite Hsu in Hv.
      unfold owner_active in Ho. rewrite Hv in Ho. pose proof (row_user_id _ _ (Hu _ _ Hv)). congruence.
    + destruct (decide _); [|naive_solver].
      destruct (if f_rotated_at (family_of s) is Some t then _ else false); naive_solver.
Qed.
End accounts.

(** * The theorems *)

(** C33: An emailed token works once: after it has verified an email address or reset a password, using it
    again is refused as invalid and changes nothing, whatever requests came in between. *)
Theorem token_single_use `{Externals} cfg t d d' token password password' w w' w'' :
  reachable cfg w → use cfg t d token password w = (Ok tt, w') → rtc (served cfg) w' w'' →
  use cfg t d' token password' w'' = (Raise InvalidToken, w'').
Proof. intros Hr. apply used_once. by apply reachable_ok in Hr. Qed.

(** A password reset signs the account out everywhere, for good: the password is the new one, no
    session the account had authenticates or refreshes ever again, and no other session is touched. *)
Theorem reset_signs_out `{Externals} cfg d token password w w' :
  reachable cfg w → reset (password_policy cfg) d token password w = (Ok tt, w') →
  ∃ uid u', users w' !! uid = Some u' ∧ u_password_hash u' = hash (fresh_salt d) password ∧
    (∀ id s, sessions w !! id = Some s → s_user_id s ≠ uid → sessions w' !! id = Some s) ∧
    (∀ id s w'', sessions w !! id = Some s → s_user_id s = uid → rtc (served cfg) w' w'' →
       (∀ d', authenticate d' id uid w'' = (Raise SessionRevoked, w'')) ∧
       (∀ d' raw sec, parse_refresh_token raw = Some (id, sec) →
          refresh (session_settings cfg) d' raw w'' = (Raise InvalidRefreshToken, w''))).
Proof.
  intros [Hu Ht Hs _ _ _]%reachable_ok Hr.
  destruct (reset_ok cfg d token password w w' Hu (Ht RESET) Hr)
    as (stored & u & u' & _ & _ & _ & _ & _ & _ & _ & _ & Hu' & Hh & Hw' & _).
  exists (u_id u), u'. split; [done|]. split; [done|]. split.
  - intros id s Hid Hne. rewrite Hw', lookup_update_where, Hid. simpl. unfold owned_by.
    by rewrite bool_decide_false, andb_false_r.
  - intros id s w'' Hid He Hserved.
    assert (sessions_ok w') as Hs'.
    { pose proof (run_sessions_ok cfg (ResetPassword d token password) w Hs) as Hs'.
      simpl in Hs'. by rewrite Hr in Hs'. }
    assert (∃ s', sessions w' !! id = Some s' ∧ is_revoked s' = true) as (s' & Hid' & Hrev).
    { rewrite Hw', lookup_update_where, Hid. simpl. unfold owned_by. rewrite bool_decide_true by done.
      eexists. split; [done|]. destruct (is_revoked s) eqn:E; [done|]. done. }
    destruct (revoked_stays cfg w' w'' id s' Hs' Hid' Hrev Hserved) as (_ & H1 & H2). by split.
Qed.

(** C26: A deleted account is gone for good: its personal data is replaced, it has no membership left,
    every session it had is revoked, and from then on, whatever requests follow, it stays deleted, no
    access token authenticates as it, and neither signing in nor refreshing ever returns it. *)
Theorem account_deletion `{Externals} cfg d uid password w w1 w' :
  reachable cfg w → delete_account d uid password w = (Ok tt, w1) → rtc (served cfg) w1 w' →
  (∃ u, users w1 !! uid = Some u ∧ u_email u = tombstone_email uid ∧ u_name u = DELETED_USER_NAME ∧
        u_password_hash u = UNUSABLE_PASSWORD_HASH) ∧
  (∀ id m, memberships w1 !! id = Some m → m_user_id m ≠ uid) ∧
  (∀ id s, sessions w1 !! id = Some s → s_user_id s = uid → is_revoked s = true) ∧
  (∃ u, users w' !! uid = Some u ∧ u_status u = USER_DELETED) ∧
  (∀ d sid, authenticate d sid uid w' = (Raise SessionRevoked, w')) ∧
  (∀ d email password si w'', login (session_settings cfg) d email password w' = (Ok si, w'') →
     u_id (si_user si) ≠ uid) ∧
  (∀ d token si w'', refresh (session_settings cfg) d token w' = (Ok si, w'') → u_id (si_user si) ≠ uid).
Proof.
  intros Hr Hd Hserved. pose proof (reachable_ok cfg w Hr) as Hwf.
  destruct (delete_account_ok d uid password w w1 (wf_users _ Hwf) Hd)
    as (u & u' & _ & _ & _ & Hu' & Hst & He & Hn & Hh & Hs & Hm).
  assert (wf w1) as Hwf1.
  { apply (served_wf cfg w); [|done]. apply rtc_once. replace w1 with (run cfg (DeleteAccount d uid password) w).2.
    - apply run_served.
    - simpl. by rewrite Hd. }
  destruct (served_deleted cfg w1 w' uid u' Hserved Hu' Hst) as (v & Hv & Hvs).
  pose proof (served_wf cfg w1 w' Hserved Hwf1) as [Hu2 _ Hs2 _ _ _].
  destruct (deleted_locked_out cfg w' uid v Hu2 Hs2 Hv Hvs) as (? & ? & ?).
  split_and!; try done.
  - by exists u'.
  - intros id m. rewrite Hm. by intros [_ ?]%map_lookup_filter_Some.
  - intros id s. rewrite Hs, lookup_update_where. intros (x & Hx & ->)%fmap_Some. unfold owned_by.
    destruct (is_revoked x) eqn:E; [done|]. simpl. case_bool_decide; [done|]. done.
  - by exists v.
Qed.

(** * Instances *)
Definition sample_registered : world :=
  run_all sample_config
    [at_time_ 10 (Register (sample_draws 10 1 "verify-ada") "Ada@Example.com" "correct horse battery" "Ada")]
    empty_world.

Definition sample_verified : world :=
  (use sample_config VERIFICATION (sample_draws 20 3 "") "verify-ada" "" sample_registered).2.

(** Ada asked for a reset link, then used it. *)
Definition sample_asked : world :=
  run_all sample_config [at_time_ 100 (RequestReset (sample_draws 100 9 "reset-ada") "ada@example.com")]
    sample_world.
Definition sample_reset : world :=
  (reset (password_policy sample_config) (sample_draws 110 11 "") "reset-ada" "battery horse correct"
     sample_asked).2.

Definition sample_deleted : world :=
  (delete_account (sample_draws 120 13 "") (sample_id 1) "correct horse battery" sample_world).2.

Lemma sample_world_reachable : reachable sample_config sample_world.
Proof. do 2 apply run_all_reachable. apply empty_reachable. Qed.

Lemma token_single_use_witness :
  use sample_config VERIFICATION (sample_draws 25 3 "") "verify-ada" "" sample_verified =
  (Raise InvalidToken, sample_verified).
Proof.
  apply (token_single_use sample_config VERIFICATION (sample_draws 20 3 "") _ _ "" _ sample_registered
           sample_verified).
  - apply run_all_reachable, empty_reachable.
  - vm_compute. reflexivity.
  - apply rtc_refl.
Defined.

Lemma reset_signs_out_witness :
  ∃ uid u', users sample_reset !! uid = Some u' ∧ u_password_hash u' = "argon2:battery horse correct".
Proof.
  destruct (reset_signs_out sample_config (sample_draws 110 11 "") "reset-ada" "battery horse correct"
              sample_asked sample_reset) as (uid & u' & H1 & H2 & _).
  - apply run_all_reachable, sample_world_reachable.
  - vm_compute. reflexivity.
  - exists uid, u'. split; [exact H1|exact H2].
Defined.

Lemma account_deletion_witness :
  authenticate (sample_draws 130 14 "") (sample_id 5) (sample_id 1) sample_deleted
  = (Raise SessionRevoked, sample_deleted).
Proof.
  apply (account_deletion sample_config (sample_draws 120 13 "") (sample_id 1) "correct horse battery"
           sample_world sample_deleted).
  - apply sample_world_reachable.
  - vm_compute. reflexivity.
  - apply rtc_refl.
Defined.
