(* ===== verification/TenancyProperties.v ===== *)
(** Organizations: what src/core/domain/organizations promises.

    - [owned]: every live organization has an owner.  Every service call keeps it, whatever the
      sequence; [release_race] is the interleaving of two account deletions that does not.
    - Ownership is granted by an owner, or by creating the organization.
*)
From Stdlib Require Import Lia ZArith.
From S2P Require Import Prelude Data Errors Codecs Tokens Computations Store Transactions.
From S2P Require Import Policy Identity Tenancy Accounts Invariants SessionProperties AccountProperties.

(** * Every live organization has an owner *)
Definition owned (w : world) : Prop :=
  ∀ oid o, organizations w !! oid = Some o → live o = true →
    ∃ mid m, memberships w !! mid = Some m ∧ is_owner_of oid m = true.

Lemma owned_fewer (f : world → world) w :
  memberships (f w) = memberships w →
  (∀ oid o, organizations (f w) !! oid = Some o → live o = true →
     ∃ o', organizations w !! oid = Some o' ∧ live o' = true) →
  preserves owned w (f w).
Proof.
  intros Hm Ho Hw oid o Hoid Hl. rewrite Hm. destruct (Ho oid o Hoid Hl) as (o' & ? & ?). by eapply Hw.
Qed.

Lemma owned_soft_delete id at_ : keeps (preserves owned) (organizations_soft_delete id at_).
Proof.
  unfold organizations_soft_delete. keeps. apply (owned_fewer (λ w, set_organizations (alter _ id) w)); [done|].
  intros oid o Ho Hl. world_simpl. destruct (decide (oid = id)) as [->|Hne].
  - rewrite lookup_alter_eq in Ho. apply fmap_Some in Ho as (o' & Ho' & ->). exists o'. split; [done|].
    destruct (live o') eqn:E; simpl in *; congruence.
  - rewrite lookup_alter_ne in Ho by done. by exists o.
Qed.

Lemma owned_rename id name : keeps (preserves owned) (organizations_rename id name).
Proof.
  intros w. unfold organizations_rename, organizations_get_active. run_cases.
  destruct (organizations w !! id) as [x|] eqn:E; [|done]. simpl in *. destruct (live x) eqn:Hx; [|done].
  simplify_eq. apply (owned_fewer (λ w, set_organizations (insert id _) w)); [done|].
  intros oid y Hy Hl. world_simpl. apply lookup_insert_Some in Hy as [[<- <-]|[_ Hy]]; eauto.
Qed.

Lemma owned_add_member id organization_id user_id role :
  keeps (preserves owned) (memberships_add id organization_id user_id role).
Proof.
  intros w. unfold memberships_add. run_cases. intros Hw oid org Ho Hl.
  destruct (Hw oid org Ho Hl) as (mid & m & Hm & Hown). exists mid, m. split; [|done]. simpl.
  by rewrite lookup_insert_ne by congruence.
Qed.
#[export] Hint Resolve owned_soft_delete owned_rename owned_add_member : keeps.

(** An owner other than the one at [mid] keeps the organization owned. *)
Lemma owned_other w f mid m :
  (∀ id m, id ≠ mid → memberships w !! id = Some m → memberships (f w) !! id = Some m) →
  organizations (f w) = organizations w → memberships w !! mid = Some m →
  (is_owner_of (m_organization_id m) m = true →
     ∃ id' m', memberships (f w) !! id' = Some m' ∧ is_owner_of (m_organization_id m) m' = true) →
  preserves owned w (f w).
Proof.
  intros Hsame Ho Hm Hother Hw oid o Hoid Hl. rewrite Ho in Hoid.
  destruct (Hw oid o Hoid Hl) as (mid' & m' & Hm' & Hown).
  destruct (decide (mid' = mid)) as [->|Hne]; [|eauto].
  assert (m' = m) as -> by congruence.
  assert (m_organization_id m = oid) as <- by (unfold is_owner_of in Hown; by bool_facts).
  by apply Hother.
Qed.

Section tenancy.
Context `{Externals} (cfg : config).

(** What [lock_and_load] returns. *)
Lemma lock_and_load_ok organization_id actor_user_id member_id w actor target w' :
  memberships_ok w → lock_and_load organization_id actor_user_id member_id w = (Ok (actor, target), w') →
  w' = w ∧ memberships w !! m_id actor = Some actor ∧ memberships w !! m_id target = Some target ∧
  m_id target = member_id ∧ m_organization_id actor = organization_id ∧ m_user_id actor = actor_user_id ∧
  m_organization_id target = organization_id ∧
  (∃ o, organizations w !! organization_id = Some o ∧ live o = true).
Proof using Type.
  intros [Hok _] Hr. unfold lock_and_load in Hr. io_steps.
  destruct (organizations w !! organization_id) as [o|] eqn:Ho; [|done]. destruct (live o) eqn:Hl; [|done].
  simpl in Hr. io_steps. destruct (head _) as [a|] eqn:Ha; [|done]. io_steps.
  destruct (memberships w !! member_id) as [m|] eqn:Hm; simpl in Hr; [|done].
  case_bool_decide; [|done]. io_steps. apply head_where_Some in Ha as (Ha & id & Hid). bool_facts.
  rewrite (Hok id _ Hid), (Hok _ _ Hm). repeat split; eauto.
Qed.

Lemma change_role_ok organization_id actor_user_id member_id role w m w' :
  memberships_ok w → change_role organization_id actor_user_id member_id role w = (Ok m, w') →
  ∃ actor target,
    memberships w !! m_id actor = Some actor ∧ m_organization_id actor = organization_id ∧
    m_user_id actor = actor_user_id ∧
    memberships w !! member_id = Some target ∧ m_organization_id target = organization_id ∧
    m_id actor ≠ member_id ∧
    check_role_change (m_role actor) (m_role target) role false
      (length (where_ (is_owner_of organization_id) (memberships w))) = Ok tt ∧
    m_role m = role ∧ m_organization_id m = organization_id ∧ m_user_id m = m_user_id target ∧
    memberships w' = <[member_id := m]> (memberships w) ∧ organizations w' = organizations w.
Proof using Type.
  intros Hok Hr. unfold change_role in Hr. io_steps.
  match goal with H : lock_and_load _ _ _ _ = _ |- _ =>
    apply lock_and_load_ok in H as (-> & Ha & Ht & <- & Hao & Hau & Hto & _); [|done] end.
  match goal with x : unit |- _ => destruct x end.
  match goal with H : check_role_change _ _ _ _ _ = _ |- _ => rename H into Hc end.
  pose proof (check_role_change_ok _ _ _ _ _ Hc) as (_ & Hself & _). rewrite Hself in Hc. bool_facts.
  exists m0, m1. destruct (decide (m_role m1 = role)); io_steps.
  - rewrite insert_id by done. by repeat split.
  - unfold memberships_update_role in *. io_steps. rewrite Ht in *. io_steps. by repeat split.
Qed.

Lemma remove_member_ok organization_id actor_user_id member_id w w' :
  memberships_ok w → remove_member organization_id actor_user_id member_id w = (Ok tt, w') →
  ∃ actor target,
    memberships w !! m_id actor = Some actor ∧ m_organization_id actor = organization_id ∧
    m_user_id actor = actor_user_id ∧
    memberships w !! member_id = Some target ∧ m_organization_id target = organization_id ∧
    check_removal (m_role actor) (m_role target) (bool_decide (m_id actor = member_id))
      (length (where_ (is_owner_of organization_id) (memberships w))) = Ok tt ∧
    memberships w' = delete member_id (memberships w) ∧ organizations w' = organizations w.
Proof using Type.
  intros Hok Hr. unfold remove_member in Hr. io_steps.
  match goal with H : lock_and_load _ _ _ _ = _ |- _ =>
    apply lock_and_load_ok in H as (-> & Ha & Ht & <- & Hao & Hau & Hto & _); [|done] end.
  match goal with H : check_removal _ _ _ _ = Ok ?x |- _ => destruct x; rename H into Hc end.
  exists m, m0. by repeat split.
Qed.

Lemma owned_change_role organization_id actor_user_id member_id role w m w' :
  memberships_ok w → change_role organization_id actor_user_id member_id role w = (Ok m, w') →
  owned w → owned w'.
Proof using Type.
  intros Hok Hr. apply change_role_ok in Hr; [|done].
  destruct Hr as (actor & target & _ & _ & _ & Ht & Hto & _ & Hc & Hmr & Hmo & _ & Hm & Ho).
  apply check_role_change_ok in Hc as (_ & _ & _ & _ & Hlast).
  apply (owned_other w (λ _, w') member_id target); try done.
  - intros id x Hne Hx. rewrite Hm. by rewrite lookup_insert_ne.
  - rewrite Hto. unfold is_owner_of at 1. intros Hown. bool_facts. rewrite Hm.
    destruct (decide (m_role m = OWNER)) as [E|Hn].
    + exists member_id, m. rewrite lookup_insert_eq. split; [done|]. unfold is_owner_of.
      by rewrite !bool_decide_true.
    + destruct (where_two (is_owner_of organization_id) (memberships w) member_id) as (id' & y & ? & Hy & ?).
      { apply Hlast; congruence. }
      exists id', y. by rewrite lookup_insert_ne.
Qed.

Lemma owned_remove organization_id actor_user_id member_id w w' :
  memberships_ok w → remove_member organization_id actor_user_id member_id w = (Ok tt, w') →
  owned w → owned w'.
Proof using Type.
  intros Hok Hr. apply remove_member_ok in Hr; [|done].
  destruct Hr as (actor & target & _ & _ & _ & Ht & Hto & Hc & Hm & Ho).
  apply check_removal_ok in Hc as (_ & Hlast).
  apply (owned_other w (λ _, w') member_id target); try done.
  - intros id x Hne Hx. rewrite Hm. by rewrite lookup_delete_ne.
  - rewrite Hto. unfold is_owner_of at 1. intros Hown. bool_facts. rewrite Hm.
    destruct (where_two (is_owner_of organization_id) (memberships w) member_id) as (id' & y & ? & Hy & ?);
      [by apply Hlast|]. exists id', y. by rewrite lookup_delete_ne.
Qed.

Lemma owned_create d user name w p w' :
  create_organization d user name w = (Ok p, w') → owned w → owned w'.
Proof using Type.
  intros Hr Hw. unfold create_organization in Hr. destruct (is_email_verified user); [|done].
  simpl in Hr. io_steps.
  match goal with H : memberships_add _ _ _ _ _ = _ |- _ => apply memberships_add_ok in H as (-> & -> & Hnew & _) end.
  unfold organizations_add, insert_row in *. io_steps. case_match; [done|]. io_steps. world_simpl.
  intros oid y Hx Hl. world_simpl. apply lookup_insert_Some in Hx as [[<- <-]|[Hne Hx]].
  - eexists (new_id2 d), _. rewrite lookup_insert_eq. split; [done|]. unfold is_owner_of. simpl.
    by rewrite !bool_decide_true.
  - destruct (Hw oid y Hx Hl) as (mid & m & Hm & Hown). exists mid, m.
    by rewrite lookup_insert_ne by congruence.
Qed.

(** ** Leaving every organization *)
Lemma each_soft_delete (ev : uuid → AuditEvent) at_ l w u w' :
  each (λ id, _ ← organizations_soft_delete id at_; record (ev id)) l w = (Ok u, w') →
  memberships w' = memberships w ∧
  ∀ oid o, organizations w' !! oid = Some o → live o = true →
    organizations w !! oid = Some o ∧ oid ∉ l.
Proof using Type.
  revert w. induction l as [|id l IH]; intros w Hr; simpl in Hr; io_steps.
  - split; [done|]. intros oid o Ho Hl. split; [done|]. apply not_elem_of_nil.
  - apply IH in Hr as [Hm Hrest]. world_simpl. split; [done|]. intros oid o Ho Hl.
    destruct (Hrest oid o Ho Hl) as [Ho' Hn]. destruct (decide (oid = id)) as [->|Hne].
    + rewrite lookup_alter_eq in Ho'. apply fmap_Some in Ho' as (z & _ & ->).
      destruct (live z) eqn:E; [done|congruence].
    + rewrite lookup_alter_ne in Ho' by done. split; [done|]. by apply not_elem_of_cons.
Qed.

Lemma owned_by_spec user_id w l w' :
  memberships_owned_by user_id w = (Ok l, w') →
  w' = w ∧
  (∀ o, o ∈ l → oo_owner_count o = length (where_ (is_owner_of (oo_organization_id o)) (memberships w)) ∧
     oo_member_count o = length (where_ (λ m, bool_decide (m_organization_id m = oo_organization_id o))
                                   (memberships w))) ∧
  (∀ mid m o, memberships w !! mid = Some m → m_user_id m = user_id → m_role m = OWNER →
     organizations w !! m_organization_id m = Some o → live o = true →
     ∃ x, x ∈ l ∧ oo_organization_id x = m_organization_id m).
Proof using Type.
  intros Hr. io_steps. split; [done|]. split.
  - intros x (id & -> & _)%list_elem_of_fmap. done.
  - intros mid m o Hm Hu Hrole Ho Hl. eexists. split.
    + apply list_elem_of_fmap. exists (m_organization_id m). split; [done|].
      apply elem_of_sorted_set, list_elem_of_fmap. exists m. split; [done|].
      apply elem_of_where. rewrite Ho, Hl, !bool_decide_true by done. eauto.
    + done.
Qed.

(** An owner who is neither alone in the organization nor the only owner of a shared one has a
    co-owner. *)
Lemma co_owner w mid m :
  memberships w !! mid = Some m → is_owner_of (m_organization_id m) m = true →
  let members := length (where_ (λ x, bool_decide (m_organization_id x = m_organization_id m)) (memberships w)) in
  let owners := length (where_ (is_owner_of (m_organization_id m)) (memberships w)) in
  members ≠ 1%nat → ¬ (owners = 1 ∧ 1 < members)%nat →
  ∃ id' y, id' ≠ mid ∧ memberships w !! id' = Some y ∧ is_owner_of (m_organization_id m) y = true.
Proof using Type.
  intros Hm Ho members owners Hsolo Hblock. apply where_two.
  pose proof (where_pos _ _ mid m Hm Ho) as H1.
  pose proof (where_pos (λ x, bool_decide (m_organization_id x = m_organization_id m)) _ mid m Hm
    (bool_decide_eq_true_2 _ eq_refl)) as H2. lia.
Qed.

Lemma owned_release user_id at_ w u w' :
  memberships_ok w → release_memberships user_id at_ w = (Ok u, w') → owned w → owned w'.
Proof using Type.
  intros [_ Huniq] Hr Hw. unfold release_memberships in Hr.
  apply (proj1 (io_bind_ok _ _ _ _ _)) in Hr as (l & w0 & Hl & Hr).
  apply owned_by_spec in Hl as (-> & Hcount & Hmine).
  pose proof (release_owned_ok user_id at_ l w w' u Hr) as (_ & _ & Hm).
  unfold release_owned in Hr. cbv zeta in Hr. io_steps.
  match goal with H : each _ l w = _ |- _ =>
    apply (keeps_run (same (λ w, w))) in H; [|keeps]; unfold same in H; rewrite H in * end.
  match goal with H : each _ (sorted_set _) w = _ |- _ =>
    apply (each_soft_delete (λ id, _) at_) in H as [_ Hdel] end.
  match goal with H : each _ _ _ = (Ok _, _) |- _ =>
    apply (keeps_run (same organizations)) in H; [|keeps]; unfold same in H; rename H into Hsame end.
  bool_facts. match goal with H : map _ _ = [] |- _ => apply map_eq_nil in H; rename H into Hblock end.
  intros oid o Ho Hl. rewrite Hm. world_simpl. rewrite Hsame in Ho.
  destruct (Hdel oid o Ho Hl) as [Ho' Hsolo]. destruct (Hw oid o Ho' Hl) as (mid & m & Hmid & Hown).
  destruct (decide (m_user_id m = user_id)) as [Hme|Hne].
  2: { exists mid, m. split; [|done]. by apply map_lookup_filter_Some. }
  pose proof Hown as Hown'. unfold is_owner_of in Hown'. bool_facts. subst oid.
  destruct (Hmine mid m o Hmid Hme) as (r & Hr & Hid); [done..|].
  destruct (Hcount r Hr) as [Hn1 Hn2]. rewrite Hid in Hn1, Hn2.
  destruct (co_owner w mid m) as (id' & y & Hi & Hy & Hyo); try done.
  { rewrite <- Hn2. intros E. apply Hsolo, elem_of_sorted_set. rewrite <- Hid. apply list_elem_of_fmap.
    exists r. split; [done|]. by apply list_elem_of_filter. }
  { rewrite <- Hn1, <- Hn2. intros HE.
    assert (r ∈ filter (λ o, oo_owner_count o = 1 ∧ 1 < oo_member_count o)%nat l) as Hin
      by by apply list_elem_of_filter.
    rewrite Hblock in Hin. by apply not_elem_of_nil in Hin. }
  exists id', y. split; [|done]. apply map_lookup_filter_Some. split; [done|]. simpl. intros Hu.
  apply Hi. eapply Huniq; [done|done|]. unfold is_owner_of in Hyo. bool_facts. simpl. congruence.
Qed.

Lemma owned_delete_account d user_id password w w' :
  memberships_ok w → delete_account d user_id password w = (Ok tt, w') → owned w → owned w'.
Proof using Type.
  intros Hok Hr Hw. unfold delete_account in Hr. io_steps.
  destruct (users w !! user_id) as [u|]; [|done]. destruct (can_sign_in u), (verify _ _); try done.
  simpl in Hr. io_steps.
  match goal with H : release_memberships _ _ _ = _ |- _ => apply owned_release in H; done end.
Qed.

Lemma run_owned r w : memberships_ok w → owned w → owned (run cfg r w).2.
Proof using Type.
  intros Hok. destruct r;
    try match goal with
    | |- _ → _ (run cfg ?r _).2 =>
        refine ((_ : keeps (preserves owned) (run cfg r)) w); simpl; unfold discard; keeps; fail
    end; intros Hw; cbn [run]; rewrite ?discard_world.
  - destruct (delete_account _ _ _ w) as [[[]|e] w'] eqn:E; [by eapply owned_delete_account|].
    unfold delete_account in E. by apply unit_of_work_raise in E as [-> _].
  - destruct (create_organization _ _ _ w) as [[p|e] w'] eqn:E; [by eapply owned_create|].
    unfold create_organization in E. destruct (is_email_verified user); [|by injection E as _ <-].
    simpl in E. unfold mbind, io_bind, lift in E.
    destruct (normalize_organization_name name); [|by injection E as _ <-].
    by apply unit_of_work_raise in E as [-> _].
  - destruct (change_role _ _ _ _ w) as [[p|e] w'] eqn:E; [by eapply owned_change_role|].
    unfold change_role in E. by apply unit_of_work_raise in E as [-> _].
  - destruct (remove_member _ _ _ w) as [[[]|e] w'] eqn:E; [by eapply owned_remove|].
    unfold remove_member in E. by apply unit_of_work_raise in E as [-> _].
Qed.

Lemma served_owned w w' :
  rtc (served cfg) w w' → memberships_ok w → owned w → owned w'.
Proof using Type.
  induction 1 as [w|w w1 w2 (r & at_ & c & ->) _ IH]; intros Hok Hl; [done|].
  assert (memberships_ok (set_request at_ c w)) as Hok' by exact Hok.
  apply IH; [by apply run_memberships_ok|by apply run_owned].
Qed.
End tenancy.

(** * Who becomes an owner *)
Definition is_owner_at (w : world) (mid : uuid) : Prop :=
  ∃ m, memberships w !! mid = Some m ∧ m_role m = OWNER.

(** No membership became one of an owner. *)
Definition no_new_owner (w w' : world) : Prop := ∀ mid, is_owner_at w' mid → is_owner_at w mid.

#[export] Instance no_new_owner_preorder : PreOrder no_new_owner.
Proof. split; [by intros w mid|]. intros w1 w2 w3 H1 H2 mid. auto. Qed.

Lemma no_new_owner_delete id : keeps no_new_owner (memberships_delete id).
Proof.
  unfold memberships_delete. keeps. intros mid (m & Hm & Hr). world_simpl.
  apply lookup_delete_Some in Hm as [_ Hm]. by exists m.
Qed.

Lemma no_new_owner_delete_all user_id : keeps no_new_owner (memberships_delete_all_for_user user_id).
Proof.
  unfold memberships_delete_all_for_user. keeps. intros mid (m & Hm & Hr). world_simpl.
  apply map_lookup_filter_Some in Hm as [Hm _]. by exists m.
Qed.
#[export] Hint Resolve no_new_owner_delete no_new_owner_delete_all : keeps.

Section tenancy.
Context `{Externals} (cfg : config).

(** The two requests that make owners. *)
Definition makes_owners (r : request) : bool :=
  match r with CreateOrganization _ _ _ | ChangeRole _ _ _ _ => true | _ => false end.

Lemma accept_no_new_owner d user token w :
  invitations_ok w → no_new_owner w (accept_invitation d user token w).2.
Proof using Type.
  intros Hok. destruct (accept_invitation d user token w) as [[p|e] w'] eqn:E.
  - destruct (accept_spec d user token w p w' Hok E)
      as (i & m & Hi & _ & _ & _ & _ & Hr & _ & _ & _ & Hm & _).
    intros mid (x & Hx & Hrx). simpl in Hx. rewrite Hm in Hx.
    apply lookup_insert_Some in Hx as [[<- <-]|[_ Hx]]; [|by exists x].
    rewrite Hr in Hrx. by destruct (row_not_owner _ _ (proj1 Hok _ _ Hi)).
  - revert E. unfold accept_invitation. repeat case_match; try (by intros [= _ <-]).
    intros [-> _]%unit_of_work_raise. done.
Qed.

Lemma run_no_new_owner r w :
  invitations_ok w → makes_owners r = false → no_new_owner w (run cfg r w).2.
Proof using Type.
  intros Hok. destruct r; try done; intros _;
    try match goal with
    | |- _ _ (run cfg ?r _).2 =>
        refine ((_ : keeps no_new_owner (run cfg r)) w); simpl; unfold discard; keeps; fail
    end.
  cbn [run]. rewrite discard_world. by apply accept_no_new_owner.
Qed.

Lemma create_organization_ok d user name w p w' :
  create_organization d user name w = (Ok p, w') →
  is_email_verified user = true ∧ organizations w !! new_id d = None ∧
  memberships w !! new_id2 d = None ∧
  o_id p.1 = new_id d ∧ m_organization_id p.2 = new_id d ∧ m_user_id p.2 = u_id user ∧
  m_role p.2 = OWNER ∧ organizations w' = <[new_id d := p.1]> (organizations w) ∧
  memberships w' = <[new_id2 d := p.2]> (memberships w).
Proof using Type.
  intros Hr. unfold create_organization in Hr. destruct (is_email_verified user); [|done].
  simpl in Hr. io_steps.
  match goal with H : memberships_add _ _ _ _ _ = _ |- _ =>
    apply memberships_add_ok in H as (-> & -> & Hnew & _) end.
  unfold organizations_add, insert_row in *. io_steps. case_match; [done|]. io_steps. world_simpl. done.
Qed.
End tenancy.

(** C7: Every live organization has an owner, always: whatever sequence of requests the services have
    answered, role changes, removals, departures and account deletions included. *)
Theorem owners_kept `{Externals} cfg w oid o :
  reachable cfg w → organizations w !! oid = Some o → live o = true →
  ∃ mid m, memberships w !! mid = Some m ∧ m_organization_id m = oid ∧ m_role m = OWNER.
Proof.
  intros Hr Ho Hl. assert (owned w) as Hw.
  { eapply served_owned; [exact Hr|apply empty_ok|]. intros x y Hx. unfold empty_world in Hx. cbn in Hx. by rewrite lookup_empty in Hx. }
  destruct (Hw oid o Ho Hl) as (mid & m & Hm & Hown). unfold is_owner_of in Hown. bool_facts. eauto.
Qed.

(** No escalation to ownership: when a request makes someone an owner, it either created the
    organization or was a role change made by someone who already owned that organization. *)
Theorem ownership_granted `{Externals} cfg w r mid m :
  reachable cfg w → memberships (run cfg r w).2 !! mid = Some m → m_role m = OWNER →
  ¬ is_owner_at w mid →
  (∃ d user name, r = CreateOrganization d user name ∧ m_user_id m = u_id user ∧
     organizations w !! m_organization_id m = None) ∨
  (∃ actor_user_id granter, r = ChangeRole (m_organization_id m) actor_user_id mid OWNER ∧
     memberships w !! m_id granter = Some granter ∧ m_role granter = OWNER ∧
     m_user_id granter = actor_user_id ∧ m_organization_id granter = m_organization_id m).
Proof.
  intros [_ _ _ _ Hok Hinv]%reachable_ok Hm Hrole Hnew.
  destruct (makes_owners r) eqn:Hr.
  2: { destruct Hnew. apply (run_no_new_owner cfg r w Hinv Hr). by exists m. }
  destruct r; try done; cbn [run] in Hm; rewrite discard_world in Hm.
  - left. destruct (create_organization d user name w) as [[p|e] w'] eqn:E.
    + apply create_organization_ok in E as (_ & Hno & _ & _ & Ho & Hu & _ & _ & Hw'). simpl in Hm.
      rewrite Hw' in Hm. apply lookup_insert_Some in Hm as [[<- <-]|[_ Hm]]; [|by destruct Hnew; exists m].
      exists d, user, name. rewrite Ho. done.
    + destruct Hnew. exists m. split; [|done]. revert E Hm. unfold create_organization.
      destruct (is_email_verified user); [|by intros [= _ <-]].
      simpl. unfold mbind, io_bind, lift. destruct (normalize_organization_name name); [|by intros [= _ <-]].
      by intros [-> _]%unit_of_work_raise.
  - right. destruct (change_role _ _ _ _ w) as [[p|e] w'] eqn:E.
    + apply change_role_ok in E as (actor & target & Ha & Hao & Hau & Ht & Hto & _ & Hc & Hpr & Hpo & _ & Hw' & _); [|done].
      simpl in Hm. rewrite Hw' in Hm. apply lookup_insert_Some in Hm as [[<- <-]|[_ Hm]]; [|by destruct Hnew; exists m].
      rewrite Hpr in Hrole. subst role. rewrite Hpo. exists actor_user_id, actor.
      apply check_role_change_ok in Hc as (_ & _ & _ & Hg & _). rewrite Hrole in Hg.
      apply outranks_spec in Hg as [Hg|Hg]; [|destruct (m_role actor); vm_compute in Hg; lia].
      rewrite Hrole. done.
    + destruct Hnew. exists m. split; [|done]. revert E Hm. unfold change_role.
      by intros [-> _]%unit_of_work_raise.
Qed.

(** ** Two departures at once *)

(** Bob and Cleo join Ada's organization; Ada makes Bob an owner. *)
Definition sample_member (t : Z) (n : nat) (name : string) (w : world) : world :=
  let address := name +:+ "@example.com" in
  let w1 := run_all sample_config
    [at_time_ t (Register (sample_draws t n ("verify-" +:+ name)) address "correct horse battery" name);
     at_time_ t (VerifyEmail (sample_draws t (n + 2) "") ("verify-" +:+ name));
     at_time_ t (Invite (sample_draws t (n + 4) ("join-" +:+ name)) (sample_user w 1) (sample_id 7) address VIEWER)] w in
  run_all sample_config
    [at_time_ t (AcceptInvitation (sample_draws t (n + 6) "") (sample_user w1 n) ("join-" +:+ name))] w1.

Definition sample_shared : world :=
  run_all sample_config [at_time_ 70 (ChangeRole (sample_id 7) (sample_id 1) (sample_id 16) OWNER)]
    (sample_member 60 20 "cleo" (sample_member 50 10 "bob" sample_world)).

Definition owner_count (oid : uuid) (w : world) : nat := length (where_ (is_owner_of oid) (memberships w)).
Definition member_count (oid : uuid) (w : world) : nat :=
  length (where_ (λ m, bool_decide (m_organization_id m = oid)) (memberships w)).

(** The one gap in the owner rule: leaving every organization reads who owns what before it takes
    the locks.  From a reachable world with two owners, both departures that read first and then run
    one after the other succeed, and the organization is left alive with a member and no owner; a
    second departure that reads after the first is refused. *)
Theorem release_race :
  ∃ w ada bob oid owned_ada owned_bob,
    reachable sample_config w ∧ owner_count oid w = 2%nat ∧
    memberships_owned_by ada w = (Ok owned_ada, w) ∧ memberships_owned_by bob w = (Ok owned_bob, w) ∧
    let w1 := (release_owned ada 80 owned_ada w).2 in
    let w2 := (release_owned bob 80 owned_bob w1).2 in
    (release_owned ada 80 owned_ada w).1 = Ok tt ∧ (release_owned bob 80 owned_bob w1).1 = Ok tt ∧
    live <$> organizations w2 !! oid = Some true ∧ member_count oid w2 = 1%nat ∧ owner_count oid w2 = 0%nat ∧
    (release_memberships bob 80 w1).1 = Raise (SoleOwnerOfOrganization [oid]).
Proof.
  pose (r user_id := match (memberships_owned_by user_id sample_shared).1 with Ok l => l | Raise _ => [] end).
  exists sample_shared, (sample_id 1), (sample_id 10), (sample_id 7), (r (sample_id 1)), (r (sample_id 10)).
  split.
  { unfold sample_shared, sample_member, sample_world, sample_signed_in. cbv zeta.
    repeat apply run_all_reachable. apply empty_reachable. }
  by repeat split; vm_compute.
Qed.

(** ** Witnesses *)
#[local] Opaque hash_token.

Lemma owners_kept_witness :
  ∃ mid m, memberships sample_world !! mid = Some m ∧ m_organization_id m = sample_id 7 ∧ m_role m = OWNER.
Proof.
  destruct (organizations sample_world !! sample_id 7) as [o|] eqn:Ho; [|vm_compute in Ho; discriminate Ho].
  apply (owners_kept sample_config sample_world (sample_id 7) o); [exact sample_world_reachable|exact Ho|].
  assert (live <$> organizations sample_world !! sample_id 7 = Some true) as Hl by by vm_compute.
  rewrite Ho in Hl. injection Hl as ->. reflexivity.
Defined.

Definition sample_promotion : request := ChangeRole (sample_id 7) (sample_id 1) (sample_id 16) OWNER.

Definition sample_team : world := sample_member 60 20 "cleo" (sample_member 50 10 "bob" sample_world).

Lemma ownership_granted_witness :
  ∃ m, memberships (run sample_config sample_promotion sample_team).2 !! sample_id 16 = Some m ∧
  ((∃ d user name, sample_promotion = CreateOrganization d user name ∧ m_user_id m = u_id user ∧
     organizations sample_team !! m_organization_id m = None) ∨
  (∃ actor_user_id granter, sample_promotion = ChangeRole (m_organization_id m) actor_user_id (sample_id 16) OWNER ∧
     memberships sample_team !! m_id granter = Some granter ∧ m_role granter = OWNER ∧
     m_user_id granter = actor_user_id ∧ m_organization_id granter = m_organization_id m)).
Proof.
  destruct (memberships (run sample_config sample_promotion sample_team).2 !! sample_id 16) as [m|] eqn:Hm;
    [|vm_compute in Hm; discriminate Hm].
  exists m. split; [reflexivity|].
  assert (m_role <$> memberships (run sample_config sample_promotion sample_team).2 !! sample_id 16 = Some OWNER) as Hr by by vm_compute.
  rewrite Hm in Hr. injection Hr as Hr.
  apply (ownership_granted sample_config sample_team sample_promotion (sample_id 16) m); [|exact Hm|exact Hr|].
  - unfold sample_team, sample_member. cbv zeta. repeat apply run_all_reachable. apply empty_reachable.
  - intros (x & Hx & Ho).
    assert (m_role <$> memberships sample_team !! sample_id 16 = Some VIEWER) as Hv by by vm_compute.
    rewrite Hx in Hv. injection Hv as Hv. congruence.
Defined.
