(* ===== verification/Plans.v ===== *)
(** The parts of a migration plan the dependency analysis reads and makes
    (src/core/domain/migrations: values.py, steps.py, changes.py, plans.py).

    A record's constructor is [X_new], from the record as its fields are passed to what
    [__post_init__] makes of it, or the [InvalidMigrationPlan] it raises.  Fields have their
    annotated types, so the [isinstance] checks, which those types decide, never report. *)
From Stdlib Require Import Ascii.
From S2P Require Import Prelude Data Errors Sha256 JsonText Diff.

(** * The vocabulary (values.py) *)
Definition MAX_TITLE : nat := 200.
Definition MAX_TEXT : nat := 2000.
Definition MAX_REFERENCE : nat := 256.
Definition MAX_ITEMS : nat := 200.

Inductive StepType :=
  | PREPARE | PROVISION | CONFIGURE | REPLICATE | BACKFILL | VERIFY | CUTOVER | DECOMMISSION
  | ROLLBACK | MANUAL_REVIEW.

#[export] Instance StepType_eq_dec : EqDecision StepType.
Proof. solve_decision. Defined.

#[export, refine] Instance StepType_enum : StrEnum StepType := {
  members := [PREPARE; PROVISION; CONFIGURE; REPLICATE; BACKFILL; VERIFY; CUTOVER; DECOMMISSION;
              ROLLBACK; MANUAL_REVIEW];
  value t := match t with
             | PREPARE => "prepare"
             | PROVISION => "provision"
             | CONFIGURE => "configure"
             | REPLICATE => "replicate"
             | BACKFILL => "backfill"
             | VERIFY => "verify"
             | CUTOVER => "cutover"
             | DECOMMISSION => "decommission"
             | ROLLBACK => "rollback"
             | MANUAL_REVIEW => "manual_review"
             end;
}.
Proof. all: solve_enum. Defined.

Inductive TraceKind :=
  | TRACE_CHANGE | TRACE_REQUIREMENT | TRACE_ASSUMPTION | TRACE_PATTERN | TRACE_CONSTRAINT
  | TRACE_EVIDENCE.

#[export] Instance TraceKind_eq_dec : EqDecision TraceKind.
Proof. solve_decision. Defined.

#[export, refine] Instance TraceKind_enum : StrEnum TraceKind := {
  members := [TRACE_CHANGE; TRACE_REQUIREMENT; TRACE_ASSUMPTION; TRACE_PATTERN; TRACE_CONSTRAINT;
              TRACE_EVIDENCE];
  value k := match k with
             | TRACE_CHANGE => "change"
             | TRACE_REQUIREMENT => "requirement"
             | TRACE_ASSUMPTION => "assumption"
             | TRACE_PATTERN => "pattern"
             | TRACE_CONSTRAINT => "constraint"
             | TRACE_EVIDENCE => "evidence"
             end;
}.
Proof. all: solve_enum. Defined.

Inductive DowntimeStatus :=
  | KNOWN_DOWNTIME | POTENTIAL_DOWNTIME | MODELED_ONLINE | DOWNTIME_UNKNOWN.

#[export] Instance DowntimeStatus_eq_dec : EqDecision DowntimeStatus.
Proof. solve_decision. Defined.

#[export, refine] Instance DowntimeStatus_enum : StrEnum DowntimeStatus := {
  members := [KNOWN_DOWNTIME; POTENTIAL_DOWNTIME; MODELED_ONLINE; DOWNTIME_UNKNOWN];
  value d := match d with
             | KNOWN_DOWNTIME => "known_downtime"
             | POTENTIAL_DOWNTIME => "potential_downtime"
             | MODELED_ONLINE => "modeled_online"
             | DOWNTIME_UNKNOWN => "unknown"
             end;
}.
Proof. all: solve_enum. Defined.

Inductive Reversibility :=
  | REVERSIBLE | CONDITIONALLY_REVERSIBLE | IRREVERSIBLE | REVERSIBILITY_UNKNOWN.

#[export] Instance Reversibility_eq_dec : EqDecision Reversibility.
Proof. solve_decision. Defined.

#[export, refine] Instance Reversibility_enum : StrEnum Reversibility := {
  members := [REVERSIBLE; CONDITIONALLY_REVERSIBLE; IRREVERSIBLE; REVERSIBILITY_UNKNOWN];
  value r := match r with
             | REVERSIBLE => "reversible"
             | CONDITIONALLY_REVERSIBLE => "conditionally_reversible"
             | IRREVERSIBLE => "irreversible"
             | REVERSIBILITY_UNKNOWN => "unknown"
             end;
}.
Proof. all: solve_enum. Defined.

Inductive FindingType :=
  | UNSUPPORTED_CHANGE | MANUAL_INTERPRETATION | MISSING_INFORMATION | MISSING_EVIDENCE
  | STALE_EVIDENCE | STRATEGY_NOT_SUPPORTED | INVALID_DEPENDENCY | DEPENDENCY_CYCLE
  | MISSING_PREREQUISITE | CONSTRAINT_CONFLICT | NO_CHANGES.

#[export] Instance FindingType_eq_dec : EqDecision FindingType.
Proof. solve_decision. Defined.

#[export, refine] Instance FindingType_enum : StrEnum FindingType := {
  members := [UNSUPPORTED_CHANGE; MANUAL_INTERPRETATION; MISSING_INFORMATION; MISSING_EVIDENCE;
              STALE_EVIDENCE; STRATEGY_NOT_SUPPORTED; INVALID_DEPENDENCY; DEPENDENCY_CYCLE;
              MISSING_PREREQUISITE; CONSTRAINT_CONFLICT; NO_CHANGES];
  value t := match t with
             | UNSUPPORTED_CHANGE => "unsupported_change"
             | MANUAL_INTERPRETATION => "manual_interpretation"
             | MISSING_INFORMATION => "missing_information"
             | MISSING_EVIDENCE => "missing_evidence"
             | STALE_EVIDENCE => "stale_evidence"
             | STRATEGY_NOT_SUPPORTED => "strategy_not_supported"
             | INVALID_DEPENDENCY => "invalid_dependency"
             | DEPENDENCY_CYCLE => "dependency_cycle"
             | MISSING_PREREQUISITE => "missing_prerequisite"
             | CONSTRAINT_CONFLICT => "constraint_conflict"
             | NO_CHANGES => "no_changes"
             end;
}.
Proof. all: solve_enum. Defined.

(** ** Checks *)
Definition InvalidMigrationPlan (fields : list string) : exn :=
  DomainError "invalid_migration_plan" "A migration plan is malformed."
    [("fields", JArr (JStr <$> fields))].

Definition check (problems : list (option string)) : py unit :=
  match omap id problems with [] => Ok tt | found => Raise (InvalidMigrationPlan found) end.

(** [None if ok else name]. *)
Definition unless (ok : bool) (name : string) : option string := if ok then None else Some name.

Definition text_ok (limit : nat) (s : string) : bool :=
  negb (String.eqb (strip s) "") && (String.length s <=? limit).

Definition text (s : string) (name : string) (limit : nat) : option string :=
  unless (text_ok limit s) name.

Definition optional_text (o : option string) (name : string) : option string :=
  match o with None => None | Some s => text s name MAX_TEXT end.

Definition texts (l : list string) (name : string) (limit : nat) : option string :=
  unless ((length l <=? MAX_ITEMS) && forallb (text_ok limit) l) name.

Definition references (l : list string) (name : string) : option string :=
  texts l name MAX_REFERENCE.

Definition items {A} (l : list A) (name : string) : option string :=
  unless (length l <=? MAX_ITEMS) name.

(** ** Ids from content *)
Definition digest (prefix : string) (parts : list string) : string :=
  prefix +:+ "_" +:+
  String.substring 0 20 (hexdigest ("[" +:+ join "," (json_text <$> parts) +:+ "]")).

(** * Steps (steps.py) *)
Definition MAX_KEY : nat := 128.

Definition step_id (key : string) : string := digest "stp" [key].

Record Trace := {
  tr_kind : TraceKind;
  tr_reference : string;
  tr_detail : option string;
}.

#[export] Instance Trace_eq_dec : EqDecision Trace.
Proof. solve_decision. Defined.

Definition Trace_new (t : Trace) : py Trace :=
  _ ← check [text (tr_reference t) "trace.reference" MAX_REFERENCE;
             optional_text (tr_detail t) "trace.detail"];
  Ok t.

Record MigrationStep := {
  ms_key : string;
  ms_type : StepType;
  ms_title : string;
  ms_outcome : string;
  ms_traces : list Trace;
  ms_completion : list string;
  ms_description : option string;
  ms_element_ids : list string;
  ms_preconditions : list string;
  ms_inputs : list string;
  ms_depends_on : list string;
  ms_parallelizable : bool;
  ms_downtime : DowntimeStatus;
  ms_downtime_note : option string;
  ms_traffic : option string;
  ms_availability : list string;
  ms_data_impact : option string;
  ms_reversibility : Reversibility;
  ms_manual_verification : bool;
  ms_assumptions : list string;
}.

#[export] Instance MigrationStep_eq_dec : EqDecision MigrationStep.
Proof. solve_decision. Defined.

(** The property [id]. *)
Definition ms_id (s : MigrationStep) : string := step_id (ms_key s).

Definition MigrationStep_problems (s : MigrationStep) : list (option string) :=
  [text (ms_key s) "key" MAX_KEY;
   text (ms_title s) "title" MAX_TITLE;
   text (ms_outcome s) "outcome" MAX_TEXT;
   items (ms_traces s) "traces";
   unless (if ms_traces s is [] then false else true) "traces";
   texts (ms_completion s) "completion" MAX_TEXT;
   unless (if ms_completion s is [] then false else true) "completion";
   optional_text (ms_description s) "description";
   references (ms_element_ids s) "element_ids";
   texts (ms_preconditions s) "preconditions" MAX_TEXT;
   texts (ms_inputs s) "inputs" MAX_TEXT;
   references (ms_depends_on s) "depends_on";
   unless (bool_decide (ms_id s ∉ ms_depends_on s)) "depends_on";
   optional_text (ms_downtime_note s) "downtime_note";
   optional_text (ms_traffic s) "traffic";
   texts (ms_availability s) "availability" MAX_TEXT;
   optional_text (ms_data_impact s) "data_impact";
   texts (ms_assumptions s) "assumptions" MAX_TEXT;
   unless (negb (bool_decide (ms_downtime s = POTENTIAL_DOWNTIME)
                 && match ms_downtime_note s with Some n => String.eqb n "" | None => true end))
     "downtime_note"].

Definition with_sorted_ids (s : MigrationStep) : MigrationStep := {|
  ms_key := ms_key s; ms_type := ms_type s; ms_title := ms_title s; ms_outcome := ms_outcome s;
  ms_traces := ms_traces s; ms_completion := ms_completion s; ms_description := ms_description s;
  ms_element_ids := sorted_set (ms_element_ids s);
  ms_preconditions := ms_preconditions s; ms_inputs := ms_inputs s;
  ms_depends_on := sorted_set (ms_depends_on s);
  ms_parallelizable := ms_parallelizable s; ms_downtime := ms_downtime s;
  ms_downtime_note := ms_downtime_note s; ms_traffic := ms_traffic s;
  ms_availability := ms_availability s; ms_data_impact := ms_data_impact s;
  ms_reversibility := ms_reversibility s; ms_manual_verification := ms_manual_verification s;
  ms_assumptions := ms_assumptions s
|}.

Definition MigrationStep_new (s : MigrationStep) : py MigrationStep :=
  _ ← check (MigrationStep_problems s); Ok (with_sorted_ids s).

(** * Findings and stages (plans.py) *)
Record PlanFinding := {
  pf_type : FindingType;
  pf_key : string;
  pf_message : string;
  pf_element_ids : list string;
  pf_step_ids : list string;
  pf_missing : list string;
  pf_traces : list Trace;
}.

#[export] Instance PlanFinding_eq_dec : EqDecision PlanFinding.
Proof. solve_decision. Defined.

Definition PlanFinding_problems (f : PlanFinding) : list (option string) :=
  [text (pf_key f) "finding.key" 128;
   text (pf_message f) "finding.message" MAX_TEXT;
   references (pf_element_ids f) "finding.element_ids";
   references (pf_step_ids f) "finding.step_ids";
   texts (pf_missing f) "finding.missing" MAX_TEXT;
   items (pf_traces f) "finding.traces"].

Definition PlanFinding_normalize (f : PlanFinding) : PlanFinding := {|
  pf_type := pf_type f; pf_key := pf_key f; pf_message := pf_message f;
  pf_element_ids := sorted_set (pf_element_ids f);
  pf_step_ids := sorted_set (pf_step_ids f);
  pf_missing := pf_missing f; pf_traces := pf_traces f
|}.

Definition PlanFinding_new (f : PlanFinding) : py PlanFinding :=
  _ ← check (PlanFinding_problems f); Ok (PlanFinding_normalize f).

(** The properties [id] and [sort_key]. *)
Definition pf_id (f : PlanFinding) : string := digest "mfd" [value (pf_type f); pf_key f].
Definition pf_sort_key (f : PlanFinding) : string * string := (value (pf_type f), pf_key f).

Record Stage := {
  st_number : nat;
  st_step_ids : list string;
  st_parallel : bool;
}.

#[export] Instance Stage_eq_dec : EqDecision Stage.
Proof. solve_decision. Defined.

Definition Stage_problems (s : Stage) : list (option string) :=
  [unless (1 <=? st_number s) "stage.number";
   (if st_step_ids s is [] then Some "stage.step_ids"
    else references (st_step_ids s) "stage.step_ids");
   unless (negb (st_parallel s && (length (st_step_ids s) <? 2))) "stage.parallel";
   unless (st_parallel s || (length (st_step_ids s) =? 1)) "stage.step_ids"].

Definition Stage_new (s : Stage) : py Stage := _ ← check (Stage_problems s); Ok s.

(** [MigrationProposal._sequence_problem], of the proposal's steps and sequence: an empty sequence,
    or every step exactly once in numbered stages, parallel only when every step of the stage is
    explicitly parallelizable.  [parallelizable[i]] is asked only for ids the check before it has
    found among the steps. *)
Definition sequence_problem (steps : list MigrationStep) (sequence : list Stage) : option string :=
  match sequence with
  | [] => None
  | _ =>
      let parallelizable := dict_of ((λ s, (ms_id s, ms_parallelizable s)) <$> steps) in
      let placed := sequence ≫= st_step_ids in
      unless (bool_decide (st_number <$> sequence = seq 1 (length sequence))
              && bool_decide (sort_by str_leb placed = sort_by str_leb (dict_keys parallelizable))
              && forallb (λ s, negb (st_parallel s)
                               || forallb (λ i, default false (dict_get i parallelizable)) (st_step_ids s))
                   sequence)
        "sequence"
  end.

(** * Changes (changes.py) *)
Inductive Relevance := RELEVANT_MIGRATION | RELEVANT_METADATA.

#[export] Instance Relevance_eq_dec : EqDecision Relevance.
Proof. solve_decision. Defined.

(** Of a change, what the sequencing reads. *)
Record MigrationChange := {
  mc_element : string;
  mc_element_id : string;
  mc_change : ChangeKind;
  mc_relevance : Relevance;
}.

Definition relevant (changes : list MigrationChange) : list MigrationChange :=
  filter (λ c, mc_relevance c = RELEVANT_MIGRATION) changes.

(** * Facts *)
Lemma check_ok ps : check ps = Ok tt ↔ ∀ p, p ∈ ps → p = None.
Proof.
  unfold check. transitivity (omap id ps = []).
  - destruct (omap id ps); naive_solver.
  - split.
    + intros H p Hp. destruct p as [s|]; [|done]. exfalso. apply (elem_of_nil s).
      rewrite <- H. apply list_elem_of_omap. by exists (Some s).
    + intros H. destruct (omap id ps) as [|s r] eqn:E; [done|].
      assert (s ∈ omap id ps) as (p & Hp & Hs)%list_elem_of_omap by (rewrite E; left).
      by rewrite (H p Hp) in Hs.
Qed.

Lemma check_bind {A} ps (a : A) b : (_ ← check ps; Ok a) = Ok b ↔ check ps = Ok tt ∧ a = b.
Proof. destruct (check ps) as [[]|]; cbn; naive_solver. Qed.

Lemma unless_None ok name : unless ok name = None ↔ ok = true.
Proof. by destruct ok. Qed.
