(* ===== verification/Proposals.v ===== *)
(** A migration proposal: everything a plan holds besides its steps and stages, and the proposal as a
    whole (src/core/domain/migrations: values.py, steps.py, plans.py, evidence.py; the evidence
    references of src/core/domain/evolution).

    As in Plans, [X_new] is a record's constructor and fields have their annotated types; a UUID is
    its canonical text, whose order is the UUIDs' own.  [fingerprint] is the real SHA-256 of the
    compact JSON text of a proposal's content.

    Where the code sorts a set by a key that two of its members can share (evidence of one key in two
    states), Python leaves their order open; here they keep the order they came in. *)
From Stdlib Require Import ZArith Ascii.
From S2P Require Import Prelude Data Errors Sha256 JsonText Plans.

(** * The vocabulary (values.py) *)
Inductive PlanStatus :=
  | DRAFT | NEEDS_INFORMATION | READY_FOR_REVIEW | APPROVED | REJECTED | SUPERSEDED | ARCHIVED.

#[export] Instance PlanStatus_eq_dec : EqDecision PlanStatus.
Proof. solve_decision. Defined.

#[export, refine] Instance PlanStatus_enum : StrEnum PlanStatus := {
  members := [DRAFT; NEEDS_INFORMATION; READY_FOR_REVIEW; APPROVED; REJECTED; SUPERSEDED; ARCHIVED];
  value s := match s with
             | DRAFT => "draft"
             | NEEDS_INFORMATION => "needs_information"
             | READY_FOR_REVIEW => "ready_for_review"
             | APPROVED => "approved"
             | REJECTED => "rejected"
             | SUPERSEDED => "superseded"
             | ARCHIVED => "archived"
             end;
}.
Proof. all: solve_enum. Defined.

Inductive TargetKind := REVISION | CANDIDATE.

#[export] Instance TargetKind_eq_dec : EqDecision TargetKind.
Proof. solve_decision. Defined.

#[export, refine] Instance TargetKind_enum : StrEnum TargetKind := {
  members := [REVISION; CANDIDATE];
  value k := match k with REVISION => "revision" | CANDIDATE => "candidate" end;
}.
Proof. all: solve_enum. Defined.

Inductive RiskCategory :=
  | DATA_LOSS | DATA_INCONSISTENCY | DOWNTIME | CAPACITY_EXHAUSTION | COMPATIBILITY_FAILURE
  | SECURITY_REGRESSION | OBSERVABILITY_GAP | ROLLBACK_LIMITATION | DEPENDENCY_ORDERING
  | COST_INCREASE | OPERATIONAL_COMPLEXITY | IRREVERSIBLE_CHANGE.

#[export] Instance RiskCategory_eq_dec : EqDecision RiskCategory.
Proof. solve_decision. Defined.

#[export, refine] Instance RiskCategory_enum : StrEnum RiskCategory := {
  members := [DATA_LOSS; DATA_INCONSISTENCY; DOWNTIME; CAPACITY_EXHAUSTION; COMPATIBILITY_FAILURE;
              SECURITY_REGRESSION; OBSERVABILITY_GAP; ROLLBACK_LIMITATION; DEPENDENCY_ORDERING;
              COST_INCREASE; OPERATIONAL_COMPLEXITY; IRREVERSIBLE_CHANGE];
  value c := match c with
             | DATA_LOSS => "data_loss"
             | DATA_INCONSISTENCY => "data_inconsistency"
             | DOWNTIME => "downtime"
             | CAPACITY_EXHAUSTION => "capacity_exhaustion"
             | COMPATIBILITY_FAILURE => "compatibility_failure"
             | SECURITY_REGRESSION => "security_regression"
             | OBSERVABILITY_GAP => "observability_gap"
             | ROLLBACK_LIMITATION => "rollback_limitation"
             | DEPENDENCY_ORDERING => "dependency_ordering"
             | COST_INCREASE => "cost_increase"
             | OPERATIONAL_COMPLEXITY => "operational_complexity"
             | IRREVERSIBLE_CHANGE => "irreversible_change"
             end;
}.
Proof. all: solve_enum. Defined.

Inductive RiskStatus := CONFIRMED | POTENTIAL | RISK_UNKNOWN.

#[export] Instance RiskStatus_eq_dec : EqDecision RiskStatus.
Proof. solve_decision. Defined.

#[export, refine] Instance RiskStatus_enum : StrEnum RiskStatus := {
  members := [CONFIRMED; POTENTIAL; RISK_UNKNOWN];
  value s := match s with CONFIRMED => "confirmed" | POTENTIAL => "potential" | RISK_UNKNOWN => "unknown" end;
}.
Proof. all: solve_enum. Defined.

Inductive CheckpointStatus :=
  | PASS | FAIL | WARNING | NOT_RUN | CANNOT_EVALUATE | MANUAL_VERIFICATION_REQUIRED.

#[export] Instance CheckpointStatus_eq_dec : EqDecision CheckpointStatus.
Proof. solve_decision. Defined.

#[export, refine] Instance CheckpointStatus_enum : StrEnum CheckpointStatus := {
  members := [PASS; FAIL; WARNING; NOT_RUN; CANNOT_EVALUATE; MANUAL_VERIFICATION_REQUIRED];
  value s := match s with
             | PASS => "pass"
             | FAIL => "fail"
             | WARNING => "warning"
             | NOT_RUN => "not_run"
             | CANNOT_EVALUATE => "cannot_evaluate"
             | MANUAL_VERIFICATION_REQUIRED => "manual_verification_required"
             end;
}.
Proof. all: solve_enum. Defined.

Inductive CheckpointBasis := MODELED | MANUAL | RUNTIME_OBSERVED.

#[export] Instance CheckpointBasis_eq_dec : EqDecision CheckpointBasis.
Proof. solve_decision. Defined.

#[export, refine] Instance CheckpointBasis_enum : StrEnum CheckpointBasis := {
  members := [MODELED; MANUAL; RUNTIME_OBSERVED];
  value b := match b with
             | MODELED => "modeled" | MANUAL => "manual" | RUNTIME_OBSERVED => "runtime_observed"
             end;
}.
Proof. all: solve_enum. Defined.

Inductive CompatibilityStatus :=
  | VERIFIED | INCOMPATIBLE | COMPATIBILITY_UNKNOWN.

#[export] Instance CompatibilityStatus_eq_dec : EqDecision CompatibilityStatus.
Proof. solve_decision. Defined.

#[export, refine] Instance CompatibilityStatus_enum : StrEnum CompatibilityStatus := {
  members := [VERIFIED; INCOMPATIBLE; COMPATIBILITY_UNKNOWN];
  value x := match x with
             | VERIFIED => "verified"
             | INCOMPATIBLE => "incompatible"
             | COMPATIBILITY_UNKNOWN => "unknown"
             end;
}.
Proof. all: solve_enum. Defined.

(** [CompatibilityAspect] (steps.py). *)
Inductive CompatibilityAspect :=
  | DATA_MODEL | APPLICATION | PROTOCOL | SCHEMA | VERSION | AUTHENTICATION | CLIENT_CHANGES
  | ASPECT_ROLLBACK.

#[export] Instance CompatibilityAspect_eq_dec : EqDecision CompatibilityAspect.
Proof. solve_decision. Defined.

#[export, refine] Instance CompatibilityAspect_enum : StrEnum CompatibilityAspect := {
  members := [DATA_MODEL; APPLICATION; PROTOCOL; SCHEMA; VERSION; AUTHENTICATION; CLIENT_CHANGES;
              ASPECT_ROLLBACK];
  value x := match x with
             | DATA_MODEL => "data_model"
             | APPLICATION => "application"
             | PROTOCOL => "protocol"
             | SCHEMA => "schema"
             | VERSION => "version"
             | AUTHENTICATION => "authentication"
             | CLIENT_CHANGES => "client_changes"
             | ASPECT_ROLLBACK => "rollback"
             end;
}.
Proof. all: solve_enum. Defined.

(** [EvidenceSource] and [EvidenceState] (evolution/values.py). *)
Inductive EvidenceSource :=
  | CAPACITY | COST | RELIABILITY | SECURITY | OBSERVABILITY | VALIDATION | SIMULATION | REQUIREMENT
  | GOAL.

#[export] Instance EvidenceSource_eq_dec : EqDecision EvidenceSource.
Proof. solve_decision. Defined.

#[export, refine] Instance EvidenceSource_enum : StrEnum EvidenceSource := {
  members := [CAPACITY; COST; RELIABILITY; SECURITY; OBSERVABILITY; VALIDATION; SIMULATION;
              REQUIREMENT; GOAL];
  value x := match x with
             | CAPACITY => "capacity"
             | COST => "cost"
             | RELIABILITY => "reliability"
             | SECURITY => "security"
             | OBSERVABILITY => "observability"
             | VALIDATION => "validation"
             | SIMULATION => "simulation"
             | REQUIREMENT => "requirement"
             | GOAL => "goal"
             end;
}.
Proof. all: solve_enum. Defined.

Inductive EvidenceState :=
  | CURRENT | STALE | EVIDENCE_MISSING.

#[export] Instance EvidenceState_eq_dec : EqDecision EvidenceState.
Proof. solve_decision. Defined.

#[export, refine] Instance EvidenceState_enum : StrEnum EvidenceState := {
  members := [CURRENT; STALE; EVIDENCE_MISSING];
  value x := match x with
             | CURRENT => "current"
             | STALE => "stale"
             | EVIDENCE_MISSING => "missing"
             end;
}.
Proof. all: solve_enum. Defined.

(** [Side] and [CoverageState] (migrations/evidence.py). *)
Inductive Side :=
  | SOURCE | TARGET.

#[export] Instance Side_eq_dec : EqDecision Side.
Proof. solve_decision. Defined.

#[export, refine] Instance Side_enum : StrEnum Side := {
  members := [SOURCE; TARGET];
  value x := match x with
             | SOURCE => "source"
             | TARGET => "target"
             end;
}.
Proof. all: solve_enum. Defined.

Inductive CoverageState :=
  | COVERAGE_CURRENT | COVERAGE_STALE | COVERAGE_MISSING | UNSUPPORTED.

#[export] Instance CoverageState_eq_dec : EqDecision CoverageState.
Proof. solve_decision. Defined.

#[export, refine] Instance CoverageState_enum : StrEnum CoverageState := {
  members := [COVERAGE_CURRENT; COVERAGE_STALE; COVERAGE_MISSING; UNSUPPORTED];
  value x := match x with
             | COVERAGE_CURRENT => "current"
             | COVERAGE_STALE => "stale"
             | COVERAGE_MISSING => "missing"
             | UNSUPPORTED => "unsupported"
             end;
}.
Proof. all: solve_enum. Defined.

(** * Checks and fingerprints (values.py) *)
Definition CODE : string → bool := matches is_lower (λ c, is_lower c || is_digit c || one_of "_.-" c) 63.

Definition is_hex (c : ascii) : bool := is_digit c || between 97 102 c.

Definition FINGERPRINT (s : string) : bool := str_forall is_hex s && (String.length s =? 64).

(** evolution/candidates.py *)
Definition CANDIDATE_ID (s : string) : bool :=
  String.prefix "evo_" s && str_forall is_hex (String.substring 4 (String.length s - 4) s)
  && (String.length s =? 24).

Definition checked_code (s name : string) : option string := unless (CODE s) name.

Definition count_ok (z : Z) : bool := (1 <=? z)%Z.

(** [text(value, name, limit, required=False)]. *)
Definition optional_text_to (limit : nat) (o : option string) (name : string) : option string :=
  match o with None => None | Some s => text s name limit end.

Definition nonempty {A} (l : list A) : bool := if l is [] then false else true.
Definition filled (o : option string) : bool := match o with Some s => negb (String.eqb s "") | None => false end.

Definition fingerprint (j : json) : py string := s ← dumps j; Ok (hexdigest s).

Definition strings (l : list string) : json := JArr (JStr <$> l).
Definition opt_int (o : option Z) : json := match o with Some z => JInt z | None => JNull end.

(** * Evidence (evolution/candidates.py, migrations/evidence.py) *)
Record EvidenceRef := {
  er_source : EvidenceSource;
  er_reference : string;
  er_state : EvidenceState;
  er_item : option string;
  er_revision_number : option Z;
  er_content_hash : option string;
  er_model_version : option string;
}.

#[export] Instance EvidenceRef_eq_dec : EqDecision EvidenceRef.
Proof. solve_decision. Defined.

Definition InvalidEvolutionResult (fields : list string) : exn :=
  DomainError "invalid_evolution_result" "An evolution analysis result is malformed."
    [("fields", strings fields)].

Definition EvidenceRef_problems (e : EvidenceRef) : list (option string) :=
  [text (er_reference e) "evidence.reference" MAX_REFERENCE;
   optional_text_to MAX_REFERENCE (er_item e) "evidence.item";
   unless (match er_revision_number e with Some n => count_ok n | None => true end) "evidence.revision_number";
   unless (match er_content_hash e with Some h => FINGERPRINT h | None => true end) "evidence.content_hash";
   optional_text_to 64 (er_model_version e) "evidence.model_version"].

Definition EvidenceRef_new (e : EvidenceRef) : py EvidenceRef :=
  match omap id (EvidenceRef_problems e) with [] => Ok e | found => Raise (InvalidEvolutionResult found) end.

Definition er_key (e : EvidenceRef) : string * (string * string) :=
  (value (er_source e), (er_reference e, default "" (er_item e))).

Definition triple_leb : string * (string * string) → string * (string * string) → bool :=
  lex str_leb (lex str_leb str_leb).

Definition EvidenceRef_to_dict (e : EvidenceRef) : json := JObj [
  ("source", JStr (value (er_source e)));
  ("reference", JStr (er_reference e));
  ("state", JStr (value (er_state e)));
  ("item", of_opt_str (er_item e));
  ("revision_number", opt_int (er_revision_number e));
  ("content_hash", of_opt_str (er_content_hash e));
  ("model_version", of_opt_str (er_model_version e))].

(** [sorted(set(evidence), key=lambda e: e.key)]. *)
Definition sorted_evidence (l : list EvidenceRef) : list EvidenceRef := sort_by (on er_key triple_leb) (dedup l).

Record EvidenceCoverage := {
  ec_source : EvidenceSource;
  ec_side : Side;
  ec_state : CoverageState;
  ec_analysis_ids : list string;
  ec_note : option string;
}.

#[export] Instance EvidenceCoverage_eq_dec : EqDecision EvidenceCoverage.
Proof. solve_decision. Defined.

Definition EvidenceCoverage_problems (c : EvidenceCoverage) : list (option string) :=
  [references (ec_analysis_ids c) "coverage.analysis_ids";
   optional_text (ec_note c) "coverage.note";
   unless (negb (bool_decide (ec_state c ∈ [COVERAGE_CURRENT; COVERAGE_STALE])
                 && negb (nonempty (ec_analysis_ids c)))) "coverage.analysis_ids"].

Definition EvidenceCoverage_new (c : EvidenceCoverage) : py EvidenceCoverage :=
  _ ← check (EvidenceCoverage_problems c); Ok c.

Definition ec_key (c : EvidenceCoverage) : string * string := (value (ec_source c), value (ec_side c)).

Definition EvidenceCoverage_to_dict (c : EvidenceCoverage) : json := JObj [
  ("source", JStr (value (ec_source c)));
  ("side", JStr (value (ec_side c)));
  ("state", JStr (value (ec_state c)));
  ("analysis_ids", strings (ec_analysis_ids c));
  ("note", of_opt_str (ec_note c))].

(** * The parts of a plan (steps.py) *)
Definition UNEVALUABLE : string := "unevaluable".

Definition key_problem (key : string) : option string := text key "key" MAX_KEY.
Definition traced (traces : list Trace) : option string := unless (nonempty traces) "traces".

Definition Trace_to_dict (t : Trace) : json := JObj [
  ("kind", JStr (value (tr_kind t)));
  ("reference", JStr (tr_reference t));
  ("detail", of_opt_str (tr_detail t))].

Definition traces_to_dict (l : list Trace) : json := JArr (Trace_to_dict <$> l).

Definition MigrationStep_to_dict (s : MigrationStep) : json := JObj [
  ("id", JStr (ms_id s));
  ("key", JStr (ms_key s));
  ("type", JStr (value (ms_type s)));
  ("title", JStr (ms_title s));
  ("description", of_opt_str (ms_description s));
  ("element_ids", strings (ms_element_ids s));
  ("preconditions", strings (ms_preconditions s));
  ("inputs", strings (ms_inputs s));
  ("outcome", JStr (ms_outcome s));
  ("completion", strings (ms_completion s));
  ("depends_on", strings (ms_depends_on s));
  ("parallelizable", JBool (ms_parallelizable s));
  ("downtime", JStr (value (ms_downtime s)));
  ("downtime_note", of_opt_str (ms_downtime_note s));
  ("traffic", of_opt_str (ms_traffic s));
  ("availability", strings (ms_availability s));
  ("data_impact", of_opt_str (ms_data_impact s));
  ("reversibility", JStr (value (ms_reversibility s)));
  ("manual_verification", JBool (ms_manual_verification s));
  ("assumptions", strings (ms_assumptions s));
  ("traces", traces_to_dict (ms_traces s))].

(** ** Risks *)
Record Risk := {
  rk_key : string;
  rk_category : RiskCategory;
  rk_status : RiskStatus;
  rk_description : string;
  rk_impact : string;
  rk_traces : list Trace;
  rk_element_ids : list string;
  rk_step_ids : list string;
  rk_preconditions : list string;
  rk_mitigation : option string;
}.

#[export] Instance Risk_eq_dec : EqDecision Risk.
Proof. solve_decision. Defined.

Definition Risk_problems (r : Risk) : list (option string) :=
  [key_problem (rk_key r);
   text (rk_description r) "description" MAX_TEXT;
   text (rk_impact r) "impact" MAX_TEXT;
   items (rk_traces r) "traces";
   traced (rk_traces r);
   references (rk_element_ids r) "element_ids";
   references (rk_step_ids r) "step_ids";
   texts (rk_preconditions r) "preconditions" MAX_TEXT;
   optional_text (rk_mitigation r) "mitigation";
   unless (negb (bool_decide (rk_status r = POTENTIAL) && negb (nonempty (rk_preconditions r)))) "preconditions"].

Definition Risk_normalize (r : Risk) : Risk := {|
  rk_key := rk_key r; rk_category := rk_category r; rk_status := rk_status r;
  rk_description := rk_description r; rk_impact := rk_impact r; rk_traces := rk_traces r;
  rk_element_ids := sorted_set (rk_element_ids r); rk_step_ids := sorted_set (rk_step_ids r);
  rk_preconditions := rk_preconditions r; rk_mitigation := rk_mitigation r |}.

Definition Risk_new (r : Risk) : py Risk := _ ← check (Risk_problems r); Ok (Risk_normalize r).

Definition rk_id (r : Risk) : string := digest "rsk" [rk_key r].

Definition Risk_to_dict (r : Risk) : json := JObj [
  ("id", JStr (rk_id r));
  ("key", JStr (rk_key r));
  ("category", JStr (value (rk_category r)));
  ("status", JStr (value (rk_status r)));
  ("description", JStr (rk_description r));
  ("impact", JStr (rk_impact r));
  ("element_ids", strings (rk_element_ids r));
  ("step_ids", strings (rk_step_ids r));
  ("preconditions", strings (rk_preconditions r));
  ("mitigation", of_opt_str (rk_mitigation r));
  ("traces", traces_to_dict (rk_traces r))].

(** ** Checkpoints *)
Definition EVALUATED : list CheckpointStatus := [PASS; FAIL; WARNING].
Definition AWAITING : list CheckpointStatus := [MANUAL_VERIFICATION_REQUIRED; NOT_RUN].

Record Checkpoint := {
  ck_key : string;
  ck_subject : string;
  ck_expected : string;
  ck_status : CheckpointStatus;
  ck_basis : CheckpointBasis;
  ck_traces : list Trace;
  ck_blocking : bool;
  ck_step_ids : list string;
  ck_evidence : list EvidenceRef;
  ck_actual : option string;
}.

#[export] Instance Checkpoint_eq_dec : EqDecision Checkpoint.
Proof. solve_decision. Defined.

Definition Checkpoint_problems (c : Checkpoint) : list (option string) :=
  let current := existsb (λ e, bool_decide (er_state e = CURRENT)) (ck_evidence c) in
  let evaluated := bool_decide (ck_status c ∈ EVALUATED) in
  [key_problem (ck_key c);
   text (ck_subject c) "subject" MAX_TEXT;
   text (ck_expected c) "expected" MAX_TEXT;
   items (ck_traces c) "traces";
   traced (ck_traces c);
   references (ck_step_ids c) "step_ids";
   items (ck_evidence c) "evidence";
   optional_text (ck_actual c) "actual";
   unless (negb (evaluated && negb current)) "evidence";
   unless (negb (evaluated && negb (bool_decide (ck_basis c = MODELED)))) "basis";
   unless (negb (bool_decide (ck_basis c = MANUAL) && negb (bool_decide (ck_status c ∈ AWAITING)))) "status"].

Definition Checkpoint_normalize (c : Checkpoint) : Checkpoint := {|
  ck_key := ck_key c; ck_subject := ck_subject c; ck_expected := ck_expected c;
  ck_status := ck_status c; ck_basis := ck_basis c; ck_traces := ck_traces c;
  ck_blocking := ck_blocking c; ck_step_ids := sorted_set (ck_step_ids c);
  ck_evidence := sorted_evidence (ck_evidence c); ck_actual := ck_actual c |}.

Definition Checkpoint_new (c : Checkpoint) : py Checkpoint :=
  _ ← check (Checkpoint_problems c); Ok (Checkpoint_normalize c).

Definition ck_id (c : Checkpoint) : string := digest "chk" [ck_key c].

Definition Checkpoint_to_dict (c : Checkpoint) : json := JObj [
  ("id", JStr (ck_id c));
  ("key", JStr (ck_key c));
  ("subject", JStr (ck_subject c));
  ("expected", JStr (ck_expected c));
  ("status", JStr (value (ck_status c)));
  ("basis", JStr (value (ck_basis c)));
  ("blocking", JBool (ck_blocking c));
  ("actual", of_opt_str (ck_actual c));
  ("step_ids", strings (ck_step_ids c));
  ("evidence", JArr (EvidenceRef_to_dict <$> ck_evidence c));
  ("traces", traces_to_dict (ck_traces c))].

(** ** Rollback considerations *)
Definition RECOVERABLE : list Reversibility := [REVERSIBLE; CONDITIONALLY_REVERSIBLE].
Definition UNRECOVERABLE : list Reversibility := [IRREVERSIBLE; REVERSIBILITY_UNKNOWN].

Record RollbackConsideration := {
  rb_step_id : string;
  rb_reversibility : Reversibility;
  rb_traces : list Trace;
  rb_triggers : list string;
  rb_action : option string;
  rb_retained : list string;
  rb_preconditions : list string;
  rb_consistency : option string;
  rb_verification : list string;
  rb_limitations : list string;
}.

#[export] Instance RollbackConsideration_eq_dec : EqDecision RollbackConsideration.
Proof. solve_decision. Defined.

Definition RollbackConsideration_problems (r : RollbackConsideration) : list (option string) :=
  [text (rb_step_id r) "step_id" MAX_REFERENCE;
   items (rb_traces r) "traces";
   traced (rb_traces r);
   texts (rb_triggers r) "triggers" MAX_TEXT;
   optional_text (rb_action r) "action";
   texts (rb_retained r) "retained" MAX_TEXT;
   texts (rb_preconditions r) "preconditions" MAX_TEXT;
   optional_text (rb_consistency r) "consistency";
   texts (rb_verification r) "verification" MAX_TEXT;
   texts (rb_limitations r) "limitations" MAX_TEXT;
   unless (negb (bool_decide (rb_reversibility r ∈ RECOVERABLE) && negb (filled (rb_action r)))) "action";
   unless (negb (bool_decide (rb_reversibility r = CONDITIONALLY_REVERSIBLE)
                 && negb (nonempty (rb_preconditions r)))) "preconditions";
   unless (negb (bool_decide (rb_reversibility r ∈ UNRECOVERABLE)
                 && negb (nonempty (rb_limitations r)))) "limitations"].

Definition RollbackConsideration_new (r : RollbackConsideration) : py RollbackConsideration :=
  _ ← check (RollbackConsideration_problems r); Ok r.

Definition rb_id (r : RollbackConsideration) : string := digest "rbk" [rb_step_id r].

Definition RollbackConsideration_to_dict (r : RollbackConsideration) : json := JObj [
  ("id", JStr (rb_id r));
  ("step_id", JStr (rb_step_id r));
  ("reversibility", JStr (value (rb_reversibility r)));
  ("triggers", strings (rb_triggers r));
  ("action", of_opt_str (rb_action r));
  ("retained", strings (rb_retained r));
  ("preconditions", strings (rb_preconditions r));
  ("consistency", of_opt_str (rb_consistency r));
  ("verification", strings (rb_verification r));
  ("limitations", strings (rb_limitations r));
  ("traces", traces_to_dict (rb_traces r))].

(** ** Data migrations *)
Record DataMigration := {
  dm_key : string;
  dm_traces : list Trace;
  dm_source_element_id : option string;
  dm_destination_element_id : option string;
  dm_scope : option string;
  dm_method : option string;
  dm_backfill : option string;
  dm_replication : option string;
  dm_cutover : list string;
  dm_step_ids : list string;
  dm_verification : list string;
  dm_retention : list string;
  dm_rollback : option string;
  dm_data_loss : option string;
  dm_missing : list string;
}.

#[export] Instance DataMigration_eq_dec : EqDecision DataMigration.
Proof. solve_decision. Defined.

Definition DataMigration_problems (d : DataMigration) : list (option string) :=
  [key_problem (dm_key d);
   items (dm_traces d) "traces";
   traced (dm_traces d);
   optional_text_to MAX_REFERENCE (dm_source_element_id d) "source_element_id";
   optional_text_to MAX_REFERENCE (dm_destination_element_id d) "destination_element_id";
   unless (filled (dm_source_element_id d) || filled (dm_destination_element_id d)) "source_element_id";
   optional_text (dm_scope d) "scope";
   optional_text (dm_method d) "method";
   optional_text (dm_backfill d) "backfill";
   optional_text (dm_replication d) "replication";
   texts (dm_cutover d) "cutover" MAX_TEXT;
   references (dm_step_ids d) "step_ids";
   texts (dm_verification d) "verification" MAX_TEXT;
   texts (dm_retention d) "retention" MAX_TEXT;
   optional_text (dm_rollback d) "rollback";
   optional_text (dm_data_loss d) "data_loss";
   texts (dm_missing d) "missing" MAX_TEXT].

Definition DataMigration_normalize (d : DataMigration) : DataMigration := {|
  dm_key := dm_key d; dm_traces := dm_traces d; dm_source_element_id := dm_source_element_id d;
  dm_destination_element_id := dm_destination_element_id d; dm_scope := dm_scope d;
  dm_method := dm_method d; dm_backfill := dm_backfill d; dm_replication := dm_replication d;
  dm_cutover := dm_cutover d; dm_step_ids := sorted_set (dm_step_ids d);
  dm_verification := dm_verification d; dm_retention := dm_retention d;
  dm_rollback := dm_rollback d; dm_data_loss := dm_data_loss d; dm_missing := dm_missing d |}.

Definition DataMigration_new (d : DataMigration) : py DataMigration :=
  _ ← check (DataMigration_problems d); Ok (DataMigration_normalize d).

Definition dm_id (d : DataMigration) : string := digest "dat" [dm_key d].

Definition DataMigration_to_dict (d : DataMigration) : json := JObj [
  ("id", JStr (dm_id d));
  ("key", JStr (dm_key d));
  ("source_element_id", of_opt_str (dm_source_element_id d));
  ("destination_element_id", of_opt_str (dm_destination_element_id d));
  ("scope", of_opt_str (dm_scope d));
  ("method", of_opt_str (dm_method d));
  ("backfill", of_opt_str (dm_backfill d));
  ("replication", of_opt_str (dm_replication d));
  ("cutover", strings (dm_cutover d));
  ("duration", JStr UNEVALUABLE);
  ("step_ids", strings (dm_step_ids d));
  ("verification", strings (dm_verification d));
  ("retention", strings (dm_retention d));
  ("rollback", of_opt_str (dm_rollback d));
  ("data_loss", of_opt_str (dm_data_loss d));
  ("missing", strings (dm_missing d));
  ("traces", traces_to_dict (dm_traces d))].

(** ** Compatibility *)
Record CompatibilityCheck := {
  cc_key : string;
  cc_aspect : CompatibilityAspect;
  cc_status : CompatibilityStatus;
  cc_question : string;
  cc_traces : list Trace;
  cc_element_ids : list string;
  cc_note : option string;
}.

#[export] Instance CompatibilityCheck_eq_dec : EqDecision CompatibilityCheck.
Proof. solve_decision. Defined.

Definition CompatibilityCheck_problems (c : CompatibilityCheck) : list (option string) :=
  let evidenced := existsb (λ t, bool_decide (tr_kind t = TRACE_EVIDENCE)) (cc_traces c) in
  [key_problem (cc_key c);
   text (cc_question c) "question" MAX_TEXT;
   items (cc_traces c) "traces";
   traced (cc_traces c);
   references (cc_element_ids c) "element_ids";
   optional_text (cc_note c) "note";
   unless (negb (bool_decide (cc_status c = VERIFIED) && negb evidenced)) "traces"].

Definition CompatibilityCheck_normalize (c : CompatibilityCheck) : CompatibilityCheck := {|
  cc_key := cc_key c; cc_aspect := cc_aspect c; cc_status := cc_status c;
  cc_question := cc_question c; cc_traces := cc_traces c;
  cc_element_ids := sorted_set (cc_element_ids c); cc_note := cc_note c |}.

Definition CompatibilityCheck_new (c : CompatibilityCheck) : py CompatibilityCheck :=
  _ ← check (CompatibilityCheck_problems c); Ok (CompatibilityCheck_normalize c).

Definition cc_id (c : CompatibilityCheck) : string := digest "cmp" [cc_key c].

Definition CompatibilityCheck_to_dict (c : CompatibilityCheck) : json := JObj [
  ("id", JStr (cc_id c));
  ("key", JStr (cc_key c));
  ("aspect", JStr (value (cc_aspect c)));
  ("status", JStr (value (cc_status c)));
  ("question", JStr (cc_question c));
  ("element_ids", strings (cc_element_ids c));
  ("note", of_opt_str (cc_note c));
  ("traces", traces_to_dict (cc_traces c))].

(** * The proposal (plans.py) *)
Definition MAX_STEPS : nat := 500.
Definition MAX_FINDINGS : nat := 1000.

Definition BLOCKING_FINDINGS : list FindingType :=
  [MISSING_INFORMATION; UNSUPPORTED_CHANGE; MANUAL_INTERPRETATION; INVALID_DEPENDENCY;
   DEPENDENCY_CYCLE; MISSING_PREREQUISITE; CONSTRAINT_CONFLICT; STALE_EVIDENCE].

Record SourceRef := {
  sr_architecture_id : string;
  sr_revision_number : Z;
  sr_content_hash : string;
}.

#[export] Instance SourceRef_eq_dec : EqDecision SourceRef.
Proof. solve_decision. Defined.

Definition SourceRef_new (s : SourceRef) : py SourceRef :=
  _ ← check [unless (count_ok (sr_revision_number s)) "source.revision_number";
             unless (FINGERPRINT (sr_content_hash s)) "source.content_hash"];
  Ok s.

Definition SourceRef_to_dict (s : SourceRef) : json := JObj [
  ("architecture_id", JStr (sr_architecture_id s));
  ("revision_number", JInt (sr_revision_number s));
  ("content_hash", JStr (sr_content_hash s))].

Record TargetRef := {
  tg_kind : TargetKind;
  tg_architecture_id : string;
  tg_revision_number : Z;
  tg_content_hash : string;
  tg_analysis_id : option string;
  tg_candidate_id : option string;
}.

#[export] Instance TargetRef_eq_dec : EqDecision TargetRef.
Proof. solve_decision. Defined.

Definition TargetRef_new (t : TargetRef) : py TargetRef :=
  let candidate := bool_decide (tg_kind t = CANDIDATE) in
  let given (o : option string) := if o is Some _ then true else false in
  _ ← check [unless (count_ok (tg_revision_number t)) "target.revision_number";
             unless (FINGERPRINT (tg_content_hash t)) "target.content_hash";
             unless (Bool.eqb (given (tg_analysis_id t)) candidate) "target.analysis_id";
             unless (Bool.eqb (given (tg_candidate_id t)) candidate
                     && match tg_candidate_id t with Some c => CANDIDATE_ID c | None => true end)
               "target.candidate_id"];
  Ok t.

Definition TargetRef_to_dict (t : TargetRef) : json := JObj [
  ("kind", JStr (value (tg_kind t)));
  ("architecture_id", JStr (tg_architecture_id t));
  ("revision_number", JInt (tg_revision_number t));
  ("content_hash", JStr (tg_content_hash t));
  ("analysis_id", of_opt_str (tg_analysis_id t));
  ("candidate_id", of_opt_str (tg_candidate_id t))].

Definition pair_problems (source : SourceRef) (target : TargetRef) : list (option string) :=
  let same := String.eqb (tg_architecture_id target) (sr_architecture_id source) in
  let placed := match tg_kind target with
                | REVISION => (sr_revision_number source <? tg_revision_number target)%Z
                | CANDIDATE => (tg_revision_number target =? sr_revision_number source)%Z
                end in
  [unless same "target.architecture_id"; unless placed "target.revision_number"].

Definition PlanFinding_to_dict (f : PlanFinding) : json := JObj [
  ("id", JStr (pf_id f));
  ("type", JStr (value (pf_type f)));
  ("key", JStr (pf_key f));
  ("message", JStr (pf_message f));
  ("element_ids", strings (pf_element_ids f));
  ("step_ids", strings (pf_step_ids f));
  ("missing", strings (pf_missing f));
  ("traces", traces_to_dict (pf_traces f))].

Definition Stage_to_dict (s : Stage) : json := JObj [
  ("number", JInt (Z.of_nat (st_number s)));
  ("step_ids", strings (st_step_ids s));
  ("parallel", JBool (st_parallel s))].

Record StrategyOption := {
  so_pattern : string;
  so_name : string;
  so_applies : bool;
  so_supported : bool;
  so_subjects : list string;
  so_missing : list string;
  so_tradeoffs : list string;
  so_downtime : DowntimeStatus;
  so_reversibility : Reversibility;
}.

#[export] Instance StrategyOption_eq_dec : EqDecision StrategyOption.
Proof. solve_decision. Defined.

Definition StrategyOption_problems (o : StrategyOption) : list (option string) :=
  [text (so_pattern o) "strategy.pattern" 64;
   text (so_name o) "strategy.name" 100;
   unless (negb (so_supported o && (negb (so_applies o) || nonempty (so_missing o)))) "strategy.supported";
   references (so_subjects o) "strategy.subjects";
   texts (so_missing o) "strategy.missing" MAX_TEXT;
   texts (so_tradeoffs o) "strategy.tradeoffs" MAX_TEXT].

Definition StrategyOption_normalize (o : StrategyOption) : StrategyOption := {|
  so_pattern := so_pattern o; so_name := so_name o; so_applies := so_applies o;
  so_supported := so_supported o; so_subjects := sorted_set (so_subjects o);
  so_missing := so_missing o; so_tradeoffs := so_tradeoffs o; so_downtime := so_downtime o;
  so_reversibility := so_reversibility o |}.

Definition StrategyOption_new (o : StrategyOption) : py StrategyOption :=
  _ ← check (StrategyOption_problems o); Ok (StrategyOption_normalize o).

Definition StrategyOption_to_dict (o : StrategyOption) : json := JObj [
  ("pattern", JStr (so_pattern o));
  ("name", JStr (so_name o));
  ("applies", JBool (so_applies o));
  ("supported", JBool (so_supported o));
  ("subjects", strings (so_subjects o));
  ("missing", strings (so_missing o));
  ("tradeoffs", strings (so_tradeoffs o));
  ("downtime", JStr (value (so_downtime o)));
  ("reversibility", JStr (value (so_reversibility o)))].

Record MigrationProposal := {
  mp_source : SourceRef;
  mp_target : TargetRef;
  mp_steps : list MigrationStep;
  mp_risks : list Risk;
  mp_checkpoints : list Checkpoint;
  mp_rollbacks : list RollbackConsideration;
  mp_data_migrations : list DataMigration;
  mp_compatibility : list CompatibilityCheck;
  mp_findings : list PlanFinding;
  mp_evidence : list EvidenceRef;
  mp_assumptions : list string;
  mp_strategy : option string;
  mp_models : dict string Z;
  mp_diff_summary : option string;
  mp_alternatives : list StrategyOption;
  mp_sequence : list Stage;
  mp_coverage : list EvidenceCoverage;
}.

#[export] Instance MigrationProposal_eq_dec : EqDecision MigrationProposal.
Proof. solve_decision. Defined.

Definition models_problem (models : dict string Z) : option string :=
  unless (forallb count_ok (dict_values models)) "models".

(** The strategy is one of the supported alternatives. *)
Definition strategy_offered (p : MigrationProposal) : bool :=
  match mp_strategy p with
  | None => true
  | Some s => existsb (λ o, so_supported o
                            && String.eqb (default "" (head (split_on "@"%char (so_pattern o)))) s)
                (mp_alternatives p)
  end.

Definition MigrationProposal_problems (p : MigrationProposal) : list (option string) :=
  [(if length (mp_steps p) <=? MAX_STEPS then items (mp_steps p) "steps" else Some "steps");
   items (mp_risks p) "risks";
   items (mp_checkpoints p) "checkpoints";
   items (mp_rollbacks p) "rollbacks";
   items (mp_data_migrations p) "data_migrations";
   items (mp_compatibility p) "compatibility";
   unless (length (mp_findings p) <=? MAX_FINDINGS) "findings";
   items (mp_evidence p) "evidence";
   texts (mp_assumptions p) "assumptions" MAX_TEXT;
   (if mp_strategy p is Some s then checked_code s "strategy" else None);
   models_problem (mp_models p);
   optional_text (mp_diff_summary p) "diff_summary";
   items (mp_alternatives p) "alternatives";
   items (mp_sequence p) "sequence";
   items (mp_coverage p) "coverage";
   unless (strategy_offered p) "strategy"].

(** [_consistency]: the ids the parts refer to, and the ids that must be unique, by part. *)
Definition referred (p : MigrationProposal) : dict string (list string) := [
  ("risks", mp_risks p ≫= rk_step_ids);
  ("checkpoints", mp_checkpoints p ≫= ck_step_ids);
  ("rollbacks", rb_step_id <$> mp_rollbacks p);
  ("data_migrations", mp_data_migrations p ≫= dm_step_ids)].

Definition unique (p : MigrationProposal) : dict string (list string) := [
  ("steps", ms_id <$> mp_steps p);
  ("risks", rk_id <$> mp_risks p);
  ("checkpoints", ck_id <$> mp_checkpoints p);
  ("rollbacks", rb_id <$> mp_rollbacks p);
  ("data_migrations", dm_id <$> mp_data_migrations p);
  ("compatibility", cc_id <$> mp_compatibility p);
  ("findings", pf_id <$> dedup (mp_findings p))].

Definition consistency (p : MigrationProposal) : list (option string) :=
  let known := ms_id <$> mp_steps p in
  ((λ r, unless (bool_decide (filter (λ i, i ∉ known) r.2 = [])) (r.1 +:+ ".step_ids")) <$> referred p)
  ++ ((λ u, unless (bool_decide (NoDup u.2)) u.1) <$> unique p)
  ++ [sequence_problem (mp_steps p) (mp_sequence p)].

Definition MigrationProposal_normalize (p : MigrationProposal) : MigrationProposal := {|
  mp_source := mp_source p; mp_target := mp_target p;
  mp_steps := sort_by (on ms_id str_leb) (mp_steps p);
  mp_risks := sort_by (on rk_id str_leb) (mp_risks p);
  mp_checkpoints := sort_by (on ck_id str_leb) (mp_checkpoints p);
  mp_rollbacks := sort_by (on rb_id str_leb) (mp_rollbacks p);
  mp_data_migrations := sort_by (on dm_id str_leb) (mp_data_migrations p);
  mp_compatibility := sort_by (on cc_id str_leb) (mp_compatibility p);
  mp_findings := sort_by (on pf_sort_key (lex str_leb str_leb)) (dedup (mp_findings p));
  mp_evidence := sorted_evidence (mp_evidence p);
  mp_assumptions := mp_assumptions p; mp_strategy := mp_strategy p;
  mp_models := sort_by (on fst str_leb) (mp_models p);
  mp_diff_summary := mp_diff_summary p;
  mp_alternatives := sort_by (on so_pattern str_leb) (mp_alternatives p);
  mp_sequence := mp_sequence p;
  mp_coverage := sort_by (on ec_key (lex str_leb str_leb)) (mp_coverage p) |}.

Definition MigrationProposal_new (p : MigrationProposal) : py MigrationProposal :=
  _ ← check (MigrationProposal_problems p);
  _ ← check (pair_problems (mp_source p) (mp_target p));
  _ ← check (consistency p);
  Ok (MigrationProposal_normalize p).

(** The property [status]. *)
Definition mp_status (p : MigrationProposal) : PlanStatus :=
  let blocked := existsb (λ f, bool_decide (pf_type f ∈ BLOCKING_FINDINGS)) (mp_findings p)
                 || negb (nonempty (mp_steps p)) in
  if blocked then NEEDS_INFORMATION else DRAFT.

(** ** Content and fingerprint *)

(** [dict(sorted(Counter(values).items()))]. *)
Definition counts (values : list string) : json :=
  JObj ((λ v, (v, JInt (Z.of_nat (count v values)))) <$> sorted_set values).

Definition count_of {A} (P : A → bool) (l : list A) : json := JInt (Z.of_nat (length (filter (λ x, P x = true) l))).
Definition size_of {A} (l : list A) : json := JInt (Z.of_nat (length l)).

Definition mp_summary (p : MigrationProposal) : json := JObj [
  ("steps", size_of (mp_steps p));
  ("steps_by_type", counts ((λ s, value (ms_type s)) <$> mp_steps p));
  ("risks", size_of (mp_risks p));
  ("checkpoints", size_of (mp_checkpoints p));
  ("blocking_checkpoints", count_of ck_blocking (mp_checkpoints p));
  ("manual_verification_steps", count_of ms_manual_verification (mp_steps p));
  ("stages", size_of (mp_sequence p));
  ("downtime", counts ((λ s, value (ms_downtime s)) <$> mp_steps p));
  ("data_migrations", size_of (mp_data_migrations p));
  ("compatibility", counts ((λ c, value (cc_status c)) <$> mp_compatibility p));
  ("parallel_stages", count_of st_parallel (mp_sequence p));
  ("findings", JObj ((λ t, (value t, count_of (λ f, bool_decide (pf_type f = t)) (mp_findings p)))
                       <$> members (E := FindingType)))].

Definition mp_content (p : MigrationProposal) : dict string json := [
  ("source", SourceRef_to_dict (mp_source p));
  ("target", TargetRef_to_dict (mp_target p));
  ("strategy", of_opt_str (mp_strategy p));
  ("steps", JArr (MigrationStep_to_dict <$> mp_steps p));
  ("risks", JArr (Risk_to_dict <$> mp_risks p));
  ("checkpoints", JArr (Checkpoint_to_dict <$> mp_checkpoints p));
  ("rollbacks", JArr (RollbackConsideration_to_dict <$> mp_rollbacks p));
  ("data_migrations", JArr (DataMigration_to_dict <$> mp_data_migrations p));
  ("compatibility", JArr (CompatibilityCheck_to_dict <$> mp_compatibility p));
  ("findings", JArr (PlanFinding_to_dict <$> mp_findings p));
  ("evidence", JArr (EvidenceRef_to_dict <$> mp_evidence p));
  ("assumptions", strings (mp_assumptions p));
  ("models", JObj ((λ m, (m.1, JInt m.2)) <$> mp_models p));
  ("diff_summary", of_opt_str (mp_diff_summary p));
  ("alternatives", JArr (StrategyOption_to_dict <$> mp_alternatives p));
  ("sequence", JArr (Stage_to_dict <$> mp_sequence p));
  ("coverage", JArr (EvidenceCoverage_to_dict <$> mp_coverage p))].

(** The property [fingerprint]; [fingerprint_content] says it never raises. *)
Definition mp_fingerprint (p : MigrationProposal) : string :=
  match fingerprint (JObj (mp_content p)) with Ok s => s | Raise _ => "" end.

Definition MigrationProposal_to_dict (p : MigrationProposal) : json :=
  JObj (dict_update (mp_content p) [
    ("status", JStr (value (mp_status p)));
    ("summary", mp_summary p);
    ("fingerprint", JStr (mp_fingerprint p))]).
