(* ===== verification/Lifecycle.v ===== *)
(** Migration planning requests, and the versions of a plan over time
    (src/core/domain/migrations: entities.py, versioning.py).

    A version is the request, the engine's proposal and a review status that people move:

        draft -> ready_for_review -> approved / rejected -> superseded -> archived

    [move] records the transition; [submit], [approve], [reject] and [archive] are the ways it is used,
    and [regenerate] supersedes the latest version by a new one.  [freshness] says whether a version is
    still current.  UUIDs are their canonical texts, instants the [datetime]s of Codecs. *)
From Stdlib Require Import Lia ZArith.
From S2P Require Import Prelude Data Errors Codecs Sha256 Plans Proposals.

(** * Errors (errors.py) *)
Definition InvalidMigrationRequest (field reason : string) : exn :=
  DomainError "invalid_migration_request" "The migration planning request is invalid."
    [("field", JStr field); ("reason", JStr reason)].

Definition InvalidPlanTransition (from to : PlanStatus) : exn :=
  DomainError "invalid_migration_plan_transition"
    "The migration plan cannot move to that status from its current status."
    [("from", JStr (value from)); ("to", JStr (value to))].

Definition PlanVersionMismatch (version : Z) (reason : string) : exn :=
  DomainError "migration_plan_version_mismatch"
    "The review does not refer to the exact content of this migration plan version."
    [("version", JInt version); ("reason", JStr reason)].

Definition StaleMigrationPlan (reasons : list string) : exn :=
  DomainError "stale_migration_plan"
    "The migration plan is stale and must be regenerated before it is reviewed."
    [("reasons", strings reasons)].

Definition ReviewedPlanNotReplaced (version : Z) (status : PlanStatus) : exn :=
  DomainError "reviewed_migration_plan"
    "The latest version of this migration plan is under review or approved; replacing it must be explicit."
    [("version", JInt version); ("status", JStr (value status))].

(** * Requests (entities.py) *)
Definition MAX_GOALS : nat := 20.
Definition MAX_STATEMENTS : nat := 50.
Definition MAX_REQUIREMENTS : nat := 200.
Definition MAX_ELEMENT_ID : nat := 128.
Definition MAX_COMMENT : nat := 2000.

Definition KEY : string → bool := CODE.

Definition refuse {A} (field reason : string) : py A := Raise (InvalidMigrationRequest field reason).
Definition require (ok : bool) (field reason : string) : py unit := if ok then Ok tt else refuse field reason.

Definition statements (values : list string) (field : string) (limit : nat) : py (list string) :=
  _ ← require (length values <=? limit) field "too_many";
  _ ← require (forallb (text_ok MAX_TEXT) values) field "invalid_text";
  Ok (strip <$> values).

Record TargetSpec := {
  ts_revision : option Z;
  ts_analysis_id : option string;
  ts_candidate_id : option string;
}.

#[export] Instance TargetSpec_eq_dec : EqDecision TargetSpec.
Proof. solve_decision. Defined.

Definition given {A} (o : option A) : bool := if o is Some _ then true else false.

Definition TargetSpec_new (t : TargetSpec) : py TargetSpec :=
  let by_revision := given (ts_revision t) in
  let by_candidate := given (ts_analysis_id t) || given (ts_candidate_id t) in
  _ ← require (negb (Bool.eqb by_revision by_candidate)) "target" "one_of_revision_or_candidate";
  _ ← require (match ts_revision t with Some n => count_ok n | None => true end)
        "target.revision" "invalid_revision";
  _ ← require (negb by_candidate || given (ts_analysis_id t)) "target.analysis_id" "required";
  _ ← require (negb by_candidate || match ts_candidate_id t with Some c => CANDIDATE_ID c | None => false end)
        "target.candidate_id" "invalid_candidate";
  Ok t.

Definition TargetSpec_to_dict (t : TargetSpec) : json := JObj [
  ("revision", opt_int (ts_revision t));
  ("analysis_id", of_opt_str (ts_analysis_id t));
  ("candidate_id", of_opt_str (ts_candidate_id t))].

Record MigrationConstraints := {
  cn_downtime_allowed : option bool;
  cn_maintenance_window : option string;
  cn_statements : list string;
}.

#[export] Instance MigrationConstraints_eq_dec : EqDecision MigrationConstraints.
Proof. solve_decision. Defined.

Definition optional_ok (limit : nat) (o : option string) : bool :=
  match o with Some s => text_ok limit s | None => true end.

Definition MigrationConstraints_new (c : MigrationConstraints) : py MigrationConstraints :=
  _ ← require (optional_ok MAX_TITLE (cn_maintenance_window c)) "constraints.maintenance_window" "invalid_text";
  stated ← statements (cn_statements c) "constraints.statements" MAX_STATEMENTS;
  Ok {| cn_downtime_allowed := cn_downtime_allowed c; cn_maintenance_window := cn_maintenance_window c;
        cn_statements := stated |}.

Definition MigrationConstraints_to_dict (c : MigrationConstraints) : json := JObj [
  ("downtime_allowed", match cn_downtime_allowed c with Some b => JBool b | None => JNull end);
  ("maintenance_window", of_opt_str (cn_maintenance_window c));
  ("statements", strings (cn_statements c))].

Record DataRequirement := {
  dr_element_id : string;
  dr_statement : string;
}.

#[export] Instance DataRequirement_eq_dec : EqDecision DataRequirement.
Proof. solve_decision. Defined.

Definition DataRequirement_new (d : DataRequirement) : py DataRequirement :=
  _ ← require (text_ok MAX_ELEMENT_ID (dr_element_id d)) "data_requirements.element_id" "invalid_reference";
  _ ← require (text_ok MAX_TEXT (dr_statement d)) "data_requirements.statement" "invalid_text";
  Ok d.

Definition DataRequirement_to_dict (d : DataRequirement) : json :=
  JObj [("element_id", JStr (dr_element_id d)); ("statement", JStr (dr_statement d))].

Record Assumption := {
  as_key : string;
  as_statement : string;
}.

#[export] Instance Assumption_eq_dec : EqDecision Assumption.
Proof. solve_decision. Defined.

Definition Assumption_new (a : Assumption) : py Assumption :=
  _ ← require (KEY (as_key a)) "assumptions.key" "invalid_key";
  _ ← require (text_ok MAX_TEXT (as_statement a)) "assumptions.statement" "invalid_text";
  Ok a.

Definition Assumption_to_dict (a : Assumption) : json :=
  JObj [("key", JStr (as_key a)); ("statement", JStr (as_statement a))].

Record MigrationRequest := {
  rq_architecture_id : string;
  rq_source_revision : Z;
  rq_target : TargetSpec;
  rq_goals : list string;
  rq_constraints : MigrationConstraints;
  rq_data_requirements : list DataRequirement;
  rq_requirement_ids : option (list string);
  rq_strategy : option string;
  rq_assumptions : list Assumption;
  rq_title : option string;
}.

#[export] Instance MigrationRequest_eq_dec : EqDecision MigrationRequest.
Proof. solve_decision. Defined.

(** [_check_lists]: the requirement ids and the assumptions it keeps. *)
Definition check_lists (r : MigrationRequest) : py (option (list string) * list Assumption) :=
  _ ← require (length (rq_data_requirements r) <=? MAX_STATEMENTS) "data_requirements" "too_many";
  _ ← require (match rq_requirement_ids r with Some ids => length ids <=? MAX_REQUIREMENTS | None => true end)
        "requirement_ids" "too_many";
  _ ← require (length (rq_assumptions r) <=? MAX_STATEMENTS) "assumptions" "too_many";
  _ ← require (bool_decide (length (dedup (as_key <$> rq_assumptions r)) = length (rq_assumptions r)))
        "assumptions" "duplicate";
  Ok (sorted_set <$> rq_requirement_ids r, sort_by (on as_key str_leb) (rq_assumptions r)).

Definition MigrationRequest_new (r : MigrationRequest) : py MigrationRequest :=
  _ ← require (count_ok (rq_source_revision r)) "source_revision" "invalid_revision";
  _ ← require (match ts_revision (rq_target r) with
               | Some n => negb (n <=? rq_source_revision r)%Z
               | None => true
               end) "target.revision" "not_after_the_source";
  goals ← statements (rq_goals r) "goals" MAX_GOALS;
  '(ids, assumptions) ← check_lists r;
  _ ← require (match rq_strategy r with Some s => CODE s | None => true end) "strategy" "invalid_strategy";
  _ ← require (optional_ok MAX_TITLE (rq_title r)) "title" "invalid_text";
  Ok {| rq_architecture_id := rq_architecture_id r; rq_source_revision := rq_source_revision r;
        rq_target := rq_target r; rq_goals := goals; rq_constraints := rq_constraints r;
        rq_data_requirements := rq_data_requirements r; rq_requirement_ids := ids;
        rq_strategy := rq_strategy r; rq_assumptions := assumptions; rq_title := rq_title r |}.

Definition MigrationRequest_to_dict (r : MigrationRequest) : json := JObj [
  ("architecture_id", JStr (rq_architecture_id r));
  ("source_revision", JInt (rq_source_revision r));
  ("target", TargetSpec_to_dict (rq_target r));
  ("goals", strings (rq_goals r));
  ("constraints", MigrationConstraints_to_dict (rq_constraints r));
  ("data_requirements", JArr (DataRequirement_to_dict <$> rq_data_requirements r));
  ("requirement_ids", match rq_requirement_ids r with Some ids => strings ids | None => JNull end);
  ("strategy", of_opt_str (rq_strategy r));
  ("assumptions", JArr (Assumption_to_dict <$> rq_assumptions r));
  ("title", of_opt_str (rq_title r))].

(** * Versions (entities.py) *)
Definition TRANSITIONS (s : PlanStatus) : list PlanStatus :=
  match s with
  | DRAFT => [READY_FOR_REVIEW; SUPERSEDED; ARCHIVED]
  | NEEDS_INFORMATION => [SUPERSEDED; ARCHIVED]
  | READY_FOR_REVIEW => [APPROVED; REJECTED; SUPERSEDED]
  | APPROVED => [SUPERSEDED; ARCHIVED]
  | REJECTED => [SUPERSEDED; ARCHIVED]
  | SUPERSEDED => [ARCHIVED]
  | ARCHIVED => []
  end.

Definition FEEDBACK_REQUIRED : list PlanStatus := [REJECTED].
Definition EXACT : list PlanStatus := [APPROVED; REJECTED].

Record ReviewEvent := {
  re_from_status : PlanStatus;
  re_to_status : PlanStatus;
  re_user_id : string;
  re_at : datetime;
  re_comment : option string;
  re_fingerprint : option string;
}.

#[export] Instance ReviewEvent_eq_dec : EqDecision ReviewEvent.
Proof. solve_decision. Defined.

Definition ReviewEvent_to_dict (e : ReviewEvent) : json := JObj [
  ("from_status", JStr (value (re_from_status e)));
  ("to_status", JStr (value (re_to_status e)));
  ("user_id", JStr (re_user_id e));
  ("at", JStr (isoformat (re_at e)));
  ("comment", of_opt_str (re_comment e));
  ("fingerprint", of_opt_str (re_fingerprint e))].

Record MigrationPlanVersion := {
  pv_id : string;
  pv_plan_id : string;
  pv_version : Z;
  pv_project_id : string;
  pv_request : MigrationRequest;
  pv_proposal : MigrationProposal;
  pv_status : PlanStatus;
  pv_created_by_user_id : string;
  pv_created_at : datetime;
  pv_reviews : list ReviewEvent;
}.

#[export] Instance MigrationPlanVersion_eq_dec : EqDecision MigrationPlanVersion.
Proof. solve_decision. Defined.

Definition MigrationPlanVersion_new (v : MigrationPlanVersion) : py MigrationPlanVersion :=
  let source := mp_source (pv_proposal v) in
  _ ← require (count_ok (pv_version v)) "version" "invalid_version";
  _ ← require (String.eqb (rq_architecture_id (pv_request v)) (sr_architecture_id source))
        "request" "does_not_match_the_proposal";
  _ ← require (rq_source_revision (pv_request v) =? sr_revision_number source)%Z
        "request" "does_not_match_the_proposal";
  Ok v.

(** The property [title]. *)
Definition pv_title (v : MigrationPlanVersion) : string :=
  match rq_title (pv_request v) with
  | Some t => if String.eqb t "" then
                "Migration from revision " +:+ Z_text (sr_revision_number (mp_source (pv_proposal v)))
              else t
  | None => "Migration from revision " +:+ Z_text (sr_revision_number (mp_source (pv_proposal v)))
  end.

(** The version with the status [to] and the event added to its reviews. *)
Definition reviewed (v : MigrationPlanVersion) (to : PlanStatus) (e : ReviewEvent) : MigrationPlanVersion := {|
  pv_id := pv_id v; pv_plan_id := pv_plan_id v; pv_version := pv_version v;
  pv_project_id := pv_project_id v; pv_request := pv_request v; pv_proposal := pv_proposal v;
  pv_status := to; pv_created_by_user_id := pv_created_by_user_id v;
  pv_created_at := pv_created_at v; pv_reviews := pv_reviews v ++ [e] |}.

Definition move (v : MigrationPlanVersion) (to : PlanStatus) (user_id : string) (at_ : datetime)
    (comment fingerprint : option string) : py MigrationPlanVersion :=
  if bool_decide (to ∉ TRANSITIONS (pv_status v)) then Raise (InvalidPlanTransition (pv_status v) to)
  else if bool_decide (to ∈ EXACT) && negb (bool_decide (fingerprint = Some (mp_fingerprint (pv_proposal v))))
  then Raise (PlanVersionMismatch (pv_version v) "content_mismatch")
  else if negb (optional_ok MAX_COMMENT comment) then refuse "comment" "invalid_text"
  else if bool_decide (to ∈ FEEDBACK_REQUIRED) && negb (filled comment) then refuse "comment" "required"
  else
    MigrationPlanVersion_new (reviewed v to {|
      re_from_status := pv_status v; re_to_status := to; re_user_id := user_id; re_at := at_;
      re_comment := comment;
      re_fingerprint := if bool_decide (to ∈ EXACT) then fingerprint else None |}).

(** The property [approved_by]. *)
Definition approved_by (v : MigrationPlanVersion) : option ReviewEvent :=
  head (filter (λ r, re_to_status r = APPROVED) (reverse (pv_reviews v))).

(** * Versions over time (versioning.py) *)
Definition UNDER_REVIEW : list PlanStatus := [READY_FOR_REVIEW; APPROVED].

Inductive StaleReason :=
  | SOURCE_CHANGED | TARGET_CHANGED | NEWER_REVISION | MODELS_CHANGED | EVIDENCE_STALE.

#[export] Instance StaleReason_eq_dec : EqDecision StaleReason.
Proof. solve_decision. Defined.

#[export, refine] Instance StaleReason_enum : StrEnum StaleReason := {
  members := [SOURCE_CHANGED; TARGET_CHANGED; NEWER_REVISION; MODELS_CHANGED; EVIDENCE_STALE];
  value r := match r with
             | SOURCE_CHANGED => "source_changed"
             | TARGET_CHANGED => "target_changed"
             | NEWER_REVISION => "newer_revision"
             | MODELS_CHANGED => "models_changed"
             | EVIDENCE_STALE => "evidence_stale"
             end;
}.
Proof. all: solve_enum. Defined.

Record CurrentState := {
  cs_source_hash : option string;
  cs_target_hash : option string;
  cs_latest_revision : Z;
  cs_models : dict string Z;
  cs_evidence : dict (string * (string * string)) EvidenceState;
}.

(** [Freshness]: the reasons it is stale. *)
Abbreviation Freshness := (list StaleReason).

Definition stale (f : Freshness) : bool := nonempty f.

Definition reached (p : MigrationProposal) : Z :=
  match tg_kind (mp_target p) with
  | REVISION => tg_revision_number (mp_target p)
  | CANDIDATE => sr_revision_number (mp_source p)
  end.

Definition cited (p : MigrationProposal) : list EvidenceRef := filter (λ e, er_state e = CURRENT) (mp_evidence p).

Definition freshness (p : MigrationProposal) (now : CurrentState) : Freshness :=
  let checks : list (StaleReason * bool) := [
    (SOURCE_CHANGED, negb (bool_decide (cs_source_hash now = Some (sr_content_hash (mp_source p)))));
    (TARGET_CHANGED, negb (bool_decide (cs_target_hash now = Some (tg_content_hash (mp_target p)))));
    (NEWER_REVISION, (reached p <? cs_latest_revision now)%Z);
    (MODELS_CHANGED, existsb (λ m, negb (bool_decide (dict_get m.1 (cs_models now) = Some m.2))) (mp_models p));
    (EVIDENCE_STALE,
       existsb (λ e, negb (bool_decide (default EVIDENCE_MISSING (dict_get (er_key e) (cs_evidence now)) = CURRENT)))
         (cited p))] in
  (filter (λ c, c.2 = true) checks).*1.

Definition fresh (found : Freshness) : py unit :=
  if stale found then Raise (StaleMigrationPlan (value <$> found)) else Ok tt.

(** The state [MigrationPlanService._current] reads, given the content hashes of the plan's source and
    target, the latest revision and the planner's versions as they are now. *)
Definition current_state (p : MigrationProposal) (source_hash target_hash : option string) (latest : Z)
    (models : dict string Z) : CurrentState := {|
  cs_source_hash := source_hash; cs_target_hash := target_hash; cs_latest_revision := latest;
  cs_models := models; cs_evidence := dict_of ((λ e, (er_key e, CURRENT)) <$> cited p) |}.

Definition first_version (version_id plan_id project_id : string) (request : MigrationRequest)
    (proposal : MigrationProposal) (user_id : string) (at_ : datetime) : py MigrationPlanVersion :=
  MigrationPlanVersion_new {|
    pv_id := version_id; pv_plan_id := plan_id; pv_version := 1; pv_project_id := project_id;
    pv_request := request; pv_proposal := proposal; pv_status := mp_status proposal;
    pv_created_by_user_id := user_id; pv_created_at := at_; pv_reviews := [] |}.

Record Regeneration := {
  rg_previous : MigrationPlanVersion;
  rg_created : option MigrationPlanVersion;
}.

Definition regenerate (latest : MigrationPlanVersion) (version_id : string) (request : MigrationRequest)
    (proposal : MigrationProposal) (user_id : string) (at_ : datetime) (replace_reviewed : bool)
    : py Regeneration :=
  if negb (String.eqb (rq_architecture_id request) (rq_architecture_id (pv_request latest)))
  then refuse "architecture_id" "another_architecture"
  else if bool_decide (request = pv_request latest)
          && String.eqb (mp_fingerprint proposal) (mp_fingerprint (pv_proposal latest))
  then Ok {| rg_previous := latest; rg_created := None |}
  else if bool_decide (SUPERSEDED ∉ TRANSITIONS (pv_status latest))
  then Raise (InvalidPlanTransition (pv_status latest) SUPERSEDED)
  else if bool_decide (pv_status latest ∈ UNDER_REVIEW) && negb replace_reviewed
  then Raise (ReviewedPlanNotReplaced (pv_version latest) (pv_status latest))
  else
    let number := (pv_version latest + 1)%Z in
    previous ← move latest SUPERSEDED user_id at_
                 (Some ("Superseded by version " +:+ Z_text number +:+ ".")) None;
    created ← MigrationPlanVersion_new {|
      pv_id := version_id; pv_plan_id := pv_plan_id latest; pv_version := number;
      pv_project_id := pv_project_id latest; pv_request := request; pv_proposal := proposal;
      pv_status := mp_status proposal; pv_created_by_user_id := user_id; pv_created_at := at_;
      pv_reviews := [] |};
    Ok {| rg_previous := previous; rg_created := Some created |}.

Definition submit (v : MigrationPlanVersion) (current : Freshness) (user_id : string) (at_ : datetime)
    : py MigrationPlanVersion :=
  _ ← fresh current; move v READY_FOR_REVIEW user_id at_ None None.

Definition exact (v : MigrationPlanVersion) (number : Z) (fingerprint : string) : py unit :=
  if negb (number =? pv_version v)%Z then Raise (PlanVersionMismatch (pv_version v) "version_mismatch")
  else if negb (String.eqb fingerprint (mp_fingerprint (pv_proposal v)))
  then Raise (PlanVersionMismatch (pv_version v) "content_mismatch")
  else Ok tt.

Definition approve (v : MigrationPlanVersion) (version_number : Z) (fingerprint : string)
    (current : Freshness) (user_id : string) (at_ : datetime) (comment : option string)
    : py MigrationPlanVersion :=
  _ ← exact v version_number fingerprint;
  _ ← fresh current;
  move v APPROVED user_id at_ comment (Some fingerprint).

Definition reject (v : MigrationPlanVersion) (version_number : Z) (fingerprint comment : string)
    (user_id : string) (at_ : datetime) : py MigrationPlanVersion :=
  _ ← exact v version_number fingerprint;
  move v REJECTED user_id at_ (Some comment) (Some fingerprint).

Definition archive (v : MigrationPlanVersion) (user_id : string) (at_ : datetime) : py MigrationPlanVersion :=
  move v ARCHIVED user_id at_ None None.
