(* ===== verification/LifecycleProperties.v ===== *)
(** What the review lifecycle of migration plans promises (Lifecycle, for
    src/core/domain/migrations/entities.py and versioning.py).

    - [moves_bounded], [archived_reached]: reviews end, after at most four moves, and no version is
      stuck before it is archived.
    - [review_history]: content never changes, the history is a walk of the lifecycle, and only a
      submitted draft is approved, by its exact fingerprint.
    - [approve_spec], [regenerate_spec]: when an approval and a regeneration succeed, and what they do. *)
From Stdlib Require Import Lia ZArith Ascii.
From S2P Require Import Prelude Data Errors Codecs Sha256 Plans Proposals Lifecycle.

(** * Moves *)
(** A version its constructor accepts. *)
Definition valid_version (v : MigrationPlanVersion) : Prop := MigrationPlanVersion_new v = Ok v.

Definition event_of (v : MigrationPlanVersion) (to : PlanStatus) (user_id : string) (at_ : datetime)
    (comment fingerprint : option string) : ReviewEvent := {|
  re_from_status := pv_status v; re_to_status := to; re_user_id := user_id; re_at := at_;
  re_comment := comment; re_fingerprint := if bool_decide (to ∈ EXACT) then fingerprint else None |}.

Lemma version_new_ok v w : MigrationPlanVersion_new v = Ok w → w = v ∧ valid_version v.
Proof.
  unfold valid_version, MigrationPlanVersion_new, require, refuse. cbv zeta. repeat case_match; simpl; naive_solver.
Qed.

Lemma valid_reviewed v to e : valid_version (reviewed v to e) ↔ valid_version v.
Proof.
  unfold valid_version, MigrationPlanVersion_new, require, refuse. cbv zeta. simpl.
  repeat case_match; simpl; naive_solver.
Qed.

(** Of a valid version, [move] succeeds exactly when the lifecycle has the transition, a verdict names
    the proposal's fingerprint, the comment is a text and a rejection has one. *)
Lemma move_ok v to user_id at_ comment fingerprint w :
  move v to user_id at_ comment fingerprint = Ok w ↔
  w = reviewed v to (event_of v to user_id at_ comment fingerprint) ∧ valid_version v ∧
  to ∈ TRANSITIONS (pv_status v) ∧
  (to ∈ EXACT → fingerprint = Some (mp_fingerprint (pv_proposal v))) ∧
  optional_ok MAX_COMMENT comment = true ∧ (to ∈ FEEDBACK_REQUIRED → filled comment = true).
Proof.
  unfold move. fold (event_of v to user_id at_ comment fingerprint).
  destruct (decide (to ∈ TRANSITIONS (pv_status v))) as [Ht|Ht];
    [rewrite bool_decide_false by tauto|rewrite bool_decide_true by done; naive_solver].
  destruct (bool_decide (to ∈ EXACT) && _) eqn:E1.
  { apply andb_prop in E1 as [E1%bool_decide_eq_true E2%negb_true_iff%bool_decide_eq_false]. naive_solver. }
  assert (to ∈ EXACT → fingerprint = Some (mp_fingerprint (pv_proposal v))) as He.
  { intros He. rewrite bool_decide_true in E1 by done. by apply negb_false_iff, bool_decide_eq_true in E1. }
  destruct (optional_ok MAX_COMMENT comment); simpl; [|naive_solver].
  destruct (bool_decide (to ∈ FEEDBACK_REQUIRED) && _) eqn:E2.
  { apply andb_prop in E2 as [E2%bool_decide_eq_true E3%negb_true_iff]. naive_solver congruence. }
  assert (to ∈ FEEDBACK_REQUIRED → filled comment = true) as Hf.
  { intros Hf. rewrite bool_decide_true in E2 by done. by apply negb_false_iff in E2. }
  split.
  - intros [-> Hv]%version_new_ok. by rewrite valid_reviewed in Hv.
  - intros (-> & Hv & _). by apply valid_reviewed.
Qed.

(** ** The lifecycle *)
Definition moves (v w : MigrationPlanVersion) : Prop :=
  ∃ to user_id at_ comment fingerprint, move v to user_id at_ comment fingerprint = Ok w.

(** The longest way to the end from a status. *)
Definition moves_left (s : PlanStatus) : nat :=
  match s with
  | DRAFT => 4 | READY_FOR_REVIEW => 3 | NEEDS_INFORMATION | APPROVED | REJECTED => 2
  | SUPERSEDED => 1 | ARCHIVED => 0
  end.

Lemma transition_left s to : to ∈ TRANSITIONS s → (moves_left to < moves_left s)%nat.
Proof.
  intros Ht. apply (bool_decide_eq_true_2 (to ∈ TRANSITIONS s)) in Ht. revert Ht.
  destruct s, to; vm_compute; intros Ht; (discriminate Ht || lia).
Qed.

Lemma moves_left_lt v w : moves v w → (moves_left (pv_status w) < moves_left (pv_status v))%nat.
Proof. intros (to & u & a & c & f & (-> & _ & Ht & _)%move_ok). by apply transition_left. Qed.

Lemma moves_sn v : sn moves v.
Proof.
  assert (∀ n v, (moves_left (pv_status v) < n)%nat → sn moves v) as Hn;
    [|apply (Hn (S (moves_left (pv_status v)))); lia].
  induction n as [|n IH]; intros w Hw; [lia|]. constructor. intros x Hx. apply IH.
  apply moves_left_lt in Hx. lia.
Qed.

(** Any status but the last can be left, without a verdict. *)
Lemma moves_on v user_id at_ :
  valid_version v → pv_status v ≠ ARCHIVED →
  ∃ w, move v (if decide (ARCHIVED ∈ TRANSITIONS (pv_status v)) then ARCHIVED else SUPERSEDED)
         user_id at_ None None = Ok w.
Proof.
  intros Hv Hs. eexists. apply move_ok. split; [reflexivity|]. split; [done|].
  destruct (pv_status v); try done; repeat split; try done;
    try (intros Ht; apply (bool_decide_eq_true_2 _) in Ht; vm_compute in Ht; discriminate Ht);
    apply (bool_decide_eq_true_1 _); by vm_compute.
Qed.

(** C39: Reviews come to an end: no sequence of moves is longer than the statuses still ahead, at most
    four from a draft, so none goes on for ever. *)
Theorem moves_bounded v :
  sn moves v ∧ ∀ n w, nsteps moves n v w → (n + moves_left (pv_status w) <= moves_left (pv_status v))%nat.
Proof.
  split; [apply moves_sn|]. intros n w. revert v.
  induction n as [|n IH]; intros v Hn; inversion Hn as [|? ? u ? Hvu Huw]; subst; [lia|].
  apply IH in Huw. apply moves_left_lt in Hvu. lia.
Qed.

(** No version is stuck before the end: from any valid version people can always reach the archived
    status, and a version that cannot move any more is archived. *)
Theorem archived_reached v :
  valid_version v →
  (∃ w, rtc moves v w ∧ pv_status w = ARCHIVED) ∧
  ((∀ w, ¬ moves v w) ↔ pv_status v = ARCHIVED).
Proof.
  intros Hv. assert (∀ w, valid_version w → pv_status w ≠ ARCHIVED → ∃ u, moves w u ∧ valid_version u) as Hon.
  { intros w Hw Hs. destruct (moves_on w "" (pv_created_at w) Hw Hs) as (u & Hu). exists u.
    split; [by repeat eexists|]. apply move_ok in Hu as (-> & _). by apply valid_reviewed. }
  split.
  - pose proof (moves_sn v) as Hsn. induction Hsn as [v _ IH].
    destruct (decide (pv_status v = ARCHIVED)) as [He|Hne]; [by exists v|].
    destruct (Hon v Hv Hne) as (u & Hu & Huv). destruct (IH u Hu Huv) as (w & Hw & Hs).
    exists w. split; [by eapply rtc_l|done].
  - split.
    + intros Hstuck. destruct (decide (pv_status v = ARCHIVED)) as [|Hne]; [done|].
      destruct (Hon v Hv Hne) as (u & Hu & _). by destruct (Hstuck u).
    + intros Hs w Hw. apply moves_left_lt in Hw. rewrite Hs in Hw. simpl in Hw. lia.
Qed.

(** ** The review history *)
Inductive review_step (v : MigrationPlanVersion) : MigrationPlanVersion → Prop :=
  | step_submit w current user_id at_ : submit v current user_id at_ = Ok w → review_step v w
  | step_approve w number fingerprint current user_id at_ comment :
      approve v number fingerprint current user_id at_ comment = Ok w → review_step v w
  | step_reject w number fingerprint comment user_id at_ :
      reject v number fingerprint comment user_id at_ = Ok w → review_step v w
  | step_archive w user_id at_ : archive v user_id at_ = Ok w → review_step v w
  | step_supersede r version_id request proposal user_id at_ replace_reviewed :
      regenerate v version_id request proposal user_id at_ replace_reviewed = Ok r →
      review_step v (rg_previous r).

(** The events lead from a status to another, each from where the one before left. *)
Fixpoint follows (s : PlanStatus) (l : list ReviewEvent) (s' : PlanStatus) : Prop :=
  match l with
  | [] => s' = s
  | e :: r => re_from_status e = s ∧ re_to_status e ∈ TRANSITIONS s ∧ follows (re_to_status e) r s'
  end.

Lemma follows_app s l s' e :
  follows s l s' → re_from_status e = s' → re_to_status e ∈ TRANSITIONS s' →
  follows s (l ++ [e]) (re_to_status e).
Proof. revert s. induction l as [|x l IH]; simpl; intros s Hl He Ht; [naive_solver|]. naive_solver. Qed.

(** What an event records of a proposal with the fingerprint [f]. *)
Definition event_exact (f : string) (e : ReviewEvent) : Prop :=
  re_fingerprint e = (if decide (re_to_status e ∈ EXACT) then Some f else None) ∧
  (re_to_status e = REJECTED → filled (re_comment e) = true).

Lemma fresh_ok f u : fresh f = Ok u ↔ f = [].
Proof. unfold fresh, stale. destruct f, u; naive_solver. Qed.

Lemma exact_ok v n f u : exact v n f = Ok u ↔ n = pv_version v ∧ f = mp_fingerprint (pv_proposal v).
Proof.
  unfold exact. destruct (Z.eqb_spec n (pv_version v)); [|naive_solver].
  destruct (String.eqb_spec f (mp_fingerprint (pv_proposal v))), u; naive_solver.
Qed.

Lemma regenerate_previous v version_id request proposal user_id at_ replace_reviewed r :
  regenerate v version_id request proposal user_id at_ replace_reviewed = Ok r →
  rg_previous r = v ∨ moves v (rg_previous r).
Proof.
  unfold regenerate. repeat (case_match; [naive_solver|]).
  intros (p & Hp & (c & _ & [= <-])%py_bind_ok)%py_bind_ok. right. by repeat eexists.
Qed.

Lemma review_step_moves v w : review_step v w → w = v ∨ moves v w.
Proof.
  destruct 1 as [? ? ? ? H|? ? ? ? ? ? ? H|? ? ? ? ? ? H|? ? ? H|? ? ? ? ? ? ? H].
  5: { by apply regenerate_previous in H. }
  all: right; unfold submit, approve, reject, archive in H;
    repeat (apply py_bind_ok in H as (? & _ & H)); by repeat eexists.
Qed.

(** What every review keeps of a version, and what its history says. *)
Record history_of (v w : MigrationPlanVersion) : Prop := {
  kept_id : pv_id w = pv_id v;
  kept_plan : pv_plan_id w = pv_plan_id v;
  kept_version : pv_version w = pv_version v;
  kept_request : pv_request w = pv_request v;
  kept_proposal : pv_proposal w = pv_proposal v;
  kept_reviews : ∃ l, pv_reviews w = pv_reviews v ++ l ∧ follows (pv_status v) l (pv_status w) ∧
    Forall (event_exact (mp_fingerprint (pv_proposal v))) l;
}.

Lemma history_moves v w : rtc moves v w → history_of v w.
Proof.
  induction 1 as [v|v u w Hvu _ [H1 H2 H3 H4 H5 (l & H6 & H7 & H8)]].
  { split; try done. exists []. by rewrite app_nil_r. }
  destruct Hvu as (to & user & at_ & c & f & (-> & _ & Ht & He & _ & Hf)%move_ok). simpl in *.
  split; simpl; try done. exists (event_of v to user at_ c f :: l). split; [by rewrite H6, <- app_assoc|].
  split; [done|]. constructor; [|done]. split; simpl.
  - destruct (decide (to ∈ EXACT)) as [E|E]; [by rewrite bool_decide_true, He|by rewrite bool_decide_false].
  - intros ->. apply Hf. by left.
Qed.

Lemma reviews_moves v w : rtc review_step v w → rtc moves v w.
Proof.
  induction 1 as [|v u w Hvu _ IH]; [done|]. apply review_step_moves in Hvu as [->|Hm]; [done|]. by eapply rtc_l.
Qed.

(** Approval is reached from a draft only, through a submission. *)
Lemma follows_approved s l s' e :
  follows s l s' → e ∈ l → re_to_status e = APPROVED →
  re_from_status e = READY_FOR_REVIEW ∧ (s = DRAFT ∨ s = READY_FOR_REVIEW).
Proof.
  revert s. induction l as [|x l IH]; simpl; intros s Hl Hin He; [by apply not_elem_of_nil in Hin|].
  destruct Hl as (Hf & Ht & Hl). apply elem_of_cons in Hin as [->|Hin].
  - rewrite He in Ht. apply (bool_decide_eq_true_2 _) in Ht. rewrite Hf.
    revert Ht. destruct s; vm_compute; intros Ht; (discriminate Ht || auto).
  - destruct (IH _ Hl Hin He) as [Hr Hs]. split; [done|].
    apply (bool_decide_eq_true_2 _) in Ht. revert Ht.
    destruct Hs as [-> | ->], s; vm_compute; intros Ht; (discriminate Ht || auto).
Qed.

(** C8: A version keeps its content and its history through any reviews: submissions, verdicts,
    archiving and regenerations change nothing but the status and append events, each from the status
    the last one left by a transition of the lifecycle, each verdict naming the proposal's own
    fingerprint; and only a plan that was a draft, submitted by a person, is ever approved. *)
Theorem review_history version_id plan_id project_id request proposal user_id at_ v w :
  first_version version_id plan_id project_id request proposal user_id at_ = Ok v →
  rtc review_step v w →
  pv_version w = 1%Z ∧ pv_request w = request ∧ pv_proposal w = proposal ∧
  follows (mp_status proposal) (pv_reviews w) (pv_status w) ∧
  Forall (event_exact (mp_fingerprint proposal)) (pv_reviews w) ∧
  (∀ e, approved_by w = Some e →
     e ∈ pv_reviews w ∧ re_from_status e = READY_FOR_REVIEW ∧
     re_fingerprint e = Some (mp_fingerprint proposal) ∧ mp_status proposal = DRAFT).
Proof.
  intros [-> Hv]%version_new_ok Hw.
  destruct (history_moves _ _ (reviews_moves _ _ Hw)) as [_ _ H3 H4 H5 (l & H6 & H7 & H8)]. simpl in *. subst l.
  do 5 (split; [done|]). intros e He. unfold approved_by in He.
  assert (e ∈ filter (λ r, re_to_status r = APPROVED) (reverse (pv_reviews w))) as Hin.
  { destruct (filter _ _); [done|]. injection He as ->. left. }
  apply list_elem_of_filter in Hin as [Ha Hin]. rewrite elem_of_reverse in Hin. split; [done|].
  destruct (follows_approved _ _ _ _ H7 Hin Ha) as [Hr Hs]. split; [done|].
  rewrite Forall_forall in H8. destruct (H8 e Hin) as [Hf _]. rewrite Ha in Hf. split; [done|].
  destruct Hs as [Hs|Hs]; [done|]. revert Hs. unfold mp_status. by destruct (_ || _).
Qed.

(** ** Freshness *)

(** What the plan was made from is what the system holds now. *)
Record current (p : MigrationProposal) (now : CurrentState) : Prop := {
  current_source : cs_source_hash now = Some (sr_content_hash (mp_source p));
  current_target : cs_target_hash now = Some (tg_content_hash (mp_target p));
  current_latest : (cs_latest_revision now <= reached p)%Z;
  current_models : ∀ m n, (m, n) ∈ mp_models p → dict_get m (cs_models now) = Some n;
  current_evidence : ∀ e, e ∈ mp_evidence p → er_state e = CURRENT →
    dict_get (er_key e) (cs_evidence now) = Some CURRENT;
}.

Lemma existsb_false {A} (P : A → bool) l : existsb P l = false ↔ ∀ x, x ∈ l → P x = false.
Proof.
  induction l as [|y l IH]; simpl.
  - split; [|done]. by intros _ x Hx%not_elem_of_nil.
  - rewrite orb_false_iff, IH. split; [|intros Hl; split; intros; apply Hl; by (left || right)].
    intros [Hy Hl] x [->|Hx]%elem_of_cons; auto.
Qed.

Lemma freshness_nil p now : freshness p now = [] ↔ current p now.
Proof.
  unfold freshness. cbv zeta. rewrite fmap_nil_eq, filter_nil_iff. split.
  - intros Hall. pose proof (λ r b H, proj1 (not_true_iff_false _) (Hall (r, b) H)) as Hb. simpl in Hb.
    split.
    + specialize (Hb SOURCE_CHANGED _ ltac:(left)). by apply negb_false_iff, bool_decide_eq_true in Hb.
    + specialize (Hb TARGET_CHANGED _ ltac:(right; left)). by apply negb_false_iff, bool_decide_eq_true in Hb.
    + specialize (Hb NEWER_REVISION _ ltac:(do 2 right; left)). by apply Z.ltb_ge in Hb.
    + specialize (Hb MODELS_CHANGED _ ltac:(do 3 right; left)). rewrite existsb_false in Hb.
      intros m n Hm. specialize (Hb _ Hm). by apply negb_false_iff, bool_decide_eq_true in Hb.
    + specialize (Hb EVIDENCE_STALE _ ltac:(do 4 right; left)). rewrite existsb_false in Hb.
      intros e He Hs. specialize (Hb e). apply negb_false_iff, bool_decide_eq_true in Hb;
        [|by apply list_elem_of_filter]. by destruct (dict_get _ _); simpl in Hb; [subst|].
  - intros [H1 H2 H3 H4 H5]. apply Z.ltb_ge in H3. intros x Hx.
    repeat (apply elem_of_cons in Hx as [->|Hx]); cbn [snd]; try (by apply not_elem_of_nil in Hx);
      apply not_true_iff_false.
    + by rewrite bool_decide_true.
    + by rewrite bool_decide_true.
    + done.
    + apply existsb_false. intros [m n] Hm. apply H4 in Hm. cbn [fst snd]. by rewrite bool_decide_true.
    + apply existsb_false. intros e (Hs & He)%list_elem_of_filter. rewrite (H5 e He Hs). cbn [default from_option].
      by rewrite bool_decide_true.
Qed.

(** C27: An approval is of this exact version, while it is current: it succeeds exactly when it names the
    version's number and its proposal's fingerprint, nothing the plan was made from has changed, the
    version is under review and the comment is a text; it then records who approved what. *)
Theorem approve_spec v number fingerprint now user_id at_ comment w :
  valid_version v →
  approve v number fingerprint (freshness (pv_proposal v) now) user_id at_ comment = Ok w ↔
  number = pv_version v ∧ fingerprint = mp_fingerprint (pv_proposal v) ∧ current (pv_proposal v) now ∧
  pv_status v = READY_FOR_REVIEW ∧ optional_ok MAX_COMMENT comment = true ∧
  w = reviewed v APPROVED {| re_from_status := READY_FOR_REVIEW; re_to_status := APPROVED;
        re_user_id := user_id; re_at := at_; re_comment := comment; re_fingerprint := Some fingerprint |}.
Proof.
  intros Hv. unfold approve. rewrite py_bind_ok. setoid_rewrite exact_ok. setoid_rewrite py_bind_ok.
  setoid_rewrite fresh_ok. setoid_rewrite freshness_nil. setoid_rewrite move_ok.
  assert (APPROVED ∈ EXACT) as Hex by left.
  assert (∀ s, APPROVED ∈ TRANSITIONS s ↔ s = READY_FOR_REVIEW) as Ht.
  { intros s. split; [|intros ->; left]. intros Hs. apply (bool_decide_eq_true_2 _) in Hs. revert Hs.
    destruct s; vm_compute; intros Hs; (discriminate Hs || reflexivity). }
  assert (¬ APPROVED ∈ FEEDBACK_REQUIRED) as Hf by (intros Hf; apply list_elem_of_singleton in Hf; done).
  split.
  - intros (_ & (-> & ->) & _ & Hc & -> & _ & Hs & _ & Ho & _). apply Ht in Hs. do 5 (split; [done|]).
    unfold event_of. by rewrite Hs, bool_decide_true.
  - intros (-> & -> & Hc & Hs & Ho & ->). exists tt. split; [done|]. exists tt. split; [done|].
    unfold event_of. rewrite Hs, bool_decide_true by done. do 2 (split; [done|]). split; [left|]. done.
Qed.

(** ** Regeneration *)
Definition superseded_note (number : Z) : string := "Superseded by version " +:+ Z_text number +:+ ".".

Definition next_version (latest : MigrationPlanVersion) (version_id : string) (request : MigrationRequest)
    (proposal : MigrationProposal) (user_id : string) (at_ : datetime) : MigrationPlanVersion := {|
  pv_id := version_id; pv_plan_id := pv_plan_id latest; pv_version := pv_version latest + 1;
  pv_project_id := pv_project_id latest; pv_request := request; pv_proposal := proposal;
  pv_status := mp_status proposal; pv_created_by_user_id := user_id; pv_created_at := at_;
  pv_reviews := [] |}.

(** C34: Regenerating never overwrites: it is refused for another architecture; an identical result
    changes nothing; otherwise the latest version, unless already superseded or archived, and if under
    review or approved only when asked explicitly, keeps its content and gains one event that says
    which version superseded it, and the new version has the next number, no reviews and the status
    its proposal warrants. *)
Theorem regenerate_spec latest version_id request proposal user_id at_ replace_reviewed r :
  valid_version latest → optional_ok MAX_COMMENT (Some (superseded_note (pv_version latest + 1))) = true →
  let new := next_version latest version_id request proposal user_id at_ in
  let identical := request = pv_request latest ∧ mp_fingerprint proposal = mp_fingerprint (pv_proposal latest) in
  regenerate latest version_id request proposal user_id at_ replace_reviewed = Ok r ↔
  rq_architecture_id request = rq_architecture_id (pv_request latest) ∧
  (identical ∧ r = {| rg_previous := latest; rg_created := None |} ∨
   ¬ identical ∧ (pv_status latest ∉ [SUPERSEDED; ARCHIVED]) ∧
   (pv_status latest ∈ UNDER_REVIEW → replace_reviewed = true) ∧ valid_version new ∧
   r = {| rg_previous := reviewed latest SUPERSEDED {|
            re_from_status := pv_status latest; re_to_status := SUPERSEDED; re_user_id := user_id;
            re_at := at_; re_comment := Some (superseded_note (pv_version new)); re_fingerprint := None |};
          rg_created := Some new |}).
Proof.
  intros Hv Hn new identical. unfold regenerate. fold (superseded_note (pv_version latest + 1)) new.
  destruct (String.eqb_spec (rq_architecture_id request) (rq_architecture_id (pv_request latest))) as [Ha|Ha];
    cbn [negb]; [|naive_solver].
  destruct (bool_decide _ && String.eqb _ _) eqn:E.
  { assert identical by (apply andb_prop in E as [E1%bool_decide_eq_true E2%String.eqb_eq]; done). naive_solver. }
  assert (¬ identical) as Hi.
  { intros [Hr Hf]. by rewrite bool_decide_true, Hf, String.eqb_refl in E. }
  assert (∀ s, SUPERSEDED ∈ TRANSITIONS s ↔ (s ∉ [SUPERSEDED; ARCHIVED])) as Ht.
  { intros s. split; intros Hs; apply (bool_decide_eq_true_2 _) in Hs; apply (bool_decide_eq_true_1 _); revert Hs;
      by destruct s; vm_compute. }
  destruct (decide (SUPERSEDED ∈ TRANSITIONS (pv_status latest))) as [Hs|Hs].
  2: { rewrite bool_decide_true by done. rewrite Ht in Hs. naive_solver. }
  rewrite bool_decide_false by tauto. pose proof (proj1 (Ht _) Hs) as Hs'.
  destruct (bool_decide _ && negb replace_reviewed) eqn:E2.
  { apply andb_prop in E2 as [E2%bool_decide_eq_true E3%negb_true_iff]. naive_solver congruence. }
  assert (pv_status latest ∈ UNDER_REVIEW → replace_reviewed = true) as Hu.
  { intros Hu. rewrite bool_decide_true in E2 by done. by apply negb_false_iff in E2. }
  assert (∀ A : Prop, SUPERSEDED ∈ EXACT → A) as Hne
    by (intros A He; apply (bool_decide_eq_true_2 _) in He; vm_compute in He; discriminate He).
  assert (∀ A : Prop, SUPERSEDED ∈ FEEDBACK_REQUIRED → A) as Hnf
    by (intros A He; apply (bool_decide_eq_true_2 _) in He; vm_compute in He; discriminate He).
  split.
  - intros (p & (-> & _)%move_ok & (c & [-> Hc]%version_new_ok & [= <-])%py_bind_ok)%py_bind_ok.
    split; [done|]. right. split; [exact Hi|]. split; [exact Hs'|]. split; [exact Hu|]. split; [exact Hc|]. reflexivity.
  - intros (_ & [[? _]|(_ & _ & _ & Hc & ->)]); [done|]. apply py_bind_ok. eexists. split.
    { apply move_ok. split; [reflexivity|]. split; [exact Hv|]. split; [exact Hs|].
      split; [by apply Hne|]. split; [exact Hn|by apply Hnf]. }
    apply py_bind_ok. exists new. split; [exact Hc|reflexivity].
Qed.

(** ** A sample plan *)
Definition sample_hash (c : ascii) : string := String.string_of_list_ascii (replicate 64 c).

Definition sample_request : MigrationRequest := {|
  rq_architecture_id := "00000000-0000-0000-0000-0000000000a1"; rq_source_revision := 3;
  rq_target := {| ts_revision := Some 5%Z; ts_analysis_id := None; ts_candidate_id := None |};
  rq_goals := ["Retire the old cache."];
  rq_constraints := {| cn_downtime_allowed := Some false; cn_maintenance_window := None; cn_statements := [] |};
  rq_data_requirements := []; rq_requirement_ids := None; rq_strategy := None; rq_assumptions := [];
  rq_title := None |}.

Definition sample_step : MigrationStep := {|
  ms_key := "provision:cache"; ms_type := PROVISION; ms_title := "Provision the cache";
  ms_outcome := "The cache runs."; ms_traces := [{| tr_kind := TRACE_CHANGE; tr_reference := "node:cache:added"; tr_detail := None |}];
  ms_completion := ["It answers."]; ms_description := None; ms_element_ids := ["cache"];
  ms_preconditions := []; ms_inputs := []; ms_depends_on := []; ms_parallelizable := false;
  ms_downtime := DOWNTIME_UNKNOWN; ms_downtime_note := None; ms_traffic := None; ms_availability := [];
  ms_data_impact := None; ms_reversibility := REVERSIBILITY_UNKNOWN; ms_manual_verification := false;
  ms_assumptions := [] |}.

Definition sample_proposal : MigrationProposal := {|
  mp_source := {| sr_architecture_id := "00000000-0000-0000-0000-0000000000a1"; sr_revision_number := 3;
                  sr_content_hash := sample_hash "a" |};
  mp_target := {| tg_kind := REVISION; tg_architecture_id := "00000000-0000-0000-0000-0000000000a1";
                  tg_revision_number := 5; tg_content_hash := sample_hash "b"; tg_analysis_id := None;
                  tg_candidate_id := None |};
  mp_steps := [sample_step]; mp_risks := []; mp_checkpoints := []; mp_rollbacks := [];
  mp_data_migrations := []; mp_compatibility := []; mp_findings := [];
  mp_evidence := [{| er_source := COST; er_reference := "cost-1"; er_state := CURRENT; er_item := None;
                     er_revision_number := Some 3%Z; er_content_hash := Some (sample_hash "a");
                     er_model_version := None |}];
  mp_assumptions := []; mp_strategy := None; mp_models := [("planner", 1%Z)]; mp_diff_summary := None;
  mp_alternatives := []; mp_sequence := [{| st_number := 1; st_step_ids := [ms_id sample_step]; st_parallel := false |}];
  mp_coverage := [] |}.

Definition sample_at : datetime := at_time (2026, 9, 28)%Z 10 0 0 0 (Some 0%Z).

Definition sample_draft : MigrationPlanVersion := {|
  pv_id := "v1"; pv_plan_id := "p1"; pv_version := 1; pv_project_id := "project"; pv_request := sample_request;
  pv_proposal := sample_proposal; pv_status := DRAFT; pv_created_by_user_id := "ada"; pv_created_at := sample_at;
  pv_reviews := [] |}.

Definition sample_now : CurrentState :=
  current_state sample_proposal (Some (sample_hash "a")) (Some (sample_hash "b")) 5 [("planner", 1%Z)].

Definition sample_submitted : MigrationPlanVersion :=
  reviewed sample_draft READY_FOR_REVIEW (event_of sample_draft READY_FOR_REVIEW "ada" sample_at None None).

Definition sample_approved : MigrationPlanVersion :=
  reviewed sample_submitted APPROVED
    (event_of sample_submitted APPROVED "bob" sample_at None (Some (mp_fingerprint sample_proposal))).

Example sample_proposal_accepted : MigrationProposal_new sample_proposal = Ok sample_proposal.
Proof. by vm_compute. Qed.

Lemma sample_valid v : pv_version v = 1%Z → pv_request v = sample_request → pv_proposal v = sample_proposal → valid_version v.
Proof. unfold valid_version, MigrationPlanVersion_new. by intros -> -> ->. Qed.

Lemma archived_reached_witness : ∃ w, rtc moves sample_submitted w ∧ pv_status w = ARCHIVED.
Proof. apply (archived_reached sample_submitted). by apply sample_valid. Defined.

Example sample_approves :
  approve sample_submitted 1 (mp_fingerprint sample_proposal) (freshness sample_proposal sample_now)
    "bob" sample_at None = Ok sample_approved.
Proof. by vm_compute. Qed.

Lemma approve_spec_witness :
  approve sample_submitted 1 (mp_fingerprint sample_proposal) (freshness sample_proposal sample_now)
    "bob" sample_at None = Ok sample_approved.
Proof.
  apply (approve_spec sample_submitted); [by apply sample_valid|]. split; [reflexivity|]. split; [reflexivity|].
  split; [apply freshness_nil; by vm_compute|]. do 2 (split; [reflexivity|]).
  unfold sample_approved, event_of. by rewrite bool_decide_true by left.
Defined.

Lemma review_history_witness :
  approved_by sample_approved ≠ None ∧
  Forall (event_exact (mp_fingerprint sample_proposal)) (pv_reviews sample_approved).
Proof.
  split; [by unfold approved_by|].
  apply (review_history "v1" "p1" "project" sample_request sample_proposal "ada" sample_at sample_draft sample_approved).
  - apply (sample_valid sample_draft); reflexivity.
  - apply (rtc_l _ _ sample_submitted).
    + apply (step_submit _ _ (freshness sample_proposal sample_now) "ada" sample_at).
      assert (freshness sample_proposal sample_now = []) as -> by by vm_compute. reflexivity.
    + apply rtc_once. apply (step_approve _ _ 1 (mp_fingerprint sample_proposal) (freshness sample_proposal sample_now) "bob" sample_at None).
      apply sample_approves.
Defined.

(** The request revised: the plan under review is replaced only when asked. *)
Definition revised_request : MigrationRequest := {|
  rq_architecture_id := rq_architecture_id sample_request; rq_source_revision := 3;
  rq_target := rq_target sample_request; rq_goals := ["Retire the old cache.";  "Keep latency."];
  rq_constraints := rq_constraints sample_request; rq_data_requirements := []; rq_requirement_ids := None;
  rq_strategy := None; rq_assumptions := []; rq_title := None |}.

Lemma regenerate_spec_witness :
  ∃ previous, regenerate sample_submitted "v2" revised_request sample_proposal "ada" sample_at true
    = Ok {| rg_previous := previous;
            rg_created := Some (next_version sample_submitted "v2" revised_request sample_proposal "ada" sample_at) |}.
Proof.
  eexists. apply (regenerate_spec sample_submitted); [by apply sample_valid|by vm_compute|].
  split; [reflexivity|]. right. split; [by intros [? _]|]. split; [by apply (bool_decide_eq_true_1 _); vm_compute|].
  split; [reflexivity|]. split; [|reflexivity]. reflexivity.
Defined.
