(* ===== verification/StoredPlans.v ===== *)
(** Reading a stored migration plan back (src/core/domain/migrations/serialization.py).

    The code reads each part field by field from its class's type hints; here every class has its own
    reader, with the same fields, hints and defaults.  Fields are read in the order of the class, where
    the code follows a set's: it decides only which of several exceptions is raised.  A reader answers
    [None] for a document no [to_dict] writes, where a field has a value of another type. *)
From Stdlib Require Import Lia ZArith Ascii.
From S2P Require Import Prelude Data Errors Codecs Sha256 Plans Proposals Lifecycle.

(** * Reading *)
Definition rd (A : Type) : Type := option (py A).

#[export] Instance rd_ret : MRet rd := λ A a, Some (Ok a).
#[export] Instance rd_bind : MBind rd := λ A B f m,
  match m with Some (Ok a) => f a | Some (Raise e) => Some (Raise e) | None => None end.

(** A constructor's answer, and what no [to_dict] writes. *)
Definition build {A} (m : py A) : rd A := Some m.
Definition unread {A} : rd A := None.

Definition read_str (j : json) : rd string := if j is JStr s then mret s else unread.
Definition read_bool (j : json) : rd bool := if j is JBool b then mret b else unread.
Definition read_int (j : json) : rd Z := if j is JInt z then mret z else unread.
Definition read_nat (j : json) : rd nat :=
  if j is JInt z then (if (0 <=? z)%Z then mret (Z.to_nat z) else unread) else unread.

Definition read_enum {E} `{StrEnum E} (name : string) (j : json) : rd E :=
  if j is JStr s then
    match enum_of s with Some e => mret e | None => build (Raise (ValueError (repr s +:+ " is not a valid " +:+ name))) end
  else unread.

Definition read_uuid (j : json) : rd string :=
  if j is JStr s then
    match uuid_of s with Some u => mret u | None => build (Raise (ValueError "badly formed hexadecimal UUID string")) end
  else unread.

Definition read_datetime (j : json) : rd datetime :=
  if j is JStr s then
    match fromisoformat s with
    | Some d => mret d
    | None => build (Raise (ValueError ("Invalid isoformat string: " +:+ repr s)))
    end
  else unread.

Definition read_opt {A} (r : json → rd A) (j : json) : rd (option A) :=
  if j is JNull then mret None else a ← r j; mret (Some a).

Fixpoint read_all {A} (r : json → rd A) (l : list json) : rd (list A) :=
  match l with [] => mret [] | j :: rest => a ← r j; xs ← read_all r rest; mret (a :: xs) end.

Definition read_list {A} (r : json → rd A) (j : json) : rd (list A) := if j is JArr l then read_all r l else unread.

Definition read_strs : json → rd (list string) := read_list read_str.
Definition read_text : json → rd (option string) := read_opt read_str.

Fixpoint read_models_of (m : dict string json) : rd (dict string Z) :=
  match m with
  | [] => mret []
  | (k, j) :: r => n ← read_int j; l ← read_models_of r; mret ((k, n) :: l)
  end.

Definition read_models (j : json) : rd (dict string Z) := if j is JObj m then read_models_of m else unread.

(** A field with a value, and one with a default. *)
Definition field {A} (m : dict string json) (name : string) (r : json → rd A) : rd A :=
  match dict_get name m with Some j => r j | None => unread end.
Definition field_or {A} (m : dict string json) (name : string) (d : A) (r : json → rd A) : rd A :=
  match dict_get name m with Some j => r j | None => mret d end.

(** A dataclass from an object. *)
Definition object {A} (read : dict string json → rd A) (j : json) : rd A := if j is JObj m then read m else unread.

(** * The parts of a plan *)
Definition read_Trace : json → rd Trace := object (λ m,
  kind ← field m "kind" (read_enum "TraceKind");
  reference ← field m "reference" read_str;
  detail ← field_or m "detail" None read_text;
  build (Trace_new {| tr_kind := kind; tr_reference := reference; tr_detail := detail |})).

Definition read_traces : json → rd (list Trace) := read_list read_Trace.

Definition read_MigrationStep : json → rd MigrationStep := object (λ m,
  key ← field m "key" read_str;
  type ← field m "type" (read_enum "StepType");
  title ← field m "title" read_str;
  outcome ← field m "outcome" read_str;
  traces ← field m "traces" read_traces;
  completion ← field m "completion" read_strs;
  description ← field_or m "description" None read_text;
  element_ids ← field_or m "element_ids" [] read_strs;
  preconditions ← field_or m "preconditions" [] read_strs;
  inputs ← field_or m "inputs" [] read_strs;
  depends_on ← field_or m "depends_on" [] read_strs;
  parallelizable ← field_or m "parallelizable" false read_bool;
  downtime ← field_or m "downtime" DOWNTIME_UNKNOWN (read_enum "DowntimeStatus");
  downtime_note ← field_or m "downtime_note" None read_text;
  traffic ← field_or m "traffic" None read_text;
  availability ← field_or m "availability" [] read_strs;
  data_impact ← field_or m "data_impact" None read_text;
  reversibility ← field_or m "reversibility" REVERSIBILITY_UNKNOWN (read_enum "Reversibility");
  manual_verification ← field_or m "manual_verification" false read_bool;
  assumptions ← field_or m "assumptions" [] read_strs;
  build (MigrationStep_new {|
    ms_key := key; ms_type := type; ms_title := title; ms_outcome := outcome; ms_traces := traces;
    ms_completion := completion; ms_description := description; ms_element_ids := element_ids;
    ms_preconditions := preconditions; ms_inputs := inputs; ms_depends_on := depends_on;
    ms_parallelizable := parallelizable; ms_downtime := downtime; ms_downtime_note := downtime_note;
    ms_traffic := traffic; ms_availability := availability; ms_data_impact := data_impact;
    ms_reversibility := reversibility; ms_manual_verification := manual_verification;
    ms_assumptions := assumptions |})).

Definition read_Risk : json → rd Risk := object (λ m,
  key ← field m "key" read_str;
  category ← field m "category" (read_enum "RiskCategory");
  status ← field m "status" (read_enum "RiskStatus");
  description ← field m "description" read_str;
  impact ← field m "impact" read_str;
  traces ← field m "traces" read_traces;
  element_ids ← field_or m "element_ids" [] read_strs;
  step_ids ← field_or m "step_ids" [] read_strs;
  preconditions ← field_or m "preconditions" [] read_strs;
  mitigation ← field_or m "mitigation" None read_text;
  build (Risk_new {|
    rk_key := key; rk_category := category; rk_status := status; rk_description := description;
    rk_impact := impact; rk_traces := traces; rk_element_ids := element_ids; rk_step_ids := step_ids;
    rk_preconditions := preconditions; rk_mitigation := mitigation |})).

Definition read_EvidenceRef : json → rd EvidenceRef := object (λ m,
  source ← field m "source" (read_enum "EvidenceSource");
  reference ← field m "reference" read_str;
  state ← field m "state" (read_enum "EvidenceState");
  item ← field_or m "item" None read_text;
  revision_number ← field_or m "revision_number" None (read_opt read_int);
  content_hash ← field_or m "content_hash" None read_text;
  model_version ← field_or m "model_version" None read_text;
  build (EvidenceRef_new {|
    er_source := source; er_reference := reference; er_state := state; er_item := item;
    er_revision_number := revision_number; er_content_hash := content_hash;
    er_model_version := model_version |})).

Definition read_Checkpoint : json → rd Checkpoint := object (λ m,
  key ← field m "key" read_str;
  subject ← field m "subject" read_str;
  expected ← field m "expected" read_str;
  status ← field m "status" (read_enum "CheckpointStatus");
  basis ← field m "basis" (read_enum "CheckpointBasis");
  traces ← field m "traces" read_traces;
  blocking ← field_or m "blocking" true read_bool;
  step_ids ← field_or m "step_ids" [] read_strs;
  evidence ← field_or m "evidence" [] (read_list read_EvidenceRef);
  actual ← field_or m "actual" None read_text;
  build (Checkpoint_new {|
    ck_key := key; ck_subject := subject; ck_expected := expected; ck_status := status;
    ck_basis := basis; ck_traces := traces; ck_blocking := blocking; ck_step_ids := step_ids;
    ck_evidence := evidence; ck_actual := actual |})).

Definition read_RollbackConsideration : json → rd RollbackConsideration := object (λ m,
  step_id ← field m "step_id" read_str;
  reversibility ← field m "reversibility" (read_enum "Reversibility");
  traces ← field m "traces" read_traces;
  triggers ← field_or m "triggers" [] read_strs;
  action ← field_or m "action" None read_text;
  retained ← field_or m "retained" [] read_strs;
  preconditions ← field_or m "preconditions" [] read_strs;
  consistency ← field_or m "consistency" None read_text;
  verification ← field_or m "verification" [] read_strs;
  limitations ← field_or m "limitations" [] read_strs;
  build (RollbackConsideration_new {|
    rb_step_id := step_id; rb_reversibility := reversibility; rb_traces := traces;
    rb_triggers := triggers; rb_action := action; rb_retained := retained;
    rb_preconditions := preconditions; rb_consistency := consistency;
    rb_verification := verification; rb_limitations := limitations |})).

Definition read_DataMigration : json → rd DataMigration := object (λ m,
  key ← field m "key" read_str;
  traces ← field m "traces" read_traces;
  source_element_id ← field_or m "source_element_id" None read_text;
  destination_element_id ← field_or m "destination_element_id" None read_text;
  scope ← field_or m "scope" None read_text;
  method ← field_or m "method" None read_text;
  backfill ← field_or m "backfill" None read_text;
  replication ← field_or m "replication" None read_text;
  cutover ← field_or m "cutover" [] read_strs;
  step_ids ← field_or m "step_ids" [] read_strs;
  verification ← field_or m "verification" [] read_strs;
  retention ← field_or m "retention" [] read_strs;
  rollback ← field_or m "rollback" None read_text;
  data_loss ← field_or m "data_loss" None read_text;
  missing ← field_or m "missing" [] read_strs;
  build (DataMigration_new {|
    dm_key := key; dm_traces := traces; dm_source_element_id := source_element_id;
    dm_destination_element_id := destination_element_id; dm_scope := scope; dm_method := method;
    dm_backfill := backfill; dm_replication := replication; dm_cutover := cutover;
    dm_step_ids := step_ids; dm_verification := verification; dm_retention := retention;
    dm_rollback := rollback; dm_data_loss := data_loss; dm_missing := missing |})).

Definition read_CompatibilityCheck : json → rd CompatibilityCheck := object (λ m,
  key ← field m "key" read_str;
  aspect ← field m "aspect" (read_enum "CompatibilityAspect");
  status ← field m "status" (read_enum "CompatibilityStatus");
  question ← field m "question" read_str;
  traces ← field m "traces" read_traces;
  element_ids ← field_or m "element_ids" [] read_strs;
  note ← field_or m "note" None read_text;
  build (CompatibilityCheck_new {|
    cc_key := key; cc_aspect := aspect; cc_status := status; cc_question := question;
    cc_traces := traces; cc_element_ids := element_ids; cc_note := note |})).

Definition read_PlanFinding : json → rd PlanFinding := object (λ m,
  type ← field m "type" (read_enum "FindingType");
  key ← field m "key" read_str;
  message ← field m "message" read_str;
  element_ids ← field_or m "element_ids" [] read_strs;
  step_ids ← field_or m "step_ids" [] read_strs;
  missing ← field_or m "missing" [] read_strs;
  traces ← field_or m "traces" [] read_traces;
  build (PlanFinding_new {|
    pf_type := type; pf_key := key; pf_message := message; pf_element_ids := element_ids;
    pf_step_ids := step_ids; pf_missing := missing; pf_traces := traces |})).

Definition read_StrategyOption : json → rd StrategyOption := object (λ m,
  pattern ← field m "pattern" read_str;
  name ← field m "name" read_str;
  applies ← field m "applies" read_bool;
  supported ← field m "supported" read_bool;
  subjects ← field_or m "subjects" [] read_strs;
  missing ← field_or m "missing" [] read_strs;
  tradeoffs ← field_or m "tradeoffs" [] read_strs;
  downtime ← field_or m "downtime" DOWNTIME_UNKNOWN (read_enum "DowntimeStatus");
  reversibility ← field_or m "reversibility" REVERSIBILITY_UNKNOWN (read_enum "Reversibility");
  build (StrategyOption_new {|
    so_pattern := pattern; so_name := name; so_applies := applies; so_supported := supported;
    so_subjects := subjects; so_missing := missing; so_tradeoffs := tradeoffs;
    so_downtime := downtime; so_reversibility := reversibility |})).

Definition read_Stage : json → rd Stage := object (λ m,
  number ← field m "number" read_nat;
  step_ids ← field m "step_ids" read_strs;
  parallel ← field_or m "parallel" false read_bool;
  build (Stage_new {| st_number := number; st_step_ids := step_ids; st_parallel := parallel |})).

Definition read_EvidenceCoverage : json → rd EvidenceCoverage := object (λ m,
  source ← field m "source" (read_enum "EvidenceSource");
  side ← field m "side" (read_enum "Side");
  state ← field m "state" (read_enum "CoverageState");
  analysis_ids ← field_or m "analysis_ids" [] read_strs;
  note ← field_or m "note" None read_text;
  build (EvidenceCoverage_new {|
    ec_source := source; ec_side := side; ec_state := state; ec_analysis_ids := analysis_ids;
    ec_note := note |})).

Definition read_SourceRef : json → rd SourceRef := object (λ m,
  architecture_id ← field m "architecture_id" read_uuid;
  revision_number ← field m "revision_number" read_int;
  content_hash ← field m "content_hash" read_str;
  build (SourceRef_new {|
    sr_architecture_id := architecture_id; sr_revision_number := revision_number;
    sr_content_hash := content_hash |})).

Definition read_TargetRef : json → rd TargetRef := object (λ m,
  kind ← field m "kind" (read_enum "TargetKind");
  architecture_id ← field m "architecture_id" read_uuid;
  revision_number ← field m "revision_number" read_int;
  content_hash ← field m "content_hash" read_str;
  analysis_id ← field_or m "analysis_id" None (read_opt read_uuid);
  candidate_id ← field_or m "candidate_id" None read_text;
  build (TargetRef_new {|
    tg_kind := kind; tg_architecture_id := architecture_id; tg_revision_number := revision_number;
    tg_content_hash := content_hash; tg_analysis_id := analysis_id; tg_candidate_id := candidate_id |})).

(** * Proposals, requests and reviews *)
Definition read_MigrationProposal : json → rd MigrationProposal := object (λ m,
  source ← field m "source" read_SourceRef;
  target ← field m "target" read_TargetRef;
  steps ← field_or m "steps" [] (read_list read_MigrationStep);
  risks ← field_or m "risks" [] (read_list read_Risk);
  checkpoints ← field_or m "checkpoints" [] (read_list read_Checkpoint);
  rollbacks ← field_or m "rollbacks" [] (read_list read_RollbackConsideration);
  data_migrations ← field_or m "data_migrations" [] (read_list read_DataMigration);
  compatibility ← field_or m "compatibility" [] (read_list read_CompatibilityCheck);
  findings ← field_or m "findings" [] (read_list read_PlanFinding);
  evidence ← field_or m "evidence" [] (read_list read_EvidenceRef);
  assumptions ← field_or m "assumptions" [] read_strs;
  strategy ← field_or m "strategy" None read_text;
  models ← field_or m "models" [] read_models;
  diff_summary ← field_or m "diff_summary" None read_text;
  alternatives ← field_or m "alternatives" [] (read_list read_StrategyOption);
  sequence ← field_or m "sequence" [] (read_list read_Stage);
  coverage ← field_or m "coverage" [] (read_list read_EvidenceCoverage);
  build (MigrationProposal_new {|
    mp_source := source; mp_target := target; mp_steps := steps; mp_risks := risks;
    mp_checkpoints := checkpoints; mp_rollbacks := rollbacks; mp_data_migrations := data_migrations;
    mp_compatibility := compatibility; mp_findings := findings; mp_evidence := evidence;
    mp_assumptions := assumptions; mp_strategy := strategy; mp_models := models;
    mp_diff_summary := diff_summary; mp_alternatives := alternatives; mp_sequence := sequence;
    mp_coverage := coverage |})).

Definition proposal_from_dict (data : json) (fingerprint : string) : rd MigrationProposal :=
  proposal ← read_MigrationProposal data;
  if String.eqb (mp_fingerprint proposal) fingerprint then mret proposal
  else build (Raise (InvalidMigrationPlan ["fingerprint"])).

Definition read_TargetSpec : json → rd TargetSpec := object (λ m,
  revision ← field_or m "revision" None (read_opt read_int);
  analysis_id ← field_or m "analysis_id" None (read_opt read_uuid);
  candidate_id ← field_or m "candidate_id" None read_text;
  build (TargetSpec_new {|
    ts_revision := revision; ts_analysis_id := analysis_id; ts_candidate_id := candidate_id |})).

Definition read_MigrationConstraints : json → rd MigrationConstraints := object (λ m,
  downtime_allowed ← field_or m "downtime_allowed" None (read_opt read_bool);
  maintenance_window ← field_or m "maintenance_window" None read_text;
  statements ← field_or m "statements" [] read_strs;
  build (MigrationConstraints_new {|
    cn_downtime_allowed := downtime_allowed; cn_maintenance_window := maintenance_window;
    cn_statements := statements |})).

Definition read_DataRequirement : json → rd DataRequirement := object (λ m,
  element_id ← field m "element_id" read_str;
  statement ← field m "statement" read_str;
  build (DataRequirement_new {| dr_element_id := element_id; dr_statement := statement |})).

Definition read_Assumption : json → rd Assumption := object (λ m,
  key ← field m "key" read_str;
  statement ← field m "statement" read_str;
  build (Assumption_new {| as_key := key; as_statement := statement |})).

Definition no_constraints : MigrationConstraints :=
  {| cn_downtime_allowed := None; cn_maintenance_window := None; cn_statements := [] |}.

Definition request_from_dict : json → rd MigrationRequest := object (λ m,
  architecture_id ← field m "architecture_id" read_uuid;
  source_revision ← field m "source_revision" read_int;
  target ← field m "target" read_TargetSpec;
  goals ← field_or m "goals" [] read_strs;
  constraints ← field_or m "constraints" no_constraints read_MigrationConstraints;
  data_requirements ← field_or m "data_requirements" [] (read_list read_DataRequirement);
  requirement_ids ← field_or m "requirement_ids" None (read_opt (read_list read_uuid));
  strategy ← field_or m "strategy" None read_text;
  assumptions ← field_or m "assumptions" [] (read_list read_Assumption);
  title ← field_or m "title" None read_text;
  build (MigrationRequest_new {|
    rq_architecture_id := architecture_id; rq_source_revision := source_revision; rq_target := target;
    rq_goals := goals; rq_constraints := constraints; rq_data_requirements := data_requirements;
    rq_requirement_ids := requirement_ids; rq_strategy := strategy; rq_assumptions := assumptions;
    rq_title := title |})).

Definition read_ReviewEvent : json → rd ReviewEvent := object (λ m,
  from_status ← field m "from_status" (read_enum "PlanStatus");
  to_status ← field m "to_status" (read_enum "PlanStatus");
  user_id ← field m "user_id" read_uuid;
  at_ ← field m "at" read_datetime;
  comment ← field_or m "comment" None read_text;
  fingerprint ← field_or m "fingerprint" None read_text;
  build (Ok {|
    re_from_status := from_status; re_to_status := to_status; re_user_id := user_id; re_at := at_;
    re_comment := comment; re_fingerprint := fingerprint |})).

Definition reviews_from_list (data : list json) : rd (list ReviewEvent) := read_all read_ReviewEvent data.
