(* ===== verification/ProposalProperties.v ===== *)
(** What a migration proposal promises (Proposals; src/core/domain/migrations: steps.py, plans.py,
    evidence.py).

    Every part is a [Dataclass] with itself as its arguments: a constructor accepts what it made and
    changes nothing.  [accepted] is what the proposal's constructor checks, as a proposition;
    [proposal_new_ok] says so.  From these, what a constructed proposal guarantees ([proposal_sound]),
    that the order its parts are given in does not matter ([proposal_canonical]), and how many steps
    one can hold ([step_limit]). *)
From Stdlib Require Import Lia ZArith Ascii.
From S2P Require Import Prelude Data Errors Codecs Sha256 Plans Proposals Lifecycle LifecycleProperties.

(** * Constructors accept what they made *)
Lemma check_Forall ps : check ps = Ok tt ↔ Forall (λ p, p = None) ps.
Proof. rewrite check_ok, Forall_forall. done. Qed.

Lemma length_dedup_le {A} `{EqDecision A} (l : list A) : (length (dedup l) <= length l)%nat.
Proof.
  unfold dedup. generalize (@nil A). induction l as [|x l IH]; intros seen; simpl; [lia|].
  destruct (decide _); simpl; [specialize (IH seen)|specialize (IH (x :: seen))]; lia.
Qed.

Lemma forallb_elem {A} (P : A → bool) l : forallb P l = true ↔ ∀ x, x ∈ l → P x = true.
Proof. rewrite forallb_forall. by setoid_rewrite list_elem_of_In. Qed.

Lemma texts_sorted l name limit : texts l name limit = None → texts (sorted_set l) name limit = None.
Proof.
  unfold texts. rewrite !unless_None. intros [Hl%Nat.leb_le Ht]%andb_prop. rewrite forallb_elem in Ht.
  apply andb_true_intro. split; [apply Nat.leb_le|apply forallb_elem].
  - unfold sorted_set. rewrite length_sort_by. etrans; [apply length_dedup_le|done].
  - intros x Hx. apply Ht. by apply elem_of_sorted_set.
Qed.

Lemma references_sorted l name : references l name = None → references (sorted_set l) name = None.
Proof. apply texts_sorted. Qed.

#[export] Instance triple_order : TotalOrder triple_leb.
Proof. unfold triple_leb. apply _. Qed.

Lemma sort_dedup_idemp {A} `{EqDecision A} (leb : A → A → bool) `{!TotalPreorder leb} l :
  sort_by leb (dedup (sort_by leb (dedup l))) = sort_by leb (dedup l).
Proof.
  rewrite (dedup_id (sort_by _ _)) by (rewrite NoDup_sort_by; apply NoDup_dedup). by apply sort_by_idemp.
Qed.

Lemma sorted_evidence_idemp l : sorted_evidence (sorted_evidence l) = sorted_evidence l.
Proof. apply sort_dedup_idemp; apply _. Qed.

Lemma elem_of_sorted_evidence l e : e ∈ sorted_evidence l ↔ e ∈ l.
Proof. unfold sorted_evidence. by rewrite elem_of_sort_by, elem_of_dedup. Qed.

Lemma items_evidence l name : items l name = None → items (sorted_evidence l) name = None.
Proof.
  unfold items. rewrite !unless_None, !Nat.leb_le. unfold sorted_evidence. rewrite length_sort_by.
  etrans; [apply length_dedup_le|done].
Qed.

(** A record that is checked, then normalized. *)
Lemma rebuild_checked {A} (problems : A → list (option string)) (normalize : A → A) :
  (∀ a, Forall (λ p, p = None) (problems a) → Forall (λ p, p = None) (problems (normalize a))) →
  (∀ a, normalize (normalize a) = normalize a) →
  Dataclass (λ a, _ ← check (problems a); Ok (normalize a)) id.
Proof.
  intros Hp Hn a x [Hc <-]%check_bind. apply check_Forall, Hp, check_Forall in Hc. unfold id.
  rewrite Hc. simpl. by rewrite Hn.
Qed.

Create HintDb plan.
#[export] Hint Resolve references_sorted texts_sorted items_evidence : plan.

#[local] Arguments text : simpl never.
#[local] Arguments texts : simpl never.
#[local] Arguments references : simpl never.
#[local] Arguments items : simpl never.
#[local] Arguments unless : simpl never.
#[local] Arguments bool_decide : simpl never.
#[local] Arguments optional_text : simpl never.
#[local] Arguments optional_text_to : simpl never.
#[local] Arguments key_problem : simpl never.
#[local] Arguments traced : simpl never.

(** The checks of a record one by one, of its normal form. *)
Ltac checks problems :=
  intros a Ha; unfold problems in *; cbv zeta in *;
  repeat match goal with H : Forall _ (_ :: _) |- _ => apply Forall_cons in H as [? H] end;
  repeat apply Forall_cons_2; try apply Forall_nil_2; simpl; auto with plan.

Ltac idempotent := intros []; cbv [with_sorted_ids Risk_normalize Checkpoint_normalize DataMigration_normalize
  CompatibilityCheck_normalize PlanFinding_normalize StrategyOption_normalize]; simpl;
  by rewrite ?sorted_set_idemp, ?sorted_evidence_idemp.

#[export] Instance MigrationStep_dataclass : Dataclass MigrationStep_new id.
Proof.
  apply (rebuild_checked MigrationStep_problems with_sorted_ids); [checks MigrationStep_problems|idempotent].
  rewrite unless_None, bool_decide_eq_true in *. by rewrite elem_of_sorted_set.
Qed.

#[export] Instance Risk_dataclass : Dataclass Risk_new id.
Proof. apply (rebuild_checked Risk_problems Risk_normalize); [checks Risk_problems|idempotent]. Qed.

#[export] Instance Checkpoint_dataclass : Dataclass Checkpoint_new id.
Proof.
  apply (rebuild_checked Checkpoint_problems Checkpoint_normalize); [checks Checkpoint_problems|idempotent].
  rewrite !unless_None in *. destruct (bool_decide (ck_status a ∈ EVALUATED)); [|done].
  destruct (existsb _ (ck_evidence a)) eqn:E; [|done]. apply existsb_exists in E as (e & He & Hs).
  rewrite (proj2 (existsb_exists _ _)); [done|]. exists e. split; [|done].
  by apply list_elem_of_In, elem_of_sorted_evidence, list_elem_of_In.
Qed.

#[export] Instance DataMigration_dataclass : Dataclass DataMigration_new id.
Proof.
  apply (rebuild_checked DataMigration_problems DataMigration_normalize); [checks DataMigration_problems|idempotent].
Qed.

#[export] Instance CompatibilityCheck_dataclass : Dataclass CompatibilityCheck_new id.
Proof.
  apply (rebuild_checked CompatibilityCheck_problems CompatibilityCheck_normalize);
    [checks CompatibilityCheck_problems|idempotent].
Qed.

#[export] Instance PlanFinding_dataclass : Dataclass PlanFinding_new id.
Proof. apply (rebuild_checked PlanFinding_problems PlanFinding_normalize); [checks PlanFinding_problems|idempotent]. Qed.

#[export] Instance StrategyOption_dataclass : Dataclass StrategyOption_new id.
Proof.
  apply (rebuild_checked StrategyOption_problems StrategyOption_normalize); [checks StrategyOption_problems|idempotent].
Qed.

(** The others keep their arguments as they are. *)
Lemma rebuild_kept {A} (problems : A → list (option string)) : Dataclass (λ a, _ ← check (problems a); Ok a) id.
Proof. apply (rebuild_checked problems id); by intros. Qed.

#[export] Instance Trace_dataclass : Dataclass Trace_new id := rebuild_kept _.
#[export] Instance RollbackConsideration_dataclass : Dataclass RollbackConsideration_new id := rebuild_kept _.
#[export] Instance Stage_dataclass : Dataclass Stage_new id := rebuild_kept _.
#[export] Instance EvidenceCoverage_dataclass : Dataclass EvidenceCoverage_new id := rebuild_kept _.
#[export] Instance SourceRef_dataclass : Dataclass SourceRef_new id := rebuild_kept _.
#[export] Instance TargetRef_dataclass : Dataclass TargetRef_new id := rebuild_kept _.

#[export] Instance EvidenceRef_dataclass : Dataclass EvidenceRef_new id.
Proof. intros a x. unfold EvidenceRef_new, id. destruct (omap _ _) eqn:E; [|done]. intros [= <-]. by rewrite E. Qed.

(** * Proposals *)
Lemma unless_bool_decide (P : Prop) `{!Decision P} name : unless (bool_decide P) name = None ↔ P.
Proof. by rewrite unless_None, bool_decide_eq_true. Qed.

Lemma items_ok {A} (l : list A) name : items l name = None ↔ (length l <= MAX_ITEMS)%nat.
Proof. unfold items. by rewrite unless_None, Nat.leb_le. Qed.

Definition parallel_ok (p : MigrationProposal) : Prop :=
  ∀ stage, stage ∈ mp_sequence p → st_parallel stage = true →
  ∀ i, i ∈ st_step_ids stage → ∃ s, s ∈ mp_steps p ∧ ms_id s = i ∧ ms_parallelizable s = true.

(** The sequence is empty, or holds every step once, in stages numbered from one, together only when
    they all may be. *)
Definition sequence_ok (p : MigrationProposal) : Prop :=
  mp_sequence p = [] ∨
  st_number <$> mp_sequence p = seq 1 (length (mp_sequence p)) ∧
  mp_sequence p ≫= st_step_ids ≡ₚ ms_id <$> mp_steps p ∧ parallel_ok p.

Lemma sort_str_perm l l' : sort_by str_leb l = sort_by str_leb l' ↔ l ≡ₚ l'.
Proof.
  split; [|apply (sort_by_unique_order str_leb)]. intros Hs.
  rewrite <- (sort_by_perm str_leb l), <- (sort_by_perm str_leb l'). by rewrite Hs.
Qed.

Lemma sequence_problem_ok p :
  NoDup (ms_id <$> mp_steps p) →
  sequence_problem (mp_steps p) (mp_sequence p) = None ↔ sequence_ok p.
Proof.
  intros Hnd. unfold sequence_problem, sequence_ok, parallel_ok.
  destruct (mp_sequence p) as [|stage rest] eqn:Es; [naive_solver|]. rewrite <- Es.
  assert (mp_sequence p ≠ []) as Hne by congruence. clear Es.
  set (d := dict_of _). assert (d = (λ s, (ms_id s, ms_parallelizable s)) <$> mp_steps p) as Hd.
  { apply dict_of_id. unfold dict_wf, dict_keys. by rewrite <- list_fmap_compose. }
  assert (dict_keys d = ms_id <$> mp_steps p) as Hk.
  { rewrite Hd. unfold dict_keys. by rewrite <- list_fmap_compose. }
  assert (dict_wf d) as Hwf by (unfold dict_wf; by rewrite Hk).
  assert (∀ i b, dict_get i d = Some b ↔ ∃ s, s ∈ mp_steps p ∧ ms_id s = i ∧ ms_parallelizable s = b) as Hget.
  { intros i b. rewrite (dict_get_wf d) by done. rewrite Hd, list_elem_of_fmap. naive_solver. }
  rewrite Hk, unless_None, !andb_true_iff, !bool_decide_eq_true, forallb_elem, sort_str_perm.
  assert ((∀ s, s ∈ mp_sequence p →
             negb (st_parallel s) || forallb (λ i, default false (dict_get i d)) (st_step_ids s) = true) ↔
          parallel_ok p) as Hp.
  { unfold parallel_ok. split.
    - intros Hs s Hin Hpar i Hi. specialize (Hs s Hin). rewrite Hpar in Hs. simpl in Hs.
      rewrite forallb_elem in Hs. specialize (Hs i Hi). apply Hget.
      by destruct (dict_get i d) as [[]|].
    - intros Hs s Hin. destruct (st_parallel s) eqn:Hpar; [|done]. simpl. apply forallb_elem. intros i Hi.
      by rewrite (proj2 (Hget i true) (Hs s Hin Hpar i Hi)). }
  rewrite Hp. split; [intros [[H1 H2] H3]; by right|]. by intros [?|(H1 & H2 & H3)].
Qed.

Record accepted (p : MigrationProposal) : Prop := {
  few_steps : (length (mp_steps p) <= MAX_ITEMS)%nat;
  few_parts :
    (length (mp_risks p) <= MAX_ITEMS ∧ length (mp_checkpoints p) <= MAX_ITEMS ∧
     length (mp_rollbacks p) <= MAX_ITEMS ∧ length (mp_data_migrations p) <= MAX_ITEMS ∧
     length (mp_compatibility p) <= MAX_ITEMS ∧ length (mp_evidence p) <= MAX_ITEMS ∧
     length (mp_alternatives p) <= MAX_ITEMS ∧ length (mp_sequence p) <= MAX_ITEMS ∧
     length (mp_coverage p) <= MAX_ITEMS ∧ length (mp_findings p) <= MAX_FINDINGS)%nat;
  texts_ok :
    texts (mp_assumptions p) "assumptions" MAX_TEXT = None ∧
    optional_text (mp_diff_summary p) "diff_summary" = None ∧
    (∀ s, mp_strategy p = Some s → CODE s = true);
  models_ok : ∀ m, m ∈ mp_models p → (1 <= m.2)%Z;
  strategy_ok : ∀ s, mp_strategy p = Some s →
    ∃ o, o ∈ mp_alternatives p ∧ so_supported o = true ∧ default "" (head (split_on "@"%char (so_pattern o))) = s;
  pair_ok :
    tg_architecture_id (mp_target p) = sr_architecture_id (mp_source p) ∧
    match tg_kind (mp_target p) with
    | REVISION => (sr_revision_number (mp_source p) < tg_revision_number (mp_target p))%Z
    | CANDIDATE => tg_revision_number (mp_target p) = sr_revision_number (mp_source p)
    end;
  steps_known : ∀ name l i, (name, l) ∈ referred p → i ∈ l → i ∈ ms_id <$> mp_steps p;
  ids_unique : ∀ name l, (name, l) ∈ unique p → NoDup l;
  sequence_sound : sequence_ok p;
}.

Lemma unless_unknown_ok (known : list string) (l : list string) name :
  unless (bool_decide (filter (λ i, i ∉ known) l = [])) name = None ↔ ∀ i, i ∈ l → i ∈ known.
Proof.
  rewrite unless_bool_decide, filter_nil_iff. split; intros Hl i Hi.
  - destruct (decide (i ∈ known)) as [|Hn]; [done|]. by destruct (Hl i Hi).
  - intros Hn. by apply Hn, Hl.
Qed.

Lemma consistency_ok p :
  check (consistency p) = Ok tt ↔
  (∀ name l i, (name, l) ∈ referred p → i ∈ l → i ∈ ms_id <$> mp_steps p) ∧
  (∀ name l, (name, l) ∈ unique p → NoDup l) ∧ sequence_ok p.
Proof.
  rewrite check_Forall. unfold consistency. cbv zeta.
  rewrite !Forall_app, !Forall_fmap, Forall_singleton, !Forall_forall. unfold compose.
  assert (((∀ x, x ∈ referred p → unless (bool_decide (filter (λ i, i ∉ ms_id <$> mp_steps p) x.2 = []))
                                    (x.1 +:+ ".step_ids") = None) ↔
           (∀ name l i, (name, l) ∈ referred p → i ∈ l → i ∈ ms_id <$> mp_steps p))) as ->.
  { split; [intros Hx name l i Hl; apply (unless_unknown_ok _ _ (name +:+ ".step_ids")); by apply (Hx (name, l))|].
    intros Hx [name l] Hl. apply unless_unknown_ok. intros i. by apply (Hx name l). }
  assert ((∀ x, x ∈ unique p → unless (bool_decide (NoDup x.2)) x.1 = None) ↔
          (∀ name l, (name, l) ∈ unique p → NoDup l)) as ->.
  { split; [intros Hx name l Hl; apply (unless_bool_decide _ name); by apply (Hx (name, l))|].
    intros Hx [name l] Hl. apply unless_bool_decide. by apply (Hx name l). }
  split; intros (H1 & H2 & H3); (split; [done|split; [done|]]); apply sequence_problem_ok; try done;
    apply (H2 "steps"); left.
Qed.

Lemma pair_problems_ok p :
  check (pair_problems (mp_source p) (mp_target p)) = Ok tt ↔
  tg_architecture_id (mp_target p) = sr_architecture_id (mp_source p) ∧
  match tg_kind (mp_target p) with
  | REVISION => (sr_revision_number (mp_source p) < tg_revision_number (mp_target p))%Z
  | CANDIDATE => tg_revision_number (mp_target p) = sr_revision_number (mp_source p)
  end.
Proof.
  rewrite check_Forall. unfold pair_problems. cbv zeta. rewrite !Forall_cons, Forall_nil, !unless_None, String.eqb_eq.
  destruct (tg_kind (mp_target p)); [rewrite Z.ltb_lt|rewrite Z.eqb_eq]; tauto.
Qed.

Lemma strategy_offered_ok p :
  strategy_offered p = true ↔
  ∀ s, mp_strategy p = Some s →
    ∃ o, o ∈ mp_alternatives p ∧ so_supported o = true ∧ default "" (head (split_on "@"%char (so_pattern o))) = s.
Proof.
  unfold strategy_offered. destruct (mp_strategy p) as [s|]; [|naive_solver]. rewrite existsb_exists. split.
  - intros (o & Ho & [Hs He%String.eqb_eq]%andb_prop) ? [= <-]. exists o. split; [by apply list_elem_of_In|done].
  - intros Hall. destruct (Hall s eq_refl) as (o & Ho & Hs & He). exists o. split; [by apply list_elem_of_In|].
    by rewrite Hs, He, String.eqb_refl.
Qed.

Lemma problems_ok p :
  check (MigrationProposal_problems p) = Ok tt ↔
  (length (mp_steps p) <= MAX_ITEMS)%nat ∧
  (length (mp_risks p) <= MAX_ITEMS ∧ length (mp_checkpoints p) <= MAX_ITEMS ∧
   length (mp_rollbacks p) <= MAX_ITEMS ∧ length (mp_data_migrations p) <= MAX_ITEMS ∧
   length (mp_compatibility p) <= MAX_ITEMS ∧ length (mp_evidence p) <= MAX_ITEMS ∧
   length (mp_alternatives p) <= MAX_ITEMS ∧ length (mp_sequence p) <= MAX_ITEMS ∧
   length (mp_coverage p) <= MAX_ITEMS ∧ length (mp_findings p) <= MAX_FINDINGS)%nat ∧
  (texts (mp_assumptions p) "assumptions" MAX_TEXT = None ∧
   optional_text (mp_diff_summary p) "diff_summary" = None ∧
   (∀ s, mp_strategy p = Some s → CODE s = true)) ∧
  (∀ m, m ∈ mp_models p → (1 <= m.2)%Z) ∧ strategy_offered p = true.
Proof.
  rewrite check_Forall. unfold MigrationProposal_problems. rewrite !Forall_cons, Forall_nil, !items_ok, !unless_None.
  assert ((if length (mp_steps p) <=? MAX_STEPS then items (mp_steps p) "steps" else Some "steps") = None ↔
          (length (mp_steps p) <= MAX_ITEMS)%nat) as ->.
  { destruct (length (mp_steps p) <=? MAX_STEPS) eqn:E; [apply items_ok|]. apply Nat.leb_gt in E.
    unfold MAX_STEPS, MAX_ITEMS in *. split; [done|lia]. }
  assert ((if mp_strategy p is Some s then checked_code s "strategy" else None) = None ↔
          (∀ s, mp_strategy p = Some s → CODE s = true)) as ->.
  { unfold checked_code. destruct (mp_strategy p) as [s|]; [rewrite unless_None|]; naive_solver. }
  assert (models_problem (mp_models p) = None ↔ (∀ m, m ∈ mp_models p → (1 <= m.2)%Z)) as ->.
  { unfold models_problem, count_ok. rewrite unless_None, forallb_elem. unfold dict_values. split.
    - intros Hm m Hin. apply Z.leb_le, Hm. by apply list_elem_of_fmap_2.
    - intros Hm n (m & -> & Hin)%list_elem_of_fmap. by apply Z.leb_le, Hm. }
  rewrite Nat.leb_le. tauto.
Qed.

Lemma proposal_new_ok p q :
  MigrationProposal_new p = Ok q ↔ accepted p ∧ q = MigrationProposal_normalize p.
Proof.
  unfold MigrationProposal_new. split.
  - intros ([] & H1%problems_ok & ([] & H2%pair_problems_ok & H3%check_bind)%py_bind_ok)%py_bind_ok.
    destruct H3 as [H3%consistency_ok <-]. rewrite strategy_offered_ok in H1. split; [|done].
    destruct H1 as (? & ? & ? & ? & ?), H3 as (? & ? & ?). by constructor.
  - intros [[] ->]. rewrite (proj2 (problems_ok p)), (proj2 (pair_problems_ok p)), (proj2 (consistency_ok p));
      try done. by rewrite strategy_offered_ok.
Qed.

(** ** Normal forms *)
Lemma findings_unique p :
  accepted p → NoDup (pf_id <$> dedup (mp_findings p)).
Proof. intros []. by apply (ids_unique0 "findings"); do 6 right; left. Qed.

(** The parts a normal form keeps, in another order. *)
Lemma elem_of_referred_normal p name l i :
  (name, l) ∈ referred (MigrationProposal_normalize p) → i ∈ l → ∃ l', (name, l') ∈ referred p ∧ i ∈ l'.
Proof.
  unfold referred. simpl. intros Hin Hi. repeat (apply elem_of_cons in Hin as [[= -> ->]|Hin]);
    try (by apply not_elem_of_nil in Hin); eexists; (split; [repeat (left || right)|]);
    revert Hi; rewrite ?list_elem_of_bind, ?list_elem_of_fmap; setoid_rewrite elem_of_sort_by; done.
Qed.

Lemma sort_id_perm {A} (key : A → string) l : key <$> sort_by (on key str_leb) l ≡ₚ key <$> l.
Proof. apply fmap_Permutation, sort_by_perm. Qed.

Lemma accepted_normal p : accepted p → accepted (MigrationProposal_normalize p).
Proof.
  intros Ha. pose proof (findings_unique p Ha) as Hf. destruct Ha as [H1 H2 H3 H4 H5 H6 H7 H8 H9].
  assert (NoDup (ms_id <$> mp_steps p)) as Hs by (apply (H8 "steps"); left).
  split; simpl; unfold sorted_evidence; rewrite ?length_sort_by; try done.
  - pose proof (length_dedup_le (mp_evidence p)). pose proof (length_dedup_le (mp_findings p)). lia.
  - intros m Hm. apply H4. by apply elem_of_sort_by in Hm.
  - intros s Hst. destruct (H5 s Hst) as (o & Ho & ?). exists o. by rewrite elem_of_sort_by.
  - intros name l i Hl Hi. rewrite (sort_id_perm ms_id (mp_steps p)).
    destruct (elem_of_referred_normal p name l i Hl Hi) as (l' & Hl' & Hi'). by eapply H7.
  - intros name l Hin. unfold unique in Hin. simpl in Hin.
    repeat (apply elem_of_cons in Hin as [[= -> ->]|Hin]); try (by apply not_elem_of_nil in Hin);
      rewrite ?sort_id_perm; try solve [eapply (H8 _ _); unfold unique; repeat (left || right)].
    rewrite dedup_id by (rewrite NoDup_sort_by; apply NoDup_dedup).
    eapply NoDup_Permutation_proper; [|exact Hf]. apply fmap_Permutation, sort_by_perm.
  - destruct H9 as [H9|(H9 & H10 & H11)]; [by left|right]. simpl. split; [done|].
    split; [by rewrite sort_id_perm|]. intros stage Hst Hp i Hi.
    destruct (H11 stage Hst Hp i Hi) as (s & Hin & ?). exists s. simpl. by rewrite elem_of_sort_by.
Qed.

Lemma proposal_normalize_idemp p : MigrationProposal_normalize (MigrationProposal_normalize p) = MigrationProposal_normalize p.
Proof.
  unfold MigrationProposal_normalize. simpl. f_equal; first [done|apply sorted_evidence_idemp|apply sort_dedup_idemp; apply _|apply sort_by_idemp; apply _].
Qed.

#[export] Instance MigrationProposal_dataclass : Dataclass MigrationProposal_new id.
Proof.
  intros a x [Ha ->]%proposal_new_ok. apply proposal_new_ok. unfold id.
  split; [by apply accepted_normal|]. by rewrite proposal_normalize_idemp.
Qed.

(** * What a proposal guarantees *)
Lemma mp_status_draft p :
  mp_status p = DRAFT ↔ mp_steps p ≠ [] ∧ ∀ f, f ∈ mp_findings p → pf_type f ∉ BLOCKING_FINDINGS.
Proof.
  unfold mp_status. cbv zeta. rewrite <- (Forall_forall (λ f, pf_type f ∉ BLOCKING_FINDINGS)).
  assert (existsb (λ f, bool_decide (pf_type f ∈ BLOCKING_FINDINGS)) (mp_findings p) = false ↔
          Forall (λ f, pf_type f ∉ BLOCKING_FINDINGS) (mp_findings p)) as <-.
  { induction (mp_findings p) as [|f l IH]; simpl; [by split|].
    rewrite Forall_cons, <- IH, orb_false_iff, bool_decide_eq_false. done. }
  destruct (existsb _ _), (mp_steps p); simpl; naive_solver.
Qed.

(** C36: A constructed proposal is consistent: its step ids, and every other kind of id, are unique;
    whatever its risks, checkpoints, rollbacks and data migrations refer to is one of its steps; its
    sequence is empty or holds every step exactly once; it is a draft exactly when it has steps and
    nothing blocks its review; and its constructor, given it back, makes the same proposal. *)
Theorem proposal_sound a p :
  MigrationProposal_new a = Ok p →
  NoDup (ms_id <$> mp_steps p) ∧ NoDup (rk_id <$> mp_risks p) ∧ NoDup (ck_id <$> mp_checkpoints p) ∧
  NoDup (rb_id <$> mp_rollbacks p) ∧ NoDup (dm_id <$> mp_data_migrations p) ∧
  NoDup (cc_id <$> mp_compatibility p) ∧ NoDup (pf_id <$> mp_findings p) ∧
  (∀ i, i ∈ (mp_risks p ≫= rk_step_ids) ++ (mp_checkpoints p ≫= ck_step_ids)
            ++ (rb_step_id <$> mp_rollbacks p) ++ (mp_data_migrations p ≫= dm_step_ids) →
        i ∈ ms_id <$> mp_steps p) ∧
  sequence_ok p ∧
  (mp_status p = DRAFT ↔ mp_steps p ≠ [] ∧ ∀ f, f ∈ mp_findings p → pf_type f ∉ BLOCKING_FINDINGS) ∧
  MigrationProposal_new p = Ok p.
Proof.
  intros Ha. pose proof (rebuild a p Ha) as Hp. unfold id in Hp.
  apply proposal_new_ok in Ha as [Hacc E]. pose proof (accepted_normal a Hacc) as [_ _ _ _ _ _ Hk Hu Hs].
  rewrite <- E in Hk, Hu, Hs.
  assert (dedup (mp_findings p) = mp_findings p) as Hd.
  { rewrite E. simpl. apply dedup_id. rewrite NoDup_sort_by. apply NoDup_dedup. }
  do 7 (split; [first [eapply Hu; unfold unique; repeat (left || right); fail
    | rewrite <- Hd; apply (Hu "findings"); do 6 right; left]|]).
  split; [|split; [done|split; [apply mp_status_draft|done]]].
  intros i. rewrite !elem_of_app.
  intros [Hi|[Hi|[Hi|Hi]]]; (eapply Hk; [|exact Hi]); unfold referred; repeat (left || right).
Qed.

(** The same parts, given in other orders. *)
Record reordered (p q : MigrationProposal) : Prop := {
  same_source : mp_source q = mp_source p;
  same_target : mp_target q = mp_target p;
  same_steps : mp_steps q ≡ₚ mp_steps p;
  same_risks : mp_risks q ≡ₚ mp_risks p;
  same_checkpoints : mp_checkpoints q ≡ₚ mp_checkpoints p;
  same_rollbacks : mp_rollbacks q ≡ₚ mp_rollbacks p;
  same_data : mp_data_migrations q ≡ₚ mp_data_migrations p;
  same_compatibility : mp_compatibility q ≡ₚ mp_compatibility p;
  same_findings : mp_findings q ≡ₚ mp_findings p;
  same_evidence : mp_evidence q ≡ₚ mp_evidence p;
  same_assumptions : mp_assumptions q = mp_assumptions p;
  same_strategy : mp_strategy q = mp_strategy p;
  same_models : mp_models q ≡ₚ mp_models p;
  same_summary : mp_diff_summary q = mp_diff_summary p;
  same_alternatives : mp_alternatives q ≡ₚ mp_alternatives p;
  same_sequence : mp_sequence q = mp_sequence p;
  same_coverage : mp_coverage q ≡ₚ mp_coverage p;
}.

Lemma dedup_perm {A} `{EqDecision A} (l l' : list A) : l ≡ₚ l' → dedup l ≡ₚ dedup l'.
Proof.
  intros Hp. apply NoDup_Permutation; [apply NoDup_dedup..|]. intros x. rewrite !elem_of_dedup. by rewrite Hp.
Qed.

Lemma findings_keys p : accepted p → NoDup (pf_sort_key <$> dedup (mp_findings p)).
Proof.
  intros Ha. apply (NoDup_fmap_1 (λ k : string * string, digest "mfd" [k.1; k.2])).
  rewrite <- list_fmap_compose. exact (findings_unique p Ha).
Qed.

Lemma bind_perm {A B} (f : A → list B) l l' : l ≡ₚ l' → l ≫= f ≡ₚ l' ≫= f.
Proof. by intros ->. Qed.

Lemma accepted_reordered p q : reordered p q → accepted p → accepted q.
Proof.
  intros [] Ha. destruct Ha as [H1 H2 H3 H4 H5 H6 H7 H8 H9].
  split; rewrite ?same_source0, ?same_target0, ?same_assumptions0, ?same_strategy0, ?same_summary0; try done.
  - by rewrite same_steps0.
  - rewrite same_risks0, same_checkpoints0, same_rollbacks0, same_data0, same_compatibility0, same_evidence0,
      same_alternatives0, same_sequence0, same_coverage0, same_findings0. done.
  - intros m. rewrite same_models0. apply H4.
  - intros s Hs. destruct (H5 s Hs) as (o & ? & ?). exists o. by rewrite same_alternatives0.
  - intros name l i Hin Hi. rewrite same_steps0. unfold referred in Hin.
    repeat (apply elem_of_cons in Hin as [[= -> ->]|Hin]); try (by apply not_elem_of_nil in Hin);
      [rewrite same_risks0 in Hi; apply (H7 "risks" (mp_risks p ≫= rk_step_ids) i)
      |rewrite same_checkpoints0 in Hi; apply (H7 "checkpoints" (mp_checkpoints p ≫= ck_step_ids) i)
      |rewrite same_rollbacks0 in Hi; apply (H7 "rollbacks" (rb_step_id <$> mp_rollbacks p) i)
      |rewrite same_data0 in Hi; apply (H7 "data_migrations" (mp_data_migrations p ≫= dm_step_ids) i)];
      try done; unfold referred; repeat (left || right).
  - intros name l Hin. unfold unique in Hin.
    repeat (apply elem_of_cons in Hin as [[= -> ->]|Hin]); try (by apply not_elem_of_nil in Hin);
      [rewrite same_steps0|rewrite same_risks0|rewrite same_checkpoints0|rewrite same_rollbacks0
      |rewrite same_data0|rewrite same_compatibility0|rewrite (dedup_perm _ _ same_findings0)];
      eapply H8; unfold unique; repeat (left || right).
  - unfold sequence_ok, parallel_ok in *. rewrite same_sequence0, same_steps0.
    destruct H9 as [H9|(? & ? & H9)]; [by left|right]. do 2 (split; [done|]). intros stage Hst Hp i Hi.
    destruct (H9 stage Hst Hp i Hi) as (s & ? & ?). exists s. by rewrite same_steps0.
Qed.

(** A proposal is deterministic: its parts given in any other order make the same proposal, with the
    same fingerprint, as long as evidence, alternatives and coverage have one entry per key. *)
Theorem proposal_canonical p q r :
  reordered p q → MigrationProposal_new p = Ok r →
  NoDup (er_key <$> mp_evidence p) → NoDup (so_pattern <$> mp_alternatives p) →
  NoDup (ec_key <$> mp_coverage p) → NoDup (fst <$> mp_models p) →
  MigrationProposal_new q = Ok r.
Proof.
  intros Hq [Ha ->]%proposal_new_ok He Hal Hc Hm. apply proposal_new_ok.
  split; [by eapply accepted_reordered|]. pose proof (findings_keys p Ha) as Hf.
  destruct Ha as [_ _ _ _ _ _ _ Hu _]. destruct Hq. unfold MigrationProposal_normalize, sorted_evidence.
  f_equal; try done;
    try (apply sort_on_unique;
         [apply _|first [done|eapply Hu; unfold unique; repeat (left || right)]|by symmetry]; fail).
  - apply sort_on_unique; [apply _|done|]. by apply dedup_perm.
  - rewrite !dedup_id; [by apply sort_on_unique; [apply _|done|symmetry]|..]; apply (NoDup_fmap_1 er_key); [|done].
    by rewrite same_evidence0.
Qed.

(** A plan holds at most 200 steps: a proposal with more is refused as malformed, whatever else it
    holds, although [MAX_STEPS] and the documentation say 500. *)
Theorem step_limit p :
  (MAX_ITEMS < length (mp_steps p))%nat →
  ∃ fields, MigrationProposal_new p = Raise (InvalidMigrationPlan fields) ∧ "steps" ∈ fields.
Proof.
  intros Hl. unfold MigrationProposal_new, check.
  assert ((if length (mp_steps p) <=? MAX_STEPS then items (mp_steps p) "steps" else Some "steps") = Some "steps") as Hs.
  { destruct (_ <=? MAX_STEPS); [|done]. unfold items, unless. by rewrite (proj2 (Nat.leb_gt _ _)). }
  assert (∃ rest, MigrationProposal_problems p = Some "steps" :: rest) as (rest & ->)
    by (eexists; unfold MigrationProposal_problems; rewrite Hs; reflexivity).
  exists ("steps" :: omap id rest). split; [reflexivity|left].
Qed.

(** ** Witnesses *)
Lemma proposal_sound_witness :
  MigrationProposal_new sample_proposal = Ok sample_proposal ∧ sequence_ok sample_proposal ∧
  mp_status sample_proposal = DRAFT.
Proof.
  split; [apply sample_proposal_accepted|].
  destruct (proposal_sound sample_proposal sample_proposal sample_proposal_accepted)
    as (_ & _ & _ & _ & _ & _ & _ & _ & Hs & _ & _).
  split; [exact Hs|reflexivity].
Defined.

(** The sample with these steps, in no sequence, and these models. *)
Definition sample_with (steps : list MigrationStep) (models : dict string Z) : MigrationProposal := {|
  mp_source := mp_source sample_proposal; mp_target := mp_target sample_proposal; mp_steps := steps;
  mp_risks := []; mp_checkpoints := []; mp_rollbacks := []; mp_data_migrations := []; mp_compatibility := [];
  mp_findings := []; mp_evidence := mp_evidence sample_proposal; mp_assumptions := []; mp_strategy := None;
  mp_models := models; mp_diff_summary := None; mp_alternatives := []; mp_sequence := []; mp_coverage := [] |}.

Definition other_step : MigrationStep := {|
  ms_key := "verify:cache"; ms_type := VERIFY; ms_title := "Verify the cache"; ms_outcome := "It answers.";
  ms_traces := ms_traces sample_step; ms_completion := ["It answers."]; ms_description := None;
  ms_element_ids := ["cache"]; ms_preconditions := []; ms_inputs := []; ms_depends_on := [ms_id sample_step];
  ms_parallelizable := false; ms_downtime := DOWNTIME_UNKNOWN; ms_downtime_note := None; ms_traffic := None;
  ms_availability := []; ms_data_impact := None; ms_reversibility := REVERSIBILITY_UNKNOWN;
  ms_manual_verification := false; ms_assumptions := [] |}.

Lemma proposal_canonical_witness :
  MigrationProposal_new (sample_with [other_step; sample_step] [("rolling", 2%Z); ("planner", 1%Z)]) =
  Ok (MigrationProposal_normalize (sample_with [sample_step; other_step] [("planner", 1%Z); ("rolling", 2%Z)])).
Proof.
  apply (proposal_canonical (sample_with [sample_step; other_step] [("planner", 1%Z); ("rolling", 2%Z)])).
  - split; try reflexivity; apply perm_swap.
  - by vm_compute.
  - by apply (bool_decide_eq_true_1 _).
  - by apply (bool_decide_eq_true_1 _).
  - by apply (bool_decide_eq_true_1 _).
  - by apply (bool_decide_eq_true_1 _).
Defined.

Lemma step_limit_witness :
  ∃ fields, MigrationProposal_new (sample_with (replicate 201 sample_step) []) = Raise (InvalidMigrationPlan fields)
    ∧ "steps" ∈ fields.
Proof. apply step_limit. by apply (bool_decide_eq_true_1 _). Defined.
