(* ===== verification/PlanRoundTrip.v ===== *)
(** Stored migration plans are read back as they were (StoredPlans; src/core/domain/migrations:
    serialization.py).

    Each reader against its [to_dict]; then requests, whose constructor accepts what it made, and
    [stored_plan_read] for a version's proposal, request and reviews. *)
From Stdlib Require Import Lia ZArith Ascii.
From S2P Require Import Prelude Data Errors Codecs Sha256 Plans Proposals.
From S2P Require Import Lifecycle LifecycleProperties StoredPlans ProposalProperties.

(** * Readers *)
Lemma rd_step {A B} (m : rd A) (f : A → rd B) a : m = Some (Ok a) → m ≫= f = f a.
Proof. by intros ->. Qed.

Lemma read_str_ok s : read_str (JStr s) = Some (Ok s).
Proof. done. Qed.
Lemma read_bool_ok b : read_bool (JBool b) = Some (Ok b).
Proof. done. Qed.
Lemma read_int_ok z : read_int (JInt z) = Some (Ok z).
Proof. done. Qed.
Lemma read_nat_ok n : read_nat (JInt (Z.of_nat n)) = Some (Ok n).
Proof. unfold read_nat. destruct (0 <=? Z.of_nat n)%Z eqn:E; [by rewrite Nat2Z.id|]. apply Z.leb_gt in E. lia. Qed.
Lemma read_enum_ok {E} `{StrEnum E} name (e : E) : read_enum name (JStr (value e)) = Some (Ok e).
Proof. unfold read_enum. by rewrite enum_of_value. Qed.
Lemma read_uuid_ok u : canonical_uuid u → read_uuid (JStr u) = Some (Ok u).
Proof. unfold canonical_uuid, read_uuid. by intros ->. Qed.
Lemma read_text_ok o : read_text (of_opt_str o) = Some (Ok o).
Proof. by destruct o. Qed.
Lemma read_opt_int_ok o : read_opt read_int (opt_int o) = Some (Ok o).
Proof. by destruct o. Qed.
Lemma read_opt_uuid_ok o : (∀ u, o = Some u → canonical_uuid u) → read_opt read_uuid (of_opt_str o) = Some (Ok o).
Proof. destruct o as [u|]; [|done]. intros Hu. unfold read_opt. simpl. by rewrite (rd_step _ _ u) by by apply read_uuid_ok, Hu. Qed.

Lemma read_all_ok {A} (r : json → rd A) (w : A → json) l :
  (∀ x, x ∈ l → r (w x) = Some (Ok x)) → read_all r (w <$> l) = Some (Ok l).
Proof.
  induction l as [|x l IH]; intros Hl; [done|]. simpl. rewrite (rd_step _ _ x) by (apply Hl; left).
  rewrite (rd_step _ _ l) by (apply IH; intros; apply Hl; by right). done.
Qed.

Lemma read_list_ok {A} (r : json → rd A) (w : A → json) l :
  (∀ x, x ∈ l → r (w x) = Some (Ok x)) → read_list r (JArr (w <$> l)) = Some (Ok l).
Proof. apply read_all_ok. Qed.

Lemma read_strs_ok l : read_strs (strings l) = Some (Ok l).
Proof. by apply read_list_ok. Qed.

Lemma read_models_ok m : read_models (JObj ((λ p, (p.1, JInt p.2)) <$> m)) = Some (Ok m).
Proof.
  cbn [read_models]. induction m as [|[k n] m IH]; [done|]. cbn [fmap list_fmap read_models_of fst snd] in *.
  rewrite (rd_step _ _ n) by done. by rewrite (rd_step _ _ m).
Qed.

Lemma field_ok {A} m name (r : json → rd A) j a : dict_get name m = Some j → r j = Some (Ok a) → field m name r = Some (Ok a).
Proof. unfold field. by intros ->. Qed.
Lemma field_or_ok {A} m name d (r : json → rd A) j a :
  dict_get name m = Some j → r j = Some (Ok a) → field_or m name d r = Some (Ok a).
Proof. unfold field_or. by intros ->. Qed.

Create HintDb reads.
#[export] Hint Resolve read_str_ok read_bool_ok read_int_ok read_nat_ok read_enum_ok read_uuid_ok
  read_text_ok read_opt_int_ok read_opt_uuid_ok read_strs_ok read_models_ok : reads.

(** Reads an object field by field, down to its constructor. *)
Ltac read_fields :=
  cbn [object];
  repeat (erewrite rd_step;
    [|first [eapply field_ok|eapply field_or_ok]; [reflexivity|solve [eauto 3 with reads]]]).

(** The arguments read are the record's fields, and the constructor accepts what it made. *)
Ltac read_object x := read_fields; destruct x; apply (f_equal Some); assumption.

Lemma read_Trace_ok t : built Trace_new id t → read_Trace (Trace_to_dict t) = Some (Ok t).
Proof. intros Ht. unfold read_Trace, Trace_to_dict. read_object t. Qed.

Lemma read_traces_ok l : Forall (built Trace_new id) l → read_traces (traces_to_dict l) = Some (Ok l).
Proof. intros Hl. apply read_list_ok. intros x Hx. apply read_Trace_ok. by eapply Forall_forall. Qed.

Lemma read_EvidenceRef_ok e : built EvidenceRef_new id e → read_EvidenceRef (EvidenceRef_to_dict e) = Some (Ok e).
Proof. intros He. unfold read_EvidenceRef, EvidenceRef_to_dict. read_object e. Qed.

Lemma read_evidence_ok l :
  Forall (built EvidenceRef_new id) l → read_list read_EvidenceRef (JArr (EvidenceRef_to_dict <$> l)) = Some (Ok l).
Proof. intros Hl. apply read_list_ok. intros x Hx. apply read_EvidenceRef_ok. by eapply Forall_forall. Qed.
#[export] Hint Resolve read_traces_ok read_evidence_ok : reads.

Lemma read_MigrationStep_ok s :
  built MigrationStep_new id s → Forall (built Trace_new id) (ms_traces s) →
  read_MigrationStep (MigrationStep_to_dict s) = Some (Ok s).
Proof. intros H Ht. unfold read_MigrationStep, MigrationStep_to_dict. read_object s. Qed.

Lemma read_Risk_ok r :
  built Risk_new id r → Forall (built Trace_new id) (rk_traces r) →
  read_Risk (Risk_to_dict r) = Some (Ok r).
Proof. intros H Ht. unfold read_Risk, Risk_to_dict. read_object r. Qed.

Lemma read_RollbackConsideration_ok r :
  built RollbackConsideration_new id r → Forall (built Trace_new id) (rb_traces r) →
  read_RollbackConsideration (RollbackConsideration_to_dict r) = Some (Ok r).
Proof. intros H Ht. unfold read_RollbackConsideration, RollbackConsideration_to_dict. read_object r. Qed.

Lemma read_DataMigration_ok d :
  built DataMigration_new id d → Forall (built Trace_new id) (dm_traces d) →
  read_DataMigration (DataMigration_to_dict d) = Some (Ok d).
Proof. intros H Ht. unfold read_DataMigration, DataMigration_to_dict. read_object d. Qed.

Lemma read_CompatibilityCheck_ok c :
  built CompatibilityCheck_new id c → Forall (built Trace_new id) (cc_traces c) →
  read_CompatibilityCheck (CompatibilityCheck_to_dict c) = Some (Ok c).
Proof. intros H Ht. unfold read_CompatibilityCheck, CompatibilityCheck_to_dict. read_object c. Qed.

Lemma read_PlanFinding_ok f :
  built PlanFinding_new id f → Forall (built Trace_new id) (pf_traces f) →
  read_PlanFinding (PlanFinding_to_dict f) = Some (Ok f).
Proof. intros H Ht. unfold read_PlanFinding, PlanFinding_to_dict. read_object f. Qed.

Lemma read_Checkpoint_ok c :
  built Checkpoint_new id c → Forall (built Trace_new id) (ck_traces c) →
  Forall (built EvidenceRef_new id) (ck_evidence c) →
  read_Checkpoint (Checkpoint_to_dict c) = Some (Ok c).
Proof. intros H Ht He. unfold read_Checkpoint, Checkpoint_to_dict. read_object c. Qed.

Lemma read_StrategyOption_ok o : built StrategyOption_new id o → read_StrategyOption (StrategyOption_to_dict o) = Some (Ok o).
Proof. intros H. unfold read_StrategyOption, StrategyOption_to_dict. read_object o. Qed.

Lemma read_Stage_ok s : built Stage_new id s → read_Stage (Stage_to_dict s) = Some (Ok s).
Proof. intros H. unfold read_Stage, Stage_to_dict. read_object s. Qed.

Lemma read_EvidenceCoverage_ok c : built EvidenceCoverage_new id c → read_EvidenceCoverage (EvidenceCoverage_to_dict c) = Some (Ok c).
Proof. intros H. unfold read_EvidenceCoverage, EvidenceCoverage_to_dict. read_object c. Qed.

Lemma read_SourceRef_ok s :
  built SourceRef_new id s → canonical_uuid (sr_architecture_id s) → read_SourceRef (SourceRef_to_dict s) = Some (Ok s).
Proof. intros H Hu. unfold read_SourceRef, SourceRef_to_dict. read_object s. Qed.

Lemma read_TargetRef_ok t :
  built TargetRef_new id t → canonical_uuid (tg_architecture_id t) →
  (∀ u, tg_analysis_id t = Some u → canonical_uuid u) → read_TargetRef (TargetRef_to_dict t) = Some (Ok t).
Proof. intros H Hu Ha. unfold read_TargetRef, TargetRef_to_dict. read_object t. Qed.

(** ** Whole proposals *)

(** A proposal of parts their constructors made, with UUIDs for ids. *)
Record made_of_parts (p : MigrationProposal) : Prop := {
  source_made : built SourceRef_new id (mp_source p) ∧ canonical_uuid (sr_architecture_id (mp_source p));
  target_made : built TargetRef_new id (mp_target p) ∧ canonical_uuid (tg_architecture_id (mp_target p)) ∧
    ∀ u, tg_analysis_id (mp_target p) = Some u → canonical_uuid u;
  steps_made : ∀ s, s ∈ mp_steps p → built MigrationStep_new id s ∧ Forall (built Trace_new id) (ms_traces s);
  risks_made : ∀ r, r ∈ mp_risks p → built Risk_new id r ∧ Forall (built Trace_new id) (rk_traces r);
  checkpoints_made : ∀ c, c ∈ mp_checkpoints p → built Checkpoint_new id c ∧
    Forall (built Trace_new id) (ck_traces c) ∧ Forall (built EvidenceRef_new id) (ck_evidence c);
  rollbacks_made : ∀ r, r ∈ mp_rollbacks p → built RollbackConsideration_new id r ∧ Forall (built Trace_new id) (rb_traces r);
  data_made : ∀ d, d ∈ mp_data_migrations p → built DataMigration_new id d ∧ Forall (built Trace_new id) (dm_traces d);
  compatibility_made : ∀ c, c ∈ mp_compatibility p → built CompatibilityCheck_new id c ∧ Forall (built Trace_new id) (cc_traces c);
  findings_made : ∀ f, f ∈ mp_findings p → built PlanFinding_new id f ∧ Forall (built Trace_new id) (pf_traces f);
  evidence_made : Forall (built EvidenceRef_new id) (mp_evidence p);
  alternatives_made : ∀ o, o ∈ mp_alternatives p → built StrategyOption_new id o;
  sequence_made : ∀ s, s ∈ mp_sequence p → built Stage_new id s;
  coverage_made : ∀ c, c ∈ mp_coverage p → built EvidenceCoverage_new id c;
}.

#[export] Hint Resolve read_MigrationStep_ok read_Risk_ok read_Checkpoint_ok read_RollbackConsideration_ok
  read_DataMigration_ok read_CompatibilityCheck_ok read_PlanFinding_ok read_StrategyOption_ok read_Stage_ok
  read_EvidenceCoverage_ok read_SourceRef_ok read_TargetRef_ok : reads.

(** A list of parts, from what is known of each of them. *)
#[export] Hint Extern 1 (read_list _ (JArr (_ <$> ?l)) = _) =>
  apply read_list_ok; intros ? ?;
  match goal with H : ∀ x, x ∈ l → _ |- _ => edestruct H; [eassumption|]; destruct_and?; eauto with reads end : reads.

Lemma read_MigrationProposal_ok p :
  built MigrationProposal_new id p → made_of_parts p →
  read_MigrationProposal (MigrationProposal_to_dict p) = Some (Ok p).
Proof.
  intros H [[] (? & ? & ?)]. unfold read_MigrationProposal, MigrationProposal_to_dict. read_object p.
Qed.

(** ** Requests and reviews *)
Lemma length_strip s : (String.length (strip s) <= String.length s)%nat.
Proof.
  assert (∀ l, length (lstrip_chars l) <= length l)%nat as Hl.
  { intros l. destruct (lstrip_chars_suffix l) as (p & Hp & _). rewrite Hp at 2. rewrite length_app. lia. }
  assert (∀ t, String.length t = length (String.list_ascii_of_string t)) as Hs.
  { induction t as [|c t IH]; simpl; congruence. }
  rewrite !Hs. unfold strip. rewrite las_sla, length_reverse.
  etrans; [apply Hl|]. rewrite length_reverse. apply Hl.
Qed.

Lemma text_ok_strip limit s : text_ok limit s = true → text_ok limit (strip s) = true.
Proof.
  unfold text_ok. rewrite strip_idemp, !andb_true_iff, !Nat.leb_le. intros [? ?]. split; [done|].
  pose proof (length_strip s). lia.
Qed.

Lemma require_ok b field reason u : require b field reason = Ok u ↔ b = true.
Proof. unfold require, refuse. destruct b, u; naive_solver. Qed.

Lemma statements_ok values field limit l :
  statements values field limit = Ok l ↔
  (length values <=? limit)%nat = true ∧ forallb (text_ok MAX_TEXT) values = true ∧ l = strip <$> values.
Proof.
  unfold statements. rewrite py_bind_ok. setoid_rewrite require_ok. split.
  - intros (_ & H1 & ([] & H2%require_ok & [= <-])%py_bind_ok). done.
  - intros (H1 & H2 & ->). exists tt. by rewrite H2.
Qed.

Lemma statements_idemp values field limit l : statements values field limit = Ok l → statements l field limit = Ok l.
Proof.
  rewrite !statements_ok. intros (H1 & H2 & ->). rewrite length_fmap. split; [done|]. split.
  - rewrite forallb_elem in *. intros x (y & -> & Hy)%list_elem_of_fmap. by apply text_ok_strip, H2.
  - rewrite <- list_fmap_compose. apply list_fmap_ext. intros i x _. simpl. by rewrite strip_idemp.
Qed.

#[export] Instance MigrationConstraints_dataclass : Dataclass MigrationConstraints_new id.
Proof.
  intros a x. unfold MigrationConstraints_new.
  intros ([] & H1%require_ok & (l & H2 & [= <-])%py_bind_ok)%py_bind_ok. unfold id. cbn [cn_maintenance_window cn_statements].
  rewrite H1. cbn [require mbind py_bind]. by rewrite (statements_idemp _ _ _ _ H2).
Qed.

Lemma check_lists_ok r ids assumptions :
  check_lists r = Ok (ids, assumptions) ↔
  (length (rq_data_requirements r) <=? MAX_STATEMENTS)%nat = true ∧
  (match rq_requirement_ids r with Some ids => (length ids <=? MAX_REQUIREMENTS)%nat | None => true end) = true ∧
  (length (rq_assumptions r) <=? MAX_STATEMENTS)%nat = true ∧
  length (dedup (as_key <$> rq_assumptions r)) = length (rq_assumptions r) ∧
  ids = sorted_set <$> rq_requirement_ids r ∧ assumptions = sort_by (on as_key str_leb) (rq_assumptions r).
Proof.
  unfold check_lists. split.
  - intros ([] & H1%require_ok & ([] & H2%require_ok & ([] & H3%require_ok & ([] & H4%require_ok & [= <- <-])%py_bind_ok)%py_bind_ok)%py_bind_ok)%py_bind_ok.
    apply bool_decide_eq_true in H4. done.
  - intros (H1 & H2 & H3 & H4 & -> & ->). rewrite H1, H2, H3, bool_decide_true by exact H4. done.
Qed.

Lemma length_dedup_perm {A} `{EqDecision A} (l l' : list A) : l ≡ₚ l' → length (dedup l) = length (dedup l').
Proof.
  intros Hp. apply Permutation_length, NoDup_Permutation; [apply NoDup_dedup..|]. intros x.
  rewrite !elem_of_dedup. by rewrite Hp.
Qed.

#[export] Instance MigrationRequest_dataclass : Dataclass MigrationRequest_new id.
Proof.
  intros a x. unfold MigrationRequest_new.
  intros ([] & H1%require_ok & ([] & H2%require_ok & (goals & H3 & ([ids assumptions] & H4%check_lists_ok & H5)%py_bind_ok)%py_bind_ok)%py_bind_ok)%py_bind_ok.
  apply py_bind_ok in H5 as ([] & H5%require_ok & ([] & H6%require_ok & [= <-])%py_bind_ok).
  destruct H4 as (H7 & H8 & H9 & H10 & -> & ->). unfold id.
  cbn [rq_source_revision rq_target rq_goals rq_strategy rq_title]. rewrite H1, H2. cbn [require mbind py_bind].
  rewrite (statements_idemp _ _ _ _ H3). cbn [py_bind]. erewrite (proj2 (check_lists_ok _ _ _)).
  - rewrite H5, H6. cbn [require py_bind]. reflexivity.
  - cbn [rq_data_requirements rq_requirement_ids rq_assumptions]. rewrite length_sort_by.
    split; [done|]. split; [|split; [done|split]].
    + destruct (rq_requirement_ids a) as [l|]; [|done]. simpl in *. apply Nat.leb_le. apply Nat.leb_le in H8.
      unfold sorted_set. rewrite length_sort_by. pose proof (length_dedup_le l). lia.
    + rewrite <- H10. apply length_dedup_perm, fmap_Permutation, sort_by_perm.
    + split; [|by rewrite (sort_by_idemp (on as_key str_leb))]. destruct (rq_requirement_ids a) as [l|]; [|done]. simpl.
      by rewrite sorted_set_idemp.
Qed.

Definition optional_uuid (o : option string) : Prop := ∀ u, o = Some u → canonical_uuid u.

Lemma read_TargetSpec_ok t :
  TargetSpec_new t = Ok t → optional_uuid (ts_analysis_id t) → read_TargetSpec (TargetSpec_to_dict t) = Some (Ok t).
Proof. intros H Hu. unfold read_TargetSpec, TargetSpec_to_dict. read_object t. Qed.

Lemma read_bool_opt_ok o :
  read_opt read_bool (match o with Some b => JBool b | None => JNull end) = Some (Ok o).
Proof. by destruct o as [[]|]. Qed.
#[export] Hint Resolve read_bool_opt_ok read_TargetSpec_ok : reads.

Lemma read_MigrationConstraints_ok c :
  built MigrationConstraints_new id c → read_MigrationConstraints (MigrationConstraints_to_dict c) = Some (Ok c).
Proof. intros H. unfold read_MigrationConstraints, MigrationConstraints_to_dict. read_object c. Qed.

Lemma read_DataRequirement_ok d :
  DataRequirement_new d = Ok d → read_DataRequirement (DataRequirement_to_dict d) = Some (Ok d).
Proof. intros H. unfold read_DataRequirement, DataRequirement_to_dict. read_object d. Qed.

Lemma read_Assumption_ok a : Assumption_new a = Ok a → read_Assumption (Assumption_to_dict a) = Some (Ok a).
Proof. intros H. unfold read_Assumption, Assumption_to_dict. read_object a. Qed.

Lemma read_uuids_ok o :
  (∀ l u, o = Some l → u ∈ l → canonical_uuid u) →
  read_opt (read_list read_uuid) (match o with Some ids => strings ids | None => JNull end) = Some (Ok o).
Proof.
  destruct o as [l|]; [|done]. intros Hl. unfold read_opt. cbn [strings].
  rewrite (rd_step _ _ l); [done|]. apply read_list_ok. intros u Hu. apply read_uuid_ok. by eapply Hl.
Qed.
#[export] Hint Resolve read_MigrationConstraints_ok read_DataRequirement_ok read_Assumption_ok read_uuids_ok : reads.

(** A request of parts their constructors made, with UUIDs for ids. *)
Record request_made (r : MigrationRequest) : Prop := {
  architecture_made : canonical_uuid (rq_architecture_id r);
  target_spec_made : TargetSpec_new (rq_target r) = Ok (rq_target r) ∧ optional_uuid (ts_analysis_id (rq_target r));
  constraints_made : built MigrationConstraints_new id (rq_constraints r);
  requirements_made : ∀ d, d ∈ rq_data_requirements r → DataRequirement_new d = Ok d ∧ True;
  requirement_ids_made : ∀ l u, rq_requirement_ids r = Some l → u ∈ l → canonical_uuid u;
  assumptions_made : ∀ a, a ∈ rq_assumptions r → Assumption_new a = Ok a ∧ True;
}.

Lemma request_from_dict_ok r :
  built MigrationRequest_new id r → request_made r → request_from_dict (MigrationRequest_to_dict r) = Some (Ok r).
Proof. intros H [? [] ? ? ? ?]. unfold request_from_dict, MigrationRequest_to_dict. read_object r. Qed.

(** The instants the code records are read back from their ISO text. *)
Definition event_made (e : ReviewEvent) : Prop :=
  canonical_uuid (re_user_id e) ∧ fromisoformat (isoformat (re_at e)) = Some (re_at e).

Lemma read_datetime_ok d : fromisoformat (isoformat d) = Some d → read_datetime (JStr (isoformat d)) = Some (Ok d).
Proof. unfold read_datetime. by intros ->. Qed.
#[export] Hint Resolve read_datetime_ok : reads.

Lemma reviews_from_list_ok l :
  Forall event_made l → reviews_from_list (ReviewEvent_to_dict <$> l) = Some (Ok l).
Proof.
  intros Hl. apply read_all_ok. intros e He. rewrite Forall_forall in Hl. destruct (Hl e He).
  unfold read_ReviewEvent, ReviewEvent_to_dict. read_fields. by destruct e.
Qed.

(** C31: Reading a stored plan gives it back: a proposal, a request and the reviews of a version, made by
    their constructors, are read from what they were written as unchanged; and a proposal stored with
    another fingerprint than its own is refused. *)
Theorem stored_plan_read p r reviews f :
  built MigrationProposal_new id p → made_of_parts p → built MigrationRequest_new id r → request_made r →
  Forall event_made reviews →
  proposal_from_dict (MigrationProposal_to_dict p) f =
    Some (if String.eqb (mp_fingerprint p) f then Ok p else Raise (InvalidMigrationPlan ["fingerprint"])) ∧
  request_from_dict (MigrationRequest_to_dict r) = Some (Ok r) ∧
  reviews_from_list (ReviewEvent_to_dict <$> reviews) = Some (Ok reviews).
Proof.
  intros Hp Hpm Hr Hrm He. split; [|by split; [apply request_from_dict_ok|apply reviews_from_list_ok]].
  unfold proposal_from_dict. rewrite (rd_step _ _ p) by by apply read_MigrationProposal_ok.
  by destruct (String.eqb _ _).
Qed.

(** ** Witnesses *)
Definition sample_uuid : string := "00000000-0000-0000-0000-0000000000a1".

Lemma sample_parts_made : made_of_parts sample_proposal.
Proof.
  split; try (intros x Hx; exfalso; revert Hx; apply not_elem_of_nil).
  - split; by vm_compute.
  - split; [by vm_compute|]. split; [by vm_compute|]. intros u Hu. discriminate Hu.
  - intros s Hs. apply list_elem_of_singleton in Hs as ->. split; [by vm_compute|].
    apply Forall_singleton. by vm_compute.
  - apply Forall_singleton. by vm_compute.
  - intros s Hs. apply list_elem_of_singleton in Hs as ->. by vm_compute.
Qed.

Lemma sample_request_made : request_made sample_request.
Proof.
  split; try (intros x Hx; exfalso; revert Hx; apply not_elem_of_nil).
  - by vm_compute.
  - split; [by vm_compute|]. intros u Hu. discriminate Hu.
  - by vm_compute.
  - intros l u Hl. discriminate Hl.
Qed.

Definition sample_event : ReviewEvent := {|
  re_from_status := DRAFT; re_to_status := READY_FOR_REVIEW; re_user_id := sample_uuid;
  re_at := sample_at; re_comment := None; re_fingerprint := None |}.

Lemma stored_plan_read_witness :
  proposal_from_dict (MigrationProposal_to_dict sample_proposal) (sample_hash "0") =
    Some (if String.eqb (mp_fingerprint sample_proposal) (sample_hash "0") then Ok sample_proposal
          else Raise (InvalidMigrationPlan ["fingerprint"])) ∧
  request_from_dict (MigrationRequest_to_dict sample_request) = Some (Ok sample_request) ∧
  reviews_from_list (ReviewEvent_to_dict <$> [sample_event]) = Some (Ok [sample_event]).
Proof.
  apply (stored_plan_read sample_proposal sample_request [sample_event] (sample_hash "0")).
  - exact sample_proposal_accepted.
  - exact sample_parts_made.
  - by vm_compute.
  - exact sample_request_made.
  - apply Forall_singleton. by split; vm_compute.
Defined.
