(* ===== verification/Components.v ===== *)
(** Strongly connected components: the search both [DependencyGraph.cycles]
    (src/engines/migration/dependency_graph.py) and [cycles] (src/engines/reliability/spof.py) are.

    Both are Tarjan's algorithm, with an explicit stack of iterators; they differ in the turn of their
    loop.  What they share is here: the state and what is done to it, the invariant, and, for every
    turn that keeps the invariant and leaves less to look at ([TarjanStep]), that the search ends and
    finds the components ([tarjan_groups]).

    [counter], where a program keeps one, is the number of nodes in [index]. *)
From S2P Require Import Prelude.

(** The state of a search.  A work item is a node with what is left of the iterator over its edges;
    [t_stack] and [t_work] have their last element first. *)
Record tarjan := {
  t_index : gmap string nat;
  t_low : gmap string nat;
  t_stack : list string;
  t_on_stack : gset string;
  t_groups : list (list string);
  t_work : list (string * list string);
}.

Definition set_low (node : string) (n : nat) (t : tarjan) : tarjan := {|
  t_index := t_index t;
  t_low := <[node := n]> (t_low t);
  t_stack := t_stack t;
  t_on_stack := t_on_stack t;
  t_groups := t_groups t;
  t_work := t_work t
|}.

Definition set_work (work : list (string * list string)) (t : tarjan) : tarjan := {|
  t_index := t_index t;
  t_low := t_low t;
  t_stack := t_stack t;
  t_on_stack := t_on_stack t;
  t_groups := t_groups t;
  t_work := work
|}.

(** [while not group or group[-1] != node: group.append(stack.pop()); ...]. *)
Fixpoint pop_group (node : string) (stack : list string) : list string * list string :=
  match stack with
  | [] => ([], [])
  | x :: stack =>
      if decide (x = node) then ([x], stack)
      else let '(group, rest) := pop_group node stack in (x :: group, rest)
  end.

Definition tarjan_init : tarjan :=
  {| t_index := ∅; t_low := ∅; t_stack := []; t_on_stack := ∅; t_groups := []; t_work := [] |}.

Section components.
Context (edges : string → list string) (leb : string → string → bool).

Definition enter (node : string) (t : tarjan) : tarjan := {|
  t_index := <[node := size (t_index t)]> (t_index t);
  t_low := <[node := size (t_index t)]> (t_low t);
  t_stack := node :: t_stack t;
  t_on_stack := {[node]} ∪ t_on_stack t;
  t_groups := t_groups t;
  t_work := (node, edges node) :: t_work t
|}.

Definition close_group (node : string) (t : tarjan) : tarjan :=
  let '(group, stack) := pop_group node (t_stack t) in {|
    t_index := t_index t;
    t_low := t_low t;
    t_stack := stack;
    t_on_stack := t_on_stack t ∖ list_to_set group;
    t_groups := t_groups t ++ if 1 <? length group then [sort_by leb group] else [];
    t_work := t_work t
  |}.

(** [if work: parent = ...; low[parent] = min(low[parent], low[node])]. *)
Definition pass_low (node : string) (t : tarjan) : tarjan :=
  match t_work t with
  | [] => t
  | (parent, _) :: _ => set_low parent (t_low t !!! parent `min` t_low t !!! node) t
  end.

(** From [work.pop()] on: [low] of the parent, and the group the node closes. *)
Definition leave (node : string) (t : tarjan) : tarjan :=
  let t := pass_low node t in
  if decide (t_low t !!! node = t_index t !!! node) then close_group node t else t.


(** [x -> y]. *)
Definition points_to (x y : string) : Prop := y ∈ edges x.

(** The two lead to each other. *)
Definition mutual (x y : string) : Prop := rtc points_to x y ∧ rtc points_to y x.

Section invariant.
Context (nodes : list string) (Hnodes : ∀ x y, points_to x y → y ∈ nodes).
Context `{!TotalPreorder leb}.


(** The stack, cut at the nodes being visited: above each of them, its zone, the nodes that were
    reached from it and are finished but could not be closed. *)
Inductive frames (low : gmap string nat) : list (string * list string) → list string → Prop :=
  | frames_nil : frames low [] []
  | frames_cons n es zone work stack :
      frames low work stack →
      (∀ p es', head work = Some (p, es') → points_to p n) →
      Forall (λ u, rtc points_to n u ∧ low !!! n ≤ low !!! u) zone →
      frames low ((n, es) :: work) (zone ++ n :: stack).

(** An edge [x -> y] the search has looked at. *)
Definition looked (t : tarjan) (x y : string) : Prop :=
  is_Some (t_index t !! y) ∧ (y ∈ t_stack t → t_low t !!! x ≤ t_index t !!! y).

(** A group as recorded: all the steps that wait for one of its members and it for them. *)
Definition is_group (grp : list string) : Prop :=
  1 < length grp ∧ NoDup grp ∧ ordered_by (leb) grp ∧
  (∀ x y, x ∈ grp → y ∈ grp ↔ mutual x y).

Record tarjan_inv (t : tarjan) : Prop := {
  ti_known : ∀ x n, t_index t !! x = Some n → x ∈ nodes ∧ n < size (t_index t);
  ti_stack : ∀ x, x ∈ t_stack t → is_Some (t_index t !! x);
  ti_sorted : StronglySorted (λ x y, t_index t !!! y < t_index t !!! x) (t_stack t);
  ti_on : t_on_stack t = list_to_set (t_stack t);
  ti_frames : frames (t_low t) (t_work t) (t_stack t);
  ti_low : ∀ x, x ∈ t_stack t → t_low t !!! x ≤ t_index t !!! x;
  ti_back : ∀ x, x ∈ t_stack t →
    ∃ w, w ∈ t_stack t ∧ t_index t !!! w = t_low t !!! x ∧ rtc points_to x w;
  ti_open : ∀ x, x ∈ t_stack t → x ∉ (t_work t).*1 → t_low t !!! x < t_index t !!! x;
  ti_work : ∀ x es, (x, es) ∈ t_work t →
    ∃ done, edges x = done ++ es ∧ (∀ y, y ∈ done → looked t x y);
  ti_finished : ∀ x y, x ∈ t_stack t → x ∉ (t_work t).*1 → points_to x y → looked t x y;
  ti_closed : ∀ x y, is_Some (t_index t !! x) → x ∉ t_stack t → points_to x y →
    is_Some (t_index t !! y) ∧ y ∉ t_stack t;
  ti_groups : ∀ grp, grp ∈ t_groups t →
    is_group grp ∧ (∀ x, x ∈ grp → is_Some (t_index t !! x) ∧ x ∉ t_stack t);
  ti_apart : NoDup (mjoin (t_groups t));
  ti_complete : ∀ x y, is_Some (t_index t !! x) → x ∉ t_stack t → x ≠ y → mutual x y →
    ∃ grp, grp ∈ t_groups t ∧ x ∈ grp;
}.

Lemma frames_low low low' work stack :
  frames low work stack → (∀ x, x ∈ stack → low' !!! x = low !!! x) → frames low' work stack.
Proof.
  induction 1 as [|n es zone work stack _ IH Hp Hz]; intros Heq; constructor; [|done|].
  - apply IH. intros x Hx. apply Heq. rewrite elem_of_app, elem_of_cons. tauto.
  - rewrite Forall_forall in Hz |- *. intros u Hu. destruct (Hz u Hu) as [? ?]. split; [done|].
    rewrite !Heq; [done|set_solver..].
Qed.

Lemma frames_work low work stack x : frames low work stack → x ∈ work.*1 → x ∈ stack.
Proof.
  induction 1 as [|n es zone work stack _ IH _ _]; [done|]. cbn.
  rewrite elem_of_app, !elem_of_cons. tauto.
Qed.

Lemma frames_inv low n es work stack :
  frames low ((n, es) :: work) stack →
  ∃ zone rest, stack = zone ++ n :: rest ∧ frames low work rest ∧
    (∀ p es', head work = Some (p, es') → points_to p n) ∧
    (∀ u, u ∈ zone → rtc points_to n u ∧ low !!! n ≤ low !!! u).
Proof. inversion 1; subst. setoid_rewrite Forall_forall in H6. eauto 10. Qed.

(** In a strictly sorted stack: what is below has a smaller index. *)
Lemma sorted_split (idx : gmap string nat) l1 x l2 :
  StronglySorted (λ x y, idx !!! y < idx !!! x) (l1 ++ x :: l2) →
  (∀ y, y ∈ l1 → idx !!! x < idx !!! y) ∧ (∀ y, y ∈ l2 → idx !!! y < idx !!! x) ∧
  StronglySorted (λ x y, idx !!! y < idx !!! x) l2.
Proof.
  induction l1 as [|z l1 IH]; cbn; intros [Hs Hz]%StronglySorted_inv.
  - rewrite Forall_forall in Hz. split_and!; [set_solver|done..].
  - destruct (IH Hs) as (H1 & H2 & H3). split_and!; [|done..]. intros y [->|Hy]%elem_of_cons; [|auto].
    rewrite Forall_forall in Hz. apply Hz. set_solver.
Qed.

Lemma sorted_NoDup (idx : gmap string nat) l :
  StronglySorted (λ x y, idx !!! y < idx !!! x) l → NoDup l.
Proof.
  induction 1 as [|x l _ IH Hx]; constructor; [|done]. intros Hin.
  rewrite Forall_forall in Hx. apply Hx in Hin. lia.
Qed.

Lemma pop_group_spec node zone rest :
  node ∉ zone → pop_group node (zone ++ node :: rest) = (zone ++ [node], rest).
Proof.
  induction zone as [|x zone IH]; intros Hn; cbn [app pop_group].
  - by rewrite decide_True.
  - apply not_elem_of_cons in Hn as [? Hn]. rewrite decide_False by done. by rewrite IH.
Qed.

Lemma looked_mono t t' x y :
  t_index t' = t_index t → (∀ z, z ∈ t_stack t' → z ∈ t_stack t) →
  t_low t' !!! x ≤ t_low t !!! x → looked t x y → looked t' x y.
Proof.
  unfold looked. intros -> Hst Hle [Hy Hlow]. split; [done|]. intros Hin%Hst%Hlow. lia.
Qed.

Lemma on_stack_spec t : tarjan_inv t → ∀ e, e ∈ t_on_stack t ↔ e ∈ t_stack t.
Proof. intros Hinv e. rewrite (ti_on _ Hinv). apply elem_of_list_to_set. Qed.

Lemma work_stack t x es : tarjan_inv t → (x, es) ∈ t_work t → x ∈ t_stack t.
Proof.
  intros Hinv Hx. eapply frames_work; [apply (ti_frames _ Hinv)|]. apply list_elem_of_fmap.
  by exists (x, es).
Qed.

Lemma stack_NoDup t : tarjan_inv t → NoDup (t_stack t).
Proof. intros Hinv. eapply sorted_NoDup, ti_sorted, Hinv. Qed.


(** Frames are about the nodes being visited, not about what is left of their edges. *)
Lemma frames_fst low work work' stack :
  frames low work stack → work'.*1 = work.*1 → frames low work' stack.
Proof.
  intros Hf. revert work'. induction Hf as [|n es zone work stack Hf IH Hp Hz]; intros [|[n' es'] work'];
    cbn; intros Heq; try done; [constructor|]. injection Heq as -> Heq.
  constructor; [by apply IH| |done]. intros p es0 Hh.
  destruct work' as [|[p' e'] work'], work as [|[p0 e0] work]; try done.
  injection Heq as -> _. injection Hh as -> _. by eapply Hp.
Qed.

(** ** Edges that change nothing: to nodes already closed *)
Lemma inv_skip t n skipped es work :
  tarjan_inv t → t_work t = (n, skipped ++ es) :: work →
  (∀ z, z ∈ skipped → is_Some (t_index t !! z) ∧ z ∉ t_stack t) →
  tarjan_inv (set_work ((n, es) :: work) t).
Proof.
  intros Hinv Hw Hsk. destruct Hinv as [Hk Hs Hso Hon Hf Hl Hb Ho Hwk Hfi Hc Hg Ha Hco].
  assert (((n, es) :: work).*1 = (t_work t).*1) as Hfst by by rewrite Hw.
  split; cbn [set_work t_index t_low t_stack t_on_stack t_groups t_work]; rewrite ?Hfst; try done.
  - by eapply frames_fst.
  - intros x es0 [[= -> ->]|Hx]%elem_of_cons; [|apply Hwk; rewrite Hw; by right].
    destruct (Hwk n (skipped ++ es)) as (done & He & Hdone); [rewrite Hw; left|].
    exists (done ++ skipped). split; [by rewrite He, (assoc_L (++))|].
    intros z [Hz|Hz]%elem_of_app; [by apply Hdone|]. destruct (Hsk z Hz). split; cbn; [done|tauto].
Qed.

(** ** An edge to a node on the stack *)
Lemma inv_edge t n work y es i :
  tarjan_inv t → t_work t = (n, y :: es) :: work → y ∈ t_stack t → t_index t !! y = Some i →
  tarjan_inv (set_low n (t_low t !!! n `min` i) (set_work ((n, es) :: work) t)).
Proof.
  intros Hinv Hw Hy Hi. pose proof (stack_NoDup _ Hinv) as Hnd.
  assert (n ∈ t_stack t) as Hn by (eapply (work_stack _ n); [done|rewrite Hw; left]).
  destruct (ti_work _ Hinv n (y :: es)) as (done & He & Hdone); [rewrite Hw; left|].
  assert (points_to n y) as Hny by (unfold points_to; rewrite He; set_solver).
  assert (t_index t !!! y = i) as Hyi by by apply lookup_total_correct.
  set (low' := <[n := t_low t !!! n `min` i]> (t_low t)).
  assert (∀ x, x ≠ n → low' !!! x = t_low t !!! x) as Hne.
  { intros x ?. unfold low'. by rewrite lookup_total_insert_ne. }
  assert (low' !!! n = t_low t !!! n `min` i) as Hln by apply lookup_total_insert_eq.
  assert (∀ x, low' !!! x ≤ t_low t !!! x) as Hle.
  { intros x. destruct (decide (x = n)) as [->|]; [lia|by rewrite Hne]. }
  assert (((n, es) :: work).*1 = (t_work t).*1) as Hfst by by rewrite Hw.
  destruct Hinv as [Hk Hs Hso Hon Hf Hl Hb Ho Hwk Hfi Hc Hg Ha Hco].
  split; cbn [set_low set_work t_index t_low t_stack t_on_stack t_groups t_work]; fold low';
    rewrite ?Hfst; try done.
  - rewrite Hw in Hf. apply frames_inv in Hf as (zone & rest & Hst & Hf & Hp & Hz).
    rewrite Hst in Hnd |- *. apply NoDup_app in Hnd as (_ & Hzn & [Hnr _]%NoDup_cons).
    constructor; [|done|].
    + eapply frames_low; [done|]. intros x Hx. apply Hne. by intros ->.
    + rewrite Forall_forall. intros u Hu. destruct (Hz u Hu) as [? ?]. split; [done|].
      rewrite (Hne u); [lia|]. intros ->. apply (Hzn n Hu). left.
  - intros x Hx. specialize (Hle x). specialize (Hl x Hx). lia.
  - intros x Hx. destruct (decide (x = n)) as [->|Hxn].
    + rewrite Hln. destruct (Nat.min_spec (t_low t !!! n) i) as [[_ ->]|[_ ->]].
      * by apply Hb.
      * exists y. split_and!; [done..|by apply rtc_once].
    + rewrite Hne by done. by apply Hb.
  - intros x Hx Hxw. rewrite Hne; [by apply Ho|]. intros ->. apply Hxw. rewrite Hw. left.
  - intros x es0 [[= -> ->]|Hx]%elem_of_cons.
    + exists (done ++ [y]). split; [by rewrite He, <- (assoc_L (++))|].
      intros z [Hz|Hz%list_elem_of_singleton]%elem_of_app.
      * eapply looked_mono; [..|by apply Hdone]; cbn; [done..|apply Hle].
      * subst z. split; cbn; [by rewrite Hi|]. fold low'. rewrite Hln, Hyi. lia.
    + destruct (Hwk x es0) as (d0 & ? & Hd0); [rewrite Hw; by right|]. exists d0. split; [done|].
      intros z Hz. eapply looked_mono; [..|by apply Hd0]; cbn; [done..|apply Hle].
  - intros x z Hx Hxw Hxz. eapply looked_mono; [..|apply Hfi]; cbn; [done|done|apply Hle|done..].
Qed.

(** ** A node not seen yet: a root, or the end of an edge *)
Lemma inv_enter t y work :
  tarjan_inv t → y ∈ nodes → t_index t !! y = None →
  match t_work t with
  | [] => work = []
  | (n, es) :: w => ∃ es', es = y :: es' ∧ work = (n, es') :: w
  end →
  tarjan_inv (enter y (set_work work t)).
Proof.
  intros Hinv Hyk Hy Hwork.
  assert (work.*1 = (t_work t).*1) as Hfst.
  { destruct (t_work t) as [|[n es] w]; [by subst|]. by destruct Hwork as (es' & -> & ->). }
  assert (∀ n es, head work = Some (n, es) → points_to n y) as Hedge.
  { intros n es Hh. pose proof (ti_work _ Hinv) as Hwk. destruct (t_work t) as [|[n0 es0] w]; [by subst|].
    destruct Hwork as (es' & -> & ->). injection Hh as -> ->.
    destruct (Hwk n (y :: es)) as (d & He & _); [left|]. unfold points_to. rewrite He. set_solver. }
  assert (∀ x, is_Some (t_index t !! x) → x ≠ y) as Hne by (intros x [? Hx] ->; congruence).
  destruct Hinv as [Hk Hs Hso Hon Hf Hl Hb Ho Hwk Hfi Hc Hg Ha Hco].
  assert (y ∉ t_stack t) as Hys by (intros [? ?]%Hs; congruence).
  set (n := size (t_index t)).
  assert (∀ x, is_Some (t_index t !! x) → <[y:=n]> (t_index t) !!! x = t_index t !!! x) as Hidx.
  { intros x Hx. rewrite lookup_total_insert_ne; [done|]. intros ->. by destruct (Hne x). }
  assert (∀ x, x ∈ t_stack t → <[y:=n]> (t_low t) !!! x = t_low t !!! x) as Hlow.
  { intros x Hx. rewrite lookup_total_insert_ne; [done|]. by intros ->. }
  assert (∀ x, is_Some (t_index t !! x) → is_Some (<[y:=n]> (t_index t) !! x)) as Hmono.
  { intros x Hx. rewrite lookup_insert_ne; [done|]. intros ->. by destruct (Hne x). }
  assert (∀ x, x ∈ t_stack t → t_index t !!! x < n) as Hlt.
  { intros x Hx. destruct (Hs x Hx) as [m Hm]. rewrite (lookup_total_correct _ _ _ Hm).
    by apply (Hk x). }
  assert (∀ x z, x ∈ t_stack t → looked t x z → looked (enter y (set_work work t)) x z) as Hlook.
  { intros x z Hx [Hz Hle]. split; cbn; fold n; [by apply Hmono|]. rewrite Hidx, Hlow by done.
    intros [->|Hzs]%elem_of_cons; [by destruct (Hne y)|by apply Hle]. }
  assert (∀ x, x ∈ (t_work t).*1 → x ∈ t_stack t) as Hws by (intros x; by eapply frames_work).
  split; cbn [enter set_work t_index t_low t_stack t_on_stack t_groups t_work]; fold n.
  - intros x m. rewrite map_size_insert_None by done. rewrite lookup_insert_Some.
    intros [[-> <-]|[_ [? ?]%Hk]]; [split; [done|lia]|]. split; [done|lia].
  - intros x [->|Hx]%elem_of_cons; [by rewrite lookup_insert_eq|by apply Hmono, Hs].
  - rewrite <- (list_fmap_id (t_stack t)) at 1. constructor.
    + rewrite list_fmap_id. clear -Hso Hidx Hs. induction Hso as [|x l Hl IH Hx]; constructor.
      * apply IH. intros z Hz. apply Hs. by right.
      * rewrite Forall_forall in Hx |- *. intros z Hz.
        rewrite !Hidx; [by apply Hx|apply Hs; left|apply Hs; by right].
    + rewrite list_fmap_id, Forall_forall. intros x Hx. rewrite Hidx by auto.
      rewrite lookup_total_insert_eq. by apply Hlt.
  - by rewrite Hon.
  - apply (frames_cons _ y _ []); [|done|constructor]. eapply frames_fst; [|done].
    by eapply frames_low.
  - intros x [->|Hx]%elem_of_cons; [by rewrite !lookup_total_insert_eq|].
    rewrite Hidx, Hlow by auto. by apply Hl.
  - intros x [->|Hx]%elem_of_cons.
    + exists y. rewrite !lookup_total_insert_eq. split_and!; [left|done|constructor].
    + destruct (Hb x Hx) as (w & Hw & Hwi & ?). exists w. rewrite Hidx, Hlow by auto.
      split_and!; [by right|done..].
  - cbn [fmap list_fmap fst]. rewrite Hfst.
    intros x [->|Hx]%elem_of_cons [Hxy Hxw]%not_elem_of_cons; [done|]. rewrite Hidx, Hlow by auto.
    by apply Ho.
  - intros x es [[= -> ->]|Hx]%elem_of_cons.
    + exists []. split; [done|]. intros z Hz. by apply elem_of_nil in Hz.
    + assert (x ∈ t_stack t) as Hxs.
      { apply Hws. rewrite <- Hfst. apply list_elem_of_fmap. by exists (x, es). }
      assert (∀ es0, (x, es0) ∈ t_work t → ∃ d, edges x = d ++ es0 ∧
        (∀ z, z ∈ d → looked (enter y (set_work work t)) x z)) as Hold.
      { intros es0 Hin. destruct (Hwk x es0 Hin) as (d & ? & Hd). exists d. split; [done|].
        intros z Hz. by apply Hlook, Hd. }
      destruct (t_work t) as [|[m esm] w]; [subst; by apply elem_of_nil in Hx|].
      destruct Hwork as (es' & -> & ->). apply elem_of_cons in Hx as [[= -> ->]|Hx];
        [|apply Hold; by right].
      destruct (Hold (y :: es')) as (d & He & Hd); [left|]. exists (d ++ [y]).
      split; [by rewrite He, <- (assoc_L (++))|].
      intros z [Hz|Hz%list_elem_of_singleton]%elem_of_app; [by apply Hd|]. subst z.
      split; cbn; fold n; [by rewrite lookup_insert_eq|]. intros _.
      rewrite lookup_total_insert_eq, Hlow by done. specialize (Hl _ Hxs). specialize (Hlt _ Hxs). lia.
  - cbn [fmap list_fmap fst]. rewrite Hfst.
    intros x z [->|Hx]%elem_of_cons [Hxy Hxw]%not_elem_of_cons Hxz; [done|].
    apply Hlook; [done|]. by apply Hfi.
  - intros x z Hx [Hxy Hxs]%not_elem_of_cons Hxz. rewrite lookup_insert_ne in Hx by done.
    destruct (Hc x z Hx Hxs Hxz) as [? ?]. split; [by apply Hmono|]. rewrite not_elem_of_cons.
    split; [by apply Hne|done].
  - intros grp Hgrp. destruct (Hg grp Hgrp) as [? Hin]. split; [done|]. intros x Hx.
    destruct (Hin x Hx). split; [by apply Hmono|]. rewrite not_elem_of_cons. split; [by apply Hne|done].
  - done.
  - intros x z Hx [Hxy Hxs]%not_elem_of_cons. rewrite lookup_insert_ne in Hx by done. by apply Hco.
Qed.

(** ** [low] passed to the parent *)
Lemma head_cases (work : list (string * list string)) :
  (∃ p es, head work = Some (p, es)) ∨ head work = None.
Proof. destruct work as [|[p es] w]; [by right|left; by exists p, es]. Qed.

Lemma work_cases (work : list (string * list string)) :
  (∃ p es w, work = (p, es) :: w) ∨ work = [].
Proof. destruct work as [|[p es] w]; [by right|left; by exists p, es, w]. Qed.

Lemma head_elem (work : list (string * list string)) p es : head work = Some (p, es) → p ∈ work.*1.
Proof. destruct work; [done|]. intros [= ->]. left. Qed.

Lemma pass_low_same t n :
  t_index (pass_low n t) = t_index t ∧ t_stack (pass_low n t) = t_stack t ∧
  t_on_stack (pass_low n t) = t_on_stack t ∧ t_groups (pass_low n t) = t_groups t ∧
  t_work (pass_low n t) = t_work t.
Proof. unfold pass_low. by destruct (t_work t) as [|[p es] w] eqn:points_to. Qed.

Lemma pass_low_other t n x :
  (∀ p es, head (t_work t) = Some (p, es) → x ≠ p) → t_low (pass_low n t) !!! x = t_low t !!! x.
Proof.
  unfold pass_low. destruct (t_work t) as [|[p es] w]; intros Hx; [done|]. cbn.
  apply lookup_total_insert_ne. intros ->. by apply (Hx x es).
Qed.

Lemma pass_low_parent t n p es :
  head (t_work t) = Some (p, es) →
  t_low (pass_low n t) !!! p = t_low t !!! p `min` t_low t !!! n.
Proof.
  unfold pass_low. destruct (t_work t) as [|[p' es'] w]; [done|]. intros [= -> ->]. cbn.
  apply lookup_total_insert_eq.
Qed.

Lemma pass_low_le t n x : t_low (pass_low n t) !!! x ≤ t_low t !!! x.
Proof.
  destruct (head_cases (t_work t)) as [(p & es & Hh)|Hh].
  - destruct (decide (x = p)) as [->|Hx]; [rewrite (pass_low_parent t n p es) by done; lia|].
    rewrite pass_low_other; [done|]. intros p' es'. rewrite Hh. by intros [= <- <-].
  - rewrite pass_low_other; [done|]. intros p' es'. by rewrite Hh.
Qed.

(** ** A finished node: what it closes, and what its parent takes over *)
Section leave.
Context (t : tarjan) (n : string) (work : list (string * list string)) (zone rest : list string).
Context (Hinv : tarjan_inv t) (Hwork : t_work t = (n, []) :: work).
Context (Hstack : t_stack t = zone ++ n :: rest) (Hframes : frames (t_low t) work rest).
Context (Hparent : ∀ p es, head work = Some (p, es) → points_to p n).
Context (Hzone : ∀ u, u ∈ zone → rtc points_to n u ∧ t_low t !!! n ≤ t_low t !!! u).

Lemma leave_sorted :
  (∀ y, y ∈ zone → t_index t !!! n < t_index t !!! y) ∧
  (∀ y, y ∈ rest → t_index t !!! y < t_index t !!! n) ∧
  StronglySorted (λ x y, t_index t !!! y < t_index t !!! x) rest.
Proof. apply sorted_split. rewrite <- Hstack. apply (ti_sorted _ Hinv). Qed.

Lemma leave_NoDup : (n ∉ zone) ∧ (n ∉ rest) ∧ (∀ u, u ∈ zone → u ∉ rest) ∧ NoDup zone.
Proof.
  pose proof (stack_NoDup _ Hinv) as Hnd. rewrite Hstack in Hnd.
  apply NoDup_app in Hnd as (Hz & Hd & [Hn _]%NoDup_cons). split_and!; [|done| |done].
  - intros H. apply (Hd n H). left.
  - intros u Hu Hr. apply (Hd u Hu). by right.
Qed.

Lemma leave_work x : x ∈ work.*1 → x ∈ rest.
Proof. by eapply frames_work. Qed.

(** Everything of the zone is finished. *)
Lemma zone_finished u : u ∈ zone → u ∈ t_stack t ∧ u ∉ (t_work t).*1.
Proof.
  intros Hu. destruct leave_NoDup as (Hn & _ & Hr & _). rewrite Hstack, Hwork. cbn.
  split; [set_solver|]. intros [->|Hw%leave_work]%elem_of_cons; [done|by apply (Hr u)].
Qed.

(** [n] has looked at all its edges. *)
Lemma leave_looked u y : u ∈ zone ++ [n] → points_to u y → looked t u y.
Proof.
  intros [Hu|Hu%list_elem_of_singleton]%elem_of_app Hy.
  - destruct (zone_finished u Hu). by apply (ti_finished _ Hinv).
  - subst u. destruct (ti_work _ Hinv n []) as (d & He & Hd); [rewrite Hwork; left|].
    apply Hd. rewrite app_nil_r in He. by rewrite <- He.
Qed.

Lemma zone_low u : u ∈ zone ++ [n] → t_low t !!! n ≤ t_low t !!! u.
Proof. intros [Hu|Hu%list_elem_of_singleton]%elem_of_app; [by apply Hzone|by subst]. Qed.

(** On the stack, from [n]'s index on: the zone. *)
Lemma zone_index y : y ∈ t_stack t → t_index t !!! n ≤ t_index t !!! y → y ∈ zone ++ [n].
Proof.
  destruct leave_sorted as (_ & Hr & _). rewrite Hstack. intros Hy Hle.
  apply elem_of_app in Hy as [Hy|[->|Hy]%elem_of_cons]; [set_solver..|]. apply Hr in Hy. lia.
Qed.

Lemma zone_reached u : u ∈ zone ++ [n] → rtc points_to n u.
Proof. intros [Hu|Hu%list_elem_of_singleton]%elem_of_app; [by apply Hzone|by subst]. Qed.

Section close.
Context (Hroot : t_low t !!! n = t_index t !!! n).

Lemma zone_back u : u ∈ zone ++ [n] → rtc points_to u n.
Proof.
  remember (t_index t !!! u) as k eqn:Hk. revert u Hk.
  induction (lt_wf k) as [k _ IH]. intros u -> Hu.
  pose proof (zone_low u Hu) as Hlow.
  apply elem_of_app in Hu as [Hu|Hu%list_elem_of_singleton]; [|by subst].
  destruct (zone_finished u Hu) as [Hs Hf]. pose proof (ti_open _ Hinv u Hs Hf) as Hlt.
  destruct (ti_back _ Hinv u Hs) as (w & Hw & Hwi & Huw).
  etrans; [done|]. apply (IH (t_index t !!! w)); [lia|done|]. apply zone_index; [done|lia].
Qed.

Lemma zone_edges u y : u ∈ zone ++ [n] → points_to u y → is_Some (t_index t !! y) ∧ y ∉ rest.
Proof.
  intros Hu Hy. destruct (leave_looked u y Hu Hy) as [Hi Hle]. split; [done|]. intros Hr.
  destruct leave_sorted as (_ & Hlt & _). pose proof (Hlt y Hr). pose proof (zone_low u Hu).
  rewrite Hstack in Hle. assert (t_low t !!! u ≤ t_index t !!! y); [|lia]. apply Hle. set_solver.
Qed.

(** What is closed leads only to what is closed. *)
Lemma closed_rtc x y :
  rtc points_to x y → is_Some (t_index t !! x) → x ∉ t_stack t → is_Some (t_index t !! y) ∧ y ∉ t_stack t.
Proof.
  induction 1 as [|x y z Hxy _ IH]; [done|]. intros Hx Hn.
  destruct (ti_closed _ Hinv x y Hx Hn Hxy). by apply IH.
Qed.

Lemma zone_rtc x y :
  rtc points_to x y → x ∈ zone ++ [n] → y ∈ zone ++ [n] ∨ (is_Some (t_index t !! y) ∧ y ∉ t_stack t).
Proof.
  induction 1 as [|x y z Hxy Hyz IH]; [by left|]. intros Hx.
  destruct (zone_edges x y Hx Hxy) as [Hi Hr]. destruct (decide (y ∈ t_stack t)) as [Hs|Hs].
  - apply IH. rewrite Hstack in Hs. set_solver.
  - right. by apply (closed_rtc y).
Qed.

Lemma zone_mutual x y : x ∈ zone ++ [n] → y ∈ zone ++ [n] ↔ mutual x y.
Proof.
  intros Hx. split.
  - intros Hy. split; (etrans; [by apply zone_back|by apply zone_reached]).
  - intros [Hxy Hyx]. destruct (zone_rtc _ _ Hxy Hx) as [|[Hi Hn]]; [done|]. exfalso.
    destruct (closed_rtc _ _ Hyx Hi Hn) as [_ Hxn]. apply Hxn. rewrite Hstack. set_solver.
Qed.

Lemma zone_NoDup : NoDup (zone ++ [n]).
Proof.
  destruct leave_NoDup as (Hn & _ & _ & Hz). apply NoDup_app. split_and!; [done| |apply NoDup_singleton].
  intros u Hu ->%list_elem_of_singleton. done.
Qed.

Lemma zone_is_group : 1 < length (zone ++ [n]) → is_group (sort_by leb (zone ++ [n])).
Proof.
  intros Hlen. unfold is_group. split_and!.
  - by rewrite length_sort_by.
  - rewrite NoDup_sort_by. apply zone_NoDup.
  - apply sort_by_ordered, _.
  - intros x y. rewrite !elem_of_sort_by. apply zone_mutual.
Qed.
End close.

(** ** What its parent takes over *)
Local Abbreviation t1 := (pass_low n (set_work work t)).

Lemma pass_same :
  t_index t1 = t_index t ∧ t_stack t1 = t_stack t ∧ t_on_stack t1 = t_on_stack t ∧
  t_groups t1 = t_groups t ∧ t_work t1 = work.
Proof. apply (pass_low_same (set_work work t)). Qed.

Lemma pass_other x :
  (∀ p es, head work = Some (p, es) → x ≠ p) → t_low t1 !!! x = t_low t !!! x.
Proof. apply (pass_low_other (set_work work t)). Qed.

Lemma pass_parent p es :
  head work = Some (p, es) → t_low t1 !!! p = t_low t !!! p `min` t_low t !!! n.
Proof. apply (pass_low_parent (set_work work t)). Qed.

Lemma pass_le x : t_low t1 !!! x ≤ t_low t !!! x.
Proof. apply (pass_low_le (set_work work t)). Qed.

Lemma parent_rest p es : head work = Some (p, es) → p ∈ rest.
Proof. intros Hp%head_elem. by apply leave_work. Qed.

Lemma pass_low_outside x : x ∉ rest → t_low t1 !!! x = t_low t !!! x.
Proof. intros Hx. apply pass_other. intros p es Hp%parent_rest. by intros ->. Qed.

Lemma pass_looked x y : looked t x y → looked t1 x y.
Proof.
  destruct pass_same as (Hi & Hs & _). apply looked_mono; [done|by rewrite Hs|].
  apply pass_le.
Qed.

(** What an open node, and the nodes that stay, keep. *)
Lemma pass_back x :
  x ∈ t_stack t → ∃ w, w ∈ t_stack t ∧ t_index t !!! w = t_low t1 !!! x ∧ rtc points_to x w.
Proof.
  intros Hx. destruct (ti_back _ Hinv x Hx) as (w & ? & Hw & ?).
  destruct (head_cases work) as [(p & es & Hh)|Hh].
  - destruct (decide (x = p)) as [->|Hxp].
    + rewrite (pass_parent p es) by done.
      destruct (Nat.min_spec (t_low t !!! p) (t_low t !!! n)) as [[_ ->]|[_ ->]]; [by exists w|].
      destruct (ti_back _ Hinv n) as (w' & ? & ? & ?); [rewrite Hstack; set_solver|].
      exists w'. split_and!; [done..|]. eapply rtc_l; [by eapply Hparent|done].
    + rewrite pass_other; [by exists w|]. intros p' es'. rewrite Hh. by intros [= <- <-].
  - rewrite pass_other; [by exists w|]. intros p' es'. by rewrite Hh.
Qed.

Lemma pass_work x es :
  (x, es) ∈ work → ∃ done, edges x = done ++ es ∧ (∀ y, y ∈ done → looked t1 x y).
Proof.
  intros Hx. destruct (ti_work _ Hinv x es) as (d & ? & Hd); [rewrite Hwork; by right|].
  exists d. split; [done|]. intros y Hy. by apply pass_looked, Hd.
Qed.

(** ** The node stays open *)
Section open.
Context (Hopen : t_low t !!! n ≠ t_index t !!! n).

Lemma open_below : t_low t !!! n < t_index t !!! n.
Proof.
  pose proof (ti_low _ Hinv n) as Hle. rewrite Hstack in Hle.
  assert (t_low t !!! n ≤ t_index t !!! n); [apply Hle; set_solver|]. lia.
Qed.

(** A root is always closed: nothing is below it on the stack. *)
Lemma open_parent : ∃ p es w, work = (p, es) :: w.
Proof.
  destruct (work_cases work) as [?|Hw]; [done|]. exfalso.
  assert (rest = []) as Hrest by (pose proof Hframes as Hf; rewrite Hw in Hf; by inversion Hf).
  destruct (ti_back _ Hinv n) as (w & Hws & Hwi & _); [rewrite Hstack; set_solver|].
  pose proof open_below. destruct leave_sorted as (Hz & _ & _).
  rewrite Hstack, Hrest in Hws.
  apply elem_of_app in Hws as [Hws%Hz|Hws%list_elem_of_singleton]; [lia|]. subst w. lia.
Qed.

(** The zone of the parent takes in the node and its zone. *)
Lemma open_frames : frames (t_low t1) work (zone ++ n :: rest).
Proof.
  destruct open_parent as (p & es & w & Hw). pose proof (Hparent p es) as Hpn.
  pose proof (parent_rest p es) as Hpr. rewrite Hw in Hpn, Hpr. cbn in Hpn, Hpr.
  pose proof Hframes as Hf. rewrite Hw in Hf.
  apply frames_inv in Hf as (zone' & rest' & Hr & Hf' & Hp' & Hz').
  destruct leave_NoDup as (Hnz & Hnr & Hzr & _).
  pose proof (stack_NoDup _ Hinv) as Hnd. rewrite Hstack, Hr in Hnd.
  assert ((p ∉ zone') ∧ p ∉ rest') as [Hpz Hpr'].
  { apply NoDup_app in Hnd as (_ & _ & [_ Hnd]%NoDup_cons).
    apply NoDup_app in Hnd as (_ & Hd & [? _]%NoDup_cons). split; [|done]. intros Hpz.
    apply (Hd p Hpz). left. }
  assert (∀ x, x ≠ p → t_low t1 !!! x = t_low t !!! x) as Hne.
  { intros x Hx. apply pass_other. rewrite Hw. by intros ? ? [= <- <-]. }
  assert (t_low t1 !!! p = t_low t !!! p `min` t_low t !!! n) as Hlp.
  { apply (pass_parent p es). by rewrite Hw. }
  replace (zone ++ n :: rest) with ((zone ++ n :: zone') ++ p :: rest') by
    (by rewrite Hr, <- (assoc_L (++))). clear Hnd.
  remember (pass_low n (set_work work t)) as t' eqn:Ht'. clear Ht'. rewrite Hw. constructor.
  - eapply frames_low; [done|]. intros x Hx. apply Hne. by intros ->.
  - done.
  - rewrite Forall_forall. intros u [Hu|[->|Hu]%elem_of_cons]%elem_of_app.
    + destruct (Hzone u Hu) as [? ?]. split; [eapply rtc_l; [by apply Hpn|done]|].
      rewrite (Hne u); [lia|]. intros ->. apply (Hzr p Hu). rewrite Hr. set_solver.
    + split; [apply rtc_once; by apply Hpn|]. rewrite (Hne n); [lia|]. intros ->. apply Hnr.
      rewrite Hr. set_solver.
    + destruct (Hz' u Hu) as [? ?]. split; [done|]. rewrite (Hne u); [lia|]. by intros ->.
Qed.

Lemma inv_open : tarjan_inv t1.
Proof.
  destruct pass_same as (Hsi & Hss & Hso & Hsg & Hsw).
  split; rewrite ?Hsi, ?Hss, ?Hso, ?Hsg, ?Hsw; 
    try first [exact (ti_known _ Hinv) | exact (ti_stack _ Hinv) | exact (ti_sorted _ Hinv)
              | exact (ti_on _ Hinv) | exact (ti_closed _ Hinv) | exact (ti_groups _ Hinv)
              | exact (ti_apart _ Hinv) | exact (ti_complete _ Hinv)].
  - rewrite Hstack. apply open_frames.
  - intros x Hx. pose proof (pass_le x). pose proof (ti_low _ Hinv x Hx). lia.
  - apply pass_back.
  - intros x Hx Hxw. destruct (decide (x = n)) as [->|Hn].
    + rewrite pass_low_outside by (by destruct leave_NoDup as (_ & ? & _)). apply open_below.
    + eapply Nat.le_lt_trans; [apply pass_le|]. apply (ti_open _ Hinv); [done|].
      rewrite Hwork. by apply not_elem_of_cons.
  - apply pass_work.
  - intros x y Hx Hxw Hxy. apply pass_looked. destruct (decide (x = n)) as [->|Hn].
    + apply leave_looked; [set_solver|done].
    + apply (ti_finished _ Hinv); [done| |done]. rewrite Hwork. by apply not_elem_of_cons.
Qed.
End open.

(** ** The node closes its zone *)
Section closing.
Context (Hroot : t_low t !!! n = t_index t !!! n).

Lemma closing_low x : t_low t1 !!! x = t_low t !!! x.
Proof.
  destruct (head_cases work) as [(p & es & Hh)|Hh].
  - destruct (decide (x = p)) as [->|Hxp].
    + rewrite (pass_parent p es) by done. pose proof (parent_rest p es Hh) as Hp.
      destruct leave_sorted as (_ & Hlt & _). pose proof (Hlt p Hp).
      pose proof (ti_low _ Hinv p) as Hle. rewrite Hstack in Hle.
      assert (t_low t !!! p ≤ t_index t !!! p); [apply Hle; set_solver|]. lia.
    + apply pass_other. intros p' es'. rewrite Hh. by intros [= <- <-].
  - apply pass_other. intros p' es'. by rewrite Hh.
Qed.

Lemma close_group_eq : close_group n t1 = {|
  t_index := t_index t; t_low := t_low t1; t_stack := rest;
  t_on_stack := t_on_stack t ∖ list_to_set (zone ++ [n]);
  t_groups := t_groups t ++ (if 1 <? length (zone ++ [n]) then [sort_by leb (zone ++ [n])] else []);
  t_work := work |}.
Proof.
  destruct pass_same as (Hsi & Hss & Hso & Hsg & Hsw). unfold close_group.
  rewrite Hss, Hstack, pop_group_spec by (by destruct leave_NoDup as (? & _)). by rewrite Hsi, Hso, Hsg, Hsw.
Qed.

(** A node off the new stack was off the old one, or is of the zone. *)
Lemma off_rest x : x ∉ rest → x ∈ zone ++ [n] ∨ x ∉ t_stack t.
Proof. rewrite Hstack. intros Hx. destruct (decide (x ∈ zone ++ [n])); [by left|right]. set_solver. Qed.

Lemma closing_looked x y (stack' : list string) (low' : gmap string nat) :
  (∀ z, z ∈ stack' → z ∈ t_stack t) → low' !!! x = t_low t !!! x → looked t x y →
  is_Some (t_index t !! y) ∧ (y ∈ stack' → low' !!! x ≤ t_index t !!! y).
Proof. intros Hs -> [Hi Hle]. split; [done|]. intros Hy%Hs. by apply Hle. Qed.

(** The new group has nothing of the groups before it. *)
Lemma closing_apart :
  NoDup (mjoin (t_groups t ++ (if 1 <? length (zone ++ [n]) then [sort_by leb (zone ++ [n])] else []))).
Proof.
  pose proof (ti_apart _ Hinv) as Ha. destruct (1 <? _); [|by rewrite app_nil_r].
  rewrite join_app. cbn. rewrite app_nil_r. apply NoDup_app. split_and!; [done| |].
  - intros x (grp & Hx & Hg)%list_elem_of_join Hz%elem_of_sort_by.
    destruct (ti_groups _ Hinv grp Hg) as [_ Hin]. destruct (Hin x Hx) as [_ Hns].
    apply Hns. rewrite Hstack. set_solver.
  - rewrite NoDup_sort_by. apply zone_NoDup.
Qed.

Lemma inv_close : tarjan_inv (close_group n t1).
Proof.
  rewrite close_group_eq. destruct leave_NoDup as (Hnz & Hnr & Hzr & _).
  assert (∀ x, x ∈ rest → x ∈ t_stack t) as Hsub by (rewrite Hstack; set_solver).
  assert (∀ x, x ∈ zone ++ [n] → x ∈ t_stack t ∧ x ∉ rest) as Hzs.
  { rewrite Hstack. intros x [Hx|Hx%list_elem_of_singleton]%elem_of_app; [|subst x];
      (split; [set_solver|auto]). }
  destruct leave_sorted as (_ & Hlt & Hsorted).
  split; cbn [t_index t_low t_stack t_on_stack t_groups t_work].
  - apply Hinv.
  - intros x Hx. by apply (ti_stack _ Hinv), Hsub.
  - done.
  - rewrite (ti_on _ Hinv), Hstack. apply set_eq. intros x.
    rewrite elem_of_difference, !elem_of_list_to_set. split.
    + intros [Hx Hn]. set_solver.
    + intros Hx. split; [set_solver|]. intros [_ ?]%Hzs. done.
  - eapply frames_low; [done|]. intros x _. apply closing_low.
  - intros x Hx. rewrite closing_low. by apply (ti_low _ Hinv), Hsub.
  - intros x Hx. rewrite closing_low. destruct (ti_back _ Hinv x (Hsub x Hx)) as (w & Hw & Hwi & ?).
    exists w. split_and!; [|done..]. pose proof (Hlt x Hx). pose proof (ti_low _ Hinv x (Hsub x Hx)).
    destruct (decide (w ∈ rest)) as [|Hwr]; [done|]. exfalso.
    rewrite Hstack in Hw. apply elem_of_app in Hw as [Hw|[->|Hw]%elem_of_cons]; [|lia|done].
    destruct leave_sorted as (Hzi & _). apply Hzi in Hw. lia.
  - intros x Hx Hxw. rewrite closing_low. apply (ti_open _ Hinv); [by apply Hsub|].
    rewrite Hwork. apply not_elem_of_cons. split; [by intros ->|done].
  - intros x es Hx. destruct (ti_work _ Hinv x es) as (d & ? & Hd); [rewrite Hwork; by right|].
    exists d. split; [done|]. intros y Hy. apply closing_looked; [done|apply closing_low|by apply Hd].
  - intros x y Hx Hxw Hxy. apply closing_looked; [done|apply closing_low|].
    apply (ti_finished _ Hinv); [by apply Hsub| |done].
    rewrite Hwork. apply not_elem_of_cons. split; [by intros ->|done].
  - intros x y Hx Hxr Hxy. destruct (off_rest x Hxr) as [Hz|Hs]; [by apply (zone_edges Hroot x)|].
    destruct (ti_closed _ Hinv x y Hx Hs Hxy) as [? Hys]. split; [done|]. by intros ?%Hsub.
  - intros grp [Hg|Hg]%elem_of_app.
    + destruct (ti_groups _ Hinv grp Hg) as [? Hin]. split; [done|]. intros x Hx.
      destruct (Hin x Hx). split; [done|]. by intros ?%Hsub.
    + destruct (1 <? length (zone ++ [n])) eqn:Hl; [|by apply elem_of_nil in Hg].
      apply list_elem_of_singleton in Hg as ->. apply Nat.ltb_lt in Hl.
      split; [by apply zone_is_group|]. intros x [Hxs ?]%elem_of_sort_by%Hzs. split; [|done].
      by apply (ti_stack _ Hinv).
  - apply closing_apart.
  - intros x y Hx Hxr Hxy Hm. destruct (off_rest x Hxr) as [Hz|Hs].
    + exists (sort_by leb (zone ++ [n])). rewrite elem_of_sort_by. split; [|done]. apply elem_of_app. right.
      assert (y ∈ zone ++ [n]) as Hy by (by apply (zone_mutual Hroot x)).
      assert (1 < length (zone ++ [n])) as Hl.
      { destruct zone as [|z zone']; [|rewrite length_app; cbn; lia]. set_solver. }
      apply Nat.ltb_lt in Hl. rewrite Hl. by left.
    + destruct (ti_complete _ Hinv x y Hx Hs Hxy Hm) as (grp & Hg & ?). exists grp.
      split; [|done]. apply elem_of_app. by left.
Qed.
End closing.

Lemma inv_leave : tarjan_inv (leave n (set_work work t)).
Proof.
  unfold leave. destruct pass_same as (Hsi & _). rewrite Hsi.
  rewrite pass_low_outside by (by destruct leave_NoDup as (_ & ? & _)).
  case_decide; [by apply inv_close|by apply inv_open].
Qed.
End leave.

Lemma inv_init : tarjan_inv tarjan_init.
Proof.
  split; cbn; try (by intros ? ?%elem_of_nil); try done.
  - constructor.
  - constructor.
  - by intros ? ? ?%elem_of_nil.
  - by intros ? ? [].
  - constructor.
  - by intros ? ? [].
Qed.

(** ** The turns of a search *)
Inductive turn (t : tarjan) : tarjan → Prop :=
  | turn_skip n skipped es work :
      t_work t = (n, skipped ++ es) :: work → skipped ≠ [] →
      (∀ z, z ∈ skipped → is_Some (t_index t !! z) ∧ z ∉ t_stack t) →
      turn t (set_work ((n, es) :: work) t)
  | turn_edge n y es work i :
      t_work t = (n, y :: es) :: work → y ∈ t_stack t → t_index t !! y = Some i →
      turn t (set_low n (t_low t !!! n `min` i) (set_work ((n, es) :: work) t))
  | turn_enter n y es work :
      t_work t = (n, y :: es) :: work → t_index t !! y = None →
      turn t (enter y (set_work ((n, es) :: work) t))
  | turn_leave n work :
      t_work t = (n, []) :: work → turn t (leave n (set_work work t)).

Lemma work_edge t n y es work :
  tarjan_inv t → t_work t = (n, y :: es) :: work → points_to n y.
Proof.
  intros Hinv Hw. destruct (ti_work _ Hinv n (y :: es)) as (d & He & _); [rewrite Hw; left|].
  unfold points_to. rewrite He. set_solver.
Qed.

Lemma inv_turn t t' : tarjan_inv t → turn t t' → tarjan_inv t'.
Proof.
  intros Hinv [n skipped es work Hw _ Hsk|n y es work i Hw Hy Hi|n y es work Hw Hy|n work Hw].
  - by eapply inv_skip.
  - by eapply inv_edge.
  - apply inv_enter; [done|by eapply Hnodes, work_edge|done|]. rewrite Hw. eauto.
  - pose proof (ti_frames _ Hinv) as Hf. rewrite Hw in Hf.
    apply frames_inv in Hf as (zone & rest & Hst & Hf & Hp & Hz).
    by apply (inv_leave t n work zone rest Hinv Hw).
Qed.

(** What the search has left to look at: the nodes not seen, the edges of those being visited. *)
Definition unseen (t : tarjan) (i : string) : nat :=
  match t_index t !! i with Some _ => 0 | None => S (length (edges i)) end.

Definition work_left (w : list (string * list string)) : nat :=
  sum_list ((λ p, S (length p.2)) <$> w).

Definition tarjan_left (t : tarjan) : nat :=
  sum_list (unseen t <$> nodes) + work_left (t_work t).

Lemma unseen_index t t' : t_index t' = t_index t → unseen t' <$> nodes = unseen t <$> nodes.
Proof. intros Hi. apply list_fmap_ext. intros _ i _. unfold unseen. by rewrite Hi. Qed.

Lemma enter_left t y :
  y ∈ nodes → t_index t !! y = None → tarjan_left (enter y t) ≤ tarjan_left t.
Proof.
  intros Hy Hn. unfold tarjan_left, work_left. cbn [enter t_work].
  pose proof (sum_list_drop (unseen t) (unseen (enter y t)) (nodes) y Hy) as Hd.
  assert (unseen t y = S (length (edges y))) as Hu by (unfold unseen; by rewrite Hn).
  rewrite Hu in Hd. cbn. enough (sum_list (unseen (enter y t) <$> nodes) + S (length (edges y)) ≤
    sum_list (unseen t <$> nodes)) by lia. apply Hd.
  - unfold unseen. cbn. by rewrite lookup_insert_eq.
  - intros i. unfold unseen. cbn. destruct (decide (i = y)) as [->|].
    + rewrite lookup_insert_eq. lia.
    + by rewrite lookup_insert_ne.
Qed.

Lemma leave_same n t : t_index (leave n t) = t_index t ∧ t_work (leave n t) = t_work t.
Proof.
  destruct (pass_low_same t n) as (Hi & _ & _ & _ & Hw). unfold leave.
  case_decide; [|done]. unfold close_group. destruct (pop_group n _). done.
Qed.

Lemma turn_decreases t t' : tarjan_inv t → turn t t' → tarjan_left t' < tarjan_left t.
Proof.
  intros Hinv Ht. assert (∀ n es es' work, t_work t = (n, es) :: work → length es' < length es →
    tarjan_left (set_work ((n, es') :: work) t) < tarjan_left t) as Hless.
  { intros n es es' work Hw Hlt. unfold tarjan_left, work_left.
    rewrite Hw, (unseen_index t) by done. cbn. lia. }
  destruct Ht as [n skipped es work Hw Hne Hsk|n y es work i Hw Hy Hi|n y es work Hw Hy|n work Hw].
  - apply (Hless _ _ _ _ Hw). rewrite length_app. destruct skipped; [done|cbn; lia].
  - unfold tarjan_left. rewrite (unseen_index t) by done. cbn [set_low set_work t_work].
    specialize (Hless n _ es work Hw). unfold tarjan_left in Hless. cbn in Hless. apply Hless. lia.
  - eapply Nat.le_lt_trans; [apply enter_left; [by eapply Hnodes, work_edge|done]|].
    apply (Hless _ _ _ _ Hw). cbn. lia.
  - destruct (leave_same n (set_work work t)) as [Hi Hlw]. unfold tarjan_left.
    rewrite Hlw, (unseen_index t), Hw by done. unfold work_left. cbn. lia.
Qed.

Lemma turn_mono t t' x : turn t t' → is_Some (t_index t !! x) → is_Some (t_index t' !! x).
Proof.
  intros [n skipped es work Hw Hne Hsk|n y es work i Hw Hy Hi|n y es work Hw Hy|n work Hw] Hx; try done.
  - cbn. destruct (decide (x = y)) as [->|].
    + by rewrite lookup_insert_eq.
    + by rewrite lookup_insert_ne.
  - by rewrite (proj1 (leave_same n _)).
Qed.

Lemma turns_inv t t' : tc turn t t' → tarjan_inv t → tarjan_inv t'.
Proof. induction 1; eauto using inv_turn. Qed.

Lemma turns_left t t' : tc turn t t' → tarjan_inv t → tarjan_left t' < tarjan_left t.
Proof.
  induction 1 as [|t t1 t' Ht _ IH]; intros Hinv; [by apply turn_decreases|].
  assert (tarjan_left t' < tarjan_left t1) by (by apply IH, (inv_turn t)).
  pose proof (turn_decreases t t1 Hinv Ht). lia.
Qed.

Lemma turns_mono t t' x : tc turn t t' → is_Some (t_index t !! x) → is_Some (t_index t' !! x).
Proof. induction 1; eauto using turn_mono. Qed.

(** ** A program's search

    The interface between the proofs here and a program's loop: its turn is one or more of these. *)
Class TarjanStep (step : tarjan → tarjan) : Prop :=
  step_turns t : tarjan_inv t → t_work t ≠ [] → tc turn t (step t).

Section loop.
Context (step : tarjan → tarjan).

Fixpoint tarjan_loop (fuel : nat) (t : tarjan) : tarjan :=
  match fuel with
  | O => t
  | S fuel => match t_work t with [] => t | _ => tarjan_loop fuel (step t) end
  end.

Definition tarjan_fuel : nat := sum_list ((λ i, S (length (edges i))) <$> nodes).

Definition tarjan_root (t : tarjan) (root : string) : tarjan :=
  match t_index t !! root with
  | Some _ => t
  | None => tarjan_loop tarjan_fuel (enter root t)
  end.

Context `{!TarjanStep step}.

Lemma inv_loop fuel t : tarjan_inv t → tarjan_inv (tarjan_loop fuel t).
Proof.
  revert t. induction fuel as [|fuel IH]; intros t Hinv; cbn [tarjan_loop]; [done|].
  destruct (t_work t) eqn:Hw; [done|]. apply IH, (turns_inv t); [|done].
  apply step_turns; [done|by rewrite Hw].
Qed.

(** With fuel for what is left, the loop ends. *)
Lemma tarjan_loop_done fuel t :
  tarjan_inv t → tarjan_left t ≤ fuel → t_work (tarjan_loop fuel t) = [].
Proof.
  revert t. induction fuel as [|fuel IH]; intros t Hinv Hle; cbn [tarjan_loop].
  - unfold tarjan_left, work_left in Hle. destruct (t_work t); [done|]. cbn in Hle. lia.
  - destruct (t_work t) eqn:Hw; [done|].
    assert (tc turn t (step t)) as Ht by (apply step_turns; [done|by rewrite Hw]).
    apply IH; [by apply (turns_inv t)|]. pose proof (turns_left _ _ Ht Hinv). lia.
Qed.

Lemma loop_mono fuel t x :
  tarjan_inv t → is_Some (t_index t !! x) → is_Some (t_index (tarjan_loop fuel t) !! x).
Proof.
  revert t. induction fuel as [|fuel IH]; intros t Hinv Hx; cbn [tarjan_loop]; [done|].
  destruct (t_work t) eqn:Hw; [done|].
  assert (tc turn t (step t)) as Ht by (apply step_turns; [done|by rewrite Hw]).
  apply IH; [by apply (turns_inv t)|by apply (turns_mono t)].
Qed.

Lemma root_inv t root :
  tarjan_inv t → t_work t = [] → root ∈ nodes →
  tarjan_inv (tarjan_root t root) ∧ t_work (tarjan_root t root) = [] ∧
  (∀ x, is_Some (t_index t !! x) ∨ x = root → is_Some (t_index (tarjan_root t root) !! x)).
Proof.
  intros Hinv Hw Hroot. unfold tarjan_root. destruct (t_index t !! root) eqn:Hi.
  - split_and!; [done..|]. intros x [?| ->]; [done|by rewrite Hi].
  - assert (tarjan_inv (enter root t)) as Hinv'.
    { assert (t = set_work [] t) as -> by (destruct t; cbn in *; by subst).
      apply inv_enter; [done..|]. by rewrite Hw. }
    split_and!; [by apply inv_loop| |].
    + apply tarjan_loop_done; [done|]. etrans; [by apply enter_left|].
      unfold tarjan_left. rewrite Hw. cbn. rewrite Nat.add_0_r. apply sum_list_mono.
      intros x _. unfold unseen. destruct (t_index t !! x); lia.
    + intros x Hx. apply loop_mono; [done|]. cbn. destruct (decide (x = root)) as [->|Hne].
      * by rewrite lookup_insert_eq.
      * rewrite lookup_insert_ne by done. by destruct Hx.
Qed.

Lemma roots_inv l t :
  tarjan_inv t → t_work t = [] → l ⊆ nodes →
  let t' := foldl (tarjan_root) t l in
  tarjan_inv t' ∧ t_work t' = [] ∧
  (∀ x, is_Some (t_index t !! x) ∨ x ∈ l → is_Some (t_index t' !! x)).
Proof.
  revert t. induction l as [|root l IH]; intros t Hinv Hw Hl; cbn [foldl].
  - split_and!; [done..|]. intros x [?|?%elem_of_nil]; done.
  - destruct (root_inv t root Hinv Hw) as (Hinv' & Hw' & Hm); [apply Hl; left|].
    destruct (IH _ Hinv' Hw') as (? & ? & Hm'); [set_solver|]. split_and!; [done..|].
    intros x Hx. apply Hm'. rewrite elem_of_cons in Hx.
    destruct Hx as [Hx|[->|Hx]]; [left; apply Hm; tauto|left; apply Hm; tauto|by right].
Qed.

(** The groups found are components, none shares a node with another, and every root that is in a
    component of two or more is in a group. *)
Lemma tarjan_groups roots :
  roots ⊆ nodes →
  let t := foldl tarjan_root tarjan_init roots in
  (∀ grp, grp ∈ t_groups t → is_group grp) ∧ NoDup (mjoin (t_groups t)) ∧
  (∀ x y, x ∈ roots → x ≠ y → mutual x y → ∃ grp, grp ∈ t_groups t ∧ x ∈ grp).
Proof.
  intros Hroots. destruct (roots_inv roots tarjan_init) as (Hinv & Hw & Hm); [apply inv_init|done|done|].
  set (t := foldl _ _ _) in *. cbn.
  assert (t_stack t = []) as Hst.
  { pose proof (ti_frames _ Hinv) as Hf. rewrite Hw in Hf. by inversion Hf. }
  split_and!; [|apply (ti_apart _ Hinv)|].
  - intros grp Hg. by destruct (ti_groups _ Hinv grp Hg).
  - intros x y Hx Hxy Hmut. apply (ti_complete _ Hinv x y); [|by rewrite Hst; apply not_elem_of_nil|done..].
    apply Hm. by right.
Qed.
End loop.
End invariant.
End components.
