(* ===== verification/Kosaraju.v ===== *)
(** Strongly connected components as the validation rules find them ([strongly_connected] of
    src/engines/validation/rules/consistency.py): Kosaraju's algorithm, with both searches iterative.

    [strongly_connected_groups]: its groups are exactly the classes of nodes that lead to each other. *)
From Stdlib Require Import Lia.
From S2P Require Import Prelude Data Topology Components.

(** * The algorithm *)

(** The first search: what was seen, the nodes in the order they were left, and the nodes being visited,
    the last one first, each with the successors not yet tried. *)
Record dfs := { d_seen : gset string; d_order : list string; d_stack : list (string * list string) }.

(** [next((s for s in successors if s not in seen), None)], and what it leaves of the iterator. *)
Fixpoint next_unseen (seen : gset string) (successors : list string) : option (string * list string) :=
  match successors with
  | [] => None
  | s :: r => if decide (s ∈ seen) then next_unseen seen r else Some (s, r)
  end.

Section algorithm.
Context (edges : dict string (list string)).

Definition edges_of (node : string) : list string := default [] (dict_get node edges).

Definition dfs_step (t : dfs) : dfs :=
  match d_stack t with
  | [] => t
  | (node, successors) :: stack =>
      match next_unseen (d_seen t) successors with
      | None => {| d_seen := d_seen t; d_order := d_order t ++ [node]; d_stack := stack |}
      | Some (nxt, rest) =>
          {| d_seen := {[nxt]} ∪ d_seen t; d_order := d_order t;
             d_stack := (nxt, edges_of nxt) :: (node, rest) :: stack |}
      end
  end.

Fixpoint dfs_loop (fuel : nat) (t : dfs) : dfs :=
  match fuel, d_stack t with
  | S fuel, _ :: _ => dfs_loop fuel (dfs_step t)
  | _, _ => t
  end.

Definition dfs_start (start : string) (t : dfs) : dfs :=
  {| d_seen := {[start]} ∪ d_seen t; d_order := d_order t; d_stack := [(start, edges_of start)] |}.

(** Every node is entered and left once. *)
Definition dfs_fuel (nodes : list string) : nat := 2 * length nodes.

Definition dfs_root (nodes : list string) (t : dfs) (start : string) : dfs :=
  if decide (start ∈ d_seen t) then t else dfs_loop (dfs_fuel nodes) (dfs_start start t).

Definition finish_order (nodes : list string) : list string :=
  d_order (foldl (dfs_root nodes) {| d_seen := ∅; d_order := []; d_stack := [] |} nodes).

(** [reverse]: the sources of the edges into a node. *)
Definition reverse_edges (nodes : list string) : dict string (list string) :=
  foldl (λ index p, append_to index p.2 p.1) [] (nodes ≫= λ source, pair source <$> edges_of source).

(** The second search, from one node: what is assigned, and the group found. *)
Fixpoint gather (fuel : nat) (reverse : dict string (list string)) (assigned : gset string)
    (group frontier : list string) : gset string * list string :=
  match fuel with
  | O => (assigned, group)
  | S fuel =>
      match pop_right frontier with
      | None => (assigned, group)
      | Some (node, rest) =>
          let '(assigned, frontier) := expand (assigned, rest) (default [] (dict_get node reverse)) in
          gather fuel reverse assigned (group ++ [node]) frontier
      end
  end.

Definition gather_root (nodes : list string) (st : gset string * list (list string)) (start : string) :
    gset string * list (list string) :=
  let '(assigned, groups) := st in
  if decide (start ∈ assigned) then st
  else
    let '(assigned, group) :=
      gather (S (length nodes)) (reverse_edges nodes) ({[start]} ∪ assigned) [] [start] in
    (assigned, groups ++ [sort_by str_leb group]).

Definition strongly_connected (nodes : list string) : list (list string) :=
  sort_by (list_leb str_leb) (foldl (gather_root nodes) (∅, []) (reverse (finish_order nodes))).2.
End algorithm.

(** * The first search *)
Lemma next_unseen_spec seen l :
  match next_unseen seen l with
  | None => ∀ s, s ∈ l → s ∈ seen
  | Some (s, r) => (s ∉ seen) ∧ s ∈ l ∧ (∀ x, x ∈ l → x ∈ seen ∨ x = s ∨ x ∈ r) ∧ (∀ x, x ∈ r → x ∈ l)
  end.
Proof.
  induction l as [|s l IH]; simpl; [by intros s Hs%elem_of_nil|]. case_decide as Hs.
  - destruct (next_unseen seen l) as [[s' r]|]; set_solver.
  - set_solver.
Qed.

Section search.
Context (edges : dict string (list string)) (nodes : list string).
Context (Hclosed : ∀ x y, y ∈ edges_of edges x → y ∈ nodes).

Abbreviation leads := (points_to (edges_of edges)).

(** Each node on the stack leads to the one above it. *)
Fixpoint chained (stack : list (string * list string)) : Prop :=
  match stack with
  | (n, _) :: (((m, _) :: _) as rest) => leads m n ∧ chained rest
  | _ => True
  end.

(** From the nodes left up to [x], every edge goes to a node left before [x], to [x], or to a node that
    leads to [x]. *)
Definition settled_up_to (before : list string) (x : string) : Prop :=
  ∀ u v, u ∈ before ++ [x] → leads u v → v ∈ before ++ [x] ∨ rtc leads v x.

Record dfs_inv (t : dfs) : Prop := {
  di_seen : ∀ x, x ∈ d_seen t ↔ x ∈ d_order t ++ (d_stack t).*1;
  di_distinct : NoDup (d_order t ++ (d_stack t).*1);
  di_known : ∀ x, x ∈ d_seen t → x ∈ nodes;
  di_chained : chained (d_stack t);
  di_tried : ∀ n rest y, (n, rest) ∈ d_stack t → leads n y → y ∈ d_seen t ∨ y ∈ rest;
  di_rest : ∀ n rest y, (n, rest) ∈ d_stack t → y ∈ rest → leads n y;
  di_left : ∀ u v, u ∈ d_order t → leads u v → v ∈ d_seen t;
  di_settled : ∀ l1 x l2, d_order t = l1 ++ x :: l2 → settled_up_to l1 x;
}.

Lemma chained_top n rest stack x : chained ((n, rest) :: stack) → x ∈ (((n, rest) :: stack).*1) → rtc leads x n.
Proof using Type.
  revert n rest. induction stack as [|[m es] stack IH]; intros n rest Hc Hx.
  - apply list_elem_of_singleton in Hx as ->. done.
  - destruct Hc as [Hl Hc]. apply elem_of_cons in Hx as [-> | Hx]; [done|].
    eapply rtc_r; [by apply (IH m es)|done].
Qed.

Lemma settled_snoc (order l1 l2 : list string) x n :
  order ++ [n] = l1 ++ x :: l2 → (order = l1 ∧ x = n) ∨ ∃ l2', order = l1 ++ x :: l2'.
Proof using Type.
  intros H. destruct (decide (l2 = [])) as [-> | Hne].
  - apply app_inj_tail in H as [-> ->]. by left.
  - destruct l2 as [|y l2 _] using rev_ind; [done|]. right. exists l2.
    rewrite app_comm_cons, app_assoc in H. by apply app_inj_tail in H as [-> _].
Qed.

Lemma dfs_inv_step t : dfs_inv t → dfs_inv (dfs_step edges t).
Proof using Hclosed.
  intros [S D K C T R L P]. unfold dfs_step. destruct (d_stack t) as [|[n es] stack] eqn:E; [constructor; by rewrite ?E|].
  pose proof (next_unseen_spec (d_seen t) es) as Hn. destruct (next_unseen (d_seen t) es) as [[y rest]|].
  - destruct Hn as (Hy & Hin & Hes & Hrest).
    assert (leads n y) as Hny by (apply (R n es); [left|done]).
    constructor; simpl in *.
    + intros x. rewrite elem_of_union, elem_of_singleton, S. set_solver.
    + rewrite <- Permutation_middle. apply NoDup_cons. split; [by rewrite <- S|done].
    + intros x [->%elem_of_singleton | Hx]%elem_of_union; [by apply (Hclosed n)|by apply K].
    + destruct stack as [|[m ms] stack]; [done|]. by destruct C.
    + intros m ms z [[= -> ->]|[[= -> ->]|Hm]%elem_of_cons]%elem_of_cons Hz; [by right| |].
      * destruct (T n es z ltac:(left) Hz) as [Hz'|[Hz'|[-> | Hz']]%Hes]; set_solver.
      * destruct (T m ms z ltac:(by right) Hz); set_solver.
    + intros m ms z [[= -> ->]|[[= -> ->]|Hm]%elem_of_cons]%elem_of_cons Hz; [done| |].
      * apply (R n es); [left|by apply Hrest].
      * apply (R m ms); [by right|done].
    + intros u v Hu Hv. apply elem_of_union. right. by apply (L u).
    + done.
  - constructor; simpl in *.
    + intros x. rewrite S. set_solver.
    + by rewrite <- app_assoc.
    + done.
    + destruct stack as [|[m ms] stack]; [done|]. by destruct C.
    + intros m ms z Hm. apply T. by right.
    + intros m ms z Hm. apply R. by right.
    + intros u v [Hu | ->%list_elem_of_singleton]%elem_of_app Hv; [by apply (L u)|].
      destruct (T n es v ltac:(left) Hv) as [?|?]; [done|by apply Hn].
    + intros l1 x l2 H. apply settled_snoc in H as [[<- ->]|[l2' H]]; [|by apply (P l1 x l2')].
      intros u v Hu Hv.
      assert (v ∈ d_seen t) as Hseen.
      { apply elem_of_app in Hu as [Hu | ->%list_elem_of_singleton]; [by apply (L u)|].
        destruct (T n es v ltac:(left) Hv) as [?|?]; [done|by apply Hn]. }
      apply S, elem_of_app in Hseen as [Hseen|Hseen]; [left; apply elem_of_app; by left|].
      right. by apply (chained_top n es stack).
Qed.

Definition dfs_left (t : dfs) : nat := 2 * size ((list_to_set nodes : gset string) ∖ d_seen t) + length (d_stack t).

Lemma dfs_step_left t : dfs_inv t → d_stack t ≠ [] → dfs_left (dfs_step edges t) < dfs_left t.
Proof using Hclosed.
  intros Hinv Hne. unfold dfs_left, dfs_step. destruct (d_stack t) as [|[n es] stack] eqn:E; [done|].
  pose proof (next_unseen_spec (d_seen t) es) as Hn. destruct (next_unseen (d_seen t) es) as [[y rest]|]; simpl; [|lia].
  destruct Hn as (Hy & Hin & _).
  assert (y ∈ nodes) as Hk by (apply (Hclosed n), (di_rest t Hinv n es); [rewrite E; left|done]).
  pose proof (size_unseen (list_to_set nodes) (d_seen t) y ltac:(set_solver) Hy). lia.
Qed.

(** The search ends, and has left all it entered. *)
Lemma dfs_loop_done fuel t :
  dfs_inv t → dfs_left t ≤ fuel → dfs_inv (dfs_loop edges fuel t) ∧ d_stack (dfs_loop edges fuel t) = [] ∧
  d_seen t ⊆ d_seen (dfs_loop edges fuel t).
Proof using Hclosed.
  revert t. induction fuel as [|fuel IH]; intros t Hinv Hleft.
  - simpl. split_and!; [done| |done]. unfold dfs_left in Hleft. destruct (d_stack t); simpl in Hleft; [done|lia].
  - simpl. destruct (d_stack t) eqn:E; [done|].
    destruct (IH (dfs_step edges t)) as (H1 & H2 & H3).
    + by apply dfs_inv_step.
    + pose proof (dfs_step_left t Hinv). rewrite E in H. specialize (H ltac:(done)). lia.
    + split_and!; [done..|]. etrans; [|exact H3]. unfold dfs_step. rewrite E. destruct p as [n es].
      destruct (next_unseen _ _) as [[y rest]|]; simpl; set_solver.
Qed.

Lemma dfs_inv_start t start :
  dfs_inv t → d_stack t = [] → start ∉ d_seen t → start ∈ nodes → dfs_inv (dfs_start edges start t).
Proof using Hclosed.
  intros [S D K C T R L P] E Hs Hk. rewrite E, app_nil_r in *. constructor; simpl in *.
  - intros x. rewrite elem_of_union, elem_of_singleton, S. set_solver.
  - apply NoDup_app. split; [done|]. split; [|apply NoDup_singleton]. intros x Hx ->%list_elem_of_singleton. by apply Hs, S.
  - intros x [->%elem_of_singleton | Hx]%elem_of_union; [done|by apply K].
  - done.
  - intros n rest y [= -> ->]%list_elem_of_singleton Hy. by right.
  - intros n rest y [= -> ->]%list_elem_of_singleton Hy. done.
  - intros u v Hu Hv. apply elem_of_union. right. by apply (L u).
  - done.
Qed.

Lemma dfs_root_done t start :
  dfs_inv t → d_stack t = [] → start ∈ nodes →
  let t' := dfs_root edges nodes t start in
  dfs_inv t' ∧ d_stack t' = [] ∧ start ∈ d_seen t' ∧ d_seen t ⊆ d_seen t'.
Proof using Hclosed.
  intros Hinv E Hk. unfold dfs_root. case_decide as Hs; [done|].
  destruct (dfs_loop_done (dfs_fuel nodes) (dfs_start edges start t)) as (H1 & H2 & H3).
  - by apply dfs_inv_start.
  - unfold dfs_left, dfs_start, dfs_fuel. simpl.
    pose proof (size_unseen (list_to_set nodes) (d_seen t) start ltac:(set_solver) Hs).
    assert (size ((list_to_set nodes : gset string) ∖ d_seen t) ≤ length nodes); [|lia].
    etrans; [apply subseteq_size, subseteq_difference_l; reflexivity|apply size_list_to_set_le].
  - simpl in H3. split_and!; [done|done| |]; set_solver.
Qed.

Lemma dfs_roots_done roots t :
  dfs_inv t → d_stack t = [] → (∀ x, x ∈ roots → x ∈ nodes) →
  let t' := foldl (dfs_root edges nodes) t roots in
  dfs_inv t' ∧ d_stack t' = [] ∧ (∀ x, x ∈ roots ∨ x ∈ d_seen t → x ∈ d_seen t').
Proof using Hclosed.
  revert t. induction roots as [|r roots IH]; intros t Hinv E Hk; simpl.
  - split_and!; [done..|]. intros x [Hx%elem_of_nil|Hx]; done.
  - destruct (dfs_root_done t r Hinv E) as (H1 & H2 & H3 & H4); [apply Hk; left|].
    destruct (IH (dfs_root edges nodes t r)) as (I1 & I2 & I3); [done|done|intros x Hx; apply Hk; by right|].
    split_and!; [done|done|]. intros x [[-> | Hx]%elem_of_cons|Hx]; apply I3; set_solver.
Qed.

(** ** What the first search gives *)
Abbreviation order := (finish_order edges nodes).

Lemma finish_order_spec :
  NoDup order ∧ (∀ x, x ∈ order ↔ x ∈ nodes) ∧ ∀ l1 x l2, order = l1 ++ x :: l2 → settled_up_to l1 x.
Proof using Hclosed.
  assert (dfs_inv {| d_seen := ∅; d_order := []; d_stack := [] |}) as Hinit.
  { constructor; simpl.
    - set_solver.
    - constructor.
    - set_solver.
    - done.
    - set_solver.
    - set_solver.
    - set_solver.
    - intros l1 x l2 H. by destruct l1. }
  destruct (dfs_roots_done nodes _ Hinit) as ([S D K _ _ _ _ P] & E & Hall); [done|done|].
  fold (finish_order edges nodes) in *. rewrite E, app_nil_r in *. split_and!; [done| |done].
  intros x. rewrite <- S. split; [apply K|]. intros Hx. apply Hall. by left.
Qed.

(** A path out of the nodes left up to [u] passes a node that leads to [u]. *)
Lemma exit_leads l1 u l2 v z :
  order = l1 ++ u :: l2 → v ∈ l1 ++ [u] → rtc leads v z → z ∉ l1 ++ [u] → rtc leads v u.
Proof using Hclosed.
  destruct finish_order_spec as (_ & _ & Hset). intros Ho Hv Hz Hout.
  induction Hz as [v|v w z Hvw _ IH]; [done|].
  destruct (decide (w ∈ l1 ++ [u])) as [Hw|Hw]; [by eapply rtc_l; [|apply IH]|].
  destruct (Hset _ _ _ Ho v w Hv Hvw) as [?|Hwu]; [done|by eapply rtc_l].
Qed.

(** So of two nodes of which the first leads to the second, one left later leads back. *)
Lemma leads_back l1 u l2 x start :
  order = l1 ++ u :: l2 → start ∈ l2 → leads u x → mutual (edges_of edges) start x → mutual (edges_of edges) start u.
Proof using Hclosed.
  destruct finish_order_spec as (Hn & _ & Hset). intros Ho Hs Hux [Hsx Hxs].
  assert (start ∉ l1 ++ [u]) as Hout.
  { rewrite Ho in Hn. apply NoDup_app in Hn as (_ & Hd & Hn). apply NoDup_cons in Hn as [Hu Hn].
    intros [Hin | ->%list_elem_of_singleton]%elem_of_app; [|done]. apply (Hd start Hin). by right. }
  split; [|by eapply rtc_l].
  destruct (Hset _ _ _ Ho u x) as [Hx|Hxu]; [apply elem_of_app; right; left|done| |by etrans].
  etrans; [exact Hsx|]. by eapply (exit_leads l1 u l2 x start).
Qed.

(** ** The second search *)
Lemma reverse_get pairs (index : dict string (list string)) k :
  default [] (dict_get k (foldl (λ index p, append_to index p.2 p.1) index pairs)) =
  default [] (dict_get k index) ++ (filter (λ p : string * string, p.2 = k) pairs).*1.
Proof using Type.
  revert index. induction pairs as [|[a b] pairs IH]; intros index; cbn [foldl]; [by rewrite app_nil_r|].
  rewrite IH, append_to_get, <- app_assoc, filter_cons. cbn [fst snd].
  destruct (decide (k = b)), (decide (b = k)); [done|congruence|congruence|done].
Qed.

Lemma elem_of_reverse x y : y ∈ default [] (dict_get x (reverse_edges edges nodes)) ↔ y ∈ nodes ∧ leads y x.
Proof using Type.
  unfold reverse_edges. rewrite reverse_get. simpl. rewrite list_elem_of_fmap. split.
  - intros ([a b] & -> & Hp). apply list_elem_of_filter in Hp as [<- Hp].
    apply list_elem_of_bind in Hp as (a' & Hp & Ha). apply list_elem_of_fmap in Hp as (b' & [= -> ->] & Hb). done.
  - intros [Hy Hx]. exists (y, x). split; [done|]. apply list_elem_of_filter. split; [done|].
    apply list_elem_of_bind. exists y. split; [|done]. apply list_elem_of_fmap. by exists x.
Qed.

Section gather.
Context (assigned : gset string) (l1 : list string) (start : string) (l2 : list string).
Context (Horder : order = l1 ++ start :: l2) (Hlater : ∀ x, x ∈ l2 → x ∈ assigned).
Context (Hwhole : ∀ x y, x ∈ assigned → mutual (edges_of edges) x y → y ∈ assigned).
Context (Hstart : start ∉ assigned).

Record gather_inv (now : gset string) (group frontier : list string) : Prop := {
  gi_assigned : ∀ x, x ∈ now ↔ x ∈ assigned ∨ x ∈ group ++ frontier;
  gi_distinct : NoDup (group ++ frontier);
  gi_new : ∀ x, x ∈ group ++ frontier → x ∉ assigned;
  gi_mutual : ∀ x, x ∈ group ++ frontier → mutual (edges_of edges) start x;
  gi_closed : ∀ x y, x ∈ group → leads y x → y ∈ nodes → y ∈ now;
  gi_start : start ∈ group ++ frontier;
}.

Lemma mutual_known x : mutual (edges_of edges) start x → x ∈ nodes.
Proof using Hclosed Horder.
  destruct finish_order_spec as (_ & Hin & _). intros [Hx _].
  apply rtc_inv_r in Hx as [<-|(y & _ & Hy)]; [|by apply (Hclosed y)].
  apply Hin. rewrite Horder. apply elem_of_app. right. left.
Qed.

Lemma found_mutual x y :
  mutual (edges_of edges) start x → y ∈ nodes → leads y x → y ∉ assigned → mutual (edges_of edges) start y.
Proof using Hclosed Horder Hlater Hstart.
  destruct finish_order_spec as (_ & Hin & _). intros Hx Hy Hyx Hnew. apply Hin in Hy. rewrite Horder in Hy.
  apply elem_of_app in Hy as [Hy|[-> | Hy]%elem_of_cons]; [|done|by destruct Hnew; apply Hlater].
  apply list_elem_of_split in Hy as (a & b & ->).
  apply (leads_back a y (b ++ start :: l2) x start); try done.
  - by rewrite Horder, <- app_assoc.
  - apply elem_of_app. right. left.
Qed.

Lemma gather_inv_step now group frontier x rest :
  gather_inv now group frontier → pop_right frontier = Some (x, rest) →
  let st := expand (now, rest) (default [] (dict_get x (reverse_edges edges nodes))) in
  gather_inv st.1 (group ++ [x]) st.2.
Proof using Hclosed Horder Hlater Hstart Hwhole.
  intros [A D N M C I] Hpop. pose proof (pop_Some _ _ _ Hpop) as Hp.
  destruct (expand_frontier pop_right (λ _, []) (now, rest) (default [] (dict_get x (reverse_edges edges nodes)))) as (new & Hf & Hnew & Hin & Hs).
  cbv zeta. rewrite Hf, Hs. cbn [fst snd] in *.
  assert (Hperm : ((group ++ [x]) ++ rest ++ new) ≡ₚ (new ++ group ++ frontier)).
  { rewrite Hp. rewrite <- app_assoc. cbn. rewrite <- (Permutation_middle group), <- (Permutation_middle group).
    rewrite app_assoc, (Permutation_app_comm _ new). by rewrite (Permutation_middle new). }
  assert (mutual (edges_of edges) start x) as Hx by (apply M; rewrite Hp; set_solver).
  assert (∀ y, (y ∈ new) → (y ∉ now) ∧ y ∈ nodes ∧ leads y x) as Hnews.
  { intros y Hy. apply Hin in Hy as [Hy Hn]. apply elem_of_reverse in Hy as [? ?]. done. }
  constructor.
  - intros y. rewrite Hperm, elem_of_union, elem_of_list_to_set, A. set_solver.
  - rewrite Hperm. apply NoDup_app. split; [done|]. split; [|done]. intros y Hy Hy'.
    destruct (Hnews y Hy) as [Hn _]. apply Hn, A. by right.
  - intros y. rewrite Hperm, elem_of_app. intros [Hy|Hy]; [|by apply N]. destruct (Hnews y Hy) as [Hn _].
    intros Ha. apply Hn, A. by left.
  - intros y. rewrite Hperm, elem_of_app. intros [Hy|Hy]; [|by apply M]. destruct (Hnews y Hy) as (Hn & Hk & Hl).
    apply (found_mutual x); try done. intros Ha. apply Hn, A. by left.
  - intros z y [Hz | ->%list_elem_of_singleton]%elem_of_app Hl Hk; apply elem_of_union.
    + right. by apply (C z).
    + destruct (decide (y ∈ now)) as [?|Hn]; [by right|]. left. apply elem_of_list_to_set, Hin.
      split; [by apply elem_of_reverse|done].
  - rewrite Hperm, elem_of_app. by right.
Qed.

Lemma gather_done fuel now group frontier :
  gather_inv now group frontier → length nodes < fuel + length group →
  let result := gather fuel (reverse_edges edges nodes) now group frontier in
  gather_inv result.1 result.2 [].
Proof using Hclosed Horder Hlater Hstart Hwhole.
  revert now group frontier. induction fuel as [|fuel IH]; intros now group frontier Hinv Hfuel.
  - exfalso. assert (length group ≤ length nodes); [|simpl in Hfuel; lia].
    apply submseteq_length, NoDup_submseteq.
    + by apply (proj1 (proj1 (NoDup_app _ _) (gi_distinct _ _ _ Hinv))).
    + intros x Hx. apply mutual_known, (gi_mutual _ _ _ Hinv). apply elem_of_app. by left.
  - cbn [gather]. destruct (pop_right frontier) as [[x rest]|] eqn:Hpop.
    + pose proof (gather_inv_step _ _ _ _ _ Hinv Hpop) as Hstep. cbv zeta in Hstep.
      destruct (expand _ _) as [now' frontier']. apply IH; [exact Hstep|]. rewrite length_app. simpl. lia.
    + apply pop_None in Hpop as ->. done.
Qed.

Lemma gather_start : gather_inv ({[start]} ∪ assigned) [] [start].
Proof using Hclosed Horder Hlater Hstart Hwhole.
  constructor; simpl.
  - set_solver.
  - apply NoDup_singleton.
  - by intros x ->%list_elem_of_singleton.
  - by intros x ->%list_elem_of_singleton.
  - set_solver.
  - left.
Qed.

(** The nodes found are those of the group of [start]. *)
Lemma gather_group now group :
  gather_inv now group [] → start ∈ group ∧ ∀ y, y ∈ group ↔ mutual (edges_of edges) start y.
Proof using Hclosed Horder Hlater Hstart Hwhole.
  intros [A D N M C I]. rewrite app_nil_r in *. split; [done|]. intros y. split; [by apply M|]. intros [Hsy Hys].
  assert (∀ v z, rtc leads v z → z ∈ group → rtc leads start v → v ∈ group) as Hback; [|by apply (Hback y start)].
  intros v z Hvz Hz. induction Hvz as [v|v w z Hvw Hwz IH]; intros Hsv; [done|].
  assert (w ∈ group) as Hw by (apply IH; [done|by eapply rtc_r]).
  assert (mutual (edges_of edges) start v) as Hm.
  { split; [done|]. eapply rtc_l; [done|]. by apply M. }
  destruct (proj1 (A v)) as [Hv|Hv]; [by apply (C w), mutual_known| |done].
  destruct Hstart. apply (Hwhole v); [done|]. by destruct Hm.
Qed.
End gather.

(** ** All the groups *)
Record grouped (later : list string) (st : gset string * list (list string)) : Prop := {
  gr_later : ∀ x, x ∈ later → x ∈ st.1;
  gr_known : ∀ x, x ∈ st.1 ↔ x ∈ mjoin st.2;
  gr_groups : ∀ grp, grp ∈ st.2 → NoDup grp ∧ ordered_by str_leb grp ∧
    ∃ start, start ∈ nodes ∧ ∀ y, y ∈ grp ↔ mutual (edges_of edges) start y;
  gr_distinct : NoDup (mjoin st.2);
}.

Lemma mutual_sym x y : mutual (edges_of edges) x y → mutual (edges_of edges) y x.
Proof using Type. by intros []. Qed.

Lemma mutual_trans x y z : mutual (edges_of edges) x y → mutual (edges_of edges) y z → mutual (edges_of edges) x z.
Proof using Type. intros [? ?] [? ?]. split; by etrans. Qed.

Lemma grouped_whole later st x y :
  grouped later st → x ∈ st.1 → mutual (edges_of edges) x y → y ∈ st.1.
Proof using Type.
  intros [_ K G _] (grp & Hx & Hg)%K%list_elem_of_join Hm. apply K, list_elem_of_join. exists grp. split; [|done].
  destruct (G grp Hg) as (_ & _ & start & _ & Hin). apply Hin. apply Hin in Hx. by eapply mutual_trans.
Qed.

Lemma grouped_step l1 start later st :
  order = l1 ++ start :: later → grouped later st → grouped (start :: later) (gather_root edges nodes st start).
Proof using Hclosed.
  intros Ho Hg. assert (∀ x y, x ∈ st.1 → mutual (edges_of edges) x y → y ∈ st.1) as Hwhole.
  { intros x y. by apply (grouped_whole later). }
  destruct st as [assigned groups]. unfold gather_root. case_decide as Hs.
  - destruct Hg. constructor; [|done..]. intros x [-> | Hx]%elem_of_cons; [done|by apply gr_later0].
  - assert (start ∈ nodes) as Hk.
    { destruct finish_order_spec as (_ & Hin & _). apply Hin. rewrite Ho. apply elem_of_app. right. left. }
    destruct Hg as [L K G D]. cbn [fst snd] in L, K, G, D, Hwhole.
    pose proof (gather_done assigned l1 start later Ho L Hwhole Hs (S (length nodes)) _ [] [start]
      (gather_start assigned l1 start later Ho L Hwhole Hs) ltac:(simpl; lia)) as Hdone. cbv zeta in Hdone.
    destruct (gather _ _ _ _ _) as [now group]. cbn [fst snd] in Hdone.
    destruct (gather_group assigned l1 start later Ho L Hwhole Hs now group Hdone) as [_ Hin].
    destruct Hdone as [A Hnd N _ _ I]. rewrite app_nil_r in *. constructor; cbn beta iota delta [fst snd].
    + intros x [-> | Hx]%elem_of_cons; apply A; [by right|left; by apply L].
    + intros x. rewrite A, K, join_app, elem_of_app. simpl. by rewrite app_nil_r, elem_of_sort_by.
    + intros grp [Hgrp | ->%list_elem_of_singleton]%elem_of_app; [by apply G|]. split_and!.
      * by rewrite sort_by_perm.
      * apply sort_by_ordered, _.
      * exists start. split; [done|]. intros y. by rewrite elem_of_sort_by.
    + rewrite join_app. simpl. rewrite app_nil_r, sort_by_perm. apply NoDup_app. split_and!; [done| |done].
      intros x Hx Hx'. apply (N x); [done|]. by apply K.
Qed.

Lemma grouped_all l1 later :
  order = l1 ++ later → grouped later (foldr (λ start st, gather_root edges nodes st start) (∅, []) later).
Proof using Hclosed.
  revert l1. induction later as [|start later IH]; intros l1 Ho; cbn [foldr].
  - constructor; simpl; [set_solver..|constructor].
  - apply (grouped_step l1); [done|]. apply (IH (l1 ++ [start])). by rewrite <- app_assoc.
Qed.
End search.

Lemma foldl_reverse {A B} (f : B → A → B) b l : foldl f b (reverse l) = foldr (λ x y, f y x) b l.
Proof. induction l as [|x l IH]; [done|]. by rewrite reverse_cons, foldl_snoc, IH. Qed.

(** What [strongly_connected] promises of its groups: each holds its nodes once and in order, they are the
    classes of nodes that lead to each other, every node is in one, and they come in order. *)
Definition connected_groups (edges : dict string (list string)) (nodes : list string) (groups : list (list string)) : Prop :=
  (∀ grp, grp ∈ groups → NoDup grp ∧ ordered_by str_leb grp ∧
    ∃ start, start ∈ nodes ∧ ∀ y, y ∈ grp ↔ mutual (edges_of edges) start y) ∧
  (∀ x, x ∈ mjoin groups ↔ x ∈ nodes) ∧ NoDup (mjoin groups) ∧ ordered_by (list_leb str_leb) groups.

(** Kosaraju's algorithm, as [strongly_connected] writes it with explicit stacks, gives the strongly
    connected components: the classes of nodes that lead to each other, each once, sorted, in sorted order.
    Both searches end. *)
Lemma strongly_connected_groups edges nodes :
  (∀ x y, y ∈ edges_of edges x → y ∈ nodes) →
  connected_groups edges nodes (strongly_connected edges nodes).
Proof.
  intros Hclosed. unfold strongly_connected. rewrite foldl_reverse.
  destruct (grouped_all edges nodes Hclosed [] (finish_order edges nodes) eq_refl) as [L K G D].
  destruct (finish_order_spec edges nodes Hclosed) as (_ & Hin & _).
  split_and!.
  - intros grp Hgrp%elem_of_sort_by. by apply G.
  - intros x. rewrite (sort_by_perm (list_leb str_leb)), <- K. split; [|intros Hx; by apply L, Hin].
    intros (grp & Hx & Hg)%K%list_elem_of_join. destruct (G grp Hg) as (_ & _ & start & Hs & Hm).
    apply Hm in Hx as [Hx _]. apply rtc_inv_r in Hx as [<-|(y & _ & Hy)]; [done|by apply (Hclosed y)].
  - by rewrite sort_by_perm.
  - apply sort_by_ordered, _.
Qed.

(** Two nodes that call each other, a third that calls one of them. *)
Definition sample_calls : dict string (list string) := [("a", ["b"]); ("b", ["a"]); ("c", ["a"])].

Example strongly_connected_sample : strongly_connected sample_calls ["c"; "b"; "a"] = [["a"; "b"]; ["c"]].
Proof. by vm_compute. Qed.
