(* ===== verification/Reliability.v ===== *)
(** What a request path requires, and how far a failure reaches (src/engines/reliability:
    dependency.py, [affected] of cascading_failure.py, [cycles] of spof.py).

    The traversals are work lists with the number of nodes as fuel; [closure_loop] keeps the order of
    the visit beside what [Prelude.search] keeps. *)
From S2P Require Import Prelude Data Errors Values Provenance Traceability Component.
From S2P Require Import Configuration Elements Model Topology Components.

Definition OUT_OF_SCOPE : list NodeKind := [CLIENT; BOUNDARY].
Definition WAITING : list ConnectionKind := [REQUEST; DATA_ACCESS].

Inductive Role := REQUIRED | OPTIONAL | NOT_A_DEPENDENCY.

#[export] Instance Role_eq_dec : EqDecision Role.
Proof. solve_decision. Defined.

Definition role (c : Connection) : Role :=
  if decide (c_kind c = REPLICATION) then NOT_A_DEPENDENCY
  else if decide (c_critical c = Some false) then OPTIONAL
  else if decide (c_kind c = DEPENDENCY) then REQUIRED
  else if decide (c_kind c ∈ WAITING ∧ c_interaction c ≠ Some ASYNCHRONOUS) then REQUIRED
  else OPTIONAL.

(** A waiting connection whose interaction the architecture does not state. *)
Definition unstated (c : Connection) : bool :=
  bool_decide (role c = REQUIRED) && bool_decide (c_kind c ∈ WAITING)
  && bool_decide (c_interaction c = None).

Record Closure := {
  cl_entry : string;
  cl_node_ids : list string;
  cl_required : list string;
  cl_optional : list string;
}.

#[export] Instance Closure_eq_dec : EqDecision Closure.
Proof. solve_decision. Defined.

(** [Closure.components]: the required nodes that can fail. *)
Definition Closure_components (t : Topology) (c : Closure) : list string :=
  filter (λ n, match node t n with
               | Some m => bool_decide (n_kind m ∉ OUT_OF_SCOPE)
               | None => false
               end = true) (cl_node_ids c).

(** * [closure] *)
Section closure.
Context (t : Topology) (avoid avoid_connections : gset string).

Record closing := {
  cg_seen : gset string;
  cg_order : list string;
  cg_required : list string;
  cg_optional : list string;
  cg_queue : list string;
}.

(** The body of the [for]. *)
Definition follow (st : closing) (c : Connection) : closing :=
  match role c with
  | REQUIRED =>
      if decide (c_target_id c ∈ avoid ∨ c_id c ∈ avoid_connections) then st
      else
        let new := negb (bool_decide (c_target_id c ∈ cg_seen st)) in {|
          cg_seen := if new then {[c_target_id c]} ∪ cg_seen st else cg_seen st;
          cg_order := if new then cg_order st ++ [c_target_id c] else cg_order st;
          cg_required := cg_required st ++ [c_id c];
          cg_optional := cg_optional st;
          cg_queue := if new then cg_queue st ++ [c_target_id c] else cg_queue st
        |}
  | OPTIONAL =>
      {| cg_seen := cg_seen st; cg_order := cg_order st; cg_required := cg_required st;
         cg_optional := cg_optional st ++ [c_id c]; cg_queue := cg_queue st |}
  | NOT_A_DEPENDENCY => st
  end.

Definition with_queue (queue : list string) (st : closing) : closing :=
  {| cg_seen := cg_seen st; cg_order := cg_order st; cg_required := cg_required st;
     cg_optional := cg_optional st; cg_queue := queue |}.

Fixpoint closure_loop (fuel : nat) (st : closing) : closing :=
  match fuel, cg_queue st with
  | S fuel, x :: queue =>
      closure_loop fuel
        (foldl follow (with_queue queue st) (sort_by (on c_id str_leb) (outgoing t x [])))
  | _, _ => st
  end.

Definition required_closure (entry : string) : Closure :=
  let st := closure_loop (S (length (ir_nodes (t_ir t))))
              {| cg_seen := {[entry]}; cg_order := [entry]; cg_required := []; cg_optional := [];
                 cg_queue := [entry] |} in
  {| cl_entry := entry; cl_node_ids := cg_order st;
     cl_required := sort_by str_leb (cg_required st);
     cl_optional := sort_by str_leb (cg_optional st) |}.
End closure.

(** [closure_of]: [context.memo] is a dictionary of this analysis' closures. *)
Abbreviation closures := (dict (string * gset string) Closure).

Definition closure_of (t : Topology) (entry : string) (avoid : gset string) (memo : closures) :
    Closure * closures :=
  match dict_get (entry, avoid) memo with
  | Some found => (found, memo)
  | None =>
      let found := required_closure t avoid ∅ entry in
      (found, dict_set (entry, avoid) found memo)
  end.

(** [entries]: the request's, else every client. *)
Definition entries (ir : ArchitectureIR) (requested : option (list string)) : list string :=
  match requested with
  | Some l => l
  | None => n_id <$> filter (λ n, n_kind n = CLIENT) (ir_nodes ir)
  end.

(** * [affected] *)
Definition affected (t : Topology) (node_id : string) : list string :=
  let found := search pop_left
                 (λ x, c_source_id <$> filter (λ c, role c = REQUIRED) (incoming t x []))
                 (S (length (ir_nodes (t_ir t)))) ({[node_id]}, [node_id]) in
  let seen := found.1 ∖ {[node_id]} in
  n_id <$> filter (λ n, n_id n ∈ seen) (ir_nodes (t_ir t)).

(** * [cycles] *)
Section cycles.
Context (t : Topology).

Definition targets (n : string) : list string :=
  sorted_set (c_target_id <$> filter (λ c, role c = REQUIRED) (outgoing t n [])).

(** One turn of [while work]: [child = next(children, None)], and what is done with it. *)
Definition cycle_step (s : tarjan) : tarjan :=
  match t_work s with
  | [] => s
  | (node, child :: children) :: work =>
      let s := set_work ((node, children) :: work) s in
      match t_index s !! child with
      | None => enter targets child s
      | Some n =>
          if decide (child ∈ t_on_stack s) then set_low node (t_low s !!! node `min` n) s else s
      end
  | (node, []) :: work => leave str_leb node (set_work work s)
  end.

(** The fuel counts every node of the architecture: the search may leave the nodes it was asked
    about. *)
Definition required_cycles (nodes : list string) : list (list string) :=
  sort_by (list_leb str_leb)
    (t_groups (foldl (tarjan_root targets (n_id <$> ir_nodes (t_ir t)) cycle_step) tarjan_init
                (sort_by str_leb nodes))).
End cycles.

(** * Facts *)
Section facts.
Context (ir : ArchitectureIR).
Context (Hv : valid_graph (ir_nodes ir) (ir_connections ir) (ir_assumptions ir) (ir_decisions ir)).
#[local] Abbreviation t := (Topology_of ir).

(** [x] needs [y]: a required connection leads from one to the other, and it is not avoided. *)
Definition needs (avoid avoid_connections : gset string) (x y : string) : Prop :=
  ∃ c, c ∈ ir_connections ir ∧ role c = REQUIRED ∧ c_source_id c = x ∧ c_target_id c = y ∧
    (y ∉ avoid) ∧ c_id c ∉ avoid_connections.

Lemma needs_nodes a b x y :
  needs a b x y → x ∈ n_id <$> ir_nodes ir ∧ y ∈ n_id <$> ir_nodes ir.
Proof using Hv.
  intros (c & Hc & _ & Hx & Hy & _). destruct (joined_nodes ir Hv [] x y) as [Hn Hm].
  { exists c. split_and!; [done..|by left]. }
  rewrite !list_elem_of_fmap. naive_solver.
Qed.

Section closure.
Context (avoid avoid_connections : gset string).
#[local] Abbreviation needed := (needs avoid avoid_connections).

(** The targets one visit follows, in the order it does. *)
Definition followed (x : string) : list string :=
  c_target_id <$> filter (λ c, role c = REQUIRED ∧ ¬ (c_target_id c ∈ avoid ∨ c_id c ∈ avoid_connections))
    (sort_by (on c_id str_leb) (outgoing t x [])).

Lemma elem_of_followed x y : y ∈ followed x ↔ needed x y.
Proof using.
  unfold followed, needs. rewrite list_elem_of_fmap. setoid_rewrite list_elem_of_filter.
  setoid_rewrite elem_of_sort_by. setoid_rewrite elem_of_outgoing. naive_solver.
Qed.

(** What the visit adds is what [search] adds, and the order is that of the queue. *)
Lemma follow_visit st cs :
  let st' := foldl (follow avoid avoid_connections) st cs in
  let ts := c_target_id <$> filter (λ c, role c = REQUIRED ∧ ¬ (c_target_id c ∈ avoid ∨ c_id c ∈ avoid_connections)) cs in
  (cg_seen st', cg_queue st') = expand (cg_seen st, cg_queue st) ts ∧
  (∀ pre, cg_order st = pre ++ cg_queue st → cg_order st' = pre ++ cg_queue st') ∧
  cg_required st' = cg_required st ++ (c_id <$> filter (λ c, role c = REQUIRED ∧ ¬ (c_target_id c ∈ avoid ∨ c_id c ∈ avoid_connections)) cs) ∧
  cg_optional st' = cg_optional st ++ (c_id <$> filter (λ c, role c = OPTIONAL) cs).
Proof using.
  revert st. induction cs as [|c cs IH]; intros st; cbn [foldl].
  { cbn. rewrite !app_nil_r. naive_solver. }
  specialize (IH (follow avoid avoid_connections st c)). cbn zeta in *.
  destruct IH as (IH1 & IH2 & IH3 & IH4). rewrite !filter_cons.
  unfold follow in IH1, IH2, IH3, IH4 |- *. destruct (role c) eqn:Hr.
  - destruct (decide (c_target_id c ∈ avoid ∨ c_id c ∈ avoid_connections)) as [Ha|Ha].
    + rewrite (decide_False (P := _ ∧ _)) by tauto. rewrite decide_False by done. done.
    + rewrite (decide_True (P := _ ∧ _)) by tauto. rewrite (decide_False (P := REQUIRED = OPTIONAL)) by done.
      cbn [cg_seen cg_order cg_required cg_optional cg_queue] in *.
      cbn [fmap list_fmap]. rewrite IH1, IH3, IH4, <- (assoc_L (++)). split_and!; [|..|done|done].
      * unfold expand. cbn [foldl]. f_equal. unfold visit. cbn [fst snd].
        case_bool_decide; cbn [negb].
        -- by rewrite decide_True.
        -- by rewrite decide_False.
      * intros pre Hpre. apply IH2. case_bool_decide; cbn [negb]; [done|].
        by rewrite Hpre, (assoc_L (++)).
  - rewrite (decide_False (P := _ ∧ _)) by (intros [? _]; done). rewrite decide_True by done.
    cbn [cg_seen cg_order cg_required cg_optional cg_queue fmap list_fmap] in *.
    rewrite IH1, IH3, IH4, <- (assoc_L (++)). done.
  - rewrite (decide_False (P := _ ∧ _)) by (intros [? _]; done). rewrite decide_False by done. done.
Qed.

(** The connections one visit follows, and those it records. *)
Definition follows (x : string) : list string :=
  c_id <$> filter (λ c, role c = REQUIRED ∧ ¬ (c_target_id c ∈ avoid ∨ c_id c ∈ avoid_connections))
    (sort_by (on c_id str_leb) (outgoing t x [])).

Definition records (x : string) : list string :=
  c_id <$> filter (λ c, role c = OPTIONAL) (sort_by (on c_id str_leb) (outgoing t x [])).

(** After the visits of [visited]. *)
Record closing_inv (visited : list string) (st : closing) : Prop := {
  ci_order : cg_order st = visited ++ cg_queue st;
  ci_seen : cg_seen st = list_to_set (cg_order st);
  ci_nodup : NoDup (cg_order st);
  ci_required : cg_required st = visited ≫= follows;
  ci_optional : cg_optional st = visited ≫= records;
}.

Lemma closing_visit visited st x queue :
  closing_inv visited st → cg_queue st = x :: queue →
  let st' := foldl (follow avoid avoid_connections) (with_queue queue st)
               (sort_by (on c_id str_leb) (outgoing t x [])) in
  closing_inv (visited ++ [x]) st' ∧
  (cg_seen st', cg_queue st') = expand (cg_seen st, queue) (followed x) ∧
  cg_order st `prefix_of` cg_order st'.
Proof using Hv.
  intros [Ho Hs Hn Hr Hp] Hq. cbn zeta.
  destruct (follow_visit (with_queue queue st) (sort_by (on c_id str_leb) (outgoing t x [])))
    as (H1 & H2 & H3 & H4). cbn [with_queue cg_seen cg_order cg_required cg_optional cg_queue] in *.
  rewrite Hq in Ho.
  specialize (H2 (visited ++ [x])). rewrite <- (assoc_L (++)) in H2. specialize (H2 Ho).
  destruct (expand_frontier pop_left followed (cg_seen st, queue) (followed x)) as (new & Hnew & Hnd & Hin & Hseen).
  cbn [fst snd] in *. unfold followed in Hnew, Hseen, Hin |- *. rewrite <- H1 in Hnew, Hseen.
  cbn [fst snd] in *. split_and!; [|exact H1|].
  2: { exists new. rewrite H2, Hnew, Ho. by rewrite <- !(assoc_L (++)). }
  split.
  - exact H2.
  - rewrite H2, Hseen, Hnew, Hs, Ho. rewrite !list_to_set_app_L. cbn. set_solver.
  - rewrite H2, Hnew, (assoc_L (++)), <- (assoc_L (++) visited). cbn. rewrite <- Ho.
    apply NoDup_app. split_and!; [done| |done]. intros y Hy [_ Hny]%Hin. apply Hny. rewrite Hs.
    by apply elem_of_list_to_set.
  - rewrite H3, Hr, bind_app. cbn. by rewrite app_nil_r.
  - rewrite H4, Hp, bind_app. cbn. by rewrite app_nil_r.
Qed.

Lemma closure_loop_search fuel visited st :
  closing_inv visited st →
  let st' := closure_loop t avoid avoid_connections fuel st in
  (cg_seen st', cg_queue st') = search pop_left followed fuel (cg_seen st, cg_queue st) ∧
  ∃ visited', closing_inv visited' st' ∧ cg_order st `prefix_of` cg_order st'.
Proof using Hv.
  revert visited st. induction fuel as [|fuel IH]; intros visited st Hinv; cbn [closure_loop search].
  - split; [done|]. by exists visited.
  - unfold pop_left at 1. cbn [snd]. destruct (cg_queue st) as [|x queue] eqn:Hq.
    + split; [by rewrite Hq|]. by exists visited.
    + destruct (closing_visit visited st x queue Hinv Hq) as (Hinv' & Heq & Hpre).
      destruct (IH _ _ Hinv') as [Hs (v & Hv' & Hp)]. rewrite Hs, Heq. split; [done|].
      exists v. split; [done|]. by etrans.
Qed.

(** The work list empties: what is visited is everything needed, each once, the entry first. *)
Lemma required_closure_visits entry :
  let c := required_closure t avoid avoid_connections entry in
  (∃ rest, cl_node_ids c = entry :: rest) ∧ NoDup (cl_node_ids c) ∧
  (∀ y, y ∈ cl_node_ids c ↔ rtc needed entry y) ∧
  cl_required c = sort_by str_leb (cl_node_ids c ≫= follows) ∧
  cl_optional c = sort_by str_leb (cl_node_ids c ≫= records).
Proof using Hv.
  unfold required_closure. set (st0 := {| cg_seen := {[entry]}; cg_order := _ |}).
  assert (closing_inv [] st0) as H0.
  { split; cbn; [done|set_solver|apply NoDup_singleton|done..]. }
  set (fuel := S _). destruct (closure_loop_search fuel [] st0 H0) as [Hs (visited & Hinv & Hp)].
  set (st := closure_loop t avoid avoid_connections fuel st0) in *. cbn [cl_node_ids cl_required cl_optional].
  set (U := list_to_set (n_id <$> ir_nodes ir) ∪ {[entry]} : gset string).
  destruct (search_reaches pop_left followed entry U) with (fuel := fuel) as (found & Hfound & Hr).
  - unfold U. set_solver.
  - intros x y _ [_ Hy]%elem_of_followed%needs_nodes. unfold U. set_solver.
  - unfold U, fuel. rewrite size_union_alt. cbn [t_ir Topology_of].
    pose proof (size_list_to_set_le (n_id <$> ir_nodes ir)) as Hle. rewrite length_fmap in Hle.
    assert (size ({[entry]} ∖ list_to_set (n_id <$> ir_nodes ir) : gset string) ≤ 1); [|lia].
    rewrite <- (size_singleton (C := gset string) entry). apply subseteq_size. set_solver.
  - cbn [st0 cg_seen cg_queue] in Hs. rewrite Hfound in Hs. injection Hs as Hseen Hqueue.
    destruct Hinv as [Ho Hset Hn Hreq Hopt]. rewrite Hqueue, app_nil_r in Ho. rewrite Ho in *.
    split_and!; [|done| |by rewrite Hreq|by rewrite Hopt].
    + destruct Hp as [rest Hp]. exists rest. exact Hp.
    + intros y. rewrite <- (elem_of_list_to_set (C := gset string)), <- Hset, Hseen, Hr.
      split; apply rtc_subrel; intros a b; unfold step_rel; by rewrite elem_of_followed.
Qed.
End closure.
End facts.

(** * Sample: the shop, where a queue and a replica hang off the database *)
Section properties.
Context (ir : ArchitectureIR) (Hb : built ArchitectureIR_new ArchitectureIR_args ir).
Context (Hns : nodes_built (ir_nodes ir)).
#[local] Abbreviation t := (Topology_of ir).

(** C37: What a request entering at [entry] requires: the closure visits exactly the nodes reached over
    required connections that are not avoided (no other node is entered, whatever the cycles), each
    once, the entry first.  Its [required] are, sorted, exactly the ids of the required connections
    of those nodes that are not avoided, its [optional] those of their optional connections. *)
Theorem closure_spec avoid avoid_connections entry :
  let c := required_closure t avoid avoid_connections entry in
  let needed := rtc (needs ir avoid avoid_connections) entry in
  (∃ rest, cl_node_ids c = entry :: rest) ∧ NoDup (cl_node_ids c) ∧
  (∀ y, y ∈ cl_node_ids c ↔ needed y) ∧
  (∀ i, i ∈ cl_required c ↔ ∃ k, k ∈ ir_connections ir ∧ c_id k = i ∧ role k = REQUIRED ∧
    needed (c_source_id k) ∧ (c_target_id k ∉ avoid) ∧ c_id k ∉ avoid_connections) ∧
  (∀ i, i ∈ cl_optional c ↔ ∃ k, k ∈ ir_connections ir ∧ c_id k = i ∧ role k = OPTIONAL ∧
    needed (c_source_id k)) ∧
  ordered_by str_leb (cl_required c) ∧ ordered_by str_leb (cl_optional c).
Proof.
  pose proof (built_architecture_graph ir Hb Hns) as Hv. cbn zeta.
  destruct (required_closure_visits ir Hv avoid avoid_connections entry) as (Hh & Hn & Hr & Hq & Ho).
  split_and!; [done..| | | |].
  - intros i. rewrite Hq, elem_of_sort_by, list_elem_of_bind. unfold follows.
    setoid_rewrite Hr. setoid_rewrite list_elem_of_fmap. setoid_rewrite list_elem_of_filter.
    setoid_rewrite elem_of_sort_by. setoid_rewrite elem_of_outgoing. naive_solver.
  - intros i. rewrite Ho, elem_of_sort_by, list_elem_of_bind. unfold records.
    setoid_rewrite Hr. setoid_rewrite list_elem_of_fmap. setoid_rewrite list_elem_of_filter.
    setoid_rewrite elem_of_sort_by. setoid_rewrite elem_of_outgoing. naive_solver.
  - rewrite Hq. apply sort_by_ordered, _.
  - rewrite Ho. apply sort_by_ordered, _.
Qed.

(** [affected] searches the reverse of what a closure follows. *)
Lemma elem_of_affected x y :
  y ∈ affected t x ↔ y ∈ n_id <$> ir_nodes ir ∧ y ≠ x ∧ rtc (needs ir ∅ ∅) y x.
Proof.
  pose proof (built_architecture_graph ir Hb Hns) as Hv.
  set (step := λ x, c_source_id <$> filter (λ c, role c = REQUIRED) (incoming t x [])).
  assert (∀ a b, b ∈ step a ↔ needs ir ∅ ∅ b a) as Hstep.
  { intros a b. unfold step, needs. rewrite list_elem_of_fmap. setoid_rewrite list_elem_of_filter.
    setoid_rewrite elem_of_incoming. set_solver. }
  set (U := list_to_set (n_id <$> ir_nodes ir) ∪ {[x]} : gset string).
  unfold affected. fold step.
  destruct (search_reaches pop_left step x U) with (fuel := S (length (ir_nodes (t_ir t)))) as (found & -> & Hr).
  - unfold U. set_solver.
  - intros a b _ [Hb' _]%Hstep%(needs_nodes ir Hv). unfold U. set_solver.
  - unfold U. rewrite size_union_alt. cbn [t_ir Topology_of].
    pose proof (size_list_to_set_le (n_id <$> ir_nodes ir)) as Hle. rewrite length_fmap in Hle.
    assert (size ({[x]} ∖ list_to_set (n_id <$> ir_nodes ir) : gset string) ≤ 1); [|lia].
    rewrite <- (size_singleton (C := gset string) x). apply subseteq_size. set_solver.
  - cbn [fst]. rewrite !list_elem_of_fmap. setoid_rewrite list_elem_of_filter.
    setoid_rewrite elem_of_difference. setoid_rewrite Hr. setoid_rewrite elem_of_singleton.
    assert (∀ z, rtc (step_rel step) x z ↔ rtc (needs ir ∅ ∅) z x) as Hrev.
    { intros z. rewrite <- (rtc_flip (needs ir ∅ ∅)).
      split; apply rtc_subrel; intros a b; unfold step_rel, flip; by rewrite Hstep. }
    setoid_rewrite Hrev. cbn [t_ir Topology_of]. naive_solver.
Qed.

(** The blast radius of a node: [affected] lists, in id order, exactly the other nodes whose
    closure contains it.  What a failure reaches is what a path of requests would need. *)
Theorem affected_converse x :
  (∀ y, y ∈ affected t x ↔
    y ∈ n_id <$> ir_nodes ir ∧ y ≠ x ∧ x ∈ cl_node_ids (required_closure t ∅ ∅ y)) ∧
  ordered_by str_leb (affected t x).
Proof.
  pose proof (built_architecture_graph ir Hb Hns) as Hv. split.
  - intros y. rewrite elem_of_affected.
    destruct (required_closure_visits ir Hv ∅ ∅ y) as (_ & _ & Hr & _). by rewrite Hr.
  - unfold affected. apply (ordered_by_fmap (on n_id str_leb)); [done|]. apply ordered_by_filter.
    cbn [t_ir Topology_of]. destruct (built_architecture_ordered ir Hb) as [-> _].
    apply sort_by_ordered, _.
Qed.
End properties.

(** * Cycles and properties *)
#[export] Instance cycle_step_turns t nodes :
  TarjanStep (targets t) str_leb nodes (cycle_step t).
Proof.
  intros s Hinv Hne. unfold cycle_step. destruct (t_work s) as [|[n [|y es]] work] eqn:Hw; [done|..].
  - apply tc_once. by apply turn_leave.
  - apply tc_once. cbn [set_work t_index t_on_stack t_low].
    destruct (t_index s !! y) as [i|] eqn:Hi; [|by eapply turn_enter].
    rewrite (ti_on _ _ _ _ Hinv). case_decide as Hy; rewrite elem_of_list_to_set in Hy.
    + by apply (turn_edge _ _ s n y).
    + apply (turn_skip _ _ s n [y]); [done..|].
      intros z ->%list_elem_of_singleton. by rewrite Hi.
Qed.

Section cycles.
Context (ir : ArchitectureIR) (Hb : built ArchitectureIR_new ArchitectureIR_args ir).
Context (Hns : nodes_built (ir_nodes ir)).
#[local] Abbreviation t := (Topology_of ir).

Lemma elem_of_targets x y : y ∈ targets t x ↔ needs ir ∅ ∅ x y.
Proof.
  unfold targets, needs. rewrite elem_of_sorted_set, list_elem_of_fmap. setoid_rewrite list_elem_of_filter.
  setoid_rewrite elem_of_outgoing. set_solver.
Qed.

(** Each requires the other, directly or through others. *)
Definition require_each_other (x y : string) : Prop :=
  rtc (needs ir ∅ ∅) x y ∧ rtc (needs ir ∅ ∅) y x.

Lemma mutual_targets x y : mutual (targets t) x y ↔ require_each_other x y.
Proof.
  unfold mutual, require_each_other. assert (∀ a b, rtc (points_to (targets t)) a b ↔ rtc (needs ir ∅ ∅) a b) as Hr.
  { intros a b. split; apply rtc_subrel; intros c d; unfold points_to; by rewrite elem_of_targets. }
  by rewrite !Hr.
Qed.

(** Circular dependencies: [cycles] returns exactly the groups of two or more components that
    require each other.  Each group is a whole strongly connected component of the required
    connections, each of its nodes once and in id order; no node is in two groups; every node asked
    about that requires another one that requires it is in a group; the groups are sorted.  The
    search ends on every architecture. *)
Theorem required_cycles_spec nodes :
  nodes ⊆ n_id <$> ir_nodes ir →
  (∀ grp, grp ∈ required_cycles t nodes →
    1 < length grp ∧ NoDup grp ∧ ordered_by str_leb grp ∧
    ∀ x y, x ∈ grp → y ∈ grp ↔ require_each_other x y) ∧
  (∀ x y, x ∈ nodes → x ≠ y → require_each_other x y →
    ∃ grp, grp ∈ required_cycles t nodes ∧ x ∈ grp) ∧
  NoDup (mjoin (required_cycles t nodes)) ∧ ordered_by (list_leb str_leb) (required_cycles t nodes).
Proof.
  intros Hnodes. pose proof (built_architecture_graph ir Hb Hns) as Hv.
  destruct (tarjan_groups (targets t) str_leb (n_id <$> ir_nodes ir)) with
    (step := cycle_step t) (roots := sort_by str_leb nodes) as (Hg & Hn & Hc).
  - intros x y Hy%elem_of_targets. by apply (needs_nodes ir Hv ∅ ∅) in Hy as [_ ?].
  - apply _.
  - apply cycle_step_turns.
  - intros x Hx%elem_of_sort_by. by apply Hnodes.
  - unfold required_cycles. cbn [t_ir Topology_of]. split_and!.
    + intros grp Hgrp%elem_of_sort_by. destruct (Hg grp Hgrp) as (H1 & H2 & H3 & H4).
      split_and!; [done..|]. intros x y Hx. rewrite <- mutual_targets. by apply H4.
    + intros x y Hx Hxy Hm. destruct (Hc x y) as (grp & Hgrp & ?).
      * by apply elem_of_sort_by.
      * done.
      * by apply mutual_targets.
      * exists grp. by rewrite elem_of_sort_by.
    + by rewrite sort_by_perm.
    + apply sort_by_ordered, _.
Qed.
End cycles.

(** ** The memo *)

(** [closure_of] is [closure]: what the memo of an analysis gives back, the first time and every
    time after, is what the search gives, whatever was asked before. *)
Theorem closure_of_memo t asked memo :
  (∀ entry avoid, dict_get (entry, avoid) memo = None ∨
    dict_get (entry, avoid) memo = Some (required_closure t avoid ∅ entry)) →
  let '(answers, _) := foldl (λ '(answers, memo) q,
    let '(found, memo) := closure_of t q.1 q.2 memo in (answers ++ [found], memo)) ([], memo) asked in
  answers = (λ q, required_closure t q.2 ∅ q.1) <$> asked.
Proof.
  assert (∀ asked answers memo,
    (∀ entry avoid, dict_get (entry, avoid) memo = None ∨
      dict_get (entry, avoid) memo = Some (required_closure t avoid ∅ entry)) →
    (foldl (λ '(answers, memo) q,
      let '(found, memo) := closure_of t q.1 q.2 memo in (answers ++ [found], memo)) (answers, memo) asked).1 =
    answers ++ ((λ q, required_closure t q.2 ∅ q.1) <$> asked)) as H.
  { clear. induction asked as [|[entry avoid] asked IH]; intros answers memo Hm; cbn [foldl];
      [by rewrite app_nil_r|].
    unfold closure_of at 2. cbn [fst snd]. destruct (Hm entry avoid) as [->| ->].
    - rewrite IH; [by rewrite <- (assoc_L (++))|]. intros e a. rewrite dict_get_set.
      case_decide as Heq; [|apply Hm]. right. by injection Heq as -> ->.
    - by rewrite IH, <- (assoc_L (++)). }
  intros Hm. specialize (H asked [] memo Hm). destruct (foldl _ _ _). exact H.
Qed.

(** ** An example: three services in a ring, a client, and a queue on the side *)
Definition ring_args : ArchitectureArgs :=
  sample_args
    [sample_node "a" SERVICE None; sample_node "b" SERVICE None; sample_node "c" SERVICE None;
     sample_node "user" CLIENT None; sample_node "z" QUEUE None]
    [sample_connection "ab" "a" "b" REQUEST; sample_connection "bc" "b" "c" REQUEST;
     sample_connection "ca" "c" "a" DEPENDENCY; sample_connection "cz" "c" "z" PUBLISH;
     sample_connection "ua" "user" "a" REQUEST].

Definition ring : ArchitectureIR :=
  match ArchitectureIR_new ring_args with Ok ir => ir | Raise _ => shop end.

Lemma ring_built : built ArchitectureIR_new ArchitectureIR_args ring.
Proof. vm_compute. reflexivity. Qed.

Lemma ring_nodes_built : nodes_built (ir_nodes ring).
Proof. repeat constructor; vm_compute; reflexivity. Qed.

Lemma closure_spec_witness :
  cl_node_ids (required_closure (Topology_of ring) ∅ ∅ "user") = ["user"; "a"; "b"; "c"] ∧
  rtc (needs ring ∅ ∅) "user" "c".
Proof.
  split; [by vm_compute|].
  apply (closure_spec ring ring_built ring_nodes_built ∅ ∅ "user").
  apply (bool_decide_unpack _). vm_compute. exact I.
Defined.

Lemma affected_converse_witness :
  affected (Topology_of ring) "c" = ["a"; "b"; "user"] ∧
  "c" ∈ cl_node_ids (required_closure (Topology_of ring) ∅ ∅ "user").
Proof.
  split; [by vm_compute|].
  destruct (affected_converse ring ring_built ring_nodes_built "c") as [H _].
  apply (H "user"). apply (bool_decide_unpack _). vm_compute. exact I.
Defined.

Lemma required_cycles_spec_witness :
  required_cycles (Topology_of ring) ["a"; "b"; "c"; "z"] = [["a"; "b"; "c"]] ∧
  require_each_other ring "a" "c".
Proof.
  split; [by vm_compute|].
  destruct (required_cycles_spec ring ring_built ring_nodes_built ["a"; "b"; "c"; "z"]) as (H & _).
  - intros x Hx. apply (bool_decide_unpack _). revert x Hx. apply Forall_forall.
    apply (bool_decide_unpack _). vm_compute. exact I.
  - destruct (H ["a"; "b"; "c"]) as (_ & _ & _ & Hm).
    + apply (bool_decide_unpack _). vm_compute. exact I.
    + apply Hm; apply (bool_decide_unpack _); vm_compute; exact I.
Defined.

Lemma closure_of_memo_witness :
  (foldl (λ '(answers, memo) q,
    let '(found, memo) := closure_of (Topology_of ring) q.1 q.2 memo in (answers ++ [found], memo))
    ([], []) [("user", ∅); ("user", ∅)]).1 =
  [required_closure (Topology_of ring) ∅ ∅ "user"; required_closure (Topology_of ring) ∅ ∅ "user"].
Proof.
  pose proof (closure_of_memo (Topology_of ring) [("user", ∅); ("user", ∅)] [] (λ _ _, or_introl eq_refl)) as H.
  destruct (foldl _ _ _) as [answers memo]. exact H.
Defined.
