(* ===== verification/StepGraph.v ===== *)
(** The dependency graph of a plan's steps (src/engines/migration/dependency_graph.py).

    [DependencyGraph] is the dictionary of steps by id, in key order.  The methods that look a step
    up ([self.steps[i]], [self.key(i)]) do it for ids of the graph, so the lookups are total here:
    an id the graph does not have has no key and waits for nothing.  [ancestors], which a caller
    gives an id, and [levels] raise.

    The loops are functions with fuel: [tarjan_fuel] and the number of steps are enough for them to
    end ([Components.tarjan_loop_done], [StepProperties.step_ancestors_spec], [kahn_done]). *)
From S2P Require Import Prelude Data Errors Plans Components.

(** * The graph *)
Record DependencyGraph := { steps : dict string MigrationStep }.

(** [{s.id: s for s in sorted(steps, key=lambda s: s.key)}]. *)
Definition DependencyGraph_of (l : list MigrationStep) : DependencyGraph :=
  {| steps := dict_of ((λ s, (ms_id s, s)) <$> sort_by (on ms_key str_leb) l) |}.

(** [next((e for e in edges if e not in index or e in on_stack), None)], and what the iterator has
    left. *)
Fixpoint advance (t : tarjan) (es : list string) : option (string * list string) :=
  match es with
  | [] => None
  | e :: es =>
      if decide (t_index t !! e = None ∨ e ∈ t_on_stack t) then Some (e, es) else advance t es
  end.

Section graph.
Context (g : DependencyGraph).

Definition step_ids : list string := dict_keys (steps g).

Definition key (i : string) : string :=
  match dict_get i (steps g) with Some s => ms_key s | None => "" end.

Definition by_key : list string → list string := sort_by (on key str_leb).

Definition depends_on (i : string) : list string :=
  match dict_get i (steps g) with Some s => ms_depends_on s | None => [] end.

Definition unknown : dict string (list string) :=
  filter (λ p, p.2 ≠ [])
    ((λ p, (p.1, filter (λ d, d ∉ step_ids) (ms_depends_on p.2))) <$> steps g).

Definition edges (i : string) : list string := by_key (filter (λ d, d ∈ step_ids) (depends_on i)).

(** ** [cycles]: Tarjan's strongly connected components, iteratively ([Components]) *)
(** One turn of [while work]. *)
Definition tarjan_step (t : tarjan) : tarjan :=
  match t_work t with
  | [] => t
  | (node, es) :: work =>
      match advance t es with
      | Some (nxt, es) =>
          let t := set_work ((node, es) :: work) t in
          match t_index t !! nxt with
          | Some n => set_low node (t_low t !!! node `min` n) t
          | None => enter edges nxt t
          end
      | None => leave (on key str_leb) node (set_work work t)
      end
  end.

(** [self.key(g[0])]; groups are never empty. *)
Definition first_key (group : list string) : string := key (default "" (head group)).

Definition cycles : list (list string) :=
  sort_by (on first_key str_leb)
    (t_groups (foldl (tarjan_root edges step_ids tarjan_step) tarjan_init step_ids)).

(** ** [ancestors] *)
Fixpoint ancestors_loop (fuel : nat) (seen : gset string) (todo : list string) : gset string :=
  match fuel with
  | O => seen
  | S fuel =>
      match pop_right todo with
      | None => seen
      | Some (current, todo) =>
          if decide (current ∈ seen) then ancestors_loop fuel seen todo
          else ancestors_loop fuel ({[current]} ∪ seen) (todo ++ edges current)
      end
  end.

Definition ancestors (i : string) : py (gset string) :=
  if decide (i ∈ step_ids)
  then Ok (ancestors_loop (tarjan_fuel edges step_ids + length (edges i)) ∅ (edges i))
  else Raise KeyError.

(** ** [order]: Kahn's topological order, ties broken by key *)
Definition discard (current : string) (p : string * gset string) : string * gset string :=
  (p.1, p.2 ∖ {[current]}).

(** The [for i, deps in waiting.items()] of one turn: what waits afterwards, and what became
    ready. *)
Definition settle (current : string) (waiting : dict string (gset string)) :
    dict string (gset string) * list string :=
  (discard current <$> waiting,
   (filter (λ p, current ∈ p.2 ∧ p.2 ∖ {[current]} = ∅) waiting).*1).

Fixpoint kahn (fuel : nat) (waiting : dict string (gset string)) (ready ordered : list string) :
    list string :=
  match fuel, ready with
  | S fuel, current :: ready =>
      let '(waiting, fresh) := settle current waiting in
      kahn fuel waiting (by_key (ready ++ fresh)) (ordered ++ [current])
  | _, _ => ordered
  end.

Definition waiting0 : dict string (gset string) :=
  (λ i, (i, list_to_set (edges i))) <$> step_ids.

Definition order : list string :=
  kahn (length step_ids) waiting0 (by_key (filter (λ p, p.2 = ∅) waiting0).*1) [].

(** ** [levels] *)

(** [max(l, default=-1)]; every level is at least 0. *)
Definition max_level (l : list Z) : Z := foldr Z.max (-1)%Z l.

Definition get_level (level : dict string Z) (d : string) : py Z :=
  match dict_get d level with Some n => Ok n | None => Raise KeyError end.

Fixpoint level_loop (order : list string) (level : dict string Z) : py (dict string Z) :=
  match order with
  | [] => Ok level
  | step :: order =>
      deps ← py_map (get_level level) (edges step);
      level_loop order (dict_set step (1 + max_level deps)%Z level)
  end.

Definition levels : py (list (list string)) :=
  if decide (unknown = [] ∧ cycles = []) then
    level ← level_loop order [];
    let count := (1 + max_level (dict_values level))%Z in
    Ok ((λ n, by_key (filter (λ p, p.2 = Z.of_nat n) level).*1) <$> seq 0 (Z.to_nat count))
  else Raise (ValueError "only a valid dependency graph can be ordered").

(** ** [findings] *)
Definition dependency_finding (p : string * list string) : py PlanFinding :=
  PlanFinding_new {|
    pf_type := INVALID_DEPENDENCY;
    pf_key := key p.1;
    pf_message := key p.1 +:+ " depends on " +:+ nat_text (length p.2)
                  +:+ " step(s) the plan does not contain.";
    pf_element_ids := [];
    pf_step_ids := [p.1];
    pf_missing := (λ m, "The step " +:+ m +:+ ", or no dependency on it.") <$> p.2;
    pf_traces := []
  |}.

Definition element_ids_of (i : string) : list string :=
  match dict_get i (steps g) with Some s => ms_element_ids s | None => [] end.

Definition cycle_finding (group : list string) : py PlanFinding :=
  PlanFinding_new {|
    pf_type := DEPENDENCY_CYCLE;
    pf_key := first_key group;
    pf_message := "These steps wait for each other, so none can be carried out first: "
                  +:+ join ", " (key <$> group) +:+ ".";
    pf_element_ids := group ≫= element_ids_of;
    pf_step_ids := group;
    pf_missing := ["A dependency removed so that one of them can be carried out first."];
    pf_traces := []
  |}.

Definition findings : py (list PlanFinding) :=
  found ← py_map dependency_finding (sort_by (on (λ p, key p.1) str_leb) unknown);
  groups ← py_map cycle_finding cycles;
  Ok (found ++ groups).
End graph.

(** * The order *)

(** [x] waits for [y]. *)
Abbreviation waits_for g := (points_to (edges g)).

(** What [DependencyGraph.of] establishes. *)
Definition graph_wf (g : DependencyGraph) : Prop := dict_wf (steps g).

Lemma DependencyGraph_of_wf l : graph_wf (DependencyGraph_of l).
Proof. apply dict_of_wf. Qed.

Section facts.
Context (g : DependencyGraph).
Local Abbreviation E := (waits_for g).

Lemma elem_of_by_key l x : x ∈ by_key g l ↔ x ∈ l.
Proof. apply elem_of_sort_by. Qed.

Lemma elem_of_edges x y : y ∈ edges g x ↔ y ∈ depends_on g x ∧ y ∈ step_ids g.
Proof. unfold edges. rewrite elem_of_by_key, list_elem_of_filter. tauto. Qed.

Lemma edges_known x y : E x y → y ∈ step_ids g.
Proof. unfold points_to. rewrite elem_of_edges. tauto. Qed.

Lemma edges_source x y : E x y → x ∈ step_ids g.
Proof.
  unfold points_to. rewrite elem_of_edges. unfold depends_on. intros [H _].
  apply dict_get_is_Some. destruct (dict_get x (steps g)); [done|set_solver].
Qed.

Lemma rtc_known x y : rtc E x y → x ∈ step_ids g → y ∈ step_ids g.
Proof. induction 1 as [|x y z Hxy _ IH]; [done|]. intros _. by apply IH, (edges_known x). Qed.

(** ** The order *)

(** A step that can be taken after those of [done]: everything it waits for is among them. *)
Definition available (done : list string) (i : string) : Prop :=
  i ∈ step_ids g ∧ (i ∉ done) ∧ (∀ d, E i d → d ∈ done).

(** Each step of [l] could be taken after those before it, and has the least key of those that
    could. *)
Definition taken_in_order (l : list string) : Prop :=
  ∀ l1 x l2, l = l1 ++ x :: l2 →
    available l1 x ∧ ∀ y, available l1 y → str_leb (key g x) (key g y).

Definition waiting_of (ordered : list string) : dict string (gset string) :=
  (λ i, (i, list_to_set (edges g i) ∖ list_to_set ordered)) <$> step_ids g.

Lemma settle_waiting current ordered :
  (settle current (waiting_of ordered)).1 = waiting_of (ordered ++ [current]).
Proof.
  unfold settle, waiting_of. cbn [fst]. rewrite <- list_fmap_compose. apply list_fmap_ext.
  intros _ i _. unfold discard. cbn. f_equal. set_solver.
Qed.

(** What becomes available when [current] is done. *)
Lemma settle_fresh current ordered i :
  i ∈ (settle current (waiting_of ordered)).2 ↔
  i ∈ step_ids g ∧ (current ∉ ordered) ∧ E i current ∧ (∀ d, E i d → d ∈ ordered ∨ d = current).
Proof.
  unfold settle, waiting_of. cbn [snd]. rewrite list_elem_of_fmap. split.
  - intros ([j s] & -> & [[Hc He] (k & [= -> ->] & Hk)%list_elem_of_fmap]%list_elem_of_filter).
    cbn in *. apply elem_of_difference in Hc as [Hc%elem_of_list_to_set Hn].
    rewrite elem_of_list_to_set in Hn. split_and!; [done..|]. intros d Hd.
    destruct (decide (d ∈ ordered)); [by left|right].
    destruct (decide (d = current)); [done|]. exfalso.
    assert (d ∈ (∅ : gset string)) as Hin; [|set_solver]. rewrite <- He.
    rewrite !elem_of_difference, !elem_of_list_to_set. set_solver.
  - intros (Hi & Hn & Hc & Hd). exists (i, list_to_set (edges g i) ∖ list_to_set ordered).
    split; [done|]. apply list_elem_of_filter. cbn. split_and!.
    + rewrite elem_of_difference, !elem_of_list_to_set. done.
    + apply set_eq. intros d. rewrite !elem_of_difference, !elem_of_list_to_set. split; [|set_solver].
      intros [[Hd1%Hd Hd2] Hd3]. set_solver.
    + apply list_elem_of_fmap. eauto.
Qed.

Context (Hwf : graph_wf g).

Lemma settle_NoDup current ordered : NoDup (settle current (waiting_of ordered)).2.
Proof.
  unfold settle, waiting_of. cbn [snd]. eapply sublist_NoDup; [exact Hwf|].
  replace (dict_keys (steps g)) with
    ((λ i, (i, list_to_set (edges g i) ∖ list_to_set ordered : gset string)) <$> step_ids g).*1.
  - apply sublist_fmap, sublist_filter.
  - rewrite <- list_fmap_compose. apply list_fmap_id.
Qed.

Record kahn_inv (ready ordered : list string) : Prop := {
  ki_order : taken_in_order ordered;
  ki_ready : ∀ i, i ∈ ready ↔ available ordered i;
  ki_sorted : ordered_by (on (key g) str_leb) ready;
  ki_nodup : NoDup ready;
}.

Lemma taken_snoc ordered x :
  taken_in_order ordered → available ordered x →
  (∀ y, available ordered y → str_leb (key g x) (key g y)) → taken_in_order (ordered ++ [x]).
Proof.
  intros Ho Hx Hmin l1 y l2 Heq. destruct l2 as [|z l2] using rev_ind.
  - apply app_inj_tail in Heq as [-> ->]. done.
  - rewrite app_comm_cons, (assoc_L (++)) in Heq. apply app_inj_tail in Heq as [-> _].
    by apply (Ho _ _ l2).
Qed.

Lemma kahn_inv_step current ready ordered :
  kahn_inv (current :: ready) ordered →
  kahn_inv (by_key g (ready ++ (settle current (waiting_of ordered)).2)) (ordered ++ [current]).
Proof.
  intros [Ho Hr Hs Hn].
  assert (available ordered current) as Hcur by (apply Hr; left).
  assert (∀ i, i ∈ (settle current (waiting_of ordered)).2 ↔
    available (ordered ++ [current]) i ∧ E i current) as Hfresh.
  { intros i. rewrite settle_fresh. destruct Hcur as (Hc & Hco & Hcd). unfold available.
    setoid_rewrite elem_of_app. setoid_rewrite list_elem_of_singleton. split; [|naive_solver].
    intros (Hi & _ & Hic & Hd). split_and!; [done| |done..]. intros [Hio| ->].
    - apply list_elem_of_split in Hio as (l1 & l2 & ->).
      destruct (Ho l1 i l2 eq_refl) as [(_ & _ & Hdeps) _]. apply Hco. apply Hdeps in Hic. set_solver.
    - by apply Hco, Hcd. }
  apply NoDup_cons in Hn as [Hnc Hn]. split.
  - apply taken_snoc; [done..|]. intros y [->|Hy]%Hr%elem_of_cons; [apply (leb_refl str_leb)|].
    apply StronglySorted_inv in Hs as [_ Hs]. rewrite Forall_forall in Hs. by apply Hs.
  - intros i. rewrite elem_of_by_key, elem_of_app, Hfresh. split.
    + intros [Hi|[Hi _]]; [|done].
      assert (available ordered i) as (H1 & H2 & H3) by (apply Hr; by right).
      split_and!; [done| |set_solver]. intros [?| ->%list_elem_of_singleton]%elem_of_app; done.
    + intros Hi. destruct (decide (current ∈ edges g i)); [by right|left].
      destruct Hi as (H1 & [H2 H2']%not_elem_of_app & H3).
      assert (i ∈ current :: ready) as [->|]%elem_of_cons; [|by destruct H2'; left|done].
      apply Hr. split_and!; [done..|]. intros d Hd.
      pose proof (H3 d Hd) as [| ->%list_elem_of_singleton]%elem_of_app; done.
  - apply sort_by_ordered, _.
  - unfold by_key. rewrite NoDup_sort_by. apply NoDup_app. split_and!; [done| |apply settle_NoDup].
    intros i Hi [(_ & Hn' & _) Hic]%Hfresh.
    assert (available ordered i) as (_ & _ & Hd) by (apply Hr; by right).
    apply Hd in Hic. by destruct Hcur as (_ & ? & _).
Qed.

Lemma taken_NoDup l : taken_in_order l → NoDup l ∧ l ⊆ step_ids g.
Proof.
  intros Hl. split.
  - induction l as [|x l IH] using rev_ind; [constructor|]. apply NoDup_app. split_and!.
    + apply IH. intros l1 y l2 ->. apply (Hl l1 y (l2 ++ [x])). by rewrite <- (assoc_L (++)).
    + intros y Hy ->%list_elem_of_singleton. destruct (Hl l x [] eq_refl) as [(_ & ? & _) _]. done.
    + apply NoDup_singleton.
  - intros x (l1 & l2 & ->)%list_elem_of_split. by destruct (Hl l1 x l2 eq_refl) as [(? & _) _].
Qed.

Lemma kahn_done fuel ready ordered :
  kahn_inv ready ordered → length (step_ids g) ≤ fuel + length ordered →
  let l := kahn g fuel (waiting_of ordered) ready ordered in
  taken_in_order l ∧ ∀ i, ¬ available l i.
Proof.
  revert ready ordered. induction fuel as [|fuel IH]; intros ready ordered Hinv Hfuel; cbn [kahn].
  - split; [apply Hinv|]. intros i Hi.
    destruct (taken_NoDup _ (ki_order _ _ Hinv)) as [Hnd Hsub]. destruct Hi as (Hi & Hni & _).
    assert (length (i :: ordered) ≤ length (step_ids g)); [|cbn in *; lia].
    apply NoDup_incl_length; [apply NoDup_ListNoDup; by constructor|].
    intros y. rewrite <- !list_elem_of_In, elem_of_cons. intros [->|]; [done|by apply Hsub].
  - destruct ready as [|current ready].
    + split; [apply Hinv|]. intros i Hi%(ki_ready _ _ Hinv). set_solver.
    + pose proof (kahn_inv_step _ _ _ Hinv) as Hinv'.
      pose proof (settle_waiting current ordered) as Hw.
      destruct (settle current (waiting_of ordered)) as [w fresh]. cbn [fst snd] in *. subst w.
      apply IH; [done|]. rewrite length_app. cbn. lia.
Qed.

Lemma kahn_inv_init : kahn_inv (by_key g (filter (λ p, p.2 = ∅) (waiting_of [])).*1) [].
Proof.
  split.
  - intros l1 x l2 H. by destruct l1.
  - intros i. rewrite elem_of_by_key, list_elem_of_fmap. unfold waiting_of, available. split.
    + intros ([j s] & -> & [He (k & [= -> ->] & Hk)%list_elem_of_fmap]%list_elem_of_filter).
      cbn in *. split_and!; [done|set_solver|]. intros d Hd.
      assert (d ∈ (list_to_set (edges g k) ∖ ∅ : gset string)) as H; [|by rewrite He in H; set_solver].
      rewrite elem_of_difference, elem_of_list_to_set. set_solver.
    + intros (Hi & _ & Hd). eexists (i, _). split; [done|]. apply list_elem_of_filter.
      split; [|apply list_elem_of_fmap; eauto]. cbn. apply set_eq. intros d.
      rewrite elem_of_difference, elem_of_list_to_set. split; [|set_solver].
      intros [Hd'%Hd _]. set_solver.
  - apply sort_by_ordered, _.
  - unfold by_key. rewrite NoDup_sort_by. eapply sublist_NoDup; [exact Hwf|].
    replace (dict_keys (steps g)) with (waiting_of []).*1.
    + apply sublist_fmap, sublist_filter.
    + unfold waiting_of. rewrite <- list_fmap_compose. apply list_fmap_id.
Qed.

Lemma waiting0_eq : waiting0 g = waiting_of [].
Proof. unfold waiting0, waiting_of. apply list_fmap_ext. intros _ i _. f_equal. set_solver. Qed.

Lemma order_taken : taken_in_order (order g) ∧ ∀ i, ¬ available (order g) i.
Proof.
  unfold order. rewrite waiting0_eq. apply kahn_done; [apply kahn_inv_init|]. cbn. lia.
Qed.

End facts.

(** * Levels and order of an acyclic graph *)
Section order.
Context (g : DependencyGraph) (Hwf : graph_wf g).
Local Abbreviation E := (waits_for g).

(** [x] waits for itself, through others. *)
Definition in_cycle (x : string) : Prop := tc (waits_for g) x x.

(** What is before a step in [order]. *)
Lemma order_before l1 x l2 d : order g = l1 ++ x :: l2 → E x d → d ∈ l1.
Proof.
  intros Heq Hd. destruct (order_taken g Hwf) as [Ht _]. destruct (Ht _ _ _ Heq) as [(_ & _ & H) _].
  by apply H.
Qed.

Lemma order_closed x d : x ∈ order g → E x d → d ∈ order g.
Proof.
  intros (l1 & l2 & Heq)%list_elem_of_split Hd. rewrite Heq. apply elem_of_app. left.
  by eapply order_before.
Qed.

Lemma order_sn l : (∃ l2, order g = l ++ l2) → ∀ x, x ∈ l → sn E x.
Proof.
  induction l as [|y l IH] using rev_ind; intros [l2 Heq] x Hx; [by apply elem_of_nil in Hx|].
  rewrite <- (assoc_L (++)) in Heq. cbn in Heq.
  assert (∀ z, z ∈ l → sn E z) as Hl by (apply IH; eauto).
  apply elem_of_app in Hx as [Hx| ->%list_elem_of_singleton]; [by apply Hl|].
  constructor. intros z Hz. apply Hl. by eapply order_before.
Qed.

(** Exactly the steps that do not lead to a cycle are ordered. *)
Lemma elem_of_order x :
  x ∈ order g ↔ x ∈ step_ids g ∧ (∀ c, rtc E x c → ¬ in_cycle c).
Proof.
  destruct (order_taken g Hwf) as [Ht Hmax]. split.
  - intros Hx. split; [by apply (taken_NoDup g _ Ht)|]. intros c Hc.
    assert (c ∈ order g) as Ho.
    { induction Hc as [|x y z Hxy _ IH]; [done|]. by apply IH, (order_closed x). }
    apply sn_irrefl, (order_sn (order g)); [|done]. exists []. by rewrite app_nil_r.
  - intros [Hx Hac].
    assert (sn E x) as Hsn.
    { apply (acyclic_sn _ (list_to_set (step_ids g))); [|done]. intros a b Hab.
      apply elem_of_list_to_set. by eapply edges_known. }
    induction Hsn as [x _ IH]. destruct (decide (x ∈ order g)) as [|Hn]; [done|]. exfalso.
    apply (Hmax x). split_and!; [done..|]. intros d Hd. apply IH; [done|by eapply edges_known|].
    intros c Hc. apply Hac. by eapply rtc_l.
Qed.

(** ** Levels *)
Lemma dict_get_append {V} (d : dict string V) k v k' :
  dict_get k' (dict_set k v d) = Some v ∨ dict_get k' (dict_set k v d) = dict_get k' d.
Proof. rewrite dict_get_set. case_decide; tauto. Qed.

Lemma max_level_spec l n :
  (∀ x, x ∈ l → (0 ≤ x)%Z) →
  max_level l = n ↔ (l = [] ∧ n = (-1)%Z) ∨ (n ∈ l ∧ (∀ x, x ∈ l → (x ≤ n)%Z)).
Proof.
  intros Hl. assert ((l = [] ∧ max_level l = (-1)%Z) ∨
    (max_level l ∈ l ∧ (∀ x, x ∈ l → (x ≤ max_level l)%Z))) as Hm.
  { induction l as [|y l IH]; [by left|right]. cbn [max_level foldr]. fold (max_level l).
    assert (0 ≤ y)%Z as Hy by (apply Hl; left).
    destruct IH as [[-> ->]|[Hin Hle]]; [intros x Hx; apply Hl; by right| |].
    - rewrite Z.max_l by lia. split; [left|]. intros x ->%list_elem_of_singleton. lia.
    - split; [destruct (Z.max_spec y (max_level l)) as [[_ ->]|[_ ->]]; [by right|left]|].
      intros x [->|Hx]%elem_of_cons; [lia|]. apply Hle in Hx. lia. }
  split; [by intros <-|]. intros [[Hnil ->]|[Hn Hle]].
  - by rewrite Hnil.
  - destruct Hm as [[-> _]|[Hm1 Hm2]]; [by apply elem_of_nil in Hn|].
    pose proof (Hm2 _ Hn). pose proof (Hle _ Hm1). lia.
Qed.

(** The level of a step: one more than the greatest level of what it waits for. *)
Definition levelled (level : dict string Z) : Prop :=
  ∀ x n, dict_get x level = Some n →
    (0 ≤ n)%Z ∧ (∀ d, E x d → ∃ m, dict_get d level = Some m ∧ (m < n)%Z) ∧
    ((0 < n)%Z → ∃ d, E x d ∧ dict_get d level = Some (n - 1)%Z).

Lemma get_levels level l :
  (∀ d, d ∈ l → d ∈ dict_keys level) →
  ∃ ns, py_map (get_level level) l = Ok ns ∧ Forall2 (λ d n, dict_get d level = Some n) l ns.
Proof.
  induction l as [|d l IH]; intros Hl; cbn [py_map]; [by exists []|].
  destruct IH as (ns & -> & Hns); [set_solver|].
  assert (is_Some (dict_get d level)) as [n Hn] by (apply dict_get_is_Some, Hl; left).
  exists (n :: ns). unfold get_level. rewrite Hn. split; [done|by constructor].
Qed.

Lemma levelled_step level x ns :
  levelled level → x ∉ dict_keys level →
  Forall2 (λ d n, dict_get d level = Some n) (edges g x) ns →
  levelled (dict_set x (1 + max_level ns)%Z level).
Proof.
  intros Hlev Hx Hns.
  assert (∀ n, n ∈ ns → ∃ d, E x d ∧ dict_get d level = Some n) as Hn1.
  { intros n (i & Hi)%list_elem_of_lookup. destruct (Forall2_lookup_r _ _ _ _ _ Hns Hi) as (d & Hd & ?).
    exists d. split; [|done]. by eapply list_elem_of_lookup_2. }
  assert (∀ d, E x d → ∃ n, n ∈ ns ∧ dict_get d level = Some n) as Hn2.
  { intros d (i & Hi)%list_elem_of_lookup. destruct (Forall2_lookup_l _ _ _ _ _ Hns Hi) as (n & Hd & ?).
    exists n. split; [|done]. by eapply list_elem_of_lookup_2. }
  assert (∀ n, n ∈ ns → (0 ≤ n)%Z) as Hpos.
  { intros n (d & _ & Hd)%Hn1. by apply Hlev in Hd as [? _]. }
  assert (∀ d m, dict_get d level = Some m → dict_get d (dict_set x (1 + max_level ns)%Z level) = Some m)
    as Hkeep.
  { intros d m Hd. rewrite dict_get_set_ne; [done|]. intros ->. apply Hx, dict_get_is_Some. eauto. }
  assert (Hmax := proj1 (max_level_spec ns _ Hpos) eq_refl).
  intros y n. rewrite dict_get_set. case_decide as Hy.
  - subst y. intros [= <-]. split_and!.
    + destruct Hmax as [[_ ->]|[Hm _]]; [lia|]. apply Hpos in Hm. lia.
    + intros d (m & Hm & Hd)%Hn2. exists m. split; [by apply Hkeep|].
      destruct Hmax as [[-> _]|[_ Hle]]; [by apply elem_of_nil in Hm|]. apply Hle in Hm. lia.
    + intros Hlt. destruct Hmax as [[_ Hm]|[Hm _]]; [lia|]. apply Hn1 in Hm as (d & Hd & Hm).
      exists d. split; [done|]. apply Hkeep. rewrite Hm. f_equal. lia.
  - intros Hn. destruct (Hlev _ _ Hn) as (H1 & H2 & H3). split_and!; [done|..].
    + intros d Hd. destruct (H2 d Hd) as (m & Hm & ?). eauto.
    + intros Hlt. destruct (H3 Hlt) as (d & Hd & Hm). eauto.
Qed.

Lemma level_loop_ok l level :
  levelled level → (∃ l1, order g = l1 ++ l ∧ dict_keys level = l1) →
  ∃ level', level_loop g l level = Ok level' ∧ levelled level' ∧ dict_keys level' = order g.
Proof.
  revert level. induction l as [|x l IH]; intros level Hlev (l1 & Ho & Hk); cbn [level_loop].
  - exists level. split_and!; [done..|]. by rewrite Hk, Ho, app_nil_r.
  - destruct (get_levels level (edges g x)) as (ns & -> & Hns).
    { intros d Hd. rewrite Hk. by eapply order_before. }
    assert (x ∉ dict_keys level) as Hx.
    { rewrite Hk. destruct (order_taken g Hwf) as [Ht _]. by destruct (Ht _ _ _ Ho) as [(_ & ? & _) _]. }
    cbn [mbind py_bind]. apply IH; [by apply levelled_step|].
    exists (l1 ++ [x]). rewrite <- (assoc_L (++)). split; [done|].
    rewrite dict_keys_set, decide_False by done. by rewrite Hk.
Qed.

Lemma level_loop_done :
  ∃ level, level_loop g (order g) [] = Ok level ∧ levelled level ∧ dict_keys level = order g.
Proof. apply level_loop_ok; [done|]. by exists []. Qed.
End order.
