(* ===== verification/StepProperties.v ===== *)
(** What the operations of the dependency graph (src/engines/migration/dependency_graph.py) answer,
    as properties of the dependencies alone, with sample plans. *)
From S2P Require Import Prelude Data Errors Sha256 Plans Components StepGraph.

Lemma advance_spec t es :
  (∀ e, e ∈ t_on_stack t ↔ e ∈ t_stack t) →
  match advance t es with
  | None => ∀ y, y ∈ es → is_Some (t_index t !! y) ∧ y ∉ t_stack t
  | Some (y, es') => ∃ skipped, es = skipped ++ y :: es' ∧
      (∀ z, z ∈ skipped → is_Some (t_index t !! z) ∧ z ∉ t_stack t) ∧
      (t_index t !! y = None ∨ y ∈ t_stack t)
  end.
Proof.
  intros Hon. induction es as [|e es IH]; cbn [advance]; [set_solver|]. case_decide as He.
  - exists []. split_and!; [done|set_solver|]. by rewrite <- Hon.
  - assert (is_Some (t_index t !! e) ∧ e ∉ t_stack t) as Hv.
    { rewrite <- Hon, <- not_eq_None_Some. tauto. }
    destruct (advance t es) as [[y es']|].
    + destruct IH as (skipped & -> & Hs & ?). exists (e :: skipped). split_and!; [done| |done].
      intros z [->|Hz]%elem_of_cons; [done|by apply Hs].
    + intros y [->|Hy]%elem_of_cons; [done|by apply IH].
Qed.

#[export] Instance tarjan_step_turns g :
  TarjanStep (edges g) (on (key g) str_leb) (step_ids g) (tarjan_step g).
Proof.
  intros t Hinv Hne. unfold tarjan_step. destruct (t_work t) as [|[n es] work] eqn:Hw; [done|].
  pose proof (advance_spec t es (on_stack_spec _ _ _ t Hinv)) as Hadv.
  destruct (advance t es) as [[y es']|].
  - destruct Hadv as (skipped & -> & Hsk & Hy).
    assert (rtc (turn (edges g) (on (key g) str_leb)) t (set_work ((n, y :: es') :: work) t)) as Hskip.
    { destruct skipped as [|z skipped].
      - replace (set_work _ t) with t; [done|]. by destruct t; cbn in *; subst.
      - by apply rtc_once, (turn_skip _ _ _ n (z :: skipped)). }
    eapply tc_rtc_l; [exact Hskip|]. apply tc_once. cbn [set_work t_index].
    destruct (t_index t !! y) as [i|] eqn:Hi.
    + destruct Hy as [|Hy]; [done|]. by apply (turn_edge _ _ (set_work ((n, y :: es') :: work) t) n y).
    + by apply (turn_enter _ _ (set_work ((n, y :: es') :: work) t) n y es' work).
  - assert (rtc (turn (edges g) (on (key g) str_leb)) t (set_work ((n, []) :: work) t)) as Hskip.
    { destruct es as [|z es].
      - replace (set_work _ t) with t; [done|]. by destruct t; cbn in *; subst.
      - apply rtc_once, (turn_skip _ _ _ n (z :: es)); [by rewrite app_nil_r|done..]. }
    eapply tc_rtc_l; [exact Hskip|]. apply tc_once.
    by apply (turn_leave _ _ (set_work ((n, []) :: work) t) n work).
Qed.

(** The steps wait for each other; a group of all the steps that do. *)
Abbreviation wait_for_each_other g := (mutual (edges g)).
Abbreviation is_waiting_group g := (is_group (edges g) (on (key g) str_leb)).

Lemma found_groups g :
  let groups := t_groups (foldl (tarjan_root (edges g) (step_ids g) (tarjan_step g)) tarjan_init (step_ids g)) in
  (∀ grp, grp ∈ groups → is_waiting_group g grp) ∧ NoDup (mjoin groups) ∧
  (∀ x y, x ∈ step_ids g → x ≠ y → wait_for_each_other g x y → ∃ grp, grp ∈ groups ∧ x ∈ grp).
Proof. by apply (tarjan_groups (edges g) (on (key g) str_leb) (step_ids g) (edges_known g) (tarjan_step g)). Qed.

(** * The graph's operations *)

(** ** [ancestors] *)
Section ancestors.
Context (g : DependencyGraph).
Local Abbreviation E := (waits_for g).

Definition unvisited (seen : gset string) (i : string) : nat :=
  if decide (i ∈ seen) then 0 else S (length (edges g i)).

Lemma visit_left seen x :
  x ∈ step_ids g → x ∉ seen →
  sum_list (unvisited ({[x]} ∪ seen) <$> step_ids g) + S (length (edges g x)) ≤
  sum_list (unvisited seen <$> step_ids g).
Proof.
  intros Hx Hn. pose proof (sum_list_drop (unvisited seen) (unvisited ({[x]} ∪ seen)) (step_ids g) x Hx) as H.
  assert (unvisited seen x = S (length (edges g x))) as Hu by (unfold unvisited; by rewrite decide_False).
  rewrite Hu in H. apply H.
  - unfold unvisited. rewrite decide_True; [done|set_solver].
  - intros y. unfold unvisited. repeat case_decide; [lia|lia|set_solver|lia].
Qed.

Lemma ancestors_loop_spec (P : string → Prop) fuel seen todo :
  (∀ x, x ∈ todo → x ∈ step_ids g) →
  (∀ x y, x ∈ seen → E x y → y ∈ seen ∨ y ∈ todo) →
  (∀ x, x ∈ seen ∨ x ∈ todo → P x) → (∀ x y, P x → E x y → P y) →
  sum_list (unvisited seen <$> step_ids g) + length todo ≤ fuel →
  let r := ancestors_loop g fuel seen todo in
  (∀ x y, x ∈ r → E x y → y ∈ r) ∧ (∀ x, x ∈ r → P x) ∧ (∀ x, x ∈ seen ∨ x ∈ todo → x ∈ r).
Proof.
  revert seen todo. induction fuel as [|fuel IH]; intros seen todo Hk Hc HP Hstep Hfuel; cbn [ancestors_loop].
  - destruct todo; [|cbn in Hfuel; lia].
    split_and!; [|naive_solver|]; [intros x y Hx Hy|intros x [Hx|Hx]]; try done.
    + destruct (Hc x y Hx Hy) as [|H]; [done|by apply elem_of_nil in H].
    + by apply elem_of_nil in Hx.
  - destruct (pop_right todo) as [[x todo']|] eqn:Hpop.
    + apply pop_Some in Hpop. rewrite Hpop in Hfuel.
      assert (∀ y, y ∈ todo ↔ y = x ∨ y ∈ todo') as Ht by (intros y; by rewrite Hpop, elem_of_cons).
      case_decide as Hs.
      * cbn [length] in Hfuel.
        destruct (IH seen todo') as (H1 & H2 & H3); [set_solver| |set_solver|done|lia|].
        { intros y z Hy Hz. destruct (Hc y z Hy Hz) as [|[->|]%Ht]; tauto. }
        split_and!; [done..|]. intros y [Hy|[->|Hy]%Ht]; auto.
      * assert (x ∈ step_ids g) as Hxk by (apply Hk, Ht; by left).
        pose proof (visit_left seen x Hxk Hs) as Hleft.
        destruct (IH ({[x]} ∪ seen) (todo' ++ edges g x)) as (H1 & H2 & H3).
        -- intros y [Hy|Hy]%elem_of_app; [apply Hk, Ht; by right|by eapply edges_known].
        -- intros y z [->%elem_of_singleton|Hy]%elem_of_union Hz.
           ++ right. apply elem_of_app. by right.
           ++ destruct (Hc y z Hy Hz) as [|[->|]%Ht]; [left; set_solver..|right; set_solver].
        -- assert (P x) as Hx by (apply HP; right; apply Ht; by left).
           intros y [[->%elem_of_singleton|Hy]%elem_of_union|[Hy|Hy]%elem_of_app];
             [done|apply HP; by left|apply HP; right; apply Ht; by right|by eapply Hstep].
        -- done.
        -- rewrite length_app. cbn [length] in Hfuel. lia.
        -- split_and!; [done..|]. intros y [Hy|[->|Hy]%Ht]; apply H3; set_solver.
    + apply pop_None in Hpop as ->. split_and!; [|naive_solver|].
      * intros x y Hx Hy. destruct (Hc x y Hx Hy) as [|H]; [done|by apply elem_of_nil in H].
      * intros x [Hx|Hx%elem_of_nil]; done.
Qed.

Lemma ancestors_ok i :
  match ancestors g i with
  | Ok seen => i ∈ step_ids g ∧ ∀ y, y ∈ seen ↔ tc (waits_for g) i y
  | Raise e => e = KeyError ∧ i ∉ step_ids g
  end.
Proof.
  unfold ancestors. case_decide as Hi; [|done]. split; [done|].
  destruct (ancestors_loop_spec (tc E i) (tarjan_fuel (edges g) (step_ids g) + length (edges g i)) ∅ (edges g i))
    as (H1 & H2 & H3).
  - intros x. apply edges_known.
  - set_solver.
  - intros x [?|Hx]; [set_solver|by constructor].
  - intros x y Hx Hy. by eapply tc_r.
  - apply Nat.add_le_mono_r, sum_list_mono. intros x _. unfold unvisited. case_decide; lia.
  - intros y. split; [apply H2|]. intros (x & Hix & Hxy)%tc_split.
    assert (x ∈ ancestors_loop g (tarjan_fuel (edges g) (step_ids g) + length (edges g i)) ∅ (edges g i)) as Hx
      by (apply H3; by right).
    clear Hix. induction Hxy as [|x y z Hxy _ IH]; [done|]. apply IH. by eapply H1.
Qed.
(** [ancestors] of a step are exactly the steps it waits for, directly or through others: the
    transitive closure of the dependencies on steps of the plan.  The loop ends on every graph,
    cyclic ones included; an id that is not a step's raises [KeyError]. *)
Theorem step_ancestors_spec i :
  match ancestors g i with
  | Ok seen => i ∈ step_ids g ∧ ∀ y, y ∈ seen ↔ tc (waits_for g) i y
  | Raise e => e = KeyError ∧ i ∉ step_ids g
  end.
Proof. apply ancestors_ok. Qed.
End ancestors.

(** * Properties *)

(** ** [cycles] and [order] *)

Lemma cycles_groups g :
  (∀ grp, grp ∈ cycles g → is_waiting_group g grp) ∧
  (∀ x y, x ∈ step_ids g → x ≠ y → wait_for_each_other g x y → ∃ grp, grp ∈ cycles g ∧ x ∈ grp).
Proof.
  destruct (found_groups g) as (Hg & _ & Hc). unfold cycles. split.
  - intros grp Hgrp%elem_of_sort_by. by apply Hg.
  - intros x y Hx Hxy Hm. destruct (Hc x y Hx Hxy Hm) as (grp & ? & ?). exists grp.
    by rewrite elem_of_sort_by.
Qed.

(** [cycles] reports exactly the groups of two or more steps that wait for each other.  Each
    group is a whole strongly connected component, each of its steps once and in key order; no step
    is in two groups; every step that waits for another one that waits for it is in a group; the
    groups are in the order of their first keys.  The search ends on every graph. *)
Theorem cycles_spec g :
  (∀ grp, grp ∈ cycles g → is_waiting_group g grp) ∧
  (∀ x y, x ∈ step_ids g → x ≠ y → wait_for_each_other g x y → ∃ grp, grp ∈ cycles g ∧ x ∈ grp) ∧
  NoDup (mjoin (cycles g)) ∧ ordered_by (on (first_key g) str_leb) (cycles g).
Proof.
  destruct (cycles_groups g) as [Hg Hc]. destruct (found_groups g) as (_ & Hn & _).
  split_and!; [done..| |]; unfold cycles; [by rewrite sort_by_perm|apply sort_by_ordered, _].
Qed.

(** [order] takes, at every position, the step with the least key among those whose
    dependencies have all been taken (so it is a topological order, and a deterministic one), and it
    leaves out exactly the steps that lead to a cycle: those in one and, unlike its comment says,
    also those that only wait for one. *)
Theorem order_spec l :
  let g := DependencyGraph_of l in
  taken_in_order g (order g) ∧ NoDup (order g) ∧
  (∀ x, x ∈ order g ↔ x ∈ step_ids g ∧ (∀ c, rtc (waits_for g) x c → ¬ in_cycle g c)).
Proof.
  intros g. pose proof (DependencyGraph_of_wf l) as Hwf.
  destruct (order_taken g Hwf) as [Ht _]. split_and!; [done|by eapply taken_NoDup|].
  intros x. by apply elem_of_order.
Qed.

(** ** Graphs of steps the constructor made *)
Definition built_step (s : MigrationStep) : Prop := ∃ a, MigrationStep_new a = Ok s.

Lemma built_step_self s : built_step s → ms_id s ∉ ms_depends_on s.
Proof.
  intros [a Ha]. unfold MigrationStep_new in Ha. apply check_bind in Ha as [Hc <-].
  assert (unless (bool_decide (ms_id a ∉ ms_depends_on a)) "depends_on" = None) as H.
  { rewrite check_ok in Hc. apply Hc. unfold MigrationStep_problems. set_solver. }
  apply unless_None, bool_decide_eq_true in H. cbn. by rewrite elem_of_sorted_set.
Qed.

Section built.
Context (l : list MigrationStep) (Hl : ∀ s, s ∈ l → built_step s).
Local Abbreviation g := (DependencyGraph_of l).
Local Abbreviation E := (waits_for g).

Lemma graph_step i s : dict_get i (steps g) = Some s → s ∈ l ∧ i = ms_id s.
Proof.
  intros Hs%dict_get_elem. cbn in Hs.
  assert (∀ p, p ∈ dict_of ((λ s, (ms_id s, s)) <$> sort_by (on ms_key str_leb) l) →
    p ∈ (λ s, (ms_id s, s)) <$> sort_by (on ms_key str_leb) l) as Hsub.
  { intros p. apply dict_of_sub. }
  apply Hsub in Hs. apply list_elem_of_fmap in Hs as (s' & [= -> ->] & Hs).
  by apply elem_of_sort_by in Hs.
Qed.

Lemma no_self x : ¬ E x x.
Proof.
  unfold points_to. rewrite elem_of_edges. unfold depends_on.
  destruct (dict_get x (steps g)) as [s|] eqn:Hs; [|by intros [?%elem_of_nil _]].
  apply graph_step in Hs as [Hs ->]. intros [H _]. by apply (built_step_self s (Hl s Hs)).
Qed.

(** A graph without groups has no cycle: a step in a cycle waits for another step of it. *)
Lemma no_cycles : cycles g = [] ↔ ∀ x, ¬ in_cycle g x.
Proof.
  destruct (cycles_groups g) as [Hg Hc]. split.
  - intros Hnil x (y & Hxy & Hyx)%tc_split.
    destruct (Hc x y) as (grp & Hgrp & _); [by eapply edges_source| | |].
    + intros <-. by apply (no_self x).
    + split; [by apply rtc_once|done].
    + rewrite Hnil in Hgrp. by apply elem_of_nil in Hgrp.
  - intros Hac. destruct (cycles g) as [|grp r]; [done|]. exfalso.
    destruct (Hg grp) as (Hlen & Hnd & _ & Hm); [left|].
    destruct grp as [|x [|y grp]]; [cbn in Hlen; lia..|].
    destruct (proj1 (Hm x y ltac:(left)) ltac:(right; left)) as [Hxy Hyx].
    apply NoDup_cons in Hnd as [Hn _]. apply (Hac x).
    apply rtc_inv in Hxy as [->|(z & Hxz & Hzy)]; [destruct Hn; left|].
    apply tc_split. exists z. split; [done|]. by etrans.
Qed.

Lemma unknown_nil :
  unknown g = [] ↔ ∀ i d, i ∈ step_ids g → d ∈ depends_on g i → d ∈ step_ids g.
Proof.
  unfold unknown. rewrite filter_nil_iff. split.
  - intros H i d Hi Hd. destruct (decide (d ∈ step_ids g)) as [|Hn]; [done|]. exfalso.
    apply dict_get_is_Some in Hi as [s Hs]. unfold depends_on in Hd. rewrite Hs in Hd.
    apply (H (i, filter (λ d, d ∉ step_ids g) (ms_depends_on s))).
    + apply list_elem_of_fmap. exists (i, s). split; [done|]. by apply dict_get_elem.
    + cbn. intros Hnil. apply (elem_of_nil d). rewrite <- Hnil. by apply list_elem_of_filter.
  - intros H [i ds] (p & [= -> ->] & Hp)%list_elem_of_fmap Hne. destruct p as [i s]. cbn in Hne.
    apply Hne, filter_nil_iff. intros d Hd Hn. apply Hn.
    apply dict_get_wf in Hp; [|apply DependencyGraph_of_wf]. apply (H i d).
    + apply dict_get_is_Some. eauto.
    + unfold depends_on. by rewrite Hp.
Qed.

(** ** [levels] *)

(** What [levels] requires: every dependency is on a step of the plan, and no step waits for
    itself. *)
Definition valid_deps : Prop :=
  (∀ i d, i ∈ step_ids g → d ∈ depends_on g i → d ∈ step_ids g) ∧ (∀ x, ¬ in_cycle g x).

Lemma valid_deps_iff : unknown g = [] ∧ cycles g = [] ↔ valid_deps.
Proof. unfold valid_deps. by rewrite unknown_nil, no_cycles. Qed.

Lemma valid_order x : valid_deps → x ∈ order g ↔ x ∈ step_ids g.
Proof.
  intros [_ Hac]. rewrite elem_of_order by apply DependencyGraph_of_wf. naive_solver.
Qed.

(** The levels as they are listed: the steps of each, in key order. *)
Record levels_ok (ls : list (list string)) : Prop := {
  lo_all : mjoin ls ≡ₚ step_ids g;
  lo_sorted : ∀ level, level ∈ ls → level ≠ [] ∧ ordered_by (on (key g) str_leb) level;
  lo_after : ∀ n level x d, ls !! n = Some level → x ∈ level → E x d →
    ∃ m before, ls !! m = Some before ∧ m < n ∧ d ∈ before;
  lo_first : ∀ n level x, ls !! S n = Some level → x ∈ level →
    ∃ before d, ls !! n = Some before ∧ d ∈ before ∧ E x d;
}.

Section levels.
Context (level : dict string Z) (Hlev : levelled g level) (Hkeys : dict_keys level = order g).
Context (Hvalid : valid_deps).

Definition at_level (n : nat) : list string :=
  by_key g (filter (λ p, p.2 = Z.of_nat n) level).*1.

Definition level_count : nat := Z.to_nat (1 + max_level (dict_values level)).

Lemma level_wf : dict_wf level.
Proof.
  unfold dict_wf. rewrite Hkeys. eapply taken_NoDup.
  by destruct (order_taken g (DependencyGraph_of_wf l)) as [? _].
Qed.

Lemma elem_of_at_level x n : x ∈ at_level n ↔ dict_get x level = Some (Z.of_nat n).
Proof.
  unfold at_level. rewrite elem_of_by_key, list_elem_of_fmap, dict_get_wf by apply level_wf. split.
  - intros ([y m] & -> & [Hm Hin]%list_elem_of_filter). cbn in *. by subst.
  - intros Hin. exists (x, Z.of_nat n). split; [done|]. by apply list_elem_of_filter.
Qed.

Lemma level_bound x n : dict_get x level = Some n → (0 ≤ n)%Z ∧ Z.to_nat n < level_count.
Proof.
  intros Hx. destruct (Hlev x n Hx) as [Hn _]. split; [done|]. unfold level_count.
  assert (∀ m, m ∈ dict_values level → (0 ≤ m)%Z) as Hpos.
  { intros m ([y m'] & -> & Hy)%list_elem_of_fmap. apply dict_get_wf in Hy; [|apply level_wf].
    by apply Hlev in Hy as [? _]. }
  assert (n ∈ dict_values level) as Hin.
  { apply list_elem_of_fmap. exists (x, n). split; [done|]. by apply dict_get_elem. }
  destruct (proj1 (max_level_spec _ _ Hpos) eq_refl) as [[Hnil _]|[_ Hle]].
  - rewrite Hnil in Hin. by apply elem_of_nil in Hin.
  - apply Hle in Hin. lia.
Qed.

(** Below a level that has a step, every level has one. *)
Lemma level_below x n m :
  dict_get x level = Some (Z.of_nat n) → m ≤ n → ∃ y, dict_get y level = Some (Z.of_nat m).
Proof.
  revert x. induction n as [|n IH]; intros x Hx Hm; [exists x; by replace m with 0 by lia|].
  destruct (decide (m = S n)) as [->|]; [by exists x|].
  destruct (Hlev _ _ Hx) as (_ & _ & H). destruct H as (d & _ & Hd); [lia|].
  apply (IH d); [|lia]. rewrite Hd. f_equal. lia.
Qed.

Lemma level_some n : n < level_count → ∃ x, dict_get x level = Some (Z.of_nat n).
Proof.
  unfold level_count. intros Hn.
  assert (∀ m, m ∈ dict_values level → (0 ≤ m)%Z) as Hpos.
  { intros m ([y m'] & -> & Hy)%list_elem_of_fmap. apply dict_get_wf in Hy; [|apply level_wf].
    by apply Hlev in Hy as [? _]. }
  destruct (proj1 (max_level_spec _ _ Hpos) eq_refl) as [[_ Hm]|[Hm _]]; [lia|].
  apply list_elem_of_fmap in Hm as ([y m] & Hm & Hy). cbn in Hm.
  apply dict_get_wf in Hy; [|apply level_wf]. destruct (Hlev _ _ Hy) as [H0 _].
  apply (level_below y (Z.to_nat m)); [rewrite Hy; f_equal; lia|lia].
Qed.

Lemma levels_listed : levels_ok (at_level <$> seq 0 level_count).
Proof.
  assert (∀ n lv, (at_level <$> seq 0 level_count) !! n = Some lv ↔ n < level_count ∧ lv = at_level n) as Hlk.
  { intros n lv. rewrite list_lookup_fmap. destruct (decide (n < level_count)) as [Hn|Hn].
    - rewrite lookup_seq_lt by done. cbn. naive_solver.
    - rewrite lookup_seq_ge by lia. cbn. split; [done|lia]. }
  split.
  - apply NoDup_Permutation.
    + apply NoDup_mjoin; [apply NoDup_seq| |].
      * intros n _. unfold at_level, by_key. rewrite NoDup_sort_by.
        eapply sublist_NoDup; [apply level_wf|]. apply sublist_fmap, sublist_filter.
      * intros n m x _ _ Hn%elem_of_at_level Hm%elem_of_at_level. rewrite Hn in Hm.
        injection Hm as Hm. lia.
    + apply DependencyGraph_of_wf.
    + intros x. rewrite <- valid_order, <- Hkeys, <- dict_get_is_Some by done.
      rewrite list_elem_of_join. split.
      * intros (lv & Hx & (n & -> & _)%list_elem_of_fmap). apply elem_of_at_level in Hx. eauto.
      * intros [n Hn]. destruct (level_bound _ _ Hn) as [H0 Hb].
        exists (at_level (Z.to_nat n)). rewrite elem_of_at_level, Hn. split; [f_equal; lia|].
        apply list_elem_of_fmap. exists (Z.to_nat n). split; [done|]. apply elem_of_seq. lia.
  - intros lv Hin. apply list_elem_of_fmap in Hin as (n & -> & Hn%elem_of_seq). split.
    + destruct (level_some n) as [x Hx]; [lia|]. apply elem_of_at_level in Hx. intros Hnil.
      rewrite Hnil in Hx. by apply elem_of_nil in Hx.
    + apply sort_by_ordered, _.
  - intros n lv x d [Hn ->]%Hlk Hx%elem_of_at_level Hd.
    destruct (Hlev _ _ Hx) as (_ & H & _). destruct (H d Hd) as (m & Hm & Hlt).
    destruct (level_bound _ _ Hm) as [H0 Hb]. exists (Z.to_nat m), (at_level (Z.to_nat m)).
    rewrite Hlk, elem_of_at_level. split_and!; [done|done|lia|]. rewrite Hm. f_equal. lia.
  - intros n lv x [Hn ->]%Hlk Hx%elem_of_at_level.
    destruct (Hlev _ _ Hx) as (_ & _ & H). destruct H as (d & Hd & Hm); [lia|].
    exists (at_level n), d. rewrite Hlk, elem_of_at_level. split_and!; [lia|done| |done].
    rewrite Hm. f_equal. lia.
Qed.
End levels.
End built.

Section built.
Context (l : list MigrationStep) (Hl : ∀ s, s ∈ l → built_step s).
Local Abbreviation g := (DependencyGraph_of l).

Lemma levels_cases :
  (valid_deps l ∧ ∃ ls, levels g = Ok ls ∧ levels_ok l ls) ∨
  (¬ valid_deps l ∧ levels g = Raise (ValueError "only a valid dependency graph can be ordered")).
Proof.
  unfold levels. case_decide as Hv; rewrite (valid_deps_iff l Hl) in Hv; [left|by right].
  split; [done|]. destruct (level_loop_done g) as (level & -> & Hlev & Hkeys);
    [apply DependencyGraph_of_wf|]. cbn [mbind py_bind].
  eexists. split; [done|]. by apply levels_listed.
Qed.

(** [levels] answers exactly for a valid graph (every dependency is on a step of the plan, no
    step waits for itself through others) and raises [ValueError] otherwise.  The levels have every
    step once, no level is empty, each is in key order; a step comes in a later level than every
    step it waits for, and waits for one of the level just before its own: no step is later than it
    has to be. *)
Theorem levels_spec :
  match levels g with
  | Ok ls => valid_deps l ∧ levels_ok l ls
  | Raise e => ¬ valid_deps l ∧ e = ValueError "only a valid dependency graph can be ordered"
  end.
Proof. destruct levels_cases as [(? & ls & -> & ?)|[? ->]]; done. Qed.
End built.

(** * Findings *)

(** ** [findings] *)
Lemma PlanFinding_new_ok f f' : PlanFinding_new f = Ok f' → f' = PlanFinding_normalize f.
Proof. unfold PlanFinding_new. by intros [_ <-]%check_bind. Qed.

Lemma py_map_fmap {A B C} (f : A → py B) (h : B → C) (k : A → C) l ys :
  (∀ x y, f x = Ok y → h y = k x) → py_map f l = Ok ys → h <$> ys = k <$> l.
Proof.
  intros Hf. revert ys. induction l as [|x l IH]; intros ys; cbn [py_map]; [by intros [= <-]|].
  destruct (f x) as [y|] eqn:E; [|done]. cbn. destruct (py_map f l) as [zs|]; [|done].
  intros [= <-]. cbn. by rewrite (Hf x y E), (IH zs).
Qed.

(** What a finding is about. *)
Definition about (f : PlanFinding) : FindingType * list string := (pf_type f, pf_step_ids f).

(** The steps that depend on something the plan does not have, by key. *)
Definition unknown_ids (g : DependencyGraph) : list string :=
  (sort_by (on (λ p, key g p.1) str_leb) (unknown g)).*1.

Lemma findings_about g fs :
  findings g = Ok fs →
  about <$> fs =
    ((λ i, (INVALID_DEPENDENCY, [i])) <$> unknown_ids g) ++
    ((λ grp, (DEPENDENCY_CYCLE, sorted_set grp)) <$> cycles g).
Proof.
  unfold findings, unknown_ids. destruct (py_map (dependency_finding g) _) as [found|] eqn:Hf; [|done].
  cbn [mbind py_bind]. destruct (py_map (cycle_finding g) _) as [groups|] eqn:Hg; [|done].
  cbn [mbind py_bind]. intros [= <-]. rewrite fmap_app, <- list_fmap_compose. f_equal.
  - eapply py_map_fmap; [|exact Hf]. intros p f ->%PlanFinding_new_ok. done.
  - eapply py_map_fmap; [|exact Hg]. intros grp f ->%PlanFinding_new_ok. done.
Qed.

Lemma findings_none l :
  (∀ s, s ∈ l → built_step s) → let g := DependencyGraph_of l in
  findings g = Ok [] ↔ valid_deps l.
Proof.
  intros Hl g. rewrite <- valid_deps_iff by done. fold g. split.
  - intros Hf%findings_about. symmetry in Hf. apply app_nil in Hf as [Hu%fmap_nil_inv Hc%fmap_nil_inv].
    split; [|done]. unfold unknown_ids in Hu. apply fmap_nil_inv in Hu.
    apply (f_equal length) in Hu. rewrite length_sort_by in Hu. by destruct (unknown g).
  - intros [Hu Hc]. unfold findings. by rewrite Hu, Hc.
Qed.

(** The findings about the dependencies of a plan: none exactly when every dependency is on a
    step of the plan and no step waits for itself through others; otherwise one for each step that
    depends on a step the plan does not have, in key order, then one for each group of steps that
    wait for each other, naming all of its steps, and nothing else. *)
Theorem findings_spec l :
  (∀ s, s ∈ l → built_step s) →
  let g := DependencyGraph_of l in
  (findings g = Ok [] ↔ valid_deps l) ∧
  (∀ fs, findings g = Ok fs → about <$> fs =
    ((λ i, (INVALID_DEPENDENCY, [i])) <$> unknown_ids g) ++
    ((λ grp, (DEPENDENCY_CYCLE, sorted_set grp)) <$> cycles g)).
Proof. intros Hl g. split; [by apply findings_none|apply findings_about]. Qed.

(** ** Sample steps *)
Definition step (type : StepType) (key : string) (deps elements : list string) : MigrationStep := {|
  ms_key := key; ms_type := type; ms_title := key; ms_outcome := "done";
  ms_traces := [{| tr_kind := TRACE_PATTERN; tr_reference := "rolling@1"; tr_detail := None |}];
  ms_completion := ["done"]; ms_description := None; ms_element_ids := elements;
  ms_preconditions := []; ms_inputs := []; ms_depends_on := step_id <$> deps;
  ms_parallelizable := true; ms_downtime := MODELED_ONLINE; ms_downtime_note := None;
  ms_traffic := None; ms_availability := []; ms_data_impact := None;
  ms_reversibility := REVERSIBLE; ms_manual_verification := false; ms_assumptions := []
|}.

(** The steps as the constructor makes them. *)
Definition made (l : list MigrationStep) : list MigrationStep :=
  omap (λ a, match MigrationStep_new a with Ok s => Some s | Raise _ => None end) l.

Lemma made_built l s : s ∈ made l → built_step s.
Proof.
  intros (a & _ & Ha)%list_elem_of_omap. exists a.
  destruct (MigrationStep_new a); [congruence|done].
Qed.

Definition plan_steps : list MigrationStep :=
  made [step VERIFY "verify:cache" ["provision:cache"] ["cache"];
        step PROVISION "provision:cache" [] ["cache"];
        step CUTOVER "cutover:api" ["verify:cache"; "provision:lb"] ["api"];
        step PROVISION "provision:lb" [] ["lb"]].

Definition cyclic_steps : list MigrationStep :=
  made [step VERIFY "a" ["c"] []; step VERIFY "b" ["a"] []; step VERIFY "c" ["b"; "z"] [];
        step VERIFY "d" ["c"] []; step VERIFY "e" [] []].

Lemma findings_spec_witness :
  (∀ s, s ∈ cyclic_steps → built_step s) ∧
  ∃ fs, findings (DependencyGraph_of cyclic_steps) = Ok fs ∧
  about <$> fs =
    [(INVALID_DEPENDENCY, [step_id "c"]);
     (DEPENDENCY_CYCLE, sorted_set [step_id "a"; step_id "b"; step_id "c"])].
Proof.
  split; [apply made_built|].
  destruct (findings_spec cyclic_steps) as [_ H]; [apply made_built|].
  destruct (findings (DependencyGraph_of cyclic_steps)) as [fs|] eqn:E; [|by vm_compute in E].
  exists fs. split; [done|]. rewrite (H fs eq_refl). by vm_compute.
Defined.

Lemma levels_spec_witness :
  ∃ ls, levels (DependencyGraph_of plan_steps) = Ok ls ∧ levels_ok plan_steps ls ∧
    ls = map (map step_id)
      [["provision:cache"; "provision:lb"]; ["verify:cache"]; ["cutover:api"]].
Proof.
  pose proof (levels_spec plan_steps (made_built _)) as H.
  destruct (levels (DependencyGraph_of plan_steps)) as [ls|] eqn:E; [|by vm_compute in E].
  exists ls. split_and!; [done|by destruct H|].
  assert (Ok ls = levels (DependencyGraph_of plan_steps)) as Hls by done. vm_compute in Hls.
  injection Hls as ->. by vm_compute.
Defined.

(** Two steps that wait for each other, with more than [MAX_ITEMS] elements between them. *)
Definition big_cycle : list MigrationStep :=
  made [step CONFIGURE "a" ["b"] ((λ n, "a" +:+ nat_text n) <$> seq 0 150);
        step CONFIGURE "b" ["a"] ((λ n, "b" +:+ nat_text n) <$> seq 0 150)].

(** A cycle is not always stated: two steps of 150 elements each that wait for each other make
    [findings] raise [InvalidMigrationPlan], because the finding it builds lists the elements of all
    the steps of the group and a finding holds at most 200. *)
Theorem findings_raise :
  length big_cycle = 2 ∧ length (cycles (DependencyGraph_of big_cycle)) = 1 ∧
  findings (DependencyGraph_of big_cycle) = Raise (InvalidMigrationPlan ["finding.element_ids"]).
Proof. by vm_compute. Qed.
