(* ===== verification/Sequencing.v ===== *)
(** Transition validation and sequencing (src/engines/migration/sequencing.py): whether each step of
    a plan has what must come before it, and the stages the steps would be carried out in.

    The generator [check] yields findings, each made by [PlanFinding]'s constructor: here it is the
    list of the calls, made in order by [transition_findings]. *)
From S2P Require Import Prelude Data Errors Diff Sha256 Plans Components StepGraph StepProperties.

Definition CUTOVER_AFTER : list StepType := [VERIFY; PREPARE].
Definition DOWNTIME : list DowntimeStatus := [KNOWN_DOWNTIME; POTENTIAL_DOWNTIME].

Record Sequencing := {
  sq_sequence : list Stage;
  sq_findings : list PlanFinding;
}.

Definition missing (step : MigrationStep) (rule message needed : string) : PlanFinding := {|
  pf_type := MISSING_PREREQUISITE;
  pf_key := rule +:+ ":" +:+ ms_key step;
  pf_message := message;
  pf_element_ids := ms_element_ids step;
  pf_step_ids := [ms_id step];
  pf_missing := [needed];
  pf_traces := []
|}.

(** * [_Transitions] *)
Section transitions.
Context (g : DependencyGraph) (analysis : list MigrationChange).

Definition changed (change : ChangeKind) : list MigrationChange :=
  filter (λ c, mc_change c = change) (relevant analysis).

Definition added : gset string := list_to_set (mc_element_id <$> changed ADDED).
Definition connections : gset string :=
  list_to_set (mc_element_id <$> filter (λ c, mc_element c = "connection") (changed ADDED)).
Definition removed : gset string := list_to_set (mc_element_id <$> changed REMOVED).

(** A connection's provisioning also names its endpoints, which must already exist. *)
Definition provisions (step : MigrationStep) (element : string) : bool :=
  bool_decide (ms_type step = PROVISION) && bool_decide (element ∈ ms_element_ids step)
  && (bool_decide (ms_element_ids step = [element]) || bool_decide (element ∈ connections)).

(** [[graph.steps[a] for a in ancestors]]. *)
Definition steps_of (ids : gset string) : list MigrationStep :=
  filter (λ p, p.1 ∈ ids) (steps g) ≫= λ p, [p.2].

Definition provisioned_findings (step : MigrationStep) (before : list MigrationStep) :
    list PlanFinding :=
  element ← sort_by str_leb (elements (added ∩ list_to_set (ms_element_ids step)));
  if negb (provisions step element) && negb (existsb (λ a, provisions a element) before)
  then [missing step ("provisioned:" +:+ element)
          (ms_key step +:+ " concerns " +:+ element +:+
           ", which the target adds, before it is provisioned.")
          ("A dependency on the step provisioning " +:+ element +:+ ".")]
  else [].

(** The steps that still concern [element] and are not before its decommissioning. *)
Definition later_keys (step_id : string) (ancestors : gset string) (element : string) :
    list string :=
  sort_by str_leb
    ((λ p, ms_key p.2) <$>
      filter (λ p, element ∈ removed ∧ p.1 ≠ step_id ∧ element ∈ ms_element_ids p.2 ∧
                   p.1 ∉ ancestors) (steps g)).

Definition retired_findings (step_id : string) (step : MigrationStep) (ancestors : gset string) :
    list PlanFinding :=
  match ms_type step, ms_element_ids step with
  | DECOMMISSION, [element] =>
      match later_keys step_id ancestors element with
      | [] => []
      | later =>
          [missing step ("retired:" +:+ element)
             (ms_key step +:+ " removes " +:+ element +:+ " before steps that still concern it: "
              +:+ join ", " later +:+ ".")
             ("Dependencies on " +:+ join ", " later +:+ ".")]
      end
  | _, _ => []
  end.

Definition verified_findings (step : MigrationStep) (types : list StepType) : list PlanFinding :=
  (if bool_decide (ms_type step = CUTOVER) && negb (existsb (λ t, bool_decide (t ∈ CUTOVER_AFTER)) types)
   then [missing step "verified"
           (ms_key step +:+ " switches over without a verification or preparation before it.")
           "A dependency on a step verifying or preparing what it switches to."]
   else []) ++
  (if bool_decide (ms_type step = DECOMMISSION) && negb (bool_decide (VERIFY ∈ types))
   then [missing step "verified"
           (ms_key step +:+ " removes something without a verification before it.")
           "A dependency on a step verifying that nothing uses what it removes."]
   else []).

Definition consequential (step : MigrationStep) : bool :=
  bool_decide (ms_type step = CUTOVER) || bool_decide (ms_reversibility step = IRREVERSIBLE)
  || bool_decide (ms_downtime step ∈ DOWNTIME).

Definition manual_findings (step : MigrationStep) : list PlanFinding :=
  if consequential step && negb (ms_manual_verification step)
  then [missing step "manual"
          (ms_key step +:+ " is a cutover, is irreversible or causes downtime, and no person verifies it "
           +:+ "before the plan proceeds.")
          "Manual verification of this step."]
  else [].

Definition step_findings (step_id : string) (step : MigrationStep) : py (list PlanFinding) :=
  seen ← ancestors g step_id;
  let before := steps_of seen in
  Ok (provisioned_findings step before ++ retired_findings step_id step seen
      ++ verified_findings step (ms_type <$> before) ++ manual_findings step).

(** [check], for a step of the graph. *)
Definition transition_check (p : string * MigrationStep) : py (list PlanFinding) :=
  calls ← step_findings p.1 p.2; py_map PlanFinding_new calls.
End transitions.

(** * The stages *)

(** One level: the steps that go together, then each other step by itself; [number] is
    [len(stages) + 1]. *)
Fixpoint single_stages (number : nat) (ids : list string) : py (list Stage) :=
  match ids with
  | [] => Ok []
  | i :: ids =>
      stage ← Stage_new {| st_number := number; st_step_ids := [i]; st_parallel := false |};
      stages ← single_stages (S number) ids;
      Ok (stage :: stages)
  end.

Definition parallelizable (g : DependencyGraph) (i : string) : bool :=
  match dict_get i (steps g) with Some s => ms_parallelizable s | None => false end.

Definition level_stages (g : DependencyGraph) (number : nat) (level : list string) : py (list Stage) :=
  let together := filter (λ i, parallelizable g i = true) level in
  if length together <? 2 then single_stages number level
  else
    stage ← Stage_new {| st_number := number; st_step_ids := together; st_parallel := true |};
    stages ← single_stages (S number) (filter (λ i, i ∉ together) level);
    Ok (stage :: stages).

Fixpoint stages_loop (g : DependencyGraph) (stages : list Stage) (levels : list (list string)) :
    py (list Stage) :=
  match levels with
  | [] => Ok stages
  | level :: levels =>
      more ← level_stages g (S (length stages)) level;
      stages_loop g (stages ++ more) levels
  end.

Definition stages_of (g : DependencyGraph) : py (list Stage) :=
  ls ← levels g; stages_loop g [] ls.

Definition sequence (steps_in : list MigrationStep) (analysis : list MigrationChange) : py Sequencing :=
  let g := DependencyGraph_of steps_in in
  found ← findings g;
  match found with
  | _ :: _ => Ok {| sq_sequence := []; sq_findings := found |}
  | [] =>
      stages ← stages_of g;
      checks ← py_map (transition_check g analysis) (steps g);
      Ok {| sq_sequence := stages; sq_findings := mjoin checks |}
  end.

(** * Stages and sequence *)

(** ** Stages *)
Lemma Stage_new_ok s s' : Stage_new s = Ok s' → s' = s.
Proof. unfold Stage_new. by intros [_ <-]%check_bind. Qed.

(** What a list of stages is: numbered on from [number], holding [ids], together only what may go
    together. *)
Record staged (g : DependencyGraph) (number : nat) (ids : list string) (stages : list Stage) : Prop := {
  sd_numbers : st_number <$> stages = seq number (length stages);
  sd_ids : stages ≫= st_step_ids ≡ₚ ids;
  sd_parallel : ∀ s i, s ∈ stages → st_parallel s → i ∈ st_step_ids s → parallelizable g i;
}.

Lemma staged_app g n ids ids' st st' :
  staged g n ids st → staged g (n + length st) ids' st' → staged g n (ids ++ ids') (st ++ st').
Proof.
  intros [N1 I1 P1] [N2 I2 P2]. split.
  - by rewrite fmap_app, N1, N2, length_app, seq_app.
  - rewrite bind_app. by rewrite I1, I2.
  - intros s i [Hs|Hs]%elem_of_app; eauto.
Qed.

Lemma staged_perm g n ids ids' st : ids ≡ₚ ids' → staged g n ids st → staged g n ids' st.
Proof. intros Hp [N I P]. split; [done| |done]. by rewrite I. Qed.

Lemma single_stages_ok g n ids st : single_stages n ids = Ok st → staged g n ids st.
Proof.
  revert n st. induction ids as [|i ids IH]; intros n st; cbn [single_stages].
  - intros [= <-]. split; [done..|]. by intros ? ? ?%elem_of_nil.
  - destruct (Stage_new _) as [s|] eqn:Hs; [|done]. apply Stage_new_ok in Hs as ->. cbn [mbind py_bind].
    destruct (single_stages (S n) ids) as [st'|] eqn:E; [|done]. cbn. intros [= <-].
    apply IH in E. apply (staged_app g n [i] ids [_] st'); [|by rewrite Nat.add_comm].
    split; [done..|]. by intros ? ? ->%list_elem_of_singleton.
Qed.

Lemma filter_partition {A} (P : A → Prop) `{!∀ x, Decision (P x)} (l : list A) :
  filter P l ++ filter (λ x, ¬ P x) l ≡ₚ l.
Proof.
  induction l as [|x l IH]; [done|]. rewrite !filter_cons. destruct (decide (P x)).
  - rewrite decide_False by tauto. cbn. by rewrite IH.
  - rewrite decide_True by done. rewrite <- Permutation_middle. by rewrite IH.
Qed.

Lemma filter_ext_in {A} (P Q : A → Prop) `{!∀ x, Decision (P x), !∀ x, Decision (Q x)} (l : list A) :
  (∀ x, x ∈ l → P x ↔ Q x) → filter P l = filter Q l.
Proof.
  induction l as [|x l IH]; intros Hl; [done|]. rewrite !filter_cons.
  assert (P x ↔ Q x) by (apply Hl; left). rewrite IH by (intros y Hy; apply Hl; by right).
  repeat case_decide; tauto.
Qed.

Lemma level_stages_ok g n level st : level_stages g n level = Ok st → staged g n level st.
Proof.
  unfold level_stages. set (together := filter _ level). destruct (length together <? 2).
  - apply single_stages_ok.
  - destruct (Stage_new _) as [s|] eqn:Hs; [|done]. apply Stage_new_ok in Hs as ->. cbn [mbind py_bind].
    destruct (single_stages _ _) as [st'|] eqn:E; [|done]. cbn. intros [= <-].
    apply (single_stages_ok g) in E. eapply staged_perm; [apply (filter_partition (λ i, parallelizable g i = true))|].
    apply (staged_app g n together _ [_]).
    + split; [done|cbn; by rewrite app_nil_r|].
      intros s i ->%list_elem_of_singleton _ [Hi _]%list_elem_of_filter. by rewrite Hi.
    + cbn [length]. rewrite Nat.add_comm. eapply staged_perm; [|exact E].
      replace (filter (λ i, i ∉ together) level) with
        (filter (λ x, ¬ (parallelizable g x = true)) level); [done|].
      apply filter_ext_in. intros i Hi. unfold together. rewrite list_elem_of_filter. tauto.
Qed.

Lemma stages_loop_ok g st ls st' :
  stages_loop g st ls = Ok st' →
  ∃ chunks, st' = st ++ mjoin chunks ∧
    staged g (S (length st)) (mjoin ls) (mjoin chunks) ∧
    Forall2 (λ chunk level, chunk ≫= st_step_ids ≡ₚ level) chunks ls.
Proof.
  revert st. induction ls as [|level ls IH]; intros st; cbn [stages_loop].
  - intros [= <-]. exists []. rewrite app_nil_r. split_and!; [done| |constructor].
    split; [done..|]. by intros ? ? ?%elem_of_nil.
  - destruct (level_stages g _ level) as [more|] eqn:E; [|done]. cbn [mbind py_bind].
    intros (chunks & -> & Hst & Hall)%IH. apply level_stages_ok in E.
    exists (more :: chunks). cbn. split_and!; [by rewrite (assoc_L (++))| |].
    + apply staged_app; [done|]. rewrite length_app in Hst. by replace (S _ + _) with (S (length st + length more)) by lia.
    + constructor; [apply E|done].
Qed.

(** Where an element of a list of lists is. *)
Lemma join_lookup {A} (ls : list (list A)) n x :
  mjoin ls !! n = Some x →
  ∃ a c k, ls !! a = Some c ∧ c !! k = Some x ∧ n = length (mjoin (take a ls)) + k.
Proof.
  revert n. induction ls as [|c ls IH]; intros n; cbn; [by rewrite lookup_nil|].
  rewrite lookup_app_Some. intros [Hn|[Hle Hn]].
  - by exists 0, c, n.
  - destruct (IH _ Hn) as (a & c' & k & Ha & Hk & Heq). exists (S a), c', k. split_and!; [done..|].
    change (mjoin (take (S a) (c :: ls))) with (c ++ mjoin (take a ls)). rewrite length_app. lia.
Qed.

Lemma join_take_le {A} (ls : list (list A)) a b c :
  ls !! a = Some c → a < b → length (mjoin (take a ls)) + length c ≤ length (mjoin (take b ls)).
Proof.
  revert a b. induction ls as [|c0 ls IH]; intros [|a] [|b] Ha Hab; try done; try lia.
  - injection Ha as ->. change (mjoin (take (S b) (c :: ls))) with (c ++ mjoin (take b ls)).
    rewrite length_app. cbn. lia.
  - change (mjoin (take (S b) (c0 :: ls))) with (c0 ++ mjoin (take b ls)).
    change (mjoin (take (S a) (c0 :: ls))) with (c0 ++ mjoin (take a ls)).
    rewrite !length_app. specialize (IH a b Ha). lia.
Qed.

(** In a list of lists without duplicates, an element is in one of them. *)
Lemma join_unique {A} (ls : list (list A)) a b c d x :
  NoDup (mjoin ls) → ls !! a = Some c → ls !! b = Some d → x ∈ c → x ∈ d → a = b.
Proof.
  revert a b. induction ls as [|c0 ls IH]; intros a b Hnd Ha Hb Hc Hd; [done|].
  cbn in Hnd. apply NoDup_app in Hnd as (_ & Hdis & Hnd).
  destruct a as [|a], b as [|b]; cbn in *; [done|..].
  - injection Ha as ->. destruct (Hdis x Hc). apply list_elem_of_join. exists d.
    split; [done|]. by eapply list_elem_of_lookup_2.
  - injection Hb as ->. destruct (Hdis x Hd). apply list_elem_of_join. exists c.
    split; [done|]. by eapply list_elem_of_lookup_2.
  - f_equal. by eapply IH.
Qed.

(** ** The sequence *)
Section sequence.
Context (l : list MigrationStep) (analysis : list MigrationChange).
Context (Hl : ∀ s, s ∈ l → built_step s) (Hids : NoDup (ms_id <$> l)).
Local Abbreviation g := (DependencyGraph_of l).

Lemma step_ids_perm : step_ids g ≡ₚ ms_id <$> l.
Proof.
  unfold step_ids, dict_keys. cbn. rewrite dict_of_id.
  - rewrite <- list_fmap_compose. cbn. by rewrite sort_by_perm.
  - unfold dict_wf, dict_keys. rewrite <- list_fmap_compose. cbn. by rewrite sort_by_perm.
Qed.

Lemma parallelizable_of s : s ∈ l → parallelizable g (ms_id s) = ms_parallelizable s.
Proof.
  intros Hs. unfold parallelizable.
  assert (is_Some (dict_get (ms_id s) (steps g))) as [s' Hs'].
  { apply dict_get_is_Some. fold (step_ids g). rewrite step_ids_perm. apply list_elem_of_fmap. eauto. }
  rewrite Hs'. apply graph_step in Hs' as [Hin Heq].
  by rewrite (NoDup_key_inj ms_id l s s' Hids Hs Hin Heq).
Qed.

(** What the proposal requires of its sequence. *)
Lemma staged_sequence stages :
  staged g 1 (step_ids g) stages → sequence_problem l stages = None.
Proof.
  intros [Hn Hi Hp]. unfold sequence_problem. destruct stages as [|s0 stages']; [done|].
  set (stages := s0 :: stages') in *. clearbody stages.
  assert (dict_of ((λ s, (ms_id s, ms_parallelizable s)) <$> l) = (λ s, (ms_id s, ms_parallelizable s)) <$> l) as ->.
  { apply dict_of_id. unfold dict_wf, dict_keys. by rewrite <- list_fmap_compose. }
  apply unless_None. rewrite !andb_true_iff. split_and!.
  - by apply bool_decide_eq_true.
  - apply bool_decide_eq_true, sort_by_unique_order; [apply _|].
    rewrite Hi, step_ids_perm. unfold dict_keys. by rewrite <- list_fmap_compose.
  - apply forallb_forall. intros s Hs%list_elem_of_In. destruct (st_parallel s) eqn:Hpar; [|done].
    apply forallb_forall. intros i Hin%list_elem_of_In.
    assert (parallelizable g i) as Hpi by (apply (Hp s); [done|by rewrite Hpar|done]).
    assert (i ∈ ms_id <$> l) as (x & -> & Hx)%list_elem_of_fmap.
    { rewrite <- step_ids_perm, <- Hi. apply list_elem_of_bind. eauto. }
    rewrite parallelizable_of in Hpi by done.
    assert (dict_get (ms_id x) ((λ s, (ms_id s, ms_parallelizable s)) <$> l) = Some (ms_parallelizable x)) as ->.
    { apply dict_get_wf; [unfold dict_wf, dict_keys; by rewrite <- list_fmap_compose|].
      apply list_elem_of_fmap. eauto. }
    by apply Is_true_eq_true.
Qed.

(** [d] is done in an earlier stage than [i]. *)
Definition staged_before (stages : list Stage) (d i : string) : Prop :=
  ∃ m n s s', stages !! m = Some s ∧ stages !! n = Some s' ∧ d ∈ st_step_ids s ∧
    i ∈ st_step_ids s' ∧ m < n.

Lemma stages_of_ok stages :
  valid_deps l → stages_of g = Ok stages →
  staged g 1 (step_ids g) stages ∧ (∀ i d, waits_for g i d → staged_before stages d i).
Proof.
  intros Hv. unfold stages_of. destruct (levels_cases l Hl) as [(_ & ls & -> & Hls)|[? _]]; [|done].
  cbn [mbind py_bind]. intros (chunks & -> & Hst & Hall)%stages_loop_ok. cbn [app length] in *.
  split; [eapply staged_perm; [apply (lo_all _ _ Hls)|done]|]. intros i d Hd.
  assert (NoDup (mjoin ls)) as Hnd by (rewrite (lo_all _ _ Hls); apply DependencyGraph_of_wf).
  assert (∀ x, x ∈ step_ids g → ∃ n s, mjoin chunks !! n = Some s ∧ x ∈ st_step_ids s) as Hfind.
  { intros x Hx. rewrite <- (lo_all _ _ Hls), <- (sd_ids _ _ _ _ Hst) in Hx.
    apply list_elem_of_bind in Hx as (s & Hx & [n Hn]%list_elem_of_lookup). eauto. }
  destruct (Hfind i) as (n & s' & Hn & His); [by eapply edges_source|].
  destruct (Hfind d) as (m & s & Hm & Hds); [by eapply edges_known|].
  exists m, n, s, s'. split_and!; [done..|].
  destruct (join_lookup _ _ _ Hn) as (a & c & k & Ha & Hk & ->).
  destruct (join_lookup _ _ _ Hm) as (b & c' & k' & Hb & Hk' & ->).
  destruct (Forall2_lookup_l _ _ _ _ _ Hall Ha) as (lva & Hla & Hpa).
  destruct (Forall2_lookup_l _ _ _ _ _ Hall Hb) as (lvb & Hlb & Hpb).
  assert (i ∈ lva) as Hia.
  { rewrite <- Hpa. apply list_elem_of_bind. exists s'. split; [done|]. by eapply list_elem_of_lookup_2. }
  assert (d ∈ lvb) as Hdb.
  { rewrite <- Hpb. apply list_elem_of_bind. exists s. split; [done|]. by eapply list_elem_of_lookup_2. }
  destruct (lo_after _ _ Hls a lva i d Hla Hia Hd) as (b' & lvb' & Hb' & Hlt & Hdb').
  assert (b = b') as <- by (by eapply join_unique).
  apply lookup_lt_Some in Hk'. pose proof (join_take_le chunks b a c' Hb Hlt). lia.
Qed.
End sequence.

(** * Properties *)

(** ** What can be raised *)
Definition plan_error {A} (m : py A) : Prop :=
  ∀ e, m = Raise e → ∃ fields, e = InvalidMigrationPlan fields.

Lemma plan_error_ok {A} (a : A) : plan_error (Ok a).
Proof. done. Qed.

Lemma plan_error_bind {A B} (m : py A) (f : A → py B) :
  plan_error m → (∀ a, m = Ok a → plan_error (f a)) → plan_error (m ≫= f).
Proof.
  intros Hm Hf. destruct m as [a|e]; cbn; [by apply Hf|]. intros e' [= <-]. by apply Hm.
Qed.

Lemma plan_error_check ps : plan_error (check ps).
Proof. unfold check. destruct (omap id ps); [done|]. intros e [= <-]. eauto. Qed.

Lemma plan_error_py_map {A B} (f : A → py B) l :
  (∀ x, x ∈ l → plan_error (f x)) → plan_error (py_map f l).
Proof.
  induction l as [|x l IH]; intros Hf; cbn [py_map]; [done|].
  apply plan_error_bind; [apply Hf; left|]. intros y _. apply plan_error_bind; [|done].
  apply IH. intros z Hz. apply Hf. by right.
Qed.

Create HintDb plan_errors.
#[export] Hint Resolve plan_error_ok plan_error_check : plan_errors.

Lemma plan_error_finding f : plan_error (PlanFinding_new f).
Proof. unfold PlanFinding_new. apply plan_error_bind; auto with plan_errors. Qed.

Lemma plan_error_stage s : plan_error (Stage_new s).
Proof. unfold Stage_new. apply plan_error_bind; auto with plan_errors. Qed.
#[export] Hint Resolve plan_error_finding plan_error_stage : plan_errors.

Lemma plan_error_single n ids : plan_error (single_stages n ids).
Proof.
  revert n. induction ids as [|i ids IH]; intros n; cbn [single_stages]; [done|].
  apply plan_error_bind; auto with plan_errors. intros s _. apply plan_error_bind; [apply IH|done].
Qed.

Lemma plan_error_level g n level : plan_error (level_stages g n level).
Proof.
  unfold level_stages. case_match; [apply plan_error_single|].
  apply plan_error_bind; auto with plan_errors. intros s _.
  apply plan_error_bind; [apply plan_error_single|done].
Qed.

Lemma plan_error_stages g st ls : plan_error (stages_loop g st ls).
Proof.
  revert st. induction ls as [|level ls IH]; intros st; cbn [stages_loop]; [done|].
  apply plan_error_bind; [apply plan_error_level|]. intros more _. apply IH.
Qed.

Lemma plan_error_findings g : plan_error (findings g).
Proof.
  unfold findings. apply plan_error_bind.
  { apply plan_error_py_map. intros p _. apply plan_error_finding. }
  intros found _. apply plan_error_bind; [|done].
  apply plan_error_py_map. intros grp _. apply plan_error_finding.
Qed.

Lemma step_findings_ok g analysis i s :
  i ∈ step_ids g → ∃ seen, ancestors g i = Ok seen ∧ (∀ y, y ∈ seen ↔ tc (waits_for g) i y) ∧
  step_findings g analysis i s = Ok (provisioned_findings analysis s (steps_of g seen)
    ++ retired_findings g analysis i s seen ++ verified_findings s (ms_type <$> steps_of g seen)
    ++ manual_findings s).
Proof.
  intros Hi. unfold step_findings. pose proof (ancestors_ok g i) as H.
  destruct (ancestors g i) as [seen|]; [|by destruct H]. exists seen. by destruct H.
Qed.

Lemma plan_error_transition g analysis p : p ∈ steps g → plan_error (transition_check g analysis p).
Proof.
  intros Hp. unfold transition_check. destruct (step_findings_ok g analysis p.1 p.2) as (seen & _ & _ & ->).
  - apply list_elem_of_fmap. by exists p.
  - cbn [mbind py_bind]. apply plan_error_py_map. auto with plan_errors.
Qed.

Lemma plan_error_sequence l analysis :
  (∀ s, s ∈ l → built_step s) → plan_error (sequence l analysis).
Proof.
  intros Hl. apply plan_error_bind; [apply plan_error_findings|].
  intros [|f fs] Hfs; [|done].
  apply (findings_none l Hl) in Hfs. apply plan_error_bind.
  - unfold stages_of. destruct (levels_cases l Hl) as [(_ & ls & -> & _)|[? _]]; [|done].
    apply plan_error_stages.
  - intros st _. apply plan_error_bind; [|done]. apply plan_error_py_map. intros p.
    apply plan_error_transition.
Qed.

(** C9: What [sequence] makes of a plan's steps (with distinct ids).  For a valid graph the stages are
    what the proposal's own check requires (numbered from 1, every step exactly once, together only
    the steps that are all parallelizable), and every step comes in a later stage than each step it
    waits for.  For an invalid graph there is no sequence and there are findings.  All it can raise
    is [InvalidMigrationPlan]: no [KeyError] and no [ValueError] escapes. *)
Theorem sequence_spec l analysis :
  (∀ s, s ∈ l → built_step s) → NoDup (ms_id <$> l) →
  match sequence l analysis with
  | Ok r =>
      (valid_deps l ∧ sequence_problem l (sq_sequence r) = None ∧
        sq_sequence r ≫= st_step_ids ≡ₚ ms_id <$> l ∧
        (∀ i d, waits_for (DependencyGraph_of l) i d → staged_before (sq_sequence r) d i)) ∨
      (¬ valid_deps l ∧ sq_sequence r = [] ∧ sq_findings r ≠ [])
  | Raise e => ∃ fields, e = InvalidMigrationPlan fields
  end.
Proof.
  intros Hl Hids. pose proof (findings_none l Hl) as Hf. cbv zeta in Hf.
  destruct (sequence l analysis) as [r|e] eqn:E.
  - unfold sequence in E. destruct (findings (DependencyGraph_of l)) as [[|f fs]|]; cbn [mbind py_bind] in E; [| |done].
    + left. assert (valid_deps l) as Hv by by apply Hf.
      destruct (stages_of (DependencyGraph_of l)) as [st|] eqn:Hst; cbn [mbind py_bind] in E; [|done].
      destruct (py_map _ _) as [checks|]; cbn in E; [|done]. injection E as <-. cbn.
      destruct (stages_of_ok l Hl st Hv Hst) as [Hs Hb].
      split_and!; [done|by apply staged_sequence| |done].
      rewrite (sd_ids _ _ _ _ Hs). by apply step_ids_perm.
    + right. injection E as <-. cbn. split_and!; [|done..]. by intros ?%Hf.
  - by apply (plan_error_sequence l analysis Hl).
Qed.

(** ** Transitions *)

(** The rules for a step, on the dependencies: what [transitions] has to report when broken. *)
Record prepared (l : list MigrationStep) (analysis : list MigrationChange) (i : string)
    (s : MigrationStep) : Prop := {
  pr_provisioned : ∀ element, element ∈ added analysis → element ∈ ms_element_ids s →
    provisions analysis s element ∨
    ∃ j a, dict_get j (steps (DependencyGraph_of l)) = Some a ∧
      tc (waits_for (DependencyGraph_of l)) i j ∧ provisions analysis a element;
  pr_retired : ∀ element, ms_type s = DECOMMISSION → ms_element_ids s = [element] →
    element ∈ removed analysis → ∀ j a, dict_get j (steps (DependencyGraph_of l)) = Some a →
    j ≠ i → element ∈ ms_element_ids a → tc (waits_for (DependencyGraph_of l)) i j;
  pr_cutover : ms_type s = CUTOVER →
    ∃ j a, dict_get j (steps (DependencyGraph_of l)) = Some a ∧
      tc (waits_for (DependencyGraph_of l)) i j ∧ (ms_type a = VERIFY ∨ ms_type a = PREPARE);
  pr_decommission : ms_type s = DECOMMISSION →
    ∃ j a, dict_get j (steps (DependencyGraph_of l)) = Some a ∧
      tc (waits_for (DependencyGraph_of l)) i j ∧ ms_type a = VERIFY;
  pr_manual : ms_type s = CUTOVER ∨ ms_reversibility s = IRREVERSIBLE ∨
      ms_downtime s = KNOWN_DOWNTIME ∨ ms_downtime s = POTENTIAL_DOWNTIME →
    ms_manual_verification s = true;
}.

Section transitions.
Context (l : list MigrationStep) (analysis : list MigrationChange) (i : string) (s : MigrationStep).
Local Abbreviation g := (DependencyGraph_of l).
Context (seen : gset string) (Hseen : ∀ y, y ∈ seen ↔ tc (waits_for g) i y).

Lemma elem_of_before a :
  a ∈ steps_of g seen ↔ ∃ j, dict_get j (steps g) = Some a ∧ tc (waits_for g) i j.
Proof.
  unfold steps_of. rewrite list_elem_of_bind. setoid_rewrite list_elem_of_singleton.
  setoid_rewrite list_elem_of_filter. setoid_rewrite Hseen. split.
  - intros ([j b] & -> & Hj & Hb). exists j. split; [|done]. apply dict_get_wf; [|done].
    apply DependencyGraph_of_wf.
  - intros (j & Ha & Hj). exists (j, a). split_and!; [done..|]. by apply dict_get_elem.
Qed.

Lemma provisioned_nil :
  provisioned_findings analysis s (steps_of g seen) = [] ↔
  ∀ element, element ∈ added analysis → element ∈ ms_element_ids s →
    provisions analysis s element ∨
    ∃ j a, dict_get j (steps g) = Some a ∧ tc (waits_for g) i j ∧ provisions analysis a element.
Proof.
  unfold provisioned_findings. rewrite bind_nil_iff.
  apply forall_proper. intros element. rewrite elem_of_sort_by, elem_of_elements, elem_of_intersection,
    elem_of_list_to_set.
  assert (existsb (λ a, provisions analysis a element) (steps_of g seen) = true ↔
    ∃ j a, dict_get j (steps g) = Some a ∧ tc (waits_for g) i j ∧ provisions analysis a element) as Hex.
  { rewrite existsb_exists. setoid_rewrite <- list_elem_of_In. setoid_rewrite elem_of_before.
    setoid_rewrite Is_true_true. naive_solver. }
  rewrite <- Hex. destruct (provisions analysis s element), (existsb _ _); cbn; naive_solver.
Qed.

Lemma retired_nil :
  retired_findings g analysis i s seen = [] ↔
  ∀ element, ms_type s = DECOMMISSION → ms_element_ids s = [element] →
    element ∈ removed analysis → ∀ j a, dict_get j (steps g) = Some a →
    j ≠ i → element ∈ ms_element_ids a → tc (waits_for g) i j.
Proof.
  unfold retired_findings. destruct (ms_type s); try naive_solver.
  destruct (ms_element_ids s) as [|element [|e r]]; try naive_solver.
  transitivity (later_keys g analysis i seen element = []).
  { destruct (later_keys _ _ _ _ _); naive_solver. }
  unfold later_keys. rewrite sort_by_nil, fmap_nil_eq, filter_nil_iff.
  setoid_rewrite Hseen. split.
  - intros H e _ [= <-] Hrem j a Ha Hj He. destruct (decide (j ∈ seen)) as [Hs|Hs]; [by apply Hseen|].
    exfalso. apply (H (j, a)); [by apply dict_get_elem|]. cbn. by rewrite <- Hseen.
  - intros H [j a] Ha (Hrem & Hj & He & Hn). cbn in *. apply Hn. eapply H; try done.
    apply dict_get_wf; [|done]. apply DependencyGraph_of_wf.
Qed.

Lemma types_before t :
  t ∈ (ms_type <$> steps_of g seen) ↔
  ∃ j a, dict_get j (steps g) = Some a ∧ tc (waits_for g) i j ∧ ms_type a = t.
Proof. rewrite list_elem_of_fmap. setoid_rewrite elem_of_before. naive_solver. Qed.

Lemma verified_nil :
  verified_findings s (ms_type <$> steps_of g seen) = [] ↔
  (ms_type s = CUTOVER → ∃ j a, dict_get j (steps g) = Some a ∧ tc (waits_for g) i j ∧
    (ms_type a = VERIFY ∨ ms_type a = PREPARE)) ∧
  (ms_type s = DECOMMISSION → ∃ j a, dict_get j (steps g) = Some a ∧ tc (waits_for g) i j ∧
    ms_type a = VERIFY).
Proof.
  unfold verified_findings. rewrite app_nil. set (types := ms_type <$> _).
  assert (existsb (λ t, bool_decide (t ∈ CUTOVER_AFTER)) types = true ↔
    ∃ j a, dict_get j (steps g) = Some a ∧ tc (waits_for g) i j ∧
      (ms_type a = VERIFY ∨ ms_type a = PREPARE)) as Hex.
  { rewrite existsb_exists. setoid_rewrite <- list_elem_of_In. unfold types.
    setoid_rewrite types_before. setoid_rewrite bool_decide_eq_true. unfold CUTOVER_AFTER.
    setoid_rewrite elem_of_cons. setoid_rewrite list_elem_of_singleton. naive_solver. }
  rewrite <- Hex, <- types_before. fold types.
  assert (∀ (b : bool) f, (if b then [f] else ([] : list PlanFinding)) = [] ↔ b = false) as Hif
    by (by intros [] f).
  rewrite !Hif, !andb_false_iff, !negb_false_iff, !bool_decide_eq_false, bool_decide_eq_true.
  destruct (decide (ms_type s = CUTOVER)), (decide (ms_type s = DECOMMISSION)); naive_solver.
Qed.

Lemma manual_nil :
  manual_findings s = [] ↔
  (ms_type s = CUTOVER ∨ ms_reversibility s = IRREVERSIBLE ∨ ms_downtime s = KNOWN_DOWNTIME ∨
    ms_downtime s = POTENTIAL_DOWNTIME → ms_manual_verification s = true).
Proof.
  unfold manual_findings. assert (consequential s = true ↔
    ms_type s = CUTOVER ∨ ms_reversibility s = IRREVERSIBLE ∨ ms_downtime s = KNOWN_DOWNTIME ∨
    ms_downtime s = POTENTIAL_DOWNTIME) as Hc.
  { unfold consequential. rewrite !orb_true_iff, !bool_decide_eq_true. unfold DOWNTIME.
    rewrite elem_of_cons, list_elem_of_singleton. tauto. }
  rewrite <- Hc. destruct (consequential s), (ms_manual_verification s); cbn; naive_solver.
Qed.

Lemma prepared_iff :
  provisioned_findings analysis s (steps_of g seen) ++ retired_findings g analysis i s seen ++
    verified_findings s (ms_type <$> steps_of g seen) ++ manual_findings s = [] ↔
  prepared l analysis i s.
Proof.
  rewrite !app_nil, provisioned_nil, retired_nil, verified_nil, manual_nil. split.
  - intros (? & ? & [? ?] & ?). by split.
  - intros []. done.
Qed.
End transitions.

Lemma py_map_nil {A B} (f : A → py B) l : py_map f l = Ok [] ↔ l = [].
Proof.
  destruct l as [|x l]; cbn [py_map]; [done|]. destruct (f x); cbn; [|done].
  destruct (py_map f l); done.
Qed.

Lemma py_map_elem {A B} (f : A → py B) l ys :
  py_map f l = Ok ys → (∀ x, x ∈ l → ∃ y, y ∈ ys ∧ f x = Ok y) ∧ (∀ y, y ∈ ys → ∃ x, x ∈ l ∧ f x = Ok y).
Proof.
  revert ys. induction l as [|x l IH]; intros ys; cbn [py_map].
  - intros [= <-]. split; by intros ? ?%elem_of_nil.
  - destruct (f x) as [y|] eqn:E; [|done]. cbn. destruct (py_map f l) as [zs|]; [|done].
    intros [= <-]. destruct (IH zs eq_refl) as [H1 H2]. setoid_rewrite elem_of_cons.
    split; [intros z [->|Hz]|intros z [->|Hz]]; naive_solver.
Qed.

(** The transitions of a valid plan: when [sequence] answers, it has nothing to report exactly
    when every step has what must come before it.  A step concerning an element the target adds
    provisions it or waits for a step that does (a connection's provisioning may also name the
    endpoints); the decommissioning of an element the target removes waits for every other step
    concerning it; a cutover waits for a verification or a preparation, a decommissioning for a
    verification; a cutover, an irreversible step and one with known or potential downtime are
    verified by a person. *)
Theorem transitions_spec l analysis r :
  (∀ s, s ∈ l → built_step s) → valid_deps l → sequence l analysis = Ok r →
  sq_findings r = [] ↔
  ∀ i s, dict_get i (steps (DependencyGraph_of l)) = Some s → prepared l analysis i s.
Proof.
  intros Hl Hv%findings_none Hr; [|done]. unfold sequence in Hr. rewrite Hv in Hr.
  cbn [mbind py_bind] in Hr. destruct (stages_of _) as [st|]; cbn [mbind py_bind] in Hr; [|done].
  destruct (py_map _ _) as [checks|] eqn:Hc; cbn in Hr; [|done]. injection Hr as <-. cbn.
  apply py_map_elem in Hc as [H1 H2]. rewrite mjoin_nil.
  assert (∀ i s ys, i ∈ step_ids (DependencyGraph_of l) →
    transition_check (DependencyGraph_of l) analysis (i, s) = Ok ys →
    ys = [] ↔ prepared l analysis i s) as Hstep.
  { intros i s ys Hi Hys. unfold transition_check in Hys. cbn [fst snd] in Hys.
    destruct (step_findings_ok (DependencyGraph_of l) analysis i s Hi) as (seen & _ & Hseen & Heq).
    rewrite Heq in Hys. cbn [mbind py_bind] in Hys. rewrite <- (prepared_iff l analysis i s seen Hseen).
    set (calls := provisioned_findings _ _ _ ++ _) in *.
    rewrite <- (py_map_nil PlanFinding_new calls), Hys. naive_solver. }
  split.
  - intros Hnil i s Hs. pose proof (dict_get_elem _ _ _ Hs) as Hin.
    destruct (H1 _ Hin) as (ys & Hys & Hf). apply (Hstep i s ys); [|done|by apply Hnil].
    apply list_elem_of_fmap. by exists (i, s).
  - intros Hall ys Hys. destruct (H2 ys Hys) as ([i s] & Hin & Hf).
    apply (Hstep i s ys); [|done|].
    + apply list_elem_of_fmap. by exists (i, s).
    + apply Hall, dict_get_wf; [apply DependencyGraph_of_wf|done].
Qed.

(** ** Sample plans *)

(** The target adds the cache and its connection, and removes the old cache. *)
Definition sample_changes : list MigrationChange := [
  {| mc_element := "node"; mc_element_id := "cache"; mc_change := ADDED; mc_relevance := RELEVANT_MIGRATION |};
  {| mc_element := "connection"; mc_element_id := "api-cache"; mc_change := ADDED; mc_relevance := RELEVANT_MIGRATION |};
  {| mc_element := "node"; mc_element_id := "old"; mc_change := REMOVED; mc_relevance := RELEVANT_MIGRATION |};
  {| mc_element := "node"; mc_element_id := "db"; mc_change := REMOVED; mc_relevance := RELEVANT_METADATA |}].

Definition verified (s : MigrationStep) : MigrationStep := {|
  ms_key := ms_key s; ms_type := ms_type s; ms_title := ms_title s; ms_outcome := ms_outcome s;
  ms_traces := ms_traces s; ms_completion := ms_completion s; ms_description := ms_description s;
  ms_element_ids := ms_element_ids s; ms_preconditions := ms_preconditions s;
  ms_inputs := ms_inputs s; ms_depends_on := ms_depends_on s; ms_parallelizable := false;
  ms_downtime := ms_downtime s; ms_downtime_note := ms_downtime_note s; ms_traffic := ms_traffic s;
  ms_availability := ms_availability s; ms_data_impact := ms_data_impact s;
  ms_reversibility := ms_reversibility s; ms_manual_verification := true;
  ms_assumptions := ms_assumptions s
|}.

Definition sound_plan : list MigrationStep :=
  made [step PROVISION "provision:cache" [] ["cache"];
        step PROVISION "provision:wire" ["provision:cache"] ["api"; "api-cache"; "cache"];
        step VERIFY "verify:cache" ["provision:wire"] ["cache"];
        step VERIFY "verify:old" [] ["old"];
        verified (step CUTOVER "cutover:cache" ["verify:cache"] ["cache"; "old"]);
        verified (step DECOMMISSION "remove:old" ["cutover:cache"; "verify:old"] ["old"])].

(** The same plan, where the old cache is removed without waiting for the cutover. *)
Definition hasty_plan : list MigrationStep :=
  made [step PROVISION "provision:cache" [] ["cache"];
        step PROVISION "provision:wire" ["provision:cache"] ["api"; "api-cache"; "cache"];
        step VERIFY "verify:cache" ["provision:wire"] ["cache"];
        step VERIFY "verify:old" [] ["old"];
        verified (step CUTOVER "cutover:cache" ["verify:cache"] ["cache"; "old"]);
        verified (step DECOMMISSION "remove:old" ["verify:old"] ["old"])].

Lemma sequence_spec_witness :
  ∃ r, sequence sound_plan sample_changes = Ok r ∧
    sequence_problem sound_plan (sq_sequence r) = None ∧
    (λ s, (st_number s, st_step_ids s)) <$> sq_sequence r =
      [(1, [step_id "provision:cache"; step_id "verify:old"]); (2, [step_id "provision:wire"]);
       (3, [step_id "verify:cache"]); (4, [step_id "cutover:cache"]); (5, [step_id "remove:old"])].
Proof.
  assert (NoDup (ms_id <$> sound_plan)) as Hids
    by (apply (bool_decide_unpack _); vm_compute; exact I).
  pose proof (sequence_spec sound_plan sample_changes (made_built _) Hids) as H.
  destruct (sequence sound_plan sample_changes) as [r|] eqn:E; [|by vm_compute in E].
  exists r. split; [done|].
  assert (Ok r = sequence sound_plan sample_changes) as Hr by done. vm_compute in Hr.
  injection Hr as ->. destruct H as [(_ & Hp & _)|(_ & Hn & _)]; [|discriminate Hn].
  split; [exact Hp|]. by vm_compute.
Defined.

Lemma transitions_spec_witness :
  ∃ r, sequence sound_plan sample_changes = Ok r ∧
  ∀ i s, dict_get i (steps (DependencyGraph_of sound_plan)) = Some s → prepared sound_plan sample_changes i s.
Proof.
  destruct (sequence sound_plan sample_changes) as [r|] eqn:E; [|by vm_compute in E].
  exists r. split; [done|]. apply (transitions_spec _ _ r (made_built _)); [|done|].
  - apply findings_none; [apply made_built|]. by vm_compute.
  - assert (Ok r = sequence sound_plan sample_changes) as Hr by done. vm_compute in Hr.
    by injection Hr as ->.
Defined.

Example hasty_plan_refused :
  match sequence hasty_plan sample_changes with
  | Ok r => (λ f, (pf_type f, pf_key f)) <$> sq_findings r = [(MISSING_PREREQUISITE, "retired:old:remove:old")]
  | Raise _ => False
  end.
Proof. by vm_compute. Qed.

(** A step whose key has 128 characters (all a key may have) cannot be reported: the finding's own
    key puts the rule before it and is too long. *)
Definition long_key : string := join "" (replicate 128 "k").

Example long_key_raises :
  length (made [step CUTOVER long_key [] []]) = 1 ∧
  sequence (made [step CUTOVER long_key [] []]) [] = Raise (InvalidMigrationPlan ["finding.key"]).
Proof. by vm_compute. Qed.
