(* ===== verification/Projects.v ===== *)
(** Projects: names, slugs, settings, the architecture policy and the life of a project
    (src/core/domain/projects: value_objects.py, policies.py, entities.py, enums.py, errors.py).

    Text is Latin-1 (see [Prelude]): NFC is the identity, and of the NFKD decompositions only those
    below 256 are needed ([DECOMPOSITIONS]).  A frozenset of names is its sorted list. *)
From Stdlib Require Import Ascii ZArith.
From S2P Require Import Prelude Data Codecs Errors Values Component Configuration Model Computations.

(** * Errors (errors.py) *)
Definition ProjectNotFound : exn := DomainError "project_not_found" "Project not found." [].
Definition ProjectArchived : exn :=
  DomainError "project_archived" "This project is archived and read-only. Restore it to make changes." [].
Definition ProjectNotArchived : exn :=
  DomainError "project_not_archived" "Archive the project before deleting it." [].
Definition ProjectSlugTaken : exn :=
  DomainError "project_slug_taken"
    "Another project in this organization already uses this slug. Choose a different one." [].
Definition InvalidProjectName : exn :=
  DomainError "invalid_project_name" "Enter a project name between 1 and 100 characters." [].
Definition InvalidProjectDescription (details : dict string json) : exn :=
  DomainError "invalid_project_description" "Keep the description under 2,000 characters." details.
Definition InvalidProjectSlug (details : dict string json) : exn :=
  DomainError "invalid_project_slug"
    "Use 1 to 63 lowercase letters, digits and single hyphens, e.g. food-delivery." details.
Definition InvalidProjectSettings (details : dict string json) : exn :=
  DomainError "invalid_project_settings" "The project settings are invalid." details.
Definition InvalidArchitecturePolicy (field : json) (reason : string) : exn :=
  DomainError "invalid_architecture_policy" "The architecture policy is invalid."
    [("field", field); ("reason", JStr reason)].

(** * Names, descriptions and slugs (value_objects.py) *)
Definition MAX_NAME_LENGTH : nat := 100.
Definition MAX_DESCRIPTION_LENGTH : nat := 2000.
Definition MAX_SLUG_LENGTH : nat := 63.

Definition normalize_project_name (raw : string) : py string :=
  let name := clean_line raw in
  if String.eqb name "" || (MAX_NAME_LENGTH <? String.length name) || has_forbidden_characters name ""
  then Raise InvalidProjectName
  else Ok name.

Definition normalize_project_description (raw : string) : py string :=
  let description := clean_block raw in
  if MAX_DESCRIPTION_LENGTH <? String.length description then Raise (InvalidProjectDescription [])
  else if has_forbidden_characters description BLOCK_CONTROLS
  then Raise (InvalidProjectDescription [("reason", JStr "control_characters")])
  else Ok description.

Definition is_hyphen (c : ascii) : bool := char_eqb c 45.
Definition hyphen : ascii := ascii_of_nat 45.
Definition slug_char (c : ascii) : bool := is_lower c || is_digit c.

(** What NFKD and dropping everything that is not ASCII leave of the characters from 128 to 255: the
    ranges of characters that leave something. *)
Definition DECOMPOSITIONS : list (nat * nat * string) := [
  (160, 160, " "); (168, 168, " "); (170, 170, "a"); (175, 175, " "); (178, 178, "2"); (179, 179, "3");
  (180, 180, " "); (184, 184, " "); (185, 185, "1"); (186, 186, "o"); (188, 188, "14"); (189, 189, "12");
  (190, 190, "34"); (192, 197, "A"); (199, 199, "C"); (200, 203, "E"); (204, 207, "I"); (209, 209, "N");
  (210, 214, "O"); (217, 220, "U"); (221, 221, "Y"); (224, 229, "a"); (231, 231, "c"); (232, 235, "e");
  (236, 239, "i"); (241, 241, "n"); (242, 246, "o"); (249, 252, "u"); (253, 253, "y"); (255, 255, "y")].

(** [unicodedata.normalize("NFKD", c).encode("ascii", "ignore")]. *)
Definition ascii_of (c : ascii) : chars :=
  if code c <? 128 then [c]
  else match list_find (λ d : nat * nat * string, between d.1.1 d.1.2 c = true) DECOMPOSITIONS with
       | Some (_, d) => chars_of d.2
       | None => []
       end.

(** [_NON_SLUG.sub("-", text)]: every run of other characters becomes one hyphen. *)
Fixpoint sub_runs (in_run : bool) (l : chars) : chars :=
  match l with
  | [] => []
  | c :: r =>
      if slug_char c then c :: sub_runs false r
      else if in_run then sub_runs true r else hyphen :: sub_runs true r
  end.

(** [text.strip("-")]. *)
Definition rstrip_hyphens (l : chars) : chars := reverse (drop_while is_hyphen (reverse l)).
Definition strip_hyphens (l : chars) : chars := rstrip_hyphens (drop_while is_hyphen l).

(** [text.rsplit("-", 1)[0]], of a text with a hyphen. *)
Definition before_last_hyphen (l : chars) : chars :=
  reverse (tail (drop_while (λ c, negb (is_hyphen c)) (reverse l))).

Definition truncate_on_boundary (slug : chars) : chars :=
  let cut := take MAX_SLUG_LENGTH slug in
  if bool_decide (slug !! MAX_SLUG_LENGTH = Some hyphen) || negb (existsb is_hyphen cut)
  then strip_hyphens cut
  else before_last_hyphen cut.

Definition full_slug (name : string) : chars :=
  let ascii_only := chars_of name ≫= ascii_of in
  strip_hyphens (sub_runs false (lower_char <$> ascii_only)).

Definition slugify (name : string) : py string :=
  let slug := full_slug name in
  let slug := if MAX_SLUG_LENGTH <? length slug then truncate_on_boundary slug else slug in
  match slug with
  | [] => Raise (InvalidProjectSlug [("reason", JStr "cannot_derive_from_name")])
  | _ => Ok (text_of slug)
  end.

(** [^[a-z0-9]+(-[a-z0-9]+)*$], as the automaton it is: [in_word] after a letter or digit. *)
Fixpoint slug_format (in_word : bool) (l : chars) : bool :=
  match l with
  | [] => in_word
  | c :: r => if slug_char c then slug_format true r else is_hyphen c && in_word && slug_format false r
  end.

Definition SLUG_FORMAT (s : string) : bool := slug_format false (chars_of s).

Definition normalize_slug (raw : string) : py string :=
  let slug := lower (strip raw) in
  if (MAX_SLUG_LENGTH <? String.length slug) || negb (SLUG_FORMAT slug) then Raise (InvalidProjectSlug [])
  else Ok slug.

(** * Settings (value_objects.py) *)
Inductive CloudProvider := AWS | GCP | AZURE.

#[export] Instance CloudProvider_eq_dec : EqDecision CloudProvider.
Proof. solve_decision. Defined.

#[export, refine] Instance CloudProvider_enum : StrEnum CloudProvider := {
  members := [AWS; GCP; AZURE];
  value p := match p with AWS => "aws" | GCP => "gcp" | AZURE => "azure" end;
}.
Proof. all: solve_enum. Defined.

(** [^[A-Z]{3}$]. *)
Definition CURRENCY (s : string) : bool := str_forall is_upper s && (String.length s =? 3).

(** [c.upper()]; the characters whose capital is not below 256 (micro sign, y with diaeresis) are left
    as they are: neither they nor their capitals are ever accepted. *)
Definition upper_char (c : ascii) : chars :=
  let n := code c in
  if n =? 223 then chars_of "SS"
  else if is_lower c || (between 224 254 c && negb (n =? 247)) then [ascii_of_nat (n - 32)]
  else [c].
Definition upper (s : string) : string := text_of (chars_of s ≫= upper_char).

Record ProjectSettings := { ps_cloud_provider : option CloudProvider; ps_currency : string }.

#[export] Instance ProjectSettings_eq_dec : EqDecision ProjectSettings.
Proof. solve_decision. Defined.

Definition ProjectSettings_new (cloud_provider : option CloudProvider) (currency : string) :
    py ProjectSettings :=
  if CURRENCY currency then Ok {| ps_cloud_provider := cloud_provider; ps_currency := currency |}
  else Raise (InvalidProjectSettings [("setting", JStr "currency")]).

(** [ProjectSettings()]. *)
Definition default_settings : ProjectSettings :=
  {| ps_cloud_provider := None; ps_currency := "USD" |}.

Definition get_or {V} (d : V) (key : string) (m : dict string V) : V := default d (dict_get key m).

Definition ProjectSettings_from_dict (raw : dict string json) : py ProjectSettings :=
  match sorted_set (filter (λ k, k ∉ ["cloud_provider"; "currency"]) (dict_keys raw)) with
  | unknown :: _ => Raise (InvalidProjectSettings [("setting", JStr unknown); ("reason", JStr "unknown")])
  | [] =>
      cloud_provider ← (match get_or JNull "cloud_provider" raw with
                        | JNull => Ok None
                        | JStr s =>
                            if enum_of s is Some p then Ok (Some p)
                            else Raise (InvalidProjectSettings [("setting", JStr "cloud_provider")])
                        | _ => Raise (InvalidProjectSettings [("setting", JStr "cloud_provider")])
                        end);
      match get_or (JStr "USD") "currency" raw with
      | JStr currency => ProjectSettings_new cloud_provider (upper (strip currency))
      | _ => Raise (InvalidProjectSettings [("setting", JStr "currency")])
      end
  end.

Definition ProjectSettings_to_dict (s : ProjectSettings) : dict string json := [
  ("cloud_provider", match ps_cloud_provider s with Some p => JStr (value p) | None => JNull end);
  ("currency", JStr (ps_currency s))].

(** * The architecture policy (policies.py) *)
Definition MAX_POLICY_ENTRIES : nat := 100.
Definition SECURITY_FLAGS : list string := [
  "require_encryption_at_rest"; "require_authentication_on_public";
  "require_authorization_on_sensitive"; "prohibit_public_management_interfaces";
  "require_secret_rotation"; "require_audit_logging"; "require_data_classification"].
Definition OBSERVABILITY_FLAGS : list string := [
  "require_logs_on_critical"; "require_traces_on_critical"; "require_trace_propagation";
  "require_health_checks_on_critical"; "require_alerting_on_critical"; "require_structured_logs";
  "require_correlation_ids"; "require_ownership"; "require_telemetry_collection"].
Definition FLAGS : list string := "require_tls" :: SECURITY_FLAGS ++ OBSERVABILITY_FLAGS.
Definition MAX_RETENTION_SECONDS : Z := 10 * 366 * 86400.

Definition FIELDS : list string :=
  ["allowed_technologies"; "prohibited_technologies"; "allowed_regions"; "require_tls";
   "max_components"; "approved_secret_sources"] ++ SECURITY_FLAGS ++
  ["required_metric_kinds_on_critical"; "min_telemetry_retention_seconds"] ++ OBSERVABILITY_FLAGS.

Definition SECRET_SOURCE (s : string) : bool := bool_decide (s ∈ SECRET_SOURCES).

(** The items of an iterable that is not text: an object gives its keys. *)
Definition iterated (raw : json) : option (list json) :=
  match raw with JArr l => Some l | JObj m => Some (JStr <$> dict_keys m) | _ => None end.

Definition policy_name (field : string) (pattern : string → bool) (v : json) : py string :=
  let invalid := Raise (InvalidArchitecturePolicy (JStr field) "invalid_value") in
  match v with
  | JStr s => let name := lower (strip s) in if pattern name then Ok name else invalid
  | _ => invalid
  end.

Definition names (raw : json) (field : string) (pattern : string → bool) : py (list string) :=
  match iterated raw with
  | None => Raise (InvalidArchitecturePolicy (JStr field) "not_a_list")
  | Some l =>
      if MAX_POLICY_ENTRIES <? length l then Raise (InvalidArchitecturePolicy (JStr field) "too_many")
      else l ← py_map (policy_name field pattern) l; Ok (sorted_set l)
  end.

(** The boolean fields are kept by name, as the code reads them ([getattr(self, flag)]). *)
Record ArchitecturePolicy := {
  pl_allowed_technologies : list string;
  pl_prohibited_technologies : list string;
  pl_allowed_regions : list string;
  pl_approved_secret_sources : list string;
  pl_required_metric_kinds_on_critical : list string;
  pl_flags : dict string bool;
  pl_max_components : option Z;
  pl_min_telemetry_retention_seconds : option Z;
}.

#[export] Instance ArchitecturePolicy_eq_dec : EqDecision ArchitecturePolicy.
Proof. solve_decision. Defined.

Definition policy_flag (raw : dict string json) (flag : string) : py (string * bool) :=
  match get_or (JBool false) flag raw with
  | JBool b => Ok (flag, b)
  | _ => Raise (InvalidArchitecturePolicy (JStr flag) "not_a_boolean")
  end.

Definition optional_within (raw : dict string json) (field : string) (limit : Z) : py (option Z) :=
  match get_or JNull field raw with
  | JNull => Ok None
  | JInt n => if (1 <=? n)%Z && (n <=? limit)%Z then Ok (Some n)
              else Raise (InvalidArchitecturePolicy (JStr field) "out_of_range")
  | _ => Raise (InvalidArchitecturePolicy (JStr field) "out_of_range")
  end.

(** The constructor, on the arguments that are given; the others have their defaults. *)
Definition ArchitecturePolicy_new (raw : dict string json) : py ArchitecturePolicy :=
  let set_of field pattern := names (get_or (JArr []) field raw) field pattern in
  allowed ← set_of "allowed_technologies" TECHNOLOGY_NAME;
  prohibited ← set_of "prohibited_technologies" TECHNOLOGY_NAME;
  regions ← set_of "allowed_regions" (fullmatch REGION);
  sources ← set_of "approved_secret_sources" SECRET_SOURCE;
  kinds ← set_of "required_metric_kinds_on_critical" (fullmatch METRIC_KIND);
  match filter (λ t, t ∈ prohibited) allowed with
  | _ :: _ => Raise (InvalidArchitecturePolicy (JStr "prohibited_technologies") "also_allowed")
  | [] =>
      flags ← py_map (policy_flag raw) FLAGS;
      retention ← optional_within raw "min_telemetry_retention_seconds" MAX_RETENTION_SECONDS;
      limit ← optional_within raw "max_components" (Z.of_nat MAX_NODES);
      Ok {| pl_allowed_technologies := allowed; pl_prohibited_technologies := prohibited;
            pl_allowed_regions := regions; pl_approved_secret_sources := sources;
            pl_required_metric_kinds_on_critical := kinds; pl_flags := flags;
            pl_max_components := limit; pl_min_telemetry_retention_seconds := retention |}
  end.

(** [ArchitecturePolicy()]. *)
Definition empty_policy : ArchitecturePolicy := {|
  pl_allowed_technologies := []; pl_prohibited_technologies := []; pl_allowed_regions := [];
  pl_approved_secret_sources := []; pl_required_metric_kinds_on_critical := [];
  pl_flags := (λ f, (f, false)) <$> FLAGS; pl_max_components := None;
  pl_min_telemetry_retention_seconds := None |}.

Definition policy_is_empty (p : ArchitecturePolicy) : bool := bool_decide (p = empty_policy).

Definition ArchitecturePolicy_from_dict (raw : json) : py ArchitecturePolicy :=
  match raw with
  | JObj m =>
      match sort_by str_leb (filter (λ k, k ∉ FIELDS) (dict_keys m)) with
      | unknown :: _ => Raise (InvalidArchitecturePolicy (JStr unknown) "unknown")
      | [] => ArchitecturePolicy_new m
      end
  | _ => Raise (InvalidArchitecturePolicy JNull "not_an_object")
  end.

Definition of_opt_int (o : option Z) : json := match o with Some z => JInt z | None => JNull end.

Definition ArchitecturePolicy_to_dict (p : ArchitecturePolicy) : dict string json :=
  let of_names l := JArr (JStr <$> sort_by str_leb l) in
  let flag f := (f, JBool (get_or false f (pl_flags p))) in
  [("allowed_technologies", of_names (pl_allowed_technologies p));
   ("prohibited_technologies", of_names (pl_prohibited_technologies p));
   ("allowed_regions", of_names (pl_allowed_regions p)); flag "require_tls";
   ("max_components", of_opt_int (pl_max_components p));
   ("approved_secret_sources", of_names (pl_approved_secret_sources p))]
  ++ (flag <$> SECURITY_FLAGS)
  ++ [("required_metric_kinds_on_critical", of_names (pl_required_metric_kinds_on_critical p));
      ("min_telemetry_retention_seconds", of_opt_int (pl_min_telemetry_retention_seconds p))]
  ++ (flag <$> OBSERVABILITY_FLAGS).

(** * Projects (enums.py, entities.py) *)
Inductive ProjectStatus := PROJECT_ACTIVE | PROJECT_IS_ARCHIVED.

#[export] Instance ProjectStatus_eq_dec : EqDecision ProjectStatus.
Proof. solve_decision. Defined.

#[export, refine] Instance ProjectStatus_enum : StrEnum ProjectStatus := {
  members := [PROJECT_ACTIVE; PROJECT_IS_ARCHIVED];
  value s := match s with PROJECT_ACTIVE => "active" | PROJECT_IS_ARCHIVED => "archived" end;
}.
Proof. all: solve_enum. Defined.

(** [NewProject.create] of the fields a client gives. *)
Record NewProject := {
  np_organization_id : uuid; np_name : string; np_slug : string; np_description : string;
  np_settings : ProjectSettings; np_created_by_user_id : uuid
}.

Definition NewProject_create (organization_id created_by_user_id : uuid) (name : string)
    (slug : option string) (description : string) (settings : option ProjectSettings) : py NewProject :=
  clean_name ← normalize_project_name name;
  slug ← (match slug with Some s => normalize_slug s | None => slugify clean_name end);
  description ← normalize_project_description description;
  Ok {| np_organization_id := organization_id; np_name := clean_name; np_slug := slug;
        np_description := description; np_settings := default default_settings settings;
        np_created_by_user_id := created_by_user_id |}.

Record Project := {
  pj_id : uuid;
  pj_organization_id : uuid;
  pj_name : string;
  pj_slug : string;
  pj_description : string;
  pj_status : ProjectStatus;
  pj_settings : ProjectSettings;
  pj_created_by_user_id : option uuid;
  pj_archived_at : option instant;
  pj_deleted_at : option instant;
  pj_created_at : instant;
  pj_updated_at : instant;
  pj_policy : ArchitecturePolicy;
}.

#[export] Instance Project_eq_dec : EqDecision Project.
Proof. solve_decision. Defined.

Definition Project_is_archived (p : Project) : bool := bool_decide (pj_status p = PROJECT_IS_ARCHIVED).
Definition Project_is_deleted (p : Project) : bool := if pj_deleted_at p is Some _ then true else false.

Definition Project_ensure_modifiable (p : Project) : py unit :=
  if Project_is_deleted p then Raise ProjectNotFound
  else if Project_is_archived p then Raise ProjectArchived
  else Ok tt.

(** [replace(self, ...)] of the fields that change after creation; the organization, the slug, the
    creator and the times of creation and update are kept. *)
Definition with_fields (p : Project) (name description : string) (settings : ProjectSettings)
    (status : ProjectStatus) (archived_at deleted_at : option instant) (policy : ArchitecturePolicy) :
    Project := {|
  pj_id := pj_id p; pj_organization_id := pj_organization_id p; pj_name := name; pj_slug := pj_slug p;
  pj_description := description; pj_status := status; pj_settings := settings;
  pj_created_by_user_id := pj_created_by_user_id p; pj_archived_at := archived_at;
  pj_deleted_at := deleted_at; pj_created_at := pj_created_at p; pj_updated_at := pj_updated_at p;
  pj_policy := policy |}.

Definition Project_with_changes (p : Project) (name description : option string)
    (settings : option ProjectSettings) : py Project :=
  _ ← Project_ensure_modifiable p;
  name ← (match name with Some n => normalize_project_name n | None => Ok (pj_name p) end);
  description ← (match description with
                 | Some t => normalize_project_description t
                 | None => Ok (pj_description p)
                 end);
  Ok (with_fields p name description (default (pj_settings p) settings) (pj_status p) (pj_archived_at p)
        (pj_deleted_at p) (pj_policy p)).

Definition Project_with_policy (p : Project) (policy : ArchitecturePolicy) : py Project :=
  _ ← Project_ensure_modifiable p;
  Ok (with_fields p (pj_name p) (pj_description p) (pj_settings p) (pj_status p) (pj_archived_at p)
        (pj_deleted_at p) policy).

(** [replace(self, status=..., archived_at=..., deleted_at=...)]. *)
Definition at_stage (p : Project) (status : ProjectStatus) (archived_at deleted_at : option instant) :
    Project :=
  with_fields p (pj_name p) (pj_description p) (pj_settings p) status archived_at deleted_at (pj_policy p).

Definition Project_archive (p : Project) (at_ : instant) : py Project :=
  if Project_is_deleted p then Raise ProjectNotFound
  else if Project_is_archived p then Ok p
  else Ok (at_stage p PROJECT_IS_ARCHIVED (Some at_) (pj_deleted_at p)).

Definition Project_restore (p : Project) : py Project :=
  if Project_is_deleted p then Raise ProjectNotFound
  else if negb (Project_is_archived p) then Ok p
  else Ok (at_stage p PROJECT_ACTIVE None (pj_deleted_at p)).

Definition Project_delete (p : Project) (at_ : instant) : py Project :=
  if Project_is_deleted p then Raise ProjectNotFound
  else if negb (Project_is_archived p) then Raise ProjectNotArchived
  else Ok (at_stage p (pj_status p) (pj_archived_at p) (Some at_)).

(** * Pages (core/domain/pagination.py) *)
Definition MAX_PAGE_SIZE : Z := 100.
Definition page_size (limit : Z) : nat := Z.to_nat (Z.max 1 (Z.min limit MAX_PAGE_SIZE)).

Record Page (A C : Type) := { items : list A; next_cursor : option C }.
Arguments items {A C} _.
Arguments next_cursor {A C} _.

(** One page of [size] out of [size + 1] rows. *)
Definition page_of {A C} (size : nat) (cursor : A → C) (rows : list A) : Page A C :=
  let page := take size rows in
  {| items := page; next_cursor := if size <? length rows then cursor <$> last page else None |}.

(** * Listings (queries.py)

    A cursor is the position it encodes: a time, or a name in lower case. *)
Inductive ProjectSort := BY_CREATED_AT | BY_UPDATED_AT | BY_NAME.

Inductive SortValue := AtTime (t : instant) | AtName (lower_name : string).

Record ProjectCursor := { pc_value : SortValue; pc_id : uuid }.

Record ProjectQuery := {
  pq_status : option ProjectStatus; pq_search : option string; pq_sort : ProjectSort;
  pq_after : option ProjectCursor; pq_limit : Z
}.

Definition cursor_for (sort : ProjectSort) (p : Project) : ProjectCursor := {|
  pc_value := match sort with
              | BY_CREATED_AT => AtTime (pj_created_at p)
              | BY_UPDATED_AT => AtTime (pj_updated_at p)
              | BY_NAME => AtName (lower (pj_name p))
              end;
  pc_id := pj_id p |}.
