(* ===== verification/ProjectProperties.v ===== *)
(** What is proved of projects: slugs are well formed, stable and cut between words; settings and
    policies are read back as they were written; the life of a project. *)
From Stdlib Require Import Ascii Lia ZArith.
From S2P Require Import Prelude Data Codecs Errors Values Tokens Component Configuration Model Computations Projects.

(** * Slugs *)
(** A property of the characters of a class, by looking at all of them. *)
Lemma char_implies (P Q : ascii → bool) :
  forallb (λ n, implb (P (ascii_of_nat n)) (Q (ascii_of_nat n))) (seq 0 256) = true →
  ∀ c, P c = true → Q c = true.
Proof.
  intros H c HP. pose proof (ascii_all (λ c, implb (P c) (Q c)) H c) as Hc. cbv beta in Hc.
  by rewrite HP in Hc.
Qed.

Lemma slug_hyphen c : slug_char c = true → is_hyphen c = false.
Proof.
  intros Hc. apply negb_true_iff. revert c Hc.
  apply (char_implies slug_char (λ c, negb (is_hyphen c))). by vm_compute.
Qed.

Lemma slug_space c : slug_char c = true → is_space c = false.
Proof.
  intros Hc. apply negb_true_iff. revert c Hc.
  apply (char_implies slug_char (λ c, negb (is_space c))). by vm_compute.
Qed.

Lemma slug_lower c : slug_char c = true → lower_char c = c.
Proof.
  intros Hc. apply Ascii.eqb_eq. revert c Hc.
  apply (char_implies slug_char (λ c, Ascii.eqb (lower_char c) c)). by vm_compute.
Qed.

Lemma slug_ascii c : slug_char c = true → ascii_of c = [c].
Proof.
  intros Hc. unfold ascii_of. replace (code c <? 128) with true; [done|]. symmetry. revert c Hc.
  apply (char_implies slug_char (λ c, code c <? 128)). by vm_compute.
Qed.

Lemma hyphen_eq c : is_hyphen c = true → c = hyphen.
Proof.
  intros Hc. apply Ascii.eqb_eq. revert c Hc.
  apply (char_implies is_hyphen (λ c, Ascii.eqb c hyphen)). by vm_compute.
Qed.

(** Letters, digits and single hyphens, the first not a hyphen after one. *)
Fixpoint loose (after_hyphen : bool) (l : chars) : bool :=
  match l with
  | [] => true
  | c :: r => if slug_char c then loose false r else is_hyphen c && negb after_hyphen && loose true r
  end.

Definition ends (l : chars) : bool := if last l is Some c then slug_char c else false.

Lemma loose_weaken b l : loose true l = true → loose b l = true.
Proof. destruct l as [|c r]; simpl; [done|]. destruct (slug_char c); [done|]. by rewrite andb_false_r. Qed.

Lemma loose_app b l m :
  loose b (l ++ m) = loose b l && loose (if last l is Some c then negb (slug_char c) else b) m.
Proof.
  revert b. induction l as [|c l IH]; intros b; [done|]. cbn [app loose]. rewrite last_cons.
  destruct (slug_char c) eqn:E; rewrite IH, ?andb_assoc; f_equal; destruct (last l); simpl; by rewrite ?E.
Qed.

Lemma format_loose b l : slug_format b l = loose (negb b) l && (if l is [] then b else ends l).
Proof.
  revert b. induction l as [|c l IH]; intros b; [by destruct b|]. cbn [slug_format loose].
  assert (ends (c :: l) = if l is [] then slug_char c else ends l) as -> by by destruct l.
  destruct (slug_char c) eqn:E; rewrite IH; [by destruct l|].
  rewrite negb_involutive. rewrite <- !andb_assoc. by destruct l.
Qed.

Lemma sub_runs_loose b l : loose b (sub_runs b l) = true.
Proof.
  revert b. induction l as [|c l IH]; intros b; [done|]. simpl. destruct (slug_char c) eqn:E.
  - simpl. rewrite E. apply IH.
  - destruct b; [apply IH|]. simpl. apply IH.
Qed.

Lemma drop_hyphens_loose b l : loose b l = true → loose true (drop_while is_hyphen l) = true.
Proof.
  revert b. induction l as [|c l IH]; intros b Hl; [done|]. simpl in *.
  destruct (slug_char c) eqn:E.
  - rewrite slug_hyphen by done. simpl. by rewrite E.
  - apply andb_prop in Hl as [[Hc _]%andb_prop Hl]. rewrite Hc. by eapply IH.
Qed.

(** What a [drop_while] from the end drops. *)
Lemma drop_end_prefix p (l : chars) :
  ∃ t, l = reverse (drop_while p (reverse l)) ++ t ∧ Forall (λ c, p c = true) t ∧
       ∀ c, last (reverse (drop_while p (reverse l))) = Some c → p c = false.
Proof.
  assert (∀ m : chars, ∃ t, m = t ++ drop_while p m ∧ Forall (λ c, p c = true) t ∧
          ∀ c, head (drop_while p m) = Some c → p c = false) as Hm.
  { induction m as [|c m (t & IH & Ht & Hh)]; [by exists []|]. simpl. destruct (p c) eqn:E.
    - exists (c :: t). split; [by rewrite IH at 1|]. split; [by constructor|done].
    - exists []. split; [done|]. split; [constructor|]. intros ? [= <-]. done. }
  destruct (Hm (reverse l)) as (t & Ht & Hp & Hh). exists (reverse t). split_and!.
  - rewrite <- reverse_app, <- Ht. by rewrite reverse_involutive.
  - by apply Forall_reverse.
  - intros c. rewrite last_reverse. apply Hh.
Qed.

Lemma loose_ends b l : loose b l = true → (∀ c, last l = Some c → is_hyphen c = false) → l ≠ [] → ends l = true.
Proof.
  intros Hl Hh Hne. unfold ends. destruct (last l) as [c|] eqn:E; [|by apply last_None in E].
  destruct (proj1 (last_Some l c) E) as [l' ->]. rewrite loose_app in Hl. apply andb_prop in Hl as [_ Hl].
  simpl in Hl. destruct (slug_char c) eqn:Ec; [done|]. specialize (Hh c eq_refl). rewrite Hh in Hl. done.
Qed.

Lemma rstrip_loose b l : loose b l = true → loose b (rstrip_hyphens l) = true.
Proof.
  intros Hl. destruct (drop_end_prefix is_hyphen l) as (t & Ht & _ & _). unfold rstrip_hyphens.
  rewrite Ht, loose_app in Hl. by apply andb_prop in Hl as [Hl _].
Qed.

Lemma rstrip_ends b l : loose b l = true → rstrip_hyphens l ≠ [] → ends (rstrip_hyphens l) = true.
Proof.
  intros Hl Hne. destruct (drop_end_prefix is_hyphen l) as (t & _ & _ & Hh).
  eapply loose_ends; [by apply rstrip_loose|exact Hh|done].
Qed.

(** A loose text without hyphens at its ends is a slug. *)
Lemma stripped_format b l : loose b l = true → strip_hyphens l ≠ [] → slug_format false (strip_hyphens l) = true.
Proof.
  intros Hl Hne. unfold strip_hyphens in *. apply drop_hyphens_loose in Hl.
  rewrite format_loose. simpl. rewrite rstrip_loose by done. simpl.
  destruct (rstrip_hyphens _) as [|c r] eqn:E; [done|]. rewrite <- E in *. by eapply rstrip_ends.
Qed.

(** ** Slugs as they are *)
Lemma format_chars b l : slug_format b l = true → Forall (λ c, slug_char c = true ∨ c = hyphen) l.
Proof.
  revert b. induction l as [|c l IH]; intros b Hl; [constructor|]. simpl in Hl.
  destruct (slug_char c) eqn:E.
  - constructor; [by left|by eapply IH].
  - apply andb_prop in Hl as [[Hc _]%andb_prop Hl]. constructor; [right; by apply hyphen_eq|by eapply IH].
Qed.

Lemma format_sub b l : slug_format b l = true → sub_runs (negb b) l = l.
Proof.
  revert b. induction l as [|c l IH]; intros b Hl; [done|]. simpl in *. destruct (slug_char c) eqn:E.
  - f_equal. apply (IH true Hl).
  - apply andb_prop in Hl as [[Hc ->]%andb_prop Hl]. simpl. rewrite (hyphen_eq c) by done. f_equal.
    apply (IH false Hl).
Qed.

Lemma drop_while_head p (l : chars) : (∀ c, head l = Some c → p c = false) → drop_while p l = l.
Proof. destruct l as [|c l]; [done|]. intros H. simpl. by rewrite H. Qed.

Lemma rstrip_id l : (∀ c, last l = Some c → is_hyphen c = false) → rstrip_hyphens l = l.
Proof.
  intros Hl. unfold rstrip_hyphens. rewrite drop_while_head; [apply reverse_involutive|].
  intros c Hc. apply Hl. by rewrite <- (reverse_involutive l), last_reverse.
Qed.

Lemma format_last l c : slug_format false l = true → last l = Some c → slug_char c = true.
Proof.
  rewrite format_loose. destruct l as [|x r]; [done|]. intros [_ He]%andb_prop Hc.
  unfold ends in He. by rewrite Hc in He.
Qed.

Lemma format_head l c : slug_format false l = true → head l = Some c → slug_char c = true.
Proof.
  destruct l as [|x r]; [done|]. simpl. intros Hl [= <-]. destruct (slug_char x); [done|].
  by rewrite andb_false_r in Hl.
Qed.

Lemma format_strip l : slug_format false l = true → strip_hyphens l = l.
Proof.
  intros Hl. unfold strip_hyphens. rewrite drop_while_head.
  - apply rstrip_id. intros c Hc. by eapply slug_hyphen, format_last.
  - intros c Hc. by eapply slug_hyphen, format_head.
Qed.

Lemma map_fixed {A} (f : A → A) l : Forall (λ c, f c = c) l → f <$> l = l.
Proof. induction 1 as [|c l Hc _ IH]; [done|]. cbn [fmap list_fmap]. by rewrite Hc, IH. Qed.

Lemma full_slug_id s : SLUG_FORMAT s = true → full_slug s = chars_of s.
Proof.
  unfold SLUG_FORMAT, full_slug. intros Hs. pose proof (format_chars _ _ Hs) as Hc.
  assert (chars_of s ≫= ascii_of = chars_of s) as ->.
  { clear Hs. induction Hc as [|c l [Hc | ->] _ IH]; [done| |].
    - cbn [mbind list_bind]. by rewrite slug_ascii, IH by done.
    - cbn [mbind list_bind]. by rewrite IH. }
  rewrite map_fixed.
  - destruct (chars_of s) as [|c r] eqn:E; [done|]. rewrite <- E in *.
    assert (sub_runs false (chars_of s) = chars_of s) as ->; [|by apply format_strip].
    rewrite E in *. pose proof (format_sub _ _ Hs) as H. simpl in *.
    destruct (slug_char c); [done|]. by rewrite andb_false_r in Hs.
  - eapply Forall_impl; [exact Hc|]. intros c [H | ->]; [by apply slug_lower|done].
Qed.

Lemma normalize_slug_spec raw s :
  normalize_slug raw = Ok s ↔ s = lower (strip raw) ∧ SLUG_FORMAT s = true ∧ String.length s ≤ MAX_SLUG_LENGTH.
Proof.
  unfold normalize_slug. cbv zeta. destruct (MAX_SLUG_LENGTH <? _) eqn:E1; simpl.
  - apply Nat.ltb_lt in E1. split; [done|]. intros (-> & _ & H). by apply Nat.lt_nge in E1.
  - apply Nat.ltb_ge in E1. destruct (SLUG_FORMAT _) eqn:E2; simpl.
    + split; [by intros [= <-]|]. by intros (-> & _ & _).
    + split; [done|]. intros (-> & H & _). congruence.
Qed.

Lemma text_chars s : text_of (chars_of s) = s.
Proof. apply sla_las. Qed.

Lemma format_trimmed s : SLUG_FORMAT s = true → lower (strip s) = s.
Proof.
  intros Hs. pose proof (format_chars _ _ Hs) as Hc. rewrite <- (text_chars s) at 1. rewrite strip_none.
  - unfold lower, text_of. rewrite las_sla, map_fixed; [apply sla_las|].
    eapply Forall_impl; [exact Hc|]. intros c [H | ->]; [by apply slug_lower|done].
  - eapply Forall_impl; [exact Hc|]. intros c [H | ->]; [by apply slug_space|done].
Qed.

(** A slug in the format is kept as it is, by both. *)
Lemma slug_kept s :
  SLUG_FORMAT s = true → String.length s ≤ MAX_SLUG_LENGTH → normalize_slug s = Ok s ∧ slugify s = Ok s.
Proof.
  intros Hs Hl. split.
  - apply normalize_slug_spec. by rewrite format_trimmed.
  - unfold slugify. rewrite full_slug_id by done. cbv zeta.
    assert (length (chars_of s) = String.length s) as Hlen by (clear; induction s; simpl; congruence).
    rewrite Hlen. apply Nat.ltb_ge in Hl as ->. rewrite text_chars.
    unfold SLUG_FORMAT in Hs. by destruct (chars_of s).
Qed.

(** ** Cutting on a boundary *)
Lemma loose_hyphen_last b l r : loose b (l ++ hyphen :: r) = true → ∀ c, last l = Some c → slug_char c = true.
Proof.
  rewrite loose_app. intros [_ H]%andb_prop c Hc. rewrite Hc in H. simpl in H.
  by destruct (slug_char c).
Qed.

Lemma loose_prefix b l r : loose b (l ++ r) = true → loose b l = true.
Proof. rewrite loose_app. by intros [? _]%andb_prop. Qed.

(** A non-empty prefix that ends before a hyphen, or at the end, is a slug. *)
Lemma prefix_format l r :
  slug_format false (l ++ r) = true → l ≠ [] → (∀ c, last l = Some c → slug_char c = true) →
  slug_format false l = true.
Proof.
  intros Hs Hne Hlast. rewrite format_loose in Hs. rewrite format_loose. simpl.
  apply andb_prop in Hs as [Hs _]. rewrite (loose_prefix _ l r) by done. simpl.
  destruct l as [|c l]; [done|]. unfold ends. destruct (last (c :: l)) eqn:E; [by eapply Hlast|].
  by apply last_None in E.
Qed.

Lemma no_hyphen_chars b l : slug_format b l = true → ∀ l' r, l = l' ++ r → existsb is_hyphen l' = false → Forall (λ c, slug_char c = true) l'.
Proof.
  intros Hl l' r -> He. apply format_chars, Forall_app in Hl as [Hl _].
  induction Hl as [|c l [Hc | ->] _ IH]; constructor; simpl in He; try done.
  apply IH. by apply orb_false_elim in He as [_ ?].
Qed.

(** What truncation leaves of a slug that is too long, and where it cuts. *)
Lemma truncated l :
  slug_format false l = true → MAX_SLUG_LENGTH < length l →
  ∃ r, l = truncate_on_boundary l ++ r ∧ slug_format false (truncate_on_boundary l) = true ∧
       length (truncate_on_boundary l) ≤ MAX_SLUG_LENGTH ∧
       (head r = Some hyphen ∨
        existsb is_hyphen (take MAX_SLUG_LENGTH l) = false ∧ length (truncate_on_boundary l) = MAX_SLUG_LENGTH).
Proof.
  intros Hs Hl. unfold truncate_on_boundary. cbv zeta. set (cut := take MAX_SLUG_LENGTH l).
  assert (Hsplit : l = cut ++ drop MAX_SLUG_LENGTH l) by (symmetry; apply take_drop).
  assert (Hcut : length cut = MAX_SLUG_LENGTH) by (apply length_take_le; lia).
  assert (Hne : cut ≠ []) by (intros H; rewrite H in Hcut; done).
  destruct (decide (l !! MAX_SLUG_LENGTH = Some hyphen)) as [Hh|Hh].
  - rewrite bool_decide_eq_true_2 by done. simpl.
    assert (Hd : drop MAX_SLUG_LENGTH l = hyphen :: drop (S MAX_SLUG_LENGTH) l) by by apply drop_S.
    assert (slug_format false cut = true) as Hf.
    { rewrite Hsplit in Hs. eapply prefix_format; [done..|]. rewrite Hd in Hs.
      rewrite format_loose in Hs. apply andb_prop in Hs as [Hs _]. by eapply loose_hyphen_last. }
    exists (drop MAX_SLUG_LENGTH l). rewrite format_strip by done. rewrite <- Hsplit, Hd.
    repeat split; [done|lia|by left].
  - rewrite bool_decide_eq_false_2 by done. simpl. destruct (existsb is_hyphen cut) eqn:He; simpl.
    + unfold before_last_hyphen. destruct (drop_end_prefix (λ c, negb (is_hyphen c)) cut) as (t & Ht & Hp & Hlast).
      destruct (drop_while _ (reverse cut)) as [|x w] eqn:E.
      * exfalso. simpl in Ht. rewrite Ht in He. clear -Hp He. induction Hp as [|c l Hc _ IH]; [done|].
        simpl in He. by destruct (is_hyphen c).
      * rewrite reverse_cons in Ht, Hlast. rewrite last_snoc in Hlast. specialize (Hlast x eq_refl).
        apply negb_false_iff, hyphen_eq in Hlast as ->. simpl.
        assert (l = reverse w ++ hyphen :: t ++ drop MAX_SLUG_LENGTH l) as Hw
          by (rewrite Hsplit at 1; rewrite Ht; by rewrite <- !(assoc_L (++))).
        rewrite Hw in Hs at 1. exists (hyphen :: t ++ drop MAX_SLUG_LENGTH l). split_and!; [done| | |by left].
        -- eapply prefix_format; [done| |].
           ++ intros H0. rewrite H0 in Hs. done.
           ++ rewrite format_loose in Hs. apply andb_prop in Hs as [Hs _]. by eapply loose_hyphen_last.
        -- rewrite <- Hcut, Ht, !length_app. lia.
    + pose proof (no_hyphen_chars _ _ Hs _ _ Hsplit He) as Hall.
      assert (slug_format false cut = true) as Hf.
      { rewrite Hsplit in Hs. eapply prefix_format; [done..|]. intros c Hc.
        rewrite Forall_forall in Hall. apply Hall, last_Some_elem_of. done. }
      exists (drop MAX_SLUG_LENGTH l). rewrite format_strip by done. rewrite <- Hsplit.
      repeat split; [done|lia|by right].
Qed.

(** ** The derived slug *)
Lemma strip_hyphens_empty l : strip_hyphens l = [] → Forall (λ c, is_hyphen c = true) l.
Proof.
  unfold strip_hyphens. intros Hs.
  assert (∃ t, l = t ++ drop_while is_hyphen l ∧ Forall (λ c, is_hyphen c = true) t) as (t & Ht & Hf).
  { clear Hs. induction l as [|c l (t & IH & Ht)]; [by exists []|]. simpl. destruct (is_hyphen c) eqn:E.
    - exists (c :: t). split; [by rewrite IH at 1|by constructor].
    - exists []. by split. }
  rewrite Ht. apply Forall_app. split; [done|].
  destruct (drop_end_prefix is_hyphen (drop_while is_hyphen l)) as (r & Hr & Hrf & _).
  unfold rstrip_hyphens in Hs. rewrite Hs in Hr. by rewrite Hr.
Qed.

Lemma sub_runs_keeps b l c : c ∈ l → slug_char c = true → c ∈ sub_runs b l.
Proof.
  intros Hin Hc. revert b. induction l as [|x l IH]; intros b; [by apply not_elem_of_nil in Hin|].
  simpl. apply elem_of_cons in Hin as [<- | Hin].
  - rewrite Hc. left.
  - destruct (slug_char x); [right; by apply IH|]. destruct b; [by apply IH|right; by apply IH].
Qed.

Lemma sub_runs_none b l : Forall (λ c, slug_char c = false) l → Forall (λ c, is_hyphen c = true) (sub_runs b l).
Proof.
  intros Hl. revert b. induction Hl as [|c l Hc _ IH]; intros b; simpl; [constructor|]. rewrite Hc.
  destruct b; [apply IH|]. constructor; [done|apply IH].
Qed.

Lemma drop_while_all p (l : chars) : Forall (λ c, p c = true) l → drop_while p l = [].
Proof. induction 1 as [|c l Hc _ IH]; [done|]. simpl. by rewrite Hc. Qed.

(** The letters and digits a name leaves. *)
Definition letters (name : string) : chars := lower_char <$> (chars_of name ≫= ascii_of).

Lemma full_slug_empty name : full_slug name = [] ↔ Forall (λ c, slug_char c = false) (letters name).
Proof.
  unfold full_slug. cbv zeta. fold (letters name). split.
  - intros H%strip_hyphens_empty. apply Forall_forall. intros c Hin.
    destruct (slug_char c) eqn:E; [|done]. rewrite Forall_forall in H.
    specialize (H c (sub_runs_keeps false _ c Hin E)). by rewrite slug_hyphen in H.
  - intros H. apply (sub_runs_none false) in H. unfold strip_hyphens. by rewrite drop_while_all.
Qed.

Lemma full_slug_format name : full_slug name ≠ [] → slug_format false (full_slug name) = true.
Proof. intros Hne. eapply stripped_format; [apply sub_runs_loose|done]. Qed.

Lemma length_text l : String.length (text_of l) = length l.
Proof. induction l as [|c l IH]; [done|]. cbn. by rewrite <- IH. Qed.

Lemma slug_text l : slug_format false l = true → length l ≤ MAX_SLUG_LENGTH →
  normalize_slug (text_of l) = Ok (text_of l) ∧ slugify (text_of l) = Ok (text_of l).
Proof.
  intros Hf Hl. apply slug_kept; [unfold SLUG_FORMAT, text_of, chars_of; by rewrite las_sla|].
  by rewrite (length_text l).
Qed.

Lemma slugify_cases name :
  match slugify name with
  | Ok s =>
      normalize_slug s = Ok s ∧ slugify s = Ok s ∧
      ∃ rest, full_slug name = chars_of s ++ rest ∧
        (rest = [] ∨ head rest = Some hyphen ∨
         existsb is_hyphen (take MAX_SLUG_LENGTH (full_slug name)) = false ∧ String.length s = MAX_SLUG_LENGTH)
  | Raise e =>
      e = InvalidProjectSlug [("reason", JStr "cannot_derive_from_name")] ∧
      Forall (λ c, slug_char c = false) (letters name)
  end.
Proof.
  unfold slugify. cbv zeta. pose proof (full_slug_format name) as Hf. pose proof (full_slug_empty name) as He.
  destruct (MAX_SLUG_LENGTH <? _) eqn:El.
  - apply Nat.ltb_lt in El. assert (full_slug name ≠ []) as Hne by (intros H; rewrite H in El; by apply Nat.nlt_0_r in El).
    destruct (truncated _ (Hf Hne) El) as (r & Hr & Hs & Hl & Hcut).
    destruct (truncate_on_boundary _) as [|c t] eqn:Et; [done|]. rewrite <- Et in *.
    destruct (slug_text _ Hs Hl) as [H1 H2]. split_and!; [done..|]. exists r.
    unfold text_of, chars_of. rewrite las_sla. split; [done|]. right. fold (text_of (truncate_on_boundary (full_slug name))). destruct Hcut as [Hcut|[H3 H4]]; [by left|].
    right. split; [done|]. by rewrite length_text.
  - apply Nat.ltb_ge in El. destruct (full_slug name) as [|c l] eqn:E.
    + split; [done|]. by apply He.
    + rewrite <- E in *. destruct (slug_text (full_slug name)) as [H1 H2]; [|done|].
      { apply Hf. by rewrite E. }
      split_and!; [done..|]. exists []. unfold text_of, chars_of. rewrite las_sla, app_nil_r. by split; [|left].
Qed.

Lemma slugify_ok name s : slugify name = Ok s → normalize_slug s = Ok s.
Proof. intros H. pose proof (slugify_cases name) as Hc. rewrite H in Hc. apply Hc. Qed.

(** The slug made from a project's name is one a client could have chosen: lower-case letters,
    digits and single hyphens, at most 63 of them, kept as it is when it is normalized or derived from
    again.  It is the name's words joined by hyphens, cut between two words, unless the first word alone
    is longer than 63.  The only failure is a name without a single letter or digit that has an ASCII
    form, and it is reported as such. *)
Theorem slugify_spec name :
  match slugify name with
  | Ok s =>
      normalize_slug s = Ok s ∧ slugify s = Ok s ∧
      ∃ rest, full_slug name = chars_of s ++ rest ∧
        (rest = [] ∨ head rest = Some hyphen ∨
         existsb is_hyphen (take MAX_SLUG_LENGTH (full_slug name)) = false ∧ String.length s = MAX_SLUG_LENGTH)
  | Raise e =>
      e = InvalidProjectSlug [("reason", JStr "cannot_derive_from_name")] ∧
      Forall (λ c, slug_char c = false) (letters name)
  end.
Proof. apply slugify_cases. Qed.

Example slug_cafe : slugify "  Caf - 24/7 (v2) " = Ok "caf-24-7-v2".
Proof. reflexivity. Qed.

(** Small sharp s is a currency letter: its capital is "SS". *)
Example currency_sharp_s :
  ProjectSettings_from_dict [("currency", JStr (text_of ["a"%char; ascii_of_nat 223]))]
  = Ok {| ps_cloud_provider := None; ps_currency := "ASS" |}.
Proof. reflexivity. Qed.

(** * Settings and policies, written and read *)
Lemma upper_currency s : CURRENCY s = true → upper (strip s) = s.
Proof.
  unfold CURRENCY. intros [Hu _]%andb_prop. unfold str_forall in Hu. rewrite forallb_forall in Hu.
  assert (Forall (λ c, is_upper c = true) (chars_of s)) as Hc.
  { apply Forall_forall. intros c Hin. apply Hu. by apply list_elem_of_In. }
  rewrite <- (text_chars s) at 1. rewrite strip_none.
  - unfold upper. rewrite text_chars. transitivity (text_of (chars_of s)); [|apply text_chars].
    f_equal. clear Hu.
    induction Hc as [|c l Hc _ IH]; [done|]. cbn [mbind list_bind]. rewrite IH.
    assert (upper_char c = [c]) as ->; [|done]. unfold upper_char. cbv zeta.
    assert (is_lower c || between 224 254 c && negb (code c =? 247) || (code c =? 223) = false) as H.
    { apply negb_true_iff. revert c Hc. apply (char_implies is_upper (λ c, negb _)). by vm_compute. }
    apply orb_false_elim in H as [-> ->]. done.
  - eapply Forall_impl; [exact Hc|]. intros c H. apply negb_true_iff. revert c H.
    apply (char_implies is_upper (λ c, negb (is_space c))). by vm_compute.
Qed.

Lemma settings_read raw s :
  ProjectSettings_from_dict raw = Ok s → ProjectSettings_from_dict (ProjectSettings_to_dict s) = Ok s.
Proof.
  unfold ProjectSettings_from_dict at 1. destruct (sorted_set _); [|done].
  intros (provider & _ & H)%py_bind_ok.
  destruct (get_or _ "currency" raw) as [| | | |currency| |]; try done. unfold ProjectSettings_new in H.
  destruct (CURRENCY _) eqn:E; [|done]. injection H as <-.
  unfold ProjectSettings_from_dict, ProjectSettings_to_dict. cbn [ps_cloud_provider ps_currency].
  assert (∀ (a b : json), sorted_set (filter (λ k, k ∉ ["cloud_provider"; "currency"])
            (dict_keys [("cloud_provider", a); ("currency", b)])) = []) as -> by done.
  change (get_or (JStr "USD") "currency" _) with (JStr (upper (strip currency))).
  change (get_or JNull "cloud_provider" _)
    with (match provider with Some p => JStr (value p) | None => JNull end).
  assert ((match match provider with Some p => JStr (value p) | None => JNull end with
           | JNull => Ok None
           | JStr s => if enum_of s is Some p then Ok (Some p)
                       else Raise (InvalidProjectSettings [("setting", JStr "cloud_provider")])
           | _ => Raise (InvalidProjectSettings [("setting", JStr "cloud_provider")])
           end) = Ok provider) as -> by by destruct provider as [[]|].
  simpl. unfold ProjectSettings_new. by rewrite upper_currency, E.
Qed.

Lemma policy_name_ok field pattern v n :
  policy_name field pattern v = Ok n → pattern n = true ∧ policy_name field pattern (JStr n) = Ok n.
Proof.
  unfold policy_name. destruct v as [| | | |s| |]; try done. cbv zeta.
  destruct (pattern (lower (strip s))) eqn:E; [|done]. intros [= <-].
  by rewrite lower_strip_idemp, E.
Qed.

(** A set of names, as the constructor leaves it. *)
Definition proper_names (pattern : string → bool) (l : list string) : Prop :=
  Forall (λ n, pattern n = true ∧ lower (strip n) = n) l ∧ sorted_set l = l ∧ length l ≤ MAX_POLICY_ENTRIES.

Lemma names_ok raw field pattern l : names raw field pattern = Ok l → proper_names pattern l.
Proof.
  unfold names. destruct (iterated raw) as [vs|]; [|done]. destruct (MAX_POLICY_ENTRIES <? _) eqn:E; [done|].
  apply Nat.ltb_ge in E. intros (ns & Hns & [= <-])%py_bind_ok. apply py_map_ok in Hns. split_and!.
  - apply Forall_forall. intros n Hn. rewrite elem_of_sorted_set in Hn.
    apply list_elem_of_lookup in Hn as [i Hi]. destruct (Forall2_lookup_r _ _ _ _ _ Hns Hi) as (v & _ & Hv).
    destruct (policy_name_ok _ _ _ _ Hv) as [Hp Hk]. split; [done|].
    unfold policy_name in Hk. cbv zeta in Hk. destruct (pattern (lower _)); [|done]. by injection Hk.
  - apply sorted_set_idemp.
  - etrans; [|exact E]. rewrite (Forall2_length _ _ _ Hns). unfold sorted_set. rewrite length_sort_by.
    apply submseteq_length, NoDup_submseteq; [apply NoDup_dedup|]. intros x. by rewrite elem_of_dedup.
Qed.

Lemma names_again field pattern l :
  proper_names pattern l → names (JArr (JStr <$> sort_by str_leb l)) field pattern = Ok l.
Proof.
  intros (Hp & Hs & Hl). assert (sort_by str_leb l = l) as ->.
  { apply sort_by_id. rewrite <- Hs. apply sorted_set_ordered. }
  unfold names, iterated. rewrite length_fmap. apply Nat.ltb_ge in Hl as ->.
  assert (py_map (policy_name field pattern) (JStr <$> l) = Ok l) as ->; [|simpl; by rewrite Hs].
  clear Hs. induction Hp as [|n l [H1 H2] _ IH]; [done|]. cbn [fmap list_fmap py_map].
  assert (policy_name field pattern (JStr n) = Ok n) as ->
    by (unfold policy_name; cbv zeta; by rewrite H2, H1).
  simpl. by rewrite IH.
Qed.

Definition flag_of (raw : dict string json) (f : string) : bool :=
  match get_or (JBool false) f raw with JBool b => b | _ => false end.

Lemma flags_ok raw l flags : py_map (policy_flag raw) l = Ok flags → flags = (λ f, (f, flag_of raw f)) <$> l.
Proof.
  rewrite py_map_ok. induction 1 as [|f p l flags Hf _ IH]; [done|]. cbn [fmap list_fmap]. rewrite <- IH.
  f_equal. unfold policy_flag in Hf. unfold flag_of. destruct (get_or _ f raw); try done. by injection Hf.
Qed.

Lemma optional_within_ok raw field limit o : optional_within raw field limit = Ok o →
  match o with Some n => (1 ≤ n ≤ limit)%Z | None => True end.
Proof.
  unfold optional_within. destruct (get_or _ _ _) as [| |z| | | |]; try done; [by intros [= <-]|].
  destruct (_ && _) eqn:E; [|done]. apply andb_prop in E as [?%Z.leb_le ?%Z.leb_le]. by intros [= <-].
Qed.

Lemma optional_within_again raw field limit (o : option Z) :
  get_or JNull field raw = of_opt_int o →
  match o with Some n => (1 ≤ n ≤ limit)%Z | None => True end → optional_within raw field limit = Ok o.
Proof.
  unfold optional_within. intros ->. destruct o as [n|]; [|done]. intros [H1 H2]. simpl.
  apply Z.leb_le in H1 as ->. by apply Z.leb_le in H2 as ->.
Qed.

(** What every policy that was constructed satisfies. *)
Record policy_ok (p : ArchitecturePolicy) : Prop := {
  ok_allowed : proper_names TECHNOLOGY_NAME (pl_allowed_technologies p);
  ok_prohibited : proper_names TECHNOLOGY_NAME (pl_prohibited_technologies p);
  ok_regions : proper_names (fullmatch REGION) (pl_allowed_regions p);
  ok_sources : proper_names SECRET_SOURCE (pl_approved_secret_sources p);
  ok_kinds : proper_names (fullmatch METRIC_KIND) (pl_required_metric_kinds_on_critical p);
  ok_disjoint : ∀ t, t ∈ pl_allowed_technologies p → t ∉ pl_prohibited_technologies p;
  ok_flags : dict_keys (pl_flags p) = FLAGS;
  ok_components : match pl_max_components p with Some n => (1 ≤ n ≤ Z.of_nat MAX_NODES)%Z | None => True end;
  ok_retention :
    match pl_min_telemetry_retention_seconds p with
    | Some n => (1 ≤ n ≤ MAX_RETENTION_SECONDS)%Z
    | None => True
    end;
}.

Lemma policy_new_ok raw p : ArchitecturePolicy_new raw = Ok p → policy_ok p.
Proof.
  unfold ArchitecturePolicy_new. cbv zeta. intros H.
  do 5 (apply py_bind_ok in H as (? & ?%names_ok & H)).
  destruct (filter _ _) eqn:Ed in H; [|done].
  apply py_bind_ok in H as (flags & Hf%flags_ok & H).
  apply py_bind_ok in H as (retention & Hr%optional_within_ok & H).
  apply py_bind_ok in H as (limit & Hl%optional_within_ok & [= <-]).
  constructor; simpl; try done.
  - intros t Ht Hp. apply (not_elem_of_nil t). rewrite <- Ed. by apply list_elem_of_filter.
  - rewrite Hf. unfold dict_keys. rewrite <- list_fmap_compose. by apply list_fmap_id.
Qed.

Lemma get_flag (b : string → bool) (l : list string) f :
  f ∈ l → get_or false f ((λ f, (f, b f)) <$> l) = b f.
Proof.
  unfold get_or. induction l as [|x l IH]; intros Hin; [by apply not_elem_of_nil in Hin|].
  cbn [fmap list_fmap dict_get]. apply elem_of_cons in Hin as [<- | Hin].
  - by rewrite decide_True.
  - case_decide; [by subst|]. by apply IH.
Qed.

Lemma flags_function p : policy_ok p → ∃ b, pl_flags p = (λ f, (f, b f)) <$> FLAGS.
Proof.
  intros Hp. exists (λ f, get_or false f (pl_flags p)). rewrite <- (ok_flags p Hp). unfold dict_keys. rewrite <- list_fmap_compose. symmetry.
  apply map_fixed, Forall_forall. intros [f b] Hin. unfold compose, get_or. simpl.
  assert (dict_wf (pl_flags p)) as Hwf.
  { unfold dict_wf. rewrite (ok_flags p Hp). by apply (bool_decide_unpack _). }
  apply (dict_get_wf _ _ _ Hwf) in Hin as ->. done.
Qed.

Lemma policy_read p : policy_ok p → ArchitecturePolicy_from_dict (JObj (ArchitecturePolicy_to_dict p)) = Ok p.
Proof.
  intros Hp. destruct (flags_function p Hp) as [b Hf]. destruct Hp as [H1 H2 H3 H4 H5 Hd _ Hc Hr].
  destruct p as [allowed prohibited regions sources kinds flags limit retention].
  cbn [pl_allowed_technologies pl_prohibited_technologies pl_allowed_regions pl_approved_secret_sources
       pl_required_metric_kinds_on_critical pl_flags pl_max_components
       pl_min_telemetry_retention_seconds] in *.
  subst flags.
  set (doc := ArchitecturePolicy_to_dict _). unfold ArchitecturePolicy_from_dict. cbv beta iota.
  assert (sort_by str_leb (filter (λ k, k ∉ FIELDS) (dict_keys doc)) = []) as -> by reflexivity.
  unfold ArchitecturePolicy_new. cbv zeta.
  change (get_or (JArr []) "allowed_technologies" doc) with (JArr (JStr <$> sort_by str_leb allowed)).
  change (get_or (JArr []) "prohibited_technologies" doc) with (JArr (JStr <$> sort_by str_leb prohibited)).
  change (get_or (JArr []) "allowed_regions" doc) with (JArr (JStr <$> sort_by str_leb regions)).
  change (get_or (JArr []) "approved_secret_sources" doc) with (JArr (JStr <$> sort_by str_leb sources)).
  change (get_or (JArr []) "required_metric_kinds_on_critical" doc) with (JArr (JStr <$> sort_by str_leb kinds)).
  rewrite !names_again by done. cbn [mbind py_bind].
  assert (filter (λ t, t ∈ prohibited) allowed = []) as ->.
  { by apply filter_nil_iff. }
  assert (py_map (policy_flag doc) FLAGS = Ok ((λ f, (f, b f)) <$> FLAGS)) as -> by reflexivity.
  assert (optional_within doc "min_telemetry_retention_seconds" MAX_RETENTION_SECONDS = Ok retention) as ->.
  { apply optional_within_again; [reflexivity|exact Hr]. }
  assert (optional_within doc "max_components" (Z.of_nat MAX_NODES) = Ok limit) as ->; [|reflexivity].
  apply optional_within_again; [reflexivity|exact Hc].
Qed.

(** What is stored of a project's settings and policy is read back as it was: the normalized values
    are accepted unchanged, and a policy that was accepted has sorted lists of at most 100 proper
    names, no technology both allowed and prohibited, every flag stated, and limits in range. *)
Theorem stored_policy_read :
  (∀ raw s, ProjectSettings_from_dict raw = Ok s →
     ProjectSettings_from_dict (ProjectSettings_to_dict s) = Ok s ∧ CURRENCY (ps_currency s) = true) ∧
  (∀ raw p, ArchitecturePolicy_from_dict raw = Ok p →
     ArchitecturePolicy_from_dict (JObj (ArchitecturePolicy_to_dict p)) = Ok p ∧ policy_ok p).
Proof.
  split.
  - intros raw s Hs. split; [by eapply settings_read|]. unfold ProjectSettings_from_dict in Hs.
    destruct (sorted_set _); [|done]. apply py_bind_ok in Hs as (o & _ & Hs).
    destruct (get_or _ "currency" raw); try done. unfold ProjectSettings_new in Hs.
    destruct (CURRENCY _) eqn:E; [|done]. by injection Hs as <-.
  - intros raw p Hp. assert (policy_ok p) as Hok; [|split; [by apply policy_read|done]].
    unfold ArchitecturePolicy_from_dict in Hp. destruct raw; try done.
    destruct (sort_by _ _); [|done]. by eapply policy_new_ok.
Qed.

Definition sample_policy_document : json := JObj [
  ("allowed_technologies", JArr [JStr " PostgreSQL "; JStr "redis"; JStr "postgresql"]);
  ("require_tls", JBool true); ("max_components", JInt 40); ("required_metric_kinds_on_critical", JArr [JStr "latency"])].

Lemma stored_policy_read_witness :
  (pl_allowed_technologies <$> ArchitecturePolicy_from_dict sample_policy_document) = Ok ["postgresql"; "redis"] ∧
  (ps_currency <$> ProjectSettings_from_dict [("currency", JStr " eur ")]) = Ok "EUR" ∧
  match ArchitecturePolicy_from_dict sample_policy_document with
  | Ok p => ArchitecturePolicy_from_dict (JObj (ArchitecturePolicy_to_dict p)) = Ok p ∧ policy_ok p
  | Raise _ => False
  end.
Proof.
  split; [by vm_compute|]. split; [by vm_compute|].
  pose proof (proj2 stored_policy_read sample_policy_document) as H.
  assert (is_ok (ArchitecturePolicy_from_dict sample_policy_document) = true) as Hok by by vm_compute.
  destruct (ArchitecturePolicy_from_dict sample_policy_document) as [p|e]; [by apply H|done].
Defined.
