(* ===== verification/Revisions.v ===== *)
(** Architectures of a project and their revisions
    (src/core/domain/architecture: entities.py, versions.py, errors.py).

    A revision's summary may be cut with an ellipsis (U+2026), so summaries are lists of code points.
    A coordinate is a JSON number: an integer, or a decimal standing for the float. *)
From Stdlib Require Import Ascii ZArith.
From S2P Require Import Prelude Data Codecs Errors Values JsonText Model Serialization Diff Computations.

(** * Errors (errors.py) *)
Definition ArchitectureUnchanged : exn :=
  DomainError "architecture_unchanged" "These edits change nothing, so no new revision was created." [].
Definition InvalidRevision (message : string) (details : dict string json) : exn :=
  DomainError "invalid_architecture_revision" message details.
Definition ArchitectureNotFound : exn :=
  DomainError "architecture_not_found" "Architecture not found." [].
Definition ArchitectureRevisionNotFound : exn :=
  DomainError "architecture_revision_not_found" "Architecture revision not found." [].
Definition ArchitectureNameTaken : exn :=
  DomainError "architecture_name_taken" "Another architecture of this project already has this name." [].
Definition InvalidArchitectureMetadata (field reason : string) : exn :=
  DomainError "invalid_architecture_metadata" "The architecture's name or description is invalid."
    [("field", JStr field); ("reason", JStr reason)].
Definition ArchitectureArchived : exn :=
  DomainError "architecture_archived"
    "This architecture is archived and read-only. Restore it to make changes." [].
Definition ArchitectureNotArchived : exn :=
  DomainError "architecture_not_archived" "Archive the architecture before deleting it." [].
Definition ArchitectureVersionConflict (latest_version : json) : exn :=
  DomainError "architecture_version_conflict"
    "The architecture changed since you loaded it. Reload it and apply your change again."
    [("latest_version", latest_version)].
Definition InvalidLayout (message : string) (details : dict string json) : exn :=
  DomainError "invalid_architecture_layout" message details.
Definition layout_message : string := "The layout is invalid.".

(** * Architectures (entities.py) *)
Definition MAX_COORDINATE : dec := DFin 1 6.
Definition MAX_NAME_LENGTH : nat := 100.
Definition MAX_DESCRIPTION_LENGTH : nat := 2000.

Inductive ArchitectureStatus := ARCHITECTURE_ACTIVE | ARCHITECTURE_IS_ARCHIVED.

#[export] Instance ArchitectureStatus_eq_dec : EqDecision ArchitectureStatus.
Proof. solve_decision. Defined.

#[export, refine] Instance ArchitectureStatus_enum : StrEnum ArchitectureStatus := {
  members := [ARCHITECTURE_ACTIVE; ARCHITECTURE_IS_ARCHIVED];
  value s := match s with ARCHITECTURE_ACTIVE => "active" | ARCHITECTURE_IS_ARCHIVED => "archived" end;
}.
Proof. all: solve_enum. Defined.

Definition normalize_architecture_name (raw : string) : py string :=
  let name := clean_line raw in
  if String.eqb name "" || (MAX_NAME_LENGTH <? String.length name)
  then Raise (InvalidArchitectureMetadata "name" "length")
  else if has_forbidden_characters name "" then Raise (InvalidArchitectureMetadata "name" "control_characters")
  else Ok name.

Definition normalize_architecture_description (raw : string) : py string :=
  let description := clean_block raw in
  if MAX_DESCRIPTION_LENGTH <? String.length description
  then Raise (InvalidArchitectureMetadata "description" "length")
  else if has_forbidden_characters description BLOCK_CONTROLS
  then Raise (InvalidArchitectureMetadata "description" "control_characters")
  else Ok description.

Record NewArchitecture := {
  na_id : uuid; na_project_id : uuid; na_name : string; na_description : string;
  na_created_by_user_id : option uuid
}.

Record Architecture := {
  ar_id : uuid;
  ar_project_id : uuid;
  ar_name : string;
  ar_description : string;
  ar_status : ArchitectureStatus;
  ar_current_revision : Z;
  ar_created_by_user_id : option uuid;
  ar_updated_by_user_id : option uuid;
  ar_archived_at : option instant;
  ar_deleted_at : option instant;
  ar_created_at : instant;
  ar_updated_at : instant;
}.

#[export] Instance Architecture_eq_dec : EqDecision Architecture.
Proof. solve_decision. Defined.

Definition Architecture_is_archived (a : Architecture) : bool :=
  bool_decide (ar_status a = ARCHITECTURE_IS_ARCHIVED).
Definition Architecture_is_deleted (a : Architecture) : bool :=
  if ar_deleted_at a is Some _ then true else false.

Definition Architecture_ensure_modifiable (a : Architecture) : py unit :=
  if Architecture_is_deleted a then Raise ArchitectureNotFound
  else if Architecture_is_archived a then Raise ArchitectureArchived
  else Ok tt.

(** [replace(self, ...)] of the fields an operation changes: never the project, the current revision,
    the creator or the times of creation and update. *)
Definition edited (a : Architecture) (name description : string) (status : ArchitectureStatus)
    (archived_at deleted_at : option instant) (by_ : uuid) : Architecture := {|
  ar_id := ar_id a; ar_project_id := ar_project_id a; ar_name := name; ar_description := description;
  ar_status := status; ar_current_revision := ar_current_revision a;
  ar_created_by_user_id := ar_created_by_user_id a; ar_updated_by_user_id := Some by_;
  ar_archived_at := archived_at; ar_deleted_at := deleted_at; ar_created_at := ar_created_at a;
  ar_updated_at := ar_updated_at a |}.

Definition Architecture_with_metadata (a : Architecture) (name description : option string) (by_ : uuid) :
    py Architecture :=
  _ ← Architecture_ensure_modifiable a;
  name ← (match name with Some n => normalize_architecture_name n | None => Ok (ar_name a) end);
  description ← (match description with
                 | Some t => normalize_architecture_description t
                 | None => Ok (ar_description a)
                 end);
  Ok (edited a name description (ar_status a) (ar_archived_at a) (ar_deleted_at a) by_).

Definition Architecture_archive (a : Architecture) (at_ : instant) (by_ : uuid) : py Architecture :=
  if Architecture_is_deleted a then Raise ArchitectureNotFound
  else if Architecture_is_archived a then Ok a
  else Ok (edited a (ar_name a) (ar_description a) ARCHITECTURE_IS_ARCHIVED (Some at_) (ar_deleted_at a) by_).

Definition Architecture_restore (a : Architecture) (by_ : uuid) : py Architecture :=
  if Architecture_is_deleted a then Raise ArchitectureNotFound
  else if negb (Architecture_is_archived a) then Ok a
  else Ok (edited a (ar_name a) (ar_description a) ARCHITECTURE_ACTIVE None (ar_deleted_at a) by_).

Definition Architecture_delete (a : Architecture) (at_ : instant) (by_ : uuid) : py Architecture :=
  if Architecture_is_deleted a then Raise ArchitectureNotFound
  else if negb (Architecture_is_archived a) then Raise ArchitectureNotArchived
  else Ok (edited a (ar_name a) (ar_description a) (ar_status a) (ar_archived_at a) (Some at_) by_).

(** ** Layouts *)
Record Position := { x : json; y : json }.

#[export] Instance Position_eq_dec : EqDecision Position.
Proof. solve_decision. Defined.

(** Whether [float(z)] raises [OverflowError]: [z] rounds past the largest double. *)
Definition float_overflows (z : Z) : bool := (2 ^ 1024 - 2 ^ 970 <=? Z.abs z)%Z.

Definition coordinate_problem (v : json) : option exn :=
  let number d :=
    if dec_ltb MAX_COORDINATE d || dec_ltb d (DFin (-1) 6)
    then Some (InvalidLayout layout_message [("reason", JStr "position_out_of_range")]) else None in
  match v with
  | JInt z => if float_overflows z then Some OverflowError else number (dec_of_Z z)
  | JDec d => if is_finite d then number d
              else Some (InvalidLayout layout_message [("reason", JStr "invalid_position")])
  | _ => Some (InvalidLayout layout_message [("reason", JStr "invalid_position")])
  end.

Definition Position_new (px py_ : json) : py Position :=
  match coordinate_problem px with
  | Some e => Raise e
  | None => match coordinate_problem py_ with Some e => Raise e | None => Ok {| x := px; y := py_ |} end
  end.

Record ArchitectureLayout := {
  ly_positions : dict string Position;
  ly_updated_by_user_id : option uuid;
  ly_updated_at : option instant;
}.

(** [ArchitectureLayout()]. *)
Definition no_layout : ArchitectureLayout :=
  {| ly_positions := []; ly_updated_by_user_id := None; ly_updated_at := None |}.

Fixpoint check_node_ids (ids : list string) (node_ids : list string) : py unit :=
  match ids with
  | [] => Ok tt
  | id :: r =>
      if negb (ELEMENT_ID id) then Raise (InvalidLayout layout_message [("reason", JStr "invalid_node_id")])
      else if bool_decide (id ∉ node_ids) then
        Raise (InvalidLayout ("There is no node " +:+ repr id +:+ " in the current revision.")
                 [("reason", JStr "unknown_node"); ("node_id", JStr id)])
      else check_node_ids r node_ids
  end.

Definition check_positions (positions : dict string Position) (node_ids : list string) : py unit :=
  if MAX_NODES <? length positions then Raise (InvalidLayout layout_message [("reason", JStr "too_many")])
  else check_node_ids (dict_keys positions) node_ids.

(** * Revisions (versions.py) *)
Definition MAX_REASON_LENGTH : nat := 500.
Definition MAX_SUMMARY_LENGTH : nat := 500.

Inductive RevisionSource := BY_USER | BY_AI | BY_DISCOVERY | BY_IMPORT | BY_SYSTEM.

#[export] Instance RevisionSource_eq_dec : EqDecision RevisionSource.
Proof. solve_decision. Defined.

#[export, refine] Instance RevisionSource_enum : StrEnum RevisionSource := {
  members := [BY_USER; BY_AI; BY_DISCOVERY; BY_IMPORT; BY_SYSTEM];
  value s := match s with
             | BY_USER => "user" | BY_AI => "ai" | BY_DISCOVERY => "discovery" | BY_IMPORT => "import"
             | BY_SYSTEM => "system"
             end;
}.
Proof. all: solve_enum. Defined.

(** [s if len(s) <= n else s[:n - 1] + "…"]. *)
Definition clipped (s : points) : points :=
  if MAX_SUMMARY_LENGTH <? length s then take (MAX_SUMMARY_LENGTH - 1) s ++ [ELLIPSIS] else s.

(** [to_json] and [content_hash] of serialization.py. *)
Definition to_json (ir : ArchitectureIR) : py string := dumps_with json_text_raw (to_dict ir).
Definition content_hash (ir : ArchitectureIR) : py string := text ← to_json ir; Ok (hexdigest_utf8 text).

Record NewRevision := {
  nr_architecture_id : uuid;
  nr_number : Z;
  nr_parent_number : option Z;
  nr_ir : ArchitectureIR;
  nr_content_hash : string;
  nr_source : RevisionSource;
  nr_summary : points;
  nr_reason : option string;
  nr_created_by_user_id : option uuid;
  nr_requirement_set_id : option uuid;
  nr_restored_from : option Z;
}.

(** [rv_snapshot] is the document as it is stored, [rv_stored_schema_version] the schema it was
    written in; [rv_ir] is the same content through the current reader. *)
Record ArchitectureRevision := {
  rv_id : uuid;
  rv_architecture_id : uuid;
  rv_number : Z;
  rv_parent_number : option Z;
  rv_ir : ArchitectureIR;
  rv_content_hash : string;
  rv_source : RevisionSource;
  rv_summary : points;
  rv_reason : option string;
  rv_created_by_user_id : option uuid;
  rv_created_at : instant;
  rv_requirement_set_id : option uuid;
  rv_restored_from : option Z;
  rv_snapshot : json;
  rv_stored_schema_version : option Z;
}.

(** [self.stored_schema_version or self.ir.schema_version]. *)
Definition rv_ir_schema_version (r : ArchitectureRevision) : Z :=
  match rv_stored_schema_version r with
  | Some v => if (v =? 0)%Z then ir_schema_version (rv_ir r) else v
  | None => ir_schema_version (rv_ir r)
  end.

Definition label (r : ArchitectureRevision) : string := "v" +:+ Z_text (rv_number r).

Definition reason_of (raw : option string) : py (option string) :=
  match raw with
  | None => Ok None
  | Some raw =>
      if String.eqb (strip raw) "" then Ok None
      else
        let reason := clean_block raw in
        match text_problems (JStr reason) "reason" MAX_REASON_LENGTH true true with
        | problem :: _ =>
            Raise (InvalidRevision (v_message problem)
                     [("field", JStr "reason"); ("reason", JStr (v_rule problem))])
        | [] => Ok (Some reason)
        end
  end.

Definition counted (count : nat) (noun : string) : string :=
  nat_text count +:+ " " +:+ noun +:+ (if count =? 1 then "" else "s").

Definition creation_summary (ir : ArchitectureIR) : string :=
  "Created with " +:+ counted (length (ir_nodes ir)) "node" +:+ " and "
  +:+ counted (length (ir_connections ir)) "connection" +:+ ".".

Definition first_revision (architecture_id : uuid) (ir : ArchitectureIR) (source : RevisionSource)
    (created_by_user_id : option uuid) (reason : option string) (requirement_set_id : option uuid) :
    py NewRevision :=
  hash ← content_hash ir;
  reason ← reason_of reason;
  Ok {| nr_architecture_id := architecture_id; nr_number := 1; nr_parent_number := None; nr_ir := ir;
        nr_content_hash := hash; nr_source := source; nr_summary := points_of (creation_summary ir);
        nr_reason := reason; nr_created_by_user_id := created_by_user_id;
        nr_requirement_set_id := requirement_set_id; nr_restored_from := None |}.

(** [a or b], for identifiers: a UUID is always true. *)
Definition or_else {A} (a b : option A) : option A := match a with Some _ => a | None => b end.

Definition next_revision (parent : ArchitectureRevision) (ir : ArchitectureIR) (source : RevisionSource)
    (created_by_user_id : option uuid) (reason : option string) (requirement_set_id : option uuid) :
    py (NewRevision * ArchitectureDiff) :=
  let changes := diff (rv_ir parent) ir in
  if is_empty changes then Raise ArchitectureUnchanged
  else
    hash ← content_hash ir;
    reason ← reason_of reason;
    Ok ({| nr_architecture_id := rv_architecture_id parent; nr_number := rv_number parent + 1;
           nr_parent_number := Some (rv_number parent); nr_ir := ir; nr_content_hash := hash;
           nr_source := source; nr_summary := clipped (points_of (summary changes)); nr_reason := reason;
           nr_created_by_user_id := created_by_user_id;
           nr_requirement_set_id := or_else requirement_set_id (rv_requirement_set_id parent);
           nr_restored_from := None |}, changes).

Definition restored_revision (current source : ArchitectureRevision) (created_by_user_id : option uuid)
    (reason : option string) : py (NewRevision * ArchitectureDiff) :=
  if negb (String.eqb (rv_architecture_id source) (rv_architecture_id current)) then
    Raise (InvalidRevision "Only a revision of the same architecture can be restored."
             [("reason", JStr "different_architectures")])
  else
    '(new, changes) ← next_revision current (rv_ir source) BY_USER created_by_user_id reason
                        (rv_requirement_set_id source);
    Ok ({| nr_architecture_id := nr_architecture_id new; nr_number := nr_number new;
           nr_parent_number := nr_parent_number new; nr_ir := nr_ir new;
           nr_content_hash := nr_content_hash new; nr_source := nr_source new;
           nr_summary := clipped (points_of ("Restored " +:+ label source +:+ ": " +:+ summary changes));
           nr_reason := nr_reason new; nr_created_by_user_id := nr_created_by_user_id new;
           nr_requirement_set_id := nr_requirement_set_id new;
           nr_restored_from := Some (rv_number source) |}, changes).

Definition compare (before after : ArchitectureRevision) : py ArchitectureDiff :=
  if negb (String.eqb (rv_architecture_id before) (rv_architecture_id after)) then
    Raise (InvalidRevision "Only revisions of the same architecture can be compared."
             [("reason", JStr "different_architectures")])
  else Ok (diff (rv_ir before) (rv_ir after)).
