(* ===== verification/Estate.v ===== *)
(** The stored projects and architectures of an organization, over its accounts.

    - [estate]: the accounts ([Store.world]) and the tables of projects, architectures, revisions and
      layouts; of requirements and requirement sets, only what architectures read of them.  Settings,
      policies and revision contents are stored as documents, and read back through their readers.
    - the repositories of src/persistence/repositories/projects.py and architectures.py, one
      definition per method; and [project_access]
      (src/core/domain/requirements/access.py), through which every write reaches its project. *)
From Stdlib Require Import ZArith.
From S2P Require Import Prelude Data Errors Model Serialization Computations Store Policy.
From S2P Require Import JsonText Projects Revisions.

(** * Rows *)
Record ProjectRow := {
  pr_id : uuid;
  pr_organization_id : uuid;
  pr_name : string;
  pr_slug : string;
  pr_description : string;
  pr_status : ProjectStatus;
  pr_settings : dict string json;
  pr_architecture_policy : json;
  pr_created_by_user_id : option uuid;
  pr_archived_at : option instant;
  pr_deleted_at : option instant;
  pr_created_at : instant;
  pr_updated_at : instant;
}.

Definition to_project (r : ProjectRow) : py Project :=
  settings ← ProjectSettings_from_dict (pr_settings r);
  policy ← ArchitecturePolicy_from_dict (pr_architecture_policy r);
  Ok {| pj_id := pr_id r; pj_organization_id := pr_organization_id r; pj_name := pr_name r;
        pj_slug := pr_slug r; pj_description := pr_description r; pj_status := pr_status r;
        pj_settings := settings; pj_created_by_user_id := pr_created_by_user_id r;
        pj_archived_at := pr_archived_at r; pj_deleted_at := pr_deleted_at r;
        pj_created_at := pr_created_at r; pj_updated_at := pr_updated_at r; pj_policy := policy |}.

Record RevisionRow := {
  rr_id : uuid;
  rr_architecture_id : uuid;
  rr_project_id : uuid;
  rr_number : Z;
  rr_parent_number : option Z;
  rr_restored_from_number : option Z;
  rr_ir : json;
  rr_ir_schema_version : Z;
  rr_content_hash : string;
  rr_source : RevisionSource;
  rr_summary : points;
  rr_reason : option string;
  rr_requirement_set_id : option uuid;
  rr_created_by_user_id : option uuid;
  rr_created_at : instant;
}.

Definition to_revision (r : RevisionRow) : py ArchitectureRevision :=
  ir ← from_dict (rr_ir r);
  Ok {| rv_id := rr_id r; rv_architecture_id := rr_architecture_id r; rv_number := rr_number r;
        rv_parent_number := rr_parent_number r; rv_ir := ir; rv_content_hash := rr_content_hash r;
        rv_source := rr_source r; rv_summary := rr_summary r; rv_reason := rr_reason r;
        rv_created_by_user_id := rr_created_by_user_id r; rv_created_at := rr_created_at r;
        rv_requirement_set_id := rr_requirement_set_id r; rv_restored_from := rr_restored_from_number r;
        rv_snapshot := rr_ir r; rv_stored_schema_version := Some (rr_ir_schema_version r) |}.

(** A revision without its content, for listings. *)
Record RevisionSummary := {
  rs_number : Z;
  rs_parent_number : option Z;
  rs_restored_from : option Z;
  rs_source : RevisionSource;
  rs_summary : points;
  rs_reason : option string;
  rs_content_hash : string;
  rs_ir_schema_version : Z;
  rs_requirement_set_id : option uuid;
  rs_created_by_user_id : option uuid;
  rs_created_at : instant;
}.

Definition to_summary (r : RevisionRow) : RevisionSummary := {|
  rs_number := rr_number r; rs_parent_number := rr_parent_number r;
  rs_restored_from := rr_restored_from_number r; rs_source := rr_source r; rs_summary := rr_summary r;
  rs_reason := rr_reason r; rs_content_hash := rr_content_hash r;
  rs_ir_schema_version := rr_ir_schema_version r; rs_requirement_set_id := rr_requirement_set_id r;
  rs_created_by_user_id := rr_created_by_user_id r; rs_created_at := rr_created_at r |}.

Record LayoutRow := {
  lr_architecture_id : uuid;
  lr_project_id : uuid;
  lr_positions : dict string Position;
  lr_updated_by_user_id : option uuid;
  lr_updated_at : instant;
}.

(** Positions are checked again when they are read. *)
Definition to_layout (r : option LayoutRow) : py ArchitectureLayout :=
  match r with
  | None => Ok no_layout
  | Some r =>
      positions ← py_map (λ p, q ← Position_new (x p.2) (y p.2); Ok (p.1, q)) (lr_positions r);
      Ok {| ly_positions := positions; ly_updated_by_user_id := lr_updated_by_user_id r;
            ly_updated_at := Some (lr_updated_at r) |}
  end.

(** What an architecture and a validation read of a requirement (as it is stored), and of a requirement set. *)
Record RequirementRow := {
  qr_id : uuid; qr_project_id : uuid; qr_number : Z; qr_current_version : Z; qr_type : string; qr_category : string;
  qr_title : string; qr_statement : string; qr_priority : string; qr_status : string; qr_structured_data : json;
  qr_scope : string; qr_deleted_at : option instant
}.
Record RequirementSetRow := { sr_id : uuid; sr_project_id : uuid }.

(** * The state *)
Record estate := {
  accounts : world;
  projects : gmap uuid ProjectRow;
  architectures : gmap uuid Architecture;
  revisions : gmap uuid RevisionRow;
  layouts : gmap uuid LayoutRow;
  requirements : gmap uuid RequirementRow;
  requirement_sets : gmap uuid RequirementSetRow;
}.

Definition set_accounts (w : world) (e : estate) : estate := {|
  accounts := w; projects := projects e; architectures := architectures e; revisions := revisions e;
  layouts := layouts e; requirements := requirements e; requirement_sets := requirement_sets e |}.
Definition set_projects (f : gmap uuid ProjectRow → gmap uuid ProjectRow) (e : estate) : estate := {|
  accounts := accounts e; projects := f (projects e); architectures := architectures e;
  revisions := revisions e; layouts := layouts e; requirements := requirements e;
  requirement_sets := requirement_sets e |}.
Definition set_architectures (f : gmap uuid Architecture → gmap uuid Architecture) (e : estate) : estate := {|
  accounts := accounts e; projects := projects e; architectures := f (architectures e);
  revisions := revisions e; layouts := layouts e; requirements := requirements e;
  requirement_sets := requirement_sets e |}.
Definition set_revisions (f : gmap uuid RevisionRow → gmap uuid RevisionRow) (e : estate) : estate := {|
  accounts := accounts e; projects := projects e; architectures := architectures e;
  revisions := f (revisions e); layouts := layouts e; requirements := requirements e;
  requirement_sets := requirement_sets e |}.
Definition set_layouts (f : gmap uuid LayoutRow → gmap uuid LayoutRow) (e : estate) : estate := {|
  accounts := accounts e; projects := projects e; architectures := architectures e;
  revisions := revisions e; layouts := f (layouts e); requirements := requirements e;
  requirement_sets := requirement_sets e |}.

(** An operation on the accounts, as part of one on the estate: they share the transaction. *)
Definition on_accounts {A} (m : st world A) : st estate A := λ e,
  let '(r, w) := m (accounts e) in (r, set_accounts w e).

(** [func.now()]. *)
Definition db_now : st estate instant := query (λ e, clock (accounts e)).

Definition live_at (deleted_at : option instant) : bool := if deleted_at is None then true else false.

(** [o is None]. *)
Definition absent {A} (o : option A) : bool := if o is None then true else false.

(** * Projects (persistence/repositories/projects.py) *)
Inductive ProjectLock := SHARE | EXCLUSIVE.

Definition same_slug (p : NewProject) (r : ProjectRow) : bool :=
  bool_decide (pr_organization_id r = np_organization_id p) && bool_decide (pr_slug r = np_slug p)
  && live_at (pr_deleted_at r).

(** The index [uq_projects_organization_id_slug_live]; then the row. *)
Definition projects_add (id : uuid) (p : NewProject) : st estate Project :=
  now ← db_now;
  table ← query projects;
  _ ← raise_when (existsb (same_slug p) (rows table)) ProjectSlugTaken;
  _ ← references_row (np_organization_id p) (λ e, organizations (accounts e));
  _ ← references_row (np_created_by_user_id p) (λ e, users (accounts e));
  let row := {|
    pr_id := id; pr_organization_id := np_organization_id p; pr_name := np_name p; pr_slug := np_slug p;
    pr_description := np_description p; pr_status := PROJECT_ACTIVE;
    pr_settings := ProjectSettings_to_dict (np_settings p); pr_architecture_policy := JObj [];
    pr_created_by_user_id := Some (np_created_by_user_id p); pr_archived_at := None;
    pr_deleted_at := None; pr_created_at := now; pr_updated_at := now |} in
  _ ← insert_row id row projects set_projects;
  lift (to_project row).

Definition projects_get_live (id : uuid) : st estate (option Project) :=
  found ← query (λ e, r ← projects e !! id; if live_at (pr_deleted_at r) then Some r else None);
  match found with
  | None => mret None
  | Some r => p ← lift (to_project r); mret (Some p)
  end.

(** The columns an update sets; the slug, the organization and the creator are not among them. *)
Definition saved_row (p : Project) (now : instant) (r : ProjectRow) : ProjectRow := {|
  pr_id := pr_id r; pr_organization_id := pr_organization_id r; pr_name := pj_name p;
  pr_slug := pr_slug r; pr_description := pj_description p; pr_status := pj_status p;
  pr_settings := ProjectSettings_to_dict (pj_settings p);
  pr_architecture_policy := JObj (ArchitecturePolicy_to_dict (pj_policy p));
  pr_created_by_user_id := pr_created_by_user_id r; pr_archived_at := pj_archived_at p;
  pr_deleted_at := pj_deleted_at p; pr_created_at := pr_created_at r; pr_updated_at := now |}.

Definition projects_save (p : Project) : st estate Project :=
  now ← db_now;
  _ ← modify (set_projects (alter (saved_row p now) (pj_id p)));
  found ← query (λ e, projects e !! pj_id p);
  match found with Some r => lift (to_project r) | None => raise LookupError end.

(** Project, organization and membership in one statement. *)
Definition projects_get_for_member (project_id user_id : uuid) (lock : option ProjectLock) :
    st estate (option (Project * Membership)) :=
  found ← query (λ e, r ← projects e !! project_id; if live_at (pr_deleted_at r) then Some r else None);
  match found with
  | None => mret None
  | Some r =>
      organization ← on_accounts (organizations_get_active (pr_organization_id r));
      member ← on_accounts (memberships_get_for_user (pr_organization_id r) user_id);
      match organization, member with
      | Some _, Some m => p ← lift (to_project r); mret (Some (p, m))
      | _, _ => mret None
      end
  end.

(** [collate] is the database's order of names. *)
Section listing.
Context (collate : string → string → bool).

Definition sort_key (sort : ProjectSort) (r : ProjectRow) : SortValue :=
  match sort with
  | BY_CREATED_AT => AtTime (pr_created_at r)
  | BY_UPDATED_AT => AtTime (pr_updated_at r)
  | BY_NAME => AtName (lower (pr_name r))
  end.

Definition value_leb (a b : SortValue) : bool :=
  match a, b with
  | AtTime t, AtTime u => (t <=? u)%Z
  | AtName x, AtName y => collate x y
  | AtTime _, AtName _ => true
  | AtName _, AtTime _ => false
  end.

(** Newest first, or by name; then by id, the same way round. *)
Definition place_leb (sort : ProjectSort) (a b : SortValue * uuid) : bool :=
  match sort with BY_NAME => lex value_leb str_leb a b | _ => lex value_leb str_leb b a end.

Definition listed_project (organization_id : uuid) (q : ProjectQuery) (r : ProjectRow) : bool :=
  bool_decide (pr_organization_id r = organization_id) && live_at (pr_deleted_at r)
  && (if pq_status q is Some s then bool_decide (pr_status r = s) else true)
  && (if pq_search q is Some t
      then String.eqb t "" || contains (lower (strip t)) (lower (pr_name r)) || contains (lower (strip t)) (pr_slug r)
      else true)
  && (if pq_after q is Some c
      then negb (place_leb (pq_sort q) (sort_key (pq_sort q) r, pr_id r) (pc_value c, pc_id c))
      else true).

Definition projects_list_for_organization (organization_id : uuid) (q : ProjectQuery) : st estate (list Project) :=
  found ← query (λ e,
    take (Z.to_nat (pq_limit q))
      (sort_by (on (λ r, (sort_key (pq_sort q) r, pr_id r)) (place_leb (pq_sort q)))
         (where_ (listed_project organization_id q) (projects e))));
  lift (py_map to_project found).
End listing.

(** * Access (core/domain/requirements/access.py) *)
Definition allowed (m : Membership) (p : Permission) : st estate unit :=
  raise_when (negb (has_permission (m_role m) p)) PermissionDenied.

Definition project_access (project_id user_id : uuid) (permission : Permission)
    (lock : option ProjectLock) : st estate (Project * Membership) :=
  access ← projects_get_for_member project_id user_id lock;
  match access with
  | None => raise ProjectNotFound
  | Some (project, membership) =>
      _ ← allowed membership permission;
      _ ← (if lock is Some _ then lift (Project_ensure_modifiable project) else mret tt);
      mret (project, membership)
  end.

(** * Architectures (persistence/repositories/architectures.py) *)

(** The index [uq_architectures_project_id_name_live], for a row with this id, project and name. *)
Definition same_name (id project_id : uuid) (name : string) (a : Architecture) : bool :=
  bool_decide (ar_project_id a = project_id) && bool_decide (lower (ar_name a) = lower name)
  && live_at (ar_deleted_at a) && negb (bool_decide (ar_id a = id)).

Definition name_free (id project_id : uuid) (name : string) : st estate unit :=
  table ← query architectures;
  raise_when (existsb (same_name id project_id name) (rows table)) ArchitectureNameTaken.

Definition revision_record (id project_id : uuid) (created_at : instant) (r : NewRevision) : RevisionRow := {|
  rr_id := id; rr_architecture_id := nr_architecture_id r; rr_project_id := project_id;
  rr_number := nr_number r; rr_parent_number := nr_parent_number r;
  rr_restored_from_number := nr_restored_from r; rr_ir := to_dict (nr_ir r);
  rr_ir_schema_version := ir_schema_version (nr_ir r); rr_content_hash := nr_content_hash r;
  rr_source := nr_source r; rr_summary := nr_summary r; rr_reason := nr_reason r;
  rr_requirement_set_id := nr_requirement_set_id r; rr_created_by_user_id := nr_created_by_user_id r;
  rr_created_at := created_at |}.

Definition is_revision (architecture_id : uuid) (number : Z) (r : RevisionRow) : bool :=
  bool_decide (rr_architecture_id r = architecture_id) && bool_decide (rr_number r = number).

(** The row of a revision: its number is new in its architecture. *)
Definition insert_revision (id project_id : uuid) (r : NewRevision) : st estate RevisionRow :=
  now ← db_now;
  table ← query revisions;
  _ ← raise_when (existsb (is_revision (nr_architecture_id r) (nr_number r)) (rows table))
        (IntegrityError "architecture_id, number");
  let row := revision_record id project_id now r in
  _ ← insert_row id row revisions set_revisions;
  mret row.

Definition architectures_add (revision_id : uuid) (a : NewArchitecture) (first : NewRevision) :
    st estate (Architecture * ArchitectureRevision) :=
  now ← db_now;
  _ ← name_free (na_id a) (na_project_id a) (na_name a);
  _ ← references_row (na_project_id a) projects;
  let row := {|
    ar_id := na_id a; ar_project_id := na_project_id a; ar_name := na_name a;
    ar_description := na_description a; ar_status := ARCHITECTURE_ACTIVE;
    ar_current_revision := nr_number first; ar_created_by_user_id := na_created_by_user_id a;
    ar_updated_by_user_id := na_created_by_user_id a; ar_archived_at := None; ar_deleted_at := None;
    ar_created_at := now; ar_updated_at := now |} in
  _ ← insert_row (na_id a) row architectures set_architectures;
  revision ← insert_revision revision_id (na_project_id a) first;
  revision ← lift (to_revision revision);
  mret (row, revision).

Definition architectures_get (project_id architecture_id : uuid) : st estate (option Architecture) :=
  query (λ e, a ← architectures e !! architecture_id;
              if bool_decide (ar_project_id a = project_id) && live_at (ar_deleted_at a)
              then Some a else None).

(** The columns [save] sets. *)
Definition saved_architecture (a : Architecture) (now : instant) (r : Architecture) : Architecture := {|
  ar_id := ar_id r; ar_project_id := ar_project_id r; ar_name := ar_name a;
  ar_description := ar_description a; ar_status := ar_status a;
  ar_current_revision := ar_current_revision r; ar_created_by_user_id := ar_created_by_user_id r;
  ar_updated_by_user_id := ar_updated_by_user_id a; ar_archived_at := ar_archived_at a;
  ar_deleted_at := ar_deleted_at a; ar_created_at := ar_created_at r; ar_updated_at := now |}.

Definition architectures_save (a : Architecture) : st estate Architecture :=
  now ← db_now;
  found ← query (λ e, architectures e !! ar_id a);
  match found with
  | None => raise LookupError
  | Some r =>
      if negb (bool_decide (ar_project_id r = ar_project_id a)) then raise LookupError
      else
        _ ← (if live_at (ar_deleted_at a) then name_free (ar_id r) (ar_project_id r) (ar_name a) else mret tt);
        let saved := saved_architecture a now r in
        _ ← modify (set_architectures (<[ar_id a := saved]>));
        mret saved
  end.

(** The row once the revision is the current one. *)
Definition moved_to (r : NewRevision) (now : instant) (a : Architecture) : Architecture := {|
  ar_id := ar_id a; ar_project_id := ar_project_id a; ar_name := ar_name a;
  ar_description := ar_description a; ar_status := ar_status a; ar_current_revision := nr_number r;
  ar_created_by_user_id := ar_created_by_user_id a; ar_updated_by_user_id := nr_created_by_user_id r;
  ar_archived_at := ar_archived_at a; ar_deleted_at := ar_deleted_at a;
  ar_created_at := ar_created_at a; ar_updated_at := now |}.

Definition architectures_add_revision (revision_id : uuid) (a : Architecture) (r : NewRevision) :
    st estate (Architecture * ArchitectureRevision) :=
  now ← db_now;
  record ← insert_revision revision_id (ar_project_id a) r;
  found ← query (λ e, architectures e !! ar_id a);
  match found with
  | None => raise (ArchitectureVersionConflict JNull)
  | Some row =>
      if negb (bool_decide (Some (ar_current_revision row) = nr_parent_number r))
      then raise (ArchitectureVersionConflict JNull)
      else
        let moved := moved_to r now row in
        _ ← modify (set_architectures (<[ar_id a := moved]>));
        revision ← lift (to_revision record);
        mret (moved, revision)
  end.

Definition architectures_get_revision (architecture_id : uuid) (number : Z) :
    st estate (option ArchitectureRevision) :=
  found ← query (λ e, head (where_ (is_revision architecture_id number) (revisions e)));
  match found with
  | None => mret None
  | Some r => revision ← lift (to_revision r); mret (Some revision)
  end.

(** The latest first. *)
Definition number_geb (a b : RevisionRow) : bool := (rr_number b <=? rr_number a)%Z.

Definition architectures_list_revisions (architecture_id : uuid) (before : option Z) (limit : nat) :
    st estate (list RevisionSummary) :=
  query (λ e,
    to_summary <$> take limit (sort_by number_geb (where_ (λ r,
      bool_decide (rr_architecture_id r = architecture_id)
      && (if before is Some n then (rr_number r <? n)%Z else true)) (revisions e)))).

(** The newest first, then the greatest id; [search] is a part of the name, whatever the case. *)
Record ArchitectureQuery := {
  aq_status : option ArchitectureStatus; aq_search : option string;
  aq_after : option (instant * uuid); aq_limit : nat
}.

Definition newest_leb (a b : Architecture) : bool :=
  lex Z_leb str_leb (ar_created_at b, ar_id b) (ar_created_at a, ar_id a).

Definition listed (project_id : uuid) (q : ArchitectureQuery) (a : Architecture) : bool :=
  bool_decide (ar_project_id a = project_id) && live_at (ar_deleted_at a)
  && (if aq_status q is Some s then bool_decide (ar_status a = s) else true)
  && (if aq_search q is Some t then String.eqb t "" || contains (lower (strip t)) (lower (ar_name a)) else true)
  && (if aq_after q is Some (at_, id)
      then (ar_created_at a <? at_)%Z || ((ar_created_at a =? at_)%Z && String.ltb (ar_id a) id)
      else true).

Definition architectures_list_for_project (project_id : uuid) (q : ArchitectureQuery) :
    st estate (list Architecture) :=
  query (λ e, take (aq_limit q) (sort_by newest_leb (where_ (listed project_id q) (architectures e)))).

Definition architectures_get_layout (architecture_id : uuid) : st estate ArchitectureLayout :=
  found ← query (λ e, layouts e !! architecture_id);
  lift (to_layout found).

Definition architectures_save_layout (a : Architecture) (positions : dict string Position) (user_id : uuid) :
    st estate ArchitectureLayout :=
  now ← db_now;
  let row := {|
    lr_architecture_id := ar_id a; lr_project_id := ar_project_id a;
    lr_positions := sort_by (on fst str_leb) positions; lr_updated_by_user_id := Some user_id;
    lr_updated_at := now |} in
  _ ← modify (set_layouts (<[ar_id a := row]>));
  lift (to_layout (Some row)).

(** * Requirements, as architectures read them *)
Definition requirements_list_by_ids (project_id : uuid) (ids : list uuid) : st estate (list RequirementRow) :=
  match ids with
  | [] => mret []
  | _ => query (λ e, where_ (λ r, bool_decide (qr_project_id r = project_id) && live_at (qr_deleted_at r)
                                  && bool_decide (qr_id r ∈ ids)) (requirements e))
  end.

Definition requirement_sets_get (project_id set_id : uuid) : st estate (option RequirementSetRow) :=
  query (λ e, s ← requirement_sets e !! set_id; if bool_decide (sr_project_id s = project_id) then Some s else None).
