(* ===== verification/ProjectService.v ===== *)
(** Project use cases (src/core/domain/projects/project_service.py): every operation resolves the
    caller's membership in its own transaction, checks the permission, then changes and audits. *)
From Stdlib Require Import ZArith.
From S2P Require Import Prelude Data Errors Computations Store Policy Identity Projects Revisions Estate.

(** [uow.audit.record(AuditEvent(...))] about a project. *)
Definition project_event (action : AuditAction) (user_id : uuid) (p : Project)
    (metadata : dict string json) : st estate unit :=
  on_accounts (record (organization_event action user_id (pj_organization_id p) "project" (pj_id p) metadata)).

Definition project_resolve (project_id user_id : uuid) : st estate (Project * Membership) :=
  access ← unit_of_work (projects_get_for_member project_id user_id None);
  match access with
  | None => raise ProjectNotFound
  | Some (project, membership) => _ ← allowed membership PROJECT_READ; mret (project, membership)
  end.

Definition project_list (collate : string → string → bool) (membership : Membership) (q : ProjectQuery) :
    st estate (Page Project ProjectCursor) :=
  _ ← allowed membership PROJECT_READ;
  let size := page_size (pq_limit q) in
  rows ← unit_of_work (projects_list_for_organization collate (m_organization_id membership)
    {| pq_status := pq_status q; pq_search := pq_search q; pq_sort := pq_sort q; pq_after := pq_after q;
       pq_limit := Z.of_nat (S size) |});
  mret (page_of size (cursor_for (pq_sort q)) rows).

Definition project_create (d : draws) (membership : Membership) (name : string) (slug : option string)
    (description : string) (settings : option ProjectSettings) : st estate Project :=
  _ ← allowed membership PROJECT_CREATE;
  new_project ← lift (NewProject_create (m_organization_id membership) (m_user_id membership) name slug
                        description settings);
  unit_of_work (
    current ← on_accounts (memberships_get_in_active_organization (m_organization_id membership)
                             (m_user_id membership));
    match current with
    | None => raise ProjectNotFound
    | Some (_, current) =>
        _ ← allowed current PROJECT_CREATE;
        project ← projects_add (new_id d) new_project;
        _ ← project_event PROJECT_CREATED (m_user_id membership) project
              [("name", JStr (pj_name project)); ("slug", JStr (pj_slug project))];
        mret project
    end).

(** The project with its row locked, and the permission to change it. *)
Definition locked_project (project_id user_id : uuid) (permission : Permission) :
    st estate (Project * Membership) :=
  access ← projects_get_for_member project_id user_id (Some EXCLUSIVE);
  match access with
  | None => raise ProjectNotFound
  | Some (project, membership) => _ ← allowed membership permission; mret (project, membership)
  end.

Definition supplied {A} (field : string) (o : option A) : list json :=
  if o is Some _ then [JStr field] else [].

Definition project_update (project_id user_id : uuid) (name description : option string)
    (settings : option ProjectSettings) : st estate (Project * Membership) :=
  _ ← raise_when (absent name && absent description && absent settings) NothingToUpdate;
  unit_of_work (
    '(project, membership) ← locked_project project_id user_id PROJECT_UPDATE;
    changed ← lift (Project_with_changes project name description settings);
    saved ← projects_save changed;
    _ ← project_event PROJECT_UPDATED user_id saved
          [("fields", JArr (supplied "name" name ++ supplied "description" description
                            ++ supplied "settings" settings))];
    mret (saved, membership)).

(** The fields of the policy that differ. *)
Definition changed_policy_fields (before after : ArchitecturePolicy) : list string :=
  let old := ArchitecturePolicy_to_dict before in
  sort_by str_leb (fst <$> filter (λ p, py_eqb p.2 (get_or JNull p.1 old) = false)
                     (ArchitecturePolicy_to_dict after)).

Definition project_update_policy (project_id user_id : uuid) (policy : ArchitecturePolicy) :
    st estate (Project * Membership) :=
  unit_of_work (
    '(current, membership) ← locked_project project_id user_id PROJECT_POLICY_UPDATE;
    changed ← lift (Project_with_policy current policy);
    if bool_decide (changed = current) then mret (current, membership)
    else
      saved ← projects_save changed;
      _ ← project_event PROJECT_POLICY_UPDATED user_id saved
            [("fields", JArr (JStr <$> changed_policy_fields (pj_policy current) policy))];
      mret (saved, membership)).

(** Lock, re-authorize, apply one lifecycle step; save and audit only if the state changed. *)
Definition project_transition (project_id user_id : uuid) (permission : Permission) (action : AuditAction)
    (step : Project → py Project) : st estate (Project * Membership) :=
  unit_of_work (
    '(current, membership) ← locked_project project_id user_id permission;
    target ← lift (step current);
    if bool_decide (target = current) then mret (current, membership)
    else
      saved ← projects_save target;
      _ ← project_event action user_id saved [("name", JStr (pj_name saved))];
      mret (saved, membership)).

Definition project_archive (d : draws) (project_id user_id : uuid) : st estate (Project * Membership) :=
  project_transition project_id user_id PROJECT_ARCHIVE PROJECT_ARCHIVED (λ p, Project_archive p (now d)).

Definition project_restore (d : draws) (project_id user_id : uuid) : st estate (Project * Membership) :=
  project_transition project_id user_id PROJECT_ARCHIVE PROJECT_RESTORED Project_restore.

Definition project_delete (d : draws) (project_id user_id : uuid) : st estate unit :=
  _ ← project_transition project_id user_id PROJECT_DELETE PROJECT_DELETED (λ p, Project_delete p (now d));
  mret tt.
