(* ===== verification/ArchitectureService.v ===== *)
(** Architecture use cases (src/core/domain/architecture/architecture_service.py): create, read, update
    metadata, revise content, restore a revision, archive, restore, delete, lay out and compare.

    Cursors are the positions they encode.  [then_] is work a caller commits with a change. *)
From Stdlib Require Import ZArith.
From S2P Require Import Prelude Data Codecs Errors Provenance Traceability Elements Model Commands Serialization.
From S2P Require Import Validation Diff Computations Store Policy Identity Projects Revisions Estate.

(** A [datetime] of the clock, in UTC. *)
Definition datetime_of (t : instant) : datetime :=
  let s := (t mod DAY)%Z in
  at_time (ord2ymd (t / DAY + 1)) (s / 3600000000) (s / 60000000 mod 60) (s / 1000000 mod 60)
    (s mod 1000000) (Some 0%Z).

Definition RequirementSetNotFound : exn :=
  DomainError "requirement_set_not_found" "Requirement set not found." [].

(** * Shared steps *)
Definition referenced_requirements (ir : ArchitectureIR) : list uuid :=
  sorted_set (requirement_id <$>
    (ir_requirement_refs ir ++ (ir_nodes ir ≫= n_requirement_refs)
     ++ (ir_connections ir ≫= c_requirement_refs) ++ (ir_assumptions ir ≫= a_requirement_refs))).

Definition write_access (project_id user_id : uuid) (permission : Permission) :
    st estate (Project * Membership) :=
  project_access project_id user_id permission (Some SHARE).

Definition get_architecture (project_id architecture_id : uuid) : st estate Architecture :=
  found ← architectures_get project_id architecture_id;
  if found is Some a then mret a else raise ArchitectureNotFound.

Definition get_revision (a : Architecture) (number : Z) : st estate ArchitectureRevision :=
  found ← architectures_get_revision (ar_id a) number;
  if found is Some r then mret r else raise ArchitectureRevisionNotFound.

Definition check_references (project_id : uuid) (ir : ArchitectureIR) (requirement_set_id : option uuid) :
    st estate unit :=
  _ ← (match requirement_set_id with
       | None => mret tt
       | Some id =>
           found ← requirement_sets_get project_id id;
           if found is Some _ then mret tt else raise RequirementSetNotFound
       end);
  match referenced_requirements ir with
  | [] => mret tt
  | referenced =>
      found ← requirements_list_by_ids project_id referenced;
      problems ← lift (requirement_problems ir (dict_of ((λ r, (qr_id r, qr_current_version r)) <$> found)));
      lift (match problems with [] => Ok tt | _ => raise_invalid problems end)
  end.

Definition revision_facts (r : ArchitectureRevision) : dict string json := [
  ("revision", JInt (rv_number r)); ("source", JStr (value (rv_source r)));
  ("node_count", JInt (Z.of_nat (length (ir_nodes (rv_ir r)))));
  ("connection_count", JInt (Z.of_nat (length (ir_connections (rv_ir r)))));
  ("content_sha256", JStr (rv_content_hash r))].

Definition change_counts (changes : ArchitectureDiff) : dict string json :=
  (λ kind, ("elements_" +:+ value kind,
            JInt (Z.of_nat (length (filter (λ c, el_change c = kind) (changes_of changes)))))) <$> members.

Definition record_architecture (access : Project * Membership) (action : AuditAction) (user_id : uuid)
    (a : Architecture) (facts : dict string json) : st estate unit :=
  on_accounts (record (organization_event action user_id (pj_organization_id access.1) "architecture" (ar_id a)
                         (("project_id", JStr (ar_project_id a)) :: facts))).

(** * Reading *)
Definition architecture_authorize (project_id user_id : uuid) (permission : Permission) : st estate unit :=
  unit_of_work (_ ← project_access project_id user_id permission None; mret tt).

Definition architecture_list (project_id user_id : uuid) (status : option ArchitectureStatus)
    (search : option string) (after : option (instant * uuid)) (limit : Z) :
    st estate (Page Architecture (instant * uuid)) :=
  let size := page_size limit in
  let search := s ← search; if String.eqb (strip s) "" then None else Some (strip s) in
  rows ← unit_of_work (
    _ ← project_access project_id user_id ARCHITECTURE_READ None;
    architectures_list_for_project project_id
      {| aq_status := status; aq_search := search; aq_after := after; aq_limit := S size |});
  mret (page_of size (λ a, (ar_created_at a, ar_id a)) rows).

Definition architecture_version (project_id architecture_id user_id : uuid) (number : Z) :
    st estate (Architecture * ArchitectureRevision * ArchitectureLayout) :=
  unit_of_work (
    _ ← project_access project_id user_id ARCHITECTURE_READ None;
    architecture ← get_architecture project_id architecture_id;
    revision ← get_revision architecture number;
    layout ← architectures_get_layout (ar_id architecture);
    mret (architecture, revision, layout)).

Definition architecture_get (project_id architecture_id user_id : uuid) :
    st estate (Architecture * ArchitectureRevision * ArchitectureLayout) :=
  unit_of_work (
    _ ← project_access project_id user_id ARCHITECTURE_READ None;
    architecture ← get_architecture project_id architecture_id;
    revision ← get_revision architecture (ar_current_revision architecture);
    layout ← architectures_get_layout (ar_id architecture);
    mret (architecture, revision, layout)).

Definition architecture_history (project_id architecture_id user_id : uuid) (before : option Z) (limit : Z) :
    st estate (Architecture * Page RevisionSummary Z) :=
  let size := page_size limit in
  '(architecture, rows) ← unit_of_work (
    _ ← project_access project_id user_id ARCHITECTURE_READ None;
    architecture ← get_architecture project_id architecture_id;
    rows ← architectures_list_revisions (ar_id architecture) before (S size);
    mret (architecture, rows));
  mret (architecture, page_of size rs_number rows).

Definition architecture_compare (project_id architecture_id user_id : uuid) (from_number to_number : Z) :
    st estate (ArchitectureRevision * ArchitectureRevision * ArchitectureDiff) :=
  '(before, after) ← unit_of_work (
    _ ← project_access project_id user_id ARCHITECTURE_READ None;
    architecture ← get_architecture project_id architecture_id;
    before ← get_revision architecture from_number;
    after ← get_revision architecture to_number;
    mret (before, after));
  changes ← lift (compare before after);
  mret (before, after, changes).

(** * Creating *)
Definition after_write : Type := option (Architecture → ArchitectureRevision → st estate unit).

Definition run_after (then_ : after_write) (a : Architecture) (r : ArchitectureRevision) : st estate unit :=
  match then_ with Some f => f a r | None => mret tt end.

(** [ArchitectureIR(clean_name, clean_description or None)]. *)
Definition empty_architecture (name description : string) : py ArchitectureIR :=
  ArchitectureIR_new {|
    aa_name := JStr name;
    aa_description := if String.eqb description "" then JNull else JStr description;
    aa_nodes := []; aa_connections := []; aa_assumptions := []; aa_decisions := []; aa_refs := [];
    aa_metadata := JObj []; aa_ir_provenance := None; aa_schema_version := IR_SCHEMA_VERSION |}.

Definition architecture_create (d : draws) (project_id user_id : uuid) (name description : string)
    (ir : option ArchitectureIR) (source : RevisionSource) (reason : option string)
    (requirement_set_id : option uuid) (then_ : after_write) : st estate (Architecture * ArchitectureRevision) :=
  clean_name ← lift (normalize_architecture_name name);
  clean_description ← lift (normalize_architecture_description description);
  content ← lift (match ir with Some ir => Ok ir | None => empty_architecture clean_name clean_description end);
  let architecture_id := new_id d in
  first ← lift (first_revision architecture_id content source (Some user_id) reason requirement_set_id);
  unit_of_work (
    access ← project_access project_id user_id ARCHITECTURE_CREATE (Some SHARE);
    _ ← check_references project_id content requirement_set_id;
    '(architecture, revision) ← architectures_add (new_id2 d)
      {| na_id := architecture_id; na_project_id := project_id; na_name := clean_name;
         na_description := clean_description; na_created_by_user_id := Some user_id |} first;
    _ ← record_architecture access ARCHITECTURE_CREATED user_id architecture (revision_facts revision);
    _ ← run_after then_ architecture revision;
    mret (architecture, revision)).

(** * Metadata and lifecycle *)
Definition architecture_update_metadata (project_id architecture_id user_id : uuid)
    (name description : option string) : st estate Architecture :=
  _ ← raise_when (absent name && absent description) NothingToUpdate;
  unit_of_work (
    access ← write_access project_id user_id ARCHITECTURE_UPDATE;
    architecture ← get_architecture project_id architecture_id;
    updated ← lift (Architecture_with_metadata architecture name description user_id);
    let changed :=
      (if String.eqb (ar_name updated) (ar_name architecture) then [] else ["name"])
      ++ (if String.eqb (ar_description updated) (ar_description architecture) then [] else ["description"]) in
    match changed with
    | [] => mret architecture
    | _ =>
        saved ← architectures_save updated;
        _ ← record_architecture access ARCHITECTURE_UPDATED user_id saved
              [("changed_fields", JArr (JStr <$> changed))];
        mret saved
    end).

Definition architecture_lifecycle (project_id architecture_id user_id : uuid) (permission : Permission)
    (action : AuditAction) (change : Architecture → py Architecture) : st estate Architecture :=
  unit_of_work (
    access ← write_access project_id user_id permission;
    architecture ← get_architecture project_id architecture_id;
    changed ← lift (change architecture);
    if bool_decide (changed = architecture) then mret architecture
    else
      saved ← architectures_save changed;
      _ ← record_architecture access action user_id saved [("status", JStr (value (ar_status saved)))];
      mret saved).

Definition architecture_archive (d : draws) (project_id architecture_id user_id : uuid) : st estate Architecture :=
  architecture_lifecycle project_id architecture_id user_id ARCHITECTURE_UPDATE ARCHITECTURE_ARCHIVED
    (λ a, Architecture_archive a (now d) user_id).

Definition architecture_restore (project_id architecture_id user_id : uuid) : st estate Architecture :=
  architecture_lifecycle project_id architecture_id user_id ARCHITECTURE_UPDATE ARCHITECTURE_RESTORED
    (λ a, Architecture_restore a user_id).

Definition architecture_delete (d : draws) (project_id architecture_id user_id : uuid) : st estate unit :=
  _ ← architecture_lifecycle project_id architecture_id user_id ARCHITECTURE_DELETE ARCHITECTURE_DELETED
        (λ a, Architecture_delete a (now d) user_id);
  mret tt.

(** * Content *)
Record Revised := {
  rd_architecture : Architecture;
  rd_revision : ArchitectureRevision;
  rd_changes : ArchitectureDiff;
  rd_layout : ArchitectureLayout;
  rd_created : bool;
}.

Definition builder : Type := ArchitectureRevision → py (NewRevision * ArchitectureDiff).

(** [load] runs before the version is checked; what it returns is given to [build]. *)
Definition revise {L} (d : draws) (project_id architecture_id user_id : uuid) (base_version : Z)
    (load : Architecture → st estate L) (build : L → builder) (requirement_set_id : option uuid)
    (then_ : after_write) : st estate Revised :=
  unit_of_work (
    access ← write_access project_id user_id ARCHITECTURE_UPDATE;
    architecture ← get_architecture project_id architecture_id;
    _ ← lift (Architecture_ensure_modifiable architecture);
    loaded ← load architecture;
    _ ← raise_when (negb (ar_current_revision architecture =? base_version)%Z)
          (ArchitectureVersionConflict (JInt (ar_current_revision architecture)));
    parent ← get_revision architecture base_version;
    match build loaded parent with
    | Raise e =>
        if has_code "architecture_unchanged" e then
          _ ← run_after then_ architecture parent;
          layout ← architectures_get_layout (ar_id architecture);
          mret {| rd_architecture := architecture; rd_revision := parent; rd_changes := no_diff;
                  rd_layout := layout; rd_created := false |}
        else raise e
    | Ok (new, changes) =>
        _ ← check_references project_id (nr_ir new) requirement_set_id;
        '(architecture, revision) ← architectures_add_revision (new_id d) architecture new;
        let facts := revision_facts revision ++ change_counts changes in
        _ ← (match rv_restored_from revision with
             | Some n => record_architecture access ARCHITECTURE_REVISION_RESTORED user_id architecture
                           (facts ++ [("restored_from", JInt n)])
             | None => record_architecture access ARCHITECTURE_REVISED user_id architecture facts
             end);
        _ ← run_after then_ architecture revision;
        layout ← architectures_get_layout (ar_id architecture);
        mret {| rd_architecture := architecture; rd_revision := revision; rd_changes := changes;
                rd_layout := layout; rd_created := true |}
    end).

Definition nothing_to_load (a : Architecture) : st estate unit := mret tt.

Definition architecture_edit (d : draws) (project_id architecture_id user_id : uuid) (base_version : Z)
    (commands : list Command) (reason : option string) : st estate Revised :=
  edit ← lift (Provenance_new {|
    pa_source := Typed USER_EDIT; pa_reference := JNull; pa_confidence := JNull;
    pa_verified := JBool false; pa_inferred := JBool false; pa_actor := JStr ("user:" +:+ user_id);
    pa_recorded_at := Typed (datetime_of (now d)) |});
  revise d project_id architecture_id user_id base_version nothing_to_load
    (λ _ parent,
       ir ← apply_commands (rv_ir parent) commands (Some edit);
       next_revision parent ir BY_USER (Some user_id) reason None) None None.

Definition architecture_replace (d : draws) (project_id architecture_id user_id : uuid) (base_version : Z)
    (ir : ArchitectureIR) (source : RevisionSource) (reason : option string)
    (requirement_set_id : option uuid) (then_ : after_write) : st estate Revised :=
  revise d project_id architecture_id user_id base_version nothing_to_load
    (λ _ parent, next_revision parent ir source (Some user_id) reason requirement_set_id)
    requirement_set_id then_.

Definition architecture_restore_revision (d : draws) (project_id architecture_id user_id : uuid)
    (number base_version : Z) (reason : option string) : st estate Revised :=
  revise d project_id architecture_id user_id base_version
    (λ architecture, get_revision architecture number)
    (λ restored parent, restored_revision parent restored (Some user_id) reason) None None.

Definition architecture_save_layout (project_id architecture_id user_id : uuid)
    (positions : dict string Position) : st estate ArchitectureLayout :=
  unit_of_work (
    _ ← write_access project_id user_id ARCHITECTURE_UPDATE;
    architecture ← get_architecture project_id architecture_id;
    _ ← lift (Architecture_ensure_modifiable architecture);
    current ← get_revision architecture (ar_current_revision architecture);
    _ ← lift (check_positions positions (n_id <$> ir_nodes (rv_ir current)));
    architectures_save_layout architecture positions user_id).
