(* ===== verification/Workspaces.v ===== *)
(** Projects and architectures as one state machine: every service call is a [work] a user asks for, and
    an estate is reachable when some sequence of calls, mixed with the requests of [Accounts], leads to
    it from the empty one.

    [transition] is the abstract machine: what each call may do to the tables, and under which
    permission.  [work_refines] shows that the services implement it: a call that returns makes one
    transition, a call that raises leaves everything as it was. *)
From Stdlib Require Import ZArith.
From S2P Require Import Prelude Data Errors Elements Model Commands Serialization Computations Store Transactions.
From S2P Require Import Policy Identity Accounts Projects ProjectProperties Revisions Estate ProjectService ArchitectureService.

Inductive work :=
  | CreateProject (d : draws) (membership : Membership) (name : string) (slug : option string)
      (description : string) (settings : option ProjectSettings)
  | UpdateProject (project_id : uuid) (name description : option string) (settings : option ProjectSettings)
  | UpdatePolicy (project_id : uuid) (policy : ArchitecturePolicy)
  | ArchiveProject (d : draws) (project_id : uuid)
  | RestoreProject (d : draws) (project_id : uuid)
  | DeleteProject (d : draws) (project_id : uuid)
  | ResolveProject (project_id : uuid)
  | Authorize (project_id : uuid) (permission : Permission)
  | ListArchitectures (project_id : uuid) (status : option ArchitectureStatus) (search : option string)
      (after : option (instant * uuid)) (limit : Z)
  | GetArchitecture (project_id architecture_id : uuid)
  | GetVersion (project_id architecture_id : uuid) (number : Z)
  | GetHistory (project_id architecture_id : uuid) (before : option Z) (limit : Z)
  | CompareRevisions (project_id architecture_id : uuid) (from_number to_number : Z)
  | CreateArchitecture (d : draws) (project_id : uuid) (name description : string)
      (ir : option ArchitectureIR) (source : RevisionSource) (reason : option string)
      (requirement_set_id : option uuid)
  | UpdateMetadata (project_id architecture_id : uuid) (name description : option string)
  | ArchiveArchitecture (d : draws) (project_id architecture_id : uuid)
  | RestoreArchitecture (project_id architecture_id : uuid)
  | DeleteArchitecture (d : draws) (project_id architecture_id : uuid)
  | EditArchitecture (d : draws) (project_id architecture_id : uuid) (base_version : Z)
      (commands : list Command) (reason : option string)
  | ReplaceArchitecture (d : draws) (project_id architecture_id : uuid) (base_version : Z)
      (ir : ArchitectureIR) (source : RevisionSource) (reason : option string)
      (requirement_set_id : option uuid)
  | RestoreRevision (d : draws) (project_id architecture_id : uuid) (number base_version : Z)
      (reason : option string)
  | SaveLayout (project_id architecture_id : uuid) (positions : dict string Position).

(** The project a call is about; creating one is about none. *)
Definition target (w : work) : option uuid :=
  match w with
  | CreateProject _ _ _ _ _ _ => None
  | UpdateProject p _ _ _ | UpdatePolicy p _ | ArchiveProject _ p | RestoreProject _ p | DeleteProject _ p
  | ResolveProject p | Authorize p _ | ListArchitectures p _ _ _ _ | GetArchitecture p _ | GetVersion p _ _
  | GetHistory p _ _ _ | CompareRevisions p _ _ _ | CreateArchitecture _ p _ _ _ _ _ _
  | UpdateMetadata p _ _ _ | ArchiveArchitecture _ p _ | RestoreArchitecture p _ | DeleteArchitecture _ p _
  | EditArchitecture _ p _ _ _ _ | ReplaceArchitecture _ p _ _ _ _ _ _ | RestoreRevision _ p _ _ _ _
  | SaveLayout p _ _ => Some p
  end.

(** A call without its result. *)
Definition ignored {A} (m : st estate A) : st estate unit := _ ← m; mret tt.

(** What [user] asks for. *)
Definition perform (user : uuid) (w : work) : st estate unit :=
  match w with
  | CreateProject d m name slug description settings =>
      ignored (project_create d m name slug description settings)
  | UpdateProject p name description settings => ignored (project_update p user name description settings)
  | UpdatePolicy p policy => ignored (project_update_policy p user policy)
  | ArchiveProject d p => ignored (project_archive d p user)
  | RestoreProject d p => ignored (project_restore d p user)
  | DeleteProject d p => project_delete d p user
  | ResolveProject p => ignored (project_resolve p user)
  | Authorize p permission => architecture_authorize p user permission
  | ListArchitectures p status search after limit => ignored (architecture_list p user status search after limit)
  | GetArchitecture p a => ignored (architecture_get p a user)
  | GetVersion p a n => ignored (architecture_version p a user n)
  | GetHistory p a before limit => ignored (architecture_history p a user before limit)
  | CompareRevisions p a n1 n2 => ignored (architecture_compare p a user n1 n2)
  | CreateArchitecture d p name description ir source reason set =>
      ignored (architecture_create d p user name description ir source reason set None)
  | UpdateMetadata p a name description => ignored (architecture_update_metadata p a user name description)
  | ArchiveArchitecture d p a => ignored (architecture_archive d p a user)
  | RestoreArchitecture p a => ignored (architecture_restore p a user)
  | DeleteArchitecture d p a => architecture_delete d p a user
  | EditArchitecture d p a base commands reason => ignored (architecture_edit d p a user base commands reason)
  | ReplaceArchitecture d p a base ir source reason set =>
      ignored (architecture_replace d p a user base ir source reason set None)
  | RestoreRevision d p a n base reason => ignored (architecture_restore_revision d p a user n base reason)
  | SaveLayout p a positions => ignored (architecture_save_layout p a user positions)
  end.

(** * The abstract machine *)

(** The membership of a user in an organization. *)
Definition member (e : estate) (organization_id user : uuid) : option Membership :=
  head (where_ (λ m, bool_decide (m_organization_id m = organization_id) &&
                     bool_decide (m_user_id m = user)) (memberships (accounts e))).

Definition live_organization (e : estate) (id : uuid) : Prop :=
  ∃ o, organizations (accounts e) !! id = Some o ∧ live o = true.

(** [user] sees the project: it is live, in a live organization the user belongs to. *)
Definition sees (e : estate) (user project : uuid) (r : ProjectRow) (m : Membership) : Prop :=
  projects e !! project = Some r ∧ pr_deleted_at r = None ∧
  live_organization e (pr_organization_id r) ∧ member e (pr_organization_id r) user = Some m.

Definition may (e : estate) (user project : uuid) (permission : Permission) (r : ProjectRow) : Prop :=
  ∃ m, sees e user project r m ∧ has_permission (m_role m) permission = true.

(** May change what the project owns: it is not archived. *)
Definition may_write (e : estate) (user project : uuid) (permission : Permission) (r : ProjectRow) : Prop :=
  may e user project permission r ∧ pr_status r = PROJECT_ACTIVE.

(** An entry of the audit log. *)
Definition logged (event : AuditEvent) (e : estate) : estate :=
  set_accounts (set_audit (λ l, l ++ [entry_of event (accounts e)]) (accounts e)) e.

(** What may be done to a project, and with which permission. *)
Inductive project_op : Permission → (Project → py Project) → Prop :=
  | op_change name description settings :
      project_op PROJECT_UPDATE (λ p, Project_with_changes p name description settings)
  | op_policy policy : project_op PROJECT_POLICY_UPDATE (λ p, Project_with_policy p policy)
  | op_archive at_ : project_op PROJECT_ARCHIVE (λ p, Project_archive p at_)
  | op_restore : project_op PROJECT_ARCHIVE Project_restore
  | op_delete at_ : project_op PROJECT_DELETE (λ p, Project_delete p at_).

(** What may be done to an architecture, apart from its content. *)
Inductive architecture_op (user : uuid) : Permission → (Architecture → py Architecture) → Prop :=
  | op_metadata name description :
      architecture_op user ARCHITECTURE_UPDATE (λ a, Architecture_with_metadata a name description user)
  | op_shelve at_ : architecture_op user ARCHITECTURE_UPDATE (λ a, Architecture_archive a at_ user)
  | op_unshelve : architecture_op user ARCHITECTURE_UPDATE (λ a, Architecture_restore a user)
  | op_discard at_ : architecture_op user ARCHITECTURE_DELETE (λ a, Architecture_delete a at_ user).

(** A live architecture of a project. *)
Definition holds (e : estate) (project id : uuid) (a : Architecture) : Prop :=
  architectures e !! id = Some a ∧ ar_project_id a = project ∧ ar_deleted_at a = None.

(** The revision with a number, of an architecture. *)
Definition revision_at (e : estate) (architecture_id : uuid) (number : Z) (r : RevisionRow) : Prop :=
  ∃ id, revisions e !! id = Some r ∧ rr_architecture_id r = architecture_id ∧ rr_number r = number.

(** The content of the next revision, after [parent], and where it came from. *)
Definition follows (e : estate) (parent : RevisionRow) (new : NewRevision) : Prop :=
  nr_architecture_id new = rr_architecture_id parent ∧
  nr_number new = (rr_number parent + 1)%Z ∧ nr_parent_number new = Some (rr_number parent) ∧
  content_hash (nr_ir new) = Ok (nr_content_hash new) ∧
  (∃ before, from_dict (rr_ir parent) = Ok before ∧ Diff.is_empty (Diff.diff before (nr_ir new)) = false) ∧
  match nr_restored_from new with
  | None => True
  | Some n => ∃ r ir, revision_at e (rr_architecture_id parent) n r ∧ from_dict (rr_ir r) = Ok ir ∧ nr_ir new = ir
  end.

Inductive transition (user : uuid) (e : estate) : estate → Prop :=
  | t_idle : transition user e e
  | t_project_made id p row event membership :
      live_organization e (np_organization_id p) →
      member e (np_organization_id p) (np_created_by_user_id p) = Some membership →
      has_permission (m_role membership) PROJECT_CREATE = true →
      projects e !! id = None → SLUG_FORMAT (np_slug p) = true → String.length (np_slug p) ≤ MAX_SLUG_LENGTH →
      existsb (same_slug p) (rows (projects e)) = false →
      pr_id row = id → pr_organization_id row = np_organization_id p → pr_slug row = np_slug p →
      pr_status row = PROJECT_ACTIVE → pr_archived_at row = None → pr_deleted_at row = None →
      is_ok (to_project row) = true →
      transition user e (logged event (set_projects <[id := row]> e))
  | t_project_saved id r op permission before after now event :
      project_op permission op → may e user id permission r →
      to_project r = Ok before → op before = Ok after →
      is_ok (to_project (saved_row after now r)) = true →
      transition user e (logged event (set_projects <[id := saved_row after now r]> e))
  | t_architecture_made project r id revision_id row revision event :
      may_write e user project ARCHITECTURE_CREATE r →
      architectures e !! id = None → revisions e !! revision_id = None →
      existsb (same_name id project (ar_name row)) (rows (architectures e)) = false →
      existsb (is_revision id 1) (rows (revisions e)) = false →
      ar_id row = id → ar_project_id row = project → ar_status row = ARCHITECTURE_ACTIVE →
      ar_current_revision row = 1%Z → ar_archived_at row = None → ar_deleted_at row = None →
      rr_id revision = revision_id → rr_architecture_id revision = id → rr_project_id revision = project →
      rr_number revision = 1%Z → rr_parent_number revision = None → rr_restored_from_number revision = None →
      is_ok (to_revision revision) = true →
      transition user e
        (logged event (set_revisions <[revision_id := revision]> (set_architectures <[id := row]> e)))
  | t_architecture_saved project r id op permission before after now event :
      architecture_op user permission op → may_write e user project permission r → holds e project id before →
      op before = Ok after →
      (ar_deleted_at after = None → existsb (same_name id project (ar_name after)) (rows (architectures e)) = false) →
      transition user e (logged event (set_architectures <[id := saved_architecture after now before]> e))
  | t_revised project r id a parent revision_id new now event :
      may_write e user project ARCHITECTURE_UPDATE r → holds e project id a → ar_status a = ARCHITECTURE_ACTIVE →
      revision_at e id (ar_current_revision a) parent → follows e parent new →
      revisions e !! revision_id = None →
      existsb (is_revision id (nr_number new)) (rows (revisions e)) = false →
      is_ok (to_revision (revision_record revision_id project now new)) = true →
      transition user e
        (logged event (set_architectures <[id := moved_to new now a]>
           (set_revisions <[revision_id := revision_record revision_id project now new]> e)))
  | t_layout_saved project r id a layout :
      may_write e user project ARCHITECTURE_UPDATE r → holds e project id a → ar_status a = ARCHITECTURE_ACTIVE →
      lr_architecture_id layout = id → lr_project_id layout = project →
      transition user e (set_layouts <[id := layout]> e).

(** * What the elementary operations do *)
Lemma accounts_same e : set_accounts (accounts e) e = e.
Proof. by destruct e. Qed.

Lemma on_accounts_ok {A} (m : st world A) e a e' :
  on_accounts m e = (Ok a, e') ↔ ∃ w, m (accounts e) = (Ok a, w) ∧ e' = set_accounts w e.
Proof.
  unfold on_accounts. destruct (m (accounts e)) as [r w]. split.
  - intros [= -> <-]. by exists w.
  - intros (w' & [= -> ->] & ->). done.
Qed.

Lemma record_event_ok event e u e' : on_accounts (record event) e = (Ok u, e') → e' = logged event e.
Proof. intros (w & Hw & ->)%on_accounts_ok. apply record_ok in Hw as ->. done. Qed.

(** Reading the accounts leaves everything. *)
Lemma query_accounts {A} (f : world → A) e : on_accounts (query f) e = (Ok (f (accounts e)), e).
Proof. unfold on_accounts, query. by rewrite accounts_same. Qed.

Lemma live_at_true (o : option instant) : live_at o = true ↔ o = None.
Proof. by destruct o. Qed.

Lemma sees_unique e user project r m r' m' :
  sees e user project r m → sees e user project r' m' → r' = r ∧ m' = m.
Proof. intros (H1 & _ & _ & H2) (H3 & _ & _ & H4). by simplify_eq. Qed.

Lemma sees_dec e user project : (∃ r m, sees e user project r m) ∨ (∀ r m, ¬ sees e user project r m).
Proof.
  unfold sees, live_organization.
  destruct (projects e !! project) as [r|]; [|right; intros ? ? (? & _); congruence].
  destruct (pr_deleted_at r) eqn:Ed; [right; intros ? ? ([= <-] & ? & _); congruence|].
  destruct (organizations (accounts e) !! pr_organization_id r) as [o|] eqn:Eo;
    [|right; intros ? ? ([= <-] & _ & (? & ? & _) & _); congruence].
  destruct (live o) eqn:El; [|right; intros ? ? ([= <-] & _ & (? & ? & ?) & _); congruence].
  destruct (member e (pr_organization_id r) user) as [m|] eqn:Em;
    [|right; intros ? ? ([= <-] & _ & _ & ?); congruence].
  left. exists r, m. eauto 10.
Qed.

Lemma get_for_member_some e user project lock r m :
  sees e user project r m →
  projects_get_for_member project user lock e =
    (match to_project r with Ok p => Ok (Some (p, m)) | Raise x => Raise x end, e).
Proof.
  intros (Hr & Hd & (o & Ho & Hl) & Hm). unfold projects_get_for_member, mbind at 1, io_bind at 1, query at 1.
  rewrite Hr. simpl. rewrite Hd. simpl. unfold organizations_get_active, memberships_get_for_user, mbind, io_bind.
  rewrite !query_accounts, Ho. simpl. rewrite Hl. unfold member in Hm. rewrite Hm.
  unfold lift. by destruct (to_project r).
Qed.

Lemma get_for_member_none e user project lock :
  (∀ r m, ¬ sees e user project r m) → projects_get_for_member project user lock e = (Ok None, e).
Proof.
  intros Hn. unfold projects_get_for_member, mbind at 1, io_bind at 1, query at 1.
  destruct (projects e !! project) as [r|] eqn:Er; simpl; [|done].
  destruct (live_at (pr_deleted_at r)) eqn:El; [|done]. apply live_at_true in El.
  unfold organizations_get_active, memberships_get_for_user, mbind, io_bind. rewrite !query_accounts.
  destruct (organizations (accounts e) !! pr_organization_id r) as [o|] eqn:Eo; simpl; [|done].
  destruct (live o) eqn:Elo; [|done]. fold (member e (pr_organization_id r) user).
  destruct (member e (pr_organization_id r) user) as [m|] eqn:Em; [|done].
  destruct (Hn r m). split_and!; [done..| |done]. by exists o.
Qed.

Lemma allowed_ok m permission e u e' : allowed m permission e = (Ok u, e') ↔ e' = e ∧ has_permission (m_role m) permission = true.
Proof. unfold allowed. rewrite raise_when_ok, negb_false_iff. tauto. Qed.

(** The project's state, in its row and as it is read. *)
Lemma to_project_fields r p : to_project r = Ok p →
  pj_id p = pr_id r ∧ pj_organization_id p = pr_organization_id r ∧ pj_slug p = pr_slug r ∧
  pj_status p = pr_status r ∧ pj_archived_at p = pr_archived_at r ∧ pj_deleted_at p = pr_deleted_at r.
Proof. unfold to_project. intros H. py_inv. done. Qed.

Lemma locked_project_ok project user permission e p m e' :
  locked_project project user permission e = (Ok (p, m), e') →
  e' = e ∧ ∃ r, may e user project permission r ∧ to_project r = Ok p.
Proof.
  unfold locked_project. intros H. destruct (sees_dec e user project) as [(r & m' & Hs)|Hn].
  - unfold mbind at 1, io_bind at 1 in H. rewrite (get_for_member_some _ _ _ _ r m' Hs) in H.
    destruct (to_project r) as [p'|] eqn:Ep; [|done].
    apply io_bind_ok in H as (u & e1 & [-> Hp]%allowed_ok & H). apply ret_ok in H as [[= -> ->] ->].
    split; [done|]. exists r. split; [|done]. by exists m'.
  - unfold mbind at 1, io_bind at 1 in H. rewrite get_for_member_none in H by done. done.
Qed.

Lemma project_access_ok project user permission lock e p m e' :
  project_access project user permission lock e = (Ok (p, m), e') →
  e' = e ∧ ∃ r, may e user project permission r ∧ to_project r = Ok p ∧
    (lock ≠ None → pr_status r = PROJECT_ACTIVE).
Proof.
  unfold project_access. intros H. destruct (sees_dec e user project) as [(r & m' & Hs)|Hn].
  - unfold mbind at 1, io_bind at 1 in H. rewrite (get_for_member_some _ _ _ _ r m' Hs) in H.
    destruct (to_project r) as [p'|] eqn:Ep; [|done].
    apply io_bind_ok in H as (u & e1 & [-> Hp]%allowed_ok & H).
    apply io_bind_ok in H as (u' & e1 & Hl & H). apply ret_ok in H as [[= -> ->] ->].
    destruct (to_project_fields r p' Ep) as (_ & _ & _ & Hst & _).
    assert (e1 = e ∧ (lock ≠ None → pr_status r = PROJECT_ACTIVE)) as [-> Hw].
    { destruct lock; [|by apply ret_ok in Hl as [_ ->]]. apply lift_ok in Hl as [Hl ->]. split; [done|].
      intros _. unfold Project_ensure_modifiable, Project_is_archived in Hl. rewrite Hst in Hl.
      destruct (Project_is_deleted _); [done|]. by destruct (pr_status r). }
    split; [done|]. exists r. split; [by exists m'|]. done.
  - unfold mbind at 1, io_bind at 1 in H. rewrite get_for_member_none in H by done. done.
Qed.

(** * The services make transitions *)

(** Every row is stored under its own id. *)
Definition keyed (e : estate) : Prop :=
  (∀ id r, projects e !! id = Some r → pr_id r = id) ∧ (∀ id a, architectures e !! id = Some a → ar_id a = id).

(** A transaction that returned is its block. *)
Ltac committed H := apply (proj1 (unit_of_work_ok _ _ _ _)) in H.

Lemma ignored_ok {A} (m : st estate A) e u e' : ignored m e = (Ok u, e') → ∃ a, m e = (Ok a, e').
Proof. unfold ignored. intros (a & e1 & Hm & H)%io_bind_ok. apply ret_ok in H as [_ ->]. by exists a. Qed.

Lemma insert_row_ok {A} id (row : A) get set e u e' :
  @insert_row estate A id row get set e = (Ok u, e') → get e !! id = None ∧ e' = set <[id := row]> e.
Proof.
  unfold insert_row. intros (m & e1 & [-> ->]%query_ok & H)%io_bind_ok.
  destruct (get e !! id) as [x|] eqn:E; simpl in H; [by apply raise_ok in H|]. by apply modify_ok in H.
Qed.

Lemma references_row_ok {A} id (get : estate → gmap uuid A) e u e' :
  references_row id get e = (Ok u, e') → e' = e ∧ is_Some (get e !! id).
Proof.
  unfold references_row. intros (m & e1 & [-> ->]%query_ok & H)%io_bind_ok.
  destruct (get e !! id) as [x|]; [|by apply raise_ok in H]. apply ret_ok in H as [_ ->]. by split.
Qed.

Lemma project_event_ok action user p metadata e u e' :
  project_event action user p metadata e = (Ok u, e') → ∃ event, e' = logged event e.
Proof. unfold project_event. intros ->%record_event_ok. by eexists. Qed.

Lemma NewProject_create_slug organization creator name slug description settings p :
  NewProject_create organization creator name slug description settings = Ok p →
  SLUG_FORMAT (np_slug p) = true ∧ String.length (np_slug p) ≤ MAX_SLUG_LENGTH ∧
  np_organization_id p = organization ∧ np_created_by_user_id p = creator.
Proof.
  unfold NewProject_create. intros H. apply py_bind_ok in H as (clean & _ & H).
  apply py_bind_ok in H as (s & Hs & H). apply py_bind_ok in H as (t & _ & [= <-]). simpl.
  assert (∃ raw, normalize_slug raw = Ok s) as [raw Hraw].
  { destruct slug as [raw|]; [by exists raw|]. exists s. pose proof (slugify_ok clean s Hs). done. }
  apply normalize_slug_spec in Hraw as (_ & ? & ?). done.
Qed.

Lemma project_create_transition user d membership name slug description settings e p e' :
  project_create d membership name slug description settings e = (Ok p, e') → transition user e e'.
Proof.
  unfold project_create. intros H.
  apply io_bind_ok in H as (u & e1 & [-> _]%allowed_ok & H).
  apply io_bind_ok in H as (new & e1 & [Hnew ->]%lift_ok & H). committed H.
  apply NewProject_create_slug in Hnew as (Hf & Hl & Ho & Hc). rewrite <- Ho, <- Hc in H.
  apply io_bind_ok in H as (current & e1 & Hcur & H).
  unfold memberships_get_in_active_organization, organizations_get_active, memberships_get_for_user in Hcur.
  apply on_accounts_ok in Hcur as (w & Hcur & ->). io_inv. simplify_eq. rewrite accounts_same in H.
  destruct (organizations (accounts e) !! _) as [o|] eqn:Eo; simpl in H; [|by apply raise_ok in H].
  destruct (live o) eqn:El; simpl in H; [|by apply raise_ok in H].
  fold (member e (np_organization_id new) (np_created_by_user_id new)) in H.
  destruct (member e _ _) as [m|] eqn:Em; simpl in H; [|by apply raise_ok in H].
  apply io_bind_ok in H as (u2 & e1 & [-> Hm]%allowed_ok & H).
  apply io_bind_ok in H as (p' & e1 & Hadd & H). apply io_bind_ok in H as (u3 & e2 & Hev & H).
  apply ret_ok in H as [-> ->]. apply project_event_ok in Hev as [event ->].
  unfold projects_add in Hadd. apply io_bind_ok in Hadd as (t & e2 & [-> ->]%query_ok & Hadd).
  apply io_bind_ok in Hadd as (table & e2 & [-> ->]%query_ok & Hadd).
  apply io_bind_ok in Hadd as (u4 & e2 & [Hslug ->]%raise_when_ok & Hadd).
  apply io_bind_ok in Hadd as (u5 & e2 & [-> _]%references_row_ok & Hadd).
  apply io_bind_ok in Hadd as (u6 & e2 & [-> _]%references_row_ok & Hadd).
  apply io_bind_ok in Hadd as (u7 & e2 & [Hnone ->]%insert_row_ok & Hadd).
  apply lift_ok in Hadd as [Hread ->].
  eapply t_project_made with (p := new) (membership := m); try done; [by exists o|by rewrite Hread].
Qed.

Lemma projects_save_ok p e saved e' :
  projects_save p e = (Ok saved, e') →
  ∃ r, projects e !! pj_id p = Some r ∧
    e' = set_projects <[pj_id p := saved_row p (clock (accounts e)) r]> e ∧
    to_project (saved_row p (clock (accounts e)) r) = Ok saved.
Proof.
  unfold projects_save. intros H. apply io_bind_ok in H as (t & e1 & [-> ->]%query_ok & H).
  apply io_bind_ok in H as (u & e1 & ->%modify_ok & H). apply io_bind_ok in H as (found & e1 & [-> ->]%query_ok & H).
  simpl in H. rewrite lookup_alter_eq in H. destruct (projects e !! pj_id p) as [r|] eqn:Er; simpl in H; [|by apply raise_ok in H].
  apply lift_ok in H as [H ->]. exists r. split_and!; [done| |done]. unfold set_projects. by rewrite (alter_row _ _ _ _ Er).
Qed.

Lemma project_op_id permission op p q : project_op permission op → op p = Ok q → pj_id q = pj_id p.
Proof.
  destruct 1; unfold Project_with_changes, Project_with_policy, Project_archive, Project_restore, Project_delete;
    intros H; py_inv; try done; repeat case_match; by simplify_eq.
Qed.

(** Saving what an operation made of a project, and logging it. *)
Lemma project_saved user project permission op r p q saved action e e1 e2 metadata u :
  keyed e → project_op permission op → may e user project permission r → to_project r = Ok p → op p = Ok q →
  projects_save q e = (Ok saved, e1) → project_event action user saved metadata e1 = (Ok u, e2) →
  transition user e e2.
Proof.
  intros [Hk _] Hop Hmay Hp Hq Hsave [event ->]%project_event_ok.
  apply projects_save_ok in Hsave as (r' & Hr' & -> & Hread).
  assert (pj_id q = project) as Hid.
  { destruct Hmay as (m & (Hr & _) & _). rewrite (project_op_id _ _ _ _ Hop Hq).
    destruct (to_project_fields r p Hp) as [-> _]. by apply Hk. }
  rewrite Hid in *. assert (r' = r) as -> by (destruct Hmay as (m & (Hr & _) & _); congruence).
  eapply t_project_saved; try done. by rewrite Hread.
Qed.

Lemma project_update_transition user project name description settings e a e' :
  keyed e → project_update project user name description settings e = (Ok a, e') → transition user e e'.
Proof.
  intros Hk H. unfold project_update in H. apply io_bind_ok in H as (u0 & e1 & [_ ->]%raise_when_ok & H).
  committed H. apply io_bind_ok in H as ([p m] & e1 & Hl & H).
  apply locked_project_ok in Hl as (-> & r & Hmay & Hp).
  apply io_bind_ok in H as (q & e1 & [Hq ->]%lift_ok & H). apply io_bind_ok in H as (saved & e1 & Hsave & H).
  apply io_bind_ok in H as (u & e2 & Hev & H). apply ret_ok in H as [_ ->].
  by eapply (project_saved _ _ _ _ _ _ _ _ _ _ _ _ _ _ Hk (op_change name description settings)).
Qed.

Lemma project_update_policy_transition user project policy e a e' :
  keyed e → project_update_policy project user policy e = (Ok a, e') → transition user e e'.
Proof.
  intros Hk H. committed H. apply io_bind_ok in H as ([p m] & e1 & Hl & H).
  apply locked_project_ok in Hl as (-> & r & Hmay & Hp).
  apply io_bind_ok in H as (q & e1 & [Hq ->]%lift_ok & H). destruct (bool_decide _).
  - apply ret_ok in H as [_ ->]. constructor.
  - apply io_bind_ok in H as (saved & e1 & Hsave & H).
    apply io_bind_ok in H as (u & e2 & Hev & H). apply ret_ok in H as [_ ->].
    by eapply (project_saved _ _ _ _ _ _ _ _ _ _ _ _ _ _ Hk (op_policy policy)).
Qed.

Lemma project_transition_ok user project permission action op e a e' :
  keyed e → project_op permission op →
  project_transition project user permission action op e = (Ok a, e') → transition user e e'.
Proof.
  intros Hk Hop H. committed H. apply io_bind_ok in H as ([p m] & e1 & Hl & H).
  apply locked_project_ok in Hl as (-> & r & Hmay & Hp).
  apply io_bind_ok in H as (q & e1 & [Hq ->]%lift_ok & H). destruct (bool_decide _).
  - apply ret_ok in H as [_ ->]. constructor.
  - apply io_bind_ok in H as (saved & e1 & Hsave & H).
    apply io_bind_ok in H as (u & e2 & Hev & H). apply ret_ok in H as [_ ->].
    by eapply (project_saved _ _ _ _ _ _ _ _ _ _ _ _ _ _ Hk Hop).
Qed.

(** ** Architectures *)
Lemma record_architecture_ok access action user a facts e u e' :
  record_architecture access action user a facts e = (Ok u, e') → ∃ event, e' = logged event e.
Proof. unfold record_architecture. intros ->%record_event_ok. by eexists. Qed.

Lemma get_architecture_ok project id e a e' :
  get_architecture project id e = (Ok a, e') → e' = e ∧ holds e project id a.
Proof.
  unfold get_architecture, architectures_get. intros H. apply io_bind_ok in H as (found & e1 & [-> ->]%query_ok & H).
  destruct (architectures e !! id) as [b|] eqn:Eb; simpl in H; [|by apply raise_ok in H].
  destruct (bool_decide _) eqn:Ep; simpl in H; [|by apply raise_ok in H].
  destruct (live_at _) eqn:El; [|by apply raise_ok in H]. apply ret_ok in H as [-> ->].
  apply bool_decide_eq_true in Ep. apply live_at_true in El. done.
Qed.

Lemma get_revision_ok a n e r e' :
  get_revision a n e = (Ok r, e') → e' = e ∧ ∃ row, revision_at e (ar_id a) n row ∧ to_revision row = Ok r.
Proof.
  unfold get_revision, architectures_get_revision. intros H. apply io_bind_ok in H as (found & e1 & Hf & H).
  apply io_bind_ok in Hf as (o & e2 & [-> ->]%query_ok & Hf).
  destruct (head (where_ _ _)) as [row|] eqn:Eh; [|apply ret_ok in Hf as [-> ->]; by apply raise_ok in H].
  apply io_bind_ok in Hf as (r' & e3 & [Hr ->]%lift_ok & Hf). apply ret_ok in Hf as [-> ->].
  apply ret_ok in H as [-> ->]. split; [done|]. exists row. split; [|done].
  apply head_where_Some in Eh as (Hp & id & Hid). unfold is_revision in Hp. bool_facts. by exists id.
Qed.

Lemma check_references_ok project ir set e u e' : check_references project ir set e = (Ok u, e') → e' = e.
Proof.
  unfold check_references. intros H. apply io_bind_ok in H as (u1 & e1 & H1 & H).
  assert (e1 = e) as ->.
  { destruct set as [id|]; [|by apply ret_ok in H1 as [_ ->]].
    apply io_bind_ok in H1 as (found & e2 & [-> ->]%query_ok & H1). destruct (_ ≫= _) in H1; [by apply ret_ok in H1 as [_ ->]|by apply raise_ok in H1]. }
  destruct (referenced_requirements ir) as [|i ids]; [by apply ret_ok in H as [_ ->]|].
  unfold requirements_list_by_ids in H. io_inv. done.
Qed.

Lemma to_revision_fields row r : to_revision row = Ok r →
  rv_architecture_id r = rr_architecture_id row ∧ rv_number r = rr_number row ∧ from_dict (rr_ir row) = Ok (rv_ir r) ∧
  rv_restored_from r = rr_restored_from_number row.
Proof. unfold to_revision. intros H. py_inv. done. Qed.

Lemma insert_revision_ok id project r e row e' :
  insert_revision id project r e = (Ok row, e') →
  row = revision_record id project (clock (accounts e)) r ∧ revisions e !! id = None ∧
  existsb (is_revision (nr_architecture_id r) (nr_number r)) (rows (revisions e)) = false ∧
  e' = set_revisions <[id := row]> e.
Proof.
  unfold insert_revision. intros H. apply io_bind_ok in H as (t & e1 & [-> ->]%query_ok & H).
  apply io_bind_ok in H as (table & e1 & [-> ->]%query_ok & H).
  apply io_bind_ok in H as (u & e1 & [Hf ->]%raise_when_ok & H).
  apply io_bind_ok in H as (u1 & e1 & [Hn ->]%insert_row_ok & H). by apply ret_ok in H as [-> ->].
Qed.

Lemma name_free_ok id project name e u e' :
  name_free id project name e = (Ok u, e') →
  e' = e ∧ existsb (same_name id project name) (rows (architectures e)) = false.
Proof.
  unfold name_free. intros H. apply io_bind_ok in H as (t & e1 & [-> ->]%query_ok & H).
  by apply raise_when_ok in H as [? ->].
Qed.

Lemma architectures_save_ok a e saved e' :
  architectures_save a e = (Ok saved, e') →
  ∃ r, architectures e !! ar_id a = Some r ∧ ar_project_id r = ar_project_id a ∧
    saved = saved_architecture a (clock (accounts e)) r ∧ e' = set_architectures <[ar_id a := saved]> e ∧
    (ar_deleted_at a = None → existsb (same_name (ar_id r) (ar_project_id r) (ar_name a)) (rows (architectures e)) = false).
Proof.
  unfold architectures_save. intros H. apply io_bind_ok in H as (t & e1 & [-> ->]%query_ok & H).
  apply io_bind_ok in H as (found & e1 & [-> ->]%query_ok & H).
  destruct (architectures e !! ar_id a) as [r|] eqn:Er; [|by apply raise_ok in H].
  destruct (bool_decide _) eqn:Ep; simpl in H; [|by apply raise_ok in H]. apply bool_decide_eq_true in Ep.
  apply io_bind_ok in H as (u & e1 & Hf & H). apply io_bind_ok in H as (u1 & e2 & ->%modify_ok & H).
  apply ret_ok in H as [-> ->]. exists r.
  assert (e1 = e ∧ (ar_deleted_at a = None → existsb (same_name (ar_id r) (ar_project_id r) (ar_name a)) (rows (architectures e)) = false)) as [-> Hfree].
  { destruct (live_at _) eqn:El; [by apply name_free_ok in Hf as [-> ?]|]. apply ret_ok in Hf as [_ ->].
    split; [done|]. intros Hn. by rewrite Hn in El. }
  done.
Qed.

Lemma architecture_op_id user permission op a b :
  architecture_op user permission op → op a = Ok b → ar_id b = ar_id a ∧ ar_project_id b = ar_project_id a.
Proof.
  destruct 1; unfold Architecture_with_metadata, Architecture_archive, Architecture_restore, Architecture_delete;
    intros H; py_inv; try done; repeat case_match; by simplify_eq.
Qed.

Lemma architecture_saved user project id permission op r a b saved e e1 e2 access action facts u :
  keyed e → architecture_op user permission op → may_write e user project permission r → holds e project id a →
  op a = Ok b → architectures_save b e = (Ok saved, e1) →
  record_architecture access action user saved facts e1 = (Ok u, e2) → transition user e e2.
Proof.
  intros [_ Hk] Hop Hmay (Ha & Hp & Hl) Hb Hsave [event ->]%record_architecture_ok.
  apply architectures_save_ok in Hsave as (a' & Ha' & _ & -> & -> & Hfree).
  destruct (architecture_op_id _ _ _ _ _ Hop Hb) as [Hid Hproject]. rewrite (Hk _ _ Ha) in Hid.
  rewrite Hid in *. assert (a' = a) as -> by congruence. rewrite (Hk _ _ Ha), Hp in Hfree.
  eapply t_architecture_saved; try done.
Qed.

Lemma write_access_ok project user permission e p m e' :
  write_access project user permission e = (Ok (p, m), e') → e' = e ∧ ∃ r, may_write e user project permission r.
Proof.
  unfold write_access. intros (-> & r & Hmay & _ & Hs)%project_access_ok. split; [done|]. exists r.
  split; [done|]. by apply Hs.
Qed.

Lemma architecture_lifecycle_transition user project id permission action op e a e' :
  keyed e → architecture_op user permission op →
  architecture_lifecycle project id user permission action op e = (Ok a, e') → transition user e e'.
Proof.
  intros Hk Hop H. unfold architecture_lifecycle in H. committed H.
  apply io_bind_ok in H as ([p m] & e1 & [-> [r Hmay]]%write_access_ok & H).
  apply io_bind_ok in H as (b & e1 & [-> Hb]%get_architecture_ok & H).
  apply io_bind_ok in H as (q & e1 & [Hq ->]%lift_ok & H). destruct (bool_decide _).
  - apply ret_ok in H as [_ ->]. constructor.
  - apply io_bind_ok in H as (saved & e1 & Hsave & H). apply io_bind_ok in H as (u & e2 & Hev & H).
    apply ret_ok in H as [_ ->]. by eapply architecture_saved.
Qed.

Lemma architecture_update_transition user project id name description e a e' :
  keyed e → architecture_update_metadata project id user name description e = (Ok a, e') → transition user e e'.
Proof.
  intros Hk H. unfold architecture_update_metadata in H.
  apply io_bind_ok in H as (u0 & e1 & [_ ->]%raise_when_ok & H). committed H.
  apply io_bind_ok in H as ([p m] & e1 & [-> [r Hmay]]%write_access_ok & H).
  apply io_bind_ok in H as (b & e1 & [-> Hb]%get_architecture_ok & H).
  apply io_bind_ok in H as (q & e1 & [Hq ->]%lift_ok & H). cbv zeta in H.
  destruct (_ ++ _) as [|f l] in H.
  - apply ret_ok in H as [_ ->]. constructor.
  - apply io_bind_ok in H as (saved & e1 & Hsave & H). apply io_bind_ok in H as (u & e2 & Hev & H).
    apply ret_ok in H as [_ ->].
    by eapply (architecture_saved _ _ _ _ _ _ _ _ _ _ _ _ _ _ _ _ Hk (op_metadata user name description)).
Qed.

Lemma first_revision_ok id ir source user reason set r :
  first_revision id ir source user reason set = Ok r →
  nr_architecture_id r = id ∧ nr_number r = 1%Z ∧ nr_parent_number r = None ∧ nr_restored_from r = None ∧
  nr_ir r = ir ∧ content_hash ir = Ok (nr_content_hash r).
Proof. unfold first_revision. intros H. py_inv. done. Qed.

Lemma architecture_create_transition user d project name description ir source reason set e a e' :
  architecture_create d project user name description ir source reason set None e = (Ok a, e') → transition user e e'.
Proof.
  unfold architecture_create. intros H.
  apply io_bind_ok in H as (clean & e1 & [Hname ->]%lift_ok & H).
  apply io_bind_ok in H as (text & e1 & [_ ->]%lift_ok & H).
  apply io_bind_ok in H as (content & e1 & [_ ->]%lift_ok & H).
  apply io_bind_ok in H as (first & e1 & [Hfirst ->]%lift_ok & H). committed H.
  apply first_revision_ok in Hfirst as (F1 & F2 & F3 & F4 & _).
  apply io_bind_ok in H as ([p m] & e1 & (-> & r & Hmay & _ & Hactive)%project_access_ok & H).
  apply io_bind_ok in H as (u & e1 & ->%check_references_ok & H).
  apply io_bind_ok in H as ([b v] & e1 & Hadd & H). apply io_bind_ok in H as (u1 & e2 & Hev & H).
  apply record_architecture_ok in Hev as [event ->].
  apply io_bind_ok in H as (u2 & e2 & [_ ->]%ret_ok & H). apply ret_ok in H as [_ ->].
  unfold architectures_add in Hadd. apply io_bind_ok in Hadd as (t & e2 & [-> ->]%query_ok & Hadd).
  apply io_bind_ok in Hadd as (u3 & e2 & [-> Hfree]%name_free_ok & Hadd).
  apply io_bind_ok in Hadd as (u4 & e2 & [-> _]%references_row_ok & Hadd).
  apply io_bind_ok in Hadd as (u5 & e2 & [Hnone ->]%insert_row_ok & Hadd).
  apply io_bind_ok in Hadd as (row & e2 & (-> & Hrid & Huniq & ->)%insert_revision_ok & Hadd).
  apply io_bind_ok in Hadd as (v' & e2 & [Hread ->]%lift_ok & Hadd). apply ret_ok in Hadd as [_ ->].
  cbn [na_id na_project_id na_name na_description na_created_by_user_id] in *.
  rewrite F1, F2 in Huniq.
  eapply t_architecture_made with (project := project) (r := r); try done.
  - split; [done|]. by apply Hactive.
  - by rewrite Hread.
Qed.

Lemma next_revision_ok parent ir source user reason set new changes :
  next_revision parent ir source user reason set = Ok (new, changes) →
  nr_architecture_id new = rv_architecture_id parent ∧ nr_number new = (rv_number parent + 1)%Z ∧
  nr_parent_number new = Some (rv_number parent) ∧ nr_ir new = ir ∧ content_hash ir = Ok (nr_content_hash new) ∧
  nr_restored_from new = None ∧ changes = Diff.diff (rv_ir parent) ir ∧ Diff.is_empty changes = false.
Proof.
  unfold next_revision. cbv zeta. destruct (Diff.is_empty _) eqn:E; [done|]. intros H. py_inv.
  simplify_eq. done.
Qed.

Lemma next_follows e row parent ir source user reason set new changes :
  to_revision row = Ok parent → next_revision parent ir source user reason set = Ok (new, changes) → follows e row new.
Proof.
  intros Hr (H1 & H2 & H3 & H4 & H5 & H6 & H7 & H8)%next_revision_ok.
  destruct (to_revision_fields row parent Hr) as (R1 & R2 & R3 & _). unfold follows.
  rewrite H1, H2, H3, H4, H6, R1, R2. split_and!; try done. exists (rv_ir parent). by rewrite <- H7.
Qed.

Lemma restored_follows e row parent n from user reason source new changes :
  to_revision row = Ok parent → revision_at e (rr_architecture_id row) n from → to_revision from = Ok source →
  restored_revision parent source user reason = Ok (new, changes) → follows e row new.
Proof.
  intros Hr Hat Hs H. unfold restored_revision in H. destruct (negb _); [done|].
  apply py_bind_ok in H as ([mid changes'] & Hnext & [= <- _]).
  destruct (next_follows e _ _ _ _ _ _ _ _ _ Hr Hnext) as (N1 & N2 & N3 & N4 & N5 & _).
  apply next_revision_ok in Hnext as (_ & _ & _ & Hir & _).
  unfold follows. cbn. split_and!; try done.
  destruct (to_revision_fields from source Hs) as (_ & S2 & S3 & _).
  exists from, (rv_ir source). split_and!; [|done|done]. rewrite S2. destruct Hat as (i & ? & ? & ?). by exists i.
Qed.

Lemma get_layout_ok id e layout e' :
  architectures_get_layout id e = (Ok layout, e') → e' = e ∧ to_layout (layouts e !! id) = Ok layout.
Proof.
  unfold architectures_get_layout. intros H. apply io_bind_ok in H as (o & e1 & [-> ->]%query_ok & H).
  by apply lift_ok in H as [? ->].
Qed.

Lemma ensure_modifiable_ok a : Architecture_ensure_modifiable a = Ok tt → ar_status a = ARCHITECTURE_ACTIVE.
Proof.
  unfold Architecture_ensure_modifiable, Architecture_is_archived.
  destruct (Architecture_is_deleted a); [done|]. by destruct (ar_status a).
Qed.

Lemma add_revision_ok id a new e b v e' :
  architectures_add_revision id a new e = (Ok (b, v), e') →
  let row := revision_record id (ar_project_id a) (clock (accounts e)) new in
  revisions e !! id = None ∧
  existsb (is_revision (nr_architecture_id new) (nr_number new)) (rows (revisions e)) = false ∧
  to_revision row = Ok v ∧
  ∃ current, architectures e !! ar_id a = Some current ∧ Some (ar_current_revision current) = nr_parent_number new ∧
    b = moved_to new (clock (accounts e)) current ∧
    e' = set_architectures <[ar_id a := b]> (set_revisions <[id := row]> e).
Proof.
  unfold architectures_add_revision. intros H. apply io_bind_ok in H as (t & e1 & [-> ->]%query_ok & H).
  apply io_bind_ok in H as (row & e1 & (-> & Hnone & Huniq & ->)%insert_revision_ok & H).
  apply io_bind_ok in H as (found & e1 & [-> ->]%query_ok & H). cbn [architectures set_revisions] in H.
  destruct (architectures e !! ar_id a) as [current|] eqn:Ea; [|by apply raise_ok in H].
  destruct (bool_decide _) eqn:Ep; simpl in H; [|by apply raise_ok in H]. apply bool_decide_eq_true in Ep.
  apply io_bind_ok in H as (u & e1 & ->%modify_ok & H).
  apply io_bind_ok in H as (v' & e1 & [Hv ->]%lift_ok & H). apply ret_ok in H as [[= -> ->] ->].
  cbv zeta. split_and!; [done..|]. by exists current.
Qed.

(** What a call of [revise] that returns did: it read the current revision, and either there was nothing
    to change, or the next revision is stored and is now the current one. *)
Lemma revise_ok {L} user d project id base (load : Architecture → st estate L) build set e rd e' :
  keyed e → (∀ a l e1, load a e = (Ok l, e1) → e1 = e) →
  revise d project id user base load build set None e = (Ok rd, e') →
  ∃ r a l prow parent,
    may_write e user project ARCHITECTURE_UPDATE r ∧ holds e project id a ∧ ar_id a = id ∧
    ar_status a = ARCHITECTURE_ACTIVE ∧ ar_current_revision a = base ∧ load a e = (Ok l, e) ∧
    revision_at e id base prow ∧ to_revision prow = Ok parent ∧ to_layout (layouts e !! id) = Ok (rd_layout rd) ∧
    match build l parent with
    | Raise x => has_code "architecture_unchanged" x = true ∧ e' = e ∧ rd_created rd = false ∧
                 rd_architecture rd = a ∧ rd_revision rd = parent
    | Ok (new, changes) =>
        let row := revision_record (new_id d) project (clock (accounts e)) new in
        rd_created rd = true ∧ rd_architecture rd = moved_to new (clock (accounts e)) a ∧
        rd_changes rd = changes ∧ to_revision row = Ok (rd_revision rd) ∧ revisions e !! new_id d = None ∧
        existsb (is_revision (nr_architecture_id new) (nr_number new)) (rows (revisions e)) = false ∧
        ∃ event, e' = logged event (set_architectures <[id := rd_architecture rd]>
                        (set_revisions <[new_id d := row]> e))
    end.
Proof.
  intros [_ Hk] Hload H. unfold revise in H. committed H.
  apply io_bind_ok in H as ([p m] & e1 & [-> [r Hmay]]%write_access_ok & H).
  apply io_bind_ok in H as (a & e1 & [-> Ha]%get_architecture_ok & H).
  apply io_bind_ok in H as ([] & e1 & [Hmod%ensure_modifiable_ok ->]%lift_ok & H).
  apply io_bind_ok in H as (l & e1 & Hl & H). pose proof (Hload _ _ _ Hl) as ->.
  apply io_bind_ok in H as (u1 & e1 & [Hbase ->]%raise_when_ok & H). bool_facts. apply Z.eqb_eq in Hbase.
  apply io_bind_ok in H as (parent & e1 & [-> (prow & Hat & Hparent)]%get_revision_ok & H).
  pose proof (Hk _ _ (proj1 Ha)) as Hid. rewrite Hid in Hat. exists r, a, l, prow, parent.
  destruct (build l parent) as [[new changes]|x].
  - apply io_bind_ok in H as (u2 & e1 & ->%check_references_ok & H).
    apply io_bind_ok in H as ([b v] & e1 & Hadd & H). cbv zeta in H.
    apply io_bind_ok in H as (u3 & e2 & Hev & H).
    assert (∃ event, e2 = logged event e1) as [event ->]
      by (destruct (rv_restored_from v); by eapply record_architecture_ok).
    apply io_bind_ok in H as (u4 & e2 & [_ ->]%ret_ok & H).
    apply io_bind_ok in H as (layout & e2 & [-> Hlay]%get_layout_ok & H). apply ret_ok in H as [-> ->].
    apply add_revision_ok in Hadd as (Hnone & Huniq & Hv & c & Hc & _ & -> & ->).
    pose proof Ha as (Hrow & Hproject & _). rewrite Hid in *. rewrite Hproject in *.
    assert (c = a) as -> by congruence. cbn [moved_to ar_id logged set_accounts layouts set_architectures set_revisions] in Hlay.
    rewrite Hid in Hlay. cbv zeta. split_and!; try done. by exists event.
  - destruct (has_code _ x) eqn:Ex; [|by apply raise_ok in H].
    apply io_bind_ok in H as (u2 & e1 & [_ ->]%ret_ok & H).
    apply io_bind_ok in H as (layout & e2 & [-> Hlay]%get_layout_ok & H). apply ret_ok in H as [-> ->].
    rewrite Hid in Hlay. by split_and!.
Qed.

Lemma revise_transition {L} user d project id base (load : Architecture → st estate L) build set e r e' :
  keyed e → (∀ a l e1, load a e = (Ok l, e1) → e1 = e) →
  (∀ a l row parent new changes, ar_id a = id → load a e = (Ok l, e) → rr_architecture_id row = id →
     to_revision row = Ok parent → build l parent = Ok (new, changes) → follows e row new) →
  revise d project id user base load build set None e = (Ok r, e') → transition user e e'.
Proof.
  intros Hk Hload Hbuild H. apply revise_ok in H; [|done..].
  destruct H as (p & a & l & prow & parent & Hmay & Ha & Hid & Hst & Hbase & Hl & Hat & Hparent & _ & H).
  destruct (build l parent) as [[new changes]|x] eqn:Eb; [|destruct H as (_ & -> & _); constructor].
  destruct H as (_ & -> & _ & Hread & Hnone & Huniq & event & ->). pose proof Hat as (i & _ & Hi & _).
  pose proof (Hbuild a l prow parent new changes Hid Hl Hi Hparent Eb) as Hf.
  pose proof Hf as (F1 & _). rewrite F1, Hi in Huniq.
  eapply t_revised with (project := project) (a := a); try done; [by rewrite Hbase|by rewrite Hread].
Qed.

Lemma save_layout_transition user project id positions e r e' :
  keyed e → architecture_save_layout project id user positions e = (Ok r, e') → transition user e e'.
Proof.
  intros [_ Hk] H. unfold architecture_save_layout in H. committed H.
  apply io_bind_ok in H as ([p m] & e1 & [-> [row Hmay]]%write_access_ok & H).
  apply io_bind_ok in H as (a & e1 & [-> Ha]%get_architecture_ok & H).
  apply io_bind_ok in H as ([] & e1 & [Hmod%ensure_modifiable_ok ->]%lift_ok & H).
  apply io_bind_ok in H as (v & e1 & [-> _]%get_revision_ok & H).
  apply io_bind_ok in H as (u1 & e1 & [_ ->]%lift_ok & H).
  unfold architectures_save_layout in H. apply io_bind_ok in H as (t & e1 & [-> ->]%query_ok & H).
  apply io_bind_ok in H as (u2 & e1 & ->%modify_ok & H). apply lift_ok in H as [_ ->].
  pose proof (Hk _ _ (proj1 Ha)) as Hid. rewrite Hid.
  eapply t_layout_saved with (a := a); try done. by destruct Ha as (_ & -> & _).
Qed.

(** ** Calls that raise, and calls that only read *)
Definition silent {A} (m : st estate A) : Prop := ∀ e x e', m e = (Raise x, e') → e' = e.

Lemma silent_unit_of_work {A} (m : st estate A) : silent (unit_of_work m).
Proof. intros e x e'. unfold unit_of_work. destruct (m e) as [[a|y] e1]; by intros [= _ <-]. Qed.

Lemma silent_bind {A B} (m : st estate A) (f : A → st estate B) :
  keeps eq m → (∀ a, silent (f a)) → silent (m ≫= f).
Proof.
  intros Hm Hf e x e' H. unfold mbind, io_bind in H. specialize (Hm e).
  destruct (m e) as [[a|y] e1]; simpl in Hm; subst; [by apply Hf in H|by injection H].
Qed.

Lemma silent_ignored {A} (m : st estate A) : silent m → silent (ignored m).
Proof.
  intros Hm e x e' H. unfold ignored, mbind, io_bind in H. destruct (m e) as [[a|y] e1] eqn:E; [done|].
  injection H as -> ->. by eapply Hm.
Qed.

Lemma silent_keeps {A} (m : st estate A) : keeps eq m → silent m.
Proof. intros Hm e x e' H. specialize (Hm e). by rewrite H in Hm. Qed.

Lemma keeps_on_accounts_query {A} (f : world → A) : keeps (@eq estate) (on_accounts (query f)).
Proof. intros e. by rewrite query_accounts. Qed.
#[export] Hint Resolve keeps_on_accounts_query : keeps.

Lemma keeps_get_for_member project user lock : keeps (@eq estate) (projects_get_for_member project user lock).
Proof.
  intros e. destruct (sees_dec e user project) as [(r & m & Hs)|Hn].
  - by rewrite (get_for_member_some _ _ _ _ _ _ Hs).
  - by rewrite get_for_member_none.
Qed.
#[export] Hint Resolve keeps_get_for_member : keeps.

#[local] Instance eq_preorder {S} : PreOrder (@eq S).
Proof. split; [done|]. by intros x y z -> ->. Qed.

Ltac quiet := repeat (intros; lazymatch goal with
  | |- silent (ignored _) => apply silent_ignored
  | |- silent (unit_of_work _) => apply silent_unit_of_work
  | |- silent (mbind _ _) => apply silent_bind; [keeps|]
  | |- silent (mret _) => apply silent_keeps, keeps_ret
  | |- silent (lift _) => apply silent_keeps, keeps_lift
  | |- silent (raise _) => apply silent_keeps, keeps_raise
  | |- PreOrder _ => apply eq_preorder
  | |- silent (match ?x with _ => _ end) => destruct x
  | |- silent ?m => let h := head_of m in unfold h; cbv beta zeta
  end).

Lemma perform_raise user w e x e' : perform user w e = (Raise x, e') → e' = e.
Proof.
  revert e x e'. change (silent (perform user w)).
  destruct w; unfold perform;
    first [unfold project_delete; apply silent_ignored | unfold architecture_delete; apply silent_ignored | idtac];
    by quiet.
Qed.

Lemma reads_idle {A} user (m : st estate A) e a e' : keeps eq m → m e = (Ok a, e') → transition user e e'.
Proof. intros Hm H. specialize (Hm e). rewrite H in Hm. simpl in Hm. subst. constructor. Qed.

Ltac idle H := apply ignored_ok in H as [? H]; eapply reads_idle; [|exact H]; keeps.

Lemma perform_ok user w e u e' : keyed e → perform user w e = (Ok u, e') → transition user e e'.
Proof.
  intros Hk H. destruct w; simpl in H.
  - apply ignored_ok in H as [? H]. by eapply project_create_transition.
  - apply ignored_ok in H as [? H]. by eapply project_update_transition.
  - apply ignored_ok in H as [? H]. by eapply project_update_policy_transition.
  - apply ignored_ok in H as [? H]. by eapply (project_transition_ok _ _ _ _ _ _ _ _ Hk (op_archive _)).
  - apply ignored_ok in H as [? H]. by eapply (project_transition_ok _ _ _ _ _ _ _ _ Hk op_restore).
  - apply ignored_ok in H as [? H]. by eapply (project_transition_ok _ _ _ _ _ _ _ _ Hk (op_delete _)).
  - idle H.
  - eapply reads_idle; [|exact H]; keeps.
  - idle H.
  - idle H.
  - idle H.
  - idle H.
  - idle H.
  - apply ignored_ok in H as [? H]. by eapply architecture_create_transition.
  - apply ignored_ok in H as [? H]. by eapply architecture_update_transition.
  - apply ignored_ok in H as [? H]. by eapply (architecture_lifecycle_transition _ _ _ _ _ _ _ _ _ Hk (op_shelve _ _)).
  - apply ignored_ok in H as [? H]. by eapply (architecture_lifecycle_transition _ _ _ _ _ _ _ _ _ Hk (op_unshelve _)).
  - apply ignored_ok in H as [? H]. by eapply (architecture_lifecycle_transition _ _ _ _ _ _ _ _ _ Hk (op_discard _ _)).
  - apply ignored_ok in H as [? H]. unfold architecture_edit in H.
    apply io_bind_ok in H as (edit & e1 & [_ ->]%lift_ok & H). eapply revise_transition; [done| | |exact H].
    + intros a l e1 [_ ->]%ret_ok. done.
    + intros a l row parent new changes _ _ _ Hr Hb. apply py_bind_ok in Hb as (ir & _ & Hb). by eapply next_follows.
  - apply ignored_ok in H as [? H]. eapply revise_transition; [done| | |exact H].
    + intros a l e1 [_ ->]%ret_ok. done.
    + intros a l row parent new changes _ _ _ Hr Hb. exact (next_follows _ _ _ _ _ _ _ _ _ _ Hr Hb).
  - apply ignored_ok in H as [? H]. eapply revise_transition; [done| | |exact H].
    + intros a l e1 [-> _]%get_revision_ok. done.
    + intros a l row parent new changes Hid [_ (from & Hat & Hs)]%get_revision_ok Hrow Hr Hb.
      rewrite Hid, <- Hrow in Hat. by eapply restored_follows.
  - apply ignored_ok in H as [? H]. by eapply save_layout_transition.
Qed.
