(* ===== verification/EstateInvariants.v ===== *)
(** What holds of the stored projects and architectures in every reachable estate, by induction over the
    transitions of [Workspaces]: rows under their own ids, one live project per slug and one live
    architecture per name, histories without gaps, and rows that read back. *)
From Stdlib Require Import Lia ZArith.
From S2P Require Import Prelude Data Errors Serialization Computations Store Transactions Policy Identity Accounts.
From S2P Require Import Invariants Projects ProjectProperties Revisions Estate ProjectService ArchitectureService Workspaces.

(** * Steps *)
Section steps.
Context `{Externals} (cfg : config).

Definition set_requirements (rs : gmap uuid RequirementRow) (ss : gmap uuid RequirementSetRow) (e : estate) :
    estate := {|
  accounts := accounts e; projects := projects e; architectures := architectures e;
  revisions := revisions e; layouts := layouts e; requirements := rs; requirement_sets := ss |}.

(** A call of [user], a request about accounts, or a change of the requirements. *)
Inductive step (e : estate) : estate → Prop :=
  | s_work user w at_ c : step e (perform user w (set_accounts (set_request at_ c (accounts e)) e)).2
  | s_accounts w : served cfg (accounts e) w → step e (set_accounts w e)
  | s_requirements rs ss : step e (set_requirements rs ss e).

Definition empty_estate : estate := {|
  accounts := empty_world; projects := ∅; architectures := ∅; revisions := ∅; layouts := ∅;
  requirements := ∅; requirement_sets := ∅ |}.

Definition reachable_estate (e : estate) : Prop := rtc step empty_estate e.
End steps.

(** * The invariant *)

(** What the check constraints of the table say, and that the row is read. *)
Record project_row (r : ProjectRow) : Prop := {
  pw_slug : SLUG_FORMAT (pr_slug r) = true ∧ (String.length (pr_slug r) ≤ MAX_SLUG_LENGTH)%nat;
  pw_readable : is_ok (to_project r) = true;
  pw_archived : pr_status r = PROJECT_IS_ARCHIVED ↔ is_Some (pr_archived_at r);
  pw_deleted : is_Some (pr_deleted_at r) → pr_status r = PROJECT_IS_ARCHIVED;
}.

Record architecture_row (a : Architecture) : Prop := {
  aw_current : (1 ≤ ar_current_revision a)%Z;
  aw_archived : ar_status a = ARCHITECTURE_IS_ARCHIVED ↔ is_Some (ar_archived_at a);
  aw_deleted : is_Some (ar_deleted_at a) → ar_status a = ARCHITECTURE_IS_ARCHIVED;
}.

(** A revision belongs to an architecture, is one of its numbers, comes after the one before, restores
    an earlier one if any, and is read. *)
Record revision_row (e : estate) (id : uuid) (r : RevisionRow) : Prop := {
  rw_id : rr_id r = id;
  rw_owner : ∃ a, architectures e !! rr_architecture_id r = Some a ∧ rr_project_id r = ar_project_id a ∧
               (1 ≤ rr_number r ≤ ar_current_revision a)%Z;
  rw_parent : rr_parent_number r = if (rr_number r =? 1)%Z then None else Some (rr_number r - 1)%Z;
  rw_restored : ∀ n, rr_restored_from_number r = Some n → (1 ≤ n < rr_number r)%Z;
  rw_readable : is_ok (to_revision r) = true;
}.

Record estate_ok (e : estate) : Prop := {
  ok_keyed : keyed e;
  ok_projects : ∀ id r, projects e !! id = Some r → project_row r;
  ok_slugs : ∀ i j r s, projects e !! i = Some r → projects e !! j = Some s →
    pr_deleted_at r = None → pr_deleted_at s = None →
    pr_organization_id r = pr_organization_id s → pr_slug r = pr_slug s → i = j;
  ok_architectures : ∀ id a, architectures e !! id = Some a → architecture_row a;
  ok_names : ∀ i j a b, architectures e !! i = Some a → architectures e !! j = Some b →
    ar_deleted_at a = None → ar_deleted_at b = None →
    ar_project_id a = ar_project_id b → lower (ar_name a) = lower (ar_name b) → i = j;
  ok_revisions : ∀ id r, revisions e !! id = Some r → revision_row e id r;
  ok_numbers : ∀ i j r s, revisions e !! i = Some r → revisions e !! j = Some s →
    rr_architecture_id r = rr_architecture_id s → rr_number r = rr_number s → i = j;
  ok_history : ∀ id a n, architectures e !! id = Some a → (1 ≤ n ≤ ar_current_revision a)%Z →
    ∃ r, revision_at e id n r;
}.

(** The accounts do not matter. *)
Lemma estate_ok_tables e e' :
  projects e' = projects e → architectures e' = architectures e → revisions e' = revisions e →
  estate_ok e → estate_ok e'.
Proof.
  intros Hp Ha Hr [K P S A N R U H]. constructor; unfold keyed, revision_at in *; rewrite ?Hp, ?Ha, ?Hr; try done.
  intros id r Hid. destruct (R id r Hid) as [R1 R2 R3 R4 R5]. constructor; try done. by rewrite Ha.
Qed.

Lemma estate_ok_logged event e : estate_ok e → estate_ok (logged event e).
Proof. by apply estate_ok_tables. Qed.

(** ** Projects *)
Lemma same_slug_false p r table i :
  existsb (same_slug p) (rows table) = false → table !! i = Some r → pr_deleted_at r = None →
  pr_organization_id r = np_organization_id p → pr_slug r ≠ np_slug p.
Proof.
  intros Hf Hi Hd Ho Hs. pose proof (existsb_rows _ _ _ _ Hf Hi) as Hn. unfold same_slug in Hn.
  by rewrite Hd, !bool_decide_eq_true_2 in Hn.
Qed.

(** Replacing the projects' table. *)
Lemma estate_ok_projects id row e :
  pr_id row = id → project_row row →
  (∀ j s, projects e !! j = Some s → j ≠ id → pr_deleted_at row = None → pr_deleted_at s = None →
     pr_organization_id s = pr_organization_id row → pr_slug s ≠ pr_slug row) →
  estate_ok e → estate_ok (set_projects <[id := row]> e).
Proof.
  intros Hid Hrow Hslug [[K1 K2] P S A N R U H]. constructor; try done.
  - split; [|done]. intros i r. cbn [projects set_projects]. rewrite lookup_insert_Some.
    intros [[<- <-]|[_ Hi]]; [done|by apply K1].
  - intros i r. cbn [projects set_projects]. rewrite lookup_insert_Some.
    intros [[<- <-]|[_ Hi]]; [done|by eapply P].
  - intros i j r s. cbn [projects set_projects]. rewrite !lookup_insert_Some.
    intros [[<- <-]|[Hi Hr]] [[<- <-]|[Hj Hs]] Hrd Hsd Ho Hsl; try done.
    + exfalso. by eapply Hslug.
    + exfalso. eapply Hslug; eauto.
    + by eapply S.
  - intros i r Hi. by destruct (R i r Hi) as [R1 R2 R3 R4 R5].
Qed.

(** What an operation makes of a project's row. *)
Lemma saved_project_row permission op r p q now :
  project_op permission op → project_row r → pr_deleted_at r = None → to_project r = Ok p → op p = Ok q →
  is_ok (to_project (saved_row q now r)) = true → project_row (saved_row q now r).
Proof.
  intros Hop [Hs Hr Ha Hd] Hlive Hp Hq Hok. destruct (to_project_fields r p Hp) as (_ & _ & _ & F1 & F2 & F3).
  constructor; [exact Hs|exact Hok| |]; cbn [saved_row pr_status pr_archived_at pr_deleted_at].
  - rewrite <- F1, <- F2 in Ha.
    destruct Hop; unfold Project_with_changes, Project_with_policy, Project_archive, Project_restore, Project_delete in Hq;
      py_inv; try done; repeat (case_match; simplify_eq); try done; cbn; unfold is_Some; naive_solver.
  - rewrite <- F1, <- F3 in Hd. rewrite <- F3 in Hlive.
    destruct Hop; unfold Project_with_changes, Project_with_policy, Project_archive, Project_restore, Project_delete in Hq;
      py_inv; try done; repeat (case_match; simplify_eq); try done; cbn; try (intros [? ?]; congruence).
    intros _. unfold Project_is_archived in *. bool_facts. done.
Qed.

(** ** Architectures and revisions *)
Lemma same_name_false id project name table i a :
  existsb (same_name id project name) (rows table) = false → table !! i = Some a → ar_deleted_at a = None →
  ar_project_id a = project → ar_id a ≠ id → lower (ar_name a) ≠ lower name.
Proof.
  intros Hf Hi Hd Hp Hid Hn. pose proof (existsb_rows _ _ _ _ Hf Hi) as Hx. unfold same_name in Hx.
  by rewrite Hd, (bool_decide_eq_true_2 (ar_project_id a = project)), (bool_decide_eq_true_2 (lower _ = _)), bool_decide_eq_false_2 in Hx.
Qed.

Lemma number_new id n table i r :
  existsb (is_revision id n) (rows table) = false → table !! i = Some r → rr_architecture_id r = id → rr_number r ≠ n.
Proof.
  intros Hf Hi Ha Hn. pose proof (existsb_rows _ _ _ _ Hf Hi) as Hx. unfold is_revision in Hx.
  by rewrite !bool_decide_eq_true_2 in Hx.
Qed.

(** Replacing an architecture's row: its project and its current revision are kept. *)
Lemma estate_ok_architecture id a b e :
  architectures e !! id = Some a → ar_id b = id → ar_project_id b = ar_project_id a →
  ar_current_revision b = ar_current_revision a → architecture_row b →
  (∀ j c, architectures e !! j = Some c → j ≠ id → ar_deleted_at b = None → ar_deleted_at c = None →
     ar_project_id c = ar_project_id b → lower (ar_name c) ≠ lower (ar_name b)) →
  estate_ok e → estate_ok (set_architectures <[id := b]> e).
Proof.
  intros Ha Hid Hp Hc Hrow Hname [[K1 K2] P S A N R U H]. constructor; try done.
  - split; [done|]. intros i c. cbn [architectures set_architectures]. rewrite lookup_insert_Some.
    intros [[<- <-]|[_ Hi]]; [done|by apply K2].
  - intros i c. cbn [architectures set_architectures]. rewrite lookup_insert_Some.
    intros [[<- <-]|[_ Hi]]; [done|by eapply A].
  - intros i j c d. cbn [architectures set_architectures]. rewrite !lookup_insert_Some.
    intros [[<- <-]|[Hi Hr]] [[<- <-]|[Hj Hs]] Hrd Hsd Ho Hsl; try done.
    + exfalso. by eapply Hname.
    + exfalso. eapply Hname; eauto.
    + by eapply N.
  - intros i r Hi. destruct (R i r Hi) as [R1 R2 R3 R4 R5]. constructor; try done.
    destruct R2 as (c & Hcl & Hcp & Hcn). cbn [architectures set_architectures].
    destruct (decide (rr_architecture_id r = id)) as [<- | Hne].
    + exists b. rewrite lookup_insert_eq. rewrite Ha in Hcl. simplify_eq. rewrite Hc, Hp. done.
    + exists c. by rewrite lookup_insert_ne.
  - intros i c n. cbn [architectures set_architectures]. rewrite lookup_insert_Some.
    intros [[<- <-]|[_ Hi]] Hn; [|by eapply H]. eapply H; [exact Ha|]. by rewrite <- Hc.
Qed.

Lemma saved_architecture_row user permission op a b now :
  architecture_op user permission op → architecture_row a → ar_deleted_at a = None → op a = Ok b →
  architecture_row (saved_architecture b now a).
Proof.
  intros Hop [Hc Ha Hd] Hlive Hb. constructor; [exact Hc| |]; cbn [saved_architecture ar_status ar_archived_at ar_deleted_at].
  - destruct Hop; unfold Architecture_with_metadata, Architecture_archive, Architecture_restore, Architecture_delete in Hb;
      py_inv; try done; repeat (case_match; simplify_eq); try done; cbn; unfold is_Some; naive_solver.
  - destruct Hop; unfold Architecture_with_metadata, Architecture_archive, Architecture_restore, Architecture_delete in Hb;
      py_inv; try done; repeat (case_match; simplify_eq); try done; cbn; try (intros [? ?]; congruence).
    intros _. unfold Architecture_is_archived in *. bool_facts. done.
Qed.

(** The next revision of an architecture. *)
Lemma estate_ok_next id a b revision_id row e :
  architectures e !! id = Some a → ar_id b = id → ar_project_id b = ar_project_id a →
  ar_name b = ar_name a → ar_deleted_at b = ar_deleted_at a → architecture_row b →
  ar_current_revision b = (ar_current_revision a + 1)%Z →
  revisions e !! revision_id = None → rr_id row = revision_id → rr_architecture_id row = id →
  rr_project_id row = ar_project_id a → rr_number row = (ar_current_revision a + 1)%Z →
  rr_parent_number row = Some (ar_current_revision a) →
  (∀ n, rr_restored_from_number row = Some n → (1 ≤ n ≤ ar_current_revision a)%Z) →
  is_ok (to_revision row) = true →
  estate_ok e → estate_ok (set_architectures <[id := b]> (set_revisions <[revision_id := row]> e)).
Proof.
  intros Ha Hid Hp Hn Hd Hrow Hc Hnone Hri Hra Hrp Hrn Hpar Hres Hread [[K1 K2] P S A N R U H].
  pose proof (aw_current a (A _ _ Ha)) as Hcur.
  assert (∀ i r, revisions e !! i = Some r → rr_architecture_id r = id → (rr_number r ≤ ar_current_revision a)%Z) as Hle.
  { intros i r Hi Hr. destruct (rw_owner _ _ _ (R i r Hi)) as (c & Hcl & _ & Hb). rewrite Hr, Ha in Hcl. simplify_eq. lia. }
  constructor; cbn [projects architectures revisions set_architectures set_revisions]; try done.
  - split; [done|]. intros i c. cbn [architectures set_architectures set_revisions]. rewrite lookup_insert_Some.
    intros [[<- <-]|[_ Hi]]; [done|by apply K2].
  - intros i c. rewrite lookup_insert_Some. intros [[<- <-]|[_ Hi]]; [done|by eapply A].
  - intros i j c d. rewrite !lookup_insert_Some.
    intros [[<- <-]|[Hi Hr]] [[<- <-]|[Hj Hs]] Hrd Hsd Ho Hsl; try done.
    + eapply (N id j a d); try done; congruence.
    + eapply (N i id c a); try done; congruence.
    + by eapply N.
  - intros i r. rewrite lookup_insert_Some. intros [[<- <-]|[_ Hi]].
    + constructor; cbn [architectures set_architectures set_revisions]; try done.
      * exists b. rewrite Hra, lookup_insert_eq. split; [done|]. rewrite Hrn, Hc, Hp. split; [done|lia].
      * rewrite Hpar, Hrn. replace (_ =? 1)%Z with false by (symmetry; apply Z.eqb_neq; lia). f_equal. lia.
      * intros n Hn'. apply Hres in Hn'. lia.
    + destruct (R i r Hi) as [R1 (c & Hcl & Hcp & Hcn) R3 R4 R5].
      constructor; cbn [architectures set_architectures set_revisions]; try done.
      destruct (decide (rr_architecture_id r = id)) as [He | Hne].
      * exists b. rewrite He, lookup_insert_eq. rewrite He, Ha in Hcl. simplify_eq. split; [done|]. rewrite Hp, Hc. split; [done|lia].
      * exists c. by rewrite lookup_insert_ne.
  - intros i j r s. rewrite !lookup_insert_Some.
    intros [[<- <-]|[Hi Hr]] [[<- <-]|[Hj Hs]] Hrs Hns; try done.
    + pose proof (Hle _ _ Hs ltac:(congruence)). lia.
    + pose proof (Hle _ _ Hr ltac:(congruence)). lia.
    + by eapply U.
  - intros i c n. rewrite lookup_insert_Some. intros [[<- <-]|[Hne Hi]] Hb.
    + destruct (decide (n = rr_number row)) as [-> | Hne].
      * exists row, revision_id. cbn. by rewrite lookup_insert_eq.
      * destruct (H id a n Ha) as (r & j & Hj & Hj1 & Hj2); [lia|]. exists r, j. cbn.
        rewrite lookup_insert_ne; [done|]. intros <-. congruence.
    + destruct (H i c n Hi Hb) as (r & j & Hj & Hj1 & Hj2). exists r, j. cbn.
      rewrite lookup_insert_ne; [done|]. intros <-. congruence.
Qed.

(** A new architecture, with its first revision. *)
Lemma estate_ok_first id a revision_id row e :
  architectures e !! id = None → ar_id a = id → architecture_row a → ar_current_revision a = 1%Z →
  (∀ j c, architectures e !! j = Some c → ar_deleted_at a = None → ar_deleted_at c = None →
     ar_project_id c = ar_project_id a → lower (ar_name c) ≠ lower (ar_name a)) →
  revisions e !! revision_id = None → rr_id row = revision_id → rr_architecture_id row = id →
  rr_project_id row = ar_project_id a → rr_number row = 1%Z → rr_parent_number row = None →
  rr_restored_from_number row = None → is_ok (to_revision row) = true →
  estate_ok e → estate_ok (set_revisions <[revision_id := row]> (set_architectures <[id := a]> e)).
Proof.
  intros Ha Hid Hrow Hc Hname Hnone Hri Hra Hrp Hrn Hpar Hres Hread [[K1 K2] P S A N R U H].
  assert (∀ i r, revisions e !! i = Some r → rr_architecture_id r ≠ id) as Hother.
  { intros i r Hi Hr. destruct (rw_owner _ _ _ (R i r Hi)) as (c & Hcl & _). rewrite Hr, Ha in Hcl. done. }
  constructor; cbn [projects architectures revisions set_architectures set_revisions]; try done.
  - split; [done|]. intros i c. cbn [architectures set_architectures set_revisions]. rewrite lookup_insert_Some.
    intros [[<- <-]|[_ Hi]]; [done|by apply K2].
  - intros i c. rewrite lookup_insert_Some. intros [[<- <-]|[_ Hi]]; [done|by eapply A].
  - intros i j c d. rewrite !lookup_insert_Some.
    intros [[<- <-]|[Hi Hr]] [[<- <-]|[Hj Hs]] Hrd Hsd Ho Hsl; try done.
    + exfalso. by eapply Hname.
    + exfalso. by eapply Hname.
    + by eapply N.
  - intros i r. rewrite lookup_insert_Some. intros [[<- <-]|[_ Hi]].
    + constructor; cbn [architectures set_architectures set_revisions]; try done.
      * exists a. rewrite Hra, lookup_insert_eq, Hrn, Hc. done.
      * by rewrite Hpar, Hrn.
      * by rewrite Hres.
    + destruct (R i r Hi) as [R1 (c & Hcl & Hcp & Hcn) R3 R4 R5].
      constructor; cbn [architectures set_architectures set_revisions]; try done.
      exists c. rewrite lookup_insert_ne; [done|]. intros Heq. by eapply (Hother i r).
  - intros i j r s. rewrite !lookup_insert_Some.
    intros [[<- <-]|[Hi Hr]] [[<- <-]|[Hj Hs]] Hrs Hns; try done.
    + destruct (Hother _ _ Hs). congruence.
    + destruct (Hother _ _ Hr). congruence.
    + by eapply U.
  - intros i c n. rewrite lookup_insert_Some. intros [[<- <-]|[Hne Hi]] Hb.
    + exists row, revision_id. cbn. rewrite lookup_insert_eq. split_and!; [done..|]. lia.
    + destruct (H i c n Hi Hb) as (r & j & Hj & Hj1 & Hj2). exists r, j. cbn.
      rewrite lookup_insert_ne; [done|]. intros <-. congruence.
Qed.

(** * Every transition keeps the invariant *)
Lemma transition_ok user e e' : transition user e e' → estate_ok e → estate_ok e'.
Proof.
  intros Ht Hok. pose proof Hok as [[K1 K2] P S A N R U H].
  destruct Ht as
    [ | id p row event m Hl Hm Hp Hnone Hslug Hlen Hfree E1 E2 E3 E4 E5 E6 Hread
      | id r op permission p q now event Hop Hmay Hp Hq Hread
      | project r id rid row rev event Hmay Ha Hr Hname Hnum E1 E2 E3 E4 E5 E6 R1 R2 R3 R4 R5 R6 Hread
      | project r id op permission a b now event Hop Hmay Hh Hb Hname
      | project r id a parent rid new now event Hmay Hh Hst Hat Hf Hnone Huniq Hread
      | project r id a layout Hmay Hh Hst E1 E2 ].
  - done.
  - apply estate_ok_logged, estate_ok_projects; try done.
    + constructor; try done.
      * by rewrite E3.
      * rewrite E4, E5. split; [done|]. by intros [? ?].
      * rewrite E6. by intros [? ?].
    + intros j s Hj Hne _ Hd Ho. rewrite E3. eapply same_slug_false; try done. by rewrite Ho.
  - assert (projects e !! id = Some r ∧ pr_deleted_at r = None) as [Hr Hd]
      by (destruct Hmay as (m & (? & ? & _) & _); done).
    apply estate_ok_logged, estate_ok_projects; try done.
    + exact (K1 id r Hr).
    + eapply saved_project_row; try done. by eapply P.
    + intros j s Hj Hne _ Hsd Ho Hs. apply Hne. by eapply (S j id s r).
  - apply estate_ok_logged, estate_ok_first; try done.
    + constructor; [by rewrite E4| |].
      * rewrite E3, E5. split; [done|]. by intros [? ?].
      * rewrite E6. by intros [? ?].
    + intros j c Hj _ Hd Hpr. eapply same_name_false; try done; [by rewrite Hpr|].
      rewrite (K2 _ _ Hj). congruence.
    + by rewrite R3.
  - destruct Hh as (Ha & Hproject & Hlive). destruct (architecture_op_id _ _ _ _ _ Hop Hb) as [I1 I2].
    apply estate_ok_logged. eapply estate_ok_architecture; try done.
    + exact (K2 id a Ha).
    + eapply saved_architecture_row; try done. by eapply A.
    + cbn. intros j c Hj Hne Hbd Hd Hpr. refine (same_name_false id project (ar_name b) (architectures e) j c (Hname Hbd) Hj Hd _ _); [congruence|].
      by rewrite (K2 _ _ Hj).
  - destruct Hh as (Ha & Hproject & Hlive). destruct Hf as (F1 & F2 & F3 & F4 & F5 & F6).
    destruct Hat as (i & Hi & Hi1 & Hi2). rewrite Hi1 in F1. rewrite Hi2 in F2, F3.
    pose proof (A _ _ Ha) as [A1 A2 A3].
    apply estate_ok_logged. eapply (estate_ok_next id a (moved_to new now a)); try done.
    + exact (K2 id a Ha).
    + constructor; [|exact A2|exact A3]. cbn. lia.
    + cbn. intros n Hn. rewrite Hn in F6. destruct F6 as (r' & ir & (j & Hj & Hj1 & Hj2) & _).
      destruct (rw_owner _ _ _ (R j r' Hj)) as (c & Hc & _ & Hb). rewrite Hj1, Hi1, Ha in Hc. simplify_eq. lia.
  - by apply (estate_ok_tables e).
Qed.
