(* ===== verification/EstateProperties.v ===== *)
(** What the project and architecture services guarantee, whatever is asked of them: they implement the
    machine of [Workspaces]; histories only grow; an archived project is frozen; outsiders learn
    nothing; a stale edit is refused. *)
From Stdlib Require Import Lia ZArith.
From S2P Require Import Prelude Data Errors Elements Model Commands Serialization RoundTrip Computations Store Transactions.
From S2P Require Import Policy Identity Accounts Invariants AccountProperties Projects ProjectProperties Revisions Estate ProjectService ArchitectureService.
From S2P Require Import Workspaces EstateInvariants.

(** * Steps of the machine *)
Definition asked (at_ : instant) (c : ClientInfo) (e : estate) : estate :=
  set_accounts (set_request at_ c (accounts e)) e.

Lemma asked_ok at_ c e : estate_ok e → estate_ok (asked at_ c e).
Proof. by apply estate_ok_tables. Qed.

Lemma perform_transition user w e :
  keyed e → (perform user w e).2 = e ∨ transition user e (perform user w e).2.
Proof.
  intros Hk. destruct (perform user w e) as [[u|x] e'] eqn:E; [right; by eapply perform_ok|left; by eapply perform_raise].
Qed.

Section steps.
Context `{Externals} (cfg : config).

Lemma step_ok e e' : step cfg e e' → estate_ok e → estate_ok e'.
Proof using Type.
  intros Hs Hok. destruct Hs as [user w at_ c|w _|rs ss].
  - destruct (perform_transition user w (asked at_ c e) (ok_keyed _ (asked_ok at_ c e Hok))) as [He|Ht].
    + unfold asked in He. rewrite He. by apply asked_ok.
    + eapply transition_ok; [exact Ht|by apply asked_ok].
  - by apply (estate_ok_tables e).
  - by apply (estate_ok_tables e).
Qed.

Lemma steps_ok e e' : rtc (step cfg) e e' → estate_ok e → estate_ok e'.
Proof using Type. induction 1; [done|]. intros Hok. by apply IHrtc, (step_ok x). Qed.

Lemma empty_estate_ok : estate_ok empty_estate.
Proof using Type. by constructor. Qed.

Lemma reachable_estate_ok e : reachable_estate cfg e → estate_ok e.
Proof using Type. intros Hr. eapply steps_ok; [exact Hr|apply empty_estate_ok]. Qed.

(** A relation every transition satisfies, and that only looks at the projects, the architectures and
    what they own, holds along every sequence of steps. *)
Lemma steps_relate (R : relation estate) `{!PreOrder R} :
  (∀ e e', projects e' = projects e → architectures e' = architectures e → revisions e' = revisions e →
     layouts e' = layouts e → R e e') →
  (∀ user e e', estate_ok e → transition user e e' → R e e') →
  ∀ e e', rtc (step cfg) e e' → estate_ok e → R e e'.
Proof using Type.
  intros Htables Htrans e e'. induction 1 as [e|e e1 e2 Hs _ IH]; intros Hok; [reflexivity|].
  pose proof (step_ok _ _ Hs Hok) as Hok1. etrans; [|by apply IH].
  destruct Hs as [user w at_ c|w _|rs ss]; [|by apply Htables..].
  change (R e (perform user w (asked at_ c e)).2). trans (asked at_ c e); [by apply Htables|].
  destruct (perform_transition user w (asked at_ c e) (ok_keyed _ (asked_ok at_ c e Hok))) as [->|Ht]; [done|].
  eapply Htrans; [by apply asked_ok|exact Ht].
Qed.
End steps.

(** * Histories only grow *)

(** What never changes of a project, and of an architecture. *)
Definition project_kept (r s : ProjectRow) : Prop :=
  pr_id s = pr_id r ∧ pr_organization_id s = pr_organization_id r ∧ pr_slug s = pr_slug r ∧
  pr_created_by_user_id s = pr_created_by_user_id r ∧ pr_created_at s = pr_created_at r ∧
  (is_Some (pr_deleted_at r) → s = r).

Definition architecture_kept (a b : Architecture) : Prop :=
  ar_id b = ar_id a ∧ ar_project_id b = ar_project_id a ∧ ar_created_by_user_id b = ar_created_by_user_id a ∧
  ar_created_at b = ar_created_at a ∧ (ar_current_revision a ≤ ar_current_revision b)%Z ∧
  (is_Some (ar_deleted_at a) → b = a).

Record grows (e e' : estate) : Prop := {
  g_revisions : revisions e ⊆ revisions e';
  g_projects : ∀ id r, projects e !! id = Some r → ∃ s, projects e' !! id = Some s ∧ project_kept r s;
  g_architectures : ∀ id a, architectures e !! id = Some a → ∃ b, architectures e' !! id = Some b ∧ architecture_kept a b;
}.

Lemma project_kept_refl r : project_kept r r. Proof. done. Qed.
Lemma architecture_kept_refl a : architecture_kept a a. Proof. split_and!; done. Qed.

#[export] Instance grows_preorder : PreOrder grows.
Proof.
  split.
  - intros e. constructor; [done| |]; intros id x Hx; exists x; (split; [done|]);
      [apply project_kept_refl|apply architecture_kept_refl].
  - intros e1 e2 e3 [R1 P1 A1] [R2 P2 A2]. constructor; [by etrans| |].
    + intros id r (s & Hs & (? & ? & ? & ? & ? & D1))%P1. apply P2 in Hs as (t & Ht & (? & ? & ? & ? & ? & D2)).
      exists t. split; [done|]. split_and!; try congruence. intros Hd. specialize (D1 Hd). subst. by apply D2.
    + intros id r (s & Hs & (? & ? & ? & ? & ? & D1))%A1. apply A2 in Hs as (t & Ht & (? & ? & ? & ? & ? & D2)).
      exists t. split; [done|]. split_and!; try congruence; [lia|]. intros Hd. specialize (D1 Hd). subst. by apply D2.
Qed.

(** Rows that stay, and one row replaced or added. *)
Lemma kept_rows {X} (kept : X → X → Prop) (m : gmap uuid X) :
  (∀ y, kept y y) → ∀ i y, m !! i = Some y → ∃ z, m !! i = Some z ∧ kept y z.
Proof. intros Hrefl i y Hi. by exists y. Qed.

Lemma kept_insert {X} (kept : X → X → Prop) (m : gmap uuid X) id x :
  (∀ y, kept y y) → (∀ y, m !! id = Some y → kept y x) →
  ∀ i y, m !! i = Some y → ∃ z, <[id := x]> m !! i = Some z ∧ kept y z.
Proof.
  intros Hrefl Hx i y Hi. destruct (decide (i = id)) as [->|Hne].
  - exists x. rewrite lookup_insert_eq. split; [done|by apply Hx].
  - exists y. by rewrite lookup_insert_ne.
Qed.

#[local] Hint Resolve project_kept_refl architecture_kept_refl : core.

Lemma grows_tables e e' :
  projects e' = projects e → architectures e' = architectures e → revisions e' = revisions e → grows e e'.
Proof. intros Hp Ha Hr. constructor; rewrite ?Hp, ?Ha, ?Hr; [done|by apply kept_rows..]. Qed.

Lemma transition_grows user e e' : estate_ok e → transition user e e' → grows e e'.
Proof.
  intros [[K1 K2] P S A N R U H] Ht.
  destruct Ht as
    [ | id p row event m Hl Hm Hp Hnone Hslug Hlen Hfree E1 E2 E3 E4 E5 E6 Hread
      | id r op permission p q now event Hop Hmay Hp Hq Hread
      | project r id rid row rev event Hmay Ha Hr Hname Hnum E1 E2 E3 E4 E5 E6 R1 R2 R3 R4 R5 R6 Hread
      | project r id op permission a b now event Hop Hmay Hh Hb Hname
      | project r id a parent rid new now event Hmay Hh Hst Hat Hf Hnone Huniq Hread
      | project r id a layout Hmay Hh Hst E1 E2 ]; [by apply grows_tables| | | | | |by apply grows_tables];
    (constructor; cbn; [first [done|by apply insert_subseteq]|first [by apply kept_rows|apply kept_insert; [done|]]..]).
  - congruence.
  - destruct Hmay as (m & (Hr & Hd & _) & _). intros y Hy. assert (y = r) as -> by congruence.
    split_and!; try done. rewrite Hd. by intros [? ?].
  - congruence.
  - destruct Hh as (Ha & _ & Hd). intros y Hy. assert (y = a) as -> by congruence.
    split_and!; try done. rewrite Hd. by intros [? ?].
  - destruct Hh as (Ha & _ & Hd). intros y Hy. assert (y = a) as -> by congruence.
    destruct Hf as (_ & F2 & _). destruct Hat as (i & _ & _ & Hn). cbn.
    split_and!; try done; [cbn; lia|]. rewrite Hd. by intros [? ?].
Qed.

(** * What an archived project owns is frozen *)

(** The architectures of a project, their revisions and their layouts are the same in both. *)
Record same_holdings (project : uuid) (e e' : estate) : Prop := {
  same_architectures : ∀ id a, ar_project_id a = project →
    (architectures e' !! id = Some a ↔ architectures e !! id = Some a);
  same_revisions : ∀ id v, rr_project_id v = project →
    (revisions e' !! id = Some v ↔ revisions e !! id = Some v);
  same_layouts : ∀ id a, architectures e !! id = Some a → ar_project_id a = project →
    layouts e' !! id = layouts e !! id;
}.

Lemma same_holdings_tables project e e' :
  architectures e' = architectures e → revisions e' = revisions e → layouts e' = layouts e →
  same_holdings project e e'.
Proof. intros Ha Hr Hl. constructor; intros; by rewrite ?Ha, ?Hr, ?Hl. Qed.

(** A row of another project, inserted where there was none or one of that project. *)
Lemma insert_elsewhere {X} (owner : X → uuid) (m : gmap uuid X) project id x :
  owner x ≠ project → (∀ y, m !! id = Some y → owner y ≠ project) →
  ∀ i y, owner y = project → (<[id := x]> m !! i = Some y ↔ m !! i = Some y).
Proof.
  intros Hx Hm i y Hy. destruct (decide (i = id)) as [->|Hne]; [|by rewrite lookup_insert_ne].
  rewrite lookup_insert_eq. split; [by intros [= ->]|]. intros Hi. by destruct (Hm y Hi).
Qed.

(** A write goes to the project it names, which is active. *)
Lemma not_archived e user project permission r target s :
  may_write e user target permission s → projects e !! project = Some r →
  pr_status r = PROJECT_IS_ARCHIVED → target ≠ project.
Proof. intros [(m & (Hs & _) & _) Hactive] Hr Ha <-. congruence. Qed.

Lemma transition_frozen user project r e e' :
  estate_ok e → transition user e e' → projects e !! project = Some r → pr_status r = PROJECT_IS_ARCHIVED →
  same_holdings project e e'.
Proof.
  intros [[K1 K2] P S A N R U H] Ht Hpr Harch.
  destruct Ht as
    [ | id p row event m Hl Hm Hp Hnone Hslug Hlen Hfree E1 E2 E3 E4 E5 E6 Hread
      | id s op permission p q now event Hop Hmay Hp Hq Hread
      | p' s id rid row rev event Hmay Ha Hr Hname Hnum E1 E2 E3 E4 E5 E6 R1 R2 R3 R4 R5 R6 Hread
      | p' s id op permission a b now event Hop Hmay Hh Hb Hname
      | p' s id a parent rid new now event Hmay Hh Hst Hat Hf Hnone Huniq Hread
      | p' s id a layout Hmay Hh Hst E1 E2 ]; [by apply same_holdings_tables..| | | |];
    pose proof (not_archived _ _ _ _ _ _ _ Hmay Hpr Harch) as Hne; constructor; try done; cbn.
  - apply insert_elsewhere; [by rewrite E2|]. intros y Hy. congruence.
  - apply insert_elsewhere; [by rewrite R3|]. intros y Hy. congruence.
  - destruct Hh as (Ha & Hp' & _). apply insert_elsewhere; cbn; [by rewrite Hp'|]. intros y Hy. congruence.
  - destruct Hh as (Ha & Hp' & _). apply insert_elsewhere; cbn; [by rewrite Hp'|]. intros y Hy. congruence.
  - apply insert_elsewhere; cbn; [done|]. intros y Hy. congruence.
  - intros i c Hc Hproject. rewrite lookup_insert_ne; [done|]. intros <-.
    destruct Hh as (Ha & Hp' & _). congruence.
Qed.

(** * Outsiders *)

(** A project the user does not see: absent, deleted, of a deleted organization or of one the user does
    not belong to. *)
Definition unseen (user project : uuid) (e : estate) : Prop := ∀ r m, ¬ sees e user project r m.

(** Refused with the same answer in every state of [P], which it leaves as it is. *)
Definition refused {A} (P : estate → Prop) (m : st estate A) : Prop := ∃ x, ∀ e, P e → m e = (Raise x, e).

Section refused.
Context (P : estate → Prop).

Lemma refused_raise {A} x : refused P (raise x : st estate A).
Proof. by exists x. Qed.

Lemma refused_bind {A B} (m : st estate A) (f : A → st estate B) : refused P m → refused P (m ≫= f).
Proof. intros [x Hx]. exists x. intros e He. unfold mbind, io_bind. by rewrite Hx. Qed.

Lemma refused_after {A B} (r : py A) (f : A → st estate B) :
  (∀ a, refused P (f a)) → refused P (lift r ≫= f).
Proof. intros Hf. destruct r as [a|x]; [destruct (Hf a) as [x Hx]; by exists x|by exists x]. Qed.

Lemma refused_unless {B} b x (f : unit → st estate B) : refused P (f tt) → refused P (raise_when b x ≫= f).
Proof. intros [y Hy]. destruct b; [by exists x|by exists y]. Qed.

Lemma refused_unit_of_work {A} (m : st estate A) : refused P m → refused P (unit_of_work m).
Proof. intros [x Hx]. exists x. intros e He. unfold unit_of_work. by rewrite Hx. Qed.
End refused.

Lemma refused_get_for_member user project lock {B} (f : option (Project * Membership) → st estate B) :
  refused (unseen user project) (f None) → refused (unseen user project) (projects_get_for_member project user lock ≫= f).
Proof.
  intros [x Hx]. exists x. intros e He. unfold mbind, io_bind. by rewrite (get_for_member_none _ _ _ _ He), Hx.
Qed.

Lemma refused_access user project permission lock :
  refused (unseen user project) (project_access project user permission lock).
Proof. apply refused_get_for_member, refused_raise. Qed.

Lemma refused_locked user project permission :
  refused (unseen user project) (locked_project project user permission).
Proof. apply refused_get_for_member, refused_raise. Qed.

Lemma refused_resolve user project : refused (unseen user project) (project_resolve project user).
Proof.
  exists ProjectNotFound. intros e He. unfold project_resolve, mbind, io_bind, unit_of_work.
  by rewrite get_for_member_none.
Qed.

Ltac refuse := repeat (intros; cbv beta zeta; lazymatch goal with
  | |- refused _ (project_access _ _ _ _) => apply refused_access
  | |- refused _ (locked_project _ _ _) => apply refused_locked
  | |- refused _ (project_resolve _ _) => apply refused_resolve
  | |- refused _ (unit_of_work _) => apply refused_unit_of_work
  | |- refused _ (raise_when _ _ ≫= _) => apply refused_unless
  | |- refused _ (lift _ ≫= _) => apply refused_after
  | |- refused _ (_ ≫= _) => apply refused_bind
  | |- refused _ ?m => let h := head_of m in unfold h
  end).

Lemma perform_refused user w project : target w = Some project → refused (unseen user project) (perform user w).
Proof. destruct w; intros [= <-]; unfold perform; by refuse. Qed.

(** * A sample estate

    Ada, of [sample_world], creates a project and an architecture, and a second version of it. *)
Definition ask (t : Z) (user : uuid) (w : work) (e : estate) : estate :=
  (perform user w (asked (t * SECOND)%Z sample_client e)).2.

Definition ada : uuid := sample_id 1.
Definition sample_project : uuid := sample_id 20.
Definition sample_architecture : uuid := sample_id 30.

Definition sample_membership : Membership :=
  default {| m_id := ""; m_organization_id := ""; m_user_id := ""; m_role := VIEWER; m_created_at := 0; m_updated_at := 0 |}
    (member (set_accounts sample_world empty_estate) (sample_id 7) ada).

(** The content of version 2. *)
Definition sample_content (name : string) : ArchitectureIR :=
  match empty_architecture name "" with Ok ir => ir | Raise _ => discovered_shop end.

Definition founded : estate := set_accounts sample_world empty_estate.
Definition with_project : estate :=
  ask 50 ada (CreateProject (sample_draws 50 20 "") sample_membership "Checkout" None "" None) founded.
Definition with_architecture : estate :=
  ask 60 ada (CreateArchitecture (sample_draws 60 30 "") sample_project "Shop" "" None BY_USER None None) with_project.
Definition replace_work (t : Z) (n : nat) (base : Z) (name : string) : work :=
  ReplaceArchitecture (sample_draws t n "") sample_project sample_architecture base (sample_content name) BY_USER
    None None.
Definition with_revision : estate := ask 70 ada (replace_work 70 40 1 "Storefront") with_architecture.
Definition with_archive : estate := ask 80 ada (ArchiveProject (sample_draws 80 50 "") sample_project) with_revision.

Section sample.
Context `{Externals} (cfg : config).

Lemma ask_step t user w e : step cfg e (ask t user w e).
Proof using Type. apply (s_work cfg e user w). Qed.

Lemma accounts_steps w w' e : rtc (served cfg) w w' → rtc (step cfg) (set_accounts w e) (set_accounts w' e).
Proof using Type.
  induction 1 as [w|w w1 w2 Hs _ IH]; [reflexivity|]. eapply rtc_l; [|exact IH].
  exact (s_accounts cfg (set_accounts w e) w1 Hs).
Qed.
End sample.

Lemma founded_reachable : reachable_estate sample_config founded.
Proof. exact (accounts_steps sample_config _ _ empty_estate sample_world_reachable). Qed.

Lemma ask_reachable t user w e :
  reachable_estate sample_config e → reachable_estate sample_config (ask t user w e).
Proof. intros He. eapply rtc_r; [exact He|apply ask_step]. Qed.

Lemma with_architecture_reachable : reachable_estate sample_config with_architecture.
Proof. apply ask_reachable, ask_reachable, founded_reachable. Qed.

Lemma with_revision_reachable : reachable_estate sample_config with_revision.
Proof. apply ask_reachable, with_architecture_reachable. Qed.

Lemma with_archive_reachable : reachable_estate sample_config with_archive.
Proof. apply ask_reachable, with_revision_reachable. Qed.

(** * The theorems *)

(** C18: The project and architecture services implement the abstract machine of [Workspaces]: a call that
    returns makes one of its transitions, under the permission and in the states the machine asks for, and
    a call that raises leaves every table as it was. *)
Theorem work_refines user w e :
  keyed e →
  match perform user w e with
  | (Ok _, e') => transition user e e'
  | (Raise _, e') => e' = e
  end.
Proof.
  intros Hk. destruct (perform user w e) as [[u|x] e'] eqn:E; [by eapply perform_ok|by eapply perform_raise].
Qed.

Lemma work_refines_witness :
  (perform ada (replace_work 70 40 1 "Storefront") with_architecture).1 = Ok tt ∧
  transition ada with_architecture (perform ada (replace_work 70 40 1 "Storefront") with_architecture).2.
Proof.
  pose proof (work_refines ada (replace_work 70 40 1 "Storefront") with_architecture) as H.
  assert ((perform ada (replace_work 70 40 1 "Storefront") with_architecture).1 = Ok tt) as Hok by by vm_compute.
  destruct (perform _ _ with_architecture) as [r e'] eqn:E. simpl in Hok. rewrite Hok in H. split; [exact Hok|].
  apply H. apply ok_keyed, (reachable_estate_ok sample_config). apply with_architecture_reachable.
Defined.

(** C17: In every reachable estate, rows are stored under their own ids and read back; two live projects of
    an organization never share a slug, nor two live architectures of a project a name (whatever the case);
    archived and deleted states agree with their times; the revisions of an architecture are numbered from
    1 to the current one without gaps or repetition, each comes after the one before, and a restored one
    restores an earlier one. *)
Theorem estates_sound `{Externals} cfg e : reachable_estate cfg e → estate_ok e.
Proof. apply reachable_estate_ok. Qed.

Lemma estates_sound_witness : estate_ok with_archive ∧ size (revisions with_archive) = 2.
Proof.
  split; [|by vm_compute]. apply (estates_sound sample_config).
  apply with_archive_reachable.
Defined.

(** C29: Whatever is asked afterwards, a revision once stored stays stored as it is; a project keeps its
    organization, slug and creator, an architecture its project and creator, its current revision never
    goes back, and what is deleted stays deleted and unchanged. *)
Theorem history_kept `{Externals} cfg e e' : reachable_estate cfg e → rtc (step cfg) e e' → grows e e'.
Proof.
  intros Hr Hs. apply (steps_relate cfg grows); [|apply transition_grows|done|by eapply reachable_estate_ok].
  intros; by apply grows_tables.
Qed.

Lemma history_kept_witness : grows with_architecture with_archive ∧ size (revisions with_architecture) = 1.
Proof.
  split; [|by vm_compute]. apply (history_kept sample_config).
  - apply with_architecture_reachable.
  - eapply rtc_l; [apply ask_step|]. apply rtc_once, ask_step.
Defined.

(** C28: While a project is archived, no step changes its architectures, their revisions or their layouts: no
    call of a user, on this project or another, no request about accounts, no change of the requirements. *)
Theorem archived_frozen `{Externals} cfg e e' project r :
  reachable_estate cfg e → step cfg e e' →
  projects e !! project = Some r → pr_status r = PROJECT_IS_ARCHIVED →
  same_holdings project e e'.
Proof.
  intros Hr Hs Hp Ha. pose proof (reachable_estate_ok _ _ Hr) as Hok.
  destruct Hs as [user w at_ c|w _|rs ss]; [|by apply same_holdings_tables..].
  destruct (perform_transition user w (asked at_ c e) (ok_keyed _ (asked_ok at_ c e Hok))) as [He|Ht].
  - unfold asked in He. rewrite He. by apply same_holdings_tables.
  - by destruct (transition_frozen user project r _ _ (asked_ok at_ c e Hok) Ht Hp Ha).
Qed.

Lemma archived_frozen_witness :
  same_holdings sample_project with_archive (ask 90 ada (replace_work 90 60 2 "Again") with_archive) ∧
  (ask 90 ada (replace_work 90 60 2 "Again") with_revision) ≠ with_revision.
Proof.
  split.
  - eapply (archived_frozen sample_config);
      [apply with_archive_reachable|apply ask_step|
       vm_compute; reflexivity|reflexivity].
  - intros He. apply (f_equal (λ e, size (revisions e))) in He. by vm_compute in He.
Defined.

(** C3: A user who does not see a project learns nothing of it: what is answered to any call about it is
    an error fixed by the request alone, the same whether the project exists, is deleted or belongs to
    others and whatever it holds; and nothing changes. *)
Theorem outsider_refused user w project :
  target w = Some project → ∃ x, ∀ e, unseen user project e → perform user w e = (Raise x, e).
Proof. apply perform_refused. Qed.

Lemma outsider_refused_witness :
  (∃ x, perform (sample_id 99) (GetArchitecture sample_project sample_architecture) with_revision = (Raise x, with_revision) ∧
        perform (sample_id 99) (GetArchitecture sample_project sample_architecture) empty_estate = (Raise x, empty_estate)) ∧
  (perform ada (GetArchitecture sample_project sample_architecture) with_revision).1 = Ok tt.
Proof.
  split; [|by vm_compute].
  destruct (outsider_refused (sample_id 99) (GetArchitecture sample_project sample_architecture) sample_project eq_refl) as [x Hx].
  exists x. split; apply Hx; intros r m (Hr & _ & _ & Hm); [|by vm_compute in Hr].
  assert (pr_organization_id <$> projects with_revision !! sample_project = Some (sample_id 7)) as Ho by by vm_compute.
  rewrite Hr in Ho. injection Ho as Ho. rewrite Ho in Hm. by vm_compute in Hm.
Defined.
