(* ===== verification/ContentProperties.v ===== *)
(** Versions of an architecture's content: what is stored is what is read back, an edit that started from
    an old version is refused, and no update is lost. *)
From Stdlib Require Import Lia ZArith.
From S2P Require Import Prelude Data Errors Values Elements Model Commands Serialization RoundTrip JsonText Computations Store Transactions.
From S2P Require Import Policy Identity Accounts Invariants AccountProperties Projects ProjectProperties Revisions Estate ProjectService ArchitectureService.
From S2P Require Import Workspaces EstateInvariants EstateProperties.

(** * Reading *)
Lemma update_reads r : has_permission r ARCHITECTURE_UPDATE = true → has_permission r ARCHITECTURE_READ = true.
Proof. by destruct r; vm_compute. Qed.

Lemma get_revision_at e a n row :
  estate_ok e → revision_at e (ar_id a) n row →
  get_revision a n e = (to_revision row, e).
Proof.
  intros Hok (i & Hi & Hi1 & Hi2). unfold get_revision, architectures_get_revision, mbind, io_bind, query.
  rewrite (head_where_unique _ _ i row); [|done| |].
  - unfold lift, mret, raise. pose proof (rw_readable _ _ _ (ok_revisions e Hok i row Hi)) as Hr.
    by destruct (to_revision row).
  - unfold is_revision. by rewrite !bool_decide_eq_true_2.
  - intros j s Hj Hp. unfold is_revision in Hp. bool_facts. eapply (ok_numbers e Hok j i s row); try done; congruence.
Qed.

Lemma read_access user project permission e r m :
  estate_ok e → sees e user project r m → has_permission (m_role m) permission = true →
  ∃ access, project_access project user permission None e = (Ok access, e).
Proof.
  intros Hok Hs Hp. pose proof Hs as (Hr & _).
  pose proof (pw_readable _ (ok_projects e Hok _ _ Hr)) as Hread.
  destruct (to_project r) as [p|] eqn:Ep; [|done]. exists (p, m).
  unfold project_access, mbind, io_bind. rewrite (get_for_member_some _ _ _ _ _ _ Hs), Ep.
  unfold allowed. rewrite Hp. done.
Qed.

(** Getting an architecture whose current revision is known. *)
Lemma get_current user project id e r a row v layout :
  estate_ok e → may e user project ARCHITECTURE_READ r → holds e project id a →
  revision_at e id (ar_current_revision a) row → to_revision row = Ok v →
  to_layout (layouts e !! id) = Ok layout →
  architecture_get project id user e = (Ok (a, v, layout), e).
Proof.
  intros Hok (m & Hs & Hp) (Ha & Hproject & Hlive) Hat Hv Hlay.
  destruct (read_access _ _ _ _ _ _ Hok Hs Hp) as [access Haccess].
  pose proof (proj2 (ok_keyed e Hok) _ _ Ha) as Hid.
  unfold architecture_get, unit_of_work, mbind at 1, io_bind at 1. rewrite Haccess.
  assert (get_architecture project id e = (Ok a, e)) as Hget.
  { unfold get_architecture, architectures_get, mbind, io_bind, query. rewrite Ha. simpl.
    by rewrite bool_decide_eq_true_2, Hlive. }
  unfold mbind at 1, io_bind at 1. rewrite Hget. unfold mbind at 1, io_bind at 1.
  rewrite (get_revision_at e a _ row Hok) by (by rewrite Hid). rewrite Hv.
  unfold mbind at 1, io_bind at 1, architectures_get_layout, mbind at 1, io_bind at 1, query, lift.
  by rewrite Hid, Hlay.
Qed.

(** * What a revision leaves *)

(** The architecture, its new revision and its layout are what is got next. *)
Lemma revise_read {L} user d project id base (load : Architecture → st estate L) build set e rd e' :
  estate_ok e → (∀ a l e1, load a e = (Ok l, e1) → e1 = e) →
  (∀ a l row parent new changes, ar_id a = id → load a e = (Ok l, e) → rr_architecture_id row = id →
     to_revision row = Ok parent → build l parent = Ok (new, changes) → follows e row new) →
  revise d project id user base load build set None e = (Ok rd, e') → rd_created rd = true →
  architecture_get project id user e' = (Ok (rd_architecture rd, rd_revision rd, rd_layout rd), e') ∧
  rv_number (rd_revision rd) = (base + 1)%Z ∧ ar_current_revision (rd_architecture rd) = (base + 1)%Z ∧
  ∃ a l parent new, load a e = (Ok l, e) ∧ ar_id a = id ∧ build l parent = Ok (new, rd_changes rd) ∧
    from_dict (to_dict (nr_ir new)) = Ok (rv_ir (rd_revision rd)) ∧
    rv_content_hash (rd_revision rd) = nr_content_hash new ∧ rv_restored_from (rd_revision rd) = nr_restored_from new.
Proof.
  intros Hok Hload Hbuild H Hcreated.
  pose proof (transition_ok _ _ _ (revise_transition _ _ _ _ _ _ _ _ _ _ _ (ok_keyed e Hok) Hload Hbuild H) Hok) as Hok'.
  apply revise_ok in H; [|by apply ok_keyed|done].
  destruct H as (r & a & l & prow & parent & [Hmay _] & (Ha & Hp & Hd) & Hid & Hst & Hbase & Hl & Hat & Hparent & Hlay & H).
  destruct (build l parent) as [[new changes]|x] eqn:Eb; [|destruct H as (_ & _ & Hc & _); congruence].
  destruct H as (_ & Hmoved & Hchanges & Hread & _ & _ & event & ->). pose proof Hat as (i & _ & Hi & Hi2).
  destruct (Hbuild a l prow parent new changes Hid Hl Hi Hparent Eb) as (F1 & F2 & _).
  rewrite Hi in F1. rewrite Hi2 in F2.
  assert (rv_content_hash (rd_revision rd) = nr_content_hash new ∧ rv_restored_from (rd_revision rd) = nr_restored_from new) as [Hh Hr]
    by (unfold to_revision in Hread; apply py_bind_ok in Hread as (ir & _ & [= <-]); done).
  destruct (to_revision_fields _ _ Hread) as (_ & R2 & R3 & _). cbn in R2, R3.
  split_and!; [|congruence|by rewrite Hmoved; cbn; congruence|].
  2: { exists a, l, parent, new. rewrite Hchanges. by split_and!. }
  eapply (get_current user project id _ r _ (revision_record (new_id d) project (clock (accounts e)) new)).
  - exact Hok'.
  - destruct Hmay as (m & Hs & Hperm). exists m. split; [exact Hs|by apply update_reads].
  - split_and!; cbn; [by rewrite lookup_insert_eq| |]; by rewrite Hmoved.
  - rewrite Hmoved. exists (new_id d). cbn. by rewrite lookup_insert_eq.
  - exact Hread.
  - exact Hlay.
Qed.

(** * Versions a change is based on *)

(** The project, the architecture and the version of a change of content. *)
Definition based_on (w : work) : option (uuid * uuid * Z) :=
  match w with
  | EditArchitecture _ p a base _ _ | ReplaceArchitecture _ p a base _ _ _ _ | RestoreRevision _ p a _ base _ =>
      Some (p, a, base)
  | _ => None
  end.

(** What a returning change of content was based on, and what it leaves. *)
Definition from_base (project id : uuid) (base : Z) (e e' : estate) : Prop :=
  ∃ a, holds e project id a ∧ ar_current_revision a = base ∧
    (e' = e ∨ ∃ b, architectures e' !! id = Some b ∧ (base < ar_current_revision b)%Z).

Lemma revise_based {L} user d project id base (load : Architecture → st estate L) build set e rd e' :
  keyed e → (∀ a l e1, load a e = (Ok l, e1) → e1 = e) →
  (∀ l parent new changes, build l parent = Ok (new, changes) → nr_number new = (rv_number parent + 1)%Z) →
  revise d project id user base load build set None e = (Ok rd, e') → from_base project id base e e'.
Proof.
  intros Hk Hload Hnum Hrev. apply revise_ok in Hrev; [|done..].
  destruct Hrev as (r & a & l & prow & parent & _ & Ha & Hid & _ & Hbase & _ & Hat & Hparent & _ & Hrev).
  exists a. split; [done|]. split; [done|].
  destruct (build l parent) as [[new changes]|x] eqn:Eb; [right|left; by destruct Hrev as (_ & -> & _)].
  destruct Hrev as (_ & Hmoved & _ & _ & _ & _ & event & ->). exists (rd_architecture rd). cbn.
  rewrite lookup_insert_eq, Hmoved. split; [done|]. cbn. rewrite (Hnum _ _ _ _ Eb).
  destruct (to_revision_fields _ _ Hparent) as (_ & -> & _). destruct Hat as (i & _ & _ & ->). lia.
Qed.

Lemma next_number parent ir source user reason set new changes :
  next_revision parent ir source user reason set = Ok (new, changes) → nr_number new = (rv_number parent + 1)%Z.
Proof. intros Hb%next_revision_ok. by destruct Hb as (_ & -> & _). Qed.

Lemma perform_based user w project id base e u e' :
  keyed e → based_on w = Some (project, id, base) → perform user w e = (Ok u, e') → from_base project id base e e'.
Proof.
  intros Hk Hw H. destruct w; try discriminate Hw; injection Hw as -> -> ->; apply ignored_ok in H as [rd H].
  - unfold architecture_edit in H. apply io_bind_ok in H as (edit & e1 & [_ ->]%lift_ok & H).
    eapply revise_based; [done| | |exact H].
    + by intros a l e1 [_ ->]%ret_ok.
    + intros l parent new changes Hb. apply py_bind_ok in Hb as (ir & _ & Hb). by eapply next_number.
  - eapply revise_based; [done| | |exact H].
    + by intros a l e1 [_ ->]%ret_ok.
    + intros l parent new changes Hb. exact (next_number _ _ _ _ _ _ _ _ Hb).
  - eapply revise_based; [done| | |exact H].
    + by intros a l e1 [-> _]%get_revision_ok.
    + intros l parent new changes Hb. unfold restored_revision in Hb. destruct (negb _); [done|].
      apply py_bind_ok in Hb as ([mid changes'] & Hb & [= <- _]). exact (next_number _ _ _ _ _ _ _ _ Hb).
Qed.

(** * Errors of a new revision *)
Lemma dumps_with_raise text j x : dumps_with text j = Raise x → x = TypeError.
Proof.
  revert x. induction j as [|b|z|d|s|l IH|m IH] using json_ind'; intros x H; try done; [by injection H| |].
  - cbn [dumps_with] in H. apply py_bind_raise in H as [H|(items & _ & H)]; [|done]. induction IH as [|j l Hj _ IHl]; [done|].
    apply py_bind_raise in H as [H|(s & _ & H)]; [by apply Hj|].
    apply py_bind_raise in H as [H|(ss & _ & H)]; [by apply IHl|done].
  - cbn [dumps_with] in H. apply py_bind_raise in H as [H|(members & _ & H)]; [|done]. induction IH as [|p m Hp _ IHm]; [done|].
    apply py_bind_raise in H as [H|(s & _ & H)]; [by apply Hp|].
    apply py_bind_raise in H as [H|(ss & _ & H)]; [by apply IHm|done].
Qed.

(** Only an unchanged content is answered as unchanged. *)
Lemma next_revision_unchanged parent ir source user reason set x :
  next_revision parent ir source user reason set = Raise x → has_code "architecture_unchanged" x = true →
  Diff.is_empty (Diff.diff (rv_ir parent) ir) = true.
Proof.
  unfold next_revision. cbv zeta. destruct (Diff.is_empty _); [done|]. intros H Hx. exfalso.
  apply py_bind_raise in H as [H|(hash & _ & H)].
  - unfold content_hash, to_json in H. apply py_bind_raise in H as [->%dumps_with_raise|(t & _ & H)]; done.
  - apply py_bind_raise in H as [H|(r & _ & H)]; [|done]. unfold reason_of in H.
    destruct reason as [raw|]; [|done]. destruct (String.eqb _ _); [done|]. cbv zeta in H.
    destruct (text_problems _ _ _ _ _); [done|]. by injection H as <-.
Qed.

(** * Access to write *)
Lemma write_access_granted user project permission e r :
  estate_ok e → may_write e user project permission r →
  ∃ access, write_access project user permission e = (Ok access, e).
Proof.
  intros Hok [(m & Hs & Hp) Hactive]. pose proof Hs as (Hr & Hd & _).
  pose proof (pw_readable _ (ok_projects e Hok _ _ Hr)) as Hread.
  destruct (to_project r) as [p|] eqn:Ep; [|done]. exists (p, m).
  destruct (to_project_fields r p Ep) as (_ & _ & _ & F1 & _ & F2).
  unfold write_access, project_access, mbind, io_bind. rewrite (get_for_member_some _ _ _ _ _ _ Hs), Ep.
  unfold allowed. rewrite Hp. simpl.
  unfold Project_ensure_modifiable, Project_is_deleted, Project_is_archived. by rewrite F1, F2, Hactive, Hd.
Qed.

Lemma get_architecture_held e project id a :
  holds e project id a → get_architecture project id e = (Ok a, e).
Proof.
  intros (Ha & Hp & Hd). unfold get_architecture, architectures_get, mbind, io_bind, query. rewrite Ha. simpl.
  by rewrite bool_decide_eq_true_2, Hd.
Qed.

(** * The sample *)
Definition sample_row : ProjectRow := {|
  pr_id := sample_project; pr_organization_id := sample_id 7; pr_name := "Checkout"; pr_slug := "checkout";
  pr_description := ""; pr_status := PROJECT_ACTIVE;
  pr_settings := [("cloud_provider", JNull); ("currency", JStr "USD")]; pr_architecture_policy := JObj [];
  pr_created_by_user_id := Some ada; pr_archived_at := None; pr_deleted_at := None;
  pr_created_at := 50 * SECOND; pr_updated_at := 50 * SECOND |}.

Lemma sample_may permission : has_permission OWNER permission = true → may_write with_revision ada sample_project permission sample_row.
Proof.
  intros Hp. split; [|done]. exists sample_membership. split; [|exact Hp].
  split_and!; [by vm_compute|done| |by vm_compute].
  destruct (organizations (accounts with_revision) !! sample_id 7) as [o|] eqn:E; [|by vm_compute in E].
  exists o. split; [exact E|]. revert E. vm_compute. by intros [= <-].
Qed.

Definition sample_current : Architecture := {|
  ar_id := sample_architecture; ar_project_id := sample_project; ar_name := "Shop"; ar_description := "";
  ar_status := ARCHITECTURE_ACTIVE; ar_current_revision := 2; ar_created_by_user_id := Some ada;
  ar_updated_by_user_id := Some ada; ar_archived_at := None; ar_deleted_at := None;
  ar_created_at := 60 * SECOND; ar_updated_at := 70 * SECOND |}.

Lemma sample_held : holds with_revision sample_project sample_architecture sample_current.
Proof. split_and!; by vm_compute. Qed.

Lemma sample_content_writable name :
  match empty_architecture name "" with
  | Ok ir => built ArchitectureIR_new ArchitectureIR_args ir ∧ ir_nodes ir = [] ∧ ir_connections ir = [] ∧
             ir_assumptions ir = [] ∧ ir_decisions ir = [] ∧ ir_requirement_refs ir = [] ∧ ir_provenance ir = None
  | Raise _ => False
  end → writable (sample_content name).
Proof.
  unfold sample_content. destruct (empty_architecture name "") as [ir|]; [|done].
  intros (Hb & H1 & H2 & H3 & H4 & H5 & H6). constructor; rewrite ?H1, ?H2, ?H3, ?H4, ?H5, ?H6; try done;
    by intros x Hx%elem_of_nil.
Qed.

Lemma other_writable : writable (sample_content "Other").
Proof. apply sample_content_writable. vm_compute. split_and!; reflexivity. Qed.

(** * The theorems *)

(** C2: No update is lost: once a change of content (an edit, a replacement or the restoring of a revision)
    made from version [base] of an architecture has changed anything, no change made from the same version
    is accepted afterwards, whoever asks and whatever was asked in between; it is refused and leaves
    everything as it was. *)
Theorem no_lost_update `{Externals} cfg user1 w1 user2 w2 project id base e e' e'' :
  reachable_estate cfg e → based_on w1 = Some (project, id, base) → based_on w2 = Some (project, id, base) →
  perform user1 w1 e = (Ok tt, e') → e' ≠ e → rtc (step cfg) e' e'' →
  ∃ x, perform user2 w2 e'' = (Raise x, e'').
Proof.
  intros Hr H1 H2 Hp Hne Hs. pose proof (reachable_estate_ok _ _ Hr) as Hok. pose proof (ok_keyed _ Hok) as Hk.
  pose proof (transition_ok _ _ _ (perform_ok _ _ _ _ _ Hk Hp) Hok) as Hok'.
  destruct (perform_based _ _ _ _ _ _ _ _ Hk H1 Hp) as (a & _ & _ & [?|(b & Hb & Hlt)]); [done|].
  assert (grows e' e'') as [_ _ Hg]
    by (apply (steps_relate cfg grows); [intros; by apply grows_tables|apply transition_grows|done|done]).
  destruct (Hg _ _ Hb) as (c & Hc & Hkept).
  pose proof (ok_keyed _ (steps_ok cfg _ _ Hs Hok')) as Hk''.
  destruct (perform user2 w2 e'') as [[[]|x] e3] eqn:E.
  - exfalso. destruct (perform_based _ _ _ _ _ _ _ _ Hk'' H2 E) as (d & (Hd & _) & Hbase & _).
    assert (d = c) as -> by congruence. destruct Hkept as (_ & _ & _ & _ & Hle & _). lia.
  - exists x. by rewrite (perform_raise _ _ _ _ _ E).
Qed.

Lemma no_lost_update_witness :
  ∃ x, perform ada (replace_work 75 44 1 "Other") (perform ada (replace_work 70 40 1 "Storefront") with_architecture).2 =
       (Raise x, (perform ada (replace_work 70 40 1 "Storefront") with_architecture).2).
Proof.
  refine (no_lost_update sample_config ada (replace_work 70 40 1 "Storefront") ada (replace_work 75 44 1 "Other")
           sample_project sample_architecture 1 with_architecture _ _ with_architecture_reachable eq_refl eq_refl _ _ _).
  - rewrite (surjective_pairing (perform ada (replace_work 70 40 1 "Storefront") with_architecture)). by f_equal.
  - intros He. apply (f_equal (λ e, size (revisions e))) in He. by vm_compute in He.
  - reflexivity.
Defined.

(** Replacing the content of an active architecture from a version that is not its current one is
    answered with a version conflict that names the current version, and changes nothing. *)
Theorem stale_refused d project id user base ir source reason set e r a :
  estate_ok e → may_write e user project ARCHITECTURE_UPDATE r → holds e project id a →
  ar_status a = ARCHITECTURE_ACTIVE → ar_current_revision a ≠ base →
  architecture_replace d project id user base ir source reason set None e =
    (Raise (ArchitectureVersionConflict (JInt (ar_current_revision a))), e).
Proof.
  intros Hok Hmay Ha Hst Hbase. destruct (write_access_granted _ _ _ _ _ Hok Hmay) as [access Haccess].
  unfold architecture_replace, revise, unit_of_work, mbind at 1, io_bind at 1. rewrite Haccess.
  unfold mbind at 1, io_bind at 1. rewrite (get_architecture_held _ _ _ _ Ha).
  destruct Ha as (_ & _ & Hd). unfold Architecture_ensure_modifiable, Architecture_is_deleted, Architecture_is_archived.
  rewrite Hd, Hst. cbn. by apply Z.eqb_neq in Hbase as ->.
Qed.

Lemma stale_refused_witness :
  architecture_replace (sample_draws 75 44 "") sample_project sample_architecture ada 1 (sample_content "Other") BY_USER
    None None None with_revision = (Raise (ArchitectureVersionConflict (JInt 2)), with_revision).
Proof.
  apply (stale_refused _ _ _ _ _ _ _ _ _ with_revision sample_row sample_current).
  - apply (reachable_estate_ok sample_config), with_revision_reachable.
  - by apply sample_may.
  - exact sample_held.
  - reflexivity.
  - discriminate.
Defined.

(** C30: Replacing an architecture's content, when it returns, either found nothing to change, and says so
    and changes nothing; or it made the next version, which is the current one: getting the architecture
    returns it, with exactly the given content, its hash and its layout. *)
Theorem replace_read_back d project id user base ir source reason set e rd e' :
  estate_ok e → writable ir →
  architecture_replace d project id user base ir source reason set None e = (Ok rd, e') →
  if rd_created rd
  then architecture_get project id user e' = (Ok (rd_architecture rd, rd_revision rd, rd_layout rd), e') ∧
       rv_ir (rd_revision rd) = ir ∧ content_hash ir = Ok (rv_content_hash (rd_revision rd)) ∧
       rv_number (rd_revision rd) = (base + 1)%Z ∧ ar_current_revision (rd_architecture rd) = (base + 1)%Z
  else e' = e ∧ Diff.is_empty (Diff.diff (rv_ir (rd_revision rd)) ir) = true.
Proof.
  intros Hok Hw H. destruct (rd_created rd) eqn:Ec.
  - eapply revise_read in H as (Hget & Hn & Hc & a & l & parent & new & _ & _ & Hb & Hir & Hhash & _); [|done| | |done].
    + apply next_revision_ok in Hb as (_ & _ & _ & Hnew & Hcontent & _). rewrite Hnew, written_read in Hir by done.
      injection Hir as Hir. split_and!; congruence.
    + by intros a l e1 [_ ->]%ret_ok.
    + intros a l row parent new changes _ _ _ Hr Hb. exact (next_follows _ _ _ _ _ _ _ _ _ _ Hr Hb).
  - apply revise_ok in H; [|by apply ok_keyed|by intros a l e1 [_ ->]%ret_ok].
    destruct H as (r & a & l & prow & parent & _ & _ & _ & _ & _ & _ & _ & _ & _ & H).
    destruct (next_revision _ _ _ _ _ _) as [[new changes]|x] eqn:Eb; [by destruct H as (? & _); congruence|].
    destruct H as (Hx & -> & _ & _ & ->). split; [done|]. by eapply next_revision_unchanged.
Qed.

Lemma replace_read_back_witness :
  ∃ rd e', architecture_replace (sample_draws 75 44 "") sample_project sample_architecture ada 2 (sample_content "Other")
      BY_USER None None None with_revision = (Ok rd, e') ∧ rd_created rd = true ∧
    rv_ir (rd_revision rd) = sample_content "Other".
Proof.
  destruct (architecture_replace (sample_draws 75 44 "") sample_project sample_architecture ada 2 (sample_content "Other")
      BY_USER None None None with_revision) as [r e'] eqn:E.
  assert (match r with Ok rd => rd_created rd | Raise _ => false end = true) as Hr.
  { change r with (r, e').1. rewrite <- E. by vm_compute. }
  destruct r as [rd|]; [|discriminate Hr]. exists rd, e'. split; [reflexivity|]. split; [exact Hr|].
  pose proof (replace_read_back (sample_draws 75 44 "") sample_project sample_architecture ada 2 (sample_content "Other")
      BY_USER None None with_revision rd e' (reachable_estate_ok sample_config _ with_revision_reachable)
      other_writable E) as H. rewrite Hr in H. apply H.
Defined.
