(* ===== verification/Listing.v ===== *)
(** Listings page by page: following the cursors from the first page gives every row a query selects, each
    once and in order, however small the pages. *)
From Stdlib Require Import Lia ZArith.
From S2P Require Import Prelude Data Errors Computations Store Policy Identity Accounts Invariants Projects Revisions Estate ProjectService ArchitectureService.
From S2P Require Import Workspaces EstateInvariants EstateProperties ContentProperties.

(** * Sorting what is selected *)
Section sorting.
Context {A} (leb : A → A → bool) `{!TotalPreorder leb}.

Lemma insert_by_least x l : Forall (λ y, leb x y) l → insert_by leb x l = x :: l.
Proof using Type. destruct l as [|y l]; simpl; [done|]. intros [Hy _]%Forall_cons. by rewrite (Is_true_eq_true _ Hy). Qed.

Lemma filter_insert_by (P : A → Prop) `{!∀ x, Decision (P x)} x l :
  ordered_by leb l →
  filter P (insert_by leb x l) = if decide (P x) then insert_by leb x (filter P l) else filter P l.
Proof using TotalPreorder0.
  induction l as [|y l IH]; simpl; intros Ho; [by rewrite filter_cons|].
  apply StronglySorted_inv in Ho as [Ho Hle]. destruct (leb x y) eqn:Exy.
  - rewrite filter_cons. destruct (decide (P x)); [|done]. symmetry. apply insert_by_least.
    rewrite Forall_forall. intros z Hz. apply list_elem_of_filter in Hz as [_ Hz]. apply elem_of_cons in Hz as [->|Hz].
    + by rewrite Exy.
    + eapply leb_trans; [by rewrite Exy|]. rewrite Forall_forall in Hle. by apply Hle.
  - rewrite !filter_cons, IH by done. destruct (decide (P y)), (decide (P x)); simpl; by rewrite ?Exy.
Qed.

Lemma filter_sort_by (P : A → Prop) `{!∀ x, Decision (P x)} l :
  filter P (sort_by leb l) = sort_by leb (filter P l).
Proof using TotalPreorder0.
  induction l as [|x l IH]; simpl; [done|].
  rewrite filter_insert_by by (apply sort_by_ordered, _). rewrite IH, filter_cons. by destruct (decide (P x)).
Qed.
End sorting.

(** * Keyset pagination *)
Section keyset.
Context {A C} (key : A → C) (leb : C → C → bool) `{!TotalOrder leb}.

(** The rows after a position. *)
Definition beyond (c : C) (l : list A) : list A := filter (λ a, negb (leb (key a) c) = true) l.

Lemma beyond_split l1 x l2 :
  ordered_by (on key leb) (l1 ++ x :: l2) → NoDup (key <$> l1 ++ x :: l2) → beyond (key x) (l1 ++ x :: l2) = l2.
Proof using TotalOrder0.
  induction l1 as [|y l1 IH]; simpl; intros Ho Hn; apply StronglySorted_inv in Ho as [Ho Hle]; unfold beyond.
  - rewrite filter_cons, (Is_true_eq_true _ (leb_refl leb (key x))). simpl.
    apply NoDup_cons in Hn as [Hx _]. clear Ho. induction l2 as [|z l2 IH]; [done|].
    apply Forall_cons in Hle as [Hz Hle]. simpl in Hx. apply not_elem_of_cons in Hx as [Hne Hx].
    rewrite filter_cons. destruct (leb (key z) (key x)) eqn:E; simpl; [|f_equal; by apply IH].
    destruct Hne. apply (leb_antisym (leb := leb)); [exact Hz|]. by rewrite E.
  - apply NoDup_cons in Hn as [_ Hn]. rewrite filter_cons, (Is_true_eq_true (leb (key y) (key x))); simpl.
    + by apply IH.
    + rewrite Forall_forall in Hle. apply Hle. apply elem_of_app. right. left.
Qed.

(** A page that is full ends with the row its cursor is taken from. *)
Lemma last_of_page size (l : list A) :
  (1 ≤ size)%nat → (size < length l)%nat →
  ∃ init x rest, l = init ++ x :: rest ∧ take size l = init ++ [x].
Proof using Type.
  intros Hsize Hlt. destruct (lookup_lt_is_Some_2 l (size - 1)) as [x Hx]; [lia|].
  exists (take (size - 1) l), x, (drop size l). split.
  - rewrite <- (take_drop_middle l (size - 1) x Hx) at 1. do 3 f_equal. lia.
  - replace size with (S (size - 1)) at 1 by lia. by apply take_S_r.
Qed.

(** The pages from a cursor on, of a source that gives [size + 1] rows at most. *)
Fixpoint follow_pages (fuel : nat) (fetch : option C → Page A C) (after : option C) : list A :=
  match fuel with
  | O => []
  | S fuel => let page := fetch after in
              items page ++ (if next_cursor page is Some c then follow_pages fuel fetch (Some c) else [])
  end.

Definition from_position (after : option C) (l : list A) : list A :=
  match after with Some c => beyond c l | None => l end.

Lemma follow_rest size fetch l fuel after :
  (1 ≤ size)%nat → ordered_by (on key leb) l → NoDup (key <$> l) →
  (∀ c, fetch c = page_of size key (take (S size) (from_position c l))) →
  (∃ l1 l2, l = l1 ++ l2 ∧ from_position after l = l2) →
  (length (from_position after l) < fuel)%nat →
  follow_pages fuel fetch after = from_position after l.
Proof using TotalOrder0.
  intros Hsize Ho Hn Hfetch. revert after.
  induction fuel as [|fuel IH]; intros after (l1 & l2 & Hl & Hafter) Hfuel; [lia|]. cbn [follow_pages]. rewrite Hfetch, Hafter in *.
  unfold page_of. cbv zeta. rewrite take_take. replace (size `min` S size)%nat with size by lia. cbn [items next_cursor].
  destruct (Nat.leb_spec (length l2) size) as [Hle|Hlt].
  - rewrite (take_ge l2 size) by done. replace (size <? length (take (S size) l2))%nat with false; [by rewrite app_nil_r|].
    symmetry. apply Nat.ltb_ge. rewrite length_take. lia.
  - replace (size <? length (take (S size) l2))%nat with true by (symmetry; apply Nat.ltb_lt; rewrite length_take; lia).
    destruct (last_of_page size l2 Hsize Hlt) as (init & x & rest & -> & Htake). rewrite Htake, last_snoc. simpl.
    assert (from_position (Some (key x)) l = rest) as Hrest.
    { simpl. rewrite Hl, app_assoc in Ho, Hn |- *. by apply beyond_split. }
    rewrite IH, Hrest; [by rewrite <- app_assoc|..].
    + exists ((l1 ++ init) ++ [x]), rest. split; [|done]. by rewrite Hl, <- !app_assoc.
    + rewrite Hrest. rewrite length_app in Hfuel. simpl in Hfuel. lia.
Qed.

Lemma follow_all size fetch l fuel :
  (1 ≤ size)%nat → ordered_by (on key leb) l → NoDup (key <$> l) →
  (∀ c, fetch c = page_of size key (take (S size) (from_position c l))) → (length l < fuel)%nat →
  follow_pages fuel fetch None = l.
Proof using TotalOrder0.
  intros. change (follow_pages fuel fetch None = from_position None l). apply (follow_rest size); try done. by exists [], l.
Qed.
End keyset.

(** * Asking for every page *)
Fixpoint all_pages {W A C} (fuel : nat) (ask : option C → st W (Page A C)) (after : option C) : st W (list A) :=
  match fuel with
  | O => mret []
  | S fuel =>
      page ← ask after;
      match next_cursor page with
      | Some c => rest ← all_pages fuel ask (Some c); mret (items page ++ rest)
      | None => mret (items page)
      end
  end.

Lemma all_pages_follow {W A C} fuel (ask : option C → st W (Page A C)) fetch e after :
  (∀ c, ask c e = (Ok (fetch c), e)) → all_pages fuel ask after e = (Ok (follow_pages fuel fetch after), e).
Proof.
  intros Hask. revert after. induction fuel as [|fuel IH]; intros after; [done|]. cbn [all_pages follow_pages].
  unfold mbind, io_bind. rewrite Hask. destruct (next_cursor (fetch after)) as [c|]; [|by rewrite app_nil_r].
  by rewrite IH.
Qed.

(** The rows of a query from a position on are those of the query without one, from that position on. *)
Lemma where_beyond {A C} (key : A → C) (leb : C → C → bool) `{!TotalOrder leb} (P Q : A → bool) c m :
  (∀ a, P a = Q a && negb (leb (key a) c)) →
  sort_by (on key leb) (where_ P m) = beyond key leb c (sort_by (on key leb) (where_ Q m)).
Proof.
  intros HP. unfold beyond, where_. rewrite filter_sort_by by apply _. f_equal. rewrite list_filter_filter.
  apply list_filter_iff. intros a. rewrite HP, andb_true_iff. naive_solver.
Qed.

Definition flipped {C} (leb : C → C → bool) (p q : C) : bool := leb q p.

Lemma flipped_order {C} (leb : C → C → bool) : TotalOrder leb → TotalOrder (flipped leb).
Proof.
  intros H. split; [split|]; unfold flipped.
  - intros x y. destruct (leb_total (leb := leb) x y); auto.
  - intros x y z Hxy Hyz. by apply (leb_trans (leb := leb) z y x).
  - intros x y Hxy Hyx. by apply (leb_antisym (leb := leb) x y).
Qed.

(** The keys of selected rows differ when rows with the same key are one row. *)
Lemma NoDup_where {A C} (key : A → C) (P : A → bool) (m : gmap uuid A) :
  (∀ i j a b, m !! i = Some a → m !! j = Some b → P a = true → P b = true → key a = key b → i = j) →
  NoDup (key <$> where_ P m).
Proof.
  intros Hkey. assert (key <$> where_ P m = (λ p, key p.2) <$> selected P m) as ->.
  { unfold where_, rows, selected. induction (sort_by _ _) as [|p l IH]; [done|].
    cbn [fmap list_fmap]. rewrite !filter_cons. destruct (decide (P p.2 = true)); [cbn [fmap list_fmap]; f_equal|]; exact IH. }
  apply NoDup_fmap_2_strong; [|apply NoDup_selected].
  intros [i a] [j b] Hi Hj Heq. unfold selected in Hi, Hj.
  apply list_elem_of_filter in Hi as [Ha Hi], Hj as [Hb Hj].
  rewrite elem_of_sort_by, elem_of_map_to_list in Hi, Hj. simpl in *.
  assert (i = j) as -> by eauto. congruence.
Qed.

Lemma length_where_le {A} (P : A → bool) (m : gmap uuid A) : (length (where_ P m) ≤ size m)%nat.
Proof.
  unfold where_. etrans; [apply length_filter|]. unfold rows. rewrite length_fmap, length_sort_by.
  by rewrite length_map_to_list.
Qed.

(** ** Architectures *)
Definition architecture_position (a : Architecture) : instant * uuid := (ar_created_at a, ar_id a).
Definition earlier : (instant * uuid) → (instant * uuid) → bool := flipped (lex Z_leb str_leb).

#[export] Instance earlier_order : TotalOrder earlier.
Proof. apply flipped_order, _. Qed.

(** The query of a listing, wherever it starts. *)
Definition whole_query (status : option ArchitectureStatus) (search : option string) (after : option (instant * uuid))
    (limit : nat) : ArchitectureQuery := {|
  aq_status := status; aq_search := s ← search; if String.eqb (strip s) "" then None else Some (strip s);
  aq_after := after; aq_limit := limit |}.

(** Every architecture of the project the query selects, the newest first. *)
Definition selected_architectures (project : uuid) (status : option ArchitectureStatus) (search : option string)
    (e : estate) : list Architecture :=
  sort_by newest_leb (where_ (listed project (whole_query status search None 0)) (architectures e)).

Lemma str_ltb_leb a b : String.ltb a b = negb (str_leb b a).
Proof.
  unfold String.ltb, str_leb, String.leb. rewrite String.compare_antisym. by destruct (String.compare b a).
Qed.

Lemma listed_beyond project status search c limit a :
  listed project (whole_query status search (Some c) limit) a =
  listed project (whole_query status search None 0) a && negb (earlier (architecture_position a) c).
Proof.
  unfold listed, whole_query. cbn [aq_status aq_search aq_after]. rewrite andb_true_r. f_equal. destruct c as [t id].
  unfold earlier, flipped, lex, Z_leb. simpl. rewrite str_ltb_leb.
  destruct (Z.ltb_spec (ar_created_at a) t), (Z.eqb_spec (ar_created_at a) t), (Z.leb_spec t (ar_created_at a)),
    (Z.leb_spec (ar_created_at a) t); try lia; simpl; by rewrite ?andb_true_r, ?orb_false_r.
Qed.

Lemma architectures_ordered project status search e :
  ordered_by (on architecture_position earlier) (selected_architectures project status search e).
Proof. apply (sort_by_ordered (on architecture_position earlier)). Qed.

Lemma architectures_distinct project status search e :
  keyed e → NoDup (architecture_position <$> selected_architectures project status search e).
Proof.
  intros [_ Hk]. unfold selected_architectures. rewrite (sort_by_perm newest_leb).
  apply NoDup_where. intros i j a b Hi Hj _ _ [= _ Hid]. by rewrite <- (Hk _ _ Hi), <- (Hk _ _ Hj).
Qed.

(** One page, as a page of the whole listing. *)
Lemma architecture_list_page user project status search limit r e after :
  estate_ok e → may e user project ARCHITECTURE_READ r →
  architecture_list project user status search after limit e =
    (Ok (page_of (page_size limit) architecture_position
           (take (S (page_size limit))
              (from_position architecture_position earlier after (selected_architectures project status search e)))), e).
Proof.
  intros Hok (m & Hs & Hp). destruct (read_access _ _ _ _ _ _ Hok Hs Hp) as [access Haccess].
  assert (sort_by newest_leb (where_ (listed project (whole_query status search after (S (page_size limit)))) (architectures e)) =
          from_position architecture_position earlier after (selected_architectures project status search e)) as <-.
  { destruct after as [c|]; [|done]. apply (where_beyond architecture_position earlier). intros a.
    exact (listed_beyond project status search c (S (page_size limit)) a). }
  unfold architecture_list. cbv zeta. unfold mbind at 1, io_bind at 1, unit_of_work, mbind at 1, io_bind at 1.
  by rewrite Haccess.
Qed.

Lemma page_size_pos limit : (1 ≤ page_size limit)%nat.
Proof. unfold page_size, MAX_PAGE_SIZE. lia. Qed.

(** ** Revisions *)
Definition later_number : Z → Z → bool := flipped Z_leb.

#[export] Instance later_number_order : TotalOrder later_number.
Proof. apply flipped_order, _. Qed.

Definition revisions_of (id : uuid) (e : estate) : list RevisionRow :=
  sort_by number_geb (where_ (λ r, bool_decide (rr_architecture_id r = id) && true) (revisions e)).

(** The summaries of an architecture's revisions, the latest first. *)
Definition history_of (id : uuid) (e : estate) : list RevisionSummary := to_summary <$> revisions_of id e.

(** A page of a history. *)
Definition history_page (project id user : uuid) (limit : Z) (before : option Z) : st estate (Page RevisionSummary Z) :=
  found ← architecture_history project id user before limit; mret found.2.

Lemma beyond_summary n l :
  beyond rs_number later_number n (to_summary <$> l) = to_summary <$> beyond rr_number later_number n l.
Proof.
  unfold beyond. induction l as [|r l IH]; [done|]. cbn [fmap list_fmap]. rewrite !filter_cons. cbn [rs_number to_summary].
  destruct (decide _); [cbn [fmap list_fmap]; f_equal|]; exact IH.
Qed.

Lemma listed_revisions e id before size :
  architectures_list_revisions id before size e =
    (Ok (take size (from_position rs_number later_number before (history_of id e))), e).
Proof.
  unfold architectures_list_revisions, query, history_of. do 2 f_equal. rewrite fmap_take.
  destruct before as [n|]; [|done]. cbn [from_position]. rewrite beyond_summary. do 2 f_equal.
  apply (where_beyond rr_number later_number). intros r. rewrite andb_true_r. f_equal.
  unfold later_number, flipped, Z_leb. apply Z.ltb_antisym.
Qed.

Lemma history_page_of user project id limit r a e before :
  estate_ok e → may e user project ARCHITECTURE_READ r → holds e project id a →
  history_page project id user limit before e =
    (Ok (page_of (page_size limit) rs_number
           (take (S (page_size limit)) (from_position rs_number later_number before (history_of id e)))), e).
Proof.
  intros Hok (m & Hs & Hp) Ha. destruct (read_access _ _ _ _ _ _ Hok Hs Hp) as [access Haccess].
  pose proof (proj2 (ok_keyed e Hok) _ _ (proj1 Ha)) as Hid.
  unfold history_page, architecture_history. cbv zeta. unfold mbind, io_bind, unit_of_work.
  by rewrite Haccess, (get_architecture_held _ _ _ _ Ha), Hid, listed_revisions.
Qed.

Lemma history_ordered id e : ordered_by (on rs_number later_number) (history_of id e).
Proof.
  eapply (ordered_by_fmap (on rr_number later_number)); [done|].
  apply (sort_by_ordered (on rr_number later_number)).
Qed.

Lemma elem_of_revisions_of id e r : r ∈ revisions_of id e ↔ ∃ n, revision_at e id n r.
Proof.
  unfold revisions_of, revision_at. rewrite elem_of_sort_by, elem_of_where, andb_true_r, bool_decide_eq_true.
  split; [intros (Hr & i & Hi); by exists (rr_number r), i|intros (n & i & Hi & Hr & _); split; [done|by exists i]].
Qed.

Lemma history_distinct id e : estate_ok e → NoDup (rs_number <$> history_of id e).
Proof.
  intros Hok. unfold history_of. rewrite <- list_fmap_compose. change (rs_number ∘ to_summary) with rr_number.
  unfold revisions_of. rewrite (sort_by_perm number_geb). apply NoDup_where.
  intros i j a b Hi Hj Ha Hb Hn. rewrite andb_true_r, bool_decide_eq_true in Ha, Hb.
  eapply (ok_numbers e Hok); try done. congruence.
Qed.

(** ** Projects *)
Section projects.
Context (collate : string → string → bool) `{!TotalOrder collate}.

#[local] Instance value_order : TotalOrder (value_leb collate).
Proof.
  split; [split|].
  - intros [t|x] [u|y]; simpl; auto; [apply (leb_total (leb := Z_leb))|apply (leb_total (leb := collate))].
  - intros [t|x] [u|y] [v|z]; simpl; try done;
      [apply (leb_trans (leb := Z_leb))|apply (leb_trans (leb := collate))].
  - intros [t|x] [u|y]; simpl; try done; intros H1 H2; f_equal;
      [by apply (leb_antisym (leb := Z_leb))|by apply (leb_antisym (leb := collate))].
Qed.

Definition cursor_leb (sort : ProjectSort) (a b : ProjectCursor) : bool :=
  place_leb collate sort (pc_value a, pc_id a) (pc_value b, pc_id b).

#[local] Instance cursor_order sort : TotalOrder (cursor_leb sort).
Proof.
  assert (TotalOrder (place_leb collate sort)) as H.
  { destruct sort; [apply (flipped_order (lex (value_leb collate) str_leb)), _..|apply (lex_order (value_leb collate) str_leb); apply _]. }
  split; [split|]; unfold cursor_leb.
  - intros [v i] [w j]. apply leb_total.
  - intros [v i] [w j] [x k]. apply leb_trans.
  - intros [v i] [w j] H1 H2. simpl in *. by pose proof (leb_antisym _ _ H1 H2) as [= -> ->].
Qed.

Definition row_position (sort : ProjectSort) (r : ProjectRow) : ProjectCursor :=
  {| pc_value := sort_key sort r; pc_id := pr_id r |}.

(** The rows of a query, wherever it starts. *)
Definition query_from (q : ProjectQuery) (after : option ProjectCursor) : ProjectQuery := {|
  pq_status := pq_status q; pq_search := pq_search q; pq_sort := pq_sort q; pq_after := after;
  pq_limit := pq_limit q |}.

Definition selected_rows (organization : uuid) (q : ProjectQuery) (e : estate) : list ProjectRow :=
  sort_by (on (row_position (pq_sort q)) (cursor_leb (pq_sort q)))
    (where_ (listed_project collate organization (query_from q None)) (projects e)).

Lemma listed_project_beyond organization q c r :
  listed_project collate organization (query_from q (Some c)) r =
  listed_project collate organization (query_from q None) r
  && negb (cursor_leb (pq_sort q) (row_position (pq_sort q) r) c).
Proof using Type. unfold listed_project, query_from. cbn [pq_status pq_search pq_after pq_sort]. by rewrite andb_true_r. Qed.

Lemma rows_distinct organization q e :
  keyed e → NoDup (row_position (pq_sort q) <$> selected_rows organization q e).
Proof using Type.
  intros [Hk _]. unfold selected_rows. rewrite (sort_by_perm (on _ _)). apply NoDup_where.
  intros i j a b Hi Hj _ _ [= _ Hid]. by rewrite <- (Hk _ _ Hi), <- (Hk _ _ Hj).
Qed.

Lemma cursor_read sort r p : to_project r = Ok p → cursor_for sort p = row_position sort r.
Proof using Type. unfold to_project. intros H. py_inv. by destruct sort. Qed.

Lemma cursors_read sort l ps :
  Forall2 (λ r p, to_project r = Ok p) l ps → cursor_for sort <$> ps = row_position sort <$> l.
Proof using Type. induction 1 as [|r p l ps Hr _ IH]; [done|]. cbn [fmap list_fmap]. f_equal; [by apply cursor_read|exact IH]. Qed.

Lemma beyond_read sort c l ps :
  Forall2 (λ r p, to_project r = Ok p) l ps →
  Forall2 (λ r p, to_project r = Ok p) (beyond (row_position sort) (cursor_leb sort) c l)
    (beyond (cursor_for sort) (cursor_leb sort) c ps).
Proof using Type.
  unfold beyond. induction 1 as [|r p l ps Hr _ IH]; [done|]. rewrite !filter_cons, (cursor_read _ _ _ Hr).
  destruct (decide _); [by constructor|done].
Qed.

Lemma rows_readable organization q e :
  estate_ok e → ∃ ps, Forall2 (λ r p, to_project r = Ok p) (selected_rows organization q e) ps.
Proof using Type.
  intros Hok. assert (∀ r, r ∈ selected_rows organization q e → is_ok (to_project r) = true) as Hall.
  { intros r Hr. unfold selected_rows in Hr. rewrite elem_of_sort_by, elem_of_where in Hr. destruct Hr as (_ & id & Hid).
    exact (pw_readable r (ok_projects e Hok id r Hid)). }
  induction (selected_rows organization q e) as [|r l IH]; [by exists []|].
  destruct IH as [ps Hps]; [intros s Hs; apply Hall; by right|].
  pose proof (Hall r ltac:(left)) as Hr. destruct (to_project r) as [p|] eqn:E; [|done]. exists (p :: ps). by constructor.
Qed.

Lemma project_list_page membership q e ps after :
  has_permission (m_role membership) PROJECT_READ = true →
  Forall2 (λ r p, to_project r = Ok p) (selected_rows (m_organization_id membership) q e) ps →
  project_list collate membership (query_from q after) e =
    (Ok (page_of (page_size (pq_limit q)) (cursor_for (pq_sort q))
           (take (S (page_size (pq_limit q)))
              (from_position (cursor_for (pq_sort q)) (cursor_leb (pq_sort q)) after ps))), e).
Proof using All.
  intros Hp Hps. unfold project_list, allowed. rewrite Hp. unfold mbind, io_bind, raise_when. cbv zeta.
  cbn [negb query_from pq_limit pq_sort pq_after pq_status pq_search]. unfold mret at 1, io_ret at 1, unit_of_work, projects_list_for_organization.
  unfold mbind, io_bind, query. cbn [pq_limit pq_sort]. rewrite Nat2Z.id.
  match goal with |- context [sort_by ?leb (where_ ?P ?m)] =>
    assert (sort_by leb (where_ P m) =
      from_position (row_position (pq_sort q)) (cursor_leb (pq_sort q)) after
        (selected_rows (m_organization_id membership) q e)) as -> end.
  { destruct after as [c|]; [|done].
    apply (where_beyond (row_position (pq_sort q)) (cursor_leb (pq_sort q))). intros r.
    exact (listed_project_beyond (m_organization_id membership) q c r). }
  assert (Forall2 (λ r p, to_project r = Ok p)
    (from_position (row_position (pq_sort q)) (cursor_leb (pq_sort q)) after (selected_rows (m_organization_id membership) q e))
    (from_position (cursor_for (pq_sort q)) (cursor_leb (pq_sort q)) after ps)) as Hfrom
    by (destruct after; [by apply beyond_read|done]).
  apply (Forall2_take _ _ _ (S (page_size (pq_limit q)))), py_map_ok in Hfrom. unfold lift. by rewrite Hfrom.
Qed.
End projects.

Lemma ordered_by_on {A C} (key : A → C) (leb : C → C → bool) l :
  ordered_by leb (key <$> l) → ordered_by (on key leb) l.
Proof.
  induction l as [|a l IH]; intros H; [constructor|]. apply StronglySorted_inv in H as [H Ha].
  constructor; [by apply IH|]. rewrite Forall_forall. intros b Hb.
  apply (proj1 (Forall_forall _ _) Ha). by apply list_elem_of_fmap_2.
Qed.

Lemma cursors_ordered collate sort `{!TotalOrder collate} organization q e ps :
  pq_sort q = sort →
  Forall2 (λ r p, to_project r = Ok p) (selected_rows collate organization q e) ps →
  ordered_by (on (cursor_for sort) (cursor_leb collate sort)) ps.
Proof.
  intros <- Hps. apply ordered_by_on. rewrite (cursors_read _ _ _ Hps).
  eapply (ordered_by_fmap (on (row_position (pq_sort q)) (cursor_leb collate (pq_sort q)))); [done|].
  pose proof (cursor_order collate (pq_sort q)) as Ho.
  apply (sort_by_ordered (on (row_position (pq_sort q)) (cursor_leb collate (pq_sort q)))).
Qed.

(** * The sample, with a second architecture *)
Definition with_two : estate :=
  ask 90 ada (CreateArchitecture (sample_draws 90 70 "") sample_project "Billing" "" None BY_USER None None) with_revision.

Lemma with_two_reachable : reachable_estate sample_config with_two.
Proof. apply ask_reachable, with_revision_reachable. Qed.

Lemma sample_two_ok : estate_ok with_two.
Proof. apply (reachable_estate_ok sample_config), with_two_reachable. Qed.

Lemma sample_two_reads : may with_two ada sample_project ARCHITECTURE_READ sample_row.
Proof.
  exists sample_membership. split; [|by vm_compute]. split_and!; [by vm_compute|done| |by vm_compute].
  destruct (organizations (accounts with_two) !! sample_id 7) as [o|] eqn:E; [|by vm_compute in E].
  exists o. split; [exact E|]. revert E. vm_compute. by intros [= <-].
Qed.

(** * The theorems *)

(** Whoever may read a project and asks for its architectures page by page, following the cursors, gets
    every architecture the status and the search select, each exactly once, the newest first, whatever the
    page size; and nothing changes. *)
Theorem architectures_listed user project status search limit r e fuel :
  estate_ok e → may e user project ARCHITECTURE_READ r → (size (architectures e) < fuel)%nat →
  all_pages fuel (λ after, architecture_list project user status search after limit) None e =
    (Ok (selected_architectures project status search e), e).
Proof.
  intros Hok Hmay Hfuel. erewrite all_pages_follow by (intros after; by eapply architecture_list_page).
  do 2 f_equal. apply (follow_all architecture_position earlier (page_size limit)); try done.
  - apply page_size_pos.
  - apply architectures_ordered.
  - apply architectures_distinct, ok_keyed, Hok.
  - unfold selected_architectures. rewrite length_sort_by. eapply Nat.le_lt_trans; [apply length_where_le|done].
Qed.

Lemma architectures_listed_witness :
  (all_pages 3 (λ after, architecture_list sample_project ada None None after 1) None with_two).1 =
    Ok (selected_architectures sample_project None None with_two) ∧
  ar_name <$> selected_architectures sample_project None None with_two = ["Billing"; "Shop"].
Proof.
  split; [|by vm_compute].
  rewrite (architectures_listed ada sample_project None None 1 sample_row with_two 3 sample_two_ok sample_two_reads);
    [reflexivity|vm_compute; lia].
Defined.

(** Whoever may read a project and asks for the history of one of its architectures page by page gets
    the summary of every revision from the current one down to the first, each exactly once. *)
Theorem history_listed user project id limit r a e fuel :
  estate_ok e → may e user project ARCHITECTURE_READ r → holds e project id a → (size (revisions e) < fuel)%nat →
  all_pages fuel (history_page project id user limit) None e = (Ok (history_of id e), e) ∧
  NoDup (rs_number <$> history_of id e) ∧ ordered_by later_number (rs_number <$> history_of id e) ∧
  ∀ n, n ∈ rs_number <$> history_of id e ↔ (1 ≤ n ≤ ar_current_revision a)%Z.
Proof.
  intros Hok Hmay Ha Hfuel. split_and!.
  - erewrite all_pages_follow by (intros before; by eapply history_page_of). do 2 f_equal.
    apply (follow_all rs_number later_number (page_size limit)); try done.
    + apply page_size_pos.
    + apply history_ordered.
    + by apply history_distinct.
    + unfold history_of, revisions_of. rewrite length_fmap, length_sort_by.
      eapply Nat.le_lt_trans; [apply length_where_le|done].
  - by apply history_distinct.
  - eapply (ordered_by_fmap (on rs_number later_number)); [done|apply history_ordered].
  - intros n. unfold history_of. rewrite <- list_fmap_compose. change (rs_number ∘ to_summary) with rr_number.
    rewrite list_elem_of_fmap. split.
    + intros (v & -> & (m & i & Hi & Hv & _)%elem_of_revisions_of).
      destruct (rw_owner _ _ _ (ok_revisions e Hok i v Hi)) as (b & Hb & _ & Hn). rewrite Hv, (proj1 Ha) in Hb. by simplify_eq.
    + intros Hn. destruct (ok_history e Hok id a n (proj1 Ha) Hn) as (v & i & Hi & Hv & Hnum). exists v.
      split; [done|]. apply elem_of_revisions_of. by exists n, i.
Qed.

Lemma history_listed_witness :
  (all_pages 4 (history_page sample_project sample_architecture ada 1) None with_two).1 =
    Ok (history_of sample_architecture with_two) ∧
  rs_number <$> history_of sample_architecture with_two = [2%Z; 1%Z].
Proof.
  split; [|by vm_compute].
  destruct (history_listed ada sample_project sample_architecture 1 sample_row sample_current with_two 4 sample_two_ok
              sample_two_reads) as [-> _]; [split_and!; by vm_compute|vm_compute; lia|reflexivity].
Defined.

(** Whoever may read an organization's projects and asks for them page by page, in any of the three
    orders, gets every live project the status and the search select, each exactly once and in that order,
    whatever total order the database has for names; and nothing changes. *)
Theorem projects_listed collate `{!TotalOrder collate} membership q e fuel :
  estate_ok e → has_permission (m_role membership) PROJECT_READ = true → (size (projects e) < fuel)%nat →
  ∃ ps, Forall2 (λ r p, to_project r = Ok p) (selected_rows collate (m_organization_id membership) q e) ps ∧
    all_pages fuel (λ after, project_list collate membership (query_from q after)) None e = (Ok ps, e).
Proof.
  intros Hok Hp Hfuel. destruct (rows_readable collate (m_organization_id membership) q e Hok) as [ps Hps].
  exists ps. split; [done|]. erewrite all_pages_follow by (intros after; by eapply project_list_page).
  pose proof (cursor_order collate (pq_sort q)) as Ho. do 2 f_equal.
  apply (follow_all (cursor_for (pq_sort q)) (cursor_leb collate (pq_sort q)) (page_size (pq_limit q))); try done.
  - apply page_size_pos.
  - by eapply cursors_ordered.
  - rewrite (cursors_read _ _ _ Hps). apply rows_distinct, ok_keyed, Hok.
  - rewrite <- (Forall2_length _ _ _ Hps). unfold selected_rows. rewrite length_sort_by.
    eapply Nat.le_lt_trans; [apply length_where_le|done].
Qed.

Lemma projects_listed_witness :
  ∃ ps, all_pages 2 (λ after, project_list str_leb sample_membership
      (query_from {| pq_status := None; pq_search := None; pq_sort := BY_NAME; pq_after := None; pq_limit := 1 |} after))
      None with_two = (Ok ps, with_two) ∧ length ps = 1.
Proof.
  destruct (projects_listed str_leb sample_membership
    {| pq_status := None; pq_search := None; pq_sort := BY_NAME; pq_after := None; pq_limit := 1 |} with_two 2
    sample_two_ok eq_refl) as (ps & Hps & H); [vm_compute; lia|].
  exists ps. split; [exact H|]. rewrite <- (Forall2_length _ _ _ Hps). by vm_compute.
Defined.
