(* ===== verification/Requirements.v ===== *)
(** Requirements, as a validation reads them (src/core/domain/requirements: enums.py, value_objects.py,
    entities.py): what a requirement says, the structured constraint it may carry, and how a stored constraint
    is read.

    A number that is not whole is the decimal of its shortest text. Of a requirement, its source, confidence,
    author and origin are left out: no validation reads them. *)
From Stdlib Require Import Ascii ZArith.
From S2P Require Import Prelude Data Errors Codecs Values Traceability.

Definition InvalidRequirement (field reason : string) : exn :=
  DomainError "invalid_requirement" "The requirement is invalid." [("field", JStr field); ("reason", JStr reason)].

(** * Vocabulary *)
Inductive RequirementType :=
  | TYPE_FUNCTIONAL | TYPE_NON_FUNCTIONAL | TYPE_CAPACITY | TYPE_PERFORMANCE | TYPE_AVAILABILITY | TYPE_RELIABILITY
  | TYPE_SECURITY | TYPE_DATA | TYPE_COMPLIANCE | TYPE_OPERATIONAL | TYPE_COST.

#[export] Instance RequirementType_eq_dec : EqDecision RequirementType.
Proof. solve_decision. Defined.

#[export, refine] Instance RequirementType_enum : StrEnum RequirementType := {
  members := [TYPE_FUNCTIONAL; TYPE_NON_FUNCTIONAL; TYPE_CAPACITY; TYPE_PERFORMANCE; TYPE_AVAILABILITY; TYPE_RELIABILITY;
              TYPE_SECURITY; TYPE_DATA; TYPE_COMPLIANCE; TYPE_OPERATIONAL; TYPE_COST];
  value t := match t with
             | TYPE_FUNCTIONAL => "functional" | TYPE_NON_FUNCTIONAL => "non_functional" | TYPE_CAPACITY => "capacity"
             | TYPE_PERFORMANCE => "performance" | TYPE_AVAILABILITY => "availability"
             | TYPE_RELIABILITY => "reliability" | TYPE_SECURITY => "security" | TYPE_DATA => "data"
             | TYPE_COMPLIANCE => "compliance" | TYPE_OPERATIONAL => "operational" | TYPE_COST => "cost"
             end;
}.
Proof. all: solve_enum. Defined.

Inductive RequirementStatus := REQUIREMENT_DRAFT | REQUIREMENT_ACTIVE | REQUIREMENT_SATISFIED | REQUIREMENT_INVALID | REQUIREMENT_DEPRECATED.

#[export] Instance RequirementStatus_eq_dec : EqDecision RequirementStatus.
Proof. solve_decision. Defined.

#[export, refine] Instance RequirementStatus_enum : StrEnum RequirementStatus := {
  members := [REQUIREMENT_DRAFT; REQUIREMENT_ACTIVE; REQUIREMENT_SATISFIED; REQUIREMENT_INVALID; REQUIREMENT_DEPRECATED];
  value s := match s with
             | REQUIREMENT_DRAFT => "draft" | REQUIREMENT_ACTIVE => "active" | REQUIREMENT_SATISFIED => "satisfied"
             | REQUIREMENT_INVALID => "invalid" | REQUIREMENT_DEPRECATED => "deprecated"
             end;
}.
Proof. all: solve_enum. Defined.

Definition IN_FORCE : list RequirementStatus := [REQUIREMENT_ACTIVE; REQUIREMENT_SATISFIED].

Inductive RequirementPriority := PRIORITY_CRITICAL | PRIORITY_HIGH | PRIORITY_MEDIUM | PRIORITY_LOW.

#[export] Instance RequirementPriority_eq_dec : EqDecision RequirementPriority.
Proof. solve_decision. Defined.

#[export, refine] Instance RequirementPriority_enum : StrEnum RequirementPriority := {
  members := [PRIORITY_CRITICAL; PRIORITY_HIGH; PRIORITY_MEDIUM; PRIORITY_LOW];
  value p := match p with
             | PRIORITY_CRITICAL => "critical" | PRIORITY_HIGH => "high" | PRIORITY_MEDIUM => "medium"
             | PRIORITY_LOW => "low"
             end;
}.
Proof. all: solve_enum. Defined.

Inductive RequirementScope :=
  | SCOPE_SYSTEM | SCOPE_SERVICE | SCOPE_API | SCOPE_DATABASE | SCOPE_QUEUE | SCOPE_USER | SCOPE_REGION | SCOPE_DATA.

#[export] Instance RequirementScope_eq_dec : EqDecision RequirementScope.
Proof. solve_decision. Defined.

#[export, refine] Instance RequirementScope_enum : StrEnum RequirementScope := {
  members := [SCOPE_SYSTEM; SCOPE_SERVICE; SCOPE_API; SCOPE_DATABASE; SCOPE_QUEUE; SCOPE_USER; SCOPE_REGION; SCOPE_DATA];
  value s := match s with
             | SCOPE_SYSTEM => "system" | SCOPE_SERVICE => "service" | SCOPE_API => "api"
             | SCOPE_DATABASE => "database" | SCOPE_QUEUE => "queue" | SCOPE_USER => "user"
             | SCOPE_REGION => "region" | SCOPE_DATA => "data"
             end;
}.
Proof. all: solve_enum. Defined.

(** * Numbers *)

(** The digits a text starts with, and what follows them. *)
Fixpoint leading_digits (l : list ascii) : list ascii * list ascii :=
  match l with
  | c :: r => if is_digit c then let '(digits, rest) := leading_digits r in (c :: digits, rest) else ([], l)
  | [] => ([], [])
  end.

Definition number_of (digits : list ascii) : Z :=
  foldl (λ n c, (10 * n + Z.of_nat (code c - 48))%Z) 0%Z digits.

(** An optional sign. *)
Definition signed (l : list ascii) : Z * list ascii :=
  match l with
  | "-"%char :: r => ((-1)%Z, r)
  | "+"%char :: r => (1%Z, r)
  | _ => (1%Z, l)
  end.

(** The exponent, when there is one, up to the end. *)
Definition exponent_of (l : list ascii) : option Z :=
  match l with
  | [] => Some 0%Z
  | c :: r =>
      if one_of "eE" c then
        let '(sign, r) := signed r in
        match leading_digits r with
        | ((_ :: _) as digits, []) => Some (sign * number_of digits)%Z
        | _ => None
        end
      else None
  end.

(** [Decimal(text)]: underscores are dropped; [None] where it raises. *)
Definition decimal_of_text (s : string) : option dec :=
  let '(sign, l) := signed (filter (λ c, c ≠ "_"%char) (chars_of (strip s))) in
  let word := lower (text_of l) in
  if bool_decide (word ∈ ["inf"; "infinity"]) then Some (DInf (sign <? 0)%Z)
  else
    match chars_of word with
    | "n"%char :: "a"%char :: "n"%char :: rest | "s"%char :: "n"%char :: "a"%char :: "n"%char :: rest =>
        if forallb is_digit rest then Some DNaN else None
    | _ =>
        let '(whole, rest) := leading_digits l in
        let '(fraction, rest) := match rest with "."%char :: r => leading_digits r | _ => ([], rest) end in
        match whole ++ fraction with
        | [] => None
        | digits => e ← exponent_of rest; Some (DFin (sign * number_of digits) (e - Z.of_nat (length fraction)))
        end
    end.

Definition not_a_number (field : string) : exn := InvalidRequirement field "not_a_number".

(** A finite number with at most nine decimal places, below 10^15. *)
Definition parse_decimal (raw : json) (field : string) : py dec :=
  value ← match raw with
          | JDec d => Ok d
          | JInt z => Ok (dec_of_Z z)
          | JStr s => match decimal_of_text s with Some d => Ok d | None => Raise (not_a_number field) end
          | _ => Raise (not_a_number field)
          end;
  if negb (is_finite value) then Raise (not_a_number field)
  else if negb (dec_ltb (dec_abs value) MAX_MAGNITUDE) then Raise (InvalidRequirement field "out_of_range")
  else if (MAX_DECIMAL_PLACES <? decimal_places value)%Z then Raise (InvalidRequirement field "too_precise")
  else Ok (normalize value).

(** * Units *)
Inductive Dimension :=
  | DIM_RATE | DIM_ORDER_RATE | DIM_COUNT | DIM_DURATION | DIM_RATIO | DIM_DATA_SIZE | DIM_MONEY_PER_MONTH.

Record Unit := { un_symbol : string; un_dimension : Dimension; un_factor : Z; un_divisor : Z }.

Definition unit_by (symbol : string) (dimension : Dimension) (factor divisor : Z) : Unit :=
  {| un_symbol := symbol; un_dimension := dimension; un_factor := factor; un_divisor := divisor |}.

Definition UNITS : list Unit := [
  unit_by "requests/second" DIM_RATE 1 1; unit_by "requests/minute" DIM_RATE 1 60;
  unit_by "requests/hour" DIM_RATE 1 3600; unit_by "requests/day" DIM_RATE 1 86400;
  unit_by "orders/second" DIM_ORDER_RATE 1 1; unit_by "orders/minute" DIM_ORDER_RATE 1 60;
  unit_by "orders/hour" DIM_ORDER_RATE 1 3600; unit_by "orders/day" DIM_ORDER_RATE 1 86400;
  unit_by "users" DIM_COUNT 1 1;
  unit_by "ms" DIM_DURATION 1 1; unit_by "s" DIM_DURATION 1000 1; unit_by "min" DIM_DURATION 60000 1;
  unit_by "h" DIM_DURATION 3600000 1; unit_by "d" DIM_DURATION 86400000 1;
  unit_by "ratio" DIM_RATIO 1 1; unit_by "%" DIM_RATIO 1 100;
  unit_by "B" DIM_DATA_SIZE 1 1; unit_by "KB" DIM_DATA_SIZE (10 ^ 3) 1; unit_by "MB" DIM_DATA_SIZE (10 ^ 6) 1;
  unit_by "GB" DIM_DATA_SIZE (10 ^ 9) 1; unit_by "TB" DIM_DATA_SIZE (10 ^ 12) 1; unit_by "PB" DIM_DATA_SIZE (10 ^ 15) 1].

(** [^[A-Z]{3}/month$] *)
Definition MONEY_UNIT (s : string) : bool :=
  match chars_of s with
  | a :: b :: c :: rest => is_upper a && is_upper b && is_upper c && String.eqb (text_of rest) "/month"
  | _ => false
  end.

Definition unit_for (symbol : json) : py Unit :=
  match symbol with
  | JStr s =>
      let s := strip s in
      match list_find (λ u, un_symbol u = s) UNITS with
      | Some (_, u) => Ok u
      | None => if MONEY_UNIT s then Ok (unit_by s DIM_MONEY_PER_MONTH 1 1)
                else Raise (InvalidRequirement "structured_data.unit" "unknown_unit")
      end
  | _ => Raise (InvalidRequirement "structured_data.unit" "not_a_string")
  end.

(** A finite decimal times and over a whole number, to the precision of the context. The quotient is taken with
    two digits more than that, the last of which tells whether something is left; trailing zeros do not matter. *)
Definition dec_times (d : dec) (n : Z) : dec :=
  match d with DFin c e => let '(c, e) := fix_dec DEFAULT_PRECISION (c * n) e in DFin c e | _ => d end.

Definition dec_over (d : dec) (n : Z) : dec :=
  match d with
  | DFin c e =>
      let shift := Z.max 0 (digits n - digits c + DEFAULT_PRECISION + 1)%Z in
      let q := (Z.abs c * pow10 shift / n)%Z in
      let q := if (Z.abs c * pow10 shift mod n =? 0)%Z || negb (q mod 5 =? 0)%Z then q else (q + 1)%Z in
      let '(q, e) := fix_dec DEFAULT_PRECISION (Z.sgn c * q) (e - shift) in DFin q e
  | _ => d
  end.

Definition to_canonical (u : Unit) (value : dec) : dec := dec_over (dec_times value (un_factor u)) (un_divisor u).

(** * The structured constraint *)
Inductive Operator := OP_AT_LEAST | OP_MORE_THAN | OP_AT_MOST | OP_LESS_THAN | OP_EQUALS | OP_BETWEEN | OP_ONE_OF.

#[export] Instance Operator_eq_dec : EqDecision Operator.
Proof. solve_decision. Defined.

#[export, refine] Instance Operator_enum : StrEnum Operator := {
  members := [OP_AT_LEAST; OP_MORE_THAN; OP_AT_MOST; OP_LESS_THAN; OP_EQUALS; OP_BETWEEN; OP_ONE_OF];
  value o := match o with
             | OP_AT_LEAST => ">=" | OP_MORE_THAN => ">" | OP_AT_MOST => "<=" | OP_LESS_THAN => "<"
             | OP_EQUALS => "==" | OP_BETWEEN => "between" | OP_ONE_OF => "in"
             end;
}.
Proof. all: solve_enum. Defined.

Inductive StructuredConstraint :=
  | QuantityConstraint (metric : string) (operator : Operator) (bound : dec) (u : Unit) (percentile : option dec)
  | RangeConstraint (metric : string) (minimum maximum : dec) (u : Unit) (percentile : option dec)
  | SetConstraint (metric : string) (allowed : list string).

Definition metric_of (c : StructuredConstraint) : string :=
  match c with QuantityConstraint m _ _ _ _ | RangeConstraint m _ _ _ _ | SetConstraint m _ => m end.

Definition MAX_SET_VALUES : nat := 50.

(** [^[a-z][a-z0-9_]*$], at most 64 characters; [^[a-z0-9][a-z0-9-]{0,62}$]. *)
Definition IDENTIFIER_FORMAT : string → bool := matches is_lower (λ c, is_lower c || is_digit c || one_of "_" c) 63.
Definition SET_VALUE_FORMAT : string → bool :=
  matches (λ c, is_lower c || is_digit c) (λ c, is_lower c || is_digit c || one_of "-" c) 62.

Definition normalize_identifier (raw : json) (field : string) : py string :=
  match raw with
  | JStr s =>
      let s := lower (strip s) in
      if IDENTIFIER_FORMAT s then Ok s else Raise (InvalidRequirement field "format")
  | _ => Raise (InvalidRequirement field "not_a_string")
  end.

(** [_require], [_reject_unknown_keys]. *)
Definition required (raw : dict string json) (key : string) : py json :=
  match dict_get key raw with
  | None | Some JNull => Raise (InvalidRequirement ("structured_data." +:+ key) "required")
  | Some v => Ok v
  end.

Definition reject_unknown_keys (raw : dict string json) (allowed : list string) : py unit :=
  match sorted_set (filter (λ k, k ∉ allowed) (dict_keys raw)) with
  | k :: _ => Raise (InvalidRequirement ("structured_data." +:+ k) "unknown_field")
  | [] => Ok tt
  end.

Definition parse_percentile (raw : dict string json) : py (option dec) :=
  match dict_get "percentile" raw with
  | None | Some JNull => Ok None
  | Some v =>
      parsed ← parse_decimal v "structured_data.percentile";
      if dec_ltb (dec_of_Z 0) parsed && negb (dec_ltb (dec_of_Z 100) parsed) then Ok (Some parsed)
      else Raise (InvalidRequirement "structured_data.percentile" "out_of_range")
  end.

Definition set_value (raw : json) : py string :=
  match raw with
  | JStr s => let s := lower (strip s) in
              if SET_VALUE_FORMAT s then Ok s else Raise (InvalidRequirement "structured_data.values" "format")
  | _ => Raise (InvalidRequirement "structured_data.values" "format")
  end.

(** The values, each once; the first that is malformed or repeated is refused. *)
Fixpoint distinct_values (seen : list string) (raw : list json) : py (list string) :=
  match raw with
  | [] => Ok seen
  | item :: rest =>
      s ← set_value item;
      if decide (s ∈ seen) then Raise (InvalidRequirement "structured_data.values" "duplicate")
      else distinct_values (seen ++ [s]) rest
  end.

Definition parse_set_values (raw : json) : py (list string) :=
  match raw with
  | JArr l =>
      if (length l =? 0) || (MAX_SET_VALUES <? length l) then Raise (InvalidRequirement "structured_data.values" "length")
      else found ← distinct_values [] l; Ok (sort_by str_leb found)
  | _ => Raise (InvalidRequirement "structured_data.values" "length")
  end.

Definition QUANTITY_KEYS : list string := ["metric"; "operator"; "value"; "unit"; "percentile"].
Definition RANGE_KEYS : list string := ["metric"; "operator"; "min"; "max"; "unit"; "percentile"].
Definition SET_KEYS : list string := ["metric"; "operator"; "values"].

Definition parse_set (metric : string) (raw : dict string json) : py StructuredConstraint :=
  _ ← reject_unknown_keys raw SET_KEYS;
  allowed ← (required raw "values" ≫= parse_set_values);
  Ok (SetConstraint metric allowed).

Definition parse_range (metric : string) (raw : dict string json) : py StructuredConstraint :=
  _ ← reject_unknown_keys raw RANGE_KEYS;
  minimum ← (required raw "min" ≫= λ v, parse_decimal v "structured_data.min");
  maximum ← (required raw "max" ≫= λ v, parse_decimal v "structured_data.max");
  if negb (dec_ltb minimum maximum) then Raise (InvalidRequirement "structured_data.max" "not_above_min")
  else u ← (required raw "unit" ≫= unit_for); p ← parse_percentile raw; Ok (RangeConstraint metric minimum maximum u p).

Definition parse_quantity (metric : string) (operator : Operator) (raw : dict string json) : py StructuredConstraint :=
  _ ← reject_unknown_keys raw QUANTITY_KEYS;
  bound ← (required raw "value" ≫= λ v, parse_decimal v "structured_data.value");
  u ← (required raw "unit" ≫= unit_for);
  p ← parse_percentile raw;
  Ok (QuantityConstraint metric operator bound u p).

Definition parse_operator (raw : json) : py Operator :=
  match (match raw with JStr s => enum_of s | _ => None end) with
  | Some o => Ok o
  | None => Raise (InvalidRequirement "structured_data.operator" "unknown_operator")
  end.

(** An empty object is no constraint; anything else is exactly one. *)
Definition parse_structured_data (raw : json) : py (option StructuredConstraint) :=
  match raw with
  | JObj [] => Ok None
  | JObj raw =>
      metric ← (required raw "metric" ≫= λ v, normalize_identifier v "structured_data.metric");
      operator ← (required raw "operator" ≫= parse_operator);
      Some <$> match operator with
               | OP_ONE_OF => parse_set metric raw
               | OP_BETWEEN => parse_range metric raw
               | _ => parse_quantity metric operator raw
               end
  | _ => Raise (InvalidRequirement "structured_data" "not_an_object")
  end.

(** * Requirements *)
Record RequirementContent := {
  rc_type : RequirementType;
  rc_category : string;
  rc_title : string;
  rc_statement : string;
  rc_priority : RequirementPriority;
  rc_status : RequirementStatus;
  rc_constraint : option StructuredConstraint;
  rc_scope : RequirementScope;
}.

Record Requirement := {
  req_id : uuid;
  req_project_id : uuid;
  req_number : Z;
  req_version : Z;
  req_content : RequirementContent;
}.

Definition reference (r : Requirement) : string := "REQ-" +:+ Z_text (req_number r).

Definition in_force (r : Requirement) : bool := bool_decide (rc_status (req_content r) ∈ IN_FORCE).

(** ** Samples *)
Example decimal_samples :
  decimal_of_text <$> ["12.50"; " -1_000 "; "2E+3"; ".5"; "1e-2"; "inf"; "nan12"; "."; "1.2.3"; ""] =
  [Some (DFin 1250 (-2)); Some (DFin (-1000) 0); Some (DFin 2 3); Some (DFin 5 (-1)); Some (DFin 1 (-2));
   Some (DInf false); Some DNaN; None; None; None].
Proof. by vm_compute. Qed.

Example canonical_samples :
  dec_eqb (to_canonical (unit_by "GB" DIM_DATA_SIZE (10 ^ 9) 1) (DFin 15 (-1))) (DFin 15 8) = true ∧
  dec_eqb (to_canonical (unit_by "%" DIM_RATIO 1 100) (DFin 999 (-1))) (DFin 999 (-3)) = true ∧
  to_canonical (unit_by "requests/minute" DIM_RATE 1 60) (DFin 100 0) = DFin 1666666666666666666666666667 (-27).
Proof. split_and!; by vm_compute. Qed.

Example structured_sample :
  parse_structured_data (JObj [("metric", JStr "storage"); ("operator", JStr "between"); ("min", JStr "10");
    ("max", JStr "20.5"); ("unit", JStr "GB")]) =
  Ok (Some (RangeConstraint "storage" (DFin 1 1) (DFin 205 (-1)) (unit_by "GB" DIM_DATA_SIZE (10 ^ 9) 1) None)) ∧
  parse_structured_data (JObj [("metric", JStr "regions"); ("operator", JStr "in");
    ("values", JArr [JStr "EU-west-1"; JStr "eu-central-1"])]) = Ok (Some (SetConstraint "regions" ["eu-central-1"; "eu-west-1"])) ∧
  is_ok (parse_structured_data (JObj [("metric", JStr "regions"); ("operator", JStr "in"); ("value", JInt 1)])) = false.
Proof. split_and!; by vm_compute. Qed.
