(* ===== verification/Findings.v ===== *)
(** What a validation produces (src/core/domain/validation/results.py, errors.py): findings, requirement
    verdicts, rule failures, limitations, the rule set, their summary and their fingerprint.

    A finding is built from arguments of any type ([FindingArgs]), as when it is read back from storage;
    its checks name the fields that are wrong. Texts are code points. *)
From Stdlib Require Import Ascii ZArith Lia.
From S2P Require Import Prelude Data Errors Codecs Sha256 JsonText.

Definition InvalidFinding (fields : list string) : exn :=
  DomainError "invalid_validation_finding" "A validation finding is malformed."
    [("fields", JArr (JStr <$> fields))].

(** * Vocabulary *)

(** [^[a-z][a-z0-9_.-]{2,63}$] *)
Definition RULE_ID (s : string) : bool :=
  matches is_lower (λ c, is_lower c || is_digit c || one_of "_.-" c) 63 s && (3 <=? String.length s).
(** [^[a-z][a-z0-9_]{0,63}$] *)
Definition CODE : string → bool := matches is_lower (λ c, is_lower c || is_digit c || one_of "_" c) 63.
Definition MAX_TEXT : nat := 2000.
Definition MAX_REFERENCES : nat := 200.
Definition MAX_EVIDENCE : nat := 50.

Inductive Severity := CRITICAL | HIGH | MEDIUM | LOW | INFO.

#[export] Instance Severity_eq_dec : EqDecision Severity.
Proof. solve_decision. Defined.

#[export, refine] Instance Severity_enum : StrEnum Severity := {
  members := [CRITICAL; HIGH; MEDIUM; LOW; INFO];
  value s := match s with
             | CRITICAL => "critical" | HIGH => "high" | MEDIUM => "medium" | LOW => "low" | INFO => "info"
             end;
}.
Proof. all: solve_enum. Defined.

(** [list(Severity).index(self)]. *)
Definition rank (s : Severity) : nat := match list_find (λ x, x = s) members with Some (i, _) => i | None => 0 end.

Inductive Category := STRUCTURE | CONFIGURATION | COMPLETENESS | POLICY | REQUIREMENTS.

#[export] Instance Category_eq_dec : EqDecision Category.
Proof. solve_decision. Defined.

#[export, refine] Instance Category_enum : StrEnum Category := {
  members := [STRUCTURE; CONFIGURATION; COMPLETENESS; POLICY; REQUIREMENTS];
  value c := match c with
             | STRUCTURE => "structure" | CONFIGURATION => "configuration" | COMPLETENESS => "completeness"
             | POLICY => "policy" | REQUIREMENTS => "requirements"
             end;
}.
Proof. all: solve_enum. Defined.

Inductive Verdict := SATISFIED | VIOLATED | NOT_VERIFIABLE | NOT_APPLICABLE.

#[export] Instance Verdict_eq_dec : EqDecision Verdict.
Proof. solve_decision. Defined.

#[export, refine] Instance Verdict_enum : StrEnum Verdict := {
  members := [SATISFIED; VIOLATED; NOT_VERIFIABLE; NOT_APPLICABLE];
  value v := match v with
             | SATISFIED => "satisfied" | VIOLATED => "violated" | NOT_VERIFIABLE => "not_verifiable"
             | NOT_APPLICABLE => "not_applicable"
             end;
}.
Proof. all: solve_enum. Defined.

(** * Checks *)
Definition text_problem (value : wide) (field : string) (required : bool) : option string :=
  match value with
  | WNull => if required then Some field else None
  | WStr s => if (required && blank s) || (MAX_TEXT <? length s) then Some field else None
  | _ => Some field
  end.

Definition positive (value : wide) (field : string) : option string :=
  match value with WInt z => if (1 <=? z)%Z then None else Some field | _ => Some field end.

(** [pattern.fullmatch(value)] of a text. *)
Definition wide_matches (pattern : string → bool) (value : wide) : bool :=
  match value with WStr s => match narrow s with Some t => pattern t | None => false end | _ => false end.

Definition identifier (value : wide) (field : string) : option string :=
  if wide_matches RULE_ID value then None else Some field.

Definition references (values : list wide) (field : string) : option string :=
  if MAX_REFERENCES <? length values then Some field
  else if forallb (λ v, match v with WStr s => (0 <? length s) && (length s <=? 256) | _ => false end) values
  then None else Some field.

(** The evidence, as pairs of a label and a value. *)
Definition evidence_problem (values : list (wide * wide)) : option string :=
  if MAX_EVIDENCE <? length values then Some "evidence"
  else if forallb (λ e, match e with (WStr _, WStr _) => true | _ => false end) values
  then None else Some "evidence".

Definition check (problems : list (option string)) : py unit :=
  match omap id problems with
  | [] => Ok tt
  | found => Raise (InvalidFinding found)
  end.

Definition as_text (w : wide) : option points := match w with WStr s => Some s | _ => None end.

(** [tuple(sorted(set(value)))], when all of it is text. *)
Definition sorted_strings (values : list wide) : list wide :=
  match mapM as_text values with
  | Some l => WStr <$> sort_by points_leb (dedup l)
  | None => values
  end.

(** [_key(prefix, *parts)]. *)
Definition key_of (prefix : string) (parts : list wide) : string :=
  prefix +:+ "_" +:+ text_of (take 20 (chars_of (hexdigest (dumps_spaced (WArr parts))))).

(** * Findings *)
Record Evidence := { e_label : points; e_value : points }.

#[export] Instance Evidence_eq_dec : EqDecision Evidence.
Proof. solve_decision. Defined.

Record Finding := {
  f_rule_id : string;
  f_rule_version : Z;
  f_code : string;
  f_severity : Severity;
  f_category : Category;
  f_title : points;
  f_explanation : points;
  f_remediation : points;
  f_entity_ids : list points;
  f_field_paths : list points;
  f_expected : option points;
  f_actual : option points;
  f_evidence : list Evidence;
  f_blocking : bool;
  f_requirement_id : option points;
  f_policy_rule : option points;
}.

#[export] Instance Finding_eq_dec : EqDecision Finding.
Proof. solve_decision. Defined.

(** What the constructor is given, of whatever type. *)
Record FindingArgs := {
  fa_rule_id : wide;
  fa_rule_version : wide;
  fa_code : wide;
  fa_severity : Severity;
  fa_category : Category;
  fa_title : wide;
  fa_explanation : wide;
  fa_remediation : wide;
  fa_entity_ids : list wide;
  fa_field_paths : list wide;
  fa_expected : wide;
  fa_actual : wide;
  fa_evidence : list (wide * wide);
  fa_blocking : wide;
  fa_requirement_id : wide;
  fa_policy_rule : wide;
}.

Definition evidence_args (e : Evidence) : wide * wide := (WStr (e_label e), WStr (e_value e)).

Definition Finding_args (f : Finding) : FindingArgs := {|
  fa_rule_id := WText (f_rule_id f); fa_rule_version := WInt (f_rule_version f); fa_code := WText (f_code f);
  fa_severity := f_severity f; fa_category := f_category f; fa_title := WStr (f_title f);
  fa_explanation := WStr (f_explanation f); fa_remediation := WStr (f_remediation f);
  fa_entity_ids := WStr <$> f_entity_ids f; fa_field_paths := WStr <$> f_field_paths f;
  fa_expected := of_opt_points (f_expected f); fa_actual := of_opt_points (f_actual f);
  fa_evidence := evidence_args <$> f_evidence f; fa_blocking := WBool (f_blocking f);
  fa_requirement_id := of_opt_points (f_requirement_id f); fa_policy_rule := of_opt_points (f_policy_rule f) |}.

Definition Finding_normalize (a : FindingArgs) : FindingArgs := {|
  fa_rule_id := fa_rule_id a; fa_rule_version := fa_rule_version a; fa_code := fa_code a;
  fa_severity := fa_severity a; fa_category := fa_category a; fa_title := fa_title a;
  fa_explanation := fa_explanation a; fa_remediation := fa_remediation a;
  fa_entity_ids := sorted_strings (fa_entity_ids a); fa_field_paths := sorted_strings (fa_field_paths a);
  fa_expected := fa_expected a; fa_actual := fa_actual a; fa_evidence := fa_evidence a;
  fa_blocking := fa_blocking a; fa_requirement_id := fa_requirement_id a; fa_policy_rule := fa_policy_rule a |}.

Definition Finding_problems (a : FindingArgs) : list (option string) := [
  identifier (fa_rule_id a) "rule_id";
  positive (fa_rule_version a) "rule_version";
  (if wide_matches CODE (fa_code a) then None else Some "code");
  text_problem (fa_title a) "title" true;
  text_problem (fa_explanation a) "explanation" true;
  text_problem (fa_remediation a) "remediation" true;
  references (fa_entity_ids a) "entity_ids";
  references (fa_field_paths a) "field_paths";
  text_problem (fa_expected a) "expected" false;
  text_problem (fa_actual a) "actual" false;
  evidence_problem (fa_evidence a);
  (if fa_blocking a is WBool _ then None else Some "blocking");
  text_problem (fa_requirement_id a) "requirement_id" false;
  text_problem (fa_policy_rule a) "policy_rule" false].

Definition as_narrow (w : wide) : option string := as_text w ≫= narrow.
Definition as_opt_text (w : wide) : option (option points) :=
  match w with WNull => Some None | WStr s => Some (Some s) | _ => None end.
Definition as_evidence (e : wide * wide) : option Evidence :=
  label ← as_text e.1; value ← as_text e.2; Some {| e_label := label; e_value := value |}.

(** The arguments once checked: none of the types is wrong. *)
Definition Finding_typed (a : FindingArgs) : option Finding :=
  rule_id ← as_narrow (fa_rule_id a);
  version ← (if fa_rule_version a is WInt z then Some z else None);
  code ← as_narrow (fa_code a);
  title ← as_text (fa_title a);
  explanation ← as_text (fa_explanation a);
  remediation ← as_text (fa_remediation a);
  entity_ids ← mapM as_text (fa_entity_ids a);
  field_paths ← mapM as_text (fa_field_paths a);
  expected ← as_opt_text (fa_expected a);
  actual ← as_opt_text (fa_actual a);
  evidence ← mapM as_evidence (fa_evidence a);
  blocking ← (if fa_blocking a is WBool b then Some b else None);
  requirement_id ← as_opt_text (fa_requirement_id a);
  policy_rule ← as_opt_text (fa_policy_rule a);
  Some {| f_rule_id := rule_id; f_rule_version := version; f_code := code; f_severity := fa_severity a;
          f_category := fa_category a; f_title := title; f_explanation := explanation;
          f_remediation := remediation; f_entity_ids := entity_ids; f_field_paths := field_paths;
          f_expected := expected; f_actual := actual; f_evidence := evidence; f_blocking := blocking;
          f_requirement_id := requirement_id; f_policy_rule := policy_rule |}.

(** [Finding(...)]: the ids and paths sorted, then every field checked. *)
Definition Finding_new (a : FindingArgs) : py Finding :=
  let a := Finding_normalize a in
  _ ← check (Finding_problems a);
  match Finding_typed a with Some f => Ok f | None => Raise TypeError end.

Definition finding_id (f : Finding) : string :=
  key_of "fnd" [
    WText (f_rule_id f); WInt (f_rule_version f); WText (f_code f);
    WArr (WStr <$> f_entity_ids f); WArr (WStr <$> f_field_paths f);
    of_opt_points (f_requirement_id f); of_opt_points (f_policy_rule f)].

Definition finding_key (f : Finding) :
    nat * (string * (string * (list points * (list points * string)))) :=
  (rank (f_severity f), (value (f_category f), (f_rule_id f, (f_entity_ids f, (f_field_paths f, finding_id f))))).

Definition finding_key_leb :
    nat * (string * (string * (list points * (list points * string)))) →
    nat * (string * (string * (list points * (list points * string)))) → bool :=
  lex nat_leb (lex str_leb (lex str_leb (lex (list_leb points_leb) (lex (list_leb points_leb) str_leb)))).

Definition Evidence_to_dict (e : Evidence) : wide := WObj [("label", WStr (e_label e)); ("value", WStr (e_value e))].

Definition Finding_to_dict (f : Finding) : dict string wide := [
  ("id", WText (finding_id f));
  ("rule_id", WText (f_rule_id f));
  ("rule_version", WInt (f_rule_version f));
  ("code", WText (f_code f));
  ("severity", WText (value (f_severity f)));
  ("category", WText (value (f_category f)));
  ("title", WStr (f_title f));
  ("explanation", WStr (f_explanation f));
  ("remediation", WStr (f_remediation f));
  ("entity_ids", WArr (WStr <$> f_entity_ids f));
  ("field_paths", WArr (WStr <$> f_field_paths f));
  ("expected", of_opt_points (f_expected f));
  ("actual", of_opt_points (f_actual f));
  ("evidence", WArr (Evidence_to_dict <$> f_evidence f));
  ("blocking", WBool (f_blocking f));
  ("requirement_id", of_opt_points (f_requirement_id f));
  ("policy_rule", of_opt_points (f_policy_rule f))].

(** ** Reading one back *)

(** [data[key]] of a mapping, and of a value that may not be one. *)
Definition item (data : dict string wide) (key : string) : py wide :=
  match dict_get key data with Some w => Ok w | None => Raise KeyError end.
Definition subscript (w : wide) (key : string) : py wide :=
  match w with WObj m => item m key | _ => Raise TypeError end.

(** What iterating over a value gives. *)
Definition elements (w : wide) : py (list wide) :=
  match w with
  | WStr s => Ok ((λ n, WStr [n]) <$> s)
  | WArr l => Ok l
  | WObj m => Ok ((λ k, WText k) <$> dict_keys m)
  | _ => Raise TypeError
  end.

(** [E(value)] of an enumeration. *)
Definition enum_read {E} `{StrEnum E} (w : wide) : py E :=
  match as_narrow w ≫= enum_of with Some e => Ok e | None => Raise (ValueError "not a member") end.

Definition optional (data : dict string wide) (key : string) (d : wide) : wide := default d (dict_get key data).

Definition read_evidence (w : wide) : py (wide * wide) :=
  label ← subscript w "label"; value ← subscript w "value"; Ok (label, value).

(** [except (KeyError, ValueError, TypeError)]: the record is malformed. *)
Definition malformed {A} (m : py A) : py A :=
  match m with
  | Raise KeyError => Raise (InvalidFinding ["KeyError"])
  | Raise (ValueError _) => Raise (InvalidFinding ["ValueError"])
  | Raise TypeError => Raise (InvalidFinding ["TypeError"])
  | _ => m
  end.

Definition Finding_reading (data : dict string wide) : py Finding :=
  rule_id ← item data "rule_id";
  rule_version ← item data "rule_version";
  code ← item data "code";
  severity ← (item data "severity" ≫= enum_read);
  category ← (item data "category" ≫= enum_read);
  title ← item data "title";
  explanation ← item data "explanation";
  remediation ← item data "remediation";
  entity_ids ← elements (optional data "entity_ids" (WArr []));
  field_paths ← elements (optional data "field_paths" (WArr []));
  evidence ← (elements (optional data "evidence" (WArr [])) ≫= py_map read_evidence);
  Finding_new {|
    fa_rule_id := rule_id; fa_rule_version := rule_version; fa_code := code; fa_severity := severity;
    fa_category := category; fa_title := title; fa_explanation := explanation; fa_remediation := remediation;
    fa_entity_ids := entity_ids; fa_field_paths := field_paths;
    fa_expected := optional data "expected" WNull; fa_actual := optional data "actual" WNull;
    fa_evidence := evidence; fa_blocking := optional data "blocking" (WBool false);
    fa_requirement_id := optional data "requirement_id" WNull;
    fa_policy_rule := optional data "policy_rule" WNull |}.

(** A record whose id is not that of its content is refused. *)
Definition Finding_from_dict (data : dict string wide) : py Finding :=
  f ← malformed (Finding_reading data);
  match dict_get "id" data with
  | None => Ok f
  | Some (WStr s) => if decide (s = points_of (finding_id f)) then Ok f else Raise (InvalidFinding ["id"])
  | Some _ => Raise (InvalidFinding ["id"])
  end.

(** * Requirement verdicts *)
Record RequirementResult := {
  rr_requirement_id : points;
  rr_reference : points;
  rr_requirement_version : Z;
  rr_verdict : Verdict;
  rr_reason : points;
  rr_rule_id : string;
  rr_entity_ids : list points;
  rr_evidence : list Evidence;
}.

#[export] Instance RequirementResult_eq_dec : EqDecision RequirementResult.
Proof. solve_decision. Defined.

Record RequirementResultArgs := {
  ra_requirement_id : wide;
  ra_reference : wide;
  ra_requirement_version : wide;
  ra_verdict : Verdict;
  ra_reason : wide;
  ra_rule_id : wide;
  ra_entity_ids : list wide;
  ra_evidence : list (wide * wide);
}.

Definition RequirementResult_args (r : RequirementResult) : RequirementResultArgs := {|
  ra_requirement_id := WStr (rr_requirement_id r); ra_reference := WStr (rr_reference r);
  ra_requirement_version := WInt (rr_requirement_version r); ra_verdict := rr_verdict r;
  ra_reason := WStr (rr_reason r); ra_rule_id := WText (rr_rule_id r);
  ra_entity_ids := WStr <$> rr_entity_ids r; ra_evidence := evidence_args <$> rr_evidence r |}.

Definition RequirementResult_problems (a : RequirementResultArgs) : list (option string) := [
  text_problem (ra_requirement_id a) "requirement_id" true;
  text_problem (ra_reference a) "reference" true;
  positive (ra_requirement_version a) "requirement_version";
  text_problem (ra_reason a) "reason" true;
  identifier (ra_rule_id a) "rule_id";
  references (ra_entity_ids a) "entity_ids";
  evidence_problem (ra_evidence a)].

Definition RequirementResult_typed (a : RequirementResultArgs) : option RequirementResult :=
  requirement_id ← as_text (ra_requirement_id a);
  reference ← as_text (ra_reference a);
  version ← (if ra_requirement_version a is WInt z then Some z else None);
  reason ← as_text (ra_reason a);
  rule_id ← as_narrow (ra_rule_id a);
  entity_ids ← mapM as_text (ra_entity_ids a);
  evidence ← mapM as_evidence (ra_evidence a);
  Some {| rr_requirement_id := requirement_id; rr_reference := reference; rr_requirement_version := version;
          rr_verdict := ra_verdict a; rr_reason := reason; rr_rule_id := rule_id;
          rr_entity_ids := entity_ids; rr_evidence := evidence |}.

Definition RequirementResult_new (a : RequirementResultArgs) : py RequirementResult :=
  let a := {| ra_requirement_id := ra_requirement_id a; ra_reference := ra_reference a;
              ra_requirement_version := ra_requirement_version a; ra_verdict := ra_verdict a;
              ra_reason := ra_reason a; ra_rule_id := ra_rule_id a;
              ra_entity_ids := sorted_strings (ra_entity_ids a); ra_evidence := ra_evidence a |} in
  _ ← check (RequirementResult_problems a);
  match RequirementResult_typed a with Some r => Ok r | None => Raise TypeError end.

Definition requirement_key (r : RequirementResult) : points * (points * string) :=
  (rr_reference r, (rr_requirement_id r, rr_rule_id r)).

Definition RequirementResult_to_dict (r : RequirementResult) : dict string wide := [
  ("requirement_id", WStr (rr_requirement_id r));
  ("reference", WStr (rr_reference r));
  ("requirement_version", WInt (rr_requirement_version r));
  ("verdict", WText (value (rr_verdict r)));
  ("reason", WStr (rr_reason r));
  ("rule_id", WText (rr_rule_id r));
  ("entity_ids", WArr (WStr <$> rr_entity_ids r));
  ("evidence", WArr (Evidence_to_dict <$> rr_evidence r))].

Definition RequirementResult_from_dict (data : dict string wide) : py RequirementResult :=
  malformed (
    requirement_id ← item data "requirement_id";
    reference ← item data "reference";
    version ← item data "requirement_version";
    verdict ← (item data "verdict" ≫= enum_read);
    reason ← item data "reason";
    rule_id ← item data "rule_id";
    entity_ids ← elements (optional data "entity_ids" (WArr []));
    evidence ← (elements (optional data "evidence" (WArr [])) ≫= py_map read_evidence);
    RequirementResult_new {|
      ra_requirement_id := requirement_id; ra_reference := reference; ra_requirement_version := version;
      ra_verdict := verdict; ra_reason := reason; ra_rule_id := rule_id; ra_entity_ids := entity_ids;
      ra_evidence := evidence |}).

(** * Rule failures and limitations *)
Record RuleFailure := { rf_rule_id : string; rf_rule_version : Z; rf_error : string; rf_message : string }.

#[export] Instance RuleFailure_eq_dec : EqDecision RuleFailure.
Proof. solve_decision. Defined.

Definition RuleFailure_to_dict (f : RuleFailure) : dict string wide := [
  ("rule_id", WText (rf_rule_id f)); ("rule_version", WInt (rf_rule_version f));
  ("error", WText (rf_error f)); ("message", WText (rf_message f))].

(** A value of a type [to_dict] does not write is refused here; the code keeps it as it is. *)
Definition kept_text (w : wide) : py string := match as_narrow w with Some s => Ok s | None => Raise TypeError end.
Definition kept_int (w : wide) : py Z := match w with WInt z => Ok z | _ => Raise TypeError end.

Definition RuleFailure_from_dict (data : dict string wide) : py RuleFailure :=
  rule_id ← (item data "rule_id" ≫= kept_text);
  rule_version ← (item data "rule_version" ≫= kept_int);
  error ← (item data "error" ≫= kept_text);
  message ← (item data "message" ≫= kept_text);
  Ok {| rf_rule_id := rule_id; rf_rule_version := rule_version; rf_error := error; rf_message := message |}.

Record Limitation := { li_code : string; li_message : string }.

#[export] Instance Limitation_eq_dec : EqDecision Limitation.
Proof. solve_decision. Defined.

Definition Limitation_problems (l : Limitation) : list (option string) := [
  (if CODE (li_code l) then None else Some "code"); text_problem (WText (li_message l)) "message" true].

Definition Limitation_new (code message : string) : py Limitation :=
  let l := {| li_code := code; li_message := message |} in _ ← check (Limitation_problems l); Ok l.

Definition Limitation_to_dict (l : Limitation) : dict string wide :=
  [("code", WText (li_code l)); ("message", WText (li_message l))].

(** [except (KeyError, TypeError)]. *)
Definition Limitation_from_dict (data : dict string wide) : py Limitation :=
  malformed (
    code ← (item data "code" ≫= kept_text);
    message ← (item data "message" ≫= kept_text);
    Limitation_new code message).

(** * The summary *)
Record Summary := {
  su_total : nat;
  su_by_severity : dict string nat;
  su_by_category : dict string nat;
  su_blocking : nat;
  su_requirements : dict string nat;
  su_rule_failures : nat;
}.

(** How many items have each value of an enumeration. *)
Definition tally {A E} `{StrEnum E} (key : A → E) (l : list A) : dict string nat :=
  (λ e, (value e, length (filter (λ x, key x = e) l))) <$> members.

Definition summarize (findings : list Finding) (requirement_results : list RequirementResult) (failures : nat) : Summary := {|
  su_total := length findings;
  su_by_severity := tally f_severity findings;
  su_by_category := tally f_category findings;
  su_blocking := length (filter (λ f, f_blocking f = true) findings);
  su_requirements := tally rr_verdict requirement_results;
  su_rule_failures := failures |}.

Definition counts_wide (d : dict string nat) : wide := WObj ((λ p, (p.1, WInt (Z.of_nat p.2))) <$> d).

Definition Summary_to_dict (s : Summary) : dict string wide := [
  ("total", WInt (Z.of_nat (su_total s)));
  ("by_severity", counts_wide (su_by_severity s));
  ("by_category", counts_wide (su_by_category s));
  ("blocking", WInt (Z.of_nat (su_blocking s)));
  ("requirements", counts_wide (su_requirements s));
  ("rule_failures", WInt (Z.of_nat (su_rule_failures s)))].

(** * The rule set *)
Record RuleSet := { rs_id : string; rs_version : string; rs_rules : list (string * Z) }.

Definition rule_wide (r : string * Z) : wide := WArr [WText r.1; WInt r.2].

Definition RuleSet_to_dict (r : RuleSet) : dict string wide := [
  ("id", WText (rs_id r)); ("version", WText (rs_version r)); ("rules", WArr (rule_wide <$> rs_rules r))].

Definition RuleSet_of (profile : string) (rules : list (string * Z)) : RuleSet :=
  let ordered := sort_by (lex str_leb Z_leb) (dedup rules) in
  {| rs_id := profile;
     rs_version := text_of (take 16 (chars_of (hexdigest (dumps_spaced (WArr (rule_wide <$> ordered))))));
     rs_rules := ordered |}.

(** * Results *)
Record ValidationResult := {
  vr_rule_set : RuleSet;
  vr_context_fingerprint : string;
  vr_findings : list Finding;
  vr_requirement_results : list RequirementResult;
  vr_failures : list RuleFailure;
  vr_limitations : list Limitation;
  vr_components : dict string string;
}.

Definition failure_key (f : RuleFailure) : string * (Z * string) := (rf_rule_id f, (rf_rule_version f, rf_error f)).

(** [ValidationResult(...)]: everything in a canonical order, a finding or limitation once. *)
Definition ValidationResult_new (r : ValidationResult) : ValidationResult := {|
  vr_rule_set := vr_rule_set r;
  vr_context_fingerprint := vr_context_fingerprint r;
  vr_findings := sort_by (on finding_key finding_key_leb) (dedup (vr_findings r));
  vr_requirement_results :=
    sort_by (on requirement_key (lex points_leb (lex points_leb str_leb))) (vr_requirement_results r);
  vr_failures := sort_by (on failure_key (lex str_leb (lex Z_leb str_leb))) (vr_failures r);
  vr_limitations := sort_by (on li_code str_leb) (dedup (vr_limitations r));
  vr_components := sort_by (on fst str_leb) (vr_components r) |}.

Definition result_summary (r : ValidationResult) : Summary :=
  summarize (vr_findings r) (vr_requirement_results r) (length (vr_failures r)).

Definition fingerprint_document (r : ValidationResult) : dict string wide :=
  [("rule_set", WObj (RuleSet_to_dict (vr_rule_set r)));
   ("context", WText (vr_context_fingerprint r));
   ("findings", WArr ((λ f, WObj (Finding_to_dict f)) <$> vr_findings r));
   ("requirements", WArr ((λ q, WObj (RequirementResult_to_dict q)) <$> vr_requirement_results r));
   ("failures", WArr ((λ f, WObj (RuleFailure_to_dict f)) <$> vr_failures r));
   ("limitations", WArr ((λ l, WObj (Limitation_to_dict l)) <$> vr_limitations r))]
  ++ match vr_components r with
     | [] => []
     | cs => [("components", WObj ((λ p, (p.1, WText p.2)) <$> cs))]
     end.

Definition result_fingerprint (r : ValidationResult) : string :=
  hexdigest (dumps_compact (WObj (fingerprint_document r))).

(** * Facts *)
Lemma checks_pass problems : check problems = Ok tt ↔ Forall (λ p, p = None) problems.
Proof.
  induction problems as [|[p|] problems IH]; [done| |].
  - split; [done|]. intros H. by apply Forall_cons in H as [? _].
  - rewrite Forall_cons. split; [intros H; split; [done|by apply IH]|intros [_ H]; by apply IH].
Qed.

Lemma narrow_points s : narrow (points_of s) = Some s.
Proof.
  unfold narrow, points_of. rewrite (Is_true_eq_true (forallb _ _)).
  - f_equal. rewrite <- list_fmap_compose. unfold text_of, chars_of.
    rewrite <- (String.string_of_list_ascii_of_string s) at 2. f_equal.
    induction (String.list_ascii_of_string s) as [|c l IH]; [done|]. cbn [fmap list_fmap]. f_equal; [|exact IH].
    unfold compose, code. by rewrite Nat2Z.id, ascii_nat_embedding.
  - apply forallb_True, Forall_fmap, Forall_true. intros c. unfold compose, code. pose proof (nat_ascii_bounded c).
    apply andb_prop_intro. split; apply Is_true_true; [apply Z.leb_le|apply Z.ltb_lt]; lia.
Qed.

Lemma as_texts l : mapM as_text (WStr <$> l) = Some l.
Proof. by apply mapM_fmap_Some. Qed.

Lemma as_opt_points o : as_opt_text (of_opt_points o) = Some o.
Proof. by destruct o. Qed.

Lemma as_evidences l : mapM as_evidence (evidence_args <$> l) = Some l.
Proof. apply mapM_fmap_Some. by intros []. Qed.

Lemma sorted_texts l : sorted_strings (WStr <$> l) = WStr <$> sort_by points_leb (dedup l).
Proof. unfold sorted_strings. by rewrite as_texts. Qed.
