(* ===== verification/ValidationEngine.v ===== *)
(** The deterministic validation engine (src/engines/validation: engine.py, context.py, severity.py,
    findings.py, service.py; src/core/domain/parameters.py; src/core/domain/validation/options.py, errors.py).

    A rule is its metadata and a function from the context and its parameters to an outcome. The component
    catalog, and what evaluating an architecture against it gives, come through [ComponentCatalog]. *)
From Stdlib Require Import ZArith.
From S2P Require Import Prelude Data Errors Codecs Sha256 JsonText Component Configuration Elements Model Topology Projects Requirements Findings.

(** * Parameters *)
Definition MAX_TEXT_PARAMETER : nat := 200.

Inductive ParamType := PARAM_INTEGER | PARAM_BOOLEAN | PARAM_TEXT.

Record ParamSpec := {
  pm_type : ParamType;
  pm_description : string;
  pm_default : json;
  pm_minimum : option Z;
  pm_maximum : option Z;
  pm_choices : list string;
}.

Definition param_problem (spec : ParamSpec) (v : json) : option string :=
  match pm_type spec with
  | PARAM_INTEGER =>
      match v with
      | JInt z =>
          let too_small := if pm_minimum spec is Some m then (z <? m)%Z else false in
          let too_large := if pm_maximum spec is Some m then (m <? z)%Z else false in
          if too_small || too_large then Some "out_of_range" else None
      | _ => Some "not_an_integer"
      end
  | PARAM_BOOLEAN => if is_bool v then None else Some "not_a_boolean"
  | PARAM_TEXT =>
      match v with
      | JStr s =>
          if MAX_TEXT_PARAMETER <? String.length s then Some "not_text"
          else if negb (bool_decide (pm_choices spec = [])) && bool_decide (s ∉ pm_choices spec) then Some "not_a_choice"
          else None
      | _ => Some "not_text"
      end
  end.

Fixpoint first_problem (specs : dict string ParamSpec) (given : dict string json) : option (string * string) :=
  match given with
  | [] => None
  | (name, v) :: rest =>
      match dict_get name specs with
      | None => Some (name, "unknown_parameter")
      | Some spec =>
          match param_problem spec v with Some problem => Some (name, problem) | None => first_problem specs rest end
      end
  end.

(** The first parameter that is wrong, in name order. *)
Definition parameter_problem (specs : dict string ParamSpec) (given : dict string json) : option (string * string) :=
  first_problem specs (sort_by (on fst str_leb) given).

Definition with_defaults (specs : dict string ParamSpec) (given : dict string json) : dict string json :=
  (λ p, (p.1, default (pm_default p.2) (dict_get p.1 given))) <$> sort_by (on fst str_leb) specs.

(** * What a request may choose *)
Definition MAX_SELECTED_RULES : nat := 100.

Definition InvalidValidationConfig (details : dict string json) : exn :=
  DomainError "invalid_validation_config" "The validation configuration is invalid." details.

Record RevisionInfo := {
  ri_architecture_id : string;
  ri_number : Z;
  ri_content_hash : string;
  ri_schema_version : Z;
}.

Record ValidationConfig := {
  cf_profile : string;
  cf_rules : option (list string);
  cf_parameters : dict string (dict string json);
  cf_severity_overrides : dict string Severity;
}.

(** [ValidationConfig()]. *)
Definition default_config : ValidationConfig :=
  {| cf_profile := "default"; cf_rules := None; cf_parameters := []; cf_severity_overrides := [] |}.

Definition by_key {V} (d : dict string V) : dict string V := sort_by (on fst str_leb) d.

Definition ValidationConfig_to_dict (c : ValidationConfig) : dict string json := [
  ("profile", JStr (cf_profile c));
  ("rules", match cf_rules c with Some l => JArr (JStr <$> sort_by str_leb l) | None => JNull end);
  ("parameters", JObj ((λ p, (p.1, JObj (by_key p.2))) <$> by_key (cf_parameters c)));
  ("severity_overrides", JObj ((λ p, (p.1, JStr (value p.2))) <$> by_key (cf_severity_overrides c)))].

(** * The context *)
(** ** What a component catalog says of an architecture (src/core/domain/components/evaluation.py) *)
Inductive ConstraintOutcome :=
  | OUTCOME_PASS | OUTCOME_WARNING | OUTCOME_VIOLATION | OUTCOME_CANNOT_EVALUATE | OUTCOME_NOT_APPLICABLE.

(** One check of one node: [ck_basis] is the kind of its evidence. *)
Record ConstraintFinding := {
  ck_node_id : string;
  ck_component : string;
  ck_specification : option string;
  ck_check : string;
  ck_outcome : ConstraintOutcome;
  ck_explanation : points;
  ck_severity : option Severity;
  ck_property : option string;
  ck_actual : json;
  ck_expected : option points;
  ck_remediation : option points;
  ck_basis : option string;
}.

(** [ce_specifications]: the versions (ref -> content hash) the nodes are checked against. *)
Record ConstraintEvaluation := { ce_findings : list ConstraintFinding; ce_specifications : dict string string }.

(** [ConstraintEvaluation(...)]: by node and check, and by reference. *)
Definition ConstraintEvaluation_new (e : ConstraintEvaluation) : ConstraintEvaluation := {|
  ce_findings := sort_by (on (λ f, (ck_node_id f, ck_check f)) (lex str_leb str_leb)) (ce_findings e);
  ce_specifications := by_key (ce_specifications e) |}.

(** A component catalog, and what evaluating an architecture against it gives. *)
Class ComponentCatalog := {
  catalog : Type;
  evaluate_architecture : ArchitectureIR → RevisionInfo → catalog → py ConstraintEvaluation;
}.

Section engine.
Context `{ComponentCatalog}.

Record ValidationContext := {
  vc_ir : ArchitectureIR;
  vc_revision : RevisionInfo;
  vc_requirements : option (list Requirement);
  vc_config : ValidationConfig;
  vc_policy : option ArchitecturePolicy;
  vc_catalog : option catalog;
}.

Definition has_policy (ctx : ValidationContext) : bool :=
  match vc_policy ctx with Some p => negb (policy_is_empty p) | None => false end.

(** [context.policy], when there is one that constrains something. *)
Definition policy_of (ctx : ValidationContext) : option ArchitecturePolicy :=
  if has_policy ctx then vc_policy ctx else None.

Definition topology (ctx : ValidationContext) : Topology := Topology_of (vc_ir ctx).

Definition refers (n : Node) : bool := match n_component n with Some c => negb (String.eqb c "") | None => false end.

(** [context.components]; [None] without a catalog or a node that refers to one. *)
Definition component_evaluation (ctx : ValidationContext) : py (option ConstraintEvaluation) :=
  match vc_catalog ctx with
  | Some c =>
      if existsb refers (ir_nodes (vc_ir ctx))
      then (λ e, Some (ConstraintEvaluation_new e)) <$> evaluate_architecture (vc_ir ctx) (vc_revision ctx) c
      else Ok None
  | None => Ok None
  end.

(** [context.components.specifications]. *)
Definition component_specifications (ctx : ValidationContext) : py (option (dict string string)) :=
  option_map ce_specifications <$> component_evaluation ctx.

Definition requirement_row (r : Requirement) : string * (Z * string) :=
  (req_id r, (req_version r, value (rc_status (req_content r)))).

Definition context_fingerprint (ctx : ValidationContext) : py string :=
  let revision := vc_revision ctx in
  components ← component_specifications ctx;
  Ok (hexdigest (dumps_spaced (WObj (
    [("revision", WArr [WText (ri_architecture_id revision); WInt (ri_number revision);
                        WText (ri_content_hash revision); WInt (ri_schema_version revision)]);
     ("requirements", match vc_requirements ctx with
                      | None => WNull
                      | Some rs =>
                          WArr ((λ r, WArr [WText r.1; WInt r.2.1; WText r.2.2]) <$>
                                sort_by (lex str_leb (lex Z_leb str_leb)) (requirement_row <$> rs))
                      end);
     ("config", wide_of (JObj (ValidationConfig_to_dict (vc_config ctx))));
     ("policy", match policy_of ctx with
                | Some p => wide_of (JObj (ArchitecturePolicy_to_dict p))
                | None => WNull
                end)]
    ++ match components with
       | Some specs => [("components", WObj ((λ p, (p.1, WText p.2)) <$> specs))]
       | None => []
       end)))).

(** ** Limitations *)
Definition CATALOG_UNAVAILABLE : Limitation := {|
  li_code := "catalog_unavailable";
  li_message :=
    "No component catalog is available: configuration is checked against the architecture " +:+
    "schema's property definitions only, not against what each technology supports or limits." |}.
Definition NO_POLICY : Limitation := {|
  li_code := "no_policy";
  li_message := "The project has no architecture policy, so no policy rule constrained this architecture." |}.
Definition NO_REQUIREMENTS : Limitation := {|
  li_code := "requirements_not_provided";
  li_message := "The project's requirements were not provided, so no requirement was traced or given a verdict." |}.

Definition UNCHECKED_KINDS : list NodeKind := [CLIENT; BOUNDARY].

Definition components_not_referenced (count : nat) : py Limitation :=
  Limitation_new "components_not_referenced" (
    nat_text count +:+ " node(s) refer to no catalog component: their configuration is checked against the " +:+
    "architecture schema's property definitions only, not against what their technology supports " +:+
    "or limits.").

Definition limitations (ctx : ValidationContext) : py (list Limitation) :=
  components ←
    match vc_catalog ctx with
    | None => Ok [CATALOG_UNAVAILABLE]
    | Some _ =>
        match filter (λ n, (n_kind n ∉ UNCHECKED_KINDS) ∧ n_component n = None) (ir_nodes (vc_ir ctx)) with
        | [] => Ok []
        | unreferenced => l ← components_not_referenced (length unreferenced); Ok [l]
        end
    end;
  Ok (components
      ++ (if has_policy ctx then [] else [NO_POLICY])
      ++ match vc_requirements ctx with None => [NO_REQUIREMENTS] | Some _ => [] end).

(** * Rules *)
Inductive Input := INPUT_REQUIREMENTS | INPUT_POLICY | INPUT_CATALOG.

#[export] Instance Input_eq_dec : EqDecision Input.
Proof. solve_decision. Defined.

Record RuleMeta := {
  rm_id : string;
  rm_version : Z;
  rm_name : string;
  rm_description : points;
  rm_category : Category;
  rm_severity : Severity;
  rm_profiles : list string;
  rm_inputs : list Input;
  rm_mandatory : bool;
  rm_parameters : dict string ParamSpec;
}.

Definition input_text (i : Input) : string :=
  match i with INPUT_REQUIREMENTS => "requirements" | INPUT_POLICY => "policy" | INPUT_CATALOG => "catalog" end.

Definition type_text (t : ParamType) : string :=
  match t with PARAM_INTEGER => "integer" | PARAM_BOOLEAN => "boolean" | PARAM_TEXT => "text" end.

Definition RuleMeta_to_dict (m : RuleMeta) : dict string wide := [
  ("id", WText (rm_id m)); ("version", WInt (rm_version m)); ("name", WText (rm_name m));
  ("description", WStr (rm_description m));
  ("category", WText (value (rm_category m))); ("severity", WText (value (rm_severity m)));
  ("profiles", WArr (WText <$> sorted_set (rm_profiles m)));
  ("inputs", WArr (WText <$> sorted_set (input_text <$> rm_inputs m)));
  ("mandatory", WBool (rm_mandatory m));
  ("parameters", WObj ((λ p, (p.1, WObj [("type", WText (type_text (pm_type p.2)));
     ("description", WText (pm_description p.2)); ("default", wide_of (pm_default p.2))])) <$> by_key (rm_parameters m)))].

Record Outcome := { oc_findings : list Finding; oc_requirement_results : list RequirementResult }.

(** [Outcome()], and an outcome of findings only. *)
Definition no_outcome : Outcome := {| oc_findings := []; oc_requirement_results := [] |}.
Definition findings_only (fs : list Finding) : Outcome := {| oc_findings := fs; oc_requirement_results := [] |}.

Record Rule := {
  meta : RuleMeta;
  evaluate : ValidationContext → dict string json → py Outcome;
}.

Definition rule_id (r : Rule) : string := rm_id (meta r).

(** ** The registry *)
Definition DuplicateRule (id : string) : exn := ValueError ("rule " +:+ repr id +:+ " is already registered").

(** The rules by id, in the order they were registered. *)
Definition Registry := dict string Rule.

Definition register (reg : Registry) (r : Rule) : py Registry :=
  if decide (rule_id r ∈ dict_keys reg) then Raise (DuplicateRule (rule_id r)) else Ok (dict_set (rule_id r) r reg).

Fixpoint register_all (reg : Registry) (rules : list Rule) : py Registry :=
  match rules with [] => Ok reg | r :: rest => reg ← register reg r; register_all reg rest end.

Definition Registry_new : list Rule → py Registry := register_all [].

Definition registry_get (reg : Registry) (id : string) : option Rule := dict_get id reg.

Definition registry_rules (reg : Registry) (category : option Category) : list Rule :=
  filter (λ r, match category with Some c => bool_decide (rm_category (meta r) = c) | None => true end = true)
    (dict_values (by_key reg)).

Definition profiles (reg : Registry) : list string := dict_values reg ≫= λ r, rm_profiles (meta r).

(** ** Selection *)
Definition reason (r : string) (details : dict string json) : exn :=
  InvalidValidationConfig (("reason", JStr r) :: details).

Definition check_parameters (m : RuleMeta) (params : dict string json) : py unit :=
  match parameter_problem (rm_parameters m) params with
  | Some (name, why) => Raise (reason why [("rule_id", JStr (rm_id m)); ("parameter", JStr name)])
  | None => Ok tt
  end.

(** The rules a configuration asks for, by id. *)
Definition chosen_rules (config : ValidationConfig) (in_profile : dict string Rule) : py (dict string Rule) :=
  match cf_rules config with
  | None => Ok in_profile
  | Some ids =>
      if MAX_SELECTED_RULES <? length ids then Raise (reason "too_many_rules" [])
      else
        match sorted_set (filter (λ i, i ∉ dict_keys in_profile) ids) with
        | unknown :: _ => Raise (reason "unknown_rule" [("rule_id", JStr unknown)])
        | [] =>
            let asked := filter (λ p : string * Rule, p.1 ∈ ids) in_profile in
            Ok (dict_update asked (filter (λ p, rm_mandatory (meta p.2) = true) in_profile))
        end
  end.

(** The first rule, in id order, that is given parameters or a severity but not chosen. *)
Definition check_selected (config : ValidationConfig) (chosen : dict string Rule) : py unit :=
  match filter (λ i, i ∉ dict_keys chosen)
          (sorted_set (dict_keys (cf_parameters config) ++ dict_keys (cf_severity_overrides config))) with
  | i :: _ => Raise (reason "rule_not_selected" [("rule_id", JStr i)])
  | [] => Ok tt
  end.

Definition check_given (chosen : dict string Rule) (p : string * dict string json) : py unit :=
  match dict_get p.1 chosen with Some r => check_parameters (meta r) p.2 | None => Raise KeyError end.

Definition check_override (chosen : dict string Rule) (p : string * Severity) : py unit :=
  match dict_get p.1 chosen with
  | Some r => if rm_mandatory (meta r) then Raise (reason "mandatory_rule" [("rule_id", JStr p.1)]) else Ok tt
  | None => Raise KeyError
  end.

Definition select (reg : Registry) (config : ValidationConfig) : py (list Rule) :=
  if decide (cf_profile config ∈ profiles reg) then
    let in_profile := filter (λ p : string * Rule, cf_profile config ∈ rm_profiles (meta p.2)) (by_key reg) in
    chosen ← chosen_rules config in_profile;
    _ ← check_selected config chosen;
    _ ← py_map (check_given chosen) (by_key (cf_parameters config));
    _ ← py_map (check_override chosen) (by_key (cf_severity_overrides config));
    Ok (dict_values (by_key chosen))
  else Raise (reason "unknown_profile" [("profile", JStr (cf_profile config))]).

Definition rule_set (profile : string) (rules : list Rule) : RuleSet :=
  RuleSet_of profile ((λ r, (rule_id r, rm_version (meta r))) <$> rules).

(** * Running the rules *)

(** [apply_override]: the severity replaced; the finding is checked again, as [replace] does. *)
Definition apply_override (override : option Severity) (f : Finding) : py Finding :=
  match override with
  | None => Ok f
  | Some s =>
      let a := Finding_args f in
      Finding_new {|
        fa_rule_id := fa_rule_id a; fa_rule_version := fa_rule_version a; fa_code := fa_code a;
        fa_severity := s; fa_category := fa_category a; fa_title := fa_title a;
        fa_explanation := fa_explanation a; fa_remediation := fa_remediation a;
        fa_entity_ids := fa_entity_ids a; fa_field_paths := fa_field_paths a;
        fa_expected := fa_expected a; fa_actual := fa_actual a; fa_evidence := fa_evidence a;
        fa_blocking := fa_blocking a; fa_requirement_id := fa_requirement_id a;
        fa_policy_rule := fa_policy_rule a |}
  end.

(** A rule's output, refused when it reports in another rule's name. *)
Definition checked (m : RuleMeta) (o : Outcome) : py Outcome :=
  if forallb (λ f, String.eqb (f_rule_id f) (rm_id m) && (f_rule_version f =? rm_version m)%Z) (oc_findings o)
     && forallb (λ r, String.eqb (rr_rule_id r) (rm_id m)) (oc_requirement_results o)
  then Ok o else Raise (InvalidFinding ["rule_id"]).

Definition is_InvalidFinding (e : exn) : bool :=
  match e with DomainError code _ _ => String.eqb code "invalid_validation_finding" | _ => false end.

Definition rule_failure (m : RuleMeta) (e : exn) : RuleFailure :=
  if is_InvalidFinding e
  then {| rf_rule_id := rm_id m; rf_rule_version := rm_version m; rf_error := "invalid_output";
          rf_message := "The rule produced a malformed result." |}
  else {| rf_rule_id := rm_id m; rf_rule_version := rm_version m; rf_error := "unexpected_error";
          rf_message := "The rule could not run." |}.

(** One rule: its parameters, then what it gives, if it gives what the contract says. *)
Definition run_rule (ctx : ValidationContext) (r : Rule) : py Outcome :=
  let given := default [] (dict_get (rule_id r) (cf_parameters (vc_config ctx))) in
  o ← evaluate r ctx (with_defaults (rm_parameters (meta r)) given);
  checked (meta r) o.

Record progress := {
  pg_findings : list Finding;
  pg_verdicts : list RequirementResult;
  pg_failures : list RuleFailure;
}.

Definition rule_step (ctx : ValidationContext) (st : progress) (r : Rule) : py progress :=
  match run_rule ctx r with
  | Raise e =>
      Ok {| pg_findings := pg_findings st; pg_verdicts := pg_verdicts st;
            pg_failures := pg_failures st ++ [rule_failure (meta r) e] |}
  | Ok o =>
      fs ← py_map (apply_override (dict_get (rule_id r) (cf_severity_overrides (vc_config ctx)))) (oc_findings o);
      Ok {| pg_findings := pg_findings st ++ fs; pg_verdicts := pg_verdicts st ++ oc_requirement_results o;
            pg_failures := pg_failures st |}
  end.

Fixpoint rules_loop (ctx : ValidationContext) (st : progress) (rules : list Rule) : py progress :=
  match rules with [] => Ok st | r :: rest => st ← rule_step ctx st r; rules_loop ctx st rest end.

Definition no_progress : progress := {| pg_findings := []; pg_verdicts := []; pg_failures := [] |}.

Definition components_used (ctx : ValidationContext) (rules : list Rule) : py (dict string string) :=
  if existsb (λ r, bool_decide (INPUT_CATALOG ∈ rm_inputs (meta r))) rules
  then components ← component_specifications ctx; Ok (default [] components)
  else Ok [].

Definition validate (ctx : ValidationContext) (reg : Registry) : py ValidationResult :=
  rules ← select reg (vc_config ctx);
  st ← rules_loop ctx no_progress rules;
  fingerprint ← context_fingerprint ctx;
  limits ← limitations ctx;
  components ← components_used ctx rules;
  Ok (ValidationResult_new {|
    vr_rule_set := rule_set (cf_profile (vc_config ctx)) rules;
    vr_context_fingerprint := fingerprint;
    vr_findings := pg_findings st;
    vr_requirement_results := pg_verdicts st;
    vr_failures := pg_failures st;
    vr_limitations := limits;
    vr_components := components |}).

(** [DeterministicValidationEngine.validate]. *)
Definition engine_validate (reg : Registry) (c : option catalog) (ir : ArchitectureIR) (revision : RevisionInfo)
    (requirements : list Requirement) (policy : option ArchitecturePolicy) (config : ValidationConfig) :
    py ValidationResult :=
  validate {| vc_ir := ir; vc_revision := revision; vc_requirements := Some requirements; vc_config := config;
              vc_policy := policy; vc_catalog := c |} reg.

(** [DeterministicValidationEngine.rules]. *)
Definition engine_rules (reg : Registry) : list (dict string wide) :=
  (λ r, RuleMeta_to_dict (meta r)) <$> registry_rules reg None.

(** ** Reporting ([findings.py]) *)

(** What a rule says of one finding; the rest comes from its metadata. *)
Record report := {
  rp_code : string;
  rp_title : points;
  rp_explanation : points;
  rp_remediation : points;
  rp_entity_ids : list string;
  rp_field_paths : list string;
  rp_expected : option points;
  rp_actual : option points;
  rp_evidence : list (string * string);
  rp_severity : option Severity;
  rp_blocking : bool;
  rp_requirement_id : option string;
  rp_policy_rule : option string;
}.

Definition finding (m : RuleMeta) (p : report) : py Finding :=
  Finding_new {|
    fa_rule_id := WText (rm_id m); fa_rule_version := WInt (rm_version m); fa_code := WText (rp_code p);
    fa_severity := default (rm_severity m) (rp_severity p); fa_category := rm_category m;
    fa_title := WStr (rp_title p); fa_explanation := WStr (rp_explanation p);
    fa_remediation := WStr (rp_remediation p); fa_entity_ids := WText <$> rp_entity_ids p;
    fa_field_paths := WText <$> rp_field_paths p; fa_expected := of_opt_points (rp_expected p);
    fa_actual := of_opt_points (rp_actual p);
    fa_evidence := (λ e, (WText e.1, WText e.2)) <$> rp_evidence p; fa_blocking := WBool (rp_blocking p);
    fa_requirement_id := of_opt_points (points_of <$> rp_requirement_id p);
    fa_policy_rule := of_opt_points (points_of <$> rp_policy_rule p) |}.

(** What a rule says of one requirement. *)
Record judgement := {
  ju_requirement_id : string;
  ju_reference : string;
  ju_version : Z;
  ju_verdict : Verdict;
  ju_reason : points;
  ju_entity_ids : list string;
  ju_evidence : list (string * string);
}.

Definition verdict (m : RuleMeta) (j : judgement) : py RequirementResult :=
  RequirementResult_new {|
    ra_requirement_id := WText (ju_requirement_id j); ra_reference := WText (ju_reference j);
    ra_requirement_version := WInt (ju_version j); ra_verdict := ju_verdict j; ra_reason := WStr (ju_reason j);
    ra_rule_id := WText (rm_id m); ra_entity_ids := WText <$> ju_entity_ids j;
    ra_evidence := (λ e, (WText e.1, WText e.2)) <$> ju_evidence j |}.

(** [Outcome(tuple(finding(...) for ...))]. *)
Definition outcome_of (m : RuleMeta) (reports : list report) : py Outcome := findings_only <$> py_map (finding m) reports.
End engine.
