(* ===== verification/ValidationRules.v ===== *)
(** The built-in validation rules on structure, completeness and configuration
    (src/engines/validation/rules: consistency.py, completeness.py, configuration.py).

    Each rule lists what it reports of an architecture; [outcome_of] makes the findings. *)
From Stdlib Require Import Ascii ZArith.
From S2P Require Import Prelude Data Errors Codecs JsonText Component Configuration Elements Model Topology Kosaraju Findings ValidationEngine.

Declare Scope text_scope.
Notation "‹ s ›" := (points_of s) (at level 0, s at level 200) : text_scope.
#[local] Open Scope text_scope.

(** * Texts *)

(** [str] and [repr] of a configuration value. *)
Fixpoint py_repr (j : json) : string :=
  match j with
  | JNull => "None"
  | JBool b => if b then "True" else "False"
  | JInt z => Z_text z
  | JDec d => "Decimal('" +:+ dec_str d +:+ "')"
  | JStr s => repr s
  | JArr [x] => "(" +:+ py_repr x +:+ ",)"
  | JArr l => "(" +:+ join ", " (py_repr <$> l) +:+ ")"
  | JObj m => "{" +:+ join ", " ((fix go (m : dict string json) : list string :=
                match m with [] => [] | p :: r => (repr p.1 +:+ ": " +:+ py_repr p.2) :: go r end) m) +:+ "}"
  end.

Definition py_str (j : json) : string :=
  match j with JStr s => s | JDec d => dec_str d | _ => py_repr j end.

(** [isinstance(value, int)]: a [bool] is one. *)
Definition as_int (j : json) : option Z :=
  match j with JInt z => Some z | JBool b => Some (if b then 1 else 0)%Z | _ => None end.

(** [config.get(name)], [None] when it is not stated. *)
Definition setting (c : Configuration) (name : string) : json := default JNull (get c name).

(** [c.name or c.id]. *)
Definition label (c : Connection) : string :=
  match c_name c with Some n => if String.eqb n "" then c_id c else n | None => c_id c end.

(** The first [n] of a list of names, and whether there are more. *)
Definition some_of (n : nat) (names : list string) : points :=
  ‹join ", " (take n names)› ++ (if n <? length names then ‹", "› ++ [ELLIPSIS] else []).

(** * Building reports *)
Definition says (code : string) (title explanation remediation : points) (entity_ids field_paths : list string) : report := {|
  rp_code := code; rp_title := title; rp_explanation := explanation; rp_remediation := remediation;
  rp_entity_ids := entity_ids; rp_field_paths := field_paths; rp_expected := None; rp_actual := None;
  rp_evidence := []; rp_severity := None; rp_blocking := false; rp_requirement_id := None; rp_policy_rule := None |}.

Definition expecting (expected actual : points) (p : report) : report := {|
  rp_code := rp_code p; rp_title := rp_title p; rp_explanation := rp_explanation p;
  rp_remediation := rp_remediation p; rp_entity_ids := rp_entity_ids p; rp_field_paths := rp_field_paths p;
  rp_expected := Some expected; rp_actual := Some actual; rp_evidence := rp_evidence p;
  rp_severity := rp_severity p; rp_blocking := rp_blocking p; rp_requirement_id := rp_requirement_id p;
  rp_policy_rule := rp_policy_rule p |}.

Definition with_evidence (evidence : list (string * string)) (p : report) : report := {|
  rp_code := rp_code p; rp_title := rp_title p; rp_explanation := rp_explanation p;
  rp_remediation := rp_remediation p; rp_entity_ids := rp_entity_ids p; rp_field_paths := rp_field_paths p;
  rp_expected := rp_expected p; rp_actual := rp_actual p; rp_evidence := evidence;
  rp_severity := rp_severity p; rp_blocking := rp_blocking p; rp_requirement_id := rp_requirement_id p;
  rp_policy_rule := rp_policy_rule p |}.

Definition graded (severity : Severity) (p : report) : report := {|
  rp_code := rp_code p; rp_title := rp_title p; rp_explanation := rp_explanation p;
  rp_remediation := rp_remediation p; rp_entity_ids := rp_entity_ids p; rp_field_paths := rp_field_paths p;
  rp_expected := rp_expected p; rp_actual := rp_actual p; rp_evidence := rp_evidence p;
  rp_severity := Some severity; rp_blocking := rp_blocking p; rp_requirement_id := rp_requirement_id p;
  rp_policy_rule := rp_policy_rule p |}.

Definition under_policy (blocking : bool) (policy_rule : string) (p : report) : report := {|
  rp_code := rp_code p; rp_title := rp_title p; rp_explanation := rp_explanation p;
  rp_remediation := rp_remediation p; rp_entity_ids := rp_entity_ids p; rp_field_paths := rp_field_paths p;
  rp_expected := rp_expected p; rp_actual := rp_actual p; rp_evidence := rp_evidence p;
  rp_severity := rp_severity p; rp_blocking := blocking; rp_requirement_id := rp_requirement_id p;
  rp_policy_rule := Some policy_rule |}.

Definition ALL_PROFILES : list string := ["default"; "strict"].

(** [RuleMeta(id, 1, ...)] of a rule of every profile, without inputs. *)
Definition plain_meta (id name description : string) (category : Category) (severity : Severity) : RuleMeta := {|
  rm_id := id; rm_version := 1; rm_name := name; rm_description := ‹description›; rm_category := category;
  rm_severity := severity; rm_profiles := ALL_PROFILES; rm_inputs := []; rm_mandatory := false;
  rm_parameters := [] |}.

Section rules.
Context `{ComponentCatalog}.

(** A rule that lists its reports and reads no parameter. *)
Definition reporting (m : RuleMeta) (reports : ValidationContext → list report) : Rule :=
  {| meta := m; evaluate ctx _ := outcome_of m (reports ctx) |}.

(** * Structure *)

(** ** Disconnected components *)
Definition disconnected_report (n : Node) : report :=
  expecting ‹"at least one connection"› ‹"no connections"›
    (says "disconnected"
       ‹n_name n +:+ " is not connected to anything"›
       ‹"The " +:+ value (n_kind n) +:+ " " +:+ repr (n_name n) +:+ " has no incoming or outgoing connection, so "
        +:+ "nothing uses it and it uses nothing: it is either missing its connections "
        +:+ "or not part of this architecture."›
       ‹"Connect it to the components it serves or uses, or remove it."›
       [n_id n] ["connections"]).

Definition disconnected_nodes (t : Topology) : list Node :=
  if length (components t) <? 2 then []
  else filter (λ n, incoming t (n_id n) [] = [] ∧ outgoing t (n_id n) [] = []) (components t).

Definition DisconnectedComponents : Rule :=
  reporting
    (plain_meta "structure.disconnected-component" "Disconnected components"
       "Every component takes part in the architecture: it has at least one connection." STRUCTURE MEDIUM)
    (λ ctx, disconnected_report <$> disconnected_nodes (topology ctx)).

(** ** Empty boundaries *)
Definition empty_boundary_report (n : Node) : report :=
  expecting ‹"at least one node inside"› ‹"no nodes"›
    (says "empty_boundary"
       ‹"The boundary " +:+ n_name n +:+ " is empty"›
       ‹repr (n_name n) +:+ " delimits nothing: no node has it as its parent, so it "
        +:+ "places, isolates or groups nothing."›
       ‹"Move the nodes it should contain into it, or remove it."›
       [n_id n] []).

Definition EmptyBoundaries : Rule :=
  reporting
    (plain_meta "structure.empty-boundary" "Empty boundaries" "Every boundary contains at least one node." STRUCTURE LOW)
    (λ ctx, empty_boundary_report <$>
       filter (λ n, children (topology ctx) (n_id n) = []) (nodes_of_kind (topology ctx) [BOUNDARY])).

(** ** Synchronous cycles *)

(** At most as many ids as a finding may name. *)
Definition capped (ids : list string) : list string := take MAX_REFERENCES (sorted_set ids).

(** The requests the source waits on; one whose interaction is not stated, if asked for. *)
Definition waiting_calls (ir : ArchitectureIR) (include_unstated : bool) : list Connection :=
  filter (λ c, c_kind c = REQUEST ∧
    match c_interaction c with Some i => bool_decide (i = SYNCHRONOUS) | None => include_unstated end = true)
    (ir_connections ir).

Definition call_edges (calls : list Connection) : dict string (list string) :=
  foldl (λ edges c, append_to edges (c_source_id c) (c_target_id c)) [] calls.

Definition called_nodes (calls : list Connection) : list string :=
  sorted_set ((c_source_id <$> calls) ++ (c_target_id <$> calls)).

Definition call_cycles (calls : list Connection) : list (list string) :=
  filter (λ group, 1 < length group) (strongly_connected (call_edges calls) (called_nodes calls)).

Definition cycle_report (calls : list Connection) (group : list string) : report :=
  let connections := filter (λ c, c_source_id c ∈ group ∧ c_target_id c ∈ group) calls in
  with_evidence [("components", nat_text (length group)); ("requests", nat_text (length connections))]
    (expecting ‹"no synchronous request cycle"› (‹"a cycle through "› ++ some_of 10 group)
       (says "synchronous_cycle"
          ‹nat_text (length group) +:+ " components call each other in a synchronous cycle"›
          ‹"These components reach each other through synchronous requests only. A slow or "
           +:+ "failed call anywhere in the cycle can hold every one of them, and a request can "
           +:+ "end up waiting on itself."›
          ‹"Break the cycle: make one of the calls asynchronous (an event or a queue), move "
           +:+ "the shared logic into one component, or invert one dependency."›
          (capped (group ++ (c_id <$> connections))) [])).

Definition SynchronousCycles_meta : RuleMeta := {|
  rm_id := "structure.synchronous-cycle"; rm_version := 1; rm_name := "Synchronous request cycles";
  rm_description := ‹"No group of components calls itself back synchronously: each would wait on the others."›;
  rm_category := STRUCTURE; rm_severity := HIGH; rm_profiles := ALL_PROFILES; rm_inputs := [];
  rm_mandatory := false;
  rm_parameters := [("include_unstated", {|
    pm_type := PARAM_BOOLEAN;
    pm_description := "Treat requests whose interaction is not stated as synchronous (a request expects a response).";
    pm_default := JBool true; pm_minimum := None; pm_maximum := None; pm_choices := [] |})] |}.

Definition SynchronousCycles : Rule := {|
  meta := SynchronousCycles_meta;
  evaluate ctx parameters :=
    match dict_get "include_unstated" parameters with
    | None => Raise KeyError
    | Some unstated =>
        let calls := waiting_calls (vc_ir ctx) (truthy unstated) in
        outcome_of SynchronousCycles_meta (cycle_report calls <$> call_cycles calls)
    end |}.

(** ** Deprecated components *)
Definition is_deprecated (n : Node) : bool := bool_decide (n_lifecycle n = Some DEPRECATED).

Definition depends_on_deprecated (c : Connection) (source target : Node) : report :=
  expecting ‹"a target that is not deprecated"› ‹"deprecated"›
    (says "depends_on_deprecated"
       ‹n_name source +:+ " depends on the deprecated " +:+ n_name target›
       ‹repr (n_name target) +:+ " is deprecated (being replaced or retired), but "
        +:+ repr (n_name source) +:+ ", which is staying, still relies on it through "
        +:+ repr (c_id c) +:+ "."›
       ‹"Move the connection to the replacement, or plan the migration before "
        +:+ "the deprecated component is retired."›
       [c_id c; n_id source; n_id target] ["target_id"]).

Definition deprecated_source (c : Connection) (source target : Node) : report :=
  graded LOW
    (says "deprecated_source"
       ‹"The deprecated " +:+ n_name source +:+ " still uses " +:+ n_name target›
       ‹repr (n_name source) +:+ " is deprecated but still connects to " +:+ repr (n_name target) +:+ " "
        +:+ "through " +:+ repr (c_id c) +:+ "; the connection goes when it is retired."›
       ‹"Check that nothing still needs this traffic once it is retired."›
       [c_id c; n_id source; n_id target] ["source_id"]).

Definition deprecated_reports (t : Topology) (c : Connection) : list report :=
  match node t (c_source_id c), node t (c_target_id c) with
  | Some source, Some target =>
      if is_deprecated target && negb (is_deprecated source) then [depends_on_deprecated c source target]
      else if is_deprecated source && negb (is_deprecated target) then [deprecated_source c source target]
      else []
  | _, _ => []
  end.

Definition DeprecatedConnections : Rule :=
  reporting
    (plain_meta "structure.deprecated-dependency" "Connections involving deprecated components"
       "Components that are staying do not depend on components being retired." STRUCTURE MEDIUM)
    (λ ctx, ir_connections (vc_ir ctx) ≫= deprecated_reports (topology ctx)).

(** ** Schema version *)
Definition upgraded_report (stored : Z) : report :=
  expecting ‹Z_text IR_SCHEMA_VERSION› ‹Z_text stored›
    (says "upgraded_on_read"
       ‹"This revision uses an older schema version"›
       ‹"The revision was stored in IR schema version " +:+ Z_text stored +:+ " and upgraded to version "
        +:+ Z_text IR_SCHEMA_VERSION +:+ " to be validated. Upgrades never change what the architecture "
        +:+ "says; values they had to introduce are marked as such."›
       ‹"Save a new revision to store it in the current schema version."›
       [] ["schema_version"]).

Definition SchemaVersion : Rule :=
  reporting
    {| rm_id := "structure.schema-version"; rm_version := 1; rm_name := "Schema version";
       rm_description := ‹"The revision is stored in the current IR schema version."›;
       rm_category := STRUCTURE; rm_severity := INFO; rm_profiles := ALL_PROFILES; rm_inputs := [];
       rm_mandatory := true; rm_parameters := [] |}
    (λ ctx, let stored := ri_schema_version (vc_revision ctx) in
       if (IR_SCHEMA_VERSION <=? stored)%Z then [] else [upgraded_report stored]).

Definition STRUCTURE_RULES : list Rule :=
  [DisconnectedComponents; EmptyBoundaries; SynchronousCycles; DeprecatedConnections; SchemaVersion].

(** * Completeness *)
Definition unknown_report (element element_id name : string) (keys : list string) : report :=
  let several := 1 <? length keys in
  expecting ‹"a known value"› ‹"unknown"›
    (says "unknown_value"
       ‹nat_text (length keys) +:+ " unknown value" +:+ (if several then "s" else "") +:+ " on " +:+ name›
       ‹"The " +:+ element +:+ " " +:+ repr name +:+ " does not say what " +:+ join ", " keys +:+ " "
        +:+ (if several then "are" else "is") +:+ ". Rules that need these values cannot "
        +:+ "check them, and nothing assumes a default in their place."›
       ‹"Provide the values, or confirm them from the running system."›
       [element_id] ((λ key, "configuration." +:+ key) <$> keys)).

Definition configured (ir : ArchitectureIR) : list (string * string * string * Configuration) :=
  ((λ n, ("node", n_id n, n_name n, n_configuration n)) <$> ir_nodes ir)
  ++ ((λ c, ("connection", c_id c, label c, c_configuration c)) <$> ir_connections ir).

Definition UnknownValues : Rule :=
  reporting
    (plain_meta "completeness.unknown-values" "Unknown values"
       "Configuration properties marked as unknown are reported, one finding per element." COMPLETENESS LOW)
    (λ ctx, (λ '(element, element_id, name, c), unknown_report element element_id name (sort_by str_leb (unknown c)))
       <$> filter (λ p, unknown p.2 ≠ []) (configured (vc_ir ctx))).

Definition COMPLETENESS_RULES : list Rule := [UnknownValues].

(** * Configuration *)

(** ** Replicas within the autoscaling range *)
Definition bound_or_ellipsis (bound : json) : points :=
  if is_none bound then [ELLIPSIS] else ‹py_str bound›.

(** U+2264, less than or equal to. *)
Definition AT_MOST : points := ‹" "› ++ [8804%Z] ++ ‹" "›.

Definition replicas_report (n : Node) (replicas low high : json) (bound : string) (v : json) : report :=
  expecting (bound_or_ellipsis low ++ AT_MOST ++ ‹"replicas"› ++ AT_MOST ++ bound_or_ellipsis high) ‹py_str replicas›
    (says "replicas_outside_autoscaling"
       ‹n_name n +:+ " runs " +:+ py_str replicas +:+ " replicas outside its autoscaling range"›
       ‹"replicas is " +:+ py_str replicas +:+ " but " +:+ bound +:+ " is " +:+ py_str v +:+ ": the autoscaler "
        +:+ "would change the replica count as soon as it runs, so one of the "
        +:+ "values does not describe the system."›
       ‹"Align replicas with the autoscaling range, or correct the range."›
       [n_id n] ["configuration.replicas"; "configuration." +:+ bound]).

Definition replicas_reports (n : Node) : list report :=
  let c := n_configuration n in
  let low := setting c "autoscaling_min_replicas" in
  let high := setting c "autoscaling_max_replicas" in
  match as_int (setting c "replicas") with
  | None => []
  | Some replicas =>
      let report := replicas_report n (setting c "replicas") low high in
      (if (if as_int low is Some l then (replicas <? l)%Z else false)
       then [report "autoscaling_min_replicas" low] else [])
      ++ (if (if as_int high is Some h then (h <? replicas)%Z else false)
          then [report "autoscaling_max_replicas" high] else [])
  end.

Definition ReplicasWithinAutoscaling : Rule :=
  reporting
    (plain_meta "configuration.replicas-autoscaling" "Replicas within the autoscaling range"
       "A stated replica count lies between the autoscaler's minimum and maximum." CONFIGURATION MEDIUM)
    (λ ctx, ir_nodes (vc_ir ctx) ≫= replicas_reports).

(** ** Availability zones *)
Definition ZONE_PATHS : list string := ["configuration.multi_az"; "configuration.availability_zones"].

Definition zone_reports (n : Node) : list report :=
  match setting (n_configuration n) "multi_az", setting (n_configuration n) "availability_zones" with
  | JBool multi_az, JArr zones =>
      if multi_az && (length zones <? 2) then
        [expecting ‹"at least 2 zones"› ‹nat_text (length zones) +:+ " zone"›
           (says "multi_az_single_zone"
              ‹n_name n +:+ " is multi-AZ in a single zone"›
              ‹"multi_az is true but only one availability zone is listed, so a zone "
               +:+ "failure would take the component down despite the multi-AZ claim."›
              ‹"List every zone it runs in, or set multi_az to false."›
              [n_id n] ZONE_PATHS)]
      else if negb multi_az && (2 <=? length zones) then
        [graded LOW (expecting ‹"multi_az true"› ‹"false"›
           (says "zones_without_multi_az"
              ‹n_name n +:+ " lists " +:+ nat_text (length zones) +:+ " zones but is not multi-AZ"›
              ‹"multi_az is false while several availability zones are listed."›
              ‹"Set multi_az to true, or list the one zone it runs in."›
              [n_id n] ZONE_PATHS))]
      else []
  | _, _ => []
  end.

Definition ZonesMatchMultiAz : Rule :=
  reporting
    (plain_meta "configuration.availability-zones" "Availability zones agree with multi-AZ"
       "multi_az and availability_zones, when both are stated, say the same thing." CONFIGURATION MEDIUM)
    (λ ctx, ir_nodes (vc_ir ctx) ≫= zone_reports).

(** ** Backups *)
Definition BACKUP_PATHS : list string := ["configuration.backup_enabled"; "configuration.backup_retention_seconds"].

Definition backup_reports (n : Node) : list report :=
  match setting (n_configuration n) "backup_enabled", as_int (setting (n_configuration n) "backup_retention_seconds") with
  | JBool enabled, Some retention =>
      if enabled && (retention =? 0)%Z then
        [expecting ‹"a retention above 0 seconds"› ‹"0"›
           (says "backups_not_retained"
              ‹n_name n +:+ " takes backups but keeps none"›
              ‹"backup_enabled is true while backup_retention_seconds is 0."›
              ‹"Set how long backups are kept."›
              [n_id n] BACKUP_PATHS)]
      else if negb enabled && (0 <? retention)%Z then
        [graded LOW
           (says "retention_without_backups"
              ‹n_name n +:+ " has a backup retention but no backups"›
              ‹"backup_retention_seconds is set while backup_enabled is false."›
              ‹"Enable backups, or remove the retention."›
              [n_id n] BACKUP_PATHS)]
      else []
  | _, _ => []
  end.

Definition BackupsRetained : Rule :=
  reporting
    (plain_meta "configuration.backups" "Backups and their retention agree"
       "Enabled backups are kept for some time; a retention period implies backups." CONFIGURATION MEDIUM)
    (λ ctx, ir_nodes (vc_ir ctx) ≫= backup_reports).

(** ** Retries and timeouts *)
Definition WAITING : list ConnectionKind := [REQUEST; DATA_ACCESS].

(** A connection the source waits on, that retries, and neither states its timeout nor marks it unknown. *)
Definition retries_forever (c : Connection) : bool :=
  let config := c_configuration c in
  bool_decide (c_kind c ∈ WAITING) && bool_decide (c_interaction c ≠ Some ASYNCHRONOUS)
  && (if as_int (setting config "retries") is Some r then negb (r =? 0)%Z else false)
  && is_none (setting config "timeout_seconds") && negb (is_unknown config "timeout_seconds").

Definition retries_report (c : Connection) : report :=
  expecting ‹"a timeout"› ‹"none stated"›
    (says "retries_without_timeout"
       ‹label c +:+ " retries without a timeout"›
       ‹"The connection retries " +:+ py_str (setting (c_configuration c) "retries")
        +:+ " times but states no timeout, so a target "
        +:+ "that stops answering holds the caller for as long as the platform default, "
        +:+ "once per retry."›
       ‹"State timeout_seconds for this connection."›
       [c_id c] ["configuration.retries"; "configuration.timeout_seconds"]).

Definition RetriesNeedTimeouts : Rule :=
  reporting
    (plain_meta "configuration.retries-without-timeout" "Retries have a timeout"
       "A connection the source waits on and retries also states how long it waits." CONFIGURATION MEDIUM)
    (λ ctx, retries_report <$> filter (λ c, retries_forever c = true) (ir_connections (vc_ir ctx))).

(** ** Dead letters *)
Definition dead_letter_report (c : Connection) : report :=
  expecting ‹"a consume connection"› ‹value (c_kind c)›
    (says "dead_letter_not_consumer"
       ‹label c +:+ " has a dead-letter setting but consumes nothing"›
       ‹"dead_letter is set on a " +:+ value (c_kind c) +:+ " connection; only a consumer has messages "
        +:+ "that can keep failing and be set aside."›
       ‹"Move the setting to the connection that consumes the messages."›
       [c_id c] ["configuration.dead_letter"; "kind"]).

Definition DeadLetterOnConsumers : Rule :=
  reporting
    (plain_meta "configuration.dead-letter" "Dead-letter queues on consumers"
       "dead_letter is stated only where messages are consumed." CONFIGURATION LOW)
    (λ ctx, dead_letter_report <$>
       filter (λ c, setting (c_configuration c) "dead_letter" = JBool true ∧ c_kind c ≠ CONSUME)
         (ir_connections (vc_ir ctx))).

Definition CONFIGURATION_RULES : list Rule :=
  [ReplicasWithinAutoscaling; ZonesMatchMultiAz; BackupsRetained; RetriesNeedTimeouts; DeadLetterOnConsumers].
End rules.
