(* ===== verification/PolicyRules.v ===== *)
(** The built-in policy rules (src/engines/validation/rules/policy.py): one rule per field of the project's
    architecture policy. A violation blocks; what the architecture does not state is reported apart,
    without blocking. *)
From Stdlib Require Import Ascii ZArith.
From S2P Require Import Prelude Data Errors Codecs JsonText Component Configuration Elements Model Topology Projects Findings ValidationEngine ValidationRules.
#[local] Open Scope text_scope.

(** Nodes that need not state a technology. *)
Definition TECHNOLOGY_OPTIONAL : list NodeKind := [CLIENT; EXTERNAL; BOUNDARY].

Definition policy_meta (id name : string) (description : points) : RuleMeta := {|
  rm_id := id; rm_version := 1; rm_name := name; rm_description := description; rm_category := POLICY;
  rm_severity := HIGH; rm_profiles := ALL_PROFILES; rm_inputs := [INPUT_POLICY]; rm_mandatory := true;
  rm_parameters := [] |}.

(** [policy.require_tls], and the flags alike. *)
Definition policy_requires (p : ArchitecturePolicy) (flag : string) : bool := get_or false flag (pl_flags p).

(** The names a policy allows, in order, at most twenty. *)
Definition shown (allowed : list string) : points := some_of 20 (sort_by str_leb allowed).

(** * Technologies *)
Definition technology_unstated (n : Node) : report :=
  graded LOW (under_policy false "allowed_technologies"
    (says "technology_unstated"
       ‹n_name n +:+ " does not state its technology"›
       ‹"The policy allows only some technologies, and this component does not "
        +:+ "say which one it uses, so it cannot be shown to comply."›
       ‹"State the component's technology."›
       [n_id n] ["technology"])).

Definition prohibited_technology (n : Node) (name : string) : report :=
  under_policy true "prohibited_technologies" (expecting ‹"not " +:+ name› ‹name›
    (says "prohibited_technology"
       ‹n_name n +:+ " uses " +:+ name +:+ ", which the project prohibits"›
       ‹"The project's architecture policy prohibits " +:+ name +:+ "."›
       ‹"Replace it with a technology the policy allows."›
       [n_id n] ["technology.name"])).

Definition technology_not_allowed (n : Node) (name : string) (allowed : list string) : report :=
  under_policy true "allowed_technologies" (expecting (‹"one of: "› ++ shown allowed) ‹name›
    (says "technology_not_allowed"
       ‹n_name n +:+ " uses " +:+ name +:+ ", which the project does not allow"›
       (‹"The project's architecture policy allows only: "› ++ shown allowed ++ ‹"."›)
       ‹"Use an allowed technology, or have the policy extended."›
       [n_id n] ["technology.name"])).

Definition technology_reports (p : ArchitecturePolicy) (n : Node) : list report :=
  let allowed := pl_allowed_technologies p in
  match n_technology n with
  | None =>
      if negb (bool_decide (allowed = [])) && bool_decide (n_kind n ∉ TECHNOLOGY_OPTIONAL)
      then [technology_unstated n] else []
  | Some t =>
      if decide (t_name t ∈ pl_prohibited_technologies p) then [prohibited_technology n (t_name t)]
      else if negb (bool_decide (allowed = [])) && bool_decide (t_name t ∉ allowed)
      then [technology_not_allowed n (t_name t) allowed] else []
  end.

(** * Regions *)
Definition region_unknown (n : Node) : report :=
  graded LOW (under_policy false "allowed_regions"
    (says "region_unknown"
       ‹"The region of " +:+ n_name n +:+ " is unknown"›
       ‹"The policy restricts regions, and this element's region is not known."›
       ‹"State the region, or confirm it from the running system."›
       [n_id n] ["configuration.region"])).

Definition region_not_allowed (n : Node) (region : string) (allowed : list string) : report :=
  under_policy true "allowed_regions" (expecting (‹"one of: "› ++ shown allowed) ‹region›
    (says "region_not_allowed"
       ‹n_name n +:+ " is placed in " +:+ region +:+ ", which the project does not allow"›
       (‹"The project's architecture policy allows only: "› ++ shown allowed ++ ‹"."›)
       ‹"Move it to an allowed region, or have the policy extended."›
       [n_id n] ["configuration.region"])).

Definition region_reports (allowed : list string) (n : Node) : list report :=
  if is_unknown (n_configuration n) "region" then [region_unknown n]
  else
    match setting (n_configuration n) "region" with
    | JStr region => if decide (region ∈ allowed) then [] else [region_not_allowed n region allowed]
    | _ => []
    end.

(** * Encryption in transit *)
Definition tls_disabled (c : Connection) : report :=
  under_policy true "require_tls" (expecting ‹"true"› ‹"false"›
    (says "tls_disabled"
       ‹label c +:+ " is not encrypted in transit"›
       ‹"The project requires TLS on every connection; this one has tls false."›
       ‹"Enable TLS on the connection."›
       [c_id c] ["configuration.tls"])).

Definition tls_unstated (c : Connection) (unknown : bool) : report :=
  graded MEDIUM (under_policy false "require_tls"
    (expecting ‹"true"› ‹if unknown then "unknown" else "not stated"›
      (says "tls_unstated"
         ‹label c +:+ " does not show that it is encrypted"›
         ‹"The project requires TLS on every connection; "
          +:+ (if unknown then "whether this one uses it is unknown." else "this one does not say.")›
         ‹"State tls for the connection (or use an encrypted protocol)."›
         [c_id c] ["configuration.tls"]))).

(** [c.protocol in ENCRYPTED_PROTOCOLS]. *)
Definition encrypted_protocol (c : Connection) : bool :=
  match c_protocol c with Some p => bool_decide (p ∈ ENCRYPTED_PROTOCOLS) | None => false end.

Definition tls_reports (c : Connection) : list report :=
  if communicates (c_kind c) then
    match setting (c_configuration c) "tls" with
    | JBool false => [tls_disabled c]
    | JNull => if encrypted_protocol c then [] else [tls_unstated c (is_unknown (c_configuration c) "tls")]
    | _ => []
    end
  else [].

(** * Component count *)
Definition too_many_components (count : nat) (limit : Z) : report :=
  with_evidence [("components", nat_text count); ("limit", Z_text limit)]
    (under_policy true "max_components" (expecting ‹"at most " +:+ Z_text limit› ‹nat_text count›
      (says "too_many_components"
         ‹nat_text count +:+ " components, more than the " +:+ Z_text limit +:+ " the project allows"›
         ‹"The project's architecture policy caps the number of components."›
         ‹"Consolidate components, or have the limit raised."›
         [] ["nodes"]))).

(** * The rules *)
Section rules.
Context `{ComponentCatalog}.

(** What a rule reports under the policy, if there is one that constrains something. *)
Definition under (reports : ArchitecturePolicy → ArchitectureIR → list report) (ctx : ValidationContext) : list report :=
  match policy_of ctx with Some p => reports p (vc_ir ctx) | None => [] end.

Definition technologies_of (p : ArchitecturePolicy) (ir : ArchitectureIR) : list report :=
  if bool_decide (pl_allowed_technologies p = []) && bool_decide (pl_prohibited_technologies p = []) then []
  else ir_nodes ir ≫= technology_reports p.

Definition regions_of (p : ArchitecturePolicy) (ir : ArchitectureIR) : list report :=
  if decide (pl_allowed_regions p = []) then [] else ir_nodes ir ≫= region_reports (pl_allowed_regions p).

Definition tls_of (p : ArchitecturePolicy) (ir : ArchitectureIR) : list report :=
  if policy_requires p "require_tls" then ir_connections ir ≫= tls_reports else [].

Definition count_of_components (p : ArchitecturePolicy) (ir : ArchitectureIR) : list report :=
  let count := length (components (Topology_of ir)) in
  match pl_max_components p with
  | Some limit => if (Z.of_nat count <=? limit)%Z then [] else [too_many_components count limit]
  | None => []
  end.

Definition Technologies : Rule :=
  reporting
    (policy_meta "policy.technology" "Technologies allowed by policy"
       ‹"No prohibited technology is used and, when the policy lists allowed technologies, only those are."›)
    (under technologies_of).

Definition Regions : Rule :=
  reporting
    (policy_meta "policy.region" "Regions allowed by policy"
       ‹"Every stated region (of a node or a boundary) is one the policy allows. Availability "
        +:+ "zones are not interpreted: their naming differs between providers."›)
    (under regions_of).

Definition EncryptionInTransit : Rule :=
  reporting
    (policy_meta "policy.tls" "Encryption in transit"
       (‹"When the policy requires TLS, every communicating connection is encrypted: tls is true, "
        +:+ "or its protocol is encrypted by definition (https, wss, "› ++ [ELLIPSIS] ++ ‹")."›))
    (under tls_of).

Definition ComponentCount : Rule :=
  reporting
    (policy_meta "policy.component-count" "Component count"
       ‹"The architecture has at most as many components as the policy allows (boundaries are not "
        +:+ "components)."›)
    (under count_of_components).

Definition POLICY_RULES : list Rule := [Technologies; Regions; EncryptionInTransit; ComponentCount].
End rules.
