(* ===== verification/RequirementRules.v ===== *)
(** The built-in rules on requirements and on catalog components (src/engines/validation/rules: requirements.py,
    components.py), and the registry of all the built-in rules (src/engines/validation/registry.py).

    A verdict is built before the finding of the same requirement; the first that its constructor refuses ends
    the rule. *)
From Stdlib Require Import Ascii ZArith.
From S2P Require Import Prelude Data Errors Codecs Values Traceability JsonText Component Configuration Elements Model Topology Requirements Findings ValidationEngine ValidationRules PolicyRules.
#[local] Open Scope text_scope.

(** * Reporting on a requirement *)
Definition requirement_meta (id name description : string) (severity : Severity) : RuleMeta := {|
  rm_id := id; rm_version := 1; rm_name := name; rm_description := ‹description›; rm_category := REQUIREMENTS;
  rm_severity := severity; rm_profiles := ALL_PROFILES; rm_inputs := [INPUT_REQUIREMENTS]; rm_mandatory := false;
  rm_parameters := [] |}.

(** [requirement_id=..., blocking=...]. *)
Definition of_requirement (id : string) (blocking : bool) (p : report) : report := {|
  rp_code := rp_code p; rp_title := rp_title p; rp_explanation := rp_explanation p;
  rp_remediation := rp_remediation p; rp_entity_ids := rp_entity_ids p; rp_field_paths := rp_field_paths p;
  rp_expected := rp_expected p; rp_actual := rp_actual p; rp_evidence := rp_evidence p;
  rp_severity := rp_severity p; rp_blocking := blocking; rp_requirement_id := Some id;
  rp_policy_rule := rp_policy_rule p |}.

(** * Traceability *)
Definition Traceability_meta : RuleMeta :=
  requirement_meta "requirements.traceability" "Requirement traceability"
    ("Every requirement in force is referenced by the architecture, and every reference is to a "
     +:+ "live requirement in force, at its current version when pinned.") MEDIUM.

(** The references, each with the element that makes it: none for the architecture itself. *)
Definition references_made (ir : ArchitectureIR) : list (option string * RequirementRef) :=
  ((λ ref, (None, ref)) <$> ir_requirement_refs ir)
  ++ (ir_nodes ir ≫= λ n, (λ ref, (Some (n_id n), ref)) <$> n_requirement_refs n)
  ++ (ir_connections ir ≫= λ c, (λ ref, (Some (c_id c), ref)) <$> c_requirement_refs c).

(** By the requirement they are to: who makes them, and the version they pin. *)
Definition referencing (ir : ArchitectureIR) : dict uuid (list (option string * option Z)) :=
  foldl (λ d p, append_to d (requirement_id p.2) (p.1, version p.2)) [] (references_made ir).

Definition live_requirements (rs : list Requirement) : dict uuid Requirement := dict_of ((λ r, (req_id r, r)) <$> rs).

Definition status_text (r : Requirement) : string := value (rc_status (req_content r)).

Definition unreferenced_report (r : Requirement) : report :=
  of_requirement (req_id r) false (says "unreferenced_requirement"
    ‹reference r +:+ " is not traced to the architecture"›
    ‹reference r +:+ " (" +:+ rc_title (req_content r) +:+ ") is in force, but "
     +:+ "neither the architecture nor any of its elements references it, so "
     +:+ "nothing shows which part of the design answers it."›
    ‹"Reference the requirement from the elements that address it."›
    [] ["requirement_refs"]).

Definition unknown_reference (id : string) (elements : list string) : report :=
  with_evidence [("requirement", id)] (graded LOW (says "unknown_requirement_reference"
    ‹"The architecture references a requirement the project does not have"›
    ‹"Requirement " +:+ id +:+ " is referenced but is not a live requirement of "
     +:+ "this project (it was deleted, or never belonged to it)."›
    ‹"Remove the reference, or reference the requirement that replaced it."›
    elements ["requirement_refs"])).

Definition not_in_force_report (r : Requirement) (elements : list string) : report :=
  of_requirement (req_id r) false (graded LOW (says "reference_not_in_force"
    ‹reference r +:+ " is referenced but " +:+ status_text r›
    ‹reference r +:+ " is " +:+ status_text r +:+ ", not in force, so it "
     +:+ "does not constrain the architecture."›
    ‹"Remove the reference, or activate the requirement."›
    elements ["requirement_refs"])).

Definition outdated_report (r : Requirement) (pinned : Z) (elements : list string) : report :=
  of_requirement (req_id r) false (graded INFO
    (expecting ‹"version " +:+ Z_text (req_version r)› ‹"version " +:+ Z_text pinned›
      (says "outdated_requirement_reference"
        ‹"The architecture references an older version of " +:+ reference r›
        ‹"The reference is pinned to version " +:+ Z_text pinned +:+ "; " +:+ reference r +:+ " is now "
         +:+ "at version " +:+ Z_text (req_version r) +:+ ", so the design answers a statement that has "
         +:+ "since changed."›
        ‹"Review the design against the current version and update the reference."›
        elements ["requirement_refs"]))).

(** The versions before the requirement's own that are pinned, the oldest first. *)
Definition outdated_pins (refs : list (option string * option Z)) (r : Requirement) : list Z :=
  sort_by Z_leb (dedup (filter (λ v, v < req_version r)%Z (omap snd refs))).

Definition referring_elements (refs : list (option string * option Z)) : list string := capped (omap fst refs).

(** [_reference_findings]. *)
Definition reference_reports (id : uuid) (refs : list (option string * option Z)) (live : option Requirement) : list report :=
  let elements := referring_elements refs in
  match live with
  | None => [unknown_reference id elements]
  | Some r =>
      (if in_force r then [] else [not_in_force_report r elements])
      ++ match outdated_pins refs r with [] => [] | pinned :: _ => [outdated_report r pinned elements] end
  end.

Definition trace_reports (ir : ArchitectureIR) (rs : list Requirement) : list report :=
  let live := live_requirements rs in
  let refs := referencing ir in
  (unreferenced_report <$> filter (λ r, in_force r = true ∧ req_id r ∉ dict_keys refs)
     (sort_by (on req_number Z_leb) (dict_values live)))
  ++ (sort_by str_leb (dict_keys refs) ≫= λ i, reference_reports i (default [] (dict_get i refs)) (dict_get i live)).

(** * Verdicts *)
Definition DEPLOYED : list NodeKind := filter (λ k, k ∉ [CLIENT; EXTERNAL; BOUNDARY]) members.
Definition HOLDS_DATA : list NodeKind := [DATABASE; CACHE; STORAGE; QUEUE; OBSERVABILITY].
Definition STORES : list NodeKind := [DATABASE; STORAGE].

Definition SCOPE_KINDS (s : RequirementScope) : option (list NodeKind) :=
  match s with
  | SCOPE_SERVICE => Some [SERVICE; WORKER]
  | SCOPE_API => Some [SERVICE; GATEWAY]
  | SCOPE_DATABASE => Some [DATABASE]
  | SCOPE_QUEUE => Some [QUEUE]
  | SCOPE_DATA => Some HOLDS_DATA
  | SCOPE_SYSTEM | SCOPE_USER | SCOPE_REGION => None
  end.

Definition SEVERITY_BY_PRIORITY (p : RequirementPriority) : Severity :=
  match p with
  | PRIORITY_CRITICAL => CRITICAL | PRIORITY_HIGH => HIGH | PRIORITY_MEDIUM => MEDIUM | PRIORITY_LOW => LOW
  end.

Definition MS_PER_SECOND : Z := 1000.

(** The word characters of a regular expression, below 256. *)
Definition is_word (c : ascii) : bool :=
  is_alnum c || one_of "_" c
  || existsb (λ n, code c =? n) [170; 178; 179; 181; 185; 186; 188; 189; 190]
  || between 192 214 c || between 216 246 c || between 248 255 c.

Fixpoint starts_with (word l : list ascii) : option (list ascii) :=
  match word, l with
  | [], _ => Some l
  | a :: word, b :: l => if char_eqb a (code b) then starts_with word l else None
  | _, [] => None
  end.

(** [\b(transit|tls|ssl|https)\b], whatever the case, from a place whose last character is a word one or not. *)
Fixpoint names_transit (after_word : bool) (l : list ascii) : bool :=
  (negb after_word && existsb (λ w, match starts_with (chars_of w) l with
                                    | Some (c :: _) => negb (is_word c)
                                    | Some [] => true
                                    | None => false
                                    end) ["transit"; "tls"; "ssl"; "https"])
  || match l with c :: r => names_transit (is_word c) r | [] => false end.

Definition IN_TRANSIT (statement : string) : bool := names_transit false (chars_of (lower statement)).

Record Judged := {
  jd_verdict : Verdict;
  jd_reason : string;
  jd_entity_ids : list string;
  jd_evidence : list (string * string);
  jd_violation : option string;
}.

Definition judged (v : Verdict) (reason : string) (ids : list string) : Judged :=
  {| jd_verdict := v; jd_reason := reason; jd_entity_ids := ids; jd_evidence := []; jd_violation := None |}.

(** ** Quantities *)
Definition dec_leb (a b : dec) : bool := negb (dec_ltb b a).

(** Of a quantity or of a range: whether a value meets it, and its text. *)
Definition meets (value : dec) (c : StructuredConstraint) : bool :=
  match c with
  | RangeConstraint _ minimum maximum u _ =>
      dec_leb (to_canonical u minimum) value && dec_leb value (to_canonical u maximum)
  | QuantityConstraint _ operator bound u _ =>
      let target := to_canonical u bound in
      match operator with
      | OP_AT_LEAST => dec_leb target value
      | OP_MORE_THAN => dec_ltb target value
      | OP_AT_MOST => dec_leb value target
      | OP_LESS_THAN => dec_ltb value target
      | _ => dec_eqb value target
      end
  | SetConstraint _ _ => false
  end.

Definition bound_of (c : StructuredConstraint) : string :=
  match c with
  | RangeConstraint _ minimum maximum u _ =>
      "between " +:+ decimal_to_str minimum +:+ " and " +:+ decimal_to_str maximum +:+ " " +:+ un_symbol u
  | QuantityConstraint _ operator bound u _ => value operator +:+ " " +:+ decimal_to_str bound +:+ " " +:+ un_symbol u
  | SetConstraint _ _ => ""
  end.

Definition kinds_text (kinds : list NodeKind) : string := join " or " (sort_by str_leb (value <$> kinds)).

(** ** What the rules read of the architecture *)
Section judging.
Context (t : Topology) (r : Requirement).

(** [_concerned]: the elements of the kinds a check concerns, within the scope of the requirement. *)
Definition concerned (kinds : list NodeKind) : Judged + list Node :=
  let scope := rc_scope (req_content r) in
  let scoped := filter (λ k, k ∈ default kinds (SCOPE_KINDS scope)) kinds in
  match scoped with
  | [] => inl (judged NOT_VERIFIABLE
            ("This check concerns " +:+ kinds_text kinds +:+ " components; the requirement is scoped to "
             +:+ value scope +:+ ".") [])
  | _ =>
      match nodes_of_kind t scoped with
      | [] => inl (judged NOT_APPLICABLE ("The architecture has no " +:+ kinds_text scoped +:+ " component.") [])
      | nodes => inr nodes
      end
  end.

(** [_effective]: the value stated by the first of the elements that knows or says it does not. *)
Fixpoint effective_among (key : string) (elements : list Node) : option string * bool :=
  match elements with
  | [] => (None, false)
  | e :: rest =>
      if is_unknown (n_configuration e) key then (None, true)
      else match setting (n_configuration e) key with
           | JStr v => (Some v, false)
           | _ => effective_among key rest
           end
  end.

Definition effective (n : Node) (key : string) : option string * bool :=
  effective_among key (n :: ancestors t (n_id n)).

(** The elements outside the regions allowed, with theirs, and those of which it is not known. *)
Definition outside_regions (allowed : list string) (nodes : list Node) : list (string * string) :=
  omap (λ n, region ← (effective n "region").1;
             if decide (lower region ∈ allowed) then None else Some (n_id n, region)) nodes.

Definition without_region (nodes : list Node) : list string :=
  omap (λ n, match (effective n "region").1 with None => Some (n_id n) | Some _ => None end) nodes.

Definition regions_judged (allowed : list string) (data_only : bool) : Judged :=
  match concerned (if data_only then HOLDS_DATA else DEPLOYED) with
  | inl j => j
  | inr nodes =>
      let required := join ", " (sorted_set allowed) in
      match outside_regions allowed nodes, without_region nodes with
      | (_ :: _) as outside, _ =>
          let listed := join ", " ((λ p, p.1 +:+ " (" +:+ p.2 +:+ ")") <$> take 10 outside) in
          {| jd_verdict := VIOLATED;
             jd_reason := nat_text (length outside) +:+ " element(s) are outside the required regions (" +:+ required +:+ ").";
             jd_entity_ids := outside.*1;
             jd_evidence := [("required", required); ("outside", listed)];
             jd_violation := Some (reference r +:+ " requires " +:+ required +:+ "; these elements are elsewhere: "
                                   +:+ listed +:+ ".") |}
      | [], (_ :: _) as unstated =>
          judged NOT_VERIFIABLE
            (nat_text (length unstated) +:+ " element(s) have no known region (nor does a boundary containing them).") unstated
      | [], [] => judged SATISFIED ("Every concerned element is in " +:+ required +:+ ".") (n_id <$> nodes)
      end
  end.

Definition storage_judged (c : StructuredConstraint) : Judged :=
  match concerned STORES with
  | inl j => j
  | inr nodes =>
      let sizes := dict_of ((λ n, (n_id n, as_int (setting (n_configuration n) "storage_bytes"))) <$> nodes) in
      match dict_keys (filter (λ p, p.2 = None) sizes) with
      | (_ :: _) as unstated =>
          judged NOT_VERIFIABLE
            (nat_text (length unstated) +:+ " data store(s) do not state their provisioned storage.") unstated
      | [] =>
          let total := foldr Z.add 0%Z (omap id (dict_values sizes)) in
          let met := meets (dec_of_Z total) c in
          {| jd_verdict := if met then SATISFIED else VIOLATED;
             jd_reason := Z_text total +:+ " B provisioned, " +:+ bound_of c +:+ " required.";
             jd_entity_ids := n_id <$> nodes;
             jd_evidence := [("provisioned", Z_text total +:+ " B"); ("required", bound_of c)];
             jd_violation := if met then None
                             else Some ("The data stores provision " +:+ Z_text total +:+ " B; " +:+ reference r
                                        +:+ " requires " +:+ bound_of c +:+ ".") |}
      end
  end.

(** The elements whose value does not comply, with it, and those of which it is not known. *)
Definition failing_values (c : StructuredConstraint) (read : Node → json) (nodes : list Node) : list (string * json) :=
  omap (λ n, seconds ← as_int (read n);
             if meets (dec_of_Z (seconds * MS_PER_SECOND)) c then None else Some (n_id n, read n)) nodes.

Definition unknown_values (read : Node → json) (nodes : list Node) : list string :=
  omap (λ n, match as_int (read n) with None => Some (n_id n) | Some _ => None end) nodes.

(** [_each]. *)
Definition each_judged (c : StructuredConstraint) (nodes : list Node) (read : Node → json) (what : string) : Judged :=
  let required := bound_of c in
  match failing_values c read nodes, unknown_values read nodes with
  | (_ :: _) as failing, _ =>
      let listed := join ", " ((λ p, p.1 +:+ " (" +:+ py_str p.2 +:+ " s)") <$> take 10 failing) in
      {| jd_verdict := VIOLATED;
         jd_reason := nat_text (length failing) +:+ " element(s) have a " +:+ what +:+ " outside " +:+ required +:+ ".";
         jd_entity_ids := failing.*1;
         jd_evidence := [("required", required); ("outside", listed)];
         jd_violation := Some (reference r +:+ " requires a " +:+ what +:+ " of " +:+ required
                               +:+ "; these elements differ: " +:+ listed +:+ ".") |}
  | [], (_ :: _) as unknown =>
      judged NOT_VERIFIABLE ("The " +:+ what +:+ " of " +:+ nat_text (length unknown) +:+ " element(s) is unknown.") unknown
  | [], [] =>
      judged SATISFIED ("Every element stating a " +:+ what +:+ " keeps data " +:+ required +:+ ".") (n_id <$> nodes)
  end.

(** The elements that state how long they keep data, or that they do not know, within the scope. *)
Definition states_retention (n : Node) : bool :=
  bool_decide (is_Some (get (n_configuration n) "retention_seconds")) || is_unknown (n_configuration n) "retention_seconds".

Definition within_scope (n : Node) : bool :=
  match SCOPE_KINDS (rc_scope (req_content r)) with Some kinds => bool_decide (n_kind n ∈ kinds) | None => true end.

Definition retaining : list Node := filter (λ n, states_retention n && within_scope n = true) (ir_nodes (t_ir t)).

Definition retention_judged (c : StructuredConstraint) : Judged :=
  match retaining with
  | [] => judged NOT_VERIFIABLE "No concerned element states how long it keeps data." []
  | nodes => each_judged c nodes (λ n, setting (n_configuration n) "retention_seconds") "retention"
  end.

Definition communicating : list Connection := filter (λ c, communicates (c_kind c) = true) (ir_connections (t_ir t)).

Definition tls_setting (c : Connection) : json := setting (c_configuration c) "tls".

Definition in_transit_judged : Judged :=
  match communicating with
  | [] => judged NOT_APPLICABLE "The architecture has no communicating connection." []
  | _ =>
      match c_id <$> filter (λ c, tls_setting c = JBool false) communicating,
            c_id <$> filter (λ c, tls_setting c ≠ JBool true ∧ encrypted_protocol c = false) communicating with
      | (_ :: _) as disabled, _ =>
          let listed := join ", " (take 10 disabled) in
          {| jd_verdict := VIOLATED;
             jd_reason := nat_text (length disabled) +:+ " connection(s) have tls false.";
             jd_entity_ids := disabled;
             jd_evidence := [("unencrypted", listed)];
             jd_violation := Some ("Encryption in transit is required, but these connections have tls false: " +:+ listed +:+ ".") |}
      | [], (_ :: _) as unstated =>
          judged NOT_VERIFIABLE (nat_text (length unstated) +:+ " connection(s) do not show that they are encrypted.") unstated
      | [], [] =>
          judged SATISFIED "Every communicating connection is encrypted (tls true or an encrypted protocol)."
            (c_id <$> communicating)
      end
  end.

(** [_judge]. *)
Definition judge : Judged :=
  let content := req_content r in
  let otherwise :=
    if bool_decide (rc_type content = TYPE_SECURITY) && String.eqb (rc_category content) "encryption" then
      if IN_TRANSIT (rc_statement content) then in_transit_judged
      else judged NOT_VERIFIABLE "Encryption at rest is not described by the architecture schema." []
    else
      judged NOT_VERIFIABLE
        (match rc_constraint content with
         | None => "The requirement has no structured constraint the architecture can be checked against."
         | Some c => "Validation does not check " +:+ metric_of c +:+ "."
         end) [] in
  match rc_constraint content with
  | Some (SetConstraint metric allowed) =>
      if String.eqb metric "regions" then regions_judged allowed (String.eqb (rc_category content) "data_residency")
      else otherwise
  | Some c =>
      if String.eqb (metric_of c) "storage" then storage_judged c
      else if String.eqb (metric_of c) "retention" then retention_judged c
      else judged NOT_VERIFIABLE
             (metric_of c +:+ " is not established by validation: it needs the capacity and simulation engines.") []
  | None => otherwise
  end.
End judging.

(** ** The rule *)
Definition Verdicts_meta : RuleMeta :=
  requirement_meta "requirements.verdicts" "Requirement verdicts"
    ("Each requirement in force gets a verdict: satisfied, violated, not verifiable or not "
     +:+ "applicable, from the architecture's stated values only.") HIGH.

Definition judgement_of (r : Requirement) (j : Judged) : judgement := {|
  ju_requirement_id := req_id r; ju_reference := reference r; ju_version := req_version r;
  ju_verdict := jd_verdict j; ju_reason := ‹jd_reason j›; ju_entity_ids := capped (jd_entity_ids j);
  ju_evidence := jd_evidence j |}.

(** [_violation]. *)
Definition violation_report (r : Requirement) (j : Judged) : report :=
  let priority := rc_priority (req_content r) in
  of_requirement (req_id r) (bool_decide (priority = PRIORITY_CRITICAL))
    (graded (SEVERITY_BY_PRIORITY priority) (with_evidence (jd_evidence j) (says "requirement_violated"
      ‹"The architecture violates " +:+ reference r +:+ ": " +:+ rc_title (req_content r)›
      ‹match jd_violation j with Some "" | None => jd_reason j | Some s => s end›
      ‹"Change the elements named here so they comply, or revise the requirement."›
      (capped (jd_entity_ids j)) []))).

(** What a requirement in force gives: its verdict, and a finding when it is violated. *)
Definition violation_reports (r : Requirement) (j : Judged) : list report :=
  if decide (jd_verdict j = VIOLATED) then [violation_report r j] else [].

Definition judge_one (t : Topology) (r : Requirement) : py (RequirementResult * list Finding) :=
  let j := judge t r in
  result ← verdict Verdicts_meta (judgement_of r j);
  found ← py_map (finding Verdicts_meta) (violation_reports r j);
  Ok (result, found).

Definition requirements_in_force (rs : list Requirement) : list Requirement :=
  filter (λ r, in_force r = true) (sort_by (on req_number Z_leb) rs).

(** * Components *)
Definition CODES (o : ConstraintOutcome) : option string :=
  match o with
  | OUTCOME_VIOLATION => Some "component_constraint_violated"
  | OUTCOME_WARNING => Some "component_recommendation_not_met"
  | OUTCOME_CANNOT_EVALUATE => Some "component_check_not_evaluable"
  | OUTCOME_PASS | OUTCOME_NOT_APPLICABLE => None
  end.

Definition SPECIAL : dict string string := [
  ("node_kind_not_modeled", "component_kind_not_modeled");
  ("specification_deprecated", "component_specification_deprecated");
  ("component_not_in_catalog", "component_not_in_catalog");
  ("specification_planned", "component_not_specified")].

Definition TITLES (o : ConstraintOutcome) (node component : string) : string :=
  match o with
  | OUTCOME_VIOLATION => node +:+ " breaks a documented limit of " +:+ component
  | OUTCOME_WARNING => node +:+ " does not meet a documented recommendation of " +:+ component
  | _ => "A check of " +:+ node +:+ " against " +:+ component +:+ " cannot be evaluated"
  end.

Definition DEFAULT_REMEDIATION : points := ‹"Review the node's configuration against the component's specification."›.

(** [_code], for the outcomes that are findings. *)
Definition constraint_code (i : ConstraintFinding) : option string :=
  code ← CODES (ck_outcome i); Some (default code (dict_get (ck_check i) SPECIAL)).

Definition constraint_severity (i : ConstraintFinding) : Severity :=
  match ck_outcome i with OUTCOME_CANNOT_EVALUATE => INFO | _ => default MEDIUM (ck_severity i) end.

Fixpoint join_points (sep : points) (l : list points) : points :=
  match l with [] => [] | [s] => s | s :: r => s ++ sep ++ join_points sep r end.

(** [_joined]: the texts that are not empty, each once. *)
Definition joined (texts : list (option points)) (sep : points) : option points :=
  match dedup (filter (λ s, s ≠ []) (omap id texts)) with [] => None | kept => Some (join_points sep kept) end.

(** [str(value)] of a configuration value as JSON, in which a list is a list. *)
Definition actual_text (v : json) : option string :=
  match v with
  | JNull => None
  | JArr l => Some ("[" +:+ join ", " (py_repr <$> l) +:+ "]")
  | _ => Some (py_str v)
  end.

(** The checks that are findings, by node, code and property, in the order of the first of each. *)
Definition constraint_groups (items : list ConstraintFinding) :
    dict (string * string * option string) (list ConstraintFinding) :=
  foldl (λ groups i,
    match constraint_code i with
    | Some code =>
        let key := (ck_node_id i, code, ck_property i) in
        dict_set key (default [] (dict_get key groups) ++ [i]) groups
    | None => groups
    end) [] items.

Definition worst (l : list Severity) : option Severity := head (sort_by (on rank nat_leb) l).

Definition component_report (names : dict string string)
    (group : (string * string * option string) * list ConstraintFinding) : option report :=
  let '((node_id, code, prop), items) := group in
  first ← head items;
  Some {|
    rp_code := code;
    rp_title := ‹TITLES (ck_outcome first) (default node_id (dict_get node_id names)) (ck_component first)›;
    rp_explanation := default (ck_explanation first) (joined (Some ∘ ck_explanation <$> items) ‹" "›);
    rp_remediation := default DEFAULT_REMEDIATION (joined (ck_remediation <$> items) ‹" "›);
    rp_entity_ids := [node_id];
    rp_field_paths := match prop with Some "" | None => [] | Some p => ["configuration." +:+ p] end;
    rp_expected := joined (ck_expected <$> items) ‹"; "›;
    rp_actual := points_of <$> actual_text (ck_actual first);
    rp_evidence := ((λ i, ("check", ck_check i)) <$> items)
      ++ ((λ ref, ("specification", ref)) <$>
            filter (λ ref, ref ≠ "") (omap id (dedup (ck_specification <$> items))))
      ++ match ck_basis first with Some kind => [("basis", kind)] | None => [] end;
    rp_severity := worst (constraint_severity <$> items);
    rp_blocking := false; rp_requirement_id := None; rp_policy_rule := None |}.

Definition component_reports (ir : ArchitectureIR) (e : ConstraintEvaluation) : list report :=
  omap (component_report (dict_of ((λ n, (n_id n, n_name n)) <$> ir_nodes ir))) (constraint_groups (ce_findings e)).

(** * The rules *)
Section rules.
Context `{ComponentCatalog}.

Definition Traceability : Rule :=
  reporting Traceability_meta (λ ctx, match vc_requirements ctx with Some rs => trace_reports (vc_ir ctx) rs | None => [] end).

Definition Verdicts : Rule := {|
  meta := Verdicts_meta;
  evaluate ctx _ :=
    match vc_requirements ctx with
    | None => Ok no_outcome
    | Some rs =>
        given ← py_map (judge_one (topology ctx)) (requirements_in_force rs);
        Ok {| oc_findings := mjoin given.*2; oc_requirement_results := given.*1 |}
    end |}.

Definition REQUIREMENT_RULES : list Rule := [Traceability; Verdicts].

Definition ComponentConstraints_meta : RuleMeta := {|
  rm_id := "configuration.component-constraints"; rm_version := 1;
  rm_name := "Configuration within the component's documented constraints";
  rm_description :=
    ‹"Each node that refers to a catalog component respects the limits, supported values and "
     +:+ "recommendations its specification documents; what cannot be evaluated is reported as such."›;
  rm_category := CONFIGURATION; rm_severity := MEDIUM; rm_profiles := ALL_PROFILES; rm_inputs := [INPUT_CATALOG];
  rm_mandatory := false; rm_parameters := [] |}.

Definition ComponentConstraints : Rule := {|
  meta := ComponentConstraints_meta;
  evaluate ctx _ :=
    evaluation ← component_evaluation ctx;
    match evaluation with
    | None => Ok no_outcome
    | Some e => outcome_of ComponentConstraints_meta (component_reports (vc_ir ctx) e)
    end |}.

Definition COMPONENT_RULES : list Rule := [ComponentConstraints].

(** ** The registry (registry.py) *)
Definition BUILT_IN_RULES : list Rule :=
  STRUCTURE_RULES ++ COMPLETENESS_RULES ++ CONFIGURATION_RULES ++ COMPONENT_RULES ++ POLICY_RULES ++ REQUIREMENT_RULES.
End rules.
