(* ===== verification/ValidationFacts.v ===== *)
(** What the validation rules rely on: how long their texts are, when a report makes a finding, and what
    the configuration of a valid element can hold.

    [finding_made]: a report within bounds is a finding. [plain_reports]: on an architecture whose parts
    its constructors made, the reports of every rule on structure, completeness, configuration and policy are
    within bounds. *)
From Stdlib Require Import Ascii ZArith Lia.
From S2P Require Import Prelude Data Errors Codecs Values Provenance Traceability Component Configuration Elements Model Topology Serialization RoundTrip JsonText.
From S2P Require Import Projects ProjectProperties Kosaraju Findings ValidationEngine ValidationRules PolicyRules.
#[local] Open Scope text_scope.

(** * Texts *)
Lemma points_of_app s t : points_of (s +:+ t) = points_of s ++ points_of t.
Proof. unfold points_of. by rewrite chars_of_app, fmap_app. Qed.

Lemma length_points s : length (points_of s) = String.length s.
Proof.
  unfold points_of, chars_of. rewrite length_fmap. induction s as [|c s IH]; [done|]. simpl. by rewrite IH.
Qed.

Lemma length_str_app s t : String.length (s +:+ t) = String.length s + String.length t.
Proof. rewrite <- !length_points, points_of_app. apply length_app. Qed.

Lemma length_cons_str c s : String.length (String c s) = S (String.length s).
Proof. done. Qed.

Lemma blank_app s t : blank (s ++ t) = blank s && blank t.
Proof. apply forallb_app. Qed.

Fixpoint total (l : list string) : nat := match l with [] => 0 | s :: l => String.length s + total l end.

Lemma total_app l k : total (l ++ k) = total l + total k.
Proof. induction l as [|s l IH]; simpl; [done|]. rewrite IH. lia. Qed.

Lemma total_submseteq l k : l ⊆+ k → total l <= total k.
Proof.
  intros [r Hr]%submseteq_Permutation. assert (∀ a b, a ≡ₚ b → total a = total b) as Hp.
  { induction 1; simpl; lia. }
  rewrite (Hp _ _ Hr), total_app. lia.
Qed.

Lemma total_bound l n : Forall (λ s, String.length s <= n) l → total l <= n * length l.
Proof. induction 1; simpl; [lia|]. nia. Qed.

Lemma length_join sep l : String.length (join sep l) <= total l + String.length sep * length l.
Proof.
  induction l as [|s [|t l] IH]; [simpl; lia|simpl; lia|].
  change (join sep (s :: t :: l)) with (s +:+ sep +:+ join sep (t :: l)). rewrite !length_str_app. simpl in *. lia.
Qed.

Lemma length_repr_char q c : String.length (repr_char q c) <= 4.
Proof. unfold repr_char. repeat case_match; simpl; lia. Qed.

Lemma length_repr s : String.length (repr s) <= 4 * String.length s + 2.
Proof.
  unfold repr. cbv zeta. rewrite length_str_app, length_cons_str. simpl (String.length (String _ "")).
  set (q := if _ && _ then _ else _). etrans; [apply Nat.add_le_mono_r, le_n_S, (length_join "")|].
  assert (total (repr_char q <$> String.list_ascii_of_string s) <= 4 * String.length s) as Ht.
  { etrans; [apply (total_bound _ 4)|].
    - apply Forall_fmap, Forall_true. intros c. apply length_repr_char.
    - rewrite length_fmap. rewrite <- length_points. unfold points_of, chars_of. by rewrite length_fmap. }
  simpl. lia.
Qed.

Lemma padded_length w z : length (padded w z) = w.
Proof. revert z. induction w as [|w IH]; intros z; simpl; [done|]. rewrite length_app, IH. simpl. lia. Qed.

Lemma length_text_of l : String.length (text_of l) = length l.
Proof. induction l as [|c l IH]; [done|]. simpl. by rewrite IH. Qed.

Lemma length_Z_text z (k : nat) : 1 <= k → (Z.abs z < 10 ^ Z.of_nat k)%Z → String.length (Z_text z) <= k + 1.
Proof.
  intros Hk Hz. apply digits_le in Hz; [|lia]. unfold Z_text. rewrite length_str_app.
  change String.string_of_list_ascii with text_of. rewrite length_text_of, padded_length.
  case_match; simpl; lia.
Qed.

Lemma length_nat_text n (k : nat) : 1 <= k → (Z.of_nat n < 10 ^ Z.of_nat k)%Z → String.length (nat_text n) <= k + 1.
Proof. intros Hk Hn. apply length_Z_text; lia. Qed.

(** Literal texts replaced by variables: what matters of one is its length, and whether it is blank. *)
Ltac abstract_literals :=
  repeat match goal with
  | |- context G [String ?a ?r] =>
      let s := constr:(String a r) in
      let z := eval vm_compute in (Z.of_nat (String.length s)) in
      let b := eval vm_compute in (blank (points_of s)) in
      let x := fresh "text" in
      pose (x := s); let goal := context G [x] in change goal;
      assert (Z.of_nat (String.length x) = z) by (vm_compute; reflexivity);
      assert (blank (points_of x) = b) by (vm_compute; reflexivity);
      clearbody x
  end.

(** The length of a text made of pieces, against a bound. *)
Ltac text_length :=
  rewrite ?length_points, ?length_app, ?length_points, ?length_str_app;
  repeat match goal with
  | |- context [String.length (repr ?s)] =>
      pose proof (length_repr s); generalize dependent (String.length (repr s)); intros
  end;
  cbn [length String.length]; lia.

(** A text with a literal piece that is not blank is not blank. *)
Ltac not_blank :=
  rewrite ?points_of_app, ?blank_app;
  repeat match goal with H : blank (points_of _) = _ |- _ => rewrite H; clear H end;
  repeat (rewrite andb_false_r || rewrite andb_false_l); reflexivity.

(** * Findings *)
Lemma MAX_TEXT_is : Z.of_nat MAX_TEXT = 2000%Z.
Proof. reflexivity. Qed.

Definition text_ok (s : points) : Prop := blank s = false ∧ length s <= MAX_TEXT.
Definition opt_ok (o : option points) : Prop := ∀ s, o = Some s → length s <= MAX_TEXT.
Definition ids_ok (l : list string) : Prop :=
  length l <= MAX_REFERENCES ∧ Forall (λ s, 0 < String.length s <= 256) l.

(** A report within the bounds of a finding. *)
Record reportable (p : report) : Prop := {
  ro_code : CODE (rp_code p) = true;
  ro_title : text_ok (rp_title p);
  ro_explanation : text_ok (rp_explanation p);
  ro_remediation : text_ok (rp_remediation p);
  ro_entities : ids_ok (rp_entity_ids p);
  ro_paths : ids_ok (rp_field_paths p);
  ro_expected : opt_ok (rp_expected p);
  ro_actual : opt_ok (rp_actual p);
  ro_evidence : length (rp_evidence p) <= MAX_EVIDENCE;
  ro_requirement : opt_ok (points_of <$> rp_requirement_id p);
  ro_policy : opt_ok (points_of <$> rp_policy_rule p);
}.

Definition sorted_points (l : list points) : list points := sort_by points_leb (dedup l).

(** The finding a report makes. *)
Definition made (m : RuleMeta) (p : report) : Finding := {|
  f_rule_id := rm_id m; f_rule_version := rm_version m; f_code := rp_code p;
  f_severity := default (rm_severity m) (rp_severity p); f_category := rm_category m; f_title := rp_title p;
  f_explanation := rp_explanation p; f_remediation := rp_remediation p;
  f_entity_ids := sorted_points (points_of <$> rp_entity_ids p);
  f_field_paths := sorted_points (points_of <$> rp_field_paths p);
  f_expected := rp_expected p; f_actual := rp_actual p;
  f_evidence := (λ e, {| e_label := points_of e.1; e_value := points_of e.2 |}) <$> rp_evidence p;
  f_blocking := rp_blocking p; f_requirement_id := points_of <$> rp_requirement_id p;
  f_policy_rule := points_of <$> rp_policy_rule p |}.

Lemma text_problem_ok s field : text_ok s → text_problem (WStr s) field true = None.
Proof. intros [Hb Hl]. unfold text_problem. rewrite Hb. apply Nat.ltb_ge in Hl. by rewrite Hl. Qed.

Lemma opt_problem_ok o field : opt_ok o → text_problem (of_opt_points o) field false = None.
Proof.
  destruct o as [s|]; [|done]. intros H. specialize (H s eq_refl). unfold of_opt_points, text_problem.
  apply Nat.ltb_ge in H. by rewrite H.
Qed.

Lemma wide_matches_text pattern s : wide_matches pattern (WText s) = pattern s.
Proof. unfold wide_matches, WText. by rewrite narrow_points. Qed.

Lemma wide_texts (l : list string) : WText <$> l = WStr <$> (points_of <$> l).
Proof. by rewrite <- list_fmap_compose. Qed.

Lemma references_ok l field : ids_ok l → references (sorted_strings (WText <$> l)) field = None.
Proof.
  intros [Hl Hs]. rewrite wide_texts, sorted_texts. unfold references. rewrite length_fmap.
  assert (length (sorted_points (points_of <$> l)) <= length l) as Hle.
  { unfold sorted_points. rewrite length_sort_by, <- (length_fmap points_of l).
    apply submseteq_length, NoDup_submseteq; [apply NoDup_dedup|]. intros x. by rewrite elem_of_dedup. }
  unfold sorted_points in Hle. rewrite (proj2 (Nat.ltb_ge _ _)) by lia.
  rewrite (Is_true_eq_true (forallb _ _)); [done|]. apply forallb_True, Forall_fmap, Forall_forall.
  intros x Hx. rewrite elem_of_sort_by, elem_of_dedup in Hx. apply list_elem_of_fmap in Hx as (s & -> & Hx).
  rewrite Forall_forall in Hs. specialize (Hs s Hx). unfold compose. rewrite length_points.
  apply andb_prop_intro. split; apply Is_true_true; [apply Nat.ltb_lt|apply Nat.leb_le]; lia.
Qed.

Lemma evidence_ok (l : list (string * string)) :
  length l <= MAX_EVIDENCE → evidence_problem ((λ e, (WText e.1, WText e.2)) <$> l) = None.
Proof.
  intros Hl. unfold evidence_problem. rewrite length_fmap, (proj2 (Nat.ltb_ge _ _)) by lia.
  rewrite (Is_true_eq_true (forallb _ _)); [done|]. apply forallb_True, Forall_fmap, Forall_true. done.
Qed.

(** ** Checks and types *)
Lemma narrow_inv p s : narrow p = Some s → p = points_of s.
Proof.
  unfold narrow. case_match eqn:Hp; [|done]. intros [= <-]. unfold points_of, chars_of, text_of.
  rewrite las_sla, <- list_fmap_compose. symmetry. rewrite <- (list_fmap_id p) at 2. apply list_fmap_ext.
  apply Is_true_true, forallb_True in Hp. rewrite Forall_lookup in Hp. intros i n Hi. specialize (Hp i n Hi).
  rename Hp into Hn. apply andb_prop_elim in Hn as [H1 H2].
  apply Is_true_true, Z.leb_le in H1. apply Is_true_true, Z.ltb_lt in H2. unfold compose, code.
  rewrite nat_ascii_embedding by lia. by rewrite Z2Nat.id.
Qed.

Lemma as_narrow_inv w s : as_narrow w = Some s → w = WText s.
Proof. destruct w; try done. intros H%narrow_inv. by subst. Qed.

Lemma as_text_inv w s : as_text w = Some s → w = WStr s.
Proof. by destruct w; intros [= ->]. Qed.

Lemma as_texts_inv l k : mapM as_text l = Some k → l = WStr <$> k.
Proof.
  intros H%mapM_Some. induction H as [|w s l k Hw _ IH]; [done|]. cbn. f_equal; [by apply as_text_inv|done].
Qed.

Lemma as_opt_text_inv w o : as_opt_text w = Some o → w = of_opt_points o.
Proof. by destruct w; intros [= <-]. Qed.

Lemma as_evidence_inv e x : as_evidence e = Some x → e = evidence_args x.
Proof.
  destruct e as [a b]. unfold as_evidence. cbn. intros (s & Hs%as_text_inv & H)%bind_Some.
  apply bind_Some in H as (t & Ht%as_text_inv & [= <-]). by subst.
Qed.

Lemma as_evidences_inv l k : mapM as_evidence l = Some k → l = evidence_args <$> k.
Proof.
  intros H%mapM_Some. induction H as [|w s l k Hw _ IH]; [done|]. cbn. f_equal; [by apply as_evidence_inv|done].
Qed.

Lemma Finding_typed_args a f : Finding_typed a = Some f → Finding_args f = a.
Proof.
  unfold Finding_typed. intros H.
  repeat (apply bind_Some in H as (? & ? & H)). injection H as <-. destruct a. unfold Finding_args. cbn in *.
  repeat match goal with
  | H : as_narrow _ = Some _ |- _ => apply as_narrow_inv in H
  | H : as_text _ = Some _ |- _ => apply as_text_inv in H
  | H : mapM as_text _ = Some _ |- _ => apply as_texts_inv in H
  | H : as_opt_text _ = Some _ |- _ => apply as_opt_text_inv in H
  | H : mapM as_evidence _ = Some _ |- _ => apply as_evidences_inv in H
  | H : (match ?w with WInt _ => _ | _ => _ end) = Some _ |- _ => destruct w; try discriminate H; injection H as <-
  | H : (match ?w with WBool _ => _ | _ => _ end) = Some _ |- _ => destruct w; try discriminate H; injection H as <-
  end. by subst.
Qed.

Lemma Finding_args_typed f : Finding_typed (Finding_args f) = Some f.
Proof.
  unfold Finding_typed, Finding_args. cbn [fa_rule_id fa_rule_version fa_code fa_severity fa_category fa_title
    fa_explanation fa_remediation fa_entity_ids fa_field_paths fa_expected fa_actual fa_evidence fa_blocking
    fa_requirement_id fa_policy_rule]. unfold as_narrow, WText. cbn [as_text mbind option_bind].
  rewrite !narrow_points, !as_texts, !as_opt_points, as_evidences. by destruct f.
Qed.

Lemma sorted_strings_idemp l : sorted_strings (sorted_strings l) = sorted_strings l.
Proof.
  unfold sorted_strings at 2 3. destruct (mapM as_text l) as [k|] eqn:E.
  - rewrite sorted_texts. f_equal. rewrite dedup_id; [apply sort_by_idemp, _|].
    apply NoDup_sort_by, NoDup_dedup.
  - unfold sorted_strings. by rewrite E.
Qed.

Lemma Finding_normalize_idemp a : Finding_normalize (Finding_normalize a) = Finding_normalize a.
Proof. unfold Finding_normalize. cbn. by rewrite !sorted_strings_idemp. Qed.

(** A finding, given back to its constructor, is itself. *)
#[export] Instance Finding_dataclass : Dataclass Finding_new Finding_args.
Proof.
  intros a f. unfold Finding_new. cbv zeta. intros ([] & Hc & Hf)%py_bind_ok.
  destruct (Finding_typed _) as [g|] eqn:Ht; [|done]. injection Hf as ->.
  rewrite (Finding_typed_args _ _ Ht), Finding_normalize_idemp, Hc. simpl. by rewrite Ht.
Qed.

Lemma made_args m p :
  Finding_args (made m p) = Finding_normalize {|
    fa_rule_id := WText (rm_id m); fa_rule_version := WInt (rm_version m); fa_code := WText (rp_code p);
    fa_severity := default (rm_severity m) (rp_severity p); fa_category := rm_category m;
    fa_title := WStr (rp_title p); fa_explanation := WStr (rp_explanation p);
    fa_remediation := WStr (rp_remediation p); fa_entity_ids := WText <$> rp_entity_ids p;
    fa_field_paths := WText <$> rp_field_paths p; fa_expected := of_opt_points (rp_expected p);
    fa_actual := of_opt_points (rp_actual p);
    fa_evidence := (λ e, (WText e.1, WText e.2)) <$> rp_evidence p; fa_blocking := WBool (rp_blocking p);
    fa_requirement_id := of_opt_points (points_of <$> rp_requirement_id p);
    fa_policy_rule := of_opt_points (points_of <$> rp_policy_rule p) |}.
Proof.
  unfold Finding_args, Finding_normalize, made. cbn. rewrite !wide_texts, !sorted_texts.
  by rewrite <- list_fmap_compose.
Qed.

Lemma finding_made m p :
  RULE_ID (rm_id m) = true → (1 ≤ rm_version m)%Z → reportable p → finding m p = Ok (made m p).
Proof.
  intros Hid Hv [Hc Ht He Hr Hes Hps Hx Ha Hev Hq Hpo]. unfold finding, Finding_new. cbv zeta.
  rewrite <- made_args, Finding_args_typed, made_args.
  rewrite (proj2 (checks_pass _)); [done|]. unfold Finding_problems, Finding_normalize.
  cbn [fa_rule_id fa_rule_version fa_code fa_severity fa_category fa_title fa_explanation fa_remediation
    fa_entity_ids fa_field_paths fa_expected fa_actual fa_evidence fa_blocking fa_requirement_id fa_policy_rule].
  unfold identifier. rewrite !wide_matches_text, Hid, Hc, !text_problem_ok, !references_ok, !opt_problem_ok, evidence_ok by done.
  unfold positive. rewrite (proj2 (Z.leb_le _ _) Hv). repeat constructor.
Qed.

Lemma report_built m p :
  RULE_ID (rm_id m) = true → (1 ≤ rm_version m)%Z → reportable p → built Finding_new Finding_args (made m p).
Proof. intros Hm Hv Hp. apply built_iff. eexists. by apply (finding_made m p). Qed.

(** * What a valid architecture holds *)

(** ** Numbers *)
Lemma dec_abs_large z : (10 ^ 15 ≤ Z.abs z)%Z → dec_ltb (dec_abs (DFin z 0)) MAX_MAGNITUDE = false.
Proof.
  intros Hz. unfold dec_abs. destruct (fix_dec DEFAULT_PRECISION (Z.abs z) 0) as [c e] eqn:Hf.
  assert (10 ^ 15 ≤ c ∧ 0 ≤ e)%Z as [Hc He].
  { unfold fix_dec in Hf. destruct (digits_spec (Z.abs z)) as (_ & _ & Hd). rewrite !Z.abs_idemp in *.
    destruct (digits (Z.abs z) <=? DEFAULT_PRECISION)%Z eqn:E; [injection Hf as <- <-; lia|].
    apply Z.leb_gt in E. unfold DEFAULT_PRECISION in *. set (n := digits (Z.abs z)) in *.
    assert (10 ^ 27 ≤ div_half_even (Z.abs z) (pow10 (n - 28)))%Z as Hq.
    { assert (10 ^ 27 ≤ Z.abs z / 10 ^ (n - 28))%Z.
      - apply Z.div_le_lower_bound; [lia|]. rewrite <- Z.pow_add_r by lia.
        replace (n - 28 + 27)%Z with (n - 1)%Z by lia. lia.
      - unfold div_half_even, pow10. repeat case_match; lia. }
    set (q := div_half_even _ _) in *. rewrite Z.sgn_pos in Hf by lia.
    destruct (digits q <=? 28)%Z; injection Hf as <- <-; [lia|].
    split; [|lia]. rewrite Z.mul_1_l. apply Z.div_le_lower_bound; lia. }
  cbn. unfold pow10. apply Z.ltb_ge.
  assert (10 ^ (15 - Z.min e 15) ≤ 10 ^ 15)%Z by (apply Z.pow_le_mono_r; lia).
  assert (1 ≤ 10 ^ (e - Z.min e 15))%Z by (apply (Z.pow_le_mono_r 10 0); lia). nia.
Qed.

Lemma number_bound z path : number_problems (JInt z) path = [] → (Z.abs z < 10 ^ 15)%Z.
Proof.
  unfold number_problems, exact_number_problems. cbn [as_number is_finite negb].
  intros H. destruct (Z.lt_ge_cases (Z.abs z) (10 ^ 15)) as [?|Hz]; [done|].
  apply dec_abs_large in Hz. unfold dec_of_Z in H. by rewrite Hz in H.
Qed.

(** ** Settings *)
Section settings.
Context (c : Configuration) (specs : dict string PropertySpec) (owner : string).
Context (Hc : configuration_ok c specs owner).

Lemma setting_fits k : setting c k = JNull ∨ ∃ s, dict_get k specs = Some s ∧ spec_problems s (setting c k) k = Ok [].
Proof using Hc.
  unfold setting, get. destruct (dict_get k (values c)) as [v|] eqn:E; [right|by left].
  apply (dict_get_wf (values c) k v (co_keys _ _ _ Hc)) in E.
  exact (configuration_values_fit c specs owner (k, v) Hc E).
Qed.

(** A whole number, or not stated. *)
Lemma integer_setting k s :
  dict_get k specs = Some s → p_type s = INTEGER →
  setting c k = JNull ∨ ∃ z, setting c k = JInt z ∧ (Z.abs z < 10 ^ 15)%Z.
Proof using Hc.
  intros Hs Ht. destruct (setting_fits k) as [?|(s' & Hs' & Hp)]; [by left|]. rewrite Hs in Hs'. injection Hs' as <-.
  unfold spec_problems in Hp. rewrite Ht in Hp. apply Ok_inj in Hp. unfold spec_number_problems in Hp. rewrite Ht in Hp.
  destruct (setting c k) as [| |z| | | |]; try done. right. exists z. split; [done|].
  destruct (number_problems (JInt z) k) eqn:E; [by eapply number_bound|done].
Qed.

Lemma list_setting k s l :
  dict_get k specs = Some s → p_type s = TEXT_LIST → setting c k = JArr l → length l <= MAX_LIST_VALUES.
Proof using Hc.
  intros Hs Ht Hk. destruct (setting_fits k) as [Hn|(s' & Hs' & Hp)]; [by rewrite Hk in Hn|].
  rewrite Hs in Hs'. injection Hs' as <-. unfold spec_problems in Hp. rewrite Ht, Hk in Hp. apply Ok_inj in Hp.
  unfold spec_list_problems in Hp. destruct (MAX_LIST_VALUES <? length l) eqn:E; [done|]. by apply Nat.ltb_ge in E.
Qed.

Lemma text_setting k s t :
  dict_get k specs = Some s → p_type s = TEXT → setting c k = JStr t → String.length t <= MAX_TEXT_VALUE.
Proof using Hc.
  intros Hs Ht Hk. destruct (setting_fits k) as [Hn|(s' & Hs' & Hp)]; [by rewrite Hk in Hn|].
  rewrite Hs in Hs'. injection Hs' as <-. unfold spec_problems in Hp. rewrite Ht, Hk in Hp. apply Ok_inj in Hp.
  unfold spec_text_problems in Hp. destruct (text_problems (JStr t) k MAX_TEXT_VALUE true false) eqn:E; [|by destruct (p_pattern s)].
  unfold text_problems in E. destruct (String.eqb t ""); cbn [andb] in E; [done|].
  destruct (MAX_TEXT_VALUE <? String.length t) eqn:E'; [done|]. by apply Nat.ltb_ge in E'.
Qed.

(** The unknown properties are properties the schema defines, each once. *)
Lemma unknown_known k : k ∈ unknown c → k ∈ dict_keys specs.
Proof using Hc.
  intros Hk. destruct Hc as [_ _ _ Hf]. unfold problems_for in Hf. apply py_bind_ok in Hf as (known & Hm & Hf%Ok_inj).
  apply app_nil in Hf as [Hf _]. rewrite mjoin_nil in Hf. apply py_map_ok in Hm.
  assert (k ∈ sorted_set (dict_keys (values c) ++ unknown c)) as Hin.
  { apply elem_of_sorted_set, elem_of_app. by right. }
  apply list_elem_of_lookup in Hin as [i Hi]. destruct (Forall2_lookup_l _ _ _ _ _ Hm Hi) as (x & Hx & Hpp).
  rewrite (Hf x (list_elem_of_lookup_2 _ _ _ Hx)) in Hpp. unfold property_problems in Hpp.
  apply dict_get_is_Some. destruct (dict_get k specs); [done|by apply Ok_inj in Hpp].
Qed.

Lemma unknown_distinct : NoDup (unknown c).
Proof using Hc.
  destruct Hc as [Hb _ _ _]. apply built_configuration_inv in Hb as [Hn _]. rewrite <- Hn.
  unfold Configuration_normalize; cbn [unknown]. apply NoDup_sorted_set.
Qed.
End settings.

(** ** Ids and names *)
Lemma matches_length first rest n s : matches first rest n s = true → 0 < String.length s <= S n.
Proof.
  destruct s as [|a s]; [done|]. simpl. intros H. apply andb_prop in H as [_ H]. apply Nat.leb_le in H. lia.
Qed.

Lemma name_bound s field : text_problems (JStr s) field Values.MAX_NAME_LENGTH true false = [] → 0 < String.length s <= 100.
Proof.
  unfold text_problems. destruct (String.eqb_spec s ""); cbn [andb]; [done|].
  destruct (Values.MAX_NAME_LENGTH <? String.length s) eqn:E; [done|]. apply Nat.ltb_ge in E. unfold Values.MAX_NAME_LENGTH in E.
  intros _. split; [|done]. destruct s; [done|]. simpl. lia.
Qed.

Lemma node_texts n : node_ok n → 0 < String.length (n_id n) <= 128 ∧ 0 < String.length (n_name n) <= 100.
Proof.
  intros [Hb _ _]. split; [by apply built_node_id, matches_length in Hb|].
  unfold built, Node_new in Hb. apply py_bind_ok in Hb as (ps & Hps & [-> Ht]%construct_ok).
  assert (clean_str clean_line (JStr (n_name n)) = JStr (n_name n)) as Hn.
  { by apply Node_typed_args, (f_equal na_name) in Ht. }
  unfold Node_problems in Hps. apply py_bind_ok in Hps as (ps' & _ & [= Hp]).
  apply all_within_nil in Hp. apply app_nil in Hp as [_ Hp]. apply app_nil in Hp as [Hp _].
  change (text_problems (clean_str clean_line (JStr (n_name n))) "name" Values.MAX_NAME_LENGTH true false = []) in Hp.
  rewrite Hn in Hp. by eapply name_bound.
Qed.

Lemma connection_texts c :
  connection_ok c → 0 < String.length (c_id c) <= 128 ∧ 0 < String.length (label c) <= 128.
Proof.
  intros [Hb _]. unfold built, Connection_new in Hb. apply py_bind_ok in Hb as (ps & Hps & [-> Ht]%construct_ok).
  assert (clean_or_none clean_line (of_opt_str (c_name c)) = of_opt_str (c_name c)) as Hn.
  { by apply Connection_typed_args, (f_equal ca_name) in Ht. }
  unfold Connection_problems in Hps. apply py_bind_ok in Hps as (ps' & _ & [= Hp]).
  apply all_within_nil in Hp. apply app_nil in Hp as [Hi Hp]. do 4 apply app_nil in Hp as [_ Hp].
  apply app_nil in Hp as [Hp _]. cbn in Hi. destruct (ELEMENT_ID (c_id c)) eqn:E; [|done].
  apply matches_length in E. split; [done|]. unfold label. destruct (c_name c) as [s|]; [|done].
  destruct (String.eqb_spec s "") as [->|Hne]; [done|].
  change (text_problems (clean_or_none clean_line (of_opt_str (Some s))) "name" Values.MAX_NAME_LENGTH false false = []) in Hp.
  rewrite Hn in Hp.
  unfold text_problems, of_opt_str in Hp. destruct (String.eqb_spec s ""); cbn [andb] in Hp; [done|].
  destruct (Values.MAX_NAME_LENGTH <? String.length s) eqn:E'; [done|]. apply Nat.ltb_ge in E'. unfold Values.MAX_NAME_LENGTH in E'.
  split; [destruct s; [done|simpl; lia]|lia].
Qed.

(** * The built-in rules' reports *)
Ltac within_text := intros; repeat match goal with H : Some _ = Some _ |- _ => injection H as <- end; pose proof MAX_TEXT_is; text_length.

Ltac report_part :=
  match goal with
  | |- CODE _ = true => reflexivity
  | |- text_ok _ => abstract_literals; split; [solve [not_blank]|within_text]
  | |- opt_ok None => done
  | |- opt_ok (Some _) => abstract_literals; intros ? [= <-]; within_text
  | |- opt_ok (fmap _ (Some _)) => abstract_literals; intros ? [= <-]; within_text
  | |- opt_ok (fmap _ None) => done
  | |- ids_ok _ => abstract_literals; split; [cbn [length]; unfold MAX_REFERENCES; lia|repeat first [apply Forall_nil_2 | apply Forall_cons_2]; text_length]
  | |- (_ <= MAX_EVIDENCE)%nat => cbn [length]; unfold MAX_EVIDENCE; lia
  end.

(** A report made of literals and of texts whose bounds are known. *)
Ltac report_bounds :=
  constructor; cbn [says expecting with_evidence graded under_policy rp_code rp_title rp_explanation rp_remediation
    rp_entity_ids rp_field_paths rp_expected rp_actual rp_evidence rp_severity rp_blocking rp_requirement_id
    rp_policy_rule]; try report_part.

Lemma kind_bound (k : NodeKind) : String.length (value k) <= 30.
Proof. destruct k; cbn; lia. Qed.

Lemma disconnected_reportable n : node_ok n → reportable (disconnected_report n).
Proof.
  intros [? ?]%node_texts. pose proof (kind_bound (n_kind n)). unfold disconnected_report. report_bounds.
Qed.

Lemma empty_boundary_reportable n : node_ok n → reportable (empty_boundary_report n).
Proof. intros [? ?]%node_texts. unfold empty_boundary_report. report_bounds. Qed.

Lemma depends_on_deprecated_reportable c s t :
  connection_ok c → node_ok s → node_ok t → reportable (depends_on_deprecated c s t).
Proof.
  intros [? ?]%connection_texts [? ?]%node_texts [? ?]%node_texts. unfold depends_on_deprecated. report_bounds.
Qed.

Lemma deprecated_source_reportable c s t :
  connection_ok c → node_ok s → node_ok t → reportable (deprecated_source c s t).
Proof.
  intros [? ?]%connection_texts [? ?]%node_texts [? ?]%node_texts. unfold deprecated_source. report_bounds.
Qed.

Lemma upgraded_reportable stored : (Z.abs stored < 10 ^ 15)%Z → reportable (upgraded_report stored).
Proof.
  intros Hs. pose proof (length_Z_text stored 15 ltac:(lia) Hs).
  pose proof (length_Z_text IR_SCHEMA_VERSION 15 ltac:(lia) ltac:(unfold IR_SCHEMA_VERSION; lia)).
  unfold upgraded_report. report_bounds.
Qed.

(** ** Unknown values *)
Lemma total_nodes : total (dict_keys NODE_PROPERTIES) + 2 * length (dict_keys NODE_PROPERTIES) <= 1300.
Proof. vm_compute. lia. Qed.

Lemma unknown_reportable (specs : dict string PropertySpec) element id name keys :
  NoDup keys → (∀ k, k ∈ keys → k ∈ dict_keys specs) →
  total (dict_keys specs) + 2 * length (dict_keys specs) <= 1300 →
  length (dict_keys specs) <= MAX_REFERENCES → Forall (λ k, String.length k <= 100) (dict_keys specs) →
  String.length element <= 20 → 0 < String.length id <= 128 → 0 < String.length name <= 128 →
  reportable (unknown_report element id name keys).
Proof.
  intros Hn Hk Ht Hl Hlen He Hid Hname.
  assert (keys ⊆+ dict_keys specs) as Hsub by by apply NoDup_submseteq.
  pose proof (total_submseteq _ _ Hsub). pose proof (submseteq_length _ _ Hsub).
  assert (String.length (join ", " keys) <= 1300) by (etrans; [apply length_join|cbn [String.length]; lia]).
  assert (String.length (nat_text (length keys)) <= 4) by (apply (length_nat_text _ 3); unfold MAX_REFERENCES in *; lia).
  unfold unknown_report. generalize dependent (join ", " keys). intros listing ?. destruct (1 <? length keys).
  all: report_bounds; split; [rewrite length_fmap; lia|]; apply Forall_fmap, Forall_forall; intros k Hin.
  all: rewrite Forall_forall in Hlen; specialize (Hlen k (Hk k Hin)); unfold compose; abstract_literals; text_length.
Qed.

(** ** Settings that contradict one another *)
Lemma length_Z_bound z : (Z.abs z < 10 ^ 15)%Z → String.length (Z_text z) <= 16.
Proof. intros Hz. by apply (length_Z_text z 15 ltac:(lia)). Qed.

Lemma length_listed n names k :
  Forall (λ s, String.length s <= k) names → length (some_of n names) <= n * (k + 2) + 3.
Proof.
  intros Hk. unfold some_of. rewrite length_app, length_points.
  assert (String.length (join ", " (take n names)) <= n * (k + 2)) as Hj.
  { etrans; [apply length_join|]. pose proof (total_bound (take n names) k ltac:(by apply Forall_take)).
    pose proof (length_take_le names n). change (String.length ", ") with 2.
    assert (length (take n names) <= n) by (rewrite length_take; lia). nia. }
  destruct (n <? length names); cbn [length app]; [|simpl; lia].
  rewrite length_app, length_points. cbn. lia.
Qed.

Lemma replicas_reportable n replicas low high bound v :
  node_ok n → (0 < String.length bound <= 100) →
  String.length (py_str replicas) <= 16 → String.length (py_str v) <= 16 →
  length (bound_or_ellipsis low) <= 16 → length (bound_or_ellipsis high) <= 16 →
  reportable (replicas_report n replicas low high bound v).
Proof.
  intros [? ?]%node_texts ? ? ? ? ?. unfold replicas_report.
  generalize dependent (py_str v). generalize dependent (py_str replicas). intros r ? s ?.
  assert (length AT_MOST = 3) by reflexivity. generalize dependent AT_MOST. intros sign ?. report_bounds.
Qed.

(** All of at most one report. *)
Ltac forall_one := first [apply Forall_nil_2 | apply Forall_cons_2; [|apply Forall_nil_2]].

Lemma node_configuration n : node_ok n → configuration_ok (n_configuration n) NODE_PROPERTIES (value (n_kind n)).
Proof. by intros [_ _ []]. Qed.

Lemma connection_configuration c : connection_ok c → configuration_ok (c_configuration c) CONNECTION_PROPERTIES CONNECTION_OWNER.
Proof. by intros [_ []]. Qed.

(** A whole-number setting of a node, or of a connection: its text is short. *)
Lemma integer_text c specs owner k s :
  configuration_ok c specs owner → dict_get k specs = Some s → p_type s = INTEGER →
  String.length (py_str (setting c k)) <= 16 ∧ length (bound_or_ellipsis (setting c k)) <= 16.
Proof.
  intros Hc Hs Ht. destruct (integer_setting c specs owner Hc k s Hs Ht) as [-> | (z & -> & Hz%length_Z_bound)].
  - cbn. lia.
  - unfold bound_or_ellipsis, is_none. rewrite length_points. done.
Qed.

Lemma replicas_reports_ok n : node_ok n → Forall reportable (replicas_reports n).
Proof.
  intros Hn. pose proof (node_configuration n Hn) as Hc. unfold replicas_reports. cbv zeta.
  destruct (integer_text _ _ _ "replicas" _ Hc eq_refl eq_refl) as [Hr _].
  destruct (integer_text _ _ _ "autoscaling_min_replicas" _ Hc eq_refl eq_refl) as [Hl Hl'].
  destruct (integer_text _ _ _ "autoscaling_max_replicas" _ Hc eq_refl eq_refl) as [Hh Hh'].
  destruct (as_int (setting (n_configuration n) "replicas")); [|done].
  apply Forall_app. split; case_match; forall_one; apply replicas_reportable; try done; cbn; lia.
Qed.

Lemma zone_reports_ok n : node_ok n → Forall reportable (zone_reports n).
Proof.
  intros Hn. pose proof (node_configuration n Hn) as Hc. apply node_texts in Hn as [? ?]. unfold zone_reports.
  destruct (setting _ "multi_az") as [|b| | | | |]; try done.
  destruct (setting _ "availability_zones") as [| | | | |l|] eqn:Hl; try done.
  pose proof (list_setting _ _ _ Hc "availability_zones" _ l eq_refl eq_refl Hl) as Hz.
  assert (String.length (nat_text (length l)) <= 3) by (apply (length_nat_text _ 2); unfold MAX_LIST_VALUES in *; lia).
  generalize dependent (nat_text (length l)). intros count ?.
  repeat case_match; forall_one; unfold ZONE_PATHS; report_bounds.
Qed.

Lemma backup_reports_ok n : node_ok n → Forall reportable (backup_reports n).
Proof.
  intros [? ?]%node_texts. unfold backup_reports. repeat case_match; forall_one; unfold BACKUP_PATHS; report_bounds.
Qed.

Lemma retries_reportable c : connection_ok c → reportable (retries_report c).
Proof.
  intros Hc. destruct (integer_text _ _ _ "retries" _ (connection_configuration c Hc) eq_refl eq_refl) as [Hr _].
  apply connection_texts in Hc as [? ?]. unfold retries_report. generalize dependent (py_str (setting (c_configuration c) "retries")).
  intros r ?. report_bounds.
Qed.

Lemma connection_kind_bound (k : ConnectionKind) : String.length (value k) <= 30.
Proof. destruct k; cbn; lia. Qed.

Lemma dead_letter_reportable c : connection_ok c → reportable (dead_letter_report c).
Proof.
  intros [? ?]%connection_texts. pose proof (connection_kind_bound (c_kind c)). unfold dead_letter_report. generalize dependent (value (c_kind c)). intros kind ?. report_bounds.
Qed.

(** ** Cycles of requests *)
Lemma elem_of_call_edges calls x y :
  y ∈ edges_of (call_edges calls) x ↔ ∃ c, c ∈ calls ∧ c_source_id c = x ∧ c_target_id c = y.
Proof.
  unfold edges_of, call_edges.
  assert (∀ edges : dict string (list string),
    y ∈ default [] (dict_get x (foldl (λ e c, append_to e (c_source_id c) (c_target_id c)) edges calls)) ↔
    y ∈ default [] (dict_get x edges) ∨ ∃ c, c ∈ calls ∧ c_source_id c = x ∧ c_target_id c = y) as H.
  { induction calls as [|c cs IH]; intros edges; cbn [foldl]; [set_solver|].
    rewrite IH, append_to_get, elem_of_app. case_decide as E; set_solver. }
  rewrite H. set_solver.
Qed.

Lemma elem_of_called calls x : x ∈ called_nodes calls ↔ ∃ c, c ∈ calls ∧ (x = c_source_id c ∨ x = c_target_id c).
Proof. unfold called_nodes. rewrite elem_of_sorted_set, elem_of_app, !list_elem_of_fmap. naive_solver. Qed.

Lemma call_edges_closed calls x y : y ∈ edges_of (call_edges calls) x → y ∈ called_nodes calls.
Proof. rewrite elem_of_call_edges, elem_of_called. naive_solver. Qed.

Section cycles.
Context (ir : ArchitectureIR) (Hw : writable ir) (calls : list Connection).
Context (Hcalls : ∀ c, c ∈ calls → c ∈ ir_connections ir).

Lemma writable_graph : valid_graph (ir_nodes ir) (ir_connections ir) (ir_assumptions ir) (ir_decisions ir).
Proof using Hw.
  apply built_architecture_graph; [by destruct Hw|]. apply Forall_forall. intros n Hn. by apply (w_nodes ir Hw).
Qed.

Lemma called_ids x : x ∈ called_nodes calls → x ∈ n_id <$> ir_nodes ir.
Proof using Hw Hcalls.
  rewrite elem_of_called. intros (c & Hc & Hx).
  destruct (vg_endpoints _ _ _ _ writable_graph c x (Hcalls c Hc) Hx) as (n & Hn & <- & _).
  by apply list_elem_of_fmap_2.
Qed.

Lemma node_id_bound x : x ∈ n_id <$> ir_nodes ir → 0 < String.length x <= 128.
Proof using Hw. intros (n & -> & Hn)%list_elem_of_fmap. by apply node_texts, (w_nodes ir Hw). Qed.

Lemma group_ids grp x : grp ∈ call_cycles calls → x ∈ grp → x ∈ n_id <$> ir_nodes ir.
Proof using Hw Hcalls.
  intros [_ Hg]%list_elem_of_filter Hx. apply called_ids.
  apply (proj1 (proj2 (strongly_connected_groups _ _ (call_edges_closed calls)))). apply list_elem_of_join. by exists grp.
Qed.

Lemma group_size grp : grp ∈ call_cycles calls → length grp <= MAX_NODES.
Proof using Hw Hcalls.
  intros Hg. destruct (built_limits ir (w_built ir Hw)) as [L _]. cbn [aa_nodes ArchitectureIR_args] in L.
  rewrite <- (length_fmap n_id) in L. etrans; [|exact L].
  apply submseteq_length, NoDup_submseteq; [|intros x; by apply group_ids].
  apply list_elem_of_filter in Hg as [_ Hg]. by apply (strongly_connected_groups _ _ (call_edges_closed calls)).
Qed.

Lemma cycle_reportable grp : length calls <= MAX_CONNECTIONS → grp ∈ call_cycles calls → reportable (cycle_report calls grp).
Proof using Hw Hcalls.
  intros Hlen Hg. pose proof (group_size grp Hg) as Hs. unfold MAX_NODES, MAX_CONNECTIONS in *.
  set (cs := filter (λ c, c_source_id c ∈ grp ∧ c_target_id c ∈ grp) calls).
  pose proof (length_nat_text (length grp) 4 ltac:(lia) ltac:(lia)) as Ht.
  assert (length (some_of 10 grp) <= 1303) as Hl.
  { apply (length_listed 10 grp 128). apply Forall_forall. intros x Hx. by apply node_id_bound, (group_ids grp). }
  assert (ids_ok (capped (grp ++ (c_id <$> cs)))) as Hids.
  { unfold capped. split; [rewrite length_take; lia|]. apply Forall_take, Forall_forall.
    intros x [Hx|Hx]%elem_of_sorted_set%elem_of_app.
    - pose proof (node_id_bound x (group_ids grp x Hg Hx)). lia.
    - apply list_elem_of_fmap in Hx as (c & -> & [_ Hc]%list_elem_of_filter).
      pose proof (connection_texts c (w_connections ir Hw c (Hcalls c Hc))). lia. }
  unfold cycle_report. cbv zeta. fold cs. generalize dependent (capped (grp ++ (c_id <$> cs))).
  generalize dependent (some_of 10 grp). generalize dependent (nat_text (length grp)). intros n ? shown ? ids ?.
  report_bounds. done.
Qed.
End cycles.

(** ** Policies *)
Lemma length_shown pattern l :
  proper_names pattern l → (∀ s, pattern s = true → String.length s <= 64) → length (shown l) <= 1323.
Proof.
  intros [Hp _] Hl. apply (length_listed 20 _ 64), Forall_forall. intros s Hs%elem_of_sort_by.
  rewrite Forall_forall in Hp. by apply Hl, Hp.
Qed.

Lemma technology_bound n t : node_ok n → n_technology n = Some t → String.length (t_name t) <= 64.
Proof.
  intros [_ Ht _] Hn. specialize (Ht t Hn). unfold built, Technology_args in Ht. cbn [fst snd] in Ht.
  apply construct_ok in Ht as [Hp Ht]. unfold Technology_typed in Ht.
  apply bind_Some in Ht as (s & Hs & Ht). apply bind_Some in Ht as (v & _ & Ht). injection Ht as Ht. rewrite <- Ht. cbn [t_name].
  apply app_nil in Hp as [Hp _]. destruct (clean_str _ _) as [| | | |s'| |]; try done. injection Hs as <-.
  destruct (TECHNOLOGY_NAME _) eqn:E; [|done]. apply matches_length in E. lia.
Qed.

Lemma technology_reports_ok p n : policy_ok p → node_ok n → Forall reportable (technology_reports p n).
Proof.
  intros Hp Hn. pose proof (technology_bound n) as Ht. specialize (λ t, Ht t Hn). pose proof (node_texts n Hn) as [? ?].
  assert (length (shown (pl_allowed_technologies p)) <= 1323) as Hs.
  { apply (length_shown TECHNOLOGY_NAME); [by destruct Hp|]. intros s Hm%matches_length. lia. }
  unfold technology_reports, technology_unstated, prohibited_technology, technology_not_allowed.
  destruct (n_technology n) as [t|].
  - specialize (Ht t eq_refl). generalize dependent (t_name t). intros name ?.
    generalize dependent (shown (pl_allowed_technologies p)). intros listing ?.
    repeat case_match; forall_one; report_bounds.
  - case_match; forall_one; report_bounds.
Qed.

Lemma region_reports_ok p n : policy_ok p → node_ok n → Forall reportable (region_reports (pl_allowed_regions p) n).
Proof.
  intros Hp Hn. pose proof (node_configuration n Hn) as Hc. apply node_texts in Hn as [? ?].
  assert (length (shown (pl_allowed_regions p)) <= 1323) as Hs.
  { apply (length_shown (fullmatch REGION)); [by destruct Hp|]. intros s Hm%matches_length. lia. }
  unfold region_reports, region_unknown, region_not_allowed. case_match; [forall_one; report_bounds|].
  destruct (setting _ "region") as [| | | |region| |] eqn:Hr; try done.
  pose proof (text_setting _ _ _ Hc "region" _ region eq_refl eq_refl Hr) as Hl. unfold MAX_TEXT_VALUE in Hl.
  case_match; forall_one. generalize dependent (shown (pl_allowed_regions p)). intros listing ?. report_bounds.
Qed.

Lemma tls_reports_ok c : connection_ok c → Forall reportable (tls_reports c).
Proof.
  intros [? ?]%connection_texts. unfold tls_reports, tls_disabled, tls_unstated. repeat case_match; forall_one.
  all: try (destruct (is_unknown _ _)); report_bounds.
Qed.

Lemma too_many_reportable count limit :
  count <= MAX_NODES → (Z.abs limit < 10 ^ 15)%Z → reportable (too_many_components count limit).
Proof.
  intros Hc Hl%length_Z_bound. pose proof (length_nat_text count 4 ltac:(lia)) as Ht. unfold MAX_NODES in *.
  specialize (Ht ltac:(lia)). unfold too_many_components.
  generalize dependent (Z_text limit). generalize dependent (nat_text count). intros ? ? ? ?. report_bounds.
Qed.

(** * The built-in rules run *)
Section runs.
Context `{ComponentCatalog} (ctx : ValidationContext).
Context (Hir : writable (vc_ir ctx)) (Hpolicy : ∀ p, vc_policy ctx = Some p → policy_ok p).
Context (Hschema : (Z.abs (ri_schema_version (vc_revision ctx)) < 10 ^ 15)%Z).

Definition reported (r : Rule) (reports : list report) : Prop :=
  run_rule ctx r = Ok (findings_only (made (meta r) <$> reports)) ∧ Forall reportable reports.

Lemma checked_made m reports : checked m (findings_only (made m <$> reports)) = Ok (findings_only (made m <$> reports)).
Proof using Type.
  unfold checked, findings_only. cbn [oc_findings oc_requirement_results].
  rewrite (Is_true_eq_true (forallb _ _)); [done|]. apply forallb_True, Forall_fmap, Forall_true.
  intros p. unfold compose. cbn [made f_rule_id f_rule_version]. by rewrite String.eqb_refl, Z.eqb_refl.
Qed.

Lemma rule_reported r reports :
  RULE_ID (rule_id r) = true → (1 ≤ rm_version (meta r))%Z →
  evaluate r ctx (with_defaults (rm_parameters (meta r)) (default [] (dict_get (rule_id r) (cf_parameters (vc_config ctx)))))
    = outcome_of (meta r) reports →
  Forall reportable reports → reported r reports.
Proof using Type.
  intros Hid Hv He Hr. split; [|done]. unfold run_rule. cbv zeta. rewrite He. unfold outcome_of.
  assert (py_map (finding (meta r)) reports = Ok (made (meta r) <$> reports)) as ->.
  { apply py_map_ok, Forall2_fmap_r, Forall_Forall2_diag. eapply Forall_impl; [exact Hr|].
    intros p Hp. by apply finding_made. }
  apply checked_made.
Qed.

Lemma reporting_reported m reports :
  RULE_ID (rm_id m) = true → (1 ≤ rm_version m)%Z → Forall reportable (reports ctx) →
  reported (reporting m reports) (reports ctx).
Proof using Type. intros Hid Hv Hr. by apply rule_reported. Qed.

Lemma nodes_ok : Forall node_ok (ir_nodes (vc_ir ctx)).
Proof using Hir. apply Forall_forall, (w_nodes _ Hir). Qed.

Lemma connections_ok : Forall connection_ok (ir_connections (vc_ir ctx)).
Proof using Hir. apply Forall_forall, (w_connections _ Hir). Qed.

Lemma Forall_bind_in {A B} (P : A → Prop) (Q : B → Prop) (f : A → list B) l :
  Forall P l → (∀ x, P x → Forall Q (f x)) → Forall Q (l ≫= f).
Proof using Type. intros Hl Hf. apply Forall_bind. eapply Forall_impl; [exact Hl|done]. Qed.

Lemma Forall_filtered {A} (P R : A → Prop) `{!∀ x, Decision (R x)} l : Forall P l → Forall P (filter R l).
Proof using Type. rewrite !Forall_forall. intros Hl x [_ Hx]%list_elem_of_filter. by apply Hl. Qed.

Lemma Forall_fmap_filter {A B} (P : A → Prop) (Q : B → Prop) (f : A → B) (R : A → Prop) `{!∀ x, Decision (R x)} l :
  Forall P l → (∀ x, P x → Q (f x)) → Forall Q (f <$> filter R l).
Proof using Type.
  intros Hl Hf. apply Forall_fmap, Forall_filtered. eapply Forall_impl; [exact Hl|]. intros x Hx. by apply Hf.
Qed.

(** ** Structure *)
Lemma disconnected_runs :
  reported DisconnectedComponents (disconnected_report <$> disconnected_nodes (topology ctx)).
Proof using Hir.
  apply (reporting_reported _ (λ ctx, disconnected_report <$> disconnected_nodes (topology ctx))); [done|done|].
  unfold disconnected_nodes. case_match; [done|].
  apply (Forall_fmap_filter node_ok); [|by apply disconnected_reportable]. by apply Forall_filtered, nodes_ok.
Qed.

Lemma empty_boundaries_runs :
  reported EmptyBoundaries (empty_boundary_report <$>
    filter (λ n, children (topology ctx) (n_id n) = []) (nodes_of_kind (topology ctx) [BOUNDARY])).
Proof using Hir.
  apply (reporting_reported _ (λ ctx, empty_boundary_report <$>
    filter (λ n, children (topology ctx) (n_id n) = []) (nodes_of_kind (topology ctx) [BOUNDARY]))); [done|done|].
  apply (Forall_fmap_filter node_ok); [|by apply empty_boundary_reportable]. by apply Forall_filtered, nodes_ok.
Qed.

(** The parameter of the rule on cycles, as the request gives it or true. *)
Definition include_unstated : bool :=
  truthy (default (JBool true) (dict_get "include_unstated"
    (default [] (dict_get "structure.synchronous-cycle" (cf_parameters (vc_config ctx)))))).

Definition request_calls : list Connection := waiting_calls (vc_ir ctx) include_unstated.

Lemma cycles_run : reported SynchronousCycles (cycle_report request_calls <$> call_cycles request_calls).
Proof using Hir.
  apply rule_reported; [done|done|done|]. apply Forall_fmap, Forall_forall. intros grp Hg.
  apply (cycle_reportable (vc_ir ctx)); [done| | |done].
  - by intros c [_ Hc]%list_elem_of_filter.
  - etrans; [apply length_filter|]. apply built_limits, (w_built _ Hir).
Qed.

Lemma deprecated_runs : reported DeprecatedConnections (ir_connections (vc_ir ctx) ≫= deprecated_reports (topology ctx)).
Proof using Hir.
  apply (reporting_reported _ (λ ctx, ir_connections (vc_ir ctx) ≫= deprecated_reports (topology ctx))); [done|done|].
  apply (Forall_bind_in connection_ok); [apply connections_ok|]. intros c Hc. unfold deprecated_reports.
  destruct (node _ (c_source_id c)) as [s|] eqn:Es; [|done]. destruct (node _ (c_target_id c)) as [t|] eqn:Et; [|done].
  assert (∀ i n, node (topology ctx) i = Some n → node_ok n) as Hn.
  { intros i n Hn. apply (w_nodes _ Hir). apply (index_by_get n_id) in Hn as [Hn _]; [done|].
    by apply (valid_graph_ids _ _ _ _ (writable_graph _ Hir)). }
  apply Hn in Es, Et. repeat case_match; forall_one; [by apply depends_on_deprecated_reportable|by apply deprecated_source_reportable].
Qed.

Definition upgrade_reports : list report :=
  if (IR_SCHEMA_VERSION <=? ri_schema_version (vc_revision ctx))%Z then []
  else [upgraded_report (ri_schema_version (vc_revision ctx))].

Lemma schema_runs : reported SchemaVersion upgrade_reports.
Proof using Hschema.
  apply (reporting_reported _ (λ ctx, let stored := ri_schema_version (vc_revision ctx) in
    if (IR_SCHEMA_VERSION <=? stored)%Z then [] else [upgraded_report stored])); [done|done|].
  cbv zeta. case_match; forall_one. by apply upgraded_reportable.
Qed.

(** ** Completeness *)
Definition unknown_reports : list report :=
  (λ '(element, element_id, name, c), unknown_report element element_id name (sort_by str_leb (unknown c)))
    <$> filter (λ p, unknown p.2 ≠ []) (configured (vc_ir ctx)).

Lemma names_bounded (specs : dict string PropertySpec) :
  forallb (λ k, String.length k <=? 100) (dict_keys specs) = true → Forall (λ k, String.length k <= 100) (dict_keys specs).
Proof using Type.
  intros Hb%Is_true_true%forallb_True. eapply Forall_impl; [exact Hb|]. intros k Hk. by apply Nat.leb_le, Is_true_true.
Qed.

Lemma unknown_of_reportable c specs owner element id name :
  configuration_ok c specs owner →
  total (dict_keys specs) + 2 * length (dict_keys specs) <= 1300 → length (dict_keys specs) <= MAX_REFERENCES →
  forallb (λ k, String.length k <=? 100) (dict_keys specs) = true →
  String.length element <= 20 → 0 < String.length id <= 128 → 0 < String.length name <= 128 →
  reportable (unknown_report element id name (sort_by str_leb (unknown c))).
Proof using Type.
  intros Hc Ht Hl Hb He Hi Hn. apply (unknown_reportable specs); try done.
  - apply NoDup_sort_by. by apply (unknown_distinct c specs owner).
  - intros k Hk%elem_of_sort_by. by apply (unknown_known c specs owner).
  - by apply names_bounded.
Qed.

Lemma unknown_runs : reported UnknownValues unknown_reports.
Proof using Hir.
  apply (reporting_reported _ (λ ctx, _)); [done|done|]. apply Forall_fmap, Forall_filtered, Forall_app. split.
  - apply Forall_fmap. eapply Forall_impl; [apply nodes_ok|]. intros n Hn. pose proof (node_texts n Hn) as [? ?].
    apply (unknown_of_reportable _ NODE_PROPERTIES (value (n_kind n))); [by apply node_configuration|apply total_nodes|..].
    all: try (vm_compute; reflexivity); try lia. all: unfold MAX_REFERENCES; vm_compute; lia.
  - apply Forall_fmap. eapply Forall_impl; [apply connections_ok|]. intros c Hc. pose proof (connection_texts c Hc) as [? ?].
    apply (unknown_of_reportable _ CONNECTION_PROPERTIES CONNECTION_OWNER); [by apply connection_configuration|..].
    all: try (vm_compute; reflexivity); try lia. all: unfold MAX_REFERENCES; vm_compute; lia.
Qed.

(** ** Configuration *)
Lemma replicas_run : reported ReplicasWithinAutoscaling (ir_nodes (vc_ir ctx) ≫= replicas_reports).
Proof using Hir.
  apply (reporting_reported _ (λ ctx, ir_nodes (vc_ir ctx) ≫= replicas_reports)); [done|done|].
  apply (Forall_bind_in node_ok); [apply nodes_ok|apply replicas_reports_ok].
Qed.

Lemma zones_run : reported ZonesMatchMultiAz (ir_nodes (vc_ir ctx) ≫= zone_reports).
Proof using Hir.
  apply (reporting_reported _ (λ ctx, ir_nodes (vc_ir ctx) ≫= zone_reports)); [done|done|].
  apply (Forall_bind_in node_ok); [apply nodes_ok|apply zone_reports_ok].
Qed.

Lemma backups_run : reported BackupsRetained (ir_nodes (vc_ir ctx) ≫= backup_reports).
Proof using Hir.
  apply (reporting_reported _ (λ ctx, ir_nodes (vc_ir ctx) ≫= backup_reports)); [done|done|].
  apply (Forall_bind_in node_ok); [apply nodes_ok|apply backup_reports_ok].
Qed.

Lemma retries_run :
  reported RetriesNeedTimeouts (retries_report <$> filter (λ c, retries_forever c = true) (ir_connections (vc_ir ctx))).
Proof using Hir.
  apply (reporting_reported _ (λ ctx, retries_report <$> filter (λ c, retries_forever c = true) (ir_connections (vc_ir ctx)))); [done|done|].
  apply (Forall_fmap_filter connection_ok); [apply connections_ok|by apply retries_reportable].
Qed.

Definition dead_letters : list Connection :=
  filter (λ c, setting (c_configuration c) "dead_letter" = JBool true ∧ c_kind c ≠ CONSUME) (ir_connections (vc_ir ctx)).

Lemma dead_letters_run : reported DeadLetterOnConsumers (dead_letter_report <$> dead_letters).
Proof using Hir.
  apply (reporting_reported _ (λ ctx, dead_letter_report <$> filter (λ c,
    setting (c_configuration c) "dead_letter" = JBool true ∧ c_kind c ≠ CONSUME) (ir_connections (vc_ir ctx)))); [done|done|].
  apply (Forall_fmap_filter connection_ok); [apply connections_ok|by apply dead_letter_reportable].
Qed.

(** ** Policy *)
Lemma policy_of_ok p : policy_of ctx = Some p → policy_ok p.
Proof using Hpolicy. unfold policy_of. case_match; [apply Hpolicy|done]. Qed.

Lemma under_ok (f : ArchitecturePolicy → ArchitectureIR → list report) :
  (∀ p, policy_ok p → Forall reportable (f p (vc_ir ctx))) → Forall reportable (under f ctx).
Proof using Hpolicy. intros Hf. unfold under. destruct (policy_of ctx) as [p|] eqn:E; [|done]. by apply Hf, policy_of_ok. Qed.

Lemma technologies_run : reported Technologies (under technologies_of ctx).
Proof using Hir Hpolicy.
  apply reporting_reported; [done|done|]. apply under_ok. intros p Hp. unfold technologies_of. case_match; [done|].
  apply (Forall_bind_in node_ok); [apply nodes_ok|]. intros x. by apply technology_reports_ok.
Qed.

Lemma regions_run : reported Regions (under regions_of ctx).
Proof using Hir Hpolicy.
  apply reporting_reported; [done|done|]. apply under_ok. intros p Hp. unfold regions_of. case_match; [done|].
  apply (Forall_bind_in node_ok); [apply nodes_ok|]. intros x. by apply region_reports_ok.
Qed.

Lemma encryption_runs : reported EncryptionInTransit (under tls_of ctx).
Proof using Hir Hpolicy.
  apply reporting_reported; [done|done|]. apply under_ok. intros p Hp. unfold tls_of. case_match; [|done].
  apply (Forall_bind_in connection_ok); [apply connections_ok|apply tls_reports_ok].
Qed.

Lemma count_runs : reported ComponentCount (under count_of_components ctx).
Proof using Hir Hpolicy.
  apply reporting_reported; [done|done|]. apply under_ok. intros p Hp. unfold count_of_components. cbv zeta.
  destruct (pl_max_components p) as [limit|] eqn:El; [|done]. case_match; forall_one.
  pose proof (ok_components p Hp) as Hl. rewrite El in Hl. apply too_many_reportable; [|unfold MAX_NODES in Hl; lia].
  etrans; [apply length_filter|]. by destruct (built_limits _ (w_built _ Hir)) as [? _].
Qed.

(** ** All of them *)
Definition policy_output : list (Rule * list report) := [
  (Technologies, under technologies_of ctx); (Regions, under regions_of ctx);
  (EncryptionInTransit, under tls_of ctx); (ComponentCount, under count_of_components ctx)].

Definition other_output : list (Rule * list report) := [
  (DisconnectedComponents, disconnected_report <$> disconnected_nodes (topology ctx));
  (EmptyBoundaries, empty_boundary_report <$>
     filter (λ n, children (topology ctx) (n_id n) = []) (nodes_of_kind (topology ctx) [BOUNDARY]));
  (SynchronousCycles, cycle_report request_calls <$> call_cycles request_calls);
  (DeprecatedConnections, ir_connections (vc_ir ctx) ≫= deprecated_reports (topology ctx));
  (SchemaVersion, upgrade_reports);
  (UnknownValues, unknown_reports);
  (ReplicasWithinAutoscaling, ir_nodes (vc_ir ctx) ≫= replicas_reports);
  (ZonesMatchMultiAz, ir_nodes (vc_ir ctx) ≫= zone_reports);
  (BackupsRetained, ir_nodes (vc_ir ctx) ≫= backup_reports);
  (RetriesNeedTimeouts, retries_report <$> filter (λ c, retries_forever c = true) (ir_connections (vc_ir ctx)));
  (DeadLetterOnConsumers, dead_letter_report <$> dead_letters)].

(** Each of these rules, and what it reports. *)
Definition plain_output : list (Rule * list report) := other_output ++ policy_output.

Lemma plain_reports : Forall (λ p, reported p.1 p.2) plain_output.
Proof using Hir Hpolicy Hschema.
  repeat apply Forall_cons_2; [..|apply Forall_nil_2].
  - apply disconnected_runs.
  - apply empty_boundaries_runs.
  - apply cycles_run.
  - apply deprecated_runs.
  - apply schema_runs.
  - apply unknown_runs.
  - apply replicas_run.
  - apply zones_run.
  - apply backups_run.
  - apply retries_run.
  - apply dead_letters_run.
  - apply technologies_run.
  - apply regions_run.
  - apply encryption_runs.
  - apply count_runs.
Qed.
End runs.
