(* ===== verification/RequirementFacts.v ===== *)
(** What the rules on requirements and components rely on: how long what is stored of a requirement can be, what
    each built-in rule would report and conclude ([built_in_output]), and when its constructors accept it
    ([fits]): always, but for the texts of the component rule and the lists of regions of the verdicts. *)
From Stdlib Require Import Ascii ZArith Lia.
From S2P Require Import Prelude Data Errors Codecs Values Provenance Traceability Component Configuration Elements Model Topology Serialization RoundTrip JsonText.
From S2P Require Import Projects ProjectProperties Requirements Findings ValidationEngine ValidationRules PolicyRules RequirementRules ValidationFacts.
#[local] Open Scope text_scope.

(** * What is stored of a requirement *)

(** ** UUIDs *)
Lemma length_slice l start n : length (slice l start n) <= n.
Proof. unfold slice. rewrite length_take. lia. Qed.

Lemma canonical_uuid_shape u : canonical_uuid u → ∃ h, u = text_of (slice h 0 8) +:+ "-" +:+ text_of (slice h 8 4) +:+ "-"
  +:+ text_of (slice h 12 4) +:+ "-" +:+ text_of (slice h 16 4) +:+ "-" +:+ text_of (slice h 20 12).
Proof.
  unfold canonical_uuid, uuid_of. cbv zeta. case_match; [|done]. intros (z & _ & Hu)%bind_Some.
  case_match; [|done]. exists (hex_text 32 z). congruence.
Qed.

Lemma canonical_uuid_length u : canonical_uuid u → 0 < String.length u <= 36.
Proof.
  intros (h & ->)%canonical_uuid_shape. rewrite !length_str_app, !length_text_of.
  pose proof (length_slice h 0 8). pose proof (length_slice h 8 4). pose proof (length_slice h 12 4).
  pose proof (length_slice h 16 4). pose proof (length_slice h 20 12). change (String.length "-") with 1. lia.
Qed.

Lemma canonical_uuid_text u : canonical_uuid u → text_ok (points_of u).
Proof.
  intros Hu. split.
  - apply canonical_uuid_shape in Hu as (h & ->). abstract_literals. not_blank.
  - apply canonical_uuid_length in Hu. rewrite length_points. pose proof MAX_TEXT_is. lia.
Qed.

(** ** Numbers *)
Lemma strip_zeros_value fuel : ∀ c e c' e',
  strip_zeros fuel c e = (c', e') → (e ≤ e' ∧ c = c' * 10 ^ (e' - e))%Z.
Proof.
  induction fuel as [|fuel IH]; intros c e c' e'; cbn [strip_zeros].
  - intros [= <- <-]. rewrite Z.sub_diag. lia.
  - destruct (c mod 10 =? 0)%Z eqn:E; [|intros [= <- <-]; rewrite Z.sub_diag; lia].
    apply Z.eqb_eq in E. intros (He & Hc)%IH. split; [lia|]. pose proof (Z.div_mod c 10 ltac:(lia)) as Hd.
    replace (e' - e)%Z with (Z.succ (e' - (e + 1)))%Z by lia. rewrite Z.pow_succ_r by lia. nia.
Qed.

Lemma fix_dec_abs prec c e c' e' : fix_dec prec c e = (c', e') → fix_dec prec (Z.abs c) e = (Z.abs c', e').
Proof.
  unfold fix_dec. assert (digits (Z.abs c) = digits c) as -> by (unfold digits; by rewrite Z.abs_idemp).
  destruct (digits c <=? prec)%Z eqn:El; [by intros [= <- <-]|]. apply Z.leb_gt in El.
  rewrite Z.abs_idemp. set (q := div_half_even (Z.abs c) (pow10 (digits c - prec))).
  assert (0 ≤ q)%Z as Hq.
  { unfold q, div_half_even, pow10. destruct (Z.lt_ge_cases (digits c - prec) 0) as [?|?]; [lia|].
    assert (0 ≤ Z.abs c / 10 ^ (digits c - prec))%Z by (apply Z.div_pos; [lia|]; apply Z.pow_pos_nonneg; lia).
    repeat case_match; lia. }
  assert (0 ≤ q / 10)%Z by (apply Z.div_pos; lia).
  assert (∀ x, 0 ≤ x → Z.sgn (Z.abs c) * x = Z.abs (Z.sgn c * x))%Z as Hs.
  { intros x Hx. rewrite Z.abs_mul, (Z.abs_eq x) by done. destruct c; done. }
  destruct (digits q <=? prec)%Z; intros [= <- <-]; by rewrite Hs.
Qed.

(** A number below the limit, in canonical form, ends at most fifteen places left of the point. *)
Lemma parsed_exponent c e c' e' :
  dec_ltb (dec_abs (DFin c e)) MAX_MAGNITUDE = true → normalize (DFin c e) = DFin c' e' → (e' ≤ 15)%Z.
Proof.
  unfold dec_abs. cbn [normalize]. destruct (fix_dec DEFAULT_PRECISION c e) as [c1 e1] eqn:Hf.
  rewrite (fix_dec_abs _ _ _ _ _ Hf). unfold trim. destruct (c1 =? 0)%Z eqn:Ez; [by intros _ [= _ <-]|].
  apply Z.eqb_neq in Ez. destruct (strip_zeros _ c1 e1) as [c2 e2] eqn:Hs. intros Hlt [= <- <-].
  apply strip_zeros_value in Hs as [He Hc]. unfold MAX_MAGNITUDE, dec_ltb, dec_scaled, pow10 in Hlt.
  apply Z.ltb_lt in Hlt. destruct (Z.le_gt_cases e2 15) as [|Hbig]; [done|exfalso].
  set (m := Z.min e1 15) in *.
  assert (1 ≤ Z.abs c2)%Z by (destruct (decide (c2 = 0%Z)) as [->|]; [rewrite Z.mul_0_l in Hc|]; lia).
  rewrite Hc, Z.abs_mul, (Z.abs_eq (10 ^ _)) in Hlt by (apply Z.pow_nonneg; lia).
  rewrite <- Z.mul_assoc, <- Z.pow_add_r in Hlt by lia. replace (e2 - e1 + (e1 - m))%Z with (e2 - m)%Z in Hlt by lia.
  assert (10 ^ (15 - m) ≤ 10 ^ (e2 - m))%Z by (apply Z.pow_le_mono_r; lia). nia.
Qed.

Lemma length_plain c e : (digits c ≤ 28)%Z → (-9 ≤ e ≤ 15)%Z → String.length (dec_plain c e) <= 48.
Proof.
  intros Hd He. unfold dec_plain, plain_chars. rewrite length_str_app.
  change String.string_of_list_ascii with text_of. rewrite length_text_of.
  destruct (digits_spec c) as (_ & Hd1 & _).
  assert (String.length (if (c <? 0)%Z then "-" else "") <= 1) by (case_match; simpl; lia).
  destruct (0 <=? e)%Z eqn:E; [apply Z.leb_le in E|apply Z.leb_gt in E].
  - rewrite length_app, length_coefficient. assert (length (if (c =? 0)%Z then [] else zeros e) <= 15)%nat.
    { destruct (c =? 0)%Z; [apply Nat.le_0_l|]. unfold zeros. rewrite length_replicate. lia. }
    lia.
  - rewrite length_app, length_cons, length_take, length_drop. unfold zeros.
    rewrite !length_app, length_replicate, length_coefficient. lia.
Qed.

(** A parsed number has a short text. *)
Lemma parsed_length raw field d : parse_decimal raw field = Ok d → String.length (decimal_to_str d) <= 48.
Proof.
  unfold parse_decimal. intros (v & _ & H)%py_bind_ok. destruct v as [c e|n|]; cbn [is_finite negb] in H; try done.
  destruct (dec_ltb _ _) eqn:Hlt; [|done]. cbn [negb] in H. destruct (_ <? _)%Z eqn:Hp; [done|].
  apply Ok_inj in H. subst d. apply Z.ltb_ge in Hp. unfold decimal_to_str. rewrite normalize_idemp.
  destruct (normalize (DFin c e)) as [c' e'| |] eqn:Hn; [|apply Nat.leb_le; by destruct negative|by apply Nat.leb_le].
  pose proof (parsed_exponent c e c' e' Hlt Hn) as He. unfold decimal_places in Hp. rewrite Hn in Hp.
  unfold MAX_DECIMAL_PLACES in Hp.
  assert (-9 ≤ e')%Z by (destruct (e' <? 0)%Z eqn:E; [lia|apply Z.ltb_ge in E; lia]).
  apply length_plain; [|lia].
  assert (normalize (DFin c' e') = DFin c' e') as [[-> _]|(_ & _ & ?)]%normalized_shape by (rewrite <- Hn; apply normalize_idemp); [done|].
  by unfold DEFAULT_PRECISION in *.
Qed.

(** ** Constraints *)
Lemma unit_length j u : unit_for j = Ok u → String.length (un_symbol u) <= 15.
Proof.
  unfold unit_for. destruct j as [| | | |s| |]; try done. cbv zeta. destruct (list_find _ UNITS) as [[i u']|] eqn:E.
  - intros [= <-]. apply list_find_Some in E as (Hi & _ & _). apply list_elem_of_lookup_2 in Hi.
    assert (Forall (λ u, String.length (un_symbol u) <= 15) UNITS) as Ha by (apply (bool_decide_unpack _); by vm_compute).
    rewrite Forall_forall in Ha. by apply Ha.
  - destruct (MONEY_UNIT (strip s)) eqn:Em; [|done]. intros [= <-]. cbn [un_symbol unit_by]. unfold MONEY_UNIT in Em.
    destruct (chars_of (strip s)) as [|a [|b [|c rest]]] eqn:Ec; try done.
    apply andb_prop in Em as [_ Em]. apply String.eqb_eq in Em.
    rewrite <- (length_points (strip s)). unfold points_of. rewrite length_fmap, Ec. simpl.
    assert (length rest = 6) as -> by (rewrite <- length_text_of, Em; done). lia.
Qed.

Lemma operator_length (o : Operator) : String.length (value o) <= 7.
Proof. destruct o; cbn; lia. Qed.

Lemma parsed_constraint raw c :
  parse_structured_data raw = Ok (Some c) → String.length (metric_of c) <= 64 ∧ String.length (bound_of c) <= 140.
Proof.
  assert (∀ m raw field metric, normalize_identifier m field = Ok metric → String.length metric <= 64 ∧
    ∀ (p : py StructuredConstraint), p = parse_set metric raw ∨ p = parse_range metric raw ∨ (∃ o, p = parse_quantity metric o raw) →
    ∀ c, p = Ok c → metric_of c = metric ∧ String.length (bound_of c) <= 140) as Hparts.
  { intros m obj field metric Hm. split.
    - unfold normalize_identifier in Hm. destruct m; try done. destruct (IDENTIFIER_FORMAT _) eqn:E; [|done].
      injection Hm as <-. apply matches_length in E. lia.
    - intros p [->|[->|[o ->]]] c0.
      + unfold parse_set. intros (x & _ & H)%py_bind_ok. apply py_bind_ok in H as (y & _ & H). apply Ok_inj in H. subst c0.
        split; [done|]. apply Nat.leb_le. done.
      + unfold parse_range. intros (x & _ & H)%py_bind_ok. apply py_bind_ok in H as (lo & Hlo & H).
        apply py_bind_ok in H as (hi & Hhi & H). destruct (negb _); [done|].
        apply py_bind_ok in H as (u & Hu & H). apply py_bind_ok in H as (q & _ & H). apply Ok_inj in H. subst c0.
        split; [done|]. apply py_bind_ok in Hlo as (? & _ & Hlo%parsed_length). apply py_bind_ok in Hhi as (? & _ & Hhi%parsed_length).
        apply py_bind_ok in Hu as (? & _ & Hu%unit_length). cbn [bound_of]. rewrite !length_str_app. cbn [String.length]. lia.
      + unfold parse_quantity. intros (x & _ & H)%py_bind_ok. apply py_bind_ok in H as (b & Hb & H).
        apply py_bind_ok in H as (u & Hu & H). apply py_bind_ok in H as (q & _ & H). apply Ok_inj in H. subst c0.
        split; [done|]. apply py_bind_ok in Hb as (? & _ & Hb%parsed_length). apply py_bind_ok in Hu as (? & _ & Hu%unit_length).
        pose proof (operator_length o). cbn [bound_of]. rewrite !length_str_app. cbn [String.length]. lia. }
  unfold parse_structured_data. destruct raw as [| | | | | |[|kv obj]]; try done. set (raw := kv :: obj).
  intros (metric & Hm & H)%py_bind_ok. apply py_bind_ok in Hm as (m & _ & Hm).
  apply py_bind_ok in H as (o & _ & H). destruct (Hparts m raw _ _ Hm) as [Hl Hc].
  destruct (match o with OP_ONE_OF => _ | OP_BETWEEN => _ | _ => _ end) as [c'|] eqn:Ep; [|done].
  cbn in H. injection H as ->. destruct (Hc (Ok c)) with (c := c) as [Hmc Hb]; [|done|by rewrite Hmc].
  rewrite <- Ep. destruct o; eauto.
Qed.

(** A requirement as the checks of its table, and the parser of its constraint, let it be. *)
Record requirement_ok (r : Requirement) : Prop := {
  rq_id : canonical_uuid (req_id r);
  rq_number : (1 ≤ req_number r < 2 ^ 31)%Z;
  rq_version : (1 ≤ req_version r < 2 ^ 31)%Z;
  rq_title : 1 <= String.length (rc_title (req_content r)) <= 200;
  rq_constraint : ∀ c, rc_constraint (req_content r) = Some c → ∃ raw, parse_structured_data raw = Ok (Some c);
}.

Lemma length_reference r : requirement_ok r → String.length (reference r) <= 15.
Proof.
  intros Hr. unfold reference. rewrite length_str_app.
  pose proof (length_Z_text (req_number r) 10 ltac:(lia)) as H. destruct (rq_number r Hr). cbn [String.length]. lia.
Qed.

Lemma length_version r : requirement_ok r → String.length (Z_text (req_version r)) <= 11.
Proof. intros Hr. destruct (rq_version r Hr). apply (length_Z_text _ 10); lia. Qed.

Lemma requirement_texts r c :
  requirement_ok r → rc_constraint (req_content r) = Some c → String.length (metric_of c) <= 64 ∧ String.length (bound_of c) <= 140.
Proof. intros Hr [raw Hc]%(rq_constraint r Hr). by apply (parsed_constraint raw). Qed.

Lemma length_status r : String.length (status_text r) <= 10.
Proof. unfold status_text. destruct (rc_status _); cbn; lia. Qed.

(** * References *)
Section references.
Context (ir : ArchitectureIR).

Lemma referencing_get i :
  default [] (dict_get i (referencing ir)) =
  (λ p, (p.1, version p.2)) <$> filter (λ p, requirement_id p.2 = i) (references_made ir).
Proof using Type.
  unfold referencing.
  assert (∀ (d : dict string (list (option string * option Z))) l,
    default [] (dict_get i (foldl (λ d p, append_to d (requirement_id p.2) (p.1, version p.2)) d l)) =
    default [] (dict_get i d) ++ ((λ p, (p.1, version p.2)) <$> filter (λ p, requirement_id p.2 = i) l)) as H.
  { intros d l. revert d. induction l as [|p l IH]; intros d; cbn [foldl]; [by rewrite app_nil_r|].
    rewrite IH, append_to_get, filter_cons, <- (assoc_L (++)).
    destruct (decide (i = requirement_id p.2)), (decide (requirement_id p.2 = i)); [done|congruence|congruence|done]. }
  by rewrite H.
Qed.

Lemma referencing_keys i : i ∈ dict_keys (referencing ir) ↔ ∃ p, p ∈ references_made ir ∧ requirement_id p.2 = i.
Proof using Type.
  unfold referencing.
  assert (∀ (d : dict string (list (option string * option Z))) l,
    i ∈ dict_keys (foldl (λ d p, append_to d (requirement_id p.2) (p.1, version p.2)) d l) ↔
    i ∈ dict_keys d ∨ ∃ p, p ∈ l ∧ requirement_id p.2 = i) as H.
  { intros d l. revert d. induction l as [|p l IH]; intros d; cbn [foldl]; [set_solver|].
    rewrite IH. unfold append_to. rewrite dict_keys_set. case_decide; set_solver. }
  rewrite H. split; [by intros [?%elem_of_nil|?]|by right].
Qed.

Lemma referencing_wf : NoDup (dict_keys (referencing ir)).
Proof using Type.
  unfold referencing.
  assert (∀ (d : dict string (list (option string * option Z))) l, dict_wf d →
    dict_wf (foldl (λ d p, append_to d (requirement_id p.2) (p.1, version p.2)) d l)) as H.
  { intros d l. revert d. induction l as [|p l IH]; intros d Hd; cbn [foldl]; [done|]. by apply IH, dict_set_wf. }
  apply H. constructor.
Qed.

Context (Hw : writable ir).

(** A reference is to a UUID, and made by an element of the architecture or by itself. *)
Lemma references_made_ok p :
  p ∈ references_made ir → ref_ok p.2 ∧ ∀ e, p.1 = Some e → 0 < String.length e <= 128.
Proof using Hw.
  unfold references_made. rewrite !elem_of_app. intros [Hp|[Hp|Hp]].
  - apply list_elem_of_fmap in Hp as (q & -> & Hq). pose proof (w_refs _ Hw) as Hr. rewrite Forall_forall in Hr.
    split; [by apply Hr|done].
  - apply list_elem_of_bind in Hp as (n & Hp & Hn). apply list_elem_of_fmap in Hp as (q & -> & Hq).
    pose proof (w_nodes _ Hw n Hn) as Hok. pose proof (an_refs_ok _ _ _ _ _ _ (no_annotations _ Hok)) as Hr.
    rewrite Forall_forall in Hr. split; [by apply Hr|]. intros e [= <-]. by destruct (node_texts n Hok).
  - apply list_elem_of_bind in Hp as (c & Hp & Hc). apply list_elem_of_fmap in Hp as (q & -> & Hq).
    pose proof (w_connections _ Hw c Hc) as Hok. pose proof (an_refs_ok _ _ _ _ _ _ (co_annotations _ Hok)) as Hr.
    rewrite Forall_forall in Hr. split; [by apply Hr|]. intros e [= <-]. by destruct (connection_texts c Hok).
Qed.

Lemma capped_ok l : Forall (λ s, 0 < String.length s <= 256) l → ids_ok (capped l).
Proof using Type.
  intros Hl. unfold capped. split; [rewrite length_take; lia|]. apply Forall_take, Forall_forall.
  intros x Hx. rewrite elem_of_sorted_set in Hx. rewrite Forall_forall in Hl. exact (Hl x Hx).
Qed.

Lemma referring_ok i : ids_ok (referring_elements (default [] (dict_get i (referencing ir)))).
Proof using Hw.
  apply capped_ok, Forall_forall. intros e He. apply list_elem_of_omap in He as (p & Hp & He).
  rewrite referencing_get in Hp. apply list_elem_of_fmap in Hp as (q & -> & [_ Hq]%list_elem_of_filter).
  apply references_made_ok in Hq as [_ Hq]. specialize (Hq e He). lia.
Qed.

Lemma ref_version r v : ref_ok r → version r = Some v → (1 ≤ v)%Z.
Proof using Type.
  intros [Hb _] Hv. unfold built, RequirementRef_new in Hb. apply construct_ok in Hb as [Hp _].
  unfold RequirementRef_args, RequirementRef_problems in Hp. cbn [fst snd] in Hp. rewrite Hv in Hp.
  apply app_nil in Hp as [_ Hp]. cbn in Hp. destruct (v <? 1)%Z eqn:E; [done|]. by apply Z.ltb_ge in E.
Qed.

Lemma outdated_pin r i v :
  v ∈ outdated_pins (default [] (dict_get i (referencing ir))) r → (1 ≤ v < req_version r)%Z.
Proof using Hw.
  unfold outdated_pins. rewrite elem_of_sort_by, elem_of_dedup, list_elem_of_filter. intros [Hlt Hv].
  apply list_elem_of_omap in Hv as (p & Hp & Hv). rewrite referencing_get in Hp.
  apply list_elem_of_fmap in Hp as (q & -> & [_ Hq]%list_elem_of_filter).
  apply references_made_ok in Hq as [Hq _]. split; [by eapply ref_version|done].
Qed.
End references.

Lemma live_get rs i r : dict_get i (live_requirements rs) = Some r → r ∈ rs ∧ req_id r = i.
Proof.
  intros Hr. apply dict_get_wf in Hr; [|apply dict_of_wf]. apply dict_of_sub, list_elem_of_fmap in Hr as (q & [= -> ->] & Hq).
  done.
Qed.

Lemma live_values rs r : r ∈ dict_values (live_requirements rs) → r ∈ rs.
Proof.
  intros ([i q] & -> & Hq)%list_elem_of_fmap. by apply dict_of_sub, list_elem_of_fmap in Hq as (q' & [= -> ->] & Hq).
Qed.

(** ** What the rule reports is within bounds *)
Section traceable.
Context (r : Requirement) (Hr : requirement_ok r).

Lemma unreferenced_reportable : reportable (unreferenced_report r).
Proof using Hr.
  pose proof (length_reference r Hr). pose proof (rq_title r Hr). pose proof (canonical_uuid_length _ (rq_id r Hr)).
  unfold unreferenced_report, of_requirement. generalize dependent (reference r). intros name ?. report_bounds.
Qed.

Lemma not_in_force_reportable elements : ids_ok elements → reportable (not_in_force_report r elements).
Proof using Hr.
  intros He. pose proof (length_reference r Hr). pose proof (length_status r). pose proof (canonical_uuid_length _ (rq_id r Hr)).
  unfold not_in_force_report, of_requirement. generalize dependent (reference r). generalize dependent (status_text r).
  intros status ? name ?. report_bounds. exact He.
Qed.

Lemma outdated_reportable pinned elements :
  ids_ok elements → (1 ≤ pinned < req_version r)%Z → reportable (outdated_report r pinned elements).
Proof using Hr.
  intros He Hp. pose proof (length_reference r Hr). pose proof (length_version r Hr). pose proof (canonical_uuid_length _ (rq_id r Hr)).
  pose proof (rq_version r Hr). pose proof (length_Z_text pinned 10 ltac:(lia) ltac:(lia)).
  unfold outdated_report, of_requirement. generalize dependent (reference r). generalize dependent (Z_text (req_version r)).
  generalize dependent (Z_text pinned). intros p ? v ? name ?. report_bounds. exact He.
Qed.
End traceable.

Lemma unknown_reference_reportable id elements :
  String.length id <= 36 → ids_ok elements → reportable (unknown_reference id elements).
Proof. intros Hi He. unfold unknown_reference. report_bounds. exact He. Qed.

Lemma trace_reportable ir rs : writable ir → Forall requirement_ok rs → Forall reportable (trace_reports ir rs).
Proof.
  intros Hw Hrs. rewrite Forall_forall in Hrs. unfold trace_reports. cbv zeta. apply Forall_app. split.
  - apply Forall_fmap, Forall_forall. intros r [_ Hr%elem_of_sort_by%live_values]%list_elem_of_filter.
    by apply unreferenced_reportable, Hrs.
  - apply Forall_bind, Forall_forall. intros i Hi%elem_of_sort_by.
    pose proof (referring_ok ir Hw i) as He. unfold compose, reference_reports. cbv zeta.
    apply referencing_keys in Hi as (p & Hp & <-). destruct (references_made_ok ir Hw p Hp) as [[_ Hu] _].
    destruct (dict_get _ (live_requirements rs)) as [r|] eqn:El.
    + apply live_get in El as [Hr%Hrs _]. apply Forall_app. split; [destruct (in_force r); forall_one; apply not_in_force_reportable; [exact Hr|exact He]|].
      destruct (outdated_pins _ r) as [|v vs] eqn:Ev; forall_one. apply outdated_reportable; [done|done|].
      eapply outdated_pin; [done|]. rewrite Ev. left.
    + forall_one. apply unknown_reference_reportable; [|done]. by destruct (canonical_uuid_length _ Hu).
Qed.

(** * Judgements *)

(** A judgement its rule can report, but for the length of its texts. *)
Record judged_ok (j : Judged) : Prop := {
  jo_reason : blank (points_of (jd_reason j)) = false;
  jo_violation : ∀ s, jd_violation j = Some s → blank (points_of s) = false;
  jo_violated : jd_verdict j = VIOLATED ↔ is_Some (jd_violation j);
  jo_ids : Forall (λ s, 0 < String.length s <= 256) (jd_entity_ids j);
  jo_evidence : length (jd_evidence j) <= 2;
}.

(** Its texts are no longer than a text may be. *)
Definition short (j : Judged) : bool :=
  (String.length (jd_reason j) <=? MAX_TEXT)
  && match jd_violation j with Some s => String.length s <=? MAX_TEXT | None => true end.

Lemma judged_judged_ok v reason ids :
  v ≠ VIOLATED → blank (points_of reason) = false → Forall (λ s, 0 < String.length s <= 256) ids → judged_ok (judged v reason ids).
Proof.
  intros Hv Hb Hi. constructor; cbn [jd_verdict jd_reason jd_entity_ids jd_evidence jd_violation judged].
  - exact Hb.
  - intros s [=].
  - split; [done|by intros [s [=]]].
  - exact Hi.
  - simpl. lia.
Qed.

Lemma judged_short v reason ids : String.length reason <= MAX_TEXT → short (judged v reason ids) = true.
Proof. intros H. unfold short. cbn [jd_reason jd_violation judged]. by rewrite (proj2 (Nat.leb_le _ _) H). Qed.

Lemma kinds_text_length kinds : length kinds <= 13 → String.length (kinds_text kinds) <= 442.
Proof.
  intros Hk. unfold kinds_text. etrans; [apply length_join|].
  assert (Forall (λ s, String.length s <= 30) (sort_by str_leb (value <$> kinds))) as Hf.
  { apply Forall_forall. intros s Hs%elem_of_sort_by. apply list_elem_of_fmap in Hs as (k & -> & _). apply kind_bound. }
  pose proof (total_bound _ 30 Hf) as Ht. rewrite length_sort_by, length_fmap in *. change (String.length " or ") with 4. lia.
Qed.

Lemma scope_length (s : RequirementScope) : String.length (value s) <= 8.
Proof. destruct s; cbn; lia. Qed.

Lemma length_take_join {A} (f : A → string) (l : list A) k :
  Forall (λ x, String.length (f x) <= k) l → String.length (join ", " (f <$> take 10 l)) <= 10 * (k + 2).
Proof.
  intros Hf. etrans; [apply length_join|]. change (String.length ", ") with 2.
  assert (Forall (λ s, String.length s <= k) (f <$> take 10 l)) as Ht by by apply Forall_fmap, Forall_take.
  pose proof (total_bound _ k Ht) as H. rewrite length_fmap, length_take in *. nia.
Qed.

(** A reason made of literals and of texts that have become variables. *)
Ltac spoken := abstract_literals; not_blank.
Ltac brief := pose proof MAX_TEXT_is; abstract_literals; text_length.

Section judging.
Context (ir : ArchitectureIR) (Hw : writable ir) (r : Requirement) (Hr : requirement_ok r).
#[local] Abbreviation t := (Topology_of ir).

Lemma ids_of_nodes nodes : (∀ n, n ∈ nodes → n ∈ ir_nodes ir) → Forall (λ s, 0 < String.length s <= 256) (n_id <$> nodes).
Proof using Hw.
  intros Hn. apply Forall_fmap, Forall_forall. intros n Hin. pose proof (node_texts n (w_nodes _ Hw n (Hn n Hin))). unfold compose. lia.
Qed.

Lemma counted {A} (l : list A) : length l <= MAX_NODES + MAX_CONNECTIONS → String.length (nat_text (length l)) <= 11.
Proof using Type. intros Hl. unfold MAX_NODES, MAX_CONNECTIONS in Hl. apply (length_nat_text _ 10); lia. Qed.

Lemma few_nodes {A} (l : list A) : length l <= length (ir_nodes ir) → length l <= MAX_NODES + MAX_CONNECTIONS.
Proof using Hw. intros Hl. destruct (built_limits ir (w_built ir Hw)) as [L _]. cbn [aa_nodes ArchitectureIR_args] in L. lia. Qed.

Lemma concerned_ok kinds : length kinds <= 13 →
  match concerned t r kinds with
  | inl j => judged_ok j ∧ short j = true ∧ jd_verdict j ≠ VIOLATED
  | inr nodes => nodes ≠ [] ∧ (∀ n, n ∈ nodes → n ∈ ir_nodes ir) ∧ length nodes <= length (ir_nodes ir)
  end.
Proof using Type.
  intros Hk. unfold concerned. cbv zeta. set (scoped := filter _ kinds).
  assert (length scoped <= 13) as Hs by (etrans; [apply length_filter|done]).
  pose proof (kinds_text_length kinds Hk) as Hk'. pose proof (kinds_text_length scoped Hs) as Hs'.
  pose proof (scope_length (rc_scope (req_content r))) as Hscope.
  generalize dependent (kinds_text kinds). intros all ?. destruct scoped as [|k ks].
  - generalize dependent (value (rc_scope (req_content r))). intros scope ?.
    split; [apply judged_judged_ok; [done|spoken|done]|]. split; [apply judged_short; brief|done].
  - destruct (nodes_of_kind t (k :: ks)) as [|n ns] eqn:En.
    + generalize dependent (kinds_text (k :: ks)). intros some ?.
      split; [apply judged_judged_ok; [done|spoken|done]|]. split; [apply judged_short; brief|done].
    + rewrite <- En. split; [by rewrite En|]. split; [by intros x [_ Hx]%list_elem_of_filter|]. apply length_filter.
Qed.

Lemma outside_in allowed nodes id : id ∈ (outside_regions t allowed nodes).*1 → id ∈ n_id <$> nodes.
Proof using Type.
  intros (p & -> & Hp)%list_elem_of_fmap. apply list_elem_of_omap in Hp as (n & Hn & Hp).
  apply bind_Some in Hp as (region & _ & Hp). case_decide; [done|]. injection Hp as <-. by apply (list_elem_of_fmap_2 n_id).
Qed.

Lemma without_in nodes id : id ∈ without_region t nodes → id ∈ n_id <$> nodes.
Proof using Type.
  intros Hp. apply list_elem_of_omap in Hp as (n & Hn & Hp). case_match; [done|]. injection Hp as <-. by apply list_elem_of_fmap_2.
Qed.

Lemma regions_ok allowed data_only : judged_ok (regions_judged t r allowed data_only).
Proof using Hw.
  unfold regions_judged.
  pose proof (concerned_ok (if data_only then HOLDS_DATA else DEPLOYED)) as Hc.
  destruct (concerned _ _ _) as [j|nodes]; [apply Hc; destruct data_only; apply Nat.leb_le; by vm_compute|].
  destruct Hc as (_ & Hin & _); [destruct data_only; apply Nat.leb_le; by vm_compute|]. pose proof (ids_of_nodes nodes Hin) as Hids.
  rewrite Forall_forall in Hids. cbv zeta. generalize (join ", " (sorted_set allowed)). intros required.
  destruct (outside_regions t allowed nodes) as [|p ps] eqn:Eo; [destruct (without_region t nodes) as [|u us] eqn:Eu|].
  - apply judged_judged_ok; [done|spoken|]. by apply Forall_forall.
  - generalize (nat_text (length (u :: us))). intros count. apply judged_judged_ok; [done|spoken|].
    apply Forall_forall. intros x Hx. rewrite <- Eu in Hx. by apply Hids, without_in.
  - generalize (nat_text (length (p :: ps))). intros count. generalize (join ", " ((λ q : string * string, q.1 +:+ " (" +:+ q.2 +:+ ")") <$> take 10 (p :: ps))).
    intros listed. generalize (reference r). intros name. constructor; cbn [jd_verdict jd_reason jd_entity_ids jd_evidence jd_violation].
    + spoken.
    + intros s [= <-]. spoken.
    + split; [by eexists|done].
    + apply Forall_forall. intros x Hx. rewrite <- Eo in Hx. by eapply Hids, outside_in.
    + simpl. lia.
Qed.

(** A violation, with what it lists. *)
Lemma violation_ok v reason ids evidence s :
  v = VIOLATED → blank (points_of reason) = false → blank (points_of s) = false →
  Forall (λ s, 0 < String.length s <= 256) ids → length evidence <= 2 →
  judged_ok {| jd_verdict := v; jd_reason := reason; jd_entity_ids := ids; jd_evidence := evidence; jd_violation := Some s |}.
Proof using Type.
  intros -> Hb Hs Hi He. constructor; cbn [jd_verdict jd_reason jd_entity_ids jd_evidence jd_violation]; [done| | |done|done].
  - by intros x [= <-].
  - split; [by eexists|done].
Qed.

Lemma violation_short v reason ids evidence s :
  String.length reason <= MAX_TEXT → String.length s <= MAX_TEXT →
  short {| jd_verdict := v; jd_reason := reason; jd_entity_ids := ids; jd_evidence := evidence; jd_violation := Some s |} = true.
Proof using Type.
  intros H1 H2. unfold short. cbn [jd_reason jd_violation]. by rewrite (proj2 (Nat.leb_le _ _) H1), (proj2 (Nat.leb_le _ _) H2).
Qed.

Lemma integer_of n k s :
  n ∈ ir_nodes ir → dict_get k NODE_PROPERTIES = Some s → p_type s = INTEGER →
  setting (n_configuration n) k = JNull ∨ ∃ z, setting (n_configuration n) k = JInt z ∧ (Z.abs z < 10 ^ 15)%Z.
Proof using Hw.
  intros Hn Hs Ht. by apply (integer_setting _ _ _ (node_configuration n (w_nodes _ Hw n Hn)) k s).
Qed.

Lemma sum_bound (l : list Z) : Forall (λ z, Z.abs z < 10 ^ 15)%Z l → (Z.abs (foldr Z.add 0 l) ≤ 10 ^ 15 * Z.of_nat (length l))%Z.
Proof using Type. induction 1 as [|z l Hz _ IH]; [done|]. cbn [foldr length]. lia. Qed.

Lemma dict_of_length {V} (l : list (string * V)) : length (dict_of l) <= length l.
Proof using Type.
  rewrite <- (length_fmap fst (dict_of l)), <- (length_fmap fst l).
  apply submseteq_length, NoDup_submseteq; [apply dict_of_wf|]. intros k (p & -> & Hp%dict_of_sub)%list_elem_of_fmap.
  by apply list_elem_of_fmap_2.
Qed.

Lemma length_omap_le {A B} (f : A → option B) l : length (omap f l) <= length l.
Proof using Type. induction l as [|x l IH]; [done|]. cbn. destruct (f x); cbn; lia. Qed.

Lemma storage_ok c : String.length (bound_of c) <= 140 → judged_ok (storage_judged t r c) ∧ short (storage_judged t r c) = true.
Proof using Hw Hr.
  intros Hb. unfold storage_judged. pose proof (concerned_ok STORES) as Hc. specialize (Hc ltac:(apply Nat.leb_le; by vm_compute)).
  destruct (concerned _ _ _) as [j|nodes]; [tauto|]. destruct Hc as (_ & Hin & Hlen). pose proof (ids_of_nodes nodes Hin) as Hids.
  pose proof (length_reference r Hr) as Hname. cbv zeta.
  set (pairs := (λ n, (n_id n, as_int (setting (n_configuration n) "storage_bytes"))) <$> nodes).
  assert (length (dict_of pairs) <= MAX_NODES) as Hpairs.
  { etrans; [apply dict_of_length|]. unfold pairs. rewrite length_fmap. etrans; [exact Hlen|]. by apply built_limits, (w_built _ Hw). }
  destruct (dict_keys (filter _ (dict_of pairs))) as [|u us] eqn:Eu.
  - assert (Z.abs (foldr Z.add 0 (omap id (dict_values (dict_of pairs)))) < 10 ^ 19)%Z as Ht.
    { eapply Z.le_lt_trans; [apply sum_bound|].
      - apply Forall_forall. intros z Hz. apply list_elem_of_omap in Hz as (o & Ho & Hz). cbn in Hz. subst o.
        apply list_elem_of_fmap in Ho as ([i o] & Ho & Hp%dict_of_sub). cbn in Ho. subst o.
        apply list_elem_of_fmap in Hp as (n & Hp & Hn). injection Hp as -> Hp.
        destruct (integer_of n "storage_bytes" _ (Hin n Hn) eq_refl eq_refl) as [He|(z' & He & Hz')]; rewrite He in Hp; [done|].
        by injection Hp as ->.
      - assert (length (omap id (dict_values (dict_of pairs))) <= MAX_NODES) as Hl.
        { etrans; [apply length_omap_le|]. unfold dict_values. by rewrite length_fmap. }
        unfold MAX_NODES in Hl. lia. }
    pose proof (length_Z_text _ 19 ltac:(lia) Ht) as Htt. generalize dependent (Z_text (foldr Z.add 0%Z (omap id (dict_values (dict_of pairs))))).
    generalize (meets (dec_of_Z (foldr Z.add 0%Z (omap id (dict_values (dict_of pairs))))) c). intros met total Htt.
    generalize dependent (bound_of c). intros bound Hb. generalize dependent (reference r). intros name Hname. destruct met.
    + split; [constructor; cbn [jd_verdict jd_reason jd_entity_ids jd_evidence jd_violation]|].
      * spoken.
      * intros s [=].
      * split; [done|by intros [s [=]]].
      * exact Hids.
      * simpl. lia.
      * unfold short. cbn [jd_reason jd_violation]. rewrite andb_true_r. apply Nat.leb_le. brief.
    + split; [apply violation_ok; [done|spoken|spoken|exact Hids|simpl; lia]|apply violation_short; brief].
  - rewrite <- Eu.
    assert (∀ x, x ∈ dict_keys (filter (λ p : string * option Z, p.2 = None) (dict_of pairs)) → x ∈ n_id <$> nodes) as Hsub.
    { intros x (p & -> & [_ Hp%dict_of_sub]%list_elem_of_filter)%list_elem_of_fmap.
      apply list_elem_of_fmap in Hp as (n & -> & Hn). by apply (list_elem_of_fmap_2 n_id). }
    assert (length (dict_keys (filter (λ p : string * option Z, p.2 = None) (dict_of pairs))) <= MAX_NODES + MAX_CONNECTIONS) as Hl.
    { unfold dict_keys. rewrite length_fmap. etrans; [apply length_filter|]. lia. }
    apply counted in Hl. generalize dependent (dict_keys (filter (λ p : string * option Z, p.2 = None) (dict_of pairs))).
    intros unstated _ Hsub Hl. split.
    + apply judged_judged_ok; [done| |].
      * generalize dependent (nat_text (length unstated)). intros n _. spoken.
      * rewrite Forall_forall in Hids |- *. intros x Hx. by apply Hids, Hsub.
    + apply judged_short. generalize dependent (nat_text (length unstated)). intros n Hl. brief.
Qed.

(** ** Retention *)
Lemma failing_in c read nodes id :
  id ∈ (failing_values c read nodes).*1 → id ∈ n_id <$> nodes.
Proof using Type.
  intros (p & -> & Hp)%list_elem_of_fmap. apply list_elem_of_omap in Hp as (n & Hn & Hp).
  apply bind_Some in Hp as (z & _ & Hp). case_match; [done|]. injection Hp as <-. by apply (list_elem_of_fmap_2 n_id).
Qed.

Lemma unknown_in read nodes id : id ∈ unknown_values read nodes → id ∈ n_id <$> nodes.
Proof using Type.
  intros Hp. apply list_elem_of_omap in Hp as (n & Hn & Hp). case_match; [|injection Hp as <-]; [done|]. by apply list_elem_of_fmap_2.
Qed.

Lemma listed_values c read nodes :
  (∀ n, n ∈ nodes → n ∈ ir_nodes ir) → (∀ n, n ∈ nodes → String.length (py_str (read n)) <= 16) →
  String.length (join ", " ((λ p, p.1 +:+ " (" +:+ py_str p.2 +:+ " s)") <$> take 10 (failing_values c read nodes))) <= 1510.
Proof using Hw.
  intros Hin Hread. etrans; [apply (length_take_join (λ p : string * json, p.1 +:+ " (" +:+ py_str p.2 +:+ " s)") _ 149)|lia].
  apply Forall_forall. intros p Hp. apply list_elem_of_omap in Hp as (n & Hn & Hp).
  apply bind_Some in Hp as (z & _ & Hp). case_match; [done|]. injection Hp as <-. cbn [fst snd].
  pose proof (node_texts n (w_nodes _ Hw n (Hin n Hn))) as [? _]. specialize (Hread n Hn).
  rewrite !length_str_app. change (String.length " (") with 2. change (String.length " s)") with 3. lia.
Qed.

Lemma each_ok c nodes read what :
  (∀ n, n ∈ nodes → n ∈ ir_nodes ir) → length nodes <= length (ir_nodes ir) →
  (∀ n, n ∈ nodes → String.length (py_str (read n)) <= 16) → String.length (bound_of c) <= 140 → String.length what <= 20 →
  judged_ok (each_judged r c nodes read what) ∧ short (each_judged r c nodes read what) = true.
Proof using Hw Hr.
  intros Hin Hlen Hread Hb Hwhat. pose proof (ids_of_nodes nodes Hin) as Hids. rewrite Forall_forall in Hids.
  pose proof (length_reference r Hr) as Hname. pose proof (listed_values c read nodes Hin Hread) as Hl.
  unfold each_judged. cbv zeta. generalize dependent (bound_of c). intros bound Hb.
  destruct (failing_values c read nodes) as [|p ps] eqn:Ef; [destruct (unknown_values read nodes) as [|u us] eqn:Eu|].
  - split; [apply judged_judged_ok; [done|spoken|by apply Forall_forall]|]. apply judged_short. brief.
  - assert (length (u :: us) <= MAX_NODES + MAX_CONNECTIONS) as Hu%counted.
    { rewrite <- Eu. apply few_nodes. etrans; [apply length_omap_le|exact Hlen]. }
    generalize dependent (nat_text (length (u :: us))). intros count Hu. rewrite <- Eu. split.
    + apply judged_judged_ok; [done|spoken|]. apply Forall_forall. intros x Hx. by apply Hids, (unknown_in read).
    + apply judged_short. brief.
  - assert (length (p :: ps) <= MAX_NODES + MAX_CONNECTIONS) as Hp%counted.
    { rewrite <- Ef. apply few_nodes. etrans; [apply length_omap_le|exact Hlen]. }
    generalize dependent (nat_text (length (p :: ps))). intros count Hp.
    generalize dependent (join ", " ((λ p, p.1 +:+ " (" +:+ py_str p.2 +:+ " s)") <$> take 10 (p :: ps))). intros listed Hl.
    generalize dependent (reference r). intros name Hname. split.
    + apply violation_ok; [done|spoken|spoken| |simpl; lia]. rewrite <- Ef. apply Forall_forall. intros x Hx. by eapply Hids, failing_in.
    + apply violation_short; brief.
Qed.

Lemma retention_ok c : String.length (bound_of c) <= 140 → judged_ok (retention_judged t r c) ∧ short (retention_judged t r c) = true.
Proof using Hw Hr.
  intros Hb. unfold retention_judged.
  assert (∀ n, n ∈ retaining t r → n ∈ ir_nodes ir) as Hin by by intros n [_ Hn]%list_elem_of_filter.
  destruct (retaining t r) as [|n ns] eqn:E.
  - split; [apply judged_judged_ok; [done|spoken|done]|]. apply judged_short. brief.
  - apply each_ok; [exact Hin| | |exact Hb|].
    + rewrite <- E. apply length_filter.
    + intros m Hm. by apply (integer_text _ _ _ "retention_seconds" _ (node_configuration m (w_nodes _ Hw m (Hin m Hm))) eq_refl eq_refl).
    + apply Nat.leb_le. by vm_compute.
Qed.

(** ** Encryption in transit *)
Lemma ids_of_connections (cs : list Connection) :
  (∀ c, c ∈ cs → c ∈ ir_connections ir) → Forall (λ s, 0 < String.length s <= 128) (c_id <$> cs).
Proof using Hw.
  intros Hc. apply Forall_fmap, Forall_forall. intros c Hin. by apply (connection_texts c (w_connections _ Hw c (Hc c Hin))).
Qed.

Lemma few_connections (cs : list string) : length cs <= length (ir_connections ir) → length cs <= MAX_NODES + MAX_CONNECTIONS.
Proof using Hw. intros Hl. destruct (built_limits ir (w_built ir Hw)) as (_ & L & _). cbn [aa_connections ArchitectureIR_args] in L. lia. Qed.

Lemma in_transit_ok : judged_ok (in_transit_judged t) ∧ short (in_transit_judged t) = true.
Proof using Hw.
  unfold in_transit_judged.
  assert (∀ c, c ∈ communicating t → c ∈ ir_connections ir) as Hin by by intros c [_ Hc]%list_elem_of_filter.
  assert (∀ (P : Connection → Prop) `{!∀ c, Decision (P c)},
    Forall (λ s, 0 < String.length s <= 128) (c_id <$> filter P (communicating t)) ∧
    length (c_id <$> filter P (communicating t)) <= MAX_NODES + MAX_CONNECTIONS) as Hsub.
  { intros P ?. split; [apply ids_of_connections; by intros c [_ Hc%Hin]%list_elem_of_filter|].
    apply few_connections. rewrite length_fmap. etrans; [apply length_filter|apply length_filter]. }
  assert (∀ l : list string, Forall (λ s, 0 < String.length s <= 128) l → Forall (λ s, 0 < String.length s <= 256) l) as Hwiden.
  { intros l Hl. eapply Forall_impl; [exact Hl|]. cbn. lia. }
  pose proof (Hsub (λ c, tls_setting c = JBool false) _) as [Hd Hdl%counted].
  pose proof (Hsub (λ c, tls_setting c ≠ JBool true ∧ encrypted_protocol c = false) _) as [Hu Hul%counted].
  assert (Forall (λ s, 0 < String.length s <= 256) (c_id <$> communicating t)) as Hall by by apply Hwiden, ids_of_connections.
  destruct (communicating t) as [|c cs] eqn:Ec; [split; [apply judged_judged_ok; [done|spoken|done]|apply judged_short; brief]|].
  destruct (c_id <$> filter (λ c, tls_setting c = JBool false) (c :: cs)) as [|d ds] eqn:Ed.
  - destruct (c_id <$> filter (λ c, tls_setting c ≠ JBool true ∧ encrypted_protocol c = false) (c :: cs)) as [|u us] eqn:Eu.
    + split; [apply judged_judged_ok; [done|spoken|exact Hall]|apply judged_short; brief].
    + generalize dependent (nat_text (length (u :: us))). intros count Hcount.
      split; [apply judged_judged_ok; [done|spoken|by apply Hwiden]|apply judged_short; brief].
  - generalize dependent (nat_text (length (d :: ds))). intros count Hcount.
    assert (String.length (join ", " (take 10 (d :: ds))) <= 1300) as Hl.
    { pose proof (length_take_join id (d :: ds) 128) as Hj. rewrite list_fmap_id in Hj.
      apply Hj. eapply Forall_impl; [exact Hd|]. cbn. lia. }
    generalize dependent (join ", " (take 10 (d :: ds))). intros listed Hl.
    split; [apply violation_ok; [done|spoken|spoken|by apply Hwiden|simpl; lia]|apply violation_short; brief].
Qed.

(** ** Any requirement *)

(** The judgements whose texts list regions, of any number and length. *)
Definition lists_regions (c : option StructuredConstraint) : bool :=
  match c with Some (SetConstraint metric _) => String.eqb metric "regions" | _ => false end.

Lemma metric_length c : rc_constraint (req_content r) = Some c → String.length (metric_of c) <= 64 ∧ String.length (bound_of c) <= 140.
Proof using Hr. by apply requirement_texts. Qed.

Lemma unchecked_ok s : String.length s <= 200 → blank (points_of s) = false →
  judged_ok (judged NOT_VERIFIABLE s []) ∧ short (judged NOT_VERIFIABLE s []) = true.
Proof using Type. intros Hl Hb. split; [by apply judged_judged_ok|]. apply judged_short. pose proof MAX_TEXT_is. lia. Qed.

Lemma otherwise_ok :
  let j := if bool_decide (rc_type (req_content r) = TYPE_SECURITY) && String.eqb (rc_category (req_content r)) "encryption" then
      if IN_TRANSIT (rc_statement (req_content r)) then in_transit_judged t
      else judged NOT_VERIFIABLE "Encryption at rest is not described by the architecture schema." []
    else judged NOT_VERIFIABLE (match rc_constraint (req_content r) with
         | None => "The requirement has no structured constraint the architecture can be checked against."
         | Some c => "Validation does not check " +:+ metric_of c +:+ "."
         end) [] in judged_ok j ∧ short j = true.
Proof using Hw Hr.
  cbv zeta. destruct (_ && _).
  - destruct (IN_TRANSIT _); [apply in_transit_ok|]. apply unchecked_ok; [apply Nat.leb_le; by vm_compute|by vm_compute].
  - destruct (rc_constraint (req_content r)) as [c|] eqn:E.
    + destruct (metric_length c E) as [Hm _]. generalize dependent (metric_of c). intros metric Hm. apply unchecked_ok; [brief|spoken].
    + apply unchecked_ok; [apply Nat.leb_le; by vm_compute|by vm_compute].
Qed.

(** What the rule says of a requirement is as a verdict and a finding may be, but for the length of a list of regions. *)
Lemma judge_ok :
  judged_ok (judge t r) ∧ (lists_regions (rc_constraint (req_content r)) = false → short (judge t r) = true).
Proof using Hw Hr.
  pose proof otherwise_ok as Ho. cbv zeta in Ho. unfold judge. cbv zeta. unfold lists_regions.
  destruct (rc_constraint (req_content r)) as [[metric operator bound u q|metric low high u q|metric allowed]|] eqn:E.
  1,2: destruct (metric_length _ E) as [Hm Hb]; destruct (String.eqb _ "storage");
    [destruct (storage_ok _ Hb); tauto|destruct (String.eqb _ "retention"); [destruct (retention_ok _ Hb); tauto|]];
    cbn [metric_of] in *; generalize dependent metric; intros metric;
    intros; assert (judged_ok (judged NOT_VERIFIABLE (metric +:+ " is not established by validation: it needs the capacity and simulation engines.") []) ∧
      short (judged NOT_VERIFIABLE (metric +:+ " is not established by validation: it needs the capacity and simulation engines.") []) = true) as [? ?];
    [apply unchecked_ok; [brief|spoken]|tauto].
  - destruct (String.eqb metric "regions") eqn:Em; [split; [apply regions_ok|done]|]. tauto.
  - tauto.
Qed.
End judging.

(** * When a requirement is broken *)

(** The elements a check concerns: of the kinds it is about, within the scope of the requirement. *)
Definition concerns (r : Requirement) (kinds : list NodeKind) (n : Node) : Prop := n_kind n ∈ kinds ∧ within_scope r n = true.

#[export] Instance concerns_dec r kinds n : Decision (concerns r kinds n).
Proof. unfold concerns. apply _. Defined.

Definition about_regions (r : Requirement) (allowed : list string) : Prop :=
  rc_constraint (req_content r) = Some (SetConstraint "regions" allowed).

(** A quantity or a range of a metric. *)
Definition about_amount (r : Requirement) (metric : string) (c : StructuredConstraint) : Prop :=
  rc_constraint (req_content r) = Some c ∧ metric_of c = metric ∧ (∀ m allowed, c ≠ SetConstraint m allowed).

(** Encryption in transit, by its category and its statement: a list, if any, is not of regions. *)
Record about_transit (r : Requirement) : Prop := {
  at_type : rc_type (req_content r) = TYPE_SECURITY;
  at_category : rc_category (req_content r) = "encryption";
  at_statement : IN_TRANSIT (rc_statement (req_content r)) = true;
  at_constraint : ∀ c, rc_constraint (req_content r) = Some c → ∃ m allowed, c = SetConstraint m allowed ∧ m ≠ "regions";
}.

(** The architecture breaks a requirement: an element it concerns is, by what it or what contains it states,
    in a region that is not allowed; all the stores it concerns state what they provision, and the total does
    not meet it; an element states that it keeps data for a time that does not; a connection is not encrypted. *)
Inductive breaks (ir : ArchitectureIR) (r : Requirement) : Prop :=
  | breaks_regions allowed n region :
      about_regions r allowed → n ∈ ir_nodes ir →
      concerns r (if String.eqb (rc_category (req_content r)) "data_residency" then HOLDS_DATA else DEPLOYED) n →
      (effective (Topology_of ir) n "region").1 = Some region → lower region ∉ allowed → breaks ir r
  | breaks_storage c stores sizes :
      about_amount r "storage" c → stores = filter (concerns r STORES) (ir_nodes ir) → stores ≠ [] →
      mapM (λ n, as_int (setting (n_configuration n) "storage_bytes")) stores = Some sizes →
      meets (dec_of_Z (foldr Z.add 0%Z sizes)) c = false → breaks ir r
  | breaks_retention c n seconds :
      about_amount r "retention" c → n ∈ ir_nodes ir → within_scope r n = true →
      as_int (setting (n_configuration n) "retention_seconds") = Some seconds →
      meets (dec_of_Z (seconds * MS_PER_SECOND)) c = false → breaks ir r
  | breaks_transit c :
      about_transit r → c ∈ ir_connections ir → communicates (c_kind c) = true → tls_setting c = JBool false → breaks ir r.

Section broken.
Context (ir : ArchitectureIR) (Hw : writable ir) (r : Requirement).
#[local] Abbreviation t := (Topology_of ir).

Lemma scoped_kinds (kinds : list NodeKind) n :
  n_kind n ∈ filter (λ k, k ∈ default kinds (SCOPE_KINDS (rc_scope (req_content r)))) kinds ↔ concerns r kinds n.
Proof using Type.
  rewrite list_elem_of_filter. unfold concerns, within_scope.
  destruct (SCOPE_KINDS _); cbn [default]; [rewrite bool_decide_eq_true|]; tauto.
Qed.

Lemma concerned_nodes kinds :
  match concerned t r kinds with
  | inl j => jd_verdict j ≠ VIOLATED ∧ filter (concerns r kinds) (ir_nodes ir) = []
  | inr nodes => nodes = filter (concerns r kinds) (ir_nodes ir) ∧ nodes ≠ []
  end.
Proof using Type.
  unfold concerned. cbv zeta. set (scoped := filter (λ k, k ∈ default kinds (SCOPE_KINDS _)) kinds).
  assert (nodes_of_kind t scoped = filter (concerns r kinds) (ir_nodes ir)) as Hn.
  { unfold nodes_of_kind, Topology_of. cbn [t_ir]. apply list_filter_iff. intros n. apply scoped_kinds. }
  assert (scoped = [] → filter (concerns r kinds) (ir_nodes ir) = []) as Hnil.
  { intros Hs. rewrite <- Hn, Hs. apply filter_nil_iff. intros n _ Hin. by apply elem_of_nil in Hin. }
  destruct scoped as [|k ks]; [split; [done|by apply Hnil]|].
  destruct (nodes_of_kind t (k :: ks)) as [|n ns] eqn:E; by rewrite <- Hn.
Qed.

Lemma regions_broken allowed data_only :
  jd_verdict (regions_judged t r allowed data_only) = VIOLATED ↔
  ∃ n region, n ∈ ir_nodes ir ∧ concerns r (if data_only then HOLDS_DATA else DEPLOYED) n ∧
    (effective t n "region").1 = Some region ∧ lower region ∉ allowed.
Proof using Type.
  unfold regions_judged. pose proof (concerned_nodes (if data_only then HOLDS_DATA else DEPLOYED)) as Hc.
  destruct (concerned _ _ _) as [j|nodes].
  - destruct Hc as [Hj Hnil]. split; [done|]. intros (n & region & Hn & Hcn & _).
    apply filter_nil_iff with (x := n) in Hnil; [done|by apply elem_of_list_In in Hn || exact Hn].
  - destruct Hc as [-> _]. cbv zeta. set (nodes := filter _ _).
    assert (outside_regions t allowed nodes ≠ [] ↔ ∃ n region, n ∈ ir_nodes ir ∧
      concerns r (if data_only then HOLDS_DATA else DEPLOYED) n ∧ (effective t n "region").1 = Some region ∧ lower region ∉ allowed) as <-.
    { split.
      - destruct (outside_regions t allowed nodes) as [|p ps] eqn:E; [done|]. intros _.
        assert (p ∈ outside_regions t allowed nodes) as Hp by (rewrite E; left).
        apply list_elem_of_omap in Hp as (n & [Hcn Hn]%list_elem_of_filter & Hp).
        apply bind_Some in Hp as (region & He & Hp). case_decide; [done|]. by exists n, region.
      - intros (n & region & Hn & Hcn & He & Hout) Hnil. apply (not_elem_of_nil (n_id n, region)). rewrite <- Hnil.
        apply list_elem_of_omap. exists n. split; [by apply list_elem_of_filter|]. rewrite He. cbn. by rewrite decide_False. }
    destruct (outside_regions t allowed nodes); [destruct (without_region t nodes)|]; done.
Qed.

Lemma storage_broken c :
  jd_verdict (storage_judged t r c) = VIOLATED ↔
  ∃ sizes, filter (concerns r STORES) (ir_nodes ir) ≠ [] ∧
    mapM (λ n, as_int (setting (n_configuration n) "storage_bytes")) (filter (concerns r STORES) (ir_nodes ir)) = Some sizes ∧
    meets (dec_of_Z (foldr Z.add 0%Z sizes)) c = false.
Proof using Hw.
  unfold storage_judged. pose proof (concerned_nodes STORES) as Hc. destruct (concerned _ _ _) as [j|nodes].
  - destruct Hc as [Hj Hnil]. split; [done|]. by intros (? & ? & _).
  - destruct Hc as [Hnodes Hne]. rewrite <- Hnodes. cbv zeta.
    set (read := λ n, as_int (setting (n_configuration n) "storage_bytes")).
    change (λ n : Node, (n_id n, as_int (setting (n_configuration n) "storage_bytes"))) with (λ n : Node, (n_id n, read n)).
    assert (dict_of ((λ n, (n_id n, read n)) <$> nodes) = (λ n, (n_id n, read n)) <$> nodes) as ->.
    { apply dict_of_id. unfold dict_wf, dict_keys. rewrite <- list_fmap_compose. rewrite Hnodes.
      refine (sublist_NoDup _ _ _ _); [|apply sublist_fmap, sublist_filter].
      by apply (valid_graph_ids _ _ _ _ (writable_graph _ Hw)). }
    assert (dict_values ((λ n, (n_id n, read n)) <$> nodes) = read <$> nodes) as ->.
    { unfold dict_values. by rewrite <- list_fmap_compose. }
    destruct (dict_keys (filter _ _)) as [|u us] eqn:Eu.
    + assert (mapM read nodes = Some (omap id (read <$> nodes))) as Hm.
      { apply (f_equal length) in Eu. unfold dict_keys in Eu. rewrite length_fmap in Eu.
        apply length_zero_iff_nil in Eu. assert (∀ n, n ∈ nodes → read n ≠ None) as Hread.
        { intros n Hn Hnone. eapply (not_elem_of_nil (n_id n, read n)). rewrite <- Eu. apply list_elem_of_filter.
          split; [exact Hnone|]. by apply (list_elem_of_fmap_2 (λ n, (n_id n, read n))). }
        clear -Hread. induction nodes as [|n ns IH]; [done|]. cbn. destruct (read n) as [z|] eqn:E.
        - cbn. rewrite IH; [done|]. intros m Hm. apply Hread. by right.
        - destruct (Hread n); [left|done]. }
      rewrite Hm. split; [|by intros (? & _ & [= <-] & ->)]. intros Hv. eexists. split; [done|]. split; [done|].
      by destruct (meets _ c).
    + split; [done|]. intros (sizes & _ & Hm & _). exfalso.
      assert (u ∈ u :: us) as Hu by left. rewrite <- Eu in Hu. apply list_elem_of_fmap in Hu as ([i o] & _ & [Ho Hin]%list_elem_of_filter).
      apply list_elem_of_fmap in Hin as (n & Hp & Hn). injection Hp as _ Hp. cbn [snd] in Ho. subst o.
      apply mapM_Some in Hm. apply list_elem_of_lookup in Hn as [k Hk]. destruct (Forall2_lookup_l _ _ _ _ _ Hm Hk) as (z & _ & Hz).
      fold read in Hz. congruence.
Qed.

Lemma retention_broken c :
  jd_verdict (retention_judged t r c) = VIOLATED ↔
  ∃ n seconds, n ∈ ir_nodes ir ∧ within_scope r n = true ∧
    as_int (setting (n_configuration n) "retention_seconds") = Some seconds ∧ meets (dec_of_Z (seconds * MS_PER_SECOND)) c = false.
Proof using Type.
  unfold retention_judged. set (read := λ n, setting (n_configuration n) "retention_seconds").
  assert (failing_values c read (retaining t r) ≠ [] ↔ ∃ n seconds, n ∈ ir_nodes ir ∧ within_scope r n = true ∧
    as_int (setting (n_configuration n) "retention_seconds") = Some seconds ∧ meets (dec_of_Z (seconds * MS_PER_SECOND)) c = false) as <-.
  { split.
    - destruct (failing_values c read (retaining t r)) as [|p ps] eqn:E; [done|]. intros _.
      assert (p ∈ failing_values c read (retaining t r)) as Hp by (rewrite E; left).
      apply list_elem_of_omap in Hp as (n & [Hn Hin]%list_elem_of_filter & Hp).
      apply bind_Some in Hp as (z & Hz & Hp). destruct (meets _ c) eqn:Em; [done|]. apply andb_prop in Hn as [_ Hn].
      by exists n, z.
    - intros (n & z & Hn & Hs & Hz & Hm) Hnil. apply (not_elem_of_nil (n_id n, read n)). rewrite <- Hnil.
      apply list_elem_of_omap. exists n. split; [|unfold read; by rewrite Hz; cbn; rewrite Hm].
      apply list_elem_of_filter. split; [|done]. rewrite Hs, andb_true_r. unfold states_retention.
      apply orb_true_iff. left. apply bool_decide_eq_true. unfold setting in Hz. by destruct (get _ _). }
  destruct (retaining t r) as [|n ns] eqn:E; [done|]. unfold each_judged. cbv zeta.
  destruct (failing_values c read (n :: ns)); [destruct (unknown_values read (n :: ns))|]; done.
Qed.

Lemma transit_broken :
  jd_verdict (in_transit_judged t) = VIOLATED ↔
  ∃ c, c ∈ ir_connections ir ∧ communicates (c_kind c) = true ∧ tls_setting c = JBool false.
Proof using Type.
  unfold in_transit_judged.
  assert (c_id <$> filter (λ c, tls_setting c = JBool false) (communicating t) ≠ [] ↔
    ∃ c, c ∈ ir_connections ir ∧ communicates (c_kind c) = true ∧ tls_setting c = JBool false) as <-.
  { split.
    - destruct (filter _ _) as [|c cs] eqn:E; [done|]. intros _.
      assert (c ∈ filter (λ c, tls_setting c = JBool false) (communicating t)) as Hc by (rewrite E; left).
      apply list_elem_of_filter in Hc as [Ht [Hc Hin]%list_elem_of_filter]. by exists c.
    - intros (c & Hin & Hc & Ht) Hnil%fmap_nil_inv. apply (not_elem_of_nil c). rewrite <- Hnil.
      apply list_elem_of_filter. split; [done|]. by apply list_elem_of_filter. }
  destruct (communicating t) as [|c cs]; [done|].
  destruct (c_id <$> filter (λ c, tls_setting c = JBool false) (c :: cs)); [|done]. by case_match.
Qed.

(** What is neither an amount nor a list of regions is about encryption in transit, or not checked. *)
Lemma other_broken s :
  (∀ c, rc_constraint (req_content r) = Some c → ∃ m allowed, c = SetConstraint m allowed ∧ m ≠ "regions") →
  jd_verdict (if bool_decide (rc_type (req_content r) = TYPE_SECURITY) && String.eqb (rc_category (req_content r)) "encryption" then
      if IN_TRANSIT (rc_statement (req_content r)) then in_transit_judged t
      else judged NOT_VERIFIABLE "Encryption at rest is not described by the architecture schema." []
    else judged NOT_VERIFIABLE s []) = VIOLATED ↔ breaks ir r.
Proof using Type.
  intros Hset.
  assert (breaks ir r ↔ about_transit r ∧ ∃ c, c ∈ ir_connections ir ∧ communicates (c_kind c) = true ∧ tls_setting c = JBool false) as ->.
  { split.
    - intros [allowed n region Ha|c stores sizes (Hc & _ & Hno)|c n seconds (Hc & _ & Hno)|c Ha Hin Hk Ht].
      + destruct (Hset _ Ha) as (m & al & [= <- <-] & Hne). done.
      + destruct (Hset _ Hc) as (m & al & -> & _). by destruct (Hno m al).
      + destruct (Hset _ Hc) as (m & al & -> & _). by destruct (Hno m al).
      + eauto.
    - intros [Ha (c & ? & ? & ?)]. by apply (breaks_transit ir r c). }
  destruct (bool_decide _ && _) eqn:Es.
  - apply andb_prop in Es as [Ht%bool_decide_eq_true Hc%String.eqb_eq]. destruct (IN_TRANSIT _) eqn:Ei.
    + rewrite transit_broken. split; [|tauto]. intros ?. split; [|done]. by constructor.
    + split; [done|]. intros [[] _]. congruence.
  - split; [done|]. intros [[Ht Hc _ _] _]. by rewrite bool_decide_true, Hc in Es.
Qed.

Lemma amount_broken c :
  rc_constraint (req_content r) = Some c → (∀ m allowed, c ≠ SetConstraint m allowed) →
  breaks ir r ↔ (metric_of c = "storage" ∧ jd_verdict (storage_judged t r c) = VIOLATED) ∨
                (metric_of c = "retention" ∧ jd_verdict (retention_judged t r c) = VIOLATED).
Proof using Hw.
  intros Hc Hno. rewrite storage_broken, retention_broken. split.
  - intros [allowed n region Ha|c' stores sizes (Hc' & Hm & _) -> ? ? ?|c' n seconds (Hc' & Hm & _) ? ? ? ?|c' [_ _ _ Hset]].
    + unfold about_regions in Ha. rewrite Hc in Ha. injection Ha as ->. by destruct (Hno "regions" allowed).
    + assert (c' = c) as -> by congruence. left. split; [done|]. by exists sizes.
    + assert (c' = c) as -> by congruence. right. split; [done|]. by exists n, seconds.
    + destruct (Hset c Hc) as (m & al & -> & _). by destruct (Hno m al).
  - intros [[Hm (sizes & Hne & Hs & Hb)]|[Hm (n & seconds & Hn & Hs & Hz & Hb)]].
    + by apply (breaks_storage ir r c (filter (concerns r STORES) (ir_nodes ir)) sizes).
    + by apply (breaks_retention ir r c n seconds).
Qed.

(** A requirement is judged violated exactly when the architecture breaks it. *)
Lemma judge_violated : jd_verdict (judge t r) = VIOLATED ↔ breaks ir r.
Proof using Hw.
  unfold judge. cbv zeta. destruct (rc_constraint (req_content r)) as [[metric operator bound u q|metric low high u q|metric allowed]|] eqn:E.
  1,2: rewrite (amount_broken _ E) by done; destruct (String.eqb _ "storage") eqn:Hm; [apply String.eqb_eq in Hm|apply String.eqb_neq in Hm];
    [rewrite Hm; naive_solver|destruct (String.eqb _ "retention") eqn:Hm'; [apply String.eqb_eq in Hm'|apply String.eqb_neq in Hm']];
    [rewrite Hm'; naive_solver|split; [done|naive_solver]].
  - destruct (String.eqb_spec metric "regions") as [->|Hne].
    + rewrite regions_broken. split.
      * intros (n & region & Hn & Hc & He & Ho). by apply (breaks_regions ir r allowed n region).
      * intros [al n region Ha Hn Hc He Ho|c stores sizes (Hc & _ & Hno)|c n seconds (Hc & _ & Hno)|c [_ _ _ Hset]].
        { unfold about_regions in Ha. assert (al = allowed) as -> by congruence. by exists n, region. }
        { rewrite E in Hc. injection Hc as <-. by destruct (Hno "regions" allowed). }
        { rewrite E in Hc. injection Hc as <-. by destruct (Hno "regions" allowed). }
        { destruct (Hset _ E) as (m & al & [= <- <-] & Hm). done. }
    + apply other_broken. intros c [= <-]%(eq_trans (eq_sym E)). eauto.
  - apply other_broken. intros c Hc. congruence.
Qed.
End broken.

(** * What a rule gives *)
Record output := { ou_reports : list report; ou_judgements : list judgement }.

Definition only_reports (reports : list report) : output := {| ou_reports := reports; ou_judgements := [] |}.

(** The verdict a judgement makes. *)
Definition decided (m : RuleMeta) (j : judgement) : RequirementResult := {|
  rr_requirement_id := points_of (ju_requirement_id j); rr_reference := points_of (ju_reference j);
  rr_requirement_version := ju_version j; rr_verdict := ju_verdict j; rr_reason := ju_reason j; rr_rule_id := rm_id m;
  rr_entity_ids := sorted_points (points_of <$> ju_entity_ids j);
  rr_evidence := (λ e, {| e_label := points_of e.1; e_value := points_of e.2 |}) <$> ju_evidence j |}.

Definition gives (m : RuleMeta) (o : output) : Outcome :=
  {| oc_findings := made m <$> ou_reports o; oc_requirement_results := decided m <$> ou_judgements o |}.

(** Every finding and verdict of an output is accepted by its constructor. *)
Definition accepted (m : RuleMeta) (p : report) : bool := is_ok (finding m p).
Definition fits (m : RuleMeta) (o : output) : bool :=
  forallb (accepted m) (ou_reports o) && forallb (λ j, is_ok (verdict m j)) (ou_judgements o).

(** ** A constructor checks, and refuses what is malformed *)
Definition gives_or_refuses {A} (x : A) (m : py A) : Prop := m = Ok x ∨ ∃ fields, m = Raise (InvalidFinding fields).

Lemma check_or_refuse {A} problems (x : A) : gives_or_refuses x (_ ← check problems; Ok x).
Proof. unfold check. destruct (omap id problems); [by left|right; by eexists]. Qed.

Lemma finding_or_refused m p : gives_or_refuses (made m p) (finding m p).
Proof.
  unfold finding, Finding_new. cbv zeta. rewrite <- made_args, Finding_args_typed. apply check_or_refuse.
Qed.

Lemma decided_args m j : RequirementResult_args (decided m j) = {|
    ra_requirement_id := WText (ju_requirement_id j); ra_reference := WText (ju_reference j);
    ra_requirement_version := WInt (ju_version j); ra_verdict := ju_verdict j; ra_reason := WStr (ju_reason j);
    ra_rule_id := WText (rm_id m); ra_entity_ids := sorted_strings (WText <$> ju_entity_ids j);
    ra_evidence := (λ e, (WText e.1, WText e.2)) <$> ju_evidence j |}.
Proof. unfold RequirementResult_args, decided. cbn. rewrite wide_texts, sorted_texts. by rewrite <- list_fmap_compose. Qed.

Lemma RequirementResult_args_typed r : RequirementResult_typed (RequirementResult_args r) = Some r.
Proof.
  unfold RequirementResult_typed, RequirementResult_args. cbn [ra_requirement_id ra_reference ra_requirement_version
    ra_verdict ra_reason ra_rule_id ra_entity_ids ra_evidence]. unfold as_narrow, WText. cbn [as_text mbind option_bind].
  rewrite !narrow_points, !as_texts, as_evidences. by destruct r.
Qed.

Lemma verdict_or_refused m j : gives_or_refuses (decided m j) (verdict m j).
Proof.
  unfold verdict, RequirementResult_new. cbv zeta.
  cbn [ra_requirement_id ra_reference ra_requirement_version ra_verdict ra_reason ra_rule_id ra_entity_ids ra_evidence].
  rewrite <- decided_args, RequirementResult_args_typed. apply check_or_refuse.
Qed.

Lemma py_map_or_refused {A B} (f : A → B) (g : A → py B) l :
  (∀ x, gives_or_refuses (f x) (g x)) →
  if forallb (λ x, is_ok (g x)) l then py_map g l = Ok (f <$> l) else ∃ fields, py_map g l = Raise (InvalidFinding fields).
Proof.
  intros Hg. induction l as [|x l IH]; cbn [py_map forallb]; [done|].
  destruct (Hg x) as [-> | [fields ->]]; cbn [is_ok andb mbind py_bind]; [|by eexists].
  destruct (forallb _ l); [by rewrite IH|]. destruct IH as [fields ->]. by eexists.
Qed.

Lemma refused_not_ok {A} (x : A) m : gives_or_refuses x m → is_ok m = true → m = Ok x.
Proof. by intros [->|[fields ->]]. Qed.

(** ** What the rules on requirements give fits *)
Lemma text_bound s field : text_problem (WStr s) field true = None → length s <= MAX_TEXT.
Proof.
  unfold text_problem. destruct (_ || _) eqn:E; [done|]. intros _. apply orb_false_iff in E as [_ E]. by apply Nat.ltb_ge in E.
Qed.

Lemma accepted_explanation m p : accepted m p = true → length (rp_explanation p) <= MAX_TEXT.
Proof.
  intros Ha%(refused_not_ok _ _ (finding_or_refused m p)). unfold finding, Finding_new in Ha. cbv zeta in Ha.
  apply py_bind_ok in Ha as ([] & Hc & _). apply checks_pass in Hc. rewrite Forall_forall in Hc.
  apply (text_bound _ "explanation"), Hc. right. right. right. right. left.
Qed.

Lemma verdict_fits m j :
  RULE_ID (rm_id m) = true → text_ok (points_of (ju_requirement_id j)) → text_ok (points_of (ju_reference j)) →
  (1 ≤ ju_version j)%Z → blank (ju_reason j) = false → ids_ok (ju_entity_ids j) → length (ju_evidence j) <= MAX_EVIDENCE →
  is_ok (verdict m j) = (length (ju_reason j) <=? MAX_TEXT).
Proof.
  intros Hid Hq Href Hv Hb He Hev.
  assert (is_ok (verdict m j) = is_ok (check (RequirementResult_problems (RequirementResult_args (decided m j))))) as ->.
  { unfold verdict, RequirementResult_new. cbv zeta.
    cbn [ra_requirement_id ra_reference ra_requirement_version ra_verdict ra_reason ra_rule_id ra_entity_ids ra_evidence].
    rewrite <- decided_args, RequirementResult_args_typed. by destruct (check _). }
  rewrite decided_args. unfold RequirementResult_problems.
  cbn [ra_requirement_id ra_reference ra_requirement_version ra_verdict ra_reason ra_rule_id ra_entity_ids ra_evidence].
  unfold identifier, positive. rewrite wide_matches_text, Hid, references_ok, evidence_ok by done.
  unfold WText. rewrite (text_problem_ok _ _ Hq), (text_problem_ok _ _ Href).
  rewrite (proj2 (Z.leb_le _ _) Hv). unfold text_problem. rewrite Hb. cbn [andb orb]. unfold check.
  destruct (Nat.ltb_spec MAX_TEXT (length (ju_reason j))), (Nat.leb_spec (length (ju_reason j)) MAX_TEXT); try lia; done.
Qed.

Section fitting.
Context (ir : ArchitectureIR) (r : Requirement) (Hr : requirement_ok r) (j : Judged) (Hj : judged_ok j).

Lemma reference_text : text_ok (points_of (reference r)).
Proof using Hr.
  split; [|rewrite length_points; pose proof (length_reference r Hr); pose proof MAX_TEXT_is; lia].
  unfold reference. abstract_literals. not_blank.
Qed.

Lemma judgement_fits : is_ok (verdict Verdicts_meta (judgement_of r j)) = (String.length (jd_reason j) <=? MAX_TEXT).
Proof using Hr Hj.
  rewrite verdict_fits; cbn [judgement_of ju_requirement_id ju_reference ju_version ju_reason ju_entity_ids ju_evidence].
  - by rewrite length_points.
  - reflexivity.
  - apply canonical_uuid_text, (rq_id r Hr).
  - apply reference_text.
  - by destruct (rq_version r Hr).
  - exact (jo_reason j Hj).
  - apply capped_ok, (jo_ids j Hj).
  - pose proof (jo_evidence j Hj). unfold MAX_EVIDENCE. lia.
Qed.

Lemma violation_reportable s : jd_violation j = Some s → String.length s <= MAX_TEXT → reportable (violation_report r j).
Proof using Hr Hj.
  intros Hs Hl. pose proof (length_reference r Hr). pose proof (rq_title r Hr). pose proof (canonical_uuid_length _ (rq_id r Hr)).
  unfold violation_report, of_requirement. cbv zeta. rewrite Hs. pose proof (jo_violation j Hj s Hs) as Hb.
  destruct s as [|c s]; [by vm_compute in Hb|]. generalize dependent (String c s). intros text Hs Hl Hb.
  generalize dependent (reference r). intros name ?. report_bounds.
  - apply capped_ok, (jo_ids j Hj).
  - pose proof (jo_evidence j Hj). unfold MAX_EVIDENCE. lia.
Qed.

(** What is said of a requirement fits exactly when it is short. *)
Lemma judged_fits :
  is_ok (verdict Verdicts_meta (judgement_of r j)) && forallb (accepted Verdicts_meta) (violation_reports r j) = short j.
Proof using Hr Hj.
  rewrite judgement_fits. unfold short. f_equal. unfold violation_reports.
  pose proof (jo_violated j Hj) as Hv. destruct (decide (jd_verdict j = VIOLATED)) as [Hd|Hd].
  - apply Hv in Hd as [s Hs]. rewrite Hs. cbn [forallb]. rewrite andb_true_r. apply eq_bool_prop_intro. split.
    + intros Ha%Is_true_true%accepted_explanation. apply Is_true_true, Nat.leb_le. rewrite <- length_points.
      unfold violation_report, of_requirement in Ha. cbv zeta in Ha. rewrite Hs in Ha. cbn in Ha.
      pose proof (jo_violation j Hj s Hs) as Hb. destruct s; [by vm_compute in Hb|exact Ha].
    + intros Hl%Is_true_true%Nat.leb_le. apply Is_true_true. unfold accepted. by rewrite finding_made by (done || by eapply violation_reportable).
  - destruct (jd_violation j); [destruct Hd; by apply Hv|done].
Qed.
End fitting.

(** * The output of every built-in rule *)
Section outputs.
Context `{ComponentCatalog} (ctx : ValidationContext).

Definition given_requirements : list Requirement := default [] (vc_requirements ctx).

Definition component_output : output :=
  only_reports match component_evaluation ctx with Ok (Some e) => component_reports (vc_ir ctx) e | _ => [] end.

(** The requirements in force, and what each of them is judged to be. *)
Definition judgements : list (Requirement * Judged) :=
  (λ r, (r, judge (topology ctx) r)) <$> requirements_in_force given_requirements.

Definition verdict_output : output := {|
  ou_reports := judgements ≫= λ p, violation_reports p.1 p.2;
  ou_judgements := (λ p, judgement_of p.1 p.2) <$> judgements |}.

Definition trace_output : output :=
  only_reports match vc_requirements ctx with Some rs => trace_reports (vc_ir ctx) rs | None => [] end.

Definition plainly (l : list (Rule * list report)) : list (Rule * output) := (λ p, (p.1, only_reports p.2)) <$> l.

(** Each built-in rule, and what it would give. *)
Definition built_in_output : list (Rule * output) :=
  plainly (other_output ctx)
  ++ [(ComponentConstraints, component_output)]
  ++ plainly (policy_output ctx)
  ++ [(Traceability, trace_output); (Verdicts, verdict_output)].

Lemma built_in_rules : built_in_output.*1 = BUILT_IN_RULES.
Proof. reflexivity. Qed.

Lemma given_checked m o : checked m (gives m o) = Ok (gives m o).
Proof.
  unfold checked, gives. cbn [oc_findings oc_requirement_results].
  assert (forallb (λ f, String.eqb (f_rule_id f) (rm_id m) && (f_rule_version f =? rm_version m)%Z) (made m <$> ou_reports o) = true) as ->.
  { apply Is_true_true, forallb_True, Forall_fmap, Forall_true. intros p. unfold compose. cbn [made f_rule_id f_rule_version].
    by rewrite String.eqb_refl, Z.eqb_refl. }
  assert (forallb (λ r, String.eqb (rr_rule_id r) (rm_id m)) (decided m <$> ou_judgements o) = true) as ->; [|done].
  apply Is_true_true, forallb_True, Forall_fmap, Forall_true. intros j. unfold compose. cbn [decided rr_rule_id]. by rewrite String.eqb_refl.
Qed.

(** A rule gives its output when it fits, and is refused otherwise. *)
Definition runs (r : Rule) (o : output) : Prop :=
  if fits (meta r) o then run_rule ctx r = Ok (gives (meta r) o) else ∃ fields, run_rule ctx r = Raise (InvalidFinding fields).

Lemma rule_runs r reports :
  evaluate r ctx (with_defaults (rm_parameters (meta r)) (default [] (dict_get (rule_id r) (cf_parameters (vc_config ctx)))))
    = outcome_of (meta r) reports → runs r (only_reports reports).
Proof.
  intros He. unfold runs, run_rule, fits, only_reports. cbv zeta. cbn [ou_reports ou_judgements forallb]. rewrite andb_true_r, He.
  unfold outcome_of. pose proof (py_map_or_refused _ _ reports (finding_or_refused (meta r))) as Hm. fold (accepted (meta r)) in Hm.
  destruct (forallb _ reports); [|destruct Hm as [fields ->]; by exists fields].
  rewrite Hm. apply (given_checked (meta r) (only_reports reports)).
Qed.

Lemma judged_or_refused r :
  gives_or_refuses (decided Verdicts_meta (judgement_of r (judge (topology ctx) r)),
                    made Verdicts_meta <$> violation_reports r (judge (topology ctx) r)) (judge_one (topology ctx) r).
Proof.
  unfold judge_one. cbv zeta. destruct (verdict_or_refused Verdicts_meta (judgement_of r (judge (topology ctx) r))) as [-> | [fields ->]];
    [|right; by exists fields]. cbn [mbind py_bind].
  pose proof (py_map_or_refused _ _ (violation_reports r (judge (topology ctx) r)) (finding_or_refused Verdicts_meta)) as Hm.
  destruct (forallb _ _); [rewrite Hm; by left|]. destruct Hm as [fields ->]. right. by exists fields.
Qed.

Lemma judged_ok_iff r :
  is_ok (judge_one (topology ctx) r) =
  is_ok (verdict Verdicts_meta (judgement_of r (judge (topology ctx) r)))
  && forallb (accepted Verdicts_meta) (violation_reports r (judge (topology ctx) r)).
Proof.
  unfold judge_one. cbv zeta. destruct (verdict _ _) as [v|]; [|done]. cbn [mbind py_bind is_ok andb].
  pose proof (py_map_or_refused _ _ (violation_reports r (judge (topology ctx) r)) (finding_or_refused Verdicts_meta)) as Hm.
  fold (accepted Verdicts_meta) in Hm. destruct (forallb _ _); [by rewrite Hm|]. by destruct Hm as [fields ->].
Qed.

Lemma fits_verdicts :
  fits Verdicts_meta verdict_output = forallb (λ r, is_ok (judge_one (topology ctx) r)) (requirements_in_force given_requirements).
Proof.
  unfold fits, verdict_output, judgements. cbn [ou_reports ou_judgements].
  induction (requirements_in_force given_requirements) as [|r rs IH]; [done|]. cbn [fmap list_fmap mbind list_bind forallb fst snd].
  rewrite judged_ok_iff, <- IH, forallb_app. cbn [fst snd].
  destruct (is_ok _), (forallb _ (violation_reports _ _)), (forallb _ (mbind _ _)); done.
Qed.

Lemma verdicts_run : runs Verdicts verdict_output.
Proof.
  unfold runs, run_rule. cbv zeta. cbn [evaluate Verdicts].
  destruct (vc_requirements ctx) as [rs|] eqn:Er.
  2:{ unfold verdict_output, judgements, given_requirements. rewrite Er. reflexivity. }
  assert (given_requirements = rs) as Hrs by (unfold given_requirements; by rewrite Er).
  change (meta Verdicts) with Verdicts_meta. rewrite fits_verdicts, Hrs.
  pose proof (py_map_or_refused _ _ (requirements_in_force rs) judged_or_refused) as Hm.
  destruct (forallb _ _); [|destruct Hm as [fields ->]; by exists fields].
  rewrite Hm. cbn [mbind py_bind]. rewrite <- given_checked. f_equal.
  unfold gives, verdict_output, judgements. rewrite Hrs. cbn [ou_reports ou_judgements].
  f_equal; [|by rewrite <- !list_fmap_compose].
  clear Hm. induction (requirements_in_force rs) as [|r l IH]; [done|].
  cbn [fmap list_fmap mbind list_bind mjoin list_join]. rewrite fmap_app, <- IH. done.
Qed.

Context (Hcatalog : is_ok (component_evaluation ctx) = true).

Lemma components_run : runs ComponentConstraints component_output.
Proof using Hcatalog.
  unfold component_output. destruct (component_evaluation ctx) as [o|] eqn:E; [|done]. apply rule_runs.
  cbn [evaluate ComponentConstraints meta]. rewrite E. by destruct o.
Qed.

Context (Hw : writable (vc_ir ctx)) (Hpolicy : ∀ p, vc_policy ctx = Some p → policy_ok p).
Context (Hschema : (Z.abs (ri_schema_version (vc_revision ctx)) < 10 ^ 15)%Z).

(** The rules on structure, completeness, configuration and policy always give theirs. *)
Lemma plain_fits r reports :
  (r, reports) ∈ plain_output ctx →
  fits (meta r) (only_reports reports) = true ∧ run_rule ctx r = Ok (gives (meta r) (only_reports reports)) ∧ Forall reportable reports.
Proof using Hw Hpolicy Hschema.
  intros Hr. pose proof (plain_reports ctx Hw Hpolicy Hschema) as Ha. rewrite Forall_forall in Ha.
  specialize (Ha _ Hr) as [Hrun Hok]. cbn [fst snd] in Hrun, Hok. split_and!; [|done|done].
  unfold fits. cbn [ou_reports ou_judgements only_reports forallb]. rewrite andb_true_r.
  assert (Forall (λ r, RULE_ID (rule_id r) = true ∧ (1 ≤ rm_version (meta r))%Z) (plain_output ctx).*1) as Hm.
  { change (plain_output ctx).*1 with (STRUCTURE_RULES ++ COMPLETENESS_RULES ++ CONFIGURATION_RULES ++ POLICY_RULES).
    apply (bool_decide_unpack _). by vm_compute. }
  rewrite Forall_forall in Hm. destruct (Hm r) as [Hid Hv]; [by apply (list_elem_of_fmap_2 fst) in Hr|].
  apply Is_true_true, forallb_True. eapply Forall_impl; [exact Hok|]. intros p Hp. unfold accepted. by rewrite finding_made.
Qed.

Lemma built_in_run : Forall (λ p, runs p.1 p.2) built_in_output.
Proof using Hcatalog Hw Hpolicy Hschema.
  assert (∀ l, (∀ p, p ∈ l → p ∈ plain_output ctx) → Forall (λ p : Rule * output, runs p.1 p.2) (plainly l)) as Hplain.
  { intros l Hl. apply Forall_fmap, Forall_forall. intros [r reports] Hp%Hl%plain_fits. unfold compose, runs. cbn [fst snd].
    destruct Hp as (-> & -> & _). done. }
  unfold built_in_output. rewrite !Forall_app. split_and!.
  - apply Hplain. intros p Hp. apply elem_of_app. by left.
  - apply Forall_singleton, components_run.
  - apply Hplain. intros p Hp. apply elem_of_app. by right.
  - apply Forall_cons_2; [by apply rule_runs|]. apply Forall_singleton, verdicts_run.
Qed.

Context (Hrequirements : Forall requirement_ok given_requirements).

Lemma in_force_ok r : r ∈ requirements_in_force given_requirements → requirement_ok r.
Proof using Hrequirements.
  intros [_ Hr]%list_elem_of_filter. rewrite elem_of_sort_by in Hr. rewrite Forall_forall in Hrequirements. by apply Hrequirements.
Qed.

Lemma trace_output_reportable : Forall reportable (ou_reports trace_output).
Proof using Hw Hrequirements.
  unfold trace_output, given_requirements in *. destruct (vc_requirements ctx); [|constructor]. by apply trace_reportable.
Qed.

Lemma trace_fits : fits Traceability_meta trace_output = true.
Proof using Hw Hrequirements.
  unfold fits. replace (ou_judgements trace_output) with (@nil judgement) by done. cbn [forallb]. rewrite andb_true_r.
  apply Is_true_true, forallb_True. eapply Forall_impl; [apply trace_output_reportable|]. intros p Hp. unfold accepted.
  by rewrite finding_made.
Qed.

(** The verdicts fit when all that is said of the requirements in force is short. *)
Lemma verdicts_fit :
  fits Verdicts_meta verdict_output = true ↔
  ∀ r, r ∈ requirements_in_force given_requirements → short (judge (topology ctx) r) = true.
Proof using Hw Hrequirements.
  rewrite fits_verdicts. assert (∀ r, r ∈ requirements_in_force given_requirements →
    is_ok (judge_one (topology ctx) r) = short (judge (topology ctx) r)) as Hshort.
  { intros r Hr. rewrite judged_ok_iff. apply (judged_fits r (in_force_ok r Hr)). by apply (judge_ok (vc_ir ctx) Hw r (in_force_ok r Hr)). }
  rewrite <- Is_true_true, forallb_True, Forall_forall. split.
  - intros Hall r Hr. rewrite <- (Hshort r Hr). by apply Is_true_true, Hall.
  - intros Hall r Hr. apply Is_true_true. rewrite (Hshort r Hr). by apply Hall.
Qed.

(** Only two rules may not fit: that on components, and that on verdicts because of a list of regions. *)
Lemma misfits r o :
  (r, o) ∈ built_in_output → fits (meta r) o = false →
  (r = ComponentConstraints ∧ o = component_output) ∨
  (r = Verdicts ∧ o = verdict_output ∧ ∃ q, q ∈ requirements_in_force given_requirements ∧
     lists_regions (rc_constraint (req_content q)) = true ∧ short (judge (topology ctx) q) = false).
Proof using Hw Hpolicy Hschema Hrequirements.
  intros Hr Hf. unfold built_in_output in Hr. rewrite !elem_of_app in Hr.
  assert (∀ l, (∀ p, p ∈ l → p ∈ plain_output ctx) → (r, o) ∉ plainly l) as Hplain.
  { intros l Hl ([r' reports] & [= -> ->] & Hp%Hl%plain_fits)%list_elem_of_fmap. destruct Hp as [Hp _]. congruence. }
  destruct Hr as [Hr|[Hr|[Hr|Hr]]].
  - destruct (Hplain (other_output ctx)); [|done]. intros p Hp. apply elem_of_app. by left.
  - apply list_elem_of_singleton in Hr as [= -> ->]. by left.
  - destruct (Hplain (policy_output ctx)); [|done]. intros p Hp. apply elem_of_app. by right.
  - apply elem_of_cons in Hr as [[= -> ->]|[= -> ->]%list_elem_of_singleton]; [change (meta Traceability) with Traceability_meta in Hf; by rewrite trace_fits in Hf|].
    right. split; [done|]. split; [done|]. change (meta Verdicts) with Verdicts_meta in Hf.
    destruct (decide (Exists (λ q, short (judge (topology ctx) q) = false) (requirements_in_force given_requirements))) as [Hex|Hno].
    + apply Exists_exists in Hex as (q & Hq & Hs). exists q. split; [done|]. split; [|done].
      destruct (lists_regions _) eqn:El; [done|]. apply (judge_ok (vc_ir ctx) Hw q (in_force_ok q Hq)) in El. unfold topology in Hs. congruence.
    + exfalso. rewrite <- not_true_iff_false in Hf. apply Hf, verdicts_fit. intros q Hq. apply not_false_iff_true. intros Hs.
      apply Hno, Exists_exists. by exists q.
Qed.
End outputs.
