(* ===== verification/Verdicts.v ===== *)
(** What a validation's result says, whatever its rules: what a request selects, and every selected rule
    accounted for. *)
From Stdlib Require Import ZArith Lia.
From S2P Require Import Prelude Data Errors Codecs Values Provenance Traceability Component Configuration Elements Model Topology Serialization RoundTrip JsonText.
From S2P Require Import Projects ProjectProperties Components Kosaraju Findings ValidationEngine ValidationRules PolicyRules ValidationFacts.

(** * Dictionaries *)
Definition functional {K V} (l : list (K * V)) : Prop := ∀ k v w, (k, v) ∈ l → (k, w) ∈ l → v = w.

Lemma elem_of_dict_set {K V} `{EqDecision K} (d : dict K V) k v k' v' :
  dict_wf d → functional ((k, v) :: d) → (k', v') ∈ dict_set k v d ↔ (k', v') = (k, v) ∨ (k', v') ∈ d.
Proof.
  intros Hd Hf. rewrite <- !dict_get_wf by (done || by apply dict_set_wf). rewrite dict_get_set.
  case_decide as E; [subst k'|naive_solver]. split; [intros [= ->]; by left|].
  intros [[= ->]|Hg]; [done|]. apply dict_get_wf in Hg; [|done]. f_equal. apply (Hf k); [left|by right].
Qed.

(** Merging dictionaries that agree gives their union. *)
Lemma elem_of_dict_update {K V} `{EqDecision K} (e d : dict K V) p :
  dict_wf d → functional (d ++ e) → p ∈ dict_update d e ↔ p ∈ d ∨ p ∈ e.
Proof.
  unfold dict_update. revert d. induction e as [|[k v] e IH]; intros d Hd Hf; cbn [foldl]; [set_solver|].
  assert (functional ((k, v) :: d)) as Hf'.
  { intros i a b Ha Hb. apply (Hf i); set_solver. }
  assert (∀ q, q ∈ dict_set k v d ↔ q = (k, v) ∨ q ∈ d) as Hs by (intros []; by apply elem_of_dict_set).
  rewrite IH.
  - cbn [fst snd]. rewrite Hs. set_solver.
  - by apply dict_set_wf.
  - intros i a b Ha Hb. apply (Hf i); revert Ha Hb; cbn [fst snd]; rewrite !elem_of_app, !Hs; set_solver.
Qed.

Section selection.
Context `{ComponentCatalog}.

(** * The registry *)
Definition registered (rs : list Rule) : Registry := (λ r, (rule_id r, r)) <$> rs.

Lemma registered_keys rs : dict_keys (registered rs) = rule_id <$> rs.
Proof. unfold dict_keys, registered. by rewrite <- list_fmap_compose. Qed.

Lemma elem_of_registered rs k r : (k, r) ∈ registered rs ↔ r ∈ rs ∧ k = rule_id r.
Proof. unfold registered. rewrite list_elem_of_fmap. naive_solver. Qed.

Lemma registered_functional rs : NoDup (rule_id <$> rs) → functional (registered rs).
Proof.
  intros Hn k v w Hv Hw. assert (dict_wf (registered rs)) as Hwf by (unfold dict_wf; by rewrite registered_keys).
  apply dict_get_wf in Hv, Hw; [|done..]. congruence.
Qed.

Lemma register_all_ok done_ rs reg :
  register_all (registered done_) rs = Ok reg ↔
  NoDup (rule_id <$> rs) ∧ (∀ r, r ∈ rs → rule_id r ∉ rule_id <$> done_) ∧ reg = registered (done_ ++ rs).
Proof.
  revert done_. induction rs as [|r rs IH]; intros done_; cbn [register_all].
  - rewrite app_nil_r. split; [intros [= <-]; split_and!; [constructor|set_solver|done]|by intros (_ & _ & ->)].
  - unfold register. rewrite registered_keys. case_decide as Hin; cbn [mbind py_bind].
    + split; [done|]. intros (_ & Hd & _). exfalso. apply (Hd r); [left|done].
    + rewrite dict_set_new by by rewrite registered_keys.
      change [(rule_id r, r)] with (registered [r]). unfold registered at 1 2. rewrite <- fmap_app.
      fold (registered (done_ ++ [r])). rewrite IH, <- app_assoc. cbn [app]. rewrite fmap_cons, NoDup_cons, fmap_app.
      cbn [fmap list_fmap]. split.
      * intros (Hn & Hd & ->). split_and!; [|done| |done].
        { intros (r' & Hr & Hr')%list_elem_of_fmap. apply (Hd r' Hr'). rewrite <- Hr. set_solver. }
        intros r' [-> | Hr']%elem_of_cons; [done|]. specialize (Hd r' Hr'). set_solver.
      * intros ((Hr & Hn) & Hd & ->). split_and!; [done| |done]. intros r' Hr' [Hx|Hx%list_elem_of_singleton]%elem_of_app.
        { apply (Hd r'); [by right|done]. }
        apply Hr. rewrite <- Hx. by apply list_elem_of_fmap_2.
Qed.

(** A registry holds the rules it was given, if their ids differ. *)
Lemma Registry_new_ok rs reg : Registry_new rs = Ok reg ↔ NoDup (rule_id <$> rs) ∧ reg = registered rs.
Proof.
  unfold Registry_new. change [] with (registered []). rewrite register_all_ok. cbn [app fmap list_fmap]. set_solver.
Qed.

Lemma by_key_registered rs : by_key (registered rs) = registered (sort_by (on rule_id str_leb) rs).
Proof. unfold by_key, registered. by apply sort_by_fmap. Qed.

(** * What a request selects *)

(** A rule of the profile, that the request names, or that every request runs. *)
Definition selected (config : ValidationConfig) (r : Rule) : Prop :=
  cf_profile config ∈ rm_profiles (meta r) ∧
  match cf_rules config with
  | None => True
  | Some ids => rule_id r ∈ ids ∨ rm_mandatory (meta r) = true
  end.

#[export] Instance selected_dec config r : Decision (selected config r).
Proof. unfold selected. destruct (cf_rules config); apply _. Defined.

Definition selection (config : ValidationConfig) (rs : list Rule) : list Rule :=
  sort_by (on rule_id str_leb) (filter (selected config) rs).

(** What a request may ask: a known profile; at most so many rules, all of the profile; parameters and
    severities of selected rules only; parameters the rule declares, with values it accepts; no other
    severity for a mandatory rule. *)
Record acceptable (config : ValidationConfig) (rs : list Rule) : Prop := {
  ac_profile : ∃ r, r ∈ rs ∧ cf_profile config ∈ rm_profiles (meta r);
  ac_rules : ∀ ids, cf_rules config = Some ids → length ids <= MAX_SELECTED_RULES ∧
    ∀ i, i ∈ ids → ∃ r, r ∈ rs ∧ rule_id r = i ∧ cf_profile config ∈ rm_profiles (meta r);
  ac_given : ∀ i, i ∈ dict_keys (cf_parameters config) ++ dict_keys (cf_severity_overrides config) →
    ∃ r, r ∈ rs ∧ rule_id r = i ∧ selected config r;
  ac_parameters : ∀ i params r, (i, params) ∈ cf_parameters config → r ∈ rs → rule_id r = i →
    parameter_problem (rm_parameters (meta r)) params = None;
  ac_overrides : ∀ r, r ∈ rs → rule_id r ∈ dict_keys (cf_severity_overrides config) → rm_mandatory (meta r) = false;
}.

Section select.
Context (rs : list Rule) (config : ValidationConfig) (Hrs : NoDup (rule_id <$> rs)).

Definition profile_rules : dict string Rule :=
  filter (λ p : string * Rule, cf_profile config ∈ rm_profiles (meta p.2)) (by_key (registered rs)).

Lemma elem_of_profile_rules k r :
  (k, r) ∈ profile_rules ↔ k = rule_id r ∧ r ∈ rs ∧ cf_profile config ∈ rm_profiles (meta r).
Proof using Type.
  unfold profile_rules. rewrite list_elem_of_filter, by_key_registered, elem_of_registered, elem_of_sort_by.
  cbn [snd]. tauto.
Qed.

Lemma profile_rules_wf : dict_wf profile_rules.
Proof using Hrs.
  unfold dict_wf, dict_keys, profile_rules. eapply sublist_NoDup; [|apply fmap_sublist, sublist_filter].
  rewrite by_key_registered. fold (dict_keys (registered (sort_by (on rule_id str_leb) rs))).
  by rewrite registered_keys, sort_by_perm.
Qed.

Lemma rule_by_id r r' : r ∈ rs → r' ∈ rs → rule_id r = rule_id r' → r = r'.
Proof using Hrs. intros H1 H2 Hid. apply (registered_functional rs Hrs (rule_id r)); by apply elem_of_registered. Qed.

Lemma elem_of_profile_keys i :
  i ∈ dict_keys profile_rules ↔ ∃ r, r ∈ rs ∧ rule_id r = i ∧ cf_profile config ∈ rm_profiles (meta r).
Proof using Type.
  unfold dict_keys. rewrite list_elem_of_fmap. split.
  - intros ([k r] & -> & (-> & ? & ?)%elem_of_profile_rules). by exists r.
  - intros (r & ? & <- & ?). exists (rule_id r, r). split; [done|]. by apply elem_of_profile_rules.
Qed.

Definition rules_known : Prop := ∀ ids, cf_rules config = Some ids → length ids <= MAX_SELECTED_RULES ∧
    ∀ i, i ∈ ids → ∃ r, r ∈ rs ∧ rule_id r = i ∧ cf_profile config ∈ rm_profiles (meta r).

Definition chosen_exactly (chosen : dict string Rule) : Prop :=
  dict_wf chosen ∧ ∀ k r, (k, r) ∈ chosen ↔ k = rule_id r ∧ r ∈ rs ∧ selected config r.

Lemma chosen_rules_spec :
  match chosen_rules config profile_rules with
  | Ok chosen => rules_known ∧ chosen_exactly chosen
  | Raise e => ¬ rules_known ∧ ∃ details, e = InvalidValidationConfig details
  end.
Proof using Hrs.
  pose proof profile_rules_wf as Hwf.
  unfold chosen_rules, rules_known, chosen_exactly, selected. destruct (cf_rules config) as [ids|].
  2:{ split; [done|]. split; [done|]. intros k r. rewrite elem_of_profile_rules. tauto. }
  destruct (MAX_SELECTED_RULES <? length ids) eqn:El; [apply Nat.ltb_lt in El|apply Nat.ltb_ge in El].
  { split; [|by eexists]. intros Hk. destruct (Hk ids eq_refl). lia. }
  destruct (sorted_set _) as [|u rest] eqn:Eu.
  - assert (∀ i, i ∈ ids → ∃ r, r ∈ rs ∧ rule_id r = i ∧ cf_profile config ∈ rm_profiles (meta r)) as Hk.
    { intros i Hi. destruct (decide (i ∈ dict_keys profile_rules)) as [Hin|Hout]; [by apply elem_of_profile_keys|].
      exfalso. apply (not_elem_of_nil i). rewrite <- Eu. by apply elem_of_sorted_set, list_elem_of_filter. }
    split; [intros ids' [= <-]; done|]. set (asked := filter _ profile_rules). set (always := filter _ profile_rules).
    assert (∀ p, p ∈ asked ↔ p ∈ profile_rules ∧ p.1 ∈ ids) as Ha.
    { intros p. unfold asked. rewrite list_elem_of_filter. tauto. }
    assert (∀ p, p ∈ always ↔ p ∈ profile_rules ∧ rm_mandatory (meta p.2) = true) as Hm.
    { intros p. unfold always. rewrite list_elem_of_filter. tauto. }
    assert (dict_wf asked) as Hwa.
    { unfold dict_wf, dict_keys, asked. eapply sublist_NoDup; [exact Hwf|apply fmap_sublist, sublist_filter]. }
    split; [by apply dict_update_wf|]. intros k r. rewrite elem_of_dict_update.
    + rewrite Ha, Hm, elem_of_profile_rules. cbn [fst snd]. naive_solver.
    + done.
    + intros i a b Hia Hib. assert ((i, a) ∈ profile_rules ∧ (i, b) ∈ profile_rules) as [H1 H2].
      { rewrite elem_of_app, Ha, Hm in Hia, Hib. tauto. }
      apply elem_of_profile_rules in H1 as (-> & ? & _), H2 as (? & ? & _). by apply rule_by_id.
  - split; [|by eexists]. intros Hk. destruct (Hk ids eq_refl) as [_ Hk'].
    assert (u ∈ sorted_set (filter (λ i, i ∉ dict_keys profile_rules) ids)) as Hu by (rewrite Eu; left).
    apply elem_of_sorted_set, list_elem_of_filter in Hu as [Hu Hin]. by apply Hu, elem_of_profile_keys, Hk'.
Qed.

Lemma chosen_keys chosen i :
  chosen_exactly chosen → i ∈ dict_keys chosen ↔ ∃ r, r ∈ rs ∧ rule_id r = i ∧ selected config r.
Proof using Type.
  intros [_ Hin]. unfold dict_keys. rewrite list_elem_of_fmap. split.
  - intros ([k r] & -> & (-> & ? & ?)%Hin). by exists r.
  - intros (r & ? & <- & ?). exists (rule_id r, r). split; [done|]. by apply Hin.
Qed.

Lemma check_selected_spec chosen :
  chosen_exactly chosen →
  match check_selected config chosen with
  | Ok _ => ∀ i, i ∈ dict_keys (cf_parameters config) ++ dict_keys (cf_severity_overrides config) →
      ∃ r, r ∈ rs ∧ rule_id r = i ∧ selected config r
  | Raise e => ¬ acceptable config rs ∧ ∃ details, e = InvalidValidationConfig details
  end.
Proof using Type.
  intros Hc. unfold check_selected.
  destruct (filter _ _) as [|i l] eqn:E.
  - intros i Hi. apply (chosen_keys chosen); [done|]. destruct (decide (i ∈ dict_keys chosen)) as [|Hn]; [done|].
    exfalso. apply (not_elem_of_nil i). rewrite <- E. apply list_elem_of_filter. by rewrite elem_of_sorted_set.
  - split; [|by eexists]. intros Ha.
    assert (i ∈ i :: l) as Hi by left. rewrite <- E in Hi. apply list_elem_of_filter in Hi as [Hn Hi].
    apply elem_of_sorted_set, (ac_given _ _ Ha) in Hi. by apply Hn, (chosen_keys chosen).
Qed.

Lemma py_map_units {A} (f : A → py unit) l :
  match py_map f l with
  | Ok _ => ∀ x, x ∈ l → f x = Ok tt
  | Raise e => ∃ x, x ∈ l ∧ f x = Raise e
  end.
Proof using Type.
  induction l as [|x l IH]; cbn [py_map]; [by intros x Hx%elem_of_nil|].
  destruct (f x) as [[]|e] eqn:E; cbn [mbind py_bind].
  - destruct (py_map f l); cbn [mbind py_bind].
    + intros y [-> | Hy]%elem_of_cons; [done|by apply IH].
    + destruct IH as (y & ? & ?). exists y. split; [by right|done].
  - exists x. split; [left|done].
Qed.

Lemma chosen_get chosen i : chosen_exactly chosen → i ∈ dict_keys chosen →
  ∃ r, dict_get i chosen = Some r ∧ r ∈ rs ∧ rule_id r = i ∧ selected config r.
Proof using Type.
  intros [Hwf Hin] [r Hr]%dict_get_is_Some. exists r. split; [done|].
  apply dict_get_wf in Hr; [|done]. by apply Hin in Hr as (-> & ? & ?).
Qed.

(** What the registry answers: the selection when the request is acceptable, a refusal otherwise. *)
Lemma select_spec :
  match select (registered rs) config with
  | Ok rules => acceptable config rs ∧ rules = selection config rs
  | Raise e => ¬ acceptable config rs ∧ ∃ details, e = InvalidValidationConfig details
  end.
Proof using Hrs.
  unfold select. case_decide as Hp.
  2:{ split; [|by eexists]. intros [(r & Hr & Hin) _ _ _ _]. apply Hp. unfold profiles.
      apply list_elem_of_bind. exists r. split; [done|]. unfold dict_values, registered.
      rewrite <- list_fmap_compose, list_fmap_id. done. }
  fold profile_rules. pose proof chosen_rules_spec as Hch. cbv zeta.
  destruct (chosen_rules config profile_rules) as [chosen|e]; cbn [mbind py_bind].
  2:{ destruct Hch as [Hn ?]. split; [|done]. intros Ha. apply Hn. exact (ac_rules _ _ Ha). }
  destruct Hch as [Hk Hc]. pose proof (check_selected_spec chosen Hc) as Hs.
  destruct (check_selected config chosen) as [[]|e]; cbn [mbind py_bind]; [|done].
  pose proof (py_map_units (check_given chosen) (by_key (cf_parameters config))) as Hg.
  destruct (py_map _ (by_key (cf_parameters config))) as [l|e]; cbn [mbind py_bind].
  2:{ destruct Hg as ([i params] & Hi & He). unfold by_key in Hi. rewrite elem_of_sort_by in Hi.
      destruct (Hs i) as (r & Hr & <- & Hsel); [apply elem_of_app; left; by apply (list_elem_of_fmap_2 fst) in Hi|].
      destruct (chosen_get chosen (rule_id r) Hc) as (r' & Hget & Hr' & Hid & _); [apply (chosen_keys chosen); eauto|].
      unfold check_given in He. cbn [fst snd] in He. rewrite Hget in He. unfold check_parameters in He.
      destruct (parameter_problem _ params) as [[name why]|] eqn:Epp; [|done]. injection He as <-.
      split; [|by eexists]. intros Ha. by rewrite (ac_parameters _ _ Ha (rule_id r) params r' Hi Hr' Hid) in Epp. }
  pose proof (py_map_units (check_override chosen) (by_key (cf_severity_overrides config))) as Ho.
  destruct (py_map _ (by_key (cf_severity_overrides config))) as [l'|e]; cbn [mbind py_bind].
  2:{ destruct Ho as ([i s] & Hi & He). unfold by_key in Hi. rewrite elem_of_sort_by in Hi.
      assert (i ∈ dict_keys (cf_severity_overrides config)) as Hin by by apply (list_elem_of_fmap_2 fst) in Hi.
      destruct (Hs i) as (r & Hr & <- & Hsel); [apply elem_of_app; by right|].
      destruct (chosen_get chosen (rule_id r) Hc) as (r' & Hget & Hr' & Hid & _); [apply (chosen_keys chosen); eauto|].
      unfold check_override in He. cbn [fst snd] in He. rewrite Hget in He.
      destruct (rm_mandatory (meta r')) eqn:Em; [|done]. injection He as <-. split; [|by eexists]. intros Ha.
      rewrite (ac_overrides _ _ Ha r' Hr') in Em; [done|by rewrite Hid]. }
  split.
  - constructor; [|exact Hk|exact Hs| |].
    + unfold profiles in Hp. apply list_elem_of_bind in Hp as (r & Hp & Hr). exists r. split; [|done].
      unfold dict_values, registered in Hr. rewrite <- list_fmap_compose, list_fmap_id in Hr. done.
    + intros i params r Hi Hr Hid. assert ((i, params) ∈ by_key (cf_parameters config)) as Hi' by by apply elem_of_sort_by.
      specialize (Hg _ Hi'). unfold check_given in Hg. cbn [fst snd] in Hg.
      destruct (dict_get i chosen) as [r'|] eqn:E; [|done]. apply dict_get_wf in E; [|by destruct Hc].
      apply Hc in E as (-> & Hr' & _). rewrite (rule_by_id r r' Hr Hr' Hid). unfold check_parameters in Hg.
      by destruct (parameter_problem _ params) as [[]|].
    + intros r Hr Hin. apply list_elem_of_fmap in Hin as ([i s] & Hid & Hi). cbn [fst] in Hid. subst i.
      assert ((rule_id r, s) ∈ by_key (cf_severity_overrides config)) as Hi' by by apply elem_of_sort_by.
      specialize (Ho _ Hi'). unfold check_override in Ho. cbn [fst snd] in Ho.
      destruct (dict_get (rule_id r) chosen) as [r'|] eqn:E; [|done]. apply dict_get_wf in E; [|by destruct Hc].
      apply Hc in E as (Hid & Hr' & _). rewrite (rule_by_id r r' Hr Hr' Hid).
      by destruct (rm_mandatory (meta r')).
  - assert (chosen ≡ₚ registered (filter (selected config) rs)) as Hperm.
    { apply NoDup_Permutation.
      - destruct Hc as [Hwf _]. unfold dict_wf in Hwf. by apply NoDup_fmap_1 in Hwf.
      - apply (NoDup_fmap_1 fst). fold (dict_keys (registered (filter (selected config) rs))). rewrite registered_keys.
        eapply sublist_NoDup; [exact Hrs|apply fmap_sublist, sublist_filter].
      - intros [k r]. destruct Hc as [_ Hc]. rewrite Hc, elem_of_registered, list_elem_of_filter. tauto. }
    unfold by_key at 1. rewrite (sort_on_unique fst str_leb _ _ (proj1 Hc) Hperm).
    fold (by_key (registered (filter (selected config) rs))). rewrite by_key_registered. unfold dict_values, registered.
    by rewrite <- list_fmap_compose, list_fmap_id.
Qed.
End select.

(** What is selected does not depend on the order of registration, whatever the answer. *)
Lemma select_permutation rs rs' config :
  NoDup (rule_id <$> rs) → rs ≡ₚ rs' → select (registered rs) config = select (registered rs') config.
Proof.
  intros Hn Hp. unfold select.
  assert (by_key (registered rs) = by_key (registered rs')) as ->.
  { apply sort_on_unique; [apply _|fold (dict_keys (registered rs)); by rewrite registered_keys|]. unfold registered. by rewrite Hp. }
  assert (∀ p, p ∈ profiles (registered rs) ↔ p ∈ profiles (registered rs')) as Hpr.
  { intros p. unfold profiles, dict_values, registered. rewrite <- !list_fmap_compose, !list_elem_of_bind.
    split; intros (r & Hr & Hin); exists r; split; try done; revert Hin; rewrite !list_fmap_id; by rewrite Hp. }
  destruct (decide (_ ∈ profiles (registered rs))) as [Hin|Hin], (decide (_ ∈ profiles (registered rs'))) as [Hin'|Hin'];
    [done|by apply Hpr in Hin|by apply Hpr in Hin'|done].
Qed.
End selection.

Section verdicts.
Context `{ComponentCatalog} (ctx : ValidationContext).

(** * Running the rules *)

(** The findings a rule gives are findings: their constructor made them. *)
Definition honest (r : Rule) : Prop :=
  ∀ o, run_rule ctx r = Ok o → Forall (built Finding_new Finding_args) (oc_findings o).

(** The severity a request gives the findings of a rule, if any. *)
Definition override_of (r : Rule) : option Severity := dict_get (rule_id r) (cf_severity_overrides (vc_config ctx)).

(** A finding with another severity. *)
Definition regrade (override : option Severity) (f : Finding) : Finding := {|
  f_rule_id := f_rule_id f; f_rule_version := f_rule_version f; f_code := f_code f;
  f_severity := default (f_severity f) override; f_category := f_category f; f_title := f_title f;
  f_explanation := f_explanation f; f_remediation := f_remediation f; f_entity_ids := f_entity_ids f;
  f_field_paths := f_field_paths f; f_expected := f_expected f; f_actual := f_actual f;
  f_evidence := f_evidence f; f_blocking := f_blocking f; f_requirement_id := f_requirement_id f;
  f_policy_rule := f_policy_rule f |}.

(** A re-graded finding is one. *)
Lemma regrade_some_built s f : built Finding_new Finding_args f → built Finding_new Finding_args (regrade (Some s) f).
Proof using Type.
  intros Hb. unfold built, Finding_new in Hb. cbv zeta in Hb. apply py_bind_ok in Hb as ([] & Hc & Ht).
  destruct (Finding_typed _) as [g|] eqn:Hg; [|done]. injection Ht as ->. apply Finding_typed_args in Hg.
  unfold built, Finding_new. cbv zeta.
  assert (Finding_normalize (Finding_args (regrade (Some s) f)) = Finding_args (regrade (Some s) f)) as ->.
  { assert (sorted_strings (WStr <$> f_entity_ids f) = WStr <$> f_entity_ids f) as He.
    { symmetry. exact (f_equal fa_entity_ids Hg). }
    assert (sorted_strings (WStr <$> f_field_paths f) = WStr <$> f_field_paths f) as Hp.
    { symmetry. exact (f_equal fa_field_paths Hg). }
    unfold Finding_normalize, Finding_args, regrade. cbn [f_entity_ids f_field_paths fa_entity_ids fa_field_paths].
    by rewrite He, Hp. }
  rewrite <- Hg in Hc. change (Finding_problems (Finding_args (regrade (Some s) f))) with (Finding_problems (Finding_args f)).
  rewrite Hc. cbn [mbind py_bind]. by rewrite Finding_args_typed.
Qed.

Lemma regrade_built override f :
  built Finding_new Finding_args f → built Finding_new Finding_args (regrade override f).
Proof using Type. destruct override; [apply regrade_some_built|by destruct f]. Qed.

Lemma apply_override_regrade override f :
  built Finding_new Finding_args f → apply_override override f = Ok (regrade override f).
Proof using Type.
  intros Hb. destruct override as [s|]; [|by destruct f]. unfold apply_override. cbv zeta.
  change (Finding_new (Finding_args (regrade (Some s) f)) = Ok (regrade (Some s) f)). by apply regrade_some_built.
Qed.

(** What running the rules collects. *)
Definition from_rules (rules : list Rule) (st : progress) : Prop :=
  (∀ f, f ∈ pg_findings st ↔ ∃ r o g, r ∈ rules ∧ run_rule ctx r = Ok o ∧ g ∈ oc_findings o ∧ f = regrade (override_of r) g) ∧
  (∀ v, v ∈ pg_verdicts st ↔ ∃ r o, r ∈ rules ∧ run_rule ctx r = Ok o ∧ v ∈ oc_requirement_results o) ∧
  (∀ x, x ∈ pg_failures st ↔ ∃ r e, r ∈ rules ∧ run_rule ctx r = Raise e ∧ x = rule_failure (meta r) e).

Lemma from_rules_snoc rules st r :
  from_rules rules st → honest r → ∃ st', rule_step ctx st r = Ok st' ∧ from_rules (rules ++ [r]) st'.
Proof using Type.
  intros (Hf & Hv & Hx) Hr. unfold rule_step. destruct (run_rule ctx r) as [o|e] eqn:E.
  - specialize (Hr o E). fold (override_of r).
    assert (py_map (apply_override (override_of r)) (oc_findings o) = Ok (regrade (override_of r) <$> oc_findings o)) as ->.
    { apply py_map_ok, Forall2_fmap_r, Forall_Forall2_diag. eapply Forall_impl; [exact Hr|]. intros f. apply apply_override_regrade. }
    eexists. split; [reflexivity|]. unfold from_rules. cbn [pg_findings pg_verdicts pg_failures]. split_and!.
    + intros f. rewrite elem_of_app, Hf, list_elem_of_fmap. split.
      * intros [(r' & o' & g & ? & ? & ? & ?)|(g & ? & ?)]; [exists r', o', g|exists r, o, g]; set_solver.
      * intros (r' & o' & g & [Hr'|Hr'%list_elem_of_singleton]%elem_of_app & Ho & Hg & ->).
        { left. exists r', o', g. done. }
        subst r'. rewrite E in Ho. injection Ho as <-. right. by exists g.
    + intros v. rewrite elem_of_app, Hv. split.
      * intros [(r' & o' & ? & ? & ?)|?]; [exists r', o'|exists r, o]; set_solver.
      * intros (r' & o' & [Hr'|Hr'%list_elem_of_singleton]%elem_of_app & Ho & Hg).
        { left. by exists r', o'. }
        subst r'. rewrite E in Ho. injection Ho as <-. by right.
    + intros x. rewrite Hx. split.
      * intros (r' & e & ? & ? & ?). exists r', e. set_solver.
      * intros (r' & e & [Hr'|Hr'%list_elem_of_singleton]%elem_of_app & He & ?); [by exists r', e|]. subst r'. by rewrite E in He.
  - eexists. split; [reflexivity|]. unfold from_rules. cbn [pg_findings pg_verdicts pg_failures]. split_and!.
    + intros f. rewrite Hf. split.
      * intros (r' & o' & g & ? & ? & ? & ?). exists r', o', g. set_solver.
      * intros (r' & o' & g & [Hr'|Hr'%list_elem_of_singleton]%elem_of_app & Ho & Hg & ->); [by exists r', o', g|].
        subst r'. by rewrite E in Ho.
    + intros v. rewrite Hv. split.
      * intros (r' & o' & ? & ? & ?). exists r', o'. set_solver.
      * intros (r' & o' & [Hr'|Hr'%list_elem_of_singleton]%elem_of_app & Ho & Hg); [by exists r', o'|]. subst r'. by rewrite E in Ho.
    + intros x. rewrite elem_of_app, Hx, list_elem_of_singleton. split.
      * intros [(r' & e' & ? & ? & ?)|?]; [exists r', e'|exists r, e]; set_solver.
      * intros (r' & e' & [Hr'|Hr'%list_elem_of_singleton]%elem_of_app & He & ->); [left; by exists r', e'|].
        subst r'. rewrite E in He. injection He as <-. by right.
Qed.

Lemma rules_loop_from before rules st :
  from_rules before st → (∀ r, r ∈ rules → honest r) →
  ∃ st', rules_loop ctx st rules = Ok st' ∧ from_rules (before ++ rules) st'.
Proof using Type.
  revert before st. induction rules as [|r rules IH]; intros before st Hst Hr.
  - exists st. by rewrite app_nil_r.
  - destruct (from_rules_snoc before st r Hst) as (st1 & H1 & Hst1); [apply Hr; left|].
    destruct (IH (before ++ [r]) st1 Hst1) as (st2 & H2 & Hst2); [intros r' Hr'; apply Hr; by right|].
    exists st2. cbn [rules_loop]. rewrite H1. cbn [mbind py_bind]. split; [done|]. by rewrite <- app_assoc in Hst2.
Qed.

Lemma limitations_ok : length (ir_nodes (vc_ir ctx)) <= MAX_NODES → ∃ l, limitations ctx = Ok l.
Proof using Type.
  intros Hl. unfold limitations.
  destruct (vc_catalog ctx) as [c|]; [|eexists; reflexivity].
  destruct (filter _ _) as [|n ns] eqn:E; [eexists; reflexivity|].
  assert (length (n :: ns) <= MAX_NODES) as Hn by (rewrite <- E; etrans; [apply length_filter|done]).
  assert (∃ l, components_not_referenced (length (n :: ns)) = Ok l) as [l ->]; [|eexists; reflexivity].
  unfold components_not_referenced, Limitation_new. cbv zeta. rewrite (proj2 (checks_pass _)); [by eexists|].
  unfold Limitation_problems. cbn [li_code li_message].
  pose proof (length_nat_text (length (n :: ns)) 4 ltac:(lia)) as Ht. unfold MAX_NODES in *. specialize (Ht ltac:(lia)).
  apply Forall_cons_2; [reflexivity|]. apply Forall_cons_2; [|done]. apply text_problem_ok.
  generalize dependent (nat_text (length (n :: ns))). intros t ?. split; [abstract_literals; not_blank|].
  pose proof MAX_TEXT_is. abstract_literals. text_length.
Qed.

(** * The result *)

(** Every rule that ran is accounted for: its findings and verdicts are in the result, re-graded as the
    request says, or it is listed as failed, and then nothing in the result speaks for it. *)
Record accounted (rules : list Rule) (res : ValidationResult) : Prop := {
  at_findings : ∀ f, f ∈ vr_findings res ↔
    ∃ r o g, r ∈ rules ∧ run_rule ctx r = Ok o ∧ g ∈ oc_findings o ∧ f = regrade (override_of r) g;
  at_verdicts : ∀ v, v ∈ vr_requirement_results res ↔
    ∃ r o, r ∈ rules ∧ run_rule ctx r = Ok o ∧ v ∈ oc_requirement_results o;
  at_failures : ∀ x, x ∈ vr_failures res ↔ ∃ r e, r ∈ rules ∧ run_rule ctx r = Raise e ∧ x = rule_failure (meta r) e;
  at_silent : ∀ x f, x ∈ vr_failures res → f ∈ vr_findings res → f_rule_id f ≠ rf_rule_id x;
  at_distinct : NoDup (vr_findings res);
  at_ordered : ordered_by (on finding_key finding_key_leb) (vr_findings res);
}.

Lemma checked_ids r o f : run_rule ctx r = Ok o → f ∈ oc_findings o → f_rule_id f = rule_id r.
Proof using Type.
  unfold run_rule. cbv zeta. intros (o' & _ & Hc)%py_bind_ok Hf. unfold checked in Hc.
  destruct (forallb _ (oc_findings o')) eqn:E; cbn [andb] in Hc; [|done]. destruct (forallb _ _) in Hc; [|done].
  injection Hc as ->. apply Is_true_true, forallb_True in E. rewrite Forall_forall in E. specialize (E f Hf).
  apply andb_prop_elim in E as [E _]. by apply Is_true_true, String.eqb_eq in E.
Qed.

Lemma failure_id r e : rf_rule_id (rule_failure (meta r) e) = rule_id r.
Proof using Type. unfold rule_failure. by case_match. Qed.

Lemma validated rs rules specs :
  NoDup (rule_id <$> rs) → select (registered rs) (vc_config ctx) = Ok rules →
  (∀ r, r ∈ rules → honest r) → component_specifications ctx = Ok specs → length (ir_nodes (vc_ir ctx)) <= MAX_NODES →
  ∃ res, validate ctx (registered rs) = Ok res ∧ accounted rules res.
Proof using Type.
  intros Hrs Hsel Hh Hspecs Hlen. unfold validate. rewrite Hsel. cbn [mbind py_bind].
  destruct (rules_loop_from [] rules no_progress) as (st & -> & Hf & Hv & Hx).
  { unfold from_rules, no_progress. cbn [pg_findings pg_verdicts pg_failures]. set_solver. }
  { done. }
  cbn [mbind py_bind]. unfold context_fingerprint. cbv zeta. rewrite Hspecs. cbn [mbind py_bind].
  destruct (limitations_ok Hlen) as [l ->]. cbn [mbind py_bind].
  assert (∃ c, components_used ctx rules = Ok c) as [c ->].
  { unfold components_used. rewrite Hspecs. case_match; by eexists. }
  cbn [mbind py_bind]. eexists. split; [reflexivity|]. cbn [app] in *.
  pose proof (select_spec rs (vc_config ctx) Hrs) as Hs. rewrite Hsel in Hs. destruct Hs as [_ Hrules].
  constructor; unfold ValidationResult_new; cbn [vr_findings vr_requirement_results vr_failures].
  - intros f. by rewrite elem_of_sort_by, elem_of_dedup.
  - intros v. by rewrite elem_of_sort_by.
  - intros x. by rewrite elem_of_sort_by.
  - intros x f. rewrite !elem_of_sort_by, elem_of_dedup, Hf, Hx.
    intros (r & e & Hr & He & ->) (r' & o & g & Hr' & Ho & Hg & ->). rewrite failure_id. cbn [regrade f_rule_id].
    rewrite (checked_ids r' o g Ho Hg). intros Hid.
    assert (r' = r) as -> by (rewrite Hrules in Hr, Hr'; unfold selection in Hr, Hr';
      rewrite elem_of_sort_by, list_elem_of_filter in Hr, Hr'; apply (rule_by_id rs Hrs); tauto).
    by rewrite He in Ho.
  - apply NoDup_sort_by, NoDup_dedup.
  - apply sort_by_ordered. unfold finding_key_leb. apply _.
Qed.
End verdicts.
