(* ===== verification/ValidationProperties.v ===== *)
(** What is proved of a validation: the selection, the account of every rule, what the built-in rules give and
    which of them can fail, the policy, the critical requirements and the cycles judged as they are. *)
From Stdlib Require Import Ascii ZArith Lia.
From S2P Require Import Prelude Data Errors Codecs Values Provenance Traceability Component Configuration Elements Model Topology Serialization RoundTrip JsonText.
From S2P Require Import Projects ProjectProperties Components Kosaraju Requirements Findings ValidationEngine ValidationRules PolicyRules RequirementRules ValidationFacts.
From S2P Require Import RequirementFacts Verdicts Commands.

(** * What a policy asks *)
Record complies (p : ArchitecturePolicy) (ir : ArchitectureIR) : Prop := {
  cp_prohibited : ∀ n t, n ∈ ir_nodes ir → n_technology n = Some t → t_name t ∉ pl_prohibited_technologies p;
  cp_allowed : pl_allowed_technologies p ≠ [] →
    ∀ n t, n ∈ ir_nodes ir → n_technology n = Some t → t_name t ∈ pl_allowed_technologies p;
  cp_regions : pl_allowed_regions p ≠ [] →
    ∀ n region, n ∈ ir_nodes ir → get (n_configuration n) "region" = Some (JStr region) → region ∈ pl_allowed_regions p;
  cp_tls : policy_requires p "require_tls" = true →
    ∀ c, c ∈ ir_connections ir → communicates (c_kind c) = true → get (c_configuration c) "tls" ≠ Some (JBool false);
  cp_count : ∀ limit, pl_max_components p = Some limit →
    (Z.of_nat (length (filter (λ n, n_kind n ≠ BOUNDARY) (ir_nodes ir))) ≤ limit)%Z;
}.

Lemma empty_policy_complies p ir : policy_is_empty p = true → complies p ir.
Proof.
  unfold policy_is_empty. intros ->%bool_decide_eq_true. constructor; cbn; try done.
  intros n t _ _ Hin. by apply elem_of_nil in Hin.
Qed.

(** A report that does not block. *)
Abbreviation lets_pass := (λ p : report, rp_blocking p = false).

Lemma setting_None c k v : v ≠ JNull → setting c k = v ↔ get c k = Some v.
Proof. intros Hv. unfold setting. destruct (get c k) as [w|]; cbn; split; congruence. Qed.

Section policy.
Context (p : ArchitecturePolicy) (ir : ArchitectureIR) (Hir : writable ir).

Lemma technologies_pass :
  Forall lets_pass (technologies_of p ir) ↔
  (∀ n t, n ∈ ir_nodes ir → n_technology n = Some t → t_name t ∉ pl_prohibited_technologies p) ∧
  (pl_allowed_technologies p ≠ [] →
   ∀ n t, n ∈ ir_nodes ir → n_technology n = Some t → t_name t ∈ pl_allowed_technologies p).
Proof using Type.
  assert (∀ n, Forall lets_pass (technology_reports p n) ↔ ∀ t, n_technology n = Some t →
    (t_name t ∉ pl_prohibited_technologies p) ∧ (pl_allowed_technologies p ≠ [] → t_name t ∈ pl_allowed_technologies p)) as Hn.
  { intros n. unfold technology_reports. cbv zeta. destruct (n_technology n) as [t|].
    - destruct (decide (t_name t ∈ pl_prohibited_technologies p)) as [Hp|Hp].
      + split; [by intros [? _]%Forall_cons|]. intros Ht. by destruct (Ht t eq_refl) as [? _].
      + destruct (decide (pl_allowed_technologies p = [])) as [Ha|Ha].
        { rewrite bool_decide_true by done. cbn. split; [by intros _ t' [= <-]|done]. }
        rewrite bool_decide_false by done. case_bool_decide as Hin; cbn.
        * split; [by intros [? _]%Forall_cons|]. intros Ht. destruct (Ht t eq_refl) as [_ Hin']. by specialize (Hin' Ha).
        * split; [|done]. intros _ t' [= <-]. split; [done|]. intros _. by destruct (decide (t_name t ∈ pl_allowed_technologies p)).
    - split; [done|]. intros _. case_match; repeat constructor. }
  unfold technologies_of. destruct (bool_decide _ && bool_decide _) eqn:E.
  - apply andb_prop in E as [Ha%bool_decide_eq_true Hp%bool_decide_eq_true]. rewrite Ha, Hp. split; [|done].
    intros _. split; [|done]. intros n t _ _ Hin. by apply elem_of_nil in Hin.
  - rewrite Forall_bind, Forall_forall. setoid_rewrite Hn. naive_solver.
Qed.

Lemma regions_pass :
  Forall lets_pass (regions_of p ir) ↔
  (pl_allowed_regions p ≠ [] → ∀ n region, n ∈ ir_nodes ir → get (n_configuration n) "region" = Some (JStr region) →
     region ∈ pl_allowed_regions p).
Proof using Hir.
  unfold regions_of. case_decide as Ha; [done|]. rewrite Forall_bind, Forall_forall.
  assert (∀ n, n ∈ ir_nodes ir → Forall lets_pass (region_reports (pl_allowed_regions p) n) ↔
    ∀ region, get (n_configuration n) "region" = Some (JStr region) → region ∈ pl_allowed_regions p) as Hn.
  { intros n Hn. unfold region_reports. destruct (is_unknown (n_configuration n) "region") eqn:Eu.
    - split; [|repeat constructor]. intros _ region Hg. exfalso. apply bool_decide_eq_true in Eu. revert Eu.
      apply (built_configuration_disjoint _ _ (JStr region)); [|done].
      apply (co_built _ _ _ (node_configuration n (w_nodes ir Hir n Hn))).
    - destruct (setting (n_configuration n) "region") as [| | | |r| |] eqn:Es.
      5:{ apply setting_None in Es; [|done]. case_decide as Hin.
          - split; [|done]. intros _ region Hg. congruence.
          - split; [by intros [? _]%Forall_cons|]. intros Hall. destruct (Hin (Hall r Es)). }
      all: split; [|done]; intros _ region Hg; apply setting_None in Hg; [|done]; by rewrite Hg in Es. }
  split.
  - intros Hall _ n region Hin. by apply (proj1 (Hn n Hin)), Hall.
  - intros Hall n Hin. apply Hn; [done|]. intros region. by apply Hall.
Qed.

Lemma tls_pass :
  Forall lets_pass (tls_of p ir) ↔
  (policy_requires p "require_tls" = true → ∀ c, c ∈ ir_connections ir → communicates (c_kind c) = true →
     get (c_configuration c) "tls" ≠ Some (JBool false)).
Proof using Type.
  unfold tls_of. destruct (policy_requires p "require_tls"); [|done]. rewrite Forall_bind, Forall_forall.
  assert (∀ c, Forall lets_pass (tls_reports c) ↔
    (communicates (c_kind c) = true → get (c_configuration c) "tls" ≠ Some (JBool false))) as Hc.
  { intros c. unfold tls_reports. destruct (communicates (c_kind c)); [|done].
    rewrite <- setting_None by done. destruct (setting (c_configuration c) "tls") as [|[]| | | | |]; try (split; done).
    - case_match; split; try done; repeat constructor.
    - split; [by intros [? _]%Forall_cons|]. intros Hall. by destruct (Hall eq_refl). }
  setoid_rewrite Hc. naive_solver.
Qed.

Lemma count_passes :
  Forall lets_pass (count_of_components p ir) ↔
  ∀ limit, pl_max_components p = Some limit →
    (Z.of_nat (length (filter (λ n, n_kind n ≠ BOUNDARY) (ir_nodes ir))) ≤ limit)%Z.
Proof using Type.
  unfold count_of_components. cbv zeta. change (components (Topology_of ir)) with (filter (λ n, n_kind n ≠ BOUNDARY) (ir_nodes ir)).
  destruct (pl_max_components p) as [limit|]; [|done]. destruct (_ <=? limit)%Z eqn:E.
  - apply Z.leb_le in E. split; [|done]. by intros _ l [= <-].
  - apply Z.leb_gt in E. split; [by intros [? _]%Forall_cons|]. intros Hall. specialize (Hall limit eq_refl). lia.
Qed.
End policy.

(** * Validating with the built-in rules *)
Section built_in.
Context `{ComponentCatalog}.

(** A valid request to the built-in rules: an architecture, a policy and requirements as their constructors
    and tables let them be, a configuration the registry accepts, a catalog that answers and whose checks name
    the properties they are of. *)
Record valid_request (ctx : ValidationContext) : Prop := {
  vq_ir : writable (vc_ir ctx);
  vq_policy : ∀ p, vc_policy ctx = Some p → policy_ok p;
  vq_requirements : Forall requirement_ok (given_requirements ctx);
  vq_distinct : NoDup (req_id <$> given_requirements ctx);
  vq_schema : (Z.abs (ri_schema_version (vc_revision ctx)) < 10 ^ 15)%Z;
  vq_config : acceptable (vc_config ctx) BUILT_IN_RULES;
  vq_catalog : is_ok (component_evaluation ctx) = true;
  vq_properties : ∀ e i, component_evaluation ctx = Ok (Some e) → i ∈ ce_findings e → ck_property i ≠ Some "";
}.

Lemma built_in_ids : NoDup (rule_id <$> BUILT_IN_RULES).
Proof. apply (bool_decide_unpack _). by vm_compute. Qed.

Lemma built_in_profiles r : r ∈ BUILT_IN_RULES → rm_profiles (meta r) = ALL_PROFILES.
Proof.
  intros Hr. assert (Forall (λ r, rm_profiles (meta r) = ALL_PROFILES) BUILT_IN_RULES) as Ha by by repeat constructor.
  rewrite Forall_forall in Ha. by apply Ha.
Qed.

Lemma output_rule ctx r o : (r, o) ∈ built_in_output ctx → r ∈ BUILT_IN_RULES.
Proof. intros Hr. rewrite <- (built_in_rules ctx). by apply (list_elem_of_fmap_2 fst) in Hr. Qed.

Lemma output_of ctx r : r ∈ BUILT_IN_RULES → ∃ o, (r, o) ∈ built_in_output ctx.
Proof. rewrite <- (built_in_rules ctx). intros ([r' o] & -> & Hr)%list_elem_of_fmap. by exists o. Qed.

Lemma output_unique ctx r o o' : (r, o) ∈ built_in_output ctx → (r, o') ∈ built_in_output ctx → o = o'.
Proof.
  intros Ho Ho'. assert ((r, o) = (r, o')) as Hsame; [|by injection Hsame].
  apply (NoDup_key_inj fst (built_in_output ctx)); [|done..]. rewrite built_in_rules.
  apply (NoDup_fmap_1 rule_id), built_in_ids.
Qed.

(** How a rule whose output does not fit is listed. *)
Definition invalid_output (m : RuleMeta) : RuleFailure := {|
  rf_rule_id := rm_id m; rf_rule_version := rm_version m; rf_error := "invalid_output";
  rf_message := "The rule produced a malformed result." |}.

(** What the rules of a request give, as far as it fits. *)
Definition given (ctx : ValidationContext) (r : Rule) (o : output) : Prop :=
  (r, o) ∈ built_in_output ctx ∧ selected (vc_config ctx) r ∧ fits (meta r) o = true.

Lemma runs_when ctx r o : valid_request ctx → (r, o) ∈ built_in_output ctx → runs ctx r o.
Proof.
  intros Hq Hr. pose proof (built_in_run ctx (vq_catalog _ Hq) (vq_ir _ Hq) (vq_policy _ Hq) (vq_schema _ Hq)) as Ha.
  rewrite Forall_forall in Ha. exact (Ha _ Hr).
Qed.

Lemma rule_gives ctx r : valid_request ctx → r ∈ BUILT_IN_RULES →
  ∀ o, run_rule ctx r = Ok o ↔ ∃ out, (r, out) ∈ built_in_output ctx ∧ fits (meta r) out = true ∧ o = gives (meta r) out.
Proof.
  intros Hq Hr o. destruct (output_of ctx r Hr) as [out Hout]. pose proof (runs_when ctx r out Hq Hout) as Hrun. unfold runs in Hrun. split.
  - intros Ho. exists out. destruct (fits _ _); [|destruct Hrun as [fields ?]; congruence]. split; [done|]. split; [done|]. congruence.
  - intros (out' & Hout' & Hf & ->). rewrite (output_unique ctx r out out' Hout Hout') in Hrun. by rewrite Hf in Hrun.
Qed.

Lemma rule_refused ctx r : valid_request ctx → r ∈ BUILT_IN_RULES →
  ∀ x, (∃ e, run_rule ctx r = Raise e ∧ x = rule_failure (meta r) e) ↔
    ∃ out, (r, out) ∈ built_in_output ctx ∧ fits (meta r) out = false ∧ x = invalid_output (meta r).
Proof.
  intros Hq Hr x. destruct (output_of ctx r Hr) as [out Hout]. pose proof (runs_when ctx r out Hq Hout) as Hrun. unfold runs in Hrun. split.
  - intros (e & He & ->). exists out. destruct (fits _ _); [congruence|]. destruct Hrun as [fields Hrun].
    rewrite Hrun in He. injection He as <-. done.
  - intros (out' & Hout' & Hf & ->). rewrite (output_unique ctx r out out' Hout Hout'), Hf in Hrun. destruct Hrun as [fields ->].
    by eexists.
Qed.

(** The result is exactly what the selected rules give, and those whose output does not fit have failed. *)
Record answered (ctx : ValidationContext) (res : ValidationResult) : Prop := {
  aw_findings : ∀ f, f ∈ vr_findings res ↔ ∃ r o p, given ctx r o ∧ p ∈ ou_reports o ∧ f = regrade (override_of ctx r) (made (meta r) p);
  aw_verdicts : ∀ v, v ∈ vr_requirement_results res ↔ ∃ r o j, given ctx r o ∧ j ∈ ou_judgements o ∧ v = decided (meta r) j;
  aw_failures : ∀ x, x ∈ vr_failures res ↔ ∃ r o, (r, o) ∈ built_in_output ctx ∧ selected (vc_config ctx) r ∧
    fits (meta r) o = false ∧ x = invalid_output (meta r);
}.

Lemma fits_built m o : fits m o = true → Forall (built Finding_new Finding_args) (oc_findings (gives m o)).
Proof.
  intros [Hf _]%andb_prop. cbn [gives oc_findings]. apply Forall_fmap, Forall_forall. intros p Hp. apply built_iff.
  rewrite forallb_forall in Hf. apply list_elem_of_In, Hf, (refused_not_ok _ _ (finding_or_refused m p)) in Hp.
  eexists. exact Hp.
Qed.

Lemma built_in_result ctx :
  valid_request ctx → ∃ res, validate ctx (registered BUILT_IN_RULES) = Ok res ∧ answered ctx res.
Proof.
  intros Hq. pose proof (select_spec BUILT_IN_RULES (vc_config ctx) built_in_ids) as Hsel.
  destruct (select (registered BUILT_IN_RULES) (vc_config ctx)) as [rules|e] eqn:Es.
  2:{ destruct Hsel as [Hn _]. by destruct Hn, Hq. }
  destruct Hsel as [_ Hrules].
  assert (∀ r, r ∈ rules ↔ selected (vc_config ctx) r ∧ r ∈ BUILT_IN_RULES) as Hin.
  { intros r. rewrite Hrules. unfold selection. by rewrite elem_of_sort_by, list_elem_of_filter. }
  assert (∃ specs, component_specifications ctx = Ok specs) as [specs Hspecs].
  { pose proof (vq_catalog _ Hq) as Hc. unfold component_specifications. destruct (component_evaluation ctx); [by eexists|done]. }
  destruct (validated ctx BUILT_IN_RULES rules specs built_in_ids Es) as (res & Hres & Hacc); [|done| |].
  - intros r [_ Hr]%Hin o Ho. apply (rule_gives ctx r Hq Hr) in Ho as (out & _ & Hf & ->). by apply fits_built.
  - destruct (built_limits _ (w_built _ (vq_ir _ Hq))) as [? _]. done.
  - exists res. split; [done|]. constructor.
    + intros f. rewrite (at_findings _ _ _ Hacc). split.
      * intros (r & o & g & [Hs Hr]%Hin & Ho & Hg & ->). apply (rule_gives ctx r Hq Hr) in Ho as (out & Hout & Hf & ->).
        cbn [gives oc_findings] in Hg. apply list_elem_of_fmap in Hg as (p & -> & Hp). by exists r, out, p.
      * intros (r & out & p & (Hout & Hs & Hf) & Hp & ->). pose proof (output_rule _ _ _ Hout) as Hr.
        exists r, (gives (meta r) out), (made (meta r) p). split; [by apply Hin|]. split; [apply rule_gives; [done..|by exists out]|].
        split; [by apply list_elem_of_fmap_2|done].
    + intros v. rewrite (at_verdicts _ _ _ Hacc). split.
      * intros (r & o & [Hs Hr]%Hin & Ho & Hv). apply (rule_gives ctx r Hq Hr) in Ho as (out & Hout & Hf & ->).
        cbn [gives oc_requirement_results] in Hv. apply list_elem_of_fmap in Hv as (j & -> & Hj). by exists r, out, j.
      * intros (r & out & j & (Hout & Hs & Hf) & Hj & ->). pose proof (output_rule _ _ _ Hout) as Hr.
        exists r, (gives (meta r) out). split; [by apply Hin|]. split; [apply rule_gives; [done..|by exists out]|].
        by apply list_elem_of_fmap_2.
    + intros x. rewrite (at_failures _ _ _ Hacc). split.
      * intros (r & e & [Hs Hr]%Hin & He). destruct (proj1 (rule_refused ctx r Hq Hr x)) as (out & ? & ? & ?); [by exists e|].
        by exists r, out.
      * intros (r & out & Hout & Hs & Hf & ->). pose proof (output_rule _ _ _ Hout) as Hr.
        destruct (proj2 (rule_refused ctx r Hq Hr (invalid_output (meta r)))) as (e & He & Hx); [by exists out|].
        exists r, e. split; [by apply Hin|done].
Qed.

Lemma unfit_report ctx :
  fits ComponentConstraints_meta (component_output ctx) = false →
  ∃ p, p ∈ ou_reports (component_output ctx) ∧ accepted ComponentConstraints_meta p = false.
Proof.
  unfold fits. replace (ou_judgements (component_output ctx)) with (@nil judgement) by done. cbn [forallb]. rewrite andb_true_r.
  induction (ou_reports (component_output ctx)) as [|p l IH]; [done|]. cbn [forallb]. intros Hf.
  destruct (accepted ComponentConstraints_meta p) eqn:Ep; [|exists p; split; [left|done]].
  destruct (IH Hf) as (q & Hq & Hno). exists q. split; [by right|done].
Qed.

(** ** What blocks *)

(** At most one report, that does not block. *)
Ltac one_passes := first [apply Forall_nil_2 | apply Forall_cons_2; [reflexivity|apply Forall_nil_2]].

Lemma others_pass ctx r reports : (r, reports) ∈ other_output ctx → Forall lets_pass reports.
Proof.
  assert (Forall (λ p : Rule * list report, Forall lets_pass p.2) (other_output ctx)) as Ha.
  { unfold other_output. repeat apply Forall_cons_2; [..|apply Forall_nil_2]; cbn [snd].
    all: try (apply Forall_fmap, Forall_true; intros ?; reflexivity). all: try (apply Forall_bind, Forall_true).
    - intros c. unfold compose, deprecated_reports. repeat case_match; one_passes.
    - unfold upgrade_reports. case_match; one_passes.
    - unfold unknown_reports. apply Forall_fmap, Forall_true. intros [[[? ?] ?] ?]. reflexivity.
    - intros n. unfold compose, replicas_reports. cbv zeta. case_match; [|apply Forall_nil_2].
      apply Forall_app. split; case_match; one_passes.
    - intros n. unfold compose, zone_reports. repeat case_match; one_passes.
    - intros n. unfold compose, backup_reports. repeat case_match; one_passes. }
  rewrite Forall_forall in Ha. apply (Ha (r, reports)).
Qed.

Lemma components_pass ctx : Forall lets_pass (ou_reports (component_output ctx)).
Proof.
  unfold component_output, only_reports. cbn [ou_reports]. destruct (component_evaluation ctx) as [[e|]|]; try constructor.
  apply Forall_forall. intros p Hp. apply list_elem_of_omap in Hp as ([[[node_id code] prop] items] & _ & Hp).
  cbn [component_report] in Hp. apply bind_Some in Hp as (first & _ & [= <-]). reflexivity.
Qed.

Lemma trace_passes ctx : Forall lets_pass (ou_reports (trace_output ctx)).
Proof.
  unfold trace_output, only_reports. cbn [ou_reports]. destruct (vc_requirements ctx) as [rs|]; [|constructor].
  unfold trace_reports. cbv zeta. apply Forall_app. split; [apply Forall_fmap, Forall_true; reflexivity|].
  apply Forall_bind, Forall_true. intros i. unfold compose, reference_reports. cbv zeta.
  destruct (dict_get _ _) as [r|]; [|one_passes]. apply Forall_app. split; case_match; one_passes.
Qed.

(** No critical requirement in force is broken. *)
Definition critical_kept (ctx : ValidationContext) : Prop :=
  ∀ q, q ∈ given_requirements ctx → in_force q = true → rc_priority (req_content q) = PRIORITY_CRITICAL → ¬ breaks (vc_ir ctx) q.

Lemma violations_pass ctx :
  valid_request ctx → Forall lets_pass (ou_reports (verdict_output ctx)) ↔ critical_kept ctx.
Proof.
  intros Hq. unfold verdict_output, judgements, critical_kept. cbn [ou_reports]. rewrite Forall_bind, Forall_fmap, Forall_forall.
  assert (∀ q, q ∈ requirements_in_force (given_requirements ctx) ↔ q ∈ given_requirements ctx ∧ in_force q = true) as Hin.
  { intros q. unfold requirements_in_force. rewrite list_elem_of_filter, elem_of_sort_by. tauto. }
  assert (∀ q, Forall lets_pass (violation_reports q (judge (topology ctx) q)) ↔
    (rc_priority (req_content q) = PRIORITY_CRITICAL → ¬ breaks (vc_ir ctx) q)) as Hone.
  { intros q. rewrite <- (judge_violated (vc_ir ctx) (vq_ir _ Hq) q). unfold violation_reports, topology. case_decide as Hd.
    - rewrite Forall_singleton. cbn [violation_report of_requirement rp_blocking]. rewrite bool_decide_eq_false. tauto.
    - split; [tauto|constructor]. }
  unfold compose. cbn [fst snd]. setoid_rewrite Hone. naive_solver.
Qed.

Lemma policy_selected ctx r : valid_request ctx → r ∈ (policy_output ctx).*1 → selected (vc_config ctx) r.
Proof.
  intros Hq Hr.
  assert (rm_mandatory (meta r) = true) as Hm.
  { assert (Forall (λ r, rm_mandatory (meta r) = true) (policy_output ctx).*1) as Ha by by repeat constructor.
    rewrite Forall_forall in Ha. by apply Ha. }
  assert (r ∈ BUILT_IN_RULES) as Hb.
  { unfold BUILT_IN_RULES. rewrite !elem_of_app. do 4 right. left. exact Hr. }
  split; [|destruct (cf_rules (vc_config ctx)); [by right|done]].
  destruct (vq_config _ Hq) as [(r' & Hr' & Hp) _ _ _ _]. by rewrite built_in_profiles in *.
Qed.

Lemma policy_passes ctx :
  valid_request ctx →
  Forall (λ p : Rule * list report, Forall lets_pass p.2) (policy_output ctx) ↔
  ∀ p, vc_policy ctx = Some p → complies p (vc_ir ctx).
Proof.
  intros Hq. unfold policy_output. rewrite !Forall_cons. cbn [snd]. unfold under, policy_of, has_policy.
  destruct (vc_policy ctx) as [p|]; [|split; [done|by repeat constructor]].
  destruct (policy_is_empty p) eqn:Ee; cbn [negb].
  - split; [|by repeat constructor]. intros _ q [= <-]. by apply empty_policy_complies.
  - rewrite technologies_pass, regions_pass, tls_pass, count_passes by by destruct Hq. split.
    + intros ((? & ?) & ? & ? & ? & _) q [= <-]. by constructor.
    + intros Hc. destruct (Hc p eq_refl). done.
Qed.

Lemma output_cases ctx r o :
  (r, o) ∈ built_in_output ctx ↔
  (∃ reports, o = only_reports reports ∧ (r, reports) ∈ other_output ctx) ∨
  (r = ComponentConstraints ∧ o = component_output ctx) ∨
  (∃ reports, o = only_reports reports ∧ (r, reports) ∈ policy_output ctx) ∨
  (r = Traceability ∧ o = trace_output ctx) ∨ (r = Verdicts ∧ o = verdict_output ctx).
Proof.
  unfold built_in_output. rewrite !elem_of_app, !elem_of_cons, !elem_of_nil.
  assert (∀ l, (r, o) ∈ plainly l ↔ ∃ reports, o = only_reports reports ∧ (r, reports) ∈ l) as Hp.
  { intros l. unfold plainly. rewrite list_elem_of_fmap. split.
    - intros ([r' reports] & [= -> ->] & Hin). by exists reports.
    - intros (reports & -> & Hin). by exists (r, reports). }
  rewrite !Hp. naive_solver.
Qed.

(** The rule on verdicts is asked for, and what it says of the requirements fits. *)
Definition judges_requirements (ctx : ValidationContext) : Prop :=
  selected (vc_config ctx) Verdicts ∧ fits Verdicts_meta (verdict_output ctx) = true.

(** What the result says of the policy, and of the critical requirements. *)
Lemma blocking_iff ctx res :
  valid_request ctx → answered ctx res →
  (∀ f, f ∈ vr_findings res → f_blocking f = false) ↔
  (∀ p, vc_policy ctx = Some p → complies p (vc_ir ctx)) ∧ (judges_requirements ctx → critical_kept ctx).
Proof.
  intros Hq Ha. rewrite <- policy_passes, <- violations_pass by done.
  assert ((∀ f, f ∈ vr_findings res → f_blocking f = false) ↔ ∀ r o, given ctx r o → Forall lets_pass (ou_reports o)) as ->.
  { split.
    - intros Hall r o Hg. apply Forall_forall. intros p Hp.
      apply (Hall (regrade (override_of ctx r) (made (meta r) p))), (aw_findings _ _ Ha). by exists r, o, p.
    - intros Hall f (r & o & p & Hg & Hp & ->)%(aw_findings _ _ Ha). specialize (Hall r o Hg). rewrite Forall_forall in Hall. by apply Hall. }
  unfold given. split.
  - intros Hall. split.
    + apply Forall_forall. intros [r reports] Hr. apply (Hall r (only_reports reports)). split_and!.
      * apply output_cases. right. right. left. by exists reports.
      * apply policy_selected; [done|]. by apply (list_elem_of_fmap_2 fst) in Hr.
      * apply (plain_fits ctx (vq_ir _ Hq) (vq_policy _ Hq) (vq_schema _ Hq)). apply elem_of_app. by right.
    + intros [Hs Hf]. apply (Hall Verdicts (verdict_output ctx)). split_and!; [|done|done]. apply output_cases. by do 4 right.
  - intros [Hp Hv] r o ([(reports & -> & Hr)|[[-> ->]|[(reports & -> & Hr)|[[-> ->]|[-> ->]]]]]%output_cases & Hs & Hf).
    + by apply (others_pass ctx r).
    + apply components_pass.
    + rewrite Forall_forall in Hp. apply (Hp _ Hr).
    + apply trace_passes.
    + by apply Hv.
Qed.

(** ** Cycles *)

(** A component waits on another: a request that is synchronous, or not said to be otherwise and counted. *)
Definition waits_on (ctx : ValidationContext) (x y : string) : Prop :=
  ∃ c, c ∈ ir_connections (vc_ir ctx) ∧ c_kind c = REQUEST ∧ c_source_id c = x ∧ c_target_id c = y ∧
    (c_interaction c = Some SYNCHRONOUS ∨ (c_interaction c = None ∧ include_unstated ctx = true)).

Lemma waits_on_edges ctx x y : waits_on ctx x y ↔ points_to (edges_of (call_edges (request_calls ctx))) x y.
Proof.
  unfold points_to. rewrite elem_of_call_edges. unfold waits_on, request_calls, waiting_calls.
  split; intros (c & Hc); exists c; rewrite list_elem_of_filter in *; destruct (c_interaction c) as [[]|]; naive_solver.
Qed.

Lemma group_of_two (g : list string) : NoDup g → 1 < length g ↔ ∃ x y, x ≠ y ∧ x ∈ g ∧ y ∈ g.
Proof.
  intros Hg. split.
  - destruct g as [|x [|y g]]; simpl; [lia|lia|]. intros _. exists x, y. apply NoDup_cons in Hg as [Hx _]. set_solver.
  - intros (x & y & Hne & Hx & Hy). destruct g as [|a [|b g]]; [by apply elem_of_nil in Hx| |simpl; lia].
    apply list_elem_of_singleton in Hx, Hy. congruence.
Qed.

Lemma call_cycles_spec ctx :
  call_cycles (request_calls ctx) ≠ [] ↔ ∃ x y, x ≠ y ∧ rtc (waits_on ctx) x y ∧ rtc (waits_on ctx) y x.
Proof.
  set (calls := request_calls ctx).
  destruct (strongly_connected_groups _ _ (call_edges_closed calls)) as (Hg & Hall & _ & _).
  assert (∀ a b, rtc (waits_on ctx) a b ↔ rtc (points_to (edges_of (call_edges calls))) a b) as Hr.
  { intros a b. split; apply rtc_subrel; intros c d; apply waits_on_edges. }
  split.
  - intros Hne. destruct (call_cycles calls) as [|g gs] eqn:E; [done|].
    assert (g ∈ call_cycles calls) as Hin by (rewrite E; left). apply list_elem_of_filter in Hin as [Hl Hin].
    destruct (Hg g Hin) as (Hn & _ & start & _ & Hm). apply group_of_two in Hl as (x & y & Hxy & Hx & Hy); [|done].
    exists x, y. split; [done|]. apply Hm in Hx as [H1 H2]. apply Hm in Hy as [H3 H4].
    rewrite !Hr. split; by etrans.
  - intros (x & y & Hxy & H1%Hr & H2%Hr) Hnil.
    assert (x ∈ called_nodes calls) as Hx.
    { apply rtc_inv_r in H2 as [->|(z & _ & Hz)]; [done|]. by apply (call_edges_closed calls z). }
    apply Hall in Hx. apply list_elem_of_join in Hx as (g & Hx & Hgin).
    destruct (Hg g Hgin) as (Hn & _ & start & _ & Hm). apply (not_elem_of_nil g). rewrite <- Hnil.
    apply list_elem_of_filter. split; [|done]. apply group_of_two; [done|]. exists x, y. split; [done|]. split; [done|].
    apply Hm. apply Hm in Hx as [? ?]. split; by etrans.
Qed.
End built_in.

(** * An example: two services that wait on each other, one on a prohibited technology *)

(** A catalog that is the components it lists: a node that refers to another cannot be checked. *)
#[local] Instance listed_catalog : ComponentCatalog := {|
  catalog := dict string string;
  evaluate_architecture ir _ known := Ok {|
    ce_findings := omap (λ n, component ← n_component n;
      if decide (component ∈ dict_keys known) then None else Some {|
        ck_node_id := n_id n; ck_component := component; ck_specification := None; ck_check := "component_not_in_catalog";
        ck_outcome := OUTCOME_CANNOT_EVALUATE; ck_explanation := points_of "The catalog does not list this component.";
        ck_severity := None; ck_property := None; ck_actual := JNull; ck_expected := None; ck_remediation := None;
        ck_basis := None |}) (ir_nodes ir);
    ce_specifications := filter (λ p : string * string, Some p.1 ∈ (n_component <$> ir_nodes ir)) known |} |}.

Definition sample_service (id : string) (technology : string) : Node := {|
  n_id := id; n_kind := SERVICE; n_name := id; n_description := None;
  n_technology := Some {| t_name := technology; t_version := None |};
  n_component := None; n_parent_id := None; n_configuration := empty_configuration;
  n_requirement_refs := []; n_lifecycle := None; n_metadata := []; n_provenance := None;
  n_field_provenance := [] |}.

Definition sample_uuid (n : nat) : uuid := "00000000-0000-0000-0000-00000000000" +:+ nat_text n.

(** It references two requirements, as a whole. *)
Definition sample_system : ArchitectureIR := {|
  ir_name := "orders"; ir_description := None;
  ir_nodes := [sample_service "billing" "oracle"; sample_service "orders" "python"];
  ir_connections := [sample_connection "charge" "orders" "billing" REQUEST;
                     sample_connection "confirm" "billing" "orders" REQUEST];
  ir_assumptions := []; ir_decisions := []; 
  ir_requirement_refs := [{| requirement_id := sample_uuid 1; version := None |}; {| requirement_id := sample_uuid 2; version := None |}];
  ir_metadata := [];
  ir_provenance := None; ir_schema_version := 1 |}.

Definition sample_policy : ArchitecturePolicy := {|
  pl_allowed_technologies := []; pl_prohibited_technologies := ["oracle"]; pl_allowed_regions := [];
  pl_approved_secret_sources := []; pl_required_metric_kinds_on_critical := [];
  pl_flags := pl_flags empty_policy; pl_max_components := Some 10%Z; pl_min_telemetry_retention_seconds := None |}.

(** Two rules named, one of them re-graded and given its parameter. *)
Definition strict_config : ValidationConfig := {|
  cf_profile := "strict"; cf_rules := Some ["structure.synchronous-cycle"; "structure.empty-boundary"];
  cf_parameters := [("structure.synchronous-cycle", [("include_unstated", JBool true)])];
  cf_severity_overrides := [("structure.synchronous-cycle", CRITICAL)] |}.

Definition sample_context : ValidationContext := {|
  vc_ir := sample_system;
  vc_revision := {| ri_architecture_id := "a"; ri_number := 3; ri_content_hash := "h"; ri_schema_version := 1 |};
  vc_requirements := Some []; vc_config := strict_config; vc_policy := Some sample_policy;
  vc_catalog := Some [("databases/oracle", "f00")] |}.

Lemma sample_system_writable : writable sample_system.
Proof.
  assert (∀ id t, TECHNOLOGY_NAME t = true → built (λ a, Technology_new a.1 a.2) Technology_args {| t_name := t; t_version := None |} →
    built Node_new Node_args (sample_service id t) → node_ok (sample_service id t)) as Hn.
  { intros id t _ Ht Hb. constructor; [exact Hb|by intros x [= <-]|].
    constructor; [|constructor|done|by intros q Hq%elem_of_nil].
    constructor; [vm_compute; reflexivity|constructor|constructor|vm_compute; reflexivity]. }
  assert (∀ id s t, built Connection_new Connection_args (sample_connection id s t REQUEST) →
    connection_ok (sample_connection id s t REQUEST)) as Hc.
  { intros id s t Hb. constructor; [exact Hb|].
    constructor; [|constructor|done|by intros q Hq%elem_of_nil].
    constructor; [vm_compute; reflexivity|constructor|constructor|vm_compute; reflexivity]. }
  constructor; [vm_compute; reflexivity| | | | | |done].
  - intros n [-> | ->%list_elem_of_singleton]%elem_of_cons; apply Hn; vm_compute; reflexivity.
  - intros c [-> | ->%list_elem_of_singleton]%elem_of_cons; apply Hc; vm_compute; reflexivity.
  - by intros x Hx%elem_of_nil.
  - by intros x Hx%elem_of_nil.
  - repeat apply Forall_cons_2; [..|apply Forall_nil_2]; split; vm_compute; reflexivity.
Qed.

Lemma sample_policy_ok : policy_ok sample_policy.
Proof.
  apply (policy_new_ok [("prohibited_technologies", JArr [JStr "oracle"]); ("max_components", JInt 10)]).
  by vm_compute.
Qed.

Lemma built_in_registry : Registry_new BUILT_IN_RULES = Ok (registered BUILT_IN_RULES).
Proof. apply Registry_new_ok. split; [apply built_in_ids|done]. Qed.

Lemma sample_selects : rule_id <$> selection strict_config BUILT_IN_RULES =
  ["policy.component-count"; "policy.region"; "policy.technology"; "policy.tls"; "structure.empty-boundary";
   "structure.schema-version"; "structure.synchronous-cycle"].
Proof. by vm_compute. Qed.

Lemma sample_selected : select (registered BUILT_IN_RULES) strict_config = Ok (selection strict_config BUILT_IN_RULES).
Proof.
  pose proof (select_spec BUILT_IN_RULES strict_config built_in_ids) as Hs.
  assert (is_ok (select (registered BUILT_IN_RULES) strict_config) = true) as Hok by by vm_compute.
  destruct (select _ _); [|done]. destruct Hs as [_ ->]. done.
Qed.

Lemma sample_request_valid : valid_request sample_context.
Proof.
  constructor; [exact sample_system_writable|intros p [= <-]; exact sample_policy_ok|constructor|constructor|by vm_compute| |by vm_compute|done].
  pose proof (select_spec BUILT_IN_RULES strict_config built_in_ids) as Hs. rewrite sample_selected in Hs. apply Hs.
Qed.

(** ** A critical requirement that is broken, and one that lists too many regions *)
Definition insecure : Connection := {|
  c_id := "charge"; c_source_id := "orders"; c_target_id := "billing"; c_kind := REQUEST; c_protocol := None;
  c_interaction := None; c_bidirectional := false; c_critical := None; c_name := None; c_description := None;
  c_configuration := {| values := [("tls", JBool false)]; unknown := []; extra := [] |}; c_requirement_refs := [];
  c_metadata := []; c_provenance := None; c_field_provenance := [] |}.

Definition located (id : string) : Node := {|
  n_id := id; n_kind := SERVICE; n_name := id; n_description := None; n_technology := None; n_component := None;
  n_parent_id := None; n_configuration := {| values := [("region", JStr "mars-1")]; unknown := []; extra := [] |};
  n_requirement_refs := []; n_lifecycle := None; n_metadata := []; n_provenance := None; n_field_provenance := [] |}.

Definition insecure_system : ArchitectureIR := {|
  ir_name := "orders"; ir_description := None; ir_nodes := [located "billing"; located "orders"];
  ir_connections := [insecure]; ir_assumptions := []; ir_decisions := []; ir_requirement_refs := []; ir_metadata := [];
  ir_provenance := None; ir_schema_version := 1 |}.

Definition critical_requirement (number : nat) (category : string) (constraint : option StructuredConstraint) : Requirement := {|
  req_id := sample_uuid number; req_project_id := sample_uuid 0; req_number := Z.of_nat number; req_version := 1;
  req_content := {| rc_type := TYPE_SECURITY; rc_category := category; rc_title := "Keep the data safe";
    rc_statement := "All traffic uses TLS."; rc_priority := PRIORITY_CRITICAL; rc_status := REQUIREMENT_ACTIVE;
    rc_constraint := constraint; rc_scope := SCOPE_SYSTEM |} |}.

Definition insecure_context : ValidationContext := {|
  vc_ir := insecure_system; vc_revision := vc_revision sample_context;
  vc_requirements := Some [critical_requirement 1 "encryption" None]; vc_config := default_config; vc_policy := None;
  vc_catalog := Some [] |}.

(** As many regions as a constraint may list, with names as long as they may be. *)
Definition many_regions : json := JArr ((λ n : nat,
  JStr ("region-" +:+ text_of (repeat "x"%char 53) +:+ nat_text (100 + n))) <$> seq 0 50).

Definition regions_constraint : option StructuredConstraint :=
  match parse_structured_data (JObj [("metric", JStr "regions"); ("operator", JStr "in"); ("values", many_regions)]) with
  | Ok c => c
  | Raise _ => None
  end.

Definition long_context : ValidationContext := {|
  vc_ir := insecure_system; vc_revision := vc_revision sample_context;
  vc_requirements := Some [critical_requirement 2 "residency" regions_constraint]; vc_config := default_config;
  vc_policy := None; vc_catalog := Some [] |}.

Lemma insecure_system_writable : writable insecure_system.
Proof.
  constructor; [vm_compute; reflexivity| | | | |constructor|done].
  - assert (∀ id, built Node_new Node_args (located id) → node_ok (located id)) as Hn.
    { intros id Hb. constructor; [exact Hb|done|]. constructor; [|constructor|done|by intros q Hq%elem_of_nil].
      constructor; [vm_compute; reflexivity|apply NoDup_singleton|by apply Forall_singleton|vm_compute; reflexivity]. }
    intros n [-> | ->%list_elem_of_singleton]%elem_of_cons; apply Hn; vm_compute; reflexivity.
  - intros c ->%list_elem_of_singleton. constructor; [vm_compute; reflexivity|].
    constructor; [|constructor|done|by intros q Hq%elem_of_nil].
    constructor; [vm_compute; reflexivity|apply NoDup_singleton|by apply Forall_singleton|vm_compute; reflexivity].
  - by intros x Hx%elem_of_nil.
  - by intros x Hx%elem_of_nil.
Qed.

Lemma default_acceptable : acceptable default_config BUILT_IN_RULES.
Proof.
  pose proof (select_spec BUILT_IN_RULES default_config built_in_ids) as Hs.
  assert (is_ok (select (registered BUILT_IN_RULES) default_config) = true) as Hok by by vm_compute.
  destruct (select _ _); [apply Hs|done].
Qed.

Lemma critical_requirement_ok n category c :
  canonical_uuid (sample_uuid n) → (1 ≤ Z.of_nat n < 2 ^ 31)%Z → (∀ d, c = Some d → ∃ raw, parse_structured_data raw = Ok (Some d)) →
  requirement_ok (critical_requirement n category c).
Proof. intros Hu Hn Hc. constructor; [exact Hu|exact Hn|done|apply (bool_decide_unpack _); by vm_compute|exact Hc]. Qed.

Lemma insecure_request_valid : valid_request insecure_context.
Proof.
  constructor; [exact insecure_system_writable|done| |apply NoDup_singleton|by vm_compute|exact default_acceptable|by vm_compute|done].
  apply Forall_singleton, critical_requirement_ok; [by vm_compute|lia|done].
Qed.

Lemma long_request_valid : valid_request long_context.
Proof.
  constructor; [exact insecure_system_writable|done| |apply NoDup_singleton|by vm_compute|exact default_acceptable|by vm_compute|done].
  apply Forall_singleton, critical_requirement_ok; [by vm_compute|lia|].
  intros d Hd. exists (JObj [("metric", JStr "regions"); ("operator", JStr "in"); ("values", many_regions)]). unfold regions_constraint in Hd.
  destruct (parse_structured_data _) as [c|]; [by subst|done].
Qed.

Lemma long_misfits : fits Verdicts_meta (verdict_output long_context) = false.
Proof. by vm_compute. Qed.

Lemma insecure_fits : fits Verdicts_meta (verdict_output insecure_context) = true.
Proof. by vm_compute. Qed.

Lemma insecure_selected : selected (vc_config insecure_context) Verdicts.
Proof. split; [left|done]. Qed.

Lemma insecure_broken : ¬ critical_kept insecure_context.
Proof.
  intros Hk. apply (Hk (critical_requirement 1 "encryption" None)); [left|done|done|].
  apply (breaks_transit _ _ insecure); [by constructor|left|done|done].
Qed.

(** A rule that raises, and one that speaks in another's name. *)
Definition crashing (id : string) : Rule :=
  {| meta := plain_meta id id id STRUCTURE LOW; evaluate _ _ := Raise KeyError |}.
Definition impostor (id : string) : Rule :=
  {| meta := plain_meta id id id STRUCTURE LOW;
     evaluate ctx params := evaluate EmptyBoundaries ctx params ≫= λ o, Ok {|
       oc_findings := oc_findings o;
       oc_requirement_results := [{| rr_requirement_id := []; rr_reference := []; rr_requirement_version := 1;
         rr_verdict := SATISFIED; rr_reason := []; rr_rule_id := "structure.empty-boundary"; rr_entity_ids := [];
         rr_evidence := [] |}] |} |}.

Definition mixed_rules : list Rule := [EmptyBoundaries; impostor "custom.impostor"; crashing "custom.crash"].
Definition mixed_context : ValidationContext := {|
  vc_ir := sample_system; vc_revision := vc_revision sample_context; vc_requirements := None;
  vc_config := default_config; vc_policy := None; vc_catalog := None |}.

Lemma mixed_selected :
  select (registered mixed_rules) default_config = Ok [crashing "custom.crash"; impostor "custom.impostor"; EmptyBoundaries].
Proof.
  pose proof (select_spec mixed_rules default_config ltac:(apply (bool_decide_unpack _); by vm_compute)) as Hs.
  assert (is_ok (select (registered mixed_rules) default_config) = true) as Hok by by vm_compute.
  destruct (select _ _); [|done]. destruct Hs as [_ ->]. done.
Qed.

(** * Properties *)

(** C24: the registry answers a request exactly as documented: it is refused, as an invalid configuration,
    unless its profile is known, the rules it names are of the profile and not too many, and its
    parameters and severities are for selected rules, declared and of the declared type, none for a
    mandatory rule; otherwise it selects, in id order, the rules of the profile that are named or mandatory. *)
Theorem select_exactly `{ComponentCatalog} rs reg config :
  Registry_new rs = Ok reg →
  match select reg config with
  | Ok rules => acceptable config rs ∧ rules = selection config rs
  | Raise e => ¬ acceptable config rs ∧ ∃ details, e = InvalidValidationConfig details
  end.
Proof. intros [Hn ->]%Registry_new_ok. by apply select_spec. Qed.

Lemma select_exactly_witness :
  match select (registered BUILT_IN_RULES) strict_config with
  | Ok rules => acceptable strict_config BUILT_IN_RULES ∧ rules = selection strict_config BUILT_IN_RULES
  | Raise e => ¬ acceptable strict_config BUILT_IN_RULES ∧ ∃ details, e = InvalidValidationConfig details
  end ∧ length (selection strict_config BUILT_IN_RULES) = 7.
Proof.
  split; [apply (select_exactly BUILT_IN_RULES (registered BUILT_IN_RULES) strict_config built_in_registry)|].
  rewrite <- (length_fmap rule_id), sample_selects. reflexivity.
Defined.

(** C16: no rule is dropped in silence. A validation whose request is accepted completes, whatever its rules
    do, and each selected rule either gave an outcome, all of whose findings (re-graded as asked) and
    verdicts are in the result, or raised or broke its contract, and is listed as failed with nothing in the
    result speaking for it. *)
Theorem every_rule_accounted `{ComponentCatalog} ctx rs reg rules specs :
  Registry_new rs = Ok reg → select reg (vc_config ctx) = Ok rules → (∀ r, r ∈ rules → honest ctx r) →
  component_specifications ctx = Ok specs → length (ir_nodes (vc_ir ctx)) <= MAX_NODES →
  ∃ res, validate ctx reg = Ok res ∧ accounted ctx rules res.
Proof. intros [Hn ->]%Registry_new_ok. by apply validated. Qed.

Lemma every_rule_accounted_witness :
  ∃ res, validate mixed_context (registered mixed_rules) = Ok res ∧
    accounted mixed_context [crashing "custom.crash"; impostor "custom.impostor"; EmptyBoundaries] res.
Proof.
  apply (every_rule_accounted mixed_context mixed_rules (registered mixed_rules) _ None).
  - apply Registry_new_ok. split; [apply (bool_decide_unpack _); by vm_compute|done].
  - exact mixed_selected.
  - intros r Hr o Ho. assert (oc_findings o = []) as ->; [|constructor].
    repeat (apply elem_of_cons in Hr as [-> | Hr]; [vm_compute in Ho; by (discriminate Ho || injection Ho as <-)|]).
    by apply elem_of_nil in Hr.
  - reflexivity.
  - apply Nat.leb_le. by vm_compute.
Defined.

(** the order in which rules are registered changes nothing: not what is selected or refused, and not the
    result of a validation. *)
Theorem registration_order `{ComponentCatalog} rs rs' reg :
  rs ≡ₚ rs' → Registry_new rs = Ok reg →
  ∃ reg', Registry_new rs' = Ok reg' ∧ (∀ config, select reg' config = select reg config) ∧
    ∀ ctx, validate ctx reg' = validate ctx reg.
Proof.
  intros Hp [Hn ->]%Registry_new_ok. exists (registered rs'). split.
  - apply Registry_new_ok. split; [by rewrite <- Hp|done].
  - assert (∀ config, select (registered rs') config = select (registered rs) config) as Hs.
    { intros config. symmetry. by apply select_permutation. }
    split; [done|]. intros ctx. unfold validate. by rewrite Hs.
Qed.

Lemma registration_order_witness :
  ∃ reg', Registry_new (reverse BUILT_IN_RULES) = Ok reg' ∧
    (∀ config, select reg' config = select (registered BUILT_IN_RULES) config) ∧
    ∀ ctx, validate ctx reg' = validate ctx (registered BUILT_IN_RULES).
Proof.
  apply (registration_order BUILT_IN_RULES (reverse BUILT_IN_RULES)); [symmetry; apply reverse_Permutation|].
  exact built_in_registry.
Defined.

(** C23: a validation of a valid request by the eighteen built-in rules completes, and its result is exactly
    what the selected rules give: a rule fails, as [invalid_output], exactly when a finding or a verdict it
    builds is refused by its constructor, and then nothing of it is in the result; the others' findings,
    re-graded as asked, and verdicts all are. Only two rules can fail: the one on catalog components, whose
    findings join texts without a bound, and the one on verdicts, when what it says of a requirement in force
    that lists regions is longer than a text may be. *)
Theorem built_in_rules_answer `{ComponentCatalog} ctx reg :
  valid_request ctx → Registry_new BUILT_IN_RULES = Ok reg →
  ∃ res, validate ctx reg = Ok res ∧ answered ctx res ∧
    ∀ x, x ∈ vr_failures res →
      (x = invalid_output ComponentConstraints_meta ∧
         ∃ p, p ∈ ou_reports (component_output ctx) ∧ accepted ComponentConstraints_meta p = false) ∨
      (x = invalid_output Verdicts_meta ∧
         ∃ q, q ∈ requirements_in_force (given_requirements ctx) ∧ lists_regions (rc_constraint (req_content q)) = true ∧
           short (judge (topology ctx) q) = false).
Proof.
  intros Hq [_ ->]%Registry_new_ok. destruct (built_in_result ctx Hq) as (res & Hres & Ha). exists res.
  split; [done|]. split; [done|]. intros x (r & o & Hr & _ & Hf & ->)%(aw_failures _ _ Ha).
  destruct (misfits ctx (vq_ir _ Hq) (vq_policy _ Hq) (vq_schema _ Hq) (vq_requirements _ Hq) r o Hr Hf)
    as [[-> ->]|(-> & -> & Hex)]; [left|by right].
  split; [done|]. by apply unfit_report.
Qed.

Lemma built_in_rules_answer_witness :
  (∃ res, validate long_context (registered BUILT_IN_RULES) = Ok res ∧ answered long_context res ∧
    ∀ x, x ∈ vr_failures res →
      (x = invalid_output ComponentConstraints_meta ∧
         ∃ p, p ∈ ou_reports (component_output long_context) ∧ accepted ComponentConstraints_meta p = false) ∨
      (x = invalid_output Verdicts_meta ∧
         ∃ q, q ∈ requirements_in_force (given_requirements long_context) ∧ lists_regions (rc_constraint (req_content q)) = true ∧
           short (judge (topology long_context) q) = false)) ∧
  fits Verdicts_meta (verdict_output long_context) = false ∧ fits Verdicts_meta (verdict_output insecure_context) = true.
Proof.
  split; [apply (built_in_rules_answer long_context (registered BUILT_IN_RULES) long_request_valid built_in_registry)|].
  split; [exact long_misfits|exact insecure_fits].
Defined.

(** C15: a validation reports a blocking finding exactly when the architecture breaks the project's policy (a
    technology prohibited or not among those allowed, a region not allowed, an unencrypted connection where
    TLS is required, more components than allowed) or, when the request selects the rule on verdicts and what
    it says fits, a critical requirement in force (elements outside its regions, stores that provision or
    keep data otherwise than it says, an unencrypted connection). The policy part no request can switch off. *)
Theorem policy_judged `{ComponentCatalog} ctx reg :
  valid_request ctx → Registry_new BUILT_IN_RULES = Ok reg →
  ∃ res, validate ctx reg = Ok res ∧
    ((∀ f, f ∈ vr_findings res → f_blocking f = false) ↔
     (∀ p, vc_policy ctx = Some p → complies p (vc_ir ctx)) ∧ (judges_requirements ctx → critical_kept ctx)).
Proof.
  intros Hq [_ ->]%Registry_new_ok. destruct (built_in_result ctx Hq) as (res & Hres & Ha). exists res.
  split; [done|]. by apply blocking_iff.
Qed.

Lemma policy_judged_witness :
  (∃ res, validate sample_context (registered BUILT_IN_RULES) = Ok res ∧
    ((∀ f, f ∈ vr_findings res → f_blocking f = false) ↔
     (∀ p, vc_policy sample_context = Some p → complies p sample_system) ∧
     (judges_requirements sample_context → critical_kept sample_context))) ∧ ¬ complies sample_policy sample_system ∧
  (∃ res, validate insecure_context (registered BUILT_IN_RULES) = Ok res ∧
    ((∀ f, f ∈ vr_findings res → f_blocking f = false) ↔
     (∀ p, vc_policy insecure_context = Some p → complies p insecure_system) ∧
     (judges_requirements insecure_context → critical_kept insecure_context))) ∧
  judges_requirements insecure_context ∧ ¬ critical_kept insecure_context.
Proof.
  split; [apply (policy_judged sample_context (registered BUILT_IN_RULES) sample_request_valid built_in_registry)|].
  split; [|split; [apply (policy_judged insecure_context (registered BUILT_IN_RULES) insecure_request_valid built_in_registry)|]].
  - intros [Hp _ _ _ _]. apply (Hp (sample_service "billing" "oracle") {| t_name := "oracle"; t_version := None |}); [|done|]; left.
  - split; [exact (conj insecure_selected insecure_fits)|exact insecure_broken].
Defined.

(** C25: the rule on synchronous cycles reports one exactly when two different components wait on each
    other, through whatever number of synchronous requests. *)
Theorem cycles_reported `{ComponentCatalog} ctx reg :
  valid_request ctx → Registry_new BUILT_IN_RULES = Ok reg → selected (vc_config ctx) SynchronousCycles →
  ∃ res, validate ctx reg = Ok res ∧
    ((∃ f, f ∈ vr_findings res ∧ f_rule_id f = "structure.synchronous-cycle") ↔
     ∃ x y, x ≠ y ∧ rtc (waits_on ctx) x y ∧ rtc (waits_on ctx) y x).
Proof.
  intros Hq [_ ->]%Registry_new_ok Hsel. destruct (built_in_result ctx Hq) as (res & Hres & Ha). exists res.
  split; [done|]. rewrite <- call_cycles_spec. set (o := only_reports (cycle_report (request_calls ctx) <$> call_cycles (request_calls ctx))).
  assert ((SynchronousCycles, o) ∈ built_in_output ctx) as Hout.
  { apply output_cases. left. eexists. split; [reflexivity|]. do 2 right. left. }
  split.
  - intros (f & (r & o' & p & (Hr & _ & _) & Hp & ->)%(aw_findings _ _ Ha) & Hid) Hnil. cbn [regrade made f_rule_id] in Hid.
    assert (r = SynchronousCycles) as -> by
      (apply (NoDup_key_inj rule_id BUILT_IN_RULES); [apply built_in_ids|by eapply output_rule..|exact Hid]).
    rewrite (output_unique _ _ _ _ Hr Hout) in Hp. cbn [o only_reports ou_reports] in Hp. rewrite Hnil in Hp. by apply elem_of_nil in Hp.
  - destruct (call_cycles (request_calls ctx)) as [|g gs] eqn:E; [done|]. intros _.
    set (p := cycle_report (request_calls ctx) g). exists (regrade (override_of ctx SynchronousCycles) (made (meta SynchronousCycles) p)).
    split; [|done]. apply (aw_findings _ _ Ha). exists SynchronousCycles, o, p. split; [|split; [left|done]]. split_and!; [done..|].
    apply (plain_fits ctx (vq_ir _ Hq) (vq_policy _ Hq) (vq_schema _ Hq)). apply elem_of_app. left. do 2 right.
    rewrite <- E. left.
Qed.

Lemma cycles_reported_witness :
  (∃ res, validate sample_context (registered BUILT_IN_RULES) = Ok res ∧
    ((∃ f, f ∈ vr_findings res ∧ f_rule_id f = "structure.synchronous-cycle") ↔
     ∃ x y, x ≠ y ∧ rtc (waits_on sample_context) x y ∧ rtc (waits_on sample_context) y x)) ∧
  rtc (waits_on sample_context) "billing" "orders" ∧ rtc (waits_on sample_context) "orders" "billing".
Proof.
  split; [apply (cycles_reported sample_context (registered BUILT_IN_RULES) sample_request_valid built_in_registry)|].
  - apply (bool_decide_unpack _). by vm_compute.
  - split; apply rtc_once.
    + exists (sample_connection "confirm" "billing" "orders" REQUEST). split; [right; left|]. split_and!; try done. by right.
    + exists (sample_connection "charge" "orders" "billing" REQUEST). split; [left|]. split_and!; try done. by right.
Defined.
