(* ===== verification/Runs.v ===== *)
(** Validation runs: their lifecycle (src/core/domain/validation/runs.py), and how they and their findings
    are stored and read (src/persistence/repositories/validations.py).

    The state is that of the projects and architectures with two more tables.  What a column of JSON holds
    is the document that was written; a reader refuses with [TypeError] a value of a type no [to_dict]
    writes, where the code would keep it as it is. *)
From Stdlib Require Import ZArith.
From S2P Require Import Prelude Data Errors Computations Store Policy Identity JsonText Findings ValidationEngine.
From S2P Require Import Projects Revisions Estate.

(** * The lifecycle *)
Inductive RunStatus := RUN_PENDING | RUN_RUNNING | RUN_COMPLETED | RUN_FAILED.

#[export] Instance RunStatus_eq_dec : EqDecision RunStatus.
Proof. solve_decision. Defined.

#[export, refine] Instance RunStatus_enum : StrEnum RunStatus := {
  members := [RUN_PENDING; RUN_RUNNING; RUN_COMPLETED; RUN_FAILED];
  value s := match s with
             | RUN_PENDING => "pending" | RUN_RUNNING => "running"
             | RUN_COMPLETED => "completed" | RUN_FAILED => "failed"
             end }.
Proof. all: solve_enum. Defined.

Definition RUN_TRANSITIONS (s : RunStatus) : list RunStatus :=
  match s with
  | RUN_PENDING => [RUN_RUNNING; RUN_FAILED]
  | RUN_RUNNING => [RUN_COMPLETED; RUN_FAILED]
  | RUN_COMPLETED | RUN_FAILED => []
  end.

Definition InvalidRunTransition (from to : RunStatus) : exn :=
  DomainError "invalid_validation_run_transition"
    "The validation run cannot move to that status from its current status."
    [("from", JStr (value from)); ("to", JStr (value to))].

Definition ValidationRunNotFound : exn := DomainError "validation_run_not_found" "Validation run not found." [].

Record RunError := { re_code : string; re_message : string }.

Record ValidationRun := {
  vn_id : uuid;
  vn_project_id : uuid;
  vn_architecture_id : uuid;
  vn_revision_number : Z;
  vn_revision_content_hash : string;
  vn_profile : string;
  vn_status : RunStatus;
  vn_requested_by_user_id : option uuid;
  vn_requested_at : instant;
  vn_started_at : option instant;
  vn_completed_at : option instant;
  vn_result : option ValidationResult;
  vn_error : option RunError;
}.

(** [replace(run, status=..., ...)]. *)
Definition run_with (status : RunStatus) (started_at completed_at : option instant)
    (result : option ValidationResult) (error : option RunError) (run : ValidationRun) : ValidationRun := {|
  vn_id := vn_id run; vn_project_id := vn_project_id run; vn_architecture_id := vn_architecture_id run;
  vn_revision_number := vn_revision_number run; vn_revision_content_hash := vn_revision_content_hash run;
  vn_profile := vn_profile run; vn_status := status;
  vn_requested_by_user_id := vn_requested_by_user_id run; vn_requested_at := vn_requested_at run;
  vn_started_at := started_at; vn_completed_at := completed_at; vn_result := result; vn_error := error |}.

Definition run_move (run : ValidationRun) (to : RunStatus) : py unit :=
  if decide (to ∈ RUN_TRANSITIONS (vn_status run)) then Ok tt else Raise (InvalidRunTransition (vn_status run) to).

Definition run_start (run : ValidationRun) (at_ : instant) : py ValidationRun :=
  _ ← run_move run RUN_RUNNING;
  Ok (run_with RUN_RUNNING (Some at_) (vn_completed_at run) (vn_result run) (vn_error run) run).

Definition run_complete (run : ValidationRun) (result : ValidationResult) (at_ : instant) : py ValidationRun :=
  _ ← run_move run RUN_COMPLETED;
  Ok (run_with RUN_COMPLETED (vn_started_at run) (Some at_) (Some result) (vn_error run) run).

Definition run_fail (run : ValidationRun) (error : RunError) (at_ : instant) : py ValidationRun :=
  _ ← run_move run RUN_FAILED;
  Ok (run_with RUN_FAILED (vn_started_at run) (Some at_) (vn_result run) (Some error) run).

Definition run_summary (run : ValidationRun) : option Summary := result_summary <$> vn_result run.

(** * What a run was given, and its report *)
Record RunInputs := {
  in_config : dict string json;
  in_policy : option (dict string json);
  in_requirements : list (string * (Z * string));
  in_components : dict string string;
}.

Definition requirement_json (r : string * (Z * string)) : json := JArr [JStr r.1; JInt r.2.1; JStr r.2.2].

Definition RunInputs_to_dict (i : RunInputs) : dict string json := [
  ("config", JObj (in_config i));
  ("policy", if in_policy i is Some p then JObj p else JNull);
  ("requirements", JArr (requirement_json <$> in_requirements i));
  ("components", JObj ((λ p, (p.1, JStr p.2)) <$> sort_by (on fst str_leb) (in_components i)))].

Record RunReport := {
  rt_run : ValidationRun;
  rt_inputs : RunInputs;
  rt_rule_set : option RuleSet;
  rt_context_fingerprint : option string;
  rt_result_fingerprint : option string;
  rt_summary : option Summary;
  rt_requirement_results : list RequirementResult;
  rt_failures : list RuleFailure;
  rt_limitations : list Limitation;
}.

(** [replace(run, result=None)]. *)
Definition without_result (run : ValidationRun) : ValidationRun :=
  run_with (vn_status run) (vn_started_at run) (vn_completed_at run) None (vn_error run) run.

Definition RunReport_of (run : ValidationRun) (inputs : RunInputs) : RunReport :=
  match vn_result run with
  | None => {|
      rt_run := without_result run; rt_inputs := inputs; rt_rule_set := None; rt_context_fingerprint := None;
      rt_result_fingerprint := None; rt_summary := None; rt_requirement_results := []; rt_failures := [];
      rt_limitations := [] |}
  | Some result => {|
      rt_run := without_result run; rt_inputs := inputs; rt_rule_set := Some (vr_rule_set result);
      rt_context_fingerprint := Some (vr_context_fingerprint result);
      rt_result_fingerprint := Some (result_fingerprint result); rt_summary := Some (result_summary result);
      rt_requirement_results := vr_requirement_results result; rt_failures := vr_failures result;
      rt_limitations := vr_limitations result |}
  end.

(** * Reading what is stored *)
Definition kept_count (w : wide) : py nat :=
  z ← kept_int w; if (0 <=? z)%Z then Ok (Z.to_nat z) else Raise TypeError.

Definition kept_counts (w : wide) : py (dict string nat) :=
  match w with WObj m => py_map (λ p, n ← kept_count p.2; Ok (p.1, n)) m | _ => Raise TypeError end.

Definition read_summary (data : dict string wide) : py Summary :=
  total ← (item data "total" ≫= kept_count);
  by_severity ← (item data "by_severity" ≫= kept_counts);
  by_category ← (item data "by_category" ≫= kept_counts);
  blocking ← (item data "blocking" ≫= kept_count);
  requirements ← (item data "requirements" ≫= kept_counts);
  rule_failures ← (item data "rule_failures" ≫= kept_count);
  Ok {| su_total := total; su_by_severity := by_severity; su_by_category := by_category;
        su_blocking := blocking; su_requirements := requirements; su_rule_failures := rule_failures |}.

(** [(r[0], r[1])]. *)
Definition read_rule (w : wide) : py (string * Z) :=
  match w with
  | WArr (id :: version :: _) => i ← kept_text id; v ← kept_int version; Ok (i, v)
  | WArr _ => Raise LookupError
  | _ => Raise TypeError
  end.

Definition read_rule_set (data : dict string wide) : py RuleSet :=
  id ← (item data "id" ≫= kept_text);
  version ← (item data "version" ≫= kept_text);
  rules ← ((item data "rules" ≫= elements) ≫= py_map read_rule);
  Ok {| rs_id := id; rs_version := version; rs_rules := rules |}.

(** [(r[0], r[1], r[2])]. *)
Definition read_requirement (j : json) : py (string * (Z * string)) :=
  match j with
  | JArr (JStr id :: JInt version :: JStr status :: _) => Ok (id, (version, status))
  | JArr (_ :: _ :: _ :: _) => Raise TypeError
  | JArr _ => Raise LookupError
  | _ => Raise TypeError
  end.

Definition read_component (p : string * json) : py (string * string) :=
  match p.2 with JStr s => Ok (p.1, s) | _ => Raise TypeError end.

Definition read_inputs (data : dict string json) : py RunInputs :=
  config ← match default (JObj []) (dict_get "config" data) with JObj m => Ok m | _ => Raise TypeError end;
  policy ← match default JNull (dict_get "policy" data) with
           | JObj m => Ok (Some m) | JNull => Ok None | _ => Raise TypeError
           end;
  requirements ← match default (JArr []) (dict_get "requirements" data) with
                 | JArr l => py_map read_requirement l | _ => Raise TypeError
                 end;
  components ← match default (JObj []) (dict_get "components" data) with
               | JObj m => py_map read_component m | _ => Raise TypeError
               end;
  Ok {| in_config := config; in_policy := policy; in_requirements := requirements; in_components := components |}.

(** [f(x) if x is not None else None]. *)
Definition if_given {A B} (f : A → py B) (o : option A) : py (option B) :=
  match o with Some a => b ← f a; Ok (Some b) | None => Ok None end.

(** * The tables *)
Record RunRow := {
  vw_id : uuid;
  vw_project_id : uuid;
  vw_architecture_id : uuid;
  vw_revision_number : Z;
  vw_revision_content_hash : string;
  vw_profile : string;
  vw_status : string;
  vw_requested_by_user_id : option uuid;
  vw_requested_at : instant;
  vw_started_at : option instant;
  vw_completed_at : option instant;
  vw_rule_set : option (dict string wide);
  vw_context_fingerprint : option string;
  vw_result_fingerprint : option string;
  vw_summary : option (dict string wide);
  vw_requirement_results : list (dict string wide);
  vw_failures : list (dict string wide);
  vw_limitations : list (dict string wide);
  vw_inputs : dict string json;
  vw_error_code : option string;
  vw_error_message : option string;
}.

Record FindingRow := {
  vf_id : uuid;
  vf_run_id : uuid;
  vf_project_id : uuid;
  vf_position : Z;
  vf_finding_id : string;
  vf_rule_id : string;
  vf_severity : string;
  vf_category : string;
  vf_blocking : bool;
  vf_entity_ids : list points;
  vf_data : dict string wide;
}.

Record records := {
  estate_of : estate;
  runs : gmap uuid RunRow;
  run_findings : gmap uuid FindingRow;
}.

Definition set_estate (e : estate) (s : records) : records := {|
  estate_of := e; runs := runs s; run_findings := run_findings s |}.
Definition set_runs (f : gmap uuid RunRow → gmap uuid RunRow) (s : records) : records := {|
  estate_of := estate_of s; runs := f (runs s); run_findings := run_findings s |}.
Definition set_run_findings (f : gmap uuid FindingRow → gmap uuid FindingRow) (s : records) : records := {|
  estate_of := estate_of s; runs := runs s; run_findings := f (run_findings s) |}.

(** An operation on the projects and architectures, as part of one on the runs. *)
Definition on_estate {A} (m : st estate A) : st records A := λ s,
  let '(r, e) := m (estate_of s) in (r, set_estate e s).

(** * The repository *)
Definition read_error (code message : option string) : option RunError :=
  c ← code; if String.eqb c "" then None else Some {| re_code := c; re_message := default "" message |}.

Definition to_report (r : RunRow) : py RunReport :=
  status ← match enum_of (vw_status r) with Some s => Ok s | None => Raise (ValueError "not a member") end;
  inputs ← read_inputs (vw_inputs r);
  rule_set ← if_given read_rule_set (vw_rule_set r);
  summary ← if_given read_summary (vw_summary r);
  requirement_results ← py_map RequirementResult_from_dict (vw_requirement_results r);
  failures ← py_map RuleFailure_from_dict (vw_failures r);
  limitations ← py_map Limitation_from_dict (vw_limitations r);
  Ok {| rt_run := {|
          vn_id := vw_id r; vn_project_id := vw_project_id r; vn_architecture_id := vw_architecture_id r;
          vn_revision_number := vw_revision_number r; vn_revision_content_hash := vw_revision_content_hash r;
          vn_profile := vw_profile r; vn_status := status; vn_requested_by_user_id := vw_requested_by_user_id r;
          vn_requested_at := vw_requested_at r; vn_started_at := vw_started_at r;
          vn_completed_at := vw_completed_at r; vn_result := None;
          vn_error := read_error (vw_error_code r) (vw_error_message r) |};
        rt_inputs := inputs; rt_rule_set := rule_set; rt_context_fingerprint := vw_context_fingerprint r;
        rt_result_fingerprint := vw_result_fingerprint r; rt_summary := summary;
        rt_requirement_results := requirement_results; rt_failures := failures; rt_limitations := limitations |}.

Definition run_record (run : ValidationRun) (inputs : RunInputs) : RunRow :=
  let report := RunReport_of run inputs in {|
  vw_id := vn_id run; vw_project_id := vn_project_id run; vw_architecture_id := vn_architecture_id run;
  vw_revision_number := vn_revision_number run; vw_revision_content_hash := vn_revision_content_hash run;
  vw_profile := vn_profile run; vw_status := value (vn_status run);
  vw_requested_by_user_id := vn_requested_by_user_id run; vw_requested_at := vn_requested_at run;
  vw_started_at := vn_started_at run; vw_completed_at := vn_completed_at run;
  vw_rule_set := RuleSet_to_dict <$> rt_rule_set report;
  vw_context_fingerprint := rt_context_fingerprint report;
  vw_result_fingerprint := rt_result_fingerprint report;
  vw_summary := Summary_to_dict <$> rt_summary report;
  vw_requirement_results := RequirementResult_to_dict <$> rt_requirement_results report;
  vw_failures := RuleFailure_to_dict <$> rt_failures report;
  vw_limitations := Limitation_to_dict <$> rt_limitations report;
  vw_inputs := RunInputs_to_dict inputs;
  vw_error_code := re_code <$> vn_error run; vw_error_message := re_message <$> vn_error run |}.

Definition finding_row (run : ValidationRun) (id : uuid) (position : nat) (f : Finding) : FindingRow := {|
  vf_id := id; vf_run_id := vn_id run; vf_project_id := vn_project_id run;
  vf_position := Z.of_nat position; vf_finding_id := finding_id f; vf_rule_id := f_rule_id f;
  vf_severity := value (f_severity f); vf_category := value (f_category f); vf_blocking := f_blocking f;
  vf_entity_ids := f_entity_ids f; vf_data := Finding_to_dict f |}.

(** The tables' unique constraints on the runs' findings. *)
Definition same_position (row r : FindingRow) : bool :=
  String.eqb (vf_run_id r) (vf_run_id row) && (vf_position r =? vf_position row)%Z.
Definition same_finding (row r : FindingRow) : bool :=
  String.eqb (vf_run_id r) (vf_run_id row) && String.eqb (vf_finding_id r) (vf_finding_id row).

Definition insert_finding (row : FindingRow) : st records unit :=
  table ← query run_findings;
  _ ← raise_when (existsb (same_position row) (rows table)) (IntegrityError "run_id, position");
  _ ← raise_when (existsb (same_finding row) (rows table)) (IntegrityError "run_id, finding_id");
  insert_row (vf_id row) row run_findings set_run_findings.

(** The findings of a run: none without a result. *)
Definition findings_of (run : ValidationRun) : list Finding :=
  if vn_result run is Some result then vr_findings result else [].

(** [row_id n]: the [uuid.uuid7()] drawn for the [n]-th finding. *)
Definition validations_add (row_id : nat → uuid) (run : ValidationRun) (inputs : RunInputs) : st records RunReport :=
  _ ← insert_row (vn_id run) (run_record run inputs) runs set_runs;
  _ ← each insert_finding (imap (λ position f, finding_row run (row_id position) position f) (findings_of run));
  mret (RunReport_of run inputs).

Definition validations_get (project_id architecture_id run_id : uuid) : st records (option RunReport) :=
  found ← query (λ s, r ← runs s !! run_id;
    if bool_decide (vw_project_id r = project_id) && bool_decide (vw_architecture_id r = architecture_id)
    then Some r else None);
  lift (if_given to_report found).

(** ** Listings (queries.py) *)
Record RunQuery := { rq_revision : option Z; rq_after : option (instant * uuid); rq_limit : nat }.

Record FindingQuery := {
  fq_severity : option Severity;
  fq_category : option Category;
  fq_blocking : option bool;
  fq_rule_id : option string;
  fq_entity_id : option points;
  fq_after : option Z;
  fq_limit : Z;
}.

(** [condition(x)] if the query gives [x]. *)
Definition if_asked {A} (o : option A) (condition : A → bool) : bool := if o is Some a then condition a else true.

(** The newest first, then the greatest id. *)
Definition newer_run (a b : RunRow) : bool :=
  lex Z_leb str_leb (vw_requested_at b, vw_id b) (vw_requested_at a, vw_id a).

Definition listed_run (project_id architecture_id : uuid) (q : RunQuery) (r : RunRow) : bool :=
  bool_decide (vw_project_id r = project_id) && bool_decide (vw_architecture_id r = architecture_id)
  && if_asked (rq_revision q) (λ n, vw_revision_number r =? n)%Z
  && if_asked (rq_after q) (λ c, (vw_requested_at r <? c.1)%Z
       || ((vw_requested_at r =? c.1)%Z && String.ltb (vw_id r) c.2)).

Definition validations_list_for_architecture (project_id architecture_id : uuid) (q : RunQuery) :
    st records (list RunReport) :=
  found ← query (λ s, take (rq_limit q) (sort_by newer_run (where_ (listed_run project_id architecture_id q) (runs s))));
  lift (py_map to_report found).

Definition first_position (a b : FindingRow) : bool := (vf_position a <=? vf_position b)%Z.

Definition listed_finding (project_id run_id : uuid) (q : FindingQuery) (r : FindingRow) : bool :=
  bool_decide (vf_run_id r = run_id) && bool_decide (vf_project_id r = project_id)
  && if_asked (fq_severity q) (λ s, String.eqb (vf_severity r) (value s))
  && if_asked (fq_category q) (λ c, String.eqb (vf_category r) (value c))
  && if_asked (fq_blocking q) (λ b, Bool.eqb (vf_blocking r) b)
  && if_asked (fq_rule_id q) (λ i, String.eqb (vf_rule_id r) i)
  && if_asked (fq_entity_id q) (λ i, bool_decide (i ∈ vf_entity_ids r))
  && if_asked (fq_after q) (λ n, (n <? vf_position r)%Z).

Definition validations_list_findings (project_id run_id : uuid) (q : FindingQuery) : st records (list (Z * Finding)) :=
  found ← query (λ s, take (Z.to_nat (fq_limit q))
    (sort_by first_position (where_ (listed_finding project_id run_id q) (run_findings s))));
  lift (py_map (λ r, f ← Finding_from_dict (vf_data r); Ok (vf_position r, f)) found).
