(* ===== verification/ValidationService.v ===== *)
(** Validation use cases (src/core/domain/validation/validation_service.py): validate a revision and store
    the run, read runs, page through findings.

    The engine is a port: any function of what the code gives it.  Cursors are the positions they encode. *)
From Stdlib Require Import ZArith.
From S2P Require Import Prelude Data Errors Computations Store Policy Identity JsonText Model Requirements Findings ValidationEngine.
From S2P Require Import Projects Revisions Estate ArchitectureService Runs.

Definition MAX_CONTEXT_REQUIREMENTS : nat := Z.to_nat 5000.
Definition MAX_FINDINGS_PAGE : Z := 500.
Definition ENGINE_ERROR : RunError :=
  {| re_code := "engine_error"; re_message := "The validation engine could not complete this run." |}.
Definition TOO_MANY_REQUIREMENTS : RunError := {|
  re_code := "too_many_requirements";
  re_message := "The project has more than 5000 requirements; too many to validate against." |}.

(** ** Requirements (src/persistence/repositories/requirements.py) *)
(** [E(record.field)]. *)
Definition stored_enum {E} `{StrEnum E} (s : string) : py E :=
  match enum_of s with Some e => Ok e | None => Raise (ValueError "not a member") end.

(** [_content]: a stored state is loaded as it is. *)
Definition to_content (r : RequirementRow) : py RequirementContent :=
  type ← stored_enum (qr_type r);
  priority ← stored_enum (qr_priority r);
  status ← stored_enum (qr_status r);
  constraint ← parse_structured_data (qr_structured_data r);
  scope ← stored_enum (qr_scope r);
  Ok {| rc_type := type; rc_category := qr_category r; rc_title := qr_title r; rc_statement := qr_statement r;
        rc_priority := priority; rc_status := status; rc_constraint := constraint; rc_scope := scope |}.

Definition to_requirement (r : RequirementRow) : py Requirement :=
  content ← to_content r;
  Ok {| req_id := qr_id r; req_project_id := qr_project_id r; req_number := qr_number r;
        req_version := qr_current_version r; req_content := content |}.

(** By their number. *)
Definition requirements_list_by_status (project_id : uuid) (statuses : list RequirementStatus) (limit : nat) :
    st estate (list Requirement) :=
  found ← query (λ e, take limit (sort_by (on qr_number Z_leb) (where_ (λ r,
    bool_decide (qr_project_id r = project_id) && live_at (qr_deleted_at r)
    && bool_decide (qr_status r ∈ (value <$> statuses))) (requirements e))));
  lift (py_map to_requirement found).

(** ** The engine, as the service sees it (ports.py) *)
Definition validator : Type :=
  ArchitectureIR → RevisionInfo → list Requirement → option ArchitecturePolicy → ValidationConfig →
  py ValidationResult.

(** The exceptions of the class [DomainError]. *)
Definition is_domain_error (e : exn) : bool :=
  match e with DomainError _ _ _ | InvalidArchitecture _ => true | _ => false end.

Section service.
Context (engine : validator).

(** [_run]: what the engine refuses is raised, what it cannot do is a failed run. *)
Definition engine_run (run : ValidationRun) (ir : ArchitectureIR) (revision : RevisionInfo)
    (requirements : list Requirement) (policy : ArchitecturePolicy) (config : ValidationConfig)
    (at_ : instant) : py ValidationRun :=
  match engine ir revision requirements (if policy_is_empty policy then None else Some policy) config with
  | Ok result => run_complete run result at_
  | Raise e => if is_domain_error e then Raise e else run_fail run ENGINE_ERROR at_
  end.

Definition revision_info (revision : ArchitectureRevision) (architecture : Architecture) : RevisionInfo := {|
  ri_architecture_id := ar_id architecture; ri_number := rv_number revision;
  ri_content_hash := rv_content_hash revision; ri_schema_version := rv_ir_schema_version revision |}.

(** The run as it is asked for. *)
Definition requested_run (id project_id user_id : uuid) (architecture : Architecture)
    (revision : ArchitectureRevision) (config : ValidationConfig) (now : instant) : ValidationRun := {|
  vn_id := id; vn_project_id := project_id; vn_architecture_id := ar_id architecture;
  vn_revision_number := rv_number revision; vn_revision_content_hash := rv_content_hash revision;
  vn_profile := cf_profile config; vn_status := RUN_PENDING; vn_requested_by_user_id := Some user_id;
  vn_requested_at := now; vn_started_at := None; vn_completed_at := None; vn_result := None; vn_error := None |}.

(** The requirements come ordered by their number, so the code's [sorted] leaves them as they are. *)
Definition given_inputs (config : ValidationConfig) (policy : ArchitecturePolicy)
    (requirements : list Requirement) : RunInputs := {|
  in_config := ValidationConfig_to_dict config;
  in_policy := if policy_is_empty policy then None else Some (ArchitecturePolicy_to_dict policy);
  in_requirements := requirement_row <$> take MAX_CONTEXT_REQUIREMENTS requirements;
  in_components := [] |}.

(** The components a result was made with, if any. *)
Definition with_components (run : ValidationRun) (inputs : RunInputs) : RunInputs :=
  match vn_result run with
  | Some {| vr_components := (_ :: _) as components |} => {|
      in_config := in_config inputs; in_policy := in_policy inputs; in_requirements := in_requirements inputs;
      in_components := components |}
  | _ => inputs
  end.

Definition run_facts (report : RunReport) : dict string json :=
  let run := rt_run report in
  [("project_id", JStr (vn_project_id run)); ("run_id", JStr (vn_id run));
   ("revision", JInt (vn_revision_number run)); ("profile", JStr (vn_profile run));
   ("status", JStr (value (vn_status run)))]
  ++ match rt_summary report with
     | Some s => [("findings", JInt (Z.of_nat (su_total s))); ("blocking", JInt (Z.of_nat (su_blocking s)));
                  ("rule_failures", JInt (Z.of_nat (su_rule_failures s)))]
     | None => []
     end
  ++ match vn_error run with Some e => [("error", JStr (re_code e))] | None => [] end.

(** [d]: the id of the run and the time it is asked for; [finished_at]: the time it ends. *)
Definition validation_validate (d : draws) (finished_at : instant) (row_id : nat → uuid)
    (project_id architecture_id user_id : uuid) (config : ValidationConfig) (revision_number : option Z) :
    st records RunReport :=
  unit_of_work (
    access ← on_estate (project_access project_id user_id ARCHITECTURE_VALIDATE (Some SHARE));
    architecture ← on_estate (get_architecture project_id architecture_id);
    _ ← lift (Architecture_ensure_modifiable architecture);
    let number := default (ar_current_revision architecture) revision_number in
    revision ← on_estate (get_revision architecture number);
    requirements ← on_estate (requirements_list_by_status project_id members (S MAX_CONTEXT_REQUIREMENTS));
    let policy := pj_policy access.1 in
    run ← lift (run_start (requested_run (new_id d) project_id user_id architecture revision config (now d)) (now d));
    let inputs := given_inputs config policy requirements in
    finished ← lift (
      if MAX_CONTEXT_REQUIREMENTS <? length requirements then run_fail run TOO_MANY_REQUIREMENTS finished_at
      else engine_run run (rv_ir revision) (revision_info revision architecture) requirements policy config finished_at);
    report ← validations_add row_id finished (with_components finished inputs);
    _ ← on_estate (on_accounts (record (organization_event Store.ARCHITECTURE_VALIDATED user_id
          (pj_organization_id access.1) "architecture" (ar_id architecture) (run_facts report))));
    mret report).
End service.

(** * Reading *)
Definition run_position (r : RunReport) : instant * uuid := (vn_requested_at (rt_run r), vn_id (rt_run r)).

Definition validation_list_runs (project_id architecture_id user_id : uuid) (revision : option Z)
    (after : option (instant * uuid)) (limit : Z) : st records (Page RunReport (instant * uuid)) :=
  let size := page_size limit in
  found ← unit_of_work (
    _ ← on_estate (project_access project_id user_id ARCHITECTURE_READ None);
    architecture ← on_estate (get_architecture project_id architecture_id);
    validations_list_for_architecture project_id (ar_id architecture)
      {| rq_revision := revision; rq_after := after; rq_limit := S size |});
  mret (page_of size run_position found).

(** [_run_of]: a deleted architecture hides its runs. *)
Definition run_of (project_id architecture_id run_id : uuid) : st records RunReport :=
  _ ← on_estate (get_architecture project_id architecture_id);
  found ← validations_get project_id architecture_id run_id;
  if found is Some report then mret report else raise ValidationRunNotFound.

Definition validation_get_run (project_id architecture_id run_id user_id : uuid) : st records RunReport :=
  unit_of_work (
    _ ← on_estate (project_access project_id user_id ARCHITECTURE_READ None);
    run_of project_id architecture_id run_id).

Definition findings_page_size (limit : Z) : nat := Z.to_nat (Z.max 1 (Z.min limit MAX_FINDINGS_PAGE)).

(** The query from a position on, one row more than a page. *)
Definition from_finding (q : FindingQuery) (after : option Z) (size : nat) : FindingQuery := {|
  fq_severity := fq_severity q; fq_category := fq_category q; fq_blocking := fq_blocking q;
  fq_rule_id := fq_rule_id q; fq_entity_id := fq_entity_id q; fq_after := after; fq_limit := Z.of_nat (S size) |}.

Definition validation_list_findings (project_id architecture_id run_id user_id : uuid) (q : FindingQuery)
    (after : option Z) : st records (Page Finding Z) :=
  let size := findings_page_size (fq_limit q) in
  found ← unit_of_work (
    _ ← on_estate (project_access project_id user_id ARCHITECTURE_READ None);
    report ← run_of project_id architecture_id run_id;
    validations_list_findings project_id (vn_id (rt_run report)) (from_finding q after size));
  let page := page_of size fst found in
  mret {| items := snd <$> items page; next_cursor := next_cursor page |}.
