(* ===== verification/RunProperties.v ===== *)
(** What the validation service guarantees of the runs it stores: every one is finished, names a revision as
    it is stored, reads back, and never changes. *)
From Stdlib Require Import Lia ZArith.
From S2P Require Import Prelude Data Errors Model Serialization Computations Store Transactions Policy Identity Accounts Invariants.
From S2P Require Import JsonText Requirements Findings ValidationEngine ValidationFacts Projects Revisions Estate ArchitectureService Workspaces EstateInvariants EstateProperties ContentProperties.
From S2P Require Import Runs ValidationService.

(** * Findings and verdicts *)
Lemma enum_read_value {E} `{StrEnum E} (e : E) : enum_read (WText (value e)) = Ok e.
Proof. unfold enum_read, as_narrow, WText. cbn [as_text mbind option_bind]. rewrite narrow_points. cbn [mbind option_bind]. by rewrite enum_of_value. Qed.

Lemma py_map_read {A B} (f : A → B) (g : B → py A) l : (∀ a, a ∈ l → g (f a) = Ok a) → py_map g (f <$> l) = Ok l.
Proof.
  intros Hg. apply py_map_ok, Forall2_fmap_l, Forall_Forall2_diag, Forall_forall. exact Hg.
Qed.

Lemma read_evidences l : py_map read_evidence (Evidence_to_dict <$> l) = Ok (evidence_args <$> l).
Proof. apply py_map_ok. apply Forall2_fmap, Forall_Forall2_diag, Forall_true. by intros []. Qed.

Lemma finding_read f : built Finding_new Finding_args f → Finding_from_dict (Finding_to_dict f) = Ok f.
Proof.
  intros Hf.
  assert (Finding_reading (Finding_to_dict f) = Ok f) as Hr.
  { unfold Finding_reading.
    change (item (Finding_to_dict f) "rule_id") with (Ok (WText (f_rule_id f))).
    change (item (Finding_to_dict f) "rule_version") with (Ok (WInt (f_rule_version f))).
    change (item (Finding_to_dict f) "code") with (Ok (WText (f_code f))).
    change (item (Finding_to_dict f) "severity") with (Ok (WText (value (f_severity f)))).
    change (item (Finding_to_dict f) "category") with (Ok (WText (value (f_category f)))).
    change (item (Finding_to_dict f) "title") with (Ok (WStr (f_title f))).
    change (item (Finding_to_dict f) "explanation") with (Ok (WStr (f_explanation f))).
    change (item (Finding_to_dict f) "remediation") with (Ok (WStr (f_remediation f))).
    cbn [mbind py_bind]. rewrite !enum_read_value. cbn [mbind py_bind].
    change (elements (optional (Finding_to_dict f) "entity_ids" (WArr []))) with (Ok (WStr <$> f_entity_ids f)).
    change (elements (optional (Finding_to_dict f) "field_paths" (WArr []))) with (Ok (WStr <$> f_field_paths f)).
    change (elements (optional (Finding_to_dict f) "evidence" (WArr []))) with (Ok (Evidence_to_dict <$> f_evidence f)).
    cbn [mbind py_bind]. rewrite read_evidences. exact Hf. }
  unfold Finding_from_dict. rewrite Hr. cbn [malformed mbind py_bind].
  change (dict_get "id" (Finding_to_dict f)) with (Some (WText (finding_id f))). unfold WText. by rewrite decide_True.
Qed.

(** A verdict its constructor made. *)
Definition verdict_ok (r : RequirementResult) : Prop := RequirementResult_new (RequirementResult_args r) = Ok r.

Lemma requirement_result_read r :
  verdict_ok r →
  RequirementResult_from_dict (RequirementResult_to_dict r) = Ok r.
Proof.
  intros Hr. unfold RequirementResult_from_dict.
  change (item (RequirementResult_to_dict r) "requirement_id") with (Ok (WStr (rr_requirement_id r))).
  change (item (RequirementResult_to_dict r) "reference") with (Ok (WStr (rr_reference r))).
  change (item (RequirementResult_to_dict r) "requirement_version") with (Ok (WInt (rr_requirement_version r))).
  change (item (RequirementResult_to_dict r) "verdict") with (Ok (WText (value (rr_verdict r)))).
  change (item (RequirementResult_to_dict r) "reason") with (Ok (WStr (Findings.rr_reason r))).
  change (item (RequirementResult_to_dict r) "rule_id") with (Ok (WText (rr_rule_id r))).
  cbn [mbind py_bind]. rewrite enum_read_value. cbn [mbind py_bind].
  change (elements (optional (RequirementResult_to_dict r) "entity_ids" (WArr []))) with (Ok (WStr <$> rr_entity_ids r)).
  change (elements (optional (RequirementResult_to_dict r) "evidence" (WArr []))) with (Ok (Evidence_to_dict <$> rr_evidence r)).
  cbn [mbind py_bind]. rewrite read_evidences. cbn [mbind py_bind]. unfold verdict_ok, RequirementResult_args in Hr. by rewrite Hr.
Qed.

Lemma kept_text_text s : kept_text (WText s) = Ok s.
Proof. unfold kept_text, as_narrow, WText. cbn [as_text mbind option_bind]. by rewrite narrow_points. Qed.

Lemma failure_read f : RuleFailure_from_dict (RuleFailure_to_dict f) = Ok f.
Proof.
  unfold RuleFailure_from_dict.
  change (item (RuleFailure_to_dict f) "rule_id") with (Ok (WText (rf_rule_id f))).
  change (item (RuleFailure_to_dict f) "rule_version") with (Ok (WInt (rf_rule_version f))).
  change (item (RuleFailure_to_dict f) "error") with (Ok (WText (rf_error f))).
  change (item (RuleFailure_to_dict f) "message") with (Ok (WText (rf_message f))).
  cbn [mbind py_bind]. rewrite !kept_text_text. by destruct f.
Qed.

Definition limitation_ok (l : Limitation) : Prop := Limitation_new (li_code l) (li_message l) = Ok l.

Lemma limitation_read l : limitation_ok l → Limitation_from_dict (Limitation_to_dict l) = Ok l.
Proof.
  intros Hl. unfold Limitation_from_dict.
  change (item (Limitation_to_dict l) "code") with (Ok (WText (li_code l))).
  change (item (Limitation_to_dict l) "message") with (Ok (WText (li_message l))).
  cbn [mbind py_bind]. rewrite !kept_text_text. cbn [mbind py_bind]. by rewrite Hl.
Qed.

(** * The rule set, the summary, the inputs *)
Lemma rule_set_read r : read_rule_set (RuleSet_to_dict r) = Ok r.
Proof.
  destruct r as [id version rules]. unfold read_rule_set.
  change (item (RuleSet_to_dict _) "id") with (Ok (WText id)).
  change (item (RuleSet_to_dict _) "version") with (Ok (WText version)).
  change (item (RuleSet_to_dict _) "rules") with (Ok (WArr (rule_wide <$> rules))).
  cbn [mbind py_bind elements]. rewrite !kept_text_text. cbn [mbind py_bind].
  rewrite (py_map_read rule_wide read_rule); [done|]. intros [i v] _. cbn. by rewrite kept_text_text.
Qed.

Lemma count_read n : kept_count (WInt (Z.of_nat n)) = Ok n.
Proof. unfold kept_count. cbn. rewrite (proj2 (Z.leb_le _ _)) by lia. by rewrite Nat2Z.id. Qed.

Lemma counts_read d : kept_counts (counts_wide d) = Ok d.
Proof.
  unfold counts_wide, kept_counts. apply (py_map_read (λ p : string * nat, (p.1, WInt (Z.of_nat p.2)))).
  intros [k n] _. cbn [fst snd]. by rewrite count_read.
Qed.

Lemma summary_read s : read_summary (Summary_to_dict s) = Ok s.
Proof.
  destruct s as [total severities categories blocking verdicts failures]. unfold read_summary.
  change (item (Summary_to_dict _) "total") with (Ok (WInt (Z.of_nat total))).
  change (item (Summary_to_dict _) "by_severity") with (Ok (counts_wide severities)).
  change (item (Summary_to_dict _) "by_category") with (Ok (counts_wide categories)).
  change (item (Summary_to_dict _) "blocking") with (Ok (WInt (Z.of_nat blocking))).
  change (item (Summary_to_dict _) "requirements") with (Ok (counts_wide verdicts)).
  change (item (Summary_to_dict _) "rule_failures") with (Ok (WInt (Z.of_nat failures))).
  cbn [mbind py_bind]. rewrite !count_read, !counts_read. done.
Qed.

Definition inputs_ok (i : RunInputs) : Prop := sort_by (on fst str_leb) (in_components i) = in_components i.

Lemma inputs_read i : inputs_ok i → read_inputs (RunInputs_to_dict i) = Ok i.
Proof.
  destruct i as [config policy requirements components]. unfold inputs_ok. cbn [in_components]. intros Hs.
  unfold read_inputs.
  change (dict_get "config" (RunInputs_to_dict _)) with (Some (JObj config)).
  change (dict_get "policy" (RunInputs_to_dict _)) with (Some (if policy is Some p then JObj p else JNull)).
  change (dict_get "requirements" (RunInputs_to_dict _)) with (Some (JArr (requirement_json <$> requirements))).
  change (dict_get "components" (RunInputs_to_dict _)) with
    (Some (JObj ((λ p : string * string, (p.1, JStr p.2)) <$> sort_by (on fst str_leb) components))).
  rewrite Hs. cbn [default from_option id mbind py_bind].
  rewrite (py_map_read requirement_json read_requirement) by by intros [? []] _.
  rewrite (py_map_read (λ p : string * string, (p.1, JStr p.2)) read_component) by by intros [].
  by destruct policy.
Qed.

(** * The report *)

(** A result as its constructors made it. *)
Record result_ok (r : ValidationResult) : Prop := {
  ro_canonical : ValidationResult_new r = r;
  ro_findings : Forall (built Finding_new Finding_args) (vr_findings r);
  ro_verdicts : Forall verdict_ok (vr_requirement_results r);
  ro_limitations : Forall limitation_ok (vr_limitations r);
}.

(** A run as the service stores it: finished, with a result or an error. *)
Record finished (run : ValidationRun) : Prop := {
  fi_status : vn_status run = RUN_COMPLETED ∧ is_Some (vn_result run) ∧ vn_error run = None ∨
              vn_status run = RUN_FAILED ∧ vn_result run = None ∧
                ∃ e, vn_error run = Some e ∧ re_code e ≠ "";
  fi_times : is_Some (vn_started_at run) ∧ is_Some (vn_completed_at run);
  fi_result : ∀ r, vn_result run = Some r → result_ok r;
}.

Lemma if_given_read {A B} (f : A → B) (g : B → py A) o : (∀ a, g (f a) = Ok a) → if_given g (f <$> o) = Ok o.
Proof. intros Hg. destruct o as [a|]; [|done]. cbn. by rewrite Hg. Qed.

Lemma error_read e : (∀ x, e = Some x → re_code x ≠ "") → read_error (re_code <$> e) (re_message <$> e) = e.
Proof.
  destruct e as [[code message]|]; [|done]. intros He. cbn. specialize (He _ eq_refl). cbn in He.
  by destruct (String.eqb_spec code "").
Qed.

Lemma report_read run inputs :
  finished run → inputs_ok inputs → to_report (run_record run inputs) = Ok (RunReport_of run inputs).
Proof.
  intros [Hs _ Hr] Hi. unfold to_report.
  cbn [run_record vw_status vw_inputs vw_rule_set vw_summary vw_requirement_results vw_failures vw_limitations].
  rewrite enum_of_value. cbn [mbind py_bind]. rewrite inputs_read by done. cbn [mbind py_bind].
  rewrite (if_given_read _ _ _ rule_set_read), (if_given_read _ _ _ summary_read). cbn [mbind py_bind].
  assert (∀ r, vn_result run = Some r → result_ok r) as Hok by done.
  rewrite (py_map_read RequirementResult_to_dict), (py_map_read RuleFailure_to_dict), (py_map_read Limitation_to_dict).
  - cbn [mbind py_bind].
    change (read_error _ _) with (read_error (re_code <$> vn_error run) (re_message <$> vn_error run)).
    rewrite error_read.
    + by destruct run as [? ? ? ? ? ? ? ? ? ? ? [r|] ?].
    + intros x Hx. destruct Hs as [(_ & _ & He)|(_ & _ & e & He & Hc)]; congruence.
  - unfold RunReport_of. destruct (vn_result run) as [r|]; [|by intros a Ha%elem_of_nil].
    intros l Hl. apply limitation_read. pose proof (ro_limitations _ (Hok r eq_refl)) as Ha. rewrite Forall_forall in Ha. by apply Ha.
  - intros f _. apply failure_read.
  - unfold RunReport_of. destruct (vn_result run) as [r|]; [|by intros a Ha%elem_of_nil].
    intros v Hv. apply requirement_result_read. pose proof (ro_verdicts _ (Hok r eq_refl)) as Ha. rewrite Forall_forall in Ha. by apply Ha.
Qed.

(** * What is stored of a run *)
Definition stored (s : records) (run : ValidationRun) (inputs : RunInputs) : Prop :=
  runs s !! vn_id run = Some (run_record run inputs) ∧
  (∀ i row, run_findings s !! i = Some row → vf_run_id row = vn_id run →
     ∃ n f, findings_of run !! n = Some f ∧ row = finding_row run i n f) ∧
  (∀ n f, findings_of run !! n = Some f → ∃ i, run_findings s !! i = Some (finding_row run i n f)).

(** The run names a revision of an architecture of its project, as it is stored. *)
Definition about (e : estate) (run : ValidationRun) : Prop :=
  ∃ a row, architectures e !! vn_architecture_id run = Some a ∧ ar_project_id a = vn_project_id run ∧
    revision_at e (vn_architecture_id run) (vn_revision_number run) row ∧
    rr_content_hash row = vn_revision_content_hash run.

Definition unique_positions (s : records) : Prop :=
  ∀ i j a b, run_findings s !! i = Some a → run_findings s !! j = Some b →
    vf_run_id a = vf_run_id b → vf_position a = vf_position b → i = j.

Record records_ok (s : records) : Prop := {
  rk_estate : estate_ok (estate_of s);
  rk_runs : ∀ id r, runs s !! id = Some r → ∃ run inputs,
    vn_id run = id ∧ stored s run inputs ∧ finished run ∧ inputs_ok inputs ∧ about (estate_of s) run;
  rk_findings : ∀ i row, run_findings s !! i = Some row → vf_id row = i ∧ is_Some (runs s !! vf_run_id row);
  rk_positions : unique_positions s;
}.

(** * Elementary operations *)
Lemma on_estate_ok {A} (m : st estate A) s a s' :
  on_estate m s = (Ok a, s') ↔ ∃ e, m (estate_of s) = (Ok a, e) ∧ s' = set_estate e s.
Proof.
  unfold on_estate. destruct (m (estate_of s)) as [r e]. split.
  - intros [= -> <-]. by exists e.
  - intros (e' & [= -> ->] & ->). done.
Qed.

Lemma estate_same s : set_estate (estate_of s) s = s.
Proof. by destruct s. Qed.

(** A read of the estate leaves everything. *)
Lemma on_estate_read {A} (m : st estate A) s a : m (estate_of s) = (Ok a, estate_of s) → on_estate m s = (Ok a, s).
Proof. intros Hm. apply on_estate_ok. exists (estate_of s). by rewrite estate_same. Qed.

(** A transaction that raised left nothing. *)
Lemma rolled_back {S A} (m : st S A) s x s' : unit_of_work m s = (Raise x, s') → s' = s.
Proof. unfold unit_of_work. destruct (m s) as [[a|e] w]; by intros [=]. Qed.

Lemma insert_finding_ok row s u s' :
  insert_finding row s = (Ok u, s') →
  s' = set_run_findings <[vf_id row := row]> s ∧ run_findings s !! vf_id row = None ∧
  ∀ i r, run_findings s !! i = Some r → vf_run_id r = vf_run_id row → vf_position r ≠ vf_position row.
Proof.
  unfold insert_finding. intros H. io_inv. unfold insert_row in *. io_inv.
  destruct (run_findings s !! vf_id row) eqn:En; io_inv. split; [done|]. split; [done|].
  intros i r Hi Hr Hpos. assert (same_position row r = false) as Hp by by eapply existsb_rows.
  unfold same_position in Hp. rewrite Hr, Hpos, String.eqb_refl, Z.eqb_refl in Hp. done.
Qed.

(** The findings of one run, inserted one by one. *)
Lemma insert_findings_ok l : ∀ s u s',
  each insert_finding l s = (Ok u, s') →
  estate_of s' = estate_of s ∧ runs s' = runs s ∧
  (∀ i row, run_findings s' !! i = Some row ↔ run_findings s !! i = Some row ∨ row ∈ l ∧ vf_id row = i) ∧
  (unique_positions s → unique_positions s').
Proof.
  induction l as [|x l IH]; intros s u s' H.
  - apply ret_ok in H as [_ ->]. split_and!; try done. intros i row. set_solver.
  - cbn [each] in H. apply io_bind_ok in H as (u1 & s1 & (-> & Hnone & Hnew)%insert_finding_ok & H).
    destruct (IH _ _ _ H) as (He & Hr & Hrows & Hu). split_and!; [done|done| |].
    + intros i row. rewrite Hrows. cbn [run_findings set_run_findings]. rewrite lookup_insert_Some, elem_of_cons.
      split.
      * intros [[(<- & ->)|(Hne & Hi)]|(Hl & Hid)]; [right; by split; [left|]|by left|right; by split; [right|]].
      * intros [Hi|([-> | Hl] & Hid)]; [|by left; left|by right].
        left. right. split; [|done]. intros <-. congruence.
    + intros Hs. apply Hu. intros i j a b. cbn [run_findings set_run_findings]. rewrite !lookup_insert_Some.
      intros [(<- & <-)|(Hi & Ha)] [(<- & <-)|(Hj & Hb)] Hrun Hpos; [done| | |by apply (Hs i j a b)].
      * by destruct (Hnew j b Hb).
      * by destruct (Hnew i a Ha).
Qed.

(** A run and its findings, once added. *)
Lemma validations_add_ok row_id run inputs s report s' :
  validations_add row_id run inputs s = (Ok report, s') →
  report = RunReport_of run inputs ∧ estate_of s' = estate_of s ∧
  runs s !! vn_id run = None ∧ runs s' = <[vn_id run := run_record run inputs]> (runs s) ∧
  (∀ i row, run_findings s' !! i = Some row ↔ run_findings s !! i = Some row ∨
     ∃ n f, findings_of run !! n = Some f ∧ row = finding_row run (row_id n) n f ∧ i = row_id n) ∧
  (unique_positions s → unique_positions s').
Proof.
  unfold validations_add. intros H. apply io_bind_ok in H as (u1 & s1 & Hins & H).
  unfold insert_row in Hins. io_inv. destruct (runs s !! vn_id run) eqn:En; io_inv.
  match goal with H : each _ _ _ = _ |- _ => apply insert_findings_ok in H as (He & Hr & Hrows & Hu) end.
  split_and!; try done. intros i row. rewrite Hrows. cbn [run_findings set_runs]. apply or_iff_compat_l.
  split.
  - intros ((n & f & -> & Hn)%elem_of_lookup_imap & <-). by exists n, f.
  - intros (n & f & Hn & -> & ->). split; [|done]. apply elem_of_lookup_imap. by exists n, f.
Qed.

(** * What a validation stores *)

(** The run as it starts. *)
Definition started_run (id project user : uuid) (a : Architecture) (rev : ArchitectureRevision)
    (config : ValidationConfig) (now : instant) : ValidationRun :=
  run_with RUN_RUNNING (Some now) None None None (requested_run id project user a rev config now).

(** How it ends. *)
Definition ended_run (engine : validator) (run : ValidationRun) (a : Architecture) (rev : ArchitectureRevision)
    (requirements : list Requirement) (policy : ArchitecturePolicy) (config : ValidationConfig) (at_ : instant) :
    py ValidationRun :=
  if MAX_CONTEXT_REQUIREMENTS <? length requirements then run_fail run TOO_MANY_REQUIREMENTS at_
  else engine_run engine run (rv_ir rev) (revision_info rev a) requirements policy config at_.

(** The requirements of a project a validation is given. *)
Definition requirements_of (e : estate) (project : uuid) : py (list Requirement) :=
  (requirements_list_by_status project members (S MAX_CONTEXT_REQUIREMENTS) e).1.

Lemma requirements_read e project : requirements_list_by_status project members (S MAX_CONTEXT_REQUIREMENTS) e = (requirements_of e project, e).
Proof. done. Qed.

Section validate.
Context (engine : validator) (d : draws) (t : instant) (row_id : nat → uuid).
Context (project id user : uuid) (config : ValidationConfig) (number : option Z).

(** Everything a validation that returned has read and made. *)
Record validation (s s' : records) (report : RunReport) (a : Architecture) (rev : ArchitectureRevision)
    (p : Project) (run : ValidationRun) (inputs : RunInputs) : Prop := {
  va_may : ∃ r, may_write (estate_of s) user project ARCHITECTURE_VALIDATE r ∧ to_project r = Ok p;
  va_holds : holds (estate_of s) project id a;
  va_active : ar_status a = ARCHITECTURE_ACTIVE;
  va_revision : ∃ row, revision_at (estate_of s) (ar_id a) (default (ar_current_revision a) number) row ∧
    to_revision row = Ok rev;
  va_ended : ∃ requirements, requirements_of (estate_of s) project = Ok requirements ∧
    ended_run engine (started_run (new_id d) project user a rev config (now d)) a rev requirements (pj_policy p) config t = Ok run ∧
    inputs = with_components run (given_inputs config (pj_policy p) requirements);
  va_report : report = RunReport_of run inputs;
  va_new : runs s !! vn_id run = None;
  va_estate : ∃ event, estate_of s' = logged event (estate_of s);
  va_runs : runs s' = <[vn_id run := run_record run inputs]> (runs s);
  va_findings : ∀ i row, run_findings s' !! i = Some row ↔ run_findings s !! i = Some row ∨
    ∃ n f, findings_of run !! n = Some f ∧ row = finding_row run (row_id n) n f ∧ i = row_id n;
  va_positions : unique_positions s → unique_positions s';
}.

Lemma validate_ok s report s' :
  validation_validate engine d t row_id project id user config number s = (Ok report, s') →
  ∃ a rev p run inputs, validation s s' report a rev p run inputs.
Proof using Type.
  unfold validation_validate. intros H. committed H.
  apply io_bind_ok in H as ([p m] & s1 & (e1 & (-> & r & Hmay & Hp & Hst)%project_access_ok & ->)%on_estate_ok & H).
  apply io_bind_ok in H as (a & s1 & (e1 & [-> Ha]%get_architecture_ok & ->)%on_estate_ok & H).
  apply io_bind_ok in H as ([] & s1 & [Hact ->]%lift_ok & H). cbv zeta in H.
  apply io_bind_ok in H as (rev & s1 & (e1 & (-> & row & Hrow & Hrev)%get_revision_ok & ->)%on_estate_ok & H).
  apply io_bind_ok in H as (requirements & s1 & (e1 & Hreq & ->)%on_estate_ok & H). rewrite requirements_read in Hreq.
  injection Hreq as Hreq <-.
  apply io_bind_ok in H as (run0 & s1 & [Hrun0 ->]%lift_ok & H). injection Hrun0 as <-.
  apply io_bind_ok in H as (run & s1 & [Hrun ->]%lift_ok & H).
  apply io_bind_ok in H as (report' & s1 & Hadd & H). apply validations_add_ok in Hadd as (-> & He & Hnew & Hruns & Hrows & Hu).
  apply io_bind_ok in H as (u & s2 & (e2 & Hlog & ->)%on_estate_ok & H). apply ret_ok in H as [-> ->].
  apply record_event_ok in Hlog as ->. rewrite !estate_same in *.
  exists a, rev, p, run, (with_components run (given_inputs config (pj_policy p) requirements)).
  assert (ar_status a = ARCHITECTURE_ACTIVE) by by apply ensure_modifiable_ok.
  constructor; try done.
  - exists r. split; [|done]. split; [done|by apply Hst].
  - by exists row.
  - by exists requirements.
  - eexists. cbn [estate_of set_estate]. by rewrite He.
Qed.
End validate.

(** The engine gives results as their constructors make them. *)
Definition engine_sound (engine : validator) : Prop :=
  ∀ ir revision requirements policy config result,
    engine ir revision requirements policy config = Ok result → result_ok result.

(** What stays of a run from its request to its end. *)
Definition same_request (run run' : ValidationRun) : Prop :=
  vn_id run' = vn_id run ∧ vn_project_id run' = vn_project_id run ∧
  vn_architecture_id run' = vn_architecture_id run ∧ vn_revision_number run' = vn_revision_number run ∧
  vn_revision_content_hash run' = vn_revision_content_hash run.

Lemma ended_ok engine id project user a rev config now requirements policy t run :
  engine_sound engine →
  ended_run engine (started_run id project user a rev config now) a rev requirements policy config t = Ok run →
  finished run ∧ same_request (requested_run id project user a rev config now) run.
Proof.
  intros He. unfold ended_run, engine_run.
  assert (∀ e, re_code e ≠ "" → ∀ r, run_fail (started_run id project user a rev config now) e t = Ok r →
    finished r ∧ same_request (requested_run id project user a rev config now) r) as Hfail.
  { intros e Hc r [= <-]. split; [|done]. constructor; [right; split_and!; [done|done|by exists e]|done|done]. }
  destruct (_ <? _)%nat; [by apply Hfail|].
  destruct (engine _ _ _ _ _) as [result|x] eqn:E.
  - intros [= <-]. split; [|done]. constructor; [left; split_and!; [done|by eexists|done]|split; by eexists|].
    intros r [= <-]. by eapply He.
  - destruct (is_domain_error x); [done|]. by apply Hfail.
Qed.

Lemma with_components_ok run config policy requirements :
  (∀ r, vn_result run = Some r → result_ok r) →
  inputs_ok (with_components run (given_inputs config policy requirements)).
Proof.
  intros Hr. unfold with_components. destruct (vn_result run) as [r|]; [|done]. specialize (Hr r eq_refl).
  pose proof (f_equal vr_components (ro_canonical _ Hr)) as Hc. cbn [ValidationResult_new vr_components] in Hc.
  destruct r as [? ? ? ? ? ? [|c components]]; [done|]. exact Hc.
Qed.

Lemma to_revision_named row r : to_revision row = Ok r →
  rv_number r = rr_number row ∧ rv_content_hash r = rr_content_hash row.
Proof. unfold to_revision. intros H. py_inv. done. Qed.

Section validated.
Context (engine : validator) (Hengine : engine_sound engine) (d : draws) (t : instant) (row_id : nat → uuid).
Context (project id user : uuid) (config : ValidationConfig) (number : option Z).
Context (s s' : records) (report : RunReport) (a : Architecture) (rev : ArchitectureRevision) (p : Project).
Context (run : ValidationRun) (inputs : RunInputs).
Context (Hv : validation engine d t row_id project id user config number s s' report a rev p run inputs).
Context (Hok : records_ok s).

Lemma validation_finished :
  finished run ∧ inputs_ok inputs ∧ same_request (requested_run (new_id d) project user a rev config (now d)) run.
Proof using All.
  destruct (va_ended _ _ _ _ _ _ _ _ _ _ _ _ _ _ _ _ _ Hv) as (requirements & _ & Hend & ->).
  apply ended_ok in Hend as [Hf Hs]; [|done]. split; [done|]. split; [|done]. apply with_components_ok. apply Hf.
Qed.

Lemma validation_about : about (estate_of s) run.
Proof using All.
  destruct validation_finished as (_ & _ & _ & Hpid & Haid & Hn & Hh).
  destruct Hv as [_ (Ha & Hproject & _) _ (row & Hrow & Hrev) _ _ _ _ _ _ _].
  destruct (to_revision_named _ _ Hrev) as [Hnum Hhash].
  pose proof (proj2 (ok_keyed _ (rk_estate _ Hok)) _ _ Ha) as Hid. cbn in Hpid, Haid, Hn, Hh.
  exists a, row. rewrite Haid, Hpid, Hn, Hh, Hnum, Hhash, Hid. split; [done|]. split; [done|]. split; [|done].
  destruct Hrow as (i & Hi & Harch & Hnumber). exists i. split; [done|]. split; [congruence|done].
Qed.

Lemma validation_stored : stored s' run inputs.
Proof using All.
  destruct Hv as [_ _ _ _ _ _ Hnew _ Hruns Hrows _]. split_and!.
  - by rewrite Hruns, lookup_insert_eq.
  - intros i row [Hi|(n & f & Hn & -> & ->)]%Hrows Hrun; [|by exists n, f].
    destruct (rk_findings _ Hok _ _ Hi) as [_ [r Hr]]. rewrite Hrun in Hr. congruence.
  - intros n f Hn. exists (row_id n). apply Hrows. right. by exists n, f.
Qed.

(** What was stored is still there. *)
Lemma validation_keeps run' inputs' : stored s run' inputs' → stored s' run' inputs'.
Proof using All.
  destruct Hv as [_ _ _ _ _ _ Hnew _ Hruns Hrows _]. intros (Hr & Hfrom & Hto).
  assert (vn_id run' ≠ vn_id run) as Hne by congruence. split_and!.
  - by rewrite Hruns, lookup_insert_ne.
  - intros i row [Hi|(n & f & Hn & -> & ->)]%Hrows Hrun; [by apply Hfrom|]. done.
  - intros n f Hn. destruct (Hto n f Hn) as [i Hi]. exists i. apply Hrows. by left.
Qed.
End validated.

(** * The machine *)
Section machine.
Context `{Externals} (cfg : Accounts.config).

(** A step of the projects and architectures, or a validation, by any engine. *)
Inductive records_step (s : records) : records → Prop :=
  | rs_estate e : step cfg (estate_of s) e → records_step s (set_estate e s)
  | rs_validate engine user d t row_id project id config number at_ c : engine_sound engine →
      records_step s (validation_validate engine d t row_id project id user config number
                        (set_estate (asked at_ c (estate_of s)) s)).2.

Definition empty_records : records := {| estate_of := empty_estate; runs := ∅; run_findings := ∅ |}.

Definition reachable_records (s : records) : Prop := rtc records_step empty_records s.

Lemma validate_raise engine d t row_id project id user config number s x s' :
  validation_validate engine d t row_id project id user config number s = (Raise x, s') → s' = s.
Proof using Type. apply rolled_back. Qed.

Lemma about_grows e e' run : grows e e' → about e run → about e' run.
Proof using Type.
  intros [R _ A] (a & row & Ha & Hp & (i & Hi & Hrow) & Hh). destruct (A _ _ Ha) as (b & Hb & _ & Hpid & _).
  exists b, row. split; [done|]. split; [congruence|]. split; [|done]. exists i. split; [by eapply lookup_weaken|done].
Qed.

Lemma step_grows e e' : estate_ok e → step cfg e e' → grows e e'.
Proof using Type.
  intros He Hs. apply (steps_relate cfg grows); [|apply transition_grows|by apply rtc_once|done].
  intros; by apply grows_tables.
Qed.

Lemma records_ok_estate s e : estate_ok e → grows (estate_of s) e → records_ok s → records_ok (set_estate e s).
Proof using Type.
  intros He Hg [E R F U]. constructor; try done. intros id r Hr. destruct (R id r Hr) as (run & inputs & ? & ? & ? & ? & Ha).
  exists run, inputs. split_and!; try done. by eapply about_grows.
Qed.

Lemma validation_ok engine d t row_id project id user config number s report s' :
  engine_sound engine → records_ok s →
  validation_validate engine d t row_id project id user config number s = (Ok report, s') → records_ok s'.
Proof using Type.
  intros Hengine Hok (a & rev & p & run & inputs & Hv)%validate_ok.
  pose proof (validation_finished _ Hengine _ _ _ _ _ _ _ _ _ _ _ _ _ _ _ _ Hv Hok) as (Hf & Hi & _).
  pose proof (validation_about _ Hengine _ _ _ _ _ _ _ _ _ _ _ _ _ _ _ _ Hv Hok) as Hab.
  destruct (va_estate _ _ _ _ _ _ _ _ _ _ _ _ _ _ _ _ _ Hv) as [event He]. constructor.
  - rewrite He. apply estate_ok_logged, Hok.
  - intros i r Hr. rewrite (va_runs _ _ _ _ _ _ _ _ _ _ _ _ _ _ _ _ _ Hv), lookup_insert_Some in Hr. rewrite He.
    destruct Hr as [(<- & <-)|(Hne & Hr)].
    + exists run, inputs. split; [done|]. split; [|done].
      by eapply (validation_stored _ Hengine).
    + destruct (rk_runs _ Hok _ _ Hr) as (run' & inputs' & Hid & Hs & Hf' & Hi' & Ha'). exists run', inputs'.
      split; [done|]. split; [|done]. by eapply (validation_keeps _ Hengine).
  - intros i row Hrow. rewrite (va_runs _ _ _ _ _ _ _ _ _ _ _ _ _ _ _ _ _ Hv).
    apply (va_findings _ _ _ _ _ _ _ _ _ _ _ _ _ _ _ _ _ Hv) in Hrow as [Hrow|(n & f & _ & -> & ->)].
    + destruct (rk_findings _ Hok _ _ Hrow) as [Hid Hr]. split; [done|]. by apply lookup_insert_is_Some'; right.
    + split; [done|]. cbn [vf_run_id finding_row]. rewrite lookup_insert_eq. by eexists.
  - by apply (va_positions _ _ _ _ _ _ _ _ _ _ _ _ _ _ _ _ _ Hv), Hok.
Qed.

Lemma asked_records_ok at_ c s : records_ok s → records_ok (set_estate (asked at_ c (estate_of s)) s).
Proof using Type.
  intros Hok. apply records_ok_estate; [by apply asked_ok, Hok|by apply grows_tables|done].
Qed.

Lemma records_step_ok s s' : records_step s s' → records_ok s → records_ok s'.
Proof using Type.
  intros Hs Hok. destruct Hs as [e Hs|engine user d t row_id project id config number at_ c Hengine].
  - apply records_ok_estate; [eapply step_ok; [exact Hs|apply Hok]|apply step_grows; [apply Hok|exact Hs]|exact Hok].
  - destruct (validation_validate _ _ _ _ _ _ _ _ _ _) as [[report|x] s'] eqn:E.
    + eapply validation_ok; [exact Hengine| |exact E]. by apply asked_records_ok.
    + apply validate_raise in E as ->. by apply asked_records_ok.
Qed.

Lemma records_steps_ok s s' : rtc records_step s s' → records_ok s → records_ok s'.
Proof using Type. induction 1; [done|]. intros Hok. by apply IHrtc, (records_step_ok x). Qed.

Lemma reachable_records_ok s : reachable_records s → records_ok s.
Proof using Type. intros Hr. eapply records_steps_ok; [exact Hr|]. constructor; [apply empty_estate_ok|done..]. Qed.

(** ** Nothing that is stored changes *)
Lemma step_keeps_stored s s' run inputs :
  records_step s s' → records_ok s → stored s run inputs → stored s' run inputs.
Proof using Type.
  intros Hs Hok Hst. destruct Hs as [e Hs|engine user d t row_id project id config number at_ c Hengine]; [done|].
  destruct (validation_validate _ _ _ _ _ _ _ _ _ _) as [[report|x] s'] eqn:E.
  - apply validate_ok in E as (a & rev & p & run' & inputs' & Hv).
    eapply (validation_keeps _ Hengine _ _ _ _ _ _ _ _ _ _ _ _ _ _ _ _ Hv); [by apply asked_records_ok|done].
  - by apply validate_raise in E as ->.
Qed.

Lemma steps_keep_stored s s' run inputs :
  rtc records_step s s' → records_ok s → stored s run inputs → stored s' run inputs.
Proof using Type.
  induction 1 as [|s s1 s2 Hs _ IH]; [done|]. intros Hok Hst. apply IH; [by eapply records_step_ok|by eapply step_keeps_stored].
Qed.
End machine.
