(* ===== verification/RunListing.v ===== *)
(** Reading runs and paging through findings: the report of a stored run, and every finding a query asks
    for, in order, each once, however small the pages. *)
From Stdlib Require Import Lia ZArith.
From S2P Require Import Prelude Data Errors Computations Store Policy Identity Accounts Invariants JsonText Requirements Findings ValidationEngine ValidationFacts.
From S2P Require Import Projects Revisions Estate ArchitectureService Workspaces EstateInvariants EstateProperties ContentProperties Listing.
From S2P Require Import Runs ValidationService RunProperties.

(** * What a query asks for *)
Definition asks_for (q : FindingQuery) (f : Finding) : bool :=
  if_asked (fq_severity q) (λ s, String.eqb (value (f_severity f)) (value s))
  && if_asked (fq_category q) (λ c, String.eqb (value (f_category f)) (value c))
  && if_asked (fq_blocking q) (λ b, Bool.eqb (f_blocking f) b)
  && if_asked (fq_rule_id q) (λ i, String.eqb (f_rule_id f) i)
  && if_asked (fq_entity_id q) (λ i, bool_decide (i ∈ f_entity_ids f)).

(** The findings of a run a query asks for, with their positions. *)
Definition positioned (run : ValidationRun) : list (Z * Finding) := imap (λ n f, (Z.of_nat n, f)) (findings_of run).
Definition asked_findings (run : ValidationRun) (q : FindingQuery) : list (Z * Finding) :=
  filter (λ p, asks_for q p.2 = true) (positioned run).

Lemma elem_of_positioned run z f : (z, f) ∈ positioned run ↔ ∃ n, z = Z.of_nat n ∧ findings_of run !! n = Some f.
Proof. unfold positioned. rewrite elem_of_lookup_imap. naive_solver. Qed.

Lemma positioned_findings run : (positioned run).*2 = findings_of run.
Proof. unfold positioned. rewrite fmap_imap. apply list_eq. intros i. rewrite list_lookup_imap. by destruct (_ !! i). Qed.

(** Positions go up. *)
Lemma positioned_ordered run : StronglySorted (λ p q : Z * Finding, (p.1 < q.1)%Z) (positioned run).
Proof.
  unfold positioned. change (λ n f, (Z.of_nat n, f)) with (λ n (f : Finding), (Z.of_nat (0 + n), f)).
  generalize 0%nat as k, (findings_of run) as l. intros k l. revert k.
  induction l as [|f l IH]; intros k; [constructor|]. rewrite imap_cons. constructor.
  - erewrite imap_ext; [apply (IH (S k))|]. intros i x _. unfold compose. do 2 f_equal. lia.
  - apply Forall_forall. intros p (n & x & -> & _)%elem_of_lookup_imap. unfold compose. cbn [fst]. lia.
Qed.

(** * Ordered lists of positions *)
Lemma py_map_total {A B} (f : A → py B) l : (∀ x, x ∈ l → ∃ y, f x = Ok y) → ∃ l', py_map f l = Ok l'.
Proof.
  induction l as [|x l IH]; intros Hf; [by exists []|]. destruct (Hf x) as [y Hy]; [left|].
  destruct IH as [l' Hl']; [intros z Hz; apply Hf; by right|]. exists (y :: l'). cbn. by rewrite Hy, Hl'.
Qed.

Lemma Forall2_elem_l {A B} (R : A → B → Prop) l k x : Forall2 R l k → x ∈ l → ∃ y, y ∈ k ∧ R x y.
Proof. induction 1; set_solver. Qed.

Lemma Forall2_elem_r {A B} (R : A → B → Prop) l k y : Forall2 R l k → y ∈ k → ∃ x, x ∈ l ∧ R x y.
Proof. induction 1; set_solver. Qed.

(** Two lists with the same elements, both in the order of their positions. *)
Lemma same_positions {A} (l k : list (Z * A)) :
  StronglySorted (λ p q, (p.1 < q.1)%Z) l → StronglySorted (λ p q, (p.1 < q.1)%Z) k → (∀ p, p ∈ l ↔ p ∈ k) → l = k.
Proof.
  intros Hl. revert k. induction Hl as [|p l Hl IH Hp]; intros k Hk Hin.
  - destruct k as [|q k]; [done|]. exfalso. apply (not_elem_of_nil q), Hin. left.
  - destruct Hk as [|q k Hk Hq]; [exfalso; apply (not_elem_of_nil p), Hin; left|].
    rewrite Forall_forall in Hp, Hq. assert (p = q) as ->.
    { assert (p ∈ q :: k) as [->|Hpk]%elem_of_cons by (apply Hin; left); [done|].
      assert (q ∈ p :: l) as [->|Hql]%elem_of_cons by (apply Hin; left); [done|].
      specialize (Hp _ Hql). specialize (Hq _ Hpk). lia. }
    f_equal. apply IH; [done|]. intros x. split; intros Hx.
    + assert (x ∈ q :: k) as [->|?]%elem_of_cons by (apply Hin; by right); [|done]. specialize (Hp _ Hx). lia.
    + assert (x ∈ q :: l) as [->|?]%elem_of_cons by (apply Hin; by right); [|done]. specialize (Hq _ Hx). lia.
Qed.

(** In order and without repetition: strictly in order. *)
Lemma strictly_ordered l : ordered_by Z_leb l → NoDup l → StronglySorted Z.lt l.
Proof.
  unfold ordered_by. induction 1 as [|x l Hl IH Hx]; intros Hn; [constructor|]. apply NoDup_cons in Hn as [Hnx Hn].
  constructor; [by apply IH|]. rewrite Forall_forall in Hx |- *. intros y Hy. specialize (Hx y Hy).
  apply Is_true_true, Z.leb_le in Hx. assert (x ≠ y) by congruence. lia.
Qed.

Lemma strictly_fst {A} (l : list (Z * A)) : StronglySorted Z.lt l.*1 → StronglySorted (λ p q, (p.1 < q.1)%Z) l.
Proof.
  induction l as [|p l IH]; intros H; [constructor|]. apply StronglySorted_inv in H as [H Hp]. constructor; [by apply IH|].
  change (Forall (Z.lt p.1) (fst <$> l)) in Hp. by rewrite Forall_fmap in Hp.
Qed.

Lemma strictly_filter {A} (l : list (Z * A)) (P : Z * A → Prop) `{!∀ x, Decision (P x)} :
  StronglySorted (λ p q, (p.1 < q.1)%Z) l → StronglySorted (λ p q, (p.1 < q.1)%Z) (filter P l).
Proof.
  induction 1 as [|x l Hl IH Hx]; [constructor|]. rewrite filter_cons. case_decide; [|done]. constructor; [done|].
  rewrite Forall_forall in Hx |- *. intros y [_ Hy]%list_elem_of_filter. by apply Hx.
Qed.

(** * What is listed *)
Section listing.
Context (s : records) (run : ValidationRun) (inputs : RunInputs).
Context (Hok : records_ok s) (Hstored : stored s run inputs) (Hrun : finished run).

Definition read_finding (r : FindingRow) : py (Z * Finding) := f ← Finding_from_dict (vf_data r); Ok (vf_position r, f).

Lemma finding_row_read i n f : findings_of run !! n = Some f → read_finding (finding_row run i n f) = Ok (Z.of_nat n, f).
Proof using Hrun.
  intros Hf. unfold read_finding. cbn [vf_data finding_row].
  assert (built Finding_new Finding_args f) as Hb.
  { unfold findings_of in Hf. destruct (vn_result run) as [r|] eqn:Er; [|done].
    pose proof (ro_findings _ (fi_result _ Hrun r Er)) as Ha. rewrite Forall_forall in Ha.
    apply Ha. by eapply list_elem_of_lookup_2. }
  by rewrite finding_read.
Qed.

Lemma listed_finding_row q after size i n f :
  listed_finding (vn_project_id run) (vn_id run) (from_finding q after size) (finding_row run i n f) =
  asks_for q f && (if after is Some c then negb (Z_leb (Z.of_nat n) c) else true).
Proof using Type.
  unfold listed_finding, from_finding, asks_for.
  cbn [vf_run_id vf_project_id vf_severity vf_category vf_blocking vf_rule_id vf_entity_ids vf_position finding_row
       fq_severity fq_category fq_blocking fq_rule_id fq_entity_id fq_after].
  rewrite !bool_decide_eq_true_2 by done. cbn [andb]. f_equal. destruct after as [c|]; [|done]. cbn [if_asked].
  unfold Z_leb. by rewrite <- Z.ltb_antisym.
Qed.

(** The rows a query selects, in order, are the findings it asks for from its position on. *)
Lemma rows_read q after size :
  py_map read_finding (sort_by first_position
    (where_ (listed_finding (vn_project_id run) (vn_id run) (from_finding q after size)) (run_findings s))) =
  Ok (from_position fst Z_leb after (asked_findings run q)).
Proof using Hok Hstored Hrun.
  set (R := sort_by _ _). set (P := from_position _ _ _ _). destruct Hstored as (_ & Hfrom & Hto).
  assert (∀ p, p ∈ P ↔ p ∈ positioned run ∧ asks_for q p.2 = true ∧
    (if after is Some c then negb (Z_leb p.1 c) else true) = true) as HP.
  { intros p. unfold P, from_position, beyond, asked_findings. destruct after as [c|]; rewrite ?list_elem_of_filter; naive_solver. }
  assert (∀ row, row ∈ R ↔ ∃ i n f, run_findings s !! i = Some row ∧ row = finding_row run i n f ∧ (Z.of_nat n, f) ∈ P) as HR.
  { intros row. unfold R. rewrite elem_of_sort_by, elem_of_where. split.
    - intros (Hl & i & Hi). assert (vf_run_id row = vn_id run) as Hid.
      { unfold listed_finding in Hl. by bool_facts. }
      destruct (Hfrom i row Hi Hid) as (n & f & Hn & ->). exists i, n, f. split; [done|]. split; [done|].
      rewrite listed_finding_row in Hl. apply andb_prop in Hl as [Ha Hafter]. apply HP. split; [|done].
      apply elem_of_positioned. by exists n.
    - intros (i & n & f & Hi & -> & [Hp [Ha Hafter]]%HP). split; [|by exists i]. rewrite listed_finding_row.
      cbn [fst snd] in *. by rewrite Ha, Hafter. }
  destruct (py_map_total read_finding R) as [L HL].
  { intros row (i & n & f & _ & -> & [Hp _]%HP)%HR. apply elem_of_positioned in Hp as (m & Hm & Hf).
    apply Nat2Z.inj in Hm as <-. eexists. by apply finding_row_read. }
  rewrite HL. f_equal. apply py_map_ok in HL.
  assert (∀ row p, row ∈ R → read_finding row = Ok p → p ∈ P ∧ p.1 = vf_position row) as Hread.
  { intros row p (i & n & f & _ & -> & Hp)%HR Hr. pose proof Hp as [Hin _]%HP.
    apply elem_of_positioned in Hin as (m & Hm & Hf). apply Nat2Z.inj in Hm as <-.
    rewrite (finding_row_read i n f Hf) in Hr. by injection Hr as <-. }
  assert (L.*1 = vf_position <$> R) as Hpositions.
  { clear -HL Hread. induction HL as [|row p R L Hr _ IH]; [done|]. cbn. f_equal; [by apply Hread; [left|]|].
    apply IH. intros row' p' Hrow'. apply Hread. by right. }
  apply same_positions.
  - apply strictly_fst. rewrite Hpositions. apply strictly_ordered.
    + by apply (ordered_by_fmap first_position Z_leb); [|apply (sort_by_ordered first_position)].
    + unfold R. rewrite (sort_by_perm first_position). apply NoDup_where. intros i j a b Hi Hj Ha Hb.
      apply (rk_positions _ Hok i j a b Hi Hj). unfold listed_finding in Ha, Hb. bool_facts. congruence.
  - unfold P, from_position, asked_findings. destruct after as [c|]; [apply strictly_filter|];
      apply strictly_filter, positioned_ordered.
  - intros p. split.
    + intros (row & Hrow & Hr)%(Forall2_elem_r _ _ _ _ HL). by apply (Hread row p).
    + intros Hp. destruct p as [z f]. pose proof Hp as [Hin _]%HP. apply elem_of_positioned in Hin as (n & -> & Hf).
      destruct (Hto n f Hf) as [i Hi]. assert (finding_row run i n f ∈ R) as Hrow by (apply HR; by exists i, n, f).
      apply (Forall2_elem_l _ _ _ _ HL) in Hrow as (p & Hp' & Hr). rewrite (finding_row_read i n f Hf) in Hr.
      by injection Hr as <-.
Qed.
End listing.

(** * Reading *)
Section reading.
Context (s : records) (run : ValidationRun) (inputs : RunInputs).
Context (Hok : records_ok s) (Hstored : stored s run inputs) (Hrun : finished run) (Hinputs : inputs_ok inputs).
Context (user : uuid) (r : ProjectRow) (Hmay : may (estate_of s) user (vn_project_id run) ARCHITECTURE_READ r).
Context (a : Architecture) (Hheld : holds (estate_of s) (vn_project_id run) (vn_architecture_id run) a).

Lemma access_read : ∃ access, on_estate (project_access (vn_project_id run) user ARCHITECTURE_READ None) s = (Ok access, s).
Proof using Hok Hmay.
  destruct Hmay as (m & Hs & Hp). destruct (read_access _ _ _ _ _ _ (rk_estate _ Hok) Hs Hp) as [access Ha].
  exists access. by apply on_estate_read.
Qed.

Lemma architecture_read : on_estate (get_architecture (vn_project_id run) (vn_architecture_id run)) s = (Ok a, s).
Proof using Hheld. by apply on_estate_read, get_architecture_held. Qed.

Lemma run_of_read : run_of (vn_project_id run) (vn_architecture_id run) (vn_id run) s = (Ok (RunReport_of run inputs), s).
Proof using Hok Hstored Hrun Hinputs Hheld.
  destruct Hstored as (Hrow & _ & _). unfold run_of, mbind at 1, io_bind at 1. rewrite architecture_read.
  unfold validations_get, mbind at 1, io_bind at 1, mbind at 1, io_bind at 1, query at 1. rewrite Hrow. cbn [mbind option_bind].
  change (vw_project_id (run_record run inputs)) with (vn_project_id run).
  change (vw_architecture_id (run_record run inputs)) with (vn_architecture_id run).
  rewrite !bool_decide_eq_true_2 by done. cbn [andb if_given]. rewrite report_read by done. done.
Qed.

Lemma get_run_read :
  validation_get_run (vn_project_id run) (vn_architecture_id run) (vn_id run) user s = (Ok (RunReport_of run inputs), s).
Proof using All.
  destruct access_read as [access Ha]. unfold validation_get_run, unit_of_work, mbind at 1, io_bind at 1. rewrite Ha.
  by rewrite run_of_read.
Qed.

(** One page, of the findings with their positions. *)
Definition finding_page (q : FindingQuery) (after : option Z) : Page (Z * Finding) Z :=
  page_of (findings_page_size (fq_limit q)) fst
    (take (S (findings_page_size (fq_limit q))) (from_position fst Z_leb after (asked_findings run q))).

Lemma list_findings_read q after :
  validation_list_findings (vn_project_id run) (vn_architecture_id run) (vn_id run) user q after s =
  (Ok {| items := snd <$> items (finding_page q after); next_cursor := next_cursor (finding_page q after) |}, s).
Proof using All.
  destruct access_read as [access Ha]. unfold validation_list_findings. cbv zeta.
  unfold mbind at 1, io_bind at 1, unit_of_work, mbind at 1, io_bind at 1. rewrite Ha.
  unfold mbind at 1, io_bind at 1. rewrite run_of_read.
  assert (vn_id (rt_run (RunReport_of run inputs)) = vn_id run) as -> by (unfold RunReport_of; by destruct (vn_result run)).
  unfold validations_list_findings, mbind at 1, io_bind at 1, query at 1, lift. fold read_finding.
  change (fq_limit (from_finding _ _ ?n)) with (Z.of_nat (S n)). rewrite Nat2Z.id.
  pose proof (rows_read s run inputs Hok Hstored Hrun q after (findings_page_size (fq_limit q))) as Hrows.
  apply py_map_ok in Hrows. apply (Forall2_take _ _ _ (S (findings_page_size (fq_limit q)))) in Hrows.
  apply py_map_ok in Hrows. rewrite Hrows. done.
Qed.
End reading.

(** ** Following the cursors *)
Lemma follow_mapped {A B C} (f : A → B) (fetch : option C → Page A C) fuel after :
  follow_pages fuel (λ c, {| items := f <$> items (fetch c); next_cursor := next_cursor (fetch c) |}) after =
  f <$> follow_pages fuel fetch after.
Proof.
  revert after. induction fuel as [|fuel IH]; intros after; [done|]. cbn [follow_pages items next_cursor].
  rewrite fmap_app. f_equal. destruct (next_cursor (fetch after)); [apply IH|done].
Qed.

Lemma findings_page_size_pos limit : (1 ≤ findings_page_size limit)%nat.
Proof. unfold findings_page_size, MAX_FINDINGS_PAGE. lia. Qed.

Lemma asked_ordered run q : StronglySorted (λ p q : Z * Finding, (p.1 < q.1)%Z) (asked_findings run q).
Proof. apply strictly_filter, positioned_ordered. Qed.

Lemma strictly_keyed {A} (l : list (Z * A)) :
  StronglySorted (λ p q, (p.1 < q.1)%Z) l → ordered_by (on fst Z_leb) l ∧ NoDup l.*1.
Proof.
  induction 1 as [|p l Hl [IH1 IH2] Hp]; [by split; constructor|]. rewrite Forall_forall in Hp. split.
  - constructor; [done|]. apply Forall_forall. intros q Hq. specialize (Hp q Hq). apply Is_true_true, Z.leb_le. lia.
  - constructor; [|done]. intros (q & Hq & Hin)%list_elem_of_fmap. specialize (Hp q Hin). lia.
Qed.

(** Every finding a query asks for, in order. *)
Lemma all_findings run q fuel :
  (length (findings_of run) < fuel)%nat →
  follow_pages fuel (finding_page run q) None = asked_findings run q.
Proof.
  intros Hfuel. destruct (strictly_keyed _ (asked_ordered run q)) as [Ho Hn].
  apply (follow_all fst Z_leb (findings_page_size (fq_limit q))); try done; [apply findings_page_size_pos|].
  eapply Nat.le_lt_trans; [|exact Hfuel]. unfold asked_findings. etrans; [apply length_filter|].
  unfold positioned. by rewrite length_imap.
Qed.

Lemma asked_is run q : (asked_findings run q).*2 = filter (λ f, asks_for q f = true) (findings_of run).
Proof.
  rewrite <- (positioned_findings run). unfold asked_findings. induction (positioned run) as [|p l IH]; [done|].
  cbn [fmap list_fmap]. rewrite !filter_cons. destruct (decide (asks_for q p.2 = true)); [cbn [fmap list_fmap]; f_equal|]; exact IH.
Qed.
