(* ===== verification/DistinctFindings.v ===== *)
(** Two findings of one validation by the built-in rules never share what their identifiers are made of:
    their rule, code, elements and fields.  A run's table has one row per identifier. *)
From Stdlib Require Import Lia ZArith.
From S2P Require Import Prelude Data Errors Codecs Values Provenance Traceability Component Configuration Elements Model Topology Serialization RoundTrip JsonText.
From S2P Require Import Projects Kosaraju Requirements Findings ValidationEngine ValidationRules PolicyRules RequirementRules ValidationFacts RequirementFacts Verdicts ValidationProperties.

(** What an identifier is the digest of. *)
Definition finding_parts (f : Finding) :
    string * Z * string * list points * list points * option points * option points :=
  (f_rule_id f, f_rule_version f, f_code f, f_entity_ids f, f_field_paths f, f_requirement_id f, f_policy_rule f).

Lemma finding_parts_id f g : finding_parts f = finding_parts g → finding_id f = finding_id g.
Proof. unfold finding_parts, finding_id. intros [= -> -> -> -> -> -> ->]. done. Qed.

Definition same_elements (l k : list string) : Prop := ∀ x, x ∈ l ↔ x ∈ k.

(** Reports that differ, differ in what they are about. *)
Definition distinct (l : list report) : Prop :=
  ∀ p q, p ∈ l → q ∈ l → rp_code p = rp_code q → rp_requirement_id p = rp_requirement_id q →
    same_elements (rp_entity_ids p) (rp_entity_ids q) → same_elements (rp_field_paths p) (rp_field_paths q) → p = q.

Lemma points_of_inj s t : points_of s = points_of t → s = t.
Proof. intros H. pose proof (narrow_points s) as Hs. rewrite H, narrow_points in Hs. by injection Hs. Qed.

Lemma sorted_points_same l k :
  sorted_points (points_of <$> l) = sorted_points (points_of <$> k) → same_elements l k.
Proof.
  intros H x.
  assert (∀ m, x ∈ m ↔ points_of x ∈ sorted_points (points_of <$> m)) as Hm.
  { intros m. unfold sorted_points. rewrite elem_of_sort_by, elem_of_dedup, list_elem_of_fmap. split.
    - intros Hx. by exists x.
    - intros (y & Hy%points_of_inj & Hm). by subst. }
  by rewrite (Hm l), (Hm k), H.
Qed.

Lemma made_distinct m l p q :
  distinct l → p ∈ l → q ∈ l → finding_parts (made m p) = finding_parts (made m q) → p = q.
Proof.
  intros Hd Hp Hq. unfold finding_parts, made.
  cbn [f_rule_id f_rule_version f_code f_entity_ids f_field_paths f_requirement_id f_policy_rule].
  intros [= Hc He Hf Hr _]. apply Hd; try done; [|by apply sorted_points_same..].
  destruct (rp_requirement_id p), (rp_requirement_id q); try done. injection Hr as Hr%points_of_inj. by rewrite Hr.
Qed.

(** * Lists of reports *)
Lemma distinct_one (l : list report) : (length l ≤ 1)%nat → distinct l.
Proof.
  intros Hl p q Hp Hq _ _ _ _. destruct l as [|x [|y l]]; [by apply elem_of_nil in Hp| |simpl in Hl; lia].
  apply list_elem_of_singleton in Hp, Hq. congruence.
Qed.

(** Reports of different things, each of which names its thing. *)
Lemma distinct_bind {X} (key : X → string) (l : list X) (f : X → list report) :
  NoDup (key <$> l) →
  (∀ x p, x ∈ l → p ∈ f x → key x ∈ rp_entity_ids p ∧ ∀ y, y ∈ l → key y ∈ rp_entity_ids p → key y = key x) →
  (∀ x, x ∈ l → distinct (f x)) → distinct (l ≫= f).
Proof.
  intros Hn Hkey Hd p q (x & Hp & Hx)%list_elem_of_bind (y & Hq & Hy)%list_elem_of_bind Hc Hr He Hf.
  destruct (Hkey x p Hx Hp) as [Hxp _]. destruct (Hkey y q Hy Hq) as [_ Hyq].
  apply He in Hxp. assert (x = y) as -> by (apply (NoDup_key_inj key l); auto). by apply (Hd y Hy p q).
Qed.

Lemma bind_singleton {X} (f : X → report) (l : list X) : f <$> l = l ≫= λ x, [f x].
Proof. induction l as [|x l IH]; [done|]. cbn. by f_equal. Qed.

Lemma distinct_map {X} (key : X → string) (l : list X) (f : X → report) :
  NoDup (key <$> l) → (∀ x, x ∈ l → rp_entity_ids (f x) = [key x]) → distinct (f <$> l).
Proof.
  intros Hn Hf. rewrite bind_singleton. apply (distinct_bind key); [done| |intros x _; by apply distinct_one].
  intros x p Hx ->%list_elem_of_singleton. rewrite (Hf x Hx). split; [left|]. by intros y _ ->%list_elem_of_singleton.
Qed.

(** At most one report of each thing, which it names and nothing else of its kind. *)
Lemma distinct_each {X} (key : X → string) (l : list X) (f : X → list report) :
  NoDup (key <$> l) → (∀ x p, x ∈ l → p ∈ f x → rp_entity_ids p = [key x]) → (∀ x, (length (f x) ≤ 1)%nat) →
  distinct (l ≫= f).
Proof.
  intros Hn Hf Hlen. apply (distinct_bind key); [done| |intros x _; by apply distinct_one].
  intros x p Hx Hp. rewrite (Hf x p Hx Hp). split; [left|]. by intros y _ ->%list_elem_of_singleton.
Qed.

Lemma NoDup_filtered {X} (key : X → string) (P : X → Prop) `{!∀ x, Decision (P x)} l :
  NoDup (key <$> l) → NoDup (key <$> filter P l).
Proof.
  intros Hn. refine (sublist_NoDup _ _ Hn _). apply sublist_fmap, sublist_filter.
Qed.

Ltac at_most_one := intros; cbv zeta; repeat case_match; simpl; lia.
Ltac names_one := let p := fresh in let Hp := fresh in
  intros ? p _ Hp; cbv zeta in Hp; repeat case_match; try (by apply elem_of_nil in Hp); by apply list_elem_of_singleton in Hp as ->.

Lemma elem_of_capped x l : x ∈ capped l → x ∈ l.
Proof. unfold capped. intros (i & Hi%list_elem_of_lookup_2 & _)%elem_of_take. by apply elem_of_sorted_set. Qed.

Lemma length_capped l : l ≠ [] → capped l ≠ [].
Proof.
  intros Hl Hc. unfold capped in Hc. destruct l as [|x l]; [done|].
  assert (x ∈ sorted_set (x :: l)) as Hx by (apply elem_of_sorted_set; left).
  destruct (sorted_set (x :: l)); [by apply elem_of_nil in Hx|done].
Qed.

Lemma joined_once (groups : list (list string)) :
  NoDup (mjoin groups) → ∀ g h x, g ∈ groups → h ∈ groups → x ∈ g → x ∈ h → g = h.
Proof.
  induction groups as [|k groups IH]; intros Hn g h x Hg Hh Hxg Hxh; [by apply elem_of_nil in Hg|].
  cbn in Hn. apply NoDup_app in Hn as (_ & Hout & Hn).
  assert (∀ l, l ∈ groups → x ∈ l → x ∈ k → False) as Hno.
  { intros l Hl Hxl Hxk. apply (Hout x Hxk). apply list_elem_of_join. by exists l. }
  apply elem_of_cons in Hg as [->|Hg], Hh as [->|Hh]; [done|exfalso; eauto..|]. by apply (IH Hn g h x).
Qed.

(** The checks of a group are of one property. *)
Lemma groups_spec items :
  dict_wf (constraint_groups items) ∧
  ∀ k l, (k, l) ∈ constraint_groups items → ∃ i, i ∈ items ∧ ck_property i = k.2.
Proof.
  unfold constraint_groups.
  assert (∀ l d, dict_wf d → (∀ k v, (k, v) ∈ d → ∃ i, i ∈ items ∧ ck_property i = k.2) → (∀ i, i ∈ l → i ∈ items) →
    let d' := foldl (λ groups i, match constraint_code i with
      | Some code => let key := (ck_node_id i, code, ck_property i) in
          dict_set key (default [] (dict_get key groups) ++ [i]) groups
      | None => groups end) d l in
    dict_wf d' ∧ ∀ k v, (k, v) ∈ d' → ∃ i, i ∈ items ∧ ck_property i = k.2) as Hfold.
  { induction l as [|i l IH]; intros d Hd Hp Hl; cbn [foldl]; [done|].
    apply IH; [by case_match; [apply dict_set_wf|]| |set_solver].
    intros k v Hin. destruct (constraint_code i) as [code|]; [|by eapply Hp]. cbv zeta in Hin.
    destruct (decide (k = (ck_node_id i, code, ck_property i))) as [->|Hne]; [exists i; split; [apply Hl; left|done]|].
    apply (Hp k v). apply dict_get_wf in Hin; [|by apply dict_set_wf]. rewrite dict_get_set_ne in Hin by done.
    by apply dict_get_wf in Hin. }
  apply Hfold; [constructor|intros k v Hin; by apply elem_of_nil in Hin|done].
Qed.

Section rules.
Context `{ComponentCatalog} (ctx : ValidationContext) (Hw : writable (vc_ir ctx)).

Lemma nodes_distinct : NoDup (n_id <$> ir_nodes (vc_ir ctx)).
Proof using Hw. by apply (valid_graph_ids _ _ _ _ (writable_graph _ Hw)). Qed.

Lemma connections_distinct : NoDup (c_id <$> ir_connections (vc_ir ctx)).
Proof using Hw. by apply (valid_graph_ids _ _ _ _ (writable_graph _ Hw)). Qed.

Lemma id_of_one n c : n ∈ ir_nodes (vc_ir ctx) → c ∈ ir_connections (vc_ir ctx) → n_id n ≠ c_id c.
Proof using Hw.
  intros Hn Hc Heq. destruct (writable_graph _ Hw) as [Hi _ _ _ _ _ _ _]. apply NoDup_app in Hi as (_ & Hi & _).
  apply (Hi (n_id n)); [by apply list_elem_of_fmap_2|]. apply elem_of_app. left. rewrite Heq. by apply list_elem_of_fmap_2.
Qed.

Lemma distinct_two b1 b2 x y :
  ¬ same_elements (rp_field_paths x) (rp_field_paths y) →
  distinct ((if b1 : bool then [x] else []) ++ (if b2 : bool then [y] else [])).
Proof using Type.
  intros Hn p q Hp Hq _ _ _ Hf. destruct b1, b2; cbn [app] in Hp, Hq; try (by apply elem_of_nil in Hp).
  - apply elem_of_cons in Hp as [-> | ->%list_elem_of_singleton]; apply elem_of_cons in Hq as [-> | ->%list_elem_of_singleton];
      [done|by destruct Hn|destruct Hn; intros z; symmetry; apply Hf|done].
  - apply list_elem_of_singleton in Hp, Hq. congruence.
  - apply list_elem_of_singleton in Hp, Hq. congruence.
Qed.

Lemma replicas_distinct n : distinct (replicas_reports n).
Proof using Type.
  unfold replicas_reports. cbv zeta. destruct (as_int _) as [z|]; [|by apply distinct_one; simpl; lia].
  apply distinct_two. intros Hs. specialize (Hs "configuration.autoscaling_min_replicas"). destruct Hs as [Hs _].
  cbn [rp_field_paths replicas_report expecting says] in Hs. specialize (Hs ltac:(right; left)).
  by apply (bool_decide_unpack _) in Hs || (apply elem_of_cons in Hs as [?|Hs]; [done|]; by apply list_elem_of_singleton in Hs).
Qed.

(** ** Each rule *)
Lemma disconnected_distinct : distinct (disconnected_report <$> disconnected_nodes (topology ctx)).
Proof using Hw.
  apply (distinct_map n_id); [|done]. unfold disconnected_nodes. destruct (_ <? _)%nat; [constructor|].
  apply NoDup_filtered, NoDup_filtered, nodes_distinct.
Qed.

Lemma empty_boundaries_distinct : distinct (empty_boundary_report <$>
  filter (λ n, children (topology ctx) (n_id n) = []) (nodes_of_kind (topology ctx) [BOUNDARY])).
Proof using Hw. apply (distinct_map n_id); [|done]. apply NoDup_filtered, NoDup_filtered, nodes_distinct. Qed.

Lemma deprecated_distinct : distinct (ir_connections (vc_ir ctx) ≫= deprecated_reports (topology ctx)).
Proof using Hw.
  apply (distinct_bind c_id); [apply connections_distinct| |].
  - intros c p Hc Hp. unfold deprecated_reports in Hp.
    destruct (node _ (c_source_id c)) as [a|] eqn:Es; [|by apply elem_of_nil in Hp].
    destruct (node _ (c_target_id c)) as [b|] eqn:Et; [|by apply elem_of_nil in Hp].
    assert (∀ i n, node (topology ctx) i = Some n → n ∈ ir_nodes (vc_ir ctx)) as Hnode.
    { intros i n Hn. apply (index_by_get n_id) in Hn as [Hn _]; [done|apply nodes_distinct]. }
    assert (rp_entity_ids p = [c_id c; n_id a; n_id b]) as ->.
    { repeat case_match; try (by apply elem_of_nil in Hp); by apply list_elem_of_singleton in Hp as ->. }
    split; [left|]. intros y Hy [->|[Hy'|Hy'%list_elem_of_singleton]%elem_of_cons]%elem_of_cons; [done| |].
    + destruct (id_of_one a y); eauto.
    + destruct (id_of_one b y); eauto.
  - intros c _. apply distinct_one. unfold deprecated_reports. repeat case_match; simpl; lia.
Qed.

Lemma unknown_distinct_reports : distinct (unknown_reports ctx).
Proof using Hw.
  unfold unknown_reports. apply (distinct_map (λ '(_, element_id, _, _), element_id)); [|by intros [[[? ?] ?] ?]].
  apply NoDup_filtered. unfold configured. rewrite fmap_app, <- !list_fmap_compose.
  destruct (writable_graph _ Hw) as [Hi _ _ _ _ _ _ _]. rewrite app_assoc in Hi. by apply NoDup_app in Hi as [Hi _].
Qed.

Lemma cycles_distinct : distinct (cycle_report (request_calls ctx) <$> call_cycles (request_calls ctx)).
Proof using Hw.
  set (calls := request_calls ctx).
  assert (∀ c, c ∈ calls → c ∈ ir_connections (vc_ir ctx)) as Hcalls by by intros c [_ Hc]%list_elem_of_filter.
  destruct (strongly_connected_groups _ _ (call_edges_closed calls)) as (_ & _ & Hd & _).
  intros p q (g & -> & Hg)%list_elem_of_fmap (h & -> & Hh)%list_elem_of_fmap _ _ He _.
  cbn [rp_entity_ids cycle_report with_evidence expecting says] in He. f_equal.
  assert (∀ x grp, grp ∈ call_cycles calls → x ∈ grp → x ∈ n_id <$> ir_nodes (vc_ir ctx)) as Hnodes.
  { intros x grp Hgrp Hx. apply (called_ids _ Hw calls Hcalls).
    apply (proj1 (proj2 (strongly_connected_groups _ _ (call_edges_closed calls)))). apply list_elem_of_join.
    exists grp. split; [done|]. by apply list_elem_of_filter in Hgrp as [_ ?]. }
  assert (∃ x, x ∈ g ∧ x ∈ h) as (x & Hxg & Hxh).
  { apply list_elem_of_filter in Hg as Hg'. destruct Hg' as [Hlen _].
    destruct (capped (g ++ (c_id <$> filter (λ c, c_source_id c ∈ g ∧ c_target_id c ∈ g) calls))) as [|x l] eqn:Ec.
    { apply length_capped in Ec; [done|]. by destruct g; [simpl in Hlen; lia|]. }
    assert (x ∈ capped (h ++ (c_id <$> filter (λ c, c_source_id c ∈ h ∧ c_target_id c ∈ h) calls))) as Hx by (apply He; left).
    assert (x ∈ x :: l) as Hx' by left. rewrite <- Ec in Hx'.
    apply elem_of_capped, elem_of_app in Hx, Hx'. rewrite !list_elem_of_fmap in *.
    destruct Hx as [Hx|(c & Hxc & Hc)], Hx' as [Hx'|(d & Hxd & Hd')]; [by exists x| | |].
    - apply list_elem_of_filter in Hd' as [[Hs _] Hd'].
      destruct (proj1 (list_elem_of_fmap _ _ _) (Hnodes x h Hh Hx)) as (n & Hxn & Hn).
      destruct (id_of_one n d Hn (Hcalls d Hd')). congruence.
    - apply list_elem_of_filter in Hc as [[Hs _] Hc].
      destruct (proj1 (list_elem_of_fmap _ _ _) (Hnodes x g Hg Hx')) as (n & Hxn & Hn).
      destruct (id_of_one n c Hn (Hcalls c Hc)). congruence.
    - apply list_elem_of_filter in Hc as [[Hs _] Hc]. apply list_elem_of_filter in Hd' as [[Hs' _] Hd'].
      assert (c = d) as -> by (eapply (NoDup_key_inj c_id); [apply connections_distinct|by apply Hcalls..|congruence]).
      by exists (c_source_id d). }
  apply list_elem_of_filter in Hg as [_ Hg], Hh as [_ Hh]. by apply (joined_once _ Hd g h x).
Qed.

Lemma plain_distinct : Forall (λ p, distinct p.2) (plain_output ctx).
Proof using Hw.
  unfold plain_output, other_output, policy_output, under.
  repeat apply Forall_cons_2; [..|apply Forall_nil_2]; cbn [snd].
  - apply disconnected_distinct.
  - apply empty_boundaries_distinct.
  - apply cycles_distinct.
  - apply deprecated_distinct.
  - apply distinct_one. unfold upgrade_reports. at_most_one.
  - apply unknown_distinct_reports.
  - apply (distinct_bind n_id); [apply nodes_distinct| |intros n _; apply replicas_distinct].
    intros n p _ Hp. assert (rp_entity_ids p = [n_id n]) as ->; [|split; [left|by intros y _ ->%list_elem_of_singleton]].
    unfold replicas_reports in Hp. cbv zeta in Hp. destruct (as_int _); [|by apply elem_of_nil in Hp].
    apply elem_of_app in Hp as [Hp|Hp]; case_match; try (by apply elem_of_nil in Hp); by apply list_elem_of_singleton in Hp as ->.
  - apply (distinct_each n_id); [apply nodes_distinct|unfold zone_reports; names_one|unfold zone_reports; at_most_one].
  - apply (distinct_each n_id); [apply nodes_distinct|unfold backup_reports; names_one|unfold backup_reports; at_most_one].
  - apply (distinct_map c_id); [|done]. apply NoDup_filtered, connections_distinct.
  - apply (distinct_map c_id); [|done]. apply NoDup_filtered, connections_distinct.
  - destruct (policy_of ctx) as [p|]; [|by apply distinct_one; simpl; lia]. unfold technologies_of.
    case_match; [by apply distinct_one; simpl; lia|].
    apply (distinct_each n_id); [apply nodes_distinct|unfold technology_reports; names_one|unfold technology_reports; at_most_one].
  - destruct (policy_of ctx) as [p|]; [|by apply distinct_one; simpl; lia]. unfold regions_of.
    case_match; [by apply distinct_one; simpl; lia|].
    apply (distinct_each n_id); [apply nodes_distinct|unfold region_reports; names_one|unfold region_reports; at_most_one].
  - destruct (policy_of ctx) as [p|]; [|by apply distinct_one; simpl; lia]. unfold tls_of.
    case_match; [|by apply distinct_one; simpl; lia].
    apply (distinct_each c_id); [apply connections_distinct|unfold tls_reports; names_one|unfold tls_reports; at_most_one].
  - apply distinct_one. destruct (policy_of ctx) as [p|]; [|simpl; lia]. unfold count_of_components. at_most_one.
Qed.

(** ** Components *)
Lemma components_distinct :
  (∀ e i, component_evaluation ctx = Ok (Some e) → i ∈ ce_findings e → ck_property i ≠ Some "") →
  distinct (ou_reports (component_output ctx)).
Proof using Type.
  intros Hnamed. unfold component_output, only_reports. cbn [ou_reports].
  destruct (component_evaluation ctx) as [[e|]|]; [|by apply distinct_one; simpl; lia..].
  destruct (groups_spec (ce_findings e)) as [Hwf Hprop].
  intros p q Hp Hq Hc _ He Hf. unfold component_reports in Hp, Hq. set (names := dict_of _) in *.
  apply list_elem_of_omap in Hp as ([k l] & Hk & Hp), Hq as ([k' l'] & Hk' & Hq).
  assert (k = k') as <-.
  { destruct (Hprop k l Hk) as (i & Hi & Hik), (Hprop k' l' Hk') as (i' & Hi' & Hik').
    pose proof (Hnamed e i eq_refl Hi) as Hne. pose proof (Hnamed e i' eq_refl Hi') as Hne'. rewrite Hik in Hne. rewrite Hik' in Hne'.
    destruct k as [[node code] prop], k' as [[node' code'] prop']. cbn [component_report snd] in *.
    apply bind_Some in Hp as (first & _ & [= <-]), Hq as (first' & _ & [= <-]). cbn in Hc, He, Hf. subst code'.
    assert (node = node') as <- by (apply list_elem_of_singleton, He; left). f_equal.
    destruct prop as [s|], prop' as [s'|].
    - destruct s as [|a s]; [done|]. destruct s' as [|a' s']; [done|].
      assert ("configuration." +:+ String a s ∈ ["configuration." +:+ String a' s']) as Hin by (apply Hf; left).
      apply list_elem_of_singleton, (inj (String.append "configuration.")) in Hin. by rewrite Hin.
    - destruct s as [|a s]; [done|]. exfalso. eapply not_elem_of_nil, Hf. left.
    - destruct s' as [|a' s']; [done|]. exfalso. eapply not_elem_of_nil, Hf. left.
    - done. }
  apply dict_get_wf in Hk, Hk'; [|done..]. congruence.
Qed.

(** ** Verdicts *)
Lemma violations_distinct : NoDup (req_id <$> given_requirements ctx) → distinct (ou_reports (verdict_output ctx)).
Proof using Type.
  intros Hn p q Hp Hq _ Hr _ _. unfold verdict_output, judgements in Hp, Hq. cbn [ou_reports] in Hp, Hq.
  assert (∀ x, x ∈ ((λ r, (r, judge (topology ctx) r)) <$> requirements_in_force (given_requirements ctx)) ≫= (λ p, violation_reports p.1 p.2) →
    ∃ r, r ∈ given_requirements ctx ∧ x = violation_report r (judge (topology ctx) r)) as Hshape.
  { intros x (y & Hx & (r & -> & Hin)%list_elem_of_fmap)%list_elem_of_bind. cbn [fst snd] in Hx. exists r. split.
    - apply list_elem_of_filter in Hin as [_ Hin]. by rewrite elem_of_sort_by in Hin.
    - unfold violation_reports in Hx. case_decide; [by apply list_elem_of_singleton in Hx|by apply elem_of_nil in Hx]. }
  apply Hshape in Hp as (r & Hr1 & ->), Hq as (r' & Hr2 & ->).
  cbn [violation_report of_requirement rp_requirement_id] in Hr. injection Hr as Hid.
  by rewrite (NoDup_key_inj req_id (given_requirements ctx) r r' Hn Hr1 Hr2 Hid).
Qed.
End rules.

(** ** References *)
Section twins.
Context (ir : ArchitectureIR) (rs : list Requirement).

Definition referring (i : uuid) : list string := referring_elements (default [] (dict_get i (referencing ir))).

(** The architecture references a requirement the project does not have. *)
Definition dangling (i : uuid) : Prop := (∃ p, p ∈ references_made ir ∧ requirement_id p.2 = i) ∧ i ∉ req_id <$> rs.

(** Two of them, referenced by the same elements. *)
Definition twins : Prop := ∃ i j, i ≠ j ∧ dangling i ∧ dangling j ∧ referring i = referring j.

Lemma live_keys i : i ∈ dict_keys (live_requirements rs) ↔ i ∈ req_id <$> rs.
Proof using Type.
  unfold live_requirements, dict_of, dict_update.
  assert (∀ (d : dict uuid Requirement) l, i ∈ dict_keys (foldl (λ d p, dict_set p.1 p.2 d) d ((λ r, (req_id r, r)) <$> l)) ↔
    i ∈ dict_keys d ∨ i ∈ req_id <$> l) as Hf.
  { intros d l. revert d. induction l as [|r l IH]; intros d; cbn [fmap list_fmap foldl]; [set_solver|].
    rewrite IH. cbn [fst snd]. rewrite dict_keys_set. case_decide; set_solver. }
  rewrite Hf. set_solver.
Qed.

Lemma live_None i : dict_get i (live_requirements rs) = None ↔ i ∉ req_id <$> rs.
Proof using Type. by rewrite dict_get_None, live_keys. Qed.

Lemma dangling_iff i : dangling i ↔ i ∈ dict_keys (referencing ir) ∧ dict_get i (live_requirements rs) = None.
Proof using Type. unfold dangling. by rewrite live_None, referencing_keys. Qed.

(** What the rule on traceability reports, one kind after the other. *)
Inductive traced : report → Prop :=
  | traced_unreferenced r : dict_get (req_id r) (live_requirements rs) = Some r → traced (unreferenced_report r)
  | traced_unknown i : dangling i → traced (unknown_reference i (referring i))
  | traced_not_in_force r : dict_get (req_id r) (live_requirements rs) = Some r →
      traced (not_in_force_report r (referring (req_id r)))
  | traced_outdated r pinned rest : dict_get (req_id r) (live_requirements rs) = Some r →
      outdated_pins (default [] (dict_get (req_id r) (referencing ir))) r = pinned :: rest →
      traced (outdated_report r pinned (referring (req_id r))).

Lemma trace_reports_traced p : p ∈ trace_reports ir rs → traced p.
Proof using Type.
  unfold trace_reports. cbv zeta. rewrite elem_of_app. intros [Hp|Hp].
  - apply list_elem_of_fmap in Hp as (r & -> & [_ Hr]%list_elem_of_filter). rewrite elem_of_sort_by in Hr.
    apply list_elem_of_fmap in Hr as ([i q] & -> & Hq). cbn [snd]. pose proof Hq as Hq'. apply dict_get_wf in Hq; [|apply dict_of_wf].
    constructor. by destruct (live_get rs i q Hq) as [_ ->].
  - apply list_elem_of_bind in Hp as (i & Hp & Hi). rewrite elem_of_sort_by in Hi. unfold reference_reports in Hp. cbv zeta in Hp.
    fold (referring i) in Hp. destruct (dict_get i (live_requirements rs)) as [r|] eqn:El.
    + destruct (live_get rs i r El) as [_ <-]. apply elem_of_app in Hp as [Hp|Hp].
      * destruct (in_force r); [by apply elem_of_nil in Hp|]. apply list_elem_of_singleton in Hp as ->. by constructor.
      * destruct (outdated_pins _ r) as [|v vs] eqn:Ev; [by apply elem_of_nil in Hp|].
        apply list_elem_of_singleton in Hp as ->. by apply (traced_outdated r v vs).
    + apply list_elem_of_singleton in Hp as ->. constructor. by apply dangling_iff.
Qed.

Lemma unknown_reported i : dangling i → unknown_reference i (referring i) ∈ trace_reports ir rs.
Proof using Type.
  intros [Hi El]%dangling_iff. unfold trace_reports. cbv zeta. apply elem_of_app. right. apply list_elem_of_bind. exists i.
  rewrite elem_of_sort_by. split; [|done]. unfold reference_reports. cbv zeta. rewrite El. left.
Qed.

Lemma referring_same i j : same_elements (referring i) (referring j) → referring i = referring j.
Proof using Type.
  assert (∀ k, sorted_set (referring k) = referring k) as Hsorted.
  { intros k. unfold referring, referring_elements, capped. set (l := omap fst _). apply sorted_set_id.
    - pose proof (sorted_set_ordered l) as Ho. rewrite <- (take_drop MAX_REFERENCES (sorted_set l)) in Ho.
      by apply StronglySorted_app_1_l in Ho.
    - apply (sublist_NoDup _ (sorted_set l)); [apply NoDup_sorted_set|apply sublist_take]. }
  intros Hs. rewrite <- (Hsorted i), <- (Hsorted j). by apply sorted_set_eq.
Qed.

(** Without twins, findings of references that differ are of different requirements or elements. *)
Lemma trace_distinct : ¬ twins → distinct (trace_reports ir rs).
Proof using Type.
  intros Hno p q [r Hr|i Hi|r Hr|r pinned rest Hr Hv]%trace_reports_traced [r' Hr'|i' Hi'|r' Hr'|r' pinned' rest' Hr' Hv']%trace_reports_traced
    Hc Hid He _; try discriminate Hc; cbn in Hid, He.
  - assert (r = r') as -> by (injection Hid as Hid; rewrite Hid in Hr; congruence). done.
  - destruct (decide (i = i')) as [->|Hne]; [done|]. destruct Hno. exists i, i'. split_and!; [done..|]. by apply referring_same.
  - assert (r = r') as -> by (injection Hid as Hid; rewrite Hid in Hr; congruence). done.
  - assert (r = r') as <- by (injection Hid as Hid; rewrite Hid in Hr; congruence). congruence.
Qed.

(** Twins give two findings that share what their identifiers are made of. *)
Lemma twins_share m :
  twins → ∃ p q, p ∈ trace_reports ir rs ∧ q ∈ trace_reports ir rs ∧ f_evidence (made m p) ≠ f_evidence (made m q) ∧ finding_parts (made m p) = finding_parts (made m q).
Proof using Type.
  intros (i & j & Hne & Hi & Hj & Hr). exists (unknown_reference i (referring i)), (unknown_reference j (referring j)).
  split; [by apply unknown_reported|]. split; [by apply unknown_reported|]. rewrite Hr. split; [|done].
  intros Heq. cbn in Heq. injection Heq as Heq. by apply points_of_inj in Heq.
Qed.
End twins.

(** Every rule's reports differ in what they are about, but for twins. *)
Lemma built_in_distinct `{ComponentCatalog} ctx :
  valid_request ctx → ∀ r o, (r, o) ∈ built_in_output ctx →
  (r = Traceability → ¬ twins (vc_ir ctx) (given_requirements ctx)) → distinct (ou_reports o).
Proof.
  intros Hq r o Hr Hno. pose proof (plain_distinct ctx (vq_ir _ Hq)) as Hp. rewrite Forall_forall in Hp.
  apply output_cases in Hr as [(reports & -> & Hr)|[[-> ->]|[(reports & -> & Hr)|[[-> ->]|[-> ->]]]]].
  - apply (Hp (r, reports)), elem_of_app. by left.
  - apply components_distinct, vq_properties, Hq.
  - apply (Hp (r, reports)), elem_of_app. by right.
  - specialize (Hno eq_refl). unfold trace_output, given_requirements in *.
    destruct (vc_requirements ctx); [by apply trace_distinct|by apply distinct_one; simpl; lia].
  - apply violations_distinct, vq_distinct, Hq.
Qed.

