(* ===== verification/ValidationGate.v ===== *)
(** A validation with the built-in rules, from the request to the stored run: what the engine answers is as its
    constructors make it; two findings of one result share what their identifiers are made of only when two
    requirements the project does not have are referenced by the same elements, and then nothing is stored; any
    other valid request completes, and what it stores says whether the revision keeps the policy of its project
    and its critical requirements. *)
From Stdlib Require Import Lia ZArith.
From S2P Require Import Prelude Data Codecs Errors Values Provenance Traceability Component Configuration Elements Model Topology Serialization RoundTrip.
From S2P Require Import JsonText Computations Store Transactions Policy Identity Accounts Invariants Kosaraju Projects Revisions Estate ArchitectureService Workspaces.
From S2P Require Import EstateInvariants EstateProperties ContentProperties Requirements Findings ValidationEngine ValidationRules PolicyRules RequirementRules ValidationFacts RequirementFacts.
From S2P Require Import Verdicts ValidationProperties Runs ValidationService RunProperties RunListing DistinctFindings.

(** * Results are well made *)
Lemma ValidationResult_new_idemp r : ValidationResult_new (ValidationResult_new r) = ValidationResult_new r.
Proof.
  unfold ValidationResult_new. cbn [vr_rule_set vr_context_fingerprint vr_findings vr_requirement_results vr_failures
    vr_limitations vr_components]. unfold finding_key_leb.
  rewrite (dedup_id (sort_by _ (dedup (vr_findings r)))), (dedup_id (sort_by _ (dedup (vr_limitations r))))
    by apply NoDup_sort_by, NoDup_dedup.
  by rewrite !sort_by_idemp by apply _.
Qed.

Section engine.
Context `{ComponentCatalog}.

(** Findings and verdicts as their constructors made them. *)
Definition constructed (fs : list Finding) (vs : list RequirementResult) : Prop :=
  Forall (built Finding_new Finding_args) fs ∧ Forall verdict_ok vs.

(** A rule that gives nothing else, whatever it is given. *)
Definition reports_only (r : Rule) : Prop :=
  ∀ ctx params o, evaluate r ctx params = Ok o → constructed (oc_findings o) (oc_requirement_results o).

Lemma constructed_findings m reports fs : py_map (finding m) reports = Ok fs → Forall (built Finding_new Finding_args) fs.
Proof using Type.
  intros E%py_map_ok. apply Forall_forall. intros f Hf.
  apply list_elem_of_lookup in Hf as [i Hi]. destruct (Forall2_lookup_r _ _ _ _ _ E Hi) as (p & _ & Hp).
  unfold finding in Hp. exact (rebuild _ _ Hp).
Qed.

Lemma outcome_built m reports o : outcome_of m reports = Ok o → constructed (oc_findings o) (oc_requirement_results o).
Proof using Type.
  unfold outcome_of. destruct (py_map (finding m) reports) as [fs|e] eqn:E; [|done]. intros [= <-].
  split; [by eapply constructed_findings|constructor].
Qed.

Lemma verdict_constructed m j v : verdict m j = Ok v → verdict_ok v.
Proof using Type.
  intros Hv. destruct (verdict_or_refused m j) as [Hd|[fields Hd]]; [|congruence]. assert (v = decided m j) as -> by congruence.
  unfold verdict_ok. rewrite decided_args. unfold verdict in Hv. revert Hv. unfold RequirementResult_new. cbv zeta.
  cbn [ra_requirement_id ra_reference ra_requirement_version ra_verdict ra_reason ra_rule_id ra_entity_ids ra_evidence].
  by rewrite sorted_strings_idemp.
Qed.

Lemma verdicts_constructed t rs given :
  py_map (judge_one t) rs = Ok given → constructed (mjoin given.*2) given.*1.
Proof using Type.
  intros E%py_map_ok.
  assert (∀ p, p ∈ given → verdict_ok p.1 ∧ Forall (built Finding_new Finding_args) p.2) as Hp.
  { intros p Hp. apply list_elem_of_lookup in Hp as [i Hi]. destruct (Forall2_lookup_r _ _ _ _ _ E Hi) as (r & _ & Hr).
    unfold judge_one in Hr. cbv zeta in Hr. apply py_bind_ok in Hr as (v & Hv & Hr). apply py_bind_ok in Hr as (fs & Hfs & [= <-]).
    split; [by eapply verdict_constructed|by eapply constructed_findings]. }
  split; apply Forall_forall.
  - intros f (fs & Hf & Hfs)%list_elem_of_join. apply list_elem_of_fmap in Hfs as (p & -> & Hin).
    destruct (Hp p Hin) as [_ Ha]. rewrite Forall_forall in Ha. by apply Ha.
  - intros v (p & -> & Hin)%list_elem_of_fmap. by apply Hp.
Qed.

(** What the rules have given so far. *)
Definition well_made (st : progress) : Prop := constructed (pg_findings st) (pg_verdicts st).

Lemma rule_step_made ctx st r st' : reports_only r → well_made st → rule_step ctx st r = Ok st' → well_made st'.
Proof using Type.
  intros Hr [Hf Hv]. unfold rule_step. destruct (run_rule ctx r) as [o|e] eqn:E; [|by intros [= <-]].
  unfold run_rule in E. cbv zeta in E. apply py_bind_ok in E as (o' & Ho & Hc).
  apply Hr in Ho as [Hb Hn].
  assert (o' = o) as -> by (unfold checked in Hc; case_match; congruence).
  intros (fs & Hfs & [= <-])%py_bind_ok. split; cbn [pg_findings pg_verdicts]; [|by apply Forall_app].
  apply Forall_app. split; [done|]. apply py_map_ok in Hfs. apply Forall_forall. intros f Hin.
  apply list_elem_of_lookup in Hin as [i Hi]. destruct (Forall2_lookup_r _ _ _ _ _ Hfs Hi) as (g & Hg & Hok).
  rewrite Forall_forall in Hb. assert (built Finding_new Finding_args g) by (apply Hb; by eapply list_elem_of_lookup_2).
  rewrite apply_override_regrade in Hok by done. injection Hok as <-. by apply regrade_built.
Qed.

Lemma rules_loop_made ctx rules st st' :
  (∀ r, r ∈ rules → reports_only r) → well_made st → rules_loop ctx st rules = Ok st' → well_made st'.
Proof using Type.
  revert st. induction rules as [|r rules IH]; intros st Hr Hst; cbn [rules_loop]; [by intros [= <-]|].
  intros (st1 & H1 & H2)%py_bind_ok. apply (IH st1); [set_solver| |done]. eapply rule_step_made; [apply Hr; left|done..].
Qed.

Lemma limitations_made ctx l : limitations ctx = Ok l → Forall limitation_ok l.
Proof using Type.
  unfold limitations. intros (components & Hc & [= <-])%py_bind_ok.
  assert (limitation_ok NO_POLICY ∧ limitation_ok NO_REQUIREMENTS) as [Hp Hq] by (split; by vm_compute).
  apply Forall_app. split.
  2:{ destruct (has_policy ctx), (vc_requirements ctx); repeat first [apply Forall_nil_2|apply Forall_cons_2; [done|]]. }
  destruct (vc_catalog ctx) as [c|].
  - destruct (filter _ _) as [|n ns]; [injection Hc as <-; apply Forall_nil_2|].
    apply py_bind_ok in Hc as (x & Hx & [= <-]). apply Forall_cons_2; [|apply Forall_nil_2].
    unfold components_not_referenced, Limitation_new in Hx. cbv zeta in Hx. unfold limitation_ok.
    pose proof Hx as Hx'. apply py_bind_ok in Hx' as ([] & _ & [= <-]). exact Hx.
  - injection Hc as <-. apply Forall_cons_2; [by vm_compute|apply Forall_nil_2].
Qed.

(** A registry of rules that only report gives results as their constructors make them. *)
Lemma validate_made rs ctx res :
  NoDup (rule_id <$> rs) → (∀ r, r ∈ rs → reports_only r) → validate ctx (registered rs) = Ok res → result_ok res.
Proof using Type.
  intros Hn Hr. unfold validate. intros (rules & Hsel & Hres)%py_bind_ok.
  apply py_bind_ok in Hres as (st & Hst & Hres). apply py_bind_ok in Hres as (fp & _ & Hres).
  apply py_bind_ok in Hres as (limits & Hl & Hres). apply py_bind_ok in Hres as (components & _ & [= <-]).
  assert (∀ r, r ∈ rules → reports_only r) as Hrules.
  { pose proof (select_spec rs (vc_config ctx) Hn) as Hs. rewrite Hsel in Hs. destruct Hs as [_ ->].
    intros r. unfold selection. rewrite elem_of_sort_by, list_elem_of_filter. intros [_ ?]. by apply Hr. }
  destruct (rules_loop_made ctx rules no_progress st) as [Hf Hv]; [done|by split; apply Forall_nil_2|done|]. constructor.
  - apply ValidationResult_new_idemp.
  - cbn [ValidationResult_new vr_findings]. rewrite Forall_forall in Hf |- *. intros f. rewrite elem_of_sort_by, elem_of_dedup. apply Hf.
  - cbn [ValidationResult_new vr_requirement_results]. rewrite Forall_forall in Hv |- *. intros v. rewrite elem_of_sort_by. apply Hv.
  - cbn [ValidationResult_new vr_limitations]. apply limitations_made in Hl. rewrite Forall_forall in Hl |- *.
    intros x. rewrite elem_of_sort_by, elem_of_dedup. apply Hl.
Qed.

Lemma built_in_report r : r ∈ BUILT_IN_RULES → reports_only r.
Proof using Type.
  assert (Forall reports_only BUILT_IN_RULES) as Ha; [|rewrite Forall_forall in Ha; apply Ha].
  assert (∀ m reports, reports_only (reporting m reports)) as Hreporting by (intros m reports ctx params o; apply outcome_built).
  unfold BUILT_IN_RULES. repeat apply Forall_cons_2; [..|apply Forall_nil_2]; try apply Hreporting; intros ctx params o Ho.
  - change (match dict_get "include_unstated" params with
            | None => Raise KeyError
            | Some unstated => let calls := waiting_calls (vc_ir ctx) (truthy unstated) in
                outcome_of SynchronousCycles_meta (cycle_report calls <$> call_cycles calls)
            end = Ok o) in Ho.
    destruct (dict_get _ params); [by eapply outcome_built|done].
  - cbn [evaluate ComponentConstraints] in Ho. apply py_bind_ok in Ho as ([e|] & _ & Ho); [by eapply outcome_built|].
    injection Ho as <-. split; constructor.
  - cbn [evaluate Verdicts] in Ho. destruct (vc_requirements ctx) as [rs|]; [|injection Ho as <-; split; constructor].
    apply py_bind_ok in Ho as (given & Hg & [= <-]). cbn [oc_findings oc_requirement_results]. by eapply verdicts_constructed.
Qed.

Lemma built_in_sound c : engine_sound (engine_validate (registered BUILT_IN_RULES) c).
Proof using Type.
  intros ir revision requirements policy config result Hv.
  eapply validate_made; [apply built_in_ids|apply built_in_report|exact Hv].
Qed.
End engine.

(** * Storing the findings *)
Section storing.
Context (run : ValidationRun) (row_id : nat → uuid) (Hinj : ∀ m n, row_id m = row_id n → m = n).

Lemma no_row_like (P : FindingRow → bool) s :
  (∀ i r, run_findings s !! i = Some r → P r = false) → existsb P (rows (run_findings s)) = false.
Proof using Type.
  intros HP. apply not_true_iff_false. intros (x & Hx & Hp)%existsb_exists. apply list_elem_of_In, elem_of_rows in Hx as [i Hi].
  by rewrite (HP i x Hi) in Hp.
Qed.

Lemma a_row_like (P : FindingRow → bool) s i r :
  run_findings s !! i = Some r → P r = true → existsb P (rows (run_findings s)) = true.
Proof using Type. intros Hi Hp. apply existsb_exists. exists r. split; [|done]. apply list_elem_of_In, elem_of_rows. by exists i. Qed.

(** The rows of a run so far: at positions before a given one, with the given identifiers. *)
Record stored_so_far (k : nat) (seen : list string) (s : records) : Prop := {
  so_fresh : ∀ n, (k ≤ n)%nat → run_findings s !! row_id n = None;
  so_before : ∀ i row, run_findings s !! i = Some row → vf_run_id row = vn_id run →
    (vf_position row < Z.of_nat k)%Z ∧ vf_finding_id row ∈ seen;
  so_seen : ∀ x, x ∈ seen → ∃ i row, run_findings s !! i = Some row ∧ vf_run_id row = vn_id run ∧ vf_finding_id row = x;
}.

Lemma insert_one k seen s f :
  stored_so_far k seen s →
  if decide (finding_id f ∈ seen) then insert_finding (finding_row run (row_id k) k f) s = (Raise (IntegrityError "run_id, finding_id"), s)
  else ∃ s', insert_finding (finding_row run (row_id k) k f) s = (Ok tt, s') ∧ stored_so_far (S k) (seen ++ [finding_id f]) s'.
Proof using Hinj.
  intros [Hfresh Hbefore Hseen]. set (row := finding_row run (row_id k) k f).
  assert (existsb (same_position row) (rows (run_findings s)) = false) as Hpos.
  { apply no_row_like. intros i r Hi. unfold same_position. destruct (String.eqb_spec (vf_run_id r) (vf_run_id row)) as [He|]; [|done].
    destruct (Hbefore i r Hi He) as [Hlt _]. cbn [andb]. apply Z.eqb_neq. cbn. lia. }
  unfold insert_finding, mbind, io_bind, query at 1. unfold query at 1. rewrite Hpos. unfold raise_when at 1, mret at 1, io_ret at 1.
  case_decide as Hin.
  - destruct (Hseen _ Hin) as (i & r & Hi & Hr & Hid).
    rewrite (a_row_like (same_finding row) s i r Hi); [done|]. unfold same_finding. cbn [vf_run_id vf_finding_id row finding_row].
    rewrite Hr, Hid, !String.eqb_refl. done.
  - assert (existsb (same_finding row) (rows (run_findings s)) = false) as ->.
    { apply no_row_like. intros i r Hi. unfold same_finding. destruct (String.eqb_spec (vf_run_id r) (vf_run_id row)) as [He|]; [|done].
      destruct (Hbefore i r Hi He) as [_ Hr]. cbn [andb]. apply String.eqb_neq. intros Heq. apply Hin. by rewrite Heq in Hr. }
    unfold raise_when, mret, io_ret, insert_row, mbind, io_bind, query. change (vf_id row) with (row_id k).
    rewrite (Hfresh k) by done. eexists. split; [reflexivity|]. constructor; cbn [run_findings set_run_findings].
    + intros n Hle. rewrite lookup_insert_ne; [apply Hfresh; lia|]. intros Heq%Hinj. lia.
    + intros i r. rewrite lookup_insert_Some. intros [(<- & <-)|(_ & Hi)] Hid.
      * split; [cbn; lia|]. apply elem_of_app. right. left.
      * destruct (Hbefore i r Hi Hid). split; [lia|]. apply elem_of_app. by left.
    + intros x [Hx|Hx%list_elem_of_singleton]%elem_of_app.
      * destruct (Hseen x Hx) as (i & r & Hi & Hr). exists i, r. split; [|done]. rewrite lookup_insert_ne; [done|].
        intros <-. by rewrite Hfresh in Hi.
      * exists (row_id k), row. by rewrite lookup_insert_eq.
Qed.

(** The findings are stored when their identifiers differ; else the constraint of the table refuses them. *)
Lemma insert_findings_runs l : ∀ k seen s,
  stored_so_far k seen s → NoDup seen →
  let inserted := each insert_finding (imap (λ n f, finding_row run (row_id (k + n)%nat) (k + n) f) l) s in
  if decide (NoDup (seen ++ (finding_id <$> l))) then ∃ s', inserted = (Ok tt, s')
  else ∃ s', inserted = (Raise (IntegrityError "run_id, finding_id"), s').
Proof using Hinj.
  induction l as [|f l IH]; intros k seen s Hs Hn; cbv zeta.
  - cbn [fmap list_fmap]. rewrite app_nil_r, decide_True by done. by exists s.
  - rewrite imap_cons. cbn [each fmap list_fmap]. rewrite Nat.add_0_r. pose proof (insert_one k seen s f Hs) as Hone.
    unfold mbind at 1 2, io_bind at 1 2. case_decide as Hin.
    + rewrite Hone, decide_False; [by exists s|]. intros (_ & Hd & _)%NoDup_app. apply (Hd _ Hin). left.
    + destruct Hone as (s1 & Hs1 & Hso). rewrite Hs1.
      pose proof (IH (S k) (seen ++ [finding_id f]) s1 Hso) as Hrest. rewrite <- app_assoc in Hrest. cbn [app] in Hrest.
      assert (imap ((λ n g, finding_row run (row_id (k + n)%nat) (k + n) g) ∘ S) l =
        imap (λ n g, finding_row run (row_id (S k + n)%nat) (S k + n) g) l) as ->.
      { apply imap_ext. intros n x _. unfold compose. by rewrite Nat.add_succ_r. }
      apply Hrest. apply NoDup_app. split_and!; [done| |apply NoDup_singleton]. intros x Hx ->%list_elem_of_singleton. done.
Qed.
End storing.

Lemma validations_add_runs row_id run inputs s :
  records_ok s → (∀ m n, row_id m = row_id n → m = n) → (∀ n, run_findings s !! row_id n = None) →
  runs s !! vn_id run = None →
  if decide (NoDup (finding_id <$> findings_of run))
  then ∃ s', validations_add row_id run inputs s = (Ok (RunReport_of run inputs), s')
  else ∃ s', validations_add row_id run inputs s = (Raise (IntegrityError "run_id, finding_id"), s').
Proof.
  intros Hok Hinj Hfresh Hnew. unfold validations_add, mbind, io_bind.
  assert (insert_row (vn_id run) (run_record run inputs) runs set_runs s =
    (Ok tt, set_runs <[vn_id run := run_record run inputs]> s)) as ->.
  { unfold insert_row, mbind, io_bind, query. by rewrite Hnew. }
  pose proof (insert_findings_runs run row_id Hinj (findings_of run) 0 [] (set_runs <[vn_id run := run_record run inputs]> s)) as Hins.
  cbv zeta in Hins. cbn [app Nat.add] in Hins.
  assert (stored_so_far run row_id 0 [] (set_runs <[vn_id run := run_record run inputs]> s)) as Hso.
  { constructor; cbn [run_findings set_runs].
    - intros n _. apply Hfresh.
    - intros i row Hi Hid. destruct (rk_findings _ Hok i row Hi) as [_ [r Hr]]. rewrite Hid in Hr. congruence.
    - by intros x Hx%elem_of_nil. }
  specialize (Hins Hso (NoDup_nil_2)). destruct (decide (NoDup _)); destruct Hins as [s' ->]; by exists s'.
Qed.

(** * What the built-in rules give *)
Section built_in.
Context `{ComponentCatalog}.

(** The request selects the rule on traceability, and the architecture has twins. *)
Definition reports_twins (ctx : ValidationContext) : Prop :=
  selected (vc_config ctx) Traceability ∧ twins (vc_ir ctx) (given_requirements ctx).

Lemma result_parts ctx res f g :
  valid_request ctx → answered ctx res → ¬ reports_twins ctx →
  f ∈ vr_findings res → g ∈ vr_findings res → finding_parts f = finding_parts g → f = g.
Proof using Type.
  intros Hq Ha Hno Hf Hg Heq.
  apply (aw_findings _ _ Ha) in Hf as (r & o & p & (Hr & Hs & _) & Hp & ->).
  apply (aw_findings _ _ Ha) in Hg as (r' & o' & q & (Hr' & Hs' & _) & Hq' & ->).
  assert (finding_parts (made (meta r) p) = finding_parts (made (meta r') q)) as Hparts by exact Heq.
  assert (rule_id r = rule_id r') as Hid by by injection Hparts.
  assert (r = r') as <- by (apply (NoDup_key_inj rule_id BUILT_IN_RULES); [apply built_in_ids|by eapply output_rule..|done]).
  rewrite (output_unique _ _ _ _ Hr' Hr) in Hq'.
  assert (distinct (ou_reports o)) as Hd.
  { apply (built_in_distinct ctx Hq r o Hr). intros -> Ht. by apply Hno. }
  by rewrite (made_distinct (meta r) (ou_reports o) p q Hd Hp Hq' Hparts).
Qed.

(** No two findings of a result have the same digest for different contents. *)
Definition no_collision (res : ValidationResult) : Prop :=
  ∀ f g, f ∈ vr_findings res → g ∈ vr_findings res → finding_id f = finding_id g → finding_parts f = finding_parts g.

Lemma findings_identified ctx res :
  valid_request ctx → validate ctx (registered BUILT_IN_RULES) = Ok res → answered ctx res → no_collision res →
  ¬ reports_twins ctx → NoDup (finding_id <$> vr_findings res).
Proof using Type.
  intros Hq Hres Ha Hc Hno.
  assert (NoDup (vr_findings res)) as Hn.
  { unfold validate in Hres. repeat apply py_bind_ok in Hres as (? & _ & Hres). injection Hres as <-.
    apply NoDup_sort_by, NoDup_dedup. }
  apply NoDup_fmap_2_strong; [|done]. intros f g Hf Hg Hid. apply (result_parts ctx res); auto.
Qed.

Lemma twins_collide ctx res rs :
  valid_request ctx → answered ctx res → vc_requirements ctx = Some rs → reports_twins ctx →
  ¬ NoDup (finding_id <$> vr_findings res).
Proof using Type.
  intros Hq Ha Hrs [Hs Ht] Hn. assert (given_requirements ctx = rs) as Hg by (unfold given_requirements; by rewrite Hrs).
  rewrite Hg in Ht. destruct (twins_share _ _ Traceability_meta Ht) as (p & q & Hp & Hq' & Hne & Hsame).
  assert (∀ x, x ∈ trace_reports (vc_ir ctx) rs → regrade (override_of ctx Traceability) (made Traceability_meta x) ∈ vr_findings res) as Hin.
  { intros x Hx. apply (aw_findings _ _ Ha). exists Traceability, (trace_output ctx), x. split; [|split; [|done]].
    - split; [apply output_cases; do 3 right; by left|]. split; [done|].
      apply (trace_fits ctx (vq_ir _ Hq) (vq_requirements _ Hq)).
    - unfold trace_output. by rewrite Hrs. }
  apply Hne. assert (regrade (override_of ctx Traceability) (made Traceability_meta p) =
    regrade (override_of ctx Traceability) (made Traceability_meta q)) as Heq.
  { apply (NoDup_key_inj finding_id (vr_findings res)); [done|by apply Hin..|]. by apply finding_parts_id. }
  exact (f_equal f_evidence Heq).
Qed.
End built_in.

(** * What a request meets *)

(** A request to validate a revision: made by a member who may, of a live architecture of a project that is
    not archived; the identifiers drawn are new. *)
Record askable (s : records) (d : draws) (row_id : nat → uuid) (project id user : uuid) (number : option Z)
    (p : Project) (a : Architecture) (rev : ArchitectureRevision) (requirements : list Requirement) : Prop := {
  vb_may : ∃ r, may_write (estate_of s) user project ARCHITECTURE_VALIDATE r ∧ to_project r = Ok p;
  vb_held : holds (estate_of s) project id a;
  vb_active : ar_status a = ARCHITECTURE_ACTIVE;
  vb_revision : ∃ row, revision_at (estate_of s) (ar_id a) (default (ar_current_revision a) number) row ∧
    to_revision row = Ok rev;
  vb_requirements : requirements_of (estate_of s) project = Ok requirements;
  vb_run : runs s !! new_id d = None;
  vb_rows : (∀ m n, row_id m = row_id n → m = n) ∧ ∀ n, run_findings s !! row_id n = None;
}.

Lemma write_access_is user project permission e r p :
  estate_ok e → may_write e user project permission r → to_project r = Ok p →
  ∃ m, project_access project user permission (Some SHARE) e = (Ok (p, m), e).
Proof.
  intros Hok Hmay Hp. destruct (write_access_granted _ _ _ _ _ Hok Hmay) as [[q m] Hq]. unfold write_access in Hq.
  pose proof Hq as (_ & r' & (m' & Hs' & _) & Hp' & _)%project_access_ok.
  destruct Hmay as [(m'' & Hs'' & _) _]. destruct (sees_unique _ _ _ _ _ _ _ Hs' Hs'') as [<- _].
  exists m. congruence.
Qed.

Lemma run_facts_recorded action user organization a report e :
  ∃ e', on_accounts (record (organization_event action user organization "architecture" a (run_facts report))) e = (Ok tt, e').
Proof.
  unfold on_accounts, record, mbind, io_bind, lift.
  assert (AuditEvent_new (organization_event action user organization "architecture" a (run_facts report)) =
    Ok (organization_event action user organization "architecture" a (run_facts report))) as ->; [|by eexists].
  unfold AuditEvent_new, run_facts. cbn [a_metadata organization_event].
  destruct (rt_summary report), (vn_error (rt_run report)); reflexivity.
Qed.

(** The service does what the engine answers; findings that share an identifier are refused by their table. *)
Lemma validate_ends engine d t row_id project id user config number s p a rev requirements :
  records_ok s → askable s d row_id project id user number p a rev requirements →
  match ended_run engine (started_run (new_id d) project user a rev config (now d)) a rev requirements (pj_policy p) config t with
  | Ok run => vn_id run = new_id d →
      if decide (NoDup (finding_id <$> findings_of run))
      then ∃ s', validation_validate engine d t row_id project id user config number s =
        (Ok (RunReport_of run (with_components run (given_inputs config (pj_policy p) requirements))), s')
      else validation_validate engine d t row_id project id user config number s = (Raise (IntegrityError "run_id, finding_id"), s)
  | Raise e => validation_validate engine d t row_id project id user config number s = (Raise e, s)
  end.
Proof.
  intros Hok [(r & Hmay & Hp) Hh Hact (row & Hrow & Hrev) Hreq Hrun [Hinj Hfresh]].
  destruct (write_access_is _ _ _ _ _ _ (rk_estate _ Hok) Hmay Hp) as [m Haccess].
  set (rest := λ run, report ← validations_add row_id run (with_components run (given_inputs config (pj_policy p) requirements));
    _ ← on_estate (on_accounts (record (organization_event Store.ARCHITECTURE_VALIDATED user
          (pj_organization_id p) "architecture" (ar_id a) (run_facts report)))); mret report).
  assert (validation_validate engine d t row_id project id user config number s =
    match ended_run engine (started_run (new_id d) project user a rev config (now d)) a rev requirements (pj_policy p) config t with
    | Ok run => unit_of_work (rest run) s
    | Raise e => (Raise e, s)
    end) as ->.
  { unfold validation_validate, unit_of_work.
    unfold mbind at 1, io_bind at 1. rewrite (on_estate_read _ _ _ Haccess).
    unfold mbind at 1, io_bind at 1. rewrite (on_estate_read _ _ _ (get_architecture_held _ _ _ _ Hh)).
    assert (Architecture_ensure_modifiable a = Ok tt) as Hmod.
    { destruct Hh as (_ & _ & Hd). unfold Architecture_ensure_modifiable, Architecture_is_deleted, Architecture_is_archived.
      by rewrite Hd, Hact. }
    unfold mbind at 1, io_bind at 1, lift at 1. rewrite Hmod. cbv zeta.
    assert (get_revision a (default (ar_current_revision a) number) (estate_of s) = (Ok rev, estate_of s)) as Hget.
    { by rewrite (get_revision_at _ _ _ _ (rk_estate _ Hok) Hrow), Hrev. }
    unfold mbind at 1, io_bind at 1. rewrite (on_estate_read _ _ _ Hget).
    assert (requirements_list_by_status project members (S MAX_CONTEXT_REQUIREMENTS) (estate_of s) = (Ok requirements, estate_of s)) as Hlist
      by (by rewrite requirements_read, Hreq).
    unfold mbind at 1, io_bind at 1. rewrite (on_estate_read _ _ _ Hlist).
    unfold mbind at 1, io_bind at 1, lift at 1.
    change (run_start _ _) with (Ok (started_run (new_id d) project user a rev config (now d))). cbn [fst].
    unfold mbind at 1, io_bind at 1, lift at 1. unfold ended_run.
    by destruct (if (_ <? _)%nat then _ else _). }
  destruct (ended_run _ _ _ _ _ _ _ _) as [run|e]; [|done]. intros Hid.
  pose proof (validations_add_runs row_id run (with_components run (given_inputs config (pj_policy p) requirements)) s Hok Hinj Hfresh) as Hadd.
  specialize (Hadd ltac:(by rewrite Hid)). destruct (decide _); destruct Hadd as [s1 Hadd].
  - destruct (run_facts_recorded Store.ARCHITECTURE_VALIDATED user (pj_organization_id p) (ar_id a)
      (RunReport_of run (with_components run (given_inputs config (pj_policy p) requirements))) (estate_of s1)) as [e2 Hlog].
    exists (set_estate e2 s1). unfold unit_of_work, rest, mbind at 1, io_bind at 1. rewrite Hadd.
    unfold mbind at 1, io_bind at 1, on_estate at 1. by rewrite Hlog.
  - unfold unit_of_work, rest, mbind at 1, io_bind at 1. by rewrite Hadd.
Qed.

(** * A valid request completes *)
Section gate.
Context `{ComponentCatalog} (c : option catalog).

Definition built_in_engine : validator := engine_validate (registered BUILT_IN_RULES) c.

(** What the engine is given. *)
Definition context_of (rev : ArchitectureRevision) (a : Architecture) (requirements : list Requirement)
    (policy : ArchitecturePolicy) (config : ValidationConfig) : ValidationContext := {|
  vc_ir := rv_ir rev; vc_revision := revision_info rev a; vc_requirements := Some requirements;
  vc_config := config; vc_policy := if policy_is_empty policy then None else Some policy; vc_catalog := c |}.

(** The request asks of the engine what it offers, of content and policy as their constructors make them, and
    no two findings collide. *)
Record answerable (p : Project) (a : Architecture) (rev : ArchitectureRevision)
    (requirements : list Requirement) (config : ValidationConfig) : Prop := {
  an_requirements : (length requirements <=? MAX_CONTEXT_REQUIREMENTS)%nat = true;
  an_valid : valid_request (context_of rev a requirements (pj_policy p) config);
  an_collision : ∀ res, validate (context_of rev a requirements (pj_policy p) config) (registered BUILT_IN_RULES) = Ok res →
    no_collision res;
}.

Lemma blocking_count l : length (filter (λ f, f_blocking f = true) l) = 0 ↔ ∀ f, f ∈ l → f_blocking f = false.
Proof using Type.
  rewrite length_zero_iff_nil, filter_nil_iff. split; intros Hl f Hf; specialize (Hl f Hf);
    destruct (f_blocking f); done.
Qed.

(** How a validation with the built-in rules ends. *)
Lemma built_in_ends id project user t p a rev requirements config now :
  answerable p a rev requirements config →
  let ctx := context_of rev a requirements (pj_policy p) config in
  ∃ res, ended_run built_in_engine (started_run id project user a rev config now) a rev requirements (pj_policy p) config t =
      Ok (run_with RUN_COMPLETED (Some now) (Some t) (Some res) None (requested_run id project user a rev config now)) ∧
    answered ctx res ∧ (NoDup (finding_id <$> vr_findings res) ↔ ¬ reports_twins ctx).
Proof using Type.
  intros [Hlen Hq Hcol]. cbv zeta. destruct (built_in_result _ Hq) as (res & Hres & Ha). exists res. split; [|split; [done|]].
  - unfold ended_run, engine_run.
    assert ((MAX_CONTEXT_REQUIREMENTS <? length requirements)%nat = false) as -> by (apply Nat.ltb_ge; by apply Nat.leb_le).
    change (built_in_engine _ _ _ _ _) with (validate (context_of rev a requirements (pj_policy p) config) (registered BUILT_IN_RULES)).
    by rewrite Hres.
  - split.
    + intros Hn Ht. by apply (twins_collide _ res requirements Hq Ha eq_refl Ht).
    + intros Hno. apply (findings_identified _ res Hq Hres Ha); auto.
Qed.

(** The policy of the project is kept, as the engine is given it. *)
Lemma policy_given rev a requirements policy config :
  (∀ q, vc_policy (context_of rev a requirements policy config) = Some q → complies q (rv_ir rev)) ↔ complies policy (rv_ir rev).
Proof using Type.
  cbn [vc_policy context_of]. destruct (policy_is_empty policy) eqn:Ee.
  - split; [intros _; by apply empty_policy_complies|done].
  - split; [intros Hall; by apply Hall|by intros ? q [= <-]].
Qed.

(** No rule has failed exactly when what every selected rule gives fits. *)
Lemma failures_count ctx res :
  answered ctx res →
  length (vr_failures res) = 0 ↔ ∀ r o, (r, o) ∈ built_in_output ctx → selected (vc_config ctx) r → fits (meta r) o = true.
Proof using Type.
  intros Ha. rewrite length_zero_iff_nil. split.
  - intros Hnil r o Hr Hs. destruct (fits (meta r) o) eqn:Hf; [done|]. exfalso. apply (not_elem_of_nil (invalid_output (meta r))).
    rewrite <- Hnil. apply (aw_failures _ _ Ha). by exists r, o.
  - intros Hall. destruct (vr_failures res) as [|x l] eqn:E; [done|]. exfalso.
    assert (x ∈ vr_failures res) as Hx by (rewrite E; left). apply (aw_failures _ _ Ha) in Hx as (r & o & Hr & Hs & Hf & _).
    by rewrite (Hall r o Hr Hs) in Hf.
Qed.
End gate.
