(* ===== verification/ValidationRuns.v ===== *)
(** Validation runs, as their callers see them: what is stored, what is read back, what the engine's answers
    become, and what a run says of the policy. *)
From Stdlib Require Import Lia ZArith Ascii.
From S2P Require Import Prelude Data Codecs Errors Traceability Model Commands Serialization RoundTrip Computations Store Transactions Policy Identity Accounts Invariants AccountProperties.
From S2P Require Import JsonText Requirements Findings ValidationEngine ValidationRules PolicyRules RequirementRules ValidationFacts RequirementFacts Verdicts ValidationProperties DistinctFindings.
From S2P Require Import Projects ProjectProperties Revisions Estate ProjectService ArchitectureService Workspaces EstateInvariants EstateProperties ContentProperties Listing.
From S2P Require Import Runs ValidationService RunProperties RunListing ValidationGate.

(** * An example: Ada's project gets a policy, its architecture the two services, and she validates it, when the
    two requirements it references are no longer there *)
Definition referenced_row (n : nat) : RequirementRow := {|
  qr_id := sample_uuid n; qr_project_id := sample_project; qr_number := Z.of_nat n; qr_current_version := 1;
  qr_type := "functional"; qr_category := "checkout"; qr_title := "Orders are charged"; qr_statement := "Charge every order.";
  qr_priority := "high"; qr_status := "active"; qr_structured_data := JNull; qr_scope := "system"; qr_deleted_at := None |}.

Definition with_policy : estate := ask 85 ada (UpdatePolicy sample_project sample_policy) with_revision.
Definition with_requirements : estate :=
  set_requirements {[sample_uuid 1 := referenced_row 1; sample_uuid 2 := referenced_row 2]} ∅ with_policy.
Definition with_system : estate :=
  ask 90 ada (ReplaceArchitecture (sample_draws 90 60 "") sample_project sample_architecture 2 sample_system BY_USER None None)
    with_requirements.
Definition without_requirements : estate := set_requirements ∅ ∅ with_system.
Definition sample_records : records := set_estate without_requirements empty_records.
Definition sample_row_id (n : nat) : uuid := "row-" +:+ text_of (repeat "1"%char n).

#[local] Existing Instance listed_catalog.

Definition asked_with (config : ValidationConfig) (s : records) : py RunReport * records :=
  validation_validate (built_in_engine None) (sample_draws 100 70 "") (101 * SECOND) sample_row_id sample_project
    sample_architecture ada config None s.

Definition sample_validation : records → py RunReport * records := asked_with strict_config.

Lemma sample_row_id_inj m n : sample_row_id m = sample_row_id n → m = n.
Proof.
  unfold sample_row_id. intros H%(inj (String.append "row-")).
  apply (f_equal (λ s, length (String.list_ascii_of_string s))) in H. unfold text_of in H.
  by rewrite !String.list_ascii_of_string_of_list_ascii, !repeat_length in H.
Qed.

Lemma estate_steps `{Externals} cfg e e' s :
  rtc (step cfg) e e' → rtc (records_step cfg) (set_estate e s) (set_estate e' s).
Proof.
  induction 1 as [e|e e1 e2 Hs _ IH]; [reflexivity|]. eapply rtc_l; [|exact IH].
  exact (rs_estate cfg (set_estate e s) e1 Hs).
Qed.

Lemma sample_records_reachable : reachable_records sample_config sample_records.
Proof.
  apply (estate_steps sample_config empty_estate without_requirements empty_records).
  eapply rtc_r; [|apply s_requirements]. apply ask_reachable. eapply rtc_r; [|apply s_requirements].
  apply ask_reachable, with_revision_reachable.
Qed.

(** ** What the request meets *)
Definition policy_row : ProjectRow := {|
  pr_id := sample_project; pr_organization_id := sample_id 7; pr_name := "Checkout"; pr_slug := "checkout";
  pr_description := ""; pr_status := PROJECT_ACTIVE;
  pr_settings := [("cloud_provider", JNull); ("currency", JStr "USD")];
  pr_architecture_policy := JObj (ArchitecturePolicy_to_dict sample_policy);
  pr_created_by_user_id := Some ada; pr_archived_at := None; pr_deleted_at := None;
  pr_created_at := 50 * SECOND; pr_updated_at := 85 * SECOND |}.

Definition policy_project : Project := {|
  pj_id := sample_project; pj_organization_id := sample_id 7; pj_name := "Checkout"; pj_slug := "checkout";
  pj_description := ""; pj_status := PROJECT_ACTIVE;
  pj_settings := {| ps_cloud_provider := None; ps_currency := "USD" |};
  pj_created_by_user_id := Some ada; pj_archived_at := None; pj_deleted_at := None;
  pj_created_at := 50 * SECOND; pj_updated_at := 85 * SECOND; pj_policy := sample_policy |}.

Definition system_current : Architecture := {|
  ar_id := sample_architecture; ar_project_id := sample_project; ar_name := "Shop"; ar_description := "";
  ar_status := ARCHITECTURE_ACTIVE; ar_current_revision := 3; ar_created_by_user_id := Some ada;
  ar_updated_by_user_id := Some ada; ar_archived_at := None; ar_deleted_at := None;
  ar_created_at := 60 * SECOND; ar_updated_at := 90 * SECOND |}.

Definition system_row : RevisionRow := {|
  rr_id := sample_id 60; rr_architecture_id := sample_architecture; rr_project_id := sample_project;
  rr_number := 3; rr_parent_number := Some 2%Z; rr_restored_from_number := None;
  rr_ir := to_dict sample_system; rr_ir_schema_version := 1;
  rr_content_hash := "94caddb81e4d2211f0acdb986c6d7d16830fefe912f13c1b0f62b08a262f4e89"; rr_source := BY_USER;
  rr_summary := points_of "2 nodes added (billing, orders); 2 connections added; architecture details changed.";
  rr_reason := None; rr_requirement_set_id := None; rr_created_by_user_id := Some ada; rr_created_at := 90 * SECOND |}.

Definition system_revision : ArchitectureRevision := {|
  rv_id := sample_id 60; rv_architecture_id := sample_architecture; rv_number := 3; rv_parent_number := Some 2%Z;
  rv_ir := sample_system; rv_content_hash := rr_content_hash system_row; rv_source := BY_USER;
  rv_summary := rr_summary system_row; rv_reason := None; rv_created_by_user_id := Some ada;
  rv_created_at := 90 * SECOND; rv_requirement_set_id := None; rv_restored_from := None;
  rv_snapshot := to_dict sample_system; rv_stored_schema_version := Some 1%Z |}.

Lemma system_row_stored : revisions without_requirements !! sample_id 60 = Some system_row.
Proof. by vm_compute. Qed.

Lemma system_row_read : to_revision system_row = Ok system_revision.
Proof. unfold to_revision. cbn [rr_ir system_row]. by rewrite (written_read _ sample_system_writable). Qed.

Lemma policy_seen permission : has_permission OWNER permission = true → may without_requirements ada sample_project permission policy_row.
Proof.
  intros Hp. exists sample_membership. split; [|exact Hp]. split_and!; [by vm_compute|done| |by vm_compute].
  destruct (organizations (accounts without_requirements) !! sample_id 7) as [o|] eqn:E; [|by vm_compute in E].
  exists o. split; [exact E|]. revert E. vm_compute. by intros [= <-].
Qed.

Lemma system_held : holds without_requirements sample_project sample_architecture system_current.
Proof. split_and!; by vm_compute. Qed.

Lemma sample_askable :
  askable sample_records (sample_draws 100 70 "") sample_row_id sample_project sample_architecture ada None
    policy_project system_current system_revision [].
Proof.
  constructor;
    [exists policy_row; split; [split; [by apply policy_seen|done]|by vm_compute]|exact system_held|done| |by vm_compute|done|].
  - exists system_row. split; [|exact system_row_read]. exists (sample_id 60). split; [exact system_row_stored|done].
  - split; [exact sample_row_id_inj|done].
Qed.

(** An audit event does not matter. *)
Lemma may_logged event e user project permission r : may e user project permission r → may (logged event e) user project permission r.
Proof. done. Qed.

Lemma holds_logged event e project id a : holds e project id a → holds (logged event e) project id a.
Proof. done. Qed.

Lemma distinct_no_collision res : NoDup (finding_id <$> vr_findings res) → no_collision res.
Proof. intros Hn f g Hf Hg Hid. by rewrite (NoDup_key_inj finding_id (vr_findings res) f g Hn Hf Hg Hid). Qed.

(** Findings with one identifier say the same of the same. *)
Definition identified (fs : list Finding) : bool :=
  forallb (λ f, forallb (λ g, negb (String.eqb (finding_id f) (finding_id g)) || bool_decide (finding_parts f = finding_parts g)) fs) fs.

Lemma identified_no_collision res : identified (vr_findings res) = true → no_collision res.
Proof.
  unfold identified. intros Hall f g Hf%list_elem_of_In Hg%list_elem_of_In Hid. rewrite forallb_forall in Hall.
  specialize (Hall f Hf). rewrite forallb_forall in Hall. specialize (Hall g Hg). rewrite Hid, String.eqb_refl in Hall.
  by apply bool_decide_eq_true in Hall.
Qed.

Definition sample_result (config : ValidationConfig) : py ValidationResult :=
  validate (context_of None system_revision system_current [] sample_policy config) (registered BUILT_IN_RULES).

Lemma sample_identified config :
  config ∈ [strict_config; default_config] →
  match sample_result config with Ok res => identified (vr_findings res) | Raise _ => false end = true.
Proof. intros [-> | ->%list_elem_of_singleton]%elem_of_cons; by vm_compute. Qed.

Lemma sample_answerable config :
  config ∈ [strict_config; default_config] → answerable None policy_project system_current system_revision [] config.
Proof.
  intros Hc. constructor; [done| |].
  - constructor; [exact sample_system_writable|intros p [= <-]; exact sample_policy_ok|constructor|constructor|by vm_compute| |done|done].
    apply elem_of_cons in Hc as [-> | ->%list_elem_of_singleton]; [apply (vq_config _ sample_request_valid)|exact default_acceptable].
  - intros res Hres. pose proof (sample_identified config Hc) as Hd. unfold sample_result in Hd.
    change (pj_policy policy_project) with sample_policy in Hres. rewrite Hres in Hd. by apply identified_no_collision.
Qed.

Lemma strict_sample : strict_config ∈ [strict_config; default_config].
Proof. left. Qed.

Lemma default_sample : default_config ∈ [strict_config; default_config].
Proof. right. left. Qed.

(** The whole default profile traces the requirements; the two rules named in the other request do not. *)
Lemma sample_twins : reports_twins (context_of None system_revision system_current [] sample_policy default_config).
Proof.
  split; [split; [left|done]|]. exists (sample_uuid 1), (sample_uuid 2).
  assert (∀ n, n ∈ [1; 2]%nat → dangling sample_system [] (sample_uuid n)) as Hd.
  { intros n Hn. split; [|by intros ?%elem_of_nil]. exists (None, {| requirement_id := sample_uuid n; version := None |}).
    split; [|done]. apply elem_of_cons in Hn as [-> | ->%list_elem_of_singleton]; [left|right; left]. }
  split_and!; [by vm_compute|apply Hd; left|apply Hd; right; left|by vm_compute].
Qed.

Lemma strict_no_twins : ¬ reports_twins (context_of None system_revision system_current [] sample_policy strict_config).
Proof. intros [[_ [Hs|Hs]] _]; [|done]. 
  apply elem_of_cons in Hs as [Hs|Hs%list_elem_of_singleton]; discriminate Hs.
Qed.

(** What an engine without rules answers. *)
Definition empty_result : ValidationResult := ValidationResult_new {|
  vr_rule_set := rule_set "default" []; vr_context_fingerprint := ""; vr_findings := []; vr_requirement_results := [];
  vr_failures := []; vr_limitations := []; vr_components := [] |}.

(** What the run of the example says. *)
Lemma sample_validation_ends :
  match (sample_validation sample_records).1 with
  | Ok r => vn_status (rt_run r) = RUN_COMPLETED ∧ su_blocking <$> rt_summary r = Some 1
  | Raise _ => False
  end.
Proof. by vm_compute. Qed.

(** * The theorems *)

(** C19: whatever is asked, every stored run is finished: completed with a result or failed with an error,
    never left pending or running. It names a revision of an architecture of its project, with the content
    hash that revision is stored with; its findings are stored at the positions of their order, one row
    each; and its row reads back. *)
Theorem runs_sound `{Externals} cfg s :
  reachable_records cfg s →
  ∀ id r, runs s !! id = Some r → ∃ run inputs, vn_id run = id ∧ stored s run inputs ∧ finished run ∧
    about (estate_of s) run ∧ to_report r = Ok (RunReport_of run inputs).
Proof.
  intros Hr%reachable_records_ok id r Hid. destruct (rk_runs _ Hr id r Hid) as (run & inputs & <- & Hs & Hf & Hi & Ha).
  exists run, inputs. split_and!; try done. destruct Hs as (Hrow & _). assert (r = run_record run inputs) as -> by congruence.
  by apply report_read.
Qed.

Lemma runs_sound_witness :
  ∃ run inputs, vn_id run = sample_id 70 ∧
    stored (sample_validation (set_estate (asked (100 * SECOND) sample_client without_requirements) sample_records)).2 run inputs ∧ finished run.
Proof.
  set (s := (sample_validation (set_estate (asked (100 * SECOND) sample_client without_requirements) sample_records)).2).
  assert (reachable_records sample_config s) as Hs.
  { eapply rtc_r; [exact sample_records_reachable|]. unfold s, sample_validation, asked_with. apply rs_validate, built_in_sound. }
  destruct (runs s !! sample_id 70) as [r|] eqn:E; [|exfalso; revert E; by vm_compute].
  destruct (runs_sound sample_config s Hs (sample_id 70) r E) as (run & inputs & Hid & Hst & Hf & _).
  exists run, inputs. exact (conj Hid (conj Hst Hf)).
Defined.

(** C14: a validation that returned stays as it was reported, whatever happens afterwards: to anyone who may
    read the architecture, its report is the one returned, and following the cursors through its findings
    gives those the query asks for, in order and each once, however small the pages. *)
Theorem run_read_back `{Externals} cfg engine d t row_id project id user config number s report s1 s2 :
  engine_sound engine → reachable_records cfg s →
  validation_validate engine d t row_id project id user config number s = (Ok report, s1) →
  rtc (records_step cfg) s1 s2 →
  ∃ a rev p run inputs, validation engine d t row_id project id user config number s s1 report a rev p run inputs ∧
    ∀ reader r b, may (estate_of s2) reader project ARCHITECTURE_READ r → holds (estate_of s2) project id b →
      validation_get_run project id (new_id d) reader s2 = (Ok report, s2) ∧
      ∀ q fuel, (length (findings_of run) < fuel)%nat →
        all_pages fuel (validation_list_findings project id (new_id d) reader q) None s2 =
          (Ok (filter (λ f, asks_for q f = true) (findings_of run)), s2).
Proof.
  intros Hengine Hs%reachable_records_ok Hrun Hsteps. pose proof Hrun as (a & rev & p & run & inputs & Hv)%validate_ok.
  exists a, rev, p, run, inputs. split; [done|]. intros reader r b Hmay Hh.
  pose proof (validation_finished _ Hengine _ _ _ _ _ _ _ _ _ _ _ _ _ _ _ _ Hv Hs) as (Hf & Hi & Hid & Hpid & Haid & _).
  pose proof (validation_stored _ Hengine _ _ _ _ _ _ _ _ _ _ _ _ _ _ _ _ Hv Hs) as Hst.
  assert (records_ok s1) as Hs1 by by eapply validation_ok.
  pose proof (steps_keep_stored cfg _ _ _ _ Hsteps Hs1 Hst) as Hst2.
  assert (records_ok s2) as Hs2 by by eapply records_steps_ok.
  destruct (va_holds _ _ _ _ _ _ _ _ _ _ _ _ _ _ _ _ _ Hv) as (Ha & _ & _).
  pose proof (proj2 (ok_keyed _ (rk_estate _ Hs)) _ _ Ha) as Hkey. cbn in Hid, Hpid, Haid.
  rewrite <- Hpid in Hmay, Hh. rewrite <- Hid, <- Hpid. assert (vn_architecture_id run = id) as <- by congruence. split.
  - rewrite (va_report _ _ _ _ _ _ _ _ _ _ _ _ _ _ _ _ _ Hv). by apply (get_run_read s2 run inputs Hs2 Hst2 Hf Hi reader r Hmay b Hh).
  - intros q fuel Hfuel.
    rewrite (all_pages_follow fuel _ (λ after, {| items := snd <$> items (finding_page run q after);
      next_cursor := next_cursor (finding_page run q after) |}) s2).
    + by rewrite follow_mapped, all_findings, asked_is.
    + intros after. by apply (list_findings_read s2 run inputs Hs2 Hst2 Hf Hi reader r Hmay b Hh).
Qed.

Lemma run_read_back_witness :
  ∃ report s1, sample_validation sample_records = (Ok report, s1) ∧
    validation_get_run sample_project sample_architecture (sample_id 70) ada s1 = (Ok report, s1).
Proof.
  destruct (sample_validation sample_records) as [x s1] eqn:E.
  pose proof sample_validation_ends as Hx. rewrite E in Hx.
  destruct x as [report|]; [|destruct Hx]. exists report, s1. split; [reflexivity|].
  unfold sample_validation, asked_with in E. destruct (run_read_back sample_config (built_in_engine None) (sample_draws 100 70 "") (101 * SECOND) sample_row_id sample_project
    sample_architecture ada strict_config None sample_records report s1 s1 (built_in_sound None) sample_records_reachable E
    (rtc_refl _ _)) as (a & rev & p & run & inputs & Hv & Hread).
  destruct (va_estate _ _ _ _ _ _ _ _ _ _ _ _ _ _ _ _ _ Hv) as [event He].
  destruct (Hread ada policy_row system_current) as [Hget _]; [..|exact Hget]; rewrite He.
  - apply may_logged. exact (policy_seen ARCHITECTURE_READ eq_refl).
  - apply holds_logged, system_held.
Defined.

(** C20: what becomes of the engine's answers, for any engine. A result whose findings have different
    identifiers is a completed run; one with two findings that share an identifier is refused by the table
    of findings, as an [IntegrityError], and stores nothing, not even the run. A request the engine refuses is
    refused and stores nothing; anything else it raises is a failed run that says only that the engine
    failed. With too many requirements the engine is not asked at all. *)
Theorem engine_answers `{Externals} cfg engine d t row_id project id user config number s p a rev requirements :
  reachable_records cfg s → askable s d row_id project id user number p a rev requirements →
  let outcome := validation_validate engine d t row_id project id user config number s in
  let policy := if policy_is_empty (pj_policy p) then None else Some (pj_policy p) in
  let failed error := ∃ report s', outcome = (Ok report, s') ∧ vn_status (rt_run report) = RUN_FAILED ∧
    vn_error (rt_run report) = Some error ∧ rt_summary report = None in
  if (MAX_CONTEXT_REQUIREMENTS <? length requirements)%nat then failed TOO_MANY_REQUIREMENTS
  else match engine (rv_ir rev) (revision_info rev a) requirements policy config with
       | Ok result =>
           if decide (NoDup (finding_id <$> vr_findings result)) then
             ∃ report s', outcome = (Ok report, s') ∧ vn_status (rt_run report) = RUN_COMPLETED ∧
               rt_summary report = Some (result_summary result) ∧
               rt_result_fingerprint report = Some (result_fingerprint result)
           else outcome = (Raise (IntegrityError "run_id, finding_id"), s)
       | Raise e => if is_domain_error e then outcome = (Raise e, s) else failed ENGINE_ERROR
       end.
Proof.
  intros Hs%reachable_records_ok Ha. cbv zeta.
  pose proof (validate_ends engine d t row_id project id user config number s p a rev requirements Hs Ha) as Hends.
  unfold ended_run, engine_run in Hends. destruct (_ <? _)%nat.
  - specialize (Hends eq_refl). rewrite decide_True in Hends by constructor. destruct Hends as [s' Hs']. by eexists _, s'.
  - destruct (engine _ _ _ _ _) as [result|e].
    + specialize (Hends eq_refl). change (findings_of _) with (vr_findings result) in Hends.
      destruct (decide _); [|exact Hends]. destruct Hends as [s' Hs']. by eexists _, s'.
    + destruct (is_domain_error e); [exact Hends|]. specialize (Hends eq_refl). rewrite decide_True in Hends by constructor.
      destruct Hends as [s' Hs']. by eexists _, s'.
Qed.

Lemma engine_answers_witness :
  (∃ report s1,
    validation_validate (λ _ _ _ _ _, Raise KeyError) (sample_draws 100 70 "") (101 * SECOND) sample_row_id sample_project
      sample_architecture ada strict_config None sample_records = (Ok report, s1) ∧
    vn_status (rt_run report) = RUN_FAILED ∧ vn_error (rt_run report) = Some ENGINE_ERROR ∧ rt_summary report = None) ∧
  (∃ report s1,
    validation_validate (λ _ _ _ _ _, Ok empty_result) (sample_draws 100 70 "") (101 * SECOND) sample_row_id sample_project
      sample_architecture ada strict_config None sample_records = (Ok report, s1) ∧
    vn_status (rt_run report) = RUN_COMPLETED ∧ rt_summary report = Some (result_summary empty_result) ∧
    rt_result_fingerprint report = Some (result_fingerprint empty_result)).
Proof.
  split.
  - exact (engine_answers sample_config (λ _ _ _ _ _, Raise KeyError) (sample_draws 100 70 "") (101 * SECOND) sample_row_id
      sample_project sample_architecture ada strict_config None sample_records policy_project system_current system_revision []
      sample_records_reachable sample_askable).
  - exact (engine_answers sample_config (λ _ _ _ _ _, Ok empty_result) (sample_draws 100 70 "") (101 * SECOND) sample_row_id
      sample_project sample_architecture ada strict_config None sample_records policy_project system_current system_revision []
      sample_records_reachable sample_askable).
Defined.

(** C13: from the request to the stored run, for a valid request to the built-in rules whose findings have no
    colliding digests. When the request selects the rule on traceability and two requirements the project
    does not have are referenced by the same elements, two findings share an identifier: the validation ends
    in an [IntegrityError] and nothing is stored. Otherwise the run completes; its summary counts no rule
    failure exactly when what every selected rule gives fits, and no blocking finding exactly when the revision
    keeps the policy of its project and, if the verdicts are asked for and fit, every critical requirement
    in force. *)
Theorem validation_gates `{ComponentCatalog} `{Externals} cfg c d t row_id project id user config number s p a rev requirements :
  reachable_records cfg s → askable s d row_id project id user number p a rev requirements →
  answerable c p a rev requirements config →
  let ctx := context_of c rev a requirements (pj_policy p) config in
  let outcome := validation_validate (built_in_engine c) d t row_id project id user config number s in
  (reports_twins ctx → outcome = (Raise (IntegrityError "run_id, finding_id"), s)) ∧
  (¬ reports_twins ctx → ∃ report s' summary,
    outcome = (Ok report, s') ∧ vn_status (rt_run report) = RUN_COMPLETED ∧ rt_summary report = Some summary ∧
    (su_rule_failures summary = 0 ↔
       ∀ r o, (r, o) ∈ built_in_output ctx → selected config r → fits (meta r) o = true) ∧
    (su_blocking summary = 0 ↔
       complies (pj_policy p) (rv_ir rev) ∧ (judges_requirements ctx → critical_kept ctx))).
Proof.
  intros Hs%reachable_records_ok Ha Hq. cbv zeta.
  destruct (built_in_ends c (new_id d) project user t p a rev requirements config (now d) Hq) as (res & Hend & Hw & Hn).
  pose proof (validate_ends (built_in_engine c) d t row_id project id user config number s p a rev requirements Hs Ha) as Hends.
  rewrite Hend in Hends. specialize (Hends eq_refl). change (findings_of _) with (vr_findings res) in Hends. split.
  - intros Ht. rewrite decide_False in Hends; [exact Hends|]. rewrite Hn. tauto.
  - intros Ht. rewrite decide_True in Hends by by apply Hn. destruct Hends as [s' Hs']. eexists _, s', (result_summary res).
    split; [exact Hs'|]. split; [done|]. split; [done|]. unfold result_summary, summarize.
    cbn [su_rule_failures su_blocking]. rewrite blocking_count, <- policy_given with (c := c) (rev := rev) (requirements := requirements) (config := config).
    split; [by apply failures_count|]. apply blocking_iff; [exact (an_valid _ _ _ _ _ _ Hq)|exact Hw].
Qed.

Lemma validation_gates_witness :
  (∃ report s1 summary, sample_validation sample_records = (Ok report, s1) ∧ vn_status (rt_run report) = RUN_COMPLETED ∧
    rt_summary report = Some summary ∧
    (su_rule_failures summary = 0 ↔ ∀ r o, (r, o) ∈ built_in_output (context_of None system_revision system_current [] sample_policy strict_config) →
       selected strict_config r → fits (meta r) o = true) ∧
    (su_blocking summary = 0 ↔ complies sample_policy sample_system ∧
       (judges_requirements (context_of None system_revision system_current [] sample_policy strict_config) →
        critical_kept (context_of None system_revision system_current [] sample_policy strict_config)))) ∧
  asked_with default_config sample_records = (Raise (IntegrityError "run_id, finding_id"), sample_records).
Proof.
  unfold sample_validation, asked_with. split.
  - exact (proj2 (validation_gates sample_config None (sample_draws 100 70 "") (101 * SECOND) sample_row_id sample_project
      sample_architecture ada strict_config None sample_records policy_project system_current system_revision []
      sample_records_reachable sample_askable (sample_answerable strict_config strict_sample)) strict_no_twins).
  - exact (proj1 (validation_gates sample_config None (sample_draws 100 70 "") (101 * SECOND) sample_row_id sample_project
      sample_architecture ada default_config None sample_records policy_project system_current system_revision []
      sample_records_reachable sample_askable (sample_answerable default_config default_sample)) sample_twins).
Defined.
