(* ===== verification/Drift.v ===== *)
(** Drift detection: the vocabulary, findings, results and the lifecycle of an analysis, confirmed
    identities, and drift items: a difference followed across analyses, and its review by people
    (src/core/domain/drift: values.py, errors.py, findings.py, analyses.py, identity.py, items.py, review.py;
    the checks of src/core/domain/discovery/values.py). *)
From Stdlib Require Import Ascii ZArith.
From S2P Require Import Prelude Data Codecs Errors Values Sha256 JsonText Computations Store.

(** * The shared checks (discovery/values.py) *)
Definition KEY : string → bool := ELEMENT_ID.
(** [^[a-z][a-z0-9_.-]{0,63}$] *)
Definition CODE : string → bool := METADATA_KEY.
(** [^[0-9a-f]{64}$] *)
Definition FINGERPRINT (s : string) : bool :=
  (String.length s =? 64) && str_forall (λ c, is_digit c || between 97 102 c) s.
Definition MAX_TEXT : nat := 2000.
Definition MAX_REFERENCE : nat := 500.
Definition MAX_ITEMS : nat := 500.
Definition MAX_VALUE_DEPTH : nat := 4.
Definition MAX_VALUE_ITEMS : nat := 100.

(** [None if ok else name]. *)
Definition unless (ok : bool) (name : string) : option string := if ok then None else Some name.
(** [name if wrong else None]. *)
Definition when (wrong : bool) (name : string) : option string := if wrong then Some name else None.

Definition text_ok (limit : nat) (s : string) : bool :=
  negb (String.eqb (strip s) "") && (String.length s <=? limit).

Definition text (s : string) (name : string) (limit : nat) : option string := unless (text_ok limit s) name.
Definition key (s : string) (name : string) : option string := unless (KEY s) name.
Definition code_ (s : string) (name : string) : option string := unless (CODE s) name.

(** [required=False]. *)
Definition optional {A} (f : A → string → option string) (o : option A) (name : string) : option string :=
  match o with Some a => f a name | None => None end.
Definition optional_text (o : option string) (name : string) (limit : nat) : option string :=
  match o with Some s => text s name limit | None => None end.

Definition texts (l : list string) (name : string) (limit : nat) : option string :=
  unless ((length l <=? MAX_ITEMS) && forallb (text_ok limit) l) name.
Definition items {A} (l : list A) (name : string) (limit : nat) : option string :=
  unless (length l <=? limit) name.
Definition count (z : Z) (name : string) (minimum : Z) : option string := unless (minimum <=? z)%Z name.

(** [json_value(value, name, depth) is None]. *)
Fixpoint json_value_ok (value : json) (depth : nat) : bool :=
  match value with
  | JNull | JBool _ | JInt _ | JDec _ => true
  | JStr s => String.length s <=? MAX_TEXT
  | JArr l =>
      (depth <? MAX_VALUE_DEPTH) && (length l <=? MAX_VALUE_ITEMS) &&
      (fix go (l : list json) : bool :=
         match l with [] => true | x :: r => json_value_ok x (S depth) && go r end) l
  | JObj m =>
      (depth <? MAX_VALUE_DEPTH) && (length m <=? MAX_VALUE_ITEMS) &&
      (fix go (m : dict string json) : bool :=
         match m with [] => true | p :: r => json_value_ok p.2 (S depth) && go r end) m
  end.
Definition json_value (value : json) (name : string) : option string := unless (json_value_ok value 0) name.

(** [digest(prefix, *parts)]. *)
Definition digest (prefix : string) (parts : list json) : string :=
  prefix +:+ "_" +:+ String.substring 0 20 (hexdigest (dumps_compact (wide_of (JArr parts)))).

(** [list_of[str]] as JSON. *)
Definition str_list (l : list string) : json := JArr (JStr <$> l).

(** * Errors (errors.py) *)
Definition InvalidDriftRequest (field reason : string) : exn :=
  DomainError "invalid_drift_request" "The drift analysis request is invalid."
    [("field", JStr field); ("reason", JStr reason)].
Definition InvalidDriftResult (fields : list string) : exn :=
  DomainError "invalid_drift_result" "A drift result is malformed." [("fields", str_list fields)].
Definition DriftAnalysisNotFound : exn :=
  DomainError "drift_analysis_not_found" "Drift analysis not found." [].
Definition DriftItemNotFound : exn := DomainError "drift_item_not_found" "Drift item not found." [].
Definition InvalidReviewAction (details : dict string json) : exn :=
  DomainError "invalid_drift_review_action" "That review action is not allowed for this drift item now." details.

Definition check (problems : list (option string)) : py unit :=
  match omap id problems with [] => Ok tt | found => Raise (InvalidDriftResult found) end.

(** * The vocabulary (values.py) *)
Inductive AnalysisStatus :=
  | PENDING | RUNNING | COMPLETED | COMPLETED_WITH_WARNINGS | FAILED | CANCELLED | INCOMPATIBLE_INPUTS.
#[export] Instance AnalysisStatus_eq_dec : EqDecision AnalysisStatus.
Proof. solve_decision. Defined.
#[export, refine] Instance AnalysisStatus_enum : StrEnum AnalysisStatus := {
  members := [PENDING; RUNNING; COMPLETED; COMPLETED_WITH_WARNINGS; FAILED; CANCELLED; INCOMPATIBLE_INPUTS];
  value s := match s with
             | PENDING => "pending" | RUNNING => "running" | COMPLETED => "completed"
             | COMPLETED_WITH_WARNINGS => "completed_with_warnings" | FAILED => "failed"
             | CANCELLED => "cancelled" | INCOMPATIBLE_INPUTS => "incompatible_inputs"
             end }.
Proof. all: solve_enum. Defined.

Definition FINISHED : list AnalysisStatus :=
  [COMPLETED; COMPLETED_WITH_WARNINGS; FAILED; CANCELLED; INCOMPATIBLE_INPUTS].

Definition InvalidDriftTransition (from to : AnalysisStatus) : exn :=
  DomainError "invalid_drift_transition" "The drift analysis cannot move to that status from its current status."
    [("from", JStr (value from)); ("to", JStr (value to))].

(** From best to worst. *)
Inductive Compatibility :=
  | COMPATIBLE | COMPATIBLE_WITH_WARNINGS | PARTIALLY_COMPARABLE | CANNOT_DETERMINE | INCOMPATIBLE.
#[export] Instance Compatibility_eq_dec : EqDecision Compatibility.
Proof. solve_decision. Defined.
#[export, refine] Instance Compatibility_enum : StrEnum Compatibility := {
  members := [COMPATIBLE; COMPATIBLE_WITH_WARNINGS; PARTIALLY_COMPARABLE; CANNOT_DETERMINE; INCOMPATIBLE];
  value c := match c with
             | COMPATIBLE => "compatible" | COMPATIBLE_WITH_WARNINGS => "compatible_with_warnings"
             | PARTIALLY_COMPARABLE => "partially_comparable" | CANNOT_DETERMINE => "cannot_determine"
             | INCOMPATIBLE => "incompatible"
             end }.
Proof. all: solve_enum. Defined.

(** [COMPATIBILITY_ORDER.index]. *)
Definition compatibility_rank (c : Compatibility) : nat :=
  match c with
  | COMPATIBLE => 0 | COMPATIBLE_WITH_WARNINGS => 1 | PARTIALLY_COMPARABLE => 2 | CANNOT_DETERMINE => 3
  | INCOMPATIBLE => 4
  end.

(** [max(outcomes, key=..., default=COMPATIBLE)]: the first of the greatest. *)
Definition worst (outcomes : list Compatibility) : Compatibility :=
  match outcomes with
  | [] => COMPATIBLE
  | c :: r => foldl (λ m x, if compatibility_rank m <? compatibility_rank x then x else m) c r
  end.

Inductive FindingType :=
  | COMPONENT_ADDED | COMPONENT_REMOVED | COMPONENT_MODIFIED
  | CONNECTION_ADDED | CONNECTION_REMOVED | CONNECTION_MODIFIED
  | CONFIGURATION_CHANGED | RESOURCE_CHANGED | MAPPING_CHANGED
  | UNRESOLVED_DIFFERENCE | COVERAGE_CHANGED | COMPARISON_INCOMPATIBLE.
#[export] Instance FindingType_eq_dec : EqDecision FindingType.
Proof. solve_decision. Defined.
#[export, refine] Instance FindingType_enum : StrEnum FindingType := {
  members := [COMPONENT_ADDED; COMPONENT_REMOVED; COMPONENT_MODIFIED; CONNECTION_ADDED; CONNECTION_REMOVED;
              CONNECTION_MODIFIED; CONFIGURATION_CHANGED; RESOURCE_CHANGED; MAPPING_CHANGED;
              UNRESOLVED_DIFFERENCE; COVERAGE_CHANGED; COMPARISON_INCOMPATIBLE];
  value t := match t with
             | COMPONENT_ADDED => "component_added" | COMPONENT_REMOVED => "component_removed"
             | COMPONENT_MODIFIED => "component_modified" | CONNECTION_ADDED => "connection_added"
             | CONNECTION_REMOVED => "connection_removed" | CONNECTION_MODIFIED => "connection_modified"
             | CONFIGURATION_CHANGED => "configuration_changed" | RESOURCE_CHANGED => "resource_changed"
             | MAPPING_CHANGED => "mapping_changed" | UNRESOLVED_DIFFERENCE => "unresolved_difference"
             | COVERAGE_CHANGED => "coverage_changed" | COMPARISON_INCOMPATIBLE => "comparison_incompatible"
             end }.
Proof. all: solve_enum. Defined.

Inductive Classification := CONFIRMED | POTENTIAL | NOT_COMPARABLE | UNKNOWN.
#[export] Instance Classification_eq_dec : EqDecision Classification.
Proof. solve_decision. Defined.
#[export, refine] Instance Classification_enum : StrEnum Classification := {
  members := [CONFIRMED; POTENTIAL; NOT_COMPARABLE; UNKNOWN];
  value c := match c with
             | CONFIRMED => "confirmed" | POTENTIAL => "potential"
             | NOT_COMPARABLE => "not_comparable" | UNKNOWN => "unknown"
             end }.
Proof. all: solve_enum. Defined.

(** [ElementType]. *)
Inductive DriftElement := DRIFT_NODE | DRIFT_CONNECTION | DRIFT_SCOPE.
#[export] Instance DriftElement_eq_dec : EqDecision DriftElement.
Proof. solve_decision. Defined.
#[export, refine] Instance DriftElement_enum : StrEnum DriftElement := {
  members := [DRIFT_NODE; DRIFT_CONNECTION; DRIFT_SCOPE];
  value e := match e with DRIFT_NODE => "node" | DRIFT_CONNECTION => "connection" | DRIFT_SCOPE => "scope" end }.
Proof. all: solve_enum. Defined.

Inductive MatchMethod := SAME_ID | CONFIRMED_MAPPING | SIGNATURE | AMBIGUOUS | UNMATCHED.
#[export] Instance MatchMethod_eq_dec : EqDecision MatchMethod.
Proof. solve_decision. Defined.
#[export, refine] Instance MatchMethod_enum : StrEnum MatchMethod := {
  members := [SAME_ID; CONFIRMED_MAPPING; SIGNATURE; AMBIGUOUS; UNMATCHED];
  value m := match m with
             | SAME_ID => "same_id" | CONFIRMED_MAPPING => "confirmed_mapping" | SIGNATURE => "signature"
             | AMBIGUOUS => "ambiguous" | UNMATCHED => "unmatched"
             end }.
Proof. all: solve_enum. Defined.

(** * Findings (findings.py; the evidence of src/core/domain/evolution/values.py) *)
Definition MAX_SUBJECT : nat := 512.
Definition MAX_IMPACT_ITEMS : nat := 50.
Definition REMOVED : list FindingType := [COMPONENT_REMOVED; CONNECTION_REMOVED].
Definition ADDED : list FindingType := [COMPONENT_ADDED; CONNECTION_ADDED].
Definition VALUED : list FindingType :=
  [CONFIGURATION_CHANGED; RESOURCE_CHANGED; COMPONENT_MODIFIED; CONNECTION_MODIFIED; MAPPING_CHANGED].

Inductive EvidenceSource :=
  | OF_CAPACITY | OF_COST | OF_RELIABILITY | OF_SECURITY | OF_OBSERVABILITY | OF_VALIDATION | OF_SIMULATION
  | OF_REQUIREMENT | OF_GOAL.
#[export] Instance EvidenceSource_eq_dec : EqDecision EvidenceSource.
Proof. solve_decision. Defined.
#[export, refine] Instance EvidenceSource_enum : StrEnum EvidenceSource := {
  members := [OF_CAPACITY; OF_COST; OF_RELIABILITY; OF_SECURITY; OF_OBSERVABILITY; OF_VALIDATION;
              OF_SIMULATION; OF_REQUIREMENT; OF_GOAL];
  value s := match s with
             | OF_CAPACITY => "capacity" | OF_COST => "cost" | OF_RELIABILITY => "reliability"
             | OF_SECURITY => "security" | OF_OBSERVABILITY => "observability" | OF_VALIDATION => "validation"
             | OF_SIMULATION => "simulation" | OF_REQUIREMENT => "requirement" | OF_GOAL => "goal"
             end }.
Proof. all: solve_enum. Defined.

Inductive EvidenceState := EVIDENCE_CURRENT | EVIDENCE_STALE | EVIDENCE_MISSING.
#[export] Instance EvidenceState_eq_dec : EqDecision EvidenceState.
Proof. solve_decision. Defined.
#[export, refine] Instance EvidenceState_enum : StrEnum EvidenceState := {
  members := [EVIDENCE_CURRENT; EVIDENCE_STALE; EVIDENCE_MISSING];
  value s := match s with
             | EVIDENCE_CURRENT => "current" | EVIDENCE_STALE => "stale" | EVIDENCE_MISSING => "missing"
             end }.
Proof. all: solve_enum. Defined.

Record ImpactRef := {
  ip_engine : EvidenceSource;
  ip_basis : string;
  ip_state : EvidenceState;
  ip_analysis_id : option string;
  ip_revision_number : option Z;
  ip_items : list string;
}.

Definition ImpactRef_problems (i : ImpactRef) : list (option string) := [
  text (ip_basis i) "impact.basis" MAX_TEXT;
  optional_text (ip_analysis_id i) "impact.analysis_id" 64;
  texts (ip_items i) "impact.items" MAX_REFERENCE;
  when (negb (Bool.eqb (bool_decide (ip_state i = EVIDENCE_MISSING)) (bool_decide (ip_analysis_id i = None))))
    "impact.analysis_id";
  when (MAX_IMPACT_ITEMS <? length (ip_items i)) "impact.items"].

Definition ImpactRef_new (i : ImpactRef) : py ImpactRef := _ ← check (ImpactRef_problems i); Ok i.

Definition of_opt_int (o : option Z) : json := match o with Some z => JInt z | None => JNull end.

Definition ImpactRef_to_dict (i : ImpactRef) : dict string json := [
  ("engine", JStr (value (ip_engine i))); ("basis", JStr (ip_basis i)); ("state", JStr (value (ip_state i)));
  ("analysis_id", of_opt_str (ip_analysis_id i)); ("revision_number", of_opt_int (ip_revision_number i));
  ("items", str_list (ip_items i))].

Record DriftFinding := {
  df_type : FindingType;
  df_classification : Classification;
  df_element : DriftElement;
  df_subject : string;
  df_explanation : string;
  df_rule : string;
  df_path : option string;
  df_baseline_id : option string;
  df_discovered_key : option string;
  df_match : option MatchMethod;
  df_baseline_value : json;
  df_discovered_value : json;
  df_redacted : bool;
  df_evidence : list string;
  df_locations : list string;
  df_baseline_reference : option string;
  df_limitations : list string;
  df_impact : list ImpactRef;
  df_references : list string;
}.

Definition DriftFinding_problems (f : DriftFinding) : list (option string) :=
  let confirmed := bool_decide (df_classification f = CONFIRMED) in
  let given {A} (o : option A) := if o is Some _ then true else false in
  [text (df_subject f) "finding.subject" MAX_SUBJECT;
   text (df_explanation f) "finding.explanation" MAX_TEXT;
   text (df_rule f) "finding.rule" 64;
   optional_text (df_path f) "finding.path" MAX_REFERENCE;
   optional key (df_baseline_id f) "finding.baseline_id";
   optional_text (df_discovered_key f) "finding.discovered_key" MAX_REFERENCE;
   json_value (df_baseline_value f) "finding.baseline_value";
   json_value (df_discovered_value f) "finding.discovered_value";
   texts (df_evidence f) "finding.evidence" 64;
   texts (df_locations f) "finding.locations" MAX_REFERENCE;
   optional_text (df_baseline_reference f) "finding.baseline_reference" MAX_REFERENCE;
   texts (df_limitations f) "finding.limitations" MAX_TEXT;
   texts (df_references f) "finding.references" 128;
   when (df_redacted f && negb (is_none (df_baseline_value f) && is_none (df_discovered_value f))) "finding.redacted";
   when (bool_decide (df_type f ∈ REMOVED) && negb (given (df_baseline_id f))) "finding.baseline_id";
   when (bool_decide (df_type f ∈ ADDED) && negb (given (df_discovered_key f))) "finding.discovered_key";
   when (bool_decide (df_type f ∈ VALUED) && negb (given (df_path f))) "finding.path";
   when (confirmed && bool_decide (df_evidence f = []) && negb (given (df_baseline_reference f))) "finding.evidence";
   when (negb confirmed && bool_decide (df_limitations f = [])) "finding.limitations"].

Definition DriftFinding_normalize (f : DriftFinding) : DriftFinding := {|
  df_type := df_type f; df_classification := df_classification f; df_element := df_element f;
  df_subject := df_subject f; df_explanation := df_explanation f; df_rule := df_rule f; df_path := df_path f;
  df_baseline_id := df_baseline_id f; df_discovered_key := df_discovered_key f; df_match := df_match f;
  df_baseline_value := df_baseline_value f; df_discovered_value := df_discovered_value f;
  df_redacted := df_redacted f; df_evidence := sorted_set (df_evidence f);
  df_locations := sorted_set (df_locations f); df_baseline_reference := df_baseline_reference f;
  df_limitations := df_limitations f; df_impact := df_impact f; df_references := df_references f |}.

Definition DriftFinding_new (f : DriftFinding) : py DriftFinding :=
  _ ← check (DriftFinding_problems f); Ok (DriftFinding_normalize f).

(** The properties [id], [item_key] and [sort_key]. *)
Definition df_id (f : DriftFinding) : string :=
  digest "dft" [JStr (value (df_type f)); JStr (df_subject f); of_opt_str (df_path f)].
Definition df_item_key (f : DriftFinding) : string :=
  digest "dfi" [JStr (value (df_element f)); JStr (df_subject f); of_opt_str (df_path f)].
Definition df_sort_key (f : DriftFinding) : string * (string * string) :=
  (df_subject f, (default "" (df_path f), value (df_type f))).
Definition df_key_leb : string * (string * string) → string * (string * string) → bool :=
  lex str_leb (lex str_leb str_leb).

Definition DriftFinding_to_dict (f : DriftFinding) : dict string json := [
  ("id", JStr (df_id f)); ("item_key", JStr (df_item_key f)); ("type", JStr (value (df_type f)));
  ("classification", JStr (value (df_classification f))); ("element", JStr (value (df_element f)));
  ("subject", JStr (df_subject f)); ("explanation", JStr (df_explanation f)); ("rule", JStr (df_rule f));
  ("path", of_opt_str (df_path f)); ("baseline_id", of_opt_str (df_baseline_id f));
  ("discovered_key", of_opt_str (df_discovered_key f));
  ("match", of_opt_str (value <$> df_match f)); ("baseline_value", df_baseline_value f);
  ("discovered_value", df_discovered_value f); ("redacted", JBool (df_redacted f));
  ("evidence", str_list (df_evidence f)); ("locations", str_list (df_locations f));
  ("baseline_reference", of_opt_str (df_baseline_reference f)); ("limitations", str_list (df_limitations f));
  ("impact", JArr ((JObj ∘ ImpactRef_to_dict) <$> df_impact f)); ("references", str_list (df_references f))].

Record CompatibilityCheck := { cc_dimension : string; cc_outcome : Compatibility; cc_message : string }.

#[export] Instance CompatibilityCheck_eq_dec : EqDecision CompatibilityCheck.
Proof. solve_decision. Defined.

Definition CompatibilityCheck_new (c : CompatibilityCheck) : py CompatibilityCheck :=
  _ ← check [code_ (cc_dimension c) "compatibility.dimension"; text (cc_message c) "compatibility.message" MAX_TEXT];
  Ok c.

Definition CompatibilityCheck_to_dict (c : CompatibilityCheck) : dict string json := [
  ("dimension", JStr (cc_dimension c)); ("outcome", JStr (value (cc_outcome c))); ("message", JStr (cc_message c))].

(** * Requests and results (analyses.py) *)
Definition RESULT_VERSION : Z := 1.
Definition MAX_FINDINGS : nat := Z.to_nat 10000.
Definition MAX_EXCLUDED : nat := 500.
Definition MAX_LABEL : nat := 200.
Definition POLICIES : list string := ["default"].

Definition TRANSITIONS (s : AnalysisStatus) : list AnalysisStatus :=
  match s with
  | PENDING => [RUNNING; FAILED; CANCELLED]
  | RUNNING => [COMPLETED; COMPLETED_WITH_WARNINGS; INCOMPATIBLE_INPUTS; FAILED; CANCELLED]
  | _ => []
  end.

Record DriftRequest := {
  dq_architecture_id : uuid;
  dq_baseline_revision : Z;
  dq_discovery_run_id : uuid;
  dq_policy : string;
  dq_exclude : list string;
  dq_label : option string;
}.

(** [_identifier]. *)
Definition identifier (s : string) : bool := (String.length s <=? MAX_REFERENCE) && KEY s.

Definition DriftRequest_new (q : DriftRequest) : py DriftRequest :=
  if (dq_baseline_revision q <? 1)%Z then Raise (InvalidDriftRequest "baseline_revision" "invalid_revision")
  else if negb (bool_decide (dq_policy q ∈ POLICIES)) then Raise (InvalidDriftRequest "policy" "unknown_policy")
  else if MAX_EXCLUDED <? length (dq_exclude q) then Raise (InvalidDriftRequest "exclude" "too_many")
  else if negb (forallb identifier (dq_exclude q)) then Raise (InvalidDriftRequest "exclude" "invalid_identifier")
  else if negb (match dq_label q with Some l => text_ok MAX_LABEL l | None => true end)
  then Raise (InvalidDriftRequest "label" "invalid_text")
  else Ok {| dq_architecture_id := dq_architecture_id q; dq_baseline_revision := dq_baseline_revision q;
             dq_discovery_run_id := dq_discovery_run_id q; dq_policy := dq_policy q;
             dq_exclude := sorted_set (dq_exclude q); dq_label := dq_label q |}.

Record BaselineRef := {
  bs_architecture_id : uuid;
  bs_revision_number : Z;
  bs_content_hash : string;
  bs_schema_version : Z;
}.

Definition BaselineRef_new (b : BaselineRef) : py BaselineRef :=
  _ ← check [count (bs_revision_number b) "baseline.revision_number" 1;
             unless (FINGERPRINT (bs_content_hash b)) "baseline.content_hash";
             count (bs_schema_version b) "baseline.schema_version" 1];
  Ok b.

Record ObservedRef := {
  ob_discovery_run_id : uuid;
  ob_result_fingerprint : string;
  ob_sources_fingerprint : string;
  ob_result_version : Z;
  ob_extractors : dict string Z;
}.

Definition ObservedRef_new (o : ObservedRef) : py ObservedRef :=
  _ ← check [unless (FINGERPRINT (ob_result_fingerprint o)) "observed.result_fingerprint";
             unless (FINGERPRINT (ob_sources_fingerprint o)) "observed.sources_fingerprint";
             count (ob_result_version o) "observed.result_version" 1];
  Ok {| ob_discovery_run_id := ob_discovery_run_id o; ob_result_fingerprint := ob_result_fingerprint o;
        ob_sources_fingerprint := ob_sources_fingerprint o; ob_result_version := ob_result_version o;
        ob_extractors := sort_by (on fst str_leb) (ob_extractors o) |}.

Record Coverage := {
  cv_source_types : list string;
  cv_inspected : list string;
  cv_partial : list string;
  cv_unread : list string;
  cv_unsupported_constructs : Z;
  cv_unresolved_entities : Z;
  cv_unresolved_relationships : Z;
  cv_errors : Z;
}.

Definition Coverage_problems (c : Coverage) : list (option string) := [
  texts (cv_source_types c) "coverage.source_types" 64;
  texts (cv_inspected c) "coverage.inspected" 256;
  texts (cv_partial c) "coverage.partial" 256;
  texts (cv_unread c) "coverage.unread" 256;
  count (cv_unsupported_constructs c) "coverage.unsupported_constructs" 0;
  count (cv_unresolved_entities c) "coverage.unresolved_entities" 0;
  count (cv_unresolved_relationships c) "coverage.unresolved_relationships" 0;
  count (cv_errors c) "coverage.errors" 0].

Definition Coverage_new (c : Coverage) : py Coverage :=
  _ ← check (Coverage_problems c);
  Ok {| cv_source_types := sorted_set (cv_source_types c); cv_inspected := sorted_set (cv_inspected c);
        cv_partial := sorted_set (cv_partial c); cv_unread := sorted_set (cv_unread c);
        cv_unsupported_constructs := cv_unsupported_constructs c;
        cv_unresolved_entities := cv_unresolved_entities c;
        cv_unresolved_relationships := cv_unresolved_relationships c; cv_errors := cv_errors c |}.

(** The property [complete]. *)
Definition coverage_complete (c : Coverage) : bool :=
  bool_decide (cv_partial c = []) && bool_decide (cv_unread c = []) && (cv_unsupported_constructs c =? 0)%Z
  && (cv_unresolved_entities c =? 0)%Z && (cv_unresolved_relationships c =? 0)%Z && (cv_errors c =? 0)%Z.

Record DriftResult := {
  dr_baseline : BaselineRef;
  dr_observed : ObservedRef;
  dr_compatibility : list CompatibilityCheck;
  dr_coverage : Coverage;
  dr_findings : list DriftFinding;
  dr_warnings : list string;
  dr_versions : dict string Z;
  dr_policy : string;
  dr_version : Z;
}.

(** The properties [status], [no_difference_within_coverage] and [has_warnings]. *)
Definition result_status (r : DriftResult) : Compatibility := worst (cc_outcome <$> dr_compatibility r).
Definition no_difference_within_coverage (r : DriftResult) : bool :=
  negb (bool_decide (result_status r = INCOMPATIBLE)) && bool_decide (length (dr_findings r) = 0).
Definition has_warnings (r : DriftResult) : bool :=
  negb (bool_decide (dr_warnings r = [])) || negb (bool_decide (result_status r = COMPATIBLE))
  || negb (coverage_complete (dr_coverage r))
  || existsb (λ f, negb (bool_decide (df_classification f = CONFIRMED))) (dr_findings r).

Definition DriftResult_problems (r : DriftResult) : list (option string) :=
  let ids := df_id <$> dr_findings r in
  let compared := filter (λ f, df_classification f ≠ NOT_COMPARABLE) (dr_findings r) in
  [items (dr_compatibility r) "compatibility" MAX_ITEMS;
   when (bool_decide (dr_compatibility r = [])) "compatibility";
   items (dr_findings r) "findings" MAX_FINDINGS;
   when (negb (length ids =? length (dedup ids))) "findings";
   texts (dr_warnings r) "warnings" MAX_TEXT;
   code_ (dr_policy r) "policy";
   unless (dr_version r =? RESULT_VERSION)%Z "version";
   when (negb (bool_decide (dr_compatibility r = [])) && bool_decide (result_status r = INCOMPATIBLE)
         && negb (length compared =? 0)) "findings"].

Definition DriftResult_new (r : DriftResult) : py DriftResult :=
  _ ← check (DriftResult_problems r);
  Ok {| dr_baseline := dr_baseline r; dr_observed := dr_observed r;
        dr_compatibility := sort_by (on cc_dimension str_leb) (dr_compatibility r); dr_coverage := dr_coverage r;
        dr_findings := sort_by (on df_sort_key df_key_leb) (dr_findings r); dr_warnings := sorted_set (dr_warnings r);
        dr_versions := sort_by (on fst str_leb) (dr_versions r); dr_policy := dr_policy r; dr_version := dr_version r |}.

(** * An analysis *)
Record AnalysisError := { an_code : string; an_message : string }.

Record DriftAnalysis := {
  da_id : uuid;
  da_project_id : uuid;
  da_request : DriftRequest;
  da_status : AnalysisStatus;
  da_requested_by_user_id : uuid;
  da_requested_at : instant;
  da_started_at : option instant;
  da_completed_at : option instant;
  da_result : option DriftResult;
  da_error : option AnalysisError;
}.

(** [replace(analysis, status=..., ...)]. *)
Definition analysis_with (status : AnalysisStatus) (started completed : option instant)
    (result : option DriftResult) (error : option AnalysisError) (a : DriftAnalysis) : DriftAnalysis := {|
  da_id := da_id a; da_project_id := da_project_id a; da_request := da_request a; da_status := status;
  da_requested_by_user_id := da_requested_by_user_id a; da_requested_at := da_requested_at a;
  da_started_at := started; da_completed_at := completed; da_result := result; da_error := error |}.

Definition analysis_move (a : DriftAnalysis) (to : AnalysisStatus) : py unit :=
  if decide (to ∈ TRANSITIONS (da_status a)) then Ok tt else Raise (InvalidDriftTransition (da_status a) to).

Definition analysis_start (a : DriftAnalysis) (at_ : instant) : py DriftAnalysis :=
  _ ← analysis_move a RUNNING;
  Ok (analysis_with RUNNING (Some at_) (da_completed_at a) (da_result a) (da_error a) a).

(** The status a result leads to. *)
Definition finished_status (r : DriftResult) : AnalysisStatus :=
  if decide (result_status r = INCOMPATIBLE) then INCOMPATIBLE_INPUTS
  else if has_warnings r then COMPLETED_WITH_WARNINGS else COMPLETED.

Definition analysis_finish (a : DriftAnalysis) (r : DriftResult) (at_ : instant) : py DriftAnalysis :=
  let to := finished_status r in
  _ ← analysis_move a to;
  Ok (analysis_with to (da_started_at a) (Some at_) (Some r) (da_error a) a).

Definition analysis_fail (a : DriftAnalysis) (error : AnalysisError) (at_ : instant) : py DriftAnalysis :=
  _ ← analysis_move a FAILED;
  Ok (analysis_with FAILED (da_started_at a) (Some at_) (da_result a) (Some error) a).

Definition analysis_cancel (a : DriftAnalysis) (at_ : instant) : py DriftAnalysis :=
  _ ← analysis_move a CANCELLED;
  Ok (analysis_with CANCELLED (da_started_at a) (Some at_) (da_result a) (da_error a) a).

(** * Identity mappings (identity.py) *)
Definition MAX_NOTE : nat := 2000.

Record IdentityMapping := {
  im_architecture_id : uuid;
  im_baseline_id : string;
  im_discovered_key : option string;
  im_confirmed_by_user_id : uuid;
  im_confirmed_at : instant;
  im_note : option string;
}.

Definition IdentityMapping_new (m : IdentityMapping) : py IdentityMapping :=
  if negb (KEY (im_baseline_id m)) then Raise (InvalidDriftRequest "baseline_id" "invalid_identifier")
  else if negb (match im_discovered_key m with Some k => KEY k | None => true end)
  then Raise (InvalidDriftRequest "discovered_key" "invalid_identifier")
  else if negb (match im_note m with Some n => text_ok MAX_NOTE n | None => true end)
  then Raise (InvalidDriftRequest "note" "invalid_text")
  else Ok m.

(** [current]: the mapping in force per baseline node. *)
Definition latest_mappings (mappings : list IdentityMapping) : dict string IdentityMapping :=
  dict_of ((λ m, (im_baseline_id m, m)) <$> sort_by (on im_confirmed_at Z_leb) mappings).

Definition current_mappings (mappings : list IdentityMapping) : dict string string :=
  omap (λ p, k ← im_discovered_key p.2; Some (p.1, k)) (sort_by (on fst str_leb) (latest_mappings mappings)).

(** * Review (values.py, items.py) *)
Inductive ReviewStatus := OPEN | ACKNOWLEDGED | INVESTIGATING | ACCEPTED | DISMISSED | RESOLVED | REOPENED.
#[export] Instance ReviewStatus_eq_dec : EqDecision ReviewStatus.
Proof. solve_decision. Defined.
#[export, refine] Instance ReviewStatus_enum : StrEnum ReviewStatus := {
  members := [OPEN; ACKNOWLEDGED; INVESTIGATING; ACCEPTED; DISMISSED; RESOLVED; REOPENED];
  value s := match s with
             | OPEN => "open" | ACKNOWLEDGED => "acknowledged" | INVESTIGATING => "investigating"
             | ACCEPTED => "accepted" | DISMISSED => "dismissed" | RESOLVED => "resolved"
             | REOPENED => "reopened"
             end }.
Proof. all: solve_enum. Defined.

Inductive ReviewAction :=
  | ACKNOWLEDGE | INVESTIGATE | ACCEPT | DISMISS | RESOLVE | REOPEN | NOTE | LINK | DETECTED.
#[export] Instance ReviewAction_eq_dec : EqDecision ReviewAction.
Proof. solve_decision. Defined.
#[export, refine] Instance ReviewAction_enum : StrEnum ReviewAction := {
  members := [ACKNOWLEDGE; INVESTIGATE; ACCEPT; DISMISS; RESOLVE; REOPEN; NOTE; LINK; DETECTED];
  value a := match a with
             | ACKNOWLEDGE => "acknowledge" | INVESTIGATE => "investigate" | ACCEPT => "accept"
             | DISMISS => "dismiss" | RESOLVE => "resolve" | REOPEN => "reopen" | NOTE => "note"
             | LINK => "link" | DETECTED => "detected"
             end }.
Proof. all: solve_enum. Defined.

Inductive LinkKind := LINK_DECISION | LINK_MIGRATION_PLAN | LINK_EVOLUTION_ANALYSIS | LINK_REVISION.
#[export] Instance LinkKind_eq_dec : EqDecision LinkKind.
Proof. solve_decision. Defined.
#[export, refine] Instance LinkKind_enum : StrEnum LinkKind := {
  members := [LINK_DECISION; LINK_MIGRATION_PLAN; LINK_EVOLUTION_ANALYSIS; LINK_REVISION];
  value k := match k with
             | LINK_DECISION => "decision" | LINK_MIGRATION_PLAN => "migration_plan"
             | LINK_EVOLUTION_ANALYSIS => "evolution_analysis" | LINK_REVISION => "revision"
             end }.
Proof. all: solve_enum. Defined.

Definition MAX_HISTORY : nat := 1000.
Definition UNREVIEWED : list ReviewStatus := [OPEN; REOPENED].
Definition ACTIVE : list ReviewStatus := UNREVIEWED ++ [ACKNOWLEDGED; INVESTIGATING].
Definition CLOSED : list ReviewStatus := [ACCEPTED; DISMISSED; RESOLVED].

(** The statuses an action applies to, and the status it leads to ([None] keeps the status); [None] for
    what is not an action of a person. *)
Definition MOVES (a : ReviewAction) : option (list ReviewStatus * option ReviewStatus) :=
  match a with
  | ACKNOWLEDGE => Some (UNREVIEWED, Some ACKNOWLEDGED)
  | INVESTIGATE => Some (UNREVIEWED ++ [ACKNOWLEDGED], Some INVESTIGATING)
  | ACCEPT => Some (ACTIVE, Some ACCEPTED)
  | DISMISS => Some (ACTIVE, Some DISMISSED)
  | RESOLVE => Some (ACTIVE ++ [ACCEPTED], Some RESOLVED)
  | REOPEN => Some (CLOSED, Some REOPENED)
  | NOTE | LINK => Some (members, None)
  | DETECTED => None
  end.
Definition NEEDS_NOTE : list ReviewAction := [DISMISS; REOPEN; NOTE].

Definition refuse (action : ReviewAction) (status : ReviewStatus) (reason : string) : exn :=
  InvalidReviewAction [("action", JStr (value action)); ("status", JStr (value status)); ("reason", JStr reason)].

(** [r.split("#", 1)[0].split(":", 1)[0]]. *)
Definition before (sep : ascii) (s : string) : string := default "" (head (split_on sep s)).
Definition artifact_of (reference : string) : string := before ":" (before "#" reference).

Definition artifacts_of (f : DriftFinding) : list string :=
  let references := df_locations f ++ match df_baseline_reference f with
                                      | Some r => if String.eqb r "" then [] else [r]
                                      | None => []
                                      end in
  filter (λ a, a ≠ "") (sorted_set (artifact_of <$> references)).

Record Link := { lk_kind : LinkKind; lk_target : string; lk_architecture_id : option uuid }.

#[export] Instance Link_eq_dec : EqDecision Link.
Proof. solve_decision. Defined.

Definition Link_new (l : Link) : py Link :=
  let invalid field reason := InvalidReviewAction [("field", JStr field); ("reason", JStr reason)] in
  if negb (text_ok MAX_REFERENCE (lk_target l)) then Raise (invalid "link.target" "invalid")
  else if negb (Bool.eqb (bool_decide (lk_kind l = LINK_REVISION)) (if lk_architecture_id l is Some _ then true else false))
  then Raise (invalid "link.architecture_id" "revision_only")
  else Ok l.

Record ReviewEvent := {
  ev_action : ReviewAction;
  ev_previous : ReviewStatus;
  ev_status : ReviewStatus;
  ev_at : instant;
  ev_user_id : option uuid;
  ev_note : option string;
  ev_link : option Link;
  ev_analysis_id : option uuid;
}.

Record DriftItem := {
  di_id : uuid;
  di_project_id : uuid;
  di_architecture_id : uuid;
  di_key : string;
  di_element : DriftElement;
  di_subject : string;
  di_path : option string;
  di_type : FindingType;
  di_classification : Classification;
  di_first_analysis_id : uuid;
  di_last_analysis_id : uuid;
  di_status : ReviewStatus;
  di_history : list ReviewEvent;
  di_links : list Link;
  di_artifacts : list string;
}.

(** What an analysis records. *)
Definition detection (previous status : ReviewStatus) (analysis_id : uuid) (at_ : instant) : ReviewEvent := {|
  ev_action := DETECTED; ev_previous := previous; ev_status := status; ev_at := at_; ev_user_id := None;
  ev_note := None; ev_link := None; ev_analysis_id := Some analysis_id |}.

Definition first_seen (item_id project_id architecture_id : uuid) (f : DriftFinding) (analysis_id : uuid)
    (at_ : instant) : DriftItem := {|
  di_id := item_id; di_project_id := project_id; di_architecture_id := architecture_id; di_key := df_item_key f;
  di_element := df_element f; di_subject := df_subject f; di_path := df_path f; di_type := df_type f;
  di_classification := df_classification f; di_first_analysis_id := analysis_id;
  di_last_analysis_id := analysis_id; di_status := OPEN; di_history := [detection OPEN OPEN analysis_id at_];
  di_links := []; di_artifacts := artifacts_of f |}.

(** [_appended]. *)
Definition appended (i : DriftItem) (event : ReviewEvent) : py (list ReviewEvent) :=
  if MAX_HISTORY <=? length (di_history i) then Raise (refuse (ev_action event) (di_status i) "history_full")
  else Ok (di_history i ++ [event]).

Definition detected (i : DriftItem) (f : DriftFinding) (analysis_id : uuid) (at_ : instant) : py DriftItem :=
  if negb (String.eqb (df_item_key f) (di_key i))
  then Raise (InvalidReviewAction [("field", JStr "finding"); ("reason", JStr "another_item")])
  else
    let status := if decide (di_status i = RESOLVED) then REOPENED else di_status i in
    history ← appended i (detection (di_status i) status analysis_id at_);
    Ok {| di_id := di_id i; di_project_id := di_project_id i; di_architecture_id := di_architecture_id i;
          di_key := di_key i; di_element := di_element i; di_subject := di_subject i; di_path := di_path i;
          di_type := df_type f; di_classification := df_classification f;
          di_first_analysis_id := di_first_analysis_id i; di_last_analysis_id := analysis_id;
          di_status := status; di_history := history; di_links := di_links i;
          di_artifacts := sorted_set (di_artifacts i ++ artifacts_of f) |}.

Definition is_revision_link (l : option Link) : bool :=
  match l with Some l => bool_decide (lk_kind l = LINK_REVISION) | None => false end.

Definition act (i : DriftItem) (action : ReviewAction) (user_id : uuid) (at_ : instant) (note : option string)
    (link : option Link) (evidence_analysis_id : option uuid) : py DriftItem :=
  let refused reason := Raise (refuse action (di_status i) reason) in
  match MOVES action with
  | None => refused "not_a_review_action"
  | Some (allowed, to) =>
      let clean := strip <$> note in
      let empty := match clean with Some c => String.eqb c "" | None => true end in
      if negb (bool_decide (di_status i ∈ allowed)) then refused "not_allowed_in_status"
      else if match clean with Some c => String.eqb c "" || (MAX_NOTE <? String.length c) | None => false end
      then refused "invalid_note"
      else if bool_decide (action ∈ NEEDS_NOTE) && empty then refused "note_required"
      else if bool_decide (action = LINK) && negb (if link is Some _ then true else false) then refused "link_required"
      else if bool_decide (action = RESOLVE) && negb (if evidence_analysis_id is Some _ then true else false)
              && negb (is_revision_link link) then refused "evidence_required"
      else
        let status := default (di_status i) to in
        history ← appended i {| ev_action := action; ev_previous := di_status i; ev_status := status; ev_at := at_;
                                ev_user_id := Some user_id; ev_note := clean; ev_link := link;
                                ev_analysis_id := evidence_analysis_id |};
        Ok {| di_id := di_id i; di_project_id := di_project_id i; di_architecture_id := di_architecture_id i;
              di_key := di_key i; di_element := di_element i; di_subject := di_subject i; di_path := di_path i;
              di_type := di_type i; di_classification := di_classification i;
              di_first_analysis_id := di_first_analysis_id i; di_last_analysis_id := di_last_analysis_id i;
              di_status := status; di_history := history;
              di_links := di_links i ++ match link with Some l => [l] | None => [] end;
              di_artifacts := di_artifacts i |}
  end.

(** * Correlation (review.py) *)
Definition COMPARED : list AnalysisStatus := [COMPLETED; COMPLETED_WITH_WARNINGS].

Definition reviewable (f : DriftFinding) : bool :=
  negb (bool_decide (df_element f = DRIFT_SCOPE)) && negb (bool_decide (df_classification f = NOT_COMPARABLE)).

(** The items met so far by key, what was created and what was updated; [cr_fresh] counts the ids drawn. *)
Record Correlating := {
  cr_existing : dict string DriftItem;
  cr_created : list DriftItem;
  cr_updated : list DriftItem;
  cr_fresh : nat;
}.

Record Correlation := { co_created : list DriftItem; co_updated : list DriftItem }.

(** [new_id n]: the [n]-th id drawn. *)
Definition correlate_step (a : DriftAnalysis) (at_ : instant) (new_id : nat → uuid) (c : Correlating) (f : DriftFinding) :
    py Correlating :=
  if negb (reviewable f) then Ok c
  else
    match dict_get (df_item_key f) (cr_existing c) with
    | None =>
        let fresh := first_seen (new_id (cr_fresh c)) (da_project_id a) (dq_architecture_id (da_request a)) f (da_id a) at_ in
        Ok {| cr_existing := dict_set (df_item_key f) fresh (cr_existing c); cr_created := cr_created c ++ [fresh];
              cr_updated := cr_updated c; cr_fresh := S (cr_fresh c) |}
    | Some item =>
        if String.eqb (di_last_analysis_id item) (da_id a) then Ok c
        else
          seen ← detected item f (da_id a) at_;
          Ok {| cr_existing := dict_set (df_item_key f) seen (cr_existing c); cr_created := cr_created c;
                cr_updated := cr_updated c ++ [seen]; cr_fresh := cr_fresh c |}
    end.

Fixpoint correlate_loop (a : DriftAnalysis) (at_ : instant) (new_id : nat → uuid) (c : Correlating) (fs : list DriftFinding) :
    py Correlating :=
  match fs with
  | [] => Ok c
  | f :: r => c ← correlate_step a at_ new_id c f; correlate_loop a at_ new_id c r
  end.

Definition correlate (its : list DriftItem) (a : DriftAnalysis) (at_ : instant) (new_id : nat → uuid) : py Correlation :=
  match da_result a with
  | Some r =>
      if decide (da_status a ∈ COMPARED) then
        let existing := index_by di_key (filter (λ i, di_architecture_id i = dq_architecture_id (da_request a)) its) in
        c ← correlate_loop a at_ new_id {| cr_existing := existing; cr_created := []; cr_updated := []; cr_fresh := 0 |}
              (dr_findings r);
        Ok {| co_created := cr_created c; co_updated := cr_updated c |}
      else Ok {| co_created := []; co_updated := [] |}
  | None => Ok {| co_created := []; co_updated := [] |}
  end.

Definition resolution_problem (i : DriftItem) (a : DriftAnalysis) : option string :=
  if negb (String.eqb (dq_architecture_id (da_request a)) (di_architecture_id i))
     || negb (String.eqb (da_project_id a) (di_project_id i)) then Some "another_architecture"
  else
    match da_result a with
    | None => Some "not_compared"
    | Some r =>
        if negb (bool_decide (da_status a ∈ COMPARED)) || bool_decide (result_status r = INCOMPATIBLE)
        then Some "not_compared"
        else if existsb (λ f, String.eqb (df_item_key f) (di_key i)) (dr_findings r) then Some "still_detected"
        else if negb (forallb (λ x, bool_decide (x ∈ cv_inspected (dr_coverage r))) (di_artifacts i))
        then Some "outside_coverage"
        else None
    end.
