(* ===== verification/Discovered.v ===== *)
(** What a discovery run extracts from its sources, and its result
    (src/core/domain/discovery: values.py, findings.py, results.py).

    As in [Drift], a record's constructor is [X_new], its fields have their annotated types, and a value
    as written is JSON.  The code orders what it first makes a set of ([set(diagnostics)],
    [set(validation)]) by keys that may tie: here the elements that tie keep the order given. *)
From Stdlib Require Import Ascii ZArith.
From S2P Require Import Prelude Data Codecs Errors Values Component Elements Provenance Model JsonText Computations Store Drift.

(** * The vocabulary (values.py) *)
Inductive SourceType := FROM_KUBERNETES | FROM_DOCKER_COMPOSE | FROM_TERRAFORM_JSON | FROM_ARCHITECTURE_JSON.
#[export] Instance SourceType_eq_dec : EqDecision SourceType.
Proof. solve_decision. Defined.
#[export, refine] Instance SourceType_enum : StrEnum SourceType := {
  members := [FROM_KUBERNETES; FROM_DOCKER_COMPOSE; FROM_TERRAFORM_JSON; FROM_ARCHITECTURE_JSON];
  value s := match s with
             | FROM_KUBERNETES => "kubernetes" | FROM_DOCKER_COMPOSE => "docker_compose"
             | FROM_TERRAFORM_JSON => "terraform_json" | FROM_ARCHITECTURE_JSON => "architecture_json"
             end }.
Proof. all: solve_enum. Defined.

Inductive ArtifactStatus := ARTIFACT_PARSED | ARTIFACT_PARTIAL | ARTIFACT_UNSUPPORTED | ARTIFACT_FAILED.
#[export] Instance ArtifactStatus_eq_dec : EqDecision ArtifactStatus.
Proof. solve_decision. Defined.
#[export, refine] Instance ArtifactStatus_enum : StrEnum ArtifactStatus := {
  members := [ARTIFACT_PARSED; ARTIFACT_PARTIAL; ARTIFACT_UNSUPPORTED; ARTIFACT_FAILED];
  value s := match s with
             | ARTIFACT_PARSED => "parsed" | ARTIFACT_PARTIAL => "partial"
             | ARTIFACT_UNSUPPORTED => "unsupported" | ARTIFACT_FAILED => "failed"
             end }.
Proof. all: solve_enum. Defined.

Inductive Verification :=
  | V_OBSERVED | V_USER_PROVIDED | V_INFERRED | V_ESTIMATED | V_UNKNOWN | V_UNSUPPORTED.
#[export] Instance Verification_eq_dec : EqDecision Verification.
Proof. solve_decision. Defined.
#[export, refine] Instance Verification_enum : StrEnum Verification := {
  members := [V_OBSERVED; V_USER_PROVIDED; V_INFERRED; V_ESTIMATED; V_UNKNOWN; V_UNSUPPORTED];
  value v := match v with
             | V_OBSERVED => "observed" | V_USER_PROVIDED => "user_provided" | V_INFERRED => "inferred"
             | V_ESTIMATED => "estimated" | V_UNKNOWN => "unknown" | V_UNSUPPORTED => "unsupported"
             end }.
Proof. all: solve_enum. Defined.

(** [FindingType]. *)
Inductive FactType := FACT_ENTITY | FACT_PROPERTY | FACT_REFERENCE | FACT_UNSUPPORTED.
#[export] Instance FactType_eq_dec : EqDecision FactType.
Proof. solve_decision. Defined.
#[export, refine] Instance FactType_enum : StrEnum FactType := {
  members := [FACT_ENTITY; FACT_PROPERTY; FACT_REFERENCE; FACT_UNSUPPORTED];
  value t := match t with
             | FACT_ENTITY => "entity" | FACT_PROPERTY => "property" | FACT_REFERENCE => "reference"
             | FACT_UNSUPPORTED => "unsupported"
             end }.
Proof. all: solve_enum. Defined.

Inductive MappingStatus :=
  | EXACT_MATCH | MAPPED | MAPPING_AMBIGUOUS | UNMAPPED | MAPPING_UNSUPPORTED.
#[export] Instance MappingStatus_eq_dec : EqDecision MappingStatus.
Proof. solve_decision. Defined.
#[export, refine] Instance MappingStatus_enum : StrEnum MappingStatus := {
  members := [EXACT_MATCH; MAPPED; MAPPING_AMBIGUOUS; UNMAPPED; MAPPING_UNSUPPORTED];
  value s := match s with
             | EXACT_MATCH => "exact_match" | MAPPED => "mapped" | MAPPING_AMBIGUOUS => "ambiguous"
             | UNMAPPED => "unmapped" | MAPPING_UNSUPPORTED => "unsupported"
             end }.
Proof. all: solve_enum. Defined.

Inductive EntityRole :=
  | ROLE_COMPONENT | ROLE_ROUTING | ROLE_CONFIGURATION | ROLE_VOLUME | ROLE_NETWORK.
#[export] Instance EntityRole_eq_dec : EqDecision EntityRole.
Proof. solve_decision. Defined.
#[export, refine] Instance EntityRole_enum : StrEnum EntityRole := {
  members := [ROLE_COMPONENT; ROLE_ROUTING; ROLE_CONFIGURATION; ROLE_VOLUME; ROLE_NETWORK];
  value r := match r with
             | ROLE_COMPONENT => "component" | ROLE_ROUTING => "routing"
             | ROLE_CONFIGURATION => "configuration" | ROLE_VOLUME => "volume" | ROLE_NETWORK => "network"
             end }.
Proof. all: solve_enum. Defined.

Inductive RelationshipStatus := IS_RESOLVED | IS_UNRESOLVED.
#[export] Instance RelationshipStatus_eq_dec : EqDecision RelationshipStatus.
Proof. solve_decision. Defined.
#[export, refine] Instance RelationshipStatus_enum : StrEnum RelationshipStatus := {
  members := [IS_RESOLVED; IS_UNRESOLVED];
  value s := match s with IS_RESOLVED => "resolved" | IS_UNRESOLVED => "unresolved" end }.
Proof. all: solve_enum. Defined.

Inductive ElementKind := KIND_NODE | KIND_CONNECTION.
#[export] Instance ElementKind_eq_dec : EqDecision ElementKind.
Proof. solve_decision. Defined.
#[export, refine] Instance ElementKind_enum : StrEnum ElementKind := {
  members := [KIND_NODE; KIND_CONNECTION];
  value k := match k with KIND_NODE => "node" | KIND_CONNECTION => "connection" end }.
Proof. all: solve_enum. Defined.

Inductive ElementStatus := ELEMENT_INCLUDED | ELEMENT_NEEDS_REVIEW | ELEMENT_EXCLUDED.
#[export] Instance ElementStatus_eq_dec : EqDecision ElementStatus.
Proof. solve_decision. Defined.
#[export, refine] Instance ElementStatus_enum : StrEnum ElementStatus := {
  members := [ELEMENT_INCLUDED; ELEMENT_NEEDS_REVIEW; ELEMENT_EXCLUDED];
  value s := match s with
             | ELEMENT_INCLUDED => "included" | ELEMENT_NEEDS_REVIEW => "needs_review"
             | ELEMENT_EXCLUDED => "excluded"
             end }.
Proof. all: solve_enum. Defined.

(** [Severity]. *)
Inductive Gravity := IS_ERROR | IS_WARNING | IS_INFO.
#[export] Instance Gravity_eq_dec : EqDecision Gravity.
Proof. solve_decision. Defined.
#[export, refine] Instance Gravity_enum : StrEnum Gravity := {
  members := [IS_ERROR; IS_WARNING; IS_INFO];
  value s := match s with IS_ERROR => "error" | IS_WARNING => "warning" | IS_INFO => "info" end }.
Proof. all: solve_enum. Defined.

Definition InvalidDiscoveryResult (fields : list string) : exn :=
  DomainError "invalid_discovery_result" "A discovery result is malformed." [("fields", str_list fields)].

(** [check]. *)
Definition checked_result (problems : list (option string)) : py unit :=
  match omap id problems with [] => Ok tt | found => Raise (InvalidDiscoveryResult found) end.

Definition some {A} (o : option A) : bool := if o is Some _ then true else false.
(** [not s]: absent or empty. *)
Definition no_text (o : option string) : bool := match o with Some s => String.eqb s "" | None => true end.

(** * What is extracted (findings.py) *)
Definition MAX_PATH : nat := 256.
Definition AMBIGUOUS_MINIMUM : nat := 2.

Record SourceLocation := {
  lo_artifact : string;
  lo_document : option Z;
  lo_pointer : option string;
  lo_line : option Z;
}.
#[export] Instance SourceLocation_eq_dec : EqDecision SourceLocation.
Proof. solve_decision. Defined.

Definition SourceLocation_new (l : SourceLocation) : py SourceLocation :=
  _ ← checked_result [
    text (lo_artifact l) "location.artifact" MAX_PATH;
    optional (λ z n, count z n 0) (lo_document l) "location.document";
    optional_text (lo_pointer l) "location.pointer" MAX_REFERENCE;
    optional (λ z n, count z n 1) (lo_line l) "location.line"];
  Ok l.

(** The properties [key] and [reference]. *)
Definition location_key (l : SourceLocation) : string * (Z * (string * Z)) :=
  (lo_artifact l, (default (-1)%Z (lo_document l), (default "" (lo_pointer l), default 0%Z (lo_line l)))).
Definition location_key_leb : string * (Z * (string * Z)) → string * (Z * (string * Z)) → bool :=
  lex str_leb (lex Z_leb (lex str_leb Z_leb)).
Definition location_json (k : string * (Z * (string * Z))) : json :=
  JArr [JStr k.1; JInt k.2.1; JStr k.2.2.1; JInt k.2.2.2].
Definition location_reference (l : SourceLocation) : string :=
  let where_ := match lo_document l with Some d => "#" +:+ Z_text d | None => "" end in
  if no_text (lo_pointer l) then lo_artifact l +:+ where_
  else lo_artifact l +:+ where_ +:+ ":" +:+ default "" (lo_pointer l).

Record SourceArtifact := {
  sa_path : string;
  sa_content_hash : string;
  sa_size_bytes : Z;
  sa_status : ArtifactStatus;
  sa_source_type : option SourceType;
  sa_format_version : option string;
  sa_documents : Z;
  sa_extractor : option string;
}.

Definition SourceArtifact_new (a : SourceArtifact) : py SourceArtifact :=
  let read := bool_decide (sa_status a ∈ [ARTIFACT_PARSED; ARTIFACT_PARTIAL]) in
  _ ← checked_result [
    text (sa_path a) "artifact.path" MAX_PATH;
    unless (FINGERPRINT (sa_content_hash a)) "artifact.content_hash";
    count (sa_size_bytes a) "artifact.size_bytes" 0;
    optional_text (sa_format_version a) "artifact.format_version" 64;
    count (sa_documents a) "artifact.documents" 0;
    optional_text (sa_extractor a) "artifact.extractor" 64;
    when (read && negb (some (sa_source_type a))) "artifact.source_type"];
  Ok a.

Record Diagnostic := {
  dg_code : string;
  dg_severity : Gravity;
  dg_message : string;
  dg_location : option SourceLocation;
}.
#[export] Instance Diagnostic_eq_dec : EqDecision Diagnostic.
Proof. solve_decision. Defined.

Definition Diagnostic_new (d : Diagnostic) : py Diagnostic :=
  _ ← checked_result [code_ (dg_code d) "diagnostic.code"; text (dg_message d) "diagnostic.message" MAX_TEXT];
  Ok d.

Definition diagnostic_key (d : Diagnostic) : (string * (Z * (string * Z))) * (string * string) :=
  (match dg_location d with Some l => location_key l | None => ("", (-1, ("", 0)))%Z end, (dg_code d, dg_message d)).

(** [Finding]. *)
Record Fact := {
  fc_type : FactType;
  fc_entity : string;
  fc_location : SourceLocation;
  fc_verification : Verification;
  fc_extractor : string;
  fc_property : option string;
  fc_source_property : option string;
  fc_value : json;
  fc_redacted : bool;
  fc_target : option string;
  fc_warnings : list string;
}.

Definition Fact_new (f : Fact) : py Fact :=
  _ ← checked_result [
    key (fc_entity f) "finding.entity";
    text (fc_extractor f) "finding.extractor" 64;
    optional code_ (fc_property f) "finding.property";
    optional_text (fc_source_property f) "finding.source_property" MAX_REFERENCE;
    json_value (fc_value f) "finding.value";
    optional_text (fc_target f) "finding.target" MAX_REFERENCE;
    texts (fc_warnings f) "finding.warnings" MAX_TEXT;
    when (bool_decide (fc_type f = FACT_PROPERTY) && negb (some (fc_property f))) "finding.property";
    when (bool_decide (fc_type f = FACT_REFERENCE) && negb (some (fc_target f))) "finding.target";
    when (fc_redacted f && negb (is_none (fc_value f))) "finding.value"];
  Ok f.

Definition fact_id (f : Fact) : string :=
  digest "dsf" [JStr (value (fc_type f)); JStr (fc_entity f); of_opt_str (fc_property f);
                of_opt_str (fc_target f); location_json (location_key (fc_location f))].
Definition fact_key (f : Fact) : string * (string * (string * (string * (string * (Z * (string * Z)))))) :=
  (fc_entity f, (value (fc_type f), (default "" (fc_property f), (default "" (fc_target f), location_key (fc_location f))))).

Record ComponentMapping := {
  cm_status : MappingStatus;
  cm_rule : string;
  cm_component_id : option string;
  cm_candidates : list string;
  cm_reason : option string;
}.

(** [CONFIDENT] of results.py. *)
Definition CONFIDENT : list MappingStatus := [EXACT_MATCH; MAPPED].

Definition ComponentMapping_new (m : ComponentMapping) : py ComponentMapping :=
  let mapped := bool_decide (cm_status m ∈ CONFIDENT) in
  let ambiguous := bool_decide (cm_status m = MAPPING_AMBIGUOUS) in
  _ ← checked_result [
    text (cm_rule m) "mapping.rule" 64;
    optional_text (cm_component_id m) "mapping.component_id" 128;
    texts (cm_candidates m) "mapping.candidates" 128;
    optional_text (cm_reason m) "mapping.reason" MAX_TEXT;
    when (negb (Bool.eqb mapped (some (cm_component_id m)))) "mapping.component_id";
    when (negb (Bool.eqb ambiguous (AMBIGUOUS_MINIMUM <=? length (cm_candidates m)))) "mapping.candidates";
    when (negb mapped && no_text (cm_reason m)) "mapping.reason"];
  Ok {| cm_status := cm_status m; cm_rule := cm_rule m; cm_component_id := cm_component_id m;
        cm_candidates := sorted_set (cm_candidates m); cm_reason := cm_reason m |}.

Record PropertyMapping := {
  pm_source_property : string;
  pm_property : string;
  pm_rule : string;
  pm_verification : Verification;
  pm_finding_id : string;
  pm_value : json;
  pm_valid : bool;
  pm_problem : option string;
  pm_source_value : json;
  pm_transformation : option string;
}.

Definition PropertyMapping_new (m : PropertyMapping) : py PropertyMapping :=
  _ ← checked_result [
    text (pm_source_property m) "configuration.source_property" MAX_REFERENCE;
    json_value (pm_source_value m) "configuration.source_value";
    optional_text (pm_transformation m) "configuration.transformation" MAX_TEXT;
    code_ (pm_property m) "configuration.property";
    text (pm_rule m) "configuration.rule" 64;
    text (pm_finding_id m) "configuration.finding_id" 64;
    json_value (pm_value m) "configuration.value";
    optional_text (pm_problem m) "configuration.problem" MAX_TEXT;
    when (negb (pm_valid m) && no_text (pm_problem m)) "configuration.problem"];
  Ok m.

Record CandidateEntity := {
  ce_key : string;
  ce_name : string;
  ce_source_type : SourceType;
  ce_resource_type : string;
  ce_location : SourceLocation;
  ce_mapping : ComponentMapping;
  ce_kind : option NodeKind;
  ce_role : EntityRole;
  ce_kind_rule : option string;
  ce_namespace : option string;
  ce_technology : option string;
  ce_technology_version : option string;
  ce_configuration : list PropertyMapping;
  ce_finding_ids : list string;
}.

Definition CandidateEntity_new (e : CandidateEntity) : py CandidateEntity :=
  _ ← checked_result [
    key (ce_key e) "entity.key";
    text (ce_name e) "entity.name" 200;
    text (ce_resource_type e) "entity.resource_type" 128;
    optional_text (ce_kind_rule e) "entity.kind_rule" 64;
    when (some (ce_kind e) && negb (bool_decide (ce_role e = ROLE_COMPONENT))) "entity.kind";
    when (negb (Bool.eqb (some (ce_kind e)) (some (ce_kind_rule e)))) "entity.kind_rule";
    optional_text (ce_namespace e) "entity.namespace" 128;
    optional_text (ce_technology e) "entity.technology" 64;
    optional_text (ce_technology_version e) "entity.technology_version" 32;
    items (ce_configuration e) "entity.configuration" MAX_ITEMS;
    texts (ce_finding_ids e) "entity.finding_ids" 64;
    when (bool_decide (ce_finding_ids e = [])) "entity.finding_ids"];
  Ok {| ce_key := ce_key e; ce_name := ce_name e; ce_source_type := ce_source_type e;
        ce_resource_type := ce_resource_type e; ce_location := ce_location e; ce_mapping := ce_mapping e;
        ce_kind := ce_kind e; ce_role := ce_role e; ce_kind_rule := ce_kind_rule e;
        ce_namespace := ce_namespace e; ce_technology := ce_technology e;
        ce_technology_version := ce_technology_version e;
        ce_configuration := sort_by (on pm_property str_leb) (ce_configuration e);
        ce_finding_ids := sorted_set (ce_finding_ids e) |}.

Record CandidateRelationship := {
  rl_source : string;
  rl_reference : string;
  rl_location : SourceLocation;
  rl_status : RelationshipStatus;
  rl_target : option string;
  rl_kind : option ConnectionKind;
  rl_finding_ids : list string;
  rl_reason : option string;
  rl_rule : option string;
}.

Definition CandidateRelationship_new (r : CandidateRelationship) : py CandidateRelationship :=
  let resolved := bool_decide (rl_status r = IS_RESOLVED) in
  _ ← checked_result [
    key (rl_source r) "relationship.source";
    text (rl_reference r) "relationship.reference" MAX_REFERENCE;
    optional key (rl_target r) "relationship.target";
    texts (rl_finding_ids r) "relationship.finding_ids" 64;
    when (bool_decide (rl_finding_ids r = [])) "relationship.finding_ids";
    optional_text (rl_reason r) "relationship.reason" MAX_TEXT;
    optional_text (rl_rule r) "relationship.rule" 64;
    when (negb (Bool.eqb resolved (some (rl_target r)))) "relationship.target";
    when (negb resolved && no_text (rl_reason r)) "relationship.reason";
    when (bool_decide (rl_target r = Some (rl_source r))) "relationship.target"];
  Ok {| rl_source := rl_source r; rl_reference := rl_reference r; rl_location := rl_location r;
        rl_status := rl_status r; rl_target := rl_target r; rl_kind := rl_kind r;
        rl_finding_ids := sorted_set (rl_finding_ids r); rl_reason := rl_reason r; rl_rule := rl_rule r |}.

Definition relationship_id (r : CandidateRelationship) : string :=
  digest "dsr" [JStr (rl_source r); JStr (rl_reference r); location_json (location_key (rl_location r))].

(** * The result (results.py) *)
Definition DISCOVERY_VERSION : Z := 1.
Definition MAX_ARTIFACTS : nat := 50.
Definition MAX_FACTS : nat := Z.to_nat 20000.
Definition MAX_ENTITIES : nat := 1000.
Definition MAX_RELATIONSHIPS : nat := Z.to_nat 5000.
Definition MAX_DIAGNOSTICS : nat := Z.to_nat 5000.

Record ValidationIssue := {
  vi_code : string;
  vi_severity : Gravity;
  vi_message : string;
  vi_element_id : option string;
  vi_rule : option string;
}.
#[export] Instance ValidationIssue_eq_dec : EqDecision ValidationIssue.
Proof. solve_decision. Defined.

Definition ValidationIssue_new (v : ValidationIssue) : py ValidationIssue :=
  _ ← checked_result [
    code_ (vi_code v) "validation.code";
    text (vi_message v) "validation.message" MAX_TEXT;
    optional key (vi_element_id v) "validation.element_id";
    optional_text (vi_rule v) "validation.rule" 128];
  Ok v.

Definition issue_key (v : ValidationIssue) : string * (string * string) :=
  (default "" (vi_element_id v), (vi_code v, vi_message v)).

Definition ORIGINS : list Verification := [V_OBSERVED; V_INFERRED; V_USER_PROVIDED].

Record ProposedElement := {
  pe_kind : ElementKind;
  pe_subject : string;
  pe_status : ElementStatus;
  pe_element_id : option string;
  pe_origin : option Verification;
  pe_reason : option string;
  pe_via : option string;
  pe_finding_ids : list string;
}.

Definition ProposedElement_new (e : ProposedElement) : py ProposedElement :=
  let included := bool_decide (pe_status e = ELEMENT_INCLUDED) in
  _ ← checked_result [
    key (pe_subject e) "element.subject";
    optional key (pe_element_id e) "element.element_id";
    optional (λ o, unless (bool_decide (o ∈ ORIGINS))) (pe_origin e) "element.origin";
    optional_text (pe_reason e) "element.reason" MAX_TEXT;
    optional key (pe_via e) "element.via";
    texts (pe_finding_ids e) "element.finding_ids" 64;
    when (negb (Bool.eqb included (some (pe_element_id e)))) "element.element_id";
    when (negb (Bool.eqb included (some (pe_origin e)))) "element.origin";
    when (negb included && no_text (pe_reason e)) "element.reason"];
  Ok {| pe_kind := pe_kind e; pe_subject := pe_subject e; pe_status := pe_status e;
        pe_element_id := pe_element_id e; pe_origin := pe_origin e; pe_reason := pe_reason e;
        pe_via := pe_via e; pe_finding_ids := sorted_set (pe_finding_ids e) |}.

Record DiscoveryResult := {
  ds_artifacts : list SourceArtifact;
  ds_findings : list Fact;
  ds_entities : list CandidateEntity;
  ds_relationships : list CandidateRelationship;
  ds_diagnostics : list Diagnostic;
  ds_proposed : option ArchitectureIR;
  ds_validation : list ValidationIssue;
  ds_elements : list ProposedElement;
  ds_extractors : dict string Z;
  ds_version : Z;
}.

Definition DiscoveryResult_problems (r : DiscoveryResult) : list (option string) := [
  items (ds_artifacts r) "artifacts" MAX_ARTIFACTS;
  when (length (ds_artifacts r) =? 0) "artifacts";
  items (ds_findings r) "findings" MAX_FACTS;
  items (ds_entities r) "entities" MAX_ENTITIES;
  items (ds_relationships r) "relationships" MAX_RELATIONSHIPS;
  items (ds_diagnostics r) "diagnostics" MAX_DIAGNOSTICS;
  items (ds_validation r) "validation" MAX_DIAGNOSTICS;
  items (ds_elements r) "elements" (MAX_ENTITIES + MAX_RELATIONSHIPS);
  unless (forallb (λ p, 1 <=? p.2)%Z (ds_extractors r)) "extractors";
  unless (ds_version r =? DISCOVERY_VERSION)%Z "version"].

(** [a - b] is not empty, for the sets of two lists. *)
Definition exceeds {A} `{EqDecision A} (l k : list A) : bool := negb (forallb (λ x, bool_decide (x ∈ k)) l).

(** [_consistency]. *)
Definition consistency (r : DiscoveryResult) : list (option string) :=
  let paths := sa_path <$> ds_artifacts r in
  let keys := ce_key <$> ds_entities r in
  let findings := fact_id <$> ds_findings r in
  let cited := (ds_entities r ≫= ce_finding_ids) ++ (ds_relationships r ≫= rl_finding_ids)
               ++ (ds_elements r ≫= pe_finding_ids) in
  let joined := (rl_source <$> ds_relationships r)
                ++ filter (λ t, t ≠ "") (omap rl_target (ds_relationships r)) in
  let located := ((λ f, lo_artifact (fc_location f)) <$> ds_findings r)
                 ++ ((λ e, lo_artifact (ce_location e)) <$> ds_entities r) in
  let subjects := ((KIND_NODE,.) <$> keys) ++ ((λ x, (KIND_CONNECTION, relationship_id x)) <$> ds_relationships r) in
  [when (negb (bool_decide (NoDup paths))) "artifacts";
   when (negb (bool_decide (NoDup keys))) "entities";
   when (exceeds cited findings) "findings";
   when (exceeds joined keys) "relationships";
   when (exceeds located paths) "findings";
   when (exceeds ((λ e, (pe_kind e, pe_subject e)) <$> ds_elements r) subjects) "elements"].

Definition DiscoveryResult_normalize (r : DiscoveryResult) : DiscoveryResult := {|
  ds_artifacts := sort_by (on sa_path str_leb) (ds_artifacts r);
  ds_findings := sort_by (on fact_key (lex str_leb (lex str_leb (lex str_leb (lex str_leb location_key_leb)))))
                   (dict_values (index_by fact_id (ds_findings r)));
  ds_entities := sort_by (on ce_key str_leb) (ds_entities r);
  ds_relationships := sort_by (on (λ x, (rl_source x, (rl_reference x, relationship_id x))) (lex str_leb (lex str_leb str_leb)))
                        (ds_relationships r);
  ds_diagnostics := sort_by (on diagnostic_key (lex location_key_leb (lex str_leb str_leb))) (dedup (ds_diagnostics r));
  ds_proposed := ds_proposed r;
  ds_validation := sort_by (on issue_key (lex str_leb (lex str_leb str_leb))) (dedup (ds_validation r));
  ds_elements := sort_by (on (λ e, (value (pe_kind e), pe_subject e)) (lex str_leb str_leb)) (ds_elements r);
  ds_extractors := sort_by (on fst str_leb) (ds_extractors r);
  ds_version := ds_version r |}.

Definition DiscoveryResult_new (r : DiscoveryResult) : py DiscoveryResult :=
  _ ← checked_result (DiscoveryResult_problems r);
  _ ← checked_result (consistency r);
  Ok (DiscoveryResult_normalize r).

Definition is_component (e : CandidateEntity) : bool := bool_decide (ce_role e = ROLE_COMPONENT).

(** The properties [unresolved] and [has_warnings]. *)
Definition unresolved (r : DiscoveryResult) : list string :=
  dedup ((ce_key <$> filter (λ e, is_component e && (negb (bool_decide (cm_status (ce_mapping e) ∈ CONFIDENT))
                                                     || negb (some (ce_kind e)))) (ds_entities r))
         ++ (relationship_id <$> filter (λ x, rl_status x = IS_UNRESOLVED) (ds_relationships r))
         ++ (pe_subject <$> filter (λ e, pe_status e = ELEMENT_NEEDS_REVIEW) (ds_elements r))).
Definition discovery_warnings (r : DiscoveryResult) : bool :=
  existsb (λ a, negb (bool_decide (sa_status a = ARTIFACT_PARSED))) (ds_artifacts r)
  || existsb (λ d, negb (bool_decide (dg_severity d = IS_INFO))) (ds_diagnostics r)
  || existsb (λ v, negb (bool_decide (vi_severity v = IS_INFO))) (ds_validation r)
  || negb (bool_decide (unresolved r = [])).
