(* ===== verification/DriftEngine.v ===== *)
(** The deterministic drift engine (src/engines/drift): where elements come from (sources.py), the identity
    matching (matching.py), what differs (comparison.py), whether the inputs compare (compatibility.py), how far
    the evidence of a difference goes (classification.py) and the engine (engine.py).

    A matched node is compared, through [Diff], with the node as the source declares it.  The context from the
    other engines (impact.py) is left out: the engine without a catalog.  A float among the values of an
    entity, which no mapping makes, is taken for the decimal. *)
From Stdlib Require Import Ascii ZArith.
From S2P Require Import Prelude Data Codecs Errors Values Provenance Component Configuration Elements Model Commands Serialization Diff Computations.
From S2P Require Import Store Drift Discovered.

(** * Where things come from (sources.py) *)
Definition ACTOR : string := "discovery:".

Record DiscoveredFrom := { dv_source_type : SourceType; dv_artifact : string; dv_reference : string }.

(** [discovered_from(element)], of the element's provenance. *)
Definition discovered_from (provenance : option Provenance) : option DiscoveredFrom :=
  p ← provenance;
  reference ← reference p;
  actor ← actor p;
  rest ← removeprefix_chars ACTOR actor;
  source ← enum_of rest;
  let artifact := artifact_of reference in
  if String.eqb artifact "" then None
  else Some {| dv_source_type := source; dv_artifact := artifact; dv_reference := reference |}.

Definition coverage_of (r : DiscoveryResult) : py Coverage :=
  let by_status s := sa_path <$> filter (λ a, sa_status a = s) (ds_artifacts r) in
  let size {A} (l : list A) := Z.of_nat (length l) in
  Coverage_new {|
    cv_source_types := sorted_set (value <$> omap sa_source_type (ds_artifacts r));
    cv_inspected := by_status ARTIFACT_PARSED;
    cv_partial := by_status ARTIFACT_PARTIAL;
    cv_unread := by_status ARTIFACT_UNSUPPORTED ++ by_status ARTIFACT_FAILED;
    cv_unsupported_constructs := size (filter (λ f, fc_type f = FACT_UNSUPPORTED) (ds_findings r));
    cv_unresolved_entities :=
      size (filter (λ e, is_component e = true ∧ cm_status (ce_mapping e) ∉ CONFIDENT) (ds_entities r));
    cv_unresolved_relationships := size (filter (λ x, rl_status x = IS_UNRESOLVED) (ds_relationships r));
    cv_errors := size (filter (λ d, dg_severity d = IS_ERROR) (ds_diagnostics r)) |}.

(** * Lists by key: [defaultdict(list)] *)
Section grouped.
Context {K V : Type} `{EqDecision K}.

Definition dict_append (k : K) (v : V) (d : dict K (list V)) : dict K (list V) :=
  dict_set k (default [] (dict_get k d) ++ [v]) d.

Definition grouped (l : list (K * V)) : dict K (list V) := foldl (λ d p, dict_append p.1 p.2 d) [] l.
End grouped.

(** * Nodes (matching.py) *)
Definition NEAR : string := "An entity now stands where this node was discovered: confirm the identity to compare them.".
Definition FAR : string := "It stands where a baseline node was discovered: confirm the identity to compare them.".
Definition UNSTATED : string := "Several baseline connections join these endpoints and the source states no kind.".

Record NodeMatch := {
  nm_baseline_id : option string;
  nm_discovered_key : option string;
  nm_method : MatchMethod;
  nm_candidates : list string;
  nm_reason : option string;
}.
#[export] Instance NodeMatch_eq_dec : EqDecision NodeMatch.
Proof. solve_decision. Defined.

Definition node_match (baseline discovered : option string) (method : MatchMethod) (candidates : list string)
    (reason : option string) : NodeMatch := {|
  nm_baseline_id := baseline; nm_discovered_key := discovered; nm_method := method;
  nm_candidates := candidates; nm_reason := reason |}.

Definition node_matched (m : NodeMatch) : bool := bool_decide (nm_method m ∈ [SAME_ID; CONFIRMED_MAPPING]).

(** [_baseline_of]: discovery key to the baseline node id it matched. *)
Definition baseline_of (ms : list NodeMatch) : dict string string :=
  dict_of (omap (λ m, if node_matched m
                      then match nm_discovered_key m, nm_baseline_id m with
                           | Some k, Some b => if String.eqb k "" || String.eqb b "" then None else Some (k, b)
                           | _, _ => None
                           end
                      else None) ms).

Section nodes.
Context (entities : dict string CandidateEntity) (mappings : dict string string).

Definition known (k : string) : bool := some (dict_get k entities).

(** What a node claims: a discovery key, or why none. *)
Definition claim (n : Node) : (string * MatchMethod) + option string :=
  if known (n_id n) then inl (n_id n, SAME_ID)
  else match dict_get (n_id n) mappings with
       | Some k => if known k then inl (k, CONFIRMED_MAPPING)
                   else inr (Some ("The confirmed mapping names " +:+ k +:+ ", which this run does not hold."))
       | None => inr None
       end.

(** [_claims]. *)
Definition claims (nodes : list Node) : dict string (list (string * MatchMethod)) :=
  grouped (omap (λ n, match claim n with inl (k, m) => Some (k, (n_id n, m)) | inr _ => None end) nodes).
Definition unmatched_nodes (nodes : list Node) : dict string NodeMatch :=
  dict_of (omap (λ n, match claim n with
                      | inl _ => None
                      | inr reason => Some (n_id n, node_match (Some (n_id n)) None UNMATCHED [] reason)
                      end) nodes).

(** A claimed key: one claimant is a match, several are ambiguous. *)
Definition settle (p : string * list (string * MatchMethod)) : list NodeMatch :=
  match p.2 with
  | [(b, m)] => [node_match (Some b) (Some p.1) m [] None]
  | claimants =>
      let ids := sort_by str_leb claimants.*1 in
      let reason := Some (p.1 +:+ " is claimed by several baseline nodes (" +:+ join ", " ids +:+ "): confirm which one.") in
      ((λ b, node_match (Some b) None AMBIGUOUS [p.1] reason) <$> ids)
      ++ [node_match None (Some p.1) AMBIGUOUS ids reason]
  end.

(** The free entities standing where a node was discovered. *)
Definition nearby (nodes : dict string Node) (free : dict string CandidateEntity) (b : string) : list string :=
  match dict_get b nodes ≫= λ n, discovered_from (n_provenance n) with
  | Some origin => sort_by str_leb
      (ce_key <$> filter (λ e, location_reference (ce_location e) = dv_reference origin) (dict_values free))
  | None => []
  end.

Definition near_match (nodes : dict string Node) (free : dict string CandidateEntity) (p : string * NodeMatch) : NodeMatch :=
  match nearby nodes free p.1 with
  | [] => p.2
  | keys => if some (nm_reason p.2) then p.2 else node_match (Some p.1) None AMBIGUOUS keys (Some NEAR)
  end.

(** The nodes a free entity is a candidate of. *)
Definition candidates_of (nodes : dict string Node) (free : dict string CandidateEntity)
    (unmatched : list (string * NodeMatch)) (k : string) : list string :=
  fst <$> filter (λ p, nm_reason p.2 = None ∧ k ∈ nearby nodes free p.1) unmatched.

Definition free_match (nodes : dict string Node) (free : dict string CandidateEntity)
    (unmatched : list (string * NodeMatch)) (k : string) : NodeMatch :=
  match candidates_of nodes free unmatched k with
  | [] => node_match None (Some k) UNMATCHED [] None
  | ids => node_match None (Some k) AMBIGUOUS (sort_by str_leb ids) (Some FAR)
  end.

Definition node_key (m : NodeMatch) : string * string := (default "" (nm_baseline_id m), default "" (nm_discovered_key m)).

Definition matches_of (nodes : list Node) : list NodeMatch :=
  let claimed := claims nodes in
  let free := filter (λ p, p.1 ∉ dict_keys claimed) entities in
  let by_id := index_by n_id nodes in
  let unmatched := sort_by (on fst str_leb) (unmatched_nodes nodes) in
  sort_by (on node_key (lex str_leb str_leb)) (
    (sort_by (on fst str_leb) claimed ≫= settle)
    ++ (near_match by_id free <$> unmatched)
    ++ (free_match by_id free unmatched <$> sort_by str_leb (dict_keys free))).
End nodes.

(** The entities and nodes compared: components, and what is not excluded. *)
Definition compared_entities (r : DiscoveryResult) (excluded : list string) : dict string CandidateEntity :=
  index_by ce_key (filter (λ e, is_component e = true ∧ ce_key e ∉ excluded) (ds_entities r)).
Definition compared_nodes (ir : ArchitectureIR) (excluded : list string) : list Node :=
  filter (λ n, n_id n ∉ excluded) (ir_nodes ir).

Definition match_nodes (ir : ArchitectureIR) (r : DiscoveryResult) (mappings : dict string string)
    (excluded : list string) : list NodeMatch :=
  matches_of (compared_entities r excluded) mappings (compared_nodes ir excluded).

(** * Connections *)
Record ConnectionMatch := {
  kn_baseline_id : option string;
  kn_relationships : list string;
  kn_method : MatchMethod;
  kn_source : string;
  kn_target : string;
  kn_candidates : list string;
  kn_reason : option string;
}.

Definition connection_match (baseline : option string) (relationships : list string) (method : MatchMethod)
    (pair : string * string) (candidates : list string) (reason : option string) : ConnectionMatch := {|
  kn_baseline_id := baseline; kn_relationships := relationships; kn_method := method; kn_source := pair.1;
  kn_target := pair.2; kn_candidates := candidates; kn_reason := reason |}.

Definition connection_matched (m : ConnectionMatch) : bool := bool_decide (kn_method m ∈ [SAME_ID; SIGNATURE]).

Definition somes {A} (l : list (option A)) : list A := omap id l.

(** [d[k]]. *)
Definition subscript {A} (d : dict string A) (k : string) : py A :=
  match dict_get k d with Some a => Ok a | None => Raise KeyError end.

(** [service_routes]: each routing entity with the workload its selector resolves to. *)
Definition service_route (entities : dict string CandidateEntity) (x : CandidateRelationship) : py (option (string * string)) :=
  match rl_target x with
  | Some target =>
      if String.prefix "selector:" (rl_reference x) then
        e ← subscript entities (rl_source x);
        Ok (if bool_decide (ce_role e = ROLE_ROUTING) then Some (rl_source x, target) else None)
      else Ok None
  | None => Ok None
  end.
Definition service_routes (relationships : list CandidateRelationship) (entities : dict string CandidateEntity) :
    py (dict string string) :=
  routes ← py_map (service_route entities) relationships; Ok (dict_of (somes routes)).

(** [_endpoints]: resolved relationships between components. *)
Definition endpoint (entities : dict string CandidateEntity) (routes : dict string string) (x : CandidateRelationship) :
    py (option (CandidateRelationship * (string * string))) :=
  match rl_status x, rl_target x with
  | IS_RESOLVED, Some target =>
      e ← subscript entities target;
      match (if bool_decide (ce_role e = ROLE_ROUTING) then dict_get target routes else Some target) with
      | None => Ok None
      | Some target =>
          s ← subscript entities (rl_source x);
          if is_component s then
            t ← subscript entities target;
            Ok (if is_component t then Some (x, (rl_source x, target)) else None)
          else Ok None
      end
  | _, _ => Ok None
  end.
Definition endpoints (relationships : list CandidateRelationship) (entities : dict string CandidateEntity) :
    py (list (CandidateRelationship * (string * string))) :=
  routes ← service_routes relationships entities;
  found ← py_map (endpoint entities routes) relationships;
  Ok (somes found).

Definition pair_of_connection (c : Connection) : string * string := (c_source_id c, c_target_id c).

(** The connections that keep the id of a relationship between the same endpoints. *)
Definition same_reference (pair_of : dict string (string * string)) (c : Connection) : bool :=
  bool_decide (dict_get (c_id c) pair_of = Some (pair_of_connection c)).

(** One of the others, given what is used already. *)
Definition signature_match (by_pair : dict (string * string) (list CandidateRelationship)) (alone : bool)
    (used : list string) (c : Connection) : ConnectionMatch :=
  let pair := pair_of_connection c in
  let group := filter (λ x, relationship_id x ∉ used) (default [] (dict_get pair by_pair)) in
  let ids l := sort_by str_leb (relationship_id <$> l) in
  let chosen := if alone then ids group else ids (filter (λ x, rl_kind x = Some (c_kind c)) group) in
  match chosen with
  | _ :: _ => connection_match (Some (c_id c)) chosen SIGNATURE pair [] None
  | [] =>
      match ids (filter (λ x, rl_kind x = None) group) with
      | [] => connection_match (Some (c_id c)) [] UNMATCHED pair [] None
      | unknown => connection_match (Some (c_id c)) [] AMBIGUOUS pair unknown (Some UNSTATED)
      end
  end.

Fixpoint signature_loop (by_pair : dict (string * string) (list CandidateRelationship)) (all : list Connection)
    (found : list ConnectionMatch) (used : list string) (rest : list Connection) : list ConnectionMatch * list string :=
  match rest with
  | [] => (found, used)
  | c :: r =>
      let alone := length (filter (λ d, pair_of_connection d = pair_of_connection c) all) =? 1 in
      let m := signature_match by_pair alone used c in
      signature_loop by_pair all (found ++ [m]) (used ++ kn_relationships m) r
  end.

(** [_baseline_side]. *)
Definition baseline_side (connections : list Connection) (by_pair : dict (string * string) (list CandidateRelationship))
    (pair_of : dict string (string * string)) : list ConnectionMatch * list string :=
  let same := filter (λ c, same_reference pair_of c = true) connections in
  let rest := filter (λ c, same_reference pair_of c ≠ true) connections in
  signature_loop by_pair rest
    ((λ c, connection_match (Some (c_id c)) [c_id c] SAME_ID (pair_of_connection c) [] None) <$> same)
    (c_id <$> same) rest.

Definition connection_key (m : ConnectionMatch) : string * (string * (string * list string)) :=
  (kn_source m, (kn_target m, (default "" (kn_baseline_id m), kn_relationships m))).
Definition connection_key_leb : string * (string * (string * list string)) → string * (string * (string * list string)) → bool :=
  lex str_leb (lex str_leb (lex str_leb (list_leb str_leb))).
Definition pair_leb : string * string → string * string → bool := lex str_leb str_leb.

(** The matches of the relationships whose endpoints are known. *)
Definition connection_matches (baseline : dict string string) (connections : list Connection)
    (found : list (CandidateRelationship * (string * string))) : list ConnectionMatch :=
  let end_of k := default k (dict_get k baseline) in
  let both p := some (dict_get p.1 baseline) && some (dict_get p.2 baseline) in
  let ends p := (end_of p.1, end_of p.2) in
  let matched := filter (λ x, both x.2 = true) found in
  let by_pair := grouped ((λ x, (ends x.2, x.1)) <$> matched) in
  let pair_of := dict_of ((λ x, (relationship_id x.1, ends x.2)) <$> matched) in
  let unmatched_pairs := grouped ((λ x, (ends x.2, relationship_id x.1)) <$> filter (λ x, both x.2 ≠ true) found) in
  let '(sides, used) := baseline_side connections by_pair pair_of in
  let claimed := sides ≫= kn_candidates in
  let left_ group := sort_by str_leb (filter (λ i, (i ∉ used) ∧ (i ∉ claimed)) (relationship_id <$> group)) in
  sort_by (on connection_key connection_key_leb) (
    sides
    ++ omap (λ p, match left_ p.2 with [] => None | rest => Some (connection_match None rest UNMATCHED p.1 [] None) end)
         (sort_by (on fst pair_leb) by_pair)
    ++ ((λ p, connection_match None (sort_by str_leb p.2) UNMATCHED p.1 [] None) <$> sort_by (on fst pair_leb) unmatched_pairs)).

Definition match_connections (ir : ArchitectureIR) (r : DiscoveryResult) (nodes : list NodeMatch) (excluded : list string) :
    py (list ConnectionMatch) :=
  let entities := index_by ce_key (ds_entities r) in
  found ← endpoints (filter (λ x, relationship_id x ∉ excluded) (ds_relationships r)) entities;
  Ok (connection_matches (baseline_of nodes) (filter (λ c, c_id c ∉ excluded) (ir_connections ir)) found).

Record Matching := { mt_nodes : list NodeMatch; mt_connections : list ConnectionMatch; mt_excluded : list string }.

Definition match_ (ir : ArchitectureIR) (r : DiscoveryResult) (mappings : dict string string) (excluded : list string) :
    py Matching :=
  let nodes := match_nodes ir r mappings excluded in
  connections ← match_connections ir r nodes excluded;
  Ok {| mt_nodes := nodes; mt_connections := connections; mt_excluded := sorted_set excluded |}.

Definition COMPARISON_RULE : string := "drift-differences@1".

(** [RESOURCES] and [TERRAFORM_PROPERTIES] of src/engines/discovery/mapping.py: the properties they lead to. *)
Definition RESOURCE_TARGETS : list string :=
  ["cpu_request_cores"; "cpu_limit_cores"; "memory_request_bytes"; "memory_limit_bytes"].
Definition TERRAFORM_TARGETS : list string := ["instance_class"; "storage_bytes"].
Definition CATALOG_RULE : string := "discovery-catalog@1".

Definition WORKLOAD : list string := ["replicas"; "health_check"] ++ RESOURCE_TARGETS.
(** The properties a source can declare; [None]: every property. *)
Definition DECLARABLE (s : SourceType) : option (list string) :=
  match s with
  | FROM_KUBERNETES | FROM_DOCKER_COMPOSE => Some WORKLOAD
  | FROM_TERRAFORM_JSON => Some TERRAFORM_TARGETS
  | FROM_ARCHITECTURE_JSON => None
  end.
Definition IMAGE_SOURCES : list SourceType := [FROM_KUBERNETES; FROM_DOCKER_COMPOSE].
Definition COMPARED_CATEGORIES : list string := ["kind"; "technology"; "configuration"; "resources"].
Definition UNSET : string := "Not declared is not proof it is unset.".

Record Difference := {
  dn_type : FindingType;
  dn_element : DriftElement;
  dn_subject : string;
  dn_explanation : string;
  dn_path : option string;
  dn_baseline_id : option string;
  dn_discovered_key : option string;
  dn_match : option MatchMethod;
  dn_baseline_value : json;
  dn_discovered_value : json;
  dn_redacted : bool;
  dn_evidence : list string;
  dn_locations : list string;
  dn_baseline_reference : option string;
  dn_source_type : option SourceType;
  dn_baseline_artifact : option string;
  dn_absent : bool;
  dn_inferred : bool;
  dn_candidates : list string;
  dn_notes : list string;
}.

(** [shown_values]: both values, or that a secret changed and nothing more. *)
Definition shown_values (path : string) (before after : json) : json * json * bool :=
  if is_secret_path path then (JNull, JNull, true) else (before, after, false).

(** [path.partition(".")]. *)
Fixpoint partition_dot (s : string) : string * string :=
  match s with
  | EmptyString => ("", "")
  | String c r => if Ascii.eqb c dot then ("", r) else let '(a, b) := partition_dot r in (String c a, b)
  end.

Definition type_of_path (path : string) : FindingType :=
  let '(head, rest) := partition_dot path in
  if String.eqb head "configuration" then
    if bool_decide (rest ∈ RESOURCE_PROPERTIES) then RESOURCE_CHANGED else CONFIGURATION_CHANGED
  else if String.eqb head "component" then MAPPING_CHANGED else COMPONENT_MODIFIED.

(** ** What the source declares *)

(** [raise] what is not an [InvalidArchitecture]; a malformed number raises [InvalidOperation], here
    [ValueError]. *)
Definition ir_value (m : PropertyMapping) : py json :=
  spec ← subscript NODE_PROPERTIES (pm_property m);
  match p_type spec, pm_value m with
  | DECIMAL, JInt z => Ok (JDec (dec_of_Z z))
  | DECIMAL, JStr s => match decimal_text (strip s) with
                       | Some d => Ok (JDec d)
                       | None => Raise (ValueError "InvalidOperation")
                       end
  | DECIMAL, JBool _ => Raise (ValueError "InvalidOperation")
  | _, v => Ok v
  end.

Definition technology_of (n : Node) (e : CandidateEntity) : py (option Technology) :=
  match ce_technology e with
  | None => Ok (n_technology n)
  | Some name =>
      let version := if no_text (ce_technology_version e) then n_technology n ≫= t_version else ce_technology_version e in
      match Technology_new (JStr name) (of_opt_str version) with
      | Ok t => Ok (Some t)
      | Raise (InvalidArchitecture _) => Ok (n_technology n)
      | Raise x => Raise x
      end
  end.

(** The values compared, their evidence and what discovery could not read. *)
Record Declaring := { dc_values : dict string json; dc_evidence : dict string string; dc_unresolved : list Difference }.

Definition unreadable (n : Node) (e : CandidateEntity) (m : PropertyMapping) (path : string) : Difference := {|
  dn_type := UNRESOLVED_DIFFERENCE; dn_element := DRIFT_NODE; dn_subject := "node:" +:+ n_id n;
  dn_explanation := "Discovery could not read " +:+ path +:+ "."; dn_path := Some path;
  dn_baseline_id := Some (n_id n); dn_discovered_key := Some (ce_key e); dn_match := None;
  dn_baseline_value := JNull; dn_discovered_value := JNull; dn_redacted := false;
  dn_evidence := [pm_finding_id m]; dn_locations := []; dn_baseline_reference := None;
  dn_source_type := Some (ce_source_type e); dn_baseline_artifact := None; dn_absent := false;
  dn_inferred := false; dn_candidates := [];
  dn_notes := [if no_text (pm_problem m) then "The declared value is not usable." else default "" (pm_problem m)] |}.

Definition declare (n : Node) (e : CandidateEntity) (stated : dict string PropertyMapping) (d : Declaring) (name : string) :
    py Declaring :=
  if match DECLARABLE (ce_source_type e) with Some allowed => negb (bool_decide (name ∈ allowed)) | None => false end
  then Ok d
  else
    let path := "configuration." +:+ name in
    match dict_get name stated with
    | None => Ok {| dc_values := dict_del name (dc_values d); dc_evidence := dc_evidence d; dc_unresolved := dc_unresolved d |}
    | Some m =>
        if negb (pm_valid m) || is_none (pm_value m)
        then Ok {| dc_values := dc_values d; dc_evidence := dc_evidence d;
                   dc_unresolved := dc_unresolved d ++ [unreadable n e m path] |}
        else
          v ← ir_value m;
          Ok {| dc_values := dict_set name v (dc_values d); dc_evidence := dict_set path (pm_finding_id m) (dc_evidence d);
                dc_unresolved := dc_unresolved d |}
    end.

Fixpoint declare_all (n : Node) (e : CandidateEntity) (stated : dict string PropertyMapping) (d : Declaring)
    (names : list string) : py Declaring :=
  match names with
  | [] => Ok d
  | name :: r => d ← declare n e stated d name; declare_all n e stated d r
  end.

(** [replace(node, kind=, component=, technology=, configuration=)]. *)
Definition declared_args (n : Node) (kind : NodeKind) (component : option string) (t : option Technology) (c : Configuration) :
    NodeArgs := {|
  na_id := JStr (n_id n); na_kind := Typed kind; na_name := JStr (n_name n);
  na_description := of_opt_str (n_description n); na_technology := t; na_component := of_opt_str component;
  na_parent_id := of_opt_str (n_parent_id n); na_configuration := c; na_requirement_refs := n_requirement_refs n;
  na_lifecycle := of_option (n_lifecycle n); na_metadata := of_metadata (n_metadata n);
  na_provenance := n_provenance n; na_field_provenance := n_field_provenance n |}.

(** [_declared]: the configuration is made anew of the values alone. *)
Definition declared (n : Node) (e : CandidateEntity) : py (Node * dict string string * list Difference) :=
  let stated := index_by pm_property (ce_configuration e) in
  let values := values (n_configuration n) in
  d ← declare_all n e stated {| dc_values := values; dc_evidence := []; dc_unresolved := [] |}
        (sorted_set (dict_keys values ++ dict_keys stated));
  let confident := bool_decide (cm_status (ce_mapping e) ∈ CONFIDENT) && some (cm_component_id (ce_mapping e)) in
  t ← technology_of n e;
  c ← Configuration_new (dc_values d) [] [];
  node ← Node_new (declared_args n (default (n_kind n) (ce_kind e))
                     (if confident then cm_component_id (ce_mapping e) else n_component n) t c);
  Ok (node, dc_evidence d, dc_unresolved d).

(** [_stripped]. *)
Definition stripped_args (n : Node) : NodeArgs := {|
  na_id := JStr (n_id n); na_kind := Typed (n_kind n); na_name := JStr (n_name n);
  na_description := of_opt_str (n_description n); na_technology := n_technology n;
  na_component := of_opt_str (n_component n); na_parent_id := of_opt_str (n_parent_id n);
  na_configuration := n_configuration n; na_requirement_refs := n_requirement_refs n;
  na_lifecycle := of_option (n_lifecycle n); na_metadata := of_metadata (n_metadata n);
  na_provenance := None; na_field_provenance := [] |}.
Definition stripped (n : Node) : py Node := Node_new (stripped_args n).

(** [ArchitectureIR("b", nodes=(node,))]. *)
Definition only_node (n : Node) : py ArchitectureIR :=
  ArchitectureIR_new {|
    aa_name := JStr "b"; aa_description := JNull; aa_nodes := [n]; aa_connections := []; aa_assumptions := [];
    aa_decisions := []; aa_refs := []; aa_metadata := JObj []; aa_ir_provenance := None; aa_schema_version := IR_SCHEMA_VERSION |}.

(** The message of the first violation. *)
Definition first_message (vs : list Violation) : string :=
  match vs with v :: _ => v_message v | [] => "" end.

Definition unfitting (n : Node) (e : CandidateEntity) (method : MatchMethod) (vs : list Violation) : Difference := {|
  dn_type := UNRESOLVED_DIFFERENCE; dn_element := DRIFT_NODE; dn_subject := "node:" +:+ n_id n;
  dn_explanation := "The discovered configuration cannot be compared with this node."; dn_path := None;
  dn_baseline_id := Some (n_id n); dn_discovered_key := Some (ce_key e); dn_match := Some method;
  dn_baseline_value := JNull; dn_discovered_value := JNull; dn_redacted := false;
  dn_evidence := ce_finding_ids e; dn_locations := []; dn_baseline_reference := None;
  dn_source_type := Some (ce_source_type e); dn_baseline_artifact := None; dn_absent := false;
  dn_inferred := false; dn_candidates := [];
  dn_notes := ["What the source declares does not fit the baseline node: " +:+ first_message vs] |}.

(** A field that differs. *)
Definition field_difference (n : Node) (e : CandidateEntity) (method : MatchMethod) (evidence : dict string string)
    (f : FieldChange) : Difference :=
  let path := fc_field f in
  let inferred_kind := bool_decide (ce_kind_rule e = Some CATALOG_RULE) in
  let inferred_component := bool_decide (cm_status (ce_mapping e) = MAPPED) && bool_decide (ce_source_type e ∈ IMAGE_SOURCES) in
  let inferred := (String.eqb path "kind" && inferred_kind) || (String.eqb path "component" && inferred_component) in
  let removed := String.prefix "configuration." path && is_none (fc_after f) in
  let '(before, after, redacted) := shown_values path (fc_before f) (fc_after f) in
  {| dn_type := type_of_path path; dn_element := DRIFT_NODE; dn_subject := "node:" +:+ n_id n;
     dn_explanation := path +:+ (if removed then " is no longer declared." else " differs from the baseline.");
     dn_path := Some path; dn_baseline_id := Some (n_id n); dn_discovered_key := Some (ce_key e);
     dn_match := Some method; dn_baseline_value := before; dn_discovered_value := after; dn_redacted := redacted;
     dn_evidence := match dict_get path evidence with Some f => [f] | None => ce_finding_ids e end;
     dn_locations := [location_reference (ce_location e)];
     dn_baseline_reference := dv_reference <$> discovered_from (n_provenance n);
     dn_source_type := Some (ce_source_type e); dn_baseline_artifact := None; dn_absent := false;
     dn_inferred := inferred; dn_candidates := []; dn_notes := if removed then [UNSET] else [] |}.

(** [_node_differences]: what does not fit is caught while the declared node is made, not while the two
    are compared. *)
Definition node_differences (n : Node) (e : CandidateEntity) (method : MatchMethod) : py (list Difference) :=
  match (node ← stripped n; declared node e) with
  | Raise (InvalidArchitecture vs) => Ok [unfitting n e method vs]
  | Raise x => Raise x
  | Ok (after_node, evidence, found) =>
      node ← stripped n;
      before ← only_node node;
      after ← only_node after_node;
      Ok (found ++ (field_difference n e method evidence <$>
            filter (λ f, fc_category f ∈ COMPARED_CATEGORIES) (df_nodes (diff before after) ≫= el_fields)))
  end.

(** ** Elements on one side only, and ambiguous ones *)
Definition missing_node (n : Node) (m : NodeMatch) : Difference :=
  let origin := discovered_from (n_provenance n) in {|
  dn_type := COMPONENT_REMOVED; dn_element := DRIFT_NODE; dn_subject := "node:" +:+ n_id n;
  dn_explanation := "No discovered entity matches this node."; dn_path := None; dn_baseline_id := Some (n_id n);
  dn_discovered_key := None; dn_match := Some UNMATCHED; dn_baseline_value := JNull; dn_discovered_value := JNull;
  dn_redacted := false; dn_evidence := []; dn_locations := []; dn_baseline_reference := dv_reference <$> origin;
  dn_source_type := dv_source_type <$> origin; dn_baseline_artifact := dv_artifact <$> origin; dn_absent := true;
  dn_inferred := false; dn_candidates := [];
  dn_notes := match nm_reason m with Some r => if String.eqb r "" then [] else [r] | None => [] end |}.

Definition added_node (e : CandidateEntity) : Difference := {|
  dn_type := COMPONENT_ADDED; dn_element := DRIFT_NODE; dn_subject := "node:" +:+ ce_key e;
  dn_explanation := "Declared in the sources; not in the baseline."; dn_path := None; dn_baseline_id := None;
  dn_discovered_key := Some (ce_key e); dn_match := Some UNMATCHED; dn_baseline_value := JNull;
  dn_discovered_value := of_opt_str (value <$> ce_kind e); dn_redacted := false; dn_evidence := ce_finding_ids e;
  dn_locations := [location_reference (ce_location e)]; dn_baseline_reference := None;
  dn_source_type := Some (ce_source_type e); dn_baseline_artifact := None; dn_absent := false;
  dn_inferred := false; dn_candidates := [];
  dn_notes := if some (ce_kind e) then [] else ["Its node kind is not established by the source."] |}.

(** [a or b], of optional texts. *)
Definition or_text (a : option string) (b : string) : string := if no_text a then b else default b a.

Definition ambiguous_node (m : NodeMatch) (e : option CandidateEntity) : Difference := {|
  dn_type := UNRESOLVED_DIFFERENCE; dn_element := DRIFT_NODE;
  dn_subject := "node:" +:+ or_text (nm_baseline_id m) (match nm_discovered_key m with Some k => k | None => "None" end);
  dn_explanation := or_text (nm_reason m) "The identity is ambiguous."; dn_path := None;
  dn_baseline_id := nm_baseline_id m; dn_discovered_key := nm_discovered_key m; dn_match := Some AMBIGUOUS;
  dn_baseline_value := JNull; dn_discovered_value := JNull; dn_redacted := false;
  dn_evidence := match e with Some e => ce_finding_ids e | None => [] end; dn_locations := [];
  dn_baseline_reference := None; dn_source_type := ce_source_type <$> e; dn_baseline_artifact := None;
  dn_absent := false; dn_inferred := false; dn_candidates := nm_candidates m;
  dn_notes := ["Confirm the identity to compare it."] |}.

(** [d.get(k) if k else None]. *)
Definition looked_up {A} (d : dict string A) (k : option string) : option A :=
  if no_text k then None else k ≫= λ k, dict_get k d.

(** One match's differences ([_nodes]). *)
Definition node_match_differences (by_id : dict string Node) (entities : dict string CandidateEntity) (m : NodeMatch) :
    py (list Difference) :=
  let node := looked_up by_id (nm_baseline_id m) in
  let entity := looked_up entities (nm_discovered_key m) in
  match node_matched m, node, entity with
  | true, Some n, Some e => node_differences n e (nm_method m)
  | _, _, _ =>
      if bool_decide (nm_method m = AMBIGUOUS) then
        if negb (some (nm_baseline_id m)) && match nm_discovered_key m with Some k => some (dict_get k by_id) | None => false end
        then Ok []
        else Ok [ambiguous_node m entity]
      else match node, entity with
           | Some n, _ => Ok [missing_node n m]
           | None, Some e => Ok [added_node e]
           | None, None => Ok []
           end
  end.

Definition node_match_all (ir : ArchitectureIR) (entities : dict string CandidateEntity) (ms : list NodeMatch) :
    py (list Difference) :=
  (λ found : list (list Difference), mjoin found) <$> py_map (node_match_differences (index_by n_id (ir_nodes ir)) entities) ms.

(** [sorted({r.kind.value for r in group if r.kind is not None})]. *)
Definition stated_kinds (group : list CandidateRelationship) : list string :=
  sorted_set (value <$> omap rl_kind group).
(** [_kind_of]. *)
Definition kind_of (group : list CandidateRelationship) : json :=
  match stated_kinds group with [] => JNull | [k] => JStr k | ks => str_list ks end.

Definition relationships_source (entities : dict string CandidateEntity) (group : list CandidateRelationship) :
    py (option SourceType) :=
  match group with
  | [] => Ok None
  | x :: _ => e ← subscript entities (rl_source x); Ok (Some (ce_source_type e))
  end.

(** [_connection]. *)
Definition connection_difference (m : ConnectionMatch) (c : option Connection) (group : list CandidateRelationship)
    (entities : dict string CandidateEntity) (matched_nodes : list string) : py (option Difference) :=
  let evidence := group ≫= rl_finding_ids in
  let locations := (λ x, location_reference (rl_location x)) <$> group in
  source ← relationships_source entities group;
  let difference type subject explanation path baseline discovered method before after evidence locations reference artifact
      source absent candidates notes := Some {|
    dn_type := type; dn_element := DRIFT_CONNECTION; dn_subject := subject; dn_explanation := explanation;
    dn_path := path; dn_baseline_id := baseline; dn_discovered_key := discovered; dn_match := Some method;
    dn_baseline_value := before; dn_discovered_value := after; dn_redacted := false; dn_evidence := evidence;
    dn_locations := locations; dn_baseline_reference := reference; dn_source_type := source;
    dn_baseline_artifact := artifact; dn_absent := absent; dn_inferred := false; dn_candidates := candidates;
    dn_notes := notes |} in
  match c, connection_matched m with
  | Some c, true =>
      let stated := stated_kinds group in
      if bool_decide (stated = []) || bool_decide (value (c_kind c) ∈ stated) then Ok None
      else match kn_relationships m with
           | [] => Raise LookupError
           | first :: _ =>
               Ok (difference CONNECTION_MODIFIED ("connection:" +:+ c_id c) "The source states another connection kind."
                     (Some "kind") (Some (c_id c)) (Some first) (kn_method m) (JStr (value (c_kind c))) (kind_of group)
                     evidence locations None None source false [] [])
           end
  | _, _ =>
      if bool_decide (kn_method m = AMBIGUOUS) then
        let subject := "connection:" +:+ or_text (kn_baseline_id m) (kn_source m +:+ "->" +:+ kn_target m) in
        Ok (difference UNRESOLVED_DIFFERENCE subject (or_text (kn_reason m) "The identity is ambiguous.") None
              (kn_baseline_id m) None AMBIGUOUS JNull JNull [] [] None None source false (kn_candidates m)
              ["State the connection kind in the sources, or review it."])
      else match c with
           | Some c =>
               let origin := discovered_from (c_provenance c) in
               let notes := (λ i, "Its endpoint " +:+ i +:+ " has no match in this run.")
                            <$> filter (λ i, i ∉ matched_nodes) [c_source_id c; c_target_id c] in
               Ok (difference CONNECTION_REMOVED ("connection:" +:+ c_id c)
                     "No discovered reference matches this connection." None (Some (c_id c)) None UNMATCHED
                     (JStr (value (c_kind c))) JNull [] [] (dv_reference <$> origin) (dv_artifact <$> origin)
                     (dv_source_type <$> origin) true [] notes)
           | None =>
               match group, kn_relationships m with
               | [], _ => Ok None
               | _, [] => Raise LookupError
               | _, first :: _ =>
                   let kind := kind_of group in
                   Ok (difference CONNECTION_ADDED ("connection:" +:+ kn_source m +:+ "->" +:+ kn_target m)
                         "Referenced in the sources; not in the baseline." None None (Some first) UNMATCHED JNull kind
                         evidence locations None None source false []
                         (if truthy kind then [] else ["The source states no connection kind."]))
               end
           end
  end.

Definition difference_key (d : Difference) : string * (string * string) :=
  (dn_subject d, (default "" (dn_path d), value (dn_type d))).

(** [differences]: in canonical order. *)
Definition differences (ir : ArchitectureIR) (r : DiscoveryResult) (m : Matching) : py (list Difference) :=
  let entities := index_by ce_key (ds_entities r) in
  let relationships := index_by relationship_id (ds_relationships r) in
  let by_id := index_by c_id (ir_connections ir) in
  nodes ← node_match_all ir entities (mt_nodes m);
  let matched_nodes := omap (λ n, if node_matched n && negb (no_text (nm_baseline_id n)) then nm_baseline_id n else None) (mt_nodes m) in
  connections ← py_map (λ k,
    connection_difference k (looked_up by_id (kn_baseline_id k))
      (omap (λ i, dict_get i relationships) (kn_relationships k)) entities matched_nodes) (mt_connections m);
  Ok (sort_by (on difference_key df_key_leb) (nodes ++ somes connections)).

(** * Compatibility (compatibility.py) *)
Definition COMPATIBILITY_RULE : string := "drift-compatibility@1".
Definition MAX_LISTED : nat := 10.
Definition SHARED_RULES : list string :=
  ["discovery-catalog"; "discovery-configuration"; "discovery-relationships"; "discovery-proposal"].
Definition SOURCE_RULES : dict string SourceType := [
  ("kubernetes-kinds", FROM_KUBERNETES); ("compose-kinds", FROM_DOCKER_COMPOSE);
  ("terraform-kinds", FROM_TERRAFORM_JSON); ("architecture-json", FROM_ARCHITECTURE_JSON)].

Record BaselineInput := {
  bi_ref : BaselineRef;
  bi_ir : ArchitectureIR;
  bi_created_at : instant;
  bi_latest_revision : Z;
  bi_source : option DiscoveryResult;
}.

Record ObservedInput := { oi_ref : ObservedRef; oi_result : DiscoveryResult; oi_requested_at : instant }.

Record Assessment := {
  as_checks : list CompatibilityCheck;
  as_coverage : Coverage;
  as_warnings : list string;
  as_not_comparable : list SourceType;
  as_uninspected : list string;
}.

Definition assessment_status (a : Assessment) : Compatibility := worst (cc_outcome <$> as_checks a).

(** [_listed]. *)
Definition listed (values : list string) : string :=
  join ", " (take MAX_LISTED values)
  +:+ (if MAX_LISTED <? length values then " (and " +:+ nat_text (length values - MAX_LISTED) +:+ " more)" else "").

Definition check_of (dimension : string) (outcome : Compatibility) (message : string) : py CompatibilityCheck :=
  CompatibilityCheck_new {| cc_dimension := dimension; cc_outcome := outcome; cc_message := message |}.

Definition schema_check (b : BaselineInput) : py CompatibilityCheck :=
  let version := bs_schema_version (bi_ref b) in
  if (version =? IR_SCHEMA_VERSION)%Z
  then check_of "ir_schema" COMPATIBLE ("The revision is in IR schema " +:+ Z_text version +:+ ".")
  else if (version <? IR_SCHEMA_VERSION)%Z
  then check_of "ir_schema" COMPATIBLE_WITH_WARNINGS
         ("The revision was stored in IR schema " +:+ Z_text version +:+ "; it is compared upgraded to "
          +:+ Z_text IR_SCHEMA_VERSION +:+ ".")
  else check_of "ir_schema" INCOMPATIBLE
         ("The revision is in IR schema " +:+ Z_text version +:+ ", newer than this engine's "
          +:+ Z_text IR_SCHEMA_VERSION +:+ ".").

Definition result_version_check (o : ObservedInput) : py CompatibilityCheck :=
  let version := ds_version (oi_result o) in
  if (version =? DISCOVERY_VERSION)%Z
  then check_of "discovery_result" COMPATIBLE ("Discovery result version " +:+ Z_text version +:+ ".")
  else check_of "discovery_result" INCOMPATIBLE
         ("Discovery result version " +:+ Z_text version +:+ " is not the version " +:+ Z_text DISCOVERY_VERSION
          +:+ " this engine reads.").

Definition affected (changed : list string) : list SourceType :=
  omap (λ name, match dict_get name SOURCE_RULES with Some s => Some s | None => enum_of name end) changed.

(** [", ".join(sorted(s.value for s in sources))], of a set of them. *)
Definition source_names (l : list SourceType) : string := join ", " (sorted_set (value <$> l)).

Definition changed_versions (before after : dict string Z) : list string :=
  sort_by str_leb (filter (λ k, some (dict_get k after) = true ∧ dict_get k before ≠ dict_get k after) (dict_keys before)).

Definition versions_check (b : BaselineInput) (o : ObservedInput) (read : list SourceType) :
    py (CompatibilityCheck * list SourceType) :=
  match bi_source b with
  | None =>
      c ← check_of "extractor_versions" COMPATIBLE_WITH_WARNINGS
            "The baseline was not accepted from a discovery: the parser versions it rests on are unknown.";
      Ok (c, [])
  | Some source =>
      let before := ds_extractors source in
      let after := ds_extractors (oi_result o) in
      match changed_versions before after with
      | [] => c ← check_of "extractor_versions" COMPATIBLE "The same extractor and rule versions."; Ok (c, [])
      | changed =>
          let at_ d k := Z_text (default 0%Z (dict_get k d)) in
          let described := listed ((λ k, k +:+ " " +:+ at_ before k +:+ " -> " +:+ at_ after k) <$> changed) in
          if existsb (λ k, bool_decide (k ∈ SHARED_RULES)) changed then
            c ← check_of "extractor_versions" INCOMPATIBLE
                  ("Shared discovery rules changed (" +:+ described +:+ "): a difference could be the rules'.");
            Ok (c, read)
          else
            let affected := affected changed in
            let whole := negb (bool_decide (read = [])) && forallb (λ s, bool_decide (s ∈ affected)) read in
            c ← check_of "extractor_versions" (if whole then INCOMPATIBLE else PARTIALLY_COMPARABLE)
                  ("Extractor or kind rules changed (" +:+ described +:+ "): " +:+ source_names affected +:+ " is not compared.");
            Ok (c, affected)
      end
  end.

Definition source_types_check (discovered : list DiscoveredFrom) (read : list SourceType) : py CompatibilityCheck :=
  match discovered with
  | [] => check_of "source_types" COMPATIBLE_WITH_WARNINGS
            "No baseline element was discovered from artifacts: removals cannot be established."
  | _ =>
      let wanted := dv_source_type <$> discovered in
      if negb (existsb (λ s, bool_decide (s ∈ read)) wanted)
      then check_of "source_types" INCOMPATIBLE
             ("The run reads none of the baseline's source types (" +:+ source_names wanted +:+ ").")
      else match filter (λ s, s ∉ read) wanted with
           | [] => check_of "source_types" COMPATIBLE "The run reads the baseline's source types."
           | missing => check_of "source_types" PARTIALLY_COMPARABLE
                          ("Not read by the run: " +:+ source_names missing
                           +:+ "; the elements discovered from them are not compared.")
           end
  end.

Definition source_coverage_check (c : Coverage) : py CompatibilityCheck :=
  if bool_decide (cv_inspected c = []) && bool_decide (cv_partial c = [])
  then check_of "source_coverage" INCOMPATIBLE "The run read no artifact."
  else if negb (bool_decide (cv_partial c = [])) || negb (bool_decide (cv_unread c = []))
  then check_of "source_coverage" PARTIALLY_COMPARABLE
         ("Not read completely: " +:+ listed (cv_partial c ++ cv_unread c) +:+ ".")
  else if negb (coverage_complete c)
  then check_of "source_coverage" COMPATIBLE_WITH_WARNINGS
         (Z_text (cv_unsupported_constructs c) +:+ " unsupported construct(s), " +:+ Z_text (cv_unresolved_entities c)
          +:+ " unresolved mapping(s), " +:+ Z_text (cv_unresolved_relationships c) +:+ " unresolved reference(s).")
  else check_of "source_coverage" COMPATIBLE "Every artifact was read completely.".

(** The artifacts of the baseline the run did not read completely. *)
Definition uninspected_of (discovered : list DiscoveredFrom) (r : DiscoveryResult) : list string :=
  let complete := sa_path <$> filter (λ a, sa_status a = ARTIFACT_PARSED) (ds_artifacts r) in
  sorted_set (filter (λ a, a ∉ complete) (dv_artifact <$> discovered)).

Definition artifact_coverage_check (discovered : list DiscoveredFrom) (r : DiscoveryResult) : py CompatibilityCheck :=
  match discovered, uninspected_of discovered r with
  | [], _ => check_of "artifact_coverage" COMPATIBLE "No baseline element names an artifact."
  | _, [] => check_of "artifact_coverage" COMPATIBLE
               "Every artifact a baseline element was discovered from was read completely."
  | _, missing => check_of "artifact_coverage" PARTIALLY_COMPARABLE
                    ("Not read completely by the run: " +:+ listed missing +:+ "; absence there is not removal.")
  end.

(** A node whose id, or whose confirmed mapping, is a key of the run. *)
Definition has_identity (keys : list string) (mappings : dict string string) (n : string) : bool :=
  bool_decide (n ∈ keys) || match dict_get n mappings with Some k => bool_decide (k ∈ keys) | None => false end.

Definition identity_check (ir : ArchitectureIR) (r : DiscoveryResult) (mappings : dict string string) : py CompatibilityCheck :=
  let keys := ce_key <$> ds_entities r in
  let nodes := dedup (n_id <$> ir_nodes ir) in
  let shared := filter (λ n, has_identity keys mappings n = true) nodes in
  match nodes, shared with
  | _ :: _, [] => check_of "identity" CANNOT_DETERMINE
                    "No baseline node shares an identifier with a discovered entity: confirm identity mappings."
  | _, _ => check_of "identity" COMPATIBLE
              (nat_text (length shared) +:+ " of " +:+ nat_text (length nodes) +:+ " baseline nodes have a stable identity match.")
  end.

Definition freshness_check (b : BaselineInput) (o : ObservedInput) : py CompatibilityCheck :=
  let revision := bs_revision_number (bi_ref b) in
  let notes :=
    (if (revision <? bi_latest_revision b)%Z
     then ["Revision " +:+ Z_text (bi_latest_revision b) +:+ " is later than the baseline revision " +:+ Z_text revision +:+ "."]
     else [])
    ++ (if (oi_requested_at o <? bi_created_at b)%Z then ["The discovery run is older than the baseline revision."] else []) in
  match notes with
  | [] => check_of "freshness" COMPATIBLE "The current revision, and a run not older than it."
  | _ => check_of "freshness" COMPATIBLE_WITH_WARNINGS (join " " notes)
  end.

(** The discovery sources of the baseline's elements; element ids are unique. *)
Definition discovered_elements (ir : ArchitectureIR) : list DiscoveredFrom :=
  omap (λ n, discovered_from (n_provenance n)) (ir_nodes ir)
  ++ omap (λ c, discovered_from (c_provenance c)) (ir_connections ir).

Definition sources_read (r : DiscoveryResult) : list SourceType :=
  dedup (omap sa_source_type (filter (λ a, sa_status a ∈ [ARTIFACT_PARSED; ARTIFACT_PARTIAL]) (ds_artifacts r))).

Definition assess (b : BaselineInput) (o : ObservedInput) (mappings : dict string string) : py Assessment :=
  coverage ← coverage_of (oi_result o);
  let read := sources_read (oi_result o) in
  let discovered := discovered_elements (bi_ir b) in
  versions ← versions_check b o read;
  artifacts ← artifact_coverage_check discovered (oi_result o);
  schema ← schema_check b;
  version ← result_version_check o;
  types ← source_types_check discovered read;
  covered ← source_coverage_check coverage;
  identity ← identity_check (bi_ir b) (oi_result o) mappings;
  fresh ← freshness_check b o;
  let checks := [schema; version; versions.1; types; covered; artifacts; identity; fresh] in
  Ok {| as_checks := checks; as_coverage := coverage;
        as_warnings := cc_message <$> filter (λ c, cc_outcome c ≠ COMPATIBLE) checks;
        as_not_comparable := versions.2; as_uninspected := uninspected_of discovered (oi_result o) |}.

(** * Classification (classification.py) *)
Definition CLASSIFICATION_RULE : string := "drift-classification@1".
Definition INFERRED : string :=
  "The discovered side rests on an inference (a kind implied by the catalog, a component from an image).".
Definition IDENTITY : string :=
  "No identity is established between the baseline and the run: it may be a baseline node under another id.".

(** [_finding]. *)
Definition finding_of (d : Difference) (c : Classification) (limitations : list string) : py DriftFinding :=
  let notes := dedup (dn_notes d ++ limitations)
               ++ (if bool_decide (dn_candidates d = []) then [] else ["Candidates: " +:+ join ", " (dn_candidates d) +:+ "."]) in
  let notes := if negb (bool_decide (c = CONFIRMED)) && bool_decide (notes = [])
               then ["The evidence does not establish it."] else notes in
  DriftFinding_new {|
    df_type := dn_type d; df_classification := c; df_element := dn_element d; df_subject := dn_subject d;
    df_explanation := dn_explanation d; df_rule := COMPARISON_RULE; df_path := dn_path d;
    df_baseline_id := dn_baseline_id d; df_discovered_key := dn_discovered_key d; df_match := dn_match d;
    df_baseline_value := dn_baseline_value d; df_discovered_value := dn_discovered_value d;
    df_redacted := dn_redacted d; df_evidence := dn_evidence d; df_locations := dn_locations d;
    df_baseline_reference := dn_baseline_reference d; df_limitations := notes; df_impact := []; df_references := [] |}.

(** [_removal]. *)
Definition removal (d : Difference) (a : Assessment) : Classification * list string :=
  match dn_baseline_artifact d with
  | None => (UNKNOWN, ["It was not discovered from an artifact: absence cannot be established."])
  | Some artifact =>
      if bool_decide (artifact ∈ cv_partial (as_coverage a))
      then (POTENTIAL, [artifact +:+ " was read only partly: the element may be in what was not read."])
      else if negb (bool_decide (artifact ∈ cv_inspected (as_coverage a)))
      then (UNKNOWN, [artifact +:+ " was not read completely by this run: outside its coverage."])
      else if bool_decide (dn_notes d = []) then (CONFIRMED, []) else (POTENTIAL, [])
  end.

(** [_partly_read]. *)
Definition partly_read (d : Difference) (a : Assessment) : list string :=
  match filter (λ x, x ∈ cv_partial (as_coverage a)) (sorted_set (artifact_of <$> dn_locations d)) with
  | [] => []
  | partial => [join ", " partial +:+ " was read only partly."]
  end.

(** [next(c for c in checks if c.dimension == "identity")]; there always is one. *)
Definition identity_of (a : Assessment) : py CompatibilityCheck :=
  match head (filter (λ c, cc_dimension c = "identity") (as_checks a)) with
  | Some c => Ok c
  | None => Raise LookupError
  end.

Definition classify_comparable (d : Difference) (a : Assessment) : py DriftFinding :=
  if bool_decide (dn_type d = UNRESOLVED_DIFFERENCE) then finding_of d UNKNOWN []
  else if bool_decide (dn_type d ∈ REMOVED) then let '(c, limitations) := removal d a in finding_of d c limitations
  else
    identity ← (if bool_decide (dn_type d ∈ ADDED)
                then c ← identity_of a; Ok (if bool_decide (cc_outcome c = COMPATIBLE) then [] else [IDENTITY])
                else Ok (if dn_inferred d then [INFERRED] else []));
    let unset := if some (dn_path d) && is_none (dn_discovered_value d) && negb (dn_redacted d) then [UNSET] else [] in
    let limitations := partly_read d a ++ identity ++ unset in
    finding_of d (if bool_decide (limitations = []) then CONFIRMED else POTENTIAL) limitations.

Definition classify_difference (d : Difference) (a : Assessment) : py DriftFinding :=
  match dn_source_type d with
  | Some s => if decide (s ∈ as_not_comparable a)
              then finding_of d NOT_COMPARABLE
                     ["The " +:+ value s +:+ " extractor or kind rule changed since the baseline."]
              else classify_comparable d a
  | None => classify_comparable d a
  end.

(** [_scope]. *)
Definition scope_finding (subject message : string) (type : FindingType) (c : Classification) : py DriftFinding :=
  DriftFinding_new {|
    df_type := type; df_classification := c; df_element := DRIFT_SCOPE; df_subject := subject;
    df_explanation := message; df_rule := COMPATIBILITY_RULE; df_path := None; df_baseline_id := None;
    df_discovered_key := None; df_match := None; df_baseline_value := JNull; df_discovered_value := JNull;
    df_redacted := false; df_evidence := []; df_locations := []; df_baseline_reference := None;
    df_limitations := [message]; df_impact := []; df_references := [] |}.

Definition incompatibility (a : Assessment) : py (list DriftFinding) :=
  py_map (λ c, scope_finding ("compatibility:" +:+ cc_dimension c) (cc_message c) COMPARISON_INCOMPATIBLE NOT_COMPARABLE)
    (filter (λ c, cc_outcome c = INCOMPATIBLE) (as_checks a)).

Definition coverage_finding (a : Assessment) (artifact : string) : py DriftFinding :=
  let state := if bool_decide (artifact ∈ cv_partial (as_coverage a)) then "read only partly" else "not read completely" in
  let message := artifact +:+ ", which baseline elements were discovered from, was " +:+ state +:+ " by this run." in
  scope_finding ("artifact:" +:+ artifact) message COVERAGE_CHANGED UNKNOWN.
Definition coverage_findings (a : Assessment) : py (list DriftFinding) :=
  py_map (coverage_finding a) (sort_by str_leb (as_uninspected a)).

Definition classify (ds : list Difference) (a : Assessment) : py (list DriftFinding) :=
  if decide (assessment_status a = INCOMPATIBLE) then incompatibility a
  else
    findings ← py_map (λ d, classify_difference d a) ds;
    coverage ← coverage_findings a;
    Ok (sort_by (on df_sort_key df_key_leb) (findings ++ coverage)).

(** * The engine (engine.py) *)
Definition IMPACT_RULE : string := "drift-impact@1".
Definition ENGINE_RULES : list string :=
  [COMPATIBILITY_RULE; "drift-identity@1"; COMPARISON_RULE; CLASSIFICATION_RULE; IMPACT_RULE].

(** [_versions]: every rule is of version 1. *)
Definition engine_versions : dict string Z := (λ r, (before "@" r, 1%Z)) <$> ENGINE_RULES.

Definition drift_analyze (q : DriftRequest) (b : BaselineInput) (o : ObservedInput) (mappings : dict string string) :
    py DriftResult :=
  a ← assess b o mappings;
  findings ← (if decide (assessment_status a = INCOMPATIBLE) then incompatibility a
              else
                m ← match_ (bi_ir b) (oi_result o) mappings (dq_exclude q);
                found ← differences (bi_ir b) (oi_result o) m;
                classify found a);
  DriftResult_new {|
    dr_baseline := bi_ref b; dr_observed := oi_ref o; dr_compatibility := as_checks a; dr_coverage := as_coverage a;
    dr_findings := findings; dr_warnings := as_warnings a; dr_versions := engine_versions; dr_policy := dq_policy q;
    dr_version := RESULT_VERSION |}.
