(* ===== verification/DriftReview.v ===== *)
(** The review of drift items: every item's history is a walk of the review's state machine, with the
    evidence each step needs, and an analysis folds its findings into the items it finds.

    [item_history], [correlated]; [full_history_blocks] is a case the code does not mean. *)
From Stdlib Require Import Lia ZArith.
From S2P Require Import Prelude Data Errors Computations Store Drift.

(** * The state machine *)
Inductive item_step (i : DriftItem) : DriftItem → Prop :=
  | is_detected f analysis_id at_ i' : detected i f analysis_id at_ = Ok i' → item_step i i'
  | is_acted action user_id at_ note link evidence i' :
      act i action user_id at_ note link evidence = Ok i' → item_step i i'.

(** An item as it may come to be. *)
Definition reachable_item (i : DriftItem) : Prop :=
  ∃ id project architecture f analysis_id at_,
    rtc item_step (first_seen id project architecture f analysis_id at_) i.

(** The statuses follow each other, from [s] to [t]. *)
Fixpoint walk (s : ReviewStatus) (es : list ReviewEvent) (t : ReviewStatus) : Prop :=
  match es with [] => s = t | e :: r => ev_previous e = s ∧ walk (ev_status e) r t end.

(** What the event of an analysis must be. *)
Definition detection_ok (e : ReviewEvent) : Prop :=
  ev_user_id e = None ∧ is_Some (ev_analysis_id e) ∧ ev_note e = None ∧ ev_link e = None ∧
  ev_status e = if decide (ev_previous e = RESOLVED) then REOPENED else ev_previous e.

(** A resolution rests on an analysis or on a revision. *)
Definition has_evidence (e : ReviewEvent) : Prop :=
  is_Some (ev_analysis_id e) ∨ is_revision_link (ev_link e) = true.

(** What the event of a person must be: allowed in the status it finds, with the note, link or evidence
    it needs. *)
Definition review_ok (e : ReviewEvent) : Prop :=
  is_Some (ev_user_id e) ∧
  (∃ allowed to, MOVES (ev_action e) = Some (allowed, to) ∧ ev_previous e ∈ allowed ∧
     ev_status e = default (ev_previous e) to) ∧
  (∀ n, ev_note e = Some n → n ≠ "" ∧ (String.length n ≤ MAX_NOTE)%nat ∧ strip n = n) ∧
  (ev_action e ∈ NEEDS_NOTE → is_Some (ev_note e)) ∧
  (ev_action e = LINK → is_Some (ev_link e)) ∧
  (ev_action e = RESOLVE → has_evidence e).

Definition event_ok (e : ReviewEvent) : Prop :=
  if decide (ev_action e = DETECTED) then detection_ok e else review_ok e.

(** The analyses that detected an item, in order. *)
Definition detections (i : DriftItem) : list uuid :=
  omap (λ e, if decide (ev_action e = DETECTED) then ev_analysis_id e else None) (di_history i).

Record item_ok (i : DriftItem) : Prop := {
  io_walk : walk OPEN (di_history i) (di_status i);
  io_events : Forall event_ok (di_history i);
  io_size : (length (di_history i) ≤ MAX_HISTORY)%nat;
  io_first : head (detections i) = Some (di_first_analysis_id i);
  io_last : last (detections i) = Some (di_last_analysis_id i);
  io_links : di_links i = omap ev_link (di_history i);
}.

(** ** What an action does *)
Lemma appended_ok i e h : appended i e = Ok h → (length (di_history i) < MAX_HISTORY)%nat ∧ h = di_history i ++ [e].
Proof. unfold appended. destruct (Nat.leb_spec MAX_HISTORY (length (di_history i))); [done|]. by intros [= <-]. Qed.

(** The fields an item keeps. *)
Definition same_item (i i' : DriftItem) : Prop :=
  di_id i' = di_id i ∧ di_project_id i' = di_project_id i ∧ di_architecture_id i' = di_architecture_id i ∧
  di_key i' = di_key i ∧ di_element i' = di_element i ∧ di_subject i' = di_subject i ∧ di_path i' = di_path i ∧
  di_first_analysis_id i' = di_first_analysis_id i.

Lemma detected_ok i f a at_ i' :
  detected i f a at_ = Ok i' →
  let status := if decide (di_status i = RESOLVED) then REOPENED else di_status i in
  df_item_key f = di_key i ∧ (length (di_history i) < MAX_HISTORY)%nat ∧ same_item i i' ∧ di_status i' = status ∧
  di_history i' = di_history i ++ [detection (di_status i) status a at_] ∧ di_last_analysis_id i' = a ∧
  di_links i' = di_links i.
Proof.
  unfold detected. destruct (String.eqb_spec (df_item_key f) (di_key i)) as [Hk|]; [|done]. cbn [negb].
  intros (h & [Hl ->]%appended_ok & [= <-])%py_bind_ok. cbv zeta. by split_and!.
Qed.

Lemma act_ok i action user at_ note link evidence i' :
  act i action user at_ note link evidence = Ok i' →
  ∃ e, same_item i i' ∧ (length (di_history i) < MAX_HISTORY)%nat ∧ di_history i' = di_history i ++ [e] ∧
    ev_action e = action ∧ action ≠ DETECTED ∧ ev_previous e = di_status i ∧ ev_status e = di_status i' ∧
    review_ok e ∧ di_last_analysis_id i' = di_last_analysis_id i ∧
    di_links i' = di_links i ++ match ev_link e with Some l => [l] | None => [] end.
Proof.
  unfold act. destruct (MOVES action) as [[allowed to]|] eqn:Em; [|done]. cbv zeta.
  destruct (bool_decide (di_status i ∈ allowed)) eqn:Ha; [|done]. cbn [negb]. apply bool_decide_eq_true_1 in Ha.
  destruct (match strip <$> note with Some c => _ | None => false end) eqn:En; [done|].
  destruct (bool_decide (action ∈ NEEDS_NOTE) && _) eqn:Ed; [done|].
  destruct (bool_decide (action = LINK) && _) eqn:El; [done|].
  destruct (bool_decide (action = RESOLVE) && _ && _) eqn:Er; [done|].
  intros (h & [Hl ->]%appended_ok & [= <-])%py_bind_ok. eexists. split; [done|]. split; [exact Hl|]. split; [done|].
  cbn [ev_action ev_previous ev_status ev_link]. split; [done|]. split; [by intros ->|].
  split; [done|]. split; [done|]. split; [|done]. split; [by eexists|]. cbn [ev_action ev_previous ev_status ev_link ev_note ev_analysis_id].
  split; [by exists allowed, to|]. split; [|split; [|split]].
  - intros n Hn. rewrite Hn in En. apply orb_false_iff in En as [H1 H2]. apply String.eqb_neq in H1.
    apply Nat.ltb_ge in H2. split; [done|]. split; [done|]. destruct note as [m|]; [|done]. injection Hn as <-. apply strip_idemp.
  - intros Hin. rewrite bool_decide_eq_true_2 in Ed by done. destruct (strip <$> note); [by eexists|done].
  - intros ->. rewrite bool_decide_eq_true_2 in El by done. destruct link; [by eexists|done].
  - intros ->. rewrite bool_decide_eq_true_2 in Er by done. cbn [andb] in Er. unfold has_evidence. cbn.
    destruct evidence; [left; by eexists|]. right. cbn in Er. by apply negb_false_iff in Er.
Qed.

(** ** The invariant *)
Lemma walk_app s es t e : walk s es t → ev_previous e = t → walk s (es ++ [e]) (ev_status e).
Proof. revert s. induction es as [|x es IH]; intros s; cbn; [intros -> ?; by split|]. intros [? ?] ?. split; auto. Qed.

Lemma last_app_some {A} (l : list A) x : last (l ++ [x]) = Some x.
Proof. apply last_snoc. Qed.

Lemma detections_app i i' e :
  di_history i' = di_history i ++ [e] →
  detections i' = detections i ++ omap (λ e, if decide (ev_action e = DETECTED) then ev_analysis_id e else None) [e].
Proof. intros H. unfold detections. by rewrite H, omap_app. Qed.

Lemma item_step_ok i i' : item_ok i → item_step i i' → item_ok i'.
Proof.
  intros [Hw He Hs Hf Hl Hk] [f a at_ i2 H|action user at_ note link evidence i2 H].
  - apply detected_ok in H as (_ & Hlen & Hsame & Hst & Hh & Hlast & Hlinks).
    pose proof (detections_app _ _ _ Hh) as Hd. cbn in Hd. rewrite decide_True in Hd by done.
    constructor.
    + rewrite Hh, Hst. exact (walk_app _ _ _ (detection (di_status i) _ a at_) Hw eq_refl).
    + rewrite Hh. apply Forall_app. split; [done|]. constructor; [|constructor]. unfold event_ok. rewrite decide_True by done.
      by split_and!.
    + rewrite Hh, length_app. cbn. lia.
    + rewrite Hd. destruct Hsame as (_ & _ & _ & _ & _ & _ & _ & ->). destruct (detections i); [done|exact Hf].
    + rewrite Hd, Hlast. apply last_app_some.
    + by rewrite Hlinks, Hk, Hh, omap_app, app_nil_r.
  - apply act_ok in H as (e & Hsame & Hlen & Hh & Hact & Hne & Hprev & Hst & Hr & Hlast & Hlinks).
    pose proof (detections_app _ _ _ Hh) as Hd. cbn in Hd. rewrite decide_False in Hd by congruence. rewrite app_nil_r in Hd.
    constructor.
    + rewrite Hh, <- Hst. by eapply walk_app.
    + rewrite Hh. apply Forall_app. split; [done|]. constructor; [|constructor]. unfold event_ok.
      by rewrite decide_False by congruence.
    + rewrite Hh, length_app. cbn. lia.
    + rewrite Hd. by destruct Hsame as (_ & _ & _ & _ & _ & _ & _ & ->).
    + by rewrite Hd, Hlast.
    + rewrite Hlinks, Hk, Hh, omap_app. cbn. by destruct (ev_link e).
Qed.

Lemma first_seen_ok id project architecture f a at_ : item_ok (first_seen id project architecture f a at_).
Proof.
  constructor; try done.
  - constructor; [|constructor]. unfold event_ok. rewrite decide_True by done. by split_and!.
  - cbn. unfold MAX_HISTORY. lia.
Qed.

Lemma reachable_item_ok i : reachable_item i → item_ok i.
Proof.
  intros (id & p & a & f & an & at_ & Hs). pose proof (first_seen_ok id p a f an at_) as Hok. revert Hok.
  induction Hs as [|x y z Hxy _ IH]; [done|]. intros Hx. apply IH. by eapply item_step_ok.
Qed.

(** A resolved item was resolved by a person, on evidence, and only notes and links came after. *)
Lemma resolved_event es s :
  s ≠ RESOLVED → Forall event_ok es → walk s es RESOLVED →
  ∃ pre e post, es = pre ++ e :: post ∧ ev_action e = RESOLVE ∧ review_ok e ∧
    Forall (λ x, ev_action x ∈ [NOTE; LINK]) post.
Proof.
  intros Hs. induction es as [|e es IH] using rev_ind; [done|].
  intros [Hes He]%Forall_app Hw. apply Forall_cons in He as [He _].
  assert (∃ m, walk s es m ∧ ev_previous e = m ∧ ev_status e = RESOLVED) as (m & Hm & Hprev & Hst).
  { clear -Hw. revert s Hw. induction es as [|x es IH]; intros s; cbn; [intros [? ?]; eauto|].
    intros [Hx Hw]. destruct (IH _ Hw) as (m & ? & ?). eauto. }
  unfold event_ok in He. destruct (decide (ev_action e = DETECTED)) as [Hd|Hd].
  - destruct He as (_ & _ & _ & _ & Hto). rewrite Hst in Hto. by destruct (decide _).
  - destruct He as (Hu & (allowed & to & Hmv & Hin & Hto) & Hrest).
    assert (ev_action e = RESOLVE ∨ (ev_action e ∈ [NOTE; LINK] ∧ m = RESOLVED)) as [Ha|[Ha ->]].
    { rewrite Hst, Hprev in Hto. destruct (ev_action e); cbn in Hmv; try injection Hmv as <- <-; cbn in Hto; try done;
        [by left|right; split; [set_solver|done]..]. }
    + exists es, e, []. split; [done|]. split; [done|]. split; [|constructor].
      split; [done|]. split; [by exists allowed, to|done].
    + destruct (IH Hes Hm) as (pre & r & post & -> & Hr & Hro & Hpost).
      exists pre, r, (post ++ [e]). rewrite <- app_assoc. split; [done|]. split; [done|]. split; [done|].
      apply Forall_app. split; [done|]. by constructor.
Qed.

Lemma item_step_grows i i' : item_step i i' → same_item i i' ∧ di_history i `prefix_of` di_history i'.
Proof.
  intros [f a at_ i2 H|action user at_ note link evidence i2 H].
  - apply detected_ok in H as (_ & _ & Hs & _ & Hh & _). split; [done|]. rewrite Hh. by apply prefix_app_r.
  - apply act_ok in H as (e & Hs & _ & Hh & _). split; [done|]. rewrite Hh. by apply prefix_app_r.
Qed.

Lemma item_steps_grow i i' : rtc item_step i i' → same_item i i' ∧ di_history i `prefix_of` di_history i'.
Proof.
  induction 1 as [|x y z Hxy _ IH]; [done|]. apply item_step_grows in Hxy as [Hs Hp]. destruct IH as [Hs' Hp'].
  split; [|by etrans]. unfold same_item in *. intuition congruence.
Qed.

(** * Correlation *)

(** The first reviewable finding of every key that is not [seen]. *)
Fixpoint firsts (seen : list string) (fs : list DriftFinding) : list DriftFinding :=
  match fs with
  | [] => []
  | f :: r =>
      if reviewable f && negb (bool_decide (df_item_key f ∈ seen))
      then f :: firsts (df_item_key f :: seen) r else firsts seen r
  end.

Lemma firsts_elem fs : ∀ seen f, f ∈ firsts seen fs → f ∈ fs ∧ reviewable f = true ∧ df_item_key f ∉ seen.
Proof.
  induction fs as [|x fs IH]; intros seen f; cbn [firsts]; [by intros ?%elem_of_nil|].
  destruct (reviewable x) eqn:Ex; cbn [andb]; [destruct (bool_decide _) eqn:Ek; cbn [negb]|].
  - intros (? & ? & ?)%IH. split_and!; [by right|done..].
  - apply bool_decide_eq_false_1 in Ek. intros [->|(H1 & H2 & H3)%IH]%elem_of_cons; [by split_and!; [left|..]|].
    split_and!; [by right|done|]. intros ?. apply H3. by right.
  - intros (? & ? & ?)%IH. split_and!; [by right|done..].
Qed.

Lemma firsts_distinct fs : ∀ seen, NoDup (df_item_key <$> firsts seen fs).
Proof.
  induction fs as [|x fs IH]; intros seen; cbn [firsts]; [constructor|]. destruct (_ && _); [|done].
  cbn. constructor; [|done]. intros (f & Hk & Hf)%list_elem_of_fmap. apply firsts_elem in Hf as (_ & _ & Hn).
  apply Hn. rewrite <- Hk. left.
Qed.

Lemma firsts_cover fs : ∀ seen f, f ∈ fs → reviewable f = true →
  df_item_key f ∈ seen ∨ df_item_key f ∈ df_item_key <$> firsts seen fs.
Proof.
  induction fs as [|x fs IH]; intros seen f; [by intros ?%elem_of_nil|]. cbn [firsts]. intros [->|Hf]%elem_of_cons Hr.
  - rewrite Hr. cbn [andb]. destruct (bool_decide _) eqn:Ek; [left; by apply bool_decide_eq_true_1 in Ek|]. right. left.
  - destruct (_ && _); [|by apply IH]. destruct (IH (df_item_key x :: seen) f Hf Hr) as [[->|?]%elem_of_cons|?];
      [right; left|by left|right; by right].
Qed.

(** What an analysis makes of a finding about an item it knows. *)
Definition detection_of (a : DriftAnalysis) (at_ : instant) (existing : dict string DriftItem) (f : DriftFinding) :
    option DriftItem :=
  i ← dict_get (df_item_key f) existing; if detected i f (da_id a) at_ is Ok i' then Some i' else None.

Definition fresh_item (a : DriftAnalysis) (at_ : instant) (id : uuid) (f : DriftFinding) : DriftItem :=
  first_seen id (da_project_id a) (dq_architecture_id (da_request a)) f (da_id a) at_.

(** Where the fold is: which items this analysis has detected already; the others have room. *)
Record tracks (a : DriftAnalysis) (existing : dict string DriftItem) (seen : list string) : Prop := {
  tk_items : ∀ k i, dict_get k existing = Some i →
    di_key i = k ∧ (di_last_analysis_id i ≠ da_id a → (length (di_history i) < MAX_HISTORY)%nat);
  tk_seen : ∀ k, k ∈ seen ↔ ∃ i, dict_get k existing = Some i ∧ di_last_analysis_id i = da_id a;
}.

Lemma tracks_set a existing seen k i :
  tracks a existing seen → di_key i = k → di_last_analysis_id i = da_id a → tracks a (dict_set k i existing) (k :: seen).
Proof.
  intros [Hi Hs] Hk Hl. constructor.
  - intros k' i'. rewrite dict_get_set. case_decide as Heq; [intros [= <-]; by subst|apply Hi].
  - intros k'. rewrite elem_of_cons, Hs. setoid_rewrite dict_get_set. case_decide as Heq.
    + split; [intros _; by exists i|intros _; by left].
    + split; [intros [?|?]; [congruence|done]|by right].
Qed.

Lemma detected_is i f a at_ :
  df_item_key f = di_key i → (length (di_history i) < MAX_HISTORY)%nat → ∃ i', detected i f a at_ = Ok i'.
Proof.
  intros Hk Hl. unfold detected. rewrite Hk, String.eqb_refl. cbn [negb]. unfold appended.
  destruct (Nat.leb_spec MAX_HISTORY (length (di_history i))); [lia|]. by eexists.
Qed.

(** Findings about other keys do not see what was set. *)
Lemma firsts_set a at_ k i existing seen fs :
  omap (detection_of a at_ (dict_set k i existing)) (firsts (k :: seen) fs) = omap (detection_of a at_ existing) (firsts (k :: seen) fs) ∧
  filter (λ f, df_item_key f ∉ dict_keys (dict_set k i existing)) (firsts (k :: seen) fs) =
  filter (λ f, df_item_key f ∉ dict_keys existing) (firsts (k :: seen) fs).
Proof.
  assert (∀ f, f ∈ firsts (k :: seen) fs → dict_get (df_item_key f) (dict_set k i existing) = dict_get (df_item_key f) existing) as H.
  { intros f (_ & _ & Hn)%firsts_elem. apply dict_get_set_ne. intros Hk. apply Hn. rewrite Hk. left. }
  induction (firsts (k :: seen) fs) as [|f l IH]; [done|]. destruct IH as [IH1 IH2]; [intros; apply H; by right|].
  assert (dict_get (df_item_key f) (dict_set k i existing) = dict_get (df_item_key f) existing) as Hf by (apply H; left).
  split.
  - assert (detection_of a at_ (dict_set k i existing) f = detection_of a at_ existing f) as Hd
      by (unfold detection_of; by rewrite Hf).
    csimpl. by rewrite Hd, IH1.
  - rewrite !filter_cons. rewrite IH2.
    assert (df_item_key f ∉ dict_keys (dict_set k i existing) ↔ df_item_key f ∉ dict_keys existing) as Hiff
      by by rewrite <- !dict_get_None, Hf.
    destruct (decide (df_item_key f ∉ dict_keys existing)) as [Hin|Hin]; [rewrite decide_True by tauto|rewrite decide_False by tauto]; done.
Qed.

Lemma correlate_loop_spec a at_ new_id fs : ∀ c seen,
  tracks a (cr_existing c) seen →
  ∃ c', correlate_loop a at_ new_id c fs = Ok c' ∧
    cr_created c' = cr_created c ++ imap (λ n, fresh_item a at_ (new_id (cr_fresh c + n)%nat))
                      (filter (λ f, df_item_key f ∉ dict_keys (cr_existing c)) (firsts seen fs)) ∧
    cr_updated c' = cr_updated c ++ omap (detection_of a at_ (cr_existing c)) (firsts seen fs).
Proof.
  induction fs as [|f fs IH]; intros c seen Ht; [exists c; cbn; by rewrite !app_nil_r|].
  cbn [correlate_loop firsts]. unfold correlate_step at 1. destruct (reviewable f) eqn:Er; cbn [negb andb]; [|by apply IH].
  set (k := df_item_key f). destruct (dict_get k (cr_existing c)) as [i|] eqn:Eg.
  - destruct (tk_items _ _ _ Ht k i Eg) as [Hk Hroom]. destruct (String.eqb_spec (di_last_analysis_id i) (da_id a)) as [Hl|Hl].
    + rewrite bool_decide_eq_true_2 by (apply (tk_seen _ _ _ Ht); by exists i). cbn [negb]. by apply IH.
    + rewrite bool_decide_eq_false_2.
      2:{ intros (j & Hj & Hl')%(tk_seen _ _ _ Ht). congruence. }
      cbn [negb]. destruct (detected_is i f (da_id a) at_) as [i' Hi']; [done|by apply Hroom|]. rewrite Hi'.
      cbn [mbind py_bind].
      pose proof (detected_ok _ _ _ _ _ Hi') as (_ & _ & Hsame & _ & _ & Hlast & _).
      destruct (IH {| cr_existing := dict_set k i' (cr_existing c); cr_created := cr_created c;
                      cr_updated := cr_updated c ++ [i']; cr_fresh := cr_fresh c |} (k :: seen)) as (c' & Hc & Hcr & Hup).
      { apply tracks_set; [done| |done]. unfold same_item in Hsame. by destruct Hsame as (_ & _ & _ & -> & _). }
      exists c'. split; [exact Hc|]. cbn [cr_created cr_updated cr_existing cr_fresh] in Hcr, Hup.
      destruct (firsts_set a at_ k i' (cr_existing c) seen fs) as [Ho Hf]. rewrite Ho in Hup. rewrite Hf in Hcr. split.
      * rewrite Hcr, filter_cons. rewrite decide_False; [done|]. intros Hn. apply Hn, dict_get_is_Some. by eexists.
      * rewrite Hup, <- app_assoc. assert (detection_of a at_ (cr_existing c) f = Some i') as Hd by (unfold detection_of; fold k; rewrite Eg; cbn; by rewrite Hi').
        csimpl. by rewrite Hd.
  - rewrite bool_decide_eq_false_2.
    2:{ intros (j & Hj & Hl')%(tk_seen _ _ _ Ht). congruence. }
    cbn [negb mbind py_bind].
    destruct (IH {| cr_existing := dict_set k (fresh_item a at_ (new_id (cr_fresh c)) f) (cr_existing c);
                    cr_created := cr_created c ++ [fresh_item a at_ (new_id (cr_fresh c)) f];
                    cr_updated := cr_updated c; cr_fresh := S (cr_fresh c) |} (k :: seen)) as (c' & Hc & Hcr & Hup).
    { by apply tracks_set. }
    exists c'. split; [exact Hc|]. cbn [cr_created cr_updated cr_existing cr_fresh] in Hcr, Hup.
    destruct (firsts_set a at_ k (fresh_item a at_ (new_id (cr_fresh c)) f) (cr_existing c) seen fs) as [Ho Hf].
    rewrite Ho in Hup. rewrite Hf in Hcr. split.
    + rewrite Hcr, filter_cons, decide_True by by apply dict_get_None. rewrite imap_cons, Nat.add_0_r, <- app_assoc.
      cbn [app]. do 2 f_equal. apply imap_ext. intros n x _. unfold compose. by rewrite Nat.add_succ_r.
    + assert (detection_of a at_ (cr_existing c) f = None) as Hd by (unfold detection_of; fold k; by rewrite Eg).
      rewrite Hup. csimpl. by rewrite Hd.
Qed.

(** The architecture's items once the correlation is saved; an item is its key. *)
Definition saved_item (co : Correlation) (i : DriftItem) : DriftItem :=
  default i (head (filter (λ u, di_key u = di_key i) (co_updated co))).
Definition saved (its : list DriftItem) (co : Correlation) : list DriftItem :=
  (saved_item co <$> its) ++ co_created co.

Lemma saved_item_cases co i :
  saved_item co i = i ∧ (∀ u, u ∈ co_updated co → di_key u ≠ di_key i) ∨
  saved_item co i ∈ co_updated co ∧ di_key (saved_item co i) = di_key i.
Proof.
  unfold saved_item. destruct (filter _ (co_updated co)) as [|u l] eqn:E.
  - left. split; [done|]. intros u Hu Hk. assert (u ∈ filter (λ u, di_key u = di_key i) (co_updated co)) as Hin
      by by apply list_elem_of_filter. rewrite E in Hin. by apply elem_of_nil in Hin.
  - right. cbn. assert (u ∈ filter (λ u, di_key u = di_key i) (co_updated co)) as Hin by (rewrite E; left).
    by apply list_elem_of_filter in Hin as [? ?].
Qed.

Lemma saved_item_key co i : di_key (saved_item co i) = di_key i.
Proof. by destruct (saved_item_cases co i) as [[-> _]|[_ ?]]. Qed.

Section correlated.
Context (a : DriftAnalysis) (r : DriftResult) (at_ : instant) (new_id : nat → uuid) (its : list DriftItem).

(** A finished comparison, and the items of its architecture: one per key, and those it may detect have room
    in their history. *)
Record correlatable : Prop := {
  cl_result : da_result a = Some r;
  cl_status : da_status a ∈ COMPARED;
  cl_architecture : Forall (λ i, di_architecture_id i = dq_architecture_id (da_request a)) its;
  cl_keys : NoDup (di_key <$> its);
  cl_room : ∀ i, i ∈ its → di_last_analysis_id i ≠ da_id a → (length (di_history i) < MAX_HISTORY)%nat;
}.
Context (Hc : correlatable).

Let existing := index_by di_key its.
Let seen := di_key <$> filter (λ i, di_last_analysis_id i = da_id a) its.

Lemma own_items : filter (λ i, di_architecture_id i = dq_architecture_id (da_request a)) its = its.
Proof using Hc.
  destruct Hc as [_ _ Ha _ _]. clear -Ha. induction Ha as [|i l Hi _ IH]; [done|]. rewrite filter_cons, decide_True by done. by rewrite IH.
Qed.

Lemma existing_get k i : dict_get k existing = Some i ↔ i ∈ its ∧ di_key i = k.
Proof using Hc. apply index_by_get, Hc. Qed.

Lemma existing_keys k : k ∈ dict_keys existing ↔ k ∈ di_key <$> its.
Proof using Hc.
  rewrite <- dict_get_is_Some. split.
  - intros [i [Hi <-]%existing_get]. by apply list_elem_of_fmap_2.
  - intros (i & -> & Hi)%list_elem_of_fmap. exists i. by apply existing_get.
Qed.

Lemma tracks_existing : tracks a existing seen.
Proof using Hc.
  constructor.
  - intros k i [Hi Hk]%existing_get. split; [done|]. by apply Hc.
  - intros k. unfold seen. rewrite list_elem_of_fmap. setoid_rewrite list_elem_of_filter. setoid_rewrite existing_get. naive_solver.
Qed.

Lemma detection_is i f :
  i ∈ its → f ∈ firsts seen (dr_findings r) → df_item_key f = di_key i → ∃ i', detection_of a at_ existing f = Some i' ∧
    detected i f (da_id a) at_ = Ok i'.
Proof using Hc.
  intros Hi Hf Hk. assert (dict_get (df_item_key f) existing = Some i) as Hg by by apply existing_get.
  destruct (detected_is i f (da_id a) at_ Hk) as [i' Hi'].
  - apply Hc; [done|]. intros Hl. apply firsts_elem in Hf as (_ & _ & Hn). apply Hn. rewrite Hk. unfold seen.
    apply list_elem_of_fmap_2, list_elem_of_filter. done.
  - exists i'. split; [|done]. unfold detection_of. rewrite Hg. cbn. by rewrite Hi'.
Qed.

Lemma fresh_keys (g : nat → uuid) l : di_key <$> imap (λ n, fresh_item a at_ (g n)) l = df_item_key <$> l.
Proof.
  revert g. induction l as [|f l IH]; intros g; [done|]. rewrite imap_cons, !fmap_cons. f_equal. apply (IH (λ n, g (S n))).
Qed.

(** What the fold gives. *)
Lemma correlate_is : ∃ co, correlate its a at_ new_id = Ok co ∧
  (∀ i', i' ∈ co_updated co ↔ ∃ i f, i ∈ its ∧ f ∈ firsts seen (dr_findings r) ∧ df_item_key f = di_key i ∧
     detected i f (da_id a) at_ = Ok i') ∧
  (∀ i', i' ∈ co_created co → ∃ f id, f ∈ firsts seen (dr_findings r) ∧ i' = fresh_item a at_ id f) ∧
  di_key <$> co_created co =
    df_item_key <$> filter (λ f, df_item_key f ∉ dict_keys existing) (firsts seen (dr_findings r)).
Proof using Hc.
  destruct (correlate_loop_spec a at_ new_id (dr_findings r)
    {| cr_existing := existing; cr_created := []; cr_updated := []; cr_fresh := 0 |} seen tracks_existing) as (c' & Hl & Hcr & Hup).
  unfold correlate. rewrite (cl_result Hc), decide_True by apply Hc. rewrite own_items. fold existing. rewrite Hl.
  eexists. split; [done|]. cbn [co_updated co_created]. cbn in Hcr, Hup. rewrite Hcr, Hup. split; [|split].
  - intros i'. rewrite list_elem_of_omap. split.
    + intros (f & Hf & Hd). unfold detection_of in Hd. destruct (dict_get _ existing) as [i|] eqn:Eg; [|done]. cbn in Hd.
      apply existing_get in Eg as [Hi Hk]. exists i, f. destruct (detected _ _ _ _); [injection Hd as ->|done]. done.
    + intros (i & f & Hi & Hf & Hk & Hd). destruct (detection_is i f Hi Hf Hk) as (i2 & Hd2 & ?). exists f. split; [done|]. congruence.
  - intros i'. rewrite elem_of_lookup_imap. intros (n & f & -> & Hf%list_elem_of_lookup_2).
    apply list_elem_of_filter in Hf as [_ Hf]. by eexists f, _.
  - by apply fresh_keys.
Qed.
End correlated.

(** What an item is before and after. *)
Lemma saved_elem its co i' : i' ∈ saved its co → (∃ i, i ∈ its ∧ i' = saved_item co i) ∨ i' ∈ co_created co.
Proof. unfold saved. intros [(i & -> & Hi)%list_elem_of_fmap|?]%elem_of_app; [left; by exists i|by right]. Qed.

Lemma saved_keys its co : di_key <$> saved its co = (di_key <$> its) ++ (di_key <$> co_created co).
Proof.
  unfold saved. rewrite fmap_app, <- list_fmap_compose. f_equal. apply list_fmap_ext. intros n i _. apply saved_item_key.
Qed.

(** Where an item of the saved architecture comes from: it was there, an old item was detected, or a finding
    whose key had no item was first seen. *)
Inductive came_from (a : DriftAnalysis) (r : DriftResult) (at_ : instant) (its : list DriftItem) (i' : DriftItem) : Prop :=
  | cf_kept : i' ∈ its → came_from a r at_ its i'
  | cf_detected i f : i ∈ its → f ∈ dr_findings r → reviewable f = true → detected i f (da_id a) at_ = Ok i' →
      di_last_analysis_id i ≠ da_id a → came_from a r at_ its i'
  | cf_created f id : f ∈ dr_findings r → reviewable f = true → i' = fresh_item a at_ id f →
      df_item_key f ∉ di_key <$> its → came_from a r at_ its i'.

Section saved.
Context (a : DriftAnalysis) (r : DriftResult) (at_ : instant) (new_id : nat → uuid) (its : list DriftItem).
Context (Hc : correlatable a r its) (co : Correlation) (Hco : correlate its a at_ new_id = Ok co).

Let seen := di_key <$> filter (λ i, di_last_analysis_id i = da_id a) its.

Lemma not_seen_last i f :
  i ∈ its → f ∈ firsts seen (dr_findings r) → df_item_key f = di_key i → di_last_analysis_id i ≠ da_id a.
Proof using Hc.
  intros Hi (_ & _ & Hn)%firsts_elem Hk Hl. apply Hn. rewrite Hk. apply list_elem_of_fmap_2, list_elem_of_filter. done.
Qed.

Lemma updated_elem i' : i' ∈ co_updated co ↔ ∃ i f, i ∈ its ∧ f ∈ firsts seen (dr_findings r) ∧ df_item_key f = di_key i ∧
  detected i f (da_id a) at_ = Ok i'.
Proof using Hc Hco. destruct (correlate_is a r at_ new_id its Hc) as (c & E & Hu & _). rewrite E in Hco. by injection Hco as <-. Qed.

Lemma created_elem i' : i' ∈ co_created co → ∃ f id, f ∈ firsts seen (dr_findings r) ∧ i' = fresh_item a at_ id f.
Proof using Hc Hco. destruct (correlate_is a r at_ new_id its Hc) as (c & E & _ & Hu & _). rewrite E in Hco. injection Hco as <-. apply Hu. Qed.

Lemma created_keys : di_key <$> co_created co =
  df_item_key <$> filter (λ f, df_item_key f ∉ dict_keys (index_by di_key its)) (firsts seen (dr_findings r)).
Proof using Hc Hco. destruct (correlate_is a r at_ new_id its Hc) as (c & E & _ & _ & Hu). rewrite E in Hco. by injection Hco as <-. Qed.

Lemma created_key k : k ∈ (di_key <$> co_created co) ↔
  k ∉ (di_key <$> its) ∧ ∃ f, f ∈ firsts seen (dr_findings r) ∧ df_item_key f = k.
Proof using Hc Hco.
  rewrite created_keys, list_elem_of_fmap. setoid_rewrite list_elem_of_filter. setoid_rewrite (existing_keys a r its Hc). naive_solver.
Qed.

Lemma saved_distinct : NoDup (di_key <$> saved its co).
Proof using Hc Hco.
  rewrite saved_keys, NoDup_app. split; [apply Hc|]. split; [by intros k Hk [? _]%created_key|].
  rewrite created_keys. eapply sublist_NoDup; [apply (firsts_distinct (dr_findings r) seen)|apply fmap_sublist, sublist_filter].
Qed.

Lemma saved_came i' : i' ∈ saved its co → came_from a r at_ its i'.
Proof using Hc Hco.
  intros [(i & Hi & ->)|Hn]%saved_elem.
  - destruct (saved_item_cases co i) as [[-> _]|[(j & f & Hj & Hf & Hk & Hd)%updated_elem Hs]]; [by apply cf_kept|].
    pose proof (firsts_elem _ _ _ Hf) as (? & ? & _). eapply (cf_detected _ _ _ _ _ j f); try done. by apply not_seen_last with f.
  - assert (di_key i' ∈ di_key <$> co_created co) as [Hk _]%created_key by by apply list_elem_of_fmap_2.
    apply created_elem in Hn as (f & id & Hf & ->). pose proof (firsts_elem _ _ _ Hf) as (? & ? & _).
    by apply cf_created with f id.
Qed.

Lemma came_last i' : i' ∈ saved its co → i' ∈ its ∨ di_last_analysis_id i' = da_id a.
Proof using Hc Hco.
  intros [?|i f _ _ _ Hd _|f id _ _ -> _]%saved_came; [by left| |by right]. right. by apply detected_ok in Hd as (_ & _ & _ & _ & _ & ? & _).
Qed.

(** Every finding that can be reviewed has its item, detected by this analysis. *)
Lemma saved_covers f : f ∈ dr_findings r → reviewable f = true →
  ∃ i, i ∈ saved its co ∧ di_key i = df_item_key f ∧ di_last_analysis_id i = da_id a.
Proof using Hc Hco.
  intros Hf Hr. destruct (decide (df_item_key f ∈ di_key <$> its)) as [Hold|Hnew].
  - apply list_elem_of_fmap in Hold as (i & Hk & Hi). exists (saved_item co i). split_and!.
    + apply elem_of_app. left. by apply list_elem_of_fmap_2.
    + by rewrite saved_item_key.
    + destruct (firsts_cover _ seen f Hf Hr) as [Hs|Hs].
      * apply list_elem_of_fmap in Hs as (j & Hkj & [Hlj Hj]%list_elem_of_filter).
        assert (j = i) as -> by (eapply (NoDup_key_inj di_key its); [apply Hc|done..|congruence]).
        destruct (saved_item_cases co i) as [[-> _]|[(j & g & Hj' & Hg & Hkg & Hd)%updated_elem _]]; [done|].
        by apply detected_ok in Hd as (_ & _ & _ & _ & _ & ? & _).
      * apply list_elem_of_fmap in Hs as (g & Hkg & Hg).
        destruct (detection_is a r at_ its Hc i g Hi Hg) as (i' & _ & Hd); [congruence|].
        destruct (saved_item_cases co i) as [[_ Hno]|[(j & h & _ & _ & _ & Hd')%updated_elem _]].
        -- exfalso. apply (Hno i'); [apply updated_elem; exists i, g; split_and!; congruence|].
           apply detected_ok in Hd as (_ & _ & Hs & _). by destruct Hs as (_ & _ & _ & -> & _).
        -- by apply detected_ok in Hd' as (_ & _ & _ & _ & _ & ? & _).
  - destruct (firsts_cover _ seen f Hf Hr) as [Hs|Hs].
    { exfalso. apply Hnew. apply list_elem_of_fmap in Hs as (j & Hkj & [_ Hj]%list_elem_of_filter). rewrite Hkj. by apply list_elem_of_fmap_2. }
    apply list_elem_of_fmap in Hs as (g & Hkg & Hg).
    assert (df_item_key f ∈ di_key <$> co_created co) as (i & Hk & Hi)%list_elem_of_fmap.
    { apply created_key. split; [done|]. by exists g. }
    exists i. split_and!; [apply elem_of_app; by right|done|]. by apply created_elem in Hi as (? & ? & _ & ->).
Qed.

Lemma saved_correlatable : correlatable a r (saved its co).
Proof using Hc Hco.
  constructor; [apply Hc|apply Hc| |apply saved_distinct|].
  - apply Forall_forall. intros i' [Hi|i f Hi _ _ Hd _|f id _ _ -> _]%saved_came; [| |done].
    + by eapply Forall_forall in Hi; [|apply Hc].
    + apply detected_ok in Hd as (_ & _ & Hs & _). destruct Hs as (_ & _ & -> & _).
      by eapply Forall_forall in Hi; [|apply Hc].
  - intros i Hi Hl. destruct (came_last i Hi) as [?|?]; [|done]. by apply Hc.
Qed.
End saved.

(** Once saved, the same analysis finds nothing to do. *)
Lemma correlated_once a r at_ new_id its co (Hc : correlatable a r its) :
  correlate its a at_ new_id = Ok co → ∀ at_' new_id', correlate (saved its co) a at_' new_id' = Ok {| co_created := []; co_updated := [] |}.
Proof.
  intros Hco at_' new_id'. pose proof (saved_correlatable a r at_ new_id its Hc co Hco) as Hc'.
  destruct (correlate_is a r at_' new_id' (saved its co) Hc') as ([cr up] & -> & Hu & Hn & _). cbn [co_updated co_created] in *.
  assert (∀ f, f ∉ firsts (di_key <$> filter (λ i, di_last_analysis_id i = da_id a) (saved its co)) (dr_findings r)) as He.
  { intros f (Hf & Hr & Hs)%firsts_elem. apply Hs.
    destruct (saved_covers a r at_ new_id its Hc co Hco f Hf Hr) as (i & Hi & <- & Hl).
    by apply list_elem_of_fmap_2, list_elem_of_filter. }
  assert (up = []) as -> by (apply elem_of_nil_inv; intros i (j & f & _ & Hf & _)%Hu; by apply He in Hf).
  assert (cr = []) as -> by (apply elem_of_nil_inv; intros i (f & id & Hf & _)%Hn; by apply He in Hf). done.
Qed.

(** * Properties *)

(** C10: an item reached by detections and reviews (no other way leads to one) has a history that is a walk
    of the review's state machine, from open to its status, each event allowed where it stands and with the
    note, link, user or evidence it needs; the history stays within its bound, tells the first and the last
    analysis that detected the item and every link it has. A resolved item was resolved by a person on
    evidence, and only notes and links came after: an analysis that detects it again reopens it. Whatever
    is done to it later keeps its identity and only appends to its history. *)
Theorem item_history i :
  reachable_item i →
  item_ok i ∧
  (di_status i = RESOLVED → ∃ pre e post, di_history i = pre ++ e :: post ∧ ev_action e = RESOLVE ∧
     is_Some (ev_user_id e) ∧ has_evidence e ∧ Forall (λ x, ev_action x ∈ [NOTE; LINK]) post) ∧
  (∀ i', rtc item_step i i' → same_item i i' ∧ di_history i `prefix_of` di_history i').
Proof.
  intros Hi. pose proof (reachable_item_ok i Hi) as Hok. split; [done|]. split; [|by apply item_steps_grow].
  intros Hr. pose proof (io_walk i Hok) as Hw. rewrite Hr in Hw.
  destruct (resolved_event (di_history i) OPEN) as (pre & e & post & Hh & Ha & (Hu & _ & _ & _ & _ & He) & Hp); [done|by apply Hok|done|].
  exists pre, e, post. split_and!; auto.
Qed.

(** C11: an analysis that compared, saved over the items of its architecture (one per key, those it may
    detect with room in their history), never fails and leaves one item per key; every difference to review
    has its item, last detected by this analysis; every item kept, was detected again on a finding of the
    analysis, or is the first sight of a key that had none; no item is lost. Correlating the same analysis
    once more creates and changes nothing. *)
Theorem correlated a r at_ new_id its :
  correlatable a r its →
  ∃ co, correlate its a at_ new_id = Ok co ∧
    NoDup (di_key <$> saved its co) ∧
    (∀ f, f ∈ dr_findings r → reviewable f = true →
       ∃ i, i ∈ saved its co ∧ di_key i = df_item_key f ∧ di_last_analysis_id i = da_id a) ∧
    (∀ i, i ∈ saved its co → came_from a r at_ its i) ∧
    (∀ i, i ∈ its → di_key i ∈ di_key <$> saved its co) ∧
    (∀ at_' new_id', correlate (saved its co) a at_' new_id' = Ok {| co_created := []; co_updated := [] |}).
Proof.
  intros Hc. destruct (correlate_is a r at_ new_id its Hc) as (co & Hco & _). exists co. split; [done|].
  split; [by eapply saved_distinct|]. split; [by eapply saved_covers|]. split; [by eapply saved_came|].
  split; [|by eapply correlated_once]. intros i Hi. rewrite saved_keys. apply elem_of_app. left. by apply list_elem_of_fmap_2.
Qed.

(** an item whose history is full stops its architecture: an analysis that detects it again raises, so
    nothing of the analysis can be kept. *)
Theorem full_history_blocks a r f i at_ new_id :
  da_result a = Some r → da_status a ∈ COMPARED → dr_findings r = [f] → reviewable f = true →
  di_architecture_id i = dq_architecture_id (da_request a) → di_key i = df_item_key f →
  di_last_analysis_id i ≠ da_id a → length (di_history i) = MAX_HISTORY →
  correlate [i] a at_ new_id = Raise (refuse DETECTED (di_status i) "history_full").
Proof.
  intros Hr Hs Hf Hrev Ha Hk Hl Hfull. unfold correlate. rewrite Hr, decide_True, Hf by done.
  rewrite filter_cons, decide_True, filter_nil by done. cbn [correlate_loop]. unfold correlate_step. rewrite Hrev. cbn [negb].
  assert (dict_get (df_item_key f) (index_by di_key [i]) = Some i) as Hg.
  { apply index_by_get; [repeat constructor; by intros ?%elem_of_nil|]. split; [left|done]. }
  cbn [cr_existing]. rewrite Hg. apply String.eqb_neq in Hl. rewrite Hl. unfold detected. rewrite Hk, String.eqb_refl. cbn [negb].
  unfold appended. by rewrite Hfull, Nat.leb_refl.
Qed.

(** * A concrete case *)
Definition new_finding (subject : string) (path : option string) (type : FindingType) : DriftFinding := {|
  df_type := type; df_classification := CONFIRMED; df_element := DRIFT_NODE; df_subject := subject;
  df_explanation := "It differs."; df_rule := "drift-differences@1"; df_path := path; df_baseline_id := Some "api";
  df_discovered_key := Some "api"; df_match := Some SAME_ID; df_baseline_value := JNull; df_discovered_value := JNull;
  df_redacted := false; df_evidence := ["dsf_1"]; df_locations := ["shop.yaml:0#/spec"];
  df_baseline_reference := Some "shop.yaml:0"; df_limitations := []; df_impact := []; df_references := [] |}.
Definition replicas_changed : DriftFinding := new_finding "node:api" (Some "configuration.replicas") CONFIGURATION_CHANGED.
Definition cache_added : DriftFinding := new_finding "node:cache" None COMPONENT_ADDED.

Definition compared_result : DriftResult := {|
  dr_baseline := {| bs_architecture_id := "shop"; bs_revision_number := 1; bs_content_hash := ""; bs_schema_version := 1 |};
  dr_observed := {| ob_discovery_run_id := "run"; ob_result_fingerprint := ""; ob_sources_fingerprint := "";
                    ob_result_version := 1; ob_extractors := [] |};
  dr_compatibility := [{| cc_dimension := "identity"; cc_outcome := COMPATIBLE; cc_message := "Stable." |}];
  dr_coverage := {| cv_source_types := []; cv_inspected := ["shop.yaml"]; cv_partial := []; cv_unread := [];
                    cv_unsupported_constructs := 0; cv_unresolved_entities := 0; cv_unresolved_relationships := 0;
                    cv_errors := 0 |};
  dr_findings := [replicas_changed; cache_added; replicas_changed]; dr_warnings := []; dr_versions := [];
  dr_policy := "default"; dr_version := 1 |}.

Definition compared_analysis (id : uuid) (r : DriftResult) : DriftAnalysis := {|
  da_id := id; da_project_id := "p"; da_request := {| dq_architecture_id := "shop"; dq_baseline_revision := 1;
    dq_discovery_run_id := "run"; dq_policy := "default"; dq_exclude := []; dq_label := None |};
  da_status := COMPLETED; da_requested_by_user_id := "ada"; da_requested_at := 1%Z; da_started_at := Some 2%Z;
  da_completed_at := Some 3%Z; da_result := Some r; da_error := None |}.

Definition replicas_item : DriftItem := first_seen "i1" "p" "shop" replicas_changed "first" 5%Z.

(** Acknowledged, resolved on another analysis, and noted. *)
Definition resolved_item : py DriftItem :=
  i ← act replicas_item ACKNOWLEDGE "ada" 6%Z None None None;
  i ← act i RESOLVE "ada" 7%Z None None (Some "second");
  act i NOTE "ada" 8%Z (Some "Done.") None None.

Lemma resolved_item_is : ∃ i, resolved_item = Ok i ∧ di_status i = RESOLVED ∧ reachable_item i.
Proof.
  unfold resolved_item. destruct (act replicas_item _ _ _ _ _ _) as [i1|] eqn:E1; [|by vm_compute in E1].
  cbn [mbind py_bind]. destruct (act i1 RESOLVE _ _ _ _ _) as [i2|] eqn:E2; [|by vm_compute in E1; injection E1 as <-; vm_compute in E2].
  cbn [mbind py_bind]. destruct (act i2 NOTE _ _ _ _ _) as [i3|] eqn:E3.
  2:{ vm_compute in E1. injection E1 as <-. vm_compute in E2. injection E2 as <-. by vm_compute in E3. }
  exists i3. split; [done|]. split.
  - vm_compute in E1. injection E1 as <-. vm_compute in E2. injection E2 as <-. vm_compute in E3. by injection E3 as <-.
  - exists "i1", "p", "shop", replicas_changed, "first", 5%Z.
    eapply rtc_l; [by eapply is_acted|]. eapply rtc_l; [by eapply is_acted|]. eapply rtc_l; [by eapply is_acted|]. done.
Qed.

Lemma item_history_witness : ∃ i, di_status i = RESOLVED ∧ item_ok i ∧
  ∃ pre e post, di_history i = pre ++ e :: post ∧ has_evidence e ∧ Forall (λ x, ev_action x ∈ [NOTE; LINK]) post.
Proof.
  destruct resolved_item_is as (i & _ & Hs & Hr). exists i. destruct (item_history i Hr) as (Hok & Hres & _).
  destruct (Hres Hs) as (pre & e & post & Hh & _ & _ & He & Hp). eauto 10.
Defined.

Lemma sample_correlatable : correlatable (compared_analysis "third" compared_result) compared_result [replicas_item].
Proof.
  constructor; [done|left|by constructor|repeat constructor; by intros ?%elem_of_nil|].
  intros i ->%list_elem_of_singleton _. unfold MAX_HISTORY. cbn. lia.
Qed.

Lemma correlated_witness : ∃ co,
  correlate [replicas_item] (compared_analysis "third" compared_result) 9%Z (λ _, "i2") = Ok co ∧
  NoDup (di_key <$> saved [replicas_item] co).
Proof.
  destruct (correlated _ _ 9%Z (λ _, "i2") _ sample_correlatable) as (co & Hco & Hnd & _).
  exact (ex_intro _ co (conj Hco Hnd)).
Defined.

(** An item reviewed a thousand times. *)
Definition full_item : DriftItem := {|
  di_id := "i1"; di_project_id := "p"; di_architecture_id := "shop"; di_key := df_item_key replicas_changed;
  di_element := DRIFT_NODE; di_subject := "node:api"; di_path := Some "configuration.replicas";
  di_type := CONFIGURATION_CHANGED; di_classification := CONFIRMED; di_first_analysis_id := "first";
  di_last_analysis_id := "first"; di_status := OPEN;
  di_history := replicate MAX_HISTORY (detection OPEN OPEN "first" 5%Z); di_links := []; di_artifacts := [] |}.

Definition one_difference : DriftResult := {|
  dr_baseline := dr_baseline compared_result; dr_observed := dr_observed compared_result;
  dr_compatibility := dr_compatibility compared_result; dr_coverage := dr_coverage compared_result;
  dr_findings := [replicas_changed]; dr_warnings := []; dr_versions := []; dr_policy := "default"; dr_version := 1 |}.

Lemma full_history_blocks_witness :
  correlate [full_item] (compared_analysis "third" one_difference) 9%Z (λ _, "i2") = Raise (refuse DETECTED OPEN "history_full").
Proof.
  apply (full_history_blocks (compared_analysis "third" one_difference) one_difference replicas_changed full_item 9%Z (λ _, "i2"));
    [reflexivity|left|reflexivity|reflexivity|reflexivity|reflexivity|discriminate|exact (length_replicate MAX_HISTORY _)].
Defined.
