(* ===== verification/DriftProperties.v ===== *)
(** What the drift engine promises (DriftEngine.v): every node and every entity compared is in exactly one
    match, and a node is matched with an entity exactly when it is the only one that claims it; a removal is
    confirmed only where absence is evidence; and the case its comparison does not survive.

    [nodes_matched], [removals_confirmed]; [nested_node_breaks]. *)
From Stdlib Require Import Lia ZArith.
From S2P Require Import Prelude Data Errors Values Provenance Component Configuration Elements Model Commands Diff Leaves Computations Store.
From S2P Require Import Drift Discovered DriftEngine.

(** * Lists by key *)
Section grouped.
Context {K V : Type} `{EqDecision K}.
Implicit Types (d : dict K (list V)) (l : list (K * V)).

Lemma grouped_snoc l p : grouped (l ++ [p]) = dict_append p.1 p.2 (grouped l).
Proof. unfold grouped. by rewrite foldl_snoc. Qed.

Lemma grouped_wf l : dict_wf (grouped l).
Proof. induction l as [|p l IH] using rev_ind; [constructor|]. rewrite grouped_snoc. by apply dict_set_wf. Qed.

Lemma grouped_get l k :
  dict_get k (grouped l) =
    match (filter (λ p, p.1 = k) l).*2 with [] => None | vs => Some vs end.
Proof.
  induction l as [|[k' v] l IH] using rev_ind; [done|]. rewrite grouped_snoc. unfold dict_append.
  rewrite dict_get_set, filter_app, fmap_app. cbn [fst snd]. destruct (decide (k = k')) as [->|Hne].
  - rewrite filter_cons_True, filter_nil by done. rewrite IH. by destruct (_.*2).
  - rewrite filter_cons_False, filter_nil by (cbn; congruence). by rewrite app_nil_r, IH.
Qed.

Lemma grouped_keys l k : k ∈ dict_keys (grouped l) ↔ k ∈ l.*1.
Proof.
  rewrite <- dict_get_is_Some, grouped_get, list_elem_of_fmap.
  split.
  - destruct (filter _ l) as [|p r] eqn:E; [by intros [? ?]|]. intros _. exists p.
    assert (p ∈ filter (λ p, p.1 = k) l) as [? ?]%list_elem_of_filter by (rewrite E; left). done.
  - intros (p & -> & Hp). assert (p ∈ filter (λ q, q.1 = p.1) l) as Hin by by apply list_elem_of_filter.
    destruct (filter _ l); [by apply elem_of_nil in Hin|by eexists].
Qed.

Lemma grouped_elem l k vs : (k, vs) ∈ grouped l ↔ vs ≠ [] ∧ vs = (filter (λ p, p.1 = k) l).*2.
Proof.
  rewrite <- (dict_get_wf _ _ _ (grouped_wf l)), grouped_get. destruct (_.*2); naive_solver.
Qed.

(** Grouping loses nothing. *)
Lemma append_values k v d : mjoin (dict_values (dict_append k v d)) ≡ₚ v :: mjoin (dict_values d).
Proof.
  unfold dict_append. induction d as [|[k' vs] d IH]; [done|]. cbn [dict_get dict_set].
  destruct (decide (k = k')) as [->|]; unfold dict_values in *; cbn.
  - rewrite <- app_assoc. symmetry. apply (Permutation_middle vs).
  - rewrite IH. symmetry. apply (Permutation_middle vs).
Qed.

Lemma grouped_values l : mjoin (dict_values (grouped l)) ≡ₚ l.*2.
Proof.
  induction l as [|[k v] l IH] using rev_ind; [done|]. rewrite grouped_snoc, append_values, IH, fmap_app. cbn.
  by rewrite <- Permutation_cons_append.
Qed.
End grouped.

Lemma omap_bind {A B C} (f : B → option C) (g : A → list B) l : omap f (l ≫= g) = l ≫= (λ a, omap f (g a)).
Proof. induction l as [|a l IH]; [done|]. by rewrite !bind_cons, omap_app, IH. Qed.

(** * Nodes *)
Section nodes.
Context (entities : dict string CandidateEntity) (mappings : dict string string) (nodes : list Node).
Context (Hents : dict_wf entities) (Hids : NoDup (n_id <$> nodes)).

(** What each node claims, by the claimed key. *)
Definition claim_pair (n : Node) : option (string * (string * MatchMethod)) :=
  match claim entities mappings n with inl (k, m) => Some (k, (n_id n, m)) | inr _ => None end.
Definition claim_pairs : list (string * (string * MatchMethod)) := omap claim_pair nodes.

Definition claims_key (n : Node) (k : string) : Prop := ∃ m, claim entities mappings n = inl (k, m).

Lemma claim_pairs_elem k b m :
  (k, (b, m)) ∈ claim_pairs ↔ ∃ n, n ∈ nodes ∧ n_id n = b ∧ claim entities mappings n = inl (k, m).
Proof.
  unfold claim_pairs, claim_pair. rewrite list_elem_of_omap. split.
  - intros (n & Hn & Hc). destruct (claim entities mappings n) as [[k' m']|] eqn:E; [|done]. injection Hc as <- <- <-. by exists n.
  - intros (n & Hn & <- & Hc). exists n. split; [done|]. by rewrite Hc.
Qed.

Lemma claims_grouped : claims entities mappings nodes = grouped claim_pairs.
Proof. done. Qed.

(** A claim is of a key the run holds, by the id or by a confirmed mapping. *)
Lemma claim_known n k m : claim entities mappings n = inl (k, m) →
  k ∈ dict_keys entities ∧ (m = SAME_ID ∧ k = n_id n ∨ m = CONFIRMED_MAPPING ∧ dict_get (n_id n) mappings = Some k).
Proof.
  unfold claim, known. destruct (dict_get (n_id n) entities) as [e|] eqn:E; cbn [some].
  - intros [= <- <-]. split; [apply dict_get_is_Some; by eexists|by left].
  - destruct (dict_get (n_id n) mappings) as [k'|] eqn:Em; [|done]. destruct (dict_get k' entities) as [e|] eqn:E'; cbn [some]; [|done].
    intros [= <- <-]. split; [apply dict_get_is_Some; by eexists|by right].
Qed.

Lemma claim_method n k m : claim entities mappings n = inl (k, m) → bool_decide (m ∈ [SAME_ID; CONFIRMED_MAPPING]) = true.
Proof. intros [_ [[-> _]|[-> _]]]%claim_known; done. Qed.

Lemma claimed_known k : k ∈ dict_keys (claims entities mappings nodes) → k ∈ dict_keys entities.
Proof.
  rewrite claims_grouped, grouped_keys. intros ([k' [b m]] & -> & (n & _ & _ & Hc)%claim_pairs_elem)%list_elem_of_fmap.
  by eapply claim_known.
Qed.

(** ** Settling a claimed key *)
Lemma settle_baselines p : omap nm_baseline_id (settle p) ≡ₚ p.2.*1.
Proof.
  unfold settle. destruct p as [k [|[b m] [|q r]]]; [done|done|]. cbn [fst snd].
  rewrite omap_app. cbn [omap list_omap node_match nm_baseline_id]. rewrite app_nil_r.
  set (bs := ((b, m) :: q :: r).*1). rewrite <- (sort_by_perm str_leb bs) at 2. generalize (sort_by str_leb bs) at 2 3.
  intros l. generalize (Some (k +:+ " is claimed by several baseline nodes (" +:+ join ", " (sort_by str_leb bs) +:+ "): confirm which one.")).
  intros reason. induction l as [|c l IH]; [done|]. cbn. by rewrite IH.
Qed.

Lemma settle_discovered p : omap nm_discovered_key (settle p) = [p.1].
Proof.
  unfold settle. destruct p as [k [|[b m] [|q r]]]; [done|done|]. cbn [fst snd]. rewrite omap_app.
  generalize (sort_by str_leb ((b, m) :: q :: r).*1) at 2. intros l. cbn [omap list_omap node_match nm_discovered_key].
  generalize (Some (k +:+ " is claimed by several baseline nodes (" +:+ join ", " (sort_by str_leb ((b, m) :: q :: r).*1) +:+ "): confirm which one.")).
  intros reason. induction l as [|c l IH]; [done|]. cbn. exact IH.
Qed.

Lemma settled_baselines (l : list (string * list (string * MatchMethod))) :
  omap nm_baseline_id (l ≫= settle) ≡ₚ (mjoin l.*2).*1.
Proof.
  induction l as [|p l IH]; [done|]. rewrite bind_cons, omap_app, IH, settle_baselines. cbn. by rewrite fmap_app.
Qed.

Lemma settled_discovered (l : list (string * list (string * MatchMethod))) : omap nm_discovered_key (l ≫= settle) = l.*1.
Proof. induction l as [|p l IH]; [done|]. by rewrite bind_cons, omap_app, IH, settle_discovered. Qed.

(** ** The nodes that claim nothing *)
Definition silent (n : Node) : option (string * NodeMatch) :=
  match claim entities mappings n with
  | inl _ => None
  | inr reason => Some (n_id n, node_match (Some (n_id n)) None UNMATCHED [] reason)
  end.

Lemma silent_ids : (omap silent nodes).*1 `sublist_of` (n_id <$> nodes).
Proof using.
  clear Hids. induction nodes as [|n l IH]; [constructor|]. csimpl. unfold silent at 1.
  destruct (claim entities mappings n); cbn; by constructor.
Qed.

Lemma unmatched_is : unmatched_nodes entities mappings nodes = omap silent nodes.
Proof. unfold unmatched_nodes. apply dict_of_id. unfold dict_wf, dict_keys. eapply sublist_NoDup; [exact Hids|apply silent_ids]. Qed.

Lemma silent_elem b m : (b, m) ∈ omap silent nodes ↔ ∃ n reason, n ∈ nodes ∧ n_id n = b ∧ claim entities mappings n = inr reason ∧
  m = node_match (Some b) None UNMATCHED [] reason.
Proof.
  rewrite list_elem_of_omap. unfold silent. split.
  - intros (n & Hn & Hc). destruct (claim entities mappings n) as [|reason] eqn:E; [done|]. injection Hc as <- <-. by exists n, reason.
  - intros (n & reason & Hn & <- & Hc & ->). exists n. split; [done|]. by rewrite Hc.
Qed.

(** A node claims a key, or claims nothing. *)
Lemma claimed_or_silent : n_id <$> nodes ≡ₚ claim_pairs.*2.*1 ++ (omap silent nodes).*1.
Proof using.
  clear Hids. unfold claim_pairs. induction nodes as [|n l IH]; [done|]. csimpl.
  destruct (claim entities mappings n) as [[k m]|reason] eqn:E.
  - assert (claim_pair n = Some (k, (n_id n, m)) ∧ silent n = None) as [-> ->] by (unfold claim_pair, silent; by rewrite E).
    csimpl. by rewrite IH.
  - assert (claim_pair n = None ∧ silent n = Some (n_id n, node_match (Some (n_id n)) None UNMATCHED [] reason)) as [-> ->]
      by (unfold claim_pair, silent; by rewrite E).
    csimpl. rewrite IH. apply Permutation_middle.
Qed.

(** ** All matches *)
Let by_id : dict string Node := index_by n_id nodes.
Let free : dict string CandidateEntity := filter (λ p, p.1 ∉ dict_keys (claims entities mappings nodes)) entities.
Let unmatched : list (string * NodeMatch) := sort_by (on fst str_leb) (unmatched_nodes entities mappings nodes).

Lemma near_match_ids (us : list (string * NodeMatch)) :
  Forall (λ p, nm_baseline_id p.2 = Some p.1 ∧ nm_discovered_key p.2 = None) us →
  omap nm_baseline_id (near_match by_id free <$> us) = us.*1 ∧ omap nm_discovered_key (near_match by_id free <$> us) = [].
Proof using.
  induction 1 as [|p us [Hb Hd] _ [IH1 IH2]]; [done|].
  assert (nm_baseline_id (near_match by_id free p) = Some p.1 ∧ nm_discovered_key (near_match by_id free p) = None) as [H1 H2].
  { unfold near_match. destruct (nearby _ _ _); [done|]. by destruct (some _). }
  csimpl. by rewrite H1, H2, IH1.
Qed.

Lemma free_match_ids ks :
  omap nm_baseline_id (free_match by_id free unmatched <$> ks) = [] ∧ omap nm_discovered_key (free_match by_id free unmatched <$> ks) = ks.
Proof using.
  induction ks as [|k ks [IH1 IH2]]; [done|].
  assert (nm_baseline_id (free_match by_id free unmatched k) = None ∧ nm_discovered_key (free_match by_id free unmatched k) = Some k) as [H1 H2].
  { unfold free_match. by destruct (candidates_of _ _ _ _). }
  csimpl. by rewrite H1, H2, IH1, IH2.
Qed.

Lemma unmatched_forms : Forall (λ p, nm_baseline_id p.2 = Some p.1 ∧ nm_discovered_key p.2 = None) unmatched.
Proof.
  apply Forall_forall. intros [b m]. unfold unmatched. rewrite elem_of_sort_by, unmatched_is.
  by intros (n & reason & _ & _ & _ & ->)%silent_elem.
Qed.

Lemma matches_baselines : omap nm_baseline_id (matches_of entities mappings nodes) ≡ₚ n_id <$> nodes.
Proof.
  unfold matches_of. fold free by_id unmatched. rewrite sort_by_perm, !omap_app.
  destruct (near_match_ids unmatched unmatched_forms) as [-> _].
  destruct (free_match_ids (sort_by str_leb (dict_keys free))) as [-> _]. rewrite app_nil_r, settled_baselines, sort_by_perm.
  change ((claims entities mappings nodes).*2) with (dict_values (grouped claim_pairs)). rewrite grouped_values.
  unfold unmatched. by rewrite sort_by_perm, unmatched_is, claimed_or_silent.
Qed.

Lemma matches_discovered : omap nm_discovered_key (matches_of entities mappings nodes) ≡ₚ dict_keys entities.
Proof.
  unfold matches_of. fold free by_id unmatched. rewrite sort_by_perm, !omap_app.
  destruct (near_match_ids unmatched unmatched_forms) as [_ ->].
  destruct (free_match_ids (sort_by str_leb (dict_keys free))) as [_ ->]. rewrite app_nil_l, settled_discovered, !sort_by_perm.
  apply NoDup_Permutation.
  - apply NoDup_app. split; [apply (grouped_wf claim_pairs)|]. split.
    + intros k Hk (p & -> & [Hn _]%list_elem_of_filter)%list_elem_of_fmap. by apply Hn.
    + eapply sublist_NoDup; [exact Hents|]. apply fmap_sublist, sublist_filter.
  - exact Hents.
  - intros k. rewrite elem_of_app. split.
    + intros [Hk|(p & -> & [_ Hp]%list_elem_of_filter)%list_elem_of_fmap]; [by apply claimed_known|by apply list_elem_of_fmap_2].
    + intros Hk. destruct (decide (k ∈ dict_keys (claims entities mappings nodes))) as [|Hn]; [by left|]. right.
      apply list_elem_of_fmap in Hk as (p & -> & Hp). apply list_elem_of_fmap_2, list_elem_of_filter. by split.
Qed.

(** Where a match comes from. *)
Lemma match_forms m : m ∈ matches_of entities mappings nodes →
  (∃ k cs, (k, cs) ∈ grouped claim_pairs ∧ m ∈ settle (k, cs)) ∨
  (∃ b u, (b, u) ∈ omap silent nodes ∧ m = near_match by_id free (b, u)) ∨
  (∃ k, k ∈ dict_keys free ∧ m = free_match by_id free unmatched k).
Proof.
  unfold matches_of. fold free by_id unmatched. rewrite elem_of_sort_by, !elem_of_app. intros [Hm|[Hm|Hm]].
  - left. apply list_elem_of_bind in Hm as ([k cs] & Hm & Hk). rewrite elem_of_sort_by in Hk. by exists k, cs.
  - right. left. apply list_elem_of_fmap in Hm as ([b u] & -> & Hu). unfold unmatched in Hu.
    rewrite elem_of_sort_by, unmatched_is in Hu. by exists b, u.
  - right. right. apply list_elem_of_fmap in Hm as (k & -> & Hk). rewrite elem_of_sort_by in Hk. by exists k.
Qed.

Lemma settled_in k cs m : (k, cs) ∈ grouped claim_pairs → m ∈ settle (k, cs) → m ∈ matches_of entities mappings nodes.
Proof.
  intros Hk Hm. unfold matches_of. rewrite elem_of_sort_by, !elem_of_app. left. apply list_elem_of_bind.
  exists (k, cs). split; [done|]. by rewrite elem_of_sort_by.
Qed.

(** A node that alone claims a key. *)
Definition sole_claimant (n : Node) (k : string) : Prop :=
  n ∈ nodes ∧ claims_key n k ∧ ∀ n', n' ∈ nodes → claims_key n' k → n' = n.

Lemma settle_pair k cs m b k' :
  m ∈ settle (k, cs) → nm_baseline_id m = Some b → nm_discovered_key m = Some k' →
  k' = k ∧ ∃ method, cs = [(b, method)] ∧ m = node_match (Some b) (Some k) method [] None.
Proof using.
  unfold settle. cbn [fst snd].
  assert (∀ ids reason l, m ∈ ((λ b, node_match (Some b) None AMBIGUOUS [k] reason) <$> ids) ++ [node_match None (Some k) AMBIGUOUS l reason] →
            nm_baseline_id m = Some b → nm_discovered_key m = Some k' → False) as Hno.
  { intros ids reason l. rewrite elem_of_app, list_elem_of_fmap, list_elem_of_singleton. intros [(c & -> & _)| ->]; done. }
  destruct cs as [|[c method] [|q r]].
  - intros Hm Hb Hk. destruct (Hno _ _ _ Hm Hb Hk).
  - intros ->%list_elem_of_singleton [= ->] [= ->]. split; [done|]. by exists method.
  - intros Hm Hb Hk. destruct (Hno _ _ _ Hm Hb Hk).
Qed.

Lemma only_elem {A} (l : list A) a : NoDup l → a ∈ l → (∀ x, x ∈ l → x = a) → l = [a].
Proof using.
  intros Hnd Ha Hall. destruct l as [|x l]; [by apply elem_of_nil in Ha|]. pose proof (Hall x (list_elem_of_here _ _)) as ->.
  destruct l as [|y l]; [done|]. exfalso. apply NoDup_cons in Hnd as [Hn _]. apply Hn.
  rewrite <- (Hall y) by (right; left). left.
Qed.

Lemma claimants_of k b m : (b, m) ∈ (filter (λ p, p.1 = k) claim_pairs).*2 ↔
  ∃ n, n ∈ nodes ∧ n_id n = b ∧ claim entities mappings n = inl (k, m).
Proof using.
  rewrite list_elem_of_fmap, <- claim_pairs_elem. split.
  - intros ([k' [b' m']] & [= -> ->] & [<- Hp]%list_elem_of_filter). done.
  - intros Hp. exists (k, (b, m)). split; [done|]. by apply list_elem_of_filter.
Qed.

Lemma claimants_distinct k : NoDup (filter (λ p, p.1 = k) claim_pairs).*2.*1.
Proof using Hids.
  eapply sublist_NoDup; [|do 2 apply fmap_sublist; apply sublist_filter].
  pose proof Hids as H. rewrite claimed_or_silent in H. by apply NoDup_app in H as [? _].
Qed.

Lemma sole_claimant_is n k method :
  n ∈ nodes → claim entities mappings n = inl (k, method) →
  (∀ n', n' ∈ nodes → claims_key n' k → n' = n) ↔ (k, [(n_id n, method)]) ∈ grouped claim_pairs.
Proof using Hids.
  intros Hn Hc. assert ((n_id n, method) ∈ (filter (λ p, p.1 = k) claim_pairs).*2) as Hin by (apply claimants_of; by exists n).
  rewrite grouped_elem. split.
  - intros Hall. split; [done|]. symmetry. apply only_elem; [eapply NoDup_fmap_1, claimants_distinct|done|].
    intros [b m] (n' & Hn' & <- & Hc')%claimants_of. assert (n' = n) as -> by (apply Hall; [done|by exists m]). congruence.
  - intros [_ Heq] n' Hn' [m' Hc']. assert ((n_id n', m') ∈ (filter (λ p, p.1 = k) claim_pairs).*2) as H' by (apply claimants_of; by exists n').
    rewrite <- Heq in H'. apply list_elem_of_singleton in H'. injection H' as Hid _. by eapply (NoDup_key_inj n_id).
Qed.

Lemma matched_sole b k :
  (∃ m, m ∈ matches_of entities mappings nodes ∧ nm_baseline_id m = Some b ∧ nm_discovered_key m = Some k) ↔
  ∃ n, n_id n = b ∧ sole_claimant n k.
Proof using Hids.
  split.
  - intros (m & Hm & Hb & Hk). apply match_forms in Hm as [(k' & cs & Hg & Hs)|[(b' & u & Hu & ->)|(k' & _ & ->)]].
    + destruct (settle_pair _ _ _ _ _ Hs Hb Hk) as (<- & method & -> & _).
      pose proof Hg as [_ Heq]%grouped_elem. assert ((b, method) ∈ (filter (λ p, p.1 = k) claim_pairs).*2) as Hin
        by (rewrite <- Heq; left). apply claimants_of in Hin as (n & Hn & <- & Hc). exists n. split; [done|].
      split; [done|]. split; [by exists method|]. by eapply sole_claimant_is.
    + apply silent_elem in Hu as (n & reason & _ & _ & _ & ->). unfold near_match in Hk.
      destruct (nearby _ _ _); [done|]. by destruct (some _).
    + unfold free_match in Hb. by destruct (candidates_of _ _ _ _).
  - intros (n & <- & Hn & [method Hc] & Hall). exists (node_match (Some (n_id n)) (Some k) method [] None).
    split; [|done]. eapply settled_in; [by eapply sole_claimant_is|]. left.
Qed.

(** The matched matches are the ones with both sides. *)
Lemma node_matched_both m : m ∈ matches_of entities mappings nodes →
  node_matched m = true ↔ is_Some (nm_baseline_id m) ∧ is_Some (nm_discovered_key m).
Proof using Hids.
  intros [(k & cs & Hg & Hs)|[(b & u & Hu & ->)|(k & _ & ->)]]%match_forms.
  - apply grouped_elem in Hg as [Hne Hcs]. unfold settle in Hs. cbn [fst snd] in Hs.
    assert (∀ ids reason l, m ∈ ((λ b, node_match (Some b) None AMBIGUOUS [k] reason) <$> ids) ++ [node_match None (Some k) AMBIGUOUS l reason] →
              node_matched m = true ↔ is_Some (nm_baseline_id m) ∧ is_Some (nm_discovered_key m)) as Hno.
    { intros ids reason l. rewrite elem_of_app, list_elem_of_fmap, list_elem_of_singleton.
      intros [(c & -> & _)| ->]; cbn; (split; [done|]); intros [Hx Hy]; cbn in Hx, Hy; by apply is_Some_None in Hx || apply is_Some_None in Hy. }
    destruct cs as [|[c method] [|q r]]; [done| |by eapply Hno].
    apply list_elem_of_singleton in Hs as ->. cbn. split; [by split; eexists|intros _].
    assert ((c, method) ∈ (filter (λ p, p.1 = k) claim_pairs).*2) as Hin by (rewrite <- Hcs; left).
    apply claimants_of in Hin as (n & _ & _ & Hc). by eapply claim_method.
  - apply silent_elem in Hu as (n & reason & _ & _ & _ & ->). unfold near_match.
    destruct (nearby _ _ _); [|destruct (some _)]; cbn; (split; [done|]); intros [_ Hy]; by apply is_Some_None in Hy.
  - unfold free_match. destruct (candidates_of _ _ _ _); cbn; (split; [done|]); intros [Hx _]; by apply is_Some_None in Hx.
Qed.
End nodes.

(** * The nodes and entities of a comparison *)
Lemma index_by_wf {A K} `{EqDecision K} (key : A → K) l : dict_wf (index_by key l).
Proof. apply dict_of_wf. Qed.

Lemma compared_distinct ir excluded : NoDup (n_id <$> ir_nodes ir) → NoDup (n_id <$> compared_nodes ir excluded).
Proof. intros H. eapply sublist_NoDup; [exact H|]. apply fmap_sublist, sublist_filter. Qed.

(** A node no match names, and that is not ambiguous: it claims nothing, and nothing free stands near it. *)
Lemma unmatched_silent entities mappings nodes m b :
  NoDup (n_id <$> nodes) → m ∈ matches_of entities mappings nodes → nm_baseline_id m = Some b →
  node_matched m = false → nm_method m ≠ AMBIGUOUS →
  let free := filter (λ p, p.1 ∉ dict_keys (claims entities mappings nodes)) entities in
  ∃ n reason, n ∈ nodes ∧ n_id n = b ∧ claim entities mappings n = inr reason ∧
    m = node_match (Some b) None UNMATCHED [] reason ∧ (reason = None → nearby (index_by n_id nodes) free b = []).
Proof.
  intros Hids Hm Hb Hnm Hna free. assert (¬ (is_Some (nm_baseline_id m) ∧ is_Some (nm_discovered_key m))) as Hno.
  { rewrite <- (node_matched_both entities mappings nodes Hids m Hm). by rewrite Hnm. }
  apply match_forms in Hm as [(k & cs & _ & Hs)|[(b' & u & Hu & ->)|(k & _ & ->)]]; [| | |exact Hids].
  - exfalso. unfold settle in Hs. cbn [fst snd] in Hs.
    assert (∀ ids reason l, m ∉ ((λ b, node_match (Some b) None AMBIGUOUS [k] reason) <$> ids) ++ [node_match None (Some k) AMBIGUOUS l reason]) as Hamb.
    { intros ids reason l. rewrite elem_of_app, list_elem_of_fmap, list_elem_of_singleton. intros [(c & -> & _)| ->]; by apply Hna. }
    destruct cs as [|[c method] [|q r]]; [by apply Hamb in Hs| |by apply Hamb in Hs].
    apply list_elem_of_singleton in Hs as ->. apply Hno. by split; eexists.
  - apply silent_elem in Hu as (n & reason & Hn & <- & Hc & ->). unfold near_match in *. cbn [fst snd] in *.
    exists n, reason. fold free in Hb, Hnm, Hna |- *. destruct (nearby (index_by n_id nodes) free (n_id n)) as [|k ks] eqn:E.
    + injection Hb as <-. by split_and!.
    + destruct reason as [reason|]; cbn [some nm_reason node_match] in *; [|by destruct Hna].
      injection Hb as <-. by split_and!.
  - unfold free_match in Hb. by destruct (candidates_of _ _ _ _).
Qed.

(** * Properties *)

(** C12: the matching places every node compared and every component compared in exactly one match, whatever
    the run and the confirmed mappings; the matches it calls matched are the ones with both sides, and a node
    is matched with an entity exactly when it claims its key (by having it as its id, or else by a confirmed
    mapping to it) and no other node does: two claimants are left to a person. *)
Theorem nodes_matched ir r mappings excluded :
  NoDup (n_id <$> ir_nodes ir) →
  let nodes := compared_nodes ir excluded in
  let entities := compared_entities r excluded in
  let ms := match_nodes ir r mappings excluded in
  omap nm_baseline_id ms ≡ₚ n_id <$> nodes ∧
  omap nm_discovered_key ms ≡ₚ dict_keys entities ∧
  (∀ m, m ∈ ms → node_matched m = true ↔ is_Some (nm_baseline_id m) ∧ is_Some (nm_discovered_key m)) ∧
  (∀ b k, (∃ m, m ∈ ms ∧ nm_baseline_id m = Some b ∧ nm_discovered_key m = Some k) ↔
     ∃ n, n_id n = b ∧ sole_claimant entities mappings nodes n k).
Proof.
  intros Hids nodes entities ms. pose proof (compared_distinct ir excluded Hids) as Hn.
  split; [by apply matches_baselines|]. split; [apply matches_discovered; [apply index_by_wf|done]|].
  split; [by apply node_matched_both|]. intros b k. by apply matched_sole.
Qed.

(** * A concrete case: a node kept, one renamed and confirmed, one gone, one new *)
Definition at_place (artifact : string) (document : Z) : SourceLocation :=
  {| lo_artifact := artifact; lo_document := Some document; lo_pointer := None; lo_line := None |}.
Definition no_mapping : ComponentMapping := {|
  cm_status := UNMAPPED; cm_rule := "discovery-catalog@1"; cm_component_id := None; cm_candidates := [];
  cm_reason := Some "no component" |}.
Definition workload (k : string) (document replicas : Z) : CandidateEntity := {|
  ce_key := k; ce_name := k; ce_source_type := FROM_KUBERNETES; ce_resource_type := "Deployment";
  ce_location := at_place "shop.yaml" document; ce_mapping := no_mapping; ce_kind := Some SERVICE;
  ce_role := ROLE_COMPONENT; ce_kind_rule := Some "kubernetes-kinds@1"; ce_namespace := None;
  ce_technology := None; ce_technology_version := None;
  ce_configuration := [{| pm_source_property := "spec.replicas"; pm_property := "replicas"; pm_rule := "r@1";
    pm_verification := V_OBSERVED; pm_finding_id := "dsf_1"; pm_value := JInt replicas; pm_valid := true;
    pm_problem := None; pm_source_value := JInt replicas; pm_transformation := None |}];
  ce_finding_ids := ["dsf_1"] |}.

Definition discovered_node (id : string) (document : Z) (parent : option string) : Node := {|
  n_id := id; n_kind := SERVICE; n_name := id; n_description := None; n_technology := None; n_component := None;
  n_parent_id := parent;
  n_configuration := {| Configuration.values := [("replicas", JInt 2)]; unknown := []; extra := [] |};
  n_requirement_refs := []; n_lifecycle := None; n_metadata := [];
  n_provenance := Some {| source := KUBERNETES; reference := Some (location_reference (at_place "shop.yaml" document));
    confidence := JNull; verified := false; inferred := false; actor := Some "discovery:kubernetes"; recorded_at := None |};
  n_field_provenance := [] |}.

Definition shop_before : list Node :=
  [discovered_node "api" 0 None; discovered_node "orders" 1 None; discovered_node "worker" 2 None].
Definition shop_ir (nodes : list Node) : ArchitectureIR := {|
  ir_name := "shop"; ir_description := None; ir_nodes := nodes; ir_connections := []; ir_assumptions := [];
  ir_decisions := []; ir_requirement_refs := []; ir_metadata := []; ir_provenance := None; ir_schema_version := 1 |}.
Definition shop_run : DiscoveryResult := {|
  ds_artifacts := [{| sa_path := "shop.yaml"; sa_content_hash := ""; sa_size_bytes := 1; sa_status := ARTIFACT_PARSED;
    sa_source_type := Some FROM_KUBERNETES; sa_format_version := None; sa_documents := 4; sa_extractor := None |}];
  ds_findings := []; ds_entities := [workload "api" 0 3; workload "orders-v2" 5 2; workload "cache" 6 1];
  ds_relationships := []; ds_diagnostics := []; ds_proposed := None; ds_validation := []; ds_elements := [];
  ds_extractors := []; ds_version := 1 |}.
Definition shop_mappings : dict string string := [("orders", "orders-v2")].

Example shop_matches : (λ m, (nm_baseline_id m, nm_discovered_key m, nm_method m)) <$> match_nodes (shop_ir shop_before) shop_run shop_mappings [] =
  [(None, Some "cache", UNMATCHED); (Some "api", Some "api", SAME_ID);
   (Some "orders", Some "orders-v2", CONFIRMED_MAPPING); (Some "worker", None, UNMATCHED)].
Proof. vm_compute. reflexivity. Qed.

Lemma shop_distinct : NoDup (n_id <$> ir_nodes (shop_ir shop_before)).
Proof. repeat constructor; set_solver. Qed.

Lemma nodes_matched_witness :
  omap nm_baseline_id (match_nodes (shop_ir shop_before) shop_run shop_mappings []) ≡ₚ ["api"; "orders"; "worker"].
Proof. exact (proj1 (nodes_matched (shop_ir shop_before) shop_run shop_mappings [] shop_distinct)). Defined.

(** * From a finding back to its difference *)
Lemma py_map_from {A B} (f : A → py B) l l' y : py_map f l = Ok l' → y ∈ l' → ∃ x, x ∈ l ∧ f x = Ok y.
Proof.
  rewrite py_map_ok. induction 1 as [|x z l l' Hx _ IH]; [by intros ?%elem_of_nil|].
  intros [->|Hy]%elem_of_cons; [exists x; by split; [left|]|]. destruct (IH Hy) as (w & ? & ?). exists w. split; [by right|done].
Qed.

Lemma DriftFinding_new_ok f f' : DriftFinding_new f = Ok f' → f' = DriftFinding_normalize f.
Proof. by intros ([] & _ & [= <-])%py_bind_ok. Qed.

Lemma finding_of_ok d c l f : finding_of d c l = Ok f →
  df_type f = dn_type d ∧ df_classification f = c ∧ df_baseline_id f = dn_baseline_id d.
Proof. unfold finding_of. by intros ->%DriftFinding_new_ok. Qed.

Lemma scope_finding_ok subject message type c f : scope_finding subject message type c = Ok f → df_type f = type.
Proof. unfold scope_finding. by intros ->%DriftFinding_new_ok. Qed.

(** A removal is confirmed when the artifact the element comes from was read completely, and nothing limits it. *)
Lemma removal_confirmed d a : (removal d a).1 = CONFIRMED →
  ∃ artifact, dn_baseline_artifact d = Some artifact ∧ artifact ∈ cv_inspected (as_coverage a) ∧
    artifact ∉ cv_partial (as_coverage a) ∧ dn_notes d = [].
Proof.
  unfold removal. destruct (dn_baseline_artifact d) as [artifact|]; [|done].
  destruct (bool_decide (artifact ∈ cv_partial _)) eqn:Ep; [done|]. destruct (bool_decide (artifact ∈ cv_inspected _)) eqn:Ei; [|done].
  cbn [negb]. destruct (bool_decide (dn_notes d = [])) eqn:En; [|done]. intros _. exists artifact.
  apply bool_decide_eq_false_1 in Ep. apply bool_decide_eq_true_1 in Ei, En. done.
Qed.

Lemma classify_difference_type d a f : classify_difference d a = Ok f → df_type f = dn_type d ∧ df_baseline_id f = dn_baseline_id d.
Proof.
  assert (∀ f, classify_comparable d a = Ok f → df_type f = dn_type d ∧ df_baseline_id f = dn_baseline_id d) as Hc.
  { clear f. intros f. unfold classify_comparable. destruct (bool_decide (dn_type d = _)); [by intros (? & _ & ?)%finding_of_ok|].
    destruct (bool_decide (dn_type d ∈ REMOVED)).
    - destruct (removal d a) as [c l]. by intros (? & _ & ?)%finding_of_ok.
    - intros (identity & _ & (? & _ & ?)%finding_of_ok)%py_bind_ok. done. }
  unfold classify_difference. destruct (dn_source_type d) as [s|]; [|apply Hc].
  destruct (decide _); [by intros (? & _ & ?)%finding_of_ok|apply Hc].
Qed.

Lemma confirmed_removal d a f :
  classify_difference d a = Ok f → dn_type d ∈ REMOVED → df_classification f = CONFIRMED → (removal d a).1 = CONFIRMED.
Proof.
  intros Hf Ht Hc. assert (classify_comparable d a = Ok f → (removal d a).1 = CONFIRMED) as H.
  { unfold classify_comparable. rewrite bool_decide_eq_false_2 by (intros Hx; rewrite Hx in Ht; set_solver).
    rewrite bool_decide_eq_true_2 by done. destruct (removal d a) as [c l]. intros (_ & Hc' & _)%finding_of_ok. by rewrite <- Hc, Hc'. }
  unfold classify_difference in Hf. destruct (dn_source_type d) as [s|]; [|by apply H].
  destruct (decide _); [|by apply H]. apply finding_of_ok in Hf as (_ & Hx & _). congruence.
Qed.

Lemma DriftResult_new_findings r r' f : DriftResult_new r = Ok r' → f ∈ dr_findings r' → f ∈ dr_findings r.
Proof. intros ([] & _ & [= <-])%py_bind_ok. cbn [dr_findings]. by rewrite elem_of_sort_by. Qed.

Lemma coverage_finding_type a artifact f : coverage_finding a artifact = Ok f → df_type f = COVERAGE_CHANGED.
Proof. unfold coverage_finding. cbv zeta. apply scope_finding_ok. Qed.

Lemma no_removed_incompatibility a fs f : incompatibility a = Ok fs → f ∈ fs → df_type f ∉ REMOVED.
Proof.
  unfold incompatibility. intros Hfs Hf. eapply py_map_from in Hfs as (c & _ & Hc); [|exact Hf].
  apply scope_finding_ok in Hc. rewrite Hc. set_solver.
Qed.

Lemma no_removed_coverage a l fs f : py_map (coverage_finding a) l = Ok fs → f ∈ fs → df_type f ∉ REMOVED.
Proof.
  intros Hfs Hf. eapply py_map_from in Hfs as (c & _ & Hc); [|exact Hf]. apply coverage_finding_type in Hc. rewrite Hc. set_solver.
Qed.

Lemma classify_removed ds a fs f :
  classify ds a = Ok fs → f ∈ fs → df_type f ∈ REMOVED → ∃ d, d ∈ ds ∧ classify_difference d a = Ok f.
Proof.
  unfold classify. destruct (decide _) as [|Hs].
  - intros Hfs Hf Ht. exfalso. exact (no_removed_incompatibility a fs f Hfs Hf Ht).
  - intros (found & Hfound & (cover & Hcover & [= <-])%py_bind_ok)%py_bind_ok. rewrite elem_of_sort_by.
    intros [Hin|Hin]%elem_of_app Ht.
    + eapply py_map_from in Hfound as (d & Hd & Hc); [|exact Hin]. exists d. exact (conj Hd Hc).
    + exfalso. exact (no_removed_coverage a _ cover f Hcover Hin Ht).
Qed.

(** A reported removal is a difference of the two sides. *)
Lemma reported_removal q b o mappings r f :
  drift_analyze q b o mappings = Ok r → f ∈ dr_findings r → df_type f ∈ REMOVED →
  ∃ a m ds d, assess b o mappings = Ok a ∧ assessment_status a ≠ INCOMPATIBLE ∧
    match_ (bi_ir b) (oi_result o) mappings (dq_exclude q) = Ok m ∧
    differences (bi_ir b) (oi_result o) m = Ok ds ∧ d ∈ ds ∧ classify_difference d a = Ok f.
Proof.
  unfold drift_analyze. intros (a & Ha & (fs & Hfs & Hr)%py_bind_ok)%py_bind_ok Hf Ht.
  eapply DriftResult_new_findings in Hf; [|exact Hr]. cbn [dr_findings] in Hf. clear Hr. exists a.
  destruct (decide (assessment_status a = INCOMPATIBLE)) as [|Hs].
  - exfalso. exact (no_removed_incompatibility a fs f Hfs Hf Ht).
  - apply py_bind_ok in Hfs as (m & Hm & (ds & Hds & Hcl)%py_bind_ok).
    destruct (classify_removed ds a fs f Hcl Hf Ht) as (d & Hd & Hc). exists m, ds, d. exact (conj Ha (conj Hs (conj Hm (conj Hds (conj Hd Hc))))).
Qed.

(** * Where removals come from *)
Definition unresolved (ds : list Difference) : Prop := Forall (λ d, dn_type d = UNRESOLVED_DIFFERENCE) ds.

Lemma declare_unresolved n e stated d name d' :
  declare n e stated d name = Ok d' → unresolved (dc_unresolved d) → unresolved (dc_unresolved d').
Proof.
  unfold declare. destruct (match DECLARABLE _ with Some _ => _ | None => _ end); [by intros [= <-]|]. cbv zeta.
  destruct (dict_get name stated) as [m|]; [|by intros [= <-]]. destruct (_ || _).
  - intros [= <-] H. apply Forall_app. split; [done|]. by constructor.
  - by intros (v & _ & [= <-])%py_bind_ok.
Qed.

Lemma declare_all_unresolved n e stated names : ∀ d d',
  declare_all n e stated d names = Ok d' → unresolved (dc_unresolved d) → unresolved (dc_unresolved d').
Proof.
  induction names as [|name names IH]; intros d d'; cbn [declare_all]; [by intros [= <-]|].
  intros (d1 & H1 & H2)%py_bind_ok Hd. eapply IH; [exact H2|]. by eapply declare_unresolved.
Qed.

Lemma declared_unresolved n e node evidence found : declared n e = Ok (node, evidence, found) → unresolved found.
Proof.
  unfold declared. cbv zeta. intros (d & Hd & H)%py_bind_ok. apply declare_all_unresolved in Hd; [|constructor].
  apply py_bind_ok in H as (t & _ & (c & _ & (n' & _ & [= _ _ <-])%py_bind_ok)%py_bind_ok). exact Hd.
Qed.

Lemma type_of_path_kept path : type_of_path path ∉ REMOVED.
Proof.
  unfold type_of_path. destruct (partition_dot path) as [h t]. destruct (String.eqb h "configuration"); [destruct (bool_decide _)|destruct (String.eqb h "component")]; set_solver.
Qed.

Lemma field_difference_type n e method evidence f : dn_type (field_difference n e method evidence f) = type_of_path (fc_field f).
Proof. unfold field_difference. cbv zeta. by destruct (shown_values _ _ _) as [[? ?] ?]. Qed.

Lemma node_differences_kept n e method ds d : node_differences n e method = Ok ds → d ∈ ds → dn_type d ∉ REMOVED.
Proof.
  unfold node_differences. destruct (stripped n ≫= _) as [[[after evidence] found]|x] eqn:E.
  - apply py_bind_ok in E as (n1 & _ & Hd%declared_unresolved).
    intros (n2 & _ & (before & _ & (aft & _ & [= <-])%py_bind_ok)%py_bind_ok)%py_bind_ok.
    intros [Hin|(f & -> & _)%list_elem_of_fmap]%elem_of_app.
    + eapply Forall_forall in Hd; [|exact Hin]. rewrite Hd. set_solver.
    + rewrite field_difference_type. apply type_of_path_kept.
  - destruct x; try done. intros [= <-] ->%list_elem_of_singleton. cbn [unfitting dn_type]. set_solver.
Qed.

Lemma node_removal by_id entities m ds d :
  node_match_differences by_id entities m = Ok ds → d ∈ ds → dn_type d ∈ REMOVED →
  (node_matched m = true → is_Some (looked_up entities (nm_discovered_key m))) →
  ∃ n, looked_up by_id (nm_baseline_id m) = Some n ∧ node_matched m = false ∧ nm_method m ≠ AMBIGUOUS ∧ d = missing_node n m.
Proof.
  intros Hds Hd Ht Hm.
  assert ((if bool_decide (nm_method m = AMBIGUOUS) then
             if negb (some (nm_baseline_id m)) && match nm_discovered_key m with Some k => some (dict_get k by_id) | None => false end
             then Ok [] else Ok [ambiguous_node m (looked_up entities (nm_discovered_key m))]
           else match looked_up by_id (nm_baseline_id m), looked_up entities (nm_discovered_key m) with
                | Some n, _ => Ok [missing_node n m]
                | None, Some e => Ok [added_node e]
                | None, None => Ok []
                end) = Ok ds →
          (∃ n, looked_up by_id (nm_baseline_id m) = Some n ∧ nm_method m ≠ AMBIGUOUS ∧ d = missing_node n m)) as Hrest.
  { clear Hds Hm. destruct (bool_decide (nm_method m = AMBIGUOUS)) eqn:Ea.
    - destruct (_ && _); intros [= <-]; [by apply elem_of_nil in Hd|]. apply list_elem_of_singleton in Hd as ->.
      exfalso. clear -Ht. cbn [ambiguous_node dn_type] in Ht. set_solver.
    - apply bool_decide_eq_false_1 in Ea. destruct (looked_up by_id _) as [n|].
      + intros [= <-]. apply list_elem_of_singleton in Hd as ->. by exists n.
      + destruct (looked_up entities _) as [e|]; intros [= <-]; [|by apply elem_of_nil in Hd].
        apply list_elem_of_singleton in Hd as ->. exfalso. clear -Ht. cbn [added_node dn_type] in Ht. set_solver. }
  unfold node_match_differences in Hds. cbv zeta in Hds. destruct (node_matched m) eqn:Em.
  - destruct (Hm eq_refl) as [e He]. rewrite He in Hds. destruct (looked_up by_id _) as [n|] eqn:En.
    + by destruct (node_differences_kept _ _ _ _ _ Hds Hd).
    + rewrite He in Hrest. destruct (Hrest Hds) as (n & ? & _). done.
  - destruct (Hrest Hds) as (n & ? & ? & ?). by exists n.
Qed.

Lemma connection_removal m c group entities matched d :
  connection_difference m c group entities matched = Ok (Some d) → dn_type d ∈ REMOVED →
  ∃ c', c = Some c' ∧ dn_type d = CONNECTION_REMOVED ∧ dn_baseline_id d = Some (c_id c') ∧
    dn_baseline_artifact d = dv_artifact <$> discovered_from (c_provenance c') ∧
    (dn_notes d = [] → c_source_id c' ∈ matched ∧ c_target_id c' ∈ matched).
Proof.
  unfold connection_difference. cbv zeta. intros (source & _ & H)%py_bind_ok Ht.
  assert (∀ t, dn_type d = t → t ∉ REMOVED → False) as Hno by (intros t <- Hn; by apply Hn).
  assert (CONNECTION_MODIFIED ∉ REMOVED ∧ UNRESOLVED_DIFFERENCE ∉ REMOVED ∧ CONNECTION_ADDED ∉ REMOVED) as (N1 & N2 & N3) by set_solver.
  destruct c as [c|].
  - destruct (connection_matched m).
    + destruct (_ || _); [done|]. destruct (kn_relationships m); [done|]. injection H as <-. by destruct (Hno CONNECTION_MODIFIED).
    + destruct (bool_decide (kn_method m = AMBIGUOUS)); [injection H as <-; by destruct (Hno UNRESOLVED_DIFFERENCE)|].
      injection H as <-. exists c. cbn [dn_type dn_baseline_id dn_baseline_artifact dn_notes]. split_and!; try done.
      intros Hn. apply fmap_nil_inv in Hn.
      assert (∀ i, i ∈ [c_source_id c; c_target_id c] → i ∈ matched) as Hall.
      { intros i Hi. destruct (decide (i ∈ matched)) as [|Hni]; [done|]. exfalso.
        assert (i ∈ filter (λ i, i ∉ matched) [c_source_id c; c_target_id c]) as Hf by by apply list_elem_of_filter.
        rewrite Hn in Hf. by apply elem_of_nil in Hf. }
      split; apply Hall; [left|right; left].
  - destruct (bool_decide (kn_method m = AMBIGUOUS)); [injection H as <-; by destruct (Hno UNRESOLVED_DIFFERENCE)|].
    destruct group; [done|]. destruct (kn_relationships m); [done|]. injection H as <-. by destruct (Hno CONNECTION_ADDED).
Qed.

(** * The run's coverage *)
Lemma coverage_of_ok r c : coverage_of r = Ok c →
  (∀ p, p ∈ cv_inspected c ↔ ∃ a, a ∈ ds_artifacts r ∧ sa_path a = p ∧ sa_status a = ARTIFACT_PARSED) ∧
  (∀ p, p ∈ cv_partial c ↔ ∃ a, a ∈ ds_artifacts r ∧ sa_path a = p ∧ sa_status a = ARTIFACT_PARTIAL).
Proof.
  unfold coverage_of. cbv zeta. unfold Coverage_new. intros ([] & _ & [= <-])%py_bind_ok. cbn [cv_inspected cv_partial].
  split; intros p; rewrite elem_of_sorted_set, list_elem_of_fmap; setoid_rewrite list_elem_of_filter; naive_solver.
Qed.

Lemma assess_coverage b o mappings a : assess b o mappings = Ok a → coverage_of (oi_result o) = Ok (as_coverage a).
Proof.
  unfold assess. intros (c & Hc & H)%py_bind_ok. rewrite Hc. f_equal. cbv zeta in H.
  do 8 (apply py_bind_ok in H as (? & _ & H)). by injection H as <-.
Qed.

(** What absence needs: an artifact the run parsed, and nowhere only partly. *)
Definition read_completely (r : DiscoveryResult) (artifact : string) : Prop :=
  (∃ a, a ∈ ds_artifacts r ∧ sa_path a = artifact ∧ sa_status a = ARTIFACT_PARSED) ∧
  (∀ a, a ∈ ds_artifacts r → sa_path a = artifact → sa_status a ≠ ARTIFACT_PARTIAL).

Lemma removal_read b o mappings a d :
  assess b o mappings = Ok a → (removal d a).1 = CONFIRMED →
  ∃ artifact, dn_baseline_artifact d = Some artifact ∧ read_completely (oi_result o) artifact ∧ dn_notes d = [].
Proof.
  intros [Hi Hp]%assess_coverage%coverage_of_ok (artifact & Ha & Hin & Hpart & Hn)%removal_confirmed. exists artifact.
  split; [done|]. split; [|done]. split; [by apply Hi|]. intros x Hx Hpath Hs. apply Hpart, Hp. by exists x.
Qed.

(** * The two kinds of removals *)

Lemma looked_up_index {A} (id : A → string) l k x : NoDup (id <$> l) →
  looked_up (index_by id l) k = Some x → x ∈ l ∧ k = Some (id x).
Proof.
  intros Hnd. unfold looked_up. destruct (no_text k); [done|]. destruct k as [k|]; [|done]. cbn.
  intros [Hx Hk]%index_by_get; [|done]. by rewrite Hk.
Qed.

(** A matched match has its entity. *)
Lemma matched_entity ir r mappings excluded m :
  NoDup (n_id <$> ir_nodes ir) → "" ∉ ce_key <$> ds_entities r → m ∈ match_nodes ir r mappings excluded → node_matched m = true →
  is_Some (looked_up (index_by ce_key (ds_entities r)) (nm_discovered_key m)).
Proof.
  intros Hids Hne Hm Hmt. pose proof (compared_distinct ir excluded Hids) as Hnd.
  apply (node_matched_both _ _ _ Hnd m Hm) in Hmt as [_ [k Hk]].
  assert (k ∈ omap nm_discovered_key (match_nodes ir r mappings excluded)) as Hin by (apply list_elem_of_omap; by exists m).
  unfold match_nodes in Hin. rewrite matches_discovered in Hin; [|apply index_by_wf|exact Hnd].
  apply list_elem_of_fmap in Hin as ([k' e] & -> & He). cbn [fst] in *. unfold compared_entities, index_by in He.
  apply dict_of_sub, list_elem_of_fmap in He as (e' & [= -> <-] & [_ He]%list_elem_of_filter).
  assert (ce_key e ∈ ce_key <$> ds_entities r) as Hke by by apply list_elem_of_fmap_2.
  rewrite Hk. unfold looked_up. assert (no_text (Some (ce_key e)) = false) as ->.
  { unfold no_text. apply String.eqb_neq. intros Hx. by rewrite Hx in Hke. }
  change (is_Some (dict_get (ce_key e) (index_by ce_key (ds_entities r)))). apply dict_get_is_Some. unfold index_by.
  apply dict_keys_of. by rewrite <- list_fmap_compose.
Qed.

Section removal.
Context (ir : ArchitectureIR) (r : DiscoveryResult) (mappings : dict string string) (excluded : list string).
Context (Hids : NoDup (n_id <$> ir_nodes ir)) (Hcs : NoDup (c_id <$> ir_connections ir)) (Hne : "" ∉ ce_key <$> ds_entities r).

(** A removed node: nothing of the run is it, and nothing stands where it was. *)
Definition absent_node (n : Node) : Prop :=
  n ∈ compared_nodes ir excluded ∧
  (∀ e, e ∈ ds_entities r → is_component e = true → ce_key e ∉ excluded → ce_key e ≠ n_id n) ∧
  dict_get (n_id n) mappings = None ∧
  (∀ k e origin, (k, e) ∈ compared_entities r excluded → discovered_from (n_provenance n) = Some origin →
     location_reference (ce_location e) = dv_reference origin →
     ∃ n', n' ∈ compared_nodes ir excluded ∧ claims_key (compared_entities r excluded) mappings n' k).

(** A node the matching matched. *)
Definition matched_node (b : string) : Prop :=
  ∃ m, m ∈ match_nodes ir r mappings excluded ∧ node_matched m = true ∧ nm_baseline_id m = Some b.

Lemma known_compared k : known (compared_entities r excluded) k = false →
  ∀ e, e ∈ ds_entities r → is_component e = true → ce_key e ∉ excluded → ce_key e ≠ k.
Proof using.
  unfold known. destruct (dict_get k _) eqn:E; [done|]. intros _ e He Hc Hx <-. apply dict_get_None in E. apply E.
  unfold compared_entities, index_by. apply dict_keys_of. rewrite <- list_fmap_compose.
  apply (list_elem_of_fmap_2 ce_key), list_elem_of_filter. done.
Qed.

Lemma claim_reason n reason : claim (compared_entities r excluded) mappings n = inr reason → reason ≠ Some "".
Proof using.
  unfold claim. destruct (known _ (n_id n)); [done|]. destruct (dict_get _ mappings) as [k|]; [|by intros [= <-]].
  destruct (known _ k); [done|]. by intros [= <-].
Qed.

Lemma silent_absent n b :
  n ∈ compared_nodes ir excluded → n_id n = b → claim (compared_entities r excluded) mappings n = inr None →
  nearby (index_by n_id (compared_nodes ir excluded))
    (filter (λ p, p.1 ∉ dict_keys (claims (compared_entities r excluded) mappings (compared_nodes ir excluded))) (compared_entities r excluded)) b = [] →
  absent_node n.
Proof using Hids.
  intros Hn <- Hc Hnear. pose proof (compared_distinct ir excluded Hids) as Hnd. unfold claim in Hc.
  destruct (known _ (n_id n)) eqn:Ek; [done|]. destruct (dict_get (n_id n) mappings) as [k|] eqn:Em; [by destruct (known _ k)|].
  split; [done|]. split; [by apply known_compared|]. split; [done|]. intros k e origin He Ho Hl.
  destruct (decide (k ∈ dict_keys (claims (compared_entities r excluded) mappings (compared_nodes ir excluded)))) as [Hk|Hk].
  - rewrite claims_grouped, grouped_keys in Hk. apply list_elem_of_fmap in Hk as ([k' [b m]] & -> & Hp).
    apply claim_pairs_elem in Hp as (n' & Hn' & _ & Hc'). exists n'. split; [done|]. by exists m.
  - exfalso. unfold nearby in Hnear. assert (dict_get (n_id n) (index_by n_id (compared_nodes ir excluded)) = Some n) as Hg
      by by apply index_by_get. rewrite Hg in Hnear. cbn [mbind option_bind] in Hnear. rewrite Ho in Hnear.
    apply sort_by_nil, fmap_nil_inv in Hnear. clear -Hnear He Hk Hl.
    assert (e ∈ filter (λ e, location_reference (ce_location e) = dv_reference origin)
                 (dict_values (filter (λ p, p.1 ∉ dict_keys (claims (compared_entities r excluded) mappings (compared_nodes ir excluded))) (compared_entities r excluded)))) as Hin.
    { apply list_elem_of_filter. split; [done|]. apply (list_elem_of_fmap_2' snd _ (k, e)); [|done]. by apply list_elem_of_filter. }
    rewrite Hnear in Hin. by apply elem_of_nil in Hin.
Qed.

Lemma removed_is m ds d :
  match_ ir r mappings excluded = Ok m → differences ir r m = Ok ds → d ∈ ds → dn_type d ∈ REMOVED → dn_notes d = [] →
  (∃ n, dn_type d = COMPONENT_REMOVED ∧ dn_baseline_id d = Some (n_id n) ∧ absent_node n ∧
     dn_baseline_artifact d = dv_artifact <$> discovered_from (n_provenance n)) ∨
  (∃ c, c ∈ ir_connections ir ∧ dn_type d = CONNECTION_REMOVED ∧ dn_baseline_id d = Some (c_id c) ∧
     dn_baseline_artifact d = dv_artifact <$> discovered_from (c_provenance c) ∧
     matched_node (c_source_id c) ∧ matched_node (c_target_id c)).
Proof using Hids Hcs Hne.
  intros (ks & _ & [= <-])%py_bind_ok Hds Hd Ht Hn. unfold differences in Hds. cbv zeta in Hds. cbn [mt_nodes mt_connections] in Hds.
  apply py_bind_ok in Hds as (nodes & Hnodes & (cs & Hcons & [= <-])%py_bind_ok). rewrite elem_of_sort_by in Hd.
  apply elem_of_app in Hd as [Hd|Hd].
  - left. unfold node_match_all in Hnodes. destruct (py_map _ _) as [found|] eqn:E; [|done]. injection Hnodes as <-.
    apply list_elem_of_join in Hd as (l & Hd & Hl). eapply py_map_from in E as (k & Hk & E); [|exact Hl].
    destruct (node_removal _ _ _ _ _ E Hd Ht) as (n & Hlook & Hnm & Hna & ->); [by eapply matched_entity|].
    apply looked_up_index in Hlook as [Hin Hb]; [|done].
    destruct (unmatched_silent _ _ _ k (n_id n) (compared_distinct ir excluded Hids) Hk Hb Hnm Hna) as (n' & reason & Hn' & Hid & Hc & -> & Hnear).
    assert (n' = n) as ->.
    { eapply (NoDup_key_inj n_id); [exact Hids| |exact Hin|exact Hid]. by apply list_elem_of_filter in Hn' as [_ ?]. }
    assert (reason = None) as ->.
    { apply claim_reason in Hc. cbn [missing_node dn_notes nm_reason node_match] in Hn. destruct reason as [x|]; [|done].
      destruct (String.eqb_spec x "") as [->|]; done. }
    exists n. split; [done|]. split; [done|]. split; [|done]. eapply silent_absent; [done|done|done|by apply Hnear].
  - right. apply list_elem_of_omap in Hd as (o & Ho & Hod). cbn in Hod. subst o. eapply py_map_from in Hcons as (k & _ & E); [|exact Ho].
    destruct (connection_removal _ _ _ _ _ _ E Ht) as (c & Hlook & Hty & Hb & Ha & Hends).
    apply looked_up_index in Hlook as [Hin _]; [|done]. exists c.
    assert (∀ i, i ∈ omap (λ n, if node_matched n && negb (no_text (nm_baseline_id n)) then nm_baseline_id n else None)
                  (match_nodes ir r mappings excluded) → matched_node i) as Hmatched.
    { intros i (m & Hm & Hi)%list_elem_of_omap. destruct (node_matched m) eqn:Em; [|done]. cbn [andb] in Hi.
      destruct (negb _); [|done]. by exists m. }
    destruct (Hends Hn). split_and!; auto.
Qed.
End removal.

(** * Properties *)

(** C4: a removal is reported as confirmed only where absence is evidence. A confirmed removal of a component
    is of a node of the baseline, not excluded, that was discovered from an artifact this run parsed
    completely (and nowhere only partly), whose id no compared component of the run has, that no confirmed
    mapping identifies, and in whose place stands nothing that another node does not account for; one of a
    connection was discovered from such an artifact too, and both its endpoints were matched with the run. *)
Theorem removals_confirmed q b o mappings r f :
  let ir := bi_ir b in
  let run := oi_result o in
  NoDup (n_id <$> ir_nodes ir) → NoDup (c_id <$> ir_connections ir) → "" ∉ ce_key <$> ds_entities run →
  drift_analyze q b o mappings = Ok r → f ∈ dr_findings r → df_type f ∈ REMOVED → df_classification f = CONFIRMED →
  (∃ n origin, df_type f = COMPONENT_REMOVED ∧ df_baseline_id f = Some (n_id n) ∧ absent_node ir run mappings (dq_exclude q) n ∧
     discovered_from (n_provenance n) = Some origin ∧ read_completely run (dv_artifact origin)) ∨
  (∃ c origin, df_type f = CONNECTION_REMOVED ∧ df_baseline_id f = Some (c_id c) ∧ c ∈ ir_connections ir ∧
     discovered_from (c_provenance c) = Some origin ∧ read_completely run (dv_artifact origin) ∧
     matched_node ir run mappings (dq_exclude q) (c_source_id c) ∧ matched_node ir run mappings (dq_exclude q) (c_target_id c)).
Proof.
  intros ir run Hids Hcs Hne Hr Hf Ht Hc.
  destruct (reported_removal q b o mappings r f Hr Hf Ht) as (a & m & ds & d & Ha & _ & Hm & Hds & Hd & Hcl).
  destruct (classify_difference_type d a f Hcl) as [Hty Hb]. rewrite Hty in Ht.
  destruct (removal_read b o mappings a d Ha (confirmed_removal d a f Hcl Ht Hc)) as (artifact & Hart & Hread & Hn).
  destruct (removed_is ir run mappings (dq_exclude q) Hids Hcs Hne m ds d Hm Hds Hd Ht Hn) as [(n & Hk & Hbn & Habs & Hna)|(c & Hin & Hk & Hbc & Hca & Hs & Htg)].
  - left. rewrite Hna in Hart. destruct (discovered_from (n_provenance n)) as [origin|] eqn:Eo; [|done]. injection Hart as <-.
    exists n, origin. rewrite Hty, Hb. split_and!; done.
  - right. rewrite Hca in Hart. destruct (discovered_from (c_provenance c)) as [origin|] eqn:Eo; [|done]. injection Hart as <-.
    exists c, origin. rewrite Hty, Hb. split_and!; done.
Qed.

(** * The case the comparison does not survive *)
Lemma Node_new_parent a n : Node_new a = Ok n → of_opt_str (n_parent_id n) = na_parent_id a.
Proof.
  unfold Node_new; cbn zeta. intros (ps & _ & [_ Ht]%construct_ok)%py_bind_ok.
  apply Node_typed_args in Ht. by apply (f_equal na_parent_id) in Ht.
Qed.

(** A node alone, inside a boundary, is not an architecture. *)
Lemma only_node_nested n p ir : built Node_new Node_args n → n_parent_id n = Some p → only_node n ≠ Ok ir.
Proof.
  intros Hb Hp [_ Hps]%ArchitectureIR_new_inv. apply ArchitectureIR_new_iff in Hps; [|by repeat constructor].
  destruct Hps as (_ & _ & [_ Vp Va _ _ _ _ _]). cbn [aa_nodes] in Vp, Va.
  destruct (Vp n p) as (x & ->%list_elem_of_singleton & Hid & _); [left|done|].
  apply (Va (n_id n)). apply tc_once. exists n. split; [left|]. split; [done|]. by rewrite Hp, Hid.
Qed.

Lemma nested_not_compared n e method p n' d ds :
  n_parent_id n = Some p → stripped n = Ok n' → declared n' e = Ok d → node_differences n e method ≠ Ok ds.
Proof.
  intros Hp Hs Hd. unfold node_differences. rewrite Hs. cbn [mbind py_bind]. rewrite Hd.
  destruct d as [[after evidence] found]. intros (before & Hb & _)%py_bind_ok.
  pose proof (Node_new_parent _ _ Hs) as Hpar. cbn [stripped_args na_parent_id] in Hpar. rewrite Hp in Hpar.
  apply Node_new_ok in Hs as [_ Hbuilt]. destruct (n_parent_id n') as [p'|] eqn:E; [|done].
  by apply (only_node_nested n' p' before).
Qed.

(** What never answers raises. *)
Lemma raises_unless {A} (m : py A) : (∀ a, m ≠ Ok a) → ∃ err, m = Raise err.
Proof. intros H. destruct m as [a|err]; [by destruct (H a)|by exists err]. Qed.

(** C40: a baseline whose node stands inside a boundary is never compared with a run that has it: when the
    inputs are comparable (their assessment is not that they are incompatible), the node is the sole claimant
    of an entity, and the node as the source declares it fits (its constructor accepts it), the analysis
    raises, for the node is compared alone, where its parent does not exist. *)
Theorem nested_node_breaks q b o mappings a n p e k n' d :
  let ir := bi_ir b in
  let run := oi_result o in
  NoDup (n_id <$> ir_nodes ir) → assess b o mappings = Ok a → assessment_status a ≠ INCOMPATIBLE →
  sole_claimant (compared_entities run (dq_exclude q)) mappings (compared_nodes ir (dq_exclude q)) n k →
  dict_get k (index_by ce_key (ds_entities run)) = Some e → k ≠ "" → n_id n ≠ "" →
  n_parent_id n = Some p → stripped n = Ok n' → declared n' e = Ok d →
  ∃ err, drift_analyze q b o mappings = Raise err.
Proof.
  intros ir run Hids Ha Hs Hsole He Hk Hid Hp Hst Hd. apply raises_unless. intros r. unfold drift_analyze. rewrite Ha.
  cbn [mbind py_bind]. rewrite decide_False by exact Hs. intros (fs & Hfs & _)%py_bind_ok.
  apply py_bind_ok in Hfs as (m & Hm & (ds & Hds & _)%py_bind_ok). apply py_bind_ok in Hm as (ks & _ & [= <-]).
  unfold differences in Hds. cbv zeta in Hds. cbn [mt_nodes mt_connections] in Hds. apply py_bind_ok in Hds as (nodes & Hnodes & _).
  unfold node_match_all in Hnodes. destruct (py_map _ _) as [found|] eqn:E; [|done]. clear Hnodes.
  pose proof (compared_distinct ir (dq_exclude q) Hids) as Hnd.
  destruct (proj2 (matched_sole (compared_entities run (dq_exclude q)) mappings _ Hnd (n_id n) k)) as (x & Hx & Hb & Hkey);
    [by exists n|].
  assert (node_matched x = true) as Hmt by (apply (node_matched_both _ _ _ Hnd x Hx); split; by eexists).
  apply py_map_ok in E. apply list_elem_of_lookup in Hx as Hlk. destruct Hlk as [i Hlk].
  destruct (Forall2_lookup_l _ _ _ _ _ E Hlk) as (l & _ & Hl).
  unfold node_match_differences in Hl. cbv zeta in Hl.
  assert (looked_up (index_by n_id (ir_nodes ir)) (nm_baseline_id x) = Some n) as Hlook.
  { rewrite Hb. unfold looked_up, no_text. apply String.eqb_neq in Hid. rewrite Hid. cbn. apply index_by_get; [exact Hids|].
    split; [|done]. destruct Hsole as [[_ ?]%list_elem_of_filter _]. done. }
  assert (looked_up (index_by ce_key (ds_entities run)) (nm_discovered_key x) = Some e) as Hent.
  { rewrite Hkey. unfold looked_up, no_text. apply String.eqb_neq in Hk. rewrite Hk. exact He. }
  fold ir run in Hl. rewrite Hmt, Hlook, Hent in Hl. by eapply nested_not_compared.
Qed.

(** * A concrete case: the shop, and the same with a node inside a network *)
Definition shop_baseline (nodes : list Node) : BaselineInput := {|
  bi_ref := {| bs_architecture_id := "shop"; bs_revision_number := 1; bs_content_hash := ""; bs_schema_version := 1 |};
  bi_ir := shop_ir nodes; bi_created_at := 1%Z; bi_latest_revision := 1; bi_source := Some shop_run |}.
Definition shop_observed : ObservedInput := {|
  oi_ref := {| ob_discovery_run_id := "run"; ob_result_fingerprint := ""; ob_sources_fingerprint := "";
               ob_result_version := 1; ob_extractors := [] |};
  oi_result := shop_run; oi_requested_at := 2%Z |}.
Definition shop_request : DriftRequest := {|
  dq_architecture_id := "shop"; dq_baseline_revision := 1; dq_discovery_run_id := "run"; dq_policy := "default";
  dq_exclude := []; dq_label := None |}.

(** The finding about the node that is gone. *)
Definition shop_removed : option (DriftResult * DriftFinding) :=
  match drift_analyze shop_request (shop_baseline shop_before) shop_observed shop_mappings with
  | Ok r => f ← head (filter (λ f, df_type f = COMPONENT_REMOVED) (dr_findings r)); Some (r, f)
  | Raise _ => None
  end.

Lemma shop_removed_is : ∃ r f, drift_analyze shop_request (shop_baseline shop_before) shop_observed shop_mappings = Ok r ∧
  f ∈ dr_findings r ∧ df_type f = COMPONENT_REMOVED ∧ df_classification f = CONFIRMED ∧ df_baseline_id f = Some "worker".
Proof.
  assert ((λ p, (df_classification p.2, df_baseline_id p.2)) <$> shop_removed = Some (CONFIRMED, Some "worker")) as H
    by (vm_compute; reflexivity).
  unfold shop_removed in H. destruct (drift_analyze _ _ _ _) as [r|]; [|done].
  destruct (head _) as [f|] eqn:E; [|done]. cbn in H. injection H as Hc Hb. exists r, f.
  apply head_Some_elem_of in E. apply list_elem_of_filter in E as [Ht Hf]. exact (conj eq_refl (conj Hf (conj Ht (conj Hc Hb)))).
Qed.

Lemma removals_confirmed_witness : ∃ n, n_id n = "worker" ∧ absent_node (shop_ir shop_before) shop_run shop_mappings [] n.
Proof.
  destruct shop_removed_is as (r & f & Hr & Hf & Ht & Hc & Hb).
  destruct (removals_confirmed shop_request (shop_baseline shop_before) shop_observed shop_mappings r f) as
    [(n & origin & _ & Hn & Habs & _)|(c & origin & Hx & _)].
  - exact shop_distinct.
  - constructor.
  - vm_compute. intros H. repeat (apply elem_of_cons in H as [H|H]; [discriminate|]). by apply elem_of_nil in H.
  - exact Hr.
  - exact Hf.
  - rewrite Ht. left.
  - exact Hc.
  - exists n. rewrite Hb in Hn. injection Hn as <-. exact (conj eq_refl Habs).
  - rewrite Ht in Hx. discriminate.
Defined.

Definition shop_nested : list Node := [discovered_node "api" 0 (Some "vpc"); sample_node "vpc" BOUNDARY None].

Lemma nested_assessed : ∃ a, assess (shop_baseline shop_nested) shop_observed [] = Ok a ∧ assessment_status a ≠ INCOMPATIBLE.
Proof.
  assert (match assess (shop_baseline shop_nested) shop_observed [] with Ok a => assessment_status a = COMPATIBLE_WITH_WARNINGS | Raise _ => False end) as H
    by (vm_compute; reflexivity).
  destruct (assess _ _ _) as [a|]; [|done]. exists a. split; [reflexivity|]. rewrite H. discriminate.
Qed.

Lemma nested_declared : ∃ n' d, stripped (discovered_node "api" 0 (Some "vpc")) = Ok n' ∧ declared n' (workload "api" 0 3) = Ok d.
Proof.
  assert (match (n ← stripped (discovered_node "api" 0 (Some "vpc")); declared n (workload "api" 0 3)) with Ok _ => True | Raise _ => False end) as H
    by (vm_compute; exact I).
  destruct (stripped _) as [n'|]; [|done]. cbn [mbind py_bind] in H. destruct (declared n' _) as [d|] eqn:E; [|done].
  exists n', d. exact (conj eq_refl E).
Qed.

Lemma nested_node_breaks_witness : ∃ err, drift_analyze shop_request (shop_baseline shop_nested) shop_observed [] = Raise err.
Proof.
  destruct nested_assessed as (a & Ha & Hs). destruct nested_declared as (n' & d & Hn & Hd).
  apply (nested_node_breaks shop_request (shop_baseline shop_nested) shop_observed [] a
           (discovered_node "api" 0 (Some "vpc")) "vpc" (workload "api" 0 3) "api" n' d).
  - vm_compute. repeat constructor; set_solver.
  - exact Ha.
  - exact Hs.
  - split; [left|]. split; [by exists SAME_ID|]. intros x Hx [method Hc].
    assert (x = discovered_node "api" 0 (Some "vpc") ∨ x = sample_node "vpc" BOUNDARY None) as [-> | ->].
    { apply list_elem_of_filter in Hx as [_ Hx]. apply elem_of_cons in Hx as [Hx|Hx]; [by left|].
      apply list_elem_of_singleton in Hx. by right. }
    + reflexivity.
    + vm_compute in Hc. discriminate.
  - vm_compute. reflexivity.
  - discriminate.
  - discriminate.
  - reflexivity.
  - exact Hn.
  - exact Hd.
Defined.
